(* ===== verification/_CoqProject ===== *)
-Q . S2P
Prelude.v
CircuitBreaker.v
RateLimiter.v
PyStr.v
Retry.v
ErrorHandler.v
TextUtils.v
Deduplicator.v
Redis.v
Url.v
Frontier.v
Scheduler.v
Scraper.v
TaskManager.v
AuthService.v
PyVal.v
Mongo.v
Storage.v
ChatStore.v
QueryRecords.v
ChatRoutes.v
Relevance.v
PyConv.v
CrawlPipeline.v
Json.v
Thinking.v
Cache.v
ThinkingRoutes.v
PyRe.v
Quality.v
SeedManager.v
Models.v
MessageQueue.v
Language.v
Translator.v
Documents.v
Processing.v
AuthRoutes.v
Bm25.v
Reranker.v
Chunking.v
RagEngine.v
ResearchPrompts.v
Research.v
WebSearch.v
Ollama.v
ResearchRoutes.v
Nllb.v
TranslationService.v
CrawlRoutes.v
AuthAgent.v
Monitoring.v
TranslationRoutes.v
ClaudeRoutes.v
Html.v
Sources.v
Main.v
VectorStore.v
LocalScraper.v
Multimodal.v
LocalRoutes.v
ThinkingPrompts.v
