(* ===== verification/Prelude.v ===== *)
(** * Amor Distributed Artificial Intelligence System: verification library

    The program (src/document_processor) is an asynchronous Python service
    that crawls, processes and indexes documents, answers through language
    models, and keeps chats, queries and users.  This library models its
    reliability layer, its crawler and pipelines, its task manager, its
    authentication, its chat store with the routes over it, its relevance gate,
    its cache and its thinking engine with the routes that drive it, and proves
    what makes each of them correct; where the code does not do what it means
    to, the theorem says exactly what it does instead.

    ** Parts and files

    The language and the services the components share:

    - Prelude.v (this file): Python numbers ([int] is [Z], [float] an exact
      rational), [min]/[max], results with exceptions, counters, slices,
      invariants of runs, shared list facts, tactics and hint databases.
    - PyStr.v: the [str] operations the code uses, on ASCII strings.
    - PyVal.v, PyConv.v: dynamically typed values (JSON values and times), dicts
      in insertion order, [str], [int], [bool] and iteration on them.
    - Json.v: [json.dumps] and [json.loads], and that the second reads back
      what the first wrote.
    - Redis.v: the Redis commands the crawler sends, as the typeclass [Redis]
      with the laws [RedisLaws] against a reference keyspace.
    - Mongo.v: the MongoDB operations the stores send, as the typeclass [Mongo]
      with its laws; any operation may fail, before or after it was carried out,
      one on many documents after some of them, and times lose what is below a
      millisecond.
    - Storage.v: the connection of infrastructure/storage.py, its retries and
      the monad [io] of operations on a connected store.

    Reliability:

    - CircuitBreaker.v: reliability/circuit_breaker.py.  The lock-protected
      sections [enter], [on_success], [on_failure], [reset]; [call] composes
      them; [step] interleaves concurrent calls; the manager is a map.
    - RateLimiter.v: reliability/rate_limiter.py and [RateLimitTracker] of
      core/utils.py, one Module per class.
    - Retry.v: reliability/retry.py, [async_retry] of core/utils.py and
      [_write_with_retry] of infrastructure/chat_store.py.
    - ErrorHandler.v: reliability/error_handler.py, the dead letter queue.
    - TextUtils.v: the text and list helpers of core/utils.py.

    Crawling and processing:

    - Deduplicator.v: processing/deduplicator.py.  Modules [Dedup] (over the
      typeclass [BloomFilter], whose laws are those of pybloom_live) and
      [Similarity] (simhash, Hamming distance).
    - Url.v: [urlparse], the URL normal form and priorities of
      crawling/url_frontier.py.
    - Frontier.v: the Bloom filter in Redis and [DistributedURLFrontier].
    - Scheduler.v: crawling/scheduler.py, over the interface [UrlFrontier]
      that Frontier.v's operations implement ([frontier_impl_laws]).
    - Scraper.v: crawling/resilient_scraper.py, using CircuitBreaker.v.
    - CrawlPipeline.v: orchestration/pipeline.py, documents passing from stage
      to stage through queues and workers, with the default handlers (the
      fetch handler runs Scraper.v).
    - TaskManager.v: orchestration/task_manager.py.

    Users, chats and answers:

    - AuthService.v: auth/service.py; SQL statements are functions on tables.
    - ChatStore.v: sessions, messages and folders of
      infrastructure/chat_store.py; QueryRecords.v: its query records,
      api/_query_persistence.py and api/query_record_routes.py; ChatRoutes.v:
      api/chat_sessions_routes.py and api/chat_folders_routes.py.
    - Relevance.v: research/relevance.py, the gate between search and answer.
    - Cache.v: infrastructure/cache.py over the typeclass [RedisServer], whose
      commands take time and may fail.
    - Thinking.v: thinking/engine.py, the phases of a run over the replies of
      a language model, which are arbitrary text.
    - ThinkingRoutes.v: api/thinking_routes.py, the session that mirrors a run,
      its copies in the cache, its event stream and its query record.

    Documents and their translation:

    - PyRe.v: the regular expressions of [re] that the code uses.
    - Models.v: core/models.py.
    - Quality.v: processing/quality_checker.py.
    - Language.v: processing/language_detector.py.
    - Translator.v: processing/translator.py, each provider behind the breaker,
      limiter and retries of the reliability layer.
    - Documents.v: the documents of infrastructure/storage.py, a row in one
      database and the content in the other.
    - Processing.v: processing/pipeline.py, which composes Deduplicator.v and
      the five files above.
    - SeedManager.v: crawling/seed_manager.py over Frontier.v.
    - MessageQueue.v: infrastructure/queue.py over the typeclass [Kafka].

    Signing in, retrieval and research:

    - AuthRoutes.v: api/auth_routes.py and auth/dependencies.py over
      AuthService.v; JWT is an interface.
    - Bm25.v, Reranker.v, RagEngine.v: rag/rag_engine.py and rag/reranker.py.
    - ResearchPrompts.v, Research.v: research/advanced_researcher.py, whose
      gate is Relevance.v.
    - WebSearch.v, Ollama.v, ResearchRoutes.v: api/local_ai_routes_simple.py,
      what the pipeline calls, the client of the local model, the routes and
      the session of a run.
    - Nllb.v, TranslationService.v: local_ai/translation/nllb_translator.py and
      services/translation_service.py, which relies on the first through the
      typeclass [TextTranslator].
    - CrawlRoutes.v: api/crawling_routes.py over Frontier.v and SeedManager.v; the
      background task of a job is a step function, the objects of the jobs are
      kept apart from their table, since a task holds on to a deleted job.
    - AuthAgent.v: crawling/auth_agent.py, the sessions and the login forms.
    - Monitoring.v: infrastructure/monitoring.py; a method is the list of
      operations it makes on a Prometheus client, which is the typeclass
      [Prometheus] with the law [PrometheusLaws].
    - TranslationRoutes.v: api/translation_routes.py over TranslationService.v
      and Nllb.v.
    - ClaudeRoutes.v: api/chat_research_routes.py over the records of
      QueryRecords.v.
    - Sources.v: document_processor/sources, the generators the pipeline of
      Processing.v consumes; Main.v: document_processor/main.py over both.
    - Chunking.v, VectorStore.v: the chunks RagEngine.v and
      local_ai/vector_store/lancedb_store.py share, and the latter over the
      typeclass [LanceTable] with its laws [LanceLaws].
    - Html.v, LocalScraper.v: pages as trees; local_ai/scraping/web_scraper.py
      and local_ai/ollama_client.py.
    - Multimodal.v: processing/multimodal_processor.py.
    - LocalRoutes.v: local_ai/agents/research_crew.py and the older routes
      api/local_ai_routes.py over VectorStore.v and LocalScraper.v.
    - ThinkingPrompts.v: thinking/prompts.py with [textwrap.dedent], and the
      validation of thinking/models.py.

    ** How the code is represented

    A method is a function from the object's state (a Record with the
    attributes as fields) to its result and the new state; an exception is the
    [Err] of a [result], with the state it leaves behind.  Clock readings,
    random draws and what awaited code does are arguments, given per call or
    as a function of the reading's number.  Coroutines that interleave are
    split at their awaits: [step] of CircuitBreaker.v is a relation, [call_step]
    of Frontier.v one turn of a call of [get_next_url],
    [sys_step] of Scheduler.v and of CrawlPipeline.v functions on events;
    AuthService.v splits a rotation at its commits.  Third-party code and
    services are typeclasses with laws (Bloom filter, Redis, MongoDB, password
    hasher, date codec) or section variables (digests, the check of a
    bracketed host, the text of a float); each has a concrete instance, which
    the witnesses use.

    ** What the theorems show

    - Circuit breaker: counters and states stay consistent in every
      interleaving, the circuit opens at the threshold and closes after enough
      successes; how many test calls a half-open breaker admits, and that lost
      test calls wedge it.
    - Rate limiting: the token bucket's long-run bound, the limit of the
      sliding window and of the tracker in every window, the adaptive rate's
      range; the credit given twice after a wait.
    - Retry and errors: the exact calls, sleeps and result of every retry
      loop and their cost; which errors are retried; that failing messages are
      kept, and which entries the queue's retry removes.
    - Text: when chunking terminates and that it loses nothing.
    - Deduplication: the exact mode refines the specification "seen before";
      the filter mode never misses; simhash, Hamming distance and the
      pairwise dissimilarity of what is kept.
    - Crawling: which URLs share a normal form; a URL enters the queue once;
      queues agree; deliveries to a domain are spaced by the minimum delay in
      every run whose calls do not overlap, and not where they do; the URL
      handed out is the best one ready; polling ends.  The scheduler's
      domain records are consistent in every interleaving and so are its
      counts, except that a URL may be counted twice when the frontier raises;
      when URLs are lost, loops wedge and circuits stay open.
    - Pipeline: in every interleaving each submitted document is in a queue, in
      work, out or dropped, and the counters agree; it passes the stages in
      order; a pipeline whose workers keep running drains.
    - Tasks: stored tasks read back unchanged; every task ends, completed or
      failed, within its retries; cancelling does not stop a task, and a result
      that is no JSON value leaves its stored state running.
    - Authentication: the account locks at exactly the configured number of
      failures; a refresh token works once and its families are chains, in
      sequential histories; a race breaks this; the registration limit never
      applies.
    - Chats and queries: what is stored stays well typed; no operation reads or
      changes another caller's data; a message with an idempotency key is
      stored once however often the write is repeated, and is read back as it
      was sent, its time to the millisecond; records keep valid states and
      progress.
    - Relevance: the gate returns the best sources above the threshold, one per
      URL, within its cap, and passes everything on when it fails.
    - Cache: what is written as JSON is read back until it expires or the
      server fails; published events arrive decoded and in order.
    - Thinking: every run ends with each phase completed, failed or skipped,
      what it keeps is within its limits whatever the model wrote, and JSON is
      found in the prose around it; the session shows the engine's result,
      belongs to its owner, reaches other replicas, and its events reach the
      browser once; cancelling does not stop a run.
    - Processing: a translation is the answer of the first provider that gives
      one, and comes from the cache the second time; quality scores are within
      their range; the document of a run is made of the whole text it extracted
      and is the one stored, a failed run leaves a failed document and one more
      failure, the metrics add up in every order
      of events; the two databases agree and what was saved is found.  A source
      is never processed a second time, not even after a failure.
    - Seeds and queue: the seed counts agree with what the frontier accepted, a
      seed is offered once, sitemaps without a cycle load within their limit; a
      published message is in the log, messages are consumed in order.
    - Signing in: a request is authenticated only as the live user of a token
      the service signed; a login's access token works until it expires, its
      cookie until it expires or is revoked, whatever operations come between.
    - Retrieval: the BM25 scores are those of the formula, the index and the
      chunks agree, a search returns stored chunks that pass the filter, best
      first; chunks cover the text where every chunk advances, and the loop
      never ends on some texts.
    - Research: an uncancelled run ends with a titled report, a confidence
      within its range and citations that are numbered, distinct, within the
      budget and backed by findings; a search returns distinct pages without the
      marks of a list of results, scraping ends within its attempts; the session
      shows what the run has announced, whenever it is stopped, and then its
      result, its progress never falls, cancelling does not stop it;
      replies of the model are kept under unambiguous keys and reused.
    - Translation service: with the local model a batch has one result for
      every text, in order, and its jobs all end; requests one after another
      stay within the rate limits, requests in flight together do not; a batch
      of one text is the translation of that text.
    - Routes of the crawler: a job counts the pages its tasks counted, a running
      job has a task that is not over and completes; stopping it does not stop
      the task, a start with a seed fails and leaves a pending record.
    - Logging in: a session is never handed out after its end, one process reads
      what another saved, a login is used until it ends; the form is filled with
      the credentials; refusals that do not say so are taken for a login.
    - Metrics: every method passes the labels and values its metric takes, so it
      never raises; counters never fall, names are not exposed twice, a tracked
      operation is measured once however it ends.
    - Translation and chat routes: a batch answer's counts add up, a created job
      is found and is never taken from the queue; a chat request ends in a reply
      or one of the documented errors, and anybody may cancel it.
    - Sources and application: text files are cut without loss, JSON files are
      read item by item, PDF pages come in order, paged APIs are read to the
      last page, a web page yields its visible texts; sources that cannot be
      processed (scanned PDF files, bare lists, times in rows) are shown to fail;
      the application always shuts down, a processed document is served.
    - Local tools: a search of the vector store finds the nearest rows above the
      minimum (a filter expression is ignored), deleting undoes adding, some texts
      are chunked for ever; what robots.txt forbids in lower case under a single
      agent is not fetched, requests are spaced; recognised text has
      a confidence within its range, pages come in order, merging loses no text
      and no table.
    - Older local routes and prompts: in every interleaving a session has a result
      exactly if it is completed and a finished one stays; a run ends if its
      report can be cut; stopping does not stop a run, the history has no route
      that reaches it.  [dedent] undoes indentation; a request of one line
      reaches the model without a margin, one of more lines with it; a valid
      request has a budget and the answer of the analysis validates.

    ** Fuel

    [chunk_text] takes one unit per chunk and one more ([chunk_text_closed]),
    or none is enough ([chunk_text_terminates]).  [get_next_url] polls every
    tenth of a second: [10 * timeout + 2] units ([next_url_terminates]), 12
    for the scheduler's one second.  The Hamming loop clears one of 64 bits
    per turn: 65.  [execute] of TaskManager.v: one more than [max_retries]
    ([task_execution_ends]).  [json_loads] takes twice the length of its input
    and two more, since every turn consumes a character or descends once
    ([loads_dumps]).  [scan_loop] of Cache.v turns as often as the server
    answers a cursor other than 0, so its fuel is the caller's.  [load_from_sitemap] takes the depth of the tree of indexes and two more
    ([sitemap_load_bounded]; a cycle exceeds any).  [re_findall] takes one unit
    per character and one more, since every match moves on; [split_at] of
    RagEngine.v likewise.  [chunk_loop] of Chunking.v takes the length of the text
    and one more where every chunk advances ([chunks_cover]); where one does
    not, no fuel is enough ([long_sentence_never_chunked]).  [rest_pages] of
    Sources.v takes one unit per page ([rest_collects_pages]); no fuel is
    enough for an API that always promises more ([rest_may_not_end]).  All other
    recursion is structural.

    ** Not modelled

    Floating-point rounding, Unicode beyond ASCII, logging and metrics;
    connections and their failures outside Storage.v and Cache.v; TTL expiry in
    Redis.v (Cache.v has it); the Bloom filter's sizing formulas; JWT encoding;
    asyncio semaphores, except where their use matters (Scheduler.v); numbers of
    more than 4300 digits, which Python's [int] does not read; the nan that
    numpy answers for the similarity of a zero vector.
    The engine of Thinking.v does not look at its prompts: they are in
    ThinkingPrompts.v.  Of the repository's other parts, the settings, the
    classes of exceptions, browser automation, the web interface and scripts
    are left aside. *)

From stdpp Require Export base tactics numbers list gmap sets strings sorting relations.
From Stdlib Require Export QArith Qpower Lqa Qround.
From Stdlib Require Export Lia.

#[global] Open Scope Z_scope.

(** ** Python values

    A Python [int] is a [Z].  A Python [float] is an exact rational [Q]:
    comparison, [min] and [max] are the language's, arithmetic is exact. *)

Declare Scope py_scope.
Delimit Scope py_scope with py.

Definition Qltb (x y : Q) : bool := negb (Qle_bool y x).

Notation "x <=? y" := (Qle_bool x y) (at level 70) : py_scope.
Notation "x <? y" := (Qltb x y) (at level 70) : py_scope.
Notation "x >=? y" := (Qle_bool y x) (at level 70) : py_scope.
Notation "x >? y" := (Qltb y x) (at level 70) : py_scope.

(** [min(x, y)] and [max(x, y)]: the first argument wins a tie. *)
Definition py_min (x y : Q) : Q := if Qltb y x then y else x.
Definition py_max (x y : Q) : Q := if Qltb x y then y else x.

(** [int(x)] truncates towards zero. *)
Definition py_int (x : Q) : Z := Z.quot (Qnum x) (Zpos (Qden x)).

Lemma Qle_bool_reflect (x y : Q) : BoolSpec (x <= y)%Q (y < x)%Q (Qle_bool x y).
Proof.
  destruct (Qle_bool x y) eqn:E; constructor.
  - by apply Qle_bool_iff.
  - apply Qnot_le_lt. intros H%Qle_bool_iff. congruence.
Qed.

Lemma Qltb_reflect (x y : Q) : BoolSpec (x < y)%Q (y <= x)%Q (Qltb x y).
Proof. unfold Qltb. destruct (Qle_bool_reflect y x); by constructor. Qed.

(** Case analysis on every rational test of the goal or of a hypothesis. *)
Ltac qcases :=
  repeat match goal with
  | |- context [Qle_bool ?x ?y] => destruct (Qle_bool_reflect x y)
  | |- context [Qltb ?x ?y] => destruct (Qltb_reflect x y)
  | H : context [Qle_bool ?x ?y] |- _ => destruct (Qle_bool_reflect x y)
  | H : context [Qltb ?x ?y] |- _ => destruct (Qltb_reflect x y)
  end.

Lemma py_min_le_l x y : (py_min x y <= x)%Q.
Proof. unfold py_min. qcases; lra. Qed.
Lemma py_min_le_r x y : (py_min x y <= y)%Q.
Proof. unfold py_min. qcases; lra. Qed.
Lemma py_min_glb x y z : (z <= x)%Q -> (z <= y)%Q -> (z <= py_min x y)%Q.
Proof. unfold py_min. intros. qcases; lra. Qed.
Lemma py_max_ge_l x y : (x <= py_max x y)%Q.
Proof. unfold py_max. qcases; lra. Qed.
Lemma py_max_ge_r x y : (y <= py_max x y)%Q.
Proof. unfold py_max. qcases; lra. Qed.
Lemma py_max_lub x y z : (x <= z)%Q -> (y <= z)%Q -> (py_max x y <= z)%Q.
Proof. unfold py_max. intros. qcases; lra. Qed.

(** They respect equality of rationals, so that [rewrite] can use it below
    them. *)
#[export] Instance py_min_proper : Proper (Qeq ==> Qeq ==> Qeq) py_min.
Proof. intros x x' Hx y y' Hy. unfold py_min. qcases; lra. Qed.
#[export] Instance py_max_proper : Proper (Qeq ==> Qeq ==> Qeq) py_max.
Proof. intros x x' Hx y y' Hy. unfold py_max. qcases; lra. Qed.

(** [max(lo, min(hi, x))], the clamp idiom of the code base. *)
Lemma py_clamp_bounds lo hi x :
  (lo <= hi)%Q -> (lo <= py_max lo (py_min hi x) <= hi)%Q.
Proof.
  intros H. split; [apply py_max_ge_l|].
  apply py_max_lub; [done|apply py_min_le_l].
Qed.

Lemma py_clamp_id lo hi x :
  (lo <= x)%Q -> (x <= hi)%Q -> (py_max lo (py_min hi x) == x)%Q.
Proof. intros. unfold py_max, py_min. qcases; lra. Qed.

Create HintDb pyq.
#[export] Hint Resolve py_min_le_l py_min_le_r py_max_ge_l py_max_ge_r : pyq.

Lemma py_int_inject (z : Z) : py_int (inject_Z z) = z.
Proof. unfold py_int. simpl. apply Z.quot_1_r. Qed.

(** On non-negative rationals, [int] is the floor. *)
Lemma py_int_floor (x : Q) : (0 <= x)%Q -> py_int x = Qfloor x.
Proof.
  destruct x as [n d]. unfold Qle, py_int, Qfloor. simpl. intros H.
  apply Z.quot_div_nonneg; lia.
Qed.

(** ** Fallible code: a value or a raised error *)

Inductive result (E A : Type) : Type :=
| Ok (a : A)
| Err (e : E).
Arguments Ok {E A} a.
Arguments Err {E A} e.

Definition is_ok {E A} (r : result E A) : bool :=
  match r with Ok _ => true | Err _ => false end.

Definition rbind {E A B} (r : result E A) (k : A -> result E B) : result E B :=
  match r with Ok a => k a | Err e => Err e end.

Notation "x <-! c ; k" := (rbind c (fun x => k))
  (at level 60, c at next level, right associativity) : py_scope.

(** A Python exception: the class name and [str(e)]. *)
Record pyexn := PyExn { exn_type : string; exn_str : string }.

(** ** Dictionaries used as counters: [d[k] = d.get(k, 0) + n] *)

Section counters.
Context `{Countable K}.

Definition counter_get (k : K) (m : gmap K Z) : Z := default 0 (m !! k).

Definition counter_add (k : K) (n : Z) (m : gmap K Z) : gmap K Z :=
  <[k := counter_get k m + n]> m.

Lemma counter_get_add_eq k n m : counter_get k (counter_add k n m) = counter_get k m + n.
Proof. unfold counter_get at 1, counter_add. by rewrite lookup_insert_eq. Qed.

Lemma counter_get_add_ne k k' n m :
  k <> k' -> counter_get k' (counter_add k n m) = counter_get k' m.
Proof. intros. unfold counter_get, counter_add. by rewrite lookup_insert_ne. Qed.

Lemma counter_get_empty k : counter_get k ∅ = 0.
Proof. unfold counter_get. by rewrite lookup_empty. Qed.
End counters.

Create Rewrite HintDb counters.
#[export] Hint Rewrite @counter_get_add_eq @counter_get_empty : counters.

(** ** Reachability: an invariant of the steps is an invariant of the runs *)

Lemma rtc_invariant {A} (R : relation A) (I : A -> Prop) x y :
  (forall a b, R a b -> I a -> I b) -> rtc R x y -> I x -> I y.
Proof. intros Hstep Hrtc. induction Hrtc; eauto. Qed.

(** Folding a step over a list of events preserves an invariant. *)
Lemma foldl_invariant {S E} (f : S -> E -> S) (I : S -> Prop) (es : list E) s :
  (forall s e, e ∈ es -> I s -> I (f s e)) -> I s -> I (foldl f s es).
Proof.
  revert s. induction es as [|e es IH]; intros s Hf Hs; simpl; [done|].
  apply IH.
  - intros s' e' He'. apply Hf. by right.
  - apply Hf; [by left|done].
Qed.

(** ** Lists *)

Definition zlength {A} (l : list A) : Z := Z.of_nat (length l).

(** [l[a:b]]: a negative bound counts from the end, both are clipped. *)
Definition py_index (n i : Z) : Z := if i <? 0 then Z.max 0 (n + i) else Z.min i n.

Definition py_slice {A} (a b : Z) (l : list A) : list A :=
  drop (Z.to_nat (py_index (zlength l) a)) (take (Z.to_nat (py_index (zlength l) b)) l).

(** [l[:n]] *)
Definition py_take {A} (n : Z) (l : list A) : list A := py_slice 0 n l.

Lemma zlength_nil {A} : zlength (@nil A) = 0.
Proof. done. Qed.
Lemma zlength_cons {A} (x : A) l : zlength (x :: l) = zlength l + 1.
Proof. unfold zlength. simpl. lia. Qed.
Lemma zlength_app {A} (l k : list A) : zlength (l ++ k) = zlength l + zlength k.
Proof. unfold zlength. rewrite length_app. lia. Qed.
Lemma zlength_nonneg {A} (l : list A) : 0 <= zlength l.
Proof. unfold zlength. lia. Qed.

Lemma zlength_0 {A} (l : list A) : zlength l = 0 -> l = [].
Proof. unfold zlength. destruct l; simpl; [done|lia]. Qed.

Lemma py_slice_nonneg {A} a b (l : list A) :
  0 <= a -> 0 <= b -> py_slice a b l = drop (Z.to_nat a) (take (Z.to_nat b) l).
Proof.
  intros Ha Hb. unfold py_slice, py_index, zlength.
  destruct (Z.ltb_spec a 0), (Z.ltb_spec b 0); try lia.
  destruct (Z.le_gt_cases b (Z.of_nat (length l))) as [Hbl|Hbl].
  - rewrite (Z.min_l b) by lia. destruct (Z.le_gt_cases a (Z.of_nat (length l))).
    + by rewrite Z.min_l by lia.
    + rewrite Z.min_r by lia. rewrite !drop_ge; [done|rewrite length_take; lia..].
  - rewrite (Z.min_r b) by lia. rewrite Nat2Z.id, !take_ge by lia.
    destruct (Z.le_gt_cases a (Z.of_nat (length l))).
    + by rewrite Z.min_l by lia.
    + rewrite Z.min_r by lia. rewrite !drop_ge; [done|lia..].
Qed.

Lemma py_take_nonneg {A} n (l : list A) : 0 <= n -> py_take n l = take (Z.to_nat n) l.
Proof. intros. unfold py_take. by rewrite py_slice_nonneg. Qed.

Lemma length_py_slice {A} a b (l : list A) :
  0 <= a -> 0 <= b -> zlength (py_slice a b l) = Z.max 0 (Z.min b (zlength l) - a).
Proof. intros. rewrite py_slice_nonneg by done. unfold zlength. rewrite length_drop, length_take. lia. Qed.

Create Rewrite HintDb zlen.
#[export] Hint Rewrite @zlength_nil @zlength_cons @zlength_app : zlen.

Lemma length_filter_le {A} (P : A -> Prop) `{!forall x, Decision (P x)} (l : list A) :
  (length (filter P l) <= length l)%nat.
Proof.
  induction l as [|x l IH]; [done|].
  rewrite filter_cons. case_decide; simpl; lia.
Qed.

Lemma length_filter_fmap {A B} (f : A -> B) (P : B -> Prop) `{!forall x, Decision (P x)} l :
  length (filter P (f <$> l)) = length (filter (fun x => P (f x)) l).
Proof.
  induction l as [|x l IH]; [done|]. rewrite fmap_cons, !filter_cons.
  destruct (decide (P (f x))); simpl; by rewrite IH.
Qed.

(** [find] through an update that does not change the test. *)
Lemma find_map_stable {A} (p : A -> bool) (f : A -> A) (l : list A) :
  (forall x, p (f x) = p x) -> List.find p (map f l) = f <$> List.find p l.
Proof. intros H. induction l as [|x l IH]; simpl; [done|]. rewrite H. by destruct (p x). Qed.

Lemma find_app_l {A} (p : A -> bool) (l k : list A) x :
  List.find p l = Some x -> List.find p (l ++ k) = Some x.
Proof. induction l as [|y l IH]; simpl; [done|]. by destruct (p y). Qed.

Lemma last_replicate_S {A} n (x : A) : last (replicate (S n) x) = Some x.
Proof. induction n as [|n IH]; [done|]. exact IH. Qed.

(** Split a conjunction of hypotheses and goals, and close by arithmetic. *)
Ltac crush_arith := repeat (split || intros); simplify_eq/=; try lia; try lra; try done.

(** ** [sorted(l, key=key, reverse=True)]: stable, highest key first *)

Lemma sorted_take {A} (R : A -> A -> Prop) n l : StronglySorted R l -> StronglySorted R (take n l).
Proof. intros Hs. revert n. induction Hs as [|x l Hl IH Hx]; intros [|n]; simpl; constructor; [done|by apply Forall_take]. Qed.
Lemma sorted_filter {A} (R : A -> A -> Prop) (f : A -> bool) l : StronglySorted R l -> StronglySorted R (List.filter f l).
Proof.
  induction 1 as [|x l Hl IH Hx]; simpl; [constructor|]. destruct (f x); [|done]. constructor; [done|]. apply Forall_forall. intros y Hy.
  rewrite Forall_forall in Hx. apply Hx. apply list_elem_of_In in Hy. apply filter_In in Hy as [Hy _]. by apply list_elem_of_In.
Qed.

Section sort_desc.
Context {A : Type} (key : A -> Q).

Fixpoint insert_desc (x : A) (l : list A) : list A :=
  match l with
  | [] => [x]
  | y :: l' => if Qltb (key x) (key y) then y :: insert_desc x l' else x :: l
  end.
Definition sort_desc (l : list A) : list A := foldr insert_desc [] l.

Definition key_ge (x y : A) : Prop := (key y <= key x)%Q.

Lemma insert_desc_perm x l : insert_desc x l ≡ₚ x :: l.
Proof.
  induction l as [|y l IH]; simpl; [done|]. destruct (Qltb _ _); [|done].
  rewrite IH. apply Permutation_swap.
Qed.
Lemma sort_desc_perm l : sort_desc l ≡ₚ l.
Proof. induction l as [|x l IH]; simpl; [done|]. by rewrite insert_desc_perm, IH. Qed.

Lemma insert_desc_sorted x l : StronglySorted key_ge l -> StronglySorted key_ge (insert_desc x l).
Proof.
  unfold key_ge. induction 1 as [|y l Hl IH Hy]; simpl; [by repeat constructor|].
  destruct (Qltb_reflect (key x) (key y)).
  - constructor; [done|]. rewrite insert_desc_perm. constructor; [lra|done].
  - constructor; [by constructor|]. constructor; [lra|].
    eapply Forall_impl; [exact Hy|]. simpl. intros z Hz. lra.
Qed.
Lemma sort_desc_sorted l : StronglySorted key_ge (sort_desc l).
Proof. induction l as [|x l IH]; simpl; [constructor|by apply insert_desc_sorted]. Qed.

(** Entries of one key keep their order. *)
Lemma insert_desc_stable k x l : StronglySorted key_ge l ->
  List.filter (fun y => Qeq_bool (key y) k) (insert_desc x l)
  = List.filter (fun y => Qeq_bool (key y) k) (x :: l).
Proof.
  unfold key_ge. induction 1 as [|y l Hl IH Hy]; simpl; [done|].
  destruct (Qltb_reflect (key x) (key y)) as [Hlt|_]; [|done]. simpl. rewrite IH. simpl.
  destruct (Qeq_bool (key x) k) eqn:Ex, (Qeq_bool (key y) k) eqn:Ey; try done.
  apply Qeq_bool_eq in Ex, Ey. lra.
Qed.
Lemma sort_desc_stable k l :
  List.filter (fun y => Qeq_bool (key y) k) (sort_desc l) = List.filter (fun y => Qeq_bool (key y) k) l.
Proof.
  induction l as [|x l IH]; [done|]. change (sort_desc (x :: l)) with (insert_desc x (sort_desc l)).
  rewrite insert_desc_stable by apply sort_desc_sorted. simpl. by rewrite IH.
Qed.
End sort_desc.
