(* ===== verification/CircuitBreaker.v ===== *)
(** * Circuit breaker (document_processor/reliability/circuit_breaker.py)

    [CircuitBreaker] with the lock-protected sections of [call] as atomic
    steps ([enter], [on_success], [on_failure], [reset]); [call] composes
    them around the protected function.  [step] interleaves the sections of
    any number of concurrent calls, because the lock is not held while the
    protected function runs.  [CircuitBreakerManager] is a dict of breakers. *)

From S2P Require Import Prelude.

(** The three states of the enum. *)
Inductive CircuitState := CLOSED | OPEN | HALF_OPEN.

#[export] Instance CircuitState_eq_dec : EqDecision CircuitState.
Proof. solve_decision. Defined.

(** The constructor's arguments, fixed for the life of a breaker.
    [expected_exception e] is [isinstance(e, self.expected_exception)]. *)
Record cb_config := CBConfig {
  failure_threshold : Z;
  recovery_timeout : Z;
  expected_exception : pyexn -> bool;
  half_open_max_calls : Z }.

Record CircuitBreaker := CB {
  cfg : cb_config;
  failure_count : Z;
  success_count : Z;
  last_failure_time : option Q;
  state : CircuitState;
  half_open_calls : Z }.

Definition new_breaker (c : cb_config) : CircuitBreaker := CB c 0 0 None CLOSED 0.

(** What [call] raises by itself; an exception of the protected function is
    passed through as [FuncError]. *)
Inductive cb_error :=
| CircuitBreakerOpenError (service message : string)
| TypeError
| FuncError (e : pyexn).

(** The section of [call] under the lock, before the function runs.  [now]
    is the reading of [time.time()]. *)
Definition enter (func : string) (now : Q) (b : CircuitBreaker)
  : result cb_error unit * CircuitBreaker :=
  match state b with
  | OPEN =>
      match last_failure_time b with
      | None => (Err TypeError, b)
      | Some last =>
          if Qltb (inject_Z (recovery_timeout (cfg b))) (now - last)%Q
          then (Ok tt, CB (cfg b) (failure_count b) (success_count b)
                          (last_failure_time b) HALF_OPEN 0)
          else (Err (CircuitBreakerOpenError func
                       ("Circuit breaker open for " +:+ func)), b)
      end
  | HALF_OPEN =>
      if half_open_max_calls (cfg b) <=? half_open_calls b
      then (Err (CircuitBreakerOpenError func
                   ("Circuit breaker half-open limit reached for " +:+ func)), b)
      else (Ok tt, CB (cfg b) (failure_count b) (success_count b)
                      (last_failure_time b) HALF_OPEN (half_open_calls b + 1))
  | CLOSED => (Ok tt, b)
  end.

Definition on_success (b : CircuitBreaker) : CircuitBreaker :=
  let sc := success_count b + 1 in
  match state b with
  | HALF_OPEN =>
      if half_open_max_calls (cfg b) <=? sc
      then CB (cfg b) 0 sc (last_failure_time b) CLOSED 0
      else CB (cfg b) 0 sc (last_failure_time b) HALF_OPEN (half_open_calls b)
  | st => CB (cfg b) 0 sc (last_failure_time b) st (half_open_calls b)
  end.

Definition on_failure (now : Q) (b : CircuitBreaker) : CircuitBreaker :=
  let fc := failure_count b + 1 in
  match state b with
  | HALF_OPEN => CB (cfg b) fc 0 (Some now) OPEN (half_open_calls b)
  | st =>
      let st' := if failure_threshold (cfg b) <=? fc then OPEN else st in
      CB (cfg b) fc 0 (Some now) st' (half_open_calls b)
  end.

Definition reset (b : CircuitBreaker) : CircuitBreaker :=
  CB (cfg b) 0 0 (last_failure_time b) CLOSED 0.

Definition get_state (b : CircuitBreaker) : CircuitState := state b.

Definition state_value (s : CircuitState) : string :=
  match s with CLOSED => "closed" | OPEN => "open" | HALF_OPEN => "half_open" end.

Record breaker_stats := BreakerStats {
  bs_state : string;
  bs_failure_count : Z;
  bs_success_count : Z;
  bs_failure_threshold : Z;
  bs_recovery_timeout : Z }.

Definition get_stats (b : CircuitBreaker) : breaker_stats :=
  BreakerStats (state_value (state b)) (failure_count b) (success_count b)
    (failure_threshold (cfg b)) (recovery_timeout (cfg b)).

(** [call] when no other call interleaves.  [t1] is the clock at the entry
    check, [t2] the clock when a failure is recorded, [outcome] what the
    protected function does if it is run. *)
Definition call {A} (func : string) (t1 t2 : Q) (outcome : result pyexn A)
  (b : CircuitBreaker) : result cb_error A * CircuitBreaker :=
  match enter func t1 b with
  | (Err e, b') => (Err e, b')
  | (Ok _, b') =>
      match outcome with
      | Ok v => (Ok v, on_success b')
      | Err e =>
          (Err (FuncError e),
           if expected_exception (cfg b') e then on_failure t2 b' else b')
      end
  end.

(** ** Concurrent calls *)

(** A breaker with the number of admitted calls whose function has not
    returned yet. *)
Record cb_system := Sys { breaker : CircuitBreaker; in_flight : nat }.

Inductive step : relation cb_system :=
| step_enter func now b b' n :
    enter func now b = (Ok tt, b') -> step (Sys b n) (Sys b' (S n))
| step_reject func now b b' e n :
    enter func now b = (Err e, b') -> step (Sys b n) (Sys b' n)
| step_success b n :
    step (Sys b (S n)) (Sys (on_success b) n)
| step_failure now b n :
    step (Sys b (S n)) (Sys (on_failure now b) n)
| step_unexpected b n :
    (* an exception outside [expected_exception], a cancellation included *)
    step (Sys b (S n)) (Sys b n)
| step_reset b n :
    step (Sys b n) (Sys (reset b) n).

(** ** The manager *)

(** [CircuitBreakerManager.breakers]. *)
Abbreviation breakers := (gmap string CircuitBreaker).

(** [get_breaker] with the manager's defaults for the arguments it does not
    pass on ([half_open_max_calls] keeps the breaker's default, 3). *)
Definition get_breaker (name : string) (threshold timeout : Z)
  (expected : pyexn -> bool) (m : breakers) : CircuitBreaker * breakers :=
  match m !! name with
  | Some b => (b, m)
  | None =>
      let b := new_breaker (CBConfig threshold timeout expected 3) in
      (b, <[name := b]> m)
  end.

(** [CircuitBreakerManager.call]: default threshold 5, timeout 60, any
    [Exception] counted. *)
Definition manager_call {A} (is_exception : pyexn -> bool) (service func : string)
  (t1 t2 : Q) (outcome : result pyexn A) (m : breakers)
  : result cb_error A * breakers :=
  let '(b, m') := get_breaker service 5 60 is_exception m in
  let '(r, b') := call func t1 t2 outcome b in
  (r, <[service := b']> m').

Definition get_all_stats (m : breakers) : gmap string breaker_stats := get_stats <$> m.

Definition reset_all (m : breakers) : breakers := reset <$> m.

Implicit Types (func service other name : string) (now t lt : Q) (b : CircuitBreaker).

(** ** Invariant of every interleaving *)

Record cb_inv (b : CircuitBreaker) : Prop := {
  inv_failed : state b <> CLOSED -> is_Some (last_failure_time b);
  inv_calls : 0 <= half_open_calls b <= half_open_max_calls (cfg b);
  inv_fc : 0 <= failure_count b;
  inv_sc : 0 <= success_count b;
  inv_closed : state b = CLOSED -> failure_count b < failure_threshold (cfg b) }.

(** A sane configuration: at least one failure to open, no negative limit. *)
Definition cb_config_ok (c : cb_config) : Prop :=
  1 <= failure_threshold c /\ 0 <= half_open_max_calls c.

Ltac cb_cases :=
  repeat match goal with
  | |- context [Z.leb ?x ?y] => destruct (Z.leb_spec x y)
  | H : context [Z.leb ?x ?y] |- _ => destruct (Z.leb_spec x y)
  | H : context [match state ?b with _ => _ end] |- _ => destruct (state b) eqn:?
  | |- context [match state ?b with _ => _ end] => destruct (state b) eqn:?
  | H : context [match last_failure_time ?b with _ => _ end] |- _ =>
      destruct (last_failure_time b) eqn:?
  | H : context [Qltb ?x ?y] |- _ => destruct (Qltb_reflect x y)
  end; simplify_eq/=.

Ltac cb_close :=
  intros; solve [ lia | done | congruence | eauto
                | match goal with H : _ -> is_Some _ |- _ => apply H; congruence end
                | match goal with
                  | H : _ -> is_Some _, E : last_failure_time _ = _ |- _ =>
                      rewrite E; apply H; congruence
                  end
                | match goal with H : _ -> failure_count _ < _ |- _ => apply H; congruence end ].

Lemma new_breaker_inv c : cb_config_ok c -> cb_inv (new_breaker c).
Proof. intros []. split; simpl; lia || done. Qed.

Lemma enter_inv func now b r b' :
  cb_inv b -> enter func now b = (r, b') -> cb_inv b' /\ cfg b' = cfg b.
Proof.
  intros [If Ic Ifc Isc Icl] H. unfold enter in H.
  cb_cases; split; try done; split; simpl; cb_close.
Qed.

Lemma on_success_inv b : cb_config_ok (cfg b) -> cb_inv b ->
  cb_inv (on_success b) /\ cfg (on_success b) = cfg b.
Proof.
  intros [??] [If Ic Ifc Isc Icl]. unfold on_success.
  cb_cases; split; try done; split; simpl; cb_close.
Qed.

Lemma on_failure_inv now b : cb_inv b ->
  cb_inv (on_failure now b) /\ cfg (on_failure now b) = cfg b.
Proof.
  intros [If Ic Ifc Isc Icl]. unfold on_failure.
  cb_cases; split; try done; split; simpl; cb_close.
Qed.

Lemma reset_inv b : cb_config_ok (cfg b) -> cb_inv b ->
  cb_inv (reset b) /\ cfg (reset b) = cfg b.
Proof. intros [??] [If Ic Ifc Isc Icl]. split; [|done]. split; simpl; try lia; done. Qed.

Lemma step_inv c s s' : cb_config_ok c -> step s s' ->
  cb_inv (breaker s) /\ cfg (breaker s) = c -> cb_inv (breaker s') /\ cfg (breaker s') = c.
Proof.
  intros Hc Hst [Hi <-].
  destruct Hst; simpl in *; eauto using enter_inv, on_success_inv, on_failure_inv, reset_inv.
Qed.

(** In a state that satisfies the invariant the subtraction
    [time.time() - self.last_failure_time] is never applied to [None]. *)
Lemma enter_no_type_error func now b b' :
  cb_inv b -> enter func now b <> (Err TypeError, b').
Proof.
  intros [If _ _ _ _]. unfold enter. destruct (state b); try done.
  - destruct If as [l ->]; [done|]. by destruct Qltb.
  - by destruct Z.leb.
Qed.

(** ** Helper facts on runs of calls *)

Lemma enter_cfg func now b : cfg (enter func now b).2 = cfg b.
Proof. unfold enter. repeat case_match; done. Qed.

(** The number of calls let through by successive entry checks. *)
Fixpoint count_entered (func : string) (ts : list Q) (b : CircuitBreaker) : nat :=
  match ts with
  | [] => 0
  | t :: ts =>
      let '(r, b') := enter func t b in
      (if is_ok r then 1 else 0) + count_entered func ts b'
  end%nat.

Lemma count_entered_half func ts b :
  state b = HALF_OPEN -> half_open_calls b <= half_open_max_calls (cfg b) ->
  count_entered func ts b =
    Nat.min (length ts) (Z.to_nat (half_open_max_calls (cfg b) - half_open_calls b)).
Proof.
  revert b. induction ts as [|t ts IH]; intros b Hst Hle; [done|].
  cbn [count_entered length]. unfold enter. rewrite Hst.
  destruct (Z.leb_spec (half_open_max_calls (cfg b)) (half_open_calls b)); cbn [is_ok].
  - rewrite IH by done. lia.
  - rewrite IH; cbn [cfg half_open_calls state]; [lia|done|lia].
Qed.

(** Sequential calls that all succeed (or all fail) at the given times. *)
Definition calls_ok (func : string) (ts : list Q) (b : CircuitBreaker) : CircuitBreaker :=
  foldl (fun b t => (call func t t (Ok tt) b).2) b ts.

Definition calls_fail (func : string) (e : pyexn) (ts : list Q) (b : CircuitBreaker)
  : CircuitBreaker :=
  foldl (fun b t => (call func t t (@Err pyexn unit e) b).2) b ts.

Lemma call_fail_closed func t e b :
  state b = CLOSED -> expected_exception (cfg b) e = true ->
  (call func t t (@Err pyexn unit e) b).2 =
    CB (cfg b) (failure_count b + 1) 0 (Some t)
       (if failure_threshold (cfg b) <=? failure_count b + 1 then OPEN else CLOSED)
       (half_open_calls b).
Proof. intros Hst He. unfold call, enter. rewrite Hst. simpl. rewrite He.
  unfold on_failure. by rewrite Hst. Qed.

Lemma call_ok_half func t b :
  state b = HALF_OPEN -> half_open_calls b < half_open_max_calls (cfg b) ->
  (call func t t (@Ok pyexn unit tt) b).2 =
    if half_open_max_calls (cfg b) <=? success_count b + 1
    then CB (cfg b) 0 (success_count b + 1) (last_failure_time b) CLOSED 0
    else CB (cfg b) 0 (success_count b + 1) (last_failure_time b) HALF_OPEN
            (half_open_calls b + 1).
Proof.
  intros Hst Hlt. unfold call, enter. rewrite Hst.
  destruct (Z.leb_spec (half_open_max_calls (cfg b)) (half_open_calls b)); [lia|done].
Qed.

Lemma calls_fail_closed func e ts b :
  state b = CLOSED -> expected_exception (cfg b) e = true ->
  failure_count b + zlength ts <= failure_threshold (cfg b) ->
  failure_count b < failure_threshold (cfg b) ->
  let b' := calls_fail func e ts b in
  state b' = (if failure_count b + zlength ts <? failure_threshold (cfg b)
              then CLOSED else OPEN) /\
  failure_count b' = failure_count b + zlength ts /\ cfg b' = cfg b /\
  (ts <> [] -> last_failure_time b' = last ts /\ success_count b' = 0).
Proof.
  revert b. induction ts as [|t ts IH]; intros b Hst He Hle Hlt; simpl.
  - rewrite zlength_nil, Z.add_0_r, Hst.
    by destruct (Z.ltb_spec (failure_count b) (failure_threshold (cfg b))); [|lia].
  - rewrite zlength_cons in *. pose proof (zlength_nonneg ts).
    change (calls_fail func e (t :: ts) b)
      with (calls_fail func e ts (call func t t (@Err pyexn unit e) b).2).
    rewrite call_fail_closed by done.
    destruct (Z.leb_spec (failure_threshold (cfg b)) (failure_count b + 1)).
    + assert (zlength ts = 0) as Hz by lia. apply zlength_0 in Hz as ->. simpl.
      rewrite zlength_nil.
      by destruct (Z.ltb_spec (failure_count b + (0 + 1)) (failure_threshold (cfg b))); [lia|].
    + destruct (IH (CB (cfg b) (failure_count b + 1) 0 (Some t) CLOSED (half_open_calls b)))
        as (IH1 & IH2 & IH3 & IH4); simpl in *; try done; try lia.
      rewrite IH1, IH2, IH3.
      replace (failure_count b + 1 + zlength ts) with (failure_count b + (zlength ts + 1)) by lia.
      repeat split; try done; destruct ts; try done; by apply IH4.
Qed.

Lemma calls_ok_half func ts b :
  state b = HALF_OPEN -> half_open_calls b + 1 = success_count b ->
  success_count b + zlength ts <= half_open_max_calls (cfg b) ->
  success_count b < half_open_max_calls (cfg b) ->
  state (calls_ok func ts b) =
    if success_count b + zlength ts <? half_open_max_calls (cfg b) then HALF_OPEN else CLOSED.
Proof.
  revert b. induction ts as [|t ts IH]; intros b Hst He Hle Hlt; simpl.
  - rewrite zlength_nil, Z.add_0_r, Hst.
    by destruct (Z.ltb_spec (success_count b) (half_open_max_calls (cfg b))); [|lia].
  - rewrite zlength_cons in *. pose proof (zlength_nonneg ts).
    change (calls_ok func (t :: ts) b)
      with (calls_ok func ts (call func t t (@Ok pyexn unit tt) b).2).
    rewrite call_ok_half by (done || lia).
    destruct (Z.leb_spec (half_open_max_calls (cfg b)) (success_count b + 1)).
    + assert (zlength ts = 0) as Hz by lia. apply zlength_0 in Hz as ->. simpl.
      rewrite zlength_nil.
      by destruct (Z.ltb_spec (success_count b + (0 + 1)) (half_open_max_calls (cfg b))); [lia|].
    + rewrite IH; simpl; try done; try lia.
      by replace (success_count b + 1 + zlength ts) with (success_count b + (zlength ts + 1)) by lia.
Qed.

(** A sequential [call] is a run of the interleaving semantics. *)
Lemma call_steps {A} func t1 t2 (o : result pyexn A) b n :
  rtc step (Sys b n) (Sys (call func t1 t2 o b).2 n).
Proof.
  unfold call. destruct (enter func t1 b) as [[[]|e] b'] eqn:E.
  - eapply rtc_l; [by eapply step_enter|]. apply rtc_once.
    destruct o as [v|e]; [constructor|].
    simpl. case_match; constructor.
  - apply rtc_once. by eapply step_reject.
Qed.

Lemma calls_fail_steps func e ts b n :
  rtc step (Sys b n) (Sys (calls_fail func e ts b) n).
Proof.
  revert b. induction ts as [|t ts IH]; intros b; simpl; [done|].
  etrans; [apply (call_steps func t t (@Err pyexn unit e))|]. apply IH.
Qed.

(** Probe calls that are admitted and then end in an exception the breaker
    does not count use up the half-open budget. *)
Lemma probes_exhaust func t b k :
  state b = HALF_OPEN ->
  half_open_calls b + Z.of_nat k <= half_open_max_calls (cfg b) ->
  rtc step (Sys b 0)
    (Sys (CB (cfg b) (failure_count b) (success_count b) (last_failure_time b)
             HALF_OPEN (half_open_calls b + Z.of_nat k)) 0).
Proof.
  revert b. induction k as [|k IH]; intros b Hst Hle.
  - rewrite Z.add_0_r, <- Hst. by destruct b.
  - eapply rtc_l.
    { eapply (step_enter func t). unfold enter. rewrite Hst.
      destruct (Z.leb_spec (half_open_max_calls (cfg b)) (half_open_calls b)); [lia|done]. }
    eapply rtc_l; [apply step_unexpected|].
    etrans; [apply IH; simpl; [done|lia]|]. simpl.
    by replace (half_open_calls b + 1 + Z.of_nat k) with (half_open_calls b + Z.of_nat (S k)) by lia.
Qed.

Lemma enter_exhausted func t b :
  state b = HALF_OPEN -> half_open_max_calls (cfg b) <= half_open_calls b ->
  enter func t b =
    (Err (CircuitBreakerOpenError func
            ("Circuit breaker half-open limit reached for " +:+ func)), b).
Proof.
  intros Hst Hle. unfold enter. rewrite Hst.
  by destruct (Z.leb_spec (half_open_max_calls (cfg b)) (half_open_calls b)); [|lia].
Qed.

(** ** Properties *)

(** C2: in every interleaving of concurrent calls and manual resets, a
    breaker with a sane configuration keeps its counters in range, a closed
    breaker has fewer counted failures than the threshold, and an entry check
    never subtracts from a missing failure time. *)
Theorem breaker_safe (c : cb_config) (s : cb_system) :
  cb_config_ok c -> rtc step (Sys (new_breaker c) 0) s ->
  cb_inv (breaker s) /\
  (forall func now b', enter func now (breaker s) <> (Err TypeError, b')).
Proof.
  intros Hc Hrun.
  assert (cb_inv (breaker s) /\ cfg (breaker s) = c) as [Hi _].
  { eapply (rtc_invariant step (fun s => cb_inv (breaker s) /\ cfg (breaker s) = c));
      [intros; by eapply step_inv|done|]. split; [by apply new_breaker_inv|done]. }
  split; [done|]. intros. by apply enter_no_type_error.
Qed.

Definition default_config : cb_config := CBConfig 5 60 (fun _ => true) 3.

Lemma breaker_safe_witness :
  cb_inv (on_failure 1 (new_breaker default_config)) /\
  (forall func now b',
     enter func now (on_failure 1 (new_breaker default_config)) <> (Err TypeError, b')).
Proof.
  apply (breaker_safe default_config (Sys (on_failure 1 (new_breaker default_config)) 0)).
  - split; vm_compute; congruence.
  - eapply rtc_l; [eapply (step_enter "f" 0); reflexivity|].
    apply rtc_once, step_failure.
Defined.

(** The circuit opens at exactly the threshold-th consecutive counted
    failure: after fewer failing calls a fresh breaker is still closed, and
    once it is open a call within the recovery timeout is rejected without
    running the function and without changing the breaker. *)
Theorem opens_at_threshold (c : cb_config) func e (ts : list Q) :
  expected_exception c e = true -> 1 <= failure_threshold c ->
  zlength ts <= failure_threshold c ->
  let b := calls_fail func e ts (new_breaker c) in
  (zlength ts < failure_threshold c -> state b = CLOSED) /\
  (zlength ts = failure_threshold c ->
     state b = OPEN /\
     forall A t1 t2 (o : result pyexn A) lt, last ts = Some lt ->
       (t1 - lt <= inject_Z (recovery_timeout c))%Q ->
       call func t1 t2 o b =
         (Err (CircuitBreakerOpenError func ("Circuit breaker open for " +:+ func)), b)).
Proof.
  intros He Hth Hlen b.
  destruct (calls_fail_closed func e ts (new_breaker c)) as (Hst & Hfc & Hcfg & Hl); simpl; try done; try lia.
  fold b in Hst, Hfc, Hcfg, Hl. simpl in *. split.
  - intros Hlt. rewrite Hst. by destruct (Z.ltb_spec (0 + zlength ts) (failure_threshold c)); [|lia].
  - intros Heq. destruct (Z.ltb_spec (0 + zlength ts) (failure_threshold c)); [lia|].
    rewrite Hst. split; [done|]. intros A t1 t2 o lt Hlt Ht.
    destruct Hl as [Hl _]; [by intros ->|].
    unfold call, enter. rewrite Hst, Hl, Hlt, Hcfg.
    by destruct (Qltb_reflect (inject_Z (recovery_timeout c)) (t1 - lt)); [lra|].
Qed.

Lemma opens_at_threshold_witness :
  state (calls_fail "f" (PyExn "ValueError" "x") [1; 2; 3; 4; 5]%Q (new_breaker default_config)) = OPEN.
Proof.
  refine (proj1 (proj2 (opens_at_threshold default_config "f" (PyExn "ValueError" "x")
            [1; 2; 3; 4; 5]%Q _ _ _) _)); vm_compute; congruence.
Defined.

(** Once the recovery timeout has elapsed an open breaker lets calls
    probe the service, and while no probe has finished it admits
    [half_open_max_calls + 1] of them: the call that makes the transition is
    not counted against the documented maximum. *)
Theorem half_open_admissions (b : CircuitBreaker) func t (ts : list Q) lt :
  state b = OPEN -> last_failure_time b = Some lt ->
  (inject_Z (recovery_timeout (cfg b)) < t - lt)%Q ->
  0 <= half_open_max_calls (cfg b) ->
  count_entered func (t :: ts) b =
    Nat.min (S (length ts)) (Z.to_nat (half_open_max_calls (cfg b) + 1)).
Proof.
  intros Hst Hl Ht Hmax. cbn [count_entered]. unfold enter. rewrite Hst, Hl.
  destruct (Qltb_reflect (inject_Z (recovery_timeout (cfg b))) (t - lt)); [|lra].
  cbn [is_ok]. rewrite count_entered_half; cbn [cfg half_open_calls state]; [lia|done|done].
Qed.

Definition open_breaker : CircuitBreaker := CB default_config 5 0 (Some 0%Q) OPEN 0.

Lemma half_open_admissions_witness :
  count_entered "f" [61; 61; 61; 61; 61; 61]%Q open_breaker = 4%nat.
Proof.
  apply (half_open_admissions open_breaker "f" 61 [61; 61; 61; 61; 61]%Q 0);
    vm_compute; congruence.
Defined.

(** Recovery: from an open breaker whose timeout has elapsed, sequential
    successful calls close the circuit after exactly [half_open_max_calls]
    of them, and not earlier. *)
Theorem recovers_after_successes (b : CircuitBreaker) func t (ts : list Q) lt :
  state b = OPEN -> last_failure_time b = Some lt -> success_count b = 0 ->
  (inject_Z (recovery_timeout (cfg b)) < t - lt)%Q ->
  1 <= half_open_max_calls (cfg b) ->
  zlength (t :: ts) <= half_open_max_calls (cfg b) ->
  state (calls_ok func (t :: ts) b) =
    if zlength (t :: ts) <? half_open_max_calls (cfg b) then HALF_OPEN else CLOSED.
Proof.
  intros Hst Hl Hsc Ht Hmax Hlen. rewrite zlength_cons in *. pose proof (zlength_nonneg ts).
  assert ((call func t t (@Ok pyexn unit tt) b).2 =
          if half_open_max_calls (cfg b) <=? 1
          then CB (cfg b) 0 1 (Some lt) CLOSED 0
          else CB (cfg b) 0 1 (Some lt) HALF_OPEN 0) as Hfst.
  { unfold call, enter. rewrite Hst, Hl.
    destruct (Qltb_reflect (inject_Z (recovery_timeout (cfg b))) (t - lt)); [|lra].
    unfold on_success. simpl. by rewrite Hsc. }
  change (calls_ok func (t :: ts) b)
    with (calls_ok func ts (call func t t (@Ok pyexn unit tt) b).2). rewrite Hfst.
  destruct (Z.leb_spec (half_open_max_calls (cfg b)) 1).
  - assert (zlength ts = 0) as Hz by lia. apply zlength_0 in Hz as ->. simpl.
    rewrite zlength_nil. by destruct (Z.ltb_spec (0 + 1) (half_open_max_calls (cfg b))); [lia|].
  - rewrite calls_ok_half; simpl; try done; try lia. by rewrite (Z.add_comm 1).
Qed.

Lemma recovers_after_successes_witness :
  state (calls_ok "f" [61; 62; 63]%Q open_breaker) = CLOSED.
Proof.
  rewrite (recovers_after_successes open_breaker "f" 61 [62; 63]%Q 0);
    vm_compute; congruence.
Defined.

(** A half-open breaker can wedge: probes that end in exceptions outside
    [expected_exception] (a cancellation, for one) leave a reachable state
    with no call in flight in which every later call is rejected, at any time
    and for good; the recovery timeout is not consulted any more. *)
Theorem half_open_wedge (c : cb_config) (e : pyexn) :
  cb_config_ok c -> expected_exception c e = true ->
  exists b, rtc step (Sys (new_breaker c) 0) (Sys b 0) /\ state b = HALF_OPEN /\
    forall A func t1 t2 (o : result pyexn A),
      call func t1 t2 o b =
        (Err (CircuitBreakerOpenError func
                ("Circuit breaker half-open limit reached for " +:+ func)), b).
Proof.
  intros [Hth Hmax] He.
  set (ts := replicate (Z.to_nat (failure_threshold c)) 0%Q).
  assert (zlength ts = failure_threshold c) as Hlen
    by (unfold zlength, ts; rewrite length_replicate; lia).
  destruct (calls_fail_closed "f" e ts (new_breaker c)) as (Hst & _ & Hcfg & Hl); simpl; try done; try lia.
  set (b0 := calls_fail "f" e ts (new_breaker c)) in *. simpl in *.
  destruct (Z.ltb_spec (0 + zlength ts) (failure_threshold c)); [lia|].
  destruct Hl as [Hl _]; [intros ->; by rewrite zlength_nil in Hlen; lia|].
  set (b1 := CB c (failure_count b0) (success_count b0) (Some 0%Q) HALF_OPEN 0).
  exists (CB c (failure_count b0) (success_count b0) (Some 0%Q) HALF_OPEN (half_open_max_calls c)).
  split; [|split; [done|]].
  - etrans; [apply (calls_fail_steps "f" e ts)|]. fold b0.
    eapply rtc_l.
    { apply (step_enter "f" (inject_Z (recovery_timeout c) + 1) b0 b1). unfold enter.
      rewrite Hst, Hl, Hcfg. assert (last ts = Some 0%Q) as ->.
      { unfold ts. destruct (Z.to_nat (failure_threshold c)) as [|k] eqn:Ek; [lia|].
        apply last_replicate_S. }
      destruct (Qltb_reflect (inject_Z (recovery_timeout c)) (inject_Z (recovery_timeout c) + 1 - 0));
        [done|lra]. }
    eapply rtc_l; [apply step_unexpected|].
    etrans; [apply (probes_exhaust "f" 0 b1 (Z.to_nat (half_open_max_calls c))); simpl; [done|lia]|].
    simpl. rewrite Z2Nat.id by lia. done.
  - intros. unfold call. by rewrite enter_exhausted by (simpl; done || lia).
Qed.

Lemma half_open_wedge_witness :
  exists b, rtc step (Sys (new_breaker default_config) 0) (Sys b 0) /\ state b = HALF_OPEN /\
    forall A func t1 t2 (o : result pyexn A),
      call func t1 t2 o b =
        (Err (CircuitBreakerOpenError func
                ("Circuit breaker half-open limit reached for " +:+ func)), b).
Proof.
  apply (half_open_wedge default_config (PyExn "ValueError" "x")); [|reflexivity].
  split; vm_compute; congruence.
Defined.

(** The manager isolates services: a call for one service is exactly a
    call on that service's breaker and leaves every other breaker as it was;
    asking for a breaker again returns the one in use, whatever the
    arguments. *)
Theorem manager_isolation {A} is_exc service other func t1 t2 (o : result pyexn A)
  (m : breakers) thr tmo ex :
  let '(r, m') := manager_call is_exc service func t1 t2 o m in
  let b := (get_breaker service 5 60 is_exc m).1 in
  r = (call func t1 t2 o b).1 /\
  m' !! service = Some (call func t1 t2 o b).2 /\
  (other <> service -> m' !! other = m !! other) /\
  get_breaker service thr tmo ex m' = ((call func t1 t2 o b).2, m').
Proof.
  unfold manager_call.
  destruct (get_breaker service 5 60 is_exc m) as [b m1] eqn:Eg.
  destruct (call func t1 t2 o b) as [r b'] eqn:Ec. simpl. rewrite Ec.
  repeat split.
  - by rewrite lookup_insert_eq.
  - intros Hne. rewrite lookup_insert_ne by done.
    unfold get_breaker in Eg. case_match; simplify_eq; [done|by rewrite lookup_insert_ne].
  - unfold get_breaker. by rewrite lookup_insert_eq.
Qed.
