(* ===== verification/RateLimiter.v ===== *)
(** * Rate limiters

    document_processor/reliability/rate_limiter.py and the
    [RateLimitTracker] of document_processor/core/utils.py.

    Readings of [time.time()] are arguments.  The body of each [acquire]
    holds the limiter's lock, sleeps included, so one call is one step; what
    it returns is the time it slept. *)

From S2P Require Import Prelude.

(** Errors the limiters can raise by themselves. *)
Inductive limiter_error := ZeroDivisionError | IndexError | AttributeError.

(** ** Token bucket *)

Module TokenBucket.

Record TokenBucketRateLimiter := Bucket {
  rate : Z;
  period : Z;
  tokens : Q;
  last_update : Q }.

Definition init (rate period : Z) (now : Q) : TokenBucketRateLimiter :=
  Bucket rate period (inject_Z rate) now.

(** [min(self.rate, self.tokens + (elapsed * self.rate / self.period))],
    for a non-zero period. *)
Definition refilled (now : Q) (b : TokenBucketRateLimiter) : Q :=
  py_min (inject_Z (rate b))
    (tokens b + ((now - last_update b) * inject_Z (rate b) / inject_Z (period b)))%Q.

(** [acquire]: the result is the time slept under the lock. *)
Definition acquire (n now : Q) (b : TokenBucketRateLimiter)
  : result limiter_error Q * TokenBucketRateLimiter :=
  if period b =? 0 then (Err ZeroDivisionError, b)
  else
    let tk := refilled now b in
    let b1 := Bucket (rate b) (period b) tk now in
    if Qltb tk n then
      if rate b =? 0 then (Err ZeroDivisionError, b1)
      else (Ok ((n - tk) * inject_Z (period b) / inject_Z (rate b))%Q,
            Bucket (rate b) (period b) 0 now)
    else (Ok 0%Q, Bucket (rate b) (period b) (tk - n)%Q now).

Definition get_available_tokens (now : Q) (b : TokenBucketRateLimiter)
  : result limiter_error Q :=
  if period b =? 0 then Err ZeroDivisionError else Ok (refilled now b).

End TokenBucket.

(** ** Sliding window *)

Module SlidingWindow.

Record SlidingWindowRateLimiter := Window {
  max_requests : Z;
  window_seconds : Z;
  requests : list Q }.

Definition init (max_requests window_seconds : Z) : SlidingWindowRateLimiter :=
  Window max_requests window_seconds [].

(** [while self.requests and self.requests[0] < cutoff: popleft()] *)
Fixpoint popleft_before (cutoff : Q) (l : list Q) : list Q :=
  match l with
  | r :: l' => if Qltb r cutoff then popleft_before cutoff l' else l
  | [] => []
  end.

(** [acquire]: [wake] is the clock read after the sleep, when there is one.
    The time recorded is the one read on entry. *)
Definition acquire (now wake : Q) (w : SlidingWindowRateLimiter)
  : result limiter_error Q * SlidingWindowRateLimiter :=
  let win := inject_Z (window_seconds w) in
  let kept := popleft_before (now - win)%Q (requests w) in
  if max_requests w <=? zlength kept then
    match kept with
    | [] => (Err IndexError, Window (max_requests w) (window_seconds w) kept)
    | oldest :: _ =>
        (Ok (oldest + win - now)%Q,
         Window (max_requests w) (window_seconds w)
           (popleft_before (wake - win)%Q kept ++ [now]))
    end
  else (Ok 0%Q, Window (max_requests w) (window_seconds w) (kept ++ [now])).

Definition get_current_usage (now : Q) (w : SlidingWindowRateLimiter) : Z :=
  zlength (List.filter (fun r => Qle_bool (now - inject_Z (window_seconds w)) r)
             (requests w)).

(** [MultiLevelRateLimiter]: one window per entry of [limits], acquired in
    order; the clock readings of each acquire are given. *)
Definition multi_init (limits : list (Z * Z)) : list SlidingWindowRateLimiter :=
  map (fun '(per, mx) => init mx per) limits.

Fixpoint multi_aenter (clock : nat -> Q * Q) (ws : list SlidingWindowRateLimiter)
  : result limiter_error unit * list SlidingWindowRateLimiter :=
  match ws with
  | [] => (Ok tt, [])
  | w :: ws' =>
      let '(now, wake) := clock 0%nat in
      match acquire now wake w with
      | (Err e, w') => (Err e, w' :: ws')
      | (Ok _, w') =>
          let '(r, ws'') := multi_aenter (fun i => clock (S i)) ws' in (r, w' :: ws'')
      end
  end.

End SlidingWindow.

(** ** Adaptive limiter *)

Module Adaptive.

Record AdaptiveRateLimiter := Limiter {
  current_rate : Z;
  min_rate : Z;
  max_rate : Z;
  period : Z;
  limiter : TokenBucket.TokenBucketRateLimiter;
  success_count : Z;
  failure_count : Z }.

Definition init (initial_rate min_rate max_rate period : Z) (now : Q) : AdaptiveRateLimiter :=
  Limiter initial_rate min_rate max_rate period
    (TokenBucket.init initial_rate period now) 0 0.

(** [self.limiter.acquire()] of [__aenter__]. *)
Definition aenter (now : Q) (a : AdaptiveRateLimiter)
  : result limiter_error Q * AdaptiveRateLimiter :=
  let '(r, b) := TokenBucket.acquire 1 now (limiter a) in
  (r, Limiter (current_rate a) (min_rate a) (max_rate a) (period a) b
        (success_count a) (failure_count a)).

Definition record_success (now : Q) (a : AdaptiveRateLimiter) : AdaptiveRateLimiter :=
  let sc := success_count a + 1 in
  if (10 <=? sc) && (current_rate a <? max_rate a) then
    let r := Z.min (max_rate a) (py_int (inject_Z (current_rate a) * (11 # 10))) in
    Limiter r (min_rate a) (max_rate a) (period a)
      (TokenBucket.init r (period a) now) 0 (failure_count a)
  else
    Limiter (current_rate a) (min_rate a) (max_rate a) (period a) (limiter a)
      sc (failure_count a).

Definition record_failure (now : Q) (a : AdaptiveRateLimiter) : AdaptiveRateLimiter :=
  let fc := failure_count a + 1 in
  if (3 <=? fc) && (min_rate a <? current_rate a) then
    let r := Z.max (min_rate a) (py_int (inject_Z (current_rate a) * (1 # 2))) in
    Limiter r (min_rate a) (max_rate a) (period a)
      (TokenBucket.init r (period a) now) 0 0
  else
    Limiter (current_rate a) (min_rate a) (max_rate a) (period a) (limiter a) 0 fc.

(** [__aexit__]: [failed] is [exc_type is not None]. *)
Definition aexit (failed : bool) (now : Q) (a : AdaptiveRateLimiter) : AdaptiveRateLimiter :=
  if failed then record_failure now a else record_success now a.

End Adaptive.

(** ** The [RateLimiter] wrapper *)

Module Wrapper.

Inductive inner :=
| IBucket (b : TokenBucket.TokenBucketRateLimiter)
| IAdaptive (a : Adaptive.AdaptiveRateLimiter).

Record RateLimiter := RL { requests_per_minute : Z; limiter : inner }.

Definition init (rpm : Z) (burst_multiplier : Q) (adaptive : bool) (now : Q) : RateLimiter :=
  let max_rate := py_int (inject_Z rpm * burst_multiplier) in
  if adaptive
  then RL rpm (IAdaptive (Adaptive.init rpm (Z.max 1 (rpm / 10)) max_rate 60 now))
  else RL rpm (IBucket (TokenBucket.init rpm 60 now)).

(** [await self.limiter.acquire()]: [AdaptiveRateLimiter] defines no
    [acquire], so the attribute lookup fails. *)
Definition aenter (now : Q) (r : RateLimiter) : result limiter_error Q * RateLimiter :=
  match limiter r with
  | IBucket b =>
      let '(res, b') := TokenBucket.acquire 1 now b in
      (res, RL (requests_per_minute r) (IBucket b'))
  | IAdaptive _ => (Err AttributeError, r)
  end.

(** [__aexit__] forwards to the inner limiter; the token bucket's does nothing. *)
Definition aexit (failed : bool) (now : Q) (r : RateLimiter) : RateLimiter :=
  match limiter r with
  | IBucket _ => r
  | IAdaptive a => RL (requests_per_minute r) (IAdaptive (Adaptive.aexit failed now a))
  end.

End Wrapper.

(** ** [RateLimitTracker] (core/utils.py) *)

Module Tracker.

Record RateLimitTracker := Tracker {
  max_requests : Z;
  time_window : Z;
  requests : list Q }.

Definition init (max_requests time_window : Z) : RateLimitTracker :=
  Tracker max_requests time_window [].

Definition can_proceed (now : Q) (t : RateLimitTracker) : bool * RateLimitTracker :=
  let cutoff := (now - inject_Z (time_window t))%Q in
  let kept := List.filter (fun r => Qltb cutoff r) (requests t) in
  if zlength kept <? max_requests t
  then (true, Tracker (max_requests t) (time_window t) (kept ++ [now]))
  else (false, Tracker (max_requests t) (time_window t) kept).

Definition time_until_available (now : Q) (t : RateLimitTracker) : Q :=
  match requests t with
  | [] => 0
  | r :: rs =>
      let available_at := (foldl py_min r rs + inject_Z (time_window t))%Q in
      if Qle_bool available_at now then 0 else (available_at - now)%Q
  end.

End Tracker.

(** ** Token bucket: lemmas *)

Section bucket.
Import TokenBucket.
Implicit Types (b : TokenBucketRateLimiter) (n now t : Q).

(** A limiter as the code base builds it: positive rate and period, and a
    fill between empty and full. *)
Definition bucket_ok b : Prop :=
  0 < rate b /\ 0 < period b /\ (0 <= tokens b <= inject_Z (rate b))%Q.

(** Tokens earned per second. *)
Definition speed b : Q := (inject_Z (rate b) / inject_Z (period b))%Q.

Lemma inject_Z_pos z : 0 < z -> (0 < inject_Z z)%Q.
Proof. intros. unfold Qlt. simpl. lia. Qed.

Lemma speed_pos b : bucket_ok b -> (0 < speed b)%Q.
Proof.
  intros (Hr & Hp & _). unfold speed, Qdiv.
  apply Qmult_lt_0_compat; [by apply inject_Z_pos|by apply Qinv_lt_0_compat, inject_Z_pos].
Qed.

Lemma refilled_eq now b :
  (refilled now b ==
   py_min (inject_Z (rate b)) (tokens b + (now - last_update b) * speed b))%Q.
Proof.
  unfold refilled, speed, py_min.
  assert ((now - last_update b) * inject_Z (rate b) / inject_Z (period b) ==
          (now - last_update b) * (inject_Z (rate b) / inject_Z (period b)))%Q as E
    by (unfold Qdiv; ring).
  qcases; lra.
Qed.

Lemma refilled_bounds now b :
  bucket_ok b -> (last_update b <= now)%Q ->
  (tokens b <= refilled now b <= inject_Z (rate b))%Q /\
  (refilled now b <= tokens b + (now - last_update b) * speed b)%Q.
Proof.
  intros Hb Ht. pose proof (speed_pos _ Hb) as Hs. destruct Hb as (Hr & Hp & Htk & Htk').
  assert (0 <= (now - last_update b) * speed b)%Q by (apply Qmult_le_0_compat; lra).
  rewrite !refilled_eq. unfold py_min. qcases; lra.
Qed.

(** What one [acquire] does on a well-formed limiter. *)
Lemma acquire_spec n now b :
  bucket_ok b -> (last_update b <= now)%Q -> (0 <= n)%Q ->
  exists w b', acquire n now b = (Ok w, b') /\ bucket_ok b' /\
    rate b' = rate b /\ period b' = period b /\ last_update b' = now /\
    (0 <= w)%Q /\ (w * speed b == py_max 0 (n - refilled now b))%Q /\
    (w == 0 -> tokens b' == refilled now b - n)%Q /\ (0 < w -> tokens b' == 0)%Q.
Proof.
  intros Hb Ht Hn. pose proof (refilled_bounds _ _ Hb Ht) as [[Hlo Hhi] _].
  pose proof (speed_pos _ Hb) as Hs. destruct Hb as (Hr & Hp & Htk & Htk').
  pose proof (inject_Z_pos _ Hr) as Hr'. pose proof (inject_Z_pos _ Hp) as Hp'.
  unfold acquire. destruct (Z.eqb_spec (period b) 0); [lia|].
  destruct (Qltb_reflect (refilled now b) n) as [Hlt|Hge].
  - destruct (Z.eqb_spec (rate b) 0); [lia|]. eexists _, _. split; [done|].
    assert ((n - refilled now b) * inject_Z (period b) / inject_Z (rate b) * speed b
            == n - refilled now b)%Q as Hw
      by (unfold speed; field; split; lra).
    assert (0 < (n - refilled now b) * inject_Z (period b) / inject_Z (rate b))%Q as Hpos.
    { unfold Qdiv. apply Qmult_lt_0_compat; [apply Qmult_lt_0_compat; lra|].
      by apply Qinv_lt_0_compat. }
    repeat split; simpl; try done; try lra.
    rewrite Hw. unfold py_max. qcases; lra.
  - eexists _, _. split; [done|]. repeat split; simpl; try done; try lra.
    unfold py_max. qcases; lra.
Qed.

(** Requests that are all served without waiting. *)
Fixpoint served_at_once (l : list (Q * Q)) b : bool :=
  match l with
  | [] => true
  | (n, now) :: l' =>
      match acquire n now b with
      | (Ok w, b') => Qle_bool w 0 && served_at_once l' b'
      | (Err _, _) => false
      end
  end.

(** Amounts are not negative and the clock does not run backwards. *)
Fixpoint requests_ok (t : Q) (l : list (Q * Q)) : Prop :=
  match l with
  | [] => True
  | (n, now) :: l' => (0 <= n)%Q /\ (t <= now)%Q /\ requests_ok now l'
  end.

Definition total (l : list (Q * Q)) : Q := foldr (fun r acc => r.1 + acc)%Q 0%Q l.
Definition end_time (t : Q) (l : list (Q * Q)) : Q := default t (snd <$> last l).

Lemma end_time_cons t n now l : end_time t ((n, now) :: l) = end_time now l.
Proof. unfold end_time. rewrite last_cons. by destruct (last l). Qed.

Lemma served_bound l b :
  bucket_ok b -> requests_ok (last_update b) l -> served_at_once l b = true ->
  (total l <= tokens b + (end_time (last_update b) l - last_update b) * speed b)%Q.
Proof.
  revert b. induction l as [|[n now] l IH]; intros b Hb Hok Hserved.
  - unfold end_time. simpl. destruct Hb as (_ & _ & ?). lra.
  - destruct Hok as (Hn & Ht & Hok). simpl in Hserved.
    destruct (acquire_spec n now b Hb Ht Hn)
      as (w & b' & E & Hb' & Hr & Hp & Hl & Hw & _ & Htk & _).
    rewrite E in Hserved. apply andb_prop in Hserved as [Hw0 Hserved].
    apply Qle_bool_iff in Hw0. pose proof (refilled_bounds _ _ Hb Ht) as [_ Hup].
    rewrite <- Hl in Hok. specialize (IH b' Hb' Hok Hserved).
    assert (speed b' = speed b) as Hsp by (unfold speed; by rewrite Hr, Hp).
    rewrite Hsp, Hl in IH. rewrite end_time_cons. change (total ((n, now) :: l)) with (n + total l)%Q.
    assert (w == 0)%Q as Hweq by lra. specialize (Htk Hweq). lra.
Qed.
End bucket.

(** ** [RateLimitTracker]: lemmas *)

Section tracker.
Import Tracker.

(** A clock that does not run backwards from [t0] on. *)
Fixpoint clock_ok (t0 : Q) (ts : list Q) : Prop :=
  match ts with
  | [] => True
  | t :: ts' => (t0 <= t)%Q /\ clock_ok t ts'
  end.

(** Ask at each time of [ts]; collect the times at which the answer was yes. *)
Definition track (st : RateLimitTracker * list Q) (ts : list Q)
  : RateLimitTracker * list Q :=
  foldl (fun '(tr, grants) now =>
           let '(ok, tr') := can_proceed now tr in
           (tr', if ok then grants ++ [now] else grants)) st ts.

(** The grants in the window of length [w] that ends at [T]. *)
Definition in_window (T : Q) (w : Z) (grants : list Q) : list Q :=
  List.filter (fun g => Qltb (T - inject_Z w) g && Qle_bool g T) grants.

(** What a run of the tracker maintains. *)
Definition track_inv (mx w : Z) (t0 : Q) (st : RateLimitTracker * list Q) : Prop :=
  let '(tr, grants) := st in
  max_requests tr = mx /\ time_window tr = w /\
  Forall (fun g => g <= t0)%Q grants /\
  requests tr = List.filter (fun g => Qltb (t0 - inject_Z w) g) grants /\
  zlength (requests tr) <= mx /\
  (forall T, zlength (in_window T w grants) <= mx).

Lemma filter_narrow (a b : Q) (l : list Q) : (a <= b)%Q ->
  List.filter (fun g => Qltb b g) (List.filter (fun g => Qltb a g) l) =
  List.filter (fun g => Qltb b g) l.
Proof.
  intros Hab. induction l as [|x l IH]; simpl; [done|].
  destruct (Qltb_reflect a x); simpl; destruct (Qltb_reflect b x); rewrite ?IH; done || lra.
Qed.

Lemma zlength_filter_le {A} (f g : A -> bool) (l : list A) :
  (forall x, x ∈ l -> f x = true -> g x = true) ->
  zlength (List.filter f l) <= zlength (List.filter g l).
Proof.
  induction l as [|x l IH]; intros H; simpl; [done|].
  pose proof (IH (fun y Hy => H y (list_elem_of_further _ _ _ Hy))).
  pose proof (H x (list_elem_of_here _ _)).
  destruct (f x); simpl.
  - rewrite H1 by done. rewrite !zlength_cons. lia.
  - destruct (g x); rewrite ?zlength_cons; lia.
Qed.

(** Every grant of a window that ends at or after the newest grant is still
    on the tracker's list. *)
Lemma in_window_kept t0 w T (l : list Q) :
  (t0 <= T)%Q ->
  zlength (in_window T w l) <= zlength (List.filter (fun g => Qltb (t0 - inject_Z w) g) l).
Proof.
  intros Ht. apply zlength_filter_le. intros x _ [Hx _]%andb_prop. revert Hx.
  qcases; try done. lra.
Qed.

Lemma in_window_snoc_later T w t l :
  (T < t)%Q -> in_window T w (l ++ [t]) = in_window T w l.
Proof.
  intros. unfold in_window. rewrite List.filter_app. simpl.
  destruct (Qle_bool_reflect t T); [lra|]. by rewrite andb_false_r, app_nil_r.
Qed.

Lemma track_step mx w t0 st t :
  0 <= mx -> 0 < w -> (t0 <= t)%Q -> track_inv mx w t0 st -> track_inv mx w t (track st [t]).
Proof.
  destruct st as [tr grants]. intros Hmx Hw Ht (Em & Ew & Hg & Hr & Hlen & Hwin).
  apply inject_Z_pos in Hw.
  assert (Forall (fun g => g <= t)%Q grants) as Hg'
    by (eapply Forall_impl; [exact Hg|simpl; intros; lra]).
  unfold track. simpl. unfold can_proceed. rewrite Em, Ew, Hr.
  rewrite filter_narrow by lra.
  destruct (Z.ltb_spec (zlength (List.filter (fun g => Qltb (t - inject_Z w) g) grants)) mx) as [Hlt|Hge];
    simpl; unfold track_inv; simpl.
  - assert (List.filter (fun g => Qltb (t - inject_Z w) g) (grants ++ [t]) =
            List.filter (fun g => Qltb (t - inject_Z w) g) grants ++ [t]) as Ef.
    { rewrite List.filter_app. simpl. by destruct (Qltb_reflect (t - inject_Z w) t); [|lra]. }
    split_and!; try done.
    + apply Forall_app. split; [done|]. constructor; [lra|done].
    + autorewrite with zlen. lia.
    + intros T. destruct (Qlt_le_dec T t) as [HT|HT].
      * by rewrite in_window_snoc_later.
      * etrans; [by apply (in_window_kept t)|]. rewrite Ef. autorewrite with zlen. lia.
  - split_and!; try done. etrans; [|exact Hlen]. rewrite Hr.
    apply zlength_filter_le. intros x _. qcases; try done. lra.
Qed.

Lemma track_run mx w t0 st ts :
  0 <= mx -> 0 < w -> clock_ok t0 ts -> track_inv mx w t0 st ->
  exists t1, track_inv mx w t1 (track st ts).
Proof.
  intros Hmx Hw. revert t0 st. induction ts as [|t ts IH]; intros t0 st Hc Hi; [by exists t0|].
  destruct Hc as [Ht Hc].
  change (track st (t :: ts)) with (track (track st [t]) ts).
  apply (IH t); [done|]. by eapply track_step.
Qed.
End tracker.

(** ** Sliding window: lemmas *)

Section window.
Import SlidingWindow.

Lemma popleft_before_suffix c l : exists dropped,
  l = dropped ++ popleft_before c l /\ Forall (fun r => r < c)%Q dropped.
Proof.
  induction l as [|r l IH]; simpl; [by exists []|].
  destruct (Qltb_reflect r c) as [Hr|Hr].
  - destruct IH as (d & Hd & Hf). exists (r :: d). split; [simpl; by rewrite <- Hd|by constructor].
  - by exists [].
Qed.

Lemma popleft_before_length c l : zlength (popleft_before c l) <= zlength l.
Proof.
  destruct (popleft_before_suffix c l) as (d & Hd & _).
  rewrite Hd at 2. rewrite zlength_app. pose proof (zlength_nonneg d). lia.
Qed.

Lemma popleft_before_drops c r l :
  (r < c)%Q -> zlength (popleft_before c (r :: l)) <= zlength l.
Proof.
  intros. simpl. destruct (Qltb_reflect r c); [apply popleft_before_length|lra].
Qed.
End window.

(** ** Adaptive limiter: lemmas *)

Section adaptive.
Import Adaptive.

Record adaptive_inv (lo hi per : Z) (a : AdaptiveRateLimiter) : Prop := {
  ai_min : min_rate a = lo;
  ai_max : max_rate a = hi;
  ai_per : period a = per;
  ai_range : lo <= current_rate a <= hi;
  ai_rate : TokenBucket.rate (limiter a) = current_rate a;
  ai_bper : TokenBucket.period (limiter a) = per;
  ai_sc : 0 <= success_count a;
  ai_fc : 0 <= failure_count a }.

(** What happens to an adaptive limiter: a request enters, or leaves with or
    without an exception. *)
Inductive event := Enter (now : Q) | Exit (failed : bool) (now : Q).

Definition apply_event (a : AdaptiveRateLimiter) (e : event) : AdaptiveRateLimiter :=
  match e with
  | Enter now => (aenter now a).2
  | Exit failed now => aexit failed now a
  end.

Lemma bucket_acquire_static n now b :
  TokenBucket.rate (TokenBucket.acquire n now b).2 = TokenBucket.rate b /\
  TokenBucket.period (TokenBucket.acquire n now b).2 = TokenBucket.period b.
Proof. unfold TokenBucket.acquire. repeat case_match; done. Qed.

Lemma scale_up_eq r : py_int (inject_Z r * (11 # 10)) = Z.quot (r * 11) 10.
Proof. done. Qed.
Lemma scale_down_eq r : py_int (inject_Z r * (1 # 2)) = Z.quot (r * 1) 2.
Proof. done. Qed.

Lemma apply_event_inv lo hi per a e :
  1 <= lo -> adaptive_inv lo hi per a -> adaptive_inv lo hi per (apply_event a e).
Proof.
  intros Hlo [Emin Emax Eper Hrange Hrate Hbper Hsc Hfc].
  destruct e as [now|failed now]; simpl.
  - unfold aenter. pose proof (bucket_acquire_static 1 now (limiter a)) as [Hr Hp].
    destruct (TokenBucket.acquire 1 now (limiter a)) as [res b]. simpl in *.
    split; simpl; congruence || lia.
  - unfold aexit. destruct failed.
    + unfold record_failure. rewrite scale_down_eq.
      destruct ((3 <=? failure_count a + 1) && (min_rate a <? current_rate a)) eqn:E; split; simpl; try lia.
      pose proof (Z.quot_le_upper_bound (current_rate a * 1) 2 (current_rate a)). lia.
    + unfold record_success. rewrite scale_up_eq.
      destruct ((10 <=? success_count a + 1) && (current_rate a <? max_rate a)) eqn:E; split; simpl; try lia.
      pose proof (Z.quot_le_lower_bound (current_rate a * 11) 10 (current_rate a)). lia.
Qed.

Lemma iter_S {A} k (f : A -> A) x : Nat.iter (S k) f x = f (Nat.iter k f x).
Proof. done. Qed.

(** A run of successes that does not reach the tenth. *)
Lemma successes_count a now k :
  success_count a + Z.of_nat k < 10 ->
  Nat.iter k (record_success now) a =
    Limiter (current_rate a) (min_rate a) (max_rate a) (period a) (limiter a)
      (success_count a + Z.of_nat k) (failure_count a).
Proof.
  induction k as [|k IH]; intros Hk.
  - rewrite Z.add_0_r. by destruct a.
  - simpl. rewrite IH by lia. unfold record_success at 1. simpl.
    destruct (Z.leb_spec 10 (success_count a + Z.of_nat k + 1)); [lia|]. simpl.
    f_equal. lia.
Qed.
End adaptive.

(** ** Properties *)

(** On a limiter with positive rate and period, every [acquire] under a
    clock that does not run backwards succeeds, keeps the fill between empty
    and full, and sleeps exactly as long as the missing tokens take to earn;
    and requests that are all served without sleeping never exceed the fill
    plus what is earned meanwhile (the token-bucket bound). *)
Theorem bucket_bound (b : TokenBucket.TokenBucketRateLimiter) :
  bucket_ok b ->
  (forall n now, (TokenBucket.last_update b <= now)%Q -> (0 <= n)%Q ->
     exists w b', TokenBucket.acquire n now b = (Ok w, b') /\ bucket_ok b' /\
       (w * speed b == py_max 0 (n - TokenBucket.refilled now b))%Q) /\
  (forall l, requests_ok (TokenBucket.last_update b) l -> served_at_once l b = true ->
     (total l <= TokenBucket.tokens b +
        (end_time (TokenBucket.last_update b) l - TokenBucket.last_update b) * speed b)%Q).
Proof.
  intros Hb. split; [|intros; by apply served_bound].
  intros n now Ht Hn.
  destruct (acquire_spec n now b Hb Ht Hn) as (w & b' & E & Hb' & _ & _ & _ & _ & Hw & _).
  eauto.
Qed.

Lemma bucket_bound_witness :
  (total [(1, 0); (1, 30)]%Q <= 2 + (30 - 0) * speed (TokenBucket.init 2 60 0))%Q.
Proof.
  apply (proj2 (bucket_bound (TokenBucket.init 2 60 0)
           ltac:(repeat split; vm_compute; congruence)) [(1, 0); (1, 30)]%Q);
    [repeat split; vm_compute; congruence|vm_compute; reflexivity].
Defined.

(** The time an [acquire] sleeps is credited a second time: after a call
    that had to wait [w], the bucket offers at the end of the wait as many
    tokens as the wait was for (up to the capacity), although they were
    consumed by that call. *)
Theorem wait_credited_twice (b : TokenBucket.TokenBucketRateLimiter) n now w b' :
  bucket_ok b -> (TokenBucket.last_update b <= now)%Q -> (0 <= n)%Q ->
  TokenBucket.acquire n now b = (Ok w, b') -> (0 < w)%Q ->
  exists avail, TokenBucket.get_available_tokens (now + w) b' = Ok avail /\
    (avail == py_min (inject_Z (TokenBucket.rate b)) (n - TokenBucket.refilled now b))%Q /\
    (0 < avail)%Q.
Proof.
  intros Hb Ht Hn E Hw0.
  destruct (acquire_spec n now b Hb Ht Hn)
    as (w' & b'' & E' & Hb' & Hr & Hp & Hl & Hw & Hws & _ & Htk).
  rewrite E in E'. simplify_eq. specialize (Htk Hw0).
  pose proof (speed_pos _ Hb) as Hs.
  assert (0 < w' * speed b)%Q as Hpos by (apply Qmult_lt_0_compat; lra).
  pose proof Hb' as (Hr' & Hp' & _). unfold TokenBucket.get_available_tokens.
  destruct (Z.eqb_spec (TokenBucket.period b'') 0); [lia|].
  eexists. split; [done|].
  assert (TokenBucket.refilled (TokenBucket.last_update b'' + w') b'' ==
          py_min (inject_Z (TokenBucket.rate b)) (n - TokenBucket.refilled (TokenBucket.last_update b'') b))%Q as ->.
  { rewrite refilled_eq. unfold speed. rewrite Hr, Hp. fold (speed b). rewrite Htk.
    assert (w' * speed b == n - TokenBucket.refilled (TokenBucket.last_update b'') b)%Q as <-
      by (unfold py_max in Hws; qcases; lra).
    apply py_min_proper; [done|ring]. }
  split; [done|]. apply inject_Z_pos in Hr'. rewrite Hr in Hr'.
  unfold py_min, py_max in *. qcases; lra.
Qed.

Definition bucket_after_burst : TokenBucket.TokenBucketRateLimiter :=
  TokenBucket.Bucket 1 60 0 0.

Lemma wait_credited_twice_witness :
  exists avail, TokenBucket.get_available_tokens (0 + (3600 # 60)) (TokenBucket.Bucket 1 60 0 0) = Ok avail /\
    (avail == 1)%Q.
Proof.
  destruct (wait_credited_twice bucket_after_burst 1 0 (3600 # 60) (TokenBucket.Bucket 1 60 0 0))
    as (a & Ha & Heq & _).
  - repeat split; vm_compute; congruence.
  - vm_compute; congruence.
  - vm_compute; congruence.
  - vm_compute; reflexivity.
  - vm_compute; reflexivity.
  - exists a. split; [exact Ha|]. rewrite Heq. vm_compute. reflexivity.
Defined.

(** [RateLimitTracker] enforces its limit: over any run of
    [can_proceed] under a clock that does not run backwards, every window of
    [time_window] seconds holds at most [max_requests] grants. *)
Theorem tracker_window_limit (mx w : Z) (t0 : Q) (ts : list Q) (T : Q) :
  0 <= mx -> 0 < w -> clock_ok t0 ts ->
  zlength (in_window T w (track (Tracker.init mx w, []) ts).2) <= mx.
Proof.
  intros Hmx Hw Hc.
  destruct (track_run mx w t0 (Tracker.init mx w, []) ts) as [t1 Hi]; try done.
  destruct (track (Tracker.init mx w, []) ts) as [tr grants].
  destruct Hi as (_ & _ & _ & _ & _ & Hwin). apply Hwin.
Qed.

Lemma tracker_window_limit_witness :
  zlength (in_window 70 60 (track (Tracker.init 2 60, []) [0; 1; 2; 61; 62; 70]%Q).2) <= 2.
Proof.
  apply (tracker_window_limit 2 60 0 [0; 1; 2; 61; 62; 70]%Q 70);
    repeat split; vm_compute; congruence.
Defined.

(** The sliding window never records more than [max_requests] requests
    as long as a waiting call wakes after the sleep it computed; a limit of
    at least one never raises. *)
Theorem window_capacity (w : SlidingWindow.SlidingWindowRateLimiter) now wake :
  1 <= SlidingWindow.max_requests w ->
  zlength (SlidingWindow.requests w) <= SlidingWindow.max_requests w ->
  (forall s, (SlidingWindow.acquire now wake w).1 = Ok s -> now + s < wake)%Q ->
  let '(r, w') := SlidingWindow.acquire now wake w in
  is_ok r = true /\
  zlength (SlidingWindow.requests w') <= SlidingWindow.max_requests w' /\
  SlidingWindow.max_requests w' = SlidingWindow.max_requests w /\
  last (SlidingWindow.requests w') = Some now.
Proof.
  intros Hmax Hlen Hwake. unfold SlidingWindow.acquire in *.
  set (kept := SlidingWindow.popleft_before _ _) in *.
  assert (zlength kept <= zlength (SlidingWindow.requests w)) as Hk
    by apply popleft_before_length.
  destruct (Z.leb_spec (SlidingWindow.max_requests w) (zlength kept)) as [Hfull|Hroom].
  - destruct kept as [|r kept]; [rewrite zlength_nil in Hfull; lia|].
    specialize (Hwake _ eq_refl). rewrite zlength_cons in *.
    pose proof (popleft_before_drops (wake - inject_Z (SlidingWindow.window_seconds w)) r kept
                  ltac:(lra)).
    cbv beta zeta iota. cbn [SlidingWindow.requests SlidingWindow.max_requests is_ok].
    rewrite last_snoc. autorewrite with zlen. repeat split; lia.
  - cbv beta zeta iota. cbn [SlidingWindow.requests SlidingWindow.max_requests is_ok].
    rewrite last_snoc. autorewrite with zlen. repeat split; lia.
Qed.

Lemma window_capacity_witness :
  zlength (SlidingWindow.requests
    (SlidingWindow.acquire 1 61 (SlidingWindow.Window 1 60 [0%Q])).2) <= 1.
Proof.
  refine (proj1 (proj2 (window_capacity (SlidingWindow.Window 1 60 [0%Q]) 1 61 _ _ _)));
    try (vm_compute; congruence).
  intros s H. vm_compute in H. injection H as <-. vm_compute. reflexivity.
Defined.

(** A call that had to wait is recorded under the time it arrived, not
    the time it was let through, so the sliding window admits more than its
    limit: with one request per 60 seconds, the requests of times 0, 1 and
    62 go through at 0, 61 and 62. *)
Theorem window_stale_timestamp :
  let w0 := SlidingWindow.init 1 60 in
  let '(r1, w1) := SlidingWindow.acquire 0 0 w0 in
  let '(r2, w2) := SlidingWindow.acquire 1 61 w1 in
  let '(r3, w3) := SlidingWindow.acquire 62 62 w2 in
  r1 = Ok 0%Q /\
  (exists s, r2 = Ok s /\ (1 + s < 61)%Q /\ (0 < s)%Q) /\
  r3 = Ok 0%Q /\ (62 - 61 < inject_Z (SlidingWindow.window_seconds w3))%Q /\
  SlidingWindow.max_requests w3 = 1.
Proof.
  vm_compute. repeat split; try congruence. eexists. split; [reflexivity|]. done.
Qed.

(** Through any sequence of requests the adaptive limiter keeps its
    rate between [min_rate] and [max_rate], and its bucket at that rate. *)
Theorem adaptive_rate_range (lo hi r0 per : Z) (t0 : Q) (es : list event) :
  1 <= lo <= r0 -> r0 <= hi ->
  adaptive_inv lo hi per (foldl apply_event (Adaptive.init r0 lo hi per t0) es).
Proof.
  intros Hlo Hhi. apply foldl_invariant.
  - intros. apply apply_event_inv; [lia|done].
  - split; simpl; done || lia.
Qed.

Lemma adaptive_rate_range_witness :
  adaptive_inv 1 90 60
    (foldl apply_event (Adaptive.init 60 1 90 60 0) [Enter 0; Exit true 1; Exit true 2; Exit true 3]%Q).
Proof. apply (adaptive_rate_range 1 90 60 60 0 [Enter 0; Exit true 1; Exit true 2; Exit true 3]%Q); lia. Defined.

(** Below ten requests per period the adaptive limiter cannot speed up
    again: the tenth success recomputes the same rate, and replaces the
    bucket by a full one. *)
Theorem adaptive_low_rate_stalls (a : Adaptive.AdaptiveRateLimiter) now :
  0 <= Adaptive.current_rate a <= 9 -> Adaptive.current_rate a < Adaptive.max_rate a ->
  Adaptive.success_count a = 0 ->
  let a' := Nat.iter 10 (Adaptive.record_success now) a in
  Adaptive.current_rate a' = Adaptive.current_rate a /\
  Adaptive.limiter a' = TokenBucket.init (Adaptive.current_rate a) (Adaptive.period a) now.
Proof.
  intros Hr Hmax Hsc. cbv zeta. rewrite (iter_S 9), successes_count by lia.
  unfold Adaptive.record_success. cbn -[Z.of_nat]. rewrite Hsc.
  destruct (Z.ltb_spec (Adaptive.current_rate a) (Adaptive.max_rate a)); [|lia]. simpl.
  rewrite scale_up_eq.
  assert (Z.quot (Adaptive.current_rate a * 11) 10 = Adaptive.current_rate a) as ->.
  { rewrite Z.quot_div_nonneg by lia. symmetry. apply (Z.div_unique _ _ _ (Adaptive.current_rate a)); lia. }
  rewrite Z.min_r by lia. done.
Qed.

Lemma adaptive_low_rate_stalls_witness :
  Adaptive.current_rate (Nat.iter 10 (Adaptive.record_success 5) (Adaptive.init 5 1 90 60 0)) = 5.
Proof. apply (adaptive_low_rate_stalls (Adaptive.init 5 1 90 60 0) 5); simpl; lia. Defined.

(** [RateLimiter(..., adaptive=True)] is unusable: entering it always
    raises [AttributeError], whatever the configuration and however often it
    is tried. *)
Theorem adaptive_wrapper_unusable rpm burst t0 (ts : list Q) now :
  let r := foldl (fun r t => (Wrapper.aenter t r).2) (Wrapper.init rpm burst true t0) ts in
  Wrapper.aenter now r = (Err AttributeError, Wrapper.init rpm burst true t0).
Proof.
  simpl. assert (forall ts r a, Wrapper.limiter r = Wrapper.IAdaptive a ->
    foldl (fun r t => (Wrapper.aenter t r).2) r ts = r) as H.
  { intros ts' r a Hr. induction ts' as [|t ts' IH]; simpl; [done|].
    unfold Wrapper.aenter at 2. by rewrite Hr. }
  erewrite H by reflexivity. done.
Qed.
