(* ===== verification/PyStr.v ===== *)
(** * Python string operations

    The [str] methods the sources use, on [string] (one [ascii] per
    character): case folding, membership, prefixes and suffixes, stripping,
    splitting and joining, and slices. *)

From S2P Require Import Prelude.
From Stdlib Require Import Ascii.

Definition lower_char (c : ascii) : ascii :=
  let n := nat_of_ascii c in
  if (65 <=? n)%nat && (n <=? 90)%nat then ascii_of_nat (n + 32) else c.

(** [s.lower()] *)
Fixpoint lower (s : string) : string :=
  match s with
  | EmptyString => EmptyString
  | String c s' => String (lower_char c) (lower s')
  end.

(** [s.startswith(p)] *)
Definition startswith (p s : string) : bool := String.prefix p s.

(** [p in s] *)
Fixpoint str_in (p s : string) : bool :=
  String.prefix p s || match s with EmptyString => false | String _ s' => str_in p s' end.

(** [c in s] for one character *)
Fixpoint char_in (c : ascii) (s : string) : bool :=
  match s with
  | EmptyString => false
  | String c' s' => Ascii.eqb c c' || char_in c s'
  end.

Fixpoint str_forallb (f : ascii -> bool) (s : string) : bool :=
  match s with EmptyString => true | String c s' => f c && str_forallb f s' end.

(** [s.lstrip(...)] and [s.rstrip(...)] for the characters [f] accepts *)
Fixpoint lstrip (f : ascii -> bool) (s : string) : string :=
  match s with
  | EmptyString => EmptyString
  | String c s' => if f c then lstrip f s' else s
  end.

Fixpoint rstrip (f : ascii -> bool) (s : string) : string :=
  match s with
  | EmptyString => EmptyString
  | String c s' =>
      match rstrip f s' with
      | EmptyString => if f c then EmptyString else String c EmptyString
      | r => String c r
      end
  end.

Definition strip (f : ascii -> bool) (s : string) : string := rstrip f (lstrip f s).

(** ASCII white space, as [str.strip()] removes it *)
Definition is_space (c : ascii) : bool :=
  let n := nat_of_ascii c in
  ((9 <=? n)%nat && (n <=? 13)%nat) || ((28 <=? n)%nat && (n <=? 32)%nat).

(** [s.split(c, 1)]: the parts before and after the first [c] *)
Fixpoint split_once (c : ascii) (s : string) : option (string * string) :=
  match s with
  | EmptyString => None
  | String c' s' =>
      if Ascii.eqb c c' then Some (EmptyString, s')
      else match split_once c s' with
           | None => None
           | Some (a, b) => Some (String c' a, b)
           end
  end.

(** [s.split(c)] for a one-character separator *)
Fixpoint split_go (c : ascii) (cur : string) (s : string) : list string :=
  match s with
  | EmptyString => [cur]
  | String c' s' =>
      if Ascii.eqb c c' then cur :: split_go c EmptyString s'
      else split_go c (cur +:+ String c' EmptyString) s'
  end.
Definition split (c : ascii) (s : string) : list string := split_go c EmptyString s.

(** [s.split()]: the maximal runs of non-blank characters *)
Fixpoint split_ws_go (cur : string) (s : string) : list string :=
  match s with
  | EmptyString => if String.eqb cur EmptyString then [] else [cur]
  | String c s' =>
      if is_space c
      then (if String.eqb cur EmptyString then [] else [cur]) ++ split_ws_go EmptyString s'
      else split_ws_go (cur +:+ String c EmptyString) s'
  end.
Definition split_ws (s : string) : list string := split_ws_go EmptyString s.

(** [sep.join(l)] *)
Definition join (sep : string) (l : list string) : string := String.concat sep l.

(** [s[:n]] and [s[n:]], [0 <= n] *)
Fixpoint str_take (n : nat) (s : string) : string :=
  match n, s with
  | S n', String c s' => String c (str_take n' s')
  | _, _ => EmptyString
  end.
Fixpoint str_drop (n : nat) (s : string) : string :=
  match n, s with
  | S n', String _ s' => str_drop n' s'
  | _, _ => s
  end.

(** [s.endswith(t)] *)
Definition endswith (t s : string) : bool :=
  let n := String.length s in let m := String.length t in
  (m <=? n)%nat && String.eqb (str_drop (n - m) s) t.

(** [sorted(l)] on strings: code-point order *)
Definition sorted_strings (l : list string) : list string := merge_sort String.le l.

(** Sorting is insensitive to the order of its input. *)
Lemma sorted_strings_perm (l k : list string) :
  l ≡ₚ k -> sorted_strings l = sorted_strings k.
Proof.
  intros H. apply (Sorted_unique String.le); try apply Sorted_merge_sort; try apply _.
  unfold sorted_strings. by rewrite !merge_sort_Permutation.
Qed.

Lemma sorted_strings_idemp (l : list string) :
  sorted_strings (sorted_strings l) = sorted_strings l.
Proof. apply sorted_strings_perm. apply merge_sort_Permutation. Qed.

Lemma lower_char_idemp c : lower_char (lower_char c) = lower_char c.
Proof. by destruct c as [[] [] [] [] [] [] [] []]. Qed.

Lemma lower_idemp s : lower (lower s) = lower s.
Proof. induction s as [|c s IH]; simpl; [done|]. by rewrite lower_char_idemp, IH. Qed.

Lemma str_take_take n m s : str_take n (str_take m s) = str_take (n `min` m) s.
Proof. revert m s. induction n as [|n IH]; intros [|m] [|c s]; simpl; try done. by rewrite IH. Qed.
Lemma length_str_take n s : (String.length (str_take n s) <= n)%nat.
Proof. revert s. induction n as [|n IH]; intros [|c s]; simpl; try lia. specialize (IH s). lia. Qed.

Lemma app_string_nil_r s : s +:+ "" = s.
Proof. induction s as [|c s IH]; [done|]. change (String c (s +:+ "") = String c s). by rewrite IH. Qed.

Lemma app_string_assoc (a b c : string) : (a +:+ b) +:+ c = a +:+ (b +:+ c).
Proof.
  induction a as [|x a IH]; [done|].
  change (String x ((a +:+ b) +:+ c) = String x (a +:+ (b +:+ c))). by rewrite IH.
Qed.

(** ** Characters in strings *)

(** The longest prefix of characters [f] rejects, and the rest. *)
Fixpoint span (f : ascii -> bool) (s : string) : string * string :=
  match s with
  | EmptyString => (EmptyString, EmptyString)
  | String c s' => if f c then (EmptyString, s)
                   else let '(a, b) := span f s' in (String c a, b)
  end.

(** [s.replace(c, "")] for every character [f] accepts *)
Fixpoint remove_chars (f : ascii -> bool) (s : string) : string :=
  match s with
  | EmptyString => EmptyString
  | String c s' => if f c then remove_chars f s' else String c (remove_chars f s')
  end.

Lemma app_string_cons c (a b : string) : String c a +:+ b = String c (a +:+ b).
Proof. done. Qed.

Create Rewrite HintDb pystr.
#[export] Hint Rewrite app_string_cons app_string_nil_r app_string_assoc : pystr.

Lemma char_in_app c a b : char_in c (a +:+ b) = char_in c a || char_in c b.
Proof.
  induction a as [|x a IH]; [done|]. rewrite app_string_cons. simpl. by rewrite IH, orb_assoc.
Qed.

Lemma str_forallb_app f a b : str_forallb f (a +:+ b) = str_forallb f a && str_forallb f b.
Proof.
  induction a as [|x a IH]; [done|]. rewrite app_string_cons. simpl. by rewrite IH, andb_assoc.
Qed.

Lemma str_forallb_impl (f g : ascii -> bool) s :
  (forall c, f c = true -> g c = true) -> str_forallb f s = true -> str_forallb g s = true.
Proof.
  intros H. induction s as [|c s IH]; simpl; [done|]. rewrite !andb_true_iff. naive_solver.
Qed.

Lemma str_forallb_char_in f c s : str_forallb f s = true -> f c = false -> char_in c s = false.
Proof.
  intros Hs Hc. induction s as [|x s IH]; simpl in *; [done|].
  apply andb_true_iff in Hs as [Hx Hs]. rewrite IH by done.
  destruct (Ascii.eqb_spec c x) as [->|]; [congruence|done].
Qed.

Lemma split_once_app c a b : char_in c a = false -> split_once c (a +:+ String c b) = Some (a, b).
Proof.
  induction a as [|x a IH]; intros Ha.
  - simpl. by rewrite Ascii.eqb_refl.
  - rewrite app_string_cons. simpl in *. apply orb_false_iff in Ha as [-> Ha]. by rewrite IH.
Qed.

Lemma split_once_None c s : char_in c s = false -> split_once c s = None.
Proof.
  induction s as [|x s IH]; simpl; [done|]. intros [-> Hs]%orb_false_iff. by rewrite IH.
Qed.

Lemma span_app f a b : str_forallb (fun c => negb (f c)) a = true ->
  match b with EmptyString => True | String c _ => f c = true end ->
  span f (a +:+ b) = (a, b).
Proof.
  intros Ha Hb. induction a as [|x a IH].
  - change ("" +:+ b) with b. destruct b as [|c b]; [done|]. simpl. by rewrite Hb.
  - rewrite app_string_cons. simpl in *. apply andb_true_iff in Ha as [Hx%negb_true_iff Ha].
    rewrite Hx. by rewrite IH.
Qed.

Lemma remove_chars_id f s : str_forallb (fun c => negb (f c)) s = true -> remove_chars f s = s.
Proof.
  induction s as [|x s IH]; simpl; [done|]. intros [Hx%negb_true_iff Hs]%andb_true_iff.
  by rewrite Hx, IH.
Qed.

Lemma rstrip_forallb f g s : str_forallb g s = true -> str_forallb g (rstrip f s) = true.
Proof.
  induction s as [|c s IH]; simpl; [done|]. intros [Hc Hs]%andb_true_iff. specialize (IH Hs).
  destruct (rstrip f s) eqn:E; [destruct (f c); simpl; by rewrite ?Hc|].
  simpl in *. by rewrite Hc.
Qed.

Lemma lower_forallb f s :
  (forall c, f c = true -> f (lower_char c) = true) ->
  str_forallb f s = true -> str_forallb f (lower s) = true.
Proof.
  intros H. induction s as [|c s IH]; simpl; [done|]. rewrite !andb_true_iff. naive_solver.
Qed.

Lemma str_take_forallb f n s : str_forallb f s = true -> str_forallb f (str_take n s) = true.
Proof.
  revert s. induction n as [|n IH]; intros [|c s]; simpl; try done.
  intros [-> Hs]%andb_true_iff. simpl. by apply IH.
Qed.

(** ** Splitting and joining *)

Lemma split_go_nonempty c cur s : split_go c cur s <> [].
Proof. revert cur. induction s as [|x s IH]; intros cur; simpl; [done|]. by destruct (Ascii.eqb c x). Qed.

Lemma split_go_app c cur a s : char_in c a = false ->
  split_go c cur (a +:+ s) = split_go c (cur +:+ a) s.
Proof.
  revert cur. induction a as [|x a IH]; intros cur Ha.
  - by autorewrite with pystr.
  - rewrite app_string_cons. simpl in *. apply orb_false_iff in Ha as [-> Ha].
    rewrite IH by done. by autorewrite with pystr.
Qed.

Lemma split_go_parts c cur s : char_in c cur = false ->
  Forall (fun p => char_in c p = false) (split_go c cur s).
Proof.
  revert cur. induction s as [|x s IH]; intros cur Hc; simpl; [by repeat constructor|].
  destruct (Ascii.eqb c x) eqn:E.
  - constructor; [done|by apply IH].
  - apply IH. rewrite char_in_app, Hc. simpl. by rewrite E.
Qed.

Lemma split_parts c s : Forall (fun p => char_in c p = false) (split c s).
Proof. by apply split_go_parts. Qed.

(** [c.join(s.split(c)) == s] *)
Lemma join_split_go c cur s : join (String c "") (split_go c cur s) = cur +:+ s.
Proof.
  unfold join. revert cur. induction s as [|x s IH]; intros cur; simpl.
  - by autorewrite with pystr.
  - destruct (Ascii.eqb_spec c x) as [<-|].
    + specialize (IH "").
      destruct (split_go c "" s) eqn:E; [by apply split_go_nonempty in E|].
      change ((cur +:+ String c "" +:+ String.concat (String c "") (s0 :: l)) = cur +:+ String c s).
      by rewrite IH.
    + rewrite IH. by autorewrite with pystr.
Qed.

(** [c.join(l).split(c) == l] when no part holds [c] *)
Lemma split_join c l : l <> [] -> Forall (fun p => char_in c p = false) l ->
  split c (join (String c "") l) = l.
Proof.
  unfold split, join. intros Hl Hf. induction Hf as [|p l Hp Hf IH]; [done|].
  destruct l as [|q l].
  - simpl. rewrite <- (app_string_nil_r p) at 1. rewrite split_go_app by done. done.
  - change (split_go c "" (p +:+ String c (String.concat (String c "") (q :: l))) = p :: q :: l).
    rewrite split_go_app by done. simpl split_go. rewrite Ascii.eqb_refl.
    change ("" +:+ p) with p. f_equal. by apply IH.
Qed.

Lemma split_go_app_sep c cur x y : split_go c cur (x +:+ String c y) = split_go c cur x ++ split c y.
Proof.
  revert cur. induction x as [|a x IH]; intros cur; simpl; [by rewrite Ascii.eqb_refl|]. destruct (Ascii.eqb c a); [by rewrite IH|apply IH].
Qed.
Lemma split_sep c x y : split c (x +:+ String c y) = split c x ++ split c y.
Proof. apply split_go_app_sep. Qed.
Lemma split_whole c s : char_in c s = false -> split c s = [s].
Proof.
  intros Hs. pose proof (split_join c [s] ltac:(done) ltac:(by constructor)) as H. unfold join in H. simpl in H. exact H.
Qed.
Lemma split_go_forallb f c cur s : str_forallb f cur = true -> str_forallb f s = true ->
  Forall (fun p => str_forallb f p = true) (split_go c cur s).
Proof.
  revert cur. induction s as [|x s IH]; intros cur Hc Hs; simpl in *; [by repeat constructor|].
  apply andb_true_iff in Hs as [Hx Hs]. destruct (Ascii.eqb c x).
  - constructor; [done|by apply IH].
  - apply IH; [|done]. rewrite str_forallb_app, Hc. simpl. by rewrite Hx.
Qed.

Lemma join_forallb f c l : f c = true -> Forall (fun p => str_forallb f p = true) l ->
  str_forallb f (join (String c "") l) = true.
Proof.
  unfold join. intros Hc Hl. induction Hl as [|p l Hp Hl IH]; [done|].
  destruct l as [|q l]; [done|].
  change (str_forallb f (p +:+ String c (String.concat (String c "") (q :: l))) = true).
  rewrite str_forallb_app, Hp. cbn [str_forallb]. rewrite Hc. exact IH.
Qed.

Lemma rstrip_head f c r s : rstrip f s = String c r -> exists s', s = String c s'.
Proof.
  destruct s as [|x s]; simpl; [done|].
  destruct (rstrip f s); [destruct (f x)|]; try done; intros [= <- _]; eauto.
Qed.

Lemma app_string_inj_l (a b c : string) : a +:+ b = a +:+ c -> b = c.
Proof.
  induction a as [|x a IH]; [done|]. rewrite !app_string_cons. intros [= E]. by apply IH.
Qed.

(** ** White space and words *)

(** [re.sub(r"\s+", " ", s)]; [blank] says that the previous character was
    white space. *)
Fixpoint collapse_ws (blank : bool) (s : string) : string :=
  match s with
  | EmptyString => ""
  | String c s' =>
      if is_space c then if blank then collapse_ws true s' else String " " (collapse_ws true s')
      else String c (collapse_ws false s')
  end.

(** Word characters, as [\w] and [\b] see them *)
Definition is_word (c : ascii) : bool :=
  let n := nat_of_ascii c in
  ((48 <=? n)%nat && (n <=? 57)%nat) || ((65 <=? n)%nat && (n <=? 90)%nat)
  || ((97 <=? n)%nat && (n <=? 122)%nat) || (n =? 95)%nat.

(** [re.search(r"\b" + w + r"\b", s)] for a literal [w] that begins and ends
    with word characters; [before] says that the character in front of [s] is
    one. *)
Fixpoint has_word_go (before : bool) (w s : string) : bool :=
  (negb before && String.prefix w s &&
   match str_drop (String.length w) s with EmptyString => true | String c _ => negb (is_word c) end)
  || match s with EmptyString => false | String c s' => has_word_go (is_word c) w s' end.
Definition has_word (w s : string) : bool := has_word_go false w s.

(** ** Substrings *)

Lemma str_in_head p s : str_in p (p +:+ s) = true.
Proof. assert (String.prefix p (p +:+ s) = true) as H by (induction p as [|c p IH]; [by destruct s|]; simpl; by destruct (ascii_dec c c)). destruct (p +:+ s); simpl in *; by rewrite H. Qed.
Lemma str_in_after p a s : str_in p s = true -> str_in p (a +:+ s) = true.
Proof. intros H. induction a as [|c a IH]; [done|]. rewrite app_string_cons. simpl. by rewrite IH, orb_true_r. Qed.
Lemma join_empty_cons a l : join "" (a :: l) = a +:+ join "" l.
Proof. destruct l; [by rewrite app_string_nil_r|done]. Qed.
Lemma prefix_app p a s : String.prefix p a = true -> String.prefix p (a +:+ s) = true.
Proof.
  revert a. induction p as [|c p IH]; intros [|d a] H; try done; [by destruct s|]. rewrite app_string_cons. cbn [String.prefix] in *.
  destruct (ascii_dec c d); [by apply IH|done].
Qed.
Lemma str_in_before p a s : str_in p a = true -> str_in p (a +:+ s) = true.
Proof.
  induction a as [|c a IH]; intros H.
  - destruct p; [|done]. by destruct s.
  - rewrite app_string_cons. cbn [str_in] in *. apply orb_true_iff in H as [H|H]; apply orb_true_iff; [left|right; by apply IH].
    rewrite <- app_string_cons. by apply prefix_app.
Qed.
