(* ===== verification/Retry.v ===== *)
(** * Retry with exponential backoff

    [calculate_backoff], [async_retry] and [RetryPolicy] of
    document_processor/reliability/retry.py, the [async_retry] of
    document_processor/core/utils.py and the [_write_with_retry] of
    document_processor/infrastructure/chat_store.py.

    The retried callable is its sequence of outcomes ([func i] is what the
    i-th call does), [random.random()] the sequence of its draws.  A run
    returns the outcome together with the trace of what it did, in order. *)

From S2P Require Import Prelude PyStr.

(** What a retry loop does to the outside world. *)
Inductive retry_event :=
| Called (attempt : nat)          (* func() *)
| OnRetry (attempt : nat)         (* the on_retry callback *)
| Slept (delay : Q)               (* asyncio.sleep *)
| Disconnected.                   (* storage_manager._mongo_connected = False *)

(** How a run ends. *)
Inductive retry_outcome (A : Type) :=
| Returned (v : A)
| Raised (e : pyexn)
| RetryExhaustedError (attempts : Z) (last : option pyexn)
| TimedOut.
Arguments Returned {A} v.
Arguments Raised {A} e.
Arguments RetryExhaustedError {A} attempts last.
Arguments TimedOut {A}.

(** [min(base_delay * (exponential_base**attempt), max_delay)], with jitter
    scaled by [0.5 + random.random() * 0.5]. *)
Definition calculate_backoff (attempt : nat) (base_delay max_delay exponential_base : Q)
  (jitter : bool) (random : Q) : Q :=
  let delay := py_min (base_delay * Qpower exponential_base (Z.of_nat attempt)) max_delay in
  if jitter then (delay * ((1 # 2) + random * (1 # 2)))%Q else delay.

(** The constructor arguments of [RetryPolicy]. *)
Record RetryPolicy := Policy {
  max_attempts : Z;
  base_delay : Q;
  max_delay : Q;
  exponential_base : Q;
  exceptions : pyexn -> bool;
  jitter : bool;
  timeout : option Q }.

Section async_retry.
Context {A : Type}.
Variable func : nat -> result pyexn A.
Variable random : nat -> Q.
Variable on_retry : option (nat -> pyexn -> result pyexn unit).

(** The iterations from [attempt] on; [remaining] of them are left. *)
Fixpoint retry_loop (p : RetryPolicy) (remaining attempt : nat) (last : option pyexn)
  : retry_outcome A * list retry_event :=
  match remaining with
  | O => (RetryExhaustedError (max_attempts p) last, [])
  | S remaining' =>
      match func attempt with
      | Ok v => (Returned v, [Called attempt])
      | Err e =>
          if exceptions p e then
            if Z.of_nat attempt <? max_attempts p - 1 then
              let delay := calculate_backoff attempt (base_delay p) (max_delay p)
                             (exponential_base p) (jitter p) (random attempt) in
              let continue evs :=
                let '(r, tr) := retry_loop p remaining' (S attempt) (Some e) in
                (r, Called attempt :: evs ++ Slept delay :: tr) in
              match on_retry with
              | None => continue []
              | Some cb =>
                  match cb attempt e with
                  | Ok _ => continue [OnRetry attempt]
                  | Err e' => (Raised e', [Called attempt; OnRetry attempt])
                  end
              end
            else
              let '(r, tr) := retry_loop p remaining' (S attempt) (Some e) in
              (r, Called attempt :: tr)
          else (Raised e, [Called attempt])
      end
  end.

Definition async_retry (p : RetryPolicy) : retry_outcome A * list retry_event :=
  retry_loop p (Z.to_nat (max_attempts p)) 0 None.

(** [utils.async_retry]: no cap, no jitter, re-raises the last exception;
    with no attempt at all it raises [None], a [TypeError]. *)
Fixpoint utils_retry_loop (mx : Z) (delay backoff : Q) (exc : pyexn -> bool)
  (remaining attempt : nat) (last : option pyexn) : retry_outcome A * list retry_event :=
  match remaining with
  | O =>
      (Raised (default (PyExn "TypeError" "exceptions must derive from BaseException") last), [])
  | S remaining' =>
      match func attempt with
      | Ok v => (Returned v, [Called attempt])
      | Err e =>
          if exc e then
            let '(r, tr) := utils_retry_loop mx delay backoff exc remaining' (S attempt) (Some e) in
            (r, Called attempt ::
                (if Z.of_nat attempt <? mx - 1
                 then [Slept (delay * Qpower backoff (Z.of_nat attempt))%Q] else []) ++ tr)
          else (Raised e, [Called attempt])
      end
  end.

Definition utils_async_retry (mx : Z) (delay backoff : Q) (exc : pyexn -> bool)
  : retry_outcome A * list retry_event :=
  utils_retry_loop mx delay backoff exc (Z.to_nat mx) 0 None.

(** [_write_with_retry]: only transient MongoDB errors are retried, and the
    connection flag is cleared before each wait. *)
Definition TRANSIENT_MONGO_MARKERS : list string :=
  ["network"; "timeout"; "connection"; "notprimary"; "interrupted"; "unreachable"; "socket"].

Definition transient (e : pyexn) : bool :=
  existsb (fun m => str_in m (lower (exn_str e))) TRANSIENT_MONGO_MARKERS.

Fixpoint write_loop (mx : Z) (remaining attempt : nat) : retry_outcome A * list retry_event :=
  match remaining with
  | O => (Raised (PyExn "AssertionError" ""), [])
  | S remaining' =>
      match func attempt with
      | Ok v => (Returned v, [Called attempt])
      | Err e =>
          if negb (transient e) || (mx - 1 <=? Z.of_nat attempt)
          then (Raised e, [Called attempt])
          else
            let '(r, tr) := write_loop mx remaining' (S attempt) in
            (r, Called attempt :: Disconnected ::
                Slept ((1 # 2) * Qpower 2 (Z.of_nat attempt))%Q :: tr)
      end
  end.

Definition write_with_retry (mx : Z) : retry_outcome A * list retry_event :=
  write_loop mx (Z.to_nat mx) 0.

(** [RetryPolicy.execute]: under [asyncio.wait_for] when a (non-zero) timeout
    is set.  [duration i] is how long the i-th call takes. *)
Fixpoint elapsed (duration : nat -> Q) (tr : list retry_event) : Q :=
  match tr with
  | [] => 0
  | Called i :: tr' => (duration i + elapsed duration tr')%Q
  | Slept d :: tr' => (d + elapsed duration tr')%Q
  | _ :: tr' => elapsed duration tr'
  end.
End async_retry.

Definition execute {A} (func : nat -> result pyexn A) (random duration : nat -> Q)
  (p : RetryPolicy) : retry_outcome A :=
  let '(r, tr) := async_retry func random None p in
  match timeout p with
  | Some t =>
      if Qeq_bool t 0 then r
      else if Qltb t (elapsed duration tr) then TimedOut else r
  | None => r
  end.

(** The predefined policies; [Exception] is every exception of the model. *)
Definition AGGRESSIVE_RETRY : RetryPolicy := Policy 5 (1 # 2) 30 2 (fun _ => true) true None.
Definition STANDARD_RETRY : RetryPolicy := Policy 3 1 60 2 (fun _ => true) true None.
Definition CONSERVATIVE_RETRY : RetryPolicy := Policy 2 2 120 3 (fun _ => true) true None.
Definition NETWORK_RETRY : RetryPolicy := Policy 4 1 30 2 (fun _ => true) true (Some 60%Q).

(** ** The common shape of the three loops *)

(** A loop is described by which exceptions it retries, what it does between
    two attempts and how it ends when the last attempt fails too. *)
Section shape.
Context {A : Type}.
Variable func : nat -> result pyexn A.
Variable retryable : pyexn -> bool.
Variable between : nat -> list retry_event.
Variable exhausted : pyexn -> retry_outcome A.

Fixpoint attempts_run (more attempt : nat) : retry_outcome A * list retry_event :=
  match func attempt with
  | Ok v => (Returned v, [Called attempt])
  | Err e =>
      if retryable e then
        match more with
        | O => (exhausted e, [Called attempt])
        | S more' =>
            let '(r, tr) := attempts_run more' (S attempt) in
            (r, Called attempt :: between attempt ++ tr)
        end
      else (Raised e, [Called attempt])
  end.

(** The first attempt of [k, k+1, ..., k+n] that is not retried. *)
Fixpoint first_stop (n k : nat) : option nat :=
  match func k with
  | Err e =>
      if retryable e then match n with O => None | S n' => first_stop n' (S k) end
      else Some k
  | Ok _ => Some k
  end.

Definition settle (r : result pyexn A) : retry_outcome A :=
  match r with Ok v => Returned v | Err e => Raised e end.

Definition trace_upto (k j : nat) : list retry_event :=
  flat_map (fun i => Called i :: between i) (seq k (j - k)) ++ [Called j].

Lemma trace_upto_same k : trace_upto k k = [Called k].
Proof. unfold trace_upto. by rewrite Nat.sub_diag. Qed.

Lemma trace_upto_next k j :
  (k < j)%nat -> trace_upto k j = Called k :: between k ++ trace_upto (S k) j.
Proof.
  intros. unfold trace_upto. replace (j - k)%nat with (S (j - S k)) by lia.
  simpl. by rewrite <- app_assoc.
Qed.

Lemma first_stop_bounds n k j :
  first_stop n k = Some j ->
  (k <= j <= k + n)%nat /\
  (forall i, (k <= i < j)%nat -> exists e, func i = Err e /\ retryable e = true) /\
  (forall e, func j = Err e -> retryable e = false).
Proof.
  revert k. induction n as [|n IH]; intros k; simpl; destruct (func k) as [v|e] eqn:E;
    [|destruct (retryable e) eqn:Er| |destruct (retryable e) eqn:Er]; intros ?; simplify_eq/=;
    try (split; [lia|split; [intros; lia|intros; congruence]]).
  apply IH in H as (H1 & H2 & H3). split; [lia|split; [|done]].
  intros i Hi. destruct (decide (i = k)) as [->|]; [eauto|]. apply H2. lia.
Qed.

Lemma first_stop_none n k :
  first_stop n k = None ->
  forall i, (k <= i <= k + n)%nat -> exists e, func i = Err e /\ retryable e = true.
Proof.
  revert k. induction n as [|n IH]; intros k; simpl; destruct (func k) as [v|e] eqn:E;
    [done|destruct (retryable e) eqn:Er; [|done]|done|destruct (retryable e) eqn:Er; [|done]];
    intros H i Hi.
  - assert (i = k) as -> by lia. eauto.
  - destruct (decide (i = k)) as [->|]; [eauto|]. apply (IH (S k)); [done|lia].
Qed.

Lemma attempts_run_spec n k :
  attempts_run n k =
    match first_stop n k with
    | Some j => (settle (func j), trace_upto k j)
    | None =>
        match func (k + n) with
        | Err e => (exhausted e, trace_upto k (k + n))
        | Ok v => (Returned v, trace_upto k (k + n))
        end
    end.
Proof.
  revert k. induction n as [|n IH]; intros k; simpl; destruct (func k) as [v|e] eqn:E.
  - by rewrite E, trace_upto_same.
  - destruct (retryable e) eqn:Er; [rewrite Nat.add_0_r, E|rewrite E]; by rewrite trace_upto_same.
  - by rewrite E, trace_upto_same.
  - destruct (retryable e) eqn:Er; [|by rewrite E, trace_upto_same].
    rewrite IH. destruct (first_stop n (S k)) as [j|] eqn:Ej.
    + apply first_stop_bounds in Ej as [Hb _]. by rewrite (trace_upto_next k j) by lia.
    + replace (k + S n)%nat with (S k + n)%nat by lia.
      destruct (func (S k + n)); by rewrite (trace_upto_next k (S k + n)) by lia.
Qed.
End shape.

(** ** Each loop has that shape *)

Section loops.
Context {A : Type}.
Implicit Types (func : nat -> result pyexn A) (random : nat -> Q).

Definition backoff_of (p : RetryPolicy) random (i : nat) : Q :=
  calculate_backoff i (base_delay p) (max_delay p) (exponential_base p) (jitter p) (random i).

Lemma retry_loop_shape func random p n k last :
  Z.of_nat (k + S n) = max_attempts p ->
  retry_loop func random None p (S n) k last =
    attempts_run func (exceptions p) (fun i => [Slept (backoff_of p random i)])
      (fun e => RetryExhaustedError (max_attempts p) (Some e)) n k.
Proof.
  revert k last. induction n as [|n IH]; intros k last Hn; (destruct (func k) as [v|e] eqn:E;
    [simpl; by rewrite E|]); destruct (exceptions p e) eqn:Ee; try (simpl; by rewrite E, Ee);
    pose proof (Z.ltb_spec (Z.of_nat k) (max_attempts p - 1)) as Hk.
  - simpl. rewrite E, Ee. by destruct Hk; [lia|].
  - specialize (IH (S k) (Some e) ltac:(lia)). remember (S n) as m eqn:Em.
    simpl. rewrite E, Ee. destruct Hk; [|lia]. rewrite IH, Em. simpl. rewrite E, Ee.
    by destruct (attempts_run _ _ _ _ n (S k)).
Qed.

Lemma write_loop_shape func mx n k :
  Z.of_nat (k + S n) = mx ->
  write_loop func mx (S n) k =
    attempts_run func transient
      (fun i => [Disconnected; Slept ((1 # 2) * Qpower 2 (Z.of_nat i))%Q]) Raised n k.
Proof.
  revert k. induction n as [|n IH]; intros k Hn; (destruct (func k) as [v|e] eqn:E;
    [simpl; by rewrite E|]); destruct (transient e) eqn:Ee; try (simpl; by rewrite E, Ee);
    pose proof (Z.leb_spec (mx - 1) (Z.of_nat k)) as Hk.
  - simpl. rewrite E, Ee. by destruct Hk; [|lia].
  - specialize (IH (S k) ltac:(lia)). remember (S n) as m eqn:Em.
    simpl. rewrite E, Ee. destruct Hk; [lia|]. simpl. rewrite IH, Em. simpl. rewrite E, Ee.
    by destruct (attempts_run _ _ _ _ n (S k)).
Qed.

Lemma utils_loop_shape func mx delay backoff exc n k last :
  Z.of_nat (k + S n) = mx ->
  utils_retry_loop func mx delay backoff exc (S n) k last =
    attempts_run func exc (fun i => [Slept (delay * Qpower backoff (Z.of_nat i))%Q]) Raised n k.
Proof.
  revert k last. induction n as [|n IH]; intros k last Hn; (destruct (func k) as [v|e] eqn:E;
    [simpl; by rewrite E|]); destruct (exc e) eqn:Ee; try (simpl; by rewrite E, Ee);
    pose proof (Z.ltb_spec (Z.of_nat k) (mx - 1)) as Hk.
  - simpl. rewrite E, Ee. by destruct Hk; [lia|].
  - specialize (IH (S k) (Some e) ltac:(lia)). remember (S n) as m eqn:Em.
    simpl. rewrite E, Ee. destruct Hk; [|lia]. rewrite IH, Em. simpl. rewrite E, Ee.
    by destruct (attempts_run _ _ _ _ n (S k)).
Qed.

Definition count_calls (tr : list retry_event) : Z :=
  zlength (List.filter (fun e => match e with Called _ => true | _ => false end) tr).

Definition sleeps (tr : list retry_event) : list Q :=
  omap (fun e => match e with Slept d => Some d | _ => None end) tr.

Lemma retry_loop_calls func random p n k last :
  count_calls (retry_loop func random None p n k last).2 <= Z.of_nat n.
Proof.
  revert k last. induction n as [|n IH]; intros k last; simpl; [done|].
  destruct (func k) as [v|e]; simpl; [unfold count_calls, zlength; simpl; lia|].
  destruct (exceptions p e); [|unfold count_calls, zlength; simpl; lia].
  pose proof (IH (S k) (Some e)) as H.
  destruct (_ <? _); destruct (retry_loop func random None p n (S k) (Some e)) as [r tr];
    simpl in *; unfold count_calls in *; simpl; rewrite zlength_cons; lia.
Qed.

Lemma retry_loop_sleeps func random p n k last (P : Q -> Prop) :
  (forall i, P (backoff_of p random i)) ->
  Forall P (sleeps (retry_loop func random None p n k last).2).
Proof.
  intros HP. revert k last. induction n as [|n IH]; intros k last; simpl; [constructor|].
  destruct (func k) as [v|e]; [constructor|].
  destruct (exceptions p e); [|constructor].
  specialize (IH (S k) (Some e)).
  destruct (_ <? _); destruct (retry_loop func random None p n (S k) (Some e)) as [r tr];
    simpl in *; [constructor; [apply HP|]|]; done.
Qed.

Lemma Qpower_nonneg (x : Q) (n : nat) : (0 <= x)%Q -> (0 <= Qpower x (Z.of_nat n))%Q.
Proof. intros. by apply Qpower_0_le. Qed.

Lemma backoff_bounds i base mx eb (j : bool) r :
  (0 <= base)%Q -> (0 <= mx)%Q -> (0 <= eb)%Q -> (0 <= r <= 1)%Q ->
  (0 <= calculate_backoff i base mx eb j r <= mx)%Q /\
  (py_min (base * Qpower eb (Z.of_nat i)) mx * (1 # 2) <= calculate_backoff i base mx eb j r)%Q.
Proof.
  intros Hb Hm He [Hr0 Hr1]. unfold calculate_backoff.
  set (d := py_min _ _).
  assert (0 <= d)%Q as Hd.
  { apply py_min_glb; [|done]. apply Qmult_le_0_compat; [done|by apply Qpower_nonneg]. }
  assert (d <= mx)%Q by apply py_min_le_r.
  destruct j; [|lra].
  assert (0 <= d * r)%Q by (apply Qmult_le_0_compat; lra).
  assert (0 <= d * (1 - r))%Q by (apply Qmult_le_0_compat; lra).
  split; [split|]; lra.
Qed.
End loops.

(** ** Properties *)

(** [async_retry] without a callback calls the function until the first
    outcome that is not a retryable exception, sleeping the computed backoff
    between two attempts: it returns that outcome, or [RetryExhaustedError]
    carrying the last exception after exactly [max_attempts] calls; nothing
    is slept after the last attempt. *)
Theorem async_retry_spec {A} (func : nat -> result pyexn A) random p n :
  max_attempts p = Z.of_nat (S n) ->
  async_retry func random None p =
    match first_stop func (exceptions p) n 0 with
    | Some j => (settle (func j), trace_upto (fun i => [Slept (backoff_of p random i)]) 0 j)
    | None =>
        match func n with
        | Err e => (RetryExhaustedError (max_attempts p) (Some e),
                    trace_upto (fun i => [Slept (backoff_of p random i)]) 0 n)
        | Ok v => (Returned v, trace_upto (fun i => [Slept (backoff_of p random i)]) 0 n)
        end
    end.
Proof.
  intros Hn. unfold async_retry. rewrite Hn, Nat2Z.id, retry_loop_shape by (simpl; lia).
  rewrite <- Hn. apply attempts_run_spec.
Qed.

(** A service that fails twice and then answers. *)
Definition flaky (i : nat) : result pyexn Z :=
  if (i <? 2)%nat then Err (PyExn "TimeoutError" "Connection timeout") else Ok 7.

Definition no_jitter : RetryPolicy := Policy 3 1 60 2 (fun _ => true) false None.

Lemma async_retry_spec_witness :
  async_retry flaky (fun _ => 0%Q) None no_jitter =
    (Returned 7, trace_upto (fun i => [Slept (backoff_of no_jitter (fun _ => 0%Q) i)]) 0 2).
Proof. rewrite (async_retry_spec flaky (fun _ => 0%Q) no_jitter 2); reflexivity. Defined.

(** The cost of a retry policy is bounded: at most [max_attempts]
    calls, each sleep between half the nominal exponential delay and
    [max_delay]. *)
Theorem retry_cost_bounded {A} (func : nat -> result pyexn A) random p :
  (0 <= base_delay p)%Q -> (0 <= max_delay p)%Q -> (0 <= exponential_base p)%Q ->
  (forall i, 0 <= random i <= 1)%Q ->
  let tr := (async_retry func random None p).2 in
  count_calls tr <= Z.max 0 (max_attempts p) /\
  Forall (fun d => 0 <= d <= max_delay p)%Q (sleeps tr) /\
  Forall (fun d => exists i,
    (py_min (base_delay p * Qpower (exponential_base p) (Z.of_nat i)) (max_delay p) * (1 # 2) <= d)%Q)
    (sleeps tr).
Proof.
  intros Hb Hm He Hr tr. split_and!.
  - unfold tr, async_retry. etrans; [apply retry_loop_calls|]. lia.
  - apply retry_loop_sleeps. intros i. by apply backoff_bounds.
  - apply retry_loop_sleeps. intros i. exists i. by apply backoff_bounds.
Qed.

Lemma retry_cost_bounded_witness :
  count_calls (async_retry flaky (fun _ => 1 # 3)%Q None NETWORK_RETRY).2 <= 4.
Proof.
  apply (retry_cost_bounded flaky (fun _ => 1 # 3)%Q NETWORK_RETRY); try (vm_compute; congruence).
  intros i. split; vm_compute; congruence.
Defined.

(** [_write_with_retry] retries only transient MongoDB errors: the
    first error that is not transient is re-raised at once; before every
    retry the connection flag is cleared and then the wait starts; a run of
    transient errors re-raises the last one after [max_attempts] writes. *)
Theorem write_with_retry_spec {A} (func : nat -> result pyexn A) n :
  write_with_retry func (Z.of_nat (S n)) =
    let between i := [Disconnected; Slept ((1 # 2) * Qpower 2 (Z.of_nat i))%Q] in
    match first_stop func transient n 0 with
    | Some j => (settle (func j), trace_upto between 0 j)
    | None => (settle (func n), trace_upto between 0 n)
    end.
Proof.
  unfold write_with_retry. rewrite Nat2Z.id, write_loop_shape by (simpl; lia).
  rewrite attempts_run_spec. simpl. by destruct first_stop; [|destruct (func n)].
Qed.
