(* ===== verification/ErrorHandler.v ===== *)
(** * Error handler and dead letter queue
    (document_processor/reliability/error_handler.py)

    Each method body of [DeadLetterQueue] runs under the queue's lock and is
    one function on the list of entries.  The processor given to
    [retry_dlq_messages] is what it does with the i-th message. *)

From S2P Require Import Prelude.

Section dlq.
Context {M : Type}.

Record dlq_entry := Entry {
  message : M;
  error : string;
  error_type : string;
  retry_count : Z;
  metadata : gmap string string;
  timestamp : Q }.

Record DeadLetterQueue := DLQ {
  dlq_max_retries : Z;
  messages : list dlq_entry }.

Definition new_dlq (max_retries : Z) : DeadLetterQueue := DLQ max_retries [].

Definition add_message (now : Q) (m : M) (e : pyexn) (count : Z)
  (md : option (gmap string string)) (q : DeadLetterQueue) : DeadLetterQueue :=
  DLQ (dlq_max_retries q)
    (messages q ++ [Entry m (exn_str e) (exn_type e) count (default ∅ md) now]).

(** [limit] is falsy when absent or 0. *)
Definition get_messages (limit : option Z) (q : DeadLetterQueue) : list dlq_entry :=
  match limit with
  | Some n => if n =? 0 then messages q else py_take n (messages q)
  | None => messages q
  end.

Definition remove_message (index : Z) (q : DeadLetterQueue) : DeadLetterQueue :=
  if (0 <=? index) && (index <? zlength (messages q))
  then DLQ (dlq_max_retries q) (delete (Z.to_nat index) (messages q))
  else q.

Definition dlq_clear (q : DeadLetterQueue) : DeadLetterQueue := DLQ (dlq_max_retries q) [].

(** (total_messages, error_types, max_retries) *)
Definition dlq_get_stats (q : DeadLetterQueue) : Z * gmap string Z * Z :=
  (zlength (messages q),
   foldl (fun acc m => counter_add (error_type m) 1 acc) ∅ (messages q),
   dlq_max_retries q).

(** A callback is given the error, the message and the retry count; what it
    raises is logged and dropped. *)
Definition callback := pyexn -> M -> Z -> result pyexn unit.

Record ErrorHandler := Handler {
  dlq : DeadLetterQueue;
  max_retries : Z;
  error_callbacks : gmap string callback;
  error_counts : gmap string Z }.

Definition new_handler (q : option DeadLetterQueue) (max_retries : Z)
  (cbs : gmap string callback) : ErrorHandler :=
  Handler (default (new_dlq max_retries) q) max_retries cbs ∅.

(** The callbacks run by a call of [handle_error], with their outcome. *)
Definition run_callback (e : pyexn) (m : M) (count : Z) (h : ErrorHandler)
  : option (result pyexn unit) :=
  (fun cb => cb e m count) <$> error_callbacks h !! exn_type e.

Definition handle_error (now : Q) (e : pyexn) (m : M) (count : Z)
  (md : option (gmap string string)) (h : ErrorHandler) : bool * ErrorHandler :=
  let counts := counter_add (exn_type e) 1 (error_counts h) in
  let should_retry := count <? max_retries h in
  let q := if should_retry then dlq h else add_message now m e count md (dlq h) in
  (should_retry, Handler q (max_retries h) (error_callbacks h) counts).

(** [None] is returned in place of a result when the message went to the
    queue. *)
Definition execute_with_error_handling {A} (now : Q) (outcome : result pyexn A)
  (m : M) (count : Z) (md : option (gmap string string)) (h : ErrorHandler)
  : result pyexn (option A) * ErrorHandler :=
  match outcome with
  | Ok v => (Ok (Some v), h)
  | Err e =>
      let '(should_retry, h') := handle_error now e m count md h in
      (if should_retry then Err e else Ok None, h')
  end.

Definition register_error_callback (ty : string) (cb : callback) (h : ErrorHandler)
  : ErrorHandler :=
  Handler (dlq h) (max_retries h) (<[ty := cb]> (error_callbacks h)) (error_counts h).

Definition get_error_stats (h : ErrorHandler) : gmap string Z * (Z * gmap string Z * Z) :=
  (error_counts h, dlq_get_stats (dlq h)).

Section retry.
Variable processor : nat -> M -> result pyexn unit.

(** The loop of [retry_dlq_messages] over the entries copied at its start:
    [i] is the loop index. *)
Fixpoint retry_loop_dlq (i : nat) (copied : list dlq_entry)
  (success_count failure_count : Z) (q : DeadLetterQueue) : Z * Z * DeadLetterQueue :=
  match copied with
  | [] => (success_count, failure_count, q)
  | entry :: rest =>
      match processor i (message entry) with
      | Ok _ =>
          retry_loop_dlq (S i) rest (success_count + 1) failure_count
            (remove_message (Z.of_nat i - failure_count) q)
      | Err _ => retry_loop_dlq (S i) rest success_count (failure_count + 1) q
      end
  end.

(** (attempted, successful, failed) and the handler afterwards. *)
Definition retry_dlq_messages (limit : option Z) (h : ErrorHandler)
  : (Z * Z * Z) * ErrorHandler :=
  let copied := get_messages limit (dlq h) in
  let '(s, f, q) := retry_loop_dlq 0 copied 0 0 (dlq h) in
  ((zlength copied, s, f), Handler q (max_retries h) (error_callbacks h) (error_counts h)).

(** ** Lemmas *)

Lemma retry_loop_dlq_counts i l s f q :
  let '(s', f', q') := retry_loop_dlq i l s f q in
  s' + f' = s + f + zlength l /\ s <= s' /\ f <= f' /\
  zlength (messages q') <= zlength (messages q) <= zlength (messages q') + (s' - s).
Proof.
  revert i s f q. induction l as [|x l IH]; intros i s f q; simpl; [rewrite zlength_nil; lia|].
  rewrite zlength_cons. destruct (processor i (message x)).
  - set (q1 := remove_message (Z.of_nat i - f) q).
    assert (zlength (messages q1) <= zlength (messages q) <= zlength (messages q1) + 1).
    { unfold q1, remove_message. destruct ((0 <=? Z.of_nat i - f) && _) eqn:E; simpl; [|lia].
      unfold zlength in *. rewrite length_delete by (apply lookup_lt_is_Some_2; lia). lia. }
    specialize (IH (S i) (s + 1) f q1). destruct (retry_loop_dlq (S i) l (s + 1) f q1) as [[? ?] ?]. lia.
  - specialize (IH (S i) s (f + 1) q). destruct (retry_loop_dlq (S i) l s (f + 1) q) as [[? ?] ?]. lia.
Qed.

Lemma retry_loop_dlq_all_fail i l s f q :
  (forall j x, l !! j = Some x -> exists e, processor (i + j) (message x) = Err e) ->
  retry_loop_dlq i l s f q = (s, f + zlength l, q).
Proof.
  revert i f. induction l as [|x l IH]; intros i f H; simpl.
  - rewrite zlength_nil. by rewrite Z.add_0_r.
  - destruct (H 0%nat x eq_refl) as [e He]. rewrite Nat.add_0_r in He. rewrite He.
    rewrite IH; [rewrite zlength_cons; f_equal; f_equal; lia|].
    intros j y Hj. replace (S i + j)%nat with (i + S j)%nat by lia. by apply (H (S j) y).
Qed.

Lemma retry_loop_dlq_app i l k s f q :
  retry_loop_dlq i (l ++ k) s f q =
    let '(s', f', q') := retry_loop_dlq i l s f q in
    retry_loop_dlq (i + length l) k s' f' q'.
Proof.
  revert i s f q. induction l as [|x l IH]; intros i s f q; simpl; [by rewrite Nat.add_0_r|].
  rewrite <- Nat.add_succ_comm. destruct (processor i (message x)); apply IH.
Qed.
End retry.
End dlq.

Arguments dlq_entry : clear implicits.
Arguments DeadLetterQueue : clear implicits.
Arguments ErrorHandler : clear implicits.

(** ** Properties *)

(** A failing message is never dropped by
    [execute_with_error_handling]: below the retry limit its exception is
    re-raised and the queue is untouched; at the limit it is the last entry
    of the dead letter queue, with its error, and [None] is returned.  The
    error is counted once in either case, and other counts do not change. *)
Theorem failing_message_kept {M A} now (e : pyexn) (m : M) count md (h : ErrorHandler M) :
  let '(r, h') := execute_with_error_handling now (@Err pyexn A e) m count md h in
  ((count < max_retries h /\ r = Err e /\ dlq h' = dlq h) \/
   (max_retries h <= count /\ r = Ok None /\
    messages (dlq h') =
      messages (dlq h) ++ [Entry m (exn_str e) (exn_type e) count (default ∅ md) now])) /\
  counter_get (exn_type e) (error_counts h') = counter_get (exn_type e) (error_counts h) + 1 /\
  (forall ty, ty <> exn_type e ->
     counter_get ty (error_counts h') = counter_get ty (error_counts h)).
Proof.
  unfold execute_with_error_handling, handle_error.
  destruct (Z.ltb_spec count (max_retries h)); simpl;
    (split; [by auto|split; [apply counter_get_add_eq|intros; by apply counter_get_add_ne]]).
Qed.

(** The totals of [retry_dlq_messages] are right: every copied message
    is attempted exactly once, each attempt is counted as a success or a
    failure, the queue never grows and loses at most one entry per success;
    when every attempt fails the queue is unchanged. *)
Theorem retry_dlq_totals {M} (proc : nat -> M -> result pyexn unit) limit (h : ErrorHandler M) :
  let '((attempted, successful, failed), h') := retry_dlq_messages proc limit h in
  attempted = zlength (get_messages limit (dlq h)) /\
  attempted = successful + failed /\ 0 <= successful /\ 0 <= failed /\
  zlength (messages (dlq h')) <= zlength (messages (dlq h))
    <= zlength (messages (dlq h')) + successful /\
  ((forall i m, exists e, proc i m = Err e) -> dlq h' = dlq h).
Proof.
  unfold retry_dlq_messages.
  pose proof (retry_loop_dlq_counts proc 0 (get_messages limit (dlq h)) 0 0 (dlq h)) as Hc.
  destruct (retry_loop_dlq proc 0 (get_messages limit (dlq h)) 0 0 (dlq h)) as [[s f] q] eqn:E.
  simpl. split_and!; try lia; try done.
  intros Hall. rewrite retry_loop_dlq_all_fail in E; [by simplify_eq|]. intros. apply Hall.
Qed.

(** [retry_dlq_messages] removes the wrong entry: the index is reduced
    by the failures so far, not by the successes.  When some messages fail
    and the next one succeeds, the first failed message is removed from the
    queue and lost, and the message that was just processed stays. *)
Theorem retry_dlq_removes_wrong_entry {M} (proc : nat -> M -> result pyexn unit)
  (h : ErrorHandler M) (x s : dlq_entry M) (fails : list (dlq_entry M)) :
  messages (dlq h) = x :: fails ++ [s] ->
  (forall i, (i <= length fails)%nat -> forall m, exists e, proc i m = Err e) ->
  proc (S (length fails)) (message s) = Ok tt ->
  messages (dlq (retry_dlq_messages proc None h).2) = fails ++ [s].
Proof.
  intros Hq Hf Hs. unfold retry_dlq_messages. simpl. rewrite Hq.
  rewrite app_comm_cons, retry_loop_dlq_app.
  rewrite retry_loop_dlq_all_fail.
  2:{ intros j y Hj. apply Hf. apply lookup_lt_Some in Hj. simpl in Hj. lia. }
  simpl. rewrite Hs. simpl.
  unfold remove_message. rewrite Hq. unfold zlength. simpl. rewrite length_app. simpl.
  replace (Z.of_nat (S (length fails)) - (0 + Z.of_nat (S (length fails)))) with 0 by lia.
  by destruct (Z.ltb_spec 0 (Z.of_nat (S (length fails + 1)))); [|lia].
Qed.

Definition failed_entry (n : Z) : dlq_entry Z := Entry n "boom" "ValueError" 3 ∅ 0.

Lemma retry_dlq_removes_wrong_entry_witness :
  messages (dlq (retry_dlq_messages
    (fun i _ => if (i =? 1)%nat then Ok tt else Err (PyExn "ValueError" "boom")) None
    (Handler (DLQ 3 [failed_entry 1; failed_entry 2]) 3 ∅ ∅)).2) = [failed_entry 2].
Proof.
  apply (retry_dlq_removes_wrong_entry
           (fun i _ => if (i =? 1)%nat then Ok tt else Err (PyExn "ValueError" "boom"))
           (Handler (DLQ 3 [failed_entry 1; failed_entry 2]) 3 ∅ ∅)
           (failed_entry 1) (failed_entry 2) []); try reflexivity.
  intros i Hi m. simpl in Hi. destruct i; [eexists; reflexivity|lia].
Defined.
