(* ===== verification/TextUtils.v ===== *)
(** * Utility functions (document_processor/core/utils.py)

    Text is a list of characters of any type [A]: the functions below only
    measure, slice and concatenate it.  [chunk_text] is a [while] loop and
    takes fuel; the theorems say which fuel is enough, and when none is. *)

From S2P Require Import Prelude.

Section text.
Context {A : Type}.
Implicit Types (l text suffix : list A).

Definition truncate_text text (max_length : Z) suffix : list A :=
  if zlength text <=? max_length then text
  else py_take (max_length - zlength suffix) text ++ suffix.

(** The loop of [chunk_text] from [start] on; [None] when the fuel runs out
    first. *)
Fixpoint chunk_loop (fuel : nat) text (chunk_size overlap start : Z)
  : option (list (list A)) :=
  match fuel with
  | O => None
  | S fuel' =>
      if start <? zlength text then
        let stop := start + chunk_size in
        match chunk_loop fuel' text chunk_size overlap (stop - overlap) with
        | None => None
        | Some chunks => Some (py_slice start stop text :: chunks)
        end
      else Some []
  end.

Definition chunk_text (fuel : nat) text (chunk_size overlap : Z) : option (list (list A)) :=
  chunk_loop fuel text chunk_size overlap 0.

Definition estimate_tokens text (chars_per_token : Z) : result unit Z :=
  if chars_per_token =? 0 then Err tt else Ok (zlength text / chars_per_token).

(** [[items[i : i + n] for i in range(0, len(items), n)]]: a zero step is a
    [ValueError], a negative one an empty range. *)
Definition batch_items l (batch_size : Z) : result unit (list (list A)) :=
  if batch_size =? 0 then Err tt
  else if batch_size <? 0 then Ok []
  else Ok (map (fun k => py_slice (Z.of_nat k * batch_size)
                           (Z.of_nat k * batch_size + batch_size) l)
             (seq 0 (Z.to_nat ((zlength l + batch_size - 1) / batch_size)))).
End text.

Definition safe_divide (numerator denominator default : Q) : Q :=
  if Qeq_bool denominator 0 then default else (numerator / denominator)%Q.

(** [merge_dicts]: later dictionaries win. *)
Definition merge_dicts {V} (dicts : list (gmap string V)) : gmap string V :=
  foldl (fun acc d => d ∪ acc) ∅ dicts.

(** ** Lemmas *)

Section blocks.
Context {A : Type}.
Implicit Types (l : list A).

(** Number of steps of size [step] that cover a length [n]. *)
Definition steps (n step : Z) : nat := Z.to_nat ((n + step - 1) / step).

Lemma steps_spec n step : 0 <= n -> 0 < step ->
  n <= Z.of_nat (steps n step) * step < n + step.
Proof.
  intros Hn Hs. unfold steps.
  pose proof (Z.div_pos (n + step - 1) step ltac:(lia) Hs).
  rewrite Z2Nat.id by done.
  pose proof (Z.div_mod (n + step - 1) step ltac:(lia)).
  pose proof (Z.mod_pos_bound (n + step - 1) step Hs). nia.
Qed.

Lemma blocks_concat (s k : nat) l :
  concat (map (fun i => take s (drop (i * s) l)) (seq 0 k)) = take (k * s) l.
Proof.
  induction k as [|k IH]; [done|].
  rewrite seq_S, map_app, concat_app, IH. simpl. rewrite app_nil_r.
  rewrite take_take_drop. f_equal. lia.
Qed.

Lemma py_slice_block (a n : nat) l :
  py_slice (Z.of_nat a) (Z.of_nat a + Z.of_nat n) l = take n (drop a l).
Proof.
  rewrite py_slice_nonneg by lia.
  replace (Z.to_nat (Z.of_nat a + Z.of_nat n)) with (a + n)%nat by lia.
  rewrite Nat2Z.id. by rewrite skipn_firstn_comm, Nat.add_comm, Nat.add_sub.
Qed.
End blocks.

Section chunks.
Context {A : Type}.
Implicit Types (text suffix l : list A).

(** The chunk that starts after [k] steps. *)
Definition chunk_at text (chunk_size step : Z) (k : nat) : list A :=
  py_slice (Z.of_nat k * step) (Z.of_nat k * step + chunk_size) text.

Lemma chunk_loop_closed text (chunk_size overlap : Z) (n k fuel : nat) :
  let step := chunk_size - overlap in
  0 < step ->
  zlength text <= Z.of_nat (k + n) * step < zlength text + step ->
  (n < fuel)%nat ->
  chunk_loop fuel text chunk_size overlap (Z.of_nat k * step)
  = Some (map (chunk_at text chunk_size step) (seq k n)).
Proof.
  intros step Hstep. revert k fuel.
  induction n as [|n IH]; intros k fuel Hk Hf; (destruct fuel as [|fuel]; [lia|]); simpl.
  - destruct (Z.ltb_spec (Z.of_nat k * step) (zlength text)); [nia|done].
  - destruct (Z.ltb_spec (Z.of_nat k * step) (zlength text)); [|nia].
    replace (Z.of_nat k * step + chunk_size - overlap) with (Z.of_nat (S k) * step) by lia.
    rewrite IH; [done| |lia]. by replace (S k + n)%nat with (k + S n)%nat by lia.
Qed.

Lemma chunk_text_closed text (chunk_size overlap : Z) (fuel : nat) :
  let step := chunk_size - overlap in
  0 < step -> (steps (zlength text) step < fuel)%nat ->
  chunk_text fuel text chunk_size overlap
  = Some (map (chunk_at text chunk_size step) (seq 0 (steps (zlength text) step))).
Proof.
  intros step Hstep Hf. unfold chunk_text.
  pose proof (steps_spec (zlength text) step (zlength_nonneg _) Hstep) as Hs.
  exact (chunk_loop_closed text chunk_size overlap (steps (zlength text) step) 0 fuel Hstep Hs Hf).
Qed.

Lemma chunk_loop_diverges text (chunk_size overlap start : Z) fuel :
  chunk_size <= overlap -> start < zlength text ->
  chunk_loop fuel text chunk_size overlap start = None.
Proof.
  intros Hle. revert start. induction fuel as [|fuel IH]; intros start Hst; [done|]; simpl.
  destruct (Z.ltb_spec start (zlength text)); [|lia].
  rewrite IH; [done|lia].
Qed.

(** [chunk_text] returns, whatever the text, exactly when the overlap is
    smaller than the chunk: otherwise [start] never advances and the loop of
    a non-empty text runs for ever. *)
Theorem chunk_text_terminates text (chunk_size overlap : Z) :
  (exists fuel chunks, chunk_text fuel text chunk_size overlap = Some chunks)
  <-> (text = [] \/ overlap < chunk_size).
Proof.
  split.
  - intros (fuel & chunks & H). destruct (decide (overlap < chunk_size)); [by right|left].
    destruct (decide (0 < zlength text)).
    + unfold chunk_text in H. by rewrite chunk_loop_diverges in H by lia.
    + apply zlength_0. pose proof (zlength_nonneg text). lia.
  - intros [-> | Hlt]; [by exists 1%nat, []|].
    exists (S (steps (zlength text) (chunk_size - overlap))). eexists.
    apply chunk_text_closed; lia.
Qed.

(** The chunk [k] starts with the [step] characters at [k * step]. *)
Lemma take_chunk_at text (chunk_size step : Z) (k : nat) :
  0 < step <= chunk_size ->
  py_take step (chunk_at text chunk_size step k)
  = take (Z.to_nat step) (drop (k * Z.to_nat step) text).
Proof.
  intros Hs. rewrite py_take_nonneg by lia. unfold chunk_at.
  replace (Z.of_nat k * step) with (Z.of_nat (k * Z.to_nat step)) by lia.
  replace chunk_size with (Z.of_nat (Z.to_nat chunk_size)) by lia.
  rewrite py_slice_block, take_take. f_equal. lia.
Qed.

(** With [0 <= overlap < chunk_size], [chunk_text] loses nothing: the
    chunks are at most [chunk_size] long, there is one per step, and the first
    [chunk_size - overlap] characters of each, put end to end, are the text. *)
Theorem chunk_text_lossless text (chunk_size overlap : Z) (fuel : nat) :
  0 <= overlap < chunk_size ->
  (steps (zlength text) (chunk_size - overlap) < fuel)%nat ->
  exists chunks,
    chunk_text fuel text chunk_size overlap = Some chunks /\
    length chunks = steps (zlength text) (chunk_size - overlap) /\
    Forall (fun c => zlength c <= chunk_size) chunks /\
    concat (map (py_take (chunk_size - overlap)) chunks) = text.
Proof.
  intros Ho Hf. eexists. split; [apply chunk_text_closed; [lia|done]|].
  rewrite length_map, length_seq. split; [done|]. split.
  - apply Forall_map, Forall_forall. intros k _. unfold chunk_at; simpl.
    rewrite length_py_slice by nia. lia.
  - rewrite map_map. erewrite map_ext; [|intros k; apply take_chunk_at; lia].
    rewrite blocks_concat. apply take_ge.
    pose proof (steps_spec (zlength text) (chunk_size - overlap) (zlength_nonneg _) ltac:(lia)).
    unfold zlength in *. nia.
Qed.

(** [truncate_text] keeps its promise ("truncate text to maximum
    length") exactly when the text already fits or the suffix does; with a
    longer suffix the negative slice bound cuts from the wrong end and the
    result is too long. *)
Theorem truncate_text_fits text (max_length : Z) suffix :
  zlength (truncate_text text max_length suffix) <= max_length
  <-> (zlength text <= max_length \/ zlength suffix <= max_length).
Proof.
  unfold truncate_text. destruct (Z.leb_spec (zlength text) max_length); [lia|].
  autorewrite with zlen. destruct (decide (zlength suffix <= max_length)).
  - unfold py_take. rewrite length_py_slice by lia. lia.
  - pose proof (zlength_nonneg (py_take (max_length - zlength suffix) text)). lia.
Qed.

(** The batches of [batch_items] are the items in order, each batch has
    between one and [batch_size] items, and only the last one can be short. *)
Theorem batch_items_partition l (batch_size : Z) :
  0 < batch_size ->
  exists batches, batch_items l batch_size = Ok batches /\
    concat batches = l /\
    Forall (fun b => 0 < zlength b <= batch_size) batches /\
    (forall k b, batches !! k = Some b -> (S k < length batches)%nat -> zlength b = batch_size).
Proof.
  intros Hb. unfold batch_items.
  destruct (Z.eqb_spec batch_size 0); [lia|]. destruct (Z.ltb_spec batch_size 0); [lia|].
  fold (steps (zlength l) batch_size).
  pose proof (steps_spec (zlength l) batch_size (zlength_nonneg _) Hb) as Hst.
  eexists. split; [reflexivity|].
  assert (forall k, py_slice (Z.of_nat k * batch_size) (Z.of_nat k * batch_size + batch_size) l
                    = take (Z.to_nat batch_size) (drop (k * Z.to_nat batch_size) l)) as Hblk.
  { intros k. rewrite <- py_slice_block. by rewrite Nat2Z.inj_mul, Z2Nat.id by lia. }
  split; [|split].
  - erewrite map_ext by apply Hblk. rewrite blocks_concat. apply take_ge.
    unfold zlength in *. nia.
  - apply Forall_map, Forall_forall. intros k Hk%list_elem_of_In%in_seq. simpl.
    rewrite length_py_slice by nia. nia.
  - intros k b Hk. rewrite length_map, length_seq. intros Hlt.
    rewrite list_lookup_fmap in Hk. apply fmap_Some in Hk as (i & Hi & ->).
    apply lookup_seq in Hi as [-> _]. rewrite length_py_slice by nia. nia.
Qed.
End chunks.

Lemma chunk_text_lossless_witness :
  exists chunks, chunk_text 10 [1;2;3;4;5;6;7] 3 1 = Some chunks /\
    chunks = [[1;2;3];[3;4;5];[5;6;7];[7]].
Proof.
  destruct (chunk_text_lossless [1;2;3;4;5;6;7] 3 1 10) as (chunks & H & _).
  - lia.
  - apply Nat.ltb_lt. reflexivity.
  - exists chunks. split; [exact H|].
    assert (Some chunks = chunk_text 10 [1;2;3;4;5;6;7] 3 1) as E by (symmetry; exact H).
    vm_compute in E. by inversion E.
Defined.

Lemma batch_items_partition_witness :
  exists batches, batch_items [1;2;3;4;5] 2 = Ok batches /\ concat batches = [1;2;3;4;5].
Proof.
  destruct (batch_items_partition [1;2;3;4;5] 2) as (bs & H & Hc & _); [lia|].
  exists bs. split; [exact H|exact Hc].
Defined.
