(* ===== verification/Deduplicator.v ===== *)
(** * Deduplication (document_processor/processing/deduplicator.py)

    [Deduplicator] asks a Bloom filter (the pybloom_live package) or a set of
    digests; [SimilarityDeduplicator] compares 64-bit simhashes.  The filter
    is a typeclass with the laws its documentation states, the digests are
    the section variables [sha256], [md5] and [sha1]. *)

From S2P Require Import Prelude PyStr.

(** ** The Bloom filter interface *)

(** [BloomFilter(capacity, error_rate)], [key in f], [f.add(key)] (which
    raises [IndexError] on a filter beyond its capacity), [f.count] and
    [f.capacity]. *)
Class BloomFilter (B : Type) := {
  bloom_new : Z -> Q -> result pyexn B;
  bloom_mem : string -> B -> bool;
  bloom_add : string -> B -> result pyexn B;
  bloom_count : B -> Z;
  bloom_capacity : B -> Z }.

(** What the package promises: an added key is found, and adding never
    removes one. *)
Class BloomLaws (B : Type) `{BloomFilter B} := {
  bloom_add_mem k (b b' : B) : bloom_add k b = Ok b' -> bloom_mem k b' = true;
  bloom_add_mono j k (b b' : B) :
    bloom_add k b = Ok b' -> bloom_mem j b = true -> bloom_mem j b' = true }.

(** An instance without false positives: a set of keys with its capacity. *)
#[export] Instance set_filter : BloomFilter (Z * gset string) := {
  bloom_new cap rate :=
    if (0 <? cap) && Qltb 0 rate && Qltb rate 1 then Ok (cap, ∅)
    else Err (PyExn "ValueError" "Error_Rate must be between 0 and 1.");
  bloom_mem k b := bool_decide (k ∈ b.2);
  bloom_add k b :=
    if b.1 <? Z.of_nat (size b.2) then Err (PyExn "IndexError" "BloomFilter is at capacity")
    else Ok (b.1, {[k]} ∪ b.2);
  bloom_count b := Z.of_nat (size b.2);
  bloom_capacity b := b.1 }.

#[export] Instance set_filter_laws : BloomLaws (Z * gset string).
Proof.
  split; simpl.
  - intros k [c s] b'. simpl. destruct (c <? _); [done|]. intros [= <-]. simpl.
    apply bool_decide_eq_true. set_solver.
  - intros j k [c s] b'. simpl. destruct (c <? _); [done|]. intros [= <-]. simpl.
    rewrite !bool_decide_eq_true. set_solver.
Qed.

(** ** Deduplicator *)

Module Dedup.
Section dedup.
Context {B : Type} `{BloomFilter B}.
Context (sha256 md5 sha1 : string -> string).

Record Deduplicator := Dedup {
  capacity : Z;
  error_rate : Q;
  use_exact : bool;
  bloom : B;
  exact_hashes : option (gset string);
  seen_count : Z;
  duplicate_count : Z;
  unique_count : Z }.

Definition bloom_filter_capacity : Z := 1000000.
Definition bloom_filter_error_rate : Q := 1 # 100.

(** [x or default]: [None] and zero are falsy. *)
Definition or_int (x : option Z) (d : Z) : Z :=
  match x with Some n => if n =? 0 then d else n | None => d end.
Definition or_float (x : option Q) (d : Q) : Q :=
  match x with Some q => if Qeq_bool q 0 then d else q | None => d end.

Definition init (cap : option Z) (rate : option Q) (exact : bool)
  : result pyexn Deduplicator :=
  let c := or_int cap bloom_filter_capacity in
  let r := or_float rate bloom_filter_error_rate in
  match bloom_new c r with
  | Err e => Err (PyExn "DeduplicationError"
                    ("Failed to initialize Bloom filter: " +:+ exn_str e))
  | Ok b => Ok (Dedup c r exact b (if exact then Some ∅ else None) 0 0 0)
  end.

Definition _compute_hash (content algorithm : string) : string :=
  if String.eqb algorithm "md5" then md5 content
  else if String.eqb algorithm "sha1" then sha1 content
  else sha256 content.

Definition digest (content : string) : string := _compute_hash content "sha256".

Definition set_counts (seen dup uniq : Z) (d : Deduplicator) : Deduplicator :=
  Dedup (capacity d) (error_rate d) (use_exact d) (bloom d) (exact_hashes d) seen dup uniq.
Definition set_bloom (b : B) (d : Deduplicator) : Deduplicator :=
  Dedup (capacity d) (error_rate d) (use_exact d) b (exact_hashes d)
    (seen_count d) (duplicate_count d) (unique_count d).
Definition set_hashes (s : option (gset string)) (d : Deduplicator) : Deduplicator :=
  Dedup (capacity d) (error_rate d) (use_exact d) (bloom d) s
    (seen_count d) (duplicate_count d) (unique_count d).

Definition count_seen (d : Deduplicator) : Deduplicator :=
  set_counts (seen_count d + 1) (duplicate_count d) (unique_count d) d.
Definition count_duplicate (d : Deduplicator) : Deduplicator :=
  set_counts (seen_count d) (duplicate_count d + 1) (unique_count d) d.
Definition count_unique (d : Deduplicator) : Deduplicator :=
  set_counts (seen_count d) (duplicate_count d) (unique_count d + 1) d.

Definition none_error : pyexn :=
  PyExn "TypeError" "argument of type 'NoneType' is not iterable".
Definition none_attribute (name : string) : pyexn :=
  PyExn "AttributeError" ("'NoneType' object has no attribute '" +:+ name +:+ "'").

(** The answer, or what was raised, with the state left behind. *)
Definition is_duplicate (content : string) (exact : option bool) (d0 : Deduplicator)
  : result pyexn bool * Deduplicator :=
  let d := count_seen d0 in
  let content_hash := digest content in
  if match exact with Some e => e | None => use_exact d end then
    match exact_hashes d with
    | None => (Err none_error, d)
    | Some hs =>
        if bool_decide (content_hash ∈ hs) then (Ok true, count_duplicate d)
        else (Ok false, count_unique (set_hashes (Some ({[content_hash]} ∪ hs)) d))
    end
  else if bloom_mem content_hash (bloom d) then (Ok true, count_duplicate d)
  else match bloom_add content_hash (bloom d) with
       | Err e => (Err e, d)
       | Ok b => (Ok false, count_unique (set_bloom b d))
       end.

Definition add (content : string) (d : Deduplicator) : result pyexn unit * Deduplicator :=
  let content_hash := digest content in
  if use_exact d then
    match exact_hashes d with
    | None => (Err (none_attribute "add"), d)
    | Some hs => (Ok tt, count_seen (count_unique (set_hashes (Some ({[content_hash]} ∪ hs)) d)))
    end
  else match bloom_add content_hash (bloom d) with
       | Err e => (Err e, d)
       | Ok b => (Ok tt, count_seen (count_unique (set_bloom b d)))
       end.

Definition contains (content : string) (d : Deduplicator) : result pyexn bool :=
  let content_hash := digest content in
  if use_exact d then
    match exact_hashes d with
    | None => Err none_error
    | Some hs => Ok (bool_decide (content_hash ∈ hs))
    end
  else Ok (bloom_mem content_hash (bloom d)).

(** The last component is the filter's (capacity, count, fill rate) or the
    number of exact digests. *)
Record dedup_stats := DedupStats {
  st_seen : Z;
  st_duplicates : Z;
  st_unique : Z;
  st_duplicate_rate : Q;
  st_store : (Z * Z * Q) + Z }.

Definition get_stats (d : Deduplicator) : result pyexn dedup_stats :=
  let duplicate_rate :=
    if 0 <? seen_count d
    then (inject_Z (duplicate_count d) / inject_Z (seen_count d) * 100)%Q else 0%Q in
  let stats := DedupStats (seen_count d) (duplicate_count d) (unique_count d) duplicate_rate in
  if negb (use_exact d) then
    let cap := bloom_capacity (bloom d) in
    if cap =? 0 then Err (PyExn "ZeroDivisionError" "division by zero")
    else Ok (stats (inl (cap, bloom_count (bloom d),
                         (inject_Z (bloom_count (bloom d)) / inject_Z cap * 100)%Q)))
  else match exact_hashes d with
       | None => Err (PyExn "TypeError" "object of type 'NoneType' has no len()")
       | Some hs => Ok (stats (inr (Z.of_nat (size hs))))
       end.

Definition clear (d : Deduplicator) : result pyexn unit * Deduplicator :=
  match bloom_new (capacity d) (error_rate d) with
  | Err e => (Err e, d)
  | Ok b => (Ok tt, Dedup (capacity d) (error_rate d) (use_exact d) b
                      (match exact_hashes d with Some _ => Some ∅ | None => None end) 0 0 0)
  end.

(** ** Sequences of calls *)

Inductive op := OpIsDuplicate (content : string) (exact : option bool) | OpAdd (content : string).

Definition run_op (d : Deduplicator) (o : op) : Deduplicator :=
  match o with
  | OpIsDuplicate c exact => (is_duplicate c exact d).2
  | OpAdd c => (add c d).2
  end.

(** The answers of [is_duplicate] on a sequence of contents. *)
Fixpoint answers (contents : list string) (d : Deduplicator) : list (result pyexn bool) :=
  match contents with
  | [] => []
  | c :: cs => let '(r, d') := is_duplicate c None d in r :: answers cs d'
  end.

(** The specification: was a content with this digest there before? *)
Fixpoint seen_before (past contents : list string) : list bool :=
  match contents with
  | [] => []
  | c :: cs => existsb (fun p => String.eqb (digest p) (digest c)) past
               :: seen_before (past ++ [c]) cs
  end.

(** The remembered digests of an exact deduplicator are those of [past]. *)
Definition remembers (past : list string) (d : Deduplicator) : Prop :=
  use_exact d = true /\
  exists hs, exact_hashes d = Some hs /\
    forall h, h ∈ hs <-> exists p, p ∈ past /\ digest p = h.

Lemma remembers_init cap rate d : init cap rate true = Ok d -> remembers [] d.
Proof.
  unfold init. destruct (bloom_new _ _) as [b|e]; [|done]. intros [= <-].
  split; [done|]. exists ∅. split; [done|]. set_solver.
Qed.

Lemma existsb_digest past c :
  existsb (fun p => String.eqb (digest p) (digest c)) past = true
  <-> exists p, p ∈ past /\ digest p = digest c.
Proof.
  rewrite existsb_exists. setoid_rewrite list_elem_of_In. setoid_rewrite String.eqb_eq. done.
Qed.

Lemma remembers_step past c d : remembers past d ->
  let '(r, d') := is_duplicate c None d in
  r = Ok (existsb (fun p => String.eqb (digest p) (digest c)) past) /\
  remembers (past ++ [c]) d'.
Proof.
  intros (Hx & hs & Hhs & Hin). unfold is_duplicate. simpl. rewrite Hx, Hhs.
  case_bool_decide as Hc.
  - split.
    + f_equal. symmetry. by apply existsb_digest, Hin.
    + split; [done|]. exists hs. split; [done|]. intros h. rewrite Hin.
      set_solver.
  - split.
    + f_equal. symmetry. apply not_true_iff_false. by rewrite existsb_digest, <- Hin.
    + split; [done|]. eexists. split; [reflexivity|]. intros h.
      rewrite elem_of_union, elem_of_singleton, Hin. set_solver.
Qed.

Lemma answers_exact contents past d : remembers past d ->
  answers contents d = map Ok (seen_before past contents).
Proof.
  revert past d. induction contents as [|c cs IH]; intros past d Hr; [done|].
  simpl. pose proof (remembers_step past c d Hr) as Hs.
  destruct (is_duplicate c None d) as [r d']. destruct Hs as [-> Hr']. simpl.
  f_equal. by apply IH.
Qed.

(** C12: with [use_exact=True] the answers of a new deduplicator on any
    sequence of contents are those of the specification: a content is reported
    as a duplicate exactly when one with the same SHA-256 digest came
    before, and no call raises. *)
Theorem exact_dedup_refines cap rate d contents :
  init cap rate true = Ok d ->
  answers contents d = map Ok (seen_before [] contents).
Proof. intros Hi. apply answers_exact. by eapply remembers_init. Qed.

(** ** No false negatives through the filter *)

Context `{!BloomLaws B}.

Lemma run_op_mono h o d :
  bloom_mem h (bloom d) = true ->
  use_exact (run_op d o) = use_exact d /\ bloom_mem h (bloom (run_op d o)) = true.
Proof.
  intros Hm. destruct o as [c exact|c]; simpl; [unfold is_duplicate|unfold add]; simpl;
    repeat match goal with |- context [match ?x with _ => _ end] => destruct x eqn:? end;
    simpl; split; try done; by eapply bloom_add_mono.
Qed.

Lemma run_ops_mono h ops d :
  bloom_mem h (bloom d) = true ->
  use_exact (foldl run_op d ops) = use_exact d /\ bloom_mem h (bloom (foldl run_op d ops)) = true.
Proof.
  revert d. induction ops as [|o ops IH]; intros d Hm; [done|]. simpl.
  destruct (run_op_mono h o d Hm) as [<- Hm']. by apply IH.
Qed.

Lemma is_duplicate_found c d :
  use_exact d = false -> bloom_mem (digest c) (bloom d) = true ->
  is_duplicate c None d = (Ok true, count_duplicate (count_seen d)).
Proof. intros Hx Hm. unfold is_duplicate. simpl. by rewrite Hx, Hm. Qed.

(** A content that a filter-based deduplicator has answered for is
    never reported as new again: whatever calls of [is_duplicate] and [add]
    come between, and whether or not they raise, the next [is_duplicate] on it
    returns [True]. *)
Theorem bloom_dedup_no_miss c r d ops :
  use_exact d = false ->
  (is_duplicate c None d).1 = Ok r ->
  (is_duplicate c None (foldl run_op (is_duplicate c None d).2 ops)).1 = Ok true.
Proof.
  intros Hx Hr.
  assert (use_exact (is_duplicate c None d).2 = false /\
          bloom_mem (digest c) (bloom (is_duplicate c None d).2) = true) as [Hx' Hm].
  { unfold is_duplicate in *. simpl in *. rewrite Hx in *.
    destruct (bloom_mem (digest c) (bloom d)) eqn:Hb; [done|].
    destruct (bloom_add (digest c) (bloom d)) eqn:Ha; [|done].
    simpl. split; [done|]. by eapply bloom_add_mem. }
  destruct (run_ops_mono _ ops _ Hm) as [Hx'' Hm'].
  rewrite is_duplicate_found; [done| |done]. by rewrite Hx''.
Qed.
End dedup.

(** Asking for an exact check ([exact=True]) of a deduplicator that was
    built without [use_exact] always raises [TypeError]: there is no set to
    look in.  The call is counted as seen all the same. *)
Theorem exact_override_raises {B} `{BloomFilter B} (sha256 md5 sha1 : string -> string)
  cap rate d content :
  init (B := B) cap rate false = Ok d ->
  is_duplicate sha256 md5 sha1 content (Some true) d = (Err none_error, count_seen d).
Proof.
  unfold init. destruct (bloom_new _ _) as [b|e]; [|done]. by intros [= <-].
Qed.
End Dedup.

(** Witnesses with the set instance and the identity as digest. *)
Definition dd_new (exact : bool) : result pyexn (Dedup.Deduplicator (B := Z * gset string)) :=
  Dedup.init (Some 10) None exact.
Definition dd_state (exact : bool) : Dedup.Deduplicator (B := Z * gset string) :=
  Dedup.Dedup 10 (1 # 100) exact (10, ∅) (if exact then Some ∅ else None) 0 0 0.

Lemma exact_dedup_refines_witness :
  dd_new true = Ok (dd_state true) /\
  Dedup.answers id id id ["a"; "b"; "a"] (dd_state true) = [Ok false; Ok false; Ok true].
Proof.
  split; [reflexivity|].
  rewrite (Dedup.exact_dedup_refines id id id (Some 10) None (dd_state true)) by reflexivity.
  vm_compute. reflexivity.
Defined.

Lemma bloom_dedup_no_miss_witness :
  (Dedup.is_duplicate id id id "a" None (dd_state false)).1 = Ok false /\
  (Dedup.is_duplicate id id id "a" None
     (foldl (Dedup.run_op id id id) (Dedup.is_duplicate id id id "a" None (dd_state false)).2
        [Dedup.OpAdd "b"; Dedup.OpIsDuplicate "c" None])).1 = Ok true.
Proof.
  split; [reflexivity|].
  apply (Dedup.bloom_dedup_no_miss id id id "a" false (dd_state false)); reflexivity.
Defined.

Lemma exact_override_raises_witness :
  dd_new false = Ok (dd_state false) /\
  (Dedup.is_duplicate id id id "a" (Some true) (dd_state false)).1 = Err Dedup.none_error.
Proof.
  split; [reflexivity|].
  by rewrite (Dedup.exact_override_raises id id id (Some 10) None (dd_state false)) by reflexivity.
Defined.

(** ** SimilarityDeduplicator *)

Module Similarity.

(** [h & (1 << i)] as a condition *)
Definition has_bit (h : Z) (i : nat) : bool := negb (Z.land h (Z.shiftl 1 (Z.of_nat i)) =? 0).

(** [_hamming_distance]: the [while xor] loop, [None] when the fuel runs out *)
Fixpoint hamming_loop (fuel : nat) (xor distance : Z) : option Z :=
  match fuel with
  | O => None
  | S fuel' =>
      if xor =? 0 then Some distance
      else hamming_loop fuel' (Z.land xor (xor - 1)) (distance + 1)
  end.

Definition hash_bits : nat := 64.

(** Each turn clears one bit, so [hash_bits + 1] turns end the loop. *)
Definition _hamming_distance (hash1 hash2 : Z) : option Z :=
  hamming_loop (S hash_bits) (Z.lxor hash1 hash2) 0.

Definition _similarity (hash1 hash2 : Z) : option Q :=
  match _hamming_distance hash1 hash2 with
  | None => None
  | Some distance => Some (1 - inject_Z distance / inject_Z (Z.of_nat hash_bits))%Q
  end.

Section simhash.
Context (md5_int : string -> Z).

Definition vote (vector : list Z) (token : string) : list Z :=
  let token_hash := md5_int token in
  imap (fun i v => if has_bit token_hash i then v + 1 else v - 1) vector.

Definition fingerprint (vector : list Z) (bits : nat) : Z :=
  foldl (fun fp i => if 0 <? default 0 (vector !! i)
                     then Z.lor fp (Z.shiftl 1 (Z.of_nat i)) else fp) 0 (seq 0 bits).

Definition _compute_simhash (content : string) (bits : nat) : Z :=
  let tokens := split_ws (lower content) in
  fingerprint (foldl vote (replicate bits 0) tokens) bits.

Record SimilarityDeduplicator := Sim {
  similarity_threshold : Q;
  documents : gmap Z string;
  seen_count : Z;
  duplicate_count : Z }.

Definition init (threshold : Q) : SimilarityDeduplicator := Sim threshold ∅ 0 0.

(** [similarity >= self.similarity_threshold] for one stored hash *)
Definition similar (threshold : Q) (h existing : Z) : bool :=
  match _similarity h existing with Some s => Qle_bool threshold s | None => false end.

Definition is_duplicate (content : string) (d : SimilarityDeduplicator)
  : bool * SimilarityDeduplicator :=
  let seen := seen_count d + 1 in
  let h := _compute_simhash content hash_bits in
  if existsb (similar (similarity_threshold d) h) (map_to_list (documents d)).*1
  then (true, Sim (similarity_threshold d) (documents d) seen (duplicate_count d + 1))
  else (false, Sim (similarity_threshold d) (<[h := str_take 100 content]> (documents d))
                 seen (duplicate_count d)).

(** (seen, duplicates, unique, similarity_threshold) *)
Definition get_stats (d : SimilarityDeduplicator) : Z * Z * Z * Q :=
  (seen_count d, duplicate_count d, Z.of_nat (size (documents d)), similarity_threshold d).
End simhash.

(** ** Bits *)

Lemma has_bit_testbit h i : has_bit h i = Z.testbit h (Z.of_nat i).
Proof.
  unfold has_bit. rewrite Z.shiftl_1_l.
  destruct (Z.testbit h (Z.of_nat i)) eqn:E.
  - apply negb_true_iff, Z.eqb_neq. intros H0.
    assert (Z.testbit (Z.land h (2 ^ Z.of_nat i)) (Z.of_nat i) = true) as Hb.
    { rewrite Z.land_spec, E, Z.pow2_bits_true; [done|lia]. }
    by rewrite H0, Z.bits_0 in Hb.
  - apply negb_false_iff, Z.eqb_eq. apply Z.bits_inj'. intros n Hn.
    rewrite Z.land_spec, Z.bits_0, Z.pow2_bits_eqb by lia.
    destruct (Z.eqb_spec (Z.of_nat i) n) as [<-|]; [by rewrite E|apply andb_false_r].
Qed.

(** The number of set bits below [n]. *)
Fixpoint bitcount (n : nat) (x : Z) : Z :=
  match n with
  | O => 0
  | S n' => Z.b2z (Z.odd x) + bitcount n' (Z.div2 x)
  end.

Lemma bitcount_0 n : bitcount n 0 = 0.
Proof. induction n as [|n IH]; simpl; [done|]. by rewrite IH. Qed.

Lemma bitcount_bounds n x : 0 <= bitcount n x <= Z.of_nat n.
Proof.
  revert x. induction n as [|n IH]; intros x; simpl bitcount; [lia|].
  specialize (IH (Z.div2 x)). destruct (Z.odd x); simpl; lia.
Qed.

Lemma div2_range n x : 0 <= x < 2 ^ Z.of_nat (S n) -> 0 <= Z.div2 x < 2 ^ Z.of_nat n.
Proof.
  rewrite Nat2Z.inj_succ, Z.pow_succ_r by lia. intros H. rewrite Z.div2_div.
  split; [apply Z.div_pos; lia|apply Z.div_lt_upper_bound; lia].
Qed.

Lemma bitcount_zero_iff n x : 0 <= x < 2 ^ Z.of_nat n -> bitcount n x = 0 -> x = 0.
Proof.
  revert x. induction n as [|n IH]; intros x Hx Hc; simpl bitcount in Hc; [simpl in Hx; lia|].
  pose proof (bitcount_bounds n (Z.div2 x)). pose proof (Z.div2_odd x) as Hd.
  destruct (Z.odd x); simpl in Hc, Hd; [lia|].
  rewrite (IH (Z.div2 x)) in Hd; [lia|by apply div2_range|lia].
Qed.

(** [x & (x - 1)] clears the lowest set bit. *)
Lemma land_pred_even x : Z.odd x = false -> Z.land x (x - 1) = 2 * Z.land (Z.div2 x) (Z.div2 x - 1).
Proof.
  intros Ho. pose proof (Z.div2_odd x) as Hd. rewrite Ho in Hd. simpl in Hd.
  rewrite Z.add_0_r in Hd. set (y := Z.div2 x) in *. rewrite Hd.
  replace (2 * y - 1) with (2 * (y - 1) + 1) by lia.
  apply Z.bits_inj'. intros n Hn. rewrite Z.land_spec.
  destruct (decide (n = 0)) as [->|].
  - by rewrite !Z.testbit_even_0.
  - replace n with (Z.succ (n - 1)) by lia.
    rewrite !Z.testbit_even_succ, Z.testbit_odd_succ by lia. by rewrite Z.land_spec.
Qed.

Lemma land_pred_odd x : Z.odd x = true -> Z.land x (x - 1) = x - 1.
Proof.
  intros Ho. pose proof (Z.div2_odd x) as Hd. rewrite Ho in Hd. simpl in Hd.
  set (y := Z.div2 x) in *. replace (x - 1) with (2 * y) by lia. rewrite Hd.
  apply Z.bits_inj'. intros n Hn. rewrite Z.land_spec.
  destruct (decide (n = 0)) as [->|].
  - by rewrite !Z.testbit_even_0, andb_false_r.
  - replace n with (Z.succ (n - 1)) by lia.
    rewrite !Z.testbit_even_succ, Z.testbit_odd_succ by lia. apply andb_diag.
Qed.

Lemma bitcount_double n x : bitcount (S n) (2 * x) = bitcount n x.
Proof.
  simpl bitcount. rewrite Z.odd_mul. simpl (Z.odd 2 && _).
  replace (Z.div2 (2 * x)) with x; [simpl; lia|].
  rewrite Z.div2_div, Z.mul_comm, Z.div_mul; lia.
Qed.

Lemma bitcount_clear n x : 0 < x < 2 ^ Z.of_nat n ->
  bitcount n (Z.land x (x - 1)) = bitcount n x - 1 /\
  0 <= Z.land x (x - 1) < 2 ^ Z.of_nat n.
Proof.
  revert x. induction n as [|n IH]; intros x Hx; [simpl in Hx; lia|].
  pose proof (Z.div2_odd x) as Hd. destruct (Z.odd x) eqn:Ho; simpl in Hd.
  - rewrite land_pred_odd by done. split; [|lia].
    replace (x - 1) with (2 * Z.div2 x) by lia. rewrite bitcount_double.
    simpl bitcount. rewrite Ho. simpl. lia.
  - rewrite land_pred_even by done. rewrite bitcount_double.
    simpl (bitcount (S n) x). rewrite Ho.
    destruct (IH (Z.div2 x)) as [-> Hr].
    + pose proof (div2_range n x ltac:(lia)). lia.
    + split; [simpl; lia|]. rewrite Nat2Z.inj_succ, Z.pow_succ_r by lia. lia.
Qed.

Lemma hamming_loop_count n x distance fuel :
  0 <= x < 2 ^ Z.of_nat n -> bitcount n x < Z.of_nat fuel ->
  hamming_loop fuel x distance = Some (distance + bitcount n x).
Proof.
  revert x distance. induction fuel as [|fuel IH]; intros x distance Hx Hf.
  - pose proof (bitcount_bounds n x). lia.
  - simpl. destruct (Z.eqb_spec x 0) as [->|Hne].
    + rewrite bitcount_0. f_equal. lia.
    + destruct (bitcount_clear n x) as [Hc Hr]; [lia|].
      rewrite IH by (rewrite ?Hc; lia). rewrite Hc. f_equal. lia.
Qed.

(** The set bits of a number, counted position by position. *)
Definition ones (n : nat) (x : Z) : Z :=
  Z.of_nat (length (filter (fun i => Z.testbit x (Z.of_nat i) = true) (seq 0 n))).

Lemma bitcount_ones n x : bitcount n x = ones n x.
Proof.
  unfold ones. revert x. induction n as [|n IH]; intros x; [done|].
  simpl bitcount. rewrite IH. change (seq 0 (S n)) with ([0%nat] ++ seq 1 n).
  rewrite filter_app, length_app, Nat2Z.inj_add, <- fmap_S_seq, length_filter_fmap.
  rewrite filter_cons, filter_nil, Z.bit0_odd. f_equal.
  - destruct (Z.odd x); simpl; by rewrite ?decide_True, ?decide_False.
  - do 2 f_equal. apply list_filter_iff. intros i. simpl.
    rewrite Z.div2_spec, Z.shiftr_spec, Z.add_1_r, <- Nat2Z.inj_succ by lia. done.
Qed.

Lemma lxor_range n x y :
  0 <= x < 2 ^ n -> 0 <= y < 2 ^ n -> 0 <= n -> 0 <= Z.lxor x y < 2 ^ n.
Proof.
  intros Hx Hy Hn.
  assert (Z.lxor x y = Z.lxor x y mod 2 ^ n) as ->.
  { apply Z.bits_inj'. intros i Hi. destruct (decide (i < n)).
    - by rewrite Z.mod_pow2_bits_low.
    - rewrite Z.mod_pow2_bits_high, Z.lxor_spec by lia.
      rewrite <- (Z.mod_small x (2 ^ n)), <- (Z.mod_small y (2 ^ n)) by done.
      by rewrite !Z.mod_pow2_bits_high by lia. }
  apply Z.mod_pos_bound. lia.
Qed.

Lemma hamming_ones x y :
  0 <= x < 2 ^ 64 -> 0 <= y < 2 ^ 64 ->
  _hamming_distance x y = Some (ones hash_bits (Z.lxor x y)).
Proof.
  intros Hx Hy. unfold _hamming_distance.
  rewrite (hamming_loop_count hash_bits).
  - by rewrite bitcount_ones.
  - by apply lxor_range.
  - pose proof (bitcount_bounds hash_bits (Z.lxor x y)). lia.
Qed.

(** On 64-bit hashes the bit-clearing loop of [_hamming_distance]
    ends within 65 turns with the number of positions at which the two hashes
    differ. *)
Theorem hamming_distance_spec x y :
  0 <= x < 2 ^ 64 -> 0 <= y < 2 ^ 64 ->
  _hamming_distance x y
  = Some (Z.of_nat (length (filter (fun i => Z.testbit x (Z.of_nat i) <> Z.testbit y (Z.of_nat i))
                              (seq 0 64)))).
Proof.
  intros Hx Hy. rewrite hamming_ones by done. unfold ones, hash_bits. do 3 f_equal.
  apply list_filter_iff. intros i. rewrite Z.lxor_spec.
  destruct (Z.testbit x (Z.of_nat i)), (Z.testbit y (Z.of_nat i)); naive_solver.
Qed.

Lemma hamming_distance_spec_witness : _hamming_distance 5 3 = Some 2.
Proof. rewrite (hamming_distance_spec 5 3) by lia. reflexivity. Defined.

(** ** Simhash *)

Section simhash_facts.
Context (md5_int : string -> Z).

Lemma length_votes tokens v : length (foldl (vote md5_int) v tokens) = length v.
Proof.
  revert v. induction tokens as [|t ts IH]; intros v; simpl; [done|].
  rewrite IH. unfold vote. by rewrite length_imap.
Qed.

(** Tokens whose hash has bit [i], and those whose hash has not. *)
Definition for_bit (i : nat) (tokens : list string) : Z :=
  Z.of_nat (length (filter (fun t => Z.testbit (md5_int t) (Z.of_nat i) = true) tokens)).
Definition against_bit (i : nat) (tokens : list string) : Z :=
  Z.of_nat (length (filter (fun t => Z.testbit (md5_int t) (Z.of_nat i) = false) tokens)).

Lemma votes_lookup tokens v i x : v !! i = Some x ->
  foldl (vote md5_int) v tokens !! i
  = Some (x + for_bit i tokens - against_bit i tokens).
Proof.
  revert v x. induction tokens as [|t ts IH]; intros v x Hx; simpl.
  - rewrite Hx. f_equal. unfold for_bit, against_bit. simpl. lia.
  - erewrite IH.
    2: { unfold vote. rewrite list_lookup_imap, Hx. simpl. reflexivity. }
    unfold for_bit, against_bit. rewrite !filter_cons, has_bit_testbit.
    destruct (Z.testbit (md5_int t) (Z.of_nat i)); simpl;
      rewrite ?Nat2Z.inj_succ; f_equal; lia.
Qed.

Lemma fingerprint_bits (vector : list Z) bits :
  0 <= fingerprint vector bits < 2 ^ Z.of_nat bits /\
  forall i, Z.testbit (fingerprint vector bits) (Z.of_nat i)
            = (i <? bits)%nat && (0 <? default 0 (vector !! i)).
Proof.
  unfold fingerprint. induction bits as [|n [IHr IHb]].
  - split; [simpl; lia|]. intros i. simpl. apply Z.bits_0.
  - rewrite seq_S, foldl_snoc. simpl (0 + n)%nat.
    set (fp := foldl _ 0 (seq 0 n)) in *.
    assert (2 ^ Z.of_nat (S n) = 2 * 2 ^ Z.of_nat n) as Hp
      by (rewrite Nat2Z.inj_succ, Z.pow_succ_r; lia).
    destruct (0 <? default 0 (vector !! n)) eqn:Hn.
    + assert (Z.lor fp (Z.shiftl 1 (Z.of_nat n)) = fp + 2 ^ Z.of_nat n) as Hadd.
      { rewrite Z.shiftl_1_l. symmetry. rewrite <- Z.lxor_lor, <- Z.add_nocarry_lxor; [done|..];
          (apply Z.bits_inj'; intros k Hk; rewrite Z.land_spec, Z.bits_0, Z.pow2_bits_eqb by lia;
           destruct (Z.eqb_spec (Z.of_nat n) k) as [<-|]; [|apply andb_false_r];
           rewrite IHb, Nat.ltb_irrefl; done). }
      split; [rewrite Hadd; lia|].
      intros i. rewrite Z.lor_spec, IHb, Z.shiftl_1_l, Z.pow2_bits_eqb by lia.
      destruct (Nat.ltb_spec i n), (Nat.ltb_spec i (S n)), (Z.eqb_spec (Z.of_nat n) (Z.of_nat i));
        simpl; try lia; rewrite ?orb_false_r; try done.
      replace i with n by lia. by rewrite Hn.
    + split; [lia|]. intros i. rewrite IHb.
      destruct (Nat.ltb_spec i n), (Nat.ltb_spec i (S n)); simpl; try lia; try done.
      replace i with n by lia. by rewrite Hn.
Qed.

Lemma simhash_range content :
  0 <= _compute_simhash md5_int content hash_bits < 2 ^ 64.
Proof. apply (fingerprint_bits _ hash_bits). Qed.

(** Bit [i] of the simhash of a content is set exactly when [i < 64] and
    more tokens have that bit in their MD5 value than have not; the simhash
    is a 64-bit number. *)
Theorem simhash_majority content :
  let tokens := split_ws (lower content) in
  let h := _compute_simhash md5_int content hash_bits in
  0 <= h < 2 ^ 64 /\
  forall i, Z.testbit h (Z.of_nat i)
            = (i <? 64)%nat && (against_bit i tokens <? for_bit i tokens).
Proof.
  intros tokens h. split; [apply simhash_range|]. intros i.
  unfold h, _compute_simhash. rewrite (proj2 (fingerprint_bits _ _)). fold tokens.
  destruct (Nat.ltb_spec i hash_bits) as [Hi|Hi].
  - erewrite votes_lookup by (apply lookup_replicate_2; exact Hi). simpl default.
    rewrite (proj2 (Nat.ltb_lt i 64) Hi). simpl.
    destruct (Z.ltb_spec 0 (0 + for_bit i tokens - against_bit i tokens)),
      (Z.ltb_spec (against_bit i tokens) (for_bit i tokens)); lia || done.
  - by rewrite (proj2 (Nat.ltb_ge i 64) Hi).
Qed.

(** ** The documents kept are pairwise dissimilar *)

Definition run (d : SimilarityDeduplicator) (contents : list string) : SimilarityDeduplicator :=
  foldl (fun d c => (is_duplicate md5_int c d).2) d contents.

Lemma existsb_keys (f : Z -> bool) (m : gmap Z string) :
  existsb f (map_to_list m).*1 = true <-> exists k v, m !! k = Some v /\ f k = true.
Proof.
  rewrite existsb_exists. setoid_rewrite <- list_elem_of_In.
  setoid_rewrite list_elem_of_fmap. split.
  - intros (k & ([k' v] & -> & Hkv%elem_of_map_to_list) & Hf). by exists k', v.
  - intros (k & v & Hkv & Hf). exists k. split; [|done]. exists (k, v).
    split; [done|]. by apply elem_of_map_to_list.
Qed.

Lemma similar_sym threshold h k : similar threshold h k = similar threshold k h.
Proof. unfold similar, _similarity, _hamming_distance. by rewrite Z.lxor_comm. Qed.

Lemma similar_refl threshold h : (threshold <= 1)%Q -> similar threshold h h = true.
Proof.
  intros Ht. unfold similar, _similarity, _hamming_distance. rewrite Z.lxor_nilpotent.
  change (hamming_loop (S hash_bits) 0 0) with (Some 0). cbv beta iota.
  apply Qle_bool_iff. eapply Qle_trans; [exact Ht|]. vm_compute. discriminate.
Qed.

#[local] Opaque _compute_simhash similar.

Record sim_ok (d : SimilarityDeduplicator) : Prop := {
  ok_distinct h k : is_Some (documents d !! h) -> is_Some (documents d !! k) -> h <> k ->
    similar (similarity_threshold d) h k = false;
  ok_count : (similarity_threshold d <= 1)%Q ->
    seen_count d = duplicate_count d + Z.of_nat (size (documents d)) }.

Lemma is_duplicate_ok c d : sim_ok d -> sim_ok (is_duplicate md5_int c d).2.
Proof.
  intros [Hd Hc]. unfold is_duplicate.
  set (h := _compute_simhash md5_int c hash_bits).
  destruct (existsb _ _) eqn:He; simpl.
  - split; simpl; [done|]. intros Ht. specialize (Hc Ht). lia.
  - assert (forall k, is_Some (documents d !! k) -> similar (similarity_threshold d) h k = false) as Hh.
    { intros k [v Hv]. apply not_true_iff_false. intros Hs. apply not_true_iff_false in He.
      apply He, existsb_keys. eauto. }
    split; simpl.
    + intros k1 k2. rewrite !lookup_insert_is_Some'. intros [<-|H1] [<-|H2] Hne;
        [done|by apply Hh|rewrite similar_sym; by apply Hh|by apply Hd].
    + intros Ht. specialize (Hc Ht). rewrite map_size_insert_None; [lia|].
      apply eq_None_not_Some. intros Hs%Hh. by rewrite similar_refl in Hs.
Qed.


Lemma is_duplicate_grows c d : (similarity_threshold d <= 1)%Q ->
  similarity_threshold (is_duplicate md5_int c d).2 = similarity_threshold d /\
  documents d ⊆ documents (is_duplicate md5_int c d).2.
Proof.
  intros Ht. unfold is_duplicate. destruct (existsb _ _) eqn:He; simpl; [done|]. split; [done|].
  apply insert_subseteq, eq_None_not_Some. intros [v Hv].
  apply not_true_iff_false in He. apply He, existsb_keys.
  eexists _, v. split; [done|]. by apply similar_refl.
Qed.

Lemma run_grows contents d : (similarity_threshold d <= 1)%Q ->
  similarity_threshold (run d contents) = similarity_threshold d /\
  documents d ⊆ documents (run d contents).
Proof.
  revert d. induction contents as [|c cs IH]; intros d Ht; [done|].
  destruct (is_duplicate_grows c d Ht) as [E Hsub].
  destruct (IH (is_duplicate md5_int c d).2) as [E' Hsub']; [by rewrite E|].
  split; simpl; [by rewrite E', E|by etrans].
Qed.

Lemma is_duplicate_iff c d : (is_duplicate md5_int c d).1 = true <->
  exists k v, documents d !! k = Some v /\
    similar (similarity_threshold d) (_compute_simhash md5_int c hash_bits) k = true.
Proof. rewrite <- existsb_keys. unfold is_duplicate. by destruct (existsb _ _). Qed.

Lemma duplicate_grows c d d' : similarity_threshold d' = similarity_threshold d ->
  documents d ⊆ documents d' ->
  (is_duplicate md5_int c d).1 = true -> (is_duplicate md5_int c d').1 = true.
Proof.
  rewrite !is_duplicate_iff. intros -> Hsub (k & v & Hk & Hs).
  exists k, v. split; [|done]. by eapply lookup_weaken.
Qed.

Lemma duplicate_again c d : (similarity_threshold d <= 1)%Q ->
  (is_duplicate md5_int c (is_duplicate md5_int c d).2).1 = true.
Proof.
  intros Ht. destruct (is_duplicate md5_int c d).1 eqn:E.
  - destruct (is_duplicate_grows c d Ht) as [E1 E2]. by eapply duplicate_grows.
  - apply is_duplicate_iff. unfold is_duplicate in *. destruct (existsb _ _); [done|]. simpl.
    eexists _, _. split; [apply lookup_insert_eq|]. by apply similar_refl.
Qed.

(** Whatever contents a new similarity deduplicator is given, the hashes
    it keeps are pairwise less similar than the threshold; with a threshold of
    at most 1, every call is counted once as a duplicate or a kept document,
    and a content seen before is reported as a duplicate. *)
Theorem similarity_dedup_ok threshold contents :
  let d := run (init threshold) contents in
  (forall h k, is_Some (documents d !! h) -> is_Some (documents d !! k) -> h <> k ->
     similar threshold h k = false) /\
  ((threshold <= 1)%Q ->
     seen_count d = duplicate_count d + Z.of_nat (size (documents d)) /\
     (forall c, c ∈ contents -> (is_duplicate md5_int c d).1 = true)).
Proof.
  intros d.
  assert (sim_ok d) as [Hd Hc].
  { unfold d, run. apply foldl_invariant; [intros; by apply is_duplicate_ok|].
    split; simpl; [|done]. intros h k [v Hv]. by rewrite lookup_empty in Hv. }
  assert (similarity_threshold d = threshold) as Et.
  { unfold d, run. apply (foldl_invariant _ (fun d => similarity_threshold d = threshold)); [|done].
    intros s c _ <-. unfold is_duplicate. by destruct (existsb _ _). }
  rewrite Et in *. split; [done|]. intros Ht. split; [by apply Hc|].
  clear Hd Hc Et. intros c (l1 & l2 & Hl)%list_elem_of_split. unfold d, run.
  rewrite Hl, foldl_app. simpl. set (d1 := foldl _ (init threshold) l1).
  assert (similarity_threshold d1 = threshold) as E1 by apply (run_grows l1 (init threshold) Ht).
  destruct (is_duplicate_grows c d1) as [E2 _]; [by rewrite E1|].
  destruct (run_grows l2 (is_duplicate md5_int c d1).2) as [E3 E4]; [by rewrite E2, E1|].
  eapply duplicate_grows; [exact E3|exact E4|]. apply duplicate_again. by rewrite E1.
Qed.
End simhash_facts.
End Similarity.

Lemma similarity_dedup_ok_witness :
  let h := fun s => Z.of_nat (String.length s) in
  let d := Similarity.run h (Similarity.init (9 # 10)) ["aa b"; "Aa  B"] in
  Similarity.seen_count d = 2 /\ (Similarity.is_duplicate h "aa b" d).1 = true.
Proof.
  intros h d. split; [vm_compute; reflexivity|].
  apply (Similarity.similarity_dedup_ok h (9 # 10) ["aa b"; "Aa  B"]).
  - unfold Qle. simpl. lia.
  - by left.
Defined.
