(* ===== verification/Redis.v ===== *)
(** * The Redis server

    The crawler keeps its state in Redis, through the redis.asyncio client.
    The commands it sends are a typeclass; [RedisLaws] states what the Redis
    documentation says of them, against a reference keyspace with one map per
    value type (the code never uses one key at two types).  [keyspace] itself
    is an instance, so every theorem about a client can be evaluated.

    A hash field holds a string or a number: [str(x)] written and read back
    with [float] or [int] is [x]. *)

From S2P Require Import Prelude PyStr.

Inductive rfield := FStr (s : string) | FNum (q : Q).

Record keyspace := KS {
  kbits : gmap string (gset Z);
  kzsets : gmap string (gmap string Q);
  klists : gmap string (list string);
  ksets : gmap string (gset string);
  khashes : gmap string (gmap string rfield) }.

Definition ks_empty : keyspace := KS ∅ ∅ ∅ ∅ ∅.

(** ** Reference semantics of the commands *)

Definition ks_bits (k : string) (s : keyspace) : gset Z := default ∅ (kbits s !! k).
Definition ks_zset (k : string) (s : keyspace) : gmap string Q := default ∅ (kzsets s !! k).
Definition ks_list (k : string) (s : keyspace) : list string := default [] (klists s !! k).
Definition ks_set (k : string) (s : keyspace) : gset string := default ∅ (ksets s !! k).
Definition ks_hash (k : string) (s : keyspace) : gmap string rfield := default ∅ (khashes s !! k).

Definition ks_getbit (k : string) (p : Z) (s : keyspace) : bool := bool_decide (p ∈ ks_bits k s).
Definition ks_setbit (k : string) (p : Z) (b : bool) (s : keyspace) : keyspace :=
  let bits := if b then {[p]} ∪ ks_bits k s else ks_bits k s ∖ {[p]} in
  KS (<[k := bits]> (kbits s)) (kzsets s) (klists s) (ksets s) (khashes s).
Definition ks_bitcount (k : string) (s : keyspace) : Z := Z.of_nat (size (ks_bits k s)).

(** Members of a sorted set: ascending score, then member. *)
Definition zle (x y : string * Q) : Prop :=
  (x.2 < y.2)%Q \/ ((x.2 == y.2)%Q /\ String.le x.1 y.1).
#[export] Instance zle_dec x y : Decision (zle x y).
Proof.
  unfold zle. destruct (Qlt_le_dec x.2 y.2) as [H|H]; [left; by left|].
  destruct (Qeq_dec x.2 y.2) as [E|E]; [|right; intros [?|[? _]]; [lra|done]].
  destruct (decide (String.le x.1 y.1)); [left; by right|right; intros [?|[_ ?]]; [lra|done]].
Defined.
#[export] Instance zle_total : Total zle.
Proof.
  intros [a x] [b y]. unfold zle; simpl. destruct (Q_dec x y) as [[H|H]|H]; [tauto|tauto|].
  destruct (total String.le a b); [left|right]; right; split; try done; lra.
Qed.
#[export] Instance zle_trans : Transitive zle.
Proof.
  intros [a x] [b y] [c z]; unfold zle; simpl. intros [H1|[H1 H1']] [H2|[H2 H2']].
  - left; lra.
  - left; lra.
  - left; lra.
  - right. split; [lra|by etrans].
Qed.

Definition ks_zranking (k : string) (s : keyspace) : list (string * Q) :=
  merge_sort zle (map_to_list (ks_zset k s)).
(** ZRANGE with [0 <= start <= stop], both ends included *)
Definition ks_zrange (k : string) (start stop : nat) (s : keyspace) : list string :=
  take (S stop - start) (drop start (ks_zranking k s)).*1.
Definition ks_zadd (k member : string) (score : Q) (s : keyspace) : keyspace :=
  KS (kbits s) (<[k := <[member := score]> (ks_zset k s)]> (kzsets s)) (klists s) (ksets s) (khashes s).
Definition ks_zrem (k member : string) (s : keyspace) : keyspace :=
  KS (kbits s) (<[k := delete member (ks_zset k s)]> (kzsets s)) (klists s) (ksets s) (khashes s).
Definition ks_zcard (k : string) (s : keyspace) : Z := Z.of_nat (size (ks_zset k s)).

(** LREM with a positive count: the first [n] occurrences. *)
Fixpoint remove_first (n : nat) (v : string) (l : list string) : list string :=
  match n, l with
  | S n', x :: l' => if String.eqb x v then remove_first n' v l' else x :: remove_first n v l'
  | _, _ => l
  end.
Definition ks_put_list (k : string) (l : list string) (s : keyspace) : keyspace :=
  KS (kbits s) (kzsets s) (<[k := l]> (klists s)) (ksets s) (khashes s).
Definition ks_rpush (k v : string) (s : keyspace) : keyspace := ks_put_list k (ks_list k s ++ [v]) s.
Definition ks_lrem (k : string) (n : nat) (v : string) (s : keyspace) : keyspace :=
  ks_put_list k (remove_first n v (ks_list k s)) s.

Definition ks_sadd (k v : string) (s : keyspace) : keyspace :=
  KS (kbits s) (kzsets s) (klists s) (<[k := {[v]} ∪ ks_set k s]> (ksets s)) (khashes s).

Definition ks_put_hash (k : string) (h : gmap string rfield) (s : keyspace) : keyspace :=
  KS (kbits s) (kzsets s) (klists s) (ksets s) (<[k := h]> (khashes s)).
Definition ks_hset (k f : string) (v : rfield) (s : keyspace) : keyspace :=
  ks_put_hash k (<[f := v]> (ks_hash k s)) s.
(** HINCRBY of a field that is absent or a number *)
Definition ks_hincrby (k f : string) (n : Z) (s : keyspace) : keyspace :=
  let old := match ks_hash k s !! f with Some (FNum q) => q | _ => 0%Q end in
  ks_hset k f (FNum (old + inject_Z n)) s.

Definition ks_delete_prefix (p : string) (s : keyspace) : keyspace :=
  KS (filter (fun kv => startswith p kv.1 = false) (kbits s))
     (filter (fun kv => startswith p kv.1 = false) (kzsets s))
     (filter (fun kv => startswith p kv.1 = false) (klists s))
     (filter (fun kv => startswith p kv.1 = false) (ksets s))
     (filter (fun kv => startswith p kv.1 = false) (khashes s)).

(** ** The client *)

Class Redis (R : Type) := {
  getbit : string -> Z -> R -> bool;
  setbit : string -> Z -> bool -> R -> R;
  bitcount : string -> R -> Z;
  zadd : string -> string -> Q -> R -> R;
  zrem : string -> string -> R -> R;
  zrange : string -> nat -> nat -> R -> list string;
  zcard : string -> R -> Z;
  rpush : string -> string -> R -> R;
  lrem : string -> nat -> string -> R -> R;
  llen : string -> R -> Z;
  sadd : string -> string -> R -> R;
  smembers : string -> R -> gset string;
  scard : string -> R -> Z;
  hset : string -> string -> rfield -> R -> R;
  hget : string -> string -> R -> option rfield;
  hgetall : string -> R -> gmap string rfield;
  hincrby : string -> string -> Z -> R -> R;
  delete_prefix : string -> R -> R }.

(** [delete_prefix p] is SCAN with the pattern [p*] followed by DEL of what
    it found. *)
Class RedisLaws (R : Type) `{Redis R} := {
  view : R -> keyspace;
  view_getbit k p r : getbit k p r = ks_getbit k p (view r);
  view_setbit k p b r : view (setbit k p b r) = ks_setbit k p b (view r);
  view_bitcount k r : bitcount k r = ks_bitcount k (view r);
  view_zadd k m x r : view (zadd k m x r) = ks_zadd k m x (view r);
  view_zrem k m r : view (zrem k m r) = ks_zrem k m (view r);
  view_zrange k a b r : zrange k a b r = ks_zrange k a b (view r);
  view_zcard k r : zcard k r = ks_zcard k (view r);
  view_rpush k v r : view (rpush k v r) = ks_rpush k v (view r);
  view_lrem k n v r : view (lrem k n v r) = ks_lrem k n v (view r);
  view_llen k r : llen k r = zlength (ks_list k (view r));
  view_sadd k v r : view (sadd k v r) = ks_sadd k v (view r);
  view_smembers k r : smembers k r = ks_set k (view r);
  view_scard k r : scard k r = Z.of_nat (size (ks_set k (view r)));
  view_hset k f v r : view (hset k f v r) = ks_hset k f v (view r);
  view_hget k f r : hget k f r = ks_hash k (view r) !! f;
  view_hgetall k r : hgetall k r = ks_hash k (view r);
  view_hincrby k f n r : view (hincrby k f n r) = ks_hincrby k f n (view r);
  view_delete_prefix p r : view (delete_prefix p r) = ks_delete_prefix p (view r) }.

Create Rewrite HintDb redis.
#[export] Hint Rewrite @view_getbit @view_setbit @view_bitcount @view_zadd @view_zrem @view_zrange
  @view_zcard @view_rpush @view_lrem @view_llen @view_sadd @view_smembers @view_scard
  @view_hset @view_hget @view_hgetall @view_hincrby @view_delete_prefix using typeclasses eauto : redis.

#[export] Instance keyspace_redis : Redis keyspace := {
  getbit := ks_getbit; setbit := ks_setbit; bitcount := ks_bitcount;
  zadd := ks_zadd; zrem := ks_zrem; zrange := ks_zrange; zcard := ks_zcard;
  rpush := ks_rpush; lrem := ks_lrem; llen k s := zlength (ks_list k s);
  sadd := ks_sadd; smembers := ks_set; scard k s := Z.of_nat (size (ks_set k s));
  hset := ks_hset; hget k f s := ks_hash k s !! f; hgetall := ks_hash;
  hincrby := ks_hincrby; delete_prefix := ks_delete_prefix }.

#[export] Instance keyspace_laws : RedisLaws keyspace.
Proof. exists (fun s => s); done. Defined.

(** ** Facts about the reference semantics *)

Lemma ks_bits_setbit k p b k' s :
  ks_bits k' (ks_setbit k p b s)
  = if decide (k = k') then (if b then {[p]} ∪ ks_bits k s else ks_bits k s ∖ {[p]})
    else ks_bits k' s.
Proof.
  unfold ks_bits at 1, ks_setbit. simpl.
  destruct (decide (k = k')) as [<-|]; by rewrite ?lookup_insert_eq, ?lookup_insert_ne.
Qed.

Lemma ks_zset_zadd k m x k' s :
  ks_zset k' (ks_zadd k m x s) = if decide (k = k') then <[m := x]> (ks_zset k s) else ks_zset k' s.
Proof.
  unfold ks_zset at 1, ks_zadd. simpl.
  destruct (decide (k = k')) as [<-|]; by rewrite ?lookup_insert_eq, ?lookup_insert_ne.
Qed.

Lemma ks_zset_zrem k m k' s :
  ks_zset k' (ks_zrem k m s) = if decide (k = k') then delete m (ks_zset k s) else ks_zset k' s.
Proof.
  unfold ks_zset at 1, ks_zrem. simpl.
  destruct (decide (k = k')) as [<-|]; by rewrite ?lookup_insert_eq, ?lookup_insert_ne.
Qed.

Lemma ks_list_put k l k' s :
  ks_list k' (ks_put_list k l s) = if decide (k = k') then l else ks_list k' s.
Proof.
  unfold ks_list at 1, ks_put_list. simpl.
  destruct (decide (k = k')) as [<-|]; by rewrite ?lookup_insert_eq, ?lookup_insert_ne.
Qed.

Lemma ks_hash_put k h k' s :
  ks_hash k' (ks_put_hash k h s) = if decide (k = k') then h else ks_hash k' s.
Proof.
  unfold ks_hash at 1, ks_put_hash. simpl.
  destruct (decide (k = k')) as [<-|]; by rewrite ?lookup_insert_eq, ?lookup_insert_ne.
Qed.

Lemma elem_of_zranking k s m x : (m, x) ∈ ks_zranking k s <-> ks_zset k s !! m = Some x.
Proof. unfold ks_zranking. by rewrite merge_sort_Permutation, elem_of_map_to_list. Qed.

Lemma ks_zranking_sorted k s : StronglySorted zle (ks_zranking k s).
Proof. apply Sorted_StronglySorted; [apply _|]. apply Sorted_merge_sort; apply _. Qed.

Lemma length_zranking k s : length (ks_zranking k s) = size (ks_zset k s).
Proof. unfold ks_zranking. by rewrite merge_sort_Permutation, length_map_to_list. Qed.

Lemma elem_of_remove_first n v l x : x ∈ l -> x <> v -> x ∈ remove_first n v l.
Proof.
  intros Hx Hne. revert n Hx. induction l as [|y l IH]; intros [|n] Hx; simpl; try done.
  apply elem_of_cons in Hx. destruct (String.eqb_spec y v) as [->|].
  - destruct Hx as [->|Hx]; [done|by apply IH].
  - destruct Hx as [->|Hx]; [by left|right; by apply IH].
Qed.

(** In a ZRANGE from the start, members of smaller score come first. *)
Lemma zrange_before k stop s pre m post :
  ks_zrange k 0 stop s = pre ++ m :: post ->
  exists x, ks_zset k s !! m = Some x /\
    forall u y, ks_zset k s !! u = Some y -> (y < x)%Q -> u ∈ pre.
Proof.
  unfold ks_zrange. rewrite drop_0. intros E.
  assert ((ks_zranking k s).*1 = pre ++ m :: post ++ drop (S stop - 0) (ks_zranking k s).*1) as Hr.
  { by rewrite <- (take_drop (S stop - 0) (ks_zranking k s).*1) at 1; rewrite E, <- app_assoc. }
  apply fmap_app_inv in Hr as (l1 & l2 & E1 & E2 & Hr).
  symmetry in E2. apply fmap_cons_inv in E2 as ([m' x] & l3 & -> & _ & ->). simpl in *.
  exists x. split; [apply elem_of_zranking; rewrite Hr; set_solver|].
  intros u y Hu Hlt. apply elem_of_zranking in Hu. rewrite Hr in Hu.
  pose proof (ks_zranking_sorted k s) as Hs. rewrite Hr in Hs.
  apply elem_of_app in Hu as [Hu|[Hu|Hu]%elem_of_cons].
  - rewrite E1. apply list_elem_of_fmap. by exists (u, y).
  - simplify_eq. lra.
  - apply StronglySorted_app_1_r in Hs. apply StronglySorted_inv in Hs as [_ Hf].
    rewrite Forall_forall in Hf. specialize (Hf _ Hu). unfold zle in Hf. simpl in Hf. lra.
Qed.
