(* ===== verification/Url.v ===== *)
(** * URLs: parsing, normal forms and priorities
    (document_processor/crawling/url_frontier.py, and [urllib.parse])

    [urlparse] is the standard library's, on ASCII strings.  The validity of
    a bracketed (IPv6) host is the variable [bracketed_ok]. *)

From S2P Require Import Prelude PyStr.
From Stdlib Require Import Ascii.

Record ParseResult := Parsed {
  scheme : string;
  netloc : string;
  path : string;
  params : string;
  query : string;
  fragment : string }.

Definition is_alpha (c : ascii) : bool :=
  let n := nat_of_ascii (lower_char c) in (97 <=? n)%nat && (n <=? 122)%nat.
Definition is_digit (c : ascii) : bool :=
  let n := nat_of_ascii c in (48 <=? n)%nat && (n <=? 57)%nat.
(** [urllib.parse.scheme_chars] *)
Definition is_scheme_char (c : ascii) : bool :=
  is_alpha c || is_digit c || char_in c "+-.".
(** Characters stripped on the left, and removed everywhere. *)
Definition is_c0_or_space (c : ascii) : bool := (nat_of_ascii c <=? 32)%nat.
Definition is_unsafe (c : ascii) : bool :=
  let n := nat_of_ascii c in (n =? 9)%nat || (n =? 10)%nat || (n =? 13)%nat.
Definition is_netloc_end (c : ascii) : bool := char_in c "/?#".

Definition uses_params : list string :=
  [""; "ftp"; "hdl"; "prospero"; "http"; "https"; "shttp"; "rtsp"; "rtsps"; "sip"; "sips";
   "mms"; "sftp"; "tel"].

(** The part of a path from its last slash on (all of it when it has none). *)
Fixpoint last_segment (s : string) : string * string :=
  match s with
  | EmptyString => (EmptyString, EmptyString)
  | String c s' => if char_in "/" s' then let '(h, t) := last_segment s' in (String c h, t)
                   else (EmptyString, s)
  end.

Definition split_params (url : string) : string * string :=
  let '(h, t) := last_segment url in
  match split_once ";" t with
  | None => (url, "")
  | Some (a, b) => (h +:+ a, b)
  end.

(** [url.split(c, 1)] when [c] occurs, else the whole and the empty string *)
Definition cut (c : ascii) (s : string) : string * string :=
  match split_once c s with None => (s, "") | Some ab => ab end.

Definition split_scheme (url : string) : string * string :=
  match split_once ":" url with
  | Some (String c a, rest) =>
      if is_alpha c && str_forallb is_scheme_char (String c a)
      then (lower (String c a), rest) else ("", url)
  | _ => ("", url)
  end.

Section urlparse.
Context (bracketed_ok : string -> bool).

Definition netloc_ok (n : string) : bool :=
  Bool.eqb (char_in "[" n) (char_in "]" n) && (negb (char_in "[" n) || bracketed_ok n).

Definition urlparse (url0 : string) : result pyexn ParseResult :=
  let url := remove_chars is_unsafe (lstrip is_c0_or_space url0) in
  let '(sch, rest) := split_scheme url in
  let '(net, rest) := if startswith "//" rest then span is_netloc_end (str_drop 2 rest) else ("", rest) in
  if negb (netloc_ok net) then Err (PyExn "ValueError" "Invalid IPv6 URL")
  else
    let '(rest, frag) := cut "#" rest in
    let '(rest, qry) := cut "?" rest in
    let '(pth, par) := if bool_decide (sch ∈ uses_params) then split_params rest else (rest, "") in
    Ok (Parsed sch net pth par qry frag).

Definition _extract_domain (url : string) : result pyexn string :=
  match urlparse url with Err e => Err e | Ok p => Ok (lower (netloc p)) end.

(** The default-port suffix, removed once. *)
Definition strip_port (sch net : string) : string :=
  if endswith ":80" net && String.eqb sch "http"
  then str_take (String.length net - 3) net
  else if endswith ":443" net && String.eqb sch "https"
  then str_take (String.length net - 4) net
  else net.

Definition strip_slashes (p : string) : string :=
  let r := rstrip (Ascii.eqb "/") p in if String.eqb r "" then "/" else r.

Definition sort_query (q : string) : string :=
  if String.eqb q "" then "" else join "&" (sorted_strings (split "&" q)).

Definition print_url (sch net pth qry : string) : string :=
  sch +:+ "://" +:+ net +:+ pth +:+ (if String.eqb qry "" then "" else String "?" qry).

Definition _normalize_url (url : string) : result pyexn string :=
  match urlparse url with
  | Err e => Err e
  | Ok p =>
      let sch := lower (scheme p) in
      let net := strip_port sch (lower (netloc p)) in
      let pth := strip_slashes (path p) in
      let qry := sort_query (query p) in
      Ok (print_url sch net pth qry)
  end.

(** ** PriorityCalculator.calculate_priority *)

Definition calculate_priority (url : string) (depth : Z) (parent_priority : Q) (is_seed : bool)
  (anchor_text_relevance domain_authority : Q) : result pyexn Q :=
  let priority := (if is_seed then 1000 else 0)%Q in
  let depth_decay := ((8 # 10) ^ depth)%Q in
  let priority := (priority + parent_priority * (1 # 2) * depth_decay)%Q in
  let priority := (priority + anchor_text_relevance * 100)%Q in
  let priority := (priority + domain_authority * 50)%Q in
  match urlparse url with
  | Err e => Err e
  | Ok p =>
      let path_depth := zlength (filter (fun s => negb (String.eqb s "")) (split "/" (path p))) in
      let priority := (priority - inject_Z path_depth * 2)%Q in
      let priority := if String.eqb (query p) "" then priority
                      else (priority - inject_Z (zlength (split "&" (query p))) * 5)%Q in
      Ok (if String.eqb (scheme p) "https" then (priority + 5)%Q else priority)
  end.
End urlparse.

(** ** Printing and parsing back *)

(** Components as a well-formed absolute URL has them. *)
Record wf_url (sch net pth qry : string) : Prop := {
  wf_scheme_alpha : match sch with String c _ => is_alpha c = true | EmptyString => False end;
  wf_scheme_chars : str_forallb is_scheme_char sch = true;
  wf_netloc_chars : str_forallb (fun c => negb (is_netloc_end c || is_unsafe c || char_in c "[]")) net = true;
  wf_path_root : startswith "/" pth = true;
  wf_path_chars : str_forallb (fun c => negb (is_unsafe c || char_in c "?#;")) pth = true;
  wf_query_chars : str_forallb (fun c => negb (is_unsafe c || Ascii.eqb c "#")) qry = true }.

Lemma char_in_negb c s (f : ascii -> bool) :
  str_forallb (fun c => negb (f c)) s = true -> f c = true -> char_in c s = false.
Proof. intros Hs Hc. eapply str_forallb_char_in; [exact Hs|]. simpl. by rewrite Hc. Qed.

Lemma last_segment_app s : (last_segment s).1 +:+ (last_segment s).2 = s.
Proof.
  induction s as [|c s IH]; [done|]. simpl. destruct (char_in "/" s); [|done].
  destruct (last_segment s) as [h t]. simpl in *. rewrite app_string_cons. by rewrite IH.
Qed.

Lemma split_params_none s : char_in ";" s = false -> split_params s = (s, "").
Proof.
  intros Hs. unfold split_params. pose proof (last_segment_app s) as Ha.
  destruct (last_segment s) as [h t]. simpl in Ha. rewrite split_once_None; [done|].
  rewrite <- Ha, char_in_app in Hs. by apply orb_false_iff in Hs as [_ ?].
Qed.

Lemma cut_none c s : char_in c s = false -> cut c s = (s, "").
Proof. intros. unfold cut. by rewrite split_once_None. Qed.

Lemma cut_app c a b : char_in c a = false -> cut c (a +:+ String c b) = (a, b).
Proof. intros. unfold cut. by rewrite split_once_app. Qed.

Lemma is_alpha_printable c : is_alpha c = true -> is_c0_or_space c = false.
Proof. by destruct c as [[] [] [] [] [] [] [] []]. Qed.

Lemma scheme_char_safe c : is_scheme_char c = true -> negb (is_unsafe c || Ascii.eqb c ":") = true.
Proof. by destruct c as [[] [] [] [] [] [] [] []]. Qed.

Lemma split_scheme_print sch rest :
  match sch with String c _ => is_alpha c = true | EmptyString => False end ->
  str_forallb is_scheme_char sch = true ->
  split_scheme (sch +:+ String ":" rest) = (lower sch, rest).
Proof.
  intros Ha Hs. unfold split_scheme. rewrite split_once_app.
  - destruct sch as [|c a]; [done|]. by rewrite Ha, Hs.
  - eapply (char_in_negb _ _ (fun c => is_unsafe c || Ascii.eqb c ":")); [|done].
    eapply str_forallb_impl; [apply scheme_char_safe|done].
Qed.

Lemma print_url_safe sch net pth qry : wf_url sch net pth qry ->
  str_forallb (fun c => negb (is_unsafe c)) (print_url sch net pth qry) = true.
Proof.
  intros [_ Hs Hn _ Hp Hq]. unfold print_url. rewrite !str_forallb_app.
  assert (forall f s, str_forallb (fun c => negb (is_unsafe c || f c)) s = true ->
                      str_forallb (fun c => negb (is_unsafe c)) s = true) as Hw.
  { intros f s. apply str_forallb_impl. intros c. by destruct (is_unsafe c). }
  rewrite (Hw (fun c => Ascii.eqb c ":") sch)
    by (eapply str_forallb_impl; [apply scheme_char_safe|done]).
  rewrite (Hw (fun c => is_netloc_end c || char_in c "[]") net).
  2: { eapply str_forallb_impl; [|exact Hn]. intros c. simpl.
       by destruct (is_unsafe c), (is_netloc_end c), (char_in c "[]"). }
  rewrite (Hw _ pth Hp). destruct (String.eqb qry ""); [done|].
  simpl. exact (Hw _ qry Hq).
Qed.

Section roundtrip.
Context (bracketed_ok : string -> bool).

Lemma netloc_ok_wf net : str_forallb (fun c => negb (is_netloc_end c || is_unsafe c || char_in c "[]")) net = true ->
  netloc_ok bracketed_ok net = true.
Proof.
  intros Hn. unfold netloc_ok.
  rewrite (char_in_negb "[" net _ Hn) by done. by rewrite (char_in_negb "]" net _ Hn) by done.
Qed.

(** Parsing inverts printing, with the scheme lowercased. *)
Lemma urlparse_print sch net pth qry : wf_url sch net pth qry ->
  urlparse bracketed_ok (print_url sch net pth qry) = Ok (Parsed (lower sch) net pth "" qry "").
Proof.
  intros Hwf. pose proof (print_url_safe _ _ _ _ Hwf) as Hsafe.
  destruct Hwf as [Ha Hs Hn Hr Hp Hq]. unfold urlparse.
  assert (lstrip is_c0_or_space (print_url sch net pth qry) = print_url sch net pth qry) as ->.
  { destruct sch as [|c a]; [done|]. unfold print_url. rewrite !app_string_cons. simpl.
    by rewrite (is_alpha_printable c Ha). }
  rewrite remove_chars_id by done. unfold print_url.
  set (tl := pth +:+ _).
  change ("://" +:+ net +:+ tl) with (String ":" (String "/" (String "/" (net +:+ tl)))).
  rewrite (split_scheme_print sch _ Ha Hs). change (startswith "//" (String "/" (String "/" (net +:+ tl)))) with
    (startswith "" (net +:+ tl)). simpl (str_drop 2 _).
  assert (startswith "" (net +:+ tl) = true) as -> by (by destruct (net +:+ tl)).
  rewrite span_app.
  2: { eapply str_forallb_impl; [|exact Hn]. intros c. simpl. by destruct (is_netloc_end c). }
  2: { unfold tl. destruct pth as [|c p]; [done|]. rewrite app_string_cons.
       unfold startswith in Hr. cbn [String.prefix] in Hr.
       by destruct (ascii_dec "/" c) as [<-|]. }
  rewrite netloc_ok_wf by done. simpl negb. cbv iota. rewrite cut_none.
  2: { unfold tl. rewrite char_in_app, (char_in_negb "#" pth _ Hp) by done.
       destruct (String.eqb qry ""); [done|]. simpl. by apply (char_in_negb "#" qry _ Hq). }
  assert (cut "?" tl = (pth, qry)) as ->.
  { unfold tl. destruct (String.eqb_spec qry "") as [->|].
    - rewrite app_string_nil_r. apply cut_none. by apply (char_in_negb _ _ _ Hp).
    - apply cut_app. by apply (char_in_negb _ _ _ Hp). }
  rewrite split_params_none by by apply (char_in_negb _ _ _ Hp).
  by case_bool_decide.
Qed.
End roundtrip.

(** ** Normal forms *)

Definition query_params (q : string) : list string :=
  if String.eqb q "" then [] else split "&" q.

Lemma split_sort_query q : q <> "" -> split "&" (sort_query q) = sorted_strings (split "&" q).
Proof.
  intros Hq. unfold sort_query. destruct (String.eqb_spec q ""); [done|].
  assert (sorted_strings (split "&" q) ≡ₚ split "&" q) as Hp by apply merge_sort_Permutation.
  apply split_join.
  - intros E. rewrite E in Hp. apply Permutation_nil_l in Hp. symmetry in Hp. by apply split_go_nonempty in Hp.
  - rewrite Hp. apply split_parts.
Qed.

Lemma sort_query_empty q : sort_query q = "" <-> q = "".
Proof.
  split; [|by intros ->]. intros E. destruct (String.eqb_spec q "") as [|Hq]; [done|].
  pose proof (split_sort_query q Hq) as Hs. rewrite E in Hs.
  assert (split "&" q = [""]) as Hq'.
  { apply Permutation_singleton_r. rewrite <- (merge_sort_Permutation String.le (split "&" q)).
    by fold (sorted_strings (split "&" q)); rewrite <- Hs. }
  pose proof (join_split_go "&" "" q) as Hj. fold (split "&" q) in Hj. by rewrite Hq' in Hj.
Qed.

Lemma sort_query_iff q1 q2 : sort_query q1 = sort_query q2 <-> query_params q1 ≡ₚ query_params q2.
Proof.
  unfold query_params. destruct (String.eqb_spec q1 "") as [->|H1], (String.eqb_spec q2 "") as [->|H2].
  - done.
  - change (sort_query "") with "". split.
    + intros E. symmetry in E. by apply (proj1 (sort_query_empty _)) in E.
    + intros E%Permutation_nil_l. symmetry in E. by apply split_go_nonempty in E.
  - change (sort_query "") with "". split.
    + intros E. by apply (proj1 (sort_query_empty _)) in E.
    + intros E%Permutation_nil_r. by apply split_go_nonempty in E.
  - split.
    + intros E. assert (sorted_strings (split "&" q1) = sorted_strings (split "&" q2)) as Hs
        by (rewrite <- !split_sort_query by done; by rewrite E).
      rewrite <- (merge_sort_Permutation String.le (split "&" q1)).
      unfold sorted_strings in Hs. rewrite Hs. apply merge_sort_Permutation.
    + intros Hp. unfold sort_query.
      destruct (String.eqb_spec q1 ""), (String.eqb_spec q2 ""); try done.
      by rewrite (sorted_strings_perm _ _ Hp).
Qed.

Lemma strip_slashes_wf pth (f : ascii -> bool) :
  startswith "/" pth = true -> str_forallb f pth = true -> f "/"%char = true ->
  startswith "/" (strip_slashes pth) = true /\ str_forallb f (strip_slashes pth) = true.
Proof.
  intros Hr Hf Hs. unfold strip_slashes.
  pose proof (rstrip_forallb (Ascii.eqb "/") f pth Hf) as Hf'.
  destruct (rstrip (Ascii.eqb "/") pth) as [|c r] eqn:E; simpl String.eqb; cbv iota.
  - simpl. by rewrite Hs.
  - split; [|done]. apply rstrip_head in E as (s & ->). unfold startswith in *. cbn [String.prefix] in *.
    destruct (ascii_dec "/" c); [|done]. by destruct r.
Qed.

Lemma sort_query_forallb f q : f "&"%char = true ->
  str_forallb f q = true -> str_forallb f (sort_query q) = true.
Proof.
  intros Hc Hq. unfold sort_query. destruct (String.eqb q ""); [done|].
  apply join_forallb; [done|]. unfold sorted_strings. rewrite merge_sort_Permutation.
  by apply split_go_forallb.
Qed.

Lemma wf_normal sch net pth qry : wf_url sch net pth qry ->
  wf_url (lower sch) (strip_port (lower sch) (lower net)) (strip_slashes pth) (sort_query qry).
Proof.
  intros [Ha Hs Hn Hr Hp Hq].
  destruct (strip_slashes_wf pth _ Hr Hp) as [Hr' Hp']; [done|]. split; try done.
  - destruct sch as [|c s]; [done|]. simpl. unfold is_alpha. by rewrite lower_char_idemp.
  - apply lower_forallb; [|done]. by intros [[] [] [] [] [] [] [] []].
  - assert (str_forallb (fun c => negb (is_netloc_end c || is_unsafe c || char_in c "[]")) (lower net) = true)
      by (apply lower_forallb; [by intros [[] [] [] [] [] [] [] []]|done]).
    unfold strip_port. destruct (_ && _); [by apply str_take_forallb|].
    destruct (_ && _); [by apply str_take_forallb|done].
  - by apply sort_query_forallb.
Qed.

(** ** The same host, the same path

    What the normal form is meant to identify, said without the code: a
    network location minus the default port of its scheme, a path up to the
    slashes at its end. *)

Inductive without_default_port : string -> string -> string -> Prop :=
| drop_80 h : without_default_port "http" (h +:+ ":80") h
| drop_443 h : without_default_port "https" (h +:+ ":443") h
| keep_port sch n :
    (sch = "http" -> forall h, n <> h +:+ ":80") -> (sch = "https" -> forall h, n <> h +:+ ":443") ->
    without_default_port sch n n.

Definition same_host (sch n1 n2 : string) : Prop :=
  exists h, without_default_port sch n1 h /\ without_default_port sch n2 h.

Fixpoint slashes (k : nat) : string := match k with O => "" | S k => String "/" (slashes k) end.
Definition same_path (p1 p2 : string) : Prop :=
  exists r k1 k2, p1 = r +:+ slashes k1 /\ p2 = r +:+ slashes k2.

Lemma length_app_host a b : String.length (a +:+ b) = (String.length a + String.length b)%nat.
Proof. induction a as [|c a IH]; [done|]. rewrite app_string_cons. simpl. by rewrite IH. Qed.

Lemma str_take_app_front a b : str_take (String.length (a +:+ b) - String.length b) (a +:+ b) = a.
Proof.
  rewrite length_app_host. replace (_ - _)%nat with (String.length a) by lia.
  induction a as [|c a IH]; [by destruct b|]. rewrite app_string_cons. simpl. by rewrite IH.
Qed.

Lemma str_take_drop_app n s : str_take n s +:+ str_drop n s = s.
Proof.
  revert s. induction n as [|n IH]; intros [|c s]; try done.
  simpl str_take. simpl str_drop. by rewrite app_string_cons, IH.
Qed.

Lemma endswith_iff t s : endswith t s = true <-> exists h, s = h +:+ t.
Proof.
  unfold endswith. split.
  - intros [_ Hd%String.eqb_eq]%andb_true_iff. 
    eexists. rewrite <- (str_take_drop_app (String.length s - String.length t) s) at 1. by rewrite Hd.
  - intros [h ->]. rewrite length_app_host. replace (_ + _ - _)%nat with (String.length h) by lia.
    apply andb_true_iff. split; [apply Nat.leb_le; lia|]. apply String.eqb_eq.
    induction h as [|c h IH]; [by destruct t|]. rewrite app_string_cons. exact IH.
Qed.

Lemma strip_port_spec sch n : without_default_port sch n (strip_port sch n).
Proof.
  unfold strip_port. destruct (endswith ":80" n && String.eqb sch "http") eqn:E1.
  { apply andb_true_iff in E1 as [[h ->]%endswith_iff ->%String.eqb_eq].
    change 3%nat with (String.length ":80"). rewrite str_take_app_front. constructor. }
  destruct (endswith ":443" n && String.eqb sch "https") eqn:E2.
  { apply andb_true_iff in E2 as [[h ->]%endswith_iff ->%String.eqb_eq].
    change 4%nat with (String.length ":443"). rewrite str_take_app_front. constructor. }
  constructor; intros -> h ->; [rewrite (proj2 (endswith_iff _ _)) in E1 by by eexists
                               |rewrite (proj2 (endswith_iff _ _)) in E2 by by eexists]; done.
Qed.

Lemma without_default_port_fun sch n h1 h2 :
  without_default_port sch n h1 -> without_default_port sch n h2 -> h1 = h2.
Proof.
  assert (forall a b t, a +:+ t = b +:+ t -> a = b) as Hinj.
  { intros a b t E. rewrite <- (str_take_app_front a t), <- (str_take_app_front b t). by rewrite E. }
  intros H1 H2. inversion H1; subst; inversion H2; subst; try done; try (by eapply Hinj); naive_solver.
Qed.

Lemma strip_port_iff sch n1 n2 : strip_port sch n1 = strip_port sch n2 <-> same_host sch n1 n2.
Proof.
  split.
  - intros E. exists (strip_port sch n1). split; [apply strip_port_spec|rewrite E; apply strip_port_spec].
  - intros (h & H1 & H2). rewrite (without_default_port_fun _ _ _ _ (strip_port_spec sch n1) H1).
    symmetry. exact (without_default_port_fun _ _ _ _ (strip_port_spec sch n2) H2).
Qed.

Lemma rstrip_slashes r k : rstrip (Ascii.eqb "/") (r +:+ slashes k) = rstrip (Ascii.eqb "/") r.
Proof.
  induction r as [|c r IH].
  - change ("" +:+ slashes k) with (slashes k). induction k as [|k IH]; [done|]. simpl. by rewrite IH.
  - rewrite app_string_cons. simpl. by rewrite IH.
Qed.

Lemma rstrip_split p : exists k, p = rstrip (Ascii.eqb "/") p +:+ slashes k.
Proof.
  induction p as [|c p [k IH]]; [by exists O|]. cbn [rstrip].
  destruct (rstrip (Ascii.eqb "/") p) as [|x r].
  - destruct (Ascii.eqb_spec "/" c) as [<-|]; [exists (S k)|exists k]; by rewrite IH.
  - exists k. rewrite app_string_cons. by rewrite <- IH.
Qed.

Lemma rstrip_not_slash p : rstrip (Ascii.eqb "/") p <> "/".
Proof.
  destruct p as [|c p]; [done|]. cbn [rstrip]. destruct (rstrip (Ascii.eqb "/") p) as [|x r].
  - destruct (Ascii.eqb_spec "/" c) as [|Hne]; [done|]. intros E. injection E as E. congruence.
  - by intros [=].
Qed.

Lemma strip_slashes_iff p1 p2 : strip_slashes p1 = strip_slashes p2 <-> same_path p1 p2.
Proof.
  split.
  - intros E. assert (rstrip (Ascii.eqb "/") p1 = rstrip (Ascii.eqb "/") p2) as Hr.
    { unfold strip_slashes in E. pose proof (rstrip_not_slash p1). pose proof (rstrip_not_slash p2).
      destruct (String.eqb_spec (rstrip (Ascii.eqb "/") p1) ""), (String.eqb_spec (rstrip (Ascii.eqb "/") p2) ""); congruence. }
    destruct (rstrip_split p1) as [k1 H1], (rstrip_split p2) as [k2 H2].
    exists (rstrip (Ascii.eqb "/") p1), k1, k2. split; [done|]. by rewrite Hr.
  - intros (r & k1 & k2 & -> & ->). unfold strip_slashes. by rewrite !rstrip_slashes.
Qed.

Section normalize.
Context (bracketed_ok : string -> bool).

Lemma normalize_print sch net pth qry : wf_url sch net pth qry ->
  _normalize_url bracketed_ok (print_url sch net pth qry)
  = Ok (print_url (lower sch) (strip_port (lower sch) (lower net)) (strip_slashes pth) (sort_query qry)).
Proof.
  intros Hwf. unfold _normalize_url. rewrite urlparse_print by done. simpl. by rewrite lower_idemp.
Qed.

Lemma print_url_inj s1 n1 p1 q1 s2 n2 p2 q2 :
  wf_url s1 n1 p1 q1 -> wf_url s2 n2 p2 q2 ->
  print_url s1 n1 p1 q1 = print_url s2 n2 p2 q2 ->
  lower s1 = lower s2 /\ n1 = n2 /\ p1 = p2 /\ q1 = q2.
Proof.
  intros H1 H2 E. pose proof (urlparse_print bracketed_ok _ _ _ _ H1) as E1.
  rewrite E, urlparse_print in E1 by done. by inversion E1.
Qed.

(** C5: two well-formed absolute URLs (no path parameters) have the same
    normal form exactly when they agree up to the case of scheme and host,
    the scheme's default port (":80" after an http host, ":443" after an
    https host), the number of slashes at the end of the path, and the order
    of the query parameters. *)
Theorem normalize_url_equiv s1 n1 p1 q1 s2 n2 p2 q2 :
  wf_url s1 n1 p1 q1 -> wf_url s2 n2 p2 q2 ->
  _normalize_url bracketed_ok (print_url s1 n1 p1 q1)
  = _normalize_url bracketed_ok (print_url s2 n2 p2 q2)
  <-> lower s1 = lower s2 /\
      same_host (lower s1) (lower n1) (lower n2) /\
      same_path p1 p2 /\
      query_params q1 ≡ₚ query_params q2.
Proof.
  intros H1 H2. rewrite !normalize_print by done.
  rewrite <- sort_query_iff, <- strip_port_iff, <- strip_slashes_iff. split.
  - intros [= E]. apply print_url_inj in E; [|by apply wf_normal..].
    rewrite !lower_idemp in E. destruct E as (-> & E & -> & ->). by rewrite E.
  - by intros (-> & -> & -> & ->).
Qed.

(** The normal form drops what follows a semicolon in the last path
    segment, so it is neither the URL that was added nor a fixed point:
    [http://h/a;b/] becomes [http://h/a;b], which becomes [http://h/a]. *)
Theorem normalize_drops_params :
  _normalize_url bracketed_ok "http://h/a;b/" = Ok "http://h/a;b" /\
  _normalize_url bracketed_ok "http://h/a;b" = Ok "http://h/a".
Proof. split; vm_compute; reflexivity. Qed.
End normalize.

Lemma normalize_url_equiv_witness :
  _normalize_url (fun _ => true) "HTTP://Ex.org:80/a/?y=2&x=1"
  = _normalize_url (fun _ => true) "http://ex.org/a?x=1&y=2".
Proof.
  apply (normalize_url_equiv (fun _ => true) "HTTP" "Ex.org:80" "/a/" "y=2&x=1"
           "http" "ex.org" "/a" "x=1&y=2").
  - split; reflexivity.
  - split; reflexivity.
  - split; [reflexivity|]. split; [|split].
    + exists "ex.org". split; [exact (drop_80 "ex.org")|].
      constructor; [|discriminate]. intros _ h E. pose proof (proj2 (endswith_iff ":80" _) (ex_intro _ h E)). discriminate.
    + exists "/a", 1%nat, 0%nat. split; reflexivity.
    + apply perm_swap.
Defined.
