(* ===== verification/Frontier.v ===== *)
(** * The URL frontier (document_processor/crawling/url_frontier.py)

    Everything the frontier shares lives in Redis and is reached through the
    [Redis] class; what is left in the object are a flag and three counters.
    [sha256_int] and [md5_int] are the digests as integers, [md5_hex] the
    digest in the metadata key.  [BloomFilterConfig] computes the filter's
    size and number of hashes with logarithms; here they are fields of the
    configuration.

    Time: the n-th reading of the clock comes [lag n] after the one before
    (or after the sleep in between), so the clock never goes back. *)

From S2P Require Import Prelude PyStr Url Redis.

Record FrontierConfig := {
  key_prefix : string;
  default_crawl_delay : Q;
  min_crawl_delay : Q;
  max_crawl_delay : Q;
  politeness_factor : Q;
  bloom_size : Z;
  bloom_hash_count : nat }.

Record DistributedURLFrontier (R : Type) := Frontier {
  redis : R;
  initialized : bool;
  total_urls_added : Z;
  total_urls_crawled : Z;
  duplicate_urls_skipped : Z }.
Arguments Frontier {R}.
Arguments redis {R}.
Arguments initialized {R}.
Arguments total_urls_added {R}.
Arguments total_urls_crawled {R}.
Arguments duplicate_urls_skipped {R}.

(** The clock: the time of the last reading and how many there were. *)
Record clock := Clock { now : Q; reads : nat }.

Section frontier.
Context {R : Type} `{HR : Redis R}.
Context (bracketed_ok : string -> bool).
Context (sha256_int md5_int : string -> Z) (md5_hex : string -> string).
Context (lag : nat -> Q).
Context (cfg : FrontierConfig).

Definition tick (t : clock) : clock := Clock (now t + lag (reads t)) (S (reads t)).
Definition sleep (d : Q) (t : clock) : clock := Clock (now t + d) (reads t).

(** ** RedisBloomFilter *)

Definition bloom_key : string := key_prefix cfg +:+ ":bloom:filter".

Definition _get_hash_positions (item : string) : list Z :=
  let h1 := sha256_int item in
  let h2 := md5_int item in
  map (fun i => (h1 + Z.of_nat i * h2) mod bloom_size cfg) (seq 0 (bloom_hash_count cfg)).

Definition bloom_contains (item : string) (r : R) : bool :=
  forallb (fun pos => getbit bloom_key pos r) (_get_hash_positions item).

Definition bloom_add (item : string) (r : R) : bool * R :=
  let positions := _get_hash_positions item in
  let was_present := forallb (fun pos => getbit bloom_key pos r) positions in
  (was_present, foldl (fun r pos => setbit bloom_key pos true r) r positions).

(** ** Keys *)

Definition priority_queue_key : string := key_prefix cfg +:+ ":priority_queue".
Definition domain_queue_key (domain : string) : string :=
  key_prefix cfg +:+ ":domain_queues" +:+ ":" +:+ domain.
Definition crawl_times_key : string := key_prefix cfg +:+ ":crawl_times".
Definition domain_delays_key : string := key_prefix cfg +:+ ":domain_delays".
Definition stats_key : string := key_prefix cfg +:+ ":stats".
Definition active_domains_key : string := key_prefix cfg +:+ ":active_domains".
Definition metadata_key (url : string) : string := key_prefix cfg +:+ ":metadata:" +:+ md5_hex url.

(** ** DistributedURLFrontier *)

Definition new_frontier (r : R) : DistributedURLFrontier R := Frontier r false 0 0 0.

Definition set_redis (r : R) (f : DistributedURLFrontier R) : DistributedURLFrontier R :=
  Frontier r (initialized f) (total_urls_added f) (total_urls_crawled f) (duplicate_urls_skipped f).

Definition initialize (f : DistributedURLFrontier R) : DistributedURLFrontier R :=
  Frontier (redis f) true (total_urls_added f) (total_urls_crawled f) (duplicate_urls_skipped f).

Definition close (f : DistributedURLFrontier R) : DistributedURLFrontier R :=
  Frontier (redis f) false (total_urls_added f) (total_urls_crawled f) (duplicate_urls_skipped f).

Definition hset_mapping (k : string) (m : gmap string string) (r : R) : R :=
  foldl (fun r fv => hset k fv.1 (FStr fv.2) r) r (map_to_list m).

(** The Redis commands of a URL that is not skipped. *)
Definition enqueue (url domain : string) (priority : Q) (metadata : gmap string string) (r : R) : R :=
  let r := (bloom_add url r).2 in
  let r := zadd priority_queue_key url (- priority) r in
  let r := rpush (domain_queue_key domain) url r in
  let r := sadd active_domains_key domain r in
  if bool_decide (metadata = ∅) then r else hset_mapping (metadata_key url) metadata r.

Definition add_url (url : string) (priority : Q) (metadata : gmap string string) (force : bool)
  (f0 : DistributedURLFrontier R) : result pyexn bool * DistributedURLFrontier R :=
  let f := initialize f0 in
  match _normalize_url bracketed_ok url with
  | Err e => (Err e, f)
  | Ok normalized_url =>
      match _extract_domain bracketed_ok normalized_url with
      | Err e => (Err e, f)
      | Ok domain =>
          if negb force && bloom_contains normalized_url (redis f)
          then (Ok false, Frontier (redis f) true (total_urls_added f) (total_urls_crawled f)
                            (duplicate_urls_skipped f + 1))
          else (Ok true, Frontier (enqueue normalized_url domain priority metadata (redis f)) true
                           (total_urls_added f + 1) (total_urls_crawled f)
                           (duplicate_urls_skipped f))
      end
  end.

(** The first URL that raises ends the loop. *)
Fixpoint add_urls_loop (urls : list string) (priority : Q) (added : Z)
  (f : DistributedURLFrontier R) : result pyexn Z * DistributedURLFrontier R :=
  match urls with
  | [] => (Ok added, f)
  | url :: urls' =>
      match add_url url priority ∅ false f with
      | (Err e, f') => (Err e, f')
      | (Ok b, f') => add_urls_loop urls' priority (if b then added + 1 else added) f'
      end
  end.
Definition add_urls (urls : list string) (priority : Q) (f : DistributedURLFrontier R) :=
  add_urls_loop urls priority 0 f.

(** [float(value)] of a stored field *)
Definition float_field (v : rfield) : Q := match v with FNum q => q | FStr _ => 0%Q end.

Definition get_domain_delay (domain : string) (r : R) : Q :=
  match hget domain_delays_key domain r with
  | Some custom_delay => float_field custom_delay
  | None => default_crawl_delay cfg
  end.

Definition _can_crawl_domain (domain : string) (t : clock) (r : R) : bool * clock :=
  match hget crawl_times_key domain r with
  | None => (true, t)
  | Some last_crawl =>
      let t := tick t in
      (Qle_bool (get_domain_delay domain r) (now t - float_field last_crawl), t)
  end.

Definition _update_crawl_time (domain : string) (t : clock) (r : R) : R * clock :=
  let t := tick t in (hset crawl_times_key domain (FNum (now t)) r, t).

(** The candidates, in order, up to the first one whose domain may be
    crawled. *)
Fixpoint scan_candidates (urls : list string) (checked : gset string) (t : clock) (r : R)
  : result pyexn (option (string * string)) * gset string * clock :=
  match urls with
  | [] => (Ok None, checked, t)
  | url :: urls' =>
      match _extract_domain bracketed_ok url with
      | Err e => (Err e, checked, t)
      | Ok domain =>
          if bool_decide (domain ∈ checked) then scan_candidates urls' checked t r
          else
            let checked := {[domain]} ∪ checked in
            let '(ready, t) := _can_crawl_domain domain t r in
            if ready then (Ok (Some (url, domain)), checked, t)
            else scan_candidates urls' checked t r
      end
  end.

(** What follows once a URL is chosen: three Redis commands, each of them
    awaited. *)
Definition claim_zrem (url : string) (f : DistributedURLFrontier R) : DistributedURLFrontier R :=
  set_redis (zrem priority_queue_key url (redis f)) f.
Definition claim_lrem (url domain : string) (f : DistributedURLFrontier R) : DistributedURLFrontier R :=
  set_redis (lrem (domain_queue_key domain) 1 url (redis f)) f.
Definition claim_time (domain : string) (t : clock) (f : DistributedURLFrontier R)
  : DistributedURLFrontier R * clock :=
  let '(r, t) := _update_crawl_time domain t (redis f) in
  (Frontier r (initialized f) (total_urls_added f) (total_urls_crawled f + 1)
     (duplicate_urls_skipped f), t).
Definition claim (url domain : string) (t : clock) (f : DistributedURLFrontier R)
  : DistributedURLFrontier R * clock :=
  claim_time domain t (claim_lrem url domain (claim_zrem url f)).

Definition candidates (r : R) : list string := zrange priority_queue_key 0 99 r.

(** The [while True] loop; [None] when the fuel runs out. *)
Fixpoint next_loop (fuel : nat) (timeout start_time : Q) (checked : gset string) (t : clock)
  (f : DistributedURLFrontier R)
  : option (result pyexn (option string) * DistributedURLFrontier R * clock) :=
  match fuel with
  | O => None
  | S fuel' =>
      let t := if Qltb 0 timeout then tick t else t in
      if Qltb 0 timeout && Qltb timeout (now t - start_time) then Some (Ok None, f, t)
      else
        let urls := candidates (redis f) in
        match urls with
        | [] => Some (Ok None, f, t)
        | _ =>
            match scan_candidates urls checked t (redis f) with
            | (Err e, _, t) => Some (Err e, f, t)
            | (Ok (Some (url, domain)), _, t) =>
                let '(f, t) := claim url domain t f in Some (Ok (Some url), f, t)
            | (Ok None, _, t) =>
                if Qltb 0 timeout
                then next_loop fuel' timeout start_time ∅ (sleep (1 # 10) t) f
                else Some (Ok None, f, t)
            end
        end
  end.

Definition get_next_url (fuel : nat) (timeout : Q) (t : clock) (f0 : DistributedURLFrontier R) :=
  let f := initialize f0 in
  let t := tick t in
  next_loop fuel timeout (now t) ∅ t f.

Definition set_domain_delay (domain : string) (delay : Q) (f : DistributedURLFrontier R)
  : DistributedURLFrontier R :=
  let delay := py_max (min_crawl_delay cfg) (py_min (max_crawl_delay cfg) delay) in
  set_redis (hset domain_delays_key domain (FNum delay) (redis f)) f.

Definition update_domain_delay_from_response (domain : string) (response_time : Q)
  (f : DistributedURLFrontier R) : DistributedURLFrontier R :=
  let new_delay := (politeness_factor cfg * response_time)%Q in
  let new_delay := py_max (min_crawl_delay cfg) (py_min (max_crawl_delay cfg) new_delay) in
  set_domain_delay domain new_delay f.

Definition mark_crawled (success : bool) (f : DistributedURLFrontier R) : DistributedURLFrontier R :=
  set_redis (hincrby stats_key (if success then "successful_crawls" else "failed_crawls") 1 (redis f)) f.

Definition get_queue_size (f : DistributedURLFrontier R) : Z := zcard priority_queue_key (redis f).
Definition get_active_domains (f : DistributedURLFrontier R) : gset string :=
  smembers active_domains_key (redis f).
Definition get_domain_queue_size (domain : string) (f : DistributedURLFrontier R) : Z :=
  llen (domain_queue_key domain) (redis f).

Definition clear (f : DistributedURLFrontier R) : DistributedURLFrontier R :=
  Frontier (delete_prefix (key_prefix cfg +:+ ":") (redis f)) true 0 0 0.

(** ** A call of get_next_url, one awaited command at a time

    Between two awaits of a call other tasks run, and with a shared Redis so
    do other processes.  A [call] is where a call of [get_next_url] stands;
    [call_step] runs it up to and including its next Redis command. *)

Inductive call :=
| Looping (timeout start_time : Q)
| Scanning (timeout start_time : Q) (urls : list string) (checked : gset string)
| Checking (timeout start_time : Q) (url domain : string) (last_crawl : rfield)
    (urls : list string) (checked : gset string)
| Removing (url domain : string)
| Dequeuing (url domain : string)
| Recording (url domain : string).

Definition begin_call (timeout : Q) (t : clock) (f : DistributedURLFrontier R)
  : call * DistributedURLFrontier R * clock :=
  let t := tick t in (Looping timeout (now t), initialize f, t).

Definition call_step (c : call) (t : clock) (f : DistributedURLFrontier R)
  : (call + result pyexn (option string)) * DistributedURLFrontier R * clock :=
  match c with
  | Looping timeout start_time =>
      let t := if Qltb 0 timeout then tick t else t in
      if Qltb 0 timeout && Qltb timeout (now t - start_time) then (inr (Ok None), f, t)
      else
        match candidates (redis f) with
        | [] => (inr (Ok None), f, t)
        | urls => (inl (Scanning timeout start_time urls ∅), f, t)
        end
  | Scanning timeout start_time [] _ =>
      if Qltb 0 timeout then (inl (Looping timeout start_time), f, sleep (1 # 10) t)
      else (inr (Ok None), f, t)
  | Scanning timeout start_time (url :: urls) checked =>
      match _extract_domain bracketed_ok url with
      | Err e => (inr (Err e), f, t)
      | Ok domain =>
          if bool_decide (domain ∈ checked) then (inl (Scanning timeout start_time urls checked), f, t)
          else
            let checked := {[domain]} ∪ checked in
            match hget crawl_times_key domain (redis f) with
            | None => (inl (Removing url domain), f, t)
            | Some last_crawl => (inl (Checking timeout start_time url domain last_crawl urls checked), f, t)
            end
      end
  | Checking timeout start_time url domain last_crawl urls checked =>
      let delay := get_domain_delay domain (redis f) in
      let t := tick t in
      if Qle_bool delay (now t - float_field last_crawl) then (inl (Removing url domain), f, t)
      else (inl (Scanning timeout start_time urls checked), f, t)
  | Removing url domain => (inl (Dequeuing url domain), claim_zrem url f, t)
  | Dequeuing url domain => (inl (Recording url domain), claim_lrem url domain f, t)
  | Recording url domain => let '(f, t) := claim_time domain t f in (inr (Ok (Some url)), f, t)
  end.

(** A call that nothing comes between. *)
Fixpoint call_steps (n : nat) (c : call) (t : clock) (f : DistributedURLFrontier R)
  : (call + result pyexn (option string)) * DistributedURLFrontier R * clock :=
  match n with
  | O => (inl c, f, t)
  | S n =>
      match call_step c t f with
      | (inl c, f, t) => call_steps n c t f
      | stop => stop
      end
  end.

(** ** Operations as data *)

Inductive op :=
| AddUrl (url : string) (priority : Q) (metadata : gmap string string) (force : bool)
| NextUrl (fuel : nat) (timeout : Q)
| SetDelay (domain : string) (delay : Q)
| ResponseTime (domain : string) (response_time : Q)
| MarkCrawled (success : bool)
| Clear
| Close.

(** The frontier, the clock, the log of deliveries since the frontier was
    last cleared (URL and time written as the crawl time of its domain,
    newest first) and the calls of [get_next_url] under way. *)
Record world := World {
  wfrontier : DistributedURLFrontier R;
  wclock : clock;
  wlog : list (string * Q);
  wcalls : list call }.

Definition run_op (w : world) (o : op) : world :=
  let f := wfrontier w in
  match o with
  | AddUrl url priority md force => World (add_url url priority md force f).2 (wclock w) (wlog w) (wcalls w)
  | NextUrl fuel timeout =>
      match get_next_url fuel timeout (wclock w) f with
      | None => w
      | Some (Ok (Some url), f', t) => World f' t ((url, now t) :: wlog w) (wcalls w)
      | Some (_, f', t) => World f' t (wlog w) (wcalls w)
      end
  | SetDelay d x => World (set_domain_delay d x f) (wclock w) (wlog w) (wcalls w)
  | ResponseTime d x => World (update_domain_delay_from_response d x f) (wclock w) (wlog w) (wcalls w)
  | MarkCrawled b => World (mark_crawled b f) (wclock w) (wlog w) (wcalls w)
  | Clear => World (clear f) (wclock w) [] (wcalls w)
  | Close => World (close f) (wclock w) (wlog w) (wcalls w)
  end.

(** What tasks and processes sharing the frontier do: run an operation, begin
    a call of [get_next_url], or let the [i]-th call under way take its next
    step. *)
Inductive event :=
| Whole (o : op)
| Begin (timeout : Q)
| Turn (i : nat).

Definition run_event (w : world) (e : event) : world :=
  match e with
  | Whole o => run_op w o
  | Begin timeout =>
      let '(c, f, t) := begin_call timeout (wclock w) (wfrontier w) in
      World f t (wlog w) (wcalls w ++ [c])
  | Turn i =>
      match wcalls w !! i with
      | None => w
      | Some c =>
          match call_step c (wclock w) (wfrontier w) with
          | (inl c, f, t) => World f t (wlog w) (<[i := c]> (wcalls w))
          | (inr (Ok (Some url)), f, t) => World f t ((url, now t) :: wlog w) (delete i (wcalls w))
          | (inr _, f, t) => World f t (wlog w) (delete i (wcalls w))
          end
      end
  end.

(** A run in which a call of [get_next_url] begins only when none is under
    way. *)
Fixpoint one_at_a_time (w : world) (es : list event) : Prop :=
  match es with
  | [] => True
  | e :: es =>
      match e with
      | Begin _ | Whole (NextUrl _ _) => wcalls w = []
      | _ => True
      end /\ one_at_a_time (run_event w e) es
  end.
#[local] Arguments enqueue : simpl never.
#[local] Arguments candidates : simpl never.
#[local] Arguments _can_crawl_domain : simpl never.

(** ** Keys are distinct *)

Context `{!RedisLaws R}.

Lemma times_delays_ne : crawl_times_key <> domain_delays_key.
Proof. intros E%app_string_inj_l. discriminate. Qed.
Lemma times_stats_ne : stats_key <> crawl_times_key.
Proof. intros E%app_string_inj_l. discriminate. Qed.
Lemma delays_stats_ne : stats_key <> domain_delays_key.
Proof. intros E%app_string_inj_l. discriminate. Qed.
Lemma metadata_times_ne url : metadata_key url <> crawl_times_key.
Proof. intros E%app_string_inj_l. discriminate. Qed.
Lemma metadata_delays_ne url : metadata_key url <> domain_delays_key.
Proof. intros E%app_string_inj_l. discriminate. Qed.
#[local] Hint Resolve times_delays_ne times_stats_ne delays_stats_ne metadata_times_ne metadata_delays_ne : core.

Lemma domain_queue_key_inj d d' : domain_queue_key d = domain_queue_key d' -> d = d'.
Proof.
  unfold domain_queue_key. intros E%app_string_inj_l.
  apply (app_string_inj_l (":domain_queues" +:+ ":")). by rewrite !app_string_assoc.
Qed.

(** ** What each command leaves alone *)

Lemma hset_mapping_frame k m (r : R) :
  let r' := hset_mapping k m r in
  kbits (view r') = kbits (view r) /\ kzsets (view r') = kzsets (view r) /\
  klists (view r') = klists (view r) /\ ksets (view r') = ksets (view r) /\
  forall k', k <> k' -> ks_hash k' (view r') = ks_hash k' (view r).
Proof.
  unfold hset_mapping. generalize (map_to_list m). intros l. revert r.
  induction l as [|[f v] l IH]; intros r; [done|]. simpl.
  destruct (IH (hset k f (FStr v) r)) as (-> & -> & -> & -> & Hh).
  autorewrite with redis. repeat split; try done.
  intros k' Hne. rewrite Hh, view_hset by done. unfold ks_hset. rewrite ks_hash_put.
  by rewrite decide_False.
Qed.

Lemma bloom_add_view item (r : R) :
  let r' := (bloom_add item r).2 in
  kzsets (view r') = kzsets (view r) /\ klists (view r') = klists (view r) /\
  ksets (view r') = ksets (view r) /\ khashes (view r') = khashes (view r) /\
  ks_bits bloom_key (view r') = list_to_set (_get_hash_positions item) ∪ ks_bits bloom_key (view r).
Proof.
  clear bracketed_ok md5_hex lag.
  unfold bloom_add. simpl. generalize (_get_hash_positions item). intros l. revert r.
  induction l as [|p l IH]; intros r; simpl; [repeat split; set_solver|].
  destruct (IH (setbit bloom_key p true r)) as (-> & -> & -> & -> & ->).
  autorewrite with redis. repeat split; try done.
  rewrite ks_bits_setbit, decide_True by done. set_solver.
Qed.

Lemma contains_iff url (r : R) :
  bloom_contains url r = true <-> list_to_set (_get_hash_positions url) ⊆ ks_bits bloom_key (view r).
Proof.
  clear bracketed_ok md5_hex lag.
  unfold bloom_contains. rewrite forallb_forall. setoid_rewrite <- list_elem_of_In.
  setoid_rewrite view_getbit. unfold ks_getbit. setoid_rewrite bool_decide_eq_true.
  set_solver.
Qed.

(** The Redis state after a URL has been enqueued. *)
Lemma enqueue_view url domain priority md (r : R) :
  let r' := enqueue url domain priority md r in
  ks_bits bloom_key (view r') = list_to_set (_get_hash_positions url) ∪ ks_bits bloom_key (view r) /\
  ks_zset priority_queue_key (view r') = <[url := (- priority)%Q]> (ks_zset priority_queue_key (view r)) /\
  (forall d, ks_list (domain_queue_key d) (view r')
             = ks_list (domain_queue_key d) (view r) ++ (if decide (domain = d) then [url] else [])) /\
  ks_set (active_domains_key) (view r') = {[domain]} ∪ ks_set (active_domains_key) (view r) /\
  ks_hash crawl_times_key (view r') = ks_hash crawl_times_key (view r) /\
  ks_hash domain_delays_key (view r') = ks_hash domain_delays_key (view r).
Proof.
  clear bracketed_ok lag.
  simpl. unfold enqueue.
  destruct (bloom_add_view url r) as (Ez & El & Es & Eh & Eb).
  set (rb := (bloom_add _ _).2) in *.
  set (rs := sadd _ _ _).
  assert (view rs = ks_sadd (active_domains_key) domain
            (ks_rpush (domain_queue_key domain) url (ks_zadd priority_queue_key url (- priority) (view rb)))) as Hv
    by (unfold rs; by autorewrite with redis).
  assert (ks_bits bloom_key (view rs) = list_to_set (_get_hash_positions url) ∪ ks_bits bloom_key (view r)) as Hb
    by (rewrite Hv; exact Eb).
  assert (ks_zset priority_queue_key (view rs) = <[url := (- priority)%Q]> (ks_zset priority_queue_key (view r))) as Hz.
  { rewrite Hv. unfold ks_zset. simpl. rewrite lookup_insert_eq. simpl. unfold ks_zset. by rewrite Ez. }
  assert (forall d, ks_list (domain_queue_key d) (view rs)
     = ks_list (domain_queue_key d) (view r) ++ (if decide (domain = d) then [url] else [])) as Hl.
  { intros d. rewrite Hv. change (ks_list (domain_queue_key d) (ks_sadd ?a ?b ?s)) with
      (ks_list (domain_queue_key d) s). unfold ks_rpush. rewrite ks_list_put.
    unfold ks_list. simpl. rewrite El.
    destruct (decide (domain = d)) as [<-|Hne]; [by rewrite decide_True|].
    rewrite decide_False, app_nil_r; [done|]. by intros ?%domain_queue_key_inj. }
  assert (ks_set (active_domains_key) (view rs) = {[domain]} ∪ ks_set (active_domains_key) (view r)) as Ha.
  { rewrite Hv. unfold ks_set. simpl. rewrite lookup_insert_eq. simpl. unfold ks_set. simpl. by rewrite Es. }
  assert (khashes (view rs) = khashes (view r)) as Hh by (rewrite Hv; exact Eh).
  case_bool_decide as Hmd.
  - repeat split; try done; unfold ks_hash; by rewrite Hh.
  - destruct (hset_mapping_frame (metadata_key url) md rs) as (F1 & F2 & F3 & F4 & F5).
    unfold ks_bits, ks_zset, ks_list, ks_set in *. rewrite F1, F2, F3, F4.
    repeat split; try done; rewrite F5 by done; unfold ks_hash; by rewrite Hh.
Qed.

(** The Redis state after a URL has been handed out. *)
Lemma claim_view url domain t f :
  let '(f', t') := claim url domain t f in
  t' = tick t /\
  kbits (view (redis f')) = kbits (view (redis f)) /\
  ks_zset priority_queue_key (view (redis f')) = delete url (ks_zset priority_queue_key (view (redis f))) /\
  (forall d, ks_list (domain_queue_key d) (view (redis f'))
             = if decide (domain = d) then remove_first 1 url (ks_list (domain_queue_key d) (view (redis f)))
               else ks_list (domain_queue_key d) (view (redis f))) /\
  ks_set active_domains_key (view (redis f')) = ks_set active_domains_key (view (redis f)) /\
  ks_hash crawl_times_key (view (redis f'))
    = <[domain := FNum (now t')]> (ks_hash crawl_times_key (view (redis f))) /\
  ks_hash domain_delays_key (view (redis f')) = ks_hash domain_delays_key (view (redis f)).
Proof.
  unfold claim, claim_time, claim_lrem, claim_zrem, _update_crawl_time, set_redis. cbn [redis fst snd]. split; [done|].
  autorewrite with redis. split; [done|].
  split; [by unfold ks_zset; simpl; rewrite lookup_insert_eq|]. split.
  { intros d. change (ks_list (domain_queue_key d) (ks_hset ?a ?b ?c ?s)) with
      (ks_list (domain_queue_key d) s). unfold ks_lrem. rewrite ks_list_put.
    destruct (decide (domain = d)) as [<-|Hne]; [by rewrite decide_True|].
    rewrite decide_False; [done|]. by intros ?%domain_queue_key_inj. }
  split; [done|]. unfold ks_hset. rewrite !ks_hash_put, decide_True, decide_False by auto. done.
Qed.

#[local] Opaque claim.

(** ** Deduplication *)

(** Bits of the filter are never cleared by the operations of a crawl. *)
Definition bloom_bits (f : DistributedURLFrontier R) : gset Z := ks_bits bloom_key (view (redis f)).

Lemma add_url_bits url priority md force f :
  bloom_bits f ⊆ bloom_bits (add_url url priority md force f).2.
Proof.
  unfold add_url. destruct (_normalize_url _ _) as [v|]; [|done].
  destruct (_extract_domain _ v) as [d|]; [|done]. destruct (_ && _); [done|].
  unfold bloom_bits. simpl. rewrite (proj1 (enqueue_view v d priority md (redis f))). set_solver.
Qed.

Lemma next_loop_bits fuel timeout start checked t f res f' t' :
  next_loop fuel timeout start checked t f = Some (res, f', t') -> bloom_bits f' = bloom_bits f.
Proof.
  revert checked t. induction fuel as [|fuel IH]; intros checked t; simpl; [done|].
  destruct (_ && _); [by intros [= _ <- _]|].
  destruct (candidates (redis f)) as [|u us]; [by intros [= _ <- _]|].
  destruct (scan_candidates _ _ _ _) as [[[[[url d]|]|e] ck] t2].
  - pose proof (claim_view url d t2 f) as Hc. destruct (claim url d t2 f) as [f2 t3].
    intros E. simplify_eq. destruct Hc as (_ & Hb & _). unfold bloom_bits, ks_bits. by rewrite Hb.
  - destruct (Qltb 0 timeout); [apply IH|by intros [= _ <- _]].
  - by intros [= _ <- _].
Qed.

Lemma run_op_bits w o : o <> Clear -> bloom_bits (wfrontier w) ⊆ bloom_bits (wfrontier (run_op w o)).
Proof.
  intros Hcl. destruct o as [url pr md force|fuel timeout|d x|d x|b| |]; simpl;
    [apply add_url_bits| |unfold bloom_bits; simpl; by autorewrite with redis..|done|done].
  destruct (get_next_url fuel timeout (wclock w) (wfrontier w)) as [[[[[url|]|e] f'] t']|] eqn:E;
    simpl; try done; unfold get_next_url in E; apply next_loop_bits in E; by rewrite E.
Qed.

Lemma call_step_bits c t f : bloom_bits (call_step c t f).1.2 = bloom_bits f.
Proof.
  unfold bloom_bits, call_step. destruct c as [to st|to st [|u us] ck|to st u d l us ck|u d|u d|u d].
  - destruct (_ && _); [done|]. by destruct (candidates (redis f)).
  - by destruct (Qltb 0 to).
  - destruct (_extract_domain bracketed_ok u); [|done]. case_bool_decide; [done|]. by destruct (hget _ _ _).
  - by destruct (Qle_bool _ _).
  - simpl. by autorewrite with redis.
  - simpl. by autorewrite with redis.
  - simpl. by autorewrite with redis.
Qed.

Lemma run_event_bits w e :
  e <> Whole Clear -> bloom_bits (wfrontier w) ⊆ bloom_bits (wfrontier (run_event w e)).
Proof.
  intros Hcl. destruct e as [o|timeout|i]; simpl; [apply run_op_bits; congruence|done|].
  destruct (wcalls w !! i) as [c|]; [|done].
  pose proof (call_step_bits c (wclock w) (wfrontier w)) as Hb.
  destruct (call_step _ _ _) as [[[c'|[[url|]|e]] f] t]; simpl in *; by rewrite Hb.
Qed.

Lemma run_events_bits es w :
  Whole Clear ∉ es -> bloom_bits (wfrontier w) ⊆ bloom_bits (wfrontier (foldl run_event w es)).
Proof.
  revert w. induction es as [|e es IH]; intros w Hcl; simpl; [done|].
  apply not_elem_of_cons in Hcl as [Hne Hes].
  etrans; [by apply run_event_bits|by apply IH].
Qed.

Lemma add_url_remembers url priority md force f b v :
  (add_url url priority md force f).1 = Ok b -> _normalize_url bracketed_ok url = Ok v ->
  list_to_set (_get_hash_positions v) ⊆ bloom_bits (add_url url priority md force f).2.
Proof.
  unfold add_url. intros Hb Hv. rewrite Hv in *.
  destruct (_extract_domain _ v) as [d|]; [|done].
  destruct (negb force && bloom_contains v (redis (initialize f))) eqn:E.
  - apply andb_true_iff in E as [_ E]. by apply contains_iff in E.
  - unfold bloom_bits. simpl. rewrite (proj1 (enqueue_view v d priority md (redis f))). set_solver.
Qed.

(** C6: once [add_url] has returned for a URL, no URL with the same normal
    form enters the queue again: whatever operations and steps of calls come
    between (short of [clear]), an unforced [add_url] of it returns [False]
    and changes nothing in Redis. *)
Theorem frontier_dedup url priority md force w b es url' priority' md' :
  (add_url url priority md force (wfrontier w)).1 = Ok b ->
  _normalize_url bracketed_ok url' = _normalize_url bracketed_ok url ->
  Whole Clear ∉ es ->
  let f' := wfrontier (foldl run_event (run_op w (AddUrl url priority md force)) es) in
  (add_url url' priority' md' false f').1 = Ok false /\
  redis (add_url url' priority' md' false f').2 = redis f'.
Proof.
  intros Hb Hn Hcl f'. destruct (_normalize_url bracketed_ok url) as [v|e] eqn:Hv.
  2: { unfold add_url in Hb. by rewrite Hv in Hb. }
  pose proof (add_url_remembers _ _ _ _ _ _ _ Hb Hv) as Hin.
  assert (bloom_contains v (redis f') = true) as Hc.
  { apply contains_iff. etrans; [exact Hin|]. exact (run_events_bits es (run_op w (AddUrl url priority md force)) Hcl). }
  unfold add_url. rewrite Hn. unfold add_url in Hb. rewrite Hv in Hb.
  destruct (_extract_domain bracketed_ok v) as [d|e]; [|done].
  simpl. by rewrite Hc.
Qed.

(** ** The priority queue and the domain queues agree *)

Definition domain_of (url d : string) : Prop := _extract_domain bracketed_ok url = Ok d.

Definition queues_agree (f : DistributedURLFrontier R) : Prop :=
  forall url, is_Some (ks_zset priority_queue_key (view (redis f)) !! url) ->
  exists d, domain_of url d /\ url ∈ ks_list (domain_queue_key d) (view (redis f)) /\
            d ∈ ks_set active_domains_key (view (redis f)) /\
            bloom_contains url (redis f) = true.

Lemma add_url_agree url priority md force f :
  queues_agree f -> queues_agree (add_url url priority md force f).2.
Proof.
  intros Hq. unfold add_url. destruct (_normalize_url _ _) as [v|]; [|done].
  destruct (_extract_domain _ v) as [d|] eqn:Hd; [|done]. destruct (_ && _); [done|]. simpl.
  intros u. simpl. destruct (enqueue_view v d priority md (redis f)) as (Eb & Ez & El & Ea & _).
  rewrite Ez, Ea. intros [<-|Hu]%lookup_insert_is_Some'.
  - exists d. rewrite El, decide_True, contains_iff, Eb by done. split; [done|]. set_solver.
  - destruct (Hq u Hu) as (d' & Hd' & Hin & Hact & Hc). exists d'.
    rewrite El, contains_iff, Eb. apply contains_iff in Hc. set_solver.
Qed.

Lemma claim_agree url d t f : domain_of url d -> queues_agree f -> queues_agree (claim url d t f).1.
Proof.
  intros Hd Hq u. pose proof (claim_view url d t f) as Hc. destruct (claim url d t f) as [f' t'].
  destruct Hc as (_ & Eb & Ez & El & Ea & _). simpl. rewrite Ez, Ea.
  intros [x [Hne Hx]%lookup_delete_Some]. destruct (Hq u) as (d' & Hd' & Hin & Hact & Hc); [by eexists|].
  exists d'. rewrite El. split; [done|]. split; [|split; [done|]].
  - destruct (decide (d = d')); [|done]. by apply elem_of_remove_first.
  - apply contains_iff. apply contains_iff in Hc. unfold ks_bits in *. by rewrite Eb.
Qed.

(** ** Scanning the candidates *)

Context (lag_nonneg : forall n, (0 <= lag n)%Q).

Lemma now_tick t : (now t <= now (tick t))%Q.
Proof. unfold tick; simpl. pose proof (lag_nonneg (reads t)). lra. Qed.

(** The delay in force for a domain, and whether its last crawl is at least
    that long ago at time [x], read off the stored hashes. *)
Definition crawl_delay (d : string) (r : R) : Q :=
  default (default_crawl_delay cfg) (float_field <$> ks_hash domain_delays_key (view r) !! d).
Definition not_ready (d : string) (x : Q) (r : R) : Prop :=
  exists last, ks_hash crawl_times_key (view r) !! d = Some last /\
    (x < float_field last + crawl_delay d r)%Q.
Definition ready (d : string) (x : Q) (r : R) : Prop :=
  forall last, ks_hash crawl_times_key (view r) !! d = Some last ->
    (float_field last + crawl_delay d r <= x)%Q.

Lemma get_domain_delay_eq d r : get_domain_delay d r = crawl_delay d r.
Proof. unfold get_domain_delay, crawl_delay. rewrite view_hget. by destruct (_ !! d). Qed.

Lemma can_crawl_spec d t r :
  let '(b, t') := _can_crawl_domain d t r in
  (now t <= now t')%Q /\ (if b then ready d (now t') r else not_ready d (now t) r).
Proof.
  unfold _can_crawl_domain. rewrite view_hget, get_domain_delay_eq.
  destruct (ks_hash crawl_times_key (view r) !! d) as [last|] eqn:E.
  - pose proof (now_tick t). split; [done|]. destruct (Qle_bool_reflect (crawl_delay d r) (now (tick t) - float_field last)).
    + intros last'. rewrite E. intros [= <-]. lra.
    + exists last. split; [done|]. lra.
  - split; [lra|]. intros last'. by rewrite E.
Qed.

Lemma not_ready_mono d x y r : (x <= y)%Q -> not_ready d y r -> not_ready d x r.
Proof. intros Hxy (last & Hl & Hd). exists last. split; [done|]. lra. Qed.

(** The chosen URL is the first candidate whose domain is ready; all domains
    before it were not ready when the scan began. *)
Lemma scan_spec urls checked t r x :
  (x <= now t)%Q -> (forall d, d ∈ checked -> not_ready d x r) ->
  let '(res, _, t') := scan_candidates urls checked t r in
  (now t <= now t')%Q /\
  match res with
  | Ok (Some (url, d)) =>
      domain_of url d /\ ready d (now t') r /\
      exists pre post, urls = pre ++ url :: post /\
        forall u, u ∈ pre -> exists du, domain_of u du /\ not_ready du x r
  | Ok None => forall u, u ∈ urls -> exists du, domain_of u du /\ not_ready du x r
  | Err e => exists u, u ∈ urls /\ _extract_domain bracketed_ok u = Err e
  end.
Proof.
  revert checked t. induction urls as [|u us IH]; intros checked t Hx Hck; simpl.
  { split; [lra|]. set_solver. }
  destruct (_extract_domain bracketed_ok u) as [d|e] eqn:Hd.
  2: { split; [lra|]. exists u. split; [by left|done]. }
  assert (forall ck t2, (x <= now t2)%Q -> (now t <= now t2)%Q ->
            (forall d, d ∈ ck -> not_ready d x r) -> not_ready d x r ->
            let '(res, _, t') := scan_candidates us ck t2 r in
            (now t <= now t')%Q /\
            match res with
            | Ok (Some (url, d)) => domain_of url d /\ ready d (now t') r /\
                exists pre post, u :: us = pre ++ url :: post /\
                  forall u, u ∈ pre -> exists du, domain_of u du /\ not_ready du x r
            | Ok None => forall v, v ∈ u :: us -> exists du, domain_of v du /\ not_ready du x r
            | Err e => exists v, v ∈ u :: us /\ _extract_domain bracketed_ok v = Err e
            end) as Hrec.
  { intros ck t2 Hx2 Ht2 Hck2 Hnr. specialize (IH ck t2 Hx2 Hck2).
    destruct (scan_candidates us ck t2 r) as [[[[[url du]|]|e] ck'] t'].
    - destruct IH as (H1 & H2 & H3 & pre & post & -> & Hpre). split; [lra|]. split_and!; try done.
      exists (u :: pre), post. split; [done|]. intros v [->|Hv]%elem_of_cons; eauto.
    - destruct IH as (H1 & Hall). split; [lra|]. intros v [->|Hv]%elem_of_cons; eauto.
    - destruct IH as (H1 & v & Hv & He). split; [lra|]. exists v. split; [by right|done]. }
  case_bool_decide as Hin; [apply Hrec; auto; lra|].
  pose proof (can_crawl_spec d t r) as Hcc. destruct (_can_crawl_domain d t r) as [[] t2].
  - destruct Hcc as [Ht2 Hr]. split; [done|]. split_and!; try done.
    exists [], us. split; [done|]. set_solver.
  - destruct Hcc as [Ht2 Hr]. apply (not_ready_mono _ _ _ _ Hx) in Hr.
    apply Hrec; try done; try lra.
    intros d' [->%elem_of_singleton|Hd']%elem_of_union; [done|by apply Hck].
Qed.

(** What a call of [get_next_url] can have done: hand out one candidate whose
    domain was ready, or leave Redis as it was. *)
Lemma next_loop_outcome fuel timeout start t f res f' t' :
  next_loop fuel timeout start ∅ t f = Some (res, f', t') ->
  (now t <= now t')%Q /\
  match res with
  | Ok (Some url) => exists d t1, domain_of url d /\ ready d (now t1) (redis f) /\
      url ∈ candidates (redis f) /\ claim url d t1 f = (f', t')
  | _ => f' = f
  end.
Proof.
  revert t. induction fuel as [|fuel IH]; intros t; simpl; [done|].
  set (t0 := if Qltb 0 timeout then tick t else t).
  assert (now t <= now t0)%Q as Ht0 by (unfold t0; destruct (Qltb 0 timeout); [apply now_tick|lra]).
  destruct (_ && _); [by intros [= <- <- <-]|].
  destruct (candidates (redis f)) as [|u us] eqn:Hc; [by intros [= <- <- <-]|].
  pose proof (scan_spec (u :: us) ∅ t0 (redis f) (now t0) ltac:(lra) ltac:(set_solver)) as Hs.
  destruct (scan_candidates (u :: us) ∅ t0 (redis f)) as [[[[[url d]|]|e] ck] t1].
  - destruct Hs as (H1 & H2 & H3 & pre & post & Hpp & _).
    pose proof (claim_view url d t1 f) as Hv. destruct (claim url d t1 f) as [f1 t2] eqn:Hcl.
    destruct Hv as [Ht2 _]. intros E. simplify_eq.
    split; [pose proof (now_tick t1); lra|]. exists d, t1. split_and!; try done.
    rewrite Hpp. set_solver.
  - destruct (Qltb 0 timeout); [|intros [= <- <- <-]; split; [|done]; lra].
    intros [H1 H2]%IH. split; [|done]. simpl in H1. lra.
  - intros [= <- <- <-]. split; [|done]. lra.
Qed.

(** The hashes do not matter to the agreement of the queues. *)
Lemma agree_frame f f' :
  kbits (view (redis f')) = kbits (view (redis f)) ->
  kzsets (view (redis f')) = kzsets (view (redis f)) ->
  klists (view (redis f')) = klists (view (redis f)) ->
  ksets (view (redis f')) = ksets (view (redis f)) ->
  queues_agree f -> queues_agree f'.
Proof.
  intros Eb Ez El Ea Hq u. unfold ks_zset. rewrite Ez. intros Hu.
  destruct (Hq u Hu) as (d & Hd & Hin & Hact & Hc). exists d.
  unfold ks_list, ks_set in *. rewrite El, Ea. split_and!; try done.
  apply contains_iff. apply contains_iff in Hc. unfold ks_bits in *. by rewrite Eb.
Qed.

Lemma startswith_app p s : startswith p (p +:+ s) = true.
Proof. induction p as [|c p IH]; [by destruct s|]. rewrite app_string_cons. simpl. by destruct (Ascii.ascii_dec c c). Qed.

(** After [clear] no key of the frontier holds anything. *)
Lemma clear_view f s :
  let k := key_prefix cfg +:+ ":" +:+ s in let v := view (redis (clear f)) in
  ks_zset k v = ∅ /\ ks_hash k v = ∅.
Proof.
  simpl. rewrite view_delete_prefix. unfold ks_zset, ks_hash. simpl.
  assert (startswith (key_prefix cfg +:+ ":") (key_prefix cfg +:+ ":" +:+ s) = true) as Hk
    by (rewrite <- app_string_assoc; apply startswith_app).
  split; rewrite (proj2 (map_lookup_filter_None _ _ _)); try done; right; intros x _ H; simpl in H; congruence.
Qed.

Lemma clear_agree f : queues_agree (clear f).
Proof.
  intros u [x Hx]. destruct (clear_view f "priority_queue") as [E _].
  change (key_prefix cfg +:+ ":" +:+ "priority_queue") with priority_queue_key in E.
  by rewrite E, lookup_empty in Hx.
Qed.

Lemma run_op_agree w o : queues_agree (wfrontier w) -> queues_agree (wfrontier (run_op w o)).
Proof.
  intros Hq. destruct o as [url pr md force|fuel timeout|d x|d x|b| |]; simpl;
    [by apply add_url_agree| |eapply agree_frame, Hq; simpl; by autorewrite with redis..
    |apply clear_agree|by eapply agree_frame, Hq].
  unfold get_next_url.
  destruct (next_loop _ _ _ _ _ _) as [[[[[url|]|e] f'] t']|] eqn:E; simpl; try done;
    apply next_loop_outcome in E as [_ E]; try by rewrite E.
  destruct E as (d & t1 & Hd & _ & _ & Hcl).
  replace f' with (claim url d t1 (initialize (wfrontier w))).1 by by rewrite Hcl.
  by apply claim_agree.
Qed.

(** In every run of the frontier's operations, each URL in the priority
    queue is in the queue of its domain, its domain is active, and the filter
    knows it. *)
Theorem frontier_queues_agree w ops :
  queues_agree (wfrontier w) -> queues_agree (wfrontier (foldl run_op w ops)).
Proof. intros Hq. apply (foldl_invariant _ (fun w => queues_agree (wfrontier w))); [|done]. intros; by apply run_op_agree. Qed.

(** ** Politeness *)

(** Deliveries to one domain are at least [delta] apart. *)
Fixpoint spaced (delta : Q) (log : list (string * Q)) : Prop :=
  match log with
  | [] => True
  | (u, x) :: log' =>
      (forall u' x' d, (u', x') ∈ log' -> domain_of u d -> domain_of u' d -> (x' + delta <= x)%Q) /\
      spaced delta log'
  end.

Definition delays_ok (f : DistributedURLFrontier R) : Prop :=
  forall d, (min_crawl_delay cfg <= crawl_delay d (redis f))%Q.

(** The last crawl of [d], if there is one on record, was long enough ago. *)
Definition rested (d : string) (t : clock) (f : DistributedURLFrontier R) : Prop :=
  forall last, ks_hash crawl_times_key (view (redis f)) !! d = Some last ->
    (float_field last + min_crawl_delay cfg <= now t)%Q.

(** What a call under way knows. *)
Definition call_ok (c : call) (t : clock) (f : DistributedURLFrontier R) : Prop :=
  match c with
  | Checking _ _ url d last _ _ => domain_of url d /\
      forall l, ks_hash crawl_times_key (view (redis f)) !! d = Some l -> l = last
  | Removing url d | Dequeuing url d | Recording url d => domain_of url d /\ rested d t f
  | _ => True
  end.

Record polite (w : world) : Prop := {
  polite_delays : delays_ok (wfrontier w);
  polite_log u x d : (u, x) ∈ wlog w -> domain_of u d ->
    exists y, ks_hash crawl_times_key (view (redis (wfrontier w))) !! d = Some (FNum y) /\ (x <= y)%Q;
  polite_spaced : spaced (min_crawl_delay cfg) (wlog w);
  polite_one : (length (wcalls w) <= 1)%nat;
  polite_calls c : c ∈ wcalls w -> call_ok c (wclock w) (wfrontier w) }.

Lemma call_ok_frame c f f' t t' :
  ks_hash crawl_times_key (view (redis f')) = ks_hash crawl_times_key (view (redis f)) ->
  (now t <= now t')%Q -> call_ok c t f -> call_ok c t' f'.
Proof.
  intros Et Ht. destruct c; simpl; try done; unfold rested; rewrite Et; try done;
    intros [Hd Hr]; (split; [done|]); intros l Hl; specialize (Hr l Hl); lra.
Qed.

(** Politeness depends on the two hashes, the log and the calls only. *)
Lemma polite_frame f f' t t' log cs cs' :
  ks_hash crawl_times_key (view (redis f')) = ks_hash crawl_times_key (view (redis f)) ->
  ks_hash domain_delays_key (view (redis f')) = ks_hash domain_delays_key (view (redis f)) ->
  (now t <= now t')%Q ->
  (length cs' <= 1)%nat -> (forall c, c ∈ cs' -> c ∈ cs \/ call_ok c t' f') ->
  polite (World f t log cs) -> polite (World f' t' log cs').
Proof.
  intros Et Ed Ht Hone Hcs [H1 H2 H3 H4 H5]. split; simpl in *; [|by rewrite Et|done|done|].
  - intros d. specialize (H1 d). unfold crawl_delay in *. by rewrite Ed.
  - intros c [Hc|Hc]%Hcs; [|done]. eapply call_ok_frame; [exact Et|exact Ht|by apply H5].
Qed.

Lemma polite_same f f' t log cs :
  ks_hash crawl_times_key (view (redis f')) = ks_hash crawl_times_key (view (redis f)) ->
  ks_hash domain_delays_key (view (redis f')) = ks_hash domain_delays_key (view (redis f)) ->
  polite (World f t log cs) -> polite (World f' t log cs).
Proof.
  intros Et Ed Hp. eapply polite_frame; [exact Et|exact Ed| | | |exact Hp]; [lra|apply Hp|by left].
Qed.

Lemma set_delay_polite d x f t log cs :
  (min_crawl_delay cfg <= max_crawl_delay cfg)%Q ->
  polite (World f t log cs) -> polite (World (set_domain_delay d x f) t log cs).
Proof.
  intros Hmm [H1 H2 H3 H4 H5]. assert (ks_hash crawl_times_key (view (redis (set_domain_delay d x f)))
    = ks_hash crawl_times_key (view (redis f))) as Et.
  { simpl. rewrite view_hset. unfold ks_hset. by rewrite ks_hash_put, decide_False by auto. }
  split; simpl in *; [|by rewrite Et|done|done|].
  - intros d'. specialize (H1 d'). unfold crawl_delay in *.
    simpl. rewrite view_hset. unfold ks_hset. rewrite ks_hash_put, decide_True by done.
    destruct (decide (d = d')) as [<-|].
    + rewrite lookup_insert_eq. simpl. by apply py_clamp_bounds.
    + by rewrite lookup_insert_ne.
  - intros c Hc. apply (call_ok_frame c f _ t t); [exact Et|lra|by apply H5].
Qed.

Lemma clear_polite f t log cs :
  (min_crawl_delay cfg <= default_crawl_delay cfg)%Q ->
  polite (World f t log cs) -> polite (World (clear f) t [] cs).
Proof.
  intros Hdef [H1 H2 H3 H4 H5].
  destruct (clear_view f "crawl_times") as [_ Et]. destruct (clear_view f "domain_delays") as [_ Ed].
  change (key_prefix cfg +:+ ":" +:+ "crawl_times") with crawl_times_key in Et.
  change (key_prefix cfg +:+ ":" +:+ "domain_delays") with domain_delays_key in Ed.
  split; [|intros u x d Hin; simpl in Hin; by apply elem_of_nil in Hin|done|done|].
  - intros d. unfold crawl_delay. cbn [wfrontier]. by rewrite Ed, lookup_empty.
  - intros c Hc. specialize (H5 c Hc). cbn [wfrontier wclock] in *.
    destruct c; simpl in H5 |- *; try done; destruct H5 as [Hd _]; (split; [done|]); intros l Hl;
      change (view (delete_prefix _ (redis f))) with (view (redis (clear f))) in Hl; by rewrite Et, lookup_empty in Hl.
Qed.

(** Writing the crawl time of a rested domain, which ends the one call that
    may be under way. *)
Lemma claim_time_polite url d t1 f f' t' t log cs :
  (0 <= min_crawl_delay cfg)%Q ->
  domain_of url d -> rested d t1 f -> claim_time d t1 f = (f', t') ->
  polite (World f t log cs) -> polite (World f' t' ((url, now t') :: log) []).
Proof.
  intros Hmin Hd Hr Hcl [H1 H2 H3 H4 H5]. simpl in *.
  unfold claim_time, _update_crawl_time in Hcl. injection Hcl as <- <-.
  pose proof (now_tick t1) as Hn. set (t' := tick t1) in *.
  set (f' := Frontier _ _ _ _ _).
  assert (ks_hash crawl_times_key (view (redis f'))
    = <[d := FNum (now t')]> (ks_hash crawl_times_key (view (redis f)))) as Et.
  { simpl. rewrite view_hset. unfold ks_hset. by rewrite ks_hash_put, decide_True. }
  assert (ks_hash domain_delays_key (view (redis f')) = ks_hash domain_delays_key (view (redis f))) as Ed.
  { simpl. rewrite view_hset. unfold ks_hset. by rewrite ks_hash_put, decide_False by auto. }
  clearbody f' t'.
  assert (forall u x, (u, x) ∈ log -> domain_of u d -> (x + min_crawl_delay cfg <= now t')%Q) as Hsp.
  { intros u x Hin Hu. destruct (H2 u x d Hin Hu) as (y & Hy & Hxy).
    specialize (Hr _ Hy). simpl in Hr. lra. }
  split; simpl.
  - intros d'. specialize (H1 d'). unfold crawl_delay in *. by rewrite Ed.
  - intros u x d' [Hux|Hin]%elem_of_cons Hu; rewrite Et.
    + injection Hux as -> ->. assert (d = d') as -> by (unfold domain_of in *; congruence).
      rewrite lookup_insert_eq. exists (now t'). split; [done|lra].
    + destruct (decide (d = d')) as [<-|Hne].
      * rewrite lookup_insert_eq. exists (now t'). split; [done|].
        specialize (Hsp u x Hin Hu). lra.
      * rewrite lookup_insert_ne by done. by eapply H2.
  - split; [|done]. intros u x d' Hin Hu Hu'.
    assert (d = d') as -> by (unfold domain_of in *; congruence). by eapply Hsp.
  - lia.
  - by intros c Hc%elem_of_nil.
Qed.

Lemma zrem_hashes url f k : ks_hash k (view (redis (claim_zrem url f))) = ks_hash k (view (redis f)).
Proof. simpl. by rewrite view_zrem. Qed.
Lemma lrem_hashes url d f k : ks_hash k (view (redis (claim_lrem url d f))) = ks_hash k (view (redis f)).
Proof. simpl. by rewrite view_lrem. Qed.

Lemma claim_polite url d t1 f f' t' t log cs :
  (0 <= min_crawl_delay cfg)%Q ->
  domain_of url d -> ready d (now t1) (redis f) -> claim url d t1 f = (f', t') ->
  polite (World f t log cs) -> polite (World f' t' ((url, now t') :: log) []).
Proof.
  intros Hmin Hd Hr Hcl Hp. eapply (claim_time_polite _ d); [done|done| |exact Hcl|].
  - intros l. rewrite lrem_hashes, zrem_hashes. intros Hl. specialize (Hr l Hl).
    pose proof (polite_delays _ Hp d) as Hdel. simpl in Hdel. lra.
  - eapply (polite_same _ _ t log cs); [| |exact Hp]; by rewrite lrem_hashes, zrem_hashes.
Qed.

Section politeness.
Context (delays_ordered : (0 <= min_crawl_delay cfg <= max_crawl_delay cfg)%Q).
Context (default_allowed : (min_crawl_delay cfg <= default_crawl_delay cfg)%Q).

Lemma add_url_hashes url pr md force f k :
  k = crawl_times_key \/ k = domain_delays_key ->
  ks_hash k (view (redis (add_url url pr md force f).2)) = ks_hash k (view (redis f)).
Proof.
  intros Hk. unfold add_url. destruct (_normalize_url _ _) as [v|]; [|done].
  destruct (_extract_domain _ v) as [d|]; [|done]. destruct (_ && _); [done|]. simpl.
  destruct (enqueue_view v d pr md (redis f)) as (_ & _ & _ & _ & Et & Ed). by destruct Hk as [->| ->].
Qed.

Lemma run_op_polite w o :
  match o with NextUrl _ _ => wcalls w = [] | _ => True end -> polite w -> polite (run_op w o).
Proof.
  destruct w as [f t log cs]. destruct delays_ordered as [H0 Hmm].
  intros Hone Hp. destruct o as [url pr md force|fuel timeout|d x|d x|b| |]; simpl in *.
  - eapply polite_same; [| |exact Hp]; apply add_url_hashes; auto.
  - subst cs. unfold get_next_url.
    destruct (next_loop _ _ _ _ _ _) as [[[[[url|]|e] f'] t']|] eqn:E; simpl; try done;
      apply next_loop_outcome in E as [Ht E]; pose proof (now_tick t) as Ht0.
    + destruct E as (d & t1 & Hd & Hr & _ & Hcl). eapply claim_polite; eauto.
      eapply (polite_same f); [done|done|exact Hp].
    + subst f'. apply (polite_frame f _ t t' log [] []); [done|done|lra|simpl; lia|by left|exact Hp].
    + subst f'. apply (polite_frame f _ t t' log [] []); [done|done|lra|simpl; lia|by left|exact Hp].
  - by apply set_delay_polite.
  - by apply set_delay_polite.
  - eapply polite_same; [| |exact Hp]; simpl; rewrite view_hincrby; unfold ks_hincrby, ks_hset;
      by rewrite ks_hash_put, decide_False by auto.
  - by eapply clear_polite.
  - by eapply polite_same; [| |exact Hp].
Qed.

(** One step of the call under way. *)
Lemma call_step_polite c f t log :
  polite (World f t log [c]) ->
  match call_step c t f with
  | (inl c', f', t') => polite (World f' t' log [c'])
  | (inr (Ok (Some url)), f', t') => polite (World f' t' ((url, now t') :: log) [])
  | (inr _, f', t') => polite (World f' t' log [])
  end.
Proof.
  intros Hp. pose proof (polite_calls _ Hp c ltac:(by left)) as Hc. simpl in Hc.
  pose proof (now_tick t) as Ht.
  assert (forall f' t' c', 
    ks_hash crawl_times_key (view (redis f')) = ks_hash crawl_times_key (view (redis f)) ->
    ks_hash domain_delays_key (view (redis f')) = ks_hash domain_delays_key (view (redis f)) ->
    (now t <= now t')%Q -> call_ok c' t' f' -> polite (World f' t' log [c'])) as Hgo.
  { intros f' t' c' Et Ed Ht' Hc'. eapply polite_frame; [exact Et|exact Ed|exact Ht'| | |exact Hp]; [simpl; lia|].
    intros c2 ->%list_elem_of_singleton. by right. }
  assert (forall t', (now t <= now t')%Q -> polite (World f t' log [])) as Hend.
  { intros t' Ht'. eapply polite_frame; [done|done|exact Ht'| | |exact Hp]; [simpl; lia|].
    by intros c2 ?%elem_of_nil. }
  assert (now t <= now t)%Q as Hrefl by lra.
  unfold call_step. destruct c as [to st|to st [|u us] ck|to st u d l us ck|u d|u d|u d].
  - assert (now t <= now (if Qltb 0 to then tick t else t))%Q by by destruct (Qltb 0 to).
    destruct (_ && _); [by apply Hend|]. destruct (candidates (redis f)); [by apply Hend|by apply Hgo].
  - destruct (Qltb 0 to); [|by apply Hend]. apply Hgo; try done. simpl. lra.
  - destruct (_extract_domain bracketed_ok u) as [d|] eqn:Hd; [|by apply Hend]. case_bool_decide; [by apply Hgo|].
    rewrite view_hget. destruct (ks_hash _ _ !! d) as [l|] eqn:Hl; apply Hgo; try done; simpl; (split; [exact Hd|]).
    + intros l'. rewrite Hl. by intros [= <-].
    + intros l'. by rewrite Hl.
  - rewrite get_domain_delay_eq.
    destruct (Qle_bool_reflect (crawl_delay d (redis f)) (now (tick t) - float_field l)) as [Hle|]; [|by apply Hgo].
    destruct Hc as [Hd Hl]. apply Hgo; try done. split; [done|]. intros l' Hl'. rewrite (Hl _ Hl').
    pose proof (polite_delays _ Hp d) as Hdel. simpl in Hdel. lra.
  - apply Hgo; try done; try apply zrem_hashes. destruct Hc as [Hd Hr]. split; [done|].
    intros l. rewrite zrem_hashes. apply Hr.
  - apply Hgo; try done; try apply lrem_hashes. destruct Hc as [Hd Hr]. split; [done|].
    intros l. rewrite lrem_hashes. apply Hr.
  - destruct (claim_time d t f) as [f' t'] eqn:Hcl. destruct Hc as [Hd Hr].
    eapply claim_time_polite; eauto. apply delays_ordered.
Qed.

Lemma run_event_polite w e :
  match e with Begin _ | Whole (NextUrl _ _) => wcalls w = [] | _ => True end ->
  polite w -> polite (run_event w e).
Proof.
  intros Hone Hp. destruct e as [o|timeout|i]; simpl.
  - apply run_op_polite; [by destruct o|done].
  - rewrite Hone. simpl. destruct w as [f t log cs]; simpl in *. subst cs.
    eapply (polite_frame f); [done|done|apply now_tick|simpl; lia| |exact Hp].
    intros c ->%list_elem_of_singleton. by right.
  - destruct w as [f t log cs]; simpl in *. destruct cs as [|c [|c2 cs]]; simpl.
    + done.
    + destruct i as [|i]; [|done]. simpl. pose proof (call_step_polite c f t log Hp) as Hs.
      by destruct (call_step c t f) as [[[c'|[[url|]|e]] f'] t'].
    + pose proof (polite_one _ Hp) as Hl. simpl in Hl. lia.
Qed.

(** C1: politeness, for calls of [get_next_url] that do not overlap.  From a
    frontier with no custom delays and no call under way, with the delay
    bounds ordered ([0 <= min <= max]), the default delay at least the
    minimum and a clock that never goes back, in every run in which a call of
    [get_next_url] begins only when none is under way (any other operation,
    [clear] included, may come between any two Redis commands of a call), two
    URLs of one domain handed out since the last [clear] have crawl times at
    least [min_crawl_delay] apart, whatever delays are set or learnt from
    response times.  ([clear] forgets the crawl times, and calls that overlap
    do not keep the delay: [overlapping_calls_impolite].) *)
Theorem frontier_politeness f t es :
  ks_hash domain_delays_key (view (redis f)) = ∅ ->
  one_at_a_time (World f t [] []) es ->
  spaced (min_crawl_delay cfg) (wlog (foldl run_event (World f t [] []) es)).
Proof.
  intros Hnone Hone. apply polite_spaced.
  assert (polite (World f t [] [])) as Hp.
  { split; simpl; [|by intros u x d Hin%elem_of_nil|done|lia|by intros c Hc%elem_of_nil].
    intros d. unfold crawl_delay. by rewrite Hnone, lookup_empty. }
  revert Hone Hp. generalize (World f t [] []). induction es as [|e es IH]; intros w Hone Hp; simpl; [done|].
  destruct Hone as [He Hone]. apply IH; [done|]. by apply run_event_polite.
Qed.

End politeness.

(** ** Whole calls and their steps *)

(** Once a call has ended, further turns change nothing. *)
Lemma call_steps_app n m c c' t t' f f' :
  call_steps n c t f = (inl c', f', t') -> call_steps (n + m) c t f = call_steps m c' t' f'.
Proof.
  revert c t f. induction n as [|n IH]; intros c t f; simpl; [by intros [= -> -> ->]|].
  destruct (call_step c t f) as [[[c1|r] f1] t1]; [apply IH|done].
Qed.

Lemma scan_steps timeout start urls checked t f res ck t' :
  scan_candidates urls checked t (redis f) = (res, ck, t') ->
  exists n, call_steps n (Scanning timeout start urls checked) t f
    = (match res with
       | Ok (Some (url, d)) => inl (Removing url d)
       | Ok None => inl (Scanning timeout start [] ck)
       | Err e => inr (Err e)
       end, f, t').
Proof.
  revert checked t. induction urls as [|u us IH]; intros checked t; simpl.
  { intros [= <- <- <-]. by exists 0%nat. }
  destruct (_extract_domain bracketed_ok u) as [d|e] eqn:Hd.
  2: { intros [= <- <- <-]. exists 1%nat. simpl. by rewrite Hd. }
  case_bool_decide as Hin.
  { intros [n Hn]%IH. exists (S n). simpl. by rewrite Hd, bool_decide_eq_true_2. }
  unfold _can_crawl_domain. destruct (hget crawl_times_key d (redis f)) as [l|] eqn:Hl.
  - cbv zeta. destruct (Qle_bool (get_domain_delay d (redis f)) (now (tick t) - float_field l)) eqn:Hq.
    + intros [= <- <- <-]. exists 2%nat. cbn [call_steps call_step]. rewrite Hd, bool_decide_eq_false_2, Hl by done. cbn [call_step]. by rewrite Hq.
    + intros [n Hn]%IH. exists (S (S n)). cbn [call_steps call_step]. rewrite Hd, bool_decide_eq_false_2, Hl by done. cbn [call_step]. by rewrite Hq.
  - intros [= <- <- <-]. exists 1%nat. simpl. by rewrite Hd, bool_decide_eq_false_2, Hl by done.
Qed.

Lemma next_loop_steps fuel timeout start t f res f' t' :
  next_loop fuel timeout start ∅ t f = Some (res, f', t') ->
  exists n, call_steps n (Looping timeout start) t f = (inr res, f', t').
Proof.
  revert t. induction fuel as [|fuel IH]; intros t; cbn [next_loop]; [done|].
  set (t0 := if Qltb 0 timeout then tick t else t).
  destruct (Qltb 0 timeout && Qltb timeout (now t0 - start)) eqn:Hx.
  { intros [= <- <- <-]. exists 1%nat. simpl. fold t0. by rewrite Hx. }
  destruct (candidates (redis f)) as [|u us] eqn:Hc.
  { intros [= <- <- <-]. exists 1%nat. simpl. fold t0. by rewrite Hx, Hc. }
  destruct (scan_candidates (u :: us) ∅ t0 (redis f)) as [[r ck] t1] eqn:Hs.
  apply (scan_steps timeout start) in Hs as [n Hn].
  assert (forall m, call_steps (S (n + m)) (Looping timeout start) t f
                    = call_steps (n + m) (Scanning timeout start (u :: us) ∅) t0 f) as Hfirst.
  { intros m. cbn [call_steps call_step]. fold t0. by rewrite Hx, Hc. }
  destruct r as [[[url d]|]|e].
  - destruct (claim url d t1 f) as [f2 t2] eqn:Hcl. intros E; simplify_eq.
    exists (S (n + 3)). rewrite Hfirst, (call_steps_app _ _ _ _ _ _ _ _ Hn).
    cbn [call_steps call_step]. change (claim_time d t1 (claim_lrem url d (claim_zrem url f))) with (claim url d t1 f).
    by rewrite Hcl.
  - destruct (Qltb 0 timeout) eqn:Hto.
    + intros [m Hm]%IH. exists (S (n + S m)). rewrite Hfirst, (call_steps_app _ _ _ _ _ _ _ _ Hn).
      cbn [call_steps call_step]. by rewrite Hto.
    + intros [= <- <- <-]. exists (S (n + 1)). rewrite Hfirst, (call_steps_app _ _ _ _ _ _ _ _ Hn).
      cbn [call_steps call_step]. by rewrite Hto.
  - intros [= <- <- <-]. exists (S (n + 0)). rewrite Hfirst, Nat.add_0_r. by rewrite Hn.
Qed.

(** The steps of a call that nothing comes between make up [get_next_url]. *)
Theorem get_next_url_steps fuel timeout t f res f' t' :
  get_next_url fuel timeout t f = Some (res, f', t') ->
  let '(c, f0, t0) := begin_call timeout t f in
  exists n, call_steps n c t0 f0 = (inr res, f', t').
Proof. intros H. simpl. by apply next_loop_steps in H. Qed.

(** ** Which URL is handed out *)

Lemma candidates_queued url (r : R) :
  url ∈ candidates r -> is_Some (ks_zset priority_queue_key (view r) !! url).
Proof.
  unfold candidates. rewrite view_zrange. intros (pre & post & E)%list_elem_of_split.
  apply zrange_before in E as (x & Hx & _). by exists x.
Qed.

(** C7: without waiting ([timeout=0]), [get_next_url] on a consistent
    frontier always returns.  The URL it hands out leaves the queue; its
    domain was free to be crawled (no crawl on record, or the last one at
    least the domain's delay ago) and gets the present as its crawl time; and
    it is the best such URL: the domain of every queued URL of strictly
    higher priority was still within its delay.  When it returns [None], so
    were the domains of all of the first hundred. *)
Theorem next_url_best fuel t f :
  queues_agree f ->
  exists res f' t', get_next_url (S fuel) 0 t f = Some (res, f', t') /\
    let x := now (tick t) in
    let queue := ks_zset priority_queue_key (view (redis f)) in
    let times := ks_hash crawl_times_key (view (redis f)) in
    match res with
    | Ok (Some url) => exists score d, queue !! url = Some score /\ domain_of url d /\
        (forall last, times !! d = Some last -> (float_field last + crawl_delay d (redis f) <= now t')%Q) /\
        ks_zset priority_queue_key (view (redis f')) = delete url queue /\
        ks_hash crawl_times_key (view (redis f')) = <[d := FNum (now t')]> times /\
        forall u s, queue !! u = Some s -> (s < score)%Q ->
          exists d, domain_of u d /\ not_ready d x (redis f)
    | Ok None => redis f' = redis f /\ forall u, u ∈ candidates (redis f) ->
        exists d, domain_of u d /\ not_ready d x (redis f)
    | Err _ => False
    end.
Proof.
  intros Hq. unfold get_next_url. cbn [next_loop].
  change (Qltb 0 0) with false. cbn [andb].
  change (redis (initialize f)) with (redis f).
  destruct (candidates (redis f)) as [|u us] eqn:Hc.
  { eexists _, _, _. split; [reflexivity|]. split; [done|]. set_solver. }
  pose proof (scan_spec (u :: us) ∅ (tick t) (redis f) (now (tick t)) ltac:(lra) ltac:(set_solver)) as Hs.
  destruct (scan_candidates (u :: us) ∅ (tick t) (redis f)) as [[[[[url d]|]|e] ck] t1].
  - destruct Hs as (_ & Hd & Hr & pre & post & Hpp & Hpre).
    pose proof (claim_view url d t1 (initialize f)) as Hv.
    destruct (claim url d t1 (initialize f)) as [f' t'].
    eexists _, _, _. split; [reflexivity|]. destruct Hv as (-> & _ & Ez & _ & _ & Et & _). simpl.
    unfold candidates in Hc. rewrite Hpp, view_zrange in Hc.
    destruct (zrange_before _ _ _ _ _ _ Hc) as (score & Hscore & Hbef).
    exists score, d. split_and!; [done|done| |done|done|].
    + intros last Hl. specialize (Hr last Hl). pose proof (now_tick t1) as Hn. simpl in Hn. lra.
    + intros v s Hv Hlt. by apply Hpre, (Hbef v s).
  - eexists _, _, _. split; [reflexivity|]. simpl. split; [done|apply Hs].
  - destruct Hs as (_ & v & Hv & He). rewrite <- Hc in Hv.
    apply candidates_queued in Hv. destruct (Hq v Hv) as (d & Hd & _). unfold domain_of in Hd. congruence.
Qed.

(** ** Termination *)

Lemma scan_clock urls checked t r : (now t <= now (scan_candidates urls checked t r).2)%Q.
Proof.
  revert checked t. induction urls as [|u us IH]; intros checked t; simpl; [lra|].
  destruct (_extract_domain bracketed_ok u) as [d|e]; [|simpl; lra].
  case_bool_decide; [apply IH|].
  pose proof (can_crawl_spec d t r) as Hcc. destruct (_can_crawl_domain d t r) as [[] t2]; [apply Hcc|].
  destruct Hcc as [Hle _]. eapply Qle_trans; [exact Hle|apply IH].
Qed.

Lemma next_loop_returns fuel timeout start checked t f :
  (timeout + start < now t + inject_Z (Z.of_nat fuel) / 10 - (1 # 10))%Q -> (0 < fuel)%nat ->
  is_Some (next_loop fuel timeout start checked t f).
Proof.
  revert checked t. induction fuel as [|fuel IH]; intros checked t Hf Hpos; [lia|]. simpl.
  set (t0 := if Qltb 0 timeout then tick t else t).
  assert (now t <= now t0)%Q as Ht0 by (unfold t0; destruct (Qltb 0 timeout); [apply now_tick|lra]).
  destruct (Qltb 0 timeout && Qltb timeout (now t0 - start)) eqn:Hexp; [by eexists|].
  destruct (candidates (redis f)) as [|u us]; [by eexists|].
  pose proof (scan_clock (u :: us) checked t0 (redis f)) as Hsc.
  destruct (scan_candidates (u :: us) checked t0 (redis f)) as [[[[[url d]|]|e] ck] t1].
  - destruct (claim url d t1 f). by eexists.
  - destruct (Qltb_reflect 0 timeout) as [Hpt|]; [|by eexists]. simpl in Hexp, Hsc.
    pose proof (lag_nonneg (reads t)). apply IH.
    + rewrite Nat2Z.inj_succ, <- Z.add_1_r, inject_Z_plus in Hf. unfold sleep; simpl now.
      unfold Qdiv in *. change (/ 10)%Q with (1 # 10) in *. change (inject_Z 1) with 1%Q in Hf. lra.
    + destruct fuel; [|lia]. exfalso.
      destruct (Qltb_reflect timeout (now t + lag (reads t) - start)); [done|].
      assert (inject_Z (Z.of_nat 1) / 10 == 1 # 10)%Q as Heq by reflexivity. rewrite Heq in Hf. lra.
  - by eexists.
Qed.

(** A call with a timeout of [timeout] seconds ends after at most
    [10 * timeout + 2] turns of its polling loop. *)
Theorem next_url_terminates fuel timeout t f :
  (10 * timeout + 1 < inject_Z (Z.of_nat fuel))%Q -> (0 < fuel)%nat ->
  exists res f' t', get_next_url fuel timeout t f = Some (res, f', t').
Proof.
  intros Hf Hpos. unfold get_next_url.
  destruct (next_loop_returns fuel timeout (now (tick t)) ∅ (tick t) (initialize f)) as [[[res f'] t'] E];
    [|done|by eauto].
  unfold Qdiv. change (/ 10)%Q with (1 # 10). lra.
Qed.
End frontier.

(** ** Witnesses, on the reference keyspace *)

Definition demo_cfg : FrontierConfig := {|
  key_prefix := "frontier"; default_crawl_delay := 1; min_crawl_delay := 1 # 2;
  max_crawl_delay := 30; politeness_factor := 10; bloom_size := 97; bloom_hash_count := 3 |}.
Definition demo_len (s : string) : Z := Z.of_nat (String.length s).
Definition demo_op : world (R := keyspace) -> op -> world :=
  run_op (fun _ => true) demo_len demo_len id (fun _ => 1%Q) demo_cfg.
Definition demo_event : world (R := keyspace) -> event -> world :=
  run_event (fun _ => true) demo_len demo_len id (fun _ => 1%Q) demo_cfg.
Definition demo_world : world (R := keyspace) := World (new_frontier ks_empty) (Clock 0 0) [] [].

Lemma demo_agree : queues_agree (fun _ => true) demo_len demo_len demo_cfg (wfrontier demo_world).
Proof. intros url [x Hx]. vm_compute in Hx. discriminate. Qed.

Lemma frontier_dedup_witness :
  let f := wfrontier (foldl demo_event (demo_op demo_world (AddUrl "http://a.b/x?q=1&p=2" 1 ∅ false))
                        [Whole (NextUrl 1 0); Begin 0; Whole (SetDelay "a.b" 3); Turn 0]) in
  (add_url (fun _ => true) demo_len demo_len id demo_cfg "HTTP://A.b:80/x/?p=2&q=1" 5 ∅ false f).1 = Ok false.
Proof.
  apply (frontier_dedup (fun _ => true) demo_len demo_len id (fun _ => 1%Q) demo_cfg
           "http://a.b/x?q=1&p=2" 1 ∅ false demo_world true); [vm_compute; reflexivity..|].
  rewrite list_elem_of_In. simpl. intuition discriminate.
Defined.

Lemma frontier_queues_agree_witness :
  queues_agree (fun _ => true) demo_len demo_len demo_cfg
    (wfrontier (foldl demo_op demo_world [AddUrl "http://a.b/x" 1 ∅ false; AddUrl "http://c/" 2 ∅ true; NextUrl 1 0])).
Proof.
  apply (frontier_queues_agree (fun _ => true) demo_len demo_len id (fun _ => 1%Q) demo_cfg).
  - intros n. discriminate.
  - exact demo_agree.
Defined.

(** Two URLs of one domain: the first handed out by a whole call, the second
    by a call whose six steps have other operations between them. *)
Definition demo_events : list event :=
  [Whole (AddUrl "http://a.b/x" 1 ∅ false); Whole (AddUrl "http://a.b/yy" 2 ∅ false); Whole (NextUrl 1 0);
   Begin 0; Turn 0; Turn 0; Whole (SetDelay "a.b" 0); Turn 0; Whole (MarkCrawled true); Turn 0;
   Whole (AddUrl "http://c/" 1 ∅ false); Turn 0; Turn 0].

Lemma frontier_politeness_witness :
  let w := foldl demo_event demo_world demo_events in
  map fst (wlog w) = ["http://a.b/x"; "http://a.b/yy"] /\ spaced (fun _ => true) (1 # 2) (wlog w).
Proof.
  intros w. split; [vm_compute; reflexivity|].
  apply (frontier_politeness (fun _ => true) demo_len demo_len id (fun _ => 1%Q) demo_cfg).
  - intros n. discriminate.
  - split; discriminate.
  - discriminate.
  - reflexivity.
  - vm_compute. repeat split.
Defined.

(** Two overlapping calls of [get_next_url]: the second checks the domain
    before the first has written its crawl time, and two URLs of one domain
    are handed out a tenth of a second apart although its delay is a
    second. *)
Theorem overlapping_calls_impolite :
  let w := foldl (run_event (fun _ => true) demo_len demo_len id (fun _ => 1 # 10) demo_cfg) demo_world
    [Whole (AddUrl "http://a.b/x" 1 ∅ false); Whole (AddUrl "http://a.b/yy" 2 ∅ false);
     Begin 0; Turn 0; Turn 0; Turn 0; Begin 0; Turn 1; Turn 1; Turn 1; Turn 1; Turn 0; Turn 0; Turn 0] in
  exists x y, wlog w = [("http://a.b/x", x); ("http://a.b/yy", y)] /\ (x - y == 1 # 10)%Q /\
    get_domain_delay demo_cfg "a.b" (redis (wfrontier w)) = 1%Q.
Proof. vm_compute. eexists _, _. repeat split. Qed.

Lemma next_url_best_witness :
  let f := wfrontier (foldl demo_op demo_world [AddUrl "http://a.b/x" 1 ∅ false; AddUrl "http://c/" 2 ∅ false]) in
  exists f' t', get_next_url (fun _ => true) (fun _ => 1%Q) demo_cfg 1 0 (Clock 0 0) f
                = Some (Ok (Some "http://c/"), f', t').
Proof.
  intros f.
  destruct (next_url_best (fun _ => true) demo_len demo_len (fun _ => 1%Q) demo_cfg
              ltac:(intros n; discriminate) 0 (Clock 0 0) f) as (res & f' & t' & E & _).
  - apply (foldl_invariant demo_op (fun w => queues_agree (fun _ => true) demo_len demo_len demo_cfg (wfrontier w))).
    + intros s e _ Hs. apply run_op_agree; [intros n; discriminate|exact Hs].
    + exact demo_agree.
  - vm_compute in E. injection E as <- <- <-. eexists _, _. vm_compute. reflexivity.
Defined.

Lemma next_url_terminates_witness :
  exists res f' t', get_next_url (fun _ => true) (fun _ => 1%Q) demo_cfg 12 1 (Clock 0 0)
                      (new_frontier ks_empty) = Some (res, f', t').
Proof.
  apply (next_url_terminates (fun _ => true) (fun _ => 1%Q) demo_cfg).
  - intros n. discriminate.
  - reflexivity.
  - lia.
Defined.
