(* ===== verification/Scheduler.v ===== *)
(** * The crawl scheduler (document_processor/crawling/scheduler.py)

    The scheduler drives a URL frontier through the interface [UrlFrontier];
    its laws are what the scheduler's theorems use, and Frontier.v discharges
    them.  Its calls may raise; what a worker does with an exception depends
    on where in the [try] block it comes from.  A worker is two pieces, before
    and after the URL handler is awaited; between the two, other coroutines
    may run.  [clk n] is the n-th reading of the clock in the piece at
    hand. *)

From S2P Require Import Prelude PyStr Url Redis Frontier.

(** ** What the scheduler asks of a frontier *)

Class UrlFrontier (F : Type) := {
  fr_next : F -> result pyexn (option string) * F;      (* get_next_url(timeout=1.0) *)
  fr_add : string -> Q -> bool -> F -> result pyexn bool * F;
  fr_set_delay : string -> Q -> F -> result pyexn unit * F;
  fr_response : string -> Q -> F -> result pyexn unit * F;
  fr_mark : bool -> F -> result pyexn unit * F;
  fr_size : F -> Z }.

(** [fr_known u]: the duplicate check of an unforced [add_url] rejects [u]. *)
Class UrlFrontierLaws (F : Type) `{UrlFrontier F} := {
  fr_queued : F -> gset string;
  fr_known : string -> F -> Prop;
  fr_size_queued f : fr_size f = Z.of_nat (size (fr_queued f));
  fr_add_known u p f : fr_known u f ->
    (fr_add u p false f).1 = Ok false /\ fr_queued (fr_add u p false f).2 = fr_queued f;
  fr_add_forced u p f b : (fr_add u p true f).1 = Ok b ->
    b = true /\ exists v, fr_queued (fr_add u p true f).2 = {[v]} ∪ fr_queued f /\
                          fr_known u (fr_add u p true f).2;
  fr_queued_set_delay d x f : fr_queued (fr_set_delay d x f).2 = fr_queued f;
  fr_queued_response d x f : fr_queued (fr_response d x f).2 = fr_queued f;
  fr_queued_mark b f : fr_queued (fr_mark b f).2 = fr_queued f }.

Create Rewrite HintDb frontier.
#[export] Hint Rewrite @fr_queued_set_delay @fr_queued_response @fr_queued_mark
  using typeclasses eauto : frontier.

(** ** Data *)

Inductive SchedulerState := IDLE | RUNNING | PAUSED | STOPPING | STOPPED.
#[export] Instance SchedulerState_eq_dec : EqDecision SchedulerState.
Proof. solve_decision. Defined.

Record SchedulerConfig := {
  max_concurrent_workers : Z;
  min_crawl_delay : Q;
  max_crawl_delay : Q;
  politeness_factor : Q;
  max_requests_per_second : Q;
  max_requests_per_domain_per_minute : Z;
  queue_high_watermark : Z;
  queue_low_watermark : Z;
  backpressure_delay : Q;
  idle_timeout : Q;
  stats_interval : Q }.

Record DomainState := Domain {
  last_crawl_time : Q;
  crawl_delay : Q;
  total_requests : Z;
  successful_requests : Z;
  failed_requests : Z;
  total_response_time : Q;
  last_status_code : Z;
  consecutive_errors : Z;
  is_blocked : bool;
  blocked_until : option Q }.

Definition new_domain : DomainState := Domain 0 1 0 0 0 0 0 0 false None.

Definition average_response_time (d : DomainState) : Q :=
  if successful_requests d =? 0 then 0
  else (total_response_time d / inject_Z (successful_requests d))%Q.
Definition success_rate (d : DomainState) : Q :=
  if total_requests d =? 0 then 0
  else (inject_Z (successful_requests d) / inject_Z (total_requests d))%Q.

Record SchedulerStats := Stats {
  st_state : SchedulerState;
  start_time : option Q;
  urls_scheduled : Z;
  urls_completed : Z;
  urls_failed : Z;
  active_workers : Z;
  total_bytes_downloaded : Z;
  requests_per_second : Z;
  backpressure_events : Z }.

Definition new_stats : SchedulerStats := Stats IDLE None 0 0 0 0 0 0 0.

(** [worker_count] is [len(self._active_workers)]. *)
Record CrawlScheduler (F : Type) := Scheduler {
  frontier : F;
  state : SchedulerState;
  stats : SchedulerStats;
  domain_states : gmap string DomainState;
  request_times : list Q;
  domain_request_times : gmap string (list Q);
  worker_count : Z;
  stop_event : bool;
  pause_event : bool;
  backpressure_active : bool }.
Arguments Scheduler {F}.
Arguments frontier {F}.
Arguments state {F}.
Arguments stats {F}.
Arguments domain_states {F}.
Arguments request_times {F}.
Arguments domain_request_times {F}.
Arguments worker_count {F}.
Arguments stop_event {F}.
Arguments pause_event {F}.
Arguments backpressure_active {F}.

Section scheduler.
Context {F : Type} `{UrlFrontier F}.
Context (bracketed_ok : string -> bool).
Context (cfg : SchedulerConfig).
Implicit Types s : CrawlScheduler F.

Definition new_scheduler (f : F) : CrawlScheduler F :=
  Scheduler f IDLE new_stats ∅ [] ∅ 0 false true false.

Definition with_frontier (f : F) s : CrawlScheduler F :=
  Scheduler f (state s) (stats s) (domain_states s) (request_times s) (domain_request_times s)
    (worker_count s) (stop_event s) (pause_event s) (backpressure_active s).
Definition with_stats (x : SchedulerStats) s : CrawlScheduler F :=
  Scheduler (frontier s) (state s) x (domain_states s) (request_times s) (domain_request_times s)
    (worker_count s) (stop_event s) (pause_event s) (backpressure_active s).
Definition with_domain (d : string) (x : DomainState) s : CrawlScheduler F :=
  Scheduler (frontier s) (state s) (stats s) (<[d := x]> (domain_states s)) (request_times s)
    (domain_request_times s) (worker_count s) (stop_event s) (pause_event s) (backpressure_active s).
Definition with_control (x : SchedulerState) (stop pause : bool) s : CrawlScheduler F :=
  let st := stats s in
  Scheduler (frontier s) x
    (Stats x (start_time st) (urls_scheduled st) (urls_completed st) (urls_failed st)
       (active_workers st) (total_bytes_downloaded st) (requests_per_second st) (backpressure_events st))
    (domain_states s) (request_times s) (domain_request_times s) (worker_count s) stop pause
    (backpressure_active s).

(** ** Control *)

(** [start] up to the call of [_main_loop]; [None] when it was running. *)
Definition start (now : Q) s : option (CrawlScheduler F) :=
  if bool_decide (state s = RUNNING) then None
  else
    let s' := with_control RUNNING false (pause_event s) s in
    let st := stats s' in
    Some (with_stats (Stats (st_state st) (Some now) (urls_scheduled st) (urls_completed st)
                        (urls_failed st) (active_workers st) (total_bytes_downloaded st)
                        (requests_per_second st) (backpressure_events st)) s').

(** [stop] has two pieces around the wait for the active workers. *)
Definition stop_request s : option (CrawlScheduler F) :=
  if bool_decide (state s = RUNNING \/ state s = PAUSED)
  then Some (with_control STOPPING true (pause_event s) s) else None.
Definition stop_finish s : CrawlScheduler F :=
  with_control STOPPED (stop_event s) (pause_event s) s.

Definition pause s : CrawlScheduler F :=
  if bool_decide (state s = RUNNING) then with_control PAUSED (stop_event s) false s else s.

Definition resume s : CrawlScheduler F :=
  if bool_decide (state s = PAUSED) then with_control RUNNING (stop_event s) true s else s.

(** ** Backpressure and rate limits *)

Definition _check_backpressure s : bool * CrawlScheduler F :=
  let queue_size := fr_size (frontier s) in
  let set b ev := 
    let st := stats s in
    Scheduler (frontier s) (state s)
      (Stats (st_state st) (start_time st) (urls_scheduled st) (urls_completed st) (urls_failed st)
         (active_workers st) (total_bytes_downloaded st) (requests_per_second st) ev)
      (domain_states s) (request_times s) (domain_request_times s) (worker_count s)
      (stop_event s) (pause_event s) b in
  if queue_high_watermark cfg <? queue_size then
    (true, if negb (backpressure_active s) then set true (backpressure_events (stats s) + 1) else s)
  else if queue_size <? queue_low_watermark cfg then (false, set false (backpressure_events (stats s)))
  else (false, s).

(** The entries less than [window] before [now]. *)
Definition recent (now window : Q) (l : list Q) : list Q :=
  List.filter (fun t => Qltb (now - t) window) l.

(** The sleep that a full window asks for. *)
Definition window_sleep (now window : Q) (l : list Q) : Q :=
  match l with
  | [] => 0
  | oldest :: _ => let x := (window - (now - oldest))%Q in if Qltb 0 x then x else 0
  end.

(** The new state and the total time slept; [current_time] is read once.
    With an empty window and a limit of zero, [self._request_times[0]] raises
    [IndexError]. *)
Definition _enforce_rate_limits (url : string) (current_time : Q) s
  : result pyexn (CrawlScheduler F * Q) :=
  match _extract_domain bracketed_ok url with
  | Err e => Err e
  | Ok domain =>
      let rt := recent current_time 1 (request_times s) in
      let full := Qle_bool (max_requests_per_second cfg) (inject_Z (zlength rt)) in
      let dt := recent current_time 60 (default [] (domain_request_times s !! domain)) in
      let dfull := max_requests_per_domain_per_minute cfg <=? zlength dt in
      if full && (zlength rt =? 0) || dfull && (zlength dt =? 0)
      then Err (PyExn "IndexError" "list index out of range")
      else
        let slept := ((if full then window_sleep current_time 1 rt else 0)
                      + (if dfull then window_sleep current_time 60 dt else 0))%Q in
        Ok (Scheduler (frontier s) (state s) (stats s) (domain_states s) rt
              (<[domain := dt ++ [current_time]]> (domain_request_times s))
              (worker_count s) (stop_event s) (pause_event s) (backpressure_active s), slept)
  end.

(** The semaphore is held only while the task is created; with at least one
    permit it never makes the loop wait. *)
Definition _spawn_worker s : CrawlScheduler F :=
  Scheduler (frontier s) (state s) (stats s) (domain_states s) (request_times s)
    (domain_request_times s) (worker_count s + 1) (stop_event s) (pause_event s) (backpressure_active s).
Definition worker_done s : CrawlScheduler F :=
  Scheduler (frontier s) (state s) (stats s) (domain_states s) (request_times s)
    (domain_request_times s) (worker_count s - 1) (stop_event s) (pause_event s) (backpressure_active s).

(** ** Workers *)

(** What awaiting the URL handler gave: a response with its status code and
    size, or an exception ([wait_for] raises [TimeoutError]); [NoHandler] when
    none is configured. *)
Inductive fetch := Response (status_code bytes : Z) | HandlerRaised (e : pyexn) | NoHandler.

Definition domain_state (d : string) s : DomainState := default new_domain (domain_states s !! d).

Definition count_scheduled s : CrawlScheduler F :=
  let st := stats s in
  with_stats (Stats (st_state st) (start_time st) (urls_scheduled st + 1) (urls_completed st)
                (urls_failed st) (worker_count s) (total_bytes_downloaded st)
                (requests_per_second st) (backpressure_events st)) s.
Definition count_completed (bytes : Z) s : CrawlScheduler F :=
  let st := stats s in
  with_stats (Stats (st_state st) (start_time st) (urls_scheduled st) (urls_completed st + 1)
                (urls_failed st) (active_workers st) (total_bytes_downloaded st + bytes)
                (requests_per_second st) (backpressure_events st)) s.
Definition count_failed s : CrawlScheduler F :=
  let st := stats s in
  with_stats (Stats (st_state st) (start_time st) (urls_scheduled st) (urls_completed st)
                (urls_failed st + 1) (active_workers st) (total_bytes_downloaded st)
                (requests_per_second st) (backpressure_events st)) s.

Definition set_block (b : bool) (until : option Q) (d : DomainState) : DomainState :=
  Domain (last_crawl_time d) (crawl_delay d) (total_requests d) (successful_requests d)
    (failed_requests d) (total_response_time d) (last_status_code d) (consecutive_errors d) b until.
Definition set_delay (x : Q) (d : DomainState) : DomainState :=
  Domain (last_crawl_time d) x (total_requests d) (successful_requests d)
    (failed_requests d) (total_response_time d) (last_status_code d) (consecutive_errors d)
    (is_blocked d) (blocked_until d).
(** A failure: [errors] is what it adds to the consecutive errors. *)
Definition add_failure (errors : Z) (d : DomainState) : DomainState :=
  Domain (last_crawl_time d) (crawl_delay d) (total_requests d) (successful_requests d)
    (failed_requests d + 1) (total_response_time d) (last_status_code d)
    (consecutive_errors d + errors) (is_blocked d) (blocked_until d).
Definition add_request (now : Q) (status : Z) (d : DomainState) : DomainState :=
  Domain now (crawl_delay d) (total_requests d + 1) (successful_requests d)
    (failed_requests d) (total_response_time d) status (consecutive_errors d)
    (is_blocked d) (blocked_until d).
Definition add_success (response_time : Q) (d : DomainState) : DomainState :=
  Domain (last_crawl_time d) (crawl_delay d) (total_requests d) (successful_requests d + 1)
    (failed_requests d) (total_response_time d + response_time) (last_status_code d) 0
    (is_blocked d) (blocked_until d).

(** The body of the two [except] clauses.  When [mark_crawled] raises in it,
    the exception ends the task; the [finally] clause still runs. *)
Definition on_exception (domain : string) (errors : Z) s : CrawlScheduler F :=
  let s := count_failed s in
  let s := match domain_states s !! domain with
           | Some d => with_domain domain (add_failure errors d) s
           | None => s
           end in
  with_frontier (fr_mark false (frontier s)).2 s.

(** An exception in the [try] block: a timeout also counts as a consecutive
    error; a cancellation is not an [Exception] and no clause catches it. *)
Definition on_raise (domain : string) (e : pyexn) s : CrawlScheduler F :=
  if String.eqb (exn_type e) "CancelledError" then s
  else on_exception domain (if String.eqb (exn_type e) "TimeoutError" then 1 else 0) s.

(** The [finally] clause; the clock is read again for every entry kept. *)
Fixpoint keep_recent (clk : nat -> Q) (n : nat) (l : list Q) : list Q :=
  match l with
  | [] => []
  | t :: l' => if Qltb (clk n - t) 1 then t :: keep_recent clk (S n) l' else keep_recent clk (S n) l'
  end.
Definition finally_clause (clk : nat -> Q) s : CrawlScheduler F :=
  let st := stats s in
  let rt := keep_recent clk 1 (request_times s ++ [clk 0%nat]) in
  Scheduler (frontier s) (state s)
    (Stats (st_state st) (start_time st) (urls_scheduled st) (urls_completed st) (urls_failed st)
       (worker_count s - 1) (total_bytes_downloaded st) (zlength rt) (backpressure_events st))
    (domain_states s) rt (domain_request_times s) (worker_count s)
    (stop_event s) (pause_event s) (backpressure_active s).

(** What the piece before the handler leads to. *)
Inductive begun := Skipped | Calling (domain : string) (start_time : Q) | Raised (e : pyexn).

Definition worker_begin (clk : nat -> Q) (url : string) s : begun * CrawlScheduler F :=
  match _extract_domain bracketed_ok url with
  | Err e => (Raised e, s)
  | Ok domain =>
      let start_time := clk 0%nat in
      let s := count_scheduled s in
      let d := domain_state domain s in
      let s := with_domain domain d s in
      if is_blocked d then
        match blocked_until d with
        | Some until =>
            if negb (Qeq_bool until 0) && Qltb (clk 1%nat) until then
              match fr_add url (-100) false (frontier s) with
              | (Ok _, f) => (Skipped, finally_clause (fun n => clk (2 + n)%nat) (with_frontier f s))
              | (Err e, f) => (Skipped, finally_clause (fun n => clk (2 + n)%nat)
                                          (on_raise domain e (with_frontier f s)))
              end
            else (Calling domain start_time, with_domain domain (set_block false None d) s)
        | None => (Calling domain start_time, with_domain domain (set_block false None d) s)
        end
      else (Calling domain start_time, s)
  end.

Definition _update_adaptive_delay (domain : string) (response_time : Q) s : result pyexn unit * CrawlScheduler F :=
  let new_delay := (politeness_factor cfg * response_time)%Q in
  let new_delay := py_max (min_crawl_delay cfg) (py_min (max_crawl_delay cfg) new_delay) in
  match fr_response domain response_time (frontier s) with
  | (Err e, f) => (Err e, with_frontier f s)
  | (Ok _, f) =>
      let s := with_frontier f s in
      (Ok (), match domain_states s !! domain with
              | Some d => with_domain domain (set_delay new_delay d) s
              | None => s
              end)
  end.

(** [await self.frontier.mark_crawled(url, success=...)], the last thing the
    [try] block does *)
Definition marked (success : bool) s : result pyexn unit * CrawlScheduler F :=
  let '(r, f) := fr_mark success (frontier s) in (r, with_frontier f s).

(** After the handler: the branches on the status code.  The domain's record
    and the counters are updated in place, before the calls that may raise. *)
Definition on_response (clk : nat -> Q) (url domain : string) (start_time : Q)
  (status_code bytes_downloaded : Z) s : result pyexn unit * CrawlScheduler F :=
  let response_time := (clk 0%nat - start_time)%Q in
  let d := add_request (clk 1%nat) status_code (domain_state domain s) in
  if (200 <=? status_code) && (status_code <? 400) then
    let s := with_domain domain (add_success response_time d) s in
    let s := count_completed bytes_downloaded s in
    match _update_adaptive_delay domain response_time s with
    | (Err e, s) => (Err e, s)
    | (Ok _, s) => marked true s
    end
  else if status_code =? 429 then
    let d := add_failure 1 d in
    let s := with_domain domain d s in
    let new_delay := py_min (crawl_delay d * 2) (max_crawl_delay cfg) in
    match fr_set_delay domain new_delay (frontier s) with
    | (Err e, f) => (Err e, with_frontier f s)
    | (Ok _, f) =>
        let s := with_frontier f s in
        let s := with_domain domain (set_delay new_delay d) s in
        match fr_add url (-50) true (frontier s) with
        | (Ok _, f) => (Ok (), with_frontier f s)
        | (Err e, f) => (Err e, with_frontier f s)
        end
    end
  else if 500 <=? status_code then
    let d := add_failure 1 d in
    let s := count_failed s in
    let d := if 5 <=? consecutive_errors d then set_block true (Some (clk 2%nat + 300)%Q) d else d in
    marked false (with_domain domain d s)
  else
    let s := with_domain domain (add_failure 0 d) s in
    marked false (count_failed s).

Definition worker_end (clk : nat -> Q) (url domain : string) (start_time : Q) (res : fetch) s
  : CrawlScheduler F :=
  finally_clause (fun n => clk (3 + n)%nat)
    match res with
    | Response status bytes =>
        match on_response clk url domain start_time status bytes s with
        | (Ok _, s) => s
        | (Err e, s) => on_raise domain e s
        end
    | HandlerRaised e => on_raise domain e s
    | NoHandler => s
    end.

(** ** The main loop *)

(** One turn; [clk] is read in the order of the code (the last statistics
    time and the idle start are the loop's locals). *)
Inductive turn :=
| Exited | Waiting | Throttled | Crawl (url : string) (slept : Q) | Idle (idle_start : Q)
| IdleTimeout | Failed (e : pyexn).

Definition loop_turn (clk : nat -> Q) (idle_start : option Q) s : turn * CrawlScheduler F :=
  if stop_event s then (Exited, s)
  else if negb (pause_event s) then (Waiting, s)
  else
    let '(backpressure, s) := _check_backpressure s in
    if backpressure then (Throttled, s)
    else
      match fr_next (frontier s) with
      | (Err e, f) => (Failed e, with_frontier f s)
      | (Ok (Some url), f) =>
          let s := with_frontier f s in
          match _enforce_rate_limits url (clk 0%nat) s with
          | Err e => (Failed e, s)
          | Ok (s, slept) => (Crawl url slept, _spawn_worker s)
          end
      | (Ok None, f) =>
          let s := with_frontier f s in
          match idle_start with
          | None => (Idle (clk 0%nat), s)
          | Some t0 => if Qltb (idle_timeout cfg) (clk 0%nat - t0) then (IdleTimeout, s) else (Idle t0, s)
          end
      end.

(** Turns in a row; [clks] gives the clock of each. *)
Fixpoint loop_turns (clks : list (nat -> Q)) (idle_start : option Q) s
  : list turn * CrawlScheduler F :=
  match clks with
  | [] => ([], s)
  | clk :: clks' =>
      let '(r, s') := loop_turn clk idle_start s in
      match r with
      | Throttled => let '(rs, s'') := loop_turns clks' idle_start s' in (r :: rs, s'')
      | Crawl _ _ => let '(rs, s'') := loop_turns clks' None s' in (r :: rs, s'')
      | Idle t0 => let '(rs, s'') := loop_turns clks' (Some t0) s' in (r :: rs, s'')
      | _ => ([r], s')
      end
  end.

(** ** Concurrent workers: the scheduler and the workers awaiting a handler *)

Record system := System {
  sched : CrawlScheduler F;
  inflight : list (string * string * Q) }.

Inductive event :=
| EvTurn (clk : nat -> Q) (idle_start : option Q)
| EvBegin (clk : nat -> Q) (url : string)
| EvEnd (i : nat) (clk : nat -> Q) (res : fetch)
| EvStart (now : Q) | EvStop | EvStopped | EvPause | EvResume.

Definition sys_step (w : system) (e : event) : system :=
  let s := sched w in
  match e with
  | EvTurn clk idle => System (loop_turn clk idle s).2 (inflight w)
  | EvBegin clk url =>
      match worker_begin clk url s with
      | (Calling domain t0, s') => System s' (inflight w ++ [(url, domain, t0)])
      | (_, s') => System (worker_done s') (inflight w)
      end
  | EvEnd i clk res =>
      match inflight w !! i with
      | None => w
      | Some (url, domain, t0) =>
          System (worker_done (worker_end clk url domain t0 res s)) (delete i (inflight w))
      end
  | EvStart now => System (default s (start now s)) (inflight w)
  | EvStop => System (default s (stop_request s)) (inflight w)
  | EvStopped => System (stop_finish s) (inflight w)
  | EvPause => System (pause s) (inflight w)
  | EvResume => System (resume s) (inflight w)
  end.

(** ** Invariants *)

Record domain_ok (d : DomainState) : Prop := {
  dom_success : 0 <= successful_requests d <= total_requests d;
  dom_total : total_requests d <= successful_requests d + failed_requests d;
  dom_errors : 0 <= consecutive_errors d <= failed_requests d;
  dom_delay : (crawl_delay d <= py_max 1 (max_crawl_delay cfg))%Q;
  dom_block : is_blocked d = true -> is_Some (blocked_until d) }.

(** [k] is how often a worker may count its URL, [c] what is left of that for
    the workers under way, [n] how many they are. *)
Record sched_ok (k c n : Z) (s : CrawlScheduler F) : Prop := {
  ok_domains : map_Forall (fun _ d => domain_ok d) (domain_states s);
  ok_urls : urls_completed (stats s) + urls_failed (stats s) + c <= k * urls_scheduled (stats s);
  ok_completed : urls_completed (stats s) + n <= urls_scheduled (stats s) }.

Lemma new_domain_ok : domain_ok new_domain.
Proof. split; simpl; try lia; try done. apply py_max_ge_l. Qed.

Lemma domain_state_ok d s k c n : sched_ok k c n s -> domain_ok (domain_state d s).
Proof.
  intros [Hd _ _]. unfold domain_state. destruct (domain_states s !! d) eqn:E; simpl;
    [by apply (Hd d)|apply new_domain_ok].
Qed.

Lemma with_domain_ok d x s k c n : domain_ok x -> sched_ok k c n s -> sched_ok k c n (with_domain d x s).
Proof. intros Hx [Hd Hu Hc]. split; simpl; [by apply map_Forall_insert_2|done|done]. Qed.

Lemma sched_ok_frame k c n s s' :
  domain_states s' = domain_states s ->
  urls_completed (stats s') = urls_completed (stats s) -> urls_failed (stats s') = urls_failed (stats s) ->
  urls_scheduled (stats s') = urls_scheduled (stats s) -> sched_ok k c n s -> sched_ok k c n s'.
Proof. intros E1 E2 E3 E4 [Hd Hu Hc]. split; [by rewrite E1|lia|lia]. Qed.

Lemma with_frontier_ok f k c n s : sched_ok k c n s -> sched_ok k c n (with_frontier f s).
Proof. by apply sched_ok_frame. Qed.

Lemma sched_ok_weaken k c c' n n' s : sched_ok k c n s -> c' <= c -> n' <= n -> sched_ok k c' n' s.
Proof. intros [Hd Hu Hc] ??. split; [done|lia|lia]. Qed.

Lemma count_failed_ok k c n s : sched_ok k c n s -> sched_ok k (c - 1) n (count_failed s).
Proof. intros [Hd Hu Hc]. split; [done|simpl; lia|done]. Qed.
Lemma count_completed_ok k c n b s : sched_ok k c n s -> sched_ok k (c - 1) (n - 1) (count_completed b s).
Proof. intros [Hd Hu Hc]. split; [done|simpl; lia|simpl; lia]. Qed.

Lemma set_block_ok b u d : domain_ok d -> (b = true -> is_Some u) -> domain_ok (set_block b u d).
Proof. intros [? ? ? ? ?] Hb. by split. Qed.
Lemma set_delay_ok x d : domain_ok d -> (x <= py_max 1 (max_crawl_delay cfg))%Q -> domain_ok (set_delay x d).
Proof. intros [? ? ? ? ?] Hb. by split. Qed.
Lemma add_failure_ok n d : domain_ok d -> 0 <= n <= 1 -> domain_ok (add_failure n d).
Proof. intros [? ? ? ? ?] Hn. split; simpl; try done; lia. Qed.
(** A request is followed by its success or failure. *)
Lemma add_success_ok t c x d : domain_ok d -> domain_ok (add_success x (add_request t c d)).
Proof. intros [? ? ? ? ?]. split; simpl; try done; lia. Qed.
Lemma add_request_failure_ok t c n d : domain_ok d -> 0 <= n <= 1 ->
  domain_ok (add_failure n (add_request t c d)).
Proof. intros [? ? ? ? ?] Hn. split; simpl; try done; lia. Qed.

Lemma on_raise_ok domain e s k c n : sched_ok k c n s -> sched_ok k (c - 1) n (on_raise domain e s).
Proof.
  intros Hs. unfold on_raise. destruct (String.eqb _ "CancelledError"); [eapply sched_ok_weaken; [done|lia|lia]|].
  pose proof (count_failed_ok k c n s Hs) as Hf. unfold on_exception.
  destruct (domain_states (count_failed s) !! domain) as [d|] eqn:E;
    apply with_frontier_ok; [|done].
  apply with_domain_ok; [|done]. apply add_failure_ok; [|by destruct (String.eqb _ _)].
  destruct Hf as [Hd _ _]. by apply (Hd domain).
Qed.

Lemma finally_ok clk s k c n : sched_ok k c n s -> sched_ok k c n (finally_clause clk s).
Proof. by apply sched_ok_frame. Qed.

Lemma adaptive_delay_ok domain x s k c n : (min_crawl_delay cfg <= max_crawl_delay cfg)%Q ->
  sched_ok k c n s -> sched_ok k c n (_update_adaptive_delay domain x s).2.
Proof.
  intros Hmm Hs. unfold _update_adaptive_delay. destruct (fr_response domain x (frontier s)) as [[u|e] f];
    [|by apply with_frontier_ok]. simpl.
  destruct (domain_states s !! domain) as [d|] eqn:E; [|by apply with_frontier_ok].
  apply with_domain_ok; [|by apply with_frontier_ok]. apply set_delay_ok; [by apply (ok_domains k c n s Hs domain)|].
  destruct (py_clamp_bounds (min_crawl_delay cfg) (max_crawl_delay cfg) (politeness_factor cfg * x) Hmm).
  pose proof (py_max_ge_r 1 (max_crawl_delay cfg)). lra.
Qed.

Lemma marked_ok b s k c n : sched_ok k c n s -> sched_ok k c n (marked b s).2.
Proof. intros Hs. unfold marked. destruct (fr_mark b (frontier s)). by apply with_frontier_ok. Qed.

(** The calls that follow the first count of a URL do not raise. *)
Definition calm : Prop :=
  (forall d x f, is_ok (fr_response d x f).1 = true) /\ (forall b f, is_ok (fr_mark b f).1 = true).

Lemma calm_adaptive domain x s : calm -> is_ok (_update_adaptive_delay domain x s).1 = true.
Proof.
  intros [Hr _]. unfold _update_adaptive_delay. specialize (Hr domain x (frontier s)).
  by destruct (fr_response domain x (frontier s)) as [[]].
Qed.
Lemma calm_marked b s : calm -> is_ok (marked b s).1 = true.
Proof. intros [_ Hm]. unfold marked. specialize (Hm b (frontier s)). by destruct (fr_mark b (frontier s)) as [[]]. Qed.

(** When the [try] block ends by itself the URL was counted at most once; when
    it raised, it was counted before only if the frontier is not calm. *)
Lemma on_response_ok clk url domain t0 status bytes s k c n :
  (min_crawl_delay cfg <= max_crawl_delay cfg)%Q -> 1 <= k -> k = 2 \/ calm ->
  sched_ok k c n s ->
  let '(r, s') := on_response clk url domain t0 status bytes s in
  sched_ok k (c - match r with Ok _ => k | Err _ => k - 1 end) (n - 1) s'.
Proof.
  intros Hmm Hk1 Hk Hs. pose proof (domain_state_ok domain s _ _ _ Hs) as Hd. unfold on_response.
  assert (forall (r : result pyexn unit) s' c', sched_ok k c' (n - 1) s' -> c - 1 <= c' -> is_ok r = true \/ k = 2 ->
    sched_ok k (c - match r with Ok _ => k | Err _ => k - 1 end) (n - 1) s') as Hend.
  { intros r s' c' Hs' Hc Hr. eapply sched_ok_weaken; [exact Hs'| |lia]. destruct r, Hr; simpl in *; lia || done. }
  destruct (_ && _); [|destruct (_ =? 429); [|destruct (500 <=? status)]].
  - match goal with |- context [_update_adaptive_delay ?a ?b ?x] =>
      pose proof (adaptive_delay_ok a b x k (c - 1) (n - 1) Hmm) as Ha; pose proof (calm_adaptive a b x) as Hca;
      destruct (_update_adaptive_delay a b x) as [[u|e] s1] end.
    + pose proof (marked_ok true s1 k (c - 1) (n - 1)) as Hm. pose proof (calm_marked true s1) as Hcm.
      destruct (marked true s1) as [r s2]. simpl in *. apply (Hend r s2 (c - 1)); [|lia|naive_solver].
      apply Hm, Ha, count_completed_ok, with_domain_ok; [by apply add_success_ok|done].
    + simpl in *. apply (Hend (Err e) s1 (c - 1)); [|lia|naive_solver].
      apply Ha, count_completed_ok, with_domain_ok; [by apply add_success_ok|done].
  - set (s0 := with_domain domain (add_failure 1 _) s).
    assert (sched_ok k c n s0) as Hs0 by (apply with_domain_ok; [by apply add_request_failure_ok|done]).
    destruct (fr_set_delay _ _ (frontier s0)) as [[u|e] f].
    2: { eapply sched_ok_weaken; [by apply with_frontier_ok|lia|lia]. }
    set (s1 := with_domain domain _ _).
    assert (sched_ok k c n s1) as Hs1.
    { apply with_domain_ok; [|by apply with_frontier_ok].
      apply set_delay_ok; [by apply add_request_failure_ok|].
      eapply Qle_trans; [apply py_min_le_r|apply py_max_ge_r]. }
    destruct (fr_add url (-50) true (frontier s1)) as [[b|e] f'];
      (eapply sched_ok_weaken; [by apply with_frontier_ok|lia|lia]).
  - match goal with |- context [marked false ?x] =>
      pose proof (marked_ok false x k (c - 1) (n - 1)) as Hm; pose proof (calm_marked false x) as Hcm;
      destruct (marked false x) as [r s2] end.
    simpl in *. apply (Hend r s2 (c - 1)); [|lia|naive_solver].
    apply Hm. apply with_domain_ok; [|eapply sched_ok_weaken; [by apply count_failed_ok|lia|lia]].
    destruct (5 <=? _); [apply set_block_ok; [|by eexists]|]; by apply add_request_failure_ok.
  - match goal with |- context [marked false ?x] =>
      pose proof (marked_ok false x k (c - 1) (n - 1)) as Hm; pose proof (calm_marked false x) as Hcm;
      destruct (marked false x) as [r s2] end.
    simpl in *. apply (Hend r s2 (c - 1)); [|lia|naive_solver].
    apply Hm. eapply sched_ok_weaken; [apply count_failed_ok, with_domain_ok; [by apply add_request_failure_ok|done]|lia|lia].
Qed.

Lemma worker_end_ok clk url domain t0 res s k c n :
  (min_crawl_delay cfg <= max_crawl_delay cfg)%Q -> 1 <= k -> k = 2 \/ calm ->
  sched_ok k c n s -> sched_ok k (c - k) (n - 1) (worker_end clk url domain t0 res s).
Proof.
  intros Hmm Hk1 Hk Hs. apply finally_ok. destruct res as [status bytes|e|].
  - pose proof (on_response_ok clk url domain t0 status bytes s k c n Hmm Hk1 Hk Hs) as Hr.
    destruct (on_response _ _ _ _ _ _ s) as [[u|e] s']; [done|].
    eapply sched_ok_weaken; [by apply on_raise_ok|lia|lia].
  - eapply sched_ok_weaken; [by apply on_raise_ok|lia|lia].
  - eapply sched_ok_weaken; [done|lia|lia].
Qed.

Lemma worker_begin_ok clk url s k c n : 1 <= k -> sched_ok k c n s ->
  let calling := match (worker_begin clk url s).1 with Calling _ _ => true | _ => false end in
  sched_ok k (if calling then c + k else c) (if calling then n + 1 else n) (worker_begin clk url s).2.
Proof.
  intros Hk Hs. unfold worker_begin. destruct (_extract_domain _ _) as [domain|e]; [|done].
  assert (sched_ok k (c + k) (n + 1) (count_scheduled s)) as Hc by (destruct Hs as [Hd Hu Hn]; split; [done|simpl; lia|simpl; lia]).
  pose proof (domain_state_ok domain _ _ _ _ Hc) as Hd. set (d := domain_state domain (count_scheduled s)) in *.
  pose proof (with_domain_ok domain d _ _ _ _ Hd Hc) as Hw.
  destruct (is_blocked d); [|done].
  assert (sched_ok k (c + k) (n + 1) (with_domain domain (set_block false None d) (with_domain domain d (count_scheduled s))))
    as Hu by (apply with_domain_ok; [by apply set_block_ok|done]).
  destruct (blocked_until d) as [until|]; [|done]. destruct (_ && _); [|done].
  destruct (fr_add url (-100) false _) as [[b|e] f]; simpl; apply finally_ok.
  - eapply sched_ok_weaken; [by apply with_frontier_ok|lia|lia].
  - eapply sched_ok_weaken; [by apply on_raise_ok, with_frontier_ok|lia|lia].
Qed.

(** The loop itself touches neither the domains nor the URL counts. *)
Definition same_counts s s' : Prop :=
  domain_states s' = domain_states s /\
  urls_completed (stats s') = urls_completed (stats s) /\
  urls_failed (stats s') = urls_failed (stats s) /\
  urls_scheduled (stats s') = urls_scheduled (stats s).

Lemma same_counts_ok s s' k c n : same_counts s s' -> sched_ok k c n s -> sched_ok k c n s'.
Proof. intros (E1 & E2 & E3 & E4). by apply sched_ok_frame. Qed.

Lemma check_backpressure_frame s : same_counts s (_check_backpressure s).2.
Proof.
  unfold _check_backpressure. destruct (_ <? _); [by destruct (backpressure_active s)|].
  by destruct (_ <? _).
Qed.

Lemma rate_limits_frame url x s s' y : _enforce_rate_limits url x s = Ok (s', y) -> same_counts s s'.
Proof.
  unfold _enforce_rate_limits. destruct (_extract_domain _ _); [|done].
  destruct (_ || _); [done|]. by intros [= <- _].
Qed.

Lemma loop_turn_frame clk idle s : same_counts s (loop_turn clk idle s).2.
Proof.
  unfold loop_turn. destruct (stop_event s); [done|]. destruct (negb _); [done|].
  pose proof (check_backpressure_frame s) as Hb. destruct (_check_backpressure s) as [[] s1]; [done|].
  destruct (fr_next (frontier s1)) as [[[url|]|e] f]; [|by destruct idle; [destruct (Qltb _ _)|]|done].
  destruct (_enforce_rate_limits url _ _) as [[s2 y]|e] eqn:E; [|done].
  apply rate_limits_frame in E. destruct Hb as (?&?&?&?), E as (?&?&?&?).
  repeat split; simpl in *; congruence.
Qed.

Definition sys_ok (k : Z) (w : system) : Prop :=
  let n := zlength (inflight w) in sched_ok k (k * n) n (sched w).

Lemma sys_step_ok k w e : (min_crawl_delay cfg <= max_crawl_delay cfg)%Q -> 1 <= k -> k = 2 \/ calm ->
  sys_ok k w -> sys_ok k (sys_step w e).
Proof.
  intros Hmm Hk1 Hk Hs. unfold sys_ok in *. destruct e as [clk idle|clk url|i clk res|now| | | |]; simpl.
  - eapply same_counts_ok; [apply loop_turn_frame|done].
  - pose proof (worker_begin_ok clk url _ _ _ _ Hk1 Hs) as Hb.
    destruct (worker_begin clk url (sched w)) as [[|domain t0|e] s']; simpl in *;
      [by apply (same_counts_ok s')| |by apply (same_counts_ok s')].
    autorewrite with zlen. eapply sched_ok_weaken; [done|lia|lia].
  - destruct (inflight w !! i) as [[[url domain] t0]|] eqn:E; [|done]. simpl.
    pose proof (length_delete (inflight w) i ltac:(by eexists)) as Hl. pose proof (lookup_lt_Some _ _ _ E).
    eapply (same_counts_ok (worker_end clk url domain t0 res (sched w))); [done|].
    eapply sched_ok_weaken; [by apply worker_end_ok|unfold zlength; nia|unfold zlength; lia].
  - unfold start. case_bool_decide; [done|]. by apply (same_counts_ok (sched w)).
  - unfold stop_request. case_bool_decide; [|done]. by apply (same_counts_ok (sched w)).
  - by apply (same_counts_ok (sched w)).
  - unfold pause. case_bool_decide; [|done]. by apply (same_counts_ok (sched w)).
  - unfold resume. case_bool_decide; [|done]. by apply (same_counts_ok (sched w)).
Qed.

Lemma sys_run_ok k f es : (min_crawl_delay cfg <= max_crawl_delay cfg)%Q -> 1 <= k -> k = 2 \/ calm ->
  sys_ok k (foldl sys_step (System (new_scheduler f) []) es).
Proof.
  intros Hmm Hk1 Hk. apply (foldl_invariant sys_step (sys_ok k)); [intros; by apply sys_step_ok|].
  split; simpl; [apply map_Forall_empty|change (zlength []) with 0; lia..].
Qed.

(** C13: in every interleaving of workers, loop turns and control calls,
    whatever the frontier's calls raise, every domain's record is consistent
    (successes within requests, every request a success or a failure,
    consecutive errors within failures, a crawl delay under its cap, and a
    blocked domain has a time at which it is unblocked), and every URL that
    was scheduled is completed at most once; with those in flight, no more
    URLs are completed than were scheduled.  A URL may be counted twice, as
    completed and failed or as failed twice, when [mark_crawled] or the
    adaptive delay raises after the first count
    ([url_counted_twice]); when those two calls do not raise, completed,
    failed and in-flight URLs together never exceed the scheduled ones.
    (The configuration has its delay bounds in order.) *)
Theorem scheduler_invariant f es :
  (min_crawl_delay cfg <= max_crawl_delay cfg)%Q ->
  let w := foldl sys_step (System (new_scheduler f) []) es in
  let st := stats (sched w) in
  let n := zlength (inflight w) in
  map_Forall (fun _ d => domain_ok d) (domain_states (sched w)) /\
  urls_completed st + n <= urls_scheduled st /\
  urls_completed st + urls_failed st + 2 * n <= 2 * urls_scheduled st /\
  (calm -> urls_completed st + urls_failed st + n <= urls_scheduled st).
Proof.
  intros Hmm w st n. destruct (sys_run_ok 2 f es Hmm ltac:(lia) ltac:(by left)) as [Hd Hu Hc].
  split_and!; [done|done|done|]. intros Hcalm.
  destruct (sys_run_ok 1 f es Hmm ltac:(lia) ltac:(by right)) as [_ Hu1 _]. fold w st n in Hu1. lia.
Qed.

(** ** Control: defects *)

(** A scheduler that is stopped while paused cannot be started again:
    [start] succeeds, but every turn of the loop waits on the pause event,
    and neither [resume] nor a stop followed by another start sets it. *)
Theorem stop_while_paused_wedges now now' s s2 :
  state s = RUNNING -> stop_request (pause s) = Some s2 ->
  exists s4, start now (stop_finish s2) = Some s4 /\
    state s4 = RUNNING /\ resume s4 = s4 /\
    (forall clk idle, loop_turn clk idle s4 = (Waiting, s4)) /\
    (forall s5 s6, stop_request s4 = Some s5 -> start now' (stop_finish s5) = Some s6 ->
       forall clk idle, loop_turn clk idle s6 = (Waiting, s6)).
Proof.
  intros Hr. unfold pause. rewrite bool_decide_true by done. unfold stop_request. simpl.
  intros [= <-]. eexists. split; [reflexivity|].
  split; [done|]. split; [done|]. split; [done|].
  intros s5 s6. simpl. intros [= <-]. unfold start. simpl. by intros [= <-].
Qed.

(** Backpressure: with more URLs queued than the high watermark, the loop
    never asks the frontier for one again, so the queue cannot drain. *)
Theorem backpressure_livelock clks idle s :
  stop_event s = false -> pause_event s = true ->
  queue_high_watermark cfg < fr_size (frontier s) ->
  (loop_turns clks idle s).1 = replicate (length clks) Throttled /\
  frontier (loop_turns clks idle s).2 = frontier s.
Proof.
  intros Hst Hp Hq. revert s Hst Hp Hq. induction clks as [|clk clks IH]; intros s Hst Hp Hq; [done|].
  simpl. unfold loop_turn. rewrite Hst, Hp. simpl. unfold _check_backpressure.
  destruct (Z.ltb_spec (queue_high_watermark cfg) (fr_size (frontier s))); [|lia].
  set (s1 := if negb (backpressure_active s) then _ else s).
  destruct (IH s1) as [E1 E2]; [by unfold s1; destruct (backpressure_active s)..|].
  destruct (loop_turns clks idle s1) as [rs s2]. simpl in *. rewrite E1, E2.
  split; [done|]. by unfold s1; destruct (backpressure_active s).
Qed.

(** Every URL taken from the frontier starts a worker at once: the number of
    active workers after any number of turns is the number of URLs taken, with
    no bound from [max_concurrent_workers]. *)
Definition is_crawl (r : turn) : bool := match r with Crawl _ _ => true | _ => false end.

Lemma loop_turn_workers clk idle s :
  worker_count (loop_turn clk idle s).2
  = worker_count s + (if is_crawl (loop_turn clk idle s).1 then 1 else 0).
Proof.
  unfold loop_turn. destruct (stop_event s); [simpl; lia|]. destruct (negb _); [simpl; lia|].
  assert (worker_count (_check_backpressure s).2 = worker_count s) as Hb.
  { unfold _check_backpressure. destruct (_ <? _); [by destruct (backpressure_active s)|].
    by destruct (_ <? _). }
  destruct (_check_backpressure s) as [[] s1]; simpl in Hb; [simpl; lia|].
  destruct (fr_next (frontier s1)) as [[[url|]|e] f]; simpl;
    [|destruct idle; [destruct (Qltb _ _)|]; simpl; lia|lia].
  unfold _enforce_rate_limits. destruct (_extract_domain _ _); [|simpl; lia].
  destruct (_ || _); simpl; lia.
Qed.

Theorem workers_not_bounded clks idle s :
  worker_count (loop_turns clks idle s).2
  = worker_count s + zlength (List.filter is_crawl (loop_turns clks idle s).1).
Proof.
  revert idle s. induction clks as [|clk clks IH]; intros idle s; [simpl; unfold zlength; simpl; lia|].
  simpl. pose proof (loop_turn_workers clk idle s) as Hw.
  destruct (loop_turn clk idle s) as [r s1]. simpl in Hw.
  destruct r; simpl in *;
    try (match goal with |- context [loop_turns clks ?i s1] =>
           specialize (IH i s1); destruct (loop_turns clks i s1) as [rs s2] end; simpl in *;
         autorewrite with zlen; lia);
    unfold zlength; simpl; lia.
Qed.

(** ** Re-queueing *)

Context `{!UrlFrontierLaws F}.

(** The URL of a blocked domain is lost: the worker gives it back with
    an unforced [add_url], which the duplicate filter rejects, so it is
    neither queued nor counted as completed or failed. *)
Theorem blocked_url_lost clk url domain until s :
  _extract_domain bracketed_ok url = Ok domain ->
  is_blocked (domain_state domain s) = true ->
  blocked_until (domain_state domain s) = Some until ->
  (0 < until)%Q -> (clk 1%nat < until)%Q ->
  fr_known url (frontier s) ->
  let '(r, s') := worker_begin clk url s in
  r = Skipped /\ fr_queued (frontier s') = fr_queued (frontier s) /\
  urls_scheduled (stats s') = urls_scheduled (stats s) + 1 /\
  urls_completed (stats s') = urls_completed (stats s) /\
  urls_failed (stats s') = urls_failed (stats s).
Proof.
  intros Hd Hb Hu Hpos Hlt Hk. unfold worker_begin. rewrite Hd.
  change (domain_state domain (count_scheduled s)) with (domain_state domain s).
  rewrite Hb, Hu. destruct (Qeq_bool until 0) eqn:E0; [apply Qeq_bool_eq in E0; lra|].
  destruct (Qltb_reflect (clk 1%nat) until); [|lra]. simpl.
  destruct (fr_add_known url (-100) (frontier s) Hk) as [E1 E2].
  destruct (fr_add url (-100) false (frontier s)) as [r f]. simpl in *. by rewrite E1.
Qed.

(** A rate-limited URL (429) is back in the queue, with the domain's delay
    doubled up to its cap. *)
Theorem rate_limited_requeued clk url domain t0 bytes s b :
  let delay := py_min (crawl_delay (domain_state domain s) * 2) (max_crawl_delay cfg) in
  let s' := worker_end clk url domain t0 (Response 429 bytes) s in
  is_ok (fr_set_delay domain delay (frontier s)).1 = true ->
  (fr_add url (-50) true (fr_set_delay domain delay (frontier s)).2).1 = Ok b ->
  (exists v, fr_queued (frontier s') = {[v]} ∪ fr_queued (frontier s)) /\
  crawl_delay (domain_state domain s') = delay /\
  urls_failed (stats s') = urls_failed (stats s).
Proof.
  intros delay s' Hset Hb. unfold s', worker_end, on_response. simpl. fold delay.
  destruct (fr_add_forced _ _ _ _ Hb) as (_ & v & Hv & _). rewrite fr_queued_set_delay in Hv.
  destruct (fr_set_delay domain delay (frontier s)) as [[u|e] f0]; [|done]. simpl in *.
  destruct (fr_add url (-50) true f0) as [r f]. simpl in *.
  rewrite Hb. simpl. split; [by exists v|]. split; [|done].
  unfold domain_state at 1. simpl. by rewrite lookup_insert_eq.
Qed.
End scheduler.

(** ** The Redis frontier implements the interface *)

Section implementation.
Context {R : Type} `{HL : RedisLaws R}.
Context (bracketed_ok : string -> bool).
Context (sha256_int md5_int : string -> Z) (md5_hex : string -> string).
Context (lag : nat -> Q).
Context (cfg : FrontierConfig).

(** A call of [get_next_url(timeout=1.0)] polls at most 11 times
    ([next_loop_returns]), so 12 turns are enough. *)
#[local] Instance frontier_impl : UrlFrontier (DistributedURLFrontier R * clock) := {
  fr_next f := match get_next_url bracketed_ok lag cfg 12 1 f.2 f.1 with
               | Some (r, f', t') => (r, (f', t'))
               | None => (Ok None, f)
               end;
  fr_add u p force f :=
    let '(r, f') := add_url bracketed_ok sha256_int md5_int md5_hex cfg u p ∅ force f.1 in
    (r, (f', f.2));
  fr_set_delay d x f := (Ok (), (set_domain_delay cfg d x f.1, f.2));
  fr_response d x f := (Ok (), (update_domain_delay_from_response cfg d x f.1, f.2));
  fr_mark b f := (Ok (), (mark_crawled cfg b f.1, f.2));
  fr_size f := get_queue_size cfg f.1 }.

Definition queued_urls (f : DistributedURLFrontier R * clock) : gset string :=
  dom (ks_zset (priority_queue_key cfg) (view (redis f.1))).

Definition known_url (u : string) (f : DistributedURLFrontier R * clock) : Prop :=
  exists v d, _normalize_url bracketed_ok u = Ok v /\ _extract_domain bracketed_ok v = Ok d /\
    bloom_contains sha256_int md5_int cfg v (redis f.1) = true.

Lemma add_forced_laws u p f b :
  (fr_add u p true f).1 = Ok b ->
  b = true /\ exists v, queued_urls (fr_add u p true f).2 = {[v]} ∪ queued_urls f /\
                        known_url u (fr_add u p true f).2.
Proof.
  simpl. unfold add_url. destruct (_normalize_url bracketed_ok u) as [v|] eqn:Hv; [|done].
  destruct (_extract_domain bracketed_ok v) as [d|] eqn:Hd; [|done]. simpl. intros [= <-].
  split; [done|]. exists v.
  destruct (enqueue_view sha256_int md5_int md5_hex cfg v d p ∅ (redis f.1)) as (Eb & Ez & _).
  unfold queued_urls, known_url. simpl. rewrite Ez, dom_insert_L. split; [done|].
  exists v, d. split_and!; [done|done|]. apply (contains_iff sha256_int md5_int cfg). rewrite Eb. set_solver.
Qed.

#[local] Instance frontier_impl_laws : UrlFrontierLaws (DistributedURLFrontier R * clock).
Proof.
  exists queued_urls known_url.
  - intros f. simpl. unfold get_queue_size, queued_urls. rewrite view_zcard. unfold ks_zcard.
    by rewrite size_dom.
  - intros u p f (v & d & Hv & Hd & Hc). simpl. unfold add_url. rewrite Hv, Hd. simpl. by rewrite Hc.
  - intros u p f b. apply add_forced_laws.
  - intros d x f. unfold queued_urls. simpl. by rewrite view_hset.
  - intros d x f. unfold queued_urls. simpl. by rewrite view_hset.
  - intros b f. unfold queued_urls. simpl. by rewrite view_hincrby.
Defined.
End implementation.

(** ** Witnesses: the scheduler on the frontier of the reference keyspace *)

#[export] Instance demo_impl : UrlFrontier (DistributedURLFrontier keyspace * clock) :=
  frontier_impl (fun _ => true) demo_len demo_len id (fun _ => 1%Q) demo_cfg.
#[export] Instance demo_impl_laws : UrlFrontierLaws (DistributedURLFrontier keyspace * clock) :=
  frontier_impl_laws (fun _ => true) demo_len demo_len id (fun _ => 1%Q) demo_cfg.

Definition demo_scfg : SchedulerConfig := {|
  max_concurrent_workers := 2; min_crawl_delay := 1 # 2; max_crawl_delay := 30;
  politeness_factor := 10; max_requests_per_second := 100; max_requests_per_domain_per_minute := 60;
  queue_high_watermark := 1; queue_low_watermark := 1; backpressure_delay := 5;
  idle_timeout := 60; stats_interval := 10 |}.

Definition demo_frontier : DistributedURLFrontier keyspace * clock :=
  (fr_add "http://a.b/x" 1 false (new_frontier ks_empty, Clock 0 0)).2.

Definition demo_events : list event :=
  [EvStart 0; EvBegin (fun _ => 1%Q) "http://a.b/x"; EvEnd 0 (fun _ => 2%Q) (Response 503 0)].
Definition demo_system : system :=
  foldl (sys_step (fun _ => true) demo_scfg) (System (new_scheduler demo_frontier) []) demo_events.

Lemma scheduler_invariant_witness :
  let st := stats (sched demo_system) in
  urls_failed st = 1 /\ urls_completed st + urls_failed st + zlength (inflight demo_system) <= urls_scheduled st.
Proof.
  intros st. split; [vm_compute; reflexivity|].
  refine (proj2 (proj2 (proj2 (scheduler_invariant (fun _ => true) demo_scfg demo_frontier demo_events _))) _).
  - discriminate.
  - split; reflexivity.
Defined.

(** A frontier whose [mark_crawled] loses its connection: the URL that was
    fetched is counted as completed and as failed. *)
Definition broken_mark : UrlFrontier unit := {|
  fr_next f := (Ok None, f); fr_add _ _ _ f := (Ok true, f); fr_set_delay _ _ f := (Ok (), f);
  fr_response _ _ f := (Ok (), f); fr_mark _ f := (Err (PyExn "ConnectionError" "connection closed"), f);
  fr_size _ := 0 |}.

Theorem url_counted_twice :
  let w := foldl (sys_step (H := broken_mark) (fun _ => true) demo_scfg) (System (new_scheduler ()) [])
    [EvStart 0; EvBegin (fun _ => 1%Q) "http://a.b/x"; EvEnd 0 (fun _ => 2%Q) (Response 200 10)] in
  urls_scheduled (stats (sched w)) = 1 /\ urls_completed (stats (sched w)) = 1 /\ urls_failed (stats (sched w)) = 1.
Proof. vm_compute. repeat split. Qed.

Lemma stop_while_paused_wedges_witness :
  exists s s2 s4, stop_request (pause s) = Some s2 /\ start 1 (stop_finish s2) = Some s4 /\
    (loop_turn (F := DistributedURLFrontier keyspace * clock) (fun _ => true) demo_scfg
       (fun _ => 0%Q) None s4).1 = Waiting.
Proof.
  exists (with_control RUNNING false true (new_scheduler demo_frontier)). eexists.
  destruct (stop_while_paused_wedges (fun _ => true) demo_scfg 1 2
              (with_control RUNNING false true (new_scheduler demo_frontier)) _
              ltac:(reflexivity) ltac:(reflexivity)) as (s4 & Hs & _ & _ & Hw & _).
  exists s4. split; [reflexivity|]. split; [exact Hs|]. by rewrite Hw.
Defined.

Lemma blocked_url_lost_witness :
  let d := set_block true (Some 300%Q) new_domain in
  let s := with_domain "a.b" d (new_scheduler (new_frontier (redis demo_frontier.1), Clock 0 0)) in
  (worker_begin (fun _ => true) (fun _ => 1%Q) "http://a.b/x" s).1 = Skipped.
Proof.
  intros d s.
  pose proof (blocked_url_lost (fun _ => true) (fun _ => 1%Q) "http://a.b/x" "a.b" 300 s) as Hl.
  destruct (worker_begin _ _ _ _) as [r s']. apply Hl.
  - vm_compute. reflexivity.
  - reflexivity.
  - reflexivity.
  - reflexivity.
  - reflexivity.
  - exists "http://a.b/x", "a.b". vm_compute. auto.
Defined.
