(* ===== verification/Scraper.v ===== *)
(** * The resilient scraper (document_processor/crawling/resilient_scraper.py)

    Retries with decorrelated jitter, one circuit breaker per domain, proxy
    rotation, and the classification of HTTP outcomes.  What the network, the
    HTML extractors and the random generator do is given per attempt
    ([attempt_env]); the semaphores only delay an attempt and are not
    modelled. *)

From stdpp Require Import pretty.
From S2P Require Import Prelude PyStr Url CircuitBreaker.
#[local] Open Scope Z_scope.

(** ** DecorrelatedJitterBackoff *)

Record Backoff := BackoffOf { base : Q; cap : Q; current_sleep : Q }.

Definition new_backoff (base_delay max_delay : Q) : Backoff :=
  BackoffOf base_delay max_delay base_delay.

(** [random.uniform(a, b)] is [a + (b - a) * u] for a [u] in [0, 1]. *)
Definition uniform (a b u : Q) : Q := (a + (b - a) * u)%Q.

Definition get_next_delay (u : Q) (b : Backoff) : Q * Backoff :=
  let s := py_min (cap b) (uniform (base b) (current_sleep b * 3) u) in
  (s, BackoffOf (base b) (cap b) s).

Definition reset_backoff (b : Backoff) : Backoff := BackoffOf (base b) (cap b) (base b).

(** ** DomainCircuitBreaker *)

Record DomainCircuitBreaker := DCB {
  dcb_threshold : Z;
  dcb_recovery : Q;
  dcb_breakers : breakers }.

Definition dcb_get (domain : string) (m : DomainCircuitBreaker)
  : CircuitBreaker * DomainCircuitBreaker :=
  let '(b, bs) := get_breaker domain (dcb_threshold m) (py_int (dcb_recovery m))
                    (fun _ => true) (dcb_breakers m) in
  (b, DCB (dcb_threshold m) (dcb_recovery m) bs).

Definition is_open (domain : string) (m : DomainCircuitBreaker) : bool * DomainCircuitBreaker :=
  let '(b, m') := dcb_get domain m in (bool_decide (get_state b = OPEN), m').

Definition dcb_update (domain : string) (f : CircuitBreaker -> CircuitBreaker)
  (m : DomainCircuitBreaker) : DomainCircuitBreaker :=
  let '(b, m') := dcb_get domain m in
  DCB (dcb_threshold m') (dcb_recovery m') (<[domain := f b]> (dcb_breakers m')).

Definition record_success (domain : string) (m : DomainCircuitBreaker) : DomainCircuitBreaker :=
  dcb_update domain on_success m.
Definition record_failure (domain : string) (now : Q) (m : DomainCircuitBreaker) : DomainCircuitBreaker :=
  dcb_update domain (on_failure now) m.
Definition dcb_get_stats (m : DomainCircuitBreaker) : gmap string breaker_stats :=
  get_all_stats (dcb_breakers m).

(** ** ProxyRotator *)

Record ProxyRotator := Proxies {
  proxies : list string;
  index : nat;
  failures : gmap string Z;
  disabled : gset string }.

Definition new_rotator (l : list string) : ProxyRotator := Proxies l 0 ∅ ∅.

Definition get_next_proxy (p : ProxyRotator) : option string * ProxyRotator :=
  match proxies p with
  | [] => (None, p)
  | _ =>
      let available := filter (fun x => x ∉ disabled p) (proxies p) in
      let '(available, dis) := match available with [] => (proxies p, ∅) | _ => (available, disabled p) end in
      let i := ((index p + 1) mod length available)%nat in
      (available !! i, Proxies (proxies p) i (failures p) dis)
  end.

Definition report_failure (proxy : string) (max_failures : Z) (p : ProxyRotator) : ProxyRotator :=
  let fs := counter_add proxy 1 (failures p) in
  Proxies (proxies p) (index p) fs
    (if max_failures <=? counter_get proxy fs then {[proxy]} ∪ disabled p else disabled p).

Definition report_success (proxy : string) (p : ProxyRotator) : ProxyRotator :=
  Proxies (proxies p) (index p) (<[proxy := 0]> (failures p)) (disabled p).

(** (total_proxies, disabled_proxies, failures) *)
Definition proxy_stats (p : ProxyRotator) : Z * Z * gmap string Z :=
  (zlength (proxies p), Z.of_nat (size (disabled p)), failures p).

(** ** Results, statistics, configuration *)

Inductive RequestResult :=
| SUCCESS | TIMEOUT | CONNECTION_ERROR | HTTP_ERROR | RATE_LIMITED | BLOCKED | CIRCUIT_OPEN
| EXTRACTION_ERROR | UNKNOWN_ERROR.
#[export] Instance RequestResult_eq_dec : EqDecision RequestResult.
Proof. solve_decision. Defined.

Record extracted := Extracted {
  ex_title : option string;
  ex_text : option string;
  ex_links : list string }.

Record ScrapeResult := Result {
  r_url : string;
  r_result : RequestResult;
  r_status_code : option Z;
  r_content : option string;
  r_extracted : extracted;
  r_response_time : Q;
  r_retry_count : Z;
  r_error_message : option string;
  r_bytes : Z }.

Definition success (r : ScrapeResult) : bool := bool_decide (r_result r = SUCCESS).

Record ScraperStats := SStats {
  total_requests : Z;
  successful_requests : Z;
  failed_requests : Z;
  retried_requests : Z;
  circuit_breaker_trips : Z;
  proxy_rotations : Z;
  total_bytes_downloaded : Z;
  total_response_time : Q;
  requests_by_status : gmap Z Z;
  errors_by_type : gmap string Z }.

Definition new_stats : ScraperStats := SStats 0 0 0 0 0 0 0 0 ∅ ∅.

Record ScraperConfig := {
  max_retries : Z;
  retry_base_delay : Q;
  retry_max_delay : Q;
  circuit_failure_threshold : Z;
  circuit_recovery_timeout : Q;
  proxy_rotation_enabled : bool;
  proxy_list : list string;
  extract_with_trafilatura : bool;
  fallback_to_beautifulsoup : bool;
  min_content_length : Z }.

Record ResilientScraper := Scraper {
  s_breakers : DomainCircuitBreaker;
  s_proxies : option ProxyRotator;
  s_stats : ScraperStats }.

Definition new_scraper (c : ScraperConfig) : ResilientScraper :=
  Scraper (DCB (circuit_failure_threshold c) (circuit_recovery_timeout c) ∅)
    (if proxy_rotation_enabled c && negb (zlength (proxy_list c) =? 0)
     then Some (new_rotator (proxy_list c)) else None)
    new_stats.

(** ** Extraction *)

Definition truthy_text (t : option string) : bool :=
  match t with Some s => negb (String.eqb s "") | None => false end.

(** [tra] and [bs] are what Trafilatura and BeautifulSoup do with the page;
    the text of [bs] is [None] when it finds no main element. *)
Definition _extract_content (c : ScraperConfig) (tra : result pyexn (option extracted))
  (bs : result pyexn extracted) : extracted :=
  let r0 := Extracted None None [] in
  let r1 := if extract_with_trafilatura c
            then match tra with Ok (Some e) => e | _ => r0 end else r0 in
  if extract_with_trafilatura c && truthy_text (ex_text r1) then r1
  else if fallback_to_beautifulsoup c
  then match bs with
       | Ok b => Extracted (ex_title b) (match ex_text b with Some t => Some t | None => ex_text r1 end)
                   (ex_links b)
       | Err _ => r1
       end
  else r1.

(** ** One HTTP request *)

Inductive http :=
| HttpResponse (status : Z) (content : string) (tra : result pyexn (option extracted))
    (bs : result pyexn extracted)
| HttpTimeout
| HttpConnectorError (msg : string)
| HttpClientError (msg : string)
| HttpOther (e : pyexn).

Definition blank (url : string) : ScrapeResult :=
  Result url UNKNOWN_ERROR None None (Extracted None None []) 0 0 None 0.

Section do_fetch.
Context (c : ScraperConfig).

(** A response: the result and the statistics, without the proxy report. *)
Definition on_status (url : string) (elapsed : Q) (status : Z) (content : string)
  (tra : result pyexn (option extracted)) (bs : result pyexn extracted) (st : ScraperStats)
  : ScrapeResult * ScraperStats :=
  let st := SStats (total_requests st + 1) (successful_requests st) (failed_requests st)
              (retried_requests st) (circuit_breaker_trips st) (proxy_rotations st)
              (total_bytes_downloaded st) (total_response_time st + elapsed)
              (counter_add status 1 (requests_by_status st)) (errors_by_type st) in
  let fail r msg := Result url r (Some status) None (Extracted None None []) elapsed 0 (Some msg) 0 in
  let failed st := SStats (total_requests st) (successful_requests st) (failed_requests st + 1)
              (retried_requests st) (circuit_breaker_trips st) (proxy_rotations st)
              (total_bytes_downloaded st) (total_response_time st)
              (requests_by_status st) (errors_by_type st) in
  if status =? 429 then (fail RATE_LIMITED "Rate limited", st)
  else if status =? 403 then (fail BLOCKED "Access forbidden", st)
  else if 400 <=? status then (fail HTTP_ERROR ("HTTP " +:+ pretty status), failed st)
  else
    let bytes := Z.of_nat (String.length content) in
    let st := SStats (total_requests st) (successful_requests st) (failed_requests st)
              (retried_requests st) (circuit_breaker_trips st) (proxy_rotations st)
              (total_bytes_downloaded st + bytes) (total_response_time st)
              (requests_by_status st) (errors_by_type st) in
    let e := _extract_content c tra bs in
    let long := match ex_text e with
                | Some t => negb (String.eqb t "") && (min_content_length c <=? Z.of_nat (String.length t))
                | None => false
                end in
    if long then
      (Result url SUCCESS (Some status) (Some content) e elapsed 0 None bytes,
       SStats (total_requests st) (successful_requests st + 1) (failed_requests st)
         (retried_requests st) (circuit_breaker_trips st) (proxy_rotations st)
         (total_bytes_downloaded st) (total_response_time st)
         (requests_by_status st) (errors_by_type st))
    else (Result url EXTRACTION_ERROR (Some status) (Some content) e elapsed 0
            (Some "Content too short") bytes, failed st).

Definition on_error (url : string) (elapsed : Q) (r : RequestResult) (msg kind : string)
  (st : ScraperStats) : ScrapeResult * ScraperStats :=
  (Result url r None None (Extracted None None []) elapsed 0 (Some msg) 0,
   SStats (total_requests st) (successful_requests st) (failed_requests st + 1)
     (retried_requests st) (circuit_breaker_trips st) (proxy_rotations st)
     (total_bytes_downloaded st) (total_response_time st)
     (requests_by_status st) (counter_add kind 1 (errors_by_type st))).

Definition count_rotation (st : ScraperStats) : ScraperStats :=
  SStats (total_requests st) (successful_requests st) (failed_requests st)
    (retried_requests st) (circuit_breaker_trips st) (proxy_rotations st + 1)
    (total_bytes_downloaded st) (total_response_time st)
    (requests_by_status st) (errors_by_type st).

(** The proxy to use, if any. *)
Definition choose_proxy (s : ResilientScraper) : option string * ResilientScraper :=
  match s_proxies s with
  | None => (None, s)
  | Some p =>
      let '(proxy, p') := get_next_proxy p in
      let st := match proxy with
                | Some x => if String.eqb x "" then s_stats s else count_rotation (s_stats s)
                | None => s_stats s
                end in
      (proxy, Scraper (s_breakers s) (Some p') st)
  end.

Definition with_proxy (f : string -> ProxyRotator -> ProxyRotator) (proxy : option string)
  (s : ResilientScraper) : ResilientScraper :=
  match proxy, s_proxies s with
  | Some x, Some p => if String.eqb x "" then s else Scraper (s_breakers s) (Some (f x p)) (s_stats s)
  | _, _ => s
  end.

Definition set_stats (st : ScraperStats) (s : ResilientScraper) : ResilientScraper :=
  Scraper (s_breakers s) (s_proxies s) st.

(** [_do_fetch]; [Err] is an exception it does not catch. *)
Definition _do_fetch (url : string) (elapsed : Q) (h : http) (s0 : ResilientScraper)
  : result pyexn ScrapeResult * ResilientScraper :=
  let '(proxy, s) := choose_proxy s0 in
  match h with
  | HttpResponse status content tra bs =>
      let '(r, st) := on_status url elapsed status content tra bs (s_stats s) in
      let s := set_stats st s in
      (Ok r, if status <? 400 then with_proxy report_success proxy s else s)
  | HttpTimeout =>
      let '(r, st) := on_error url elapsed TIMEOUT "Request timed out" "timeout" (s_stats s) in
      (Ok r, with_proxy (fun x => report_failure x 3) proxy (set_stats st s))
  | HttpConnectorError msg =>
      let '(r, st) := on_error url elapsed CONNECTION_ERROR ("Connection error: " +:+ msg)
                        "connection" (s_stats s) in
      (Ok r, with_proxy (fun x => report_failure x 3) proxy (set_stats st s))
  | HttpClientError msg =>
      let '(r, st) := on_error url elapsed UNKNOWN_ERROR ("Client error: " +:+ msg)
                        "client" (s_stats s) in
      (Ok r, set_stats st s)
  | HttpOther e => (Err e, s)
  end.

(** ** Retries *)

(** What one attempt meets: the random draw before it, the time the request
    took, what the network did, and the clock when a failure is recorded. *)
Record attempt_env := Env { e_random : Q; e_elapsed : Q; e_http : http; e_now : Q }.

Definition count_retry (s : ResilientScraper) : ResilientScraper :=
  let st := s_stats s in
  set_stats (SStats (total_requests st) (successful_requests st) (failed_requests st)
    (retried_requests st + 1) (circuit_breaker_trips st) (proxy_rotations st)
    (total_bytes_downloaded st) (total_response_time st)
    (requests_by_status st) (errors_by_type st)) s.
Definition count_trip (s : ResilientScraper) : ResilientScraper :=
  let st := s_stats s in
  set_stats (SStats (total_requests st) (successful_requests st) (failed_requests st)
    (retried_requests st) (circuit_breaker_trips st + 1) (proxy_rotations st)
    (total_bytes_downloaded st) (total_response_time st)
    (requests_by_status st) (errors_by_type st)) s.
Definition set_breakers (m : DomainCircuitBreaker) (s : ResilientScraper) : ResilientScraper :=
  Scraper m (s_proxies s) (s_stats s).

Definition set_retry_count (n : Z) (r : ScrapeResult) : ScrapeResult :=
  Result (r_url r) (r_result r) (r_status_code r) (r_content r) (r_extracted r)
    (r_response_time r) n (r_error_message r) (r_bytes r).
Definition set_outcome (x : RequestResult) (msg : string) (r : ScrapeResult) : ScrapeResult :=
  Result (r_url r) x (r_status_code r) (r_content r) (r_extracted r)
    (r_response_time r) (r_retry_count r) (Some msg) (r_bytes r).

(** A result that is returned without further attempts. *)
Definition no_retry (r : ScrapeResult) : bool :=
  bool_decide (r_result r = BLOCKED \/ r_result r = HTTP_ERROR) &&
  match r_status_code r with Some n => negb (n =? 0) && (n <? 500) | None => false end.

(** The attempts from number [attempt] on, one per element of [envs];
    [sleeps] collects the delays.  The result of the attempt before is
    [result]. *)
Fixpoint attempts (url domain : string) (envs : list attempt_env) (attempt : Z) (b : Backoff)
  (result : ScrapeResult) (sleeps : list Q) (s : ResilientScraper)
  : ScrapeResult * list Q * ResilientScraper :=
  match envs with
  | [] => (result, sleeps, s)
  | env :: envs' =>
      let '(result, b, sleeps, s) :=
        if 0 <? attempt then
          let '(delay, b') := get_next_delay (e_random env) b in
          (set_retry_count attempt result, b', sleeps ++ [delay], count_retry s)
        else (result, b, sleeps, s) in
      let '(opened, m) := is_open domain (s_breakers s) in
      let s := set_breakers m s in
      if opened then
        (set_outcome CIRCUIT_OPEN ("Circuit breaker open for " +:+ domain) result, sleeps, count_trip s)
      else
        match _do_fetch url (e_elapsed env) (e_http env) s with
        | (Ok r, s) =>
            if success r then (r, sleeps, set_breakers (record_success domain (s_breakers s)) s)
            else
              let s := if bool_decide (r_result r = RATE_LIMITED) then s
                       else set_breakers (record_failure domain (e_now env) (s_breakers s)) s in
              if no_retry r then (r, sleeps, s)
              else attempts url domain envs' (attempt + 1) b r sleeps s
        | (Err e, s) =>
            attempts url domain envs' (attempt + 1) b (set_outcome UNKNOWN_ERROR (exn_str e) result) sleeps
              (set_breakers (record_failure domain (e_now env) (s_breakers s)) s)
        end
  end.

Section fetch.
Context (bracketed_ok : string -> bool).

(** [range(max_retries + 1)] attempts; [envs] says what the n-th meets. *)
Definition _fetch_with_retry (url : string) (envs : nat -> attempt_env) (s : ResilientScraper)
  : result pyexn (ScrapeResult * list Q * ResilientScraper) :=
  match _extract_domain bracketed_ok url with
  | Err e => Err e
  | Ok domain =>
      Ok (attempts url domain (map envs (seq 0 (Z.to_nat (max_retries c + 1)))) 0
            (new_backoff (retry_base_delay c) (retry_max_delay c)) (blank url) [] s)
  end.
End fetch.
End do_fetch.

(** ** Backoff *)

Record backoff_ok (b : Backoff) : Prop := {
  bo_base : (0 <= base b <= current_sleep b)%Q;
  bo_cap : (current_sleep b <= cap b)%Q }.

Lemma get_next_delay_ok u b : (0 <= u <= 1)%Q -> backoff_ok b ->
  (base b <= (get_next_delay u b).1 <= cap b)%Q /\ backoff_ok (get_next_delay u b).2 /\
  base (get_next_delay u b).2 = base b /\ cap (get_next_delay u b).2 = cap b.
Proof.
  intros [Hu0 Hu1] [[Hb0 Hb1] Hc]. simpl.
  assert (base b <= uniform (base b) (current_sleep b * 3) u)%Q as Hun.
  { unfold uniform. pose proof (Qmult_le_0_compat (current_sleep b * 3 - base b) u ltac:(lra) Hu0). lra. }
  assert (base b <= py_min (cap b) (uniform (base b) (current_sleep b * 3) u) <= cap b)%Q as [H1 H2]
    by (split; [apply py_min_glb; lra|apply py_min_le_l]).
  repeat split; simpl; lra || done.
Qed.

(** ** Retries are bounded *)

Section retry_facts.
Context (c : ScraperConfig).

Lemma attempts_sleeps url domain envs attempt b r sleeps s :
  backoff_ok b -> Forall (fun e => (0 <= e_random e <= 1)%Q) envs -> 0 <= attempt ->
  let '(_, sleeps', _) := attempts c url domain envs attempt b r sleeps s in
  exists more, sleeps' = sleeps ++ more /\
    zlength more <= Z.max 0 (zlength envs - (if attempt =? 0 then 1 else 0)) /\
    Forall (fun x => (base b <= x <= cap b)%Q) more.
Proof.
  intros Hb He. revert attempt b r sleeps s Hb.
  induction He as [|env envs Hr He IH]; intros attempt b r sleeps s Hb Ha; simpl.
  { exists []. rewrite app_nil_r. split; [done|]. split; [unfold zlength; simpl; lia|done]. }
  set (pre := if 0 <? attempt then _ else _).
  assert (exists r1 b1 first s1, pre = (r1, b1, sleeps ++ first, s1) /\ backoff_ok b1 /\
            base b1 = base b /\ cap b1 = cap b /\
            zlength first = (if attempt =? 0 then 0 else 1) /\
            Forall (fun x => (base b <= x <= cap b)%Q) first) as (r1 & b1 & first & s1 & -> & Hb1 & Eb & Ec & Hl & Hf).
  { unfold pre. destruct (Z.ltb_spec 0 attempt), (Z.eqb_spec attempt 0); try lia.
    - destruct (get_next_delay_ok (e_random env) b Hr Hb) as (H1 & H2 & H3 & H4).
      eexists _, (get_next_delay (e_random env) b).2, [(get_next_delay (e_random env) b).1], _.
      split_and!; try done. constructor; [exact H1|done].
    - eexists _, _, [], _. rewrite app_nil_r. by split_and!. }
  assert (zlength first <= Z.max 0 (zlength (env :: envs) - (if attempt =? 0 then 1 else 0))) as Hstop.
  { autorewrite with zlen. pose proof (zlength_nonneg envs). destruct (attempt =? 0); lia. }
  destruct (is_open domain (s_breakers s1)) as [[] m]; [by exists first|].
  assert (forall r2 s2,
    let '(_, sleeps', _) := attempts c url domain envs (attempt + 1) b1 r2 (sleeps ++ first) s2 in
    exists more, sleeps' = sleeps ++ more /\
      zlength more <= Z.max 0 (zlength (env :: envs) - (if attempt =? 0 then 1 else 0)) /\
      Forall (fun x => (base b <= x <= cap b)%Q) more) as Hrec.
  { intros r2 s2. specialize (IH (attempt + 1) b1 r2 (sleeps ++ first) s2 Hb1 ltac:(lia)).
    destruct (attempts _ _ _ _ _ _ _ _ _) as [[r3 sl] s3]. destruct IH as (more & -> & Hn & Hm).
    exists (first ++ more). rewrite Eb, Ec in Hm. rewrite app_assoc. split; [done|].
    split; [|by apply Forall_app]. autorewrite with zlen in *.
    destruct (Z.eqb_spec (attempt + 1) 0); [lia|]. pose proof (zlength_nonneg envs).
    destruct (attempt =? 0); lia. }
  destruct (_do_fetch c url (e_elapsed env) (e_http env) (set_breakers m s1)) as [[r2|e] s2]; [|apply Hrec].
  destruct (success r2); [by exists first|]. destruct (no_retry r2); [by exists first|apply Hrec].
Qed.

(** A scrape sleeps at most [max_retries] times, each time between the base
    delay and the cap. *)
Theorem fetch_sleeps_bounded bracketed_ok url envs s r sleeps s' :
  0 <= max_retries c -> (0 <= retry_base_delay c <= retry_max_delay c)%Q ->
  (forall n, (0 <= e_random (envs n) <= 1)%Q) ->
  _fetch_with_retry c bracketed_ok url envs s = Ok (r, sleeps, s') ->
  zlength sleeps <= max_retries c /\
  Forall (fun x => (retry_base_delay c <= x <= retry_max_delay c)%Q) sleeps.
Proof.
  intros Hm Hbc Hr. unfold _fetch_with_retry.
  destruct (_extract_domain bracketed_ok url) as [domain|]; [|done].
  set (envl := map envs _).
  pose proof (attempts_sleeps url domain envl 0 (new_backoff (retry_base_delay c) (retry_max_delay c))
                (blank url) [] s) as Ha.
  destruct (attempts _ _ _ _ _ _ _ _ _) as [[r1 sl] s1]. intros [= <- <- <-].
  destruct Ha as (more & -> & Hl & Hf); [| |lia|].
  - split; simpl; lra.
  - apply Forall_map, Forall_forall. intros n _. apply Hr.
  - simpl in *. split; [|done]. unfold envl in Hl. unfold zlength in *.
    rewrite length_map, length_seq in Hl. lia.
Qed.

(** ** A circuit that has opened stays open *)

Lemma is_open_lookup d m b : dcb_breakers m !! d = Some b ->
  is_open d m = (bool_decide (state b = OPEN), m).
Proof. intros H. unfold is_open, dcb_get, get_breaker. rewrite H. by destruct m. Qed.

Lemma is_open_other d d' m : d' <> d ->
  dcb_breakers (is_open d' m).2 !! d = dcb_breakers m !! d.
Proof.
  intros Hne. unfold is_open, dcb_get, get_breaker. destruct (dcb_breakers m !! d') eqn:E; [done|].
  simpl. by rewrite lookup_insert_ne.
Qed.

Lemma dcb_update_other d d' f m : d' <> d ->
  dcb_breakers (dcb_update d' f m) !! d = dcb_breakers m !! d.
Proof.
  intros Hne. unfold dcb_update, dcb_get, get_breaker. destruct (dcb_breakers m !! d') eqn:E; simpl;
    by rewrite !lookup_insert_ne.
Qed.

Lemma do_fetch_breakers url x h s : s_breakers (_do_fetch c url x h s).2 = s_breakers s.
Proof.
  unfold _do_fetch.
  assert (s_breakers (choose_proxy s).2 = s_breakers s) as Hc.
  { unfold choose_proxy. destruct (s_proxies s); [|done]. by destruct (get_next_proxy _). }
  destruct (choose_proxy s) as [proxy s1]. simpl in Hc. rewrite <- Hc.
  assert (forall f s, s_breakers (with_proxy f proxy s) = s_breakers s) as Hw.
  { intros f s2. unfold with_proxy. destruct proxy, (s_proxies s2); try done. by destruct (String.eqb _ _). }
  destruct h; simpl; try done; rewrite ?Hw; try done.
  destruct (on_status _ _ _ _ _ _ _) as [r st]. simpl. destruct (_ <? _); by rewrite ?Hw.
Qed.

Lemma attempts_other url d' d envs attempt b r sleeps s : d' <> d ->
  dcb_breakers (s_breakers (attempts c url d' envs attempt b r sleeps s).2) !! d
  = dcb_breakers (s_breakers s) !! d.
Proof.
  intros Hne. revert attempt b r sleeps s. induction envs as [|env envs IH]; intros; simpl; [done|].
  set (pre := if 0 <? attempt then _ else _).
  assert (exists r1 b1 sl1 s1, pre = (r1, b1, sl1, s1) /\ s_breakers s1 = s_breakers s)
    as (r1 & b1 & sl1 & s1 & -> & <-).
  { unfold pre. destruct (0 <? attempt); [|by eexists _, _, _, _].
    by eexists _, _, _, _. }
  pose proof (is_open_other d d' (s_breakers s1) Hne) as Ho.
  destruct (is_open d' (s_breakers s1)) as [[] m]; simpl in Ho; [by rewrite <- Ho|].
  pose proof (do_fetch_breakers url (e_elapsed env) (e_http env) (set_breakers m s1)) as Hd.
  destruct (_do_fetch _ _ _ _ _) as [[r2|e] s2]; simpl in Hd.
  - destruct (success r2); [simpl; unfold record_success; by rewrite dcb_update_other, Hd|].
    set (s3 := if bool_decide _ then s2 else _).
    assert (dcb_breakers (s_breakers s3) !! d = dcb_breakers (s_breakers s1) !! d) as H3.
    { unfold s3. destruct (bool_decide _); [by rewrite Hd|]. simpl. unfold record_failure.
      by rewrite dcb_update_other, Hd. }
    destruct (no_retry r2); [done|]. by rewrite IH.
  - rewrite IH. simpl. unfold record_failure. by rewrite dcb_update_other, Hd.
Qed.
End retry_facts.

(** A sequence of scrapes, each with what its attempts meet. *)
Definition scrape_all (c : ScraperConfig) (bracketed_ok : string -> bool)
  (s : ResilientScraper) (jobs : list (string * (nat -> attempt_env))) : ResilientScraper :=
  foldl (fun s job => match _fetch_with_retry c bracketed_ok job.1 job.2 s with
                      | Ok (_, _, s') => s'
                      | Err _ => s
                      end) s jobs.

Lemma fetch_open c ok url envs s d b :
  0 <= max_retries c -> _extract_domain ok url = Ok d ->
  dcb_breakers (s_breakers s) !! d = Some b -> state b = OPEN ->
  exists r s', _fetch_with_retry c ok url envs s = Ok (r, [], s') /\
    r_result r = CIRCUIT_OPEN /\ s_breakers s' = s_breakers s.
Proof.
  intros Hm Hd Hb Ho. unfold _fetch_with_retry. rewrite Hd.
  replace (Z.to_nat (max_retries c + 1)) with (S (Z.to_nat (max_retries c))) by lia. simpl.
  rewrite (is_open_lookup d _ b Hb), bool_decide_true by done.
  eexists _, _. split; [reflexivity|]. split; [done|]. done.
Qed.

(** The per-domain circuit never recovers.  Once the breaker of a domain
    is open, every later scrape of a URL of that domain, after whatever other
    scrapes and however much time, returns [CIRCUIT_OPEN] without a request:
    [is_open] reads the state but never makes the breaker half-open, which
    only [CircuitBreaker.call] does. *)
Theorem domain_circuit_never_recovers c ok url envs s d b jobs :
  0 <= max_retries c -> _extract_domain ok url = Ok d ->
  dcb_breakers (s_breakers s) !! d = Some b -> state b = OPEN ->
  exists r s', _fetch_with_retry c ok url envs (scrape_all c ok s jobs) = Ok (r, [], s') /\
    r_result r = CIRCUIT_OPEN.
Proof.
  intros Hm Hd Hb Ho.
  assert (dcb_breakers (s_breakers (scrape_all c ok s jobs)) !! d = Some b) as Hb'.
  { apply (foldl_invariant _ (fun s => dcb_breakers (s_breakers s) !! d = Some b)); [|done].
    intros s1 [u es] _ H1. simpl. destruct (_extract_domain ok u) as [d'|e] eqn:Hu.
    - destruct (decide (d' = d)) as [->|Hne].
      + destruct (fetch_open c ok u es s1 d b Hm Hu H1 Ho) as (r & s2 & -> & _ & E). by rewrite E.
      + unfold _fetch_with_retry. rewrite Hu.
        match goal with |- context [attempts c u d' ?l ?n ?bo ?r0 ?sl0 s1] =>
          pose proof (attempts_other c u d' d l n bo r0 sl0 s1 Hne) as Hat;
          destruct (attempts c u d' l n bo r0 sl0 s1) as [[r sl] s2] end.
        simpl in Hat. by rewrite Hat.
    - unfold _fetch_with_retry. by rewrite Hu. }
  destruct (fetch_open c ok url envs _ d b Hm Hd Hb' Ho) as (r & s' & H1 & H2 & _). eauto.
Qed.

(** ** The retry count of a result *)

(** A successful scrape always reports zero retries: the count is written to
    the result of the attempt before, which the next attempt replaces. *)
Theorem success_retry_count c url domain envs attempt b r sleeps s :
  let '(r', _, _) := attempts c url domain envs attempt b r sleeps s in
  success r = false -> success r' = true -> r_retry_count r' = 0.
Proof.
  revert attempt b r sleeps s. induction envs as [|env envs IH]; intros; simpl; [congruence|].
  set (pre := if 0 <? attempt then _ else _).
  assert (exists r1 b1 sl1 s1, pre = (r1, b1, sl1, s1) /\ success r1 = success r)
    as (r1 & b1 & sl1 & s1 & -> & Er).
  { unfold pre. destruct (0 <? attempt); [|by eexists _, _, _, _].
    by eexists _, _, _, _. }
  destruct (is_open domain (s_breakers s1)) as [[] m]; [done|].
  destruct (_do_fetch _ _ _ _ _) as [[r2|e] s2] eqn:Hd.
  - destruct (success r2) eqn:Es.
    + intros _ _. unfold _do_fetch in Hd. destruct (choose_proxy _) as [px s3].
      destruct (e_http env); simplify_eq/=; try done.
      unfold on_status in Hd. repeat case_match; by simplify_eq/=.
    + destruct (no_retry r2); [intros; congruence|].
      specialize (IH (attempt + 1) b1 r2 sl1
        (if bool_decide (r_result r2 = RATE_LIMITED) then s2
         else set_breakers (record_failure domain (e_now env) (s_breakers s2)) s2)).
      destruct (attempts _ _ _ _ _ _ _ _ _) as [[r3 sl3] s3]. intros _. by apply IH.
  - specialize (IH (attempt + 1) b1 (set_outcome UNKNOWN_ERROR (exn_str e) r1) sl1
        (set_breakers (record_failure domain (e_now env) (s_breakers s2)) s2)).
    destruct (attempts _ _ _ _ _ _ _ _ _) as [[r3 sl3] s3]. intros _. by apply IH.
Qed.

(** ** Proxy rotation *)

(** With any proxies configured, one is always returned, and not a disabled
    one unless all are (in which case all are enabled again). *)
Theorem next_proxy_available p :
  proxies p <> [] ->
  exists x, (get_next_proxy p).1 = Some x /\ x ∈ proxies p /\
    x ∉ disabled (get_next_proxy p).2.
Proof.
  intros Hne. unfold get_next_proxy. destruct (proxies p) as [|y l] eqn:Hp; [done|].
  rewrite <- Hp. destruct (filter (fun x => x ∉ disabled p) (proxies p)) as [|z zs] eqn:Hf.
  - destruct (lookup_lt_is_Some_2 (proxies p) ((index p + 1) mod length (proxies p))) as [x Hx].
    { apply Nat.mod_upper_bound. rewrite Hp. done. }
    exists x. simpl. rewrite Hx. split; [done|]. split; [by eapply list_elem_of_lookup_2|set_solver].
  - rewrite <- Hf. destruct (lookup_lt_is_Some_2 (filter (fun x => x ∉ disabled p) (proxies p))
                ((index p + 1) mod length (filter (fun x => x ∉ disabled p) (proxies p)))) as [x Hx].
    { apply Nat.mod_upper_bound. by rewrite Hf. }
    exists x. simpl. rewrite Hx. split; [done|].
    apply list_elem_of_lookup_2, list_elem_of_filter in Hx. tauto.
Qed.

(** ** Witness *)

Definition demo_sconf : ScraperConfig := {|
  max_retries := 3; retry_base_delay := 1; retry_max_delay := 60; circuit_failure_threshold := 2;
  circuit_recovery_timeout := 60; proxy_rotation_enabled := false; proxy_list := [];
  extract_with_trafilatura := true; fallback_to_beautifulsoup := true; min_content_length := 3 |}.

Lemma domain_circuit_never_recovers_witness :
  let down := fun _ : nat => Env 0 1 HttpTimeout 1 in
  let up := fun _ : nat => Env 0 1 (HttpResponse 200 "page" (Ok (Some (Extracted None (Some "text") []))) (Err (PyExn "" ""))) 1000000 in
  let s := scrape_all demo_sconf (fun _ => true) (new_scraper demo_sconf) [("http://a.b/", down)] in
  exists r s', _fetch_with_retry demo_sconf (fun _ => true) "http://a.b/x" up
                 (scrape_all demo_sconf (fun _ => true) s [("http://c/", up)]) = Ok (r, [], s') /\
    r_result r = CIRCUIT_OPEN.
Proof.
  intros down up s.
  apply (domain_circuit_never_recovers demo_sconf (fun _ => true) "http://a.b/x" up s "a.b"
           (CB (CBConfig 2 60 (fun _ => true) 3) 2 0 (Some 1%Q) OPEN 0)).
  - simpl. lia.
  - vm_compute. reflexivity.
  - vm_compute. reflexivity.
  - reflexivity.
Defined.
