(* ===== verification/TaskManager.v ===== *)
(** * The task manager (document_processor/orchestration/task_manager.py)

    Tasks, their serialisation, submission, execution with retries and
    cancellation.  The JSON text stored in Redis is represented by the JSON
    value it stands for.  [isoformat] and [fromisoformat] are the datetime
    codec, a section variable with its round-trip law; a datetime is a
    rational number of seconds.

    An execution is two pieces, before and after the handler is awaited;
    [execute] composes them with the retries they schedule. *)

From S2P Require Import Prelude PyStr.
From Stdlib Require Import Ascii.

(** ** Data *)

#[warnings="-register-all"]
Inductive json :=
| JNull | JBool (b : bool) | JInt (n : Z) | JFloat (q : Q) | JStr (s : string)
| JList (l : list json) | JObj (kvs : list (string * json)).

Inductive TaskState := PENDING | QUEUED | RUNNING | COMPLETED | FAILED | CANCELLED | RETRYING.
Inductive TaskPriority := LOW | NORMAL | HIGH | URGENT.
#[export] Instance TaskState_eq_dec : EqDecision TaskState.
Proof. solve_decision. Defined.

Definition TaskState_value (s : TaskState) : string :=
  match s with
  | PENDING => "pending" | QUEUED => "queued" | RUNNING => "running" | COMPLETED => "completed"
  | FAILED => "failed" | CANCELLED => "cancelled" | RETRYING => "retrying"
  end.
Definition all_states : list TaskState :=
  [PENDING; QUEUED; RUNNING; COMPLETED; FAILED; CANCELLED; RETRYING].
(** [TaskState(v)], a [ValueError] when [v] is no value of the enum *)
Definition TaskState_of (v : string) : option TaskState :=
  List.find (fun s => String.eqb (TaskState_value s) v) all_states.

Definition TaskPriority_value (p : TaskPriority) : Z :=
  match p with LOW => 0 | NORMAL => 1 | HIGH => 2 | URGENT => 3 end.
Definition TaskPriority_of (v : Z) : option TaskPriority :=
  List.find (fun p => TaskPriority_value p =? v) [LOW; NORMAL; HIGH; URGENT].

Record Task := MkTask {
  id : string;
  task_type : string;
  payload : json;
  state : TaskState;
  priority : TaskPriority;
  created_at : Q;
  started_at : option Q;
  completed_at : option Q;
  result : json;
  error : option string;
  retry_count : Z;
  worker_id : option string;
  metadata : json }.

(** ** Serialisation *)

Section codec.
Context (isoformat : Q -> string) (fromisoformat : string -> option Q).

Definition opt_str (s : option string) : json := match s with Some x => JStr x | None => JNull end.

Definition to_dict (t : Task) : gmap string json :=
  list_to_map [
    ("id", JStr (id t)); ("task_type", JStr (task_type t)); ("payload", payload t);
    ("state", JStr (TaskState_value (state t)));
    ("priority", JInt (TaskPriority_value (priority t)));
    ("created_at", JStr (isoformat (created_at t)));
    ("started_at", opt_str (isoformat <$> started_at t));
    ("completed_at", opt_str (isoformat <$> completed_at t));
    ("result", result t); ("error", opt_str (error t));
    ("retry_count", JInt (retry_count t));
    ("worker_id", opt_str (worker_id t)); ("metadata", metadata t)].

(** [data[k]] read at a type; [None] stands for the exception raised
    ([KeyError], [ValueError]) or for a value of another JSON type. *)
Definition get_str (k : string) (d : gmap string json) : option string :=
  match d !! k with Some (JStr s) => Some s | _ => None end.
Definition get_int (k : string) (d : gmap string json) : option Z :=
  match d !! k with Some (JInt n) => Some n | _ => None end.
(** [data.get(k)] of an optional string *)
Definition get_opt (k : string) (d : gmap string json) : option (option string) :=
  match d !! k with
  | Some (JStr s) => Some (Some s)
  | Some JNull | None => Some None
  | _ => None
  end.
(** [fromisoformat(data[k]) if data.get(k) else None] *)
Definition get_time (k : string) (d : gmap string json) : option (option Q) :=
  match get_opt k d with
  | None => None
  | Some None => Some None
  | Some (Some s) => if String.eqb s "" then Some None
                     else match fromisoformat s with Some q => Some (Some q) | None => None end
  end.

Definition from_dict (d : gmap string json) : option Task :=
  i ← get_str "id" d; ty ← get_str "task_type" d; p ← d !! "payload";
  st ← get_str "state" d ≫= TaskState_of;
  pr ← get_int "priority" d ≫= TaskPriority_of;
  ca ← get_str "created_at" d ≫= fromisoformat;
  sa ← get_time "started_at" d; co ← get_time "completed_at" d;
  er ← get_opt "error" d;
  rc ← match d !! "retry_count" with None => Some 0 | Some _ => get_int "retry_count" d end;
  w ← get_opt "worker_id" d;
  Some (MkTask i ty p st pr ca sa co (default JNull (d !! "result")) er rc w
          (default (JObj []) (d !! "metadata"))).
End codec.

(** ** The manager *)

Record TaskConfig := {
  max_workers : Z;
  max_retries : Z;
  retry_delay : Q;
  retry_multiplier : Q;
  kafka_topic_prefix : string }.

Record TaskStats := TStats {
  total_tasks : Z;
  pending_tasks : Z;
  running_tasks : Z;
  completed_tasks : Z;
  failed_tasks : Z;
  retried_tasks : Z;
  active_workers : Z }.

(** [store] is what Redis holds, [None] without a connection; [topics] the
    messages sent to Kafka, [None] without a producer. *)
Record TaskManager := Manager {
  handlers : gset string;
  store : option (gmap string (gmap string json));
  topics : option (gmap string (list (gmap string json)));
  stats : TaskStats;
  task_times : list Q }.

Definition new_manager (has_redis has_kafka : bool) : TaskManager :=
  Manager ∅ (if has_redis then Some ∅ else None) (if has_kafka then Some ∅ else None)
    (TStats 0 0 0 0 0 0 0) [].

Definition register_handler (ty : string) (m : TaskManager) : TaskManager :=
  Manager ({[ty]} ∪ handlers m) (store m) (topics m) (stats m) (task_times m).

Definition set_state (s : TaskState) (t : Task) : Task :=
  MkTask (id t) (task_type t) (payload t) s (priority t) (created_at t) (started_at t)
    (completed_at t) (result t) (error t) (retry_count t) (worker_id t) (metadata t).
Definition set_completed (now : Q) (t : Task) : Task :=
  MkTask (id t) (task_type t) (payload t) (state t) (priority t) (created_at t) (started_at t)
    (Some now) (result t) (error t) (retry_count t) (worker_id t) (metadata t).
Definition set_error (e : string) (t : Task) : Task :=
  MkTask (id t) (task_type t) (payload t) (state t) (priority t) (created_at t) (started_at t)
    (completed_at t) (result t) (Some e) (retry_count t) (worker_id t) (metadata t).
Definition set_result (r : json) (t : Task) : Task :=
  MkTask (id t) (task_type t) (payload t) (state t) (priority t) (created_at t) (started_at t)
    (completed_at t) r (error t) (retry_count t) (worker_id t) (metadata t).
Definition set_started (now : Q) (w : string) (t : Task) : Task :=
  MkTask (id t) (task_type t) (payload t) (state t) (priority t) (created_at t) (Some now)
    (completed_at t) (result t) (error t) (retry_count t) (Some w) (metadata t).
Definition incr_retry (t : Task) : Task :=
  MkTask (id t) (task_type t) (payload t) (state t) (priority t) (created_at t) (started_at t)
    (completed_at t) (result t) (error t) (retry_count t + 1) (worker_id t) (metadata t).

Definition set_stats (s : TaskStats) (m : TaskManager) : TaskManager :=
  Manager (handlers m) (store m) (topics m) s (task_times m).
(** Changes to the counters (total, pending, running, completed, failed,
    retried, active). *)
Definition count (dt dp dr dc df dy da : Z) (m : TaskManager) : TaskManager :=
  let s := stats m in
  set_stats (TStats (total_tasks s + dt) (pending_tasks s + dp) (running_tasks s + dr)
    (completed_tasks s + dc) (failed_tasks s + df) (retried_tasks s + dy) (active_workers s + da)) m.

Section manager.
Context (isoformat : Q -> string) (fromisoformat : string -> option Q).
Context (cfg : TaskConfig).

Definition _save_task (t : Task) (m : TaskManager) : TaskManager :=
  match store m with
  | None => m
  | Some r => Manager (handlers m) (Some (<["task:" +:+ id t := to_dict isoformat t]> r))
                (topics m) (stats m) (task_times m)
  end.

(** [None]: not found, or no Redis.  A stored value that does not parse
    would raise; tasks are only stored through [_save_task]. *)
Definition get_task (task_id : string) (m : TaskManager) : option Task :=
  match store m with
  | None => None
  | Some r => match r !! ("task:" +:+ task_id) with
              | None => None
              | Some d => from_dict fromisoformat d
              end
  end.

(** (id, state, result, error, retry_count, created_at, completed_at) *)
Definition get_task_status (task_id : string) (m : TaskManager)
  : option (string * string * json * option string * Z * string * option string) :=
  match get_task task_id m with
  | None => None
  | Some t => Some (id t, TaskState_value (state t), result t, error t, retry_count t,
                    isoformat (created_at t), isoformat <$> completed_at t)
  end.

(** [submit_task]: the task to run locally, when there is no Kafka. *)
Definition submit_task (uuid ty : string) (p : json) (pr : TaskPriority) (md : json) (now : Q)
  (m : TaskManager) : string * option Task * TaskManager :=
  let t := MkTask uuid ty p PENDING pr now None None JNull None 0 None md in
  let m := _save_task t m in
  match topics m with
  | Some ts =>
      let topic := kafka_topic_prefix cfg +:+ "_" +:+ ty in
      let m := Manager (handlers m) (store m)
                 (Some (<[topic := default [] (ts !! topic) ++ [to_dict isoformat t]]> ts))
                 (stats m) (task_times m) in
      (uuid, None, count 1 1 0 0 0 0 0 (_save_task (set_state QUEUED t) m))
  | None => (uuid, Some t, count 1 1 0 0 0 0 0 m)
  end.

Fixpoint submit_batch (uuids : list string) (ty : string) (ps : list json) (pr : TaskPriority)
  (now : Q) (m : TaskManager) : list string * list Task * TaskManager :=
  match uuids, ps with
  | u :: us, p :: ps' =>
      let '(i, t, m) := submit_task u ty p pr (JObj []) now m in
      let '(ids, ts, m) := submit_batch us ty ps' pr now m in
      (i :: ids, match t with Some t => t :: ts | None => ts end, m)
  | _, _ => ([], [], m)
  end.

Definition cancel_task (task_id : string) (now : Q) (m : TaskManager) : bool * TaskManager :=
  match get_task task_id m with
  | None => (false, m)
  | Some t =>
      if bool_decide (state t = PENDING \/ state t = QUEUED)
      then (true, count 0 (-1) 0 0 0 0 0 (_save_task (set_completed now (set_state CANCELLED t)) m))
      else (false, m)
  end.

(** ** Execution *)

(** What the handler does, awaited with a timeout; its result is a JSON value
    (another object: [exec_end_unwritable]). *)
Inductive outcome := HReturn (r : json) | HTimeout | HRaise (msg : string).

(** What one execution meets: clock readings, the worker id, the handler. *)
Record exec_env := Exec { x_start : Q; x_worker : string; x_outcome : outcome; x_time : Q; x_end : Q }.

(** Before the handler; [false] when there is none. *)
Definition exec_begin (e : exec_env) (t : Task) (m : TaskManager) : bool * Task * TaskManager :=
  if bool_decide (task_type t ∈ handlers m) then
    let t := set_started (x_start e) (x_worker e) (set_state RUNNING t) in
    (true, t, count 0 (-1) 1 0 0 0 1 (_save_task t m))
  else
    let t := set_completed (x_start e)
               (set_error ("No handler registered for task type: " +:+ task_type t) (set_state FAILED t)) in
    (false, t, count 0 0 0 0 1 0 0 (_save_task t m)).

(** [_handle_failure] up to the retry it may schedule ([true]). *)
Definition _handle_failure (now : Q) (msg : string) (t : Task) (m : TaskManager)
  : bool * Task * TaskManager :=
  let t := incr_retry (set_error msg t) in
  if retry_count t <? max_retries cfg
  then (true, set_state RETRYING t, count 0 0 0 0 0 1 0 m)
  else (false, set_completed now (set_state FAILED t), count 0 0 0 0 1 0 0 m).

(** The delay before that retry. *)
Definition retry_backoff (t : Task) : Q :=
  (retry_delay cfg * retry_multiplier cfg ^ (retry_count t - 1))%Q.

Definition add_time (x : Q) (m : TaskManager) : TaskManager :=
  let l := task_times m ++ [x] in
  Manager (handlers m) (store m) (topics m) (stats m)
    (if 1000 <? zlength l then drop (length l - 1000) l else l).

(** After the handler, the [finally] clause included. *)
Definition exec_end (e : exec_env) (t : Task) (m : TaskManager) : bool * Task * TaskManager :=
  let '(again, t, m) :=
    match x_outcome e with
    | HReturn r => (false, set_completed (x_end e) (set_result r (set_state COMPLETED t)),
                    add_time (x_time e) (count 0 0 0 1 0 0 0 m))
    | HTimeout => _handle_failure (x_end e) "Task timed out" t m
    | HRaise msg => _handle_failure (x_end e) msg t m
    end in
  (again, t, _save_task t (count 0 0 (-1) 0 0 0 (-1) m)).

(** After a handler whose result [json.dumps] does not write: the task is counted as
    completed, and the save of the [finally] clause raises a [TypeError] before
    Redis is asked. *)
Definition exec_end_unwritable (e : exec_env) (t : Task) (m : TaskManager) : Task * TaskManager :=
  (set_completed (x_end e) (set_state COMPLETED t), count 0 0 (-1) 0 0 0 (-1) (add_time (x_time e) (count 0 0 0 1 0 0 0 m))).

(** A task from its first execution to the last; the n-th execution meets
    [env n].  Returns the number of executions too, [None] when the fuel
    runs out. *)
Fixpoint execute (fuel : nat) (env : nat -> exec_env) (n : nat) (t : Task) (m : TaskManager)
  : option (nat * Task * TaskManager) :=
  match fuel with
  | O => None
  | S fuel' =>
      let '(found, t, m) := exec_begin (env n) t m in
      if found then
        let '(again, t, m) := exec_end (env n) t m in
        if again then execute fuel' env (S n) t m else Some (S n, t, m)
      else Some (n, t, m)
  end.

(** [get_stats]: the averages are over the last hundred times. *)
Definition average_task_time (m : TaskManager) : option Q :=
  let l := task_times m in
  let recent := drop (length l - 100) l in
  match recent with
  | [] => None
  | _ => Some (foldl Qplus 0 recent / inject_Z (zlength recent))%Q
  end.
End manager.

(** ** Round trip *)

Section roundtrip.
Context (isoformat : Q -> string) (fromisoformat : string -> option Q).

(** [datetime.fromisoformat] inverts [isoformat], which is never empty. *)
Class IsoCodec : Prop := {
  iso_roundtrip q : fromisoformat (isoformat q) = Some q;
  iso_nonempty q : isoformat q <> "" }.

Context {iso : IsoCodec}.

Lemma get_time_to_dict k d (x : option Q) :
  d !! k = Some (opt_str (isoformat <$> x)) -> get_time fromisoformat k d = Some x.
Proof.
  intros H. unfold get_time, get_opt. rewrite H. destruct x as [q|]; simpl; [|done].
  destruct (String.eqb_spec (isoformat q) ""); [by apply iso_nonempty in e|]. by rewrite iso_roundtrip.
Qed.

Lemma get_opt_to_dict k (d : gmap string json) (x : option string) :
  d !! k = Some (opt_str x) -> get_opt k d = Some x.
Proof. intros H. unfold get_opt. rewrite H. by destruct x. Qed.

Lemma TaskState_of_value s : TaskState_of (TaskState_value s) = Some s.
Proof. by destruct s. Qed.
Lemma TaskPriority_of_value p : TaskPriority_of (TaskPriority_value p) = Some p.
Proof. by destruct p. Qed.

Lemma from_to_dict t : from_dict fromisoformat (to_dict isoformat t) = Some t.
Proof.
  set (d := to_dict isoformat t).
  unfold from_dict, get_str, get_int.
  rewrite (get_time_to_dict "started_at" d (started_at t)) by reflexivity.
  rewrite (get_time_to_dict "completed_at" d (completed_at t)) by reflexivity.
  rewrite (get_opt_to_dict "error" d (error t)) by reflexivity.
  rewrite (get_opt_to_dict "worker_id" d (worker_id t)) by reflexivity.
  assert (d !! "state" = Some (JStr (TaskState_value (state t)))) as -> by reflexivity.
  assert (d !! "priority" = Some (JInt (TaskPriority_value (priority t)))) as -> by reflexivity.
  assert (d !! "created_at" = Some (JStr (isoformat (created_at t)))) as -> by reflexivity.
  cbn [mbind option_bind]. rewrite TaskState_of_value, TaskPriority_of_value, iso_roundtrip.
  by destruct t.
Qed.
End roundtrip.

(** ** Storing and executing *)

Section execution.
Context (isoformat : Q -> string) (fromisoformat : string -> option Q).
Context {iso : IsoCodec isoformat fromisoformat}.
Context (cfg : TaskConfig).

#[local] Abbreviation save := (_save_task isoformat).
#[local] Abbreviation get := (get_task fromisoformat).
#[local] Abbreviation exec_begin := (exec_begin isoformat).
#[local] Abbreviation exec_end := (exec_end isoformat cfg).
#[local] Abbreviation execute := (execute isoformat cfg).

Lemma get_saved t m : is_Some (store m) -> get (id t) (save t m) = Some t.
Proof.
  intros [r Hr]. unfold get_task, _save_task. rewrite Hr. simpl.
  rewrite lookup_insert_eq. by apply from_to_dict.
Qed.

Lemma save_frame t m :
  handlers (save t m) = handlers m /\ topics (save t m) = topics m /\ stats (save t m) = stats m /\
  (is_Some (store (save t m)) <-> is_Some (store m)).
Proof. unfold _save_task. destruct (store m) eqn:E; simpl; rewrite ?E; naive_solver. Qed.

(** A task stored by the manager is read back unchanged: [get_task]
    after [_save_task] returns the same task, through [to_dict] and
    [from_dict]; without Redis it returns [None]. *)
Theorem saved_task_roundtrip t m :
  get_task fromisoformat (id t) (_save_task isoformat t m)
  = match store m with Some _ => Some t | None => None end.
Proof.
  destruct (store m) eqn:E; [apply get_saved; by eexists|].
  unfold get_task, _save_task. by rewrite E, E.
Qed.

(** ** The whole life of a task *)

Definition succeeds (e : exec_env) : bool := match x_outcome e with HReturn _ => true | _ => false end.

(** Counters after [k] executions that end the task. *)
Record executed (k : nat) (ok : bool) (m m' : TaskManager) : Prop := {
  ex_pending : pending_tasks (stats m') = pending_tasks (stats m) - Z.of_nat k;
  ex_running : running_tasks (stats m') = running_tasks (stats m);
  ex_active : active_workers (stats m') = active_workers (stats m);
  ex_completed : completed_tasks (stats m') = completed_tasks (stats m) + Z.b2z ok;
  ex_failed : failed_tasks (stats m') = failed_tasks (stats m) + Z.b2z (negb ok);
  ex_retried : retried_tasks (stats m') = retried_tasks (stats m) + Z.of_nat k - 1;
  ex_total : total_tasks (stats m') = total_tasks (stats m) }.

(** One execution of a task whose type has a handler. *)
Lemma exec_once e t m :
  task_type t ∈ handlers m ->
  let '(found, t1, m1) := exec_begin e t m in
  let '(again, t2, m2) := exec_end e t1 m1 in
  found = true /\ id t2 = id t /\ task_type t2 = task_type t /\ handlers m2 = handlers m /\
  (is_Some (store m) -> is_Some (store m2) /\ get (id t) m2 = Some t2) /\
  if succeeds e then again = false /\ state t2 = COMPLETED /\ executed 1 true m m2
  else retry_count t2 = retry_count t + 1 /\
       if retry_count t + 1 <? max_retries cfg
       then again = true /\ state t2 = RETRYING /\
            stats m2 = TStats (total_tasks (stats m)) (pending_tasks (stats m) - 1)
                         (running_tasks (stats m)) (completed_tasks (stats m)) (failed_tasks (stats m))
                         (retried_tasks (stats m) + 1) (active_workers (stats m))
       else again = false /\ state t2 = FAILED /\ executed 1 false m m2.
Proof.
  intros Hh. unfold TaskManager.exec_begin. rewrite bool_decide_true by done.
  set (t1 := set_started _ _ _). set (m1 := count _ _ _ _ _ _ _ (save t1 m)).
  assert (handlers m1 = handlers m /\ (is_Some (store m1) <-> is_Some (store m)) /\
          stats m1 = TStats (total_tasks (stats m) + 0) (pending_tasks (stats m) + -1)
            (running_tasks (stats m) + 1) (completed_tasks (stats m) + 0) (failed_tasks (stats m) + 0)
            (retried_tasks (stats m) + 0) (active_workers (stats m) + 1)) as (H1 & H2 & H3).
  { unfold m1. destruct (save_frame t1 m) as (E1 & E2 & E3 & E4). simpl. rewrite E3. by split_and!. }
  clearbody m1.
  unfold TaskManager.exec_end, succeeds, _handle_failure.
  assert (forall t2 m2, handlers m2 = handlers m1 -> store m2 = store m1 -> id t2 = id t ->
    handlers (save t2 m2) = handlers m /\
    (is_Some (store m) -> is_Some (store (save t2 m2)) /\ get (id t) (save t2 m2) = Some t2)) as Hsave.
  { intros t2 m2 E1 E2 E3. destruct (save_frame t2 m2) as (F1 & _ & _ & F4). rewrite F1, E1, H1.
    split; [done|]. intros Hs. rewrite F4, E2, H2. split; [done|]. rewrite <- E3. apply get_saved.
    by rewrite E2, H2. }
  assert (forall t2 m2, stats (save t2 m2) = stats m2) as Hst by (intros; apply save_frame).
  destruct (x_outcome e) as [r| |msg]; [|generalize "Task timed out"; intros msg|].
  { destruct (Hsave (set_completed (x_end e) (set_result r (set_state COMPLETED t1)))
      (count 0 0 (-1) 0 0 0 (-1) (add_time (x_time e) (count 0 0 0 1 0 0 0 m1)))) as [S1 S2]; [done..|].
    split_and!; try done. split; rewrite Hst; simpl; rewrite H3; simpl; lia. }
  all: destruct (Hsave (set_state RETRYING (incr_retry (set_error msg t1)))
       (count 0 0 (-1) 0 0 0 (-1) (count 0 0 0 0 0 1 0 m1))) as [S1 S2]; [done..|].
  all: destruct (Hsave (set_completed (x_end e) (set_state FAILED (incr_retry (set_error msg t1))))
       (count 0 0 (-1) 0 0 0 (-1) (count 0 0 0 0 1 0 0 m1))) as [S3 S4]; [done..|].
  all: cbn [retry_count incr_retry set_error]; change (retry_count t1) with (retry_count t).
  all: destruct (retry_count t + 1 <? max_retries cfg); split_and!; try done;
    [rewrite Hst; simpl; rewrite H3; simpl; f_equal; lia
    |split; rewrite Hst; simpl; rewrite H3; simpl; lia].
Qed.

Lemma executed_trans k ok m1 m2 m3 :
  stats m2 = TStats (total_tasks (stats m1)) (pending_tasks (stats m1) - 1)
    (running_tasks (stats m1)) (completed_tasks (stats m1)) (failed_tasks (stats m1))
    (retried_tasks (stats m1) + 1) (active_workers (stats m1)) ->
  executed k ok m2 m3 -> executed (S k) ok m1 m3.
Proof. intros E [H1 H2 H3 H4 H5 H6 H7]. rewrite E in *. simpl in *. split; lia. Qed.

(** The executions from [n] on, for a task that has failed [retry_count]
    times. *)
Lemma execute_outcome fuel env n t m :
  task_type t ∈ handlers m -> max_retries cfg - retry_count t < Z.of_nat fuel -> (0 < fuel)%nat ->
  exists k t' m', execute fuel env n t m = Some ((n + k)%nat, t', m') /\
    (1 <= k)%nat /\ (k = 1%nat \/ Z.of_nat k <= max_retries cfg - retry_count t) /\
    (forall i, (S i < k)%nat -> succeeds (env (n + i)%nat) = false) /\
    executed k (succeeds (env (n + k - 1)%nat)) m m' /\
    state t' = (if succeeds (env (n + k - 1)%nat) then COMPLETED else FAILED) /\
    (succeeds (env (n + k - 1)%nat) = false -> max_retries cfg - retry_count t <= Z.of_nat k) /\
    (is_Some (store m) -> get (id t) m' = Some t').
Proof.
  revert n t m. induction fuel as [|fuel IH]; intros n t m Hh Hf Hpos; [lia|].
  simpl. pose proof (exec_once (env n) t m Hh) as Ho.
  destruct (exec_begin (env n) t m) as [[found t1] m1].
  destruct (exec_end (env n) t1 m1) as [[again t2] m2].
  destruct Ho as (-> & Hid & Hty & Hha & Hsv & Ho).
  assert (forall b, succeeds (env n) = b -> succeeds (env (n + 1 - 1)%nat) = b) as Hn
    by (intros b <-; do 2 f_equal; lia).
  destruct (succeeds (env n)) eqn:Hs.
  - destruct Ho as (-> & Hst & Hex). exists 1%nat, t2, m2.
    rewrite (Hn true) by done. replace (n + 1)%nat with (S n) by lia.
    split_and!; try done; try lia. intros Hr. by apply Hsv.
  - destruct Ho as (Hrc & Ho). destruct (Z.ltb_spec (retry_count t + 1) (max_retries cfg)).
    + destruct Ho as (-> & Hst & Hex).
      destruct (IH (S n) t2 m2) as (k & t' & m' & He & H1 & H2 & H3 & H4 & H5 & H6 & H7);
        [by rewrite Hty, Hha|lia|lia|].
      exists (S k), t', m'. replace (n + S k - 1)%nat with (S n + k - 1)%nat by lia.
      split_and!; try done; try lia.
      * rewrite He. do 3 f_equal. lia.
      * intros [|i] Hi; [by rewrite Nat.add_0_r|]. replace (n + S i)%nat with (S n + i)%nat by lia.
        apply H3. lia.
      * by eapply executed_trans.
      * intros Hf'. specialize (H6 Hf'). lia.
      * rewrite <- Hid. intros Hr. apply H7. by apply Hsv.
    + destruct Ho as (-> & Hst & Hex). exists 1%nat, t2, m2.
      rewrite (Hn false) by done. replace (n + 1)%nat with (S n) by lia.
      split_and!; try done; try lia. intros Hr. by apply Hsv.
Qed.

(** C4: a submitted task always ends.  With a handler registered that returns JSON
    values, raises or times out, its
    executions stop at the first success or after [max(1, max_retries)]
    failures; the task is then COMPLETED or FAILED accordingly and stored so,
    and it is counted once.  [pending_tasks], which submission raised by one,
    is lowered once per execution, so every retry leaves it one too low. *)
Theorem task_execution_ends fuel env t m :
  task_type t ∈ handlers m -> retry_count t = 0 ->
  max_retries cfg < Z.of_nat fuel -> (0 < fuel)%nat ->
  exists k t' m', execute fuel env 0 t m = Some (k, t', m') /\
    (1 <= k <= Z.to_nat (Z.max 1 (max_retries cfg)))%nat /\
    (forall i, (S i < k)%nat -> succeeds (env i) = false) /\
    (succeeds (env (k - 1)%nat) = false -> k = Z.to_nat (Z.max 1 (max_retries cfg))) /\
    state t' = (if succeeds (env (k - 1)%nat) then COMPLETED else FAILED) /\
    executed k (succeeds (env (k - 1)%nat)) m m' /\
    (is_Some (store m) -> get (id t) m' = Some t').
Proof.
  intros Hh Hr Hf Hpos.
  destruct (execute_outcome fuel env 0 t m Hh ltac:(lia) Hpos)
    as (k & t' & m' & He & H1 & H2 & H3 & H4 & H5 & H6 & H7).
  exists k, t', m'. simpl in *. split_and!; try done; try lia. intros E. specialize (H6 E). lia.
Qed.

(** Cancelling does not prevent execution.  A task submitted without
    Kafka and cancelled ([cancel_task] returned [True]) before its coroutine
    runs is executed all the same, and its stored state becomes COMPLETED. *)
Theorem cancel_is_overwritten uuid ty p pr md now now' env r m t m1 m2 :
  is_Some (store m) -> topics m = None -> ty ∈ handlers m ->
  submit_task isoformat cfg uuid ty p pr md now m = (uuid, Some t, m1) ->
  cancel_task isoformat fromisoformat uuid now' m1 = (true, m2) ->
  x_outcome (env 0%nat) = HReturn r ->
  exists t' m3, execute 1 env 0 t m2 = Some (1%nat, t', m3) /\
    get uuid m3 = Some t' /\ state t' = COMPLETED /\
    pending_tasks (stats m3) = pending_tasks (stats m) - 1.
Proof.
  intros Hs Ht Hty Hsub Hcan Hr.
  unfold submit_task in Hsub.
  set (t0 := MkTask uuid ty p PENDING pr now None None JNull None 0 None md) in *.
  destruct (save_frame t0 m) as (E1 & E2 & E3 & E4).
  rewrite E2, Ht in Hsub. injection Hsub as Et Em. subst t m1.
  unfold cancel_task in Hcan.
  assert (get uuid (count 1 1 0 0 0 0 0 (save t0 m)) = Some t0) as Hg by exact (get_saved t0 m Hs).
  rewrite Hg, bool_decide_true in Hcan by (by left). injection Hcan as Em2.
  set (t1 := set_completed now' (set_state CANCELLED t0)) in *.
  destruct (save_frame t1 (count 1 1 0 0 0 0 0 (save t0 m))) as (F1 & F2 & F3 & F4).
  assert (task_type t0 ∈ handlers m2) as Hh2 by (subst m2; simpl; by rewrite F1; simpl; rewrite E1).
  assert (is_Some (store m2)) as Hs2 by (subst m2; simpl; rewrite F4; simpl; by rewrite E4).
  assert (pending_tasks (stats m2) = pending_tasks (stats m)) as Hp2
    by (subst m2; simpl; rewrite F3; simpl; rewrite E3; lia).
  pose proof (exec_once (env 0%nat) t0 m2 Hh2) as Ho. unfold succeeds in Ho. rewrite Hr in Ho.
  simpl. destruct (exec_begin (env 0%nat) t0 m2) as [[found t3] m3].
  destruct (exec_end (env 0%nat) t3 m3) as [[again t4] m4].
  destruct Ho as (-> & _ & _ & _ & Hsv & -> & Hst & Hex).
  exists t4, m4. destruct (Hsv Hs2) as [_ Hget]. destruct Hex as [Hpe _ _ _ _ _ _].
  split_and!; try done. lia.
Qed.

(** A result that is no JSON value leaves the stored task running for ever: the
    task is counted as completed, and what clients read of it is the state saved
    before the handler was called. *)
Theorem unwritable_result_stays_running e t m : is_Some (store m) -> task_type t ∈ handlers m ->
  let '(_, t1, m1) := exec_begin e t m in
  let '(t2, m2) := exec_end_unwritable e t1 m1 in
  state t2 = COMPLETED /\ completed_tasks (stats m2) = completed_tasks (stats m) + 1 /\
  exists t', get (id t) m2 = Some t' /\ state t' = RUNNING.
Proof.
  intros Hs Hh. unfold TaskManager.exec_begin. rewrite bool_decide_true by done. set (t1 := set_started _ _ _). cbn [exec_end_unwritable].
  destruct (save_frame t1 m) as (_ & _ & E3 & _). split_and!; [done|simpl; rewrite E3; lia|]. exists t1. split; [exact (get_saved t1 m Hs)|done].
Qed.
End execution.

(** ** Witnesses: a binary numeral stands for the ISO text of a date *)

Fixpoint pos_str (p : positive) : string :=
  match p with xH => "." | xO p' => String "0"%char (pos_str p') | xI p' => String "1"%char (pos_str p') end.
Fixpoint str_pos (s : string) : option positive :=
  match s with
  | EmptyString => None
  | String c s' => if Ascii.eqb c "0"%char then xO <$> str_pos s'
                   else if Ascii.eqb c "1"%char then xI <$> str_pos s' else Some xH
  end.
Definition demo_iso (q : Q) : string := pos_str (encode (Qnum q, Qden q)).
Definition demo_fromiso (s : string) : option Q :=
  p ← str_pos s; nd ← decode (A := Z * positive) p; Some (Qmake nd.1 nd.2).

#[export] Instance demo_codec : IsoCodec demo_iso demo_fromiso.
Proof.
  assert (forall p, str_pos (pos_str p) = Some p) as Hp
    by (intros p; induction p as [p IH|p IH|]; simpl; rewrite ?IH; done).
  split.
  - intros [n d]. unfold demo_iso, demo_fromiso. rewrite Hp. simpl. by rewrite decode_encode.
  - intros q. unfold demo_iso. by destruct (encode _).
Qed.

Definition demo_cfg : TaskConfig := {|
  max_workers := 10; max_retries := 3; retry_delay := 5; retry_multiplier := 2;
  kafka_topic_prefix := "tasks" |}.
Definition demo_manager : TaskManager := register_handler "crawl" (new_manager true false).
Definition demo_task : Task :=
  MkTask "u1" "crawl" (JObj []) PENDING NORMAL 0 None None JNull None 0 None (JObj []).
Definition demo_env (n : nat) : exec_env :=
  Exec 1 "w" (match n with 0 => HRaise "boom" | 1 => HTimeout | _ => HReturn (JInt 7) end)%nat 1 2.

Lemma task_execution_ends_witness :
  exists t' m', execute demo_iso demo_cfg 4 demo_env 0 demo_task demo_manager = Some (3%nat, t', m') /\
    state t' = COMPLETED /\ pending_tasks (stats m') = -3.
Proof.
  destruct (task_execution_ends demo_iso demo_fromiso demo_cfg 4 demo_env demo_task demo_manager)
    as (k & t' & m' & He & _).
  - vm_compute. reflexivity.
  - reflexivity.
  - reflexivity.
  - lia.
  - vm_compute in He. injection He as <- <- <-. eexists _, _. split; [vm_compute; reflexivity|].
    split; vm_compute; reflexivity.
Defined.

Lemma cancel_is_overwritten_witness :
  exists t' m3, state t' = COMPLETED /\
    get_task demo_fromiso "u1" m3 = Some t' /\ pending_tasks (stats m3) = -1.
Proof.
  destruct (cancel_is_overwritten demo_iso demo_fromiso demo_cfg "u1" "crawl" (JObj []) NORMAL (JObj [])
              0 1 (fun n => demo_env (2 + n)) (JInt 7) demo_manager demo_task
              (submit_task demo_iso demo_cfg "u1" "crawl" (JObj []) NORMAL (JObj []) 0 demo_manager).2
              (cancel_task demo_iso demo_fromiso "u1" 1
                 (submit_task demo_iso demo_cfg "u1" "crawl" (JObj []) NORMAL (JObj []) 0 demo_manager).2).2)
    as (t' & m3 & _ & Hg & Hst & Hp).
  - eexists. reflexivity.
  - reflexivity.
  - vm_compute. reflexivity.
  - reflexivity.
  - vm_compute. reflexivity.
  - reflexivity.
  - exists t', m3. split; [exact Hst|]. split; [exact Hg|]. exact Hp.
Defined.

Lemma saved_task_roundtrip_witness :
  get_task demo_fromiso "u1" (_save_task demo_iso demo_task demo_manager) = Some demo_task.
Proof. exact (saved_task_roundtrip demo_iso demo_fromiso demo_task demo_manager). Defined.
