(* ===== verification/AuthService.v ===== *)
(** * Authentication (document_processor/auth/service.py)

    The three tables are lists of rows and each SQL statement of the source is
    a function on them.  A coroutine's statements between two commits are one
    step; [rotate_refresh_token] commits twice and is given both as a whole
    and as its pieces.  Argon2 is the typeclass [PasswordHasher]; [sha256] is
    a section variable.  Random values (row ids, raw tokens, salts) and the
    clock are arguments, times are in seconds. *)

From S2P Require Import Prelude PyStr.
From Stdlib Require Import Ascii.

(** ** Errors *)

Inductive auth_error :=
| InvalidCredentials | AccountLocked | AccountDisabled | DuplicateUser | RateLimited
| InvalidToken (msg : string) | WeakPassword (msg : string) | IntegrityError.

(** ** Password rules *)

Definition is_upper (c : ascii) : bool :=
  let n := nat_of_ascii c in (65 <=? n)%nat && (n <=? 90)%nat.
Definition is_lower (c : ascii) : bool :=
  let n := nat_of_ascii c in (97 <=? n)%nat && (n <=? 122)%nat.
Definition is_digit (c : ascii) : bool :=
  let n := nat_of_ascii c in (48 <=? n)%nat && (n <=? 57)%nat.
Definition any_char (f : ascii -> bool) (s : string) : bool := negb (str_forallb (fun c => negb (f c)) s).

Definition _PASSWORD_MIN_LEN : nat := 10.

Definition _validate_password (pw : string) : result auth_error unit :=
  if (String.length pw <? _PASSWORD_MIN_LEN)%nat
  then Err (WeakPassword "Password must be at least 10 characters.")
  else if negb (any_char is_upper pw) then Err (WeakPassword "Password must contain an uppercase letter.")
  else if negb (any_char is_lower pw) then Err (WeakPassword "Password must contain a lowercase letter.")
  else if negb (any_char is_digit pw) then Err (WeakPassword "Password must contain a digit.")
  else Ok tt.

(** ** Tables *)

Record user_row := URow {
  u_id : string;
  u_email : option string;
  u_username : string;
  u_password_hash : string;
  u_display_name : option string;
  u_role : string;
  u_active : bool;
  u_failed : Z;
  u_locked_until : option Q;
  u_last_login : option Q }.

Record token_row := TRow {
  t_id : string;
  t_user : string;
  t_hash : string;
  t_parent : option string;
  t_revoked : bool;
  t_reason : option string;
  t_expires : Q;
  t_last_used : option Q }.

Record attempt_row := ARow {
  a_identifier : string;
  a_ip : option string;
  a_success : bool;
  a_reason : option string;
  a_created : Q }.

Record db := DB {
  users : list user_row;
  refresh_tokens : list token_row;
  login_attempts : list attempt_row }.

Definition empty_db : db := DB [] [] [].

Record User := MkUser {
  user_id : string;
  user_email : option string;
  user_username : string;
  user_display_name : option string;
  user_role : string;
  user_active : bool;
  user_last_login : option Q }.

Definition _user_from_row (r : user_row) : User :=
  MkUser (u_id r) (u_email r) (u_username r) (u_display_name r) (u_role r) (u_active r) (u_last_login r).

(** The settings the service reads. *)
Record auth_settings := {
  auth_max_failed_logins : Z;
  auth_lockout_minutes : Z;
  auth_ip_login_per_minute : Z;
  auth_register_per_hour_per_ip : Z;
  auth_refresh_token_ttl_days : Z }.

(** Argon2: [verify hash plaintext] is false also when the library raises
    [VerifyMismatchError] or [InvalidHashError]. *)
Class PasswordHasher := {
  hash : string -> string -> string;        (* salt, plaintext *)
  verify : string -> string -> bool;        (* stored hash, plaintext *)
  check_needs_rehash : string -> bool }.

(** The library's contract: a hash verifies the password it was made from. *)
Class HasherLaws `{PasswordHasher} := {
  verify_hash salt pw : verify (hash salt pw) pw = true }.

(** CITEXT columns compare without case. *)
Definition ci_eqb (a b : string) : bool := String.eqb (lower a) (lower b).

(** [ip and ...]: an absent or empty address is falsy. *)
Definition truthy_ip (ip : option string) : option string :=
  match ip with Some s => if String.eqb s "" then None else Some s | None => None end.

Section service.
Context (sha256 : string -> string) `{PasswordHasher} (cfg : auth_settings).
Implicit Types d : db.

(** ** Rate limits and the attempt log *)

Definition _login_rate_limited (now : Q) (ip : string) d : bool :=
  let c := zlength (List.filter (fun a => bool_decide (a_ip a = Some ip) &&
                                   Qltb (now - 60) (a_created a)) (login_attempts d)) in
  auth_ip_login_per_minute cfg <=? c.

Definition _register_rate_limited (now : Q) (ip : string) d : bool :=
  let c := zlength (List.filter (fun a => bool_decide (a_ip a = Some ip) &&
                                   bool_decide (a_reason a = Some "registration") &&
                                   Qltb (now - 3600) (a_created a)) (login_attempts d)) in
  auth_register_per_hour_per_ip cfg <=? c.

Definition _log_attempt (now : Q) (identifier : string) (ip : option string) (success : bool)
  (reason : option string) d : db :=
  DB (users d) (refresh_tokens d)
    (login_attempts d ++ [ARow (str_take 256 identifier) ip success reason now]).

(** ** Registration *)

(** The CHECK constraint on user names, a regular expression. *)
Definition username_format (s : string) : bool :=
  (3 <=? String.length s)%nat && (String.length s <=? 64)%nat &&
  str_forallb (fun c => is_upper c || is_lower c || is_digit c || char_in c "_-") s.

(** [(email or "").strip() or None] *)
Definition clean_email (email : option string) : option string :=
  let e := strip is_space (default "" email) in if String.eqb e "" then None else Some e.

Definition user_exists (username : string) (email : option string) d : bool :=
  existsb (fun u => String.eqb (u_username u) username ||
             match email, u_email u with Some a, Some b => ci_eqb a b | _, _ => false end) (users d).

Definition register (uuid salt : string) (username password : string) (email display_name : option string)
  (ip : option string) (now : Q) d : result auth_error User * db :=
  match _validate_password password with
  | Err e => (Err e, d)
  | Ok _ =>
      let password_hash := hash salt password in
      let email := clean_email email in
      if match truthy_ip ip with Some a => _register_rate_limited now a d | None => false end
      then (Err RateLimited, d)
      else if user_exists username email d then (Err DuplicateUser, d)
      else if negb (username_format username) then (Err IntegrityError, d)
      else
        let row := URow uuid email username password_hash display_name "user" true 0 None None in
        (Ok (_user_from_row row), DB (users d ++ [row]) (refresh_tokens d) (login_attempts d))
  end.

(** ** Login *)

Definition find_user (ident : string) d : option user_row :=
  List.find (fun u => String.eqb (u_username u) ident ||
               match u_email u with Some e => ci_eqb e ident | None => false end) (users d).

Definition update_user (i : string) (f : user_row -> user_row) d : db :=
  DB (map (fun u => if String.eqb (u_id u) i then f u else u) (users d))
    (refresh_tokens d) (login_attempts d).

Definition set_failure (failed : Z) (lock : option Q) (u : user_row) : user_row :=
  URow (u_id u) (u_email u) (u_username u) (u_password_hash u) (u_display_name u) (u_role u)
    (u_active u) failed lock (u_last_login u).
Definition set_login (now : Q) (u : user_row) : user_row :=
  URow (u_id u) (u_email u) (u_username u) (u_password_hash u) (u_display_name u) (u_role u)
    (u_active u) 0 None (Some now).
Definition set_hash (h : string) (u : user_row) : user_row :=
  URow (u_id u) (u_email u) (u_username u) h (u_display_name u) (u_role u)
    (u_active u) (u_failed u) (u_locked_until u) (u_last_login u).

Definition lock_expiry (now : Q) : Q := (now + inject_Z (auth_lockout_minutes cfg * 60))%Q.

Definition authenticate (identifier0 password : string) (ip : option string) (salt : string)
  (now : Q) d : result auth_error User * db :=
  let identifier := strip is_space identifier0 in
  let log ok reason d := _log_attempt now identifier ip ok reason d in
  if match truthy_ip ip with Some a => _login_rate_limited now a d | None => false end
  then (Err RateLimited, d)
  else
    match find_user identifier d with
    | None => (Err InvalidCredentials, log false (Some "not_found") d)
    | Some u =>
        if negb (u_active u) then (Err AccountDisabled, log false (Some "disabled") d)
        else if match u_locked_until u with Some l => Qltb now l | None => false end
        then (Err AccountLocked, log false (Some "locked") d)
        else if negb (verify (u_password_hash u) password) then
          let failed := u_failed u + 1 in
          let '(lock, reason) :=
            if auth_max_failed_logins cfg <=? failed
            then (Some (lock_expiry now), "bad_password_locked") else (None, "bad_password") in
          (Err InvalidCredentials, log false (Some reason) (update_user (u_id u) (set_failure failed lock) d))
        else
          let d := update_user (u_id u) (set_login now) d in
          let d := if check_needs_rehash (u_password_hash u)
                   then update_user (u_id u) (set_hash (hash salt password)) d else d in
          (Ok (_user_from_row (set_login now u)), log true None d)
    end.

(** ** Refresh tokens *)

(** The UNIQUE constraint on [token_hash] rejects a colliding token. *)
Definition issue_refresh_token (rid raw : string) (u : User) (parent : option string) (now : Q) d
  : result auth_error string * db :=
  let h := sha256 raw in
  if existsb (fun t => String.eqb (t_hash t) h || String.eqb (t_id t) rid) (refresh_tokens d)
  then (Err IntegrityError, d)
  else
    let expires := (now + inject_Z (auth_refresh_token_ttl_days cfg * 86400))%Q in
    (Ok raw, DB (users d)
               (refresh_tokens d ++ [TRow rid (user_id u) h parent false None expires None])
               (login_attempts d)).

Definition revoke (reason : string) (used : option Q) (t : token_row) : token_row :=
  TRow (t_id t) (t_user t) (t_hash t) (t_parent t) true (Some reason) (t_expires t)
    (match used with Some x => Some x | None => t_last_used t end).

Definition update_tokens (p : token_row -> bool) (f : token_row -> token_row) d : db :=
  DB (users d) (map (fun t => if p t then f t else t) (refresh_tokens d)) (login_attempts d).

Definition revoke_user_tokens (uid reason : string) d : db :=
  update_tokens (fun t => String.eqb (t_user t) uid && negb (t_revoked t)) (revoke reason None) d.

Definition find_token (h : string) d : option (token_row * user_row) :=
  match List.find (fun t => String.eqb (t_hash t) h) (refresh_tokens d) with
  | None => None
  | Some t => match List.find (fun u => String.eqb (u_id u) (t_user t)) (users d) with
              | None => None
              | Some u => Some (t, u)
              end
  end.

(** The first transaction of a rotation: look up and check. *)
Definition rotate_check (raw : string) (now : Q) d : result auth_error (token_row * user_row) * db :=
  match find_token (sha256 raw) d with
  | None => (Err (InvalidToken "refresh token not recognised"), d)
  | Some (t, u) =>
      if t_revoked t
      then (Err (InvalidToken "refresh token reused"), revoke_user_tokens (t_user t) "replay_detected" d)
      else if Qltb (t_expires t) now then (Err (InvalidToken "refresh token expired"), d)
      else if negb (u_active u) then (Err AccountDisabled, d)
      else (Ok (t, u), d)
  end.

(** The UPDATE of the row, by its id. *)
Definition rotate_revoke (t : token_row) (now : Q) d : db :=
  update_tokens (fun x => String.eqb (t_id x) (t_id t)) (revoke "rotated" (Some now)) d.

Definition rotate_refresh_token (rid raw new_raw : string) (now : Q) d
  : result auth_error (User * string) * db :=
  match rotate_check raw now d with
  | (Err e, d) => (Err e, d)
  | (Ok (t, u), d) =>
      let d := rotate_revoke t now d in
      match issue_refresh_token rid new_raw (_user_from_row u) (Some (t_id t)) now d with
      | (Err e, d) => (Err e, d)
      | (Ok new, d) => (Ok (_user_from_row u, new), d)
      end
  end.

Definition revoke_refresh_token (raw reason : string) d : db :=
  update_tokens (fun t => String.eqb (t_hash t) (sha256 raw) && negb (t_revoked t)) (revoke reason None) d.

Definition revoke_all_for_user (uid reason : string) d : db := revoke_user_tokens uid reason d.

Definition get_user (uid : string) d : option User :=
  _user_from_row <$> List.find (fun u => String.eqb (u_id u) uid) (users d).

(** ** Operations as data *)

Inductive op :=
| Register (uuid salt username password : string) (email display_name ip : option string) (now : Q)
| Login (identifier password : string) (ip : option string) (salt : string) (now : Q)
| Issue (rid raw : string) (u : User) (now : Q)
| Rotate (rid raw new_raw : string) (now : Q)
| Logout (raw : string)
| LogoutAll (uid : string).

Definition run_op d (o : op) : db :=
  match o with
  | Register uuid salt un pw em dn ip now => (register uuid salt un pw em dn ip now d).2
  | Login ident pw ip salt now => (authenticate ident pw ip salt now d).2
  | Issue rid raw u now => (issue_refresh_token rid raw u None now d).2
  | Rotate rid raw new now => (rotate_refresh_token rid raw new now d).2
  | Logout raw => revoke_refresh_token raw "logout" d
  | LogoutAll uid => revoke_all_for_user uid "user_logout_all" d
  end.

(** ** Passwords *)

Lemma any_char_iff f s : any_char f s = true <-> exists c, char_in c s = true /\ f c = true.
Proof.
  unfold any_char. induction s as [|x s IH]; simpl; [naive_solver|].
  rewrite negb_andb, orb_true_iff, IH, negb_involutive. setoid_rewrite orb_true_iff.
  setoid_rewrite Ascii.eqb_eq. naive_solver.
Qed.

(** The rule of the documentation, exactly. *)
Theorem validate_password_iff pw :
  _validate_password pw = Ok tt <->
  (10 <= String.length pw)%nat /\
  (exists c, char_in c pw = true /\ is_upper c = true) /\
  (exists c, char_in c pw = true /\ is_lower c = true) /\
  (exists c, char_in c pw = true /\ is_digit c = true).
Proof.
  rewrite <- !any_char_iff. unfold _validate_password, _PASSWORD_MIN_LEN.
  destruct (Nat.ltb_spec (String.length pw) 10); [naive_solver lia|].
  destruct (any_char is_upper pw), (any_char is_lower pw), (any_char is_digit pw);
    simpl; naive_solver lia.
Qed.

(** ** Lockout *)

Lemma find_user_update ident i f d :
  (forall u, u_username (f u) = u_username u /\ u_email (f u) = u_email u) ->
  find_user ident (update_user i f d)
  = (fun u => if String.eqb (u_id u) i then f u else u) <$> find_user ident d.
Proof.
  intros Hf. unfold find_user, update_user. simpl. apply find_map_stable. intros u.
  destruct (String.eqb (u_id u) i); [|done]. destruct (Hf u) as [-> ->]. done.
Qed.

(** The rows of the attempt log that count against an address. *)
Definition recent_attempts (now : Q) (ip : string) d : Z :=
  zlength (List.filter (fun a => bool_decide (a_ip a = Some ip) && Qltb (now - 60) (a_created a)) (login_attempts d)).
(** The address, if there is one, has tries left in this minute. *)
Definition has_tries (now : Q) (ip : option string) d : Prop :=
  forall a, ip = Some a -> a <> "" -> recent_attempts now a d < auth_ip_login_per_minute cfg.

Lemma limited_false now ip d : has_tries now ip d ->
  match truthy_ip ip with Some a => _login_rate_limited now a d | None => false end = false.
Proof.
  intros Ht. destruct ip as [a|]; simpl; [|done]. destruct (String.eqb_spec a "") as [|Ha]; [done|].
  unfold _login_rate_limited. apply Z.leb_gt. by apply Ht.
Qed.

(** A wrong password for an active account that is not locked: refused, or
    turned away for its address with nothing changed. *)
Lemma bad_password_step ident pw ip salt now d u :
  find_user (strip is_space ident) d = Some u -> u_active u = true -> u_locked_until u = None ->
  verify (u_password_hash u) pw = false ->
  let '(r, d') := authenticate ident pw ip salt now d in
  (r = Err RateLimited /\ d' = d /\ ~ has_tries now ip d) \/
  (r = Err InvalidCredentials /\
   find_user (strip is_space ident) d'
   = Some (set_failure (u_failed u + 1)
             (if auth_max_failed_logins cfg <=? u_failed u + 1 then Some (lock_expiry now) else None) u)).
Proof.
  intros Hu Ha Hl Hv. unfold authenticate.
  destruct (match truthy_ip ip with Some a => _login_rate_limited now a d | None => false end) eqn:Elim.
  { left. split_and!; try done. intros Ht. by rewrite (limited_false _ _ _ Ht) in Elim. }
  rewrite Hu, Ha, Hl, Hv. simpl.
  set (lr := if _ <=? _ then _ else _).
  assert (lr.1 = if auth_max_failed_logins cfg <=? u_failed u + 1 then Some (lock_expiry now) else None)
    as Hlr by (unfold lr; by destruct (_ <=? _)).
  destruct lr as [lock reason]. simpl in Hlr. right. split; [done|].
  change (find_user (strip is_space ident) (_log_attempt ?a ?b ?c ?e ?f ?x)) with
    (find_user (strip is_space ident) x).
  rewrite find_user_update by done. rewrite Hu. simpl. by rewrite String.eqb_refl, Hlr.
Qed.

(** Login attempts on one account, one after the other: password, client
    address and time of each; their answers. *)
Record login := Attempt { l_password : string; l_ip : option string; l_time : Q }.
Fixpoint logins (ident salt : string) (l : list login) d : list (result auth_error User) * db :=
  match l with
  | [] => ([], d)
  | x :: l =>
      let '(r, d) := authenticate ident (l_password x) (l_ip x) salt (l_time x) d in
      let '(rs, d) := logins ident salt l d in (r :: rs, d)
  end.

(** How many were refused for their password *)
Definition wrong_password (r : result auth_error User) : bool :=
  match r with Err InvalidCredentials => true | _ => false end.
Definition refusals (rs : list (result auth_error User)) : Z := zlength (List.filter wrong_password rs).

Lemma failed_run ident salt l d u :
  find_user (strip is_space ident) d = Some u -> u_active u = true -> u_locked_until u = None ->
  Forall (fun x => verify (u_password_hash u) (l_password x) = false) l ->
  u_failed u + refusals (logins ident salt l d).1 < auth_max_failed_logins cfg ->
  find_user (strip is_space ident) (logins ident salt l d).2
  = Some (set_failure (u_failed u + refusals (logins ident salt l d).1) None u).
Proof.
  revert d u. induction l as [|x l IH]; intros d u Hu Ha Hl Hv; simpl.
  - intros _. rewrite Hu. unfold refusals, zlength. simpl. rewrite Z.add_0_r. destruct u; simpl in *. by subst.
  - apply Forall_cons in Hv as [Hv Hvs].
    pose proof (bad_password_step ident (l_password x) (l_ip x) salt (l_time x) d u Hu Ha Hl Hv) as Hs.
    destruct (authenticate _ _ _ _ _ d) as [r d'].
    destruct Hs as [(-> & -> & _)|[-> Hf]].
    + specialize (IH d u Hu Ha Hl Hvs). destruct (logins ident salt l d) as [rs d2]. exact IH.
    + pose proof (zlength_nonneg (List.filter wrong_password (logins ident salt l d').1)) as Hnn.
      destruct (Z.leb_spec (auth_max_failed_logins cfg) (u_failed u + 1)) as [Hle|Hlt].
      { destruct (logins ident salt l d') as [rs d2]. unfold refusals, zlength in *. simpl in *. lia. }
      specialize (IH d' _ Hf Ha eq_refl Hvs). destruct (logins ident salt l d') as [rs d2].
      unfold refusals, zlength in *. simpl in *. intros Hmax. rewrite IH by lia.
      unfold set_failure. simpl. do 2 f_equal. lia.
Qed.

(** Attempts on a locked account, before the lock expires *)
Lemma locked_run ident salt l d u until :
  find_user (strip is_space ident) d = Some u -> u_active u = true -> u_locked_until u = Some until ->
  Forall (fun x => (l_time x < until)%Q) l ->
  Forall (fun r => r = Err AccountLocked \/ r = Err RateLimited) (logins ident salt l d).1 /\
  find_user (strip is_space ident) (logins ident salt l d).2 = Some u.
Proof.
  intros Hu Ha Hl. revert d Hu. induction l as [|x l IH]; intros d Hu Ht; simpl; [done|].
  apply Forall_cons in Ht as [Hx Ht].
  assert (let '(r, d') := authenticate ident (l_password x) (l_ip x) salt (l_time x) d in
          (r = Err AccountLocked \/ r = Err RateLimited) /\ find_user (strip is_space ident) d' = Some u) as Hs.
  { unfold authenticate. destruct (match truthy_ip (l_ip x) with Some a => _login_rate_limited (l_time x) a d | None => false end); [by auto|].
    rewrite Hu, Ha, Hl. simpl. destruct (Qltb_reflect (l_time x) until); [by auto|lra]. }
  destruct (authenticate _ _ _ _ _ d) as [r d']. destruct Hs as [Hr Hu'].
  destruct (IH d' Hu' Ht) as [H1 H2]. destruct (logins ident salt l d') as [rs d2]. split; [by constructor|done].
Qed.


(** ** Refresh tokens *)

(** Every field but the revocation is kept by an update of tokens. *)
Definition keeps_identity (f : token_row -> token_row) : Prop :=
  forall t, t_id (f t) = t_id t /\ t_user (f t) = t_user t /\ t_hash (f t) = t_hash t /\
            t_parent (f t) = t_parent t /\ (t_revoked t = true -> t_revoked (f t) = true).

Lemma revoke_keeps reason used : keeps_identity (revoke reason used).
Proof. by intros t. Qed.

Lemma if_keeps (p : token_row -> bool) f : keeps_identity f -> keeps_identity (fun t => if p t then f t else t).
Proof. intros Hf t. destruct (p t); [apply Hf|done]. Qed.

Lemma find_token_update h p f d : keeps_identity f ->
  find_token h (update_tokens p f d)
  = (fun tu => (if p tu.1 then f tu.1 else tu.1, tu.2)) <$> find_token h d.
Proof.
  intros Hf. unfold find_token, update_tokens. simpl.
  rewrite (find_map_stable (fun t => String.eqb (t_hash t) h)).
  2: { intros t. destruct (p t); [|done]. by destruct (Hf t) as (_ & _ & -> & _). }
  destruct (List.find _ (refresh_tokens d)) as [t|]; [|done]. simpl.
  assert (t_user (if p t then f t else t) = t_user t) as ->
    by (destruct (p t); [|done]; by destruct (Hf t) as (_ & -> & _)).
  by destruct (List.find _ (users d)).
Qed.

Lemma find_token_app h t u row d :
  find_token h d = Some (t, u) ->
  find_token h (DB (users d) (refresh_tokens d ++ [row]) (login_attempts d)) = Some (t, u).
Proof.
  unfold find_token. simpl. destruct (List.find _ (refresh_tokens d)) as [t'|] eqn:E; [|done].
  intros Hu. erewrite find_app_l; [|exact E]. done.
Qed.

Lemma rotate_ok rid raw new now d r d' :
  rotate_refresh_token rid raw new now d = (Ok r, d') ->
  exists t u, find_token (sha256 raw) d = Some (t, u) /\ t_revoked t = false /\ (now <= t_expires t)%Q /\
    u_active u = true /\ r = (_user_from_row u, new) /\
    issue_refresh_token rid new (_user_from_row u) (Some (t_id t)) now (rotate_revoke t now d) = (Ok new, d').
Proof.
  unfold rotate_refresh_token, rotate_check.
  destruct (find_token (sha256 raw) d) as [[t u]|] eqn:Ht; [|done].
  destruct (t_revoked t) eqn:Hr; [done|].
  destruct (Qltb_reflect (t_expires t) now); [done|]. destruct (u_active u) eqn:Ha; [|done].
  simpl. destruct (issue_refresh_token _ _ _ _ _ _) as [[x|e] d2] eqn:Hi; [|done].
  assert (x = new) as -> by (unfold issue_refresh_token in Hi; by destruct (existsb _ (refresh_tokens _)); simplify_eq).
  intros [= <- <-]. by exists t, u.
Qed.

Lemma user_tokens_revoked uid reason d t :
  t ∈ refresh_tokens (revoke_user_tokens uid reason d) -> t_user t = uid -> t_revoked t = true.
Proof.
  unfold revoke_user_tokens, update_tokens. simpl. intros (t' & -> & Hin)%list_elem_of_fmap.
  cbv beta. destruct (String.eqb_spec (t_user t') uid), (t_revoked t') eqn:E; simpl; congruence.
Qed.

(** A refresh token works once.  After a successful rotation, presenting
    the old token again raises [InvalidToken] and revokes every token of the
    user, the replacement included. *)
Theorem token_reuse_detected rid raw new now d usr d1 rid' new' now' :
  rotate_refresh_token rid raw new now d = (Ok (usr, new), d1) ->
  let '(r, d2) := rotate_refresh_token rid' raw new' now' d1 in
  r = Err (InvalidToken "refresh token reused") /\
  forall t, t ∈ refresh_tokens d2 -> t_user t = user_id usr -> t_revoked t = true.
Proof.
  intros Hrot. destruct (rotate_ok _ _ _ _ _ _ _ Hrot) as (t & u & Hf & Hr & _ & _ & [= ->] & Hi).
  assert (find_token (sha256 raw) d1 = Some (revoke "rotated" (Some now) t, u)) as Hf1.
  { unfold issue_refresh_token in Hi. destruct (existsb _ _); [done|]. injection Hi as <-.
    apply (find_token_app (sha256 raw) _ _ _ (rotate_revoke t now d)). unfold rotate_revoke. rewrite find_token_update by apply revoke_keeps.
    rewrite Hf. simpl. by rewrite String.eqb_refl. }
  unfold rotate_refresh_token, rotate_check. rewrite Hf1. simpl. split; [done|].
  intros t' Hin Hu. eapply user_tokens_revoked; [exact Hin|].
  rewrite Hu. unfold find_token in Hf.
  destruct (List.find _ (refresh_tokens d)) as [t0|]; [|done].
  destruct (List.find (fun u => String.eqb (u_id u) (t_user t0)) (users d)) as [u0|] eqn:Eu; [|done].
  injection Hf as -> ->. apply List.find_some in Eu as [_ Eu]. simpl. by apply String.eqb_eq in Eu.
Qed.

(** ** Token families *)

(** Ids are unique, a token has at most one successor, and a token with a
    successor is revoked. *)
Record families_ok (d : db) : Prop := {
  fam_ids : NoDup (map t_id (refresh_tokens d));
  fam_linear : NoDup (omap t_parent (refresh_tokens d));
  fam_revoked x y : x ∈ refresh_tokens d -> y ∈ refresh_tokens d ->
    t_parent y = Some (t_id x) -> t_revoked x = true }.

Lemma update_tokens_families p f d : keeps_identity f -> families_ok d -> families_ok (update_tokens p f d).
Proof.
  intros Hf [H1 H2 H3]. pose proof (if_keeps p f Hf) as Hk. set (g := fun t => if p t then f t else t) in *.
  split; simpl.
  - rewrite map_map. erewrite map_ext; [exact H1|]. intros t. apply Hk.
  - change (NoDup (omap t_parent (map g (refresh_tokens d)))).
    assert (omap t_parent (map g (refresh_tokens d)) = omap t_parent (refresh_tokens d)) as ->; [|done].
    clear H1 H2 H3. induction (refresh_tokens d) as [|t l IH]; [done|].
    csimpl. destruct (Hk t) as (_ & _ & _ & -> & _). by rewrite IH.
  - intros x y (x' & -> & Hx)%list_elem_of_fmap (y' & -> & Hy)%list_elem_of_fmap.
    destruct (Hk x') as (Ex & _ & _ & _ & Hr), (Hk y') as (_ & _ & _ & Ey & _).
    fold (g x') (g y'). rewrite Ex, Ey. intros Hp. apply Hr. by eapply H3.
Qed.

(** Adding a token whose parent is absent, or revoked and without successor. *)
Lemma issue_families rid raw u parent now d :
  families_ok d ->
  (forall q, parent = Some q -> q <> rid /\ (q ∉ omap t_parent (refresh_tokens d)) /\
     (forall x, x ∈ refresh_tokens d -> t_id x = q -> t_revoked x = true)) ->
  (forall y, y ∈ refresh_tokens d -> t_parent y <> Some rid) ->
  families_ok (issue_refresh_token rid raw u parent now d).2.
Proof.
  intros [H1 H2 H3] Hq Hfresh. unfold issue_refresh_token.
  destruct (existsb _ (refresh_tokens d)) eqn:Hex; [done|]. simpl.
  assert (rid ∉ map t_id (refresh_tokens d)) as Hid.
  { intros (t & -> & Hin)%list_elem_of_fmap. apply not_true_iff_false in Hex. apply Hex.
    apply existsb_exists. exists t. split; [by apply list_elem_of_In|]. rewrite String.eqb_refl. apply orb_true_r. }
  split; simpl.
  - rewrite map_app. apply NoDup_app. split_and!; [done|set_solver|apply NoDup_singleton].
  - rewrite omap_app. simpl. destruct parent as [q|]; [|by rewrite app_nil_r].
    destruct (Hq q eq_refl) as (_ & Hn & _). apply NoDup_app. split_and!; [done|set_solver|apply NoDup_singleton].
  - intros x y [Hx|Hx%list_elem_of_singleton]%elem_of_app [Hy|Hy%list_elem_of_singleton]%elem_of_app Hp.
    + by eapply H3.
    + subst y. simpl in Hp. destruct (Hq _ Hp) as (_ & _ & Hr). by apply Hr.
    + subst x. simpl in Hp. by apply Hfresh in Hp.
    + subst x y. simpl in *. by destruct (Hq _ Hp) as [? _].
Qed.

(** Row ids are drawn fresh: no token mentions one before it is used. *)
Definition fresh_id (rid : string) (d : db) : Prop :=
  forall y, y ∈ refresh_tokens d -> t_id y <> rid /\ t_parent y <> Some rid.

Lemma rotate_families rid raw new now d : fresh_id rid d -> families_ok d ->
  families_ok (rotate_refresh_token rid raw new now d).2.
Proof.
  intros Hfr Hd. unfold rotate_refresh_token, rotate_check.
  destruct (find_token (sha256 raw) d) as [[t u]|] eqn:Ht; [|done].
  assert (t ∈ refresh_tokens d) as Hin.
  { unfold find_token in Ht. destruct (List.find _ (refresh_tokens d)) as [t0|] eqn:E; [|done].
    destruct (List.find _ (users d)); [|done]. simplify_eq. apply List.find_some in E as [E _].
    by apply list_elem_of_In. }
  destruct (t_revoked t) eqn:Hr; [by apply update_tokens_families; [apply revoke_keeps|]|].
  destruct (Qltb _ _); [done|]. destruct (negb _); [done|].
  assert (families_ok (issue_refresh_token rid new (_user_from_row u) (Some (t_id t)) now
            (rotate_revoke t now d)).2) as Hok.
  { assert (forall y, y ∈ refresh_tokens (rotate_revoke t now d) ->
      exists y', y' ∈ refresh_tokens d /\ t_id y = t_id y' /\ t_parent y = t_parent y' /\
                 (t_id y' = t_id t -> t_revoked y = true)) as Hy.
    { intros y (y' & -> & Hy')%list_elem_of_fmap. exists y'. split; [done|].
      destruct (String.eqb_spec (t_id y') (t_id t)); split_and!; done. }
    apply issue_families.
    - apply update_tokens_families; [apply revoke_keeps|done].
    - intros q [= <-]. split; [by apply Hfr|]. split.
      + intros (y & Hyin & Hp)%list_elem_of_omap. destruct (Hy y Hyin) as (y' & Hin' & _ & Ep & _).
        rewrite Ep in Hp. pose proof (fam_revoked d Hd t y' Hin Hin' Hp). congruence.
      + intros x Hx Hid. destruct (Hy x Hx) as (x' & _ & Ex & _ & Hrev). apply Hrev. by rewrite <- Ex.
    - intros y Hyin. destruct (Hy y Hyin) as (y' & Hin' & _ & -> & _). by apply Hfr. }
  destruct (issue_refresh_token rid new _ _ now (rotate_revoke t now d)) as [[r|e] d']; exact Hok.
Qed.

(** The id an operation draws for a token row. *)
Definition draws (o : op) : option string :=
  match o with Issue rid _ _ _ => Some rid | Rotate rid _ _ _ => Some rid | _ => None end.

Lemma run_op_families d o : (forall rid, draws o = Some rid -> fresh_id rid d) ->
  families_ok d -> families_ok (run_op d o).
Proof.
  intros Hfr Hd. destruct o as [uuid salt un pw em dn ip now|ident pw ip salt now|rid raw u now|rid raw new now|raw|uid]; simpl in *.
  - assert (refresh_tokens (register uuid salt un pw em dn ip now d).2 = refresh_tokens d) as E.
    { unfold register. repeat case_match; done. }
    destruct Hd as [H1 H2 H3]. split; by rewrite E.
  - assert (refresh_tokens (authenticate ident pw ip salt now d).2 = refresh_tokens d) as E.
    { unfold authenticate. repeat case_match; done. }
    destruct Hd as [H1 H2 H3]. split; by rewrite E.
  - apply issue_families; [done|done|]. intros y Hy. by apply (Hfr rid eq_refl).
  - apply rotate_families; [by apply Hfr|done].
  - apply update_tokens_families; [apply revoke_keeps|done].
  - apply update_tokens_families; [apply revoke_keeps|done].
Qed.

(** Every operation of a history draws a fresh id. *)
Fixpoint fresh_run (d : db) (ops : list op) : Prop :=
  match ops with
  | [] => True
  | o :: ops' => (forall rid, draws o = Some rid -> fresh_id rid d) /\ fresh_run (run_op d o) ops'
  end.

(** C3: in every sequential history of the service, token families are
    chains: a token has at most one successor, and once it has one it is
    revoked. *)
Theorem token_families_linear d ops :
  families_ok d -> fresh_run d ops -> families_ok (foldl run_op d ops).
Proof.
  revert d. induction ops as [|o ops IH]; intros d Hd Hfr; [done|]. destruct Hfr as [Ho Hr].
  simpl. apply IH; [by apply run_op_families|done].
Qed.

(** ** Two rotations at once *)

(** The check and the revocation of a rotation are not one atomic step,
    so two concurrent requests with the same token both pass the check, both
    succeed, and leave two live successors: the reuse is not detected. *)
Theorem rotation_race raw now d t u rid1 new1 rid2 new2 :
  rotate_check raw now d = (Ok (t, u), d) ->
  (forall y, y ∈ refresh_tokens d -> t_id y <> rid1 /\ t_id y <> rid2 /\
     t_hash y <> sha256 new1 /\ t_hash y <> sha256 new2) ->
  rid1 <> rid2 -> sha256 new1 <> sha256 new2 ->
  let '(r1, d1) := issue_refresh_token rid1 new1 (_user_from_row u) (Some (t_id t)) now (rotate_revoke t now d) in
  let '(r2, d2) := issue_refresh_token rid2 new2 (_user_from_row u) (Some (t_id t)) now (rotate_revoke t now d1) in
  r1 = Ok new1 /\ r2 = Ok new2 /\
  exists x y, x ∈ refresh_tokens d2 /\ y ∈ refresh_tokens d2 /\ t_id x <> t_id y /\
    t_parent x = t_parent y /\ t_revoked x = false /\ t_revoked y = false.
Proof.
  intros Hc Hfresh Hr12 Hh12.
  assert (t ∈ refresh_tokens d) as Hin.
  { unfold rotate_check, find_token in Hc. destruct (List.find _ (refresh_tokens d)) as [t0|] eqn:E; [|done].
    destruct (List.find _ (users d)); [|done]. destruct (t_revoked t0); [done|].
    destruct (Qltb _ _); [done|]. destruct (negb _); [done|]. simplify_eq.
    apply List.find_some in E as [E _]. by apply list_elem_of_In. }
  assert (forall rid new d', (forall y, y ∈ refresh_tokens d' -> t_hash y <> sha256 new /\ t_id y <> rid) ->
    existsb (fun x => String.eqb (t_hash x) (sha256 new) || String.eqb (t_id x) rid)
      (refresh_tokens (rotate_revoke t now d')) = false) as Hno.
  { intros rid new d' Hd'. apply not_true_iff_false. intros (x & Hx & Hb)%existsb_exists.
    apply list_elem_of_In, list_elem_of_fmap in Hx as (y & -> & Hy). destruct (Hd' y Hy) as [N1 N2].
    apply orb_true_iff in Hb as [Hb|Hb]; apply String.eqb_eq in Hb; destruct (String.eqb (t_id y) (t_id t)); done. }
  unfold issue_refresh_token at 1. rewrite (Hno rid1 new1 d) by (intros y Hy; split; by apply Hfresh).
  set (x1 := TRow rid1 _ _ _ _ _ _ _).
  unfold issue_refresh_token. rewrite Hno.
  2: { simpl. intros y [(y' & -> & Hy)%list_elem_of_fmap|Hy%list_elem_of_singleton]%elem_of_app.
       - destruct (Hfresh y' Hy) as (_ & N2 & _ & N4). by destruct (String.eqb (t_id y') (t_id t)).
       - by subst y. }
  split; [done|]. split; [done|].
  exists x1, (TRow rid2 (user_id (_user_from_row u)) (sha256 new2) (Some (t_id t)) false None
                (now + inject_Z (auth_refresh_token_ttl_days cfg * 86400))%Q None).
  split_and!; try done; simpl; [|apply elem_of_app; right; by left].
  apply elem_of_app. left. apply list_elem_of_fmap. exists x1. split.
  - simpl. destruct (String.eqb_spec rid1 (t_id t)) as [->|]; [|done]. by destruct (Hfresh t Hin) as [? _].
  - apply elem_of_app. right. by left.
Qed.

(** ** The registration limit *)

Lemma run_op_reasons d o :
  Forall (fun a => a_reason a <> Some "registration") (login_attempts d) ->
  Forall (fun a => a_reason a <> Some "registration") (login_attempts (run_op d o)).
Proof.
  intros Hd. destruct o as [uuid salt un pw em dn ip now|ident pw ip salt now|rid raw u now|rid raw new now|raw|uid]; simpl; try done.
  - unfold register. repeat case_match; done.
  - unfold authenticate. repeat case_match; simpl; try done; apply Forall_app; split; try done;
      by repeat constructor; simplify_eq.
  - unfold issue_refresh_token. repeat case_match; done.
  - unfold rotate_refresh_token, rotate_check, issue_refresh_token. repeat case_match; simplify_eq/=; done.
Qed.

(** The registration limit never applies: it counts attempts whose
    reason is ['registration'], and no operation of the service ever writes
    such a row, so in every history from an empty database [register] is never
    refused with [RateLimited]. *)
Theorem registration_never_limited ops uuid salt un pw em dn ip now :
  0 < auth_register_per_hour_per_ip cfg ->
  (register uuid salt un pw em dn ip now (foldl run_op empty_db ops)).1 <> Err RateLimited.
Proof.
  intros Hpos. set (d := foldl run_op empty_db ops).
  assert (Forall (fun a => a_reason a <> Some "registration") (login_attempts d)) as Hd.
  { unfold d. apply (foldl_invariant run_op (fun d => Forall (fun a => a_reason a <> Some "registration") (login_attempts d)));
      [intros; by apply run_op_reasons|done]. }
  assert (forall a, _register_rate_limited now a d = false) as Hno.
  { intros a. unfold _register_rate_limited. apply Z.leb_gt.
    match goal with |- context [List.filter ?f ?l] => assert (List.filter f l = []) as -> end; [|done].
    induction Hd as [|r l Hr Hl IH]; simpl; [done|]. rewrite (bool_decide_false _ Hr), andb_false_r. done. }
  unfold register. destruct (_validate_password pw) as [|e] eqn:E.
  - destruct (truthy_ip ip) as [addr|]; rewrite ?Hno; repeat case_match; done.
  - unfold _validate_password in E. simpl. repeat case_match; by simplify_eq.
Qed.
End service.

(** ** Witnesses: the hash of a password is the salted password *)

#[export] Instance demo_hasher : PasswordHasher := {
  hash salt pw := salt +:+ pw;
  verify h pw := String.eqb h ("s" +:+ pw);
  check_needs_rehash _ := false }.

Definition demo_settings : auth_settings := {|
  auth_max_failed_logins := 2; auth_lockout_minutes := 15; auth_ip_login_per_minute := 20;
  auth_register_per_hour_per_ip := 10; auth_refresh_token_ttl_days := 14 |}.

Definition demo_user : user_row :=
  URow "u1" None "alice" "sPassword12" None "user" true 0 None None.
Definition demo_db : db := DB [demo_user] [TRow "r0" "u1" "tok0" None false None 100 None] [].

(** One wrong password, a second attempt from the same address, which is
    over its limit of attempts per minute, then the one that locks. *)
Definition demo_limits : auth_settings := {|
  auth_max_failed_logins := 2; auth_lockout_minutes := 15; auth_ip_login_per_minute := 1;
  auth_register_per_hour_per_ip := 10; auth_refresh_token_ttl_days := 14 |}.


Lemma token_reuse_detected_witness :
  let d1 := (rotate_refresh_token id demo_settings "r1" "tok0" "tok1" 1 demo_db).2 in
  (rotate_refresh_token id demo_settings "r2" "tok0" "tok2" 2 d1).1
  = Err (InvalidToken "refresh token reused").
Proof.
  intros d1.
  pose proof (token_reuse_detected id demo_settings "r1" "tok0" "tok1" 1 demo_db
                (_user_from_row demo_user) d1 "r2" "tok2" 2 ltac:(vm_compute; reflexivity)) as Hr.
  destruct (rotate_refresh_token id demo_settings "r2" "tok0" "tok2" 2 d1) as [r d2]. apply Hr.
Defined.

Lemma token_families_linear_witness :
  families_ok (foldl (run_op id demo_settings) empty_db
                 [Issue "r0" "tok0" (_user_from_row demo_user) 0; Logout "tok0"]).
Proof.
  apply (token_families_linear id demo_settings empty_db).
  - split; simpl; [constructor|constructor|]. intros x y Hx. by apply elem_of_nil in Hx.
  - split; [|split; [|exact I]].
    + intros rid _ y Hy. by apply elem_of_nil in Hy.
    + intros rid Hd. discriminate.
Defined.

Lemma rotation_race_witness :
  let t := TRow "r0" "u1" "tok0" None false None 100 None in
  let d1 := (issue_refresh_token id demo_settings "r1" "tok1" (_user_from_row demo_user) (Some "r0") 1
               (rotate_revoke t 1 demo_db)).2 in
  (issue_refresh_token id demo_settings "r2" "tok2" (_user_from_row demo_user) (Some "r0") 1
     (rotate_revoke t 1 d1)).1 = Ok "tok2".
Proof.
  intros t d1.
  pose proof (rotation_race id demo_settings "tok0" 1 demo_db t demo_user "r1" "tok1" "r2" "tok2"
                ltac:(vm_compute; reflexivity)) as Hr.
  cbv zeta in Hr. destruct Hr as (_ & Hr & _).
  - intros y Hy. apply list_elem_of_singleton in Hy. subst y. repeat split; discriminate.
  - discriminate.
  - discriminate.
  - exact Hr.
Defined.

Lemma registration_never_limited_witness :
  (register demo_settings "u1" "s" "alice" "Password12" None None (Some "1.2.3.4") 0
     (foldl (run_op id demo_settings) empty_db
        [Register "u0" "s" "bob" "Password12" None None (Some "1.2.3.4") 0])).1 <> Err RateLimited.
Proof. apply (registration_never_limited id demo_settings). reflexivity. Defined.
