(* ===== verification/PyVal.v ===== *)
(** * Python values

    The dynamically typed values the sources pass around: JSON decoded from a
    model's reply, fields of MongoDB documents, request bodies.  A [dict] with
    string keys keeps its insertion order, a [datetime] is its POSIX time.
    [str], [bool], [int] and iteration are the language's. *)

From S2P Require Import Prelude PyStr.
From Stdlib Require Import Ascii.

Unset Elimination Schemes.
Inductive pyval :=
| PNone
| PBool (b : bool)
| PInt (z : Z)
| PFloat (q : Q)
| PStr (s : string)
| PTime (t : Q)
| PList (l : list pyval)
| PDict (d : list (string * pyval)).
Set Elimination Schemes.

#[export] Instance Q_eq_decision : EqDecision Q.
Proof. solve_decision. Defined.

#[export] Instance pyval_eq_dec : EqDecision pyval.
Proof.
  refine (fix go (x y : pyval) : Decision (x = y) :=
    match x, y with
    | PNone, PNone => left eq_refl
    | PBool a, PBool b => cast_if (decide (a = b))
    | PInt a, PInt b => cast_if (decide (a = b))
    | PFloat a, PFloat b => cast_if (decide (a = b))
    | PStr a, PStr b => cast_if (decide (a = b))
    | PTime a, PTime b => cast_if (decide (a = b))
    | PList a, PList b => cast_if (@list_eq_dec _ go a b)
    | PDict a, PDict b => cast_if (@list_eq_dec _ (@prod_eq_dec _ _ _ go) a b)
    | _, _ => right _
    end); congruence.
Defined.

(** [bool(v)] *)
Definition truthy (v : pyval) : bool :=
  match v with
  | PNone => false
  | PBool b => b
  | PInt z => negb (z =? 0)
  | PFloat q => negb (Qeq_bool q 0)
  | PStr s => negb (String.eqb s "")
  | PTime _ => true
  | PList l => match l with [] => false | _ => true end
  | PDict d => match d with [] => false | _ => true end
  end.

(** Truth of an [Optional[str]] argument: [None] and the empty string are
    false. *)
Definition truthy_str (o : option string) : bool :=
  match o with Some s => negb (String.eqb s "") | None => false end.

(** [None] or a string, as a field value *)
Definition opt_str (o : option string) : pyval :=
  match o with Some s => PStr s | None => PNone end.

Lemma truthy_str_Some o : truthy_str o = true -> exists s, o = Some s /\ s <> "".
Proof.
  destruct o as [s|]; simpl; [|done]. intros H%negb_true_iff. exists s.
  split; [done|]. by intros ->.
Qed.
