(* ===== verification/Mongo.v ===== *)
(** * The MongoDB server

    The store sends its commands through the motor client.  They are a
    typeclass, [Mongo]; [MongoLaws] states what the MongoDB documentation says
    of them against a reference [database]: collections of documents, unique
    [_id]s and the unique sparse indexes that were created.

    A command may raise.  A write to one document that raised was applied or
    was not (its acknowledgement may be lost), never halfway; a write to many
    documents that raised may have reached some of them.  Documents travel as
    BSON, whose dates keep milliseconds: [bson] is what the server stores of a
    value.  (The queries of this program compare strings and booleans, which
    travel unchanged.)  [healthy] says that the
    server answers: then reads succeed, and so do the writes that no unique
    index forbids.  [mongod] is an instance that fails as its list of faults
    says, so every theorem about a client can be evaluated. *)

From S2P Require Import Prelude PyStr PyVal.

Abbreviation document := (gmap string pyval).

(** [d.get(k)] *)
Definition get (k : string) (d : document) : pyval := default PNone (d !! k).

(** ** BSON *)

(** A date to the millisecond, rounded down as the driver does. *)
Definition ms (t : Q) : Q := Qred (Qfloor (t * 1000) # 1000).

Fixpoint bson (v : pyval) : pyval :=
  match v with
  | PTime t => PTime (ms t)
  | PList l => PList (map bson l)
  | PDict d => PDict (map (fun kv => (kv.1, bson kv.2)) d)
  | _ => v
  end.
Definition bson_doc (d : document) : document := bson <$> d.

(** ** Queries and orders *)

(** [{k: v}], [{k: {"$ne": v}}] and [{k: {"$in": vs}}]: a missing field is
    equal to [None]. *)
Inductive cond := CEq (v : pyval) | CNe (v : pyval) | CIn (vs : list pyval).
Abbreviation query := (list (string * cond)).

Definition holds (c : cond) (v : pyval) : bool :=
  match c with
  | CEq w => bool_decide (v = w)
  | CNe w => bool_decide (v <> w)
  | CIn ws => bool_decide (v ∈ ws)
  end.
Definition matches (q : query) (d : document) : bool :=
  forallb (fun kc => holds kc.2 (get kc.1 d)) q.
#[global] Arguments matches : simpl never.

(** BSON order: by type, then by value.  Arrays and documents are never
    sorted on. *)
Definition bson_rank (v : pyval) : Z :=
  match v with
  | PNone => 1 | PInt _ | PFloat _ => 2 | PStr _ => 3 | PDict _ => 4 | PList _ => 5
  | PBool _ => 8 | PTime _ => 9
  end.
Definition num_of (v : pyval) : Q :=
  match v with PInt z => inject_Z z | PFloat q | PTime q => q | PBool true => 1 | _ => 0 end%Q.
Definition bson_le (v w : pyval) : bool :=
  if bson_rank v <? bson_rank w then true
  else if bson_rank w <? bson_rank v then false
  else match v, w with
       | PStr s, PStr t => bool_decide (String.le s t)
       | _, _ => Qle_bool (num_of v) (num_of w)
       end.

(** [sort([(k, 1), (k', -1), ...])]: lexicographic, [true] for descending. *)
Fixpoint sort_le (ks : list (string * bool)) (d e : document) : bool :=
  match ks with
  | [] => true
  | (k, desc) :: ks' =>
      let v := if desc then get k e else get k d in
      let w := if desc then get k d else get k e in
      bson_le v w && (negb (bson_le w v) || sort_le ks' d e)
  end.

(** ** The reference database *)

Record database := DB {
  colls : gmap string (list document);
  uniq : list (string * string) }.
Definition db_empty : database := DB ∅ [].

Definition coll (c : string) (db : database) : list document := default [] (colls db !! c).
Definition put_coll (c : string) (l : list document) (db : database) : database :=
  DB (<[c := l]> (colls db)) (uniq db).

(** The fields of a collection no two documents may share. *)
Definition unique_fields (c : string) (db : database) : list string :=
  "_id" :: map snd (List.filter (fun cf => String.eqb cf.1 c) (uniq db)).
Definition same_key (d e : document) (f : string) : bool :=
  match d !! f, e !! f with Some v, Some w => bool_decide (v = w) | _, _ => false end.
Definition clash (fs : list string) (d e : document) : bool := existsb (same_key d e) fs.

Fixpoint no_clash (fs : list string) (l : list document) : bool :=
  match l with
  | [] => true
  | d :: l' => forallb (fun e => negb (clash fs d e)) l' && no_clash fs l'
  end.

Definition db_create_index (c : string) (keys : list (string * Z)) (unique : bool) (db : database)
  : option (unit * database) :=
  match keys, unique with
  | [(f, _)], true =>
      if no_clash [f] (coll c db)
      then Some ((), DB (colls db) (uniq db ++ [(c, f)])) else None
  | _, _ => Some ((), db)
  end.

Definition db_insert (c : string) (d : document) (db : database) : option (unit * database) :=
  if forallb (fun e => negb (clash (unique_fields c db) d e)) (coll c db)
  then Some ((), put_coll c (coll c db ++ [d]) db) else None.

(** [find_one_and_update(q, {"$setOnInsert": d}, upsert=True)], returning the
    document after the update. *)
Definition db_upsert (c : string) (q : query) (d : document) (db : database)
  : option (document * database) :=
  match List.find (matches q) (coll c db) with
  | Some e => Some (e, db)
  | None => match db_insert c d db with Some (_, db') => Some (d, db') | None => None end
  end.

(** [$set]: the named fields replace the document's.  The [_id] of a document
    cannot change. *)
Definition set_fields (s d : document) : document := s ∪ d.
Definition set_allowed (s d : document) : bool :=
  match s !! "_id" with Some v => bool_decide (get "_id" d = v) | None => true end.

Fixpoint update_first (q : query) (s : document) (l : list document) : list document :=
  match l with
  | [] => []
  | d :: l' => if matches q d then set_fields s d :: l' else d :: update_first q s l'
  end.
Definition update_all (p : document -> bool) (s : document) (l : list document) : list document :=
  map (fun d => if p d then set_fields s d else d) l.
Definition changed (s d : document) : bool := bool_decide (set_fields s d <> d).

Definition db_update_one (c : string) (q : query) (s : document) (db : database)
  : option (Z * database) :=
  match List.find (matches q) (coll c db) with
  | None => Some (0, db)
  | Some d =>
      let l := update_first q s (coll c db) in
      if set_allowed s d && no_clash (unique_fields c db) l
      then Some (if changed s d then 1 else 0, put_coll c l db) else None
  end.

(** The documents [p] selects *)
Definition db_update_some (c : string) (s : document) (p : document -> bool) (db : database)
  : option (Z * database) :=
  let hit := List.filter p (coll c db) in
  let l := update_all p s (coll c db) in
  if forallb (set_allowed s) hit && no_clash (unique_fields c db) l
  then Some (zlength (List.filter (changed s) hit), put_coll c l db) else None.

Fixpoint delete_first (q : query) (l : list document) : list document :=
  match l with
  | [] => []
  | d :: l' => if matches q d then l' else d :: delete_first q l'
  end.
Definition db_delete_one (c : string) (q : query) (db : database) : option (unit * database) :=
  Some ((), put_coll c (delete_first q (coll c db)) db).
Definition db_delete_some (c : string) (p : document -> bool) (db : database) : option (unit * database) :=
  Some ((), put_coll c (List.filter (fun d => negb (p d)) (coll c db)) db).

(** What a query may return: the documents that match, in an order that
    respects the sort; between equal documents the server is free. *)
Definition ranking (c : string) (q : query) (ks : list (string * bool)) (db : database)
  (l : list document) : Prop :=
  l ≡ₚ List.filter (matches q) (coll c db) /\ StronglySorted (fun d e => sort_le ks d e = true) l.

Definition window (skip : Z) (limit : option Z) (l : list document) : list document :=
  let l := drop (Z.to_nat skip) l in
  match limit with Some n => take (Z.to_nat n) l | None => l end.

(** ** The client *)

Class Mongo (M : Type) := {
  ping : M -> result pyexn unit * M;
  create_index : string -> list (string * Z) -> bool -> M -> result pyexn unit * M;
  find_one : string -> query -> list (string * bool) -> M -> result pyexn (option document) * M;
  find : string -> query -> list (string * bool) -> Z -> option Z -> M ->
         result pyexn (list document) * M;
  insert_one : string -> document -> M -> result pyexn unit * M;
  upsert : string -> query -> document -> M -> result pyexn document * M;
  update_one : string -> query -> document -> M -> result pyexn Z * M;
  update_many : string -> query -> document -> M -> result pyexn Z * M;
  delete_one : string -> query -> M -> result pyexn unit * M;
  delete_many : string -> query -> M -> result pyexn unit * M }.

Section laws.
Context {M A : Type} (mview : M -> database) (healthy : M -> Prop).

Definition read_law (f : M -> result pyexn A * M) (P : A -> database -> Prop) : Prop :=
  forall m, mview (f m).2 = mview m /\
    (forall a, (f m).1 = Ok a -> P a (mview m)) /\
    (healthy m -> healthy (f m).2 /\ is_ok (f m).1 = true).

Definition write_law (f : M -> result pyexn A * M) (sem : database -> option (A * database)) : Prop :=
  forall m,
    match (f m).1 with
    | Ok a => sem (mview m) = Some (a, mview (f m).2)
    | Err _ => mview (f m).2 = mview m \/ exists a, sem (mview m) = Some (a, mview (f m).2)
    end /\
    (healthy m -> healthy (f m).2 /\ (is_Some (sem (mview m)) -> is_ok (f m).1 = true)).

(** A write to all documents that match a query: each document is written or
    not, and a command that raised may have written any part of them. *)
Definition many_law (f : M -> result pyexn A * M) (q : query)
  (sem : (document -> bool) -> database -> option (A * database)) : Prop :=
  forall m,
    match (f m).1 with
    | Ok a => sem (matches q) (mview m) = Some (a, mview (f m).2)
    | Err _ => mview (f m).2 = mview m \/
        exists p a, (forall d, p d = true -> matches q d = true) /\ sem p (mview m) = Some (a, mview (f m).2)
    end /\
    (healthy m -> healthy (f m).2 /\ (is_Some (sem (matches q) (mview m)) -> is_ok (f m).1 = true)).
End laws.

Class MongoLaws (M : Type) `{Mongo M} := {
  mview : M -> database;
  healthy : M -> Prop;
  law_ping : read_law mview healthy ping (fun _ _ => True);
  law_create_index c ks u : write_law mview healthy (create_index c ks u) (db_create_index c ks u);
  law_find_one c q ks : read_law mview healthy (find_one c q ks)
    (fun o db => exists l, ranking c q ks db l /\ o = head l);
  law_find c q ks skip limit : read_law mview healthy (find c q ks skip limit)
    (fun o db => exists l, ranking c q ks db l /\ o = window skip limit l);
  law_insert_one c d : write_law mview healthy (insert_one c d) (db_insert c (bson_doc d));
  law_upsert c q d : write_law mview healthy (upsert c q d) (db_upsert c q (bson_doc d));
  law_update_one c q s : write_law mview healthy (update_one c q s) (db_update_one c q (bson_doc s));
  law_update_many c q s : many_law mview healthy (update_many c q s) q (db_update_some c (bson_doc s));
  law_delete_one c q : write_law mview healthy (delete_one c q) (db_delete_one c q);
  law_delete_many c q : many_law mview healthy (delete_many c q) q (db_delete_some c) }.

(** ** The order of a sort is a total preorder *)

Lemma bson_le_total v w : bson_le v w = true \/ bson_le w v = true.
Proof.
  unfold bson_le. destruct (Z.ltb_spec (bson_rank v) (bson_rank w)); [by left|].
  destruct (Z.ltb_spec (bson_rank w) (bson_rank v)); [by right|].
  destruct v, w; simpl in *; try lia;
    rewrite ?bool_decide_eq_true; try (apply (total String.le)); qcases; try (by left); right; done || lra.
Qed.

Lemma bson_le_trans u v w : bson_le u v = true -> bson_le v w = true -> bson_le u w = true.
Proof.
  unfold bson_le.
  destruct (Z.ltb_spec (bson_rank u) (bson_rank v)), (Z.ltb_spec (bson_rank v) (bson_rank u)),
    (Z.ltb_spec (bson_rank v) (bson_rank w)), (Z.ltb_spec (bson_rank w) (bson_rank v)),
    (Z.ltb_spec (bson_rank u) (bson_rank w)), (Z.ltb_spec (bson_rank w) (bson_rank u)); try done; try lia.
  destruct u, v, w; simpl in *; try lia;
    rewrite ?bool_decide_eq_true, ?Qle_bool_iff; intros; try lra; by etrans.
Qed.

Lemma sort_le_total ks d e : sort_le ks d e = true \/ sort_le ks e d = true.
Proof.
  revert d e. induction ks as [|[k desc] ks IH]; intros d e; simpl; [by left|].
  destruct (IH d e) as [H|H]; destruct desc;
    destruct (bson_le (get k d) (get k e)) eqn:E1, (bson_le (get k e) (get k d)) eqn:E2;
    simpl; rewrite ?H; auto;
    destruct (bson_le_total (get k d) (get k e)); congruence.
Qed.

Lemma sort_le_trans ks d e f :
  sort_le ks d e = true -> sort_le ks e f = true -> sort_le ks d f = true.
Proof.
  induction ks as [|[k desc] ks IH]; simpl; [done|].
  rewrite !andb_true_iff, !orb_true_iff, !negb_true_iff. intros [A1 A2] [B1 B2].
  assert (bson_le (if desc then get k f else get k d) (if desc then get k d else get k f) = true) as C.
  { destruct desc; by eapply bson_le_trans. }
  split; [done|].
  destruct (bson_le (if desc then get k d else get k f) (if desc then get k f else get k d)) eqn:D; [|by left].
  right. apply IH.
  - destruct A2 as [A2|]; [|done]. exfalso. revert A2. destruct desc; intros A2;
      [rewrite (bson_le_trans _ (get k f) _) in A2 by done|rewrite (bson_le_trans _ (get k f) _) in A2 by done]; done.
  - destruct B2 as [B2|]; [|done]. exfalso. revert B2. destruct desc; intros B2;
      [rewrite (bson_le_trans _ (get k d) _) in B2 by done|rewrite (bson_le_trans _ (get k d) _) in B2 by done]; done.
Qed.

(** ** A server *)

(** One entry per command: [Some (applied, e)] loses the command or its
    acknowledgement, with the error the client sees. *)
Record mongod := Mongod { data : database; faults : list (option (bool * pyexn)) }.

Definition DuplicateKeyError : pyexn :=
  PyExn "DuplicateKeyError" "E11000 duplicate key error".

Definition serve_read {A} (f : database -> A) (m : mongod) : result pyexn A * mongod :=
  match faults m with
  | Some (_, e) :: fs => (Err e, Mongod (data m) fs)
  | fs => (Ok (f (data m)), Mongod (data m) (tail fs))
  end.
Definition serve_write {A} (sem : database -> option (A * database)) (m : mongod)
  : result pyexn A * mongod :=
  match faults m with
  | Some (applied, e) :: fs =>
      let db := match sem (data m) with Some (_, db) => if (applied : bool) then db else data m | None => data m end in
      (Err e, Mongod db fs)
  | fs => match sem (data m) with
          | Some (a, db) => (Ok a, Mongod db (tail fs))
          | None => (Err DuplicateKeyError, Mongod (data m) (tail fs))
          end
  end.

(** A command for many documents that is hit by a fault with the flag up has
    reached the first document that matches and no other. *)
Definition first_only (q : query) (l : list document) (d : document) : bool :=
  matches q d && match List.find (matches q) l with Some e => bool_decide (d = e) | None => false end.
Definition serve_many {A} (c : string) (q : query) (sem : (document -> bool) -> database -> option (A * database))
  (m : mongod) : result pyexn A * mongod :=
  match faults m with
  | Some (applied, e) :: fs =>
      let db := match sem (first_only q (coll c (data m))) (data m) with
                | Some (_, db) => if (applied : bool) then db else data m
                | None => data m
                end in
      (Err e, Mongod db fs)
  | fs => match sem (matches q) (data m) with
          | Some (a, db) => (Ok a, Mongod db (tail fs))
          | None => (Err DuplicateKeyError, Mongod (data m) (tail fs))
          end
  end.

#[local] Instance sort_le_dec ks d e : Decision (sort_le ks d e = true) := decide (sort_le ks d e = true).
Definition sorted_docs (c : string) (q : query) (ks : list (string * bool)) (db : database) : list document :=
  merge_sort (fun d e => sort_le ks d e = true) (List.filter (matches q) (coll c db)).

#[export] Instance mongod_mongo : Mongo mongod := {
  ping := serve_read (fun _ => ());
  create_index c ks u := serve_write (db_create_index c ks u);
  find_one c q ks := serve_read (fun db => head (sorted_docs c q ks db));
  find c q ks skip limit := serve_read (fun db => window skip limit (sorted_docs c q ks db));
  insert_one c d := serve_write (db_insert c (bson_doc d));
  upsert c q d := serve_write (db_upsert c q (bson_doc d));
  update_one c q s := serve_write (db_update_one c q (bson_doc s));
  update_many c q s := serve_many c q (db_update_some c (bson_doc s));
  delete_one c q := serve_write (db_delete_one c q);
  delete_many c q := serve_many c q (db_delete_some c) }.

Lemma ranking_sorted_docs c q ks db : ranking c q ks db (sorted_docs c q ks db).
Proof.
  split; [apply merge_sort_Permutation|]. apply Sorted_StronglySorted.
  - intros d e f. apply sort_le_trans.
  - apply Sorted_merge_sort. intros d e. apply sort_le_total.
Qed.

Definition no_faults (m : mongod) : Prop := Forall (fun o => o = None) (faults m).

Lemma serve_read_law {A} (f : database -> A) P :
  (forall db, P (f db) db) -> read_law data no_faults (serve_read f) P.
Proof.
  intros HP [db fs]. unfold serve_read, no_faults. simpl.
  destruct fs as [|[[b e]|] fs]; simpl; (split; [done|split]); intros; simplify_eq; auto.
  - by apply Forall_cons in H as [? _].
  - apply Forall_cons in H as [_ ?]. auto.
Qed.

Lemma serve_write_law {A} (sem : database -> option (A * database)) :
  write_law data no_faults (serve_write sem) sem.
Proof.
  intros [db fs]. unfold serve_write, no_faults. simpl.
  destruct fs as [|[[b e]|] fs]; destruct (sem db) as [[a db']|] eqn:E; simpl; (split; [|intros H]);
    try apply Forall_cons in H as [? H]; eauto; try done; try (split; [done|]; by intros []).
  destruct b; eauto.
Qed.

Lemma serve_many_law {A} c q (sem : (document -> bool) -> database -> option (A * database)) :
  many_law data no_faults (serve_many c q sem) q sem.
Proof.
  intros [db fs]. unfold serve_many, no_faults. simpl.
  assert (forall d, first_only q (coll c db) d = true -> matches q d = true) as Hp
    by (intros d [? _]%andb_true_iff; done).
  destruct fs as [|[[b e]|] fs].
  - destruct (sem (matches q) db) as [[a db']|] eqn:E; simpl; (split; [auto|intros H]); 
      (done || (split; [done|by intros []])).
  - simpl. split; [|by intros [? _]%Forall_cons].
    destruct (sem (first_only q (coll c db)) db) as [[a db']|] eqn:E; [|by left].
    destruct b; [|by left]. right. eauto.
  - destruct (sem (matches q) db) as [[a db']|] eqn:E; simpl; (split; [auto|intros [_ H]%Forall_cons]); 
      (done || (split; [done|by intros []])).
Qed.

#[export] Instance mongod_laws : MongoLaws mongod.
Proof.
  exists data no_faults; intros;
    first [apply serve_write_law | apply serve_many_law | apply serve_read_law; intros db; try done];
    eexists; (split; [apply ranking_sorted_docs|done]).
Defined.

(** ** Facts about the reference database *)

Lemma coll_put c l c' db : coll c' (put_coll c l db) = if decide (c = c') then l else coll c' db.
Proof.
  unfold coll, put_coll. simpl. destruct (decide (c = c')) as [<-|];
    by rewrite ?lookup_insert_eq, ?lookup_insert_ne.
Qed.

Lemma get_insert_eq k v (d : document) : get k (<[k := v]> d) = v.
Proof. unfold get. by rewrite lookup_insert_eq. Qed.
Lemma get_insert_ne k k' v (d : document) : k <> k' -> get k' (<[k := v]> d) = get k' d.
Proof. intros. unfold get. by rewrite lookup_insert_ne. Qed.

Lemma get_set_fields k (s d : document) :
  get k (set_fields s d) = match s !! k with Some v => v | None => get k d end.
Proof. unfold get, set_fields. rewrite lookup_union. by destruct (s !! k), (d !! k). Qed.

Lemma matches_by_eq k v d : matches [(k, CEq v)] d = true <-> get k d = v.
Proof. unfold matches. simpl. by rewrite andb_true_r, bool_decide_eq_true. Qed.

Lemma lookup_bson k d : bson_doc d !! k = bson <$> d !! k.
Proof. apply lookup_fmap. Qed.
Lemma get_bson k d : get k (bson_doc d) = bson (get k d).
Proof. unfold get. rewrite lookup_bson. by destruct (d !! k). Qed.
Lemma get_bson_str k d i : get k d = PStr i -> get k (bson_doc d) = PStr i.
Proof. rewrite get_bson. by intros ->. Qed.

(** A stored time is the time sent, rounded down to the millisecond. *)
Lemma ms_bounds t : (ms t <= t < ms t + (1 # 1000))%Q.
Proof.
  unfold ms. rewrite Qred_correct. pose proof (Qfloor_le (t * 1000)) as H1. pose proof (Qlt_floor (t * 1000)) as H2.
  rewrite inject_Z_plus in H2. rewrite Qmake_Qdiv. unfold Qdiv. change (/ inject_Z (Z.pos 1000))%Q with (1 # 1000).
  change (inject_Z 1) with 1%Q in H2. lra.
Qed.

(** The documents of a collection after each command. *)
Lemma elem_of_insert c d db u db' c' e :
  db_insert c d db = Some (u, db') ->
  e ∈ coll c' db' <-> e ∈ coll c' db \/ (c = c' /\ e = d).
Proof.
  unfold db_insert. destruct (forallb _ _); [|done]. intros [= _ <-]. rewrite coll_put.
  destruct (decide (c = c')) as [<-|]; [rewrite elem_of_app, list_elem_of_singleton|]; naive_solver.
Qed.

Lemma elem_of_update_first q s l e :
  e ∈ update_first q s l ->
  e ∈ l \/ exists d, d ∈ l /\ matches q d = true /\ e = set_fields s d.
Proof.
  induction l as [|d l IH]; simpl; [by left|]. destruct (matches q d) eqn:E; rewrite !elem_of_cons.
  - intros [->|He]; [right; exists d; split; [by left|done]|auto].
  - intros [->|He]; [auto|]. destruct (IH He) as [?|(x & ? & ?)]; [auto|right; exists x; set_solver].
Qed.

Lemma update_first_keeps q s l d : d ∈ l -> matches q d = false -> d ∈ update_first q s l.
Proof.
  induction l as [|x l IH]; simpl; [done|]. rewrite elem_of_cons. intros [<-|Hd] E.
  - rewrite E. by left.
  - destruct (matches q x); [by right|right; auto].
Qed.

Lemma elem_of_update_all p s l e :
  e ∈ update_all p s l <->
  exists d, d ∈ l /\ e = (if p d then set_fields s d else d).
Proof. unfold update_all. rewrite list_elem_of_fmap. naive_solver. Qed.

Lemma elem_of_delete_first q l e : e ∈ delete_first q l -> e ∈ l.
Proof.
  induction l as [|x l IH]; simpl; [done|]. destruct (matches q x); rewrite ?elem_of_cons; naive_solver.
Qed.
Lemma delete_first_keeps q l d : d ∈ l -> matches q d = false -> d ∈ delete_first q l.
Proof.
  induction l as [|x l IH]; simpl; [done|]. rewrite elem_of_cons. intros [<-|Hd] E.
  - rewrite E. by left.
  - destruct (matches q x); [done|right; auto].
Qed.

Lemma elem_of_List_filter {A} (p : A -> bool) l x : x ∈ List.filter p l <-> x ∈ l /\ p x = true.
Proof. rewrite !list_elem_of_In. apply List.filter_In. Qed.

Lemma find_elem {A} (p : A -> bool) l x : List.find p l = Some x -> x ∈ l /\ p x = true.
Proof. intros H%List.find_some. by rewrite list_elem_of_In. Qed.
Lemma find_none_elem {A} (p : A -> bool) l x : List.find p l = None -> x ∈ l -> p x = false.
Proof. rewrite list_elem_of_In. intros H. by apply List.find_none. Qed.

Lemma coll_delete_some c p db u db' c' : db_delete_some c p db = Some (u, db') ->
  coll c' db' = if decide (c = c') then List.filter (fun d => negb (p d)) (coll c db) else coll c' db.
Proof.
  unfold db_delete_some. set (l := List.filter _ _). intros [= _ <-]. by rewrite coll_put.
Qed.

(** ** Unique keys *)

Lemma clash_false fs d e :
  clash fs d e = false <-> forall f v, f ∈ fs -> d !! f = Some v -> e !! f = Some v -> False.
Proof.
  unfold clash. rewrite <- not_true_iff_false, existsb_exists. split.
  - intros Hn f v Hf Hd He. apply Hn. exists f. rewrite <- list_elem_of_In. split; [done|].
    unfold same_key. rewrite Hd, He. by apply bool_decide_eq_true.
  - intros Hn (f & Hf & Hs). rewrite <- list_elem_of_In in Hf. unfold same_key in Hs.
    destruct (d !! f) as [v|] eqn:Ed, (e !! f) as [w|] eqn:Ee; try done.
    apply bool_decide_eq_true in Hs. subst. by eapply Hn.
Qed.

Lemma no_clash_inj fs l f v d e :
  no_clash fs l = true -> f ∈ fs -> d ∈ l -> e ∈ l -> d !! f = Some v -> e !! f = Some v -> d = e.
Proof.
  intros Hl Hf. induction l as [|x l IH]; simpl in *; [by intros ?%elem_of_nil|].
  apply andb_true_iff in Hl as [Hx Hl]. rewrite forallb_forall in Hx.
  assert (forall y, y ∈ l -> x !! f = Some v -> y !! f = Some v -> False) as Hxy.
  { intros y Hy%list_elem_of_In. specialize (Hx y Hy). apply negb_true_iff in Hx.
    rewrite clash_false in Hx. eauto. }
  rewrite !elem_of_cons. intros [->|Hd] [->|He] ??; [done|exfalso; eauto..|auto].
Qed.

Lemma no_clash_app fs l d :
  no_clash fs (l ++ [d]) = no_clash fs l && forallb (fun e => negb (clash fs e d)) l.
Proof.
  induction l as [|x l IH]; simpl; [done|]. rewrite IH, forallb_app. simpl.
  by destruct (forallb (fun e => negb (clash fs x e)) l), (no_clash fs l), (clash fs x d).
Qed.

Lemma clash_sym fs d e : clash fs d e = clash fs e d.
Proof.
  unfold clash. induction fs as [|f fs IH]; simpl; [done|]. rewrite IH. f_equal. unfold same_key.
  destruct (d !! f), (e !! f); try done. by apply bool_decide_ext.
Qed.

(** Every collection respects its unique fields. *)
Definition keys_unique (db : database) : Prop :=
  forall c, no_clash (unique_fields c db) (coll c db) = true.

Lemma id_unique db c d e v : keys_unique db -> d ∈ coll c db -> e ∈ coll c db ->
  d !! "_id" = Some v -> e !! "_id" = Some v -> d = e.
Proof. intros Hu ??. eapply (no_clash_inj _ _ "_id"); [apply Hu|by left|done|done]. Qed.

Lemma by_id_unique db c d e i : keys_unique db -> d ∈ coll c db -> e ∈ coll c db ->
  get "_id" d = PStr i -> get "_id" e = PStr i -> d = e.
Proof.
  unfold get. intros Hu Hd He. destruct (d !! "_id") as [v|] eqn:Ed, (e !! "_id") as [w|] eqn:Ee; try done.
  simpl. intros -> ->. by eapply id_unique.
Qed.

Lemma no_clash_sub fs fs' l l' :
  fs' ⊆ fs -> sublist l' l -> no_clash fs l = true -> no_clash fs' l' = true.
Proof.
  intros Hfs Hl. induction Hl as [|x l' l Hl IH|x l' l Hl IH]; simpl; [done|..];
    intros [Hx Hn]%andb_true_iff; [|by apply IH].
  apply andb_true_iff. split; [|by apply IH].
  apply forallb_forall. intros y Hy. rewrite forallb_forall in Hx. apply negb_true_iff, clash_false.
  intros f v Hf ??. assert (y ∈ l) as Hyl.
  { eapply sublist_subseteq; [done|]. by apply list_elem_of_In. }
  specialize (Hx y (proj1 (list_elem_of_In _ _) Hyl)). apply negb_true_iff in Hx.
  rewrite clash_false in Hx. eauto.
Qed.

Lemma delete_first_sublist q l : sublist (delete_first q l) l.
Proof. induction l as [|x l IH]; simpl; [done|]. destruct (matches q x); by constructor. Qed.
Lemma List_filter_sublist {A} (p : A -> bool) l : sublist (List.filter p l) l.
Proof. induction l as [|x l IH]; simpl; [done|]. destruct (p x); by constructor. Qed.

Lemma keys_unique_put c l db :
  keys_unique db -> no_clash (unique_fields c db) l = true -> keys_unique (put_coll c l db).
Proof.
  intros Hu Hl c'. rewrite coll_put. change (unique_fields c' (put_coll c l db)) with (unique_fields c' db).
  destruct (decide (c = c')) as [<-|]; [done|apply Hu].
Qed.

Lemma unique_insert c d db u db' :
  db_insert c d db = Some (u, db') -> keys_unique db -> keys_unique db'.
Proof.
  unfold db_insert. destruct (forallb _ _) eqn:E; [|done]. intros [= _ <-] Hu.
  apply keys_unique_put; [done|]. rewrite no_clash_app, Hu. cbn [andb].
  apply forallb_forall. intros e He. rewrite forallb_forall in E. rewrite clash_sym. by apply E.
Qed.

Lemma unique_upsert c q d db a db' :
  db_upsert c q d db = Some (a, db') -> keys_unique db -> keys_unique db'.
Proof.
  unfold db_upsert. destruct (List.find _ _); [by intros [= _ <-]|].
  destruct (db_insert c d db) as [[u db1]|] eqn:E; [|done]. intros [= _ <-]. by eapply unique_insert.
Qed.

Lemma unique_update_one c q s db n db' :
  db_update_one c q s db = Some (n, db') -> keys_unique db -> keys_unique db'.
Proof.
  unfold db_update_one. destruct (List.find _ _); [|by intros [= _ <-]].
  destruct (_ && _) eqn:E; [|done]. intros [= _ <-] Hu. apply andb_true_iff in E as [_ E].
  by apply keys_unique_put.
Qed.

Lemma unique_update_some c s p db n db' :
  db_update_some c s p db = Some (n, db') -> keys_unique db -> keys_unique db'.
Proof.
  unfold db_update_some. destruct (_ && _) eqn:E; [|done]. intros [= _ <-] Hu.
  apply andb_true_iff in E as [_ E]. by apply keys_unique_put.
Qed.

Lemma unique_delete_one c q db u db' :
  db_delete_one c q db = Some (u, db') -> keys_unique db -> keys_unique db'.
Proof.
  intros [= _ <-] Hu. apply keys_unique_put; [done|].
  eapply no_clash_sub; [done|apply delete_first_sublist|apply Hu].
Qed.

Lemma unique_delete_some c p db u db' :
  db_delete_some c p db = Some (u, db') -> keys_unique db -> keys_unique db'.
Proof.
  intros [= _ <-] Hu. apply keys_unique_put; [done|].
  eapply no_clash_sub; [done|apply List_filter_sublist|apply Hu].
Qed.

Lemma no_clash_cons_field f fs l :
  no_clash [f] l = true -> no_clash fs l = true -> no_clash (fs ++ [f]) l = true.
Proof.
  induction l as [|x l IH]; simpl; [done|]. intros [H1 H2]%andb_true_iff [H3 H4]%andb_true_iff.
  rewrite IH by done. rewrite andb_true_r. apply forallb_forall. intros y Hy.
  rewrite forallb_forall in H1, H3. specialize (H1 y Hy). specialize (H3 y Hy).
  apply negb_true_iff in H1, H3. apply negb_true_iff. unfold clash in *.
  rewrite existsb_app, H3. exact H1.
Qed.

Lemma unique_create_index c ks u db x db' :
  db_create_index c ks u db = Some (x, db') -> keys_unique db -> keys_unique db'.
Proof.
  unfold db_create_index. destruct ks as [|[f z] [|? ?]]; [by intros [= _ <-]| |by intros [= _ <-]].
  destruct u; [|by intros [= _ <-]]. destruct (no_clash [f] _) eqn:E; [|done]. intros [= _ <-] Hu c'.
  change (coll c' (DB (colls db) (uniq db ++ [(c, f)]))) with (coll c' db).
  unfold unique_fields. simpl. rewrite List.filter_app, map_app. simpl.
  destruct (String.eqb_spec c c') as [<-|]; simpl; rewrite ?app_nil_r; [|apply Hu].
  apply (no_clash_cons_field f (unique_fields c db)); [done|apply Hu].
Qed.

Lemma coll_create_index c ks u db x db' c' :
  db_create_index c ks u db = Some (x, db') -> coll c' db' = coll c' db.
Proof.
  unfold db_create_index. destruct ks as [|[f z] [|? ?]], u; try (by intros [= _ <-]).
  destruct (no_clash _ _); [|done]. by intros [= _ <-].
Qed.

Create HintDb mongo.
#[export] Hint Resolve unique_insert unique_upsert unique_update_one unique_update_some
  unique_delete_one unique_delete_some unique_create_index : mongo.

Lemma StronglySorted_impl {A} (R S : A -> A -> Prop) (l : list A) :
  (forall x y, R x y -> S x y) -> StronglySorted R l -> StronglySorted S l.
Proof. intros H Hl. induction Hl; constructor; [done|]. eapply Forall_impl; eauto. Qed.
