(* ===== verification/Storage.v ===== *)
(** * The connection to MongoDB

    [StorageManager] of document_processor/infrastructure/storage.py, as far
    as the MongoDB client goes: [connect_mongo] and [disconnect].  A client is
    known by the number it was created under; [open_clients] are the ones
    that nobody closed.

    The store's methods run in [io]: a state (the server, the manager, the
    store's own flag and the sleeps made) and an exception. *)

From S2P Require Import Prelude PyStr PyVal Retry Mongo.

Record StorageManager := Manager {
  mongo_client : option nat;
  mongo_db : option nat;
  _mongo_connected : bool;
  created : nat;
  open_clients : list nat }.

Definition new_storage : StorageManager := Manager None None false 0 [].

(** What the store's methods run in; [_indexes_ready] belongs to [ChatStore]. *)
Record env (M : Type) := Env {
  mongo : M;
  manager : StorageManager;
  _indexes_ready : bool;
  slept : list Q }.
Arguments Env {M} _ _ _ _.
Arguments mongo {M} _.
Arguments manager {M} _.
Arguments _indexes_ready {M} _.
Arguments slept {M} _.

Definition io (M A : Type) : Type := env M -> result pyexn A * env M.

Definition ret {M A} (a : A) : io M A := fun e => (Ok a, e).
Definition raise {M A} (x : pyexn) : io M A := fun e => (Err x, e).
Definition bind {M A B} (c : io M A) (k : A -> io M B) : io M B := fun e =>
  match c e with
  | (Ok a, e') => k a e'
  | (Err x, e') => (Err x, e')
  end.
Declare Scope io_scope.
Delimit Scope io_scope with io.
#[global] Open Scope io_scope.
Notation "'let!' x := c 'in' k" := (bind c (fun x => k))
  (at level 10, x pattern, c at level 100, k at level 200) : io_scope.
Notation "c ;; k" := (bind c (fun _ => k)) (at level 100, right associativity) : io_scope.

Section storage.
Context {M : Type} `{Mongo M}.

(** A command to the server. *)
Definition send {A} (f : M -> result pyexn A * M) : io M A := fun e =>
  let '(r, m) := f (mongo e) in (r, Env m (manager e) (_indexes_ready e) (slept e)).

Definition set_manager (s : StorageManager) (e : env M) : env M :=
  Env (mongo e) s (_indexes_ready e) (slept e).
Definition sleep (d : Q) (e : env M) : env M :=
  Env (mongo e) (manager e) (_indexes_ready e) (slept e ++ [d]).

(** [AsyncIOMotorClient(...)] and [client[settings.mongo_database]] *)
Definition open_client (s : StorageManager) : StorageManager :=
  let n := created s in
  Manager (Some n) (Some n) (_mongo_connected s) (S n) (open_clients s ++ [n]).

(** [self.mongo_client.close()], and both attributes back to [None] *)
Definition drop_client (s : StorageManager) : StorageManager :=
  Manager None None (_mongo_connected s) (created s)
    (match mongo_client s with
     | Some c => List.filter (fun n => negb (n =? c)%nat) (open_clients s)
     | None => open_clients s
     end).

Definition set_connected (b : bool) (s : StorageManager) : StorageManager :=
  Manager (mongo_client s) (mongo_db s) b (created s) (open_clients s).

(** [for attempt in range(max_retries)]; the numbers in the final message are
    left out. *)
Fixpoint connect_loop (max_retries : Z) (remaining attempt : nat) (last : option pyexn) : io M unit :=
  match remaining with
  | O => raise (PyExn "StorageError" "Failed to connect to MongoDB")
  | S remaining' => fun e =>
      let e := set_manager (open_client (manager e)) e in
      match send ping e with
      | (Ok _, e) => (Ok (), set_manager (set_connected true (manager e)) e)
      | (Err x, e) =>
          let wait := Z.min (2 ^ Z.of_nat attempt) 30 in
          let e := set_manager (drop_client (manager e)) e in
          let e := if Z.of_nat attempt <? max_retries - 1 then sleep (inject_Z wait) e else e in
          connect_loop max_retries remaining' (S attempt) (Some x) e
      end
  end.

Definition connect_mongo (max_retries : Z) : io M unit := fun e =>
  let reconnect := connect_loop max_retries (Z.to_nat max_retries) 0 None in
  match _mongo_connected (manager e), mongo_db (manager e) with
  | true, Some _ =>
      match send ping e with
      | (Ok _, e) => (Ok (), e)
      | (Err _, e) =>
          let s := manager e in
          reconnect (set_manager (Manager None None false (created s) (open_clients s)) e)
      end
  | _, _ => reconnect e
  end.

(** [disconnect], its MongoDB part *)
Definition disconnect (s : StorageManager) : StorageManager :=
  match mongo_client s, _mongo_connected s with
  | Some c, true => Manager (Some c) (mongo_db s) false (created s)
                      (List.filter (fun n => negb (n =? c)%nat) (open_clients s))
  | _, _ => s
  end.

(** [_write_with_retry(lambda: op)] of chat_store.py, on top of the loop of
    Retry.v: the server's state is threaded through the attempts, a retry
    clears the connection flag and waits. *)
Definition after {A} (op : M -> result pyexn A * M) (n : nat) (m : M) : M :=
  Nat.iter n (fun m => (op m).2) m.

Definition is_disconnect (ev : retry_event) : bool :=
  match ev with Disconnected => true | _ => false end.

Definition _write_with_retry {A} (op : M -> result pyexn A * M) : io M A := fun e =>
  let '(out, tr) := write_with_retry (fun i => (op (after op i (mongo e))).1) 3 in
  let s := if existsb is_disconnect tr then set_connected false (manager e) else manager e in
  (match out with
   | Returned v => Ok v
   | Raised x => Err x
   | RetryExhaustedError _ (Some x) => Err x
   | RetryExhaustedError _ None | TimedOut => Err (PyExn "AssertionError" "")
   end,
   Env (after op (Z.to_nat (count_calls tr)) (mongo e)) s (_indexes_ready e) (slept e ++ sleeps tr)).

End storage.

(** ** The attempts of a retried write *)

Lemma count_calls_app tr tr' : count_calls (tr ++ tr') = count_calls tr + count_calls tr'.
Proof. unfold count_calls. by rewrite List.filter_app, zlength_app. Qed.

Lemma count_calls_trace between j :
  (forall i, count_calls (between i) = 0) ->
  forall k, (k <= j)%nat -> count_calls (trace_upto between k j) = Z.of_nat (S (j - k)).
Proof.
  intros Hb k Hk. remember (j - k)%nat as n eqn:En. revert k Hk En.
  induction n as [|n IH]; intros k Hk En.
  - replace k with j by lia. by rewrite trace_upto_same.
  - rewrite trace_upto_next by lia. change (Called k :: between k ++ ?t) with ([Called k] ++ between k ++ t).
    rewrite !count_calls_app, Hb, IH by lia. unfold count_calls, zlength. simpl. lia.
Qed.

Section attempts.
Context {M : Type} {A : Type}.
Implicit Types op : M -> result pyexn A * M.

(** Attempts [0 .. j], [j <= 2], ran; the last one gave the result, the ones
    before it failed with a transient error. *)
Lemma write_with_retry_attempts op (e : env M) :
  exists j, (j <= 2)%nat /\
    (_write_with_retry op e).1 = (op (after op j (mongo e))).1 /\
    mongo (_write_with_retry op e).2 = after op (S j) (mongo e) /\
    _indexes_ready (_write_with_retry op e).2 = _indexes_ready e /\
    (manager (_write_with_retry op e).2 = manager e \/
     manager (_write_with_retry op e).2 = set_connected false (manager e)) /\
    forall i, (i < j)%nat -> exists x, (op (after op i (mongo e))).1 = Err x /\ transient x = true.
Proof.
  unfold _write_with_retry, write_with_retry.
  set (func := fun i => (op (after op i (mongo e))).1).
  change (Z.to_nat 3) with 3%nat. rewrite write_loop_shape by done. rewrite attempts_run_spec.
  assert (forall j, (j <= 2)%nat -> Z.to_nat (count_calls (trace_upto (fun i : nat =>
      [Disconnected; Slept ((1 # 2) * 2 ^ Z.of_nat i)]) 0 j)) = S j) as Hc.
  { intros j Hj. rewrite count_calls_trace by (done || lia). lia. }
  destruct (first_stop func transient 2 0) as [j|] eqn:Ej.
  - apply first_stop_bounds in Ej as (Hj & Hb & _). exists j. split; [lia|].
    simpl. rewrite (Hc j) by lia. change (op (after op j (mongo e))).1 with (func j).
    repeat split; [by destruct (func j)|destruct (existsb _ _); auto|]. intros i Hi. apply Hb. lia.
  - pose proof (first_stop_none _ _ _ _ Ej) as Hn. exists 2%nat. split; [lia|].
    change (0 + 2)%nat with 2%nat. destruct (func 2%nat) as [v|x] eqn:E2.
    + destruct (Hn 2%nat) as (? & ? & _); [lia|congruence].
    + cbn [fst snd mongo _indexes_ready manager]. rewrite (Hc 2%nat) by lia.
      change (op (after op 2 (mongo e))).1 with (func 2%nat). rewrite E2.
      repeat split; [destruct (existsb _ _); auto|]. intros i Hi. apply Hn. lia.
Qed.

Lemma after_S op n m : after op (S n) m = (op (after op n m)).2.
Proof. done. Qed.
End attempts.

(** ** Reasoning about methods *)

Section logic.
Context {M : Type} `{MongoLaws M}.

Definition dbv (e : env M) : database := mview (mongo e).

(** One step of a write's effect *)
Definition effect {A} (sem : database -> option (A * database)) (db db' : database) : Prop :=
  exists a, sem db = Some (a, db').

(** Whatever the server does, [c] started in the database [db] ends as [Q]
    says. *)
Definition wp {A} (c : io M A) (Q : result pyexn A -> database -> Prop) (db : database) : Prop :=
  forall e, dbv e = db -> Q (c e).1 (dbv (c e).2).

(** On a server that answers, [c] returns, as [Q] says. *)
Definition ready (e : env M) : Prop :=
  healthy (mongo e) /\ (_mongo_connected (manager e) = true -> is_Some (mongo_db (manager e))).
Definition runs {A} (c : io M A) (Q : A -> database -> Prop) (db : database) : Prop :=
  forall e, dbv e = db -> ready e ->
    exists a, (c e).1 = Ok a /\ ready (c e).2 /\ Q a (dbv (c e).2).

Lemma wp_mono {A} (c : io M A) (P Q : result pyexn A -> database -> Prop) db :
  wp c P db -> (forall r db', P r db' -> Q r db') -> wp c Q db.
Proof. intros Hc HQ e He. by apply HQ, Hc. Qed.

Lemma wp_ret {A} (a : A) (Q : result pyexn A -> database -> Prop) db : Q (Ok a) db -> wp (ret a) Q db.
Proof. intros HQ e <-. exact HQ. Qed.
Lemma wp_raise {A} x (Q : result pyexn A -> database -> Prop) db : Q (Err x) db -> wp (raise x) Q db.
Proof. intros HQ e <-. exact HQ. Qed.
Lemma wp_bind {A B} (c : io M A) (k : A -> io M B) Q db :
  wp c (fun r db' => match r with Ok a => wp (k a) Q db' | Err x => Q (Err x) db' end) db ->
  wp (bind c k) Q db.
Proof.
  intros Hc e He. specialize (Hc e He). unfold bind.
  destruct (c e) as [[a|x] e']; simpl in *; [by apply Hc|done].
Qed.

Lemma wp_read {A} (f : M -> result pyexn A * M) P (Q : result pyexn A -> database -> Prop) db :
  read_law mview healthy f P ->
  (forall a, P a db -> Q (Ok a) db) -> (forall x, Q (Err x) db) -> wp (send f) Q db.
Proof.
  intros Hf HOk HErr e <-. destruct (Hf (mongo e)) as (Hv & HP & _). unfold send, dbv in *.
  destruct (f (mongo e)) as [[a|x] m]; simpl in *; rewrite Hv; [by apply HOk, HP|by apply HErr].
Qed.

Lemma wp_write {A} (f : M -> result pyexn A * M) sem (Q : result pyexn A -> database -> Prop) db :
  write_law mview healthy f sem ->
  (forall a db', sem db = Some (a, db') -> Q (Ok a) db') ->
  (forall x db', rtc (effect sem) db db' -> Q (Err x) db') -> wp (send f) Q db.
Proof.
  intros Hf HOk HErr e <-. destruct (Hf (mongo e)) as [Hv _]. unfold send, dbv in *.
  destruct (f (mongo e)) as [[a|x] m]; simpl in *; [by apply HOk|].
  apply HErr. destruct Hv as [->|[a Ha]]; [done|]. apply rtc_once. by exists a.
Qed.

Lemma wp_many {A} (f : M -> result pyexn A * M) q sem (Q : result pyexn A -> database -> Prop) db :
  many_law mview healthy f q sem ->
  (forall a db', sem (matches q) db = Some (a, db') -> Q (Ok a) db') -> (forall x, Q (Err x) db) ->
  (forall x p a db', (forall d, p d = true -> matches q d = true) -> sem p db = Some (a, db') -> Q (Err x) db') ->
  wp (send f) Q db.
Proof.
  intros Hf HOk HErr HPart e <-. destruct (Hf (mongo e)) as [Hv _]. unfold send, dbv in *.
  destruct (f (mongo e)) as [[a|x] m]; simpl in *; [by apply HOk|].
  destruct Hv as [->|(p & a & Hp & Ha)]; [by apply HErr|by eapply HPart].
Qed.

Lemma after_effects {A} (op : M -> result pyexn A * M) sem n m :
  write_law mview healthy op sem -> rtc (effect sem) (mview m) (mview (after op n m)).
Proof.
  intros Hop. induction n as [|n IH]; [done|]. etrans; [exact IH|]. rewrite after_S.
  destruct (Hop (after op n m)) as [Hv _]. destruct (op (after op n m)).1 as [a|x].
  - apply rtc_once. by exists a.
  - destruct Hv as [->|[a Ha]]; [done|]. apply rtc_once. by exists a.
Qed.

Lemma wp_retry {A} (op : M -> result pyexn A * M) sem (Q : result pyexn A -> database -> Prop) db :
  write_law mview healthy op sem ->
  (forall a db1 db', rtc (effect sem) db db1 -> sem db1 = Some (a, db') -> Q (Ok a) db') ->
  (forall x db', rtc (effect sem) db db' -> Q (Err x) db') -> wp (_write_with_retry op) Q db.
Proof.
  intros Hop HOk HErr e <-.
  destruct (write_with_retry_attempts op e) as (j & _ & Hr & Hm & _). unfold dbv.
  rewrite Hr, Hm. pose proof (after_effects op sem j (mongo e) Hop) as Hj.
  pose proof (after_effects op sem (S j) (mongo e) Hop) as HSj. rewrite after_S in *.
  destruct (Hop (after op j (mongo e))) as [Hv _].
  destruct (op (after op j (mongo e))).1 as [a|x]; [by apply (HOk _ _ _ Hj)|by apply HErr].
Qed.

(** Opening a connection only pings. *)
Lemma connect_loop_view mx n k last e : dbv (connect_loop mx n k last e).2 = dbv e.
Proof.
  revert k last e. induction n as [|n IH]; intros k last e; simpl; [done|].
  unfold send. simpl. destruct (law_ping (mongo e)) as [Hv _].
  destruct (ping (mongo e)) as [[u|x] m]; simpl in *; [done|].
  rewrite IH. destruct (_ <? _); simpl; done.
Qed.

Lemma connect_mongo_view mx e : dbv (connect_mongo mx e).2 = dbv e.
Proof.
  unfold connect_mongo. destruct (_mongo_connected _); [|apply connect_loop_view].
  destruct (mongo_db _); [|apply connect_loop_view]. unfold send.
  destruct (law_ping (mongo e)) as [Hv _].
  destruct (ping (mongo e)) as [[u|x] m]; simpl in *; [done|]. by rewrite connect_loop_view.
Qed.

(** ** Runs on a server that answers *)

Lemma runs_mono {A} (c : io M A) (P Q : A -> database -> Prop) db :
  runs c P db -> (forall a db', P a db' -> Q a db') -> runs c Q db.
Proof. intros Hc HQ e He Hr. destruct (Hc e He Hr) as (a & ? & ? & ?). exists a. auto. Qed.

Lemma runs_ret {A} (a : A) (Q : A -> database -> Prop) db : Q a db -> runs (ret a) Q db.
Proof. intros HQ e <- Hr. by exists a. Qed.

Lemma runs_bind {A B} (c : io M A) (k : A -> io M B) Q db :
  runs c (fun a db' => runs (k a) Q db') db -> runs (bind c k) Q db.
Proof.
  intros Hc e He Hr. destruct (Hc e He Hr) as (a & E & Hr' & Hk). unfold bind.
  destruct (c e) as [r e']. simpl in *. subst r. by apply Hk.
Qed.

Lemma runs_read {A} (f : M -> result pyexn A * M) P (Q : A -> database -> Prop) db :
  read_law mview healthy f P -> (forall a, P a db -> Q a db) -> runs (send f) Q db.
Proof.
  intros Hf HQ e <- [Hh Hc]. destruct (Hf (mongo e)) as (Hv & HP & Hok).
  destruct (Hok Hh) as [Hh' Ho]. unfold send, dbv, ready in *.
  destruct (f (mongo e)) as [[a|x] m]; simpl in *; [|done].
  exists a. rewrite Hv. auto.
Qed.

Lemma runs_write {A} (f : M -> result pyexn A * M) sem (Q : A -> database -> Prop) db a db' :
  write_law mview healthy f sem -> sem db = Some (a, db') -> Q a db' -> runs (send f) Q db.
Proof.
  intros Hf Hs HQ e <- [Hh Hc]. destruct (Hf (mongo e)) as [Hv Hok]. unfold dbv in *.
  destruct (Hok Hh) as [Hh' Ho]. unfold send, ready in *.
  destruct (f (mongo e)) as [[a'|x] m]; simpl in *; [|by specialize (Ho ltac:(eauto))].
  exists a'. rewrite Hs in Hv. simplify_eq. auto.
Qed.

Lemma runs_retry {A} (op : M -> result pyexn A * M) sem (Q : A -> database -> Prop) db a db' :
  write_law mview healthy op sem -> sem db = Some (a, db') -> Q a db' -> runs (_write_with_retry op) Q db.
Proof.
  intros Hf Hs HQ e <- [Hh Hc]. destruct (Hf (mongo e)) as [Hv Hok]. unfold dbv in *.
  destruct (Hok Hh) as [Hh' Ho]. specialize (Ho ltac:(eauto)).
  destruct (write_with_retry_attempts op e) as (j & _ & Hr & Hm & _ & Hmg & Hj).
  destruct j as [|j]; [|destruct (Hj 0%nat) as (x & Hx & _); [lia|]; simpl in Hx; by rewrite Hx in Ho].
  unfold ready. rewrite Hr, Hm, after_S. simpl in *.
  destruct (op (mongo e)) as [[a'|x] m]; simpl in *; [|done].
  exists a'. rewrite Hs in Hv. injection Hv as -> ->. split_and!; try done.
  by destruct Hmg as [->| ->].
Qed.

Lemma connect_loop_ready mx n k last e : healthy (mongo e) ->
  exists e', connect_loop mx (S n) k last e = (Ok (), e') /\ ready e' /\
    is_Some (mongo_db (manager e')) /\ dbv e' = dbv e.
Proof.
  intros Hh. simpl. unfold send. simpl. destruct (law_ping (mongo e)) as (Hv & _ & Hok).
  destruct (Hok Hh) as [Hh' Ho]. destruct (ping (mongo e)) as [[u|x] m]; simpl in *; [|done].
  eexists. split; [done|]. unfold ready. simpl. eauto.
Qed.
End logic.

(** ** Relations on databases that a method respects *)

Section keeps.
Context {M : Type} `{MongoLaws M} (R : relation database) `{!PreOrder R}.

Definition keeps {A} (c : io M A) : Prop := forall e, R (dbv e) (dbv (c e).2).

Lemma keeps_wp {A} (c : io M A) : (forall db, wp c (fun _ db' => R db db') db) -> keeps c.
Proof. intros Hc e. by apply (Hc (dbv e)). Qed.

Lemma keeps_ret {A} (a : A) : keeps (ret a).
Proof. intros e. done. Qed.
Lemma keeps_raise {A} x : keeps (@raise M A x).
Proof. intros e. done. Qed.
Lemma keeps_bind {A B} (c : io M A) (k : A -> io M B) :
  keeps c -> (forall a, keeps (k a)) -> keeps (bind c k).
Proof.
  intros Hc Hk e. unfold bind. specialize (Hc e). destruct (c e) as [[a|x] e']; simpl in *; [|done].
  etrans; [exact Hc|apply Hk].
Qed.

Lemma keeps_effects {A} (sem : database -> option (A * database)) db db' :
  (forall a d d', sem d = Some (a, d') -> R d d') -> rtc (effect sem) db db' -> R db db'.
Proof. intros Hs Hr. induction Hr as [|x y z [a Ha] _ IH]; [done|]. etrans; [by eapply Hs|done]. Qed.

Lemma keeps_read {A} (f : M -> result pyexn A * M) P :
  read_law mview healthy f P -> keeps (send f).
Proof. intros Hf. apply keeps_wp. intros db. by eapply wp_read. Qed.

Lemma keeps_write {A} (f : M -> result pyexn A * M) sem :
  write_law mview healthy f sem -> (forall a d d', sem d = Some (a, d') -> R d d') -> keeps (send f).
Proof.
  intros Hf Hs. apply keeps_wp. intros db. eapply wp_write; [done|eauto|].
  intros x db'. by apply keeps_effects.
Qed.

Lemma keeps_many {A} (f : M -> result pyexn A * M) q sem :
  many_law mview healthy f q sem ->
  (forall p, (forall d, p d = true -> matches q d = true) -> forall a d d', sem p d = Some (a, d') -> R d d') ->
  keeps (send f).
Proof.
  intros Hf Hs. apply keeps_wp. intros db. eapply wp_many; [done| |done|].
  - intros a db' E. by eapply (Hs (matches q)).
  - intros x p a db' Hp E. by eapply (Hs p).
Qed.

Lemma keeps_retry {A} (f : M -> result pyexn A * M) sem :
  write_law mview healthy f sem -> (forall a d d', sem d = Some (a, d') -> R d d') ->
  keeps (_write_with_retry f).
Proof.
  intros Hf Hs. apply keeps_wp. intros db. eapply wp_retry; [done|..].
  - intros a db1 db' H1 H2. etrans; [by eapply keeps_effects|by eapply Hs].
  - intros x db'. by apply keeps_effects.
Qed.
End keeps.

(** An invariant, as the relation that a method respects. *)
Definition preserves (I : database -> Prop) : relation database := fun db db' => I db -> I db'.
#[export] Instance preserves_preorder I : PreOrder (preserves I).
Proof. unfold preserves. split; intros ?; auto. Qed.

Create HintDb io.
#[export] Hint Resolve law_ping law_create_index law_find_one law_find law_insert_one law_upsert
  law_update_one law_update_many law_delete_one law_delete_many : io.

(** Walks through a method that sends commands; leaves what each write does. *)
Ltac keeps_step :=
  first
    [ apply keeps_ret; by apply _ | apply keeps_raise; by apply _
    | apply keeps_bind; [by apply _| |intros ?]
    | eapply keeps_read; [by apply _|by eauto with io]
    | eapply keeps_retry; [by apply _|by eauto with io|]
    | eapply keeps_write; [by apply _|by eauto with io|]
    | eapply keeps_many; [by apply _|by eauto with io|intros ? ?]
    | match goal with |- keeps _ _ => case_match end ].
Ltac keeps_steps := repeat keeps_step.

Lemma wp_keeps {M} `{MongoLaws M} (R : relation database) {A} (c : io M A)
  (Q : result pyexn A -> database -> Prop) db :
  keeps R c -> (forall r db', R db db' -> Q r db') -> wp c Q db.
Proof. intros Hc HQ e <-. apply HQ, Hc. Qed.

(** ** The connection *)

Section connection.
Context {M : Type} `{MongoLaws M}.

(** The flag is up only with a client that is open, and its database. *)
Definition conn_ok (s : StorageManager) : Prop :=
  _mongo_connected s = true ->
  exists n, mongo_client s = Some n /\ mongo_db s = Some n /\ n ∈ open_clients s.

(** The waits between [n] attempts from [attempt] on *)
Fixpoint backoffs (n attempt : nat) : list Q :=
  match n with
  | O => []
  | S n' => inject_Z (Z.min (2 ^ Z.of_nat attempt) 30) :: backoffs n' (S attempt)
  end.

Lemma connect_loop_S mx n k last (e : env M) :
  connect_loop mx (S n) k last e =
    match ping (mongo e) with
    | (Ok _, m) =>
        (Ok (), Env m (set_connected true (open_client (manager e))) (_indexes_ready e) (slept e))
    | (Err x, m) =>
        connect_loop mx n (S k) (Some x)
          (Env m (drop_client (open_client (manager e))) (_indexes_ready e)
             (slept e ++ if Z.of_nat k <? mx - 1 then [inject_Z (Z.min (2 ^ Z.of_nat k) 30)] else []))
    end.
Proof.
  simpl. unfold send. simpl. destruct (ping (mongo e)) as [[u|x] m]; [done|].
  destruct (_ <? _); [done|]. by rewrite app_nil_r.
Qed.

(** It is a loop of at most [max_retries] pings with exponential waits of at
    most thirty seconds between them; it ends connected, to an open client,
    or with the flag down and no database. *)
Lemma connect_loop_spec mx n k last (e : env M) :
  Z.of_nat (k + S n) = mx -> _mongo_connected (manager e) = false ->
  exists j, (j <= n)%nat /\ slept (connect_loop mx (S n) k last e).2 = slept e ++ backoffs j k /\
    match connect_loop mx (S n) k last e with
    | (Ok _, e') => _mongo_connected (manager e') = true /\ conn_ok (manager e')
    | (Err _, e') => j = n /\ _mongo_connected (manager e') = false /\ mongo_db (manager e') = None
    end.
Proof.
  revert k last e. induction n as [|n IH]; intros k last e Hk Hf; rewrite connect_loop_S;
    destruct (ping (mongo e)) as [[u|x] m];
    try (exists 0%nat; simpl; rewrite app_nil_r; split; [lia|split; [done|]]; split; [done|]; intros _;
         exists (created (manager e)); simpl; set_solver).
  - exists 0%nat. destruct (Z.ltb_spec (Z.of_nat k) (mx - 1)); [lia|]. simpl. by rewrite app_nil_r.
  - destruct (Z.ltb_spec (Z.of_nat k) (mx - 1)) as [_|]; [|lia].
    match goal with |- context [connect_loop mx (S n) (S k) (Some x) ?e'] =>
      destruct (IH (S k) (Some x) e') as (j & Hj & Hs & Hr); [lia|done|] end.
    exists (S j). split; [lia|]. rewrite Hs. cbn [slept backoffs]. rewrite <- app_assoc. split; [done|].
    destruct (connect_loop _ _ _ _ _) as [[]]; naive_solver.
Qed.

(** A retried write clears the flag only: the next call opens another client,
    and the one that was open stays open, with nothing left to close it. *)
Theorem retry_leaks_client (e : env M) c :
  healthy (mongo e) -> _mongo_connected (manager e) = false -> mongo_client (manager e) = Some c ->
  c ∈ open_clients (manager e) -> (c < created (manager e))%nat ->
  exists e', connect_mongo 5 e = (Ok (), e') /\ mongo_client (manager e') = Some (created (manager e)) /\
    c ∈ open_clients (manager e') /\ Some c <> mongo_client (manager e').
Proof.
  intros Hh Hf Hc Hin Hlt. unfold connect_mongo. rewrite Hf. change (Z.to_nat 5) with 5%nat.
  rewrite connect_loop_S. destruct (law_ping (mongo e)) as (_ & _ & Hok). destruct (Hok Hh) as [_ Ho].
  destruct (ping (mongo e)) as [[u|x] m]; [|done]. eexists. split; [done|]. simpl.
  split; [done|]. split; [set_solver|]. intros [= ->]. lia.
Qed.
End connection.
