(* ===== verification/ChatStore.v ===== *)
(** * The chat store

    [ChatStore] of document_processor/infrastructure/chat_store.py: sessions,
    messages and folders in MongoDB.  Every method is an [io] over the server
    interface of Mongo.v; the clock reading and the fresh identifiers a call
    uses are arguments.  The query records of the same class are in
    QueryRecords.v. *)

From S2P Require Import Prelude PyStr PyVal Retry Mongo Storage.
From Stdlib Require Import Ascii.

(** ** Titles *)

(** [re.sub(r"<[^>]+>", "", s)] *)
Fixpoint strip_tags_go (fuel : nat) (s : string) : string :=
  match fuel, s with
  | S fuel', String c s' =>
      if Ascii.eqb c "<" then
        match split_once ">" s' with
        | Some (String _ _, rest) => strip_tags_go fuel' rest
        | _ => String c (strip_tags_go fuel' s')
        end
      else String c (strip_tags_go fuel' s')
  | _, _ => ""
  end.
Definition strip_tags (s : string) : string := strip_tags_go (String.length s) s.

(** The characters of the markdown class *)
Definition is_markdown (c : ascii) : bool := char_in c "*_`#~>[]()!".

Definition upper_char (c : ascii) : ascii :=
  let n := nat_of_ascii c in
  if (97 <=? n)%nat && (n <=? 122)%nat then ascii_of_nat (n - 32) else c.
(** [t[:1].upper() + t[1:]] *)
Definition capitalise (t : string) : string :=
  match t with EmptyString => "" | String c t' => String (upper_char c) t' end.

(** [t.rfind(" ")] *)
Fixpoint rfind_space (i : Z) (last : Z) (t : string) : Z :=
  match t with
  | EmptyString => last
  | String c t' => rfind_space (i + 1) (if Ascii.eqb c " " then i else last) t'
  end.

Definition clean_query (query : string) : string :=
  strip is_space (collapse_ws false (remove_chars is_markdown (strip_tags query))).

Definition ELLIPSIS : string := "…".

Definition _generate_title_from_query (query : string) (max_chars : Z) : string :=
  if String.eqb query "" then "New Chat" else
  let text := clean_query query in
  if String.eqb text "" then "New Chat" else
  if Z.of_nat (String.length text) <=? max_chars then capitalise text else
  let truncated := str_take (Z.to_nat max_chars) text in
  let last_space := rfind_space 0 (-1) truncated in
  let truncated :=
    if Qltb (inject_Z max_chars * (66 # 100)) (inject_Z last_space)
    then str_take (Z.to_nat last_space) truncated else truncated in
  rstrip (fun c => char_in c ".,;: ") (capitalise truncated) +:+ ELLIPSIS.

(** ** Documents *)

(** The attributes of [ChatSession]; a summary has the same fields. *)
Record ChatSession := Session {
  cs_id : pyval;
  cs_client_id : pyval;
  cs_mode : pyval;
  cs_title : pyval;
  cs_created_at : pyval;
  cs_updated_at : pyval;
  cs_user_id : pyval;
  cs_archived : bool;
  cs_folder_id : pyval;
  cs_pinned : bool }.

(** The dict built from a session document by the methods that read one. *)
Definition session_view (d : document) : ChatSession :=
  Session (get "_id" d) (get "client_id" d) (get "mode" d) (get "title" d) (get "created_at" d)
    (get "updated_at" d) (get "user_id" d) (truthy (get "archived" d)) (get "folder_id" d)
    (truthy (get "pinned" d)).

(** [d[k]] *)
Definition has_keys (ks : list string) (d : document) : result pyexn unit :=
  match List.find (fun k => bool_decide (d !! k = None)) ks with
  | Some k => Err (PyExn "KeyError" ("'" +:+ k +:+ "'"))
  | None => Ok ()
  end.

Record message_view := MessageView {
  mv_role : pyval; mv_content : pyval; mv_format : pyval; mv_ai_type : pyval;
  mv_extras : pyval; mv_created_at : pyval }.
Definition view_message (m : document) : message_view :=
  MessageView (get "role" m) (default (PStr "") (m !! "content")) (default (PStr "text") (m !! "format"))
    (get "ai_type" m) (if truthy (get "extras" m) then get "extras" m else PDict []) (get "created_at" m).

Record folder_view := FolderView {
  fv_id : pyval; fv_name : pyval; fv_created_at : pyval; fv_updated_at : pyval; fv_pinned : bool }.
Definition view_folder (d : document) : folder_view :=
  FolderView (get "_id" d) (if truthy (get "name" d) then get "name" d else PStr "")
    (get "created_at" d) (get "updated_at" d) (truthy (get "pinned" d)).

(** [x or y] for an optional string *)
Definition or_str (o : option string) (y : string) : string :=
  match o with Some s => if String.eqb s "" then y else s | None => y end.

Definition session_doc (sid client_id : string) (user_id : option string) (mode : string)
  (title : option string) (now : Q) : document :=
  list_to_map [("_id", PStr sid); ("client_id", PStr client_id); ("user_id", opt_str user_id);
    ("mode", PStr mode); ("title", PStr (or_str title "Untitled Chat"));
    ("created_at", PTime now); ("updated_at", PTime now); ("archived", PBool false);
    ("folder_id", PNone); ("pinned", PBool false)].

Definition message_doc (session_id role content format : string) (ai_type : option string)
  (extras : list (string * pyval)) (now : Q) : document :=
  list_to_map [("session_id", PStr session_id); ("role", PStr role); ("content", PStr content);
    ("format", PStr format); ("ai_type", opt_str ai_type); ("extras", PDict extras);
    ("created_at", PTime now)].

Definition folder_doc (fid client_id : string) (user_id : option string) (name : string) (now : Q)
  : document :=
  list_to_map [("_id", PStr fid); ("client_id", PStr client_id); ("user_id", opt_str user_id);
    ("name", PStr name); ("created_at", PTime now); ("updated_at", PTime now); ("pinned", PBool false)].

(** Access control: by user when there is one, by client otherwise. *)
Definition owned (client_id : string) (user_id : option string) (d : document) : bool :=
  if truthy_str user_id then bool_decide (get "user_id" d = opt_str user_id)
  else bool_decide (get "client_id" d = PStr client_id).
Definition owner_query (client_id : string) (user_id : option string) : query :=
  if truthy_str user_id then [("user_id", CEq (opt_str user_id))]
  else [("client_id", CEq (PStr client_id))].

Definition session_not_found : pyexn := PyExn "KeyError" "'session_not_found'".
Definition folder_not_found : pyexn := PyExn "KeyError" "'folder_not_found'".
Definition invalid_folder_name : pyexn := PyExn "ValueError" "invalid_folder_name".

Definition DESC_PINNED : list (string * bool) := [("pinned", true); ("updated_at", true)].

(** The indexes [ensure_indexes] creates, in order: the collection, the keys
    and whether the index is unique (the unique ones are sparse). *)
Definition INDEXES : list (string * list (string * Z) * bool) :=
  [("chat_sessions", [("client_id", 1); ("mode", 1); ("updated_at", -1)], false);
   ("chat_sessions", [("client_id", 1); ("updated_at", -1)], false);
   ("chat_sessions", [("user_id", 1); ("mode", 1); ("updated_at", -1)], false);
   ("chat_sessions", [("user_id", 1); ("updated_at", -1)], false);
   ("chat_sessions", [("client_id", 1); ("folder_id", 1); ("archived", 1); ("updated_at", -1)], false);
   ("chat_sessions", [("user_id", 1); ("folder_id", 1); ("archived", 1); ("updated_at", -1)], false);
   ("chat_sessions", [("client_id", 1); ("pinned", -1); ("updated_at", -1)], false);
   ("chat_sessions", [("user_id", 1); ("pinned", -1); ("updated_at", -1)], false);
   ("chat_messages", [("session_id", 1); ("created_at", 1)], false);
   ("chat_folders", [("client_id", 1); ("updated_at", -1)], false);
   ("chat_folders", [("user_id", 1); ("updated_at", -1)], false);
   ("chat_folders", [("client_id", 1); ("name", 1)], false);
   ("chat_folders", [("user_id", 1); ("name", 1)], false);
   ("chat_folders", [("client_id", 1); ("pinned", -1); ("updated_at", -1)], false);
   ("chat_folders", [("user_id", 1); ("pinned", -1); ("updated_at", -1)], false);
   ("chat_messages", [("idempotency_key", 1)], true);
   ("chat_sessions", [("idempotency_key", 1)], true);
   ("query_records", [("chat_session_id", 1); ("started_at", -1)], false);
   ("query_records", [("user_id", 1); ("status", 1); ("started_at", -1)], false);
   ("query_records", [("client_id", 1); ("status", 1); ("started_at", -1)], false);
   ("query_records", [("thinking_session_id", 1)], false);
   ("query_records", [("research_session_id", 1)], false);
   ("query_records", [("idempotency_key", 1)], true)].

Section store.
Context {M : Type} `{Mongo M}.

(** [_db]: connects when the flag is down. *)
Definition _db : io M unit := fun e =>
  let c := if _mongo_connected (manager e) then ret () else connect_mongo 5 in
  match c e with
  | (Ok _, e) =>
      match mongo_db (manager e) with
      | Some _ => (Ok (), e)
      | None => (Err (PyExn "RuntimeError" "MongoDB not initialized"), e)
      end
  | r => r
  end.

Definition set_ready (e : env M) : env M := Env (mongo e) (manager e) true (slept e).

Fixpoint create_indexes (l : list (string * list (string * Z) * bool)) : io M unit :=
  match l with
  | [] => ret ()
  | (c, keys, unique) :: l' => send (create_index c keys unique) ;; create_indexes l'
  end.

Definition ensure_indexes : io M unit := fun e =>
  if _indexes_ready e then (Ok (), e) else
  match (_db ;; create_indexes INDEXES) e with
  | (Ok _, e) => (Ok (), set_ready e)
  | r => r
  end.

(** The two calls every writing method starts with. *)
Definition open_db : io M unit := ensure_indexes ;; _db.

(** ** Sessions *)

Definition create_session (client_id mode : string) (title user_id session_id idempotency_key : option string)
  (now : Q) (new_session_id : string) : io M ChatSession :=
  open_db ;;
  let sid := or_str session_id new_session_id in
  let insert_doc := session_doc sid client_id user_id mode title now in
  match truthy_str idempotency_key, idempotency_key with
  | true, Some key =>
      let! doc := _write_with_retry (upsert "chat_sessions" [("idempotency_key", CEq (PStr key))]
                    (<["idempotency_key" := PStr key]> insert_doc)) in
      match has_keys ["_id"; "client_id"; "mode"; "title"; "created_at"; "updated_at"] doc with
      | Err x => raise x
      | Ok _ => ret (session_view doc)
      end
  | _, _ =>
      _write_with_retry (insert_one "chat_sessions" insert_doc) ;;
      ret (session_view insert_doc)
  end.

Definition list_query (client_id : string) (user_id : option string) (mode : option string)
  (include_archived : bool) (folder_id : option string) : query :=
  (match mode with Some m => [("mode", CEq (PStr m))] | None => [] end) ++
  owner_query client_id user_id ++
  (if include_archived then [] else [("archived", CNe (PBool true))]) ++
  (match folder_id with Some f => [("folder_id", CEq (PStr f))] | None => [] end).

Definition page_size (limit : Z) : Z := Z.min (Z.max limit 1) 200.

Definition list_sessions (client_id mode : string) (user_id : option string) (limit offset : Z)
  (include_archived : bool) (folder_id : option string) : io M (list ChatSession) :=
  open_db ;;
  let! docs := send (find "chat_sessions" (list_query client_id user_id (Some mode) include_archived folder_id)
                 DESC_PINNED (Z.max offset 0) (Some (page_size limit))) in
  ret (map session_view docs).

Definition list_sessions_all (client_id : string) (user_id : option string) (limit offset : Z)
  (include_archived : bool) (folder_id : option string) : io M (list ChatSession) :=
  open_db ;;
  let! docs := send (find "chat_sessions" (list_query client_id user_id None include_archived folder_id)
                 DESC_PINNED (Z.max offset 0) (Some (page_size limit))) in
  ret (map session_view docs).

Definition by_id (i : string) : query := [("_id", CEq (PStr i))].

(** [find_one({"_id": ...})], then the access check; both fail alike. *)
Definition find_session (client_id session_id : string) (user_id : option string) : io M document :=
  let! o := send (find_one "chat_sessions" (by_id session_id) []) in
  match o with
  | Some d => if owned client_id user_id d then ret d else raise session_not_found
  | None => raise session_not_found
  end.

Definition get_session (client_id session_id : string) (user_id : option string) (include_messages : bool)
  : io M (ChatSession * option (list message_view)) :=
  open_db ;;
  let! session := find_session client_id session_id user_id in
  if include_messages then
    let! ms := send (find "chat_messages" [("session_id", CEq (PStr session_id))]
                 [("created_at", false)] 0 None) in
    ret (session_view session, Some (map view_message ms))
  else ret (session_view session, None).

(** The [$set] of [append_message] on the session. *)
Definition is_default_title (v : pyval) : bool :=
  let t := if truthy v then v else PStr "Untitled Chat" in
  bool_decide (t = PStr "Untitled Chat") || bool_decide (t = PStr "New Chat").
Definition touch_update (session : document) (role content : string) (now : Q) : document :=
  let update := {["updated_at" := PTime now]} : document in
  if String.eqb role "user" && is_default_title (get "title" session)
     && negb (String.eqb (strip is_space content) "")
  then <["title" := PStr (_generate_title_from_query content 60)]> update
  else update.

(** [object_id] is the [_id] pymongo gives a document that has none. *)
Definition append_message (client_id session_id role content format : string) (ai_type : option string)
  (extras : option (list (string * pyval))) (user_id idempotency_key : option string)
  (now : Q) (object_id : string) : io M string :=
  open_db ;;
  let! session := find_session client_id session_id user_id in
  let doc := message_doc session_id role content format ai_type (default [] extras) now in
  let! message_id :=
    match truthy_str idempotency_key, idempotency_key with
    | true, Some key =>
        let! d := _write_with_retry (upsert "chat_messages" [("idempotency_key", CEq (PStr key))]
                    (<["_id" := PStr key]> (<["idempotency_key" := PStr key]> doc))) in
        ret (match get "_id" d with PStr s => s | _ => "" end)
    | _, _ =>
        _write_with_retry (insert_one "chat_messages" (<["_id" := PStr object_id]> doc)) ;;
        ret object_id
    end in
  _write_with_retry (update_one "chat_sessions" (by_id session_id) (touch_update session role content now)) ;;
  ret message_id.

(** The fields of an update; [None] for [_UNSET], and for the title and the
    mode [None]. *)
Definition opt_field (k : string) (o : option pyval) (s : document) : document :=
  match o with Some v => <[k := v]> s | None => s end.

Definition session_update (title mode : option string) (archived : option pyval)
  (folder_id : option (option string)) (pinned : option pyval) (now : Q) : document :=
  let update := {["updated_at" := PTime now]} : document in
  let update := opt_field "title" (PStr <$> title) update in
  let update := opt_field "mode" (PStr <$> mode) update in
  let update := opt_field "archived" ((fun v => PBool (truthy v)) <$> archived) update in
  let update := opt_field "folder_id" (opt_str <$> folder_id) update in
  opt_field "pinned" ((fun v => PBool (truthy v)) <$> pinned) update.

Definition update_session (client_id session_id : string) (user_id title mode : option string)
  (archived : option pyval) (folder_id : option (option string)) (pinned : option pyval) (now : Q) : io M unit :=
  open_db ;;
  let! _ := find_session client_id session_id user_id in
  send (update_one "chat_sessions" (by_id session_id)
          (session_update title mode archived folder_id pinned now)) ;; ret ().

Definition update_session_title (client_id session_id title : string) (user_id : option string) (now : Q) : io M unit :=
  update_session client_id session_id user_id (Some title) None None None None now.

Definition delete_session (client_id session_id : string) (user_id : option string) : io M unit :=
  open_db ;;
  let! o := send (find_one "chat_sessions" (by_id session_id) []) in
  match o with
  | Some d =>
      if owned client_id user_id d then
        send (delete_one "chat_sessions" (by_id session_id)) ;;
        send (delete_many "chat_messages" [("session_id", CEq (PStr session_id))])
      else ret ()
  | None => ret ()
  end.

(** ** Folders *)

Definition clean_name (name : option string) : string := strip is_space (default "" name).

Definition create_folder (client_id : string) (name : option string) (user_id folder_id : option string)
  (now : Q) (new_folder_id : string) : io M folder_view :=
  open_db ;;
  let n := clean_name name in
  if String.eqb n "" then raise invalid_folder_name else
  let fid := or_str folder_id new_folder_id in
  let doc := folder_doc fid client_id user_id n now in
  send (insert_one "chat_folders" doc) ;;
  ret (FolderView (PStr fid) (PStr n) (PTime now) (PTime now) false).

Definition list_folders (client_id : string) (user_id : option string) (limit offset : Z)
  : io M (list folder_view) :=
  open_db ;;
  let! docs := send (find "chat_folders" (owner_query client_id user_id) DESC_PINNED
                 (Z.max offset 0) (Some (page_size limit))) in
  ret (map view_folder docs).

Definition find_folder (client_id folder_id : string) (user_id : option string) : io M document :=
  let! o := send (find_one "chat_folders" (by_id folder_id) []) in
  match o with
  | Some d => if owned client_id user_id d then ret d else raise folder_not_found
  | None => raise folder_not_found
  end.

Definition folder_update (name : option (option string)) (pinned : option pyval) (now : Q)
  : result pyexn document :=
  let update := {["updated_at" := PTime now]} : document in
  let pin := opt_field "pinned" ((fun v => PBool (truthy v)) <$> pinned) in
  match name with
  | Some n => if String.eqb (clean_name n) "" then Err invalid_folder_name
              else Ok (pin (<["name" := PStr (clean_name n)]> update))
  | None => Ok (pin update)
  end.

Definition update_folder (client_id folder_id : string) (user_id : option string)
  (name : option (option string)) (pinned : option pyval) (now : Q) : io M unit :=
  open_db ;;
  let! _ := find_folder client_id folder_id user_id in
  match folder_update name pinned now with
  | Ok update => send (update_one "chat_folders" (by_id folder_id) update) ;; ret ()
  | Err x => raise x
  end.

Definition rename_folder (client_id folder_id : string) (name : option string) (user_id : option string)
  (now : Q) : io M unit :=
  open_db ;;
  let! _ := find_folder client_id folder_id user_id in
  if String.eqb (clean_name name) "" then raise invalid_folder_name else
  send (update_one "chat_folders" (by_id folder_id)
          (<["name" := PStr (clean_name name)]> {["updated_at" := PTime now]})) ;; ret ().

Definition delete_folder (client_id folder_id : string) (user_id : option string) (now : Q) : io M unit :=
  open_db ;;
  let! o := send (find_one "chat_folders" (by_id folder_id) []) in
  match o with
  | Some d =>
      if owned client_id user_id d then
        send (delete_one "chat_folders" (by_id folder_id)) ;;
        send (update_many "chat_sessions" (("folder_id", CEq (PStr folder_id)) :: owner_query client_id user_id)
                (<["folder_id" := PNone]> {["updated_at" := PTime now]})) ;; ret ()
      else ret ()
  | None => ret ()
  end.

End store.

(** ** Opening the database *)

(** The documents stay; only indexes are created. *)
Definition same_docs (db db' : database) : Prop :=
  (forall c, coll c db' = coll c db) /\ (keys_unique db -> keys_unique db').
#[export] Instance same_docs_preorder : PreOrder same_docs.
Proof. split; [done|]. intros a b c [H1 H2] [H3 H4]. split; [intros; congruence|auto]. Qed.

Lemma same_docs_create_index c ks u x db db' :
  db_create_index c ks u db = Some (x, db') -> same_docs db db'.
Proof. intros E. split; [intros; by eapply coll_create_index|eauto with mongo]. Qed.

Section opening.
Context {M : Type} `{MongoLaws M}.

Lemma db_view (e : env M) : dbv (_db e).2 = dbv e.
Proof.
  unfold _db. destruct (_mongo_connected _); simpl; [by destruct (mongo_db _)|].
  pose proof (connect_mongo_view 5 e) as Hv. destruct (connect_mongo 5 e) as [[u|x] e']; simpl in *; [|done].
  by destruct (mongo_db _).
Qed.

Lemma keeps_create_indexes l : keeps (M := M) same_docs (create_indexes l).
Proof.
  induction l as [|[[c ks] u] l IH]; simpl; keeps_steps; [|done].
  intros ???. apply same_docs_create_index.
Qed.

Lemma keeps_open_db : keeps (M := M) same_docs open_db.
Proof.
  unfold open_db. apply keeps_bind; [apply _| |intros _ e; by rewrite db_view].
  intros e. unfold ensure_indexes. destruct (_indexes_ready e); [done|].
  assert (keeps (M := M) same_docs (_db ;; create_indexes INDEXES)) as Hk.
  { apply keeps_bind; [apply _|intros e'; by rewrite db_view|intros _; apply keeps_create_indexes]. }
  specialize (Hk e). by destruct ((_db ;; create_indexes INDEXES) e) as [[u|x] e'].
Qed.

Lemma wp_open_db (Q : result pyexn unit -> database -> Prop) db :
  (forall r db', same_docs db db' -> Q r db') -> wp (M := M) open_db Q db.
Proof. intros HQ e <-. apply HQ, keeps_open_db. Qed.

(** On a server that answers, opening succeeds unless the unique indexes
    cannot be created over what is stored. *)
Definition indexable (db : database) : Prop :=
  forall c, no_clash ["idempotency_key"] (coll c db) = true.

Lemma runs_db (Q : unit -> database -> Prop) db : Q () db -> runs (M := M) _db Q db.
Proof.
  intros HQ e <- [Hh Hc]. unfold _db. destruct (_mongo_connected (manager e)) eqn:E; simpl.
  - destruct (Hc eq_refl) as [n Hn]. rewrite Hn. exists (). by split_and!.
  - unfold connect_mongo. rewrite E. change (Z.to_nat 5) with 5%nat.
    destruct (connect_loop_ready 5 4 0 None e Hh) as (e' & -> & Hr & [n Hn] & Hv).
    rewrite Hn. exists (). simpl. by rewrite Hv.
Qed.

Lemma runs_create_indexes l db :
  (forall c ks u, (c, ks, u) ∈ l -> u = true -> ks = [("idempotency_key", 1)]) -> indexable db ->
  runs (M := M) (create_indexes l) (fun _ db' => same_docs db db') db.
Proof.
  revert db. induction l as [|[[c ks] u] l IH]; intros db Hl Hi; simpl; [by apply runs_ret|].
  assert (exists db', db_create_index c ks u db = Some ((), db')) as [db' E].
  { unfold db_create_index. destruct u; [|destruct ks as [|[] []]; eauto].
    rewrite (Hl c ks true) by (done || by left). rewrite Hi. eauto. }
  pose proof (same_docs_create_index _ _ _ _ _ _ E) as Hs.
  apply runs_bind. eapply runs_write; [apply law_create_index|exact E|].
  eapply runs_mono; [apply IH|].
  - intros c' ks' u' Hin. apply (Hl c'). by right.
  - intros c'. destruct Hs as [-> _]. apply Hi.
  - intros [] db2 H2. by etrans.
Qed.

Lemma runs_open_db (Q : unit -> database -> Prop) db :
  indexable db -> (forall db', same_docs db db' -> Q () db') -> runs (M := M) open_db Q db.
Proof.
  intros Hi HQ. apply runs_bind. intros e <- Hr. unfold ensure_indexes.
  destruct (_indexes_ready e); [exists (); split; [done|]; split; [done|]; apply runs_db, HQ; done|].
  assert (runs (M := M) (_db ;; create_indexes INDEXES) (fun _ db' => same_docs (dbv e) db') (dbv e)) as Hk.
  { apply runs_bind, runs_db. apply runs_create_indexes; [|done].
    intros c ks u Hin ->. unfold INDEXES in Hin. repeat (apply elem_of_cons in Hin as [Hin|Hin]; [by simplify_eq|]).
    by apply elem_of_nil in Hin. }
  destruct (Hk e eq_refl Hr) as (a & E & Hr' & Hs).
  destruct ((_db ;; create_indexes INDEXES) e) as [r e']. simpl in *. subst r.
  exists (). split; [done|]. split; [done|]. apply runs_db, HQ, Hs.
Qed.
End opening.

(** ** The types of the stored fields *)

Inductive fty := TStr | TOptStr | TBool | TTime | TOptTime | TDict | TOptList | TInt | TOptInt.
Definition has_fty (t : fty) (v : pyval) : bool :=
  match t, v with
  | TStr, PStr _ | TOptStr, (PStr _ | PNone) | TBool, PBool _ | TTime, PTime _
  | TOptTime, (PTime _ | PNone) | TDict, PDict _ | TOptList, (PList _ | PNone)
  | TInt, PInt _ | TOptInt, (PInt _ | PNone) => true
  | _, _ => false
  end.

Definition schema (c : string) : list (string * fty) :=
  if String.eqb c "chat_sessions" then
    [("_id", TStr); ("client_id", TStr); ("user_id", TOptStr); ("mode", TStr); ("title", TStr);
     ("created_at", TTime); ("updated_at", TTime); ("archived", TBool); ("folder_id", TOptStr);
     ("pinned", TBool)]
  else if String.eqb c "chat_messages" then
    [("_id", TStr); ("session_id", TStr); ("role", TStr); ("content", TStr); ("format", TStr);
     ("ai_type", TOptStr); ("extras", TDict); ("created_at", TTime)]
  else if String.eqb c "chat_folders" then
    [("_id", TStr); ("client_id", TStr); ("user_id", TOptStr); ("name", TStr); ("created_at", TTime);
     ("updated_at", TTime); ("pinned", TBool)]
  else if String.eqb c "query_records" then
    [("_id", TStr); ("chat_session_id", TStr); ("user_id", TOptStr); ("client_id", TStr); ("mode", TStr);
     ("query_text", TStr); ("provider", TStr); ("effort", TOptStr); ("status", TStr); ("progress", TInt);
     ("current_phase", TOptStr); ("current_task", TOptStr); ("phases", TOptList); ("result_markdown", TOptStr);
     ("result_html", TOptStr); ("sources", TOptList); ("error", TOptStr); ("thinking_session_id", TOptStr);
     ("research_session_id", TOptStr); ("tokens_used", TOptInt); ("started_at", TTime);
     ("updated_at", TTime); ("completed_at", TOptTime); ("cancelled_at", TOptTime)]
  else [].

Definition typed_doc (c : string) (d : document) : bool :=
  forallb (fun ft => match d !! ft.1 with Some v => has_fty ft.2 v | None => false end) (schema c).
Definition typed_set (c : string) (s : document) : bool :=
  forallb (fun ft => match s !! ft.1 with Some v => has_fty ft.2 v | None => true end) (schema c).
Definition well_typed (db : database) : Prop :=
  forall c d, d ∈ coll c db -> typed_doc c d = true.

(** What BSON does to a value does not change its type. *)
Lemma has_fty_bson t v : has_fty t (bson v) = has_fty t v.
Proof. by destruct t, v. Qed.
Lemma typed_doc_bson c d : typed_doc c (bson_doc d) = typed_doc c d.
Proof.
  unfold typed_doc. induction (schema c) as [|ft l IH]; simpl; [done|]. rewrite lookup_bson, IH.
  destruct (d !! ft.1); simpl; [by rewrite has_fty_bson|done].
Qed.
Lemma typed_set_bson c s : typed_set c (bson_doc s) = typed_set c s.
Proof.
  unfold typed_set. induction (schema c) as [|ft l IH]; simpl; [done|]. rewrite lookup_bson, IH.
  destruct (s !! ft.1); simpl; [by rewrite has_fty_bson|done].
Qed.

Lemma typed_set_fields c s d : typed_set c s = true -> typed_doc c d = true ->
  typed_doc c (set_fields s d) = true.
Proof.
  unfold typed_set, typed_doc. rewrite !forallb_forall. intros Hs Hd ft Hft.
  specialize (Hs ft Hft). specialize (Hd ft Hft). unfold set_fields. rewrite lookup_union.
  destruct (s !! ft.1), (d !! ft.1); simpl in *; done.
Qed.

Lemma typed_insert c d db u db' :
  db_insert c d db = Some (u, db') -> typed_doc c d = true -> well_typed db -> well_typed db'.
Proof. intros E Hd Hw c' e. rewrite (elem_of_insert _ _ _ _ _ _ _ E). intros [?|[-> ->]]; auto. Qed.

Lemma typed_upsert c q d db a db' :
  db_upsert c q d db = Some (a, db') -> typed_doc c d = true -> well_typed db -> well_typed db'.
Proof.
  unfold db_upsert. destruct (List.find _ _); [by intros [= _ <-]|].
  destruct (db_insert c d db) as [[u db1]|] eqn:E; [|done]. intros [= _ <-]. by eapply typed_insert.
Qed.

Lemma well_typed_put c l db :
  well_typed db -> (forall d, d ∈ l -> typed_doc c d = true) -> well_typed (put_coll c l db).
Proof. intros Hw Hl c' d. rewrite coll_put. destruct (decide (c = c')) as [<-|]; [apply Hl|apply Hw]. Qed.

Lemma typed_update_one c q s db n db' :
  db_update_one c q s db = Some (n, db') -> typed_set c s = true -> well_typed db -> well_typed db'.
Proof.
  unfold db_update_one. destruct (List.find _ _); [|by intros [= _ <-]].
  destruct (_ && _); [|done]. intros [= _ <-] Hs Hw. apply well_typed_put; [done|].
  intros e [He|(x & Hx & _ & ->)]%elem_of_update_first; [by apply Hw|by apply typed_set_fields, Hw].
Qed.

Lemma typed_update_some c s p db n db' :
  db_update_some c s p db = Some (n, db') -> typed_set c s = true -> well_typed db -> well_typed db'.
Proof.
  unfold db_update_some. destruct (_ && _); [|done]. intros [= _ <-] Hs Hw. apply well_typed_put; [done|].
  intros e (x & Hx & ->)%elem_of_update_all.
  destruct (p x); [by apply typed_set_fields, Hw|by apply Hw].
Qed.

Lemma typed_delete_one c q db u db' :
  db_delete_one c q db = Some (u, db') -> well_typed db -> well_typed db'.
Proof.
  intros [= _ <-] Hw. apply well_typed_put; [done|]. intros d Hd%elem_of_delete_first. by apply Hw.
Qed.
Lemma typed_delete_some c p db u db' :
  db_delete_some c p db = Some (u, db') -> well_typed db -> well_typed db'.
Proof.
  intros [= _ <-] Hw. apply well_typed_put; [done|]. intros d [Hd _]%elem_of_List_filter. by apply Hw.
Qed.

Lemma well_typed_same db db' : same_docs db db' -> well_typed db -> well_typed db'.
Proof. intros [Hc _] Hw c d. rewrite Hc. apply Hw. Qed.

(** ** The methods as operations *)

Inductive store_op :=
| CreateSession (client_id mode : string) (title user_id session_id key : option string) (now : Q) (new_id : string)
| AppendMessage (client_id session_id role content format : string) (ai_type : option string)
    (extras : option (list (string * pyval))) (user_id key : option string) (now : Q) (object_id : string)
| UpdateSession (client_id session_id : string) (user_id title mode : option string) (archived : option pyval)
    (folder_id : option (option string)) (pinned : option pyval) (now : Q)
| DeleteSession (client_id session_id : string) (user_id : option string)
| CreateFolder (client_id : string) (name user_id folder_id : option string) (now : Q) (new_id : string)
| UpdateFolder (client_id folder_id : string) (user_id : option string) (name : option (option string))
    (pinned : option pyval) (now : Q)
| RenameFolder (client_id folder_id : string) (name user_id : option string) (now : Q)
| DeleteFolder (client_id folder_id : string) (user_id : option string) (now : Q).

Definition run_op {M} `{Mongo M} (o : store_op) : io M unit :=
  match o with
  | CreateSession c m t u s k now i => create_session c m t u s k now i ;; ret ()
  | AppendMessage c s r x f a ex u k now i => append_message c s r x f a ex u k now i ;; ret ()
  | UpdateSession c s u t m a f p now => update_session c s u t m a f p now
  | DeleteSession c s u => delete_session c s u
  | CreateFolder c n u f now i => create_folder c n u f now i ;; ret ()
  | UpdateFolder c f u n p now => update_folder c f u n p now
  | RenameFolder c f n u now => rename_folder c f n u now
  | DeleteFolder c f u now => delete_folder c f u now
  end.

(** The caller: a user when there is one, the client otherwise. *)
Definition op_caller (o : store_op) : string * option string :=
  match o with
  | CreateSession c _ _ u _ _ _ _ | AppendMessage c _ _ _ _ _ _ u _ _ _ | UpdateSession c _ u _ _ _ _ _ _
  | DeleteSession c _ u | CreateFolder c _ u _ _ _ | UpdateFolder c _ u _ _ _ | RenameFolder c _ _ u _
  | DeleteFolder c _ u _ => (c, u)
  end.

(** Calls one after the other; each may fail, and the next one runs. *)
Definition run_ops {M} `{Mongo M} (os : list store_op) (e : env M) : env M :=
  foldl (fun e o => (run_op o e).2) e os.

(** ** Every method keeps the documents well typed and their keys unique *)

Definition store_ok (db : database) : Prop := well_typed db /\ keys_unique db.

Lemma typed_session_doc sid c u m t now : typed_doc "chat_sessions" (session_doc sid c u m t now) = true.
Proof. by destruct u. Qed.
Lemma typed_message_doc i s r x f a ex now :
  typed_doc "chat_messages" (<["_id" := PStr i]> (message_doc s r x f a ex now)) = true.
Proof. by destruct a. Qed.
Lemma typed_message_doc_key k s r x f a ex now :
  typed_doc "chat_messages"
    (<["_id" := PStr k]> (<["idempotency_key" := PStr k]> (message_doc s r x f a ex now))) = true.
Proof. by destruct a. Qed.
Lemma typed_folder_doc f c u n now : typed_doc "chat_folders" (folder_doc f c u n now) = true.
Proof. by destruct u. Qed.
Lemma typed_touch s r x now : typed_set "chat_sessions" (touch_update s r x now) = true.
Proof. unfold touch_update. by destruct (_ && _). Qed.
Lemma typed_session_update t m a f p now :
  typed_set "chat_sessions" (session_update t m a f p now) = true.
Proof. by destruct t, m, a, f as [[]|], p. Qed.
Lemma typed_folder_update n p now s :
  folder_update n p now = Ok s -> typed_set "chat_folders" s = true.
Proof.
  unfold folder_update. destruct n as [n|]; [destruct (String.eqb _ _); [done|]|];
    intros [= <-]; by destruct p.
Qed.
Lemma typed_session_doc_key k sid c u m t now :
  typed_doc "chat_sessions" (<["idempotency_key" := PStr k]> (session_doc sid c u m t now)) = true.
Proof. by destruct u. Qed.
Lemma typed_unassign now : typed_set "chat_sessions" (<["folder_id" := PNone]> {["updated_at" := PTime now]}) = true.
Proof. done. Qed.
Lemma typed_rename n now : typed_set "chat_folders" (<["name" := PStr n]> {["updated_at" := PTime now]}) = true.
Proof. done. Qed.
#[export] Hint Resolve typed_session_doc_key typed_unassign typed_rename typed_session_doc typed_message_doc typed_message_doc_key typed_folder_doc
  typed_touch typed_session_update typed_folder_update : mongo.

(** Closes what a write leaves to show, up to the types of what is written. *)
Ltac keep_ok :=
  intros ? ? ? E [Hw Hu];
  lazymatch type of E with
  | db_insert _ _ _ = _ => split; [eapply typed_insert; [exact E| |done]|by eapply unique_insert]
  | db_upsert _ _ _ _ = _ => split; [eapply typed_upsert; [exact E| |done]|by eapply unique_upsert]
  | db_update_one _ _ _ _ = _ => split; [eapply typed_update_one; [exact E| |done]|by eapply unique_update_one]
  | db_update_some _ _ _ _ = _ => split; [eapply typed_update_some; [exact E| |done]|by eapply unique_update_some]
  | db_delete_one _ _ _ = _ => split; [by eapply typed_delete_one|by eapply unique_delete_one]
  | db_delete_some _ _ _ = _ => split; [by eapply typed_delete_some|by eapply unique_delete_some]
  end; rewrite ?typed_doc_bson, ?typed_set_bson.

Section typing.
Context {M : Type} `{MongoLaws M}.

Lemma keeps_open_ok : keeps (M := M) (preserves store_ok) open_db.
Proof.
  intros e [Hw Hu]. destruct (keeps_open_db e) as [Hc Hk]. split; [|auto].
  eapply well_typed_same; [split; [exact Hc|exact Hk]|done].
Qed.

Lemma run_op_ok o : keeps (M := M) (preserves store_ok) (run_op o).
Proof.
  destruct o; simpl; unfold create_session, append_message, update_session, delete_session,
    create_folder, update_folder, rename_folder, delete_folder, find_session, find_folder;
    repeat (match goal with |- keeps _ open_db => apply keeps_open_ok | _ => keeps_step end); keep_ok; by eauto with mongo.
Qed.
End typing.

(** ** Callers do not touch each other's chats *)

(** A [$set] that leaves the identity and the owner of a document alone *)
Definition keeps_owner (s : document) : bool :=
  forallb (fun k => bool_decide (s !! k = None)) ["_id"; "user_id"; "client_id"].
Lemma keeps_owner_spec s : keeps_owner s = true ->
  s !! "_id" = None /\ s !! "user_id" = None /\ s !! "client_id" = None.
Proof. unfold keeps_owner. simpl. rewrite !andb_true_iff, !bool_decide_eq_true. tauto. Qed.

Lemma keeps_owner_bson s : keeps_owner (bson_doc s) = keeps_owner s.
Proof.
  unfold keeps_owner. simpl. rewrite !lookup_bson.
  by destruct (s !! "_id"), (s !! "user_id"), (s !! "client_id").
Qed.
Lemma keeps_owner_stored s : keeps_owner s = true -> keeps_owner (bson_doc s) = true.
Proof. by rewrite keeps_owner_bson. Qed.

Lemma touch_keeps_owner s r x now : keeps_owner (touch_update s r x now) = true.
Proof. unfold touch_update. by destruct (_ && _). Qed.
Lemma session_update_keeps_owner t m a f p now : keeps_owner (session_update t m a f p now) = true.
Proof. by destruct t, m, a, f, p. Qed.
Lemma folder_update_keeps_owner n p now s : folder_update n p now = Ok s -> keeps_owner s = true.
Proof.
  unfold folder_update. destruct n as [n|]; [destruct (String.eqb _ _); [done|]|];
    intros [= <-]; by destruct p.
Qed.
#[export] Hint Resolve keeps_owner_stored touch_keeps_owner session_update_keeps_owner folder_update_keeps_owner : mongo.

Section isolation.
Variables (client_id : string) (user_id : option string).

(** Sessions and folders of others stay as they are; their sessions neither
    lose nor gain messages. *)
Record untouched (db db' : database) : Prop := {
  sessions_kept s : s ∈ coll "chat_sessions" db -> owned client_id user_id s = false ->
    s ∈ coll "chat_sessions" db';
  messages_kept s m : s ∈ coll "chat_sessions" db -> owned client_id user_id s = false ->
    get "session_id" m = get "_id" s -> m ∈ coll "chat_messages" db <-> m ∈ coll "chat_messages" db';
  folders_kept f : f ∈ coll "chat_folders" db -> owned client_id user_id f = false ->
    f ∈ coll "chat_folders" db' }.

#[local] Instance untouched_preorder : PreOrder untouched.
Proof.
  split; [by intros db|]. intros a b c [A1 A2 A3] [B1 B2 B3]. split.
  - eauto.
  - intros s m Hs Ho Hm. rewrite (A2 s m) by done. apply (B2 s); eauto.
  - eauto.
Qed.

(** The document [i] of collection [c], if it is there, is the caller's. *)
Definition mine (c i : string) (db : database) : Prop :=
  forall d, d ∈ coll c db -> owned client_id user_id d = false -> get "_id" d <> PStr i.

Definition guarded (c i : string) (db db' : database) : Prop :=
  mine c i db -> mine c i db' /\ untouched db db'.
#[local] Instance guarded_preorder c i : PreOrder (guarded c i).
Proof.
  split; [by intros db Hm; split|]. intros a b d Hab Hbd Hm.
  destruct (Hab Hm) as [Hm' H1]. destruct (Hbd Hm') as [Hm'' H2]. split; [done|by etrans].
Qed.

Lemma mine_found c i db d : store_ok db -> d ∈ coll c db ->
  get "_id" d = PStr i -> owned client_id user_id d = true -> mine c i db.
Proof.
  intros [_ Hu] Hd Hi Ho e He Hoe Hie.
  assert (e = d) as -> by by eapply (by_id_unique db c). congruence.
Qed.

Lemma owned_set_fields s d : keeps_owner s = true ->
  owned client_id user_id (set_fields s d) = owned client_id user_id d.
Proof. intros (_ & H1 & H2)%keeps_owner_spec. unfold owned. by rewrite !get_set_fields, H1, H2. Qed.

Lemma untouched_other c l db : c ∉ ["chat_sessions"; "chat_messages"; "chat_folders"] ->
  untouched db (put_coll c l db).
Proof. intros Hc. split; intros; rewrite ?coll_put; repeat case_decide; subst; set_solver. Qed.

(** A write to one document that is the caller's *)
Lemma guarded_update_one c i s n db db' : c = "chat_sessions" \/ c = "chat_folders" ->
  keeps_owner s = true -> db_update_one c (by_id i) s db = Some (n, db') -> guarded c i db db'.
Proof.
  intros Hc Hs. unfold db_update_one. destruct (List.find _ _); [|intros [= _ <-] ?; done].
  destruct (_ && _); [|done]. intros [= _ <-] Hm. unfold by_id.
  assert (forall d, d ∈ coll c db -> owned client_id user_id d = false -> matches (by_id i) d = false) as Hf.
  { intros d Hd Ho. apply not_true_iff_false. unfold by_id. rewrite matches_by_eq. by apply Hm. }
  split.
  - intros d. rewrite coll_put. rewrite decide_True by done.
    intros [Hd|(x & Hx & _ & ->)]%elem_of_update_first; [by apply Hm|].
    rewrite owned_set_fields by done. intros Ho. apply keeps_owner_spec in Hs as [Hs _].
    rewrite get_set_fields, Hs. by apply Hm.
  - split; intros; rewrite coll_put; destruct Hc as [->| ->]; simpl; try done;
      apply update_first_keeps; auto.
Qed.

Lemma guarded_delete_one c i u db db' : c = "chat_sessions" \/ c = "chat_folders" ->
  db_delete_one c (by_id i) db = Some (u, db') -> guarded c i db db'.
Proof.
  intros Hc [= _ <-] Hm. unfold by_id.
  assert (forall d, d ∈ coll c db -> owned client_id user_id d = false -> matches (by_id i) d = false) as Hf.
  { intros d Hd Ho. apply not_true_iff_false. unfold by_id. rewrite matches_by_eq. by apply Hm. }
  split.
  - intros d. rewrite coll_put, decide_True by done. intros Hd%elem_of_delete_first. by apply Hm.
  - split; intros; rewrite coll_put; destruct Hc as [->| ->]; simpl; try done;
      apply delete_first_keeps; auto.
Qed.

Lemma guarded_insert_message i d u db db' : get "session_id" d = PStr i ->
  db_insert "chat_messages" d db = Some (u, db') -> guarded "chat_sessions" i db db'.
Proof.
  intros Hd E Hm. split.
  - intros x. rewrite (elem_of_insert _ _ _ _ _ _ _ E). intros [?|[? _]]; [by apply Hm|done].
  - split; intros; rewrite (elem_of_insert _ _ _ _ _ _ _ E); try naive_solver.
    split; [by left|]. intros [?|[_ ->]]; [done|]. exfalso. apply (Hm s); congruence.
Qed.

Lemma guarded_delete_messages i p u db db' :
  (forall d, p d = true -> matches [("session_id", CEq (PStr i))] d = true) ->
  db_delete_some "chat_messages" p db = Some (u, db') ->
  guarded "chat_sessions" i db db'.
Proof.
  intros Hp E Hm. split; [intros d; rewrite (coll_delete_some _ _ _ _ _ _ E); apply Hm|].
  split; intros; rewrite (coll_delete_some _ _ _ _ _ _ E); case_decide; try done.
  rewrite elem_of_List_filter, negb_true_iff, <- not_true_iff_false.
  split; [|tauto]. intros ?. split; [done|]. intros Hpm%Hp%matches_by_eq.
  apply (Hm s); congruence.
Qed.
End isolation.

Section isolated.
Context {M : Type} `{MongoLaws M}.
Variables (client_id : string) (user_id : option string).
#[local] Instance guarded_pre c i : PreOrder (guarded client_id user_id c i) := guarded_preorder _ _ c i.
#[local] Instance untouched_pre : PreOrder (untouched client_id user_id) := untouched_preorder _ _.

Lemma untouched_same db db' : same_docs db db' -> untouched client_id user_id db db'.
Proof. intros [Hc _]. split; intros; rewrite Hc; done. Qed.

Lemma store_ok_same db db' : same_docs db db' -> store_ok db -> store_ok db'.
Proof. intros Hs [Hw Hu]. split; [by eapply well_typed_same|]. destruct Hs; auto. Qed.

Lemma wp_by_id c i (Q : result pyexn (option document) -> database -> Prop) db :
  (forall d, d ∈ coll c db -> get "_id" d = PStr i -> Q (Ok (Some d)) db) ->
  Q (Ok None) db -> (forall x, Q (Err x) db) -> wp (M := M) (send (find_one c (by_id i) [])) Q db.
Proof.
  intros HS HN HE. eapply wp_read; [apply law_find_one| |done].
  intros o (l & [Hl _] & ->). destruct l as [|d l]; simpl; [done|].
  assert (d ∈ List.filter (matches (by_id i)) (coll c db)) as Hd by (rewrite <- Hl; by left).
  apply elem_of_List_filter in Hd as [Hd Hm%matches_by_eq]. auto.
Qed.

(** The shape of the methods that check the owner first: open, find the
    document by its id, go on when it is the caller's. *)
Lemma isolated_checked {A} c i (k : document -> io M A) (no : io M A) db :
  store_ok db ->
  (forall d, keeps (guarded client_id user_id c i) (k d)) -> (forall e, (no e).2 = e) ->
  wp (open_db ;; let! o := send (find_one c (by_id i) []) in
      match o with
      | Some d => if owned client_id user_id d then k d else no
      | None => no
      end) (fun _ db' => untouched client_id user_id db db') db.
Proof.
  intros Hok Hk Hno. apply wp_bind, wp_open_db. intros r db1 Hs.
  pose proof (untouched_same _ _ Hs) as Hu. destruct r as [[]|]; [|done].
  assert (wp no (fun _ db' => untouched client_id user_id db db') db1) as Hn.
  { intros e <-. by rewrite Hno. }
  apply wp_bind, wp_by_id; [|done|done]. intros d Hd Hi.
  destruct (owned client_id user_id d) eqn:Ho; [|done].
  eapply wp_keeps; [apply Hk|]. intros r db' Hg. etrans; [exact Hu|]. apply Hg.
  eapply mine_found; eauto using store_ok_same.
Qed.

Lemma bind_found {A} c i (other : pyexn) (k : document -> io M A) e :
  (let! d := (let! o := send (find_one c (by_id i) []) in
              match o with
              | Some d => if owned client_id user_id d then ret d else raise other
              | None => raise other
              end) in k d) e =
  (let! o := send (find_one c (by_id i) []) in
   match o with
   | Some d => if owned client_id user_id d then k d else raise other
   | None => raise other
   end) e.
Proof.
  unfold bind. destruct (send (find_one c (by_id i) []) e) as [[[d|]|x] e']; try done.
  by destruct (owned client_id user_id d).
Qed.

Lemma wp_ext {A} (c c' : io M A) Q db : (forall e, c e = c' e) -> wp c' Q db -> wp c Q db.
Proof. intros E Hc e He. rewrite E. by apply Hc. Qed.

Lemma isolated_found {A} c i (k : document -> io M A) (other : pyexn) db :
  store_ok db ->
  (forall d, keeps (guarded client_id user_id c i) (k d)) ->
  wp (open_db ;; let! d := (let! o := send (find_one c (by_id i) []) in
        match o with
        | Some d => if owned client_id user_id d then ret d else raise other
        | None => raise other
        end) in k d) (fun _ db' => untouched client_id user_id db db') db.
Proof.
  intros Hok Hk. eapply wp_ext; [|by apply (isolated_checked c i k (raise other))].
  intros e. unfold bind at 1 4. destruct (open_db e) as [[[]|x] e']; [|done]. apply bind_found.
Qed.

(** Effects the guarded continuations have *)
Lemma guarded_upsert_message i q d a db db' : get "session_id" d = PStr i ->
  db_upsert "chat_messages" q d db = Some (a, db') -> guarded client_id user_id "chat_sessions" i db db'.
Proof.
  intros Hd. unfold db_upsert. destruct (List.find _ _); [by intros [= _ <-] ?|].
  destruct (db_insert _ _ _) as [[u db1]|] eqn:E; [|done]. intros [= _ <-]. by eapply guarded_insert_message.
Qed.

(** A new document changes nothing for the others. *)
Lemma untouched_insert c d u db db' : c = "chat_sessions" \/ c = "chat_folders" ->
  db_insert c d db = Some (u, db') -> untouched client_id user_id db db'.
Proof.
  intros Hc E. split; intros; rewrite (elem_of_insert _ _ _ _ _ _ _ E); try by left.
  split; [by left|]. intros [?|[-> _]]; [done|]. by destruct Hc.
Qed.
Lemma untouched_upsert c q d a db db' : c = "chat_sessions" \/ c = "chat_folders" ->
  db_upsert c q d db = Some (a, db') -> untouched client_id user_id db db'.
Proof.
  intros Hc. unfold db_upsert. destruct (List.find _ _); [by intros [= _ <-]|].
  destruct (db_insert _ _ _) as [[u db1]|] eqn:E; [|done]. intros [= _ <-]. by eapply untouched_insert.
Qed.

(** Leaving a folder changes the caller's sessions only. *)
Lemma matches_owner d : matches (owner_query client_id user_id) d = owned client_id user_id d.
Proof.
  unfold owner_query, owned. destruct (truthy_str user_id); unfold matches; simpl; by rewrite andb_true_r.
Qed.

Lemma guarded_unassign i f p s n db db' :
  (forall d, p d = true -> matches (("folder_id", f) :: owner_query client_id user_id) d = true) ->
  db_update_some "chat_sessions" s p db = Some (n, db') ->
  guarded client_id user_id "chat_folders" i db db'.
Proof.
  intros Hp E Hm. unfold db_update_some in E. destruct (_ && _); [|done].
  set (l := update_all _ _ _) in E. injection E as _ <-.
  split; [intros d; rewrite coll_put; apply Hm|].
  split; intros; rewrite coll_put; case_decide; try done.
  subst l. apply elem_of_update_all. exists s0. split; [done|].
  destruct (p s0) eqn:Ep; [|done]. apply Hp in Ep.
  change (matches (?x :: ?q) s0) with (holds f (get "folder_id" s0) && matches q s0) in Ep.
  rewrite matches_owner in Ep. apply andb_true_iff in Ep as [_ Ep]. congruence.
Qed.

Ltac guard_steps :=
  intros ?; repeat keeps_step; intros ???;
  first [apply guarded_update_one; [naive_solver|by eauto with mongo]
        | apply guarded_delete_one; naive_solver | by eapply guarded_delete_messages
        | by eapply guarded_unassign | apply guarded_upsert_message; by apply get_bson_str
        | apply guarded_insert_message; by apply get_bson_str].

Lemma keeps_open_untouched : keeps (M := M) (untouched client_id user_id) open_db.
Proof. intros e. apply untouched_same, keeps_open_db. Qed.

Lemma isolated_op o db : op_caller o = (client_id, user_id) -> store_ok db ->
  wp (M := M) (run_op o) (fun _ db' => untouched client_id user_id db db') db.
Proof.
  intros Ho Hok. destruct o; simpl in Ho; injection Ho as -> ->; simpl.
  - apply (wp_keeps (untouched client_id user_id)); [|done]. unfold create_session.
    repeat first [apply keeps_open_untouched|keeps_step]; intros ???;
      first [apply untouched_upsert; naive_solver|apply untouched_insert; naive_solver].
  - apply wp_bind. eapply wp_mono; [apply isolated_found; [done|guard_steps]|].
    intros [] db' Hu; [by apply wp_ret|done].
  - apply isolated_found; [done|guard_steps].
  - apply isolated_checked; [done|guard_steps|done].
  - apply (wp_keeps (untouched client_id user_id)); [|done]. unfold create_folder.
    repeat first [apply keeps_open_untouched|keeps_step]; intros ???; apply untouched_insert; naive_solver.
  - apply isolated_found; [done|guard_steps].
  - apply isolated_found; [done|guard_steps].
  - apply isolated_checked; [done|guard_steps|done].
Qed.
End isolated.

(** ** Messages with an idempotency key *)

Section keyed.
Context {M : Type} `{MongoLaws M}.

Definition key_query (k : string) : query := [("idempotency_key", CEq (PStr k))].
Definition keyed (k : string) (l : list document) : list document := List.filter (matches (key_query k)) l.
Definition messages (db : database) : list document := coll "chat_messages" db.

(** The upsert of [doc] under the key [k] has run, or has not, on top of the
    messages [l]. *)
Definition upserted (k : string) (doc : document) (l : list document) (db : database) : Prop :=
  messages db = l \/ (keyed k l = [] /\ messages db = l ++ [doc]).

Lemma find_filter_head {A} (p : A -> bool) l : List.find p l = head (List.filter p l).
Proof. induction l as [|x l IH]; simpl; [done|]. by destruct (p x). Qed.

Lemma upsert_upserted k doc l a db db' : matches (key_query k) doc = true ->
  db_upsert "chat_messages" (key_query k) doc db = Some (a, db') -> upserted k doc l db ->
  upserted k doc l db' /\ head (keyed k (messages db')) = Some a.
Proof.
  intros Hd E Hu. unfold db_upsert in E. rewrite find_filter_head in E.
  change (List.filter _ _) with (keyed k (messages db)) in E.
  destruct (keyed k (messages db)) as [|m ms] eqn:Ek; simpl in E.
  - unfold db_insert in E. destruct (forallb _ _); [|done]. injection E as <- <-.
    assert (messages (put_coll "chat_messages" (coll "chat_messages" db ++ [doc]) db) = messages db ++ [doc])
      as Hm by (unfold messages; by rewrite coll_put).
    assert (messages db = l) as Hl.
    { destruct Hu as [Hu|[_ Hu]]; [done|]. exfalso. rewrite Hu in Ek. unfold keyed in Ek.
      rewrite List.filter_app in Ek. simpl in Ek. rewrite Hd in Ek. by destruct (List.filter _ l). }
    split; [right; by rewrite Hm, <- Hl|]. rewrite Hm. unfold keyed in *.
    rewrite List.filter_app, Ek. simpl. by rewrite Hd.
  - injection E as <- <-. split; [done|]. by rewrite Ek.
Qed.

Lemma upserted_effects k doc l db db' : matches (key_query k) doc = true ->
  rtc (effect (db_upsert "chat_messages" (key_query k) doc)) db db' ->
  upserted k doc l db -> upserted k doc l db'.
Proof. intros Hd Hr. induction Hr as [|x y z [a E] _ IH]; [done|]. intros Hu. by eapply IH, upsert_upserted. Qed.

Lemma messages_update_session q s n db db' :
  db_update_one "chat_sessions" q s db = Some (n, db') -> messages db' = messages db.
Proof.
  unfold db_update_one. destruct (List.find _ _); [|by intros [= _ <-]].
  destruct (_ && _); [|done]. intros [= _ <-]. unfold messages. by rewrite coll_put.
Qed.
Lemma messages_touch q s db db' :
  rtc (effect (db_update_one "chat_sessions" q s)) db db' -> messages db' = messages db.
Proof.
  intros Hr. induction Hr as [|x y z [n E] _ IH]; [done|].
  rewrite IH. by eapply messages_update_session.
Qed.

Lemma wp_find_session client_id session_id user_id (Q : result pyexn document -> database -> Prop) db :
  (forall d, d ∈ coll "chat_sessions" db -> get "_id" d = PStr session_id ->
     owned client_id user_id d = true -> Q (Ok d) db) ->
  (forall x, Q (Err x) db) -> wp (M := M) (find_session client_id session_id user_id) Q db.
Proof.
  intros HS HE. apply wp_bind, wp_by_id; [|by apply wp_raise|done]. intros d Hd Hi.
  destruct (owned client_id user_id d) eqn:Ho; [apply wp_ret; auto|by apply wp_raise].
Qed.

(** The session [i], and it is the caller's *)
Definition has_session (client_id : string) (user_id : option string) (i : string) (db : database) : Prop :=
  exists d, d ∈ coll "chat_sessions" db /\ get "_id" d = PStr i /\ owned client_id user_id d = true.

Lemma has_session_upsert c u i q doc a db db' :
  db_upsert "chat_messages" q doc db = Some (a, db') -> has_session c u i db -> has_session c u i db'.
Proof.
  unfold db_upsert. destruct (List.find _ _); [by intros [= _ <-]|].
  destruct (db_insert _ _ _) as [[x db1]|] eqn:E; [|done]. intros [= _ <-] (d & Hd & Hi & Ho).
  exists d. split; [|done]. rewrite (elem_of_insert _ _ _ _ _ _ _ E). by left.
Qed.

Lemma update_first_hit q s l d : d ∈ l -> d ∈ update_first q s l \/
  (exists x, List.find (matches q) l = Some x /\ matches q d = true /\ set_fields s x ∈ update_first q s l).
Proof.
  intros Hd. destruct (matches q d) eqn:Em; [|left; by apply update_first_keeps].
  right. induction l as [|x l IH]; [by apply elem_of_nil in Hd|]. simpl.
  destruct (matches q x) eqn:Ex; [exists x; repeat split; by left|].
  apply elem_of_cons in Hd as [->|Hd]; [congruence|].
  destruct (IH Hd) as (y & Hy & _ & Hs). exists y. repeat split; [done|by right].
Qed.

Lemma has_session_update c u i s n db db' : keeps_owner s = true -> keys_unique db ->
  db_update_one "chat_sessions" (by_id i) s db = Some (n, db') ->
  has_session c u i db -> has_session c u i db'.
Proof.
  intros Hs Hu. unfold db_update_one. destruct (List.find _ _) as [x|] eqn:Ex; [|by intros [= _ <-]].
  destruct (_ && _); [|done]. intros [= _ <-] (d & Hd & Hi & Ho).
  unfold has_session. rewrite coll_put, decide_True by done.
  apply find_elem in Ex as Ex'. destruct Ex' as [Hx Hxi%matches_by_eq].
  assert (x = d) as ->.
  { by eapply (by_id_unique db "chat_sessions"). }
  destruct (update_first_hit (by_id i) s _ d Hd) as [Hd'|(y & Hy & _ & Hin)]; [by exists d|].
  assert (y = d) as -> by congruence. exists (set_fields s d). split; [done|].
  rewrite owned_set_fields by done. apply keeps_owner_spec in Hs as [Hs _].
  by rewrite get_set_fields, Hs.
Qed.

Definition alive (c : string) (u : option string) (i : string) (db : database) : Prop :=
  keys_unique db /\ has_session c u i db.
Lemma alive_upsert c u i q doc a db db' :
  db_upsert "chat_messages" q doc db = Some (a, db') -> alive c u i db -> alive c u i db'.
Proof. intros E [Hu Hs]. split; [eauto with mongo|by eapply has_session_upsert]. Qed.
Lemma alive_update c u i s n db db' : keeps_owner s = true ->
  db_update_one "chat_sessions" (by_id i) s db = Some (n, db') -> alive c u i db -> alive c u i db'.
Proof. intros Hs E [Hu Hh]. split; [eauto with mongo|by eapply has_session_update]. Qed.

Lemma append_upserts client_id session_id role content format ai_type extras user_id k now oid db :
  k <> "" -> keys_unique db ->
  let doc := bson_doc (<["_id" := PStr k]> (<["idempotency_key" := PStr k]>
    (message_doc session_id role content format ai_type (default [] extras) now))) in
  wp (M := M) (append_message client_id session_id role content format ai_type extras user_id (Some k) now oid)
    (fun r db' => upserted k doc (messages db) db' /\
       forall i, r = Ok i -> alive client_id user_id session_id db' /\
         exists m, head (keyed k (messages db')) = Some m /\
           i = match get "_id" m with PStr s => s | _ => "" end) db.
Proof.
  intros Hk Huniq doc. assert (matches (key_query k) doc = true) as Hd
    by by apply matches_by_eq, get_bson_str.
  apply wp_bind, wp_open_db. intros r db1 [Hs Hsu].
  assert (upserted k doc (messages db) db1) as Hu by (left; apply Hs).
  destruct r as [[]|]; [|by split].
  apply wp_bind, wp_find_session; [|by split]. intros d Hin Hi Ho.
  assert (alive client_id user_id session_id db1) as Ha by (split; [auto|by exists d]).
  replace (truthy_str (Some k)) with true by (simpl; by destruct (String.eqb_spec k "")).
  apply wp_bind, wp_bind. eapply wp_retry; [apply law_upsert|..].
  - intros a db2 db3 Hr E. pose proof (upserted_effects _ _ _ _ _ Hd Hr Hu) as Hu2.
    destruct (upsert_upserted _ _ _ _ _ _ Hd E Hu2) as [Hu3 Hh].
    assert (alive client_id user_id session_id db3) as Ha3.
    { eapply alive_upsert; [exact E|]. revert Ha.
      apply (keeps_effects (preserves _) _ _ _ (fun a d d' => alive_upsert _ _ _ _ _ a d d') Hr). }
    apply wp_ret, wp_bind. eapply wp_retry; [apply law_update_one|..].
    + intros n db4 db5 Hr4 E5. apply wp_ret.
      assert (messages db5 = messages db3) as Hm.
      { by rewrite (messages_update_session _ _ _ _ _ E5), (messages_touch _ _ _ _ Hr4). }
      unfold upserted in *. rewrite Hm. split; [done|]. intros i [= <-]. split; [|eauto].
      eapply alive_update; [apply keeps_owner_stored, touch_keeps_owner|exact E5|]. revert Ha3.
      apply (keeps_effects (preserves _) _ _ _
               (fun a d d' => alive_update _ _ _ _ a d d' (keeps_owner_stored _ (touch_keeps_owner _ _ _ _))) Hr4).
    + intros x db4 Hr4. split; [|done]. unfold upserted in *. by rewrite (messages_touch _ _ _ _ Hr4).
  - intros x db2 Hr. split; [|done]. by eapply upserted_effects.
Qed.
End keyed.

(** ** Reading a session *)

Section reading.
Context {M : Type} `{MongoLaws M}.

Lemma runs_by_id c i d (Q : option document -> database -> Prop) db :
  store_ok db -> d ∈ coll c db -> get "_id" d = PStr i -> Q (Some d) db ->
  runs (M := M) (send (find_one c (by_id i) [])) Q db.
Proof.
  intros [_ Hu] Hd Hi HQ. eapply runs_read; [apply law_find_one|].
  intros o (l & [Hl _] & ->). destruct l as [|x l]; simpl.
  - apply Permutation_nil_l in Hl. assert (d ∈ List.filter (matches (by_id i)) (coll c db)) as Hin.
    { apply elem_of_List_filter. split; [done|by apply matches_by_eq]. }
    rewrite <- Hl in Hin. by apply elem_of_nil in Hin.
  - assert (x ∈ List.filter (matches (by_id i)) (coll c db)) as Hx by (rewrite <- Hl; by left).
    apply elem_of_List_filter in Hx as [Hx Hm%matches_by_eq].
    assert (x = d) as ->; [|done]. by eapply (by_id_unique db c).
Qed.

Lemma runs_find_session client_id session_id user_id d (Q : document -> database -> Prop) db :
  store_ok db -> d ∈ coll "chat_sessions" db -> get "_id" d = PStr session_id ->
  owned client_id user_id d = true -> Q d db ->
  runs (M := M) (find_session client_id session_id user_id) Q db.
Proof.
  intros Hok Hd Hi Ho HQ. apply runs_bind. eapply runs_by_id; [done|done|done|].
  rewrite Ho. by apply runs_ret.
Qed.

Definition session_messages (session_id : string) (db : database) : list document :=
  List.filter (matches [("session_id", CEq (PStr session_id))]) (messages db).

Definition chronological (l : list document) : Prop :=
  StronglySorted (fun m m' => bson_le (get "created_at" m) (get "created_at" m') = true) l.

Lemma runs_get_session client_id session_id user_id d db :
  store_ok db -> indexable db -> d ∈ coll "chat_sessions" db -> get "_id" d = PStr session_id ->
  owned client_id user_id d = true ->
  runs (M := M) (get_session client_id session_id user_id true)
    (fun r db' => same_docs db db' /\ exists l, l ≡ₚ session_messages session_id db /\
       chronological l /\ r = (session_view d, Some (map view_message l))) db.
Proof.
  intros Hok Hx Hd Hi Ho. apply runs_bind, runs_open_db; [done|]. intros db1 Hs.
  pose proof (proj1 Hs) as Hc. apply runs_bind.
  eapply (runs_find_session _ _ _ d); [by eapply store_ok_same|by rewrite Hc|done|done|].
  apply runs_bind. eapply runs_read; [apply law_find|].
  intros o (l & [Hl Hsort] & ->). apply runs_ret. split; [done|]. exists l.
  split; [by rewrite Hl, Hc|]. split; [|done].
  eapply StronglySorted_impl; [|exact Hsort]. intros m m' Hle. simpl in Hle.
  by apply andb_true_iff in Hle as [? _].
Qed.

End reading.

(** ** What the store guarantees *)

Lemma run_ops_ok {M} `{MongoLaws M} os (e : env M) :
  store_ok (dbv e) -> store_ok (dbv (run_ops os e)).
Proof.
  intros Hok. apply (foldl_invariant _ (fun e => store_ok (dbv e))); [|done].
  intros e' o _. apply run_op_ok.
Qed.

(** C11: the calls of one owner, in any number and with any faults, leave the
    sessions and folders of every other owner as they are, and their sessions
    neither lose nor gain messages. *)
Theorem callers_isolated {M} `{MongoLaws M} client_id user_id os (e : env M) :
  store_ok (dbv e) -> Forall (fun o => op_caller o = (client_id, user_id)) os ->
  untouched client_id user_id (dbv e) (dbv (run_ops os e)).
Proof.
  intros Hok Hos. revert e Hok. induction Hos as [|o os Ho Hos IH]; intros e Hok; simpl.
  - apply (PreOrder_Reflexive (PreOrder := untouched_preorder _ _)).
  - eapply (PreOrder_Transitive (PreOrder := untouched_preorder _ _)); [by apply (isolated_op _ _ o (dbv e))|].
    apply IH. by apply run_op_ok.
Qed.

(** C35: a message sent with an idempotency key is stored at most once, however
    often the call is repeated and whatever acknowledgements are lost: the
    messages grow by this message (dates to the millisecond, as BSON keeps
    them), and only when none has the key yet; when
    the call returns, a message with the key is stored and its id is the
    answer. *)
Theorem append_exactly_once {M} `{MongoLaws M} client_id session_id role content format ai_type extras
  user_id k now oid (e : env M) :
  k <> "" -> keys_unique (dbv e) ->
  let res := append_message client_id session_id role content format ai_type extras user_id (Some k) now oid e in
  (messages (dbv res.2) = messages (dbv e) \/
   keyed k (messages (dbv e)) = [] /\
   messages (dbv res.2) = messages (dbv e) ++
     [bson_doc (<["_id" := PStr k]> (<["idempotency_key" := PStr k]>
        (message_doc session_id role content format ai_type (default [] extras) now)))]) /\
  (forall i, res.1 = Ok i -> exists m, head (keyed k (messages (dbv res.2))) = Some m /\
     i = match get "_id" m with PStr s => s | _ => "" end).
Proof.
  intros Hk Hu res.
  destruct (append_upserts client_id session_id role content format ai_type extras user_id k now oid
              (dbv e) Hk Hu e eq_refl) as [H1 H2].
  split; [exact H1|]. intros i Hi. by apply H2.
Qed.

(** C36: a message whose append with a fresh idempotency key was acknowledged
    is read back: on a server that answers, [get_session] returns exactly the
    session's messages in the order of their stored times, and the new one is
    among them with the role, content, format and type it was sent with, its
    extras (any dates in them to the millisecond) and the time it was sent,
    rounded down to the millisecond. *)
Theorem acknowledged_message_read {M} `{MongoLaws M} client_id session_id role content format ai_type extras
  user_id k now oid i (e e1 : env M) :
  k <> "" -> store_ok (dbv e) -> keyed k (messages (dbv e)) = [] ->
  append_message client_id session_id role content format ai_type extras user_id (Some k) now oid e = (Ok i, e1) ->
  ready e1 -> indexable (dbv e1) ->
  exists s l, (get_session client_id session_id user_id true e1).1 = Ok (s, Some (map view_message l)) /\
    l ≡ₚ session_messages session_id (dbv e1) /\ chronological l /\
    exists t, (t <= now < t + (1 # 1000))%Q /\
      MessageView (PStr role) (PStr content) (PStr format) (opt_str ai_type) (bson (PDict (default [] extras)))
        (PTime t) ∈ map view_message l.
Proof.
  intros Hk Hok Hempty E Hr Hx.
  destruct (append_upserts client_id session_id role content format ai_type extras user_id k now oid
              (dbv e) Hk (proj2 Hok) e eq_refl) as [Hu Hi].
  pose proof (run_op_ok (AppendMessage client_id session_id role content format ai_type extras user_id (Some k)
                now oid) e Hok) as Hok1.
  simpl in Hok1. unfold bind at 1 in Hok1. rewrite E in *. simpl in Hok1, Hu, Hi.
  destruct (Hi i eq_refl) as ([_ (d & Hd & Hid & Ho)] & m & Hm & _).
  destruct (runs_get_session client_id session_id user_id d (dbv e1) Hok1 Hx Hd Hid Ho e1 eq_refl Hr)
    as (r & Hres & _ & _ & l & Hl & Hch & ->).
  exists (session_view d), l. split_and!; try done.
  destruct Hu as [Hu|[_ Hu]]; [rewrite Hu, Hempty in Hm; done|].
  exists (ms now). split; [apply ms_bounds|].
  apply list_elem_of_fmap. eexists. split; [|rewrite Hl; apply elem_of_List_filter; split;
    [rewrite Hu; apply elem_of_app; right; by left|by apply matches_by_eq, get_bson_str]].
  destruct extras as [[|x ex]|], ai_type; done.
Qed.

(** The idempotency key of a session is not tied to its owner: on a server
    that answers, [create_session] called by anyone with a key already in use
    returns the existing session, with its id, owner and title, and creates
    nothing. *)
Theorem session_key_not_scoped {M} `{MongoLaws M} client_id mode title user_id session_id k now new_id d (e : env M) :
  k <> "" -> ready e -> well_typed (dbv e) -> indexable (dbv e) ->
  List.find (matches (key_query k)) (coll "chat_sessions" (dbv e)) = Some d ->
  let res := create_session client_id mode title user_id session_id (Some k) now new_id e in
  res.1 = Ok (session_view d) /\ coll "chat_sessions" (dbv res.2) = coll "chat_sessions" (dbv e).
Proof.
  intros Hk Hr Hw Hx Hf res.
  assert (has_keys ["_id"; "client_id"; "mode"; "title"; "created_at"; "updated_at"] d = Ok ()) as Hkeys.
  { unfold has_keys. case_match eqn:E; [exfalso; rename s into f|done].
    apply find_elem in E as [Hin Hn%bool_decide_eq_true]. apply find_elem in Hf as [Hd _].
    specialize (Hw _ _ Hd). unfold typed_doc in Hw. rewrite forallb_forall in Hw.
    assert (forallb (fun f => bool_decide (f ∈ (schema "chat_sessions").*1))
      ["_id"; "client_id"; "mode"; "title"; "created_at"; "updated_at"] = true) as Hall by by vm_compute.
    rewrite forallb_forall in Hall. apply list_elem_of_In, Hall, bool_decide_eq_true in Hin.
    apply list_elem_of_fmap in Hin as ([f' t] & -> & Ht). simpl in Hn.
    specialize (Hw (f', t) (proj1 (list_elem_of_In _ _) Ht)). simpl in Hw. by rewrite Hn in Hw. }
  assert (runs (M := M) (create_session client_id mode title user_id session_id (Some k) now new_id)
    (fun r db' => r = session_view d /\ coll "chat_sessions" db' = coll "chat_sessions" (dbv e)) (dbv e)) as Hruns.
  { apply runs_bind, runs_open_db; [done|]. intros db1 [Hs _].
    replace (truthy_str (Some k)) with true by (simpl; by destruct (String.eqb_spec k "")).
    apply runs_bind. eapply runs_retry; [apply law_upsert|unfold db_upsert; unfold key_query in Hf; by rewrite Hs, Hf|].
    rewrite Hkeys. apply runs_ret. by rewrite Hs. }
  destruct (Hruns e eq_refl Hr) as (a & Ha & _ & -> & Hc). by split.
Qed.

(** ** A store to run *)

Definition demo_session (i c u t : string) : document := session_doc i c (Some u) "research" (Some t) 10.
Definition demo_db : database :=
  DB {["chat_sessions" := [demo_session "s1" "c1" "u1" "Untitled Chat";
        <["idempotency_key" := PStr "k0"]> (demo_session "s2" "c2" "u2" "Secret plan")]]}
     [("chat_messages", "idempotency_key"); ("chat_sessions", "idempotency_key")].
Definition demo_env (fs : list (option (bool * pyexn))) : env mongod :=
  Env (Mongod demo_db fs) (Manager (Some 0%nat) (Some 0%nat) true 1 [0%nat]) true [].
Definition lost_ack : option (bool * pyexn) := Some (true, PyExn "AutoReconnect" "connection closed").

Definition demo_append (k : option string) (fs : list (option (bool * pyexn))) :=
  append_message "c1" "s1" "user" "Hello **world**" "text" None None (Some "u1") k 20 "o1" (demo_env fs).

Lemma demo_ok fs : store_ok (dbv (demo_env fs)).
Proof.
  split.
  - intros c d. change (dbv (demo_env fs)) with demo_db. unfold coll, demo_db. simpl.
    destruct (decide (c = "chat_sessions")) as [->|Hc].
    + intros [->|[->|[]%elem_of_nil]%elem_of_cons]%elem_of_cons; by vm_compute.
    + rewrite lookup_singleton_ne by done. by intros []%elem_of_nil.
  - intros c. change (dbv (demo_env fs)) with demo_db. unfold coll, demo_db. simpl.
    destruct (decide (c = "chat_sessions")) as [->|Hc]; [by vm_compute|].
    by rewrite lookup_singleton_ne.
Qed.

(** A lost acknowledgement is retried, and the key makes the retry harmless. *)
Example demo_append_key :
  (demo_append (Some "k1") [None; lost_ack]).1 = Ok "k1" /\
  length (messages (dbv (demo_append (Some "k1") [None; lost_ack]).2)) = 1%nat.
Proof. by vm_compute. Qed.

(** Without a key, a message whose acknowledgement is lost is stored, and
    the caller gets a duplicate-key error: the retry inserts the same document
    again.  The session's title and time are not updated. *)
Theorem legacy_append_misreports :
  (demo_append None [None; lost_ack]).1 = Err DuplicateKeyError /\
  length (messages (dbv (demo_append None [None; lost_ack]).2)) = 1%nat /\
  coll "chat_sessions" (dbv (demo_append None [None; lost_ack]).2) = coll "chat_sessions" demo_db.
Proof. split_and!; [by vm_compute..|]. apply (bool_decide_unpack _). by vm_compute. Qed.

Definition demo_ops : list store_op :=
  [CreateSession "c1" "coding" None (Some "u1") None (Some "k5") 30 "s5";
   AppendMessage "c1" "s1" "user" "hi" "text" None None (Some "u1") (Some "k6") 31 "o6";
   UpdateSession "c1" "s2" (Some "u1") (Some "mine now") None None None None 32;
   DeleteSession "c1" "s2" (Some "u1")].

Lemma callers_isolated_witness :
  untouched "c1" (Some "u1") demo_db (dbv (run_ops demo_ops (demo_env [None; lost_ack]))).
Proof.
  apply (callers_isolated "c1" (Some "u1") demo_ops (demo_env [None; lost_ack]) (demo_ok _)).
  repeat constructor.
Defined.

Lemma append_exactly_once_witness :
  exists m, head (keyed "k1" (messages (dbv (demo_append (Some "k1") [None; lost_ack]).2))) = Some m.
Proof.
  destruct (append_exactly_once "c1" "s1" "user" "Hello **world**" "text" None None (Some "u1") "k1" 20 "o1"
              (demo_env [None; lost_ack])) as [_ H]; [done|apply demo_ok|].
  destruct (H "k1") as (m & Hm & _); [by vm_compute|]. exists m. exact Hm.
Defined.

Lemma demo_indexable : indexable demo_db.
Proof.
  intros c. unfold coll, demo_db. simpl.
  destruct (decide (c = "chat_sessions")) as [->|Hc]; [by vm_compute|]. by rewrite lookup_singleton_ne.
Qed.

Lemma session_key_not_scoped_witness :
  (create_session "c9" "coding" None (Some "u9") None (Some "k0") 40 "s9" (demo_env [])).1
  = Ok (session_view (<["idempotency_key" := PStr "k0"]> (demo_session "s2" "c2" "u2" "Secret plan"))).
Proof.
  refine (proj1 (session_key_not_scoped "c9" "coding" None (Some "u9") None "k0" 40 "s9"
           (<["idempotency_key" := PStr "k0"]> (demo_session "s2" "c2" "u2" "Secret plan")) (demo_env []) _ _ _ _ _));
    [done|split; [by constructor|by intros _]|apply demo_ok|apply demo_indexable|].
  apply (bool_decide_unpack _). by vm_compute.
Defined.

Lemma indexable_check db :
  map_Forall (fun _ l => no_clash ["idempotency_key"] l = true) (colls db) -> indexable db.
Proof. intros Hm c. unfold coll. destruct (colls db !! c) as [l|] eqn:E; [by apply (Hm c)|done]. Qed.

Lemma acknowledged_message_read_witness :
  exists s l, (get_session "c1" "s1" (Some "u1") true (demo_append (Some "k1") [None; lost_ack]).2).1
      = Ok (s, Some (map view_message l)) /\ chronological l.
Proof.
  destruct (acknowledged_message_read "c1" "s1" "user" "Hello **world**" "text" None None (Some "u1") "k1" 20
    "o1" "k1" (demo_env [None; lost_ack]) (demo_append (Some "k1") [None; lost_ack]).2)
    as (s & l & Hg & _ & Hc & _); [done|apply demo_ok|by vm_compute|..].
  - apply injective_projections; [by vm_compute|done].
  - split; [|by vm_compute]. apply (bool_decide_unpack (Forall (fun o => o = None) _)). by vm_compute.
  - apply indexable_check. apply (bool_decide_unpack _). by vm_compute.
  - exists s, l. split; [exact Hg|exact Hc].
Defined.

(** ** Titles *)

(** [t] with its first letter in upper case begins [u]. *)
Definition begins (t u : string) : Prop := exists n, t = capitalise (str_take n u).

Lemma length_rstrip f s : (String.length (rstrip f s) <= String.length s)%nat.
Proof.
  induction s as [|c s IH]; simpl; [done|].
  destruct (rstrip f s); [destruct (f c); simpl; lia|]. simpl in *. lia.
Qed.
Lemma length_capitalise s : String.length (capitalise s) = String.length s.
Proof. by destruct s. Qed.
Lemma length_str_take_le n s : (String.length (str_take n s) <= String.length s)%nat.
Proof. revert s. induction n as [|n IH]; intros [|c s]; simpl; try lia. specialize (IH s). lia. Qed.
Lemma rstrip_take f s : exists n, rstrip f s = str_take n s.
Proof.
  induction s as [|c s [n IH]]; simpl; [by exists 0%nat|]. rewrite IH.
  destruct (str_take n s) as [|x r] eqn:E.
  - destruct (f c); [by exists 0%nat|]. exists 1%nat. done.
  - exists (S n). simpl. by rewrite E.
Qed.
Lemma take_capitalise n s : exists m, str_take n (capitalise s) = capitalise (str_take m s).
Proof. destruct n as [|n], s as [|c s]; simpl; [by exists 0%nat..|by exists (S n)]. Qed.

(** A title is ["New Chat"] when nothing is left of the query once tags,
    markdown and surplus blanks are gone; a text that fits is kept whole; a
    longer one is cut to at most [max_chars] characters of its beginning,
    followed by the ellipsis. *)
Theorem title_spec query max_chars : 0 <= max_chars ->
  let text := clean_query query in
  let title := _generate_title_from_query query max_chars in
  (query = "" \/ text = "" -> title = "New Chat") /\
  (query <> "" -> text <> "" -> Z.of_nat (String.length text) <= max_chars -> title = capitalise text) /\
  (query <> "" -> max_chars < Z.of_nat (String.length text) ->
     exists t, title = t +:+ ELLIPSIS /\ begins t text /\ Z.of_nat (String.length t) <= max_chars).
Proof.
  intros Hm text title. unfold title, _generate_title_from_query. fold text.
  destruct (String.eqb_spec query "") as [->|Hq].
  { split; [done|]. split; by intros []. }
  destruct (String.eqb_spec text "") as [->|Ht].
  { split; [done|]. split; [by intros _ []|]. simpl. intros. lia. }
  destruct (Z.leb_spec (Z.of_nat (String.length text)) max_chars) as [Hl|Hl].
  { split; [by intros []|]. split; [done|]. intros. lia. }
  split; [by intros []|]. split; [intros; lia|]. intros _ _.
  set (tr := str_take (Z.to_nat max_chars) text).
  match goal with |- context [if ?b then ?x else tr] => set (tr' := if b then x else tr) end.
  assert (exists n, tr' = str_take n text /\ Z.of_nat (String.length tr') <= max_chars) as (n & Hn & Hln).
  { pose proof (length_str_take (Z.to_nat max_chars) text).
    unfold tr', tr. case_match; [|eexists; split; [done|lia]].
    rewrite str_take_take. eexists. split; [done|].
    rewrite <- str_take_take. pose proof (length_str_take_le (Z.to_nat (rfind_space 0 (-1) (str_take (Z.to_nat max_chars) text))) (str_take (Z.to_nat max_chars) text)).
    lia. }
  exists (rstrip (fun c => char_in c ".,;: ") (capitalise tr')). split; [done|].
  split; [|pose proof (length_rstrip (fun c => char_in c ".,;: ") (capitalise tr')) as Hr;
           rewrite length_capitalise in Hr; lia].
  destruct (rstrip_take (fun c => char_in c ".,;: ") (capitalise tr')) as [m ->].
  destruct (take_capitalise m tr') as [p ->]. rewrite Hn, str_take_take. by eexists.
Qed.

Lemma title_spec_witness :
  _generate_title_from_query "# <b>what</b> is   Rocq?" 60 = "What is Rocq?".
Proof.
  destruct (title_spec "# <b>what</b> is   Rocq?" 60) as (_ & H & _); [lia|].
  rewrite H; [by vm_compute|done|by vm_compute|by vm_compute].
Defined.
