(* ===== verification/QueryRecords.v ===== *)
(** * Query records

    The [query_records] part of [ChatStore]
    (document_processor/infrastructure/chat_store.py), its HTTP routes
    (api/query_record_routes.py) and the helpers the model handlers call
    around a run (api/_query_persistence.py), with the registry of running
    tasks.

    A route that raises [HTTPException] is an [Err] with the status code. *)

From S2P Require Import Prelude PyStr PyVal Retry Mongo Storage ChatStore.

(** ** The store's methods *)

Definition record_doc (doc_id chat_session_id : string) (user_id : option string) (client_id mode query_text
  provider : string) (effort : option string) (now : Q) : document :=
  list_to_map [("_id", PStr doc_id); ("chat_session_id", PStr chat_session_id); ("user_id", opt_str user_id);
    ("client_id", PStr client_id); ("mode", PStr mode); ("query_text", PStr query_text);
    ("provider", PStr provider); ("effort", opt_str effort); ("status", PStr "pending"); ("progress", PInt 0);
    ("current_phase", PNone); ("current_task", PNone); ("phases", PList []); ("result_markdown", PNone);
    ("result_html", PNone); ("sources", PNone); ("error", PNone); ("thinking_session_id", PNone);
    ("research_session_id", PNone); ("tokens_used", PNone); ("started_at", PTime now);
    ("updated_at", PTime now); ("completed_at", PNone); ("cancelled_at", PNone)].

Definition VALID_STATUSES : list string := ["pending"; "running"; "completed"; "failed"; "cancelled"].
Definition TERMINAL_STATUSES : list string := ["completed"; "failed"; "cancelled"].
Definition str_elem (v : pyval) (l : list string) : bool :=
  match v with PStr s => existsb (String.eqb s) l | _ => false end.
Definition is_terminal (d : document) : bool := str_elem (get "status" d) TERMINAL_STATUSES.

Definition http_error (code detail : string) : pyexn := PyExn "HTTPException" (code +:+ ": " +:+ detail).

(** The body of a PATCH: [None] for a field that was not sent, [Some None]
    for one that was sent as null. *)
Record QueryRecordUpdateRequest := UpdateRequest {
  ur_status : option (option string);
  ur_progress : option (option Z);
  ur_current_phase : option (option string);
  ur_current_task : option (option string);
  ur_phases : option (option (list (list (string * pyval))));
  ur_result_markdown : option (option string);
  ur_result_html : option (option string);
  ur_sources : option (option (list (list (string * pyval))));
  ur_error : option (option string);
  ur_thinking_session_id : option (option string);
  ur_research_session_id : option (option string);
  ur_tokens_used : option (option Z) }.

Definition opt_int (o : option Z) : pyval := match o with Some n => PInt n | None => PNone end.
Definition opt_dicts (o : option (list (list (string * pyval)))) : pyval :=
  match o with Some l => PList (map PDict l) | None => PNone end.

(** [request.model_dump(exclude_unset=True)] *)
Definition model_dump (r : QueryRecordUpdateRequest) : document :=
  opt_field "status" (opt_str <$> ur_status r)
  (opt_field "progress" (opt_int <$> ur_progress r)
  (opt_field "current_phase" (opt_str <$> ur_current_phase r)
  (opt_field "current_task" (opt_str <$> ur_current_task r)
  (opt_field "phases" (opt_dicts <$> ur_phases r)
  (opt_field "result_markdown" (opt_str <$> ur_result_markdown r)
  (opt_field "result_html" (opt_str <$> ur_result_html r)
  (opt_field "sources" (opt_dicts <$> ur_sources r)
  (opt_field "error" (opt_str <$> ur_error r)
  (opt_field "thinking_session_id" (opt_str <$> ur_thinking_session_id r)
  (opt_field "research_session_id" (opt_str <$> ur_research_session_id r)
  (opt_field "tokens_used" (opt_int <$> ur_tokens_used r) ∅))))))))))).

Section records.
Context {M : Type} `{Mongo M}.

Definition create_query_record (chat_session_id : string) (user_id : option string) (client_id mode query_text
  provider : string) (effort idempotency_key : option string) (now : Q) (doc_id : string) : io M pyval :=
  open_db ;;
  let doc := record_doc doc_id chat_session_id user_id client_id mode query_text provider effort now in
  match truthy_str idempotency_key, idempotency_key with
  | true, Some key =>
      let! existing := _write_with_retry (upsert "query_records" (key_query key)
                         (<["idempotency_key" := PStr key]> doc)) in
      ret (get "_id" existing)
  | _, _ => _write_with_retry (insert_one "query_records" doc) ;; ret (PStr doc_id)
  end.

Definition update_query_record (record_id : string) (fields : document) (now : Q) : io M bool :=
  open_db ;;
  let fields := <["updated_at" := PTime now]> (delete "_id" fields) in
  let! modified_count := _write_with_retry (update_one "query_records" (by_id record_id) fields) in
  ret (negb (modified_count =? 0)).

Definition get_query_record (record_id : string) (user_id : option string) (client_id : string)
  : io M (option document) :=
  _db ;;
  let! o := send (find_one "query_records" (by_id record_id) []) in
  match o with
  | Some d => ret (if owned client_id user_id d then Some d else None)
  | None => ret None
  end.

Definition list_query_records_for_session (chat_session_id : string) (user_id : option string)
  (client_id : string) (limit : Z) : io M (list document) :=
  _db ;;
  send (find "query_records" (("chat_session_id", CEq (PStr chat_session_id)) :: owner_query client_id user_id)
          [("started_at", true)] 0 (Some (page_size limit))).

Definition active_query (chat_session_id : string) (user_id : option string) (client_id : string) : query :=
  ("chat_session_id", CEq (PStr chat_session_id))
  :: ("status", CIn [PStr "pending"; PStr "running"]) :: owner_query client_id user_id.

Definition get_active_query (chat_session_id : string) (user_id : option string) (client_id : string)
  : io M (option document) :=
  _db ;;
  send (find_one "query_records" (active_query chat_session_id user_id client_id) [("started_at", true)]).

Definition cancel_fields (reason : option string) (now : Q) : document :=
  list_to_map [("status", PStr "cancelled"); ("cancelled_at", PTime now);
    ("error", PStr (or_str reason "Cancelled by user.")); ("current_task", PStr "Cancelled.")].

Definition cancel_query_record (record_id : string) (user_id : option string) (client_id : string)
  (reason : option string) (now now' : Q) : io M bool :=
  let! record := get_query_record record_id user_id client_id in
  match record with
  | None => ret false
  | Some d =>
      if is_terminal d then ret false
      else update_query_record record_id (cancel_fields reason now) now'
  end.

(** ** The helpers of the model handlers *)

(** [try: ... except Exception: log] *)
Definition swallow {A} (c : io M A) : io M unit := fun e => (Ok (), (c e).2).

Definition persist_user_message (chat_session_id user_id client_id : option string) (prompt : string)
  (idempotency_key : option string) (now : Q) (object_id : string) : io M unit :=
  match truthy_str chat_session_id && negb (String.eqb prompt ""), chat_session_id with
  | true, Some sid =>
      swallow (append_message (or_str client_id "") sid "user" prompt "text" None None user_id idempotency_key
                 now object_id)
  | _, _ => ret ()
  end.

Definition persist_assistant_message (chat_session_id user_id client_id : option string) (content ai_type
  format : string) (extras : option (list (string * pyval))) (idempotency_key : option string)
  (now : Q) (object_id : string) : io M unit :=
  match truthy_str chat_session_id && negb (String.eqb content ""), chat_session_id with
  | true, Some sid =>
      swallow (append_message (or_str client_id "") sid "assistant" content format (Some ai_type)
                 (Some (default [] extras)) user_id idempotency_key now object_id)
  | _, _ => ret ()
  end.

Definition stamp (query_record_id : option string) (fields : document) (now : Q) : io M unit :=
  match truthy_str query_record_id, query_record_id with
  | true, Some r => swallow (update_query_record r fields now)
  | _, _ => ret ()
  end.

Definition completed_fields (result_markdown : option string) (sources : option (list pyval))
  (tokens_used : option Z) (now : Q) : document :=
  list_to_map [("status", PStr "completed"); ("progress", PInt 100); ("current_phase", PNone);
    ("current_task", PNone); ("result_markdown", opt_str result_markdown);
    ("sources", match sources with Some l => PList l | None => PNone end);
    ("tokens_used", match tokens_used with Some n => PInt n | None => PNone end);
    ("completed_at", PTime now)].
Definition mark_query_completed (query_record_id result_markdown : option string)
  (sources : option (list pyval)) (tokens_used : option Z) (now now' : Q) : io M unit :=
  stamp query_record_id (completed_fields result_markdown sources tokens_used now) now'.

Definition mark_query_failed (query_record_id : option string) (error : string) (now now' : Q) : io M unit :=
  stamp query_record_id
    (list_to_map [("status", PStr "failed"); ("error", PStr (str_take 2000 error)); ("completed_at", PTime now)]) now'.

Definition mark_query_cancelled (query_record_id : option string) (reason : string) (now now' : Q) : io M unit :=
  stamp query_record_id
    (list_to_map [("status", PStr "cancelled"); ("error", PStr (str_take 2000 reason)); ("cancelled_at", PTime now)]) now'.

(** The writes of the model handlers themselves, when a run starts: the
    record is tied to the handler's session and is running from then on
    (api/thinking_routes.py and api/local_ai_routes_simple.py). *)
Definition link_thinking_record (query_record_id : option string) (session_id : string) (now : Q) : io M unit :=
  stamp query_record_id
    (list_to_map [("thinking_session_id", PStr session_id); ("status", PStr "running"); ("progress", PInt 5)]) now.
Definition link_research_record (query_record_id : option string) (session_id : string) (now : Q) : io M unit :=
  stamp query_record_id
    (list_to_map [("research_session_id", PStr session_id); ("status", PStr "running"); ("progress", PInt 5);
       ("current_phase", PStr "planning")]) now.

(** ** The routes *)

Definition _require_client_id (x_client_id : option string) : result pyexn string :=
  let c := strip is_space (default "" x_client_id) in
  if String.eqb c "" then Err (http_error "400" "Missing X-Client-Id header") else Ok c.

Definition lift {A} (r : result pyexn A) : io M A :=
  match r with Ok a => ret a | Err x => raise x end.

(** [try: c except Exception: raise HTTPException(500)] *)
Definition or_500 {A} (detail : string) (c : io M A) : io M A := fun e =>
  match c e with
  | (Ok a, e') => (Ok a, e')
  | (Err _, e') => (Err (http_error "500" detail), e')
  end.

Definition MODES : list string := ["research"; "thinking"; "coding"].

(** A response is the document it is made from. *)
Definition post_query_record (chat_session_id mode query_text provider : string) (effort idempotency_key : option string)
  (x_client_id : option string) (user : string) (now : Q) (doc_id : string) : io M document :=
  let! client_id := lift (_require_client_id x_client_id) in
  let mode := lower (strip is_space mode) in
  if negb (existsb (String.eqb mode) MODES) then raise (http_error "400" "Invalid mode") else
  let! record_id := or_500 "Could not create query record"
    (create_query_record chat_session_id (Some user) client_id mode query_text provider effort idempotency_key now doc_id) in
  let! doc := match record_id with
              | PStr r => get_query_record r (Some user) client_id
              | _ => ret None
              end in
  match doc with
  | Some d => ret d
  | None => raise (http_error "500" "Read-after-write inconsistency")
  end.

Definition route_get_query_record (record_id : string) (x_client_id : option string) (user : string) : io M document :=
  let! client_id := lift (_require_client_id x_client_id) in
  let! doc := get_query_record record_id (Some user) client_id in
  match doc with Some d => ret d | None => raise (http_error "404" "Query record not found") end.

(** The fields a PATCH writes: the status is checked, the progress clamped,
    and a change to a terminal status is stamped with the time. *)
Definition clamp_progress (fields : document) : result pyexn document :=
  match fields !! "progress" with
  | None => Ok fields
  | Some (PInt n) => Ok (<["progress" := PInt (Z.max 0 (Z.min 100 n))]> fields)
  | Some _ => Err (http_error "400" "progress must be int 0..100")
  end.

(** [d.setdefault(k, v)] *)
Definition setdefault (k : string) (v : pyval) (d : document) : document :=
  match d !! k with Some _ => d | None => <[k := v]> d end.

Definition stamp_terminal (existing fields : document) (now : Q) : document :=
  let new_status := get "status" fields in
  if str_elem new_status TERMINAL_STATUSES && negb (is_terminal existing) then
    if bool_decide (new_status = PStr "cancelled") then setdefault "cancelled_at" (PTime now) fields
    else setdefault "completed_at" (PTime now) fields
  else fields.

Definition bad_status (fields : document) : bool :=
  match fields !! "status" with Some v => negb (str_elem v VALID_STATUSES) | None => false end.

Definition patch_fields (existing fields : document) (now : Q) : result pyexn document :=
  if bad_status fields then Err (http_error "400" "Invalid status") else
  match clamp_progress fields with
  | Err x => Err x
  | Ok fields => Ok (stamp_terminal existing fields now)
  end.

Definition patch_query_record (record_id : string) (request : QueryRecordUpdateRequest) (x_client_id : option string)
  (user : string) (now now' : Q) : io M document :=
  let! client_id := lift (_require_client_id x_client_id) in
  let! existing := get_query_record record_id (Some user) client_id in
  match existing with
  | None => raise (http_error "404" "Query record not found")
  | Some d =>
      match patch_fields d (model_dump request) now with
      | Err x => raise x
      | Ok fields =>
          update_query_record record_id fields now' ;;
          let! refreshed := get_query_record record_id (Some user) client_id in
          ret (default d refreshed)
      end
  end.

Definition route_cancel_query_record (record_id : string) (reason x_client_id : option string) (user : string)
  (now now' : Q) : io M document :=
  let! client_id := lift (_require_client_id x_client_id) in
  cancel_query_record record_id (Some user) client_id reason now now' ;;
  let! doc := get_query_record record_id (Some user) client_id in
  match doc with Some d => ret d | None => raise (http_error "404" "Query record not found") end.

Definition route_get_active_query (session_id : string) (x_client_id : option string) (user : string)
  : io M (bool * option document) :=
  let! client_id := lift (_require_client_id x_client_id) in
  let! doc := get_active_query session_id (Some user) client_id in
  ret (match doc with Some d => (true, Some d) | None => (false, None) end).

Definition route_list_query_records (session_id : string) (limit : Z) (x_client_id : option string) (user : string)
  : io M (list document) :=
  let! client_id := lift (_require_client_id x_client_id) in
  list_query_records_for_session session_id (Some user) client_id limit.

End records.

(** ** The registry of running tasks *)

Record task := RunningTask { task_done : bool; cancel_requested : bool }.
Abbreviation tasks := (gmap string task).

Definition register_active_task (query_record_id : string) (t : task) (ts : tasks) : tasks :=
  if String.eqb query_record_id "" then ts else <[query_record_id := t]> ts.
Definition unregister_active_task (query_record_id : option string) (ts : tasks) : tasks :=
  match truthy_str query_record_id, query_record_id with
  | true, Some r => delete r ts
  | _, _ => ts
  end.
Definition cancel_active_task (query_record_id : string) (ts : tasks) : bool * tasks :=
  match ts !! query_record_id with
  | Some t => if task_done t then (false, ts)
              else (true, <[query_record_id := RunningTask false true]> ts)
  | None => (false, ts)
  end.

(** ** Records stay valid *)

Definition in_percent (v : pyval) : bool :=
  match v with PInt n => (0 <=? n) && (n <=? 100) | _ => false end.
Definition valid_record (d : document) : bool :=
  str_elem (get "status" d) VALID_STATUSES && in_percent (get "progress" d).
Definition records_valid (db : database) : Prop :=
  forall d, d ∈ coll "query_records" db -> valid_record d = true.

Definition valid_set (s : document) : bool :=
  match s !! "status" with Some v => str_elem v VALID_STATUSES | None => true end &&
  match s !! "progress" with Some v => in_percent v | None => true end.

Lemma str_elem_bson v l : str_elem (bson v) l = str_elem v l.
Proof. by destruct v. Qed.
Lemma in_percent_bson v : in_percent (bson v) = in_percent v.
Proof. by destruct v. Qed.
Lemma valid_record_bson d : valid_record (bson_doc d) = valid_record d.
Proof. unfold valid_record. by rewrite !get_bson, str_elem_bson, in_percent_bson. Qed.
Lemma valid_set_bson s : valid_set (bson_doc s) = valid_set s.
Proof.
  unfold valid_set. rewrite !lookup_bson.
  destruct (s !! "status"), (s !! "progress"); simpl; by rewrite ?str_elem_bson, ?in_percent_bson.
Qed.

Lemma valid_set_fields s d : valid_set s = true -> valid_record d = true -> valid_record (set_fields s d) = true.
Proof.
  unfold valid_set, valid_record. rewrite !get_set_fields, !andb_true_iff. intros [H1 H2] [H3 H4].
  by destruct (s !! "status"), (s !! "progress").
Qed.

Lemma records_other c l db : c <> "query_records" -> records_valid db -> records_valid (put_coll c l db).
Proof. intros Hc Hv d. rewrite coll_put, decide_False by done. apply Hv. Qed.

Lemma records_insert c d u db db' : db_insert c d db = Some (u, db') ->
  c <> "query_records" \/ valid_record d = true -> records_valid db -> records_valid db'.
Proof. intros E Hd Hv x. rewrite (elem_of_insert _ _ _ _ _ _ _ E). naive_solver. Qed.

Lemma records_upsert c q d a db db' : db_upsert c q d db = Some (a, db') ->
  c <> "query_records" \/ valid_record d = true -> records_valid db -> records_valid db'.
Proof.
  unfold db_upsert. destruct (List.find _ _); [by intros [= _ <-]|].
  destruct (db_insert _ _ _) as [[u db1]|] eqn:E; [|done]. intros [= _ <-]. by eapply records_insert.
Qed.

Lemma records_update c q s n db db' : db_update_one c q s db = Some (n, db') ->
  c <> "query_records" \/ valid_set s = true -> records_valid db -> records_valid db'.
Proof.
  unfold db_update_one. destruct (List.find _ _); [|by intros [= _ <-]].
  destruct (_ && _); [|done]. intros [= _ <-] [Hc|Hs] Hv; [by apply records_other|].
  intros d. rewrite coll_put. destruct (decide (c = "query_records")) as [->|]; [|apply Hv].
  intros [Hd|(x & Hx & _ & ->)]%elem_of_update_first; [by apply Hv|by apply valid_set_fields, Hv].
Qed.

Lemma records_update_some c s p n db db' : db_update_some c s p db = Some (n, db') ->
  c <> "query_records" -> records_valid db -> records_valid db'.
Proof.
  unfold db_update_some. set (l := update_all _ _ _). destruct (_ && _); [|done].
  intros [= _ <-] Hc. by apply records_other.
Qed.
Lemma records_delete_one c q u db db' : db_delete_one c q db = Some (u, db') ->
  c <> "query_records" -> records_valid db -> records_valid db'.
Proof. intros [= _ <-] Hc. by apply records_other. Qed.
Lemma records_delete_some c p u db db' : db_delete_some c p db = Some (u, db') ->
  c <> "query_records" -> records_valid db -> records_valid db'.
Proof. intros E Hc Hv d. rewrite (coll_delete_some _ _ _ _ _ _ E), decide_False by done. apply Hv. Qed.

Lemma lookup_setdefault_ne k k' v d : k <> k' -> setdefault k v d !! k' = d !! k'.
Proof. intros Hk. unfold setdefault. case_match; [done|]. by rewrite lookup_insert_ne. Qed.

Lemma stamp_terminal_same existing fields now k :
  k <> "cancelled_at" -> k <> "completed_at" -> stamp_terminal existing fields now !! k = fields !! k.
Proof.
  intros H1 H2. unfold stamp_terminal. destruct (_ && _); [|done].
  case_bool_decide; by rewrite lookup_setdefault_ne.
Qed.

Lemma clamp_in_percent n : in_percent (PInt (Z.max 0 (Z.min 100 n))) = true.
Proof. simpl. apply andb_true_iff. rewrite !Z.leb_le. lia. Qed.

Lemma clamp_progress_spec fields s : clamp_progress fields = Ok s ->
  s !! "status" = fields !! "status" /\ match s !! "progress" with Some v => in_percent v = true | None => True end.
Proof.
  unfold clamp_progress. destruct (fields !! "progress") as [v|] eqn:E.
  - destruct v; try done. intros [= <-]. rewrite lookup_insert_ne, lookup_insert_eq by done.
    split; [done|apply clamp_in_percent].
  - intros [= <-]. by rewrite E.
Qed.

Lemma patch_valid d fields now s : patch_fields d fields now = Ok s -> valid_set s = true.
Proof.
  unfold patch_fields, valid_set. destruct (bad_status fields) eqn:Es; [done|]. unfold bad_status in Es.
  destruct (clamp_progress fields) as [f|] eqn:Ef; [|done]. intros [= <-].
  rewrite !stamp_terminal_same by done. apply clamp_progress_spec in Ef as [-> Hp].
  destruct (fields !! "status") as [v|]; [apply negb_false_iff in Es; rewrite Es|]; by destruct (f !! "progress").
Qed.
#[export] Hint Resolve patch_valid : mongo.

(** ** The operations on records *)

Inductive record_op :=
| PostRecord (chat_session_id mode query_text provider : string) (effort key x_client_id : option string)
    (user : string) (now : Q) (doc_id : string)
| PatchRecord (record_id : string) (request : QueryRecordUpdateRequest) (x_client_id : option string) (user : string) (now now' : Q)
| CancelRecord (record_id : string) (reason x_client_id : option string) (user : string) (now now' : Q)
| MarkCompleted (record_id result_markdown : option string) (sources : option (list pyval)) (tokens : option Z)
    (now now' : Q)
| MarkFailed (record_id : option string) (error : string) (now now' : Q)
| MarkCancelled (record_id : option string) (reason : string) (now now' : Q)
| LinkThinking (record_id : option string) (session_id : string) (now : Q)
| LinkResearch (record_id : option string) (session_id : string) (now : Q)
| ChatOp (o : store_op).

Definition run_record_op {M} `{Mongo M} (o : record_op) : io M unit :=
  match o with
  | PostRecord s m q p f k x u now i => post_query_record s m q p f k x u now i ;; ret ()
  | PatchRecord r f x u now now' => patch_query_record r f x u now now' ;; ret ()
  | CancelRecord r w x u now now' => route_cancel_query_record r w x u now now' ;; ret ()
  | MarkCompleted r m s t now now' => mark_query_completed r m s t now now'
  | MarkFailed r e now now' => mark_query_failed r e now now'
  | MarkCancelled r w now now' => mark_query_cancelled r w now now'
  | LinkThinking r s now => link_thinking_record r s now
  | LinkResearch r s now => link_research_record r s now
  | ChatOp o => run_op o
  end.
Definition run_record_ops {M} `{Mongo M} (os : list record_op) (e : env M) : env M :=
  foldl (fun e o => (run_record_op o e).2) e os.

Section valid.
Context {M : Type} `{MongoLaws M}.

Lemma keeps_swallow (R : relation database) {A} (c : io M A) : keeps R c -> keeps R (swallow c).
Proof. intros Hc e. apply (Hc e). Qed.
Lemma keeps_or_500 (R : relation database) {A} s (c : io M A) : keeps R c -> keeps R (or_500 s c).
Proof. intros Hc e. specialize (Hc e). unfold or_500. by destruct (c e) as [[]]. Qed.
Lemma keeps_lift (R : relation database) `{!PreOrder R} {A} (r : result pyexn A) : keeps (M := M) R (lift r).
Proof. by destruct r; intros ?. Qed.
Lemma keeps_db (R : relation database) `{!PreOrder R} : keeps (M := M) R _db.
Proof. intros e. by rewrite db_view. Qed.

Lemma keeps_open_valid : keeps (M := M) (preserves records_valid) open_db.
Proof. intros e Hv d. rewrite (proj1 (keeps_open_db e)). apply Hv. Qed.

Lemma keeps_get (R : relation database) `{!PreOrder R} r u c : keeps (M := M) R (get_query_record r u c).
Proof. unfold get_query_record. repeat first [apply keeps_db; by apply _|keeps_step]. Qed.

Lemma keeps_update_valid r fields now : valid_set fields = true ->
  keeps (M := M) (preserves records_valid) (update_query_record r fields now).
Proof.
  intros Hf. unfold update_query_record.
  repeat first [apply keeps_open_valid|keeps_step]. intros ??? E Hv. eapply records_update; [exact E| |exact Hv]. right. rewrite valid_set_bson.
  unfold valid_set in *. by rewrite !lookup_insert_ne, !lookup_delete_ne.
Qed.

(** One step through a route or a helper. *)
Ltac route_step :=
  match goal with
  | |- keeps _ (swallow _) => apply keeps_swallow
  | |- keeps _ (or_500 _ _) => apply keeps_or_500
  | |- keeps _ (lift _) => apply keeps_lift; by apply _
  | |- keeps _ (get_query_record _ _ _) => apply keeps_get; by apply _
  | |- keeps _ (update_query_record _ _ _) => apply keeps_update_valid; by eauto with mongo
  | |- keeps _ open_db => apply keeps_open_valid
  | _ => keeps_step
  end.

Lemma valid_record_doc i s u c m q p f now : valid_record (record_doc i s u c m q p f now) = true.
Proof. by destruct u, f. Qed.
Lemma valid_record_doc_key k i s u c m q p f now :
  valid_record (<["idempotency_key" := PStr k]> (record_doc i s u c m q p f now)) = true.
Proof. by destruct u, f. Qed.

Lemma run_record_op_valid o : keeps (M := M) (preserves records_valid) (run_record_op o).
Proof.
  destruct o; simpl; unfold post_query_record, patch_query_record, route_cancel_query_record,
    cancel_query_record, create_query_record, mark_query_completed, mark_query_failed, mark_query_cancelled,
    link_thinking_record, link_research_record, stamp;
    try (repeat route_step; intros ??? E Hv;
         first [eapply records_upsert; [exact E|right; rewrite valid_record_bson; apply valid_record_doc_key|done]
               | eapply records_insert; [exact E|right; rewrite valid_record_bson; apply valid_record_doc|done]]).
  destruct o; simpl; unfold create_session, append_message, update_session, delete_session,
    create_folder, update_folder, rename_folder, delete_folder, find_session, find_folder;
    repeat route_step; intros ??? E Hv;
    first [eapply records_upsert; [exact E|by left|done] | eapply records_insert; [exact E|by left|done]
          | eapply records_update; [exact E|by left|done] | by eapply records_update_some
          | by eapply records_delete_one | by eapply records_delete_some].
Qed.
End valid.

(** ** Records stay well typed *)

(** A value for the field [k] of a collection *)
Definition typed_field (c k : string) (v : pyval) : bool :=
  forallb (fun ft => negb (String.eqb k ft.1) || has_fty ft.2 v) (schema c).

Lemma typed_set_insert c k v s : typed_set c s = true -> typed_field c k v = true -> typed_set c (<[k := v]> s) = true.
Proof.
  unfold typed_set, typed_field. rewrite !forallb_forall. intros Hs Hv ft Hft.
  specialize (Hs ft Hft). specialize (Hv ft Hft). destruct (String.eqb_spec k ft.1) as [->|Hne].
  - rewrite lookup_insert_eq. done.
  - by rewrite lookup_insert_ne.
Qed.
Lemma typed_set_delete c k s : typed_set c s = true -> typed_set c (delete k s) = true.
Proof.
  unfold typed_set. rewrite !forallb_forall. intros Hs ft Hft. specialize (Hs ft Hft).
  destruct (decide (k = ft.1)) as [->|Hne]; [by rewrite lookup_delete_eq|by rewrite lookup_delete_ne].
Qed.
Lemma typed_set_opt c k o s :
  (forall v, o = Some v -> typed_field c k v = true) -> typed_set c s = true -> typed_set c (opt_field k o s) = true.
Proof. intros Ho Hs. destruct o as [v|]; [by apply typed_set_insert, Ho|done]. Qed.

Lemma typed_model_dump r s :
  bad_status (model_dump r) = false -> clamp_progress (model_dump r) = Ok s -> typed_set "query_records" s = true.
Proof.
  set (rest := delete "status" (delete "progress" (model_dump r))).
  assert (typed_set "query_records" rest = true) as Hrest.
  { unfold rest, model_dump. assert (forall k o (d : document), delete k (opt_field k o d) = delete k d) as Hdel.
    { intros k [v|] d; simpl; [by rewrite delete_insert_eq|done]. }
    assert (forall k k' o (d : document), k <> k' -> delete k (opt_field k' o d) = opt_field k' o (delete k d)) as Hne.
    { intros k k' [v|] d Hk; simpl; [by rewrite delete_insert_ne|done]. }
    rewrite (Hne "progress" "status") by done. rewrite !Hdel. apply typed_set_delete.
    apply typed_set_delete.
    repeat (apply typed_set_opt; [by intros v ([x|] & _ & ->)%fmap_Some|]). done. }
  unfold bad_status, clamp_progress. intros Hb Hc.
  assert (s !! "progress" = None \/ exists n, s !! "progress" = Some (PInt n)) as Hp.
  { destruct (model_dump r !! "progress") as [[]|] eqn:E; simplify_eq; rewrite ?lookup_insert_eq; eauto. }
  assert (forall k, k <> "progress" -> s !! k = model_dump r !! k) as Hs.
  { intros k Hk. destruct (model_dump r !! "progress") as [[]|]; simplify_eq; by rewrite ?lookup_insert_ne. }
  unfold typed_set in *. rewrite forallb_forall in *. intros ft Hft. specialize (Hrest ft Hft).
  destruct (decide (ft.1 = "progress")) as [Ep|Np].
  { assert (ft = ("progress", TInt)) as ->.
    { simpl in Hft. repeat (destruct Hft as [<-|Hft]; [done|]). done. }
    simpl. by destruct Hp as [->|[n ->]]. }
  rewrite Hs by done. destruct (decide (ft.1 = "status")) as [Es|Ns].
  { assert (ft = ("status", TStr)) as ->.
    { simpl in Hft. repeat (destruct Hft as [<-|Hft]; [done|]). done. }
    simpl. destruct (model_dump r !! "status") as [[]|]; done. }
  unfold rest in Hrest. by rewrite !lookup_delete_ne in Hrest by done.
Qed.

Lemma typed_stamp_terminal d s now :
  typed_set "query_records" s = true -> typed_set "query_records" (stamp_terminal d s now) = true.
Proof.
  intros Hs. unfold stamp_terminal, setdefault. destruct (_ && _); [|done].
  case_bool_decide; case_match; try done; by apply typed_set_insert.
Qed.

Lemma typed_patch d r now s : patch_fields d (model_dump r) now = Ok s -> typed_set "query_records" s = true.
Proof.
  unfold patch_fields. destruct (bad_status _) eqn:Eb; [done|]. destruct (clamp_progress _) as [f|] eqn:Ec; [|done].
  intros [= <-]. apply typed_stamp_terminal. by eapply typed_model_dump.
Qed.
Lemma typed_cancel reason now : typed_set "query_records" (cancel_fields reason now) = true.
Proof. done. Qed.
Lemma typed_completed m so t now : typed_set "query_records" (completed_fields m so t now) = true.
Proof. by destruct m, so, t. Qed.
Lemma typed_record_doc i s u c m q p f now : typed_doc "query_records" (record_doc i s u c m q p f now) = true.
Proof. by destruct u, f. Qed.
Lemma typed_record_doc_key k i s u c m q p f now :
  typed_doc "query_records" (<["idempotency_key" := PStr k]> (record_doc i s u c m q p f now)) = true.
Proof. by destruct u, f. Qed.
#[export] Hint Resolve typed_patch typed_cancel typed_completed typed_record_doc typed_record_doc_key : mongo.

Section well_typed.
Context {M : Type} `{MongoLaws M}.

Lemma keeps_update_typed r fields now : typed_set "query_records" fields = true ->
  keeps (M := M) (preserves store_ok) (update_query_record r fields now).
Proof.
  intros Hf. unfold update_query_record. repeat first [apply keeps_open_ok|keeps_step].
  keep_ok. apply typed_set_insert; [by apply typed_set_delete|done].
Qed.

(** One step through a route or a helper. *)
Ltac typed_step :=
  match goal with
  | |- keeps _ (swallow _) => apply keeps_swallow
  | |- keeps _ (or_500 _ _) => apply keeps_or_500
  | |- keeps _ (lift _) => apply keeps_lift; by apply _
  | |- keeps _ (get_query_record _ _ _) => apply keeps_get; by apply _
  | |- keeps _ (update_query_record _ _ _) => apply keeps_update_typed; by eauto with mongo
  | |- keeps _ open_db => apply keeps_open_ok
  | _ => keeps_step
  end.

Lemma run_record_op_ok o : keeps (M := M) (preserves store_ok) (run_record_op o).
Proof.
  destruct o; simpl; unfold post_query_record, patch_query_record, route_cancel_query_record,
    cancel_query_record, create_query_record, mark_query_completed, mark_query_failed, mark_query_cancelled,
    link_thinking_record, link_research_record, stamp;
    try (repeat typed_step; keep_ok; by eauto with mongo).
  apply run_op_ok.
Qed.
End well_typed.

(** ** Who reads and writes a record *)

Section access.
Context {M : Type} `{MongoLaws M}.

Lemma wp_db (Q : result pyexn unit -> database -> Prop) db :
  (forall r, Q r db) -> wp (M := M) _db Q db.
Proof. intros HQ e <-. rewrite db_view. apply HQ. Qed.

Lemma wp_get r u c (Q : result pyexn (option document) -> database -> Prop) db :
  (forall d, d ∈ coll "query_records" db -> get "_id" d = PStr r -> owned c u d = true -> Q (Ok (Some d)) db) ->
  Q (Ok None) db -> (forall x, Q (Err x) db) -> wp (M := M) (get_query_record r u c) Q db.
Proof.
  intros HS HN HE. apply wp_bind, wp_db. intros [[]|x]; [|done]. apply wp_bind, wp_by_id; [|by apply wp_ret|done].
  intros d Hd Hi. apply wp_ret. destruct (owned c u d) eqn:Ho; auto.
Qed.

(** Every record but [r] is as it was. *)
Definition others_kept (r : string) (db db' : database) : Prop :=
  forall d, get "_id" d <> PStr r -> d ∈ coll "query_records" db -> d ∈ coll "query_records" db'.
#[local] Instance others_kept_preorder r : PreOrder (others_kept r).
Proof. split; [by intros db d|]. intros a b c H1 H2 d Hd ?. by apply H2, H1. Qed.

Lemma keeps_update_others r fields now : keeps (M := M) (others_kept r) (update_query_record r fields now).
Proof.
  unfold update_query_record. repeat match goal with
    | |- keeps _ open_db => intros e d _; by rewrite (proj1 (keeps_open_db e))
    | _ => keeps_step
    end.
  intros n db db'. unfold db_update_one. destruct (List.find _ _); [|by intros [= _ <-]].
  destruct (_ && _); [|done]. intros [= _ <-] x Hx. rewrite coll_put. simpl. intros Hin.
  apply update_first_keeps; [done|]. apply not_true_iff_false. unfold by_id. by rewrite matches_by_eq.
Qed.

(** The outcome of a route that answers with a record: only the record [r] of
    the user may have changed, and the answer is the user's. *)
Definition private (user client_id r : string) (db : database) (res : result pyexn document) (db' : database) : Prop :=
  (db' = db \/ ((exists d, d ∈ coll "query_records" db /\ get "_id" d = PStr r /\
                   owned client_id (Some user) d = true) /\ others_kept r db db')) /\
  (forall d, res = Ok d -> get "_id" d = PStr r /\ owned client_id (Some user) d = true).

Lemma patch_private r request x user c now now' db : _require_client_id x = Ok c ->
  wp (M := M) (patch_query_record r request x user now now') (private user c r db) db.
Proof.
  intros Hx. unfold patch_query_record. rewrite Hx. apply wp_bind, wp_ret, wp_bind, wp_get.
  2: { apply wp_raise. by split; [left|]. } 2: { intros y. by split; [left|]. }
  intros d Hd Hi Ho. assert (exists d, d ∈ coll "query_records" db /\ get "_id" d = PStr r /\
    owned c (Some user) d = true) as Hmine by eauto.
  destruct (patch_fields d (model_dump request) now) as [s|y]; [|apply wp_raise; by split; [left|]].
  apply wp_bind. eapply (wp_keeps (others_kept r)); [apply keeps_update_others|]. intros res db1 H1.
  destruct res as [b|y]; [|split; [by right|done]].
  apply wp_bind, wp_get; [intros d' Hd' Hi' Ho'; apply wp_ret| apply wp_ret|intros y];
    (split; [by right|]); intros ? [= <-]; done.
Qed.

Lemma cancel_private r reason x user c now now' db : _require_client_id x = Ok c ->
  wp (M := M) (route_cancel_query_record r reason x user now now') (private user c r db) db.
Proof.
  intros Hx. unfold route_cancel_query_record. rewrite Hx. apply wp_bind, wp_ret, wp_bind.
  assert (forall db1, (db1 = db \/ ((exists d, d ∈ coll "query_records" db /\ get "_id" d = PStr r /\
       owned c (Some user) d = true) /\ others_kept r db db1)) ->
    wp (M := M) (let! doc := get_query_record r (Some user) c in
        match doc with Some d => ret d | None => raise (http_error "404" "Query record not found") end)
      (private user c r db) db1) as Hget.
  { intros db1 Hk. apply wp_bind, wp_get; [|by apply wp_raise; split|by split].
    intros d Hd Hi Ho. apply wp_ret. split; [done|]. by intros ? [= <-]. }
  unfold cancel_query_record. apply wp_bind, wp_get.
  - intros d Hd Hi Ho. destruct (is_terminal d).
    + apply wp_ret, Hget. by left.
    + eapply (wp_keeps (others_kept r)); [apply keeps_update_others|]. intros res db1 H1.
      assert (exists d, d ∈ coll "query_records" db /\ get "_id" d = PStr r /\
        owned c (Some user) d = true) as Hmine by eauto.
      destruct res; [apply Hget; by right|split; [by right|done]].
  - apply wp_ret, Hget. by left.
  - intros y. by split; [left|].
Qed.
End access.

(** ** What the records guarantee *)

(** C9: whatever sequence of calls runs (creating, updating and deleting
    sessions, messages and folders; creating, patching and cancelling query
    records; the writes of the model handlers when a run starts, completes,
    fails or is cancelled), and whatever writes the server loses or applies to
    a part of the documents only, every stored session, message, folder and
    query record has all the fields of its schema with values of the right
    type, and no two documents of a collection share an [_id] or an indexed
    idempotency key. *)
Theorem store_typed {M} `{MongoLaws M} os (e : env M) :
  well_typed (dbv e) -> keys_unique (dbv e) ->
  well_typed (dbv (run_record_ops os e)) /\ keys_unique (dbv (run_record_ops os e)).
Proof.
  intros Hw Hu. apply (foldl_invariant _ (fun e => store_ok (dbv e))); [|done].
  intros e' o _. apply run_record_op_ok.
Qed.

(** C37: whatever the routes (POST, PATCH and cancel), the model handlers
    (starting, completing, failing or cancelling a run) and the chat store do,
    in any order and with any writes lost, every stored query record has one
    of the five statuses and a progress between 0 and 100. *)
Theorem records_always_valid {M} `{MongoLaws M} os (e : env M) :
  records_valid (dbv e) -> records_valid (dbv (run_record_ops os e)).
Proof.
  intros Hv. apply (foldl_invariant _ (fun e => records_valid (dbv e))); [|done].
  intros e' o _. apply run_record_op_valid.
Qed.

(** A PATCH or a cancellation changes at most the record it names, and
    that only when the record is the user's; every record a route answers
    with is the user's and is the one that was asked for. *)
Theorem record_routes_private {M} `{MongoLaws M} record_id request reason x_client_id client_id user now now' (e : env M) :
  _require_client_id x_client_id = Ok client_id ->
  (let res := patch_query_record record_id request x_client_id user now now' e in
   private user client_id record_id (dbv e) res.1 (dbv res.2)) /\
  (let res := route_cancel_query_record record_id reason x_client_id user now now' e in
   private user client_id record_id (dbv e) res.1 (dbv res.2)).
Proof. intros Hx. split; [by apply (patch_private _ _ _ _ _ _ _ (dbv e))|by apply (cancel_private _ _ _ _ _ _ _ (dbv e))]. Qed.

(** Cancelling does not rewrite history: for a record that is completed,
    failed or cancelled [cancel_query_record] writes nothing and never
    answers [True]. *)
Theorem cancel_keeps_terminal {M} `{MongoLaws M} record_id user_id client_id reason now now' d (e : env M) :
  store_ok (dbv e) -> d ∈ coll "query_records" (dbv e) -> get "_id" d = PStr record_id -> is_terminal d = true ->
  let res := cancel_query_record record_id user_id client_id reason now now' e in
  dbv res.2 = dbv e /\ res.1 <> Ok true.
Proof.
  intros [_ Hu] Hd Hi Ht res.
  assert (wp (M := M) (cancel_query_record record_id user_id client_id reason now now')
    (fun r db' => db' = dbv e /\ r <> Ok true) (dbv e)) as Hwp; [|by apply (Hwp e)].
  unfold cancel_query_record. apply wp_bind, wp_get; [|by apply wp_ret|done].
  intros d' Hd' Hi' _. assert (d' = d) as ->.
  { by eapply (by_id_unique (dbv e) "query_records"). }
  rewrite Ht. by apply wp_ret.
Qed.

(** A record without a user is out of reach for every signed-in caller,
    also for the client that created it: on a server that answers,
    [get_query_record] returns nothing. *)
Theorem client_only_unreachable {M} `{MongoLaws M} record_id user client_id d (e : env M) :
  user <> "" -> ready e -> store_ok (dbv e) ->
  d ∈ coll "query_records" (dbv e) -> get "_id" d = PStr record_id ->
  get "user_id" d = PNone -> get "client_id" d = PStr client_id ->
  (get_query_record record_id (Some user) client_id e).1 = Ok None.
Proof.
  intros Hu Hr Hok Hd Hi Hn Hc.
  assert (runs (M := M) (get_query_record record_id (Some user) client_id) (fun r _ => r = None) (dbv e)) as Hruns.
  { apply runs_bind, runs_db, runs_bind. eapply runs_by_id; [done|done|done|]. apply runs_ret.
    unfold owned. simpl. destruct (String.eqb_spec user ""); [done|]. simpl.
    by rewrite bool_decide_eq_false_2 by (rewrite Hn; done). }
  destruct (Hruns e eq_refl Hr) as (a & Ha & _ & ->). done.
Qed.

(** ** A store to run *)

Definition demo_record (i : string) (u : option string) : document :=
  record_doc i "s1" u "c1" "research" "what is Rocq" "claude" None 10.
Definition demo_records : env mongod :=
  Env (Mongod (DB {["query_records" := [demo_record "r1" (Some "u1"); demo_record "r2" None;
                    set_fields (list_to_map [("status", PStr "failed")]) (demo_record "r3" (Some "u1"))]]} []) [])
      (Manager (Some 0%nat) (Some 0%nat) true 1 [0%nat]) true [].

Definition demo_patch : QueryRecordUpdateRequest :=
  UpdateRequest (Some (Some "running")) (Some (Some 150)) None None (Some None) None None None None None None None.
Definition demo_all_ops : list record_op :=
  [LinkThinking (Some "r1") "t1" 18; PatchRecord "r1" demo_patch (Some "c1") "u1" 19 20; LinkResearch (Some "r3") "q1" 19;
   MarkFailed (Some "r3") "boom" 21 22; CancelRecord "r1" None (Some "c1") "u1" 23 24;
   ChatOp (CreateFolder "c1" (Some " notes ") (Some "u1") None 25 "f1"); ChatOp (DeleteFolder "c1" "f1" (Some "u1") 26)].
Definition demo_record_ops : list record_op :=
  [CancelRecord "r1" None (Some "c1") "u1" 20 21; MarkCompleted (Some "r1") (Some "done") None None 22 23].
Definition field_of (k r : string) (e : env mongod) : option pyval :=
  get k <$> List.find (matches (by_id r)) (coll "query_records" (dbv e)).

(** A run that ends after it was cancelled stamps its record completed:
    the cancelled status is overwritten, while the record keeps the time of
    its cancellation. *)
Theorem completed_overwrites_cancelled :
  field_of "status" "r1" (run_record_ops (take 1 demo_record_ops) demo_records) = Some (PStr "cancelled") /\
  field_of "status" "r1" (run_record_ops demo_record_ops demo_records) = Some (PStr "completed") /\
  field_of "cancelled_at" "r1" (run_record_ops demo_record_ops demo_records) = Some (PTime 20).
Proof. by vm_compute. Qed.

Lemma demo_records_check (P : string -> document -> bool) :
  P "query_records" (demo_record "r1" (Some "u1")) = true -> P "query_records" (demo_record "r2" None) = true ->
  P "query_records" (set_fields (list_to_map [("status", PStr "failed")]) (demo_record "r3" (Some "u1"))) = true ->
  forall c d, d ∈ coll c (dbv demo_records) -> P c d = true.
Proof.
  intros H1 H2 H3 c d. unfold coll. change (colls (dbv demo_records)) with
    ({["query_records" := [demo_record "r1" (Some "u1"); demo_record "r2" None;
       set_fields (list_to_map [("status", PStr "failed")]) (demo_record "r3" (Some "u1"))]]} : gmap string (list document)).
  destruct (decide (c = "query_records")) as [->|Hc].
  - rewrite lookup_singleton_eq. simpl.
    by intros [->|[->|[->|[]%elem_of_nil]%elem_of_cons]%elem_of_cons]%elem_of_cons.
  - rewrite lookup_singleton_ne by done. by intros []%elem_of_nil.
Qed.

Lemma demo_records_ok : store_ok (dbv demo_records).
Proof.
  split.
  - intros c d. apply (demo_records_check typed_doc); by vm_compute.
  - intros c. destruct (decide (c = "query_records")) as [->|Hc]; [by vm_compute|].
    unfold coll. simpl. by rewrite lookup_singleton_ne.
Qed.

Lemma demo_records_valid : records_valid (dbv demo_records).
Proof. intros d Hd. refine (demo_records_check (fun _ => valid_record) _ _ _ "query_records" d Hd); by vm_compute. Qed.

Lemma records_always_valid_witness :
  records_valid (dbv (run_record_ops demo_all_ops demo_records)) /\
  field_of "progress" "r1" (run_record_ops (take 2 demo_all_ops) demo_records) = Some (PInt 100) /\
  field_of "progress" "r3" (run_record_ops demo_all_ops demo_records) = Some (PInt 5).
Proof.
  split; [|vm_compute; split; reflexivity].
  apply (records_always_valid demo_all_ops demo_records). exact demo_records_valid.
Defined.

Lemma store_typed_witness :
  well_typed (dbv demo_records) /\ well_typed (dbv (run_record_ops demo_all_ops demo_records)).
Proof.
  destruct demo_records_ok as [Hw Hu]. split; [exact Hw|].
  apply (store_typed demo_all_ops demo_records Hw Hu).
Defined.

Lemma record_routes_private_witness :
  private "u1" "c1" "r1" (dbv demo_records)
    (route_cancel_query_record "r1" None (Some " c1 ") "u1" 20 21 demo_records).1
    (dbv (route_cancel_query_record "r1" None (Some " c1 ") "u1" 20 21 demo_records).2).
Proof.
  apply (record_routes_private "r1" demo_patch None (Some " c1 ") "c1" "u1" 20 21 demo_records). by vm_compute.
Defined.

Lemma cancel_keeps_terminal_witness :
  dbv (cancel_query_record "r3" (Some "u1") "c1" None 20 21 demo_records).2 = dbv demo_records.
Proof.
  apply (cancel_keeps_terminal "r3" (Some "u1") "c1" None 20 21
           (set_fields (list_to_map [("status", PStr "failed")]) (demo_record "r3" (Some "u1"))) demo_records demo_records_ok);
    [do 2 right; left|by vm_compute|by vm_compute].
Defined.

Lemma client_only_unreachable_witness :
  (get_query_record "r2" (Some "u1") "c1" demo_records).1 = Ok None.
Proof.
  apply (client_only_unreachable "r2" "u1" "c1" (demo_record "r2" None) demo_records);
    [done|split; [by constructor|by intros _]|apply demo_records_ok|right; left|by vm_compute..].
Defined.
