(* ===== verification/ChatRoutes.v ===== *)
(** * Session and folder routes

    The handlers of document_processor/api/chat_sessions_routes.py and
    api/chat_folders_routes.py over the store.  Request bodies have passed
    their pydantic checks; a field that a body may leave out is an option
    ([None] when it is unset).  An [HTTPException] is an [Err]. *)

From S2P Require Import Prelude PyStr PyVal Retry Mongo Storage ChatStore QueryRecords.

Section routes.
Context {M : Type} `{Mongo M}.

Definition _normalize_mode (mode : string) : result pyexn string :=
  let m := lower (strip is_space mode) in
  if existsb (String.eqb m) MODES then Ok m else Err (http_error "400" "Invalid mode").

(** [except <class>: raise HTTPException(...)] *)
Definition catch {A} (class : string) (x : pyexn) (c : io M A) : io M A := fun e =>
  match c e with
  | (Err y, e') => if String.eqb (exn_type y) class then (Err x, e') else (Err y, e')
  | r => r
  end.

(** [title or "Untitled Chat"] in a response *)
Definition or_untitled (v : pyval) : pyval := if truthy v then v else PStr "Untitled Chat".
Definition summary (s : ChatSession) : ChatSession :=
  Session (cs_id s) (cs_client_id s) (cs_mode s) (or_untitled (cs_title s)) (cs_created_at s) (cs_updated_at s)
    (cs_user_id s) (cs_archived s) (cs_folder_id s) (cs_pinned s).

(** ** Sessions *)

Definition route_create_session (mode : string) (title idempotency_key x_client_id : option string) (user : string)
  (now : Q) (new_id : string) : io M (ChatSession * list message_view) :=
  let! client_id := lift (_require_client_id x_client_id) in
  let! mode := lift (_normalize_mode mode) in
  let! session := create_session client_id mode title (Some user) None idempotency_key now new_id in
  ret (session, []).

Definition route_list_sessions (mode : string) (limit offset : Z) (include_archived : bool)
  (folder_id x_client_id : option string) (user : string) : io M (list ChatSession) :=
  let! client_id := lift (_require_client_id x_client_id) in
  let! mode := lift (_normalize_mode mode) in
  let! sessions := list_sessions client_id mode (Some user) limit offset include_archived folder_id in
  ret (map summary sessions).

Definition route_list_sessions_all (limit offset : Z) (include_archived : bool)
  (folder_id x_client_id : option string) (user : string) : io M (list ChatSession) :=
  let! client_id := lift (_require_client_id x_client_id) in
  let! sessions := list_sessions_all client_id (Some user) limit offset include_archived folder_id in
  ret (map summary sessions).

Definition session_404 : pyexn := http_error "404" "Session not found".

Definition route_get_session (session_id : string) (x_client_id : option string) (user : string)
  : io M (ChatSession * list message_view) :=
  let! client_id := lift (_require_client_id x_client_id) in
  let! r := catch "KeyError" session_404 (get_session client_id session_id (Some user) true) in
  ret (summary r.1, default [] r.2).

Definition route_append_message (session_id role content format : string) (aiType : option string)
  (extras : option (list (string * pyval))) (idempotency_key x_client_id : option string) (user : string)
  (now : Q) (object_id : string) : io M string :=
  let! client_id := lift (_require_client_id x_client_id) in
  let role := lower (strip is_space role) in
  if negb (existsb (String.eqb role) ["user"; "assistant"; "system"]) then raise (http_error "400" "Invalid role") else
  let fmt := lower (strip is_space (or_str (Some format) "text")) in
  if negb (existsb (String.eqb fmt) ["text"; "html"]) then raise (http_error "400" "Invalid format") else
  fun e =>
    match append_message client_id session_id role content fmt aiType (Some (default [] extras)) (Some user)
            idempotency_key now object_id e with
    | (Ok i, e') => (Ok i, e')
    | (Err y, e') =>
        if String.eqb (exn_type y) "KeyError" then (Err session_404, e')
        else (Err (http_error "500" "Failed to append message"), e')
    end.

(** [auto_title]: a title and whether it was stored.  Everything but an
    [HTTPException] becomes a 500. *)
Definition auto_title_body (client_id session_id new_title user : string) (now : Q) : io M (pyval * bool) :=
  _db ;;
  let! o := send (find_one "chat_sessions" (by_id session_id) []) in
  match o with
  | Some session =>
      if owned client_id (Some user) session then
        if is_default_title (get "title" session) then
          update_session client_id session_id (Some user) (Some new_title) None None None None now ;;
          ret (PStr new_title, true)
        else ret (or_untitled (get "title" session), false)
      else raise session_404
  | None => raise session_404
  end.

Definition auto_title (session_id query : string) (x_client_id : option string) (user : string) (now : Q)
  : io M (pyval * bool) :=
  let! client_id := lift (_require_client_id x_client_id) in
  let new_title := _generate_title_from_query query 60 in
  fun e => match auto_title_body client_id session_id new_title user now e with
           | (Err y, e') =>
               if String.eqb (exn_type y) "HTTPException" then (Err y, e')
               else (Err (http_error "500" "Auto-title failed"), e')
           | r => r
           end.

Definition bool_field (o : option (option bool)) : option pyval :=
  (fun b => PBool (default false b)) <$> o.

Definition route_update_session (session_id : string) (title mode : option string) (archived : option (option bool))
  (folder_id : option (option string)) (pinned : option (option bool)) (x_client_id : option string) (user : string)
  (now : Q) : io M unit :=
  let! client_id := lift (_require_client_id x_client_id) in
  let! mode := match mode with
               | Some m => let! m := lift (_normalize_mode m) in ret (Some m)
               | None => ret None
               end in
  catch "KeyError" session_404
    (update_session client_id session_id (Some user) title mode (bool_field archived) folder_id (bool_field pinned) now).

Definition route_delete_session (session_id : string) (x_client_id : option string) (user : string) : io M unit :=
  let! client_id := lift (_require_client_id x_client_id) in
  delete_session client_id session_id (Some user).

(** ** Folders *)

Definition folder_400 : pyexn := http_error "400" "Invalid folder name".
Definition folder_404 : pyexn := http_error "404" "Folder not found".

Definition route_list_folders (limit offset : Z) (x_client_id : option string) (user : string) : io M (list folder_view) :=
  let! client_id := lift (_require_client_id x_client_id) in
  list_folders client_id (Some user) limit offset.

Definition route_create_folder (name : string) (x_client_id : option string) (user : string) (now : Q)
  (new_id : string) : io M folder_view :=
  let! client_id := lift (_require_client_id x_client_id) in
  catch "ValueError" folder_400 (create_folder client_id (Some name) (Some user) None now new_id).

Definition route_update_folder (folder_id : string) (name : option (option string)) (pinned : option (option bool))
  (x_client_id : option string) (user : string) (now : Q) : io M unit :=
  let! client_id := lift (_require_client_id x_client_id) in
  catch "ValueError" folder_400 (catch "KeyError" folder_404
    (update_folder client_id folder_id (Some user) name (bool_field pinned) now)).

Definition route_delete_folder (folder_id : string) (x_client_id : option string) (user : string) (now : Q) : io M unit :=
  let! client_id := lift (_require_client_id x_client_id) in
  delete_folder client_id folder_id (Some user) now.

End routes.

(** ** What a signed-in caller can reach *)

Section reach.
Context {M : Type} `{MongoLaws M}.

(** A page of a query that asks for the owner holds the owner's documents
    only, and at most the page size. *)
Lemma listed_owned q ks skip n (l : list document) db client_id user_id c :
  (forall kc, kc ∈ owner_query client_id user_id -> kc ∈ q) -> ranking c q ks db l ->
  Forall (fun d => owned client_id user_id d = true) (window skip (Some n) l) /\
  zlength (window skip (Some n) l) <= Z.max 0 n.
Proof.
  intros Hq [Hl _]. unfold window. split; [|unfold zlength; rewrite length_take; lia].
  apply Forall_forall. intros d (i & Hi & _)%elem_of_take. rewrite lookup_drop in Hi.
  apply list_elem_of_lookup_2 in Hi. rewrite Hl in Hi. apply elem_of_List_filter in Hi as [_ Hm].
  rewrite <- matches_owner. unfold matches in *. apply forallb_forall. intros kc Hkc%list_elem_of_In.
  rewrite forallb_forall in Hm. by apply Hm, list_elem_of_In, Hq.
Qed.

Lemma wp_lift {A} (r : result pyexn A) (Q : result pyexn A -> database -> Prop) db : Q r db -> wp (M := M) (lift r) Q db.
Proof. destruct r; intros HQ; [by apply wp_ret|by apply wp_raise]. Qed.

Lemma wp_list_page client_id user_id mode limit offset archived folder db :
  wp (M := M) (let! docs := send (find "chat_sessions" (list_query client_id user_id mode archived folder)
                 DESC_PINNED (Z.max offset 0) (Some (page_size limit))) in ret (map session_view docs))
    (fun r _ => forall l, r = Ok l -> zlength l <= 200 /\
       Forall (fun s => exists d, s = session_view d /\ owned client_id user_id d = true) l) db.
Proof.
  apply wp_bind. eapply wp_read; [apply law_find| |done]. intros docs (l & Hr & ->). apply wp_ret.
  intros l' [= <-]. destruct (listed_owned (list_query client_id user_id mode archived folder) DESC_PINNED
    (Z.max offset 0) (page_size limit) l db client_id user_id "chat_sessions") as [Ho Hlen]; [|done|].
  - intros kc Hkc. unfold list_query. rewrite !elem_of_app. auto.
  - split; [unfold zlength; rewrite length_map; etrans; [exact Hlen|unfold page_size; lia]|].
    apply Forall_fmap. eapply Forall_impl; [exact Ho|]. intros d Hd. by exists d.
Qed.
End reach.

Lemma owned_user client_id user d : user <> "" -> owned client_id (Some user) d = true -> get "user_id" d = PStr user.
Proof. intros Hu. unfold owned. simpl. destruct (String.eqb_spec user ""); [done|]. simpl. by rewrite bool_decide_eq_true. Qed.

(** The session list of a signed-in user shows that user's sessions only,
    at most 200 of them, each with a title; this holds for the list of one
    mode and for the list of all modes. *)
Theorem session_list_private {M} `{MongoLaws M} mode limit offset archived folder x_client_id user (e : env M) :
  user <> "" ->
  let mine l := zlength l <= 200 /\
    Forall (fun s => cs_user_id s = PStr user /\ truthy (cs_title s) = true) l in
  (forall l, (route_list_sessions mode limit offset archived folder x_client_id user e).1 = Ok l -> mine l) /\
  (forall l, (route_list_sessions_all limit offset archived folder x_client_id user e).1 = Ok l -> mine l).
Proof.
  intros Hu mine.
  assert (forall client_id l, zlength l <= 200 -> Forall (fun s => exists d, s = session_view d /\
    owned client_id (Some user) d = true) l -> mine (map summary l)) as Hmine.
  { intros client_id l Hl Hf. split; [by unfold zlength in *; rewrite length_map|]. apply Forall_fmap.
    eapply Forall_impl; [exact Hf|]. intros s (d & -> & Ho). simpl. split; [by eapply owned_user|].
    unfold or_untitled. by destruct (truthy (get "title" d)) eqn:E; rewrite ?E. }
  split; intros l.
  - assert (wp (M := M) (route_list_sessions mode limit offset archived folder x_client_id user)
      (fun r _ => forall l, r = Ok l -> mine l) (dbv e)) as Hwp; [|by apply (Hwp e)].
    apply wp_bind, wp_lift. destruct (_require_client_id x_client_id) as [client_id|]; [|done].
    apply wp_bind, wp_lift. destruct (_normalize_mode mode) as [m|]; [|done].
    apply wp_bind, wp_bind, wp_open_db. intros [[]|] db1 _; [|done].
    eapply wp_mono; [apply wp_list_page|]. intros [l1|] db2 H1; [|done]. apply wp_ret.
    destruct (H1 l1 eq_refl) as [Hn Hf]. intros l2 [= <-]. eauto.
  - assert (wp (M := M) (route_list_sessions_all limit offset archived folder x_client_id user)
      (fun r _ => forall l, r = Ok l -> mine l) (dbv e)) as Hwp; [|by apply (Hwp e)].
    apply wp_bind, wp_lift. destruct (_require_client_id x_client_id) as [client_id|]; [|done].
    apply wp_bind, wp_bind, wp_open_db. intros [[]|] db1 _; [|done].
    eapply wp_mono; [apply wp_list_page|]. intros [l1|] db2 H1; [|done]. apply wp_ret.
    destruct (H1 l1 eq_refl) as [Hn Hf]. intros l2 [= <-]. eauto.
Qed.

Definition demo_listed : list ChatSession :=
  match (route_list_sessions_all 50 0 true None (Some "c1") "u1" (demo_env [])).1 with Ok l => l | Err _ => [] end.
Lemma demo_listed_ok :
  (route_list_sessions_all 50 0 true None (Some "c1") "u1" (demo_env [])).1 = Ok demo_listed.
Proof. by vm_compute. Qed.

Lemma session_list_private_witness :
  zlength demo_listed <= 200 /\ Forall (fun s => cs_user_id s = PStr "u1" /\ truthy (cs_title s) = true) demo_listed.
Proof.
  refine (proj2 (session_list_private "research" 50 0 true None (Some "c1") "u1" (demo_env []) _) _ demo_listed_ok).
  done.
Defined.

(** Auto-titling never overwrites a title the user chose: when the title
    stored in the session is neither empty nor a placeholder, the call writes
    nothing and does not report an update. *)
Theorem auto_title_keeps_title {M} `{MongoLaws M} session_id query x_client_id user now d (e : env M) :
  store_ok (dbv e) -> d ∈ coll "chat_sessions" (dbv e) -> get "_id" d = PStr session_id ->
  is_default_title (get "title" d) = false ->
  let res := auto_title session_id query x_client_id user now e in
  dbv res.2 = dbv e /\ forall t, res.1 <> Ok (t, true).
Proof.
  intros [_ Hu] Hd Hi Ht res.
  assert (wp (M := M) (auto_title session_id query x_client_id user now)
    (fun r db' => db' = dbv e /\ forall t, r <> Ok (t, true)) (dbv e)) as Hwp; [|by apply (Hwp e)].
  apply wp_bind, wp_lift. destruct (_require_client_id x_client_id) as [c|]; [|done].
  assert (wp (M := M) (auto_title_body c session_id (_generate_title_from_query query 60) user now)
    (fun r db' => db' = dbv e /\ forall t, r <> Ok (t, true)) (dbv e)) as Hb.
  { apply wp_bind, wp_db. intros [[]|]; [|done]. apply wp_bind, wp_by_id; [|by apply wp_raise|done].
    intros d' Hd' Hi'. destruct (owned c (Some user) d'); [|by apply wp_raise]. assert (d' = d) as ->.
    { by eapply (by_id_unique (dbv e) "chat_sessions"). }
    rewrite Ht. by apply wp_ret. }
  intros e' He'. specialize (Hb e' He'). simpl.
  destruct (auto_title_body _ _ _ _ _ e') as [[r|y] e2]; simpl in *; [done|].
  destruct (String.eqb _ _); simpl; split; by destruct Hb.
Qed.

Lemma auto_title_keeps_title_witness :
  dbv (auto_title "s2" "something else" (Some "c2") "u2" 50 (demo_env [])).2 = demo_db.
Proof.
  apply (auto_title_keeps_title "s2" "something else" (Some "c2") "u2" 50
    (<["idempotency_key" := PStr "k0"]> (demo_session "s2" "c2" "u2" "Secret plan")) (demo_env []) (demo_ok []));
    [right; left|by vm_compute..].
Defined.
