(* ===== verification/Relevance.v ===== *)
(** * The relevance gate of the research pipeline

    document_processor/research/relevance.py: the lexical scores and
    [RelevanceFilter.filter_sources].  A source is its object identity with the
    four fields the filter reads, each a string or [None].  [math.log10] on the
    positive integers is a variable.  The rounded numbers of the debug dump are
    left out. *)

From S2P Require Import Prelude PyStr Url.
From Stdlib Require Import Ascii.

Record Source := Src {
  src_id : nat;
  src_title : option string;
  src_content : option string;
  src_url : option string;
  src_domain : option string }.

#[export] Instance Source_eq_dec : EqDecision Source.
Proof. solve_decision. Defined.

Record RelevanceConfig := Config {
  enabled : bool;
  fail_open : bool;
  min_score : Q;
  max_sources : Z;
  tier : string }.

Record RelevanceResult := Result {
  selected_sources : list Source;
  original_count : Z;
  selected_count : Z;
  rejected_count : Z;
  fallback_used : bool;
  errors : list pyexn }.

(** [_field(src, name)] on a string or [None] *)
Definition _field (o : option string) : string := default "" o.

(** ** Text *)

Definition _normalize (text : string) : string := lower (strip is_space (collapse_ws false text)).

Definition _STOPWORDS : list string :=
  ["the"; "a"; "an"; "and"; "or"; "but"; "of"; "for"; "to"; "in"; "on"; "at"; "by"; "with"; "is"; "are"; "was";
   "were"; "be"; "been"; "being"; "do"; "does"; "did"; "have"; "has"; "had"; "this"; "that"; "these"; "those";
   "it"; "its"; "as"; "from"; "about"; "into"; "than"; "then"; "if"; "so"; "such"; "only"; "can"; "could";
   "should"; "would"; "may"; "might"; "will"; "shall"; "what"; "which"; "who"; "whom"; "whose"; "why"; "how";
   "when"; "where"].
Definition is_stopword (t : string) : bool := existsb (String.eqb t) _STOPWORDS.

(** [_TOKEN_RE]: a letter, then at least one letter, digit, quote or dash;
    matches are maximal runs. *)
Definition token_char (c : ascii) : bool := is_alpha c || is_digit c || char_in c "'-".
Definition emit (cur : string) : list string := if (2 <=? String.length cur)%nat then [cur] else [].
Fixpoint findall_go (cur s : string) : list string :=
  match s with
  | EmptyString => emit cur
  | String c s' =>
      if String.eqb cur "" then findall_go (if is_alpha c then String c "" else "") s'
      else if token_char c then findall_go (cur +:+ String c "") s'
      else emit cur ++ findall_go "" s'
  end.
Definition findall (s : string) : list string := findall_go "" s.

Definition _tokens (text : string) : list string :=
  List.filter (fun t => negb (is_stopword t)) (map lower (findall text)).

(** The phrases of [n] words of one part, in order *)
Definition ngrams (n : nat) (toks : list string) : list string :=
  map (fun i => join " " (take n (drop i toks))) (seq 0 (length toks + 1 - n)).

Fixpoint phrase_loop (l phrases : list string) : list string :=
  match l with
  | [] => phrases
  | ph :: l' =>
      if negb (existsb (String.eqb ph) phrases) && (5 <=? String.length ph)%nat then
        let phrases := phrases ++ [ph] in
        if (12 <=? length phrases)%nat then phrases else phrase_loop l' phrases
      else phrase_loop l' phrases
  end.
Definition _phrase_candidates (query : string) (sub_questions : list string) : list string :=
  let parts := query :: List.filter (fun q => negb (String.eqb q "")) sub_questions in
  phrase_loop
    (flat_map (fun part =>
       let toks := List.filter (fun t => negb (is_stopword t)) (findall (lower part)) in
       ngrams 3 toks ++ ngrams 2 toks) parts) [].

(** ** Scores *)

(** [p$] at the end of [d]: [$] also matches before a final line feed. *)
Definition ends_line (p d : string) : bool :=
  endswith p d || endswith (p +:+ String "010" "") d.
Definition is_line (p d : string) : bool := String.eqb d p || String.eqb d (p +:+ String "010" "").
Definition tld (p d : string) : bool := str_in (p +:+ ".") d || ends_line p d.

Definition _TRUSTED_DOMAIN_PATTERNS : list ((string -> bool) * Q) :=
  [(tld ".gov", 5 # 100); (tld ".edu", 5 # 100); (is_line "en.wikipedia.org", 4 # 100);
   (ends_line ".wikipedia.org", 3 # 100); (is_line "arxiv.org", 5 # 100);
   (is_line "pubmed.ncbi.nlm.nih.gov", 5 # 100); (is_line "pmc.ncbi.nlm.nih.gov", 5 # 100);
   (is_line "scholar.google.com", 3 # 100); (tld ".org", 2 # 100)]%Q.

Definition _domain_bonus (domain : string) : Q :=
  if String.eqb domain "" then 0%Q else
  let d := lower domain in
  let d := if startswith "www." d then str_drop 4 d else d in
  match List.find (fun pb => pb.1 d) _TRUSTED_DOMAIN_PATTERNS with Some (_, b) => b | None => 0%Q end.

(** The alternatives of each marker, spelled out; every one begins and ends
    with a word character. *)
Definition _BAD_PAGE_MARKERS : list (list string * Q) :=
  [(["404"; "not found"; "page found"; "page not found"; "page does not exist"], 40 # 100);
   (["403"; "forbidden"; "access denied"], 40 # 100);
   (["signin"; "sign-in"; "sign in"; "login to continue"; "log-in to continue"; "log in to continue";
     "please sign in"], 30 # 100);
   (["captcha"; "im not a robot"; "i'm not a robot"; "robot check"], 25 # 100);
   (["this site cant be reached"; "this site can't be reached"; "connection timed out"; "connection refused"],
    50 # 100)]%Q.

Definition _bad_page_penalty (text title : string) : Q :=
  if String.eqb text "" && String.eqb title "" then 0%Q else
  let head := lower (title +:+ String "010" (str_take 600 text)) in
  let total := foldl (fun total mp => if existsb (fun w => has_word w head) mp.1 then (total + mp.2)%Q else total)
                 0%Q _BAD_PAGE_MARKERS in
  py_min total (7 # 10).

Definition _CONTENT_SCORE_WINDOW : nat := 3000.
Definition _IDEAL_CONTENT_LEN : Z := 1200.
Definition _MIN_USABLE_CONTENT_LEN : Z := 80.

Definition distinct (l : list string) : list string := remove_dups l.
Definition mem (t : string) (l : list string) : bool := existsb (String.eqb t) l.

Definition _overlap_score (query_tokens candidate_tokens : list string) : Q :=
  match query_tokens, candidate_tokens with
  | [], _ | _, [] => 0%Q
  | _, _ =>
      let hits := zlength (List.filter (fun t => mem t candidate_tokens) query_tokens) in
      py_min 1 (inject_Z hits / inject_Z (zlength query_tokens))
  end.

Definition _phrase_score (phrases : list string) (blob : string) : Q :=
  match phrases with
  | [] => 0%Q
  | _ => if String.eqb blob "" then 0%Q else
         let hits := zlength (List.filter (fun ph => str_in ph (lower blob)) phrases) in
         py_min 1 (inject_Z hits * (5 # 100) * 5)
  end.

Definition _title_overlap_score (query_tokens title_tokens : list string) : Q :=
  match title_tokens with
  | [] => 0%Q
  | _ => let hits := zlength (List.filter (fun t => mem t query_tokens) title_tokens) in
         py_min 1 (inject_Z hits * (4 # 100) * 5)
  end.

Section scoring.
Variable bracketed_ok : string -> bool.
Variable log10 : Z -> Q.

Definition _content_quality (content : string) : Q :=
  let n := Z.of_nat (String.length content) in
  if n =? 0 then 0%Q
  else if n <? _MIN_USABLE_CONTENT_LEN
  then py_max 0 (log10 (Z.max 1 n) / log10 _IDEAL_CONTENT_LEN)
  else py_min 1 (log10 n / log10 _IDEAL_CONTENT_LEN).

(** [_field(s, "domain") or (urlparse(url).netloc if url else "")] *)
Definition domain_of_source (s : Source) : result pyexn string :=
  let d := _field (src_domain s) in
  let url := _field (src_url s) in
  if negb (String.eqb d "") then Ok d
  else if String.eqb url "" then Ok ""
  else match urlparse bracketed_ok url with Ok p => Ok (netloc p) | Err x => Err x end.

(** The weighted sum of [_score_one], before the penalties *)
Definition base_score (s_token s_title s_phrase s_domain s_content : Q) : Q :=
  (45 # 100) * s_token + (20 # 100) * s_title + (15 # 100) * s_phrase + (10 # 100) * s_domain
  + (10 # 100) * s_content.

Definition _score_one (src : Source) (query_tokens phrases : list string) (domain_overrep : gmap string Z)
  (domain_total : Z) (seen_urls : list string) : result pyexn Q :=
  let title := _field (src_title src) in
  let content := str_take _CONTENT_SCORE_WINDOW (_field (src_content src)) in
  let url := _field (src_url src) in
  match domain_of_source src with
  | Err x => Err x
  | Ok domain =>
      let title_n := _normalize title in
      let content_n := _normalize content in
      let blob := strip is_space (title_n +:+ " " +:+ content_n) in
      let body_tokens := _tokens blob in
      let title_tokens := _tokens title_n in
      let s_domain := py_min 1 (_domain_bonus domain / (5 # 100)) in
      let base := base_score (_overlap_score query_tokens body_tokens)
                    (_title_overlap_score query_tokens title_tokens) (_phrase_score phrases blob)
                    s_domain (_content_quality content) in
      let bad_pen := _bad_page_penalty content title in
      let dup_pen := if negb (String.eqb url "") && mem url seen_urls then 20 # 100 else 0%Q in
      let domain_n := counter_get domain domain_overrep in
      let overrep_pen :=
        if negb (String.eqb domain "") && (0 <? domain_total)
           && Qltb (30 # 100) (inject_Z domain_n / inject_Z domain_total) && (2 <=? domain_n)
        then 10 # 100 else 0%Q in
      Ok (py_max 0 (py_min 1 (base - bad_pen - dup_pen - overrep_pen)))
  end.

(** ** The filter *)

Definition count_domain (acc : result pyexn (gmap string Z)) (s : Source) : result pyexn (gmap string Z) :=
  match acc, domain_of_source s with
  | Ok m, Ok d => Ok (if String.eqb d "" then m else counter_add d 1 m)
  | Err x, _ => Err x
  | _, Err x => Err x
  end.
Definition sum_values (m : gmap string Z) : Z := map_fold (fun _ n acc => n + acc) 0 m.

Fixpoint score_loop (query_tokens phrases : list string) (domain_count : gmap string Z) (domain_total : Z)
  (seen_urls : list string) (sources : list Source) : result pyexn (list (Q * Source)) :=
  match sources with
  | [] => Ok []
  | s :: sources' =>
      let url := _field (src_url s) in
      match _score_one s query_tokens phrases domain_count domain_total seen_urls with
      | Err x => Err x
      | Ok score =>
          let seen_urls := if String.eqb url "" then seen_urls else url :: seen_urls in
          match score_loop query_tokens phrases domain_count domain_total seen_urls sources' with
          | Err x => Err x
          | Ok rest => Ok ((score, s) :: rest)
          end
      end
  end.

(** [url_best]: a dict in insertion order; a better score replaces the value
    and keeps the place. *)
Fixpoint put_best (url : string) (sc : Q * Source) (best : list (string * (Q * Source)))
  : list (string * (Q * Source)) :=
  match best with
  | [] => [(url, sc)]
  | (u, b) :: best' =>
      if String.eqb u url then (u, if Qltb b.1 sc.1 then sc else b) :: best'
      else (u, b) :: put_best url sc best'
  end.

Definition keep_step (cfg : RelevanceConfig)
  (acc : list (string * (Q * Source)) * list (Q * Source)) (sc : Q * Source) :=
  if Qltb sc.1 (min_score cfg) then acc else
  let url := _field (src_url sc.2) in
  if String.eqb url "" then (acc.1, acc.2 ++ [sc]) else (put_best url sc acc.1, acc.2).

(** [merged.sort(key=lambda t: t[0], reverse=True)] *)
Definition merge (cfg : RelevanceConfig) (scored : list (Q * Source)) : list (Q * Source) :=
  let '(best, no_url) := foldl (keep_step cfg) ([], []) scored in
  sort_desc fst (map snd best ++ no_url).

Definition _run_blocking (cfg : RelevanceConfig) (query : string) (sub_questions : list string)
  (sources : list Source) : result pyexn RelevanceResult :=
  let query_tokens := distinct (_tokens (join " " (query :: sub_questions))) in
  let phrases := _phrase_candidates query sub_questions in
  match foldl count_domain (Ok ∅) sources with
  | Err x => Err x
  | Ok domain_count =>
      match score_loop query_tokens phrases domain_count (sum_values domain_count) [] sources with
      | Err x => Err x
      | Ok scored =>
          let cap := Z.max 1 (max_sources cfg) in
          let selected := map snd (take (Z.to_nat cap) (merge cfg scored)) in
          Ok (Result selected (zlength sources) (zlength selected) (zlength sources - zlength selected) false [])
      end
  end.

Definition pass_through (sources : list Source) (fallback : bool) (errs : list pyexn) : RelevanceResult :=
  Result sources (zlength sources) (zlength sources) 0 fallback errs.

Definition active_tier (tier_arg : option string) (cfg : RelevanceConfig) : string :=
  lower (match tier_arg with
         | Some t => if String.eqb t "" then (if String.eqb (tier cfg) "" then "medium" else tier cfg) else t
         | None => if String.eqb (tier cfg) "" then "medium" else tier cfg
         end).

Definition filter_sources (cfg : RelevanceConfig) (query : string) (sub_questions : list string)
  (sources : list Source) (tier_arg : option string) : result pyexn RelevanceResult :=
  if negb (enabled cfg) then Ok (pass_through sources false [])
  else if String.eqb (active_tier tier_arg cfg) "basic" then Ok (pass_through sources false [])
  else match sources with
       | [] => Ok (Result [] 0 0 0 false [])
       | _ =>
           match _run_blocking cfg query sub_questions sources with
           | Ok r => Ok r
           | Err x => if fail_open cfg then Ok (pass_through sources true [x]) else Err x
           end
       end.
End scoring.

(** ** The scores are between 0 and 1 *)

Lemma score_range bracketed_ok log10 s qt ph dm dt seen q :
  _score_one bracketed_ok log10 s qt ph dm dt seen = Ok q -> (0 <= q <= 1)%Q.
Proof.
  unfold _score_one. destruct (domain_of_source _ _); [|done]. intros [= <-].
  apply py_clamp_bounds. lra.
Qed.

Lemma score_loop_spec bracketed_ok log10 qt ph dm dt seen sources scored :
  score_loop bracketed_ok log10 qt ph dm dt seen sources = Ok scored ->
  map snd scored = sources /\ Forall (fun qs => (0 <= qs.1 <= 1)%Q) scored.
Proof.
  revert seen scored. induction sources as [|s sources IH]; intros seen scored; simpl; [by intros [= <-]|].
  destruct (_score_one _ _ _ _ _ _ _ _) as [q|] eqn:Eq; [|done].
  destruct (score_loop _ _ _ _ _ _ _ sources) as [rest|] eqn:Er; [|done]. intros [= <-].
  apply IH in Er as [<- Hf]. split; [done|]. constructor; [by eapply score_range|done].
Qed.

(** ** The best entry of every URL *)

Lemma put_best_keys u sc best :
  (put_best u sc best).*1 = if bool_decide (u ∈ best.*1) then best.*1 else best.*1 ++ [u].
Proof.
  induction best as [|[v b] best IH]; csimpl; [done|]. destruct (String.eqb_spec v u) as [->|Hne]; csimpl.
  - by rewrite bool_decide_eq_true_2 by (by left).
  - rewrite IH. do 2 case_bool_decide; set_solver.
Qed.

Lemma put_best_elem u sc best v b : (v, b) ∈ put_best u sc best -> (v, b) ∈ best \/ (v = u /\ b = sc).
Proof.
  induction best as [|[w b'] best IH]; simpl; [set_solver|]. destruct (String.eqb_spec w u) as [->|Hne].
  - destruct (Qltb b'.1 sc.1); set_solver.
  - rewrite !elem_of_cons. naive_solver.
Qed.

(** What was there stays, or is replaced by a higher score. *)
Lemma put_best_keeps u sc best v b : (v, b) ∈ best ->
  exists b', (v, b') ∈ put_best u sc best /\ (b.1 <= b'.1)%Q.
Proof.
  induction best as [|[w b0] best IH]; simpl; [by intros ?%elem_of_nil|].
  destruct (String.eqb_spec w u) as [->|Hne]; rewrite !elem_of_cons.
  - intros [[= -> ->]|Hin]; [|exists b; split; [set_solver|lra]].
    destruct (Qltb_reflect b0.1 sc.1); [exists sc|exists b0]; (split; [set_solver|lra]).
  - intros [[= -> ->]|Hin]; [exists b0; split; [set_solver|lra]|].
    destruct (IH Hin) as (b' & Hb & Hle). exists b'. split; [set_solver|done].
Qed.
Lemma put_best_new u sc best : exists b', (u, b') ∈ put_best u sc best /\ (sc.1 <= b'.1)%Q.
Proof.
  induction best as [|[w b0] best (b' & Hb & Hle)]; simpl; [exists sc; split; [set_solver|lra]|].
  destruct (String.eqb_spec w u) as [->|Hne].
  - destruct (Qltb_reflect b0.1 sc.1); [exists sc|exists b0]; (split; [set_solver|lra]).
  - exists b'. split; [set_solver|done].
Qed.

Definition url_of (qs : Q * Source) : string := _field (src_url qs.2).

(** [chosen] covers [qs]: it holds the entry itself, or one of the same URL
    that scores at least as high. *)
Definition covers (chosen : list (Q * Source)) (qs : Q * Source) : Prop :=
  exists c, c ∈ chosen /\ (qs.1 <= c.1)%Q /\ (c = qs \/ (url_of c = url_of qs /\ url_of qs <> "")).

Record kept_ok (cfg : RelevanceConfig) (seen : list (Q * Source))
  (best : list (string * (Q * Source))) (no_url : list (Q * Source)) : Prop := {
  kept_keys : NoDup best.*1;
  kept_best u b : (u, b) ∈ best -> b ∈ seen /\ url_of b = u /\ u <> "" /\ (min_score cfg <= b.1)%Q;
  kept_no_url b : b ∈ no_url -> b ∈ seen /\ url_of b = "" /\ (min_score cfg <= b.1)%Q;
  kept_all qs : qs ∈ seen -> (min_score cfg <= qs.1)%Q -> covers (map snd best ++ no_url) qs }.

Lemma kept_step cfg seen best no_url sc best' no_url' :
  keep_step cfg (best, no_url) sc = (best', no_url') ->
  kept_ok cfg seen best no_url -> kept_ok cfg (seen ++ [sc]) best' no_url'.
Proof.
  unfold keep_step. simpl. fold (url_of sc). intros E [Hk Hb Hn Ha].
  destruct (Qltb_reflect sc.1 (min_score cfg)) as [Hlt|Hge]; [|destruct (String.eqb_spec (url_of sc) "") as [Hu|Hu]];
    injection E as <- <-; split; try done.
  - set_solver.
  - set_solver.
  - intros qs [Hq|Hq]%elem_of_app Hm; [by apply Ha|]. apply list_elem_of_singleton in Hq as ->. lra.
  - set_solver.
  - intros b [?|Hq]%elem_of_app; [set_solver|]. apply list_elem_of_singleton in Hq as ->. set_solver.
  - intros qs [Hq|Hq]%elem_of_app Hm.
    + destruct (Ha _ Hq Hm) as (c & Hc & ?). exists c. set_solver.
    + apply list_elem_of_singleton in Hq as ->. exists sc. split; [set_solver|]. split; [lra|by left].
  - rewrite put_best_keys. case_bool_decide; [done|]. apply NoDup_app. set_solver by (by apply NoDup_singleton).
  - intros u b [?|[-> ->]]%put_best_elem; [set_solver|]. split; [set_solver|done].
  - set_solver.
  - intros qs [Hq|Hq]%elem_of_app Hm.
    + destruct (Ha _ Hq Hm) as (c & [Hc|Hc]%elem_of_app & Hle & Hor); [|exists c; set_solver].
      apply list_elem_of_fmap in Hc as ([u b] & -> & Hc). simpl in *.
      destruct (put_best_keeps (url_of sc) sc best u b Hc) as (b' & Hb' & Hle').
      exists b'. split; [apply elem_of_app; left; apply list_elem_of_fmap; by exists (u, b')|].
      split; [lra|]. right. destruct (Hb _ _ Hc) as (_ & Hub & Hne & _).
      assert (url_of b' = u) as Hub'.
      { apply put_best_elem in Hb' as [Hb'|[-> ->]]; [by apply Hb in Hb' as (_ & ? & _)|done]. }
      destruct Hor as [->|[He He']]; [by rewrite Hub', Hub|]. by rewrite Hub', <- Hub.
    + apply list_elem_of_singleton in Hq as ->. destruct (put_best_new (url_of sc) sc best) as (b' & Hb' & Hle').
      exists b'. split; [apply elem_of_app; left; apply list_elem_of_fmap; by exists (url_of sc, b')|].
      split; [done|]. right. split; [|done].
      apply put_best_elem in Hb' as [Hb'|[_ ->]]; [by apply Hb in Hb' as (_ & ? & _)|done].
Qed.

Lemma kept_fold cfg seen scored best no_url best' no_url' :
  kept_ok cfg seen best no_url -> foldl (keep_step cfg) (best, no_url) scored = (best', no_url') ->
  kept_ok cfg (seen ++ scored) best' no_url'.
Proof.
  revert seen best no_url. induction scored as [|sc scored IH]; intros seen best no_url Hk; simpl.
  - intros [= <- <-]. by rewrite app_nil_r.
  - destruct (keep_step cfg (best, no_url) sc) as [b1 n1] eqn:E. intros Hf.
    rewrite cons_middle, app_assoc. eapply IH; [|exact Hf]. by eapply kept_step.
Qed.

Lemma best_urls best : (forall u b, (u, b) ∈ best -> url_of b = u) -> map url_of (map snd best) = best.*1.
Proof.
  intros Hb. induction best as [|[u b] best IH]; [done|]. csimpl. rewrite IH by set_solver.
  f_equal. apply Hb. by left.
Qed.

Definition nonempty (s : string) : bool := negb (String.eqb s "").

Lemma filter_nonempty_all l : Forall (fun s => s <> "") l -> List.filter nonempty l = l.
Proof.
  induction 1 as [|s l Hs Hl IH]; simpl; [done|]. unfold nonempty at 1.
  destruct (String.eqb_spec s ""); [done|]. simpl. by rewrite IH.
Qed.
Lemma filter_nonempty_none l : Forall (fun s => s = "") l -> List.filter nonempty l = [].
Proof. induction 1 as [|s l -> Hl IH]; [done|]. exact IH. Qed.

(** The merged list: the entries above the threshold, best first, one per
    URL, and nothing else left out. *)
Lemma merge_spec cfg scored :
  StronglySorted (key_ge fst) (merge cfg scored) /\
  (forall qs, qs ∈ merge cfg scored -> qs ∈ scored /\ (min_score cfg <= qs.1)%Q) /\
  NoDup (List.filter nonempty (map url_of (merge cfg scored))) /\
  (forall qs, qs ∈ scored -> (min_score cfg <= qs.1)%Q -> covers (merge cfg scored) qs).
Proof.
  unfold merge. destruct (foldl (keep_step cfg) ([], []) scored) as [best no_url] eqn:E.
  assert (kept_ok cfg [] [] []) as H0 by (split; [constructor|set_solver..]).
  destruct (kept_fold _ _ _ _ _ _ _ H0 E) as [Hk Hb Hn Ha]. simpl in *.
  assert (forall qs, qs ∈ sort_desc fst (map snd best ++ no_url) <-> qs ∈ map snd best ++ no_url) as Hin.
  { intros qs. by rewrite sort_desc_perm. }
  split_and!.
  - apply sort_desc_sorted.
  - intros qs. rewrite Hin, elem_of_app, list_elem_of_fmap. intros [([u b] & -> & Hu)|Hu]; [|by apply Hn in Hu as (? & _ & ?)].
    by apply Hb in Hu as (? & _ & _ & ?).
  - assert (List.filter nonempty (map url_of (sort_desc fst (map snd best ++ no_url)))
            ≡ₚ List.filter nonempty (map url_of (map snd best ++ no_url))) as ->.
    { induction (Permutation_map url_of (sort_desc_perm fst (map snd best ++ no_url))); simpl; try done.
      - by case_match; [constructor|].
      - repeat case_match; try done. constructor.
      - by etrans. }
    rewrite map_app, List.filter_app, (filter_nonempty_none (map url_of no_url)), app_nil_r.
    2: { apply Forall_forall. intros u (b & -> & Hu)%list_elem_of_fmap. by apply Hn in Hu as (_ & ? & _). }
    rewrite best_urls by (intros u b Hu; by apply Hb in Hu as (_ & ? & _)). rewrite filter_nonempty_all; [done|].
    apply Forall_forall. intros u ([u' b] & -> & Hu)%list_elem_of_fmap. by apply Hb in Hu as (_ & _ & ? & _).
  - intros qs Hq Hm. destruct (Ha _ Hq Hm) as (c & Hc & ?). exists c. by rewrite Hin.
Qed.

(** A prefix of a list sorted by score, and what it leaves out *)
Lemma take_sorted n (l : list (Q * Source)) c : StronglySorted (key_ge fst) l -> c ∈ l ->
  c ∈ take n l \/ (length (take n l) = n /\ Forall (fun x => (c.1 <= x.1)%Q) (take n l)).
Proof.
  intros Hs. revert n. induction Hs as [|x l Hl IH Hx]; intros n Hc; [by apply elem_of_nil in Hc|].
  destruct n as [|n]; [by right|]. simpl. rewrite Forall_forall in Hx.
  apply elem_of_cons in Hc as [->|Hc]; [left; by left|].
  destruct (IH n Hc) as [?|[Hlen Hf]]; [left; by right|]. right. split; [by rewrite Hlen|].
  constructor; [by apply Hx|done].
Qed.

Lemma NoDup_filter_take n (l : list (Q * Source)) :
  NoDup (List.filter nonempty (map url_of l)) -> NoDup (List.filter nonempty (map url_of (take n l))).
Proof. rewrite <- (take_drop n l) at 1. rewrite map_app, List.filter_app. by intros [? _]%NoDup_app. Qed.

(** The filter's answer, when scoring raises nothing: every source gets a
    score in [0, 1]; the chosen ones are sources with at least the minimum
    score, best first, no URL twice, at most [max(1, max_sources)] of them;
    and a source with the minimum score is left out only for one of the same
    URL with at least its score, or because the cap is reached with sources
    that score at least as high.  The counts agree with the lists. *)
Theorem relevance_filter_spec bracketed_ok log10 cfg query sub_questions sources r :
  _run_blocking bracketed_ok log10 cfg query sub_questions sources = Ok r ->
  exists scored chosen,
    map snd scored = sources /\ Forall (fun qs => (0 <= qs.1 <= 1)%Q) scored /\
    selected_sources r = map snd chosen /\
    (forall c, c ∈ chosen -> c ∈ scored /\ (min_score cfg <= c.1)%Q) /\
    StronglySorted (key_ge fst) chosen /\ NoDup (List.filter nonempty (map url_of chosen)) /\
    zlength chosen <= Z.max 1 (max_sources cfg) /\
    (forall qs, qs ∈ scored -> (min_score cfg <= qs.1)%Q -> covers chosen qs \/
       (zlength chosen = Z.max 1 (max_sources cfg) /\ Forall (fun c => (qs.1 <= c.1)%Q) chosen)) /\
    original_count r = zlength sources /\ selected_count r = zlength chosen /\
    rejected_count r = zlength sources - zlength chosen.
Proof.
  unfold _run_blocking. destruct (foldl _ _ _) as [dc|]; [|done].
  destruct (score_loop _ _ _ _ _ _ _ _) as [scored|] eqn:Es; [|done]. intros [= <-].
  apply score_loop_spec in Es as [Hm Hr]. destruct (merge_spec cfg scored) as (Hs & Hin & Hd & Hc).
  set (cap := Z.max 1 (max_sources cfg)). exists scored, (take (Z.to_nat cap) (merge cfg scored)).
  assert (forall l : list (Q * Source), zlength (map snd l) = zlength l) as Hz
    by (intros l; unfold zlength; by rewrite length_map).
  simpl. rewrite !Hz. split_and!; try done.
  - intros c Hcc. apply Hin. eapply elem_of_take in Hcc as (i & Hi & _). by eapply list_elem_of_lookup_2.
  - by apply sorted_take.
  - by apply NoDup_filter_take.
  - unfold zlength. rewrite length_take. lia.
  - intros qs Hq Hmin. destruct (Hc qs Hq Hmin) as (c & Hcm & Hle & Hor).
    destruct (take_sorted (Z.to_nat cap) _ _ Hs Hcm) as [Hct|[Hlen Hf]]; [left; by exists c|].
    right. split; [unfold zlength; rewrite Hlen; lia|].
    eapply Forall_impl; [exact Hf|]. simpl. intros x Hx. lra.
Qed.

Lemma run_selects_sources bracketed_ok log10 cfg query sub_questions sources r :
  _run_blocking bracketed_ok log10 cfg query sub_questions sources = Ok r ->
  forall s, s ∈ selected_sources r -> s ∈ sources.
Proof.
  unfold _run_blocking. destruct (foldl _ _ _) as [dc|]; [|done].
  destruct (score_loop _ _ _ _ _ _ _ _) as [scored|] eqn:Es; [|done]. intros [= <-] s. simpl.
  apply score_loop_spec in Es as [<- _]. rewrite !list_elem_of_fmap. intros (c & -> & Hc).
  exists c. split; [done|]. apply (merge_spec cfg). apply elem_of_take in Hc as (i & Hi & _).
  by eapply list_elem_of_lookup_2.
Qed.

Lemma run_selects_distinct bracketed_ok log10 cfg query sub_questions sources r :
  _run_blocking bracketed_ok log10 cfg query sub_questions sources = Ok r ->
  NoDup (List.filter nonempty (map (fun s => _field (src_url s)) (selected_sources r))).
Proof.
  unfold _run_blocking. destruct (foldl _ _ _) as [dc|]; [|done].
  destruct (score_loop _ _ _ _ _ _ _ _) as [scored|] eqn:Es; [|done]. intros [= <-]. simpl.
  destruct (merge_spec cfg scored) as (_ & _ & Hd & _). rewrite map_map. by apply NoDup_filter_take.
Qed.

(** The gate fails open: with [fail_open] a call always returns; when
    scoring raises (an address with a malformed bracketed host, say), every
    source is returned, in order, and the error is recorded. *)
Theorem filter_fails_open bracketed_ok log10 cfg query sub_questions sources tier_arg :
  fail_open cfg = true ->
  exists r, filter_sources bracketed_ok log10 cfg query sub_questions sources tier_arg = Ok r /\
    (forall s, s ∈ selected_sources r -> s ∈ sources) /\
    (fallback_used r = true -> selected_sources r = sources /\ rejected_count r = 0) /\
    (fallback_used r = false -> errors r = []).
Proof.
  intros Hfo. unfold filter_sources. destruct (enabled cfg); simpl; [|by eexists].
  destruct (String.eqb _ _); [by eexists|]. destruct sources as [|s0 sources]; [by eexists|].
  destruct (_run_blocking _ _ _ _ _ _) as [r|x] eqn:E; [|rewrite Hfo; by eexists].
  exists r. split; [done|]. split; [by eapply run_selects_sources|].
  unfold _run_blocking in E. repeat (case_match; try done). by injection E as <-.
Qed.

(** ** The specifications on concrete inputs *)

(** Digits of the integer, in place of the logarithm *)
Definition log_digits (n : Z) : Q := inject_Z (Z.log2 n) / inject_Z 3.
Definition demo_sources : list Source :=
  [Src 0 (Some "404 page not found") (Some "") (Some "https://a.example/x") None;
   Src 1 (Some "Photosynthesis basics") (Some "how plants use photosynthesis") (Some "https://bio.edu/p") (Some "bio.edu");
   Src 2 (Some "Photosynthesis basics") (Some "how plants use photosynthesis") (Some "https://bio.edu/p") (Some "bio.edu");
   Src 3 (Some "Plants") None None None].
Definition demo_config : RelevanceConfig := Config true true (15 # 100) 2 "deep".
Definition demo_result : RelevanceResult :=
  Result (take 1 (drop 1 demo_sources) ++ drop 3 demo_sources) 4 2 2 false [].

(** The error page is dropped, the first of the two copies is kept. *)
Lemma relevance_filter_spec_witness :
  exists scored chosen : list (Q * Source), map snd scored = demo_sources /\ selected_sources demo_result = map snd chosen /\
    NoDup (List.filter nonempty (map url_of chosen)).
Proof.
  destruct (relevance_filter_spec (fun _ => true) log_digits demo_config "photosynthesis in plants"
              ["how do plants use light"] demo_sources demo_result) as (scored & chosen & Hm & _ & Hs & _ & _ & Hd & _).
  - by vm_compute.
  - by exists scored, chosen.
Defined.

(** A malformed bracketed host makes the scoring raise; the sources come back. *)
Lemma filter_fails_open_witness :
  exists r, filter_sources (fun _ => false) log_digits demo_config "q" []
              [Src 0 (Some "t") None (Some "http://[x]/") None] None = Ok r /\ fallback_used r = true /\
            selected_count r = 1.
Proof.
  destruct (filter_fails_open (fun _ => false) log_digits demo_config "q" []
              [Src 0 (Some "t") None (Some "http://[x]/") None] None eq_refl) as (r & Hr & _).
  exists r. split; [exact Hr|]. revert Hr. vm_compute. by intros [= <-].
Defined.
