(* ===== verification/PyConv.v ===== *)
(** * Conversions between Python values

    [str], [repr], [int], iteration and slicing of the values of PyVal.v, and
    the decimal digits of an integer.  [repr] of a float is a variable. *)

From S2P Require Import Prelude PyStr PyVal.
From Stdlib Require Import Ascii.

(** ** Decimal digits *)

Definition is_digit (c : ascii) : bool := let n := nat_of_ascii c in (48 <=? n)%nat && (n <=? 57)%nat.
Definition digit_char (d : Z) : ascii := ascii_of_nat (48 + Z.to_nat d).
Definition digit_val (c : ascii) : Z := Z.of_nat (nat_of_ascii c) - 48.

Fixpoint digits_val_go (acc : Z) (s : string) : Z :=
  match s with EmptyString => acc | String c s' => digits_val_go (10 * acc + digit_val c) s' end.
Definition digits_val (s : string) : Z := digits_val_go 0 s.

Fixpoint digits_go (fuel : nat) (n : Z) (tail : string) : string :=
  match fuel with
  | O => tail
  | S fuel' =>
      let s := String (digit_char (n mod 10)) tail in
      if n <? 10 then s else digits_go fuel' (n / 10) s
  end.
(** The digits of [0 <= n]; every turn removes one, so at most one per bit. *)
Definition digits (n : Z) : string := digits_go (S (Z.to_nat (Z.log2 n))) n "".
(** [str(n)] *)
Definition str_int (n : Z) : string := if n <? 0 then String "-" (digits (- n)) else digits n.

Lemma digit_char_ok d : 0 <= d < 10 -> is_digit (digit_char d) = true /\ digit_val (digit_char d) = d.
Proof.
  intros Hd. assert (d = 0 \/ d = 1 \/ d = 2 \/ d = 3 \/ d = 4 \/ d = 5 \/ d = 6 \/ d = 7 \/ d = 8 \/ d = 9) as Hc by lia.
  by destruct_or!; subst.
Qed.

Lemma digits_val_app a b : digits_val (a +:+ b) = digits_val_go (digits_val a) b.
Proof.
  unfold digits_val. generalize 0. induction a as [|c a IH]; intros acc; [done|]. apply IH.
Qed.

Lemma digits_val_go_shift acc s : digits_val_go acc s = acc * 10 ^ Z.of_nat (String.length s) + digits_val s.
Proof.
  unfold digits_val. revert acc. induction s as [|c s IH]; intros acc; cbn [digits_val_go String.length]; [lia|].
  rewrite IH, (IH (10 * 0 + digit_val c)). rewrite Nat2Z.inj_succ, Z.pow_succ_r by lia. lia.
Qed.

Lemma digits_val_cons c s : digits_val (String c s) = digit_val c * 10 ^ Z.of_nat (String.length s) + digits_val s.
Proof.
  change (digits_val (String c s)) with (digits_val_go (10 * 0 + digit_val c) s). rewrite digits_val_go_shift. lia.
Qed.

Lemma digits_go_spec fuel n tail : 0 <= n < 2 ^ Z.of_nat fuel ->
  digits_val (digits_go fuel n tail) = n * 10 ^ Z.of_nat (String.length tail) + digits_val tail /\
  (str_forallb is_digit tail = true -> str_forallb is_digit (digits_go fuel n tail) = true).
Proof.
  revert n tail. induction fuel as [|fuel IH]; intros n tail Hn; cbn [digits_go].
  - simpl in Hn. assert (n = 0) as -> by lia. split; [lia|done].
  - assert (0 <= n mod 10 < 10) as Hm by (apply Z.mod_pos_bound; lia).
    destruct (digit_char_ok _ Hm) as [Hd Hv]. destruct (Z.ltb_spec n 10).
    + split; [|intros Ht; cbn [str_forallb]; by rewrite Hd, Ht]. rewrite digits_val_cons, Hv, Z.mod_small by lia. lia.
    + destruct (IH (n / 10) (String (digit_char (n mod 10)) tail)) as [IH1 IH2].
      { rewrite Nat2Z.inj_succ, Z.pow_succ_r in Hn by lia. pose proof (Z.div_lt_upper_bound n 10 (2 ^ Z.of_nat fuel)).
        pose proof (Z.div_pos n 10). lia. }
      split; [|intros Ht; apply IH2; cbn [str_forallb]; by rewrite Hd, Ht].
      rewrite IH1, digits_val_cons, Hv. cbn [String.length]. rewrite Nat2Z.inj_succ, Z.pow_succ_r by lia.
      pose proof (Z.div_mod n 10 ltac:(lia)). nia.
Qed.

Lemma digits_fuel n : 0 <= n -> n < 2 ^ Z.of_nat (S (Z.to_nat (Z.log2 n))).
Proof.
  intros Hn. rewrite Nat2Z.inj_succ, Z2Nat.id by apply Z.log2_nonneg.
  destruct (decide (n = 0)) as [->|]; [simpl; lia|]. apply Z.log2_spec. lia.
Qed.

Lemma digits_val_digits n : 0 <= n -> digits_val (digits n) = n.
Proof.
  intros Hn. destruct (digits_go_spec (S (Z.to_nat (Z.log2 n))) n "") as [H _]; [split; [done|by apply digits_fuel]|].
  unfold digits. rewrite H. unfold digits_val. simpl. lia.
Qed.
Lemma digits_digits n : 0 <= n -> str_forallb is_digit (digits n) = true.
Proof. intros Hn. apply digits_go_spec; [split; [done|by apply digits_fuel]|done]. Qed.

(** The first digit is not zero, unless the number is. *)
Lemma digits_go_head fuel n tail : 0 < n < 2 ^ Z.of_nat fuel ->
  exists c s, digits_go fuel n tail = String c s /\ is_digit c = true /\ c <> "0"%char.
Proof.
  revert n tail. induction fuel as [|fuel IH]; intros n tail Hn; cbn [digits_go]; [simpl in Hn; lia|].
  destruct (Z.ltb_spec n 10).
  - rewrite Z.mod_small by lia. eexists _, _. split; [done|].
    assert (n = 1 \/ n = 2 \/ n = 3 \/ n = 4 \/ n = 5 \/ n = 6 \/ n = 7 \/ n = 8 \/ n = 9) as Hc by lia.
    by destruct_or!; subst.
  - apply IH. rewrite Nat2Z.inj_succ, Z.pow_succ_r in Hn by lia. pose proof (Z.div_lt_upper_bound n 10 (2 ^ Z.of_nat fuel)).
    pose proof (Z.div_str_pos n 10). lia.
Qed.
Lemma digits_head n : 0 < n -> exists c s, digits n = String c s /\ is_digit c = true /\ c <> "0"%char.
Proof. intros Hn. apply digits_go_head. split; [done|]. apply digits_fuel. lia. Qed.

(** ** Dictionaries in insertion order *)

(** [d.get(k)] *)
Fixpoint dict_get (k : string) (d : list (string * pyval)) : option pyval :=
  match d with [] => None | (k', v) :: d' => if String.eqb k' k then Some v else dict_get k d' end.
(** [d[k] = v] *)
Fixpoint dict_set (k : string) (v : pyval) (d : list (string * pyval)) : list (string * pyval) :=
  match d with
  | [] => [(k, v)]
  | (k', v') :: d' => if String.eqb k' k then (k, v) :: d' else (k', v') :: dict_set k v d'
  end.
(** [dict(pairs)] *)
Definition dict_of (pairs : list (string * pyval)) : list (string * pyval) :=
  foldl (fun d kv => dict_set kv.1 kv.2 d) [] pairs.

Lemma dict_set_new k v d : k ∉ d.*1 -> dict_set k v d = d ++ [(k, v)].
Proof.
  induction d as [|[k' v'] d IH]; csimpl; [done|]. intros Hk. destruct (String.eqb_spec k' k); [set_solver|].
  rewrite IH by set_solver. done.
Qed.
Lemma dict_of_NoDup pairs : NoDup pairs.*1 -> dict_of pairs = pairs.
Proof.
  unfold dict_of. intros Hnd. change pairs with ([] ++ pairs) at 2. assert (NoDup ([] ++ pairs).*1) as Hnd' by done.
  clear Hnd. revert Hnd'. generalize (@nil (string * pyval)).
  induction pairs as [|[k v] pairs IH]; intros d Hnd; simpl; [by rewrite app_nil_r|].
  rewrite dict_set_new.
  - rewrite IH; rewrite <- app_assoc; done.
  - rewrite fmap_app in Hnd. apply NoDup_app in Hnd as (_ & Hd & _). intros Hk. apply (Hd k Hk). by left.
Qed.

Lemma dict_get_set_eq k v d : dict_get k (dict_set k v d) = Some v.
Proof.
  induction d as [|[k' v'] d IH]; simpl; [by rewrite String.eqb_refl|].
  destruct (String.eqb_spec k' k); simpl; [by rewrite String.eqb_refl|]. destruct (String.eqb_spec k' k); [done|apply IH].
Qed.
Lemma dict_get_set_ne k k' v d : k <> k' -> dict_get k' (dict_set k v d) = dict_get k' d.
Proof.
  intros Hk. induction d as [|[k0 v0] d IH]; simpl; [by destruct (String.eqb_spec k k')|].
  destruct (String.eqb_spec k0 k) as [->|]; simpl; [by destruct (String.eqb_spec k k')|by rewrite IH].
Qed.

(** ** [str] and [repr] *)

Definition hex_char (d : nat) : ascii := if (d <? 10)%nat then ascii_of_nat (48 + d) else ascii_of_nat (87 + d).
(** Two hexadecimal digits *)
Definition hex2 (n : nat) : string := String (hex_char (n / 16)) (String (hex_char (n mod 16)) "").

Definition QUOTE : ascii := "039".
Definition DQUOTE : ascii := "034".
Definition BACKSLASH : ascii := "092".
Definition repr_char (quote c : ascii) : string :=
  let n := nat_of_ascii c in
  if Ascii.eqb c quote || Ascii.eqb c BACKSLASH then String BACKSLASH (String c "")
  else if (n =? 10)%nat then String BACKSLASH "n"
  else if (n =? 13)%nat then String BACKSLASH "r"
  else if (n =? 9)%nat then String BACKSLASH "t"
  else if (n <? 32)%nat || (n =? 127)%nat then String BACKSLASH (String "x" (hex2 n))
  else String c "".
Fixpoint concat_map (f : ascii -> string) (s : string) : string :=
  match s with EmptyString => "" | String c s' => f c +:+ concat_map f s' end.
Definition repr_str (s : string) : string :=
  let quote := if char_in QUOTE s && negb (char_in DQUOTE s) then DQUOTE else QUOTE in
  String quote (concat_map (repr_char quote) s +:+ String quote "").

Section repr.
(** [repr] of a float or a time *)
Variable atom_repr : pyval -> string.

Fixpoint py_repr (v : pyval) : string :=
  match v with
  | PNone => "None"
  | PBool b => if b then "True" else "False"
  | PInt z => str_int z
  | PStr s => repr_str s
  | PFloat _ | PTime _ => atom_repr v
  | PList l => "[" +:+ join ", " (map py_repr l) +:+ "]"
  | PDict d => "{" +:+ join ", " (map (fun kv => repr_str kv.1 +:+ ": " +:+ py_repr kv.2) d) +:+ "}"
  end.
(** [str(v)] *)
Definition py_str (v : pyval) : string := match v with PStr s => s | _ => py_repr v end.
End repr.

(** ** [int], iteration, slices *)

Definition type_name (v : pyval) : string :=
  match v with
  | PNone => "NoneType" | PBool _ => "bool" | PInt _ => "int" | PFloat _ => "float" | PStr _ => "str"
  | PTime _ => "datetime.datetime" | PList _ => "list" | PDict _ => "dict"
  end.
Definition type_error (v : pyval) (what : string) : pyexn :=
  PyExn "TypeError" ("'" +:+ type_name v +:+ "' object " +:+ what).
Definition attribute_error (v : pyval) (attr : string) : pyexn :=
  PyExn "AttributeError" ("'" +:+ type_name v +:+ "' object has no attribute '" +:+ attr +:+ "'").

(** [int(s)] of a string: blanks around, a sign, digits with single
    underscores between them *)
Definition int_of_str (s : string) : option Z :=
  let t := strip is_space s in
  let '(neg, u) := match t with
                   | String c r => if Ascii.eqb c "-" then (true, r) else if Ascii.eqb c "+" then (false, r) else (false, t)
                   | _ => (false, t)
                   end in
  if forallb (fun p => negb (String.eqb p "") && str_forallb is_digit p) (split "_" u)
  then Some (let n := digits_val (remove_chars (Ascii.eqb "_") u) in if neg : bool then - n else n)
  else None.
(** [int(v)] *)
Definition int_of (v : pyval) : result pyexn Z :=
  match v with
  | PInt z => Ok z
  | PBool b => Ok (if b then 1 else 0)
  | PFloat q => Ok (py_int q)
  | PStr s => match int_of_str s with
              | Some z => Ok z
              | None => Err (PyExn "ValueError" ("invalid literal for int() with base 10: " +:+ repr_str s))
              end
  | _ => Err (PyExn "TypeError" ("int() argument must be a string, a bytes-like object or a real number, not '"
                +:+ type_name v +:+ "'"))
  end.

Fixpoint chars (s : string) : list string :=
  match s with EmptyString => [] | String c s' => String c "" :: chars s' end.
(** [iter(v)]: characters of a string, keys of a dict *)
Definition iterate (v : pyval) : result pyexn (list pyval) :=
  match v with
  | PList l => Ok l
  | PStr s => Ok (map PStr (chars s))
  | PDict d => Ok (map (fun kv => PStr kv.1) d)
  | _ => Err (type_error v "is not iterable")
  end.
(** [for x in v[:n]] *)
Definition iterate_slice (n : nat) (v : pyval) : result pyexn (list pyval) :=
  match v with
  | PList l => Ok (take n l)
  | PStr s => Ok (map PStr (chars (str_take n s)))
  | PDict _ => Err (PyExn "TypeError" "unhashable type: 'slice'")
  | _ => Err (type_error v "is not subscriptable")
  end.
(** [v.get(k)], for a value of any type *)
Definition get_attr (k : string) (v : pyval) : result pyexn (option pyval) :=
  match v with PDict d => Ok (dict_get k d) | _ => Err (attribute_error v "get") end.
