(* ===== verification/CrawlPipeline.v ===== *)
(** * The crawl pipeline

    document_processor/orchestration/pipeline.py: documents flow through the
    queues of the stages, worked off by the workers of each stage.  A worker is
    split at its awaits: it starts, takes a document from its queue, and ends
    the turn when the stage's handler returns, raises or is cancelled.  What a
    handler's awaited calls answer, and what a custom handler does, is part of
    the event.  A document belongs to one place of the pipeline at a time, so
    it is a value; the handler's changes are in the document it leaves. *)

From stdpp Require Import functions.
From S2P Require Import Prelude PyStr PyVal PyConv CircuitBreaker Url Scraper.

(** ** Stages and documents *)

Inductive PipelineStage :=
| URL_FRONTIER | FETCH | EXTRACT | DETECT_LANGUAGE | TRANSLATE | EMBED | STORE.
#[export] Instance PipelineStage_eq_dec : EqDecision PipelineStage.
Proof. solve_decision. Defined.

Definition stage_value (s : PipelineStage) : string :=
  match s with
  | URL_FRONTIER => "url_frontier" | FETCH => "fetch" | EXTRACT => "extract"
  | DETECT_LANGUAGE => "detect_language" | TRANSLATE => "translate" | EMBED => "embed" | STORE => "store"
  end.

(** [list(PipelineStage)] *)
Definition stages : list PipelineStage :=
  [URL_FRONTIER; FETCH; EXTRACT; DETECT_LANGUAGE; TRANSLATE; EMBED; STORE].
(** [stages.index(stage)] *)
Definition stage_idx (s : PipelineStage) : nat :=
  match s with
  | URL_FRONTIER => 0 | FETCH => 1 | EXTRACT => 2 | DETECT_LANGUAGE => 3 | TRANSLATE => 4 | EMBED => 5 | STORE => 6
  end.
Definition next_stage (s : PipelineStage) : option PipelineStage := stages !! S (stage_idx s).

#[export] Instance PipelineStage_countable : Countable PipelineStage.
Proof.
  refine (inj_countable' stage_idx (fun n => default URL_FRONTIER (stages !! n)) _). by intros [].
Defined.

Record PipelineConfig := PConfig {
  enable_translation : bool;
  enable_embedding : bool;
  fetch_concurrency : Z;
  extract_concurrency : Z;
  translate_concurrency : Z;
  embed_concurrency : Z;
  config_target_language : string }.

Record PipelineDocument := Doc {
  doc_id : string;
  doc_url : string;
  raw_html : option string;
  cleaned_text : option string;
  translated_text : option string;
  doc_title : option string;
  domain : option string;
  status_code : option Z;
  response_time : Q;
  detected_language : option string;
  target_language : string;
  language_confidence : Q;
  translation_confidence : Q;
  embedding : option (list Q);
  current_stage : PipelineStage;
  completed_stages : list string;
  doc_errors : list string;
  created_at : Q;
  completed_at : option Q;
  metadata : list (string * pyval) }.

(** [PipelineDocument(id=..., url=...)], the other fields by default *)
Definition new_document (i url : string) (now : Q) : PipelineDocument :=
  Doc i url None None None None None None 0 None "en" 0 0 None URL_FRONTIER [] [] now None [].

(** Assignments to fields *)
Definition set_content (html text trans title : option string) (d : PipelineDocument) : PipelineDocument :=
  Doc (doc_id d) (doc_url d) html text trans title (domain d) (status_code d) (response_time d)
    (detected_language d) (target_language d) (language_confidence d) (translation_confidence d) (embedding d)
    (current_stage d) (completed_stages d) (doc_errors d) (created_at d) (completed_at d) (metadata d).
Definition set_response (dom : option string) (status : option Z) (time : Q) (d : PipelineDocument) : PipelineDocument :=
  Doc (doc_id d) (doc_url d) (raw_html d) (cleaned_text d) (translated_text d) (doc_title d) dom status time
    (detected_language d) (target_language d) (language_confidence d) (translation_confidence d) (embedding d)
    (current_stage d) (completed_stages d) (doc_errors d) (created_at d) (completed_at d) (metadata d).
Definition set_language (lang : option string) (conf tconf : Q) (d : PipelineDocument) : PipelineDocument :=
  Doc (doc_id d) (doc_url d) (raw_html d) (cleaned_text d) (translated_text d) (doc_title d) (domain d)
    (status_code d) (response_time d) lang (target_language d) conf tconf (embedding d)
    (current_stage d) (completed_stages d) (doc_errors d) (created_at d) (completed_at d) (metadata d).
Definition set_embedding (v : list Q) (d : PipelineDocument) : PipelineDocument :=
  Doc (doc_id d) (doc_url d) (raw_html d) (cleaned_text d) (translated_text d) (doc_title d) (domain d)
    (status_code d) (response_time d) (detected_language d) (target_language d) (language_confidence d)
    (translation_confidence d) (Some v) (current_stage d) (completed_stages d) (doc_errors d) (created_at d)
    (completed_at d) (metadata d).
Definition set_progress (s : PipelineStage) (done errs : list string) (d : PipelineDocument) : PipelineDocument :=
  Doc (doc_id d) (doc_url d) (raw_html d) (cleaned_text d) (translated_text d) (doc_title d) (domain d)
    (status_code d) (response_time d) (detected_language d) (target_language d) (language_confidence d)
    (translation_confidence d) (embedding d) s done errs (created_at d) (completed_at d) (metadata d).
Definition set_completed (at_ : option Q) (m : list (string * pyval)) (d : PipelineDocument) : PipelineDocument :=
  Doc (doc_id d) (doc_url d) (raw_html d) (cleaned_text d) (translated_text d) (doc_title d) (domain d)
    (status_code d) (response_time d) (detected_language d) (target_language d) (language_confidence d)
    (translation_confidence d) (embedding d) (current_stage d) (completed_stages d) (doc_errors d) (created_at d)
    at_ m.

Definition set_stage (s : PipelineStage) (d : PipelineDocument) : PipelineDocument :=
  set_progress s (completed_stages d) (doc_errors d) d.
Definition add_error (msg : string) (d : PipelineDocument) : PipelineDocument :=
  set_progress (current_stage d) (completed_stages d) (doc_errors d ++ [msg]) d.
Definition add_completed (s : PipelineStage) (d : PipelineDocument) : PipelineDocument :=
  set_progress (current_stage d) (completed_stages d ++ [stage_value s]) (doc_errors d) d.

Definition opt_int (o : option Z) : pyval := match o with Some z => PInt z | None => PNone end.

(** [to_dict]; [isoformat] prints a time. *)
Definition doc_to_dict (isoformat : Q -> string) (d : PipelineDocument) : list (string * pyval) :=
  [("id", PStr (doc_id d)); ("url", PStr (doc_url d)); ("domain", opt_str (domain d));
   ("title", opt_str (doc_title d)); ("detected_language", opt_str (detected_language d));
   ("target_language", PStr (target_language d)); ("status_code", opt_int (status_code d));
   ("response_time", PFloat (response_time d)); ("current_stage", PStr (stage_value (current_stage d)));
   ("completed_stages", PList (map PStr (completed_stages d))); ("errors", PList (map PStr (doc_errors d)));
   ("created_at", PStr (isoformat (created_at d)));
   ("completed_at", match completed_at d with Some t => PStr (isoformat t) | None => PNone end);
   ("metadata", PDict (metadata d))].

(** ** The default handlers

    What the services they call answer is an argument. *)

(** [f"{x}"] of an optional string *)
Definition show_opt (o : option string) : string := default "None" o.
(** [a or b] *)
Definition opt_or (a b : option string) : option string := if truthy_str a then a else b.

(** A fresh [ResilientScraper] for every document: [c] is its default
    configuration, [envs] what its attempts meet. *)
Definition fetch_handler (c : ScraperConfig) (bracketed_ok : string -> bool) (envs : nat -> attempt_env)
  (doc : PipelineDocument) : result pyexn PipelineDocument :=
  match _fetch_with_retry c bracketed_ok (doc_url doc) envs (new_scraper c) with
  | Err x => Err x
  | Ok (r, _, _) =>
      match _extract_domain bracketed_ok (doc_url doc) with
      | Err x => Err x
      | Ok dom =>
          let doc := set_content (r_content r) (ex_text (r_extracted r)) (translated_text doc)
                       (ex_title (r_extracted r)) doc in
          let doc := set_response (Some dom) (r_status_code r) (r_response_time r) doc in
          Ok (if success r then doc
              else add_error ("Fetch failed: " +:+ show_opt (r_error_message r)) doc)
      end
  end.

(** [trafilatura.bare_extraction]: a dict, or nothing *)
Definition extract_handler (extraction : result pyexn (gmap string (option string))) (doc : PipelineDocument)
  : PipelineDocument :=
  if truthy_str (cleaned_text doc) then doc
  else if negb (truthy_str (raw_html doc)) then add_error "No HTML content to extract" doc
  else match extraction with
       | Err x => add_error ("Extract failed: " +:+ exn_str x) doc
       | Ok m =>
           if bool_decide (m = ∅) then doc else
           let field k := default None (m !! k) in
           set_language (field "language") (language_confidence doc) (translation_confidence doc)
             (set_content (raw_html doc) (default (Some "") (m !! "text")) (translated_text doc)
                (opt_or (doc_title doc) (field "title")) doc)
       end.

Definition detect_language_handler (detected : result pyexn (string * Q)) (doc : PipelineDocument) : PipelineDocument :=
  if negb (truthy_str (cleaned_text doc)) then doc
  else if truthy_str (detected_language doc) then doc
  else match detected with
       | Ok (lang, score) => set_language (Some lang) score (translation_confidence doc) doc
       | Err x => add_error ("Language detection failed: " +:+ exn_str x) doc
       end.

(** The dict a translation answers: [success], [translation], [confidence],
    [error] *)
Record translation := Translation {
  tr_success : bool; tr_translation : option string; tr_confidence : option Q; tr_error : option string }.

Definition translate_handler (cfg : PipelineConfig) (answer : result pyexn translation) (doc : PipelineDocument)
  : PipelineDocument :=
  if negb (enable_translation cfg) then doc
  else if negb (truthy_str (cleaned_text doc)) then doc
  else if bool_decide (detected_language doc = Some (config_target_language cfg)) then
    set_language (detected_language doc) (language_confidence doc) 1
      (set_content (raw_html doc) (cleaned_text doc) (cleaned_text doc) (doc_title doc) doc)
  else match answer with
       | Err x => add_error ("Translation failed: " +:+ exn_str x) doc
       | Ok t =>
           if tr_success t then
             set_language (detected_language doc) (language_confidence doc) (default 0%Q (tr_confidence t))
               (set_content (raw_html doc) (cleaned_text doc) (tr_translation t) (doc_title doc) doc)
           else add_error ("Translation failed: " +:+ show_opt (tr_error t)) doc
       end.

Definition embed_handler (cfg : PipelineConfig) (answer : result pyexn (list Q)) (doc : PipelineDocument)
  : PipelineDocument :=
  if negb (enable_embedding cfg) then doc
  else if negb (truthy_str (opt_or (translated_text doc) (cleaned_text doc))) then doc
  else match answer with
       | Ok v => set_embedding v doc
       | Err x => add_error ("Embedding failed: " +:+ exn_str x) doc
       end.

Definition store_handler (now : Q) (doc : PipelineDocument) : PipelineDocument :=
  set_completed (Some now) (dict_set "stored" (PBool true) (metadata doc)) doc.

(** ** The pipeline *)

Record PipelineStats := PStats {
  documents_processed : Z;
  documents_failed : Z;
  documents_in_pipeline : Z;
  stage_counts : gmap string Z;
  stage_times : gmap string Q;
  stage_errors : gmap string Z }.
Definition new_stats : PipelineStats := PStats 0 0 0 ∅ ∅ ∅.

(** A handler: the default one of a stage, or the n-th one a client made *)
Inductive handler := DefaultHandler (s : PipelineStage) | CustomHandler (n : nat).

Inductive wstate :=
| Fresh                                           (* created, not run yet *)
| Waiting (h : handler)                           (* in queue.get() *)
| Busy (h : handler) (doc : PipelineDocument)     (* in handler(doc) *)
| Done.
Record worker := Worker { w_stage : PipelineStage; w_state : wstate; w_cancelled : bool }.

Record CrawlPipeline := Pipeline {
  config : PipelineConfig;
  handlers : gmap PipelineStage handler;
  queues : PipelineStage -> list PipelineDocument;
  workers : list worker;
  stats : PipelineStats;
  running : bool;
  initialized : bool }.

Definition new_pipeline (cfg : PipelineConfig) : CrawlPipeline :=
  Pipeline cfg ∅ (fun _ => []) [] new_stats false false.

Definition set_queues (q : PipelineStage -> list PipelineDocument) (p : CrawlPipeline) : CrawlPipeline :=
  Pipeline (config p) (handlers p) q (workers p) (stats p) (running p) (initialized p).
Definition set_pstats (st : PipelineStats) (p : CrawlPipeline) : CrawlPipeline :=
  Pipeline (config p) (handlers p) (queues p) (workers p) st (running p) (initialized p).
Definition set_worker (i : nat) (w : wstate) (p : CrawlPipeline) : CrawlPipeline :=
  Pipeline (config p) (handlers p) (queues p)
    (alter (fun x => Worker (w_stage x) w (w_cancelled x)) i (workers p)) (stats p) (running p) (initialized p).
Definition set_handlers (h : gmap PipelineStage handler) (init : bool) (p : CrawlPipeline) : CrawlPipeline :=
  Pipeline (config p) h (queues p) (workers p) (stats p) (running p) init.

Definition put (s : PipelineStage) (d : PipelineDocument) (p : CrawlPipeline) : CrawlPipeline :=
  set_queues (<[s := queues p s ++ [d]]> (queues p)) p.

(** [_setup_default_handlers] assigns the handlers of the six worker stages. *)
Definition _setup_default_handlers (h : gmap PipelineStage handler) : gmap PipelineStage handler :=
  foldl (fun h s => <[s := DefaultHandler s]> h) h (drop 1 stages).

Definition initialize (p : CrawlPipeline) : CrawlPipeline :=
  if initialized p then p else set_handlers (_setup_default_handlers (handlers p)) true p.

Definition register_handler (s : PipelineStage) (h : handler) (p : CrawlPipeline) : CrawlPipeline :=
  set_handlers (<[s := h]> (handlers p)) (initialized p) p.

(** [stage_concurrency.get(stage, 5)] *)
Definition stage_concurrency (cfg : PipelineConfig) (s : PipelineStage) : Z :=
  match s with
  | FETCH => fetch_concurrency cfg
  | EXTRACT => extract_concurrency cfg
  | DETECT_LANGUAGE => 10
  | TRANSLATE => translate_concurrency cfg
  | EMBED => embed_concurrency cfg
  | STORE => 10
  | URL_FRONTIER => 5
  end.
Definition spawn (cfg : PipelineConfig) : list worker :=
  flat_map (fun s => if bool_decide (s = URL_FRONTIER) then []
                     else replicate (Z.to_nat (stage_concurrency cfg s)) (Worker s Fresh false)) stages.

Definition start (p : CrawlPipeline) : CrawlPipeline :=
  if running p then p else
  let p := initialize p in
  Pipeline (config p) (handlers p) (queues p) (workers p ++ spawn (config p)) (stats p) true (initialized p).

Definition stop (p : CrawlPipeline) : CrawlPipeline :=
  Pipeline (config p) (handlers p) (queues p) (map (fun w => Worker (w_stage w) (w_state w) true) (workers p))
    (stats p) false (initialized p).

Definition count_in (st : PipelineStats) : PipelineStats :=
  PStats (documents_processed st) (documents_failed st) (documents_in_pipeline st + 1) (stage_counts st)
    (stage_times st) (stage_errors st).

Definition submit (d : PipelineDocument) (p : CrawlPipeline) : CrawlPipeline :=
  let p := put FETCH (set_stage FETCH d) p in set_pstats (count_in (stats p)) p.

(** [submit_url]: [digest] is the first half of the SHA-256 of the URL in
    hexadecimal, [kwargs] the fields the keyword arguments override. *)
Definition submit_url (digest : string -> string) (url : string) (kwargs : PipelineDocument -> PipelineDocument)
  (now : Q) (p : CrawlPipeline) : string * CrawlPipeline :=
  (digest url, submit (kwargs (new_document (digest url) url now)) p).

(** ** A worker's turn *)

(** [while self._running] *)
Definition loop_check (h : handler) (p : CrawlPipeline) : wstate := if running p then Waiting h else Done.

(** The first run of the coroutine: look up the handler *)
Definition worker_begin (i : nat) (p : CrawlPipeline) : option CrawlPipeline :=
  match workers p !! i with
  | Some (Worker s Fresh false) =>
      Some (set_worker i (match handlers p !! s with Some h => loop_check h p | None => Done end) p)
  | _ => None
  end.

(** [queue.get()] delivers the head of the queue. *)
Definition worker_take (i : nat) (p : CrawlPipeline) : option CrawlPipeline :=
  match workers p !! i with
  | Some (Worker s (Waiting h) false) =>
      match queues p s with
      | d :: q => Some (set_worker i (Busy h d) (set_queues (<[s := q]> (queues p)) p))
      | [] => None
      end
  | _ => None
  end.

(** [queue.get()] times out. *)
Definition worker_timeout (i : nat) (p : CrawlPipeline) : option CrawlPipeline :=
  match workers p !! i with
  | Some (Worker s (Waiting h) false) => Some (set_worker i (loop_check h p) p)
  | _ => None
  end.

(** What the handler does: it returns a document, returns nothing, or raises
    after changing the document it was given. *)
Inductive outcome :=
| Returned (d : PipelineDocument)
| ReturnedNone
| Raised (d : PipelineDocument) (x : pyexn).

Definition count_stage (s : PipelineStage) (ok : bool) (elapsed : Q) (st : PipelineStats) : PipelineStats :=
  let v := stage_value s in
  PStats (documents_processed st) (documents_failed st) (documents_in_pipeline st)
    (if ok then counter_add v 1 (stage_counts st) else stage_counts st)
    (<[v := (default 0 (stage_times st !! v) + elapsed) / 2]> (stage_times st))%Q
    (if ok then stage_errors st else counter_add v 1 (stage_errors st)).

Definition has_errors (d : PipelineDocument) : bool := match doc_errors d with [] => false | _ => true end.

Definition count_out (failed : bool) (st : PipelineStats) : PipelineStats :=
  PStats (documents_processed st + if failed then 0 else 1) (documents_failed st + if failed then 1 else 0)
    (documents_in_pipeline st - 1) (stage_counts st) (stage_times st) (stage_errors st).

(** The document after the handler, and whether the stage counts as done.
    On [None] the bookkeeping itself raises, in the [try] and again in its
    [except]; only the error is logged. *)
Definition record_outcome (s : PipelineStage) (o : outcome) : option (PipelineDocument * bool) :=
  match o with
  | Returned d => Some (add_completed s d, true)
  | Raised d x => Some (add_error (stage_value s +:+ ": " +:+ exn_str x) d, false)
  | ReturnedNone => None
  end.

(** To the next stage, or out: the pipeline and the finished document *)
Definition pass_on (s : PipelineStage) (d : PipelineDocument) (now : Q) (p : CrawlPipeline)
  : option PipelineDocument * CrawlPipeline :=
  match next_stage s with
  | Some s' =>
      if has_errors d then (Some (set_completed (Some now) (metadata d) d), set_pstats (count_out true (stats p)) p)
      else (None, put s' (set_stage s' d) p)
  | None => (Some (set_completed (Some now) (metadata d) d), set_pstats (count_out (has_errors d) (stats p)) p)
  end.

Definition worker_return (i : nat) (o : outcome) (elapsed now : Q) (p : CrawlPipeline)
  : option (option PipelineDocument * CrawlPipeline) :=
  match workers p !! i with
  | Some (Worker s (Busy h _) false) =>
      let '(out, p) :=
        match record_outcome s o with
        | Some (d, ok) => pass_on s d now (set_pstats (count_stage s ok elapsed (stats p)) p)
        | None => (None, p)
        end in
      Some (out, set_worker i (loop_check h p) p)
  | _ => None
  end.

(** [CancelledError] reaches the worker. *)
Definition worker_cancelled (i : nat) (p : CrawlPipeline) : option CrawlPipeline :=
  match workers p !! i with
  | Some (Worker s Done _) => None
  | Some (Worker s _ true) => Some (set_worker i Done p)
  | _ => None
  end.

Definition get_queue_sizes (p : CrawlPipeline) : list (string * Z) :=
  map (fun s => (stage_value s, zlength (queues p s))) stages.

(** ** Runs

    Clients and workers interleave.  The documents that were submitted, came
    out, or were dropped on the way are recorded beside the pipeline. *)

Record system := Sys {
  pl : CrawlPipeline;
  submitted : list PipelineDocument;
  finished : list PipelineDocument;
  lost : list PipelineDocument }.
Definition new_system (cfg : PipelineConfig) : system := Sys (new_pipeline cfg) [] [] [].
Definition set_pl (p : CrawlPipeline) (s : system) : system := Sys p (submitted s) (finished s) (lost s).

Inductive event :=
| Start | Stop
| Register (st : PipelineStage) (h : handler)
| Submit (d : PipelineDocument)
| Begin (i : nat) | Take (i : nat) | Timeout (i : nat)
| Return_ (i : nat) (o : outcome) (elapsed now : Q)
| Cancel (i : nat).

Definition busy_doc (w : wstate) : list PipelineDocument := match w with Busy _ d => [d] | _ => [] end.
Definition held_by (i : nat) (p : CrawlPipeline) : list PipelineDocument :=
  match workers p !! i with Some w => busy_doc (w_state w) | None => [] end.

Definition sys_step (e : event) (s : system) : option system :=
  let p := pl s in
  match e with
  | Start => Some (set_pl (start p) s)
  | Stop => Some (set_pl (stop p) s)
  | Register st h => Some (set_pl (register_handler st h p) s)
  | Submit d => Some (Sys (submit d p) (submitted s ++ [d]) (finished s) (lost s))
  | Begin i => p' ← worker_begin i p; Some (set_pl p' s)
  | Take i => p' ← worker_take i p; Some (set_pl p' s)
  | Timeout i => p' ← worker_timeout i p; Some (set_pl p' s)
  | Return_ i o elapsed now =>
      '(out, p') ← worker_return i o elapsed now p;
      Some (Sys p' (submitted s) (finished s ++ option_list out)
              (match o with ReturnedNone => lost s ++ held_by i p | _ => lost s end))
  | Cancel i => p' ← worker_cancelled i p; Some (Sys p' (submitted s) (finished s) (lost s ++ held_by i p))
  end.

(** What the default handler of a stage can do with a document *)
Inductive default_result (cfg : PipelineConfig) : PipelineStage -> PipelineDocument -> outcome -> Prop :=
| fetch_returns c ok envs d d' : fetch_handler c ok envs d = Ok d' -> default_result cfg FETCH d (Returned d')
| fetch_raises c ok envs d x : fetch_handler c ok envs d = Err x -> default_result cfg FETCH d (Raised d x)
| extract_returns a d : default_result cfg EXTRACT d (Returned (extract_handler a d))
| detect_returns a d : default_result cfg DETECT_LANGUAGE d (Returned (detect_language_handler a d))
| translate_returns a d : default_result cfg TRANSLATE d (Returned (translate_handler cfg a d))
| embed_returns a d : default_result cfg EMBED d (Returned (embed_handler cfg a d))
| store_returns now d : default_result cfg STORE d (Returned (store_handler now d)).

(** A handler that leaves the pipeline's own fields to the pipeline; it may
    add errors. *)
Record keeps_place (d d' : PipelineDocument) : Prop := {
  kp_id : doc_id d' = doc_id d;
  kp_url : doc_url d' = doc_url d;
  kp_stage : current_stage d' = current_stage d;
  kp_completed : completed_stages d' = completed_stages d;
  kp_errors : exists more, doc_errors d' = doc_errors d ++ more }.
Definition tame (d : PipelineDocument) (o : outcome) : Prop :=
  match o with Returned d' | Raised d' _ => keeps_place d d' | ReturnedNone => True end.

(** Handlers do what they can.  A document may enter with the history of an
    earlier pass; the pipeline's documents are values here, so the same object
    is not submitted again while it is inside. *)
Definition lawful (e : event) (s : system) : Prop :=
  match e with
  | Return_ i o _ _ =>
      forall st h d c, workers (pl s) !! i = Some (Worker st (Busy h d) c) ->
        match h with
        | DefaultHandler st' => default_result (config (pl s)) st' d o
        | CustomHandler _ => tame d o
        end
  | _ => True
  end.

Definition sstep (s s' : system) : Prop := exists e, lawful e s /\ sys_step e s = Some s'.

Lemma fetch_keeps c ok envs d d' : fetch_handler c ok envs d = Ok d' -> keeps_place d d'.
Proof.
  unfold fetch_handler. destruct (_fetch_with_retry _ _ _ _ _) as [[[r ?] ?]|]; [|done].
  destruct (_extract_domain _ _); [|done]. intros [= <-]. destruct (success r); split; try done; simpl.
  - exists []. by rewrite app_nil_r.
  - by eexists.
Qed.

Ltac kept := split; try done; simpl; first [by (exists []; rewrite app_nil_r) | by eexists].

Lemma default_tame cfg st d o : default_result cfg st d o -> tame d o.
Proof.
  destruct 1; simpl; [by eapply fetch_keeps|kept|..].
  - unfold extract_handler. repeat case_match; kept.
  - unfold detect_language_handler. repeat case_match; kept.
  - unfold translate_handler. repeat case_match; kept.
  - unfold embed_handler. repeat case_match; kept.
  - kept.
Qed.

(** ** The documents in the pipeline *)

Definition queued (q : PipelineStage -> list PipelineDocument) : list PipelineDocument := flat_map q stages.
Definition in_work (ws : list worker) : list PipelineDocument := flat_map (fun w => busy_doc (w_state w)) ws.
Definition held (p : CrawlPipeline) : list PipelineDocument := queued (queues p) ++ in_work (workers p).

Lemma queued_put q st d : queued (<[st := q st ++ [d]]> q) ≡ₚ d :: queued q.
Proof.
  destruct st; cbn; unfold insert, fn_insert; cbn; rewrite ?app_nil_r; solve_Permutation.
Qed.

Lemma queued_take q st d l : q st = d :: l -> queued q ≡ₚ d :: queued (<[st := l]> q).
Proof.
  intros Hq. destruct st; cbn; unfold insert, fn_insert; cbn; rewrite Hq, ?app_nil_r; solve_Permutation.
Qed.

Lemma in_work_alter ws i x st : ws !! i = Some x ->
  busy_doc st ++ in_work ws ≡ₚ
  busy_doc (w_state x) ++ in_work (alter (fun x => Worker (w_stage x) st (w_cancelled x)) i ws).
Proof.
  revert i. induction ws as [|w ws IH]; intros [|i] Hi; try done; cbn.
  - injection Hi as ->. unfold in_work. simpl. solve_Permutation.
  - specialize (IH i Hi). unfold in_work in *. simpl. rewrite (app_assoc (busy_doc st)), (Permutation_app_comm (busy_doc st)).
    rewrite <- app_assoc, IH. solve_Permutation.
Qed.

Lemma held_set_worker p i x st : workers p !! i = Some x ->
  busy_doc st ++ held p ≡ₚ busy_doc (w_state x) ++ held (set_worker i st p).
Proof.
  intros Hi. unfold held. pose proof (in_work_alter _ _ _ st Hi) as H. simpl.
  rewrite !(app_assoc _ (queued _)), !(Permutation_app_comm _ (queued _)), <- !app_assoc. by rewrite H.
Qed.

Lemma held_put p st d : held (put st d p) ≡ₚ d :: held p.
Proof. unfold held, put. simpl. by rewrite queued_put. Qed.

Lemma pass_on_spec st d now p out p' : pass_on st d now p = (out, p') ->
  (exists st', out = None /\ next_stage st = Some st' /\ doc_errors d = [] /\ p' = put st' (set_stage st' d) p) \/
  (out = Some (set_completed (Some now) (metadata d) d) /\ p' = set_pstats (count_out (has_errors d) (stats p)) p /\
   (next_stage st = None \/ has_errors d = true)).
Proof.
  unfold pass_on. destruct (next_stage st) as [st'|].
  - destruct (has_errors d) eqn:E; intros [= <- <-]; [right; eauto|left]. exists st'. split_and!; try done.
    unfold has_errors in E. by destruct (doc_errors d).
  - intros [= <- <-]. right. eauto.
Qed.

(** Who a document is *)
Definition key (d : PipelineDocument) : string * string := (doc_id d, doc_url d).

Record accounted (s : system) : Prop := {
  conserved : map key (submitted s) ≡ₚ map key (held (pl s) ++ finished s ++ lost s);
  in_count : documents_in_pipeline (stats (pl s)) = zlength (held (pl s)) + zlength (lost s);
  failed_count : documents_failed (stats (pl s)) = zlength (List.filter has_errors (finished s));
  out_count : documents_processed (stats (pl s)) + documents_failed (stats (pl s)) = zlength (finished s) }.

(** A step that moves no document *)
Lemma accounted_pl p s : held p ≡ₚ held (pl s) -> stats p = stats (pl s) -> accounted s -> accounted (set_pl p s).
Proof.
  intros Hh Hs [H1 H2 H3 H4]. split; simpl; rewrite ?Hs; try done.
  - by rewrite Hh.
  - rewrite H2. unfold zlength. by rewrite Hh.
Qed.

Lemma spawn_idle cfg : in_work (spawn cfg) = [].
Proof.
  unfold spawn. induction stages as [|st l IH]; [done|]. simpl. unfold in_work in *. rewrite flat_map_app, IH, app_nil_r.
  case_bool_decide; [done|]. induction (Z.to_nat _); simpl; done.
Qed.

Lemma start_held p : held (start p) = held p.
Proof.
  unfold start. destruct (running p); [done|]. unfold held, initialize. simpl.
  assert (in_work (workers p ++ spawn (config p)) = in_work (workers p)) as He.
  { unfold in_work. rewrite flat_map_app. fold (in_work (spawn (config p))). by rewrite spawn_idle, app_nil_r. }
  by destruct (initialized p); simpl; rewrite He.
Qed.

Lemma stop_held p : held (stop p) = held p.
Proof. unfold held. simpl. f_equal. unfold in_work. induction (workers p); simpl; congruence. Qed.

Lemma held_idle p i st w c w' : workers p !! i = Some (Worker st w c) -> busy_doc w = [] -> busy_doc w' = [] ->
  held (set_worker i w' p) ≡ₚ held p.
Proof. intros Hi Hw Hw'. pose proof (held_set_worker _ _ _ w' Hi) as H. simpl in H. by rewrite Hw, Hw' in H. Qed.

(** A worker that gives up its document *)
Lemma held_release p i st h d c w' : workers p !! i = Some (Worker st (Busy h d) c) -> busy_doc w' = [] ->
  held p ≡ₚ d :: held (set_worker i w' p).
Proof. intros Hi Hw'. pose proof (held_set_worker _ _ _ w' Hi) as H. simpl in H. by rewrite Hw' in H. Qed.

Lemma loop_check_idle h p : busy_doc (loop_check h p) = [].
Proof. unfold loop_check. by destruct (running p). Qed.
#[local] Hint Resolve loop_check_idle : core.

Lemma begin_held p i p' : worker_begin i p = Some p' -> held p' ≡ₚ held p /\ stats p' = stats p.
Proof.
  unfold worker_begin. destruct (workers p !! i) as [[st [] []]|] eqn:Hi; try done. intros [= <-]. split; [|done].
  eapply held_idle; [done..|]. by destruct (handlers p !! st).
Qed.
Lemma timeout_held p i p' : worker_timeout i p = Some p' -> held p' ≡ₚ held p /\ stats p' = stats p.
Proof.
  unfold worker_timeout. destruct (workers p !! i) as [[st [] []]|] eqn:Hi; try done. intros [= <-]. split; [|done].
  by eapply held_idle.
Qed.
Lemma take_held p i p' : worker_take i p = Some p' -> held p' ≡ₚ held p /\ stats p' = stats p.
Proof.
  unfold worker_take. destruct (workers p !! i) as [[st [|h| |] []]|] eqn:Hi; try done.
  destruct (queues p st) as [|d q] eqn:Hq; [done|]. intros [= <-]. split; [|done].
  pose proof (held_set_worker (set_queues (<[st:=q]> (queues p)) p) i _ (Busy h d) Hi) as H. simpl in H. rewrite <- H.
  unfold held. simpl. by rewrite (queued_take _ _ _ _ Hq).
Qed.

Lemma cancelled_held p i p' : worker_cancelled i p = Some p' ->
  held p ≡ₚ held_by i p ++ held p' /\ stats p' = stats p.
Proof.
  unfold worker_cancelled, held_by. destruct (workers p !! i) as [[st w c]|] eqn:Hi; [|done]. intros H.
  assert (p' = set_worker i Done p) as ->.
  { destruct w, c; try done; by injection H as <-. }
  split; [|done]. pose proof (held_set_worker _ _ _ Done Hi) as H'. done.
Qed.

(** The turn ends: the document goes on, comes out, or is dropped. *)
Lemma return_cases p i o elapsed now out p' : worker_return i o elapsed now p = Some (out, p') ->
  exists st h d, workers p !! i = Some (Worker st (Busy h d) false) /\
  match record_outcome st o with
  | None => out = None /\ p' = set_worker i (loop_check h p) p
  | Some (d1, ok) =>
      let p1 := set_pstats (count_stage st ok elapsed (stats p)) p in
      (exists st', out = None /\ next_stage st = Some st' /\ doc_errors d1 = [] /\
         p' = set_worker i (loop_check h p) (put st' (set_stage st' d1) p1)) \/
      (out = Some (set_completed (Some now) (metadata d1) d1) /\
       p' = set_worker i (loop_check h p) (set_pstats (count_out (has_errors d1) (stats p1)) p1) /\
       (next_stage st = None \/ has_errors d1 = true))
  end.
Proof.
  unfold worker_return. destruct (workers p !! i) as [[st [| |h d|] []]|] eqn:Hi; try done. intros H.
  exists st, h, d. split; [done|]. destruct (record_outcome st o) as [[d1 ok]|]; [|by injection H as <- <-].
  destruct (pass_on _ _ _ _) as [out' p1] eqn:Ep. injection H as <- <-.
  apply pass_on_spec in Ep as [(st' & -> & ? & ? & ->)|(-> & -> & ?)]; [left|right]; eauto 6.
Qed.

Lemma tame_key st d o d1 ok : tame d o -> record_outcome st o = Some (d1, ok) -> key d1 = key d.
Proof.
  destruct o as [d'| |d' x]; simpl; try done; intros [] [= <- _]; unfold key; simpl; congruence.
Qed.

Lemma lawful_tame i o elapsed now s st h d c : lawful (Return_ i o elapsed now) s ->
  workers (pl s) !! i = Some (Worker st (Busy h d) c) -> tame d o.
Proof. intros Hl Hi. specialize (Hl _ _ _ _ Hi). destruct h; [by eapply default_tame|done]. Qed.

Lemma accounted_return i o elapsed now s s' : accounted s -> lawful (Return_ i o elapsed now) s ->
  sys_step (Return_ i o elapsed now) s = Some s' -> accounted s'.
Proof.
  intros Ha Hl. simpl. destruct (worker_return _ _ _ _ _) as [[out p']|] eqn:Er; [|done]. intros [= <-].
  apply return_cases in Er as (st & h & d & Hi & Hc). pose proof (lawful_tame _ _ _ _ _ _ _ _ _ Hl Hi) as Ht.
  assert (held_by i (pl s) = [d]) as Hb by (unfold held_by; by rewrite Hi).
  pose proof (held_release _ _ _ _ _ _ (loop_check h (pl s)) Hi (loop_check_idle _ _)) as Hr.
  assert (forall A (f : PipelineDocument -> A) l l', l ≡ₚ l' -> map f l ≡ₚ map f l') as Hmap by (intros; by apply fmap_Permutation).
  destruct Ha as [H1 H2 H3 H4]. destruct (record_outcome st o) as [[d1 ok]|] eqn:Eo.
  - pose proof (tame_key _ _ _ _ _ Ht Eo) as Hk.
    assert (match o with ReturnedNone => lost s ++ held_by i (pl s) | _ => lost s end = lost s) as -> by (by destruct o).
    destruct Hc as [(st' & -> & _ & _ & ->)|(-> & -> & _)]; cbn [option_list] in *; rewrite ?app_nil_r in *.
    + set (p1 := put st' _ _).
      assert (set_stage st' d1 :: held (pl s) ≡ₚ d :: held (set_worker i (loop_check h (pl s)) p1)) as Hp.
      { rewrite <- (held_release p1 i st h d false _ Hi (loop_check_idle _ _)). unfold p1. by rewrite held_put. }
      split; try done; simpl.
      * rewrite H1. rewrite !map_app. f_equiv. apply (Permutation_cons_inv (a := key d)).
        assert (key d :: map key (held (pl s)) = map key (set_stage st' d1 :: held (pl s))) as ->
          by (simpl; by rewrite <- Hk).
        change (key d :: map key ?l) with (map key (d :: l)). by apply Hmap.
      * rewrite H2. apply Permutation_length in Hp. simpl in Hp. unfold zlength. lia.
    + set (p1 := set_pstats _ _).
      assert (held (pl s) ≡ₚ d :: held (set_worker i (loop_check h (pl s)) p1)) as Hp by exact Hr.
      split; simpl.
      * rewrite H1, (Hmap _ _ _ _ (Permutation_app_tail _ Hp)), !map_app. simpl. change (key (set_completed _ _ d1)) with (key d1).
        rewrite Hk. solve_Permutation.
      * rewrite H2. apply Permutation_length in Hp. simpl in Hp. unfold zlength. lia.
      * rewrite List.filter_app, zlength_app, H3. change (has_errors (set_completed _ _ d1)) with (has_errors d1). simpl.
        change (has_errors (set_completed _ _ d1)) with (has_errors d1). by destruct (has_errors d1); autorewrite with zlen.
      * autorewrite with zlen. destruct (has_errors d1); lia.
  - destruct o; try done. destruct Hc as [-> ->]. rewrite Hb, app_nil_r. split; simpl; try done.
    + rewrite H1. rewrite !(app_assoc _ (finished s)), !map_app. rewrite (Hmap _ key _ _ Hr). simpl. solve_Permutation.
    + rewrite H2, zlength_app. apply Permutation_length in Hr. simpl in Hr. unfold zlength. simpl. lia.
Qed.

Lemma accounted_step s s' : accounted s -> sstep s s' -> accounted s'.
Proof.
  intros Ha (e & Hl & He). destruct e as [| |st h|d|i|i|i|i o el now|i]; simpl in He.
  - injection He as <-. apply accounted_pl; [by rewrite start_held|unfold start, initialize; by repeat case_match|done].
  - injection He as <-. apply accounted_pl; [by rewrite stop_held|done..].
  - injection He as <-. by apply accounted_pl.
  - injection He as <-. destruct Ha as [H1 H2 H3 H4]. split; simpl; try done.
    + rewrite map_app, H1, !map_app. change (held (submit d (pl s))) with (held (put FETCH (set_stage FETCH d) (pl s))).
      rewrite held_put. simpl. change (key (set_stage FETCH d)) with (key d). solve_Permutation.
    + change (held (submit d (pl s))) with (held (put FETCH (set_stage FETCH d) (pl s))).
      rewrite H2. unfold zlength. rewrite held_put. simpl. lia.
  - destruct (worker_begin i (pl s)) as [p'|] eqn:E; [|done]. injection He as <-. apply begin_held in E as []. by apply accounted_pl.
  - destruct (worker_take i (pl s)) as [p'|] eqn:E; [|done]. injection He as <-. apply take_held in E as []. by apply accounted_pl.
  - destruct (worker_timeout i (pl s)) as [p'|] eqn:E; [|done]. injection He as <-. apply timeout_held in E as []. by apply accounted_pl.
  - by eapply accounted_return.
  - destruct (worker_cancelled i (pl s)) as [p'|] eqn:E; [|done]. injection He as <-. apply cancelled_held in E as [Hh Hs].
    destruct Ha as [H1 H2 H3 H4]. split; simpl; rewrite ?Hs; try done.
    + rewrite H1. rewrite !map_app. rewrite (fmap_Permutation key _ _ Hh). rewrite fmap_app. solve_Permutation.
    + rewrite H2. unfold zlength. rewrite Hh, !length_app. lia.
Qed.

(** ** Every document passes the stages in order *)

(** The stages of the workers, and those before a stage *)
Definition worker_stages : list PipelineStage := drop 1 stages.
Definition before (st : PipelineStage) : list PipelineStage := take (stage_idx st - 1) worker_stages.

(** A document that waits for a stage or is in work there: it is one of those
    submitted and has completed, on top of what it came with, the stages
    before; beyond FETCH it came, and is, without errors. *)
Definition place_ok (subs : list PipelineDocument) (st : PipelineStage) (d : PipelineDocument) : Prop :=
  st <> URL_FRONTIER /\ current_stage d = st /\
  exists d0, d0 ∈ subs /\ key d0 = key d /\
    completed_stages d = completed_stages d0 ++ map stage_value (before st) /\
    doc_errors d = doc_errors d0 /\ (st = FETCH \/ doc_errors d0 = []).

(** A document that came out went through all stages without an error, or
    through some first of them and has an error; one that came with errors
    through at most the first. *)
Definition ended (subs : list PipelineDocument) (d : PipelineDocument) : Prop :=
  exists d0, d0 ∈ subs /\ key d0 = key d /\
    ((doc_errors d = [] /\ doc_errors d0 = [] /\ completed_stages d = completed_stages d0 ++ map stage_value worker_stages) \/
     (doc_errors d <> [] /\ exists n, (doc_errors d0 = [] \/ (n <= 1)%nat) /\
        completed_stages d = completed_stages d0 ++ map stage_value (take n worker_stages))).

Record placed (s : system) : Prop := {
  placed_queue st d : d ∈ queues (pl s) st -> place_ok (submitted s) st d;
  placed_work w h d : w ∈ workers (pl s) -> w_state w = Busy h d -> place_ok (submitted s) (w_stage w) d;
  placed_out : Forall (ended (submitted s)) (finished s) }.

Lemma place_next subs st st' d o d1 ok : place_ok subs st d -> tame d o -> record_outcome st o = Some (d1, ok) ->
  doc_errors d1 = [] -> next_stage st = Some st' -> place_ok subs st' (set_stage st' d1).
Proof.
  intros (Hst & _ & d0 & Hin & Hk & Hc & He0 & _) Ht Ho He Hn. pose proof (tame_key _ _ _ _ _ Ht Ho) as Hk1.
  destruct o as [d'| |d' x]; simpl in *; simplify_eq; simpl in *; [|by destruct (doc_errors d')].
  destruct Ht as [_ _ _ Hc' [more Hm]]. rewrite He in Hm. symmetry in Hm. apply app_eq_nil in Hm as [Hm _]. split_and!; try done.
  - by destruct st; vm_compute in Hn; simplify_eq.
  - exists d0. split_and!; try done; simpl.
    + unfold key. simpl. congruence.
    + rewrite Hc', Hc, <- app_assoc. f_equal. by destruct st; vm_compute in Hn; simplify_eq.
    + congruence.
    + right. congruence.
Qed.

Lemma place_end subs st d o d1 ok now m : place_ok subs st d -> tame d o -> record_outcome st o = Some (d1, ok) ->
  next_stage st = None \/ has_errors d1 = true -> ended subs (set_completed now m d1).
Proof.
  intros (Hst & _ & d0 & Hin & Hk & Hc & He0 & Hfetch) Ht Ho Hn. pose proof (tame_key _ _ _ _ _ Ht Ho) as Hk1.
  exists d0. split; [done|]. split; [etrans; [exact Hk|symmetry; exact Hk1]|].
  destruct o as [d'| |d' x]; simpl in *; simplify_eq; simpl in *; destruct Ht as [_ _ _ Hc' [more Hm]].
  - unfold has_errors in Hn. simpl in Hn. rewrite Hc', Hc, <- app_assoc.
    assert (map stage_value (before st) ++ [stage_value st] = map stage_value (take (stage_idx st) worker_stages)) as ->
      by (by destruct st).
    destruct (doc_errors d') eqn:Ee; [left|right]; (split; [done|]).
    + symmetry in Hm. apply app_eq_nil in Hm as [Hm _]. split; [congruence|].
      destruct Hn as [Hn|]; [|done]. by destruct st.
    + exists (stage_idx st). split; [|done]. destruct Hfetch as [->|Hf]; [right; cbn; lia|by left].
  - right. split; [by destruct (doc_errors d')|]. exists (stage_idx st - 1)%nat. split; [|by rewrite Hc', Hc].
    destruct Hfetch as [->|Hf]; [right; cbn; lia|by left].
Qed.

Lemma elem_put st x p st' d : d ∈ queues (put st x p) st' -> d ∈ queues p st' \/ (st' = st /\ d = x).
Proof.
  unfold put. simpl. destruct (decide (st = st')) as [->|Hne].
  - rewrite fn_lookup_insert. set_solver.
  - rewrite fn_lookup_insert_ne by done. by left.
Qed.

Lemma elem_alter {A} (f : A -> A) i (l : list A) x : x ∈ alter f i l -> x ∈ l \/ exists y, l !! i = Some y /\ x = f y.
Proof.
  intros (j & Hj)%list_elem_of_lookup. destruct (decide (i = j)) as [<-|Hne].
  - rewrite list_lookup_alter_eq in Hj. destruct (l !! i) as [y|] eqn:E; [|done]. right. exists y. split; [done|]. by injection Hj as <-.
  - rewrite list_lookup_alter_ne in Hj by done. left. by eapply list_elem_of_lookup_2.
Qed.

(** A worker changes state; a new document in work has its place. *)
Lemma placed_set_worker i w' s : (forall st w c h d, workers (pl s) !! i = Some (Worker st w c) -> w' = Busy h d -> place_ok (submitted s) st d) ->
  placed s -> placed (set_pl (set_worker i w' (pl s)) s).
Proof.
  intros Hnew [H1 H2 H3]. split; [exact H1| |exact H3]. simpl. intros w h d [Hw|(y & Hy & ->)]%elem_alter Hb; [by eapply H2|].
  simpl in *. destruct y. by eapply Hnew.
Qed.

Lemma placed_take i s p' : placed s -> worker_take i (pl s) = Some p' -> placed (set_pl p' s).
Proof.
  intros Hp. unfold worker_take. destruct (workers (pl s) !! i) as [[st [|h| |] []]|] eqn:Hi; try done.
  destruct (queues (pl s) st) as [|d q] eqn:Hq; [done|]. intros [= <-].
  apply (placed_set_worker i (Busy h d) (set_pl (set_queues (<[st:=q]> (queues (pl s))) (pl s)) s)).
  - simpl. intros st' w c h' d' Hi' [= <- <-]. rewrite Hi in Hi'. injection Hi' as <- _ _. apply (placed_queue _ Hp).
    rewrite Hq. by left.
  - destruct Hp as [H1 H2 H3]. split; [|exact H2|exact H3]. simpl. intros st' d'. destruct (decide (st = st')) as [<-|Hne].
    + rewrite fn_lookup_insert. intros Hd. apply H1. rewrite Hq. by right.
    + rewrite fn_lookup_insert_ne by done. apply H1.
Qed.

Lemma placed_return i o elapsed now s s' : placed s -> lawful (Return_ i o elapsed now) s ->
  sys_step (Return_ i o elapsed now) s = Some s' -> placed s'.
Proof.
  intros Hp Hl. simpl. destruct (worker_return _ _ _ _ _) as [[out p']|] eqn:Er; [|done]. intros [= <-].
  apply return_cases in Er as (st & h & d & Hi & Hc). pose proof (lawful_tame _ _ _ _ _ _ _ _ _ Hl Hi) as Ht.
  assert (place_ok (submitted s) st d) as Hd by (eapply (placed_work _ Hp (Worker st (Busy h d) false)); [by eapply list_elem_of_lookup_2|done]).
  assert (forall q f lo, (forall st d, d ∈ queues q st -> place_ok (submitted s) st d) -> workers q = workers (pl s) -> Forall (ended (submitted s)) f ->
            placed (Sys (set_worker i (loop_check h (pl s)) q) (submitted s) f lo)) as Hset.
  { intros q f lo Hq Hw Hf. apply (placed_set_worker i _ (Sys q (submitted s) f lo)).
    - intros ? ? ? ? ? _. unfold loop_check. by destruct (running (pl s)).
    - split; [exact Hq|simpl; rewrite Hw; apply (placed_work _ Hp)|exact Hf]. }
  destruct (record_outcome st o) as [[d1 ok]|] eqn:Eo.
  - destruct Hc as [(st' & -> & Hn & He & ->)|(-> & -> & He)]; apply Hset; try done; simpl; rewrite ?app_nil_r.
    + intros st1 x [Hx|[-> ->]]%elem_put; [by apply (placed_queue _ Hp)|by eapply place_next].
    + apply (placed_out _ Hp).
    + apply (placed_queue _ Hp).
    + apply Forall_app. split; [apply (placed_out _ Hp)|]. constructor; [by eapply place_end|done].
  - destruct Hc as [-> ->]. apply Hset; [apply (placed_queue _ Hp)|done|]. rewrite app_nil_r. apply (placed_out _ Hp).
Qed.

Lemma start_queues p : queues (start p) = queues p.
Proof. unfold start, initialize. by destruct (running p), (initialized p). Qed.
Lemma start_workers p w : w ∈ workers (start p) -> w ∈ workers p \/ busy_doc (w_state w) = [].
Proof.
  assert (w ∈ spawn (config p) -> busy_doc (w_state w) = []) as Hs.
  { intros Hw. destruct (busy_doc (w_state w)) as [|d l] eqn:Hb; [done|].
    assert (d ∈ in_work (spawn (config p))) as Hd; [|rewrite spawn_idle in Hd; by apply elem_of_nil in Hd].
    apply list_elem_of_In, in_flat_map. exists w. split; [by apply list_elem_of_In|]. rewrite Hb. by left. }
  unfold start, initialize. destruct (running p); [by left|]. destruct (initialized p); simpl; rewrite elem_of_app; tauto.
Qed.

Lemma place_more subs more st d : place_ok subs st d -> place_ok (subs ++ more) st d.
Proof. intros (? & ? & d0 & Hin & ?). split_and!; try done. exists d0. split; [|done]. set_solver. Qed.
Lemma ended_more subs more d : ended subs d -> ended (subs ++ more) d.
Proof. intros (d0 & Hin & ?). exists d0. split; [|done]. set_solver. Qed.

Lemma placed_step s s' : placed s -> sstep s s' -> placed s'.
Proof.
  intros Hp (e & Hl & He). destruct e as [| |st h|d|i|i|i|i o el now|i]; simpl in He.
  - injection He as <-. destruct Hp as [H1 H2 H3]. split; simpl; [rewrite start_queues; exact H1| |exact H3].
    intros w h d [Hw|Hw]%start_workers Hb; [by eapply H2|by rewrite Hb in Hw].
  - injection He as <-. destruct Hp as [H1 H2 H3]. split; [exact H1| |exact H3]. simpl.
    intros w h d (w0 & -> & Hw)%list_elem_of_fmap Hb. by eapply (H2 w0).
  - injection He as <-. by destruct Hp.
  - injection He as <-. destruct Hp as [H1 H2 H3]. split; simpl.
    + change (queues (submit d (pl s))) with (queues (put FETCH (set_stage FETCH d) (pl s))).
      intros st x [Hx|[-> ->]]%elem_put; [by apply place_more, H1|]. split_and!; try done. exists d.
      split_and!; try done; [set_solver|by rewrite app_nil_r|by left].
    + intros w h x Hw Hb. by eapply place_more, H2.
    + eapply Forall_impl; [exact H3|]. intros x. apply ended_more.
  - unfold worker_begin in He. destruct (workers (pl s) !! i) as [[st [] []]|]; try done. injection He as <-.
    apply placed_set_worker; [|done]. intros ? ? ? ? ? _. by repeat case_match; unfold loop_check in *; repeat case_match.
  - destruct (worker_take i (pl s)) eqn:E; [|done]. injection He as <-. by eapply placed_take.
  - unfold worker_timeout in He. destruct (workers (pl s) !! i) as [[st [] []]|]; try done. injection He as <-.
    apply placed_set_worker; [|done]. intros ? ? ? ? ? _. unfold loop_check. by case_match.
  - by eapply placed_return.
  - unfold worker_cancelled in He. destruct (workers (pl s) !! i) as [[st w c]|]; [|done].
    assert (exists lo, s' = Sys (set_worker i Done (pl s)) (submitted s) (finished s) lo) as (lo & ->).
    { destruct w, c; try done; injection He as <-; by eexists. }
    destruct (placed_set_worker i Done s) as [H1 H2 H3]; [done..|]. by split.
Qed.

(** ** The workers drain the pipeline

    [weight] is what is left to do for a document that waits for a stage;
    every move of a worker lowers [measure]. *)

Definition weight (st : PipelineStage) : nat := (2 * (7 - stage_idx st))%nat.
Definition worker_measure (w : worker) : nat :=
  match w_state w with Fresh => 2 | Waiting _ => 1 | Busy _ _ => weight (w_stage w) | Done => 0 end.
Definition queue_measure (q : PipelineStage -> list PipelineDocument) : nat :=
  sum_list_with (fun st => weight st * length (q st))%nat stages.
Definition measure (p : CrawlPipeline) : nat :=
  (queue_measure (queues p) + sum_list_with worker_measure (workers p))%nat.

(** A move of a worker (a timeout of [queue.get] is none) *)
Definition works (e : event) : bool :=
  match e with Begin _ | Take _ | Return_ _ _ _ _ | Cancel _ => true | _ => false end.
Definition wstep (s s' : system) : Prop := exists e, works e = true /\ lawful e s /\ sys_step e s = Some s'.

Lemma workers_measure ws i x st : ws !! i = Some x ->
  (sum_list_with worker_measure (alter (fun x => Worker (w_stage x) st (w_cancelled x)) i ws) + worker_measure x
   = sum_list_with worker_measure ws + worker_measure (Worker (w_stage x) st (w_cancelled x)))%nat.
Proof.
  revert i. induction ws as [|w ws IH]; intros [|i] Hi; try done.
  - injection Hi as ->. simpl. lia.
  - specialize (IH i Hi). change (alter ?f (S i) (w :: ws)) with (w :: alter f i ws). cbn [sum_list_with]. lia.
Qed.

Lemma queue_measure_put q st d : queue_measure (<[st := q st ++ [d]]> q) = (queue_measure q + weight st)%nat.
Proof. destruct st; unfold queue_measure, weight, insert, fn_insert; simpl; rewrite ?length_app; simpl; lia. Qed.
Lemma queue_measure_take q st d l : q st = d :: l -> queue_measure q = (queue_measure (<[st := l]> q) + weight st)%nat.
Proof. intros Hq. destruct st; unfold queue_measure, weight, insert, fn_insert; simpl; rewrite Hq; simpl; lia. Qed.

Lemma set_worker_measure p i x w' : workers p !! i = Some x ->
  (measure (set_worker i w' p) + worker_measure x = measure p + worker_measure (Worker (w_stage x) w' (w_cancelled x)))%nat.
Proof. intros Hi. unfold measure. cbn [queues workers set_worker]. pose proof (workers_measure _ _ _ w' Hi). lia. Qed.

Lemma loop_check_measure st h p c : (worker_measure (Worker st (loop_check h p) c) <= 1)%nat.
Proof. unfold worker_measure, loop_check. destruct (running p); simpl; lia. Qed.

Lemma weight_pos st : (2 <= weight st)%nat.
Proof. destruct st; cbn; lia. Qed.
Lemma weight_next st st' : next_stage st = Some st' -> weight st = (weight st' + 2)%nat.
Proof. by destruct st; intros [= <-]. Qed.

Lemma wstep_measure s s' : wstep s s' -> (measure (pl s') < measure (pl s))%nat.
Proof.
  intros (e & Hw & _ & He). destruct e as [| | | |i|i| |i o el now|i]; try done; simpl in He.
  - unfold worker_begin in He. destruct (workers (pl s) !! i) as [[st [] []]|] eqn:Hi; try done. simplify_eq/=.
    pose proof (set_worker_measure _ _ _ (match handlers (pl s) !! st with Some h => loop_check h (pl s) | None => Done end) Hi) as H.
    simpl in H. destruct (handlers (pl s) !! st) as [h|]; [pose proof (loop_check_measure st h (pl s) false)|]; unfold worker_measure in *; simpl in *; lia.
  - unfold worker_take in He. destruct (workers (pl s) !! i) as [[st [|h| |] []]|] eqn:Hi; try done.
    destruct (queues (pl s) st) as [|d q] eqn:Hq; [done|]. simplify_eq/=.
    pose proof (set_worker_measure (set_queues (<[st:=q]> (queues (pl s))) (pl s)) i _ (Busy h d) Hi) as H.
    pose proof (queue_measure_take _ _ _ _ Hq). unfold measure, worker_measure in *. simpl in *. lia.
  - destruct (worker_return _ _ _ _ _) as [[out p']|] eqn:Er; [|done]. injection He as <-. simpl.
    apply return_cases in Er as (st & h & d & Hi & Hc). pose proof (weight_pos st).
    pose proof (loop_check_measure st h (pl s) false).
    assert (forall q, workers q = workers (pl s) -> (measure q < measure (pl s) + weight st - 1)%nat ->
      (measure (set_worker i (loop_check h (pl s)) q) < measure (pl s))%nat) as Hq.
    { intros q Hw' Hm. rewrite <- Hw' in Hi. pose proof (set_worker_measure _ _ _ (loop_check h (pl s)) Hi) as Hs.
      unfold worker_measure in *. simpl in *. lia. }
    destruct (record_outcome st o) as [[d1 ok]|].
    + destruct Hc as [(st' & _ & Hn & _ & ->)|(_ & -> & _)]; apply Hq; try done.
      * apply weight_next in Hn. unfold measure, put. simpl. rewrite queue_measure_put. lia.
      * unfold measure. simpl. lia.
    + destruct Hc as [_ ->]. apply Hq; [done|lia].
  - unfold worker_cancelled in He. destruct (workers (pl s) !! i) as [[st w c]|] eqn:Hi; [|done].
    pose proof (set_worker_measure _ _ _ Done Hi) as H. unfold worker_measure in H. simpl in H. pose proof (weight_pos st).
    destruct w, c; try done; simplify_eq/=; lia.
Qed.

(** Running, with handlers, and with a live worker for every stage *)
Definition live (p : CrawlPipeline) (st : PipelineStage) : Prop :=
  exists i w, workers p !! i = Some (Worker st w false) /\ w <> Done.
Record staffed (p : CrawlPipeline) : Prop := {
  st_running : running p = true;
  st_handlers st : st ∈ worker_stages -> is_Some (handlers p !! st);
  st_live st : st ∈ worker_stages -> live p st }.

(** A worker can move, whatever its handler answers. *)
Definition can_move (i : nat) (p : CrawlPipeline) : Prop :=
  worker_begin i p <> None \/ worker_take i p <> None \/ worker_cancelled i p <> None \/
  forall o elapsed now, worker_return i o elapsed now p <> None.

Lemma live_set_worker p i x w' st : workers p !! i = Some x -> w_cancelled x = true \/ w' <> Done ->
  live p st -> live (set_worker i w' p) st.
Proof.
  intros Hi Hx (j & w & Hj & Hw). destruct (decide (i = j)) as [<-|Hne].
  - rewrite Hj in Hi. injection Hi as <-. destruct Hx as [|Hx]; [done|]. exists i, w'. split; [|done]. simpl.
    by rewrite list_lookup_alter_eq, Hj.
  - exists j, w. split; [|done]. simpl. by rewrite list_lookup_alter_ne.
Qed.

(** A step keeps the staff when its worker stays, or was cancelled. *)
Lemma staffed_set_worker p q i x w' : staffed p -> running q = running p -> handlers q = handlers p ->
  workers q = workers p -> workers q !! i = Some x -> w_cancelled x = true \/ w' <> Done -> staffed (set_worker i w' q).
Proof.
  intros [H1 H2 H3] Hr Hh Hw Hi Hx. split; simpl.
  - congruence.
  - by rewrite Hh.
  - intros st Hst. apply H3 in Hst. apply live_set_worker with x; [done..|]. unfold live in *. by rewrite Hw.
Qed.

Lemma loop_check_running h p : running p = true -> loop_check h p <> Done.
Proof. intros H. unfold loop_check. by rewrite H. Qed.

(** The workers of the pipeline are for worker stages. *)
Definition proper (p : CrawlPipeline) : Prop := forall w, w ∈ workers p -> w_stage w ∈ worker_stages.

Lemma staffed_wstep s s' : proper (pl s) -> staffed (pl s) -> wstep s s' -> staffed (pl s').
Proof.
  intros Hpr Hs (e & Hw & _ & He). pose proof (st_running _ Hs) as Hr.
  destruct e as [| | | |i|i| |i o el now|i]; try done; simpl in He.
  - unfold worker_begin in He. destruct (workers (pl s) !! i) as [[st [] []]|] eqn:Hi; try done. simplify_eq/=.
    eapply staffed_set_worker; [done..|]. right. destruct (st_handlers _ Hs st) as (h & ->); [|by apply loop_check_running].
    by apply (Hpr (Worker st Fresh false)), list_elem_of_lookup_2 with i.
  - unfold worker_take in He. destruct (workers (pl s) !! i) as [[st [|h| |] []]|] eqn:Hi; try done.
    destruct (queues (pl s) st); [done|]. simplify_eq/=. eapply staffed_set_worker; [done..|]. by right.
  - destruct (worker_return _ _ _ _ _) as [[out p']|] eqn:Er; [|done]. injection He as <-. simpl.
    apply return_cases in Er as (st & h & d & Hi & Hc). pose proof (loop_check_running h _ Hr).
    destruct (record_outcome st o) as [[d1 ok]|]; [destruct Hc as [(st' & _ & _ & _ & ->)|(_ & -> & _)]|destruct Hc as [_ ->]];
      (eapply (staffed_set_worker (pl s)); [done..|by right]).
  - unfold worker_cancelled in He. destruct (workers (pl s) !! i) as [[st w c]|] eqn:Hi; [|done].
    assert (c = true) as -> by (by destruct w, c). assert (pl s' = set_worker i Done (pl s)) as ->.
    { destruct w; try done; by injection He as <-. }
    eapply staffed_set_worker; [done..|by left].
Qed.

Lemma proper_set_worker i w' p : proper p -> proper (set_worker i w' p).
Proof.
  intros Hp w [Hw|(y & Hy & ->)]%elem_alter; [by apply Hp|]. simpl. apply Hp. by eapply list_elem_of_lookup_2.
Qed.

Lemma spawn_proper cfg w : w ∈ spawn cfg -> w_stage w ∈ worker_stages.
Proof.
  intros (st & Hst & Hw)%list_elem_of_In%in_flat_map. destruct (bool_decide_reflect (st = URL_FRONTIER)) as [|Hne]; [done|].
  apply list_elem_of_In, elem_of_replicate in Hw as [-> _]. simpl. apply list_elem_of_In. destruct Hst as [<-|]; [done|done].
Qed.

Lemma proper_step s s' : proper (pl s) -> sstep s s' -> proper (pl s').
Proof.
  intros Hp (e & _ & He). destruct e as [| |st h|d|i|i|i|i o el now|i]; simpl in He.
  - injection He as <-. simpl. unfold start, initialize. destruct (running _); [done|].
    destruct (initialized _); intros w; simpl; rewrite elem_of_app; intros [?|?]; eauto using spawn_proper.
  - injection He as <-. intros w. simpl. intros (w0 & -> & Hw)%list_elem_of_fmap. simpl. by apply Hp.
  - by injection He as <-.
  - by injection He as <-.
  - unfold worker_begin in He. repeat case_match; simplify_eq/=; by apply proper_set_worker.
  - unfold worker_take in He. repeat case_match; simplify_eq/=; by apply proper_set_worker.
  - unfold worker_timeout in He. repeat case_match; simplify_eq/=; by apply proper_set_worker.
  - destruct (worker_return _ _ _ _ _) as [[out p']|] eqn:Er; [|done]. injection He as <-. simpl.
    apply return_cases in Er as (st & h & d & Hi & Hc).
    destruct (record_outcome st o) as [[d1 ok]|]; [destruct Hc as [(st' & _ & _ & _ & ->)|(_ & -> & _)]|destruct Hc as [_ ->]];
      by apply proper_set_worker.
  - unfold worker_cancelled in He. repeat case_match; simplify_eq/=; by apply proper_set_worker.
Qed.

(** A document in the pipeline can move. *)
Lemma staffed_progress s : placed s -> staffed (pl s) -> held (pl s) = [] \/ exists i, can_move i (pl s).
Proof.
  intros Hp Hs. destruct (held (pl s)) as [|d l] eqn:Eh; [by left|right].
  assert (d ∈ held (pl s)) as [Hq|Hb]%elem_of_app by (rewrite Eh; by left).
  - apply list_elem_of_In, in_flat_map in Hq as (st & _ & Hd%list_elem_of_In). destruct (placed_queue _ Hp _ _ Hd) as [Hst _].
    destruct (st_live _ Hs st) as (i & w & Hi & Hw); [by destruct st; [|set_solver..]|]. exists i. unfold can_move, worker_begin, worker_take, worker_return.
    rewrite Hi. destruct w as [|h|h d'|]; [by left| |by right; right; right; intros; repeat case_match|done].
    right. left. by destruct (queues (pl s) st); [apply elem_of_nil in Hd|].
  - apply list_elem_of_In, in_flat_map in Hb as (w & (i & Hi)%list_elem_of_In%list_elem_of_lookup & Hd). exists i.
    unfold can_move, worker_cancelled, worker_return. rewrite Hi. destruct w as [st [| |h d'|] []]; try done.
    + by right; right; left.
    + by right; right; right; intros; repeat case_match.
Qed.

(** ** What the pipeline guarantees *)

Lemma new_accounted cfg : accounted (new_system cfg).
Proof. by split. Qed.
Lemma new_placed cfg : placed (new_system cfg).
Proof. split; simpl; [by intros st d ?%elem_of_nil|by intros w h d ?%elem_of_nil|done]. Qed.

Lemma reach_ok cfg s : rtc sstep (new_system cfg) s -> accounted s /\ placed s /\ proper (pl s).
Proof.
  intros Hr. eapply (rtc_invariant sstep (fun s => accounted s /\ placed s /\ proper (pl s))); [|exact Hr|].
  - intros x y Hs (H1 & H2 & H3). split_and!; [by eapply accounted_step|by eapply placed_step|by eapply proper_step].
  - split_and!; [apply new_accounted|apply new_placed|by intros w ?%elem_of_nil].
Qed.

(** C14: in every interleaving of submissions, workers, starts, stops and
    cancellations, with any outcomes of the handlers (custom ones leave the id
    and the URL of a document as they are), a submitted document is
    in exactly one place: waiting or in work, come out, or dropped.  The
    counters agree: [documents_in_pipeline] counts the documents in the
    pipeline and the dropped ones, [documents_failed] the ones that came out
    with errors, [documents_processed] the others. *)
Theorem pipeline_conserves cfg s : rtc sstep (new_system cfg) s ->
  map key (submitted s) ≡ₚ map key (held (pl s) ++ finished s ++ lost s) /\
  documents_in_pipeline (stats (pl s)) = zlength (held (pl s)) + zlength (lost s) /\
  documents_failed (stats (pl s)) = zlength (List.filter has_errors (finished s)) /\
  documents_processed (stats (pl s)) + documents_failed (stats (pl s)) = zlength (finished s).
Proof. intros ([] & _)%reach_ok. done. Qed.

(** C15: documents pass the stages in order, in every interleaving of
    submissions, workers, starts, stops and cancellations.  A document that
    waits for a stage or is in work there has completed, on top of the stages
    it was submitted with, exactly the stages before, and has the errors it
    was submitted with, which are none beyond FETCH.  One that came out without
    errors went through all six stages once, in order; one with errors through
    some first of them, and if it came with errors, through FETCH at most.
    (Custom handlers leave the id, the URL, the stages and the errors that are
    there as they are, though they may add errors; the default ones are shown
    to.) *)
Theorem stages_in_order cfg s : rtc sstep (new_system cfg) s ->
  (forall st d, d ∈ queues (pl s) st -> place_ok (submitted s) st d) /\
  (forall w h d, w ∈ workers (pl s) -> w_state w = Busy h d -> place_ok (submitted s) (w_stage w) d) /\
  Forall (ended (submitted s)) (finished s).
Proof. intros (_ & [] & _)%reach_ok. done. Qed.

(** C16: a running pipeline with a live worker for every stage drains: every
    run of its workers takes at most [measure] moves, and as long as a
    document is in the pipeline some worker can move, whatever its handler
    answers. *)
Theorem pipeline_drains cfg s n s' : rtc sstep (new_system cfg) s -> staffed (pl s) -> nsteps wstep n s s' ->
  (n <= measure (pl s))%nat /\
  ((held (pl s') = [] /\ documents_in_pipeline (stats (pl s')) = zlength (lost s')) \/
   exists i, can_move i (pl s')).
Proof.
  intros Hs Hst Hn. assert (rtc sstep s s') as Hr.
  { apply rtc_nsteps_2 in Hn. revert Hn. apply (rtc_congruence (fun x => x)). intros x y (e & _ & ? & ?). by exists e. }
  destruct (reach_ok cfg s') as (Ha & Hp & _); [by etrans|]. apply reach_ok in Hs as (_ & _ & Hpr). clear Hr.
  assert ((measure (pl s') + n <= measure (pl s))%nat /\ staffed (pl s')) as [Hm Hst'].
  { clear Ha Hp cfg. induction Hn as [|n s s1 s' H1 Hn IH]; [split; [lia|done]|]. pose proof (wstep_measure _ _ H1).
    destruct IH as [? ?].
    - destruct H1 as (e & _ & ? & ?). eapply proper_step; [done|]. by exists e.
    - by eapply staffed_wstep.
    - split; [lia|done]. }
  split; [lia|]. destruct (staffed_progress _ Hp Hst') as [He|Hc]; [left|by right]. split; [done|].
  by rewrite (in_count _ Ha), He.
Qed.

(** A handler registered before the first [start] never runs: [start]
    initialises the pipeline, and that assigns every default handler. *)
Theorem registered_handler_overwritten st h p : initialized p = false -> running p = false -> st ∈ worker_stages ->
  handlers (start (register_handler st h p)) !! st = Some (DefaultHandler st).
Proof.
  intros Hi Hr Hst. unfold start, initialize. simpl. rewrite Hr, Hi. simpl.
  unfold worker_stages in Hst. cbn in Hst. unfold _setup_default_handlers. cbn. set_unfold in Hst.
  destruct_or!; try done; subst; rewrite ?lookup_insert_ne by done; by rewrite lookup_insert_eq.
Qed.

Lemma lost_grows s s' : rtc sstep s s' -> zlength (lost s) <= zlength (lost s').
Proof.
  induction 1 as [|s s1 s' (e & _ & He) _ IH]; [lia|]. assert (zlength (lost s) <= zlength (lost s1)); [|lia].
  destruct e; simpl in He; repeat (case_match || simplify_option_eq); simpl; rewrite ?zlength_app;
    try lia; pose proof (zlength_nonneg (held_by i (pl s))); lia.
Qed.

(** A dropped document (its worker was cancelled by [stop], or its handler
    returned nothing) is counted as in the pipeline for ever. *)
Theorem dropped_counted_forever cfg s s' : rtc sstep (new_system cfg) s -> rtc sstep s s' ->
  zlength (lost s) <= documents_in_pipeline (stats (pl s')).
Proof.
  intros Hs Hr. destruct (reach_ok cfg s') as (Ha & _); [by etrans|]. rewrite (in_count _ Ha).
  pose proof (lost_grows _ _ Hr). pose proof (zlength_nonneg (held (pl s'))). lia.
Qed.

(** ** Concrete runs *)

Fixpoint run_events (es : list event) (s : system) : option system :=
  match es with [] => Some s | e :: es' => s' ← sys_step e s; run_events es' s' end.
Fixpoint lawful_run (es : list event) (s : system) : Prop :=
  match es with
  | [] => True
  | e :: es' => lawful e s /\ match sys_step e s with Some s' => lawful_run es' s' | None => False end
  end.
Lemma run_events_rtc es s s' : lawful_run es s -> run_events es s = Some s' -> rtc sstep s s'.
Proof.
  revert s. induction es as [|e es IH]; intros s Hl Hr; simpl in *; [by simplify_eq|]. destruct Hl as [H1 H2].
  destruct (sys_step e s) as [s1|] eqn:E; [|done]. eapply rtc_l; [|by apply IH]. by exists e.
Qed.

Definition demo_pconf : PipelineConfig := PConfig true true 1 1 1 1 "en".
Definition demo_doc : PipelineDocument := new_document "d" "https://a.example/" 0.
Definition demo_fetched : PipelineDocument := set_stage FETCH demo_doc.
(** One document is fetched, and the pipeline is stopped while it is extracted. *)
Definition demo_fetch : list event :=
  [Start; Register FETCH (CustomHandler 0); Begin 0; Begin 1; Submit demo_doc; Take 0; Return_ 0 (Returned demo_fetched) 1 1].
Definition demo_stop : list event := demo_fetch ++ [Take 1; Stop; Cancel 1].
Definition demo_after (es : list event) : system := default (new_system demo_pconf) (run_events es (new_system demo_pconf)).

Lemma lawful_cons e es s s' : lawful e s -> sys_step e s = Some s' -> lawful_run es s' -> lawful_run (e :: es) s.
Proof. intros H1 H2 H3. simpl. by rewrite H2. Qed.
Lemma demo_after_run es : is_Some (run_events es (new_system demo_pconf)) ->
  run_events es (new_system demo_pconf) = Some (demo_after es).
Proof. unfold demo_after. by intros (s & ->). Qed.

Lemma demo_stop_lawful : lawful_run demo_stop (new_system demo_pconf).
Proof.
  unfold demo_stop, demo_fetch. cbn [app].
  do 6 (eapply lawful_cons; [by vm_compute|by vm_compute|]).
  eapply lawful_cons; [|by vm_compute|].
  { intros st h d c Hi. vm_compute in Hi. simplify_eq. kept. }
  by do 3 (eapply lawful_cons; [by vm_compute|by vm_compute|]).
Qed.
Lemma lawful_prefix es es' s : lawful_run (es ++ es') s -> lawful_run es s.
Proof.
  revert s. induction es as [|e es IH]; intros s; simpl; [done|]. intros [? ?]. split; [done|].
  destruct (sys_step e s); [by apply IH|done].
Qed.

Lemma demo_fetch_reached : rtc sstep (new_system demo_pconf) (demo_after demo_fetch).
Proof.
  eapply run_events_rtc; [apply (lawful_prefix demo_fetch [Take 1; Stop; Cancel 1]), demo_stop_lawful|].
  apply demo_after_run. apply (bool_decide_unpack _). by vm_compute.
Qed.
Lemma demo_stop_reached : rtc sstep (new_system demo_pconf) (demo_after demo_stop).
Proof.
  eapply run_events_rtc; [apply demo_stop_lawful|]. apply demo_after_run. apply (bool_decide_unpack _). by vm_compute.
Qed.

Lemma pipeline_conserves_witness :
  documents_in_pipeline (stats (pl (demo_after demo_stop))) = 1 /\ length (lost (demo_after demo_stop)) = 1%nat.
Proof.
  destruct (pipeline_conserves demo_pconf _ demo_stop_reached) as (_ & -> & _). by vm_compute.
Defined.

Lemma stages_in_order_witness :
  exists d, queues (pl (demo_after demo_fetch)) EXTRACT = [d] /\ place_ok [demo_doc] EXTRACT d.
Proof.
  destruct (stages_in_order demo_pconf _ demo_fetch_reached) as (Hq & _).
  eexists. split; [by vm_compute|]. apply Hq. by left.
Defined.

Lemma demo_staffed : staffed (pl (demo_after demo_fetch)).
Proof.
  split; [done|..]; intros st Hst; unfold worker_stages in Hst; cbn in Hst; set_unfold in Hst.
  - destruct_or!; try done; subst; by eexists.
  - destruct_or!; try done; subst;
      [exists 0%nat|exists 1%nat|exists 2%nat|exists 12%nat|exists 13%nat|exists 14%nat]; eexists; (split; [by vm_compute|done]).
Qed.

Lemma pipeline_drains_witness :
  exists i, can_move i (pl (demo_after demo_fetch)).
Proof.
  destruct (pipeline_drains demo_pconf _ 0 _ demo_fetch_reached demo_staffed (nsteps_O _ _)) as [_ [[He _]|Hc]]; [|exact Hc].
  exfalso. revert He. by vm_compute.
Defined.

Lemma registered_handler_overwritten_witness :
  handlers (start (register_handler STORE (CustomHandler 7) (new_pipeline demo_pconf))) !! STORE = Some (DefaultHandler STORE).
Proof. apply registered_handler_overwritten; [done|done|]. apply list_elem_of_In. vm_compute. tauto. Defined.

Lemma dropped_counted_forever_witness :
  1 <= documents_in_pipeline (stats (pl (demo_after demo_stop))).
Proof. exact (dropped_counted_forever demo_pconf _ _ demo_stop_reached (rtc_refl _ _)). Defined.
