(* ===== verification/Json.v ===== *)
(** * JSON

    [json.loads] and [json.dumps] of the standard library, as the sources call
    them: a recursive descent parser (fuel: two units per character, one for
    the value and one for the list of values it is in) and the printer with
    default separators and ASCII output.  A number with a fraction or an
    exponent is a float, hence a rational; NaN and the infinities, which no
    rational is, are errors.  A code point above ASCII becomes its UTF-8
    bytes. *)

From S2P Require Import Prelude PyStr PyVal PyConv.
From Stdlib Require Import Ascii.

Definition json_ws (c : ascii) : bool := char_in c (String " " (String "009" (String "010" (String "013" "")))).
Definition skip (s : string) : string := lstrip json_ws s.

(** The rest after the character [c] *)
Definition expect (c : ascii) (s : string) : option string :=
  match s with String c' r => if Ascii.eqb c' c then Some r else None | EmptyString => None end.

(** ** Strings *)

Definition hex_val (c : ascii) : option nat :=
  let n := nat_of_ascii c in
  if ((48 <=? n) && (n <=? 57))%nat then Some (n - 48)%nat
  else if ((97 <=? n) && (n <=? 102))%nat then Some (n - 87)%nat
  else if ((65 <=? n) && (n <=? 70))%nat then Some (n - 55)%nat
  else None.
Definition utf8 (n : nat) : string :=
  if (n <? 128)%nat then String (ascii_of_nat n) ""
  else if (n <? 2048)%nat then String (ascii_of_nat (192 + n / 64)) (String (ascii_of_nat (128 + n mod 64)) "")
  else String (ascii_of_nat (224 + n / 4096))
         (String (ascii_of_nat (128 + (n / 64) mod 64)) (String (ascii_of_nat (128 + n mod 64)) "")).
(** The character a one-letter escape stands for *)
Definition simple_escape (c : ascii) : option ascii :=
  if Ascii.eqb c DQUOTE then Some DQUOTE
  else if Ascii.eqb c BACKSLASH then Some BACKSLASH
  else if Ascii.eqb c "/" then Some "/"%char
  else if Ascii.eqb c "b" then Some "008"%char
  else if Ascii.eqb c "f" then Some "012"%char
  else if Ascii.eqb c "n" then Some "010"%char
  else if Ascii.eqb c "r" then Some "013"%char
  else if Ascii.eqb c "t" then Some "009"%char
  else None.

Definition put_front (a : string) (o : option (string * string)) : option (string * string) :=
  match o with Some (s, rest) => Some (a +:+ s, rest) | None => None end.

(** A string after its opening quote: the string and what follows *)
Fixpoint scanstring (s : string) : option (string * string) :=
  match s with
  | EmptyString => None
  | String c s' =>
      if Ascii.eqb c DQUOTE then Some ("", s')
      else if Ascii.eqb c BACKSLASH then
        match s' with
        | String e s'' =>
            if Ascii.eqb e "u" then
              match s'' with
              | String h1 (String h2 (String h3 (String h4 s4))) =>
                  match hex_val h1, hex_val h2, hex_val h3, hex_val h4 with
                  | Some a, Some b, Some c, Some d =>
                      put_front (utf8 (4096 * a + 256 * b + 16 * c + d)%nat) (scanstring s4)
                  | _, _, _, _ => None
                  end
              | _ => None
              end
            else match simple_escape e with
                 | Some x => put_front (String x "") (scanstring s'')
                 | None => None
                 end
        | EmptyString => None
        end
      else if (nat_of_ascii c <? 32)%nat then None
      else put_front (String c "") (scanstring s')
  end.

(** ** Numbers *)

(** The integer part: [0], or digits that do not begin with [0] *)
Definition scan_int (s : string) : option (string * string) :=
  match s with
  | String c s' =>
      if Ascii.eqb c "0" then Some ("0", s')
      else if is_digit c then Some (span (fun c => negb (is_digit c)) s) else None
  | EmptyString => None
  end.
Definition scan_frac (s : string) : option (string * string) :=
  match s with
  | String "." s' => let '(d, rest) := span (fun c => negb (is_digit c)) s' in
                     if String.eqb d "" then None else Some (d, rest)
  | _ => None
  end.
Definition scan_exp (s : string) : option (Z * string) :=
  match s with
  | String c s' =>
      if Ascii.eqb c "e" || Ascii.eqb c "E" then
        let '(neg, u) := match s' with
                         | String "-" r => (true, r) | String "+" r => (false, r) | _ => (false, s') end in
        let '(d, rest) := span (fun c => negb (is_digit c)) u in
        if String.eqb d "" then None else Some ((if neg : bool then - digits_val d else digits_val d), rest)
      else None
  | EmptyString => None
  end.
Definition scan_number (s : string) : option (pyval * string) :=
  let '(neg, u) := match s with String "-" r => (true, r) | _ => (false, s) end in
  let sign n := if neg : bool then - n else n in
  match scan_int u with
  | None => None
  | Some (i, r) =>
      match scan_frac r, scan_exp (match scan_frac r with Some (_, r') => r' | None => r end) with
      | None, None => Some (PInt (sign (digits_val i)), r)
      | fr, ex =>
          let f := match fr with Some (f, _) => f | None => "" end in
          let rest := match ex with Some (_, r') => r' | None => match fr with Some (_, r') => r' | None => r end end in
          let e := match ex with Some (e, _) => e | None => 0 end in
          Some (PFloat (inject_Z (sign (digits_val (i +:+ f)))
                        * Qpower 10 (e - Z.of_nat (String.length f)))%Q, rest)
      end
  end.

(** ** Values *)

Fixpoint parse_value (fuel : nat) (s : string) : option (pyval * string) :=
  match fuel with
  | O => None
  | S n =>
      match s with
      | EmptyString => None
      | String c s' =>
          if Ascii.eqb c DQUOTE then
            match scanstring s' with Some (x, r) => Some (PStr x, r) | None => None end
          else if Ascii.eqb c "{" then
            match expect "}" (skip s') with
            | Some r => Some (PDict [], r)
            | None => match parse_members n (skip s') with
                      | Some (kvs, r) => Some (PDict (dict_of kvs), r) | None => None end
            end
          else if Ascii.eqb c "[" then
            match expect "]" (skip s') with
            | Some r => Some (PList [], r)
            | None => match parse_elems n (skip s') with Some (vs, r) => Some (PList vs, r) | None => None end
            end
          else if startswith "null" s then Some (PNone, str_drop 4 s)
          else if startswith "true" s then Some (PBool true, str_drop 4 s)
          else if startswith "false" s then Some (PBool false, str_drop 5 s)
          else scan_number s
      end
  end
with parse_elems (fuel : nat) (s : string) : option (list pyval * string) :=
  match fuel with
  | O => None
  | S n =>
      '(v, r) ← parse_value n s;
      match expect "," (skip r) with
      | Some r' => '(vs, r'') ← parse_elems n (skip r'); Some (v :: vs, r'')
      | None => r' ← expect "]" (skip r); Some ([v], r')
      end
  end
with parse_members (fuel : nat) (s : string) : option (list (string * pyval) * string) :=
  match fuel with
  | O => None
  | S n =>
      s' ← expect DQUOTE s;
      '(k, r) ← scanstring s';
      r1 ← expect ":" (skip r);
      '(v, r2) ← parse_value n (skip r1);
      match expect "," (skip r2) with
      | Some r3 => '(kvs, r4) ← parse_members n (skip r3); Some ((k, v) :: kvs, r4)
      | None => r3 ← expect "}" (skip r2); Some ([(k, v)], r3)
      end
  end.

Definition JSONDecodeError : pyexn := PyExn "JSONDecodeError" "Expecting value".
(** [json.loads(s)]; every decoding error has the same text here. *)
Definition json_loads (s : string) : result pyexn pyval :=
  match parse_value (2 * String.length s + 2) (skip s) with
  | Some (v, r) => if String.eqb (skip r) "" then Ok v else Err JSONDecodeError
  | None => Err JSONDecodeError
  end.

(** ** Printing *)

Definition escape_char (c : ascii) : string :=
  let n := nat_of_ascii c in
  if Ascii.eqb c DQUOTE || Ascii.eqb c BACKSLASH then String BACKSLASH (String c "")
  else if (n =? 10)%nat then String BACKSLASH "n"
  else if (n =? 13)%nat then String BACKSLASH "r"
  else if (n =? 9)%nat then String BACKSLASH "t"
  else if (n =? 12)%nat then String BACKSLASH "f"
  else if (n =? 8)%nat then String BACKSLASH "b"
  else if (n <? 32)%nat || (127 <=? n)%nat then String BACKSLASH ("u00" +:+ hex2 n)
  else String c "".
Definition json_string (s : string) : string := String DQUOTE (concat_map escape_char s +:+ String DQUOTE "").

Fixpoint all_ok {A} (l : list (result pyexn A)) : result pyexn (list A) :=
  match l with
  | [] => Ok []
  | Err x :: _ => Err x
  | Ok a :: l' => match all_ok l' with Ok as_ => Ok (a :: as_) | Err x => Err x end
  end.

Section dumps.
Variable float_repr : Q -> string.

Fixpoint json_dumps (v : pyval) : result pyexn string :=
  match v with
  | PNone => Ok "null"
  | PBool b => Ok (if b then "true" else "false")
  | PInt z => Ok (str_int z)
  | PFloat q => Ok (float_repr q)
  | PStr s => Ok (json_string s)
  | PTime _ => Err (PyExn "TypeError" "Object of type datetime is not JSON serializable")
  | PList l =>
      match all_ok (map json_dumps l) with Ok ss => Ok ("[" +:+ join ", " ss +:+ "]") | Err x => Err x end
  | PDict d =>
      match all_ok (map (fun kv => match json_dumps kv.2 with
                                   | Ok s => Ok (json_string kv.1 +:+ ": " +:+ s) | Err x => Err x end) d) with
      | Ok ss => Ok ("{" +:+ join ", " ss +:+ "}")
      | Err x => Err x
      end
  end.
End dumps.

(** ** Printing and parsing back *)

Definition is_ascii (s : string) : bool := str_forallb (fun c => (nat_of_ascii c <? 128)%nat) s.

(** What JSON can hold exactly: no floats, no times, ASCII strings, no key
    twice *)
Fixpoint json_safe (v : pyval) : Prop :=
  match v with
  | PNone | PBool _ | PInt _ => True
  | PFloat _ | PTime _ => False
  | PStr s => is_ascii s = true
  | PList l => fold_right (fun v P => json_safe v /\ P) True l
  | PDict d => NoDup d.*1 /\ fold_right (fun kv P => (is_ascii kv.1 = true /\ json_safe kv.2) /\ P) True d
  end.

Lemma pyval_induction (P : pyval -> Prop) :
  P PNone -> (forall b, P (PBool b)) -> (forall z, P (PInt z)) -> (forall q, P (PFloat q)) -> (forall s, P (PStr s)) ->
  (forall t, P (PTime t)) -> (forall l, Forall P l -> P (PList l)) ->
  (forall d, Forall (fun kv => P kv.2) d -> P (PDict d)) -> forall v, P v.
Proof.
  intros H1 H2 H3 H4 H5 H6 H7 H8. fix IH 1. intros [| | | | | |l|d]; [done|by auto..| |].
  - apply H7. induction l; constructor; auto.
  - apply H8. induction d as [|[k v] d IHd]; constructor; [apply IH|done].
Qed.

Lemma scan_escape c t : (nat_of_ascii c <? 128)%nat = true ->
  scanstring (escape_char c +:+ t) = put_front (String c "") (scanstring t).
Proof. destruct c as [[] [] [] [] [] [] [] []]; intros H; try discriminate H; reflexivity. Qed.

Lemma put_front_app a b o : put_front a (put_front b o) = put_front (a +:+ b) o.
Proof. destruct o as [[s r]|]; simpl; [|done]. by rewrite app_string_assoc. Qed.

Lemma scanstring_print s rest : is_ascii s = true ->
  scanstring (concat_map escape_char s +:+ String DQUOTE rest) = Some (s, rest).
Proof.
  induction s as [|c s IH]; intros Ha; [done|]. cbn [concat_map]. apply andb_true_iff in Ha as [Hc Ha].
  rewrite app_string_assoc, scan_escape, IH by done. done.
Qed.

(** What may follow a number *)
Definition delimited (s : string) : Prop :=
  match s with EmptyString => True | String c _ => is_digit c = false /\ Ascii.eqb c "." = false /\
                                                   Ascii.eqb c "e" = false /\ Ascii.eqb c "E" = false end.

Lemma scan_frac_none s : delimited s -> scan_frac s = None.
Proof. destruct s as [|c s]; [done|]. intros (_ & Hd & _). by destruct c as [[] [] [] [] [] [] [] []]. Qed.
Lemma scan_exp_none s : delimited s -> scan_exp s = None.
Proof. destruct s as [|c s]; [done|]. intros (_ & _ & H1 & H2). simpl. by rewrite H1, H2. Qed.

Lemma scan_int_digits n rest : 0 <= n -> delimited rest -> scan_int (digits n +:+ rest) = Some (digits n, rest).
Proof.
  intros Hn Hr. destruct (decide (n = 0)) as [->|]; [done|]. destruct (digits_head n) as (c & s & E & Hc & H0); [lia|].
  assert (span (fun c => negb (is_digit c)) (digits n +:+ rest) = (digits n, rest)) as Hs.
  { apply span_app.
    - eapply str_forallb_impl; [|by apply digits_digits]. intros x Hx. by rewrite Hx.
    - destruct rest as [|x rest]; [done|]. destruct Hr as [-> _]. done. }
  rewrite E in *. rewrite app_string_cons in *. unfold scan_int. rewrite Hc.
  destruct (Ascii.eqb_spec c "0"); [done|]. by rewrite Hs.
Qed.

(** The head of a printed integer *)
Definition num_head (c : ascii) : bool := is_digit c || Ascii.eqb c "-".
Lemma parse_num n c s : num_head c = true -> parse_value (S n) (String c s) = scan_number (String c s).
Proof. destruct c as [[] [] [] [] [] [] [] []]; intros H; try discriminate H; reflexivity. Qed.

Lemma str_int_head z : exists c s, str_int z = String c s /\ num_head c = true.
Proof.
  unfold str_int. destruct (Z.ltb_spec z 0); [by eexists _, _|].
  destruct (decide (z = 0)) as [->|]; [by eexists _, _|]. destruct (digits_head z) as (c & s & -> & Hc & _); [lia|].
  eexists _, _. split; [done|]. unfold num_head. by rewrite Hc.
Qed.

Lemma scan_number_print z rest : delimited rest -> scan_number (str_int z +:+ rest) = Some (PInt z, rest).
Proof.
  intros Hr. unfold str_int. destruct (Z.ltb_spec z 0).
  - rewrite app_string_cons. unfold scan_number. rewrite scan_int_digits by (lia || done).
    rewrite scan_frac_none, scan_exp_none, digits_val_digits by (done || lia). by rewrite Z.opp_involutive.
  - unfold scan_number. assert (exists c s, digits z +:+ rest = String c s /\ Ascii.eqb c "-" = false) as (c & s & E & Hc).
    { destruct (decide (z = 0)) as [->|]; [by eexists _, _|]. destruct (digits_head z) as (c & s & -> & Hc & _); [lia|].
      rewrite app_string_cons. eexists _, _. split; [done|]. by destruct c as [[] [] [] [] [] [] [] []]. }
    assert (match digits z +:+ rest with String "-" r => (true, r) | _ => (false, digits z +:+ rest) end
            = (false, digits z +:+ rest)) as ->.
    { rewrite E. by destruct c as [[] [] [] [] [] [] [] []]. }
    rewrite scan_int_digits, scan_frac_none, scan_exp_none, digits_val_digits by done. done.
Qed.

Lemma skip_head c s : json_ws c = false -> skip (String c s) = String c s.
Proof. intros H. unfold skip. simpl. by rewrite H. Qed.
Lemma expect_eq c s : expect c (String c s) = Some s.
Proof. simpl. by rewrite Ascii.eqb_refl. Qed.
Lemma expect_ne c c' s : Ascii.eqb c' c = false -> expect c (String c' s) = None.
Proof. intros H. simpl. by rewrite H. Qed.

Section roundtrip.
Variable float_repr : Q -> string.
#[local] Abbreviation dumps := (json_dumps float_repr).

Lemma dumps_head v s : json_safe v -> dumps v = Ok s ->
  exists c t, s = String c t /\ json_ws c = false /\ Ascii.eqb c "]" = false.
Proof.
  intros Hs. destruct v as [|[]|z|q|x|t|l|d]; simpl in Hs |- *; try done.
  1,2,3,5: intros [= <-]; by eexists _, _.
  - intros [= <-]. destruct (str_int_head z) as (c & t & -> & Hc). eexists _, _. split; [done|].
    by destruct c as [[] [] [] [] [] [] [] []].
  - destruct (all_ok _); [|done]. intros [= <-]. by eexists _, _.
  - destruct (all_ok _); [|done]. intros [= <-]. by eexists _, _.
Qed.

(** [v], printed in front of [rest], is read back, with two units of fuel per
    character of its text. *)
Definition reads_back (v : pyval) : Prop := forall s fuel rest, json_safe v -> dumps v = Ok s -> delimited rest ->
  (2 * String.length s <= fuel)%nat -> parse_value fuel (s +:+ rest) = Some (v, rest).

Lemma length_app_string a b : String.length (a +:+ b) = (String.length a + String.length b)%nat.
Proof. induction a as [|c a IH]; [done|]. rewrite app_string_cons. simpl. by rewrite IH. Qed.

Lemma join_cons x y l : join ", " (x :: y :: l) = x +:+ ", " +:+ join ", " (y :: l).
Proof. done. Qed.

Lemma elems_read l ss fuel rest : l <> [] -> Forall reads_back l -> fold_right (fun v P => json_safe v /\ P) True l ->
  all_ok (map dumps l) = Ok ss -> (2 * String.length (join ", " ss) < fuel)%nat ->
  parse_elems fuel (join ", " ss +:+ String "]" rest) = Some (l, rest).
Proof.
  intros Hne Hl. revert ss fuel Hne. induction Hl as [|v l Hv Hl IH]; intros ss fuel Hne Hs Hd Hf; [done|].
  destruct Hs as [Hs Hsl]. cbn [map all_ok] in Hd. destruct (dumps v) as [s|] eqn:Ev; [|done].
  destruct (all_ok (map dumps l)) as [ss'|] eqn:El; [|done]. injection Hd as <-. destruct fuel as [|fuel]; [lia|].
  cbn [parse_elems]. destruct l as [|v2 l].
  - injection El as <-. change (join ", " [s]) with s in *.
    rewrite (Hv s fuel (String "]" rest)) by (done || lia). simpl. done.
  - assert (exists s2 ss2, ss' = s2 :: ss2) as (s2 & ss2 & ->).
    { cbn [map all_ok] in El. destruct (dumps v2); [|done]. destruct (all_ok (map dumps l)); [|done]. injection El as <-. eauto. }
    rewrite join_cons in Hf |- *. rewrite !length_app_string in Hf. cbn [String.length] in Hf.
    rewrite !app_string_assoc. rewrite (Hv s fuel) by (done || lia). cbn [mbind option_bind].
    change (", " +:+ ?x) with (String "," (String " " x)). rewrite skip_head, expect_eq by done.
    change (skip (String " " ?x)) with (skip x).
    assert (exists c t, join ", " (s2 :: ss2) +:+ String "]" rest = String c t /\ json_ws c = false) as (c & t & Et & Hc).
    { cbn [map all_ok] in El. destruct (dumps v2) as [s2'|] eqn:E2; [|done]. destruct (all_ok (map dumps l)); [|done].
      injection El as -> ->. destruct Hsl as [Hs2 _]. destruct (dumps_head v2 s2 Hs2 E2) as (c & t & -> & Hc & _).
      destruct ss2; simpl; eauto. }
    rewrite Et, skip_head, <- Et by done. rewrite IH; done || lia.
Qed.

Definition dump_member (kv : string * pyval) : result pyexn string :=
  match dumps kv.2 with Ok s => Ok (json_string kv.1 +:+ ": " +:+ s) | Err x => Err x end.

(** A printed key, up to the value *)
Lemma member_read k rest : is_ascii k = true ->
  ('(k, r) ← (s' ← expect DQUOTE (json_string k +:+ ": " +:+ rest); scanstring s'); r1 ← expect ":" (skip r); Some (k, r1))
  = Some (k, String " " rest).
Proof.
  intros Hk. unfold json_string. rewrite app_string_cons, expect_eq. cbn [mbind option_bind].
  rewrite app_string_assoc. change (String DQUOTE "" +:+ ?x) with (String DQUOTE x). rewrite scanstring_print by done. done.
Qed.

Lemma members_read d ss fuel rest : d <> [] -> Forall (fun kv => reads_back kv.2) d ->
  fold_right (fun kv P => (is_ascii kv.1 = true /\ json_safe kv.2) /\ P) True d ->
  all_ok (map dump_member d) = Ok ss -> (2 * String.length (join ", " ss) < fuel)%nat ->
  parse_members fuel (join ", " ss +:+ String "}" rest) = Some (d, rest).
Proof.
  intros Hne Hl. revert ss fuel Hne. induction Hl as [|[k v] d Hv Hl IH]; intros ss fuel Hne Hs Hd Hf; [done|].
  destruct Hs as [[Hk Hs] Hsl]. cbn [map all_ok] in Hd. unfold dump_member in Hd at 1. simpl in Hd, Hs, Hv.
  destruct (dumps v) as [s|] eqn:Ev; [|done].
  destruct (all_ok (map dump_member d)) as [ss'|] eqn:El; [|done]. injection Hd as <-. destruct fuel as [|fuel]; [lia|].
  destruct (dumps_head v s Hs Ev) as (c & t & Ec & Hc & _).
  assert (forall tail, delimited tail -> (2 * String.length s <= fuel)%nat ->
    parse_members (S fuel) ((json_string k +:+ ": " +:+ s) +:+ tail) =
    match expect "," (skip tail) with
    | Some r3 => '(kvs, r4) ← parse_members fuel (skip r3); Some ((k, v) :: kvs, r4)
    | None => r3 ← expect "}" (skip tail); Some ([(k, v)], r3)
    end) as Hgo.
  { intros tail Ht Hfuel. cbn [parse_members]. pose proof (member_read k (s +:+ tail) Hk) as Hm. rewrite !app_string_assoc.
    destruct (expect DQUOTE _) as [s'|]; [|done]. cbn [mbind option_bind] in *. destruct (scanstring s') as [[k' r]|]; [|done].
    cbn [mbind option_bind] in *. destruct (expect ":" (skip r)) as [r1|]; [|done]. cbn [mbind option_bind] in *.
    injection Hm as -> ->. change (skip (String " " ?x)) with (skip x).
    assert (skip (s +:+ tail) = s +:+ tail) as ->.
    { rewrite Ec, app_string_cons. by apply skip_head. }
    rewrite (Hv s fuel tail) by done. done. }
  destruct d as [|kv2 d].
  - injection El as <-. change (join ", " [?x]) with x in *. rewrite !length_app_string in Hf. rewrite Hgo by (done || lia). done.
  - assert (exists s2 ss2, ss' = s2 :: ss2 /\ exists t, s2 = String DQUOTE t) as (s2 & ss2 & -> & t2 & E2).
    { cbn [map all_ok] in El. unfold dump_member in El at 1. destruct (dumps kv2.2); [|done].
      destruct (all_ok (map dump_member d)); [|done]. injection El as <-. eauto 6. }
    rewrite join_cons in Hf |- *. rewrite !length_app_string in Hf. cbn [String.length] in Hf.
    rewrite (app_string_assoc _ (", " +:+ _)), (app_string_assoc ", "). rewrite Hgo by (done || lia).
    change (", " +:+ ?x) with (String "," (String " " x)). rewrite skip_head, expect_eq by done.
    change (skip (String " " ?x)) with (skip x).
    assert (skip (join ", " (s2 :: ss2) +:+ String "}" rest) = join ", " (s2 :: ss2) +:+ String "}" rest) as ->.
    { rewrite E2. by destruct ss2. }
    rewrite IH; done || lia.
Qed.

Lemma all_read v : reads_back v.
Proof.
  induction v as [|b|z|q|x|t|l IH|d IH] using pyval_induction; intros s fuel rest Hs Hd Hr Hf; try done; simpl in Hd.
  - injection Hd as <-. destruct fuel as [|fuel]; [simpl in Hf; lia|]. cbn. by destruct rest.
  - injection Hd as <-. destruct b, fuel as [|fuel]; simpl in Hf; try lia; cbn; by destruct rest.
  - injection Hd as <-. destruct (str_int_head z) as (c & t & E & Hc). rewrite <- (scan_number_print z rest Hr).
    rewrite E, app_string_cons in *. simpl in Hf. destruct fuel as [|fuel]; [lia|]. by apply parse_num.
  - injection Hd as <-. unfold json_string in *. simpl in Hf. destruct fuel as [|fuel]; [lia|].
    rewrite app_string_cons. cbn [parse_value]. rewrite app_string_assoc. change (String DQUOTE "" +:+ rest) with (String DQUOTE rest).
    rewrite scanstring_print by done. done.
  - destruct (all_ok (map dumps l)) as [ss|] eqn:Ess; [|done]. injection Hd as <-.
    rewrite !length_app_string in Hf. cbn [String.length] in Hf. destruct fuel as [|fuel]; [lia|].
    change ("[" +:+ ?x) with (String "[" x). rewrite app_string_cons, app_string_assoc. change ("]" +:+ rest) with (String "]" rest).
    destruct l as [|v l]; [by injection Ess as <-|]. pose proof Hs as [Hsv _].
    assert (exists c t, join ", " ss +:+ String "]" rest = String c t /\ json_ws c = false /\ Ascii.eqb c "]" = false) as (c & t & Et & Hc & Hc').
    { cbn [map all_ok] in Ess. destruct (dumps v) as [s1|] eqn:E1; [|done]. destruct (all_ok (map dumps l)) as [ss1|]; [|done].
      injection Ess as <-. destruct (dumps_head v s1 Hsv E1) as (c & t & -> & Hc & Hc'). destruct ss1; simpl; eauto 6. }
    cbn -[skip expect parse_elems]. rewrite Et, skip_head, (expect_ne _ _ _ Hc'), <- Et by done.
    rewrite elems_read with (l := v :: l); done || lia.
  - change (all_ok (map _ d)) with (all_ok (map dump_member d)) in Hd.
    destruct (all_ok (map dump_member d)) as [ss|] eqn:Ess; [|done]. injection Hd as <-.
    rewrite !length_app_string in Hf. cbn [String.length] in Hf. destruct fuel as [|fuel]; [lia|].
    change ("{" +:+ ?x) with (String "{" x). rewrite app_string_cons, app_string_assoc. change ("}" +:+ rest) with (String "}" rest).
    destruct d as [|kv d]; [by injection Ess as <-|]. destruct Hs as [Hnd Hs].
    assert (exists t, join ", " ss +:+ String "}" rest = String DQUOTE t) as (t & Et).
    { cbn [map all_ok] in Ess. unfold dump_member in Ess at 1. destruct (dumps kv.2); [|done].
      destruct (all_ok (map dump_member d)) as [ss1|]; [|done]. injection Ess as <-. destruct ss1; simpl; eauto. }
    cbn -[skip expect parse_members]. rewrite Et, skip_head, expect_ne, <- Et by done.
    rewrite members_read with (d := kv :: d) by (done || lia). by rewrite dict_of_NoDup.
Qed.

Lemma loads_dumps v s : json_safe v -> dumps v = Ok s -> json_loads s = Ok v.
Proof.
  intros Hs Hd. unfold json_loads. destruct (dumps_head v s Hs Hd) as (c & t & Ec & Hc & _).
  assert (skip s = s) as -> by (rewrite Ec; by apply skip_head).
  rewrite <- (app_string_nil_r s) at 2. rewrite (all_read v s _ "" Hs Hd) by (done || lia). done.
Qed.
(** What JSON can hold is printed. *)
Lemma safe_dumps v : json_safe v -> exists s, dumps v = Ok s.
Proof.
  induction v as [| | | | | |l IH|d IH] using pyval_induction; simpl; try (by eauto); try done.
  - intros Hs. assert (exists ss, all_ok (map (dumps) l) = Ok ss) as [ss ->]; [|eauto].
    induction IH as [|v l Hv Hl IHl]; [by eexists|]. simpl in *. destruct Hs as [H1 H2]. destruct (Hv H1) as [s ->]. destruct (IHl H2) as [ss ->]. eauto.
  - intros [_ Hs]. match goal with |- context [all_ok ?x] => assert (exists ss, all_ok x = Ok ss) as [ss ->]; [|eauto] end.
    induction IH as [|kv d Hv Hl IHl]; [by eexists|]. simpl in *. destruct Hs as [[_ H1] H2]. destruct (Hv H1) as [s ->].
    destruct (IHl H2) as [ss ->]. eauto.
Qed.
End roundtrip.
