(* ===== verification/Thinking.v ===== *)
(** * The thinking engine

    document_processor/thinking/engine.py: the JSON a model's reply is searched
    for, the six phases with the data they keep, and [run].  What the model
    answers in a phase, or that the call raises, is an argument, and so are the
    clock readings; the events are collected in order.  The texts of the
    prompts (prompts.py) only reach the model. *)

From S2P Require Import Prelude PyStr PyVal PyConv Json.
From Stdlib Require Import Ascii.
#[local] Open Scope py_scope.
#[local] Open Scope Z_scope.

(** ** Effort tiers *)

Definition _EFFORT_BUDGETS : list (string * list (string * Z)) :=
  [("basic", [("analyze", 600); ("understand", 600); ("decompose", 500); ("explore", 900); ("evaluate", 500);
              ("synthesize", 1400); ("critique", 500)]);
   ("medium", [("analyze", 800); ("understand", 900); ("decompose", 700); ("explore", 1400); ("evaluate", 700);
               ("synthesize", 2400); ("critique", 700)]);
   ("deep", [("analyze", 1000); ("understand", 1200); ("decompose", 1000); ("explore", 2000); ("evaluate", 1000);
             ("synthesize", 4000); ("critique", 1000)]);
   ("expert", [("analyze", 1200); ("understand", 1400); ("decompose", 1200); ("explore", 2400); ("evaluate", 1200);
               ("synthesize", 5000); ("critique", 1200)]);
   ("ultra", [("analyze", 1500); ("understand", 1800); ("decompose", 1500); ("explore", 3200); ("evaluate", 1500);
              ("synthesize", 6500); ("critique", 1500)])].
Definition _EFFORT_ALIAS : list (string * string) :=
  [("quick", "basic"); ("fast", "basic"); ("standard", "medium"); ("balanced", "medium"); ("thorough", "deep");
   ("comprehensive", "expert"); ("exhaustive", "ultra")].
Definition assoc {A} (k : string) (l : list (string * A)) : option A :=
  match List.find (fun kv => String.eqb kv.1 k) l with Some kv => Some kv.2 | None => None end.

Definition _canonical_effort (effort : string) : string :=
  if String.eqb effort "" then "medium" else
  let key := lower (strip is_space effort) in
  let key := default key (assoc key _EFFORT_ALIAS) in
  match assoc key _EFFORT_BUDGETS with Some _ => key | None => "medium" end.

(** ** Finding the JSON in a reply *)

Definition FENCE : string := "```".
Definition BRACE : ascii := "{".
Definition CLOSE : ascii := "}".

(** [[\s\S]*?\})\s*```]: up to the first closing brace with a fence behind *)
Fixpoint close_fence (s : string) : option string :=
  match s with
  | EmptyString => None
  | String c s' =>
      if Ascii.eqb c CLOSE && startswith FENCE (lstrip is_space s') then Some (String c "")
      else match close_fence s' with Some b => Some (String c b) | None => None end
  end.
Definition match_fence (s : string) : option string :=
  if startswith FENCE s then
    let r := str_drop 3 s in
    let r := if startswith "json" r then str_drop 4 r else r in
    match expect BRACE (lstrip is_space r) with
    | Some r' => match close_fence r' with Some b => Some (String BRACE b) | None => None end
    | None => None
    end
  else None.
(** [_JSON_FENCE_RE.search(s)], group 1 *)
Fixpoint fence_search (s : string) : option string :=
  match match_fence s with
  | Some g => Some g
  | None => match s with EmptyString => None | String _ s' => fence_search s' end
  end.

(** The longest prefix that ends in a closing brace *)
Fixpoint to_last (s : string) : option string :=
  match s with
  | EmptyString => None
  | String c s' =>
      match to_last s' with
      | Some b => Some (String c b)
      | None => if Ascii.eqb c CLOSE then Some (String c "") else None
      end
  end.
(** [s[first : last + 1]], from the first [{] to the last [}] *)
Fixpoint brace_span (s : string) : option string :=
  match s with
  | EmptyString => None
  | String c s' => if Ascii.eqb c BRACE then to_last s else brace_span s'
  end.
(** [re.sub(r",(\s*[}\]])", r"\1", s)] *)
Fixpoint strip_commas (s : string) : string :=
  match s with
  | EmptyString => ""
  | String c s' =>
      if Ascii.eqb c "," && match lstrip is_space s' with
                            | String d _ => Ascii.eqb d CLOSE || Ascii.eqb d "]" | EmptyString => false end
      then strip_commas s' else String c (strip_commas s')
  end.

Definition value_error (msg : string) : pyexn := PyExn "ValueError" msg.

Definition _extract_json (raw : option string) : result pyexn pyval :=
  if negb (truthy_str raw) then Err (value_error "empty model output") else
  let stripped := strip is_space (default "" raw) in
  match json_loads stripped with
  | Ok v => Ok v
  | Err _ =>
      match match fence_search stripped with Some g => json_loads g | None => Err JSONDecodeError end with
      | Ok v => Ok v
      | Err _ =>
          match brace_span stripped with
          | None => Err (value_error "no JSON object found in model output")
          | Some candidate =>
              match json_loads candidate with
              | Ok v => Ok v
              | Err _ =>
                  match json_loads (strip_commas candidate) with
                  | Ok v => Ok v
                  | Err exc => Err (value_error ("could not parse model JSON: " +:+ exn_str exc))
                  end
              end
          end
      end
  end.

(** ** The data of the phases *)

Record Understanding := Understood {
  restatement : string; constraints : list string; preferences : list string;
  assumptions : list string; unknowns : list string }.
Record SubQuestion := SubQ { q_index : Z; q_question : string; q_why : string }.
Record Alternative := Alt {
  a_id : string; a_name : string; a_summary : string; a_pros : list string; a_cons : list string;
  a_best_when : string; a_risk : string; a_effort : string }.
Record Decision := Decide {
  chosen_id : string; justification : string; key_trade_offs : list string; d_confidence : Z;
  would_reconsider_if : list string }.
Record Risk := RiskOf { r_title : string; r_detail : string; r_severity : string }.
Record Critique := Criticise {
  risks : list Risk; open_questions : list string; next_steps : list string; c_confidence : Z }.

Definition strs (l : list string) : pyval := PList (map PStr l).
Definition understanding_dict (u : Understanding) : list (string * pyval) :=
  [("restatement", PStr (restatement u)); ("constraints", strs (constraints u)); ("preferences", strs (preferences u));
   ("assumptions", strs (assumptions u)); ("unknowns", strs (unknowns u))].
Definition question_dict (q : SubQuestion) : pyval :=
  PDict [("index", PInt (q_index q)); ("question", PStr (q_question q)); ("why", PStr (q_why q))].
Definition alternative_dict (a : Alternative) : pyval :=
  PDict [("id", PStr (a_id a)); ("name", PStr (a_name a)); ("summary", PStr (a_summary a)); ("pros", strs (a_pros a));
         ("cons", strs (a_cons a)); ("best_when", PStr (a_best_when a)); ("risk", PStr (a_risk a));
         ("effort", PStr (a_effort a))].
Definition decision_dict (d : Decision) : list (string * pyval) :=
  [("chosen_id", PStr (chosen_id d)); ("justification", PStr (justification d)); ("key_trade_offs", strs (key_trade_offs d));
   ("confidence", PInt (d_confidence d)); ("would_reconsider_if", strs (would_reconsider_if d))].
Definition risk_dict (r : Risk) : pyval :=
  PDict [("title", PStr (r_title r)); ("detail", PStr (r_detail r)); ("severity", PStr (r_severity r))].
Definition critique_dict (c : Critique) : list (string * pyval) :=
  [("risks", PList (map risk_dict (risks c))); ("open_questions", strs (open_questions c));
   ("next_steps", strs (next_steps c)); ("confidence", PInt (c_confidence c))].

(** [re.sub(r"[^a-zA-Z0-9]+", "-", t)]; [dash] says that one was just written. *)
Definition is_alnum (c : ascii) : bool := is_digit c || (is_word c && negb (Ascii.eqb c "_")).
Fixpoint dashes (dash : bool) (t : string) : string :=
  match t with
  | EmptyString => ""
  | String c t' =>
      if is_alnum c then String c (dashes false t')
      else if dash then dashes true t' else String "-" (dashes true t')
  end.
Definition slug_or (dflt text : string) : string :=
  let t := strip (Ascii.eqb "-") (dashes false (lower (strip is_space text))) in
  let t := str_take 40 t in
  if String.eqb t "" then dflt else t.
Definition _slug (text : string) : string := slug_or "option" text.

Section normalise.
Variable atom_repr : pyval -> string.
#[local] Abbreviation str := (py_str atom_repr).

Definition LEVELS : list string := ["low"; "medium"; "high"].
Definition _enum (value : option pyval) (allowed : list string) (dflt : string) : string :=
  let v := lower (match value with Some x => if truthy x then str x else "" | None => "" end) in
  if existsb (String.eqb v) allowed then v else dflt.

(** Only [TypeError] and [ValueError] of [int] are caught; it raises no other
    on these values. *)
Definition _clamp_int (value : option pyval) (lo hi dflt : Z) : Z :=
  match int_of (default PNone value) with
  | Ok n => Z.max lo (Z.min hi n)
  | Err _ => dflt
  end.

(** [str(data.get(k, ""))[:n]] and [list(map(str, data.get(k, [])))[:n]] *)
Definition str_field (k : string) (n : nat) (data : pyval) : result pyexn string :=
  o <-! get_attr k data; Ok (str_take n (str (default (PStr "") o))).
Definition str_list (k : string) (n : nat) (data : pyval) : result pyexn (list string) :=
  o <-! get_attr k data;
  l <-! iterate (default (PList []) o);
  Ok (take n (map str l)).

Definition normalize_understanding (data : pyval) : result pyexn Understanding :=
  r <-! str_field "restatement" 2000 data;
  c <-! str_list "constraints" 10 data;
  p <-! str_list "preferences" 10 data;
  a <-! str_list "assumptions" 10 data;
  u <-! str_list "unknowns" 10 data;
  Ok (Understood r c p a u).

Fixpoint questions_loop (i : Z) (l : list pyval) : result pyexn (list SubQuestion) :=
  match l with
  | [] => Ok []
  | q :: l' =>
      match q with
      | PDict d =>
          match dict_get "question" d with
          | Some question =>
              if truthy question then
                idx <-! int_of (default (PInt i) (dict_get "index" d));
                rest <-! questions_loop (i + 1) l';
                Ok (SubQ idx (str_take 500 (str question))
                      (str_take 300 (str (default (PStr "") (dict_get "why" d)))) :: rest)
              else questions_loop (i + 1) l'
          | None => questions_loop (i + 1) l'
          end
      | _ => questions_loop (i + 1) l'
      end
  end.
Definition normalize_questions (data : pyval) : result pyexn (list SubQuestion) :=
  o <-! get_attr "sub_questions" data;
  l <-! iterate_slice 7 (default (PList []) o);
  questions_loop 1 l.

Definition alternative_id (id : option pyval) (name : pyval) : result pyexn string :=
  match id with
  | Some v => if truthy v then Ok (str v)
              else match name with PStr s => Ok (_slug s) | _ => Err (attribute_error name "strip") end
  | None => match name with PStr s => Ok (_slug s) | _ => Err (attribute_error name "strip") end
  end.
Definition normalize_alternative (d : list (string * pyval)) (name : pyval) : result pyexn Alternative :=
  id <-! alternative_id (dict_get "id" d) name;
  summary <-! str_field "summary" 600 (PDict d);
  pros <-! str_list "pros" 8 (PDict d);
  cons <-! str_list "cons" 8 (PDict d);
  best <-! str_field "best_when" 300 (PDict d);
  Ok (Alt id (str_take 120 (str name)) summary pros cons best
        (_enum (dict_get "risk" d) LEVELS "medium") (_enum (dict_get "effort" d) LEVELS "medium")).
Fixpoint alternatives_loop (l : list pyval) : result pyexn (list Alternative) :=
  match l with
  | [] => Ok []
  | PDict d :: l' =>
      match dict_get "name" d with
      | Some name =>
          if truthy name then
            a <-! normalize_alternative d name;
            rest <-! alternatives_loop l';
            Ok (a :: rest)
          else alternatives_loop l'
      | None => alternatives_loop l'
      end
  | _ :: l' => alternatives_loop l'
  end.
Definition normalize_alternatives (data : pyval) : result pyexn (list Alternative) :=
  o <-! get_attr "alternatives" data;
  l <-! iterate_slice 4 (default (PList []) o);
  alternatives_loop l.

(** [a["id"] == chosen_id] for some alternative *)
Definition choose (alts : list Alternative) (chosen : option pyval) : string :=
  match chosen with
  | Some (PStr s) => if existsb (fun a => String.eqb (a_id a) s) alts then s
                     else match alts with a :: _ => a_id a | [] => "" end
  | _ => match alts with a :: _ => a_id a | [] => "" end
  end.
Definition normalize_decision (alts : list Alternative) (data : pyval) : result pyexn Decision :=
  chosen <-! get_attr "chosen_id" data;
  j <-! str_field "justification" 1500 data;
  k <-! str_list "key_trade_offs" 6 data;
  c <-! get_attr "confidence" data;
  w <-! str_list "would_reconsider_if" 6 data;
  Ok (Decide (choose alts chosen) j k (_clamp_int c 0 100 60) w).

Definition normalize_risk (v : pyval) : list Risk :=
  match v with
  | PDict d =>
      let field k n := str_take n (str (default (PStr "") (dict_get k d))) in
      [RiskOf (field "title" 120%nat) (field "detail" 500%nat) (_enum (dict_get "severity" d) LEVELS "medium")]
  | _ => []
  end.
Definition normalize_critique (data : pyval) : result pyexn Critique :=
  o <-! get_attr "risks" data;
  rs <-! iterate_slice 6 (default (PList []) o);
  oq <-! str_list "open_questions" 6 data;
  ns <-! str_list "next_steps" 6 data;
  c <-! get_attr "confidence" data;
  Ok (Criticise (flat_map normalize_risk rs) oq ns (_clamp_int c 0 100 60)).
End normalise.

(** ** The engine *)

Inductive PhaseStatus := Pending | InProgress | Completed | Failed | Skipped.
#[export] Instance PhaseStatus_eq_dec : EqDecision PhaseStatus.
Proof. solve_decision. Defined.

Record ThinkingPhase := Phase {
  ph_name : string; ph_label : string; ph_status : PhaseStatus; ph_detail : list (string * pyval);
  ph_started_at : option string; ph_completed_at : option string }.
Definition new_phase (name label : string) : ThinkingPhase := Phase name label Pending [] None None.

Inductive event :=
| PhaseStart (phase label : string)
| Thinking (phase : string) (tokens_budget : Z)
| DeliverableReady (markdown deliverable : string)
| PhaseComplete (phase label : string) (detail : list (string * pyval))
| PhaseFailed (phase label error : string).

(** [self.decision]: empty, the entry without alternatives, or a decision *)
Inductive decision_state := Undecided | NoAlternatives | Decided (d : Decision).
Definition decision_state_dict (s : decision_state) : list (string * pyval) :=
  match s with
  | Undecided => []
  | NoAlternatives => [("chosen_id", PNone); ("justification", PStr "no alternatives")]
  | Decided d => decision_dict d
  end.

Record ThinkingEngine := Engine {
  effort : string;
  deliverable : string;
  phases : list ThinkingPhase;
  understanding : option Understanding;
  sub_questions : list SubQuestion;
  alternatives : list Alternative;
  decision : decision_state;
  deliverable_markdown : string;
  critique : option Critique;
  events : list event }.

Definition PHASES : list (string * string) :=
  [("understand", "Understanding"); ("decompose", "Decomposing"); ("explore", "Exploring alternatives");
   ("evaluate", "Evaluating & deciding"); ("synthesize", "Synthesizing"); ("critique", "Self-critique")].
Definition new_engine (deliverable effort : string) : ThinkingEngine :=
  Engine (_canonical_effort effort) deliverable (map (fun nl => new_phase nl.1 nl.2) PHASES)
    None [] [] Undecided "" None [].

(** [self._budgets[phase]] *)
Definition budget (e : ThinkingEngine) (phase : string) : Z :=
  match assoc (effort e) _EFFORT_BUDGETS with
  | Some b => default 0 (assoc phase b)
  | None => 0
  end.

Definition set_phases (ps : list ThinkingPhase) (e : ThinkingEngine) : ThinkingEngine :=
  Engine (effort e) (deliverable e) ps (understanding e) (sub_questions e) (alternatives e) (decision e)
    (deliverable_markdown e) (critique e) (events e).
Definition update_phase (name : string) (f : ThinkingPhase -> ThinkingPhase) (e : ThinkingEngine) : ThinkingEngine :=
  set_phases (map (fun p => if String.eqb (ph_name p) name then f p else p) (phases e)) e.
(** [_emit]: an exception of the callback is swallowed. *)
Definition _emit (ev : event) (e : ThinkingEngine) : ThinkingEngine :=
  Engine (effort e) (deliverable e) (phases e) (understanding e) (sub_questions e) (alternatives e) (decision e)
    (deliverable_markdown e) (critique e) (events e ++ [ev]).
Definition set_results (u : option Understanding) (q : list SubQuestion) (a : list Alternative) (d : decision_state)
  (m : string) (c : option Critique) (e : ThinkingEngine) : ThinkingEngine :=
  Engine (effort e) (deliverable e) (phases e) u q a d m c (events e).

Section run.
Variable atom_repr : pyval -> string.
(** What the call of a phase answers or raises, and the clock readings at the
    start and the end of a phase *)
Variable reply : string -> result pyexn (option string).
Variable clock : string -> string * string.

Definition detail := list (string * pyval).
Definition runner := ThinkingEngine -> result pyexn detail * ThinkingEngine.

(** Cancellation is not an [Exception]. *)
Definition cancelled (x : pyexn) : bool := String.eqb (exn_type x) "CancelledError".

Definition label_of (name : string) : string := default "" (assoc name PHASES).

Definition _run_phase (name : string) (run : runner) (e : ThinkingEngine) : result pyexn unit * ThinkingEngine :=
  let e := update_phase name (fun p => Phase (ph_name p) (ph_label p) InProgress (ph_detail p)
                                         (Some (clock name).1) (ph_completed_at p)) e in
  let e := _emit (PhaseStart name (label_of name)) e in
  let finish st det := update_phase name (fun p => Phase (ph_name p) (ph_label p) st det (ph_started_at p)
                                                     (Some (clock name).2)) in
  match run e with
  | (Ok r, e) => (Ok (), _emit (PhaseComplete name (label_of name) r) (finish Completed r e))
  | (Err x, e) =>
      if cancelled x then (Err x, e)
      else (Ok (), _emit (PhaseFailed name (label_of name) (exn_str x)) (finish Failed [("error", PStr (exn_str x))] e))
  end.

Definition _llm_json (phase : string) (e : ThinkingEngine) : result pyexn pyval * ThinkingEngine :=
  let e := _emit (Thinking phase (budget e phase)) e in
  (raw <-! reply phase; _extract_json raw, e).

(** A phase that asks the model for JSON and keeps the normalised data *)
Definition json_phase {A} (name : string) (norm : ThinkingEngine -> pyval -> result pyexn A)
  (keep : A -> ThinkingEngine -> ThinkingEngine) (det : A -> detail) : runner := fun e =>
  let '(data, e) := _llm_json name e in
  match (v <-! data; norm e v) with
  | Ok a => (Ok (det a), keep a e)
  | Err x => (Err x, e)
  end.

Definition _phase_understand : runner :=
  json_phase "understand" (fun _ => normalize_understanding atom_repr)
    (fun u e => set_results (Some u) (sub_questions e) (alternatives e) (decision e) (deliverable_markdown e) (critique e) e)
    understanding_dict.
Definition _phase_decompose : runner :=
  json_phase "decompose" (fun _ => normalize_questions atom_repr)
    (fun q e => set_results (understanding e) q (alternatives e) (decision e) (deliverable_markdown e) (critique e) e)
    (fun q => [("sub_questions", PList (map question_dict q))]).
Definition _phase_explore : runner :=
  json_phase "explore" (fun _ => normalize_alternatives atom_repr)
    (fun a e => set_results (understanding e) (sub_questions e) a (decision e) (deliverable_markdown e) (critique e) e)
    (fun a => [("alternatives", PList (map alternative_dict a))]).
Definition set_decision (d : decision_state) (e : ThinkingEngine) : ThinkingEngine :=
  set_results (understanding e) (sub_questions e) (alternatives e) d (deliverable_markdown e) (critique e) e.
Definition _phase_evaluate : runner := fun e =>
  match alternatives e with
  | [] => (Ok (decision_state_dict NoAlternatives), set_decision NoAlternatives e)
  | _ => json_phase "evaluate" (fun e => normalize_decision atom_repr (alternatives e))
           (fun d => set_decision (Decided d)) decision_dict e
  end.
Definition _phase_synthesize : runner := fun e =>
  let e := _emit (Thinking "synthesize" (budget e "synthesize")) e in
  match reply "synthesize" with
  | Err x => (Err x, e)
  | Ok raw =>
      let markdown := strip is_space (default "" raw) in
      if String.eqb markdown "" then (Err (value_error "synthesize returned empty output"), e)
      else
        let e := set_results (understanding e) (sub_questions e) (alternatives e) (decision e) markdown (critique e) e in
        let e := _emit (DeliverableReady markdown (deliverable e)) e in
        (Ok [("markdown", PStr markdown); ("deliverable", PStr (deliverable e))], e)
  end.
Definition _phase_critique : runner :=
  json_phase "critique" (fun _ => normalize_critique atom_repr)
    (fun c e => set_results (understanding e) (sub_questions e) (alternatives e) (decision e) (deliverable_markdown e) (Some c) e)
    critique_dict.

Definition skip_phase (name : string) (det : option detail) : ThinkingEngine -> ThinkingEngine :=
  update_phase name (fun p => Phase (ph_name p) (ph_label p) Skipped (default (ph_detail p) det)
                                (ph_started_at p) (ph_completed_at p)).
Definition reason (s : string) : option detail := Some [("reason", PStr s)].

(** A step of [run]; an exception ends it. *)
Definition and_then (r : result pyexn unit * ThinkingEngine) (k : ThinkingEngine -> result pyexn unit * ThinkingEngine)
  : result pyexn unit * ThinkingEngine :=
  match r with (Ok _, e) => k e | (Err x, e) => (Err x, e) end.

Definition run (e : ThinkingEngine) : result pyexn unit * ThinkingEngine :=
  and_then (_run_phase "understand" _phase_understand e) (fun e =>
  match understanding e with
  | Some _ =>
      and_then (_run_phase "decompose" _phase_decompose e) (fun e =>
      and_then (_run_phase "explore" _phase_explore e) (fun e =>
      and_then (match alternatives e with
                | [] => (Ok (), skip_phase "evaluate" (reason "no alternatives produced") e)
                | _ => _run_phase "evaluate" _phase_evaluate e
                end) (fun e =>
      and_then (_run_phase "synthesize" _phase_synthesize e) (fun e =>
      if String.eqb (deliverable_markdown e) "" then (Ok (), skip_phase "critique" (reason "no deliverable to critique") e)
      else _run_phase "critique" _phase_critique e))))
  | None =>
      (Ok (), foldl (fun e name => skip_phase name None e) e
                ["decompose"; "explore"; "evaluate"; "synthesize"; "critique"])
  end).
End run.

Definition status_value (s : PhaseStatus) : string :=
  match s with
  | Pending => "pending" | InProgress => "in_progress" | Completed => "completed" | Failed => "failed" | Skipped => "skipped"
  end.
(** [ThinkingPhase.to_dict] *)
Definition phase_dict (p : ThinkingPhase) : pyval :=
  PDict [("name", PStr (ph_name p)); ("label", PStr (ph_label p)); ("status", PStr (status_value (ph_status p)));
         ("detail", PDict (ph_detail p)); ("started_at", opt_str (ph_started_at p));
         ("completed_at", opt_str (ph_completed_at p))].
Definition snapshot (e : ThinkingEngine) : list (string * pyval) :=
  [("phases", PList (map phase_dict (phases e)));
   ("understanding", PDict (match understanding e with Some u => understanding_dict u | None => [] end));
   ("sub_questions", PList (map question_dict (sub_questions e)));
   ("alternatives", PList (map alternative_dict (alternatives e)));
   ("decision", PDict (decision_state_dict (decision e)));
   ("deliverable_markdown", PStr (deliverable_markdown e));
   ("critique", PDict (match critique e with Some c => critique_dict c | None => [] end))].

(** ** Every run ends with every phase ended *)

(** Errors other than a cancellation *)
Definition uncancelled {A} (r : result pyexn A) : Prop := forall x, r = Err x -> cancelled x = false.

Create HintDb unc.
Lemma unc_ok {A} (a : A) : uncancelled (Ok a).
Proof. done. Qed.
Lemma unc_err {A} x : cancelled x = false -> uncancelled (A := A) (Err x).
Proof. by intros H y [= <-]. Qed.
Lemma unc_bind {A B} (r : result pyexn A) (k : A -> result pyexn B) :
  uncancelled r -> (forall a, uncancelled (k a)) -> uncancelled (rbind r k).
Proof. destruct r; simpl; intros Hr Hk; [apply Hk|]. apply unc_err. by apply Hr. Qed.
Lemma unc_get k v : uncancelled (get_attr k v).
Proof. destruct v; (apply unc_ok || by apply unc_err). Qed.
Lemma unc_iterate v : uncancelled (iterate v).
Proof. destruct v; (apply unc_ok || by apply unc_err). Qed.
Lemma unc_iterate_slice n v : uncancelled (iterate_slice n v).
Proof. destruct v; (apply unc_ok || by apply unc_err). Qed.
Lemma unc_int v : uncancelled (int_of v).
Proof. destruct v; try (apply unc_ok || by apply unc_err). simpl. destruct (int_of_str s); (apply unc_ok || by apply unc_err). Qed.
#[local] Hint Resolve unc_ok unc_bind unc_get unc_iterate unc_iterate_slice unc_int : unc.

Lemma unc_str_field r k n v : uncancelled (str_field r k n v).
Proof. unfold str_field. eauto with unc. Qed.
Lemma unc_str_list r k n v : uncancelled (str_list r k n v).
Proof. unfold str_list. eauto 6 with unc. Qed.
#[local] Hint Resolve unc_str_field unc_str_list : unc.

Lemma unc_understanding r v : uncancelled (normalize_understanding r v).
Proof. unfold normalize_understanding. repeat (apply unc_bind; [eauto with unc|intros]). eauto with unc. Qed.
Lemma unc_questions r v : uncancelled (normalize_questions r v).
Proof.
  unfold normalize_questions. do 2 (apply unc_bind; [eauto with unc|intros]). generalize 1.
  match goal with |- forall i, uncancelled (questions_loop _ _ ?l) => induction l as [|q l IH]; intros i; simpl; [eauto with unc|] end.
  destruct q; try apply IH. destruct (dict_get _ _) as [x|]; [|apply IH]. destruct (truthy x); [|apply IH]. eauto with unc.
Qed.
Lemma unc_alternatives r v : uncancelled (normalize_alternatives r v).
Proof.
  unfold normalize_alternatives. do 2 (apply unc_bind; [eauto with unc|intros]).
  match goal with |- uncancelled (alternatives_loop _ ?l) => induction l as [|q l IH]; simpl; [eauto with unc|] end.
  destruct q as [| | | | | | |d]; try apply IH. destruct (dict_get "name" d) as [x|]; [|apply IH]. destruct (truthy x); [|apply IH].
  apply unc_bind; [|eauto with unc]. unfold normalize_alternative. apply unc_bind; [|eauto 10 with unc].
  unfold alternative_id. destruct (dict_get "id" d) as [i|]; [destruct (truthy i)|]; [apply unc_ok|..];
    (destruct x; (apply unc_ok || by apply unc_err)).
Qed.
Lemma unc_decision r a v : uncancelled (normalize_decision r a v).
Proof. unfold normalize_decision. repeat (apply unc_bind; [eauto with unc|intros]). eauto with unc. Qed.
Lemma unc_critique r v : uncancelled (normalize_critique r v).
Proof. unfold normalize_critique. repeat (apply unc_bind; [eauto with unc|intros]). eauto with unc. Qed.
Lemma unc_extract raw : uncancelled (_extract_json raw).
Proof. unfold _extract_json. repeat case_match; (apply unc_ok || by apply unc_err). Qed.
#[local] Hint Resolve unc_understanding unc_questions unc_alternatives unc_decision unc_critique unc_extract : unc.

(** The state of every phase, and the starts and ends among the events *)
Definition statuses (e : ThinkingEngine) : list (string * PhaseStatus) := map (fun p => (ph_name p, ph_status p)) (phases e).
Inductive bound := BStart | BComplete | BFailed.
Definition bound_of (ev : event) : list (string * bound) :=
  match ev with
  | PhaseStart n _ => [(n, BStart)]
  | PhaseComplete n _ _ => [(n, BComplete)]
  | PhaseFailed n _ _ => [(n, BFailed)]
  | _ => []
  end.
Definition bounds (e : ThinkingEngine) : list (string * bound) := flat_map bound_of (events e).

(** The bounds that go with the states: one start and one end per phase that
    ran, in order *)
Definition expected_bounds (ss : list (string * PhaseStatus)) : list (string * bound) :=
  flat_map (fun ns => match ns.2 with
                      | Completed => [(ns.1, BStart); (ns.1, BComplete)]
                      | Failed => [(ns.1, BStart); (ns.1, BFailed)]
                      | _ => []
                      end) ss.
Definition set_status (name : string) (st : PhaseStatus) (ss : list (string * PhaseStatus)) : list (string * PhaseStatus) :=
  map (fun ns => if String.eqb ns.1 name then (ns.1, st) else ns) ss.

Lemma statuses_update name f st e : (forall p, ph_name (f p) = ph_name p /\ ph_status (f p) = st) ->
  statuses (update_phase name f e) = set_status name st (statuses e).
Proof.
  intros Hf. unfold statuses, set_status, update_phase. simpl. rewrite !map_map. apply map_ext. intros p. simpl.
  destruct (String.eqb (ph_name p) name); [|done]. by destruct (Hf p) as [-> ->].
Qed.
Lemma bounds_emit ev e : bounds (_emit ev e) = bounds e ++ bound_of ev.
Proof. unfold bounds. simpl. rewrite flat_map_app. simpl. by rewrite app_nil_r. Qed.

(** A runner leaves the phases alone and reports no bound. *)
Definition quiet (r : runner) : Prop := forall e, uncancelled (r e).1 /\ phases (r e).2 = phases e /\ bounds (r e).2 = bounds e.

Lemma set_status_twice n a b ss : set_status n b (set_status n a ss) = set_status n b ss.
Proof.
  unfold set_status. rewrite map_map. apply map_ext. intros [m s]. simpl. destruct (String.eqb m n) eqn:E; simpl; by rewrite E.
Qed.

Lemma run_phase_ends clock name r e : quiet r ->
  exists st b e', _run_phase clock name r e = (Ok (), e') /\ (st = Completed /\ b = BComplete \/ st = Failed /\ b = BFailed) /\
    statuses e' = set_status name st (statuses e) /\ bounds e' = bounds e ++ [(name, BStart); (name, b)] /\
    exists e0, statuses e0 = set_status name InProgress (statuses e) /\
      understanding e' = understanding (r e0).2 /\ alternatives e' = alternatives (r e0).2.
Proof.
  intros Hr. unfold _run_phase. set (e0 := _emit _ _). destruct (Hr e0) as (Hc & Hp & Hb).
  assert (statuses e0 = set_status name InProgress (statuses e)) as H0.
  { unfold e0. change (statuses (_emit ?ev ?x)) with (statuses x). by apply statuses_update. }
  assert (bounds e0 = bounds e ++ [(name, BStart)]) as Hb0 by (unfold e0; by rewrite bounds_emit).
  destruct (r e0) as [[d|x] e1] eqn:Er; simpl in Hc, Hp, Hb.
  - exists Completed, BComplete. eexists. split; [done|]. split; [by left|].
    change (statuses (_emit ?ev ?y)) with (statuses y). rewrite (statuses_update _ _ Completed) by done.
    assert (statuses e1 = statuses e0) as -> by (unfold statuses; by rewrite Hp). rewrite H0, set_status_twice.
    rewrite bounds_emit. change (bounds (update_phase _ _ e1)) with (bounds e1). rewrite Hb, Hb0, <- app_assoc.
    split_and!; try done. exists e0. by rewrite Er.
  - rewrite (Hc x eq_refl). exists Failed, BFailed. eexists. split; [done|]. split; [by right|].
    change (statuses (_emit ?ev ?y)) with (statuses y). rewrite (statuses_update _ _ Failed) by done.
    assert (statuses e1 = statuses e0) as -> by (unfold statuses; by rewrite Hp). rewrite H0, set_status_twice.
    rewrite bounds_emit. change (bounds (update_phase _ _ e1)) with (bounds e1). rewrite Hb, Hb0, <- app_assoc.
    split_and!; try done. exists e0. by rewrite Er.
Qed.

Section ends.
Context (atom_repr : pyval -> string) (reply : string -> result pyexn (option string)) (clock : string -> string * string).
Hypothesis reply_unc : forall n, uncancelled (reply n).

Lemma json_quiet {A} name norm (keep : A -> ThinkingEngine -> ThinkingEngine) det :
  (forall e v, uncancelled (norm e v)) -> (forall a e, phases (keep a e) = phases e /\ events (keep a e) = events e) ->
  quiet (json_phase reply name norm keep det).
Proof.
  intros Hn Hk e. unfold json_phase, _llm_json. set (e1 := _emit _ e).
  assert (uncancelled (v <-! (raw <-! reply name; _extract_json raw); norm e1 v)) as Hu.
  { apply unc_bind; [apply unc_bind; [done|eauto with unc]|done]. }
  assert (bounds e1 = bounds e) as Hb by (unfold e1; rewrite bounds_emit; simpl; apply app_nil_r).
  destruct (rbind _ _) as [a|x] eqn:E; simpl; split_and!; try done.
  - apply (Hk a e1).
  - unfold bounds in *. by rewrite (proj2 (Hk a e1)).
  - intros y [= <-]. by apply (Hu x).
Qed.

Lemma understand_quiet : quiet (_phase_understand atom_repr reply).
Proof. apply json_quiet; eauto with unc. Qed.
Lemma decompose_quiet : quiet (_phase_decompose atom_repr reply).
Proof. apply json_quiet; eauto with unc. Qed.
Lemma explore_quiet : quiet (_phase_explore atom_repr reply).
Proof. apply json_quiet; eauto with unc. Qed.
Lemma evaluate_quiet : quiet (_phase_evaluate atom_repr reply).
Proof.
  intros e. unfold _phase_evaluate. destruct (alternatives e); [done|]. apply json_quiet; eauto with unc.
Qed.
Lemma critique_quiet : quiet (_phase_critique atom_repr reply).
Proof. apply json_quiet; eauto with unc. Qed.
Lemma synthesize_quiet : quiet (_phase_synthesize reply).
Proof.
  intros e. unfold _phase_synthesize. set (e1 := _emit _ e).
  assert (bounds e1 = bounds e) as Hb by (unfold e1; rewrite bounds_emit; simpl; apply app_nil_r).
  pose proof (reply_unc "synthesize") as Hu. destruct (reply "synthesize") as [raw|x]; simpl; [|split_and!; [by apply unc_err, Hu|done..]].
  destruct (String.eqb _ _); simpl; [split_and!; [by apply unc_err|done..]|]. split_and!; [done..|].
  rewrite bounds_emit. simpl. rewrite app_nil_r. exact Hb.
Qed.
End ends.

(** The states and bounds a phase leaves *)
Definition ran (name : string) (e e' : ThinkingEngine) : Prop :=
  exists st b, (st = Completed /\ b = BComplete \/ st = Failed /\ b = BFailed) /\
    statuses e' = set_status name st (statuses e) /\ bounds e' = bounds e ++ [(name, BStart); (name, b)].

Lemma run_phase_ran clock name r e : quiet r -> exists e', _run_phase clock name r e = (Ok (), e') /\ ran name e e'.
Proof. intros Hr. destruct (run_phase_ends clock name r e Hr) as (st & b & e' & He & Hst & Hs & Hb & _). exists e'. split; [done|]. by exists st, b. Qed.

Definition ended_run (e : ThinkingEngine) : Prop :=
  map fst (statuses e) = map fst PHASES /\ Forall (fun ns => ns.2 <> Pending /\ ns.2 <> InProgress) (statuses e) /\
  bounds e = expected_bounds (statuses e).

(** The statuses of the phases are known, and with them the bounds. *)
Ltac ended_now :=
  match goal with Hs : statuses ?e = _, Hb : bounds ?e = _ |- ended_run ?e =>
    unfold ended_run; rewrite Hs, Hb; cbn; split_and!; try done; repeat constructor; try done
  end.

Lemma skip_statuses name det e : statuses (skip_phase name det e) = set_status name Skipped (statuses e).
Proof. by apply statuses_update. Qed.
Lemma skip_bounds name det e : bounds (skip_phase name det e) = bounds e.
Proof. done. Qed.

Lemma run_ended atom_repr reply clock deliverable effort : (forall n, uncancelled (reply n)) ->
  exists e, run atom_repr reply clock (new_engine deliverable effort) = (Ok (), e) /\ ended_run e.
Proof.
  intros Hu. unfold run. set (e0 := new_engine deliverable effort).
  destruct (run_phase_ran clock "understand" _ e0 (understand_quiet atom_repr reply Hu)) as (e1 & -> & st1 & b1 & H1 & S1 & B1).
  cbn [and_then]. destruct (understanding e1).
  2: { eexists. split; [done|]. cbn [foldl]. set (e2 := skip_phase "critique" _ _).
       assert (statuses e2 = [("understand", st1); ("decompose", Skipped); ("explore", Skipped); ("evaluate", Skipped);
                              ("synthesize", Skipped); ("critique", Skipped)]) as S2.
       { unfold e2. rewrite !skip_statuses, S1. done. }
       assert (bounds e2 = [("understand", BStart); ("understand", b1)]) as B2 by exact B1.
       destruct H1 as [[-> ->]|[-> ->]]; ended_now. }
  destruct (run_phase_ran clock "decompose" _ e1 (decompose_quiet atom_repr reply Hu)) as (e2 & -> & st2 & b2 & H2 & S2 & B2).
  destruct (run_phase_ran clock "explore" _ e2 (explore_quiet atom_repr reply Hu)) as (e3 & E3 & st3 & b3 & H3 & S3 & B3).
  cbn [and_then]. rewrite E3. cbn [and_then]. rewrite S2, S1 in S3. rewrite B2, B1 in B3. clear S1 S2 B1 B2 E3.
  assert (exists e4 st4 bs4, match alternatives e3 with
      | [] => (Ok (), skip_phase "evaluate" (reason "no alternatives produced") e3)
      | _ => _run_phase clock "evaluate" (_phase_evaluate atom_repr reply) e3 end = (Ok (), e4) /\
      statuses e4 = set_status "evaluate" st4 (statuses e3) /\ bounds e4 = bounds e3 ++ bs4 /\
      (st4 = Completed /\ bs4 = [("evaluate", BStart); ("evaluate", BComplete)] \/
       st4 = Failed /\ bs4 = [("evaluate", BStart); ("evaluate", BFailed)] \/ st4 = Skipped /\ bs4 = []))
    as (e4 & st4 & bs4 & -> & S4 & B4 & H4).
  { destruct (alternatives e3).
    - eexists _, Skipped, []. split; [done|]. rewrite skip_statuses, skip_bounds, app_nil_r. eauto 6.
    - destruct (run_phase_ran clock "evaluate" _ e3 (evaluate_quiet atom_repr reply Hu)) as (e4 & -> & st4 & b4 & H4 & S4 & B4).
      eexists _, st4, _. split; [done|]. split; [done|]. split; [done|]. destruct H4 as [[-> ->]|[-> ->]]; eauto. }
  cbn [and_then]. rewrite S3 in S4. rewrite B3 in B4. clear S3 B3.
  destruct (run_phase_ran clock "synthesize" _ e4 (synthesize_quiet reply Hu)) as (e5 & -> & st5 & b5 & H5 & S5 & B5).
  cbn [and_then]. rewrite S4 in S5. rewrite B4 in B5. clear S4 B4.
  destruct (String.eqb (deliverable_markdown e5) "").
  - eexists. split; [done|]. pose proof (skip_statuses "critique" (reason "no deliverable to critique") e5) as S6. rewrite S5 in S6.
    pose proof (skip_bounds "critique" (reason "no deliverable to critique") e5) as B6. rewrite B5 in B6. clear S5 B5.
    destruct H1 as [[-> ->]|[-> ->]], H2 as [[-> ->]|[-> ->]], H3 as [[-> ->]|[-> ->]], H4 as [[-> ->]|[[-> ->]|[-> ->]]],
      H5 as [[-> ->]|[-> ->]]; ended_now.
  - destruct (run_phase_ran clock "critique" _ e5 (critique_quiet atom_repr reply Hu)) as (e6 & -> & st6 & b6 & H6 & S6 & B6).
    eexists. split; [done|]. rewrite S5 in S6. rewrite B5 in B6. clear S5 B5.
    destruct H1 as [[-> ->]|[-> ->]], H2 as [[-> ->]|[-> ->]], H3 as [[-> ->]|[-> ->]], H4 as [[-> ->]|[[-> ->]|[-> ->]]],
      H5 as [[-> ->]|[-> ->]], H6 as [[-> ->]|[-> ->]]; ended_now.
Qed.

(** C34: a run that is not cancelled returns, whatever the model answers and
    whichever calls fail: every phase is completed, failed or skipped, and the
    events show one start followed by one end for every phase that ran, in
    order, and nothing for the skipped ones. *)
Theorem thinking_run_ends atom_repr reply clock deliverable effort :
  (forall n x, reply n = Err x -> cancelled x = false) ->
  exists e, run atom_repr reply clock (new_engine deliverable effort) = (Ok (), e) /\
    map fst (statuses e) = map fst PHASES /\
    Forall (fun ns => ns.2 <> Pending /\ ns.2 <> InProgress) (statuses e) /\
    bounds e = expected_bounds (statuses e).
Proof. intros Hr. by apply run_ended. Qed.

(** ** What the phases keep is bounded and well formed *)

#[local] Arguments str_take : simpl never.

Definition level (s : string) : Prop := s ∈ LEVELS.
Definition understanding_ok (u : Understanding) : Prop :=
  (String.length (restatement u) <= 2000)%nat /\
  Forall (fun l : list string => length l <= 10)%nat [constraints u; preferences u; assumptions u; unknowns u].
Definition question_ok (q : SubQuestion) : Prop :=
  (String.length (q_question q) <= 500)%nat /\ (String.length (q_why q) <= 300)%nat.
Definition alternative_ok (a : Alternative) : Prop :=
  (String.length (a_name a) <= 120 /\ String.length (a_summary a) <= 600 /\ length (a_pros a) <= 8 /\
   length (a_cons a) <= 8 /\ String.length (a_best_when a) <= 300)%nat /\ level (a_risk a) /\ level (a_effort a).
Definition decision_ok (alts : list Alternative) (d : Decision) : Prop :=
  chosen_id d ∈ map a_id alts /\ 0 <= d_confidence d <= 100 /\
  (String.length (justification d) <= 1500 /\ length (key_trade_offs d) <= 6 /\ length (would_reconsider_if d) <= 6)%nat.
Definition critique_ok (c : Critique) : Prop :=
  0 <= c_confidence c <= 100 /\ (length (risks c) <= 6 /\ length (open_questions c) <= 6 /\ length (next_steps c) <= 6)%nat /\
  Forall (fun r => (String.length (r_title r) <= 120 /\ String.length (r_detail r) <= 500)%nat /\ level (r_severity r)) (risks c).

Record results_ok (e : ThinkingEngine) : Prop := {
  ro_understanding : forall u, understanding e = Some u -> understanding_ok u;
  ro_questions : (length (sub_questions e) <= 7)%nat /\ Forall question_ok (sub_questions e);
  ro_alternatives : (length (alternatives e) <= 4)%nat /\ Forall alternative_ok (alternatives e);
  ro_decision : forall d, decision e = Decided d -> decision_ok (alternatives e) d;
  ro_critique : forall c, critique e = Some c -> critique_ok c }.

Lemma enum_level r o : level (_enum r o LEVELS "medium").
Proof.
  unfold _enum. destruct (existsb _ LEVELS) eqn:E; [|unfold level, LEVELS; set_solver].
  apply existsb_exists in E as (y & Hy & ->%String.eqb_eq). by apply list_elem_of_In.
Qed.
Lemma clamp_range o : 0 <= _clamp_int o 0 100 60 <= 100.
Proof. unfold _clamp_int. destruct (int_of _); lia. Qed.
Lemma str_list_length r k n v l : str_list r k n v = Ok l -> (length l <= n)%nat.
Proof.
  unfold str_list. destruct (get_attr k v); [|done]. simpl. destruct (iterate _); [|done]. intros [= <-]. rewrite length_take. lia.
Qed.
Lemma str_field_length r k n v s : str_field r k n v = Ok s -> (String.length s <= n)%nat.
Proof. unfold str_field. destruct (get_attr k v); [|done]. intros [= <-]. apply length_str_take. Qed.
Lemma slice_length n v l : iterate_slice n v = Ok l -> (length l <= n)%nat.
Proof.
  destruct v as [| | | |s| |l'|]; try done; intros [= <-].
  - rewrite length_map. assert (length (chars (str_take n s)) = String.length (str_take n s)) as ->.
    { induction (str_take n s); simpl; congruence. }
    apply length_str_take.
  - rewrite length_take. lia.
Qed.

(** Takes a chain of [<-!] that ends in [Ok] apart. *)
Ltac unbind H :=
  repeat match type of H with
  | rbind ?r _ = Ok _ => let E := fresh "E" in destruct r eqn:E; [cbn [rbind] in H|discriminate H]
  end.

Lemma understanding_bounded r v u : normalize_understanding r v = Ok u -> understanding_ok u.
Proof.
  unfold normalize_understanding. intros H. unbind H. injection H as <-. split; [by eapply str_field_length|].
  repeat (constructor; [by eapply str_list_length|]). constructor.
Qed.

Lemma questions_bounded r v qs : normalize_questions r v = Ok qs -> (length qs <= 7)%nat /\ Forall question_ok qs.
Proof.
  unfold normalize_questions. intros H. unbind H. apply slice_length in E0.
  enough ((length qs <= length a0)%nat /\ Forall question_ok qs) as [? ?] by (split; [lia|done]). clear E E0. revert qs H. generalize 1.
  induction a0 as [|q l IH]; intros i qs H; simpl in H; [by injection H as <-|].
  assert (questions_loop r (i + 1) l = Ok qs -> (length qs <= S (length l))%nat /\ Forall question_ok qs) as Hskip.
  { intros Hl. apply IH in Hl as [? ?]. split; [lia|done]. }
  destruct q as [| | | | | | |d]; try by apply Hskip. destruct (dict_get "question" d) as [x|]; [|by apply Hskip].
  destruct (truthy x); [|by apply Hskip]. unbind H. injection H as <-. apply IH in E0 as [? ?]. split; [simpl; lia|].
  constructor; [|done]. split; apply length_str_take.
Qed.

Lemma alternative_bounded r d name a : normalize_alternative r d name = Ok a -> alternative_ok a.
Proof.
  unfold normalize_alternative. intros H. unbind H. injection H as <-. split; [|split; apply enum_level].
  split_and!; simpl; try apply length_str_take; by (eapply str_field_length || eapply str_list_length).
Qed.

Lemma alternatives_bounded r v l : normalize_alternatives r v = Ok l -> (length l <= 4)%nat /\ Forall alternative_ok l.
Proof.
  unfold normalize_alternatives. intros H. unbind H. apply slice_length in E0.
  enough ((length l <= length a0)%nat /\ Forall alternative_ok l) as [? ?] by (split; [lia|done]). clear E E0. revert l H.
  induction a0 as [|q a0 IH]; intros l H; simpl in H; [by injection H as <-|].
  assert (alternatives_loop r a0 = Ok l -> (length l <= S (length a0))%nat /\ Forall alternative_ok l) as Hskip.
  { intros Hl. apply IH in Hl as [? ?]. split; [lia|done]. }
  destruct q as [| | | | | | |d]; try by apply Hskip. destruct (dict_get "name" d) as [x|]; [|by apply Hskip].
  destruct (truthy x); [|by apply Hskip]. unbind H. injection H as <-. destruct (IH _ eq_refl) as [? ?]. split; [simpl; lia|].
  constructor; [by eapply alternative_bounded|done].
Qed.

Lemma choose_member alts c : alts <> [] -> choose alts c ∈ map a_id alts.
Proof.
  destruct alts as [|a alts]; [done|]. intros _. unfold choose. destruct c as [[| | | |s| | |]|]; try by left.
  destruct (existsb _ _) eqn:E; [|by left]. apply existsb_exists in E as (b & Hb & <-%String.eqb_eq).
  apply list_elem_of_fmap. exists b. split; [done|]. by apply list_elem_of_In.
Qed.

Lemma decision_bounded r alts v d : alts <> [] -> normalize_decision r alts v = Ok d -> decision_ok alts d.
Proof.
  unfold normalize_decision. intros Ha H. unbind H. injection H as <-. split; [by apply choose_member|].
  split; [apply clamp_range|]. split_and!; by (eapply str_field_length || eapply str_list_length).
Qed.

Lemma critique_bounded r v c : normalize_critique r v = Ok c -> critique_ok c.
Proof.
  unfold normalize_critique. intros H. unbind H. injection H as <-. apply slice_length in E0.
  split; [apply clamp_range|]. split; [split_and!; [|by eapply str_list_length..]|].
  - simpl. etrans; [|exact E0]. clear. induction a0 as [|x l IH]; simpl; [lia|]. rewrite length_app.
    assert (length (normalize_risk r x) <= 1)%nat by (by destruct x; simpl; lia). lia.
  - simpl. clear. induction a0 as [|x l IH]; simpl; [constructor|]. apply Forall_app. split; [|done].
    destruct x; simpl; try constructor; [|constructor]. split; [split; apply length_str_take|apply enum_level].
Qed.

(** The results the engine holds *)
Definition results (e : ThinkingEngine) :=
  (understanding e, sub_questions e, alternatives e, decision e, critique e).
Lemma results_ok_ext e e' : results e' = results e -> results_ok e -> results_ok e'.
Proof. intros [= H1 H2 H3 H4 H5] []. split; rewrite ?H1, ?H2, ?H3, ?H4, ?H5; done. Qed.

(** A runner keeps a property of the engine that only looks at the results. *)
Definition stable (P : ThinkingEngine -> Prop) : Prop := forall e e', results e' = results e -> P e -> P e'.
Definition runs_in (P Q : ThinkingEngine -> Prop) (r : runner) : Prop := forall e, P e -> Q (r e).2.

Lemma run_phase_in clock P Q name r : stable P -> stable Q -> runs_in P Q r ->
  forall e, P e -> Q (_run_phase clock name r e).2.
Proof.
  intros HP HQ Hr e He. unfold _run_phase. set (e0 := _emit _ _). assert (P e0) as H0 by (by eapply HP; [|exact He]).
  specialize (Hr e0 H0). destruct (r e0) as [[d|x] e1]; simpl in Hr; [by eapply HQ; [|exact Hr]|].
  destruct (cancelled x); [done|by eapply HQ; [|exact Hr]].
Qed.

Lemma and_then_in (Q R : ThinkingEngine -> Prop) r k : Q r.2 -> (forall e, Q e -> R e) -> (forall e, Q e -> R (k e).2) ->
  R (and_then r k).2.
Proof. destruct r as [[u|x] e]; simpl; auto. Qed.

(** Results, before a decision is made *)
Definition undecided_ok (e : ThinkingEngine) : Prop := results_ok e /\ decision e = Undecided.
Lemma results_ok_stable : stable results_ok.
Proof. intros e e'. apply results_ok_ext. Qed.
Lemma undecided_ok_stable : stable undecided_ok.
Proof. intros e e' Hr [He Hd]. split; [by eapply results_ok_ext|]. by injection Hr as _ _ _ -> _. Qed.
#[local] Hint Resolve results_ok_stable undecided_ok_stable : core.

Section bounded.
Context (atom_repr : pyval -> string) (reply : string -> result pyexn (option string)) (clock : string -> string * string).

Lemma json_phase_in {A} P Q name norm (keep : A -> ThinkingEngine -> ThinkingEngine) det :
  stable P -> (forall e, P e -> Q e) -> (forall e v a, P e -> norm e v = Ok a -> Q (keep a e)) ->
  runs_in P Q (json_phase reply name norm keep det).
Proof.
  intros HP HPQ Hn e He. unfold json_phase, _llm_json. set (e1 := _emit _ e). assert (P e1) as H1 by (by eapply HP; [|exact He]).
  destruct (raw <-! reply name; _extract_json raw) as [v|]; simpl; [|by apply HPQ].
  destruct (norm e1 v) eqn:E; simpl; [by eapply Hn|by apply HPQ].
Qed.

Lemma understand_in : runs_in undecided_ok undecided_ok (_phase_understand atom_repr reply).
Proof.
  apply json_phase_in; auto. intros e v u [[H1 H2 H3 H4 H5] Hd] Hu%understanding_bounded. split; [|done].
  split; simpl; try done. by intros u' [= <-].
Qed.
Lemma decompose_in : runs_in undecided_ok undecided_ok (_phase_decompose atom_repr reply).
Proof.
  apply json_phase_in; auto. intros e v q [[H1 H2 H3 H4 H5] Hd] Hq%questions_bounded. split; [|done]. by split.
Qed.
Lemma explore_in : runs_in undecided_ok undecided_ok (_phase_explore atom_repr reply).
Proof.
  apply json_phase_in; auto. intros e v a [[H1 H2 H3 H4 H5] Hd] Ha%alternatives_bounded. split; [|done].
  split; simpl; try done. by rewrite Hd.
Qed.
Lemma evaluate_in : runs_in undecided_ok results_ok (_phase_evaluate atom_repr reply).
Proof.
  intros e [He Hd]. unfold _phase_evaluate. destruct (alternatives e) as [|a l] eqn:Ea.
  - destruct He as [H1 H2 H3 H4 H5]. by split.
  - apply (json_phase_in (fun e => results_ok e /\ alternatives e <> [])); [|by intros ? []| |split; [done|by rewrite Ea]].
    + intros e1 e2 Hr [H1 H2]. split; [by eapply results_ok_ext|]. by injection Hr as _ _ -> _ _.
    + intros e1 v d [[H1 H2 H3 H4 H5] Hne] Hdec. apply decision_bounded in Hdec; [|done]. split; simpl; try done.
      by intros d' [= <-].
Qed.
Lemma synthesize_in : runs_in results_ok results_ok (_phase_synthesize reply).
Proof.
  intros e He. unfold _phase_synthesize. destruct (reply "synthesize"); simpl; [|by eapply results_ok_ext; [|exact He]].
  destruct (String.eqb _ _); simpl; by eapply results_ok_ext; [|exact He].
Qed.
Lemma critique_in : runs_in results_ok results_ok (_phase_critique atom_repr reply).
Proof.
  apply json_phase_in; auto. intros e v c [H1 H2 H3 H4 H5] Hc%critique_bounded. split; simpl; try done. by intros c' [= <-].
Qed.

Lemma run_results_ok deliverable effort : results_ok (run atom_repr reply clock (new_engine deliverable effort)).2.
Proof.
  assert (forall e, undecided_ok e -> results_ok e) as Hu by (by intros e []).
  unfold run. apply (and_then_in undecided_ok); [|done|].
  { apply (run_phase_in clock undecided_ok); auto using understand_in. split; [|done]. split; simpl; try done; by split; [lia|]. }
  intros e1 H1. destruct (understanding e1).
  2: { simpl. eapply results_ok_ext; [|exact (Hu _ H1)]. done. }
  apply (and_then_in undecided_ok); [by apply (run_phase_in clock undecided_ok); auto using decompose_in|done|]. intros e2 H2.
  apply (and_then_in undecided_ok); [by apply (run_phase_in clock undecided_ok); auto using explore_in|done|]. intros e3 H3.
  apply (and_then_in results_ok); [|done|].
  { destruct (alternatives e3); [by eapply results_ok_ext; [|exact (Hu _ H3)]|].
    by apply (run_phase_in clock undecided_ok); auto using evaluate_in. }
  intros e4 H4. apply (and_then_in results_ok); [by apply (run_phase_in clock results_ok); auto using synthesize_in|done|].
  intros e5 H5. destruct (String.eqb _ _); [by eapply results_ok_ext; [|exact H5]|].
  by apply (run_phase_in clock results_ok); auto using critique_in.
Qed.
End bounded.

(** Whatever the model replies, what a run keeps is bounded and well
    formed: sizes are within the limits of each phase, risks, efforts and
    severities are one of the three levels, confidences are percentages, and a
    decision names one of the alternatives. *)
Theorem thinking_results_bounded atom_repr reply clock deliverable effort :
  let e := (run atom_repr reply clock (new_engine deliverable effort)).2 in
  (forall u, understanding e = Some u -> understanding_ok u) /\
  ((length (sub_questions e) <= 7)%nat /\ Forall question_ok (sub_questions e)) /\
  ((length (alternatives e) <= 4)%nat /\ Forall alternative_ok (alternatives e)) /\
  (forall d, decision e = Decided d -> decision_ok (alternatives e) d) /\
  (forall c, critique e = Some c -> critique_ok c).
Proof. intros e. by destruct (run_results_ok atom_repr reply clock deliverable effort). Qed.

(** ** The JSON of a wrapped reply is found *)

Definition TICK : ascii := "`".
(** A character no JSON text begins with, as in prose or a fence *)
Definition is_capital (c : ascii) : bool := let n := nat_of_ascii c in (65 <=? n)%nat && (n <=? 90)%nat.
Definition not_json (c : ascii) : bool := is_capital c || Ascii.eqb c TICK.

Lemma not_json_fails c t : not_json c = true -> json_loads (String c t) = Err JSONDecodeError.
Proof.
  intros Hc. unfold json_loads. assert (skip (String c t) = String c t) as ->.
  { apply skip_head. by destruct c as [[] [] [] [] [] [] [] []]. }
  assert (forall n, parse_value (S n) (String c t) = None) as Hp.
  { intros n. destruct c as [[] [] [] [] [] [] [] []]; try discriminate Hc; reflexivity. }
  destruct (2 * String.length (String c t) + 2)%nat as [|n] eqn:E; [lia|]. by rewrite Hp.
Qed.

Lemma lstrip_head f c t : f c = false -> lstrip f (String c t) = String c t.
Proof. intros H. simpl. by rewrite H. Qed.

Lemma rstrip_keep f a c b : f c = false -> rstrip f (a +:+ String c b) = a +:+ String c (rstrip f b).
Proof.
  intros Hc. induction a as [|x a IH].
  - change ("" +:+ ?y) with y. simpl. destruct (rstrip f b); [by rewrite Hc|done].
  - rewrite !app_string_cons. simpl. rewrite IH. by destruct a.
Qed.

Lemma startswith_tick c t : Ascii.eqb TICK c = false -> startswith FENCE (String c t) = false.
Proof. destruct c as [[] [] [] [] [] [] [] []]; intros H; try discriminate H; reflexivity. Qed.

Lemma fence_skip pre s : char_in TICK pre = false -> fence_search (pre +:+ s) = fence_search s.
Proof.
  induction pre as [|c pre IH]; intros Hp; [done|]. rewrite app_string_cons. cbn [char_in] in Hp. apply orb_false_iff in Hp as [Hc Hp].
  cbn [fence_search]. unfold match_fence. rewrite startswith_tick by done. by apply IH.
Qed.

(** Within a text without ticks no fence closes before its end. *)
Lemma no_tick_fence a b : char_in TICK a = false -> startswith FENCE (lstrip is_space (a +:+ String CLOSE b)) = false.
Proof.
  induction a as [|c a IH]; intros Ha; [done|]. rewrite app_string_cons. cbn [char_in lstrip] in Ha |- *. apply orb_false_iff in Ha as [Hc Ha].
  destruct (is_space c); [by apply IH|by apply startswith_tick].
Qed.

Lemma close_fence_body a ws rest : char_in TICK a = false -> str_forallb is_space ws = true ->
  close_fence (a +:+ String CLOSE (ws +:+ FENCE +:+ rest)) = Some (a +:+ String CLOSE "").
Proof.
  intros Ha Hw. induction a as [|c a IH].
  - change ("" +:+ ?y) with y. cbn [close_fence]. rewrite Ascii.eqb_refl.
    assert (startswith FENCE (lstrip is_space (ws +:+ FENCE +:+ rest)) = true) as ->; [|done].
    clear -Hw. induction ws as [|c ws IH]; [by destruct rest|]. simpl in Hw. apply andb_true_iff in Hw as [Hc Hw].
    rewrite app_string_cons. simpl. rewrite Hc. by apply IH.
  - rewrite !app_string_cons. cbn [char_in] in Ha. apply orb_false_iff in Ha as [Hc Ha]. cbn [close_fence].
    rewrite (no_tick_fence a _ Ha), andb_false_r, IH by done. done.
Qed.

Lemma to_last_end a post : char_in CLOSE post = false -> to_last (a +:+ String CLOSE post) = Some (a +:+ String CLOSE "").
Proof.
  intros Hp. assert (to_last post = None) as H0.
  { induction post as [|c post IH]; [done|]. cbn [char_in to_last] in Hp |- *. apply orb_false_iff in Hp as [Hc Hp]. rewrite IH by done.
    by rewrite Ascii.eqb_sym, Hc. }
  induction a as [|c a IH]; [change ("" +:+ ?y) with y; cbn [to_last]; by rewrite H0|]. rewrite !app_string_cons. cbn [to_last]. by rewrite IH.
Qed.

Lemma brace_skip pre s : char_in BRACE pre = false -> brace_span (pre +:+ s) = brace_span s.
Proof.
  induction pre as [|c pre IH]; intros Hp; [done|]. rewrite app_string_cons. cbn [char_in brace_span] in Hp |- *. apply orb_false_iff in Hp as [Hc Hp].
  rewrite Ascii.eqb_sym, Hc. by apply IH.
Qed.

Lemma char_in_forallb c s : char_in c s = false <-> str_forallb (fun x => negb (Ascii.eqb c x)) s = true.
Proof.
  induction s as [|x s IH]; cbn [char_in str_forallb]; [done|]. rewrite orb_false_iff, andb_true_iff, negb_true_iff, IH. done.
Qed.
Lemma rstrip_char_in f c s : char_in c s = false -> char_in c (rstrip f s) = false.
Proof. rewrite !char_in_forallb. apply rstrip_forallb. Qed.
Lemma rstrip_all f s : str_forallb f s = true -> rstrip f s = "".
Proof. induction s as [|c s IH]; cbn [str_forallb rstrip]; [done|]. intros [Hc Hs]%andb_true_iff. by rewrite IH, Hc. Qed.
Lemma lstrip_all f a b : str_forallb f a = true -> lstrip f (a +:+ b) = lstrip f b.
Proof.
  induction a as [|c a IH]; [done|]. cbn [str_forallb]. intros [Hc Ha]%andb_true_iff. rewrite app_string_cons. cbn [lstrip].
  rewrite Hc. by apply IH.
Qed.
Lemma fence_none s : char_in TICK s = false -> fence_search s = None.
Proof. intros H. rewrite <- (app_string_nil_r s). by rewrite fence_skip. Qed.
Lemma not_json_visible c : not_json c = true -> is_space c = false.
Proof. by destruct c as [[] [] [] [] [] [] [] []]. Qed.

(** The text of an object: braces around its members *)
Lemma dumps_dict r d s : json_dumps r (PDict d) = Ok s -> exists m, s = String BRACE (m +:+ String CLOSE "").
Proof. simpl. destruct (all_ok _); [|done]. intros [= <-]. by eexists. Qed.

(** The texts the model writes around the JSON *)
Definition NL : string := String "010" "".
Definition fenced (pre s post : string) : string := pre +:+ FENCE +:+ "json" +:+ NL +:+ s +:+ NL +:+ FENCE +:+ post.
(** Prose begins with a capital letter and has no back tick. *)
Definition prose (pre : string) : Prop :=
  char_in TICK pre = false /\ exists c t, pre = String c t /\ is_capital c = true.

Lemma fence_json y b : close_fence y = Some b ->
  fence_search (FENCE +:+ "json" +:+ NL +:+ String BRACE y) = Some (String BRACE b).
Proof.
  intros Hb. assert (match_fence (FENCE +:+ "json" +:+ NL +:+ String BRACE y) = Some (String BRACE b)) as Hm.
  { transitivity (match close_fence y with Some b => Some (String BRACE b) | None => None end); [reflexivity|by rewrite Hb]. }
  change (FENCE +:+ ?x) with (String TICK ("``" +:+ x)) in *. cbn [fence_search]. by rewrite Hm.
Qed.

Lemma extract_bare r d s ws ws' : json_safe (PDict d) -> json_dumps r (PDict d) = Ok s ->
  str_forallb is_space ws = true -> str_forallb is_space ws' = true -> _extract_json (Some (ws +:+ s +:+ ws')) = Ok (PDict d).
Proof.
  intros Hs Hd Hw Hw'. pose proof (loads_dumps r _ _ Hs Hd) as Hl. destruct (dumps_dict _ _ _ Hd) as (m & ->).
  unfold _extract_json. assert (truthy_str (Some (ws +:+ String BRACE (m +:+ String CLOSE "") +:+ ws')) = true) as -> by (by destruct ws).
  cbn [negb]. change (default "" (Some ?x)) with x. unfold strip. rewrite lstrip_all by done. rewrite app_string_cons, lstrip_head by done.
  rewrite app_string_assoc. change (String CLOSE "" +:+ ws') with (String CLOSE ws').
  rewrite <- app_string_cons, rstrip_keep, rstrip_all by done. by rewrite app_string_cons, Hl.
Qed.

Lemma extract_fenced r d s pre post : json_safe (PDict d) -> json_dumps r (PDict d) = Ok s -> char_in TICK s = false ->
  pre = "" \/ prose pre -> _extract_json (Some (fenced pre s post)) = Ok (PDict d).
Proof.
  intros Hs Hd Ht Hpre. pose proof (loads_dumps r _ _ Hs Hd) as Hl. destruct (dumps_dict _ _ _ Hd) as (m & ->).
  assert (char_in TICK m = false) as Hm.
  { cbn [char_in] in Ht. apply orb_false_iff in Ht as [_ Ht]. rewrite char_in_app in Ht. by apply orb_false_iff in Ht as [? _]. }
  assert (char_in TICK pre = false) as Hp by (destruct Hpre as [->|[? _]]; done).
  assert (forall post, exists c t, fenced pre (String BRACE (m +:+ String CLOSE "")) post = String c t /\ not_json c = true) as Hhead.
  { intros p. destruct Hpre as [->|(_ & c & t & -> & Hc)]; [by eexists _, _|]. unfold fenced. rewrite app_string_cons.
    eexists _, _. split; [done|]. unfold not_json. by rewrite Hc. }
  assert (strip is_space (fenced pre (String BRACE (m +:+ String CLOSE "")) post)
          = fenced pre (String BRACE (m +:+ String CLOSE "")) (rstrip is_space post)) as Hstrip.
  { unfold strip. destruct (Hhead post) as (c & t & Ec & Hc). rewrite Ec, lstrip_head, <- Ec by (by apply not_json_visible).
    unfold fenced. change (FENCE +:+ post) with ("``" +:+ String TICK post).
    change (FENCE +:+ rstrip is_space post) with ("``" +:+ String TICK (rstrip is_space post)).
    rewrite <- !app_string_assoc. by apply rstrip_keep. }
  unfold _extract_json. assert (truthy_str (Some (fenced pre (String BRACE (m +:+ String CLOSE "")) post)) = true) as ->.
  { destruct (Hhead post) as (c & t & -> & _). done. }
  cbn [negb]. change (default "" (Some ?x)) with x. rewrite Hstrip. destruct (Hhead (rstrip is_space post)) as (c & t & Ec & Hc).
  rewrite Ec, (not_json_fails _ _ Hc), <- Ec. unfold fenced. rewrite fence_skip by done.
  assert (fence_search (FENCE +:+ "json" +:+ NL +:+ String BRACE (m +:+ String CLOSE "") +:+ NL +:+ FENCE +:+ rstrip is_space post)
          = Some (String BRACE (m +:+ String CLOSE ""))) as ->; [|by rewrite Hl].
  rewrite (app_string_cons BRACE), (app_string_assoc m). apply fence_json. change (String CLOSE "" +:+ ?x) with (String CLOSE x).
  by apply close_fence_body.
Qed.

Lemma extract_embedded r d s pre post : json_safe (PDict d) -> json_dumps r (PDict d) = Ok s -> char_in TICK s = false ->
  prose pre -> char_in BRACE pre = false -> char_in TICK post = false -> char_in CLOSE post = false ->
  _extract_json (Some (pre +:+ s +:+ post)) = Ok (PDict d).
Proof.
  intros Hs Hd Ht (Hp & c & t & Ec & Hc) Hb Hpt Hpc. pose proof (loads_dumps r _ _ Hs Hd) as Hl.
  destruct (dumps_dict _ _ _ Hd) as (m & Em).
  assert (not_json c = true) as Hn by (unfold not_json; by rewrite Hc).
  assert (strip is_space (pre +:+ s +:+ post) = pre +:+ s +:+ rstrip is_space post) as Hstrip.
  { unfold strip. rewrite Ec, app_string_cons, lstrip_head by (by apply not_json_visible). rewrite <- app_string_cons, Em.
    rewrite !app_string_cons, !app_string_assoc. change (String CLOSE "" +:+ ?x) with (String CLOSE x).
    rewrite <- !app_string_cons, <- !(app_string_assoc _ (String BRACE m)).
    rewrite rstrip_keep by done. done. }
  unfold _extract_json. assert (truthy_str (Some (pre +:+ s +:+ post)) = true) as -> by (by rewrite Ec).
  cbn [negb]. change (default "" (Some ?x)) with x. rewrite Hstrip. set (post' := rstrip is_space post).
  assert (char_in TICK post' = false) as Hpt' by (by apply rstrip_char_in).
  assert (char_in CLOSE post' = false) as Hpc' by (by apply rstrip_char_in).
  assert (json_loads (pre +:+ s +:+ post') = Err JSONDecodeError) as -> by (rewrite Ec, app_string_cons; by apply not_json_fails).
  rewrite fence_none by (by rewrite !char_in_app, Hp, Ht, Hpt'). cbn [JSONDecodeError].
  rewrite brace_skip by done.
  assert (brace_span (s +:+ post') = Some s) as ->; [|by rewrite Hl].
  rewrite Em, app_string_cons. cbn [brace_span]. rewrite Ascii.eqb_refl, app_string_assoc.
  change (String CLOSE "" +:+ ?x) with (String CLOSE x). rewrite <- !app_string_cons. by apply to_last_end.
Qed.

(** An object the model prints is recovered from its reply: alone between
    blanks, in a fenced block after and before any text, and in prose without
    braces. *)
Theorem wrapped_json_found r d s : json_safe (PDict d) -> json_dumps r (PDict d) = Ok s -> char_in TICK s = false ->
  (forall ws ws', str_forallb is_space ws = true -> str_forallb is_space ws' = true ->
     _extract_json (Some (ws +:+ s +:+ ws')) = Ok (PDict d)) /\
  (forall pre post, pre = "" \/ prose pre -> _extract_json (Some (fenced pre s post)) = Ok (PDict d)) /\
  (forall pre post, prose pre -> char_in BRACE pre = false -> char_in TICK post = false -> char_in CLOSE post = false ->
     _extract_json (Some (pre +:+ s +:+ post)) = Ok (PDict d)).
Proof.
  intros Hs Hd Ht. split_and!; intros.
  - by eapply extract_bare.
  - by eapply extract_fenced.
  - by eapply extract_embedded.
Qed.

(** ** Concrete replies *)

Definition obj (d : list (string * pyval)) : string :=
  match json_dumps (fun _ => "") (PDict d) with Ok s => s | Err _ => "" end.
Definition demo_reply (phase : string) : result pyexn (option string) :=
  if String.eqb phase "understand" then Ok (Some (fenced "Sure: " (obj [("restatement", PStr "build a chat"); ("constraints", strs ["fast"])]) ""))
  else if String.eqb phase "explore" then
    Ok (Some (obj [("alternatives", PList [PDict [("name", PStr "Web Sockets"); ("risk", PStr "HIGH")]; PInt 3])]))
  else if String.eqb phase "evaluate" then Ok (Some (obj [("chosen_id", PStr "nope"); ("confidence", PStr "250")]))
  else if String.eqb phase "synthesize" then Ok (Some "# Plan")
  else Err (PyExn "TimeoutError" "model timed out").
Definition demo_run : ThinkingEngine := (run (fun _ => "") demo_reply (fun _ => ("t0", "t1")) (new_engine "auto" "Quick")).2.

(** Decomposing and the critique fail, the decision falls back on the only
    alternative, the confidence is clamped. *)
Example demo_run_ok :
  statuses demo_run = [("understand", Completed); ("decompose", Failed); ("explore", Completed); ("evaluate", Completed);
                       ("synthesize", Completed); ("critique", Failed)] /\
  (match decision demo_run with Decided d => Some (chosen_id d, d_confidence d) | _ => None end) = Some ("web-sockets", 100) /\
  map a_risk (alternatives demo_run) = ["high"] /\ deliverable_markdown demo_run = "# Plan" /\ effort demo_run = "basic".
Proof. by vm_compute. Qed.

Lemma thinking_run_ends_witness :
  exists e, run (fun _ => "") demo_reply (fun _ => ("t0", "t1")) (new_engine "auto" "Quick") = (Ok (), e) /\
    bounds e = expected_bounds (statuses e).
Proof.
  destruct (thinking_run_ends (fun _ => "") demo_reply (fun _ => ("t0", "t1")) "auto" "Quick") as (e & He & _ & _ & Hb).
  - intros n x. unfold demo_reply. by repeat case_match; intros [= <-].
  - by exists e.
Defined.

Lemma wrapped_json_found_witness :
  _extract_json (Some ("The plan: " +:+ obj [("a", PInt 1); ("b", strs ["x"])] +:+ " done."))
  = Ok (PDict [("a", PInt 1); ("b", strs ["x"])]).
Proof.
  apply (wrapped_json_found (fun _ => "") [("a", PInt 1); ("b", strs ["x"])]).
  - simpl. split; [|done]. apply (bool_decide_unpack _). by vm_compute.
  - by vm_compute.
  - by vm_compute.
  - split; [by vm_compute|]. by eexists _, _.
  - by vm_compute.
  - by vm_compute.
  - by vm_compute.
Defined.

(** A reply that gives text where a list is expected is kept letter by
    letter. *)
Example text_split_into_letters :
  normalize_understanding (fun _ => "") (PDict [("constraints", PStr "none")])
  = Ok (Understood "" ["n"; "o"; "n"; "e"] [] [] []).
Proof. by vm_compute. Qed.

(** A reply that is JSON but not an object is not searched for one: it is
    returned as it is, and the phase fails on it. *)
Example json_array_returned :
  _extract_json (Some ("[" +:+ obj [("restatement", PStr "x")] +:+ "]")) = Ok (PList [PDict [("restatement", PStr "x")]]) /\
  normalize_understanding (fun _ => "") (PList [PDict [("restatement", PStr "x")]])
  = Err (PyExn "AttributeError" "'list' object has no attribute 'get'").
Proof. by vm_compute. Qed.

(** When the first phase fails, no other phase is tried. *)
Theorem failed_understanding_skips_all atom_repr reply clock deliverable effort x :
  (raw <-! reply "understand"; v <-! _extract_json raw; normalize_understanding atom_repr v) = Err x -> cancelled x = false ->
  statuses (run atom_repr reply clock (new_engine deliverable effort)).2 =
    [("understand", Failed); ("decompose", Skipped); ("explore", Skipped); ("evaluate", Skipped); ("synthesize", Skipped);
     ("critique", Skipped)].
Proof.
  intros Hx Hc. unfold run, _run_phase, _phase_understand, json_phase, _llm_json.
  destruct (reply "understand") as [raw|y]; simpl in Hx |- *.
  - destruct (_extract_json raw) as [v|y]; simpl in Hx |- *; [rewrite Hx|injection Hx as ->]; by rewrite Hc.
  - injection Hx as ->. by rewrite Hc.
Qed.

Lemma failed_understanding_skips_all_witness :
  statuses (run (fun _ => "") (fun _ => Ok (Some "I cannot help with that.")) (fun _ => ("", "")) (new_engine "auto" "deep")).2 =
    [("understand", Failed); ("decompose", Skipped); ("explore", Skipped); ("evaluate", Skipped); ("synthesize", Skipped);
     ("critique", Skipped)].
Proof.
  apply (failed_understanding_skips_all _ _ _ _ _ (value_error "no JSON object found in model output")); by vm_compute.
Defined.
