(* ===== verification/Cache.v ===== *)
(** * The cache

    [CacheManager] of document_processor/infrastructure/cache.py over the Redis
    commands it sends.  The server is an interface ([RedisServer]) whose law
    relates every answer to a keyspace of strings with expiry times: a command
    that fails may or may not have been executed.  [redisd] is a server with a
    script of faults. *)

From S2P Require Import Prelude PyStr PyVal PyConv Json.
From Stdlib Require Import Ascii.

(** ** The commands and their answers *)

Inductive command : Type -> Type :=
| Ping : command unit
| Get (k : string) : command (option string)
| SetEx (k : string) (ttl : Z) (v : string) : command bool
| SetNx (k v : string) (ttl : Z) : command bool
| Del (ks : list string) : command Z
| Exists_ (k : string) : command Z
| IncrBy (k : string) (n : Z) : command Z
| Expire (k : string) (ttl : Z) : command bool
| Ttl (k : string) : command Z
| MGet (ks : list string) : command (list (option string))
| Multi (l : list (string * string * option Z)) : command unit
| Scan (cursor : Z) (pattern : string) : command (Z * list string)
| FlushDb : command unit
| Publish (channel payload : string) : command Z.

(** A key holds a string and, perhaps, the time it expires. *)
Abbreviation keyspace := (gmap string (string * option Q)).
Definition expired (t : Q) (x : option Q) : bool := match x with Some e => Qle_bool e t | None => false end.
Definition live (t : Q) (ks : keyspace) (k : string) : option (string * option Q) :=
  match ks !! k with Some (v, x) => if expired t x then None else Some (v, x) | None => None end.
Definition value_at (t : Q) (ks : keyspace) (k : string) : option string := fst <$> live t ks k.
Definition deadline (t : Q) (ttl : Z) : option Q := Some (t + inject_Z ttl)%Q.

(** A canonical decimal integer of 64 bits *)
Definition as_int64 (s : string) : option Z :=
  match int_of_str s with
  | Some z => if String.eqb (str_int z) s && (- 2 ^ 63 <=? z) && (z <? 2 ^ 63) then Some z else None
  | None => None
  end.
Definition put_many (t : Q) (l : list (string * string * option Z)) (ks : keyspace) : keyspace :=
  foldl (fun ks kvt => <[kvt.1.1 := (kvt.1.2, match kvt.2 with Some ttl => deadline t ttl | None => None end)]> ks) ks l.

(** [answers c t ks a ks']: at time [t] the command [c] answers [a] and
    changes the keyspace from [ks] to [ks']. *)
Definition answers {A} (c : command A) (t : Q) (ks : keyspace) : A -> keyspace -> Prop :=
  match c in command A return A -> keyspace -> Prop with
  | Ping => fun _ ks' => ks' = ks
  | Get k => fun a ks' => a = value_at t ks k /\ ks' = ks
  | SetEx k ttl v => fun a ks' => 0 < ttl /\ a = true /\ ks' = <[k := (v, deadline t ttl)]> ks
  | SetNx k v ttl => fun a ks' => 0 < ttl /\
      match live t ks k with
      | None => a = true /\ ks' = <[k := (v, deadline t ttl)]> ks
      | Some _ => a = false /\ ks' = ks
      end
  | Del l => fun a ks' =>
      a = zlength (List.filter (fun k => bool_decide (is_Some (live t ks k))) (remove_dups l)) /\
      ks' = foldl (fun ks k => delete k ks) ks l
  | Exists_ k => fun a ks' => a = (match live t ks k with Some _ => 1 | None => 0 end) /\ ks' = ks
  | IncrBy k n => fun a ks' =>
      match live t ks k with
      | None => a = n /\ ks' = <[k := (str_int n, None)]> ks
      | Some (v, x) => exists z, as_int64 v = Some z /\ - 2 ^ 63 <= z + n < 2 ^ 63 /\ a = z + n /\
                         ks' = <[k := (str_int (z + n), x)]> ks
      end
  | Expire k ttl => fun a ks' =>
      match live t ks k with
      | None => a = false /\ ks' = ks
      | Some (v, _) => a = true /\ ks' = if 0 <? ttl then <[k := (v, deadline t ttl)]> ks else delete k ks
      end
  | Ttl k => fun a ks' => ks' = ks /\
      a = match live t ks k with
          | None => -2
          | Some (_, None) => -1
          | Some (_, Some e) => Qfloor (e - t + (1 # 2))
          end
  | MGet l => fun a ks' => a = map (value_at t ks) l /\ ks' = ks
  | Multi l => fun _ ks' => Forall (fun kvt => match kvt.2 with Some ttl => 0 < ttl | None => True end) l /\
                            ks' = put_many t l ks
  | Scan _ _ => fun a ks' => ks' = ks /\ Forall (fun k => is_Some (live t ks k)) a.2
  | FlushDb => fun _ ks' => ks' = ∅
  | Publish _ _ => fun _ ks' => ks' = ks
  end.

Class RedisServer (R : Type) := {
  exec : forall {A}, command A -> R -> result pyexn A * R;
  view : R -> keyspace;
  time_of : R -> Q }.

(** What a server promises: time does not go back; an answer is the one of some
    moment of the call; after an error the command was executed or was not. *)
Class RedisServerLaws (R : Type) `{RedisServer R} := {
  exec_law : forall A (c : command A) m, (time_of m <= time_of (exec c m).2)%Q /\
    match (exec c m).1 with
    | Ok a => exists t, (time_of m <= t <= time_of (exec c m).2)%Q /\ answers c t (view m) a (view (exec c m).2)
    | Err _ => view (exec c m).2 = view m \/
               exists t a, (time_of m <= t <= time_of (exec c m).2)%Q /\ answers c t (view m) a (view (exec c m).2)
    end }.

(** ** The manager *)

Record CacheManager (R : Type) := Manager { server : R; connected : bool; default_ttl : Z }.
Arguments Manager {R} _ _ _. Arguments server {R} _. Arguments connected {R} _. Arguments default_ttl {R} _.

Section manager.
Context {R : Type} `{RedisServer R}.
Variable float_repr : Q -> string.

Definition cio (A : Type) : Type := CacheManager R -> result pyexn A * CacheManager R.
Definition set_server (r : R) (m : CacheManager R) : CacheManager R := Manager r (connected m) (default_ttl m).

Definition CacheError (x : pyexn) : pyexn := PyExn "CacheError" ("Failed to connect to Redis: " +:+ exn_str x).

Definition connect : cio unit := fun m =>
  if connected m then (Ok (), m) else
  match exec Ping (server m) with
  | (Ok _, r) => (Ok (), Manager r true (default_ttl m))
  | (Err x, r) => (Err (CacheError x), set_server r m)
  end.
Definition disconnect : CacheManager R -> CacheManager R := fun m => Manager (server m) false (default_ttl m).

(** [try: return f(await self.redis.<command>) except Exception: return dflt],
    after connecting; connecting is outside the [try]. *)
Definition guarded {A B} (c : command A) (f : A -> B) (dflt : B) : cio B := fun m =>
  match connect m with
  | (Err x, m) => (Err x, m)
  | (Ok _, m) =>
      match exec c (server m) with
      | (Ok a, r) => (Ok (f a), set_server r m)
      | (Err _, r) => (Ok dflt, set_server r m)
      end
  end.

(** [ttl or self.default_ttl] *)
Definition effective_ttl (ttl : option Z) (m : CacheManager R) : Z :=
  match ttl with Some t => if t =? 0 then default_ttl m else t | None => default_ttl m end.

Definition get (key : string) : cio (option string) := guarded (Get key) id None.
Definition set (key value : string) (ttl : option Z) (nx : bool) : cio bool := fun m =>
  let t := effective_ttl ttl m in
  if nx then guarded (SetNx key value t) id false m else guarded (SetEx key t value) id false m.
Definition get_json (key : string) : cio (option pyval) := fun m =>
  match get key m with
  | (Ok value, m) =>
      (Ok (if truthy_str value then match json_loads (default "" value) with Ok v => Some v | Err _ => None end
           else None), m)
  | (Err x, m) => (Err x, m)
  end.
Definition set_json (key : string) (value : pyval) (ttl : option Z) : cio bool := fun m =>
  match json_dumps float_repr value with
  | Ok s => set key s ttl false m
  | Err _ => (Ok false, m)
  end.
Definition delete_ (key : string) : cio bool := guarded (Del [key]) (fun n => negb (n =? 0)) false.
Definition exists_ (key : string) : cio bool := guarded (Exists_ key) (fun n => 0 <? n) false.
Definition increment (key : string) (amount : Z) : cio Z := guarded (IncrBy key amount) id 0.
Definition expire (key : string) (ttl : Z) : cio bool := guarded (Expire key ttl) id false.
Definition get_ttl (key : string) : cio Z := guarded (Ttl key) id (-2).
(** [{k: v for k, v in zip(keys, values) if v is not None}] *)
Definition pair_up (keys : list string) (values : list (option string)) : list (string * pyval) :=
  dict_of (flat_map (fun kv => match kv.2 with Some v => [(kv.1, PStr v)] | None => [] end) (zip keys values)).
Definition get_many (keys : list string) : cio (list (string * pyval)) := guarded (MGet keys) (pair_up keys) [].
Definition set_many (mapping : list (string * string)) (ttl : option Z) : cio bool :=
  let ttl := match ttl with Some t => if t =? 0 then None else Some t | None => None end in
  guarded (Multi (map (fun kv => (kv.1, kv.2, ttl)) mapping)) (fun _ => true) false.
Definition clear_all : cio bool := guarded FlushDb (fun _ => true) false.
Definition health_check : cio bool := fun m =>
  match guarded Ping (fun _ => true) false m with
  | (Ok b, m) => (Ok b, m)
  | (Err _, m) => (Ok false, m)
  end.

(** The turns of the SCAN loop; [None] when the fuel does not reach the end of
    the server's iteration *)
Fixpoint scan_loop (fuel : nat) (pattern : string) (cursor deleted : Z) (m : CacheManager R) : option (Z * CacheManager R) :=
  match fuel with
  | O => None
  | S n =>
      match exec (Scan cursor pattern) (server m) with
      | (Err _, r) => Some (0, set_server r m)
      | (Ok (cursor, keys), r) =>
          let m := set_server r m in
          match keys with
          | [] => if cursor =? 0 then Some (deleted, m) else scan_loop n pattern cursor deleted m
          | _ =>
              match exec (Del keys) (server m) with
              | (Err _, r) => Some (0, set_server r m)
              | (Ok k, r) =>
                  let m := set_server r m in
                  if cursor =? 0 then Some (deleted + k, m) else scan_loop n pattern cursor (deleted + k) m
              end
          end
      end
  end.
Definition delete_pattern (fuel : nat) (pattern : string) (m : CacheManager R) : option (result pyexn Z * CacheManager R) :=
  match connect m with
  | (Err x, m) => Some (Err x, m)
  | (Ok _, m) => match scan_loop fuel pattern 0 0 m with Some (n, m) => Some (Ok n, m) | None => None end
  end.

(** Best effort: nothing is raised. *)
Definition publish_event (channel : string) (event : pyval) (m : CacheManager R) : CacheManager R :=
  match connect m with
  | (Err _, m) => m
  | (Ok _, m) =>
      match json_dumps float_repr event with
      | Ok payload => set_server (exec (Publish channel payload) (server m)).2 m
      | Err _ => m
      end
  end.
End manager.

(** What a subscriber receives: the type of the message and its data *)
Record message := Message { msg_type : string; msg_data : option string }.
(** The events [subscribe_events] yields for the messages that arrive *)
Definition subscribe_events (ms : list message) : list pyval :=
  flat_map (fun m =>
    if negb (String.eqb (msg_type m) "message") then []
    else if negb (truthy_str (msg_data m)) then []
    else match json_loads (default "" (msg_data m)) with Ok v => [v] | Err _ => [] end) ms.

Definition _calculate_hit_rate (hits misses : Z) : Q :=
  let total := hits + misses in
  if total =? 0 then 0%Q else (inject_Z hits / inject_Z total * 100)%Q.

(** ** A server with faults

    The script says, for every command, how long it takes and whether it
    fails, before or after it is executed. *)

Record redisd := Redisd { rd_keys : keyspace; rd_clock : Q; rd_script : list (Q * option (bool * pyexn)) }.

Definition run_command {A} (c : command A) (t : Q) (ks : keyspace) : option (A * keyspace) :=
  match c in command A return option (A * keyspace) with
  | Ping => Some ((), ks)
  | Get k => Some (value_at t ks k, ks)
  | SetEx k ttl v => if 0 <? ttl then Some (true, <[k := (v, deadline t ttl)]> ks) else None
  | SetNx k v ttl =>
      if 0 <? ttl then
        match live t ks k with None => Some (true, <[k := (v, deadline t ttl)]> ks) | Some _ => Some (false, ks) end
      else None
  | Del l => Some (zlength (List.filter (fun k => bool_decide (is_Some (live t ks k))) (remove_dups l)),
                   foldl (fun ks k => delete k ks) ks l)
  | Exists_ k => Some (match live t ks k with Some _ => 1 | None => 0 end, ks)
  | IncrBy k n =>
      match live t ks k with
      | None => Some (n, <[k := (str_int n, None)]> ks)
      | Some (v, x) =>
          match as_int64 v with
          | Some z => if (- 2 ^ 63 <=? z + n) && (z + n <? 2 ^ 63)
                      then Some (z + n, <[k := (str_int (z + n), x)]> ks) else None
          | None => None
          end
      end
  | Expire k ttl =>
      match live t ks k with
      | None => Some (false, ks)
      | Some (v, _) => Some (true, if 0 <? ttl then <[k := (v, deadline t ttl)]> ks else delete k ks)
      end
  | Ttl k => Some (match live t ks k with
                   | None => -2 | Some (_, None) => -1 | Some (_, Some e) => Qfloor (e - t + (1 # 2)) end, ks)
  | MGet l => Some (map (value_at t ks) l, ks)
  | Multi l => if forallb (fun kvt => match kvt.2 with Some ttl => 0 <? ttl | None => true end) l
               then Some ((), put_many t l ks) else None
  | Scan _ pattern => Some ((0, List.filter (fun k => bool_decide (is_Some (live t ks k)) && startswith pattern k)
                                  (map fst (map_to_list ks))), ks)
  | FlushDb => Some ((), ∅)
  | Publish _ _ => Some (0, ks)
  end.

Lemma run_command_answers {A} (c : command A) t ks a ks' : run_command c t ks = Some (a, ks') -> answers c t ks a ks'.
Proof.
  destruct c; simpl; intros Hr; simplify_eq; try done.
  - destruct (Z.ltb_spec 0 ttl); by simplify_eq.
  - destruct (Z.ltb_spec 0 ttl); [|done]. destruct (live t ks k); by simplify_eq.
  - destruct (live t ks k) as [[v x]|]; [|by simplify_eq]. destruct (as_int64 v) as [z|]; [|done].
    destruct (Z.leb_spec (- 2 ^ 63) (z + n)), (Z.ltb_spec (z + n) (2 ^ 63)); simpl in Hr; simplify_eq. eauto 6.
  - destruct (live t ks k) as [[v x]|]; by simplify_eq.
  - destruct (forallb _ l) eqn:E; [|done]. simplify_eq. split; [|done]. apply Forall_forall. intros x Hx.
    rewrite forallb_forall in E. specialize (E x ltac:(by apply list_elem_of_In)). destruct (x.2); [lia|done].
  - split; [done|]. apply Forall_forall. intros k Hk%list_elem_of_In. apply filter_In in Hk as [_ [Hk%bool_decide_eq_true _]%andb_true_iff].
    done.
Qed.

Definition rejected : pyexn := PyExn "ResponseError" "command rejected".
#[export] Instance redisd_server : RedisServer redisd := {
  exec A c m :=
    let '(d, fault, script) := match rd_script m with [] => (0%Q, None, []) | (d, f) :: l => (d, f, l) end in
    let t := (rd_clock m + py_max 0 d)%Q in
    match fault with
    | Some (false, x) => (Err x, Redisd (rd_keys m) t script)
    | Some (true, x) =>
        (Err x, Redisd (match run_command c t (rd_keys m) with Some (_, ks) => ks | None => rd_keys m end) t script)
    | None =>
        match run_command c t (rd_keys m) with
        | Some (a, ks) => (Ok a, Redisd ks t script)
        | None => (Err rejected, Redisd (rd_keys m) t script)
        end
    end;
  view := rd_keys;
  time_of := rd_clock }.

#[export] Instance redisd_laws : RedisServerLaws redisd.
Proof.
  split. intros A c m. unfold exec, redisd_server, time_of, view.
  assert (forall d, (rd_clock m <= rd_clock m + py_max 0 d)%Q) as Ht.
  { intros d. assert (0 <= py_max 0 d)%Q by (unfold py_max; qcases; lra). lra. }
  destruct (match rd_script m with [] => (0%Q, None, []) | (d, f) :: l => (d, f, l) end) as [[d fault] script].
  specialize (Ht d). destruct fault as [[[] x]|].
  - simpl. split; [done|]. destruct (run_command c _ (rd_keys m)) as [[a ks]|] eqn:E; [|by left].
    right. eexists _, a. split; [|by apply run_command_answers]. split; [exact Ht|lra].
  - simpl. split; [done|]. by left.
  - destruct (run_command c _ (rd_keys m)) as [[a ks]|] eqn:E; simpl; (split; [done|]); [|by left].
    eexists. split; [|by apply run_command_answers]. split; [exact Ht|lra].
Qed.

(** ** What the cache promises *)

Section facts.
Context {R : Type} `{RedisServerLaws R}.
Variable float_repr : Q -> string.

Lemma connect_connected (m : CacheManager R) : connected m = true -> connect m = (Ok (), m).
Proof. intros Hc. unfold connect. by rewrite Hc. Qed.

Lemma guarded_exec {A B} (c : command A) (f : A -> B) dflt (m : CacheManager R) : connected m = true ->
  guarded c f dflt m = (Ok (match (exec c (server m)).1 with Ok a => f a | Err _ => dflt end),
                        set_server (exec c (server m)).2 m).
Proof.
  intros Hc. unfold guarded. rewrite connect_connected by done. by destruct (exec c (server m)) as [[a|x] r].
Qed.

Lemma value_after_set t0 t ks k v ttl :
  value_at t (<[k := (v, deadline t0 ttl)]> ks) k = if Qle_bool (t0 + inject_Z ttl) t then None else Some v.
Proof. unfold value_at, live. rewrite lookup_insert_eq. simpl. by destruct (Qle_bool _ _). Qed.

(** A stored string, read after it was stored *)
Lemma set_then_get k s ttl (m m1 : CacheManager R) : connected m = true -> set k s ttl false m = (Ok true, m1) ->
  connected m1 = true /\ exists t0, (time_of (server m) <= t0 <= time_of (server m1))%Q /\
    0 < effective_ttl ttl m /\
    view (server m1) = <[k := (s, deadline t0 (effective_ttl ttl m))]> (view (server m)).
Proof.
  intros Hc. unfold set. rewrite guarded_exec by done. set (t := effective_ttl ttl m).
  destruct (exec_law _ (SetEx k t s) (server m)) as [_ Hl]. destruct (exec (SetEx k t s) (server m)) as [[a|x] r]; simpl in *; [|done].
  intros [= -> <-]. split; [done|]. destruct Hl as (t0 & Ht & Hpos & _ & Hv). simpl. eauto.
Qed.

Lemma get_answer k (m : CacheManager R) : connected m = true ->
  exists o, get k m = (Ok o, set_server (exec (Get k) (server m)).2 m) /\
    match (exec (Get k) (server m)).1 with
    | Ok a => o = a /\ exists t, (time_of (server m) <= t <= time_of (exec (Get k) (server m)).2)%Q /\
                a = value_at t (view (server m)) k
    | Err _ => o = None
    end.
Proof.
  intros Hc. unfold get. rewrite guarded_exec by done. eexists. split; [done|].
  destruct (exec_law _ (Get k) (server m)) as [_ Hl]. destruct (exec (Get k) (server m)) as [[a|x] r]; simpl in *; [|done].
  split; [done|]. destruct Hl as (t & Ht & Ha & _). eauto.
Qed.
End facts.

(** A string read back by the next call *)
Lemma string_roundtrip {R} `{RedisServerLaws R} k s ttl (m m1 m2 : CacheManager R) r :
  connected m = true -> set k s ttl false m = (Ok true, m1) -> get k m1 = (r, m2) ->
  r = Ok (Some s) \/
  (r = Ok None /\ ((exists x, (exec (Get k) (server m1)).1 = Err x) \/
                   (time_of (server m) + inject_Z (effective_ttl ttl m) <= time_of (server m2))%Q)).
Proof.
  intros Hc Hset Hget. apply set_then_get in Hset as (Hc1 & t0 & Ht0 & Hpos & Hv); [|done].
  destruct (get_answer k m1 Hc1) as (o & Hg & Ho). rewrite Hg in Hget. injection Hget as <- <-.
  destruct (exec (Get k) (server m1)) as [[a|x] r'] eqn:Ee; simpl in Ho |- *; [|right; split; [by subst|left; by exists x]].
  destruct Ho as (-> & t & Ht & ->). rewrite Hv, value_after_set. destruct (Qle_bool_reflect (t0 + inject_Z (effective_ttl ttl m)) t).
  - right. split; [done|]. right. lra.
  - by left.
Qed.

Lemma json_roundtrip {R} `{RedisServerLaws R} float_repr k v ttl (m m1 m2 : CacheManager R) r :
  connected m = true -> json_safe v -> set_json float_repr k v ttl m = (Ok true, m1) -> get_json k m1 = (r, m2) ->
  r = Ok (Some v) \/
  (r = Ok None /\ ((exists x, (exec (Get k) (server m1)).1 = Err x) \/
                   (time_of (server m) + inject_Z (effective_ttl ttl m) <= time_of (server m2))%Q)).
Proof.
  intros Hc Hs Hset Hget. unfold set_json in Hset. destruct (json_dumps float_repr v) as [s|] eqn:Ed; [|done].
  unfold get_json in Hget. destruct (get k m1) as [o m3] eqn:Eg. assert (m3 = m2) as -> by (destruct o; congruence).
  destruct (string_roundtrip k s ttl m m1 m2 o Hc Hset Eg) as [->|[-> Hlost]]; simpl in Hget.
  - left. injection Hget as <-. destruct (dumps_head float_repr v s Hs Ed) as (c & u & -> & _). simpl.
    erewrite loads_dumps; [done|done|]. exact Ed.
  - right. by injection Hget as <-.
Qed.

(** A JSON value stored in the cache is read back unchanged until it
    expires: after [set_json] succeeded, [get_json] answers that value, or
    nothing, and nothing only if the read fails or the time to live has passed
    since the call. *)
Theorem cache_json_roundtrip {R} `{RedisServerLaws R} float_repr k v ttl (m m1 m2 : CacheManager R) r :
  connected m = true -> json_safe v -> set_json float_repr k v ttl m = (Ok true, m1) -> get_json k m1 = (r, m2) ->
  r = Ok (Some v) \/
  (r = Ok None /\ ((exists x, (exec (Get k) (server m1)).1 = Err x) \/
                   (time_of (server m) + inject_Z (effective_ttl ttl m) <= time_of (server m2))%Q)).
Proof. apply json_roundtrip. Qed.

(** An event published to a channel reaches the subscribers as it is: the
    payloads of any published JSON events, received in order among other
    messages, are decoded to exactly these events. *)
Theorem published_events_delivered float_repr evs payloads noise :
  Forall json_safe evs -> Forall2 (fun ev p => json_dumps float_repr ev = Ok p) evs payloads ->
  (forall m, m ∈ noise -> msg_type m <> "message") ->
  subscribe_events (noise ++ map (fun p => Message "message" (Some p)) payloads) = evs.
Proof.
  intros Hs Hp Hn. unfold subscribe_events. rewrite flat_map_app.
  assert (forall l, (forall m, m ∈ l -> msg_type m <> "message") -> subscribe_events l = []) as Hnoise.
  { intros l Hl. induction l as [|x l IH]; [done|]. unfold subscribe_events in *. simpl.
    destruct (String.eqb_spec (msg_type x) "message") as [Hx|_]; [by apply Hl in Hx; [|left]|]. simpl. apply IH. set_solver. }
  unfold subscribe_events in Hnoise. rewrite (Hnoise noise Hn). simpl.
  revert Hs. induction Hp as [|ev p evs payloads Hd Hp IH]; intros Hs; [done|]. apply Forall_cons in Hs as [Hs1 Hs]. simpl.
  destruct (dumps_head float_repr ev p Hs1 Hd) as (c & u & E & _). assert (String.eqb p "" = false) as -> by (by rewrite E).
  simpl. rewrite (loads_dumps float_repr ev p Hs1 Hd). simpl. by rewrite IH.
Qed.

(** [set] gives every key a time to live, [set_many] without one none: what it
    stores never expires. *)
Theorem set_many_never_expires {R} `{RedisServerLaws R} k v (m m1 : CacheManager R) t :
  connected m = true -> set_many [(k, v)] None m = (Ok true, m1) -> value_at t (view (server m1)) k = Some v.
Proof.
  intros Hc. unfold set_many. rewrite guarded_exec by done. destruct (exec_law _ (Multi [(k, v, None)]) (server m)) as [_ Hl].
  simpl. destruct (exec (Multi [(k, v, None)]) (server m)) as [[[]|x] r]; simpl in *; [|done]. intros [= <-]. simpl.
  destruct Hl as (t0 & _ & _ & ->). unfold put_many, value_at, live. simpl. by rewrite lookup_insert_eq.
Qed.

(** ** On a concrete server *)

Definition demo_cache : CacheManager redisd := Manager (Redisd ∅ 0 [(1%Q, None); (2%Q, None)]) true 3600.
Definition demo_value : pyval := PDict [("status", PStr "running"); ("progress", PInt 5)].
Definition demo_stored : CacheManager redisd := (set_json (fun _ => "") "s" demo_value (Some 60) demo_cache).2.

Lemma cache_json_roundtrip_witness : (get_json "s" demo_stored).1 = Ok (Some demo_value).
Proof.
  destruct (cache_json_roundtrip (fun _ => "") "s" demo_value (Some 60) demo_cache demo_stored
              (get_json "s" demo_stored).2 (get_json "s" demo_stored).1) as [Hr|[_ [[x Hx]|Hx]]].
  - done.
  - simpl. split; [|done]. apply (bool_decide_unpack _). by vm_compute.
  - by vm_compute.
  - by destruct (get_json "s" demo_stored).
  - exact Hr.
  - exfalso. revert Hx. by vm_compute.
  - exfalso. revert Hx. by vm_compute.
Defined.

Lemma published_events_delivered_witness :
  subscribe_events [Message "subscribe" None; Message "message" (Some (match json_dumps (fun _ => "") demo_value with Ok s => s | _ => "" end))]
  = [demo_value].
Proof.
  apply (published_events_delivered (fun _ => "") [demo_value]
           [match json_dumps (fun _ => "") demo_value with Ok s => s | _ => "" end] [Message "subscribe" None]).
  - constructor; [|constructor]. simpl. split; [|done]. apply (bool_decide_unpack _). by vm_compute.
  - constructor; [by vm_compute|constructor].
  - intros m ->%list_elem_of_singleton. done.
Defined.

Lemma set_many_never_expires_witness :
  value_at 1000000 (view (server (set_many [("k", "v")] None demo_cache).2)) "k" = Some "v".
Proof. eapply (set_many_never_expires "k" "v" demo_cache); [done|by vm_compute]. Defined.
