(* ===== verification/ThinkingRoutes.v ===== *)
(** * The thinking routes

    document_processor/api/thinking_routes.py: the session of a thinking run, a
    dict that the background task and the cancel route share; the event
    callback that mirrors the engine of Thinking.v into it; its copies in
    Redis (Cache.v); the queue of events and the stream to the browser; and
    what is written to the chat store when a run ends (QueryRecords.v).  A
    reading of the clock is a string argument. *)

From S2P Require Import Prelude PyStr PyVal PyConv Json Cache Mongo Storage ChatStore QueryRecords Thinking.
From Stdlib Require Import Ascii.
#[local] Open Scope py_scope.
#[local] Open Scope Z_scope.

(** ** Sessions *)

Abbreviation session := (list (string * pyval)).
Definition sget (k : string) (s : session) : pyval := default PNone (dict_get k s).
Definition status_of (s : session) : pyval := sget "status" s.
Definition is_in (v : pyval) (l : list string) : bool := existsb (fun x => bool_decide (v = PStr x)) l.

(** The fields of the request that reach the session *)
Record ThinkRequest := Request {
  t_prompt : string; t_clarifications : list (string * pyval); t_deliverable : string; t_effort : string; t_provider : string;
  t_chat_session_id : option string; t_query_record_id : option string; t_user_key : option string;
  t_assistant_key : option string }.

Definition new_phase_dict (nl : string * string) : pyval :=
  PDict [("name", PStr nl.1); ("label", PStr nl.2); ("status", PStr "pending"); ("detail", PDict [])].

Definition start_think (payload : ThinkRequest) (session_id user : string) (now : string) : session :=
  [("session_id", PStr session_id); ("user_id", PStr user); ("status", PStr "started"); ("progress", PInt 0);
   ("prompt", PStr (t_prompt payload));
   ("deliverable", PStr (if String.eqb (t_deliverable payload) "auto" then "explanation" else t_deliverable payload));
   ("effort", PStr (t_effort payload)); ("provider", PStr (t_provider payload));
   ("clarifications", PDict (t_clarifications payload)); ("phases", PList (map new_phase_dict PHASES));
   ("current_phase", PNone); ("current_task", PStr "Warming up"); ("understanding", PNone); ("sub_questions", PList []);
   ("alternatives", PList []); ("decision", PNone); ("deliverable_markdown", PNone); ("critique", PNone);
   ("started_at", PStr now); ("completed_at", PNone); ("error", PNone);
   ("chat_session_id", opt_str (t_chat_session_id payload)); ("query_record_id", opt_str (t_query_record_id payload));
   ("user_message_idempotency_key", opt_str (t_user_key payload));
   ("assistant_message_idempotency_key", opt_str (t_assistant_key payload)); ("cancel_requested", PBool false)].

(** ** The event callback *)

(** [for p in session["phases"]: if p["name"] == name: ...] *)
Definition update_phase_dict (name : string) (f : session -> session) (v : pyval) : pyval :=
  match v with
  | PDict p => if bool_decide (sget "name" p = PStr name) then PDict (f p) else v
  | _ => v
  end.
Definition update_phases (name : string) (f : session -> session) (s : session) : session :=
  match sget "phases" s with
  | PList l => dict_set "phases" (PList (map (update_phase_dict name f) l)) s
  | _ => s
  end.

Definition _merge_phase_result (phase : string) (detail : session) (s : session) : session :=
  if String.eqb phase "understand" then dict_set "understanding" (PDict detail) s
  else if String.eqb phase "decompose" then
    dict_set "sub_questions" (default (PList []) (dict_get "sub_questions" detail)) s
  else if String.eqb phase "explore" then
    dict_set "alternatives" (default (PList []) (dict_get "alternatives" detail)) s
  else if String.eqb phase "evaluate" then
    let d := List.filter (fun kv => negb (String.eqb kv.1 "error")) detail in
    dict_set "decision" (match d with [] => PNone | _ => PDict d end) s
  else if String.eqb phase "synthesize" then
    let md := sget "markdown" detail in if truthy md then dict_set "deliverable_markdown" md s else s
  else if String.eqb phase "critique" then dict_set "critique" (PDict detail) s
  else s.

Definition PHASE_PROGRESS : list (string * Z) :=
  [("understand", 15); ("decompose", 30); ("explore", 55); ("evaluate", 70); ("synthesize", 90); ("critique", 98)].
Definition progress_of (s : session) : Z := match sget "progress" s with PInt z => z | _ => 0 end.

Definition on_event (now : string) (s : session) (ev : event) : session :=
  match ev with
  | PhaseStart name label =>
      let s := dict_set "current_phase" (PStr name) s in
      let s := dict_set "current_task" (PStr (if String.eqb label "" then name else label)) s in
      update_phases name (fun p => dict_set "started_at" (PStr now) (dict_set "status" (PStr "in_progress") p)) s
  | PhaseComplete name _ detail =>
      let s := update_phases name (fun p => dict_set "detail" (PDict detail)
                 (dict_set "completed_at" (PStr now) (dict_set "status" (PStr "completed") p))) s in
      let s := _merge_phase_result name detail s in
      dict_set "progress" (PInt (Z.max (progress_of s) (default (progress_of s) (assoc name PHASE_PROGRESS)))) s
  | PhaseFailed name _ error =>
      update_phases name (fun p => dict_set "detail" (PDict [("error", PStr error)])
        (dict_set "completed_at" (PStr now) (dict_set "status" (PStr "failed") p))) s
  | DeliverableReady markdown _ => dict_set "deliverable_markdown" (PStr markdown) s
  | Thinking _ _ => s
  end.

(** ** The background task *)

Definition run_begin (s : session) : session :=
  dict_set "progress" (PInt 5) (dict_set "status" (PStr "in_progress") s).

(** The engine of a session's run *)
Definition session_engine (s : session) : ThinkingEngine :=
  let field k := match sget k s with PStr x => x | _ => "" end in new_engine (field "deliverable") (field "effort").

(** [engine.run()] returned *)
Definition run_completed (e : ThinkingEngine) (now : string) (s : session) : session :=
  let res := snapshot e in
  let s := dict_set "understanding" (sget "understanding" res) s in
  let s := dict_set "sub_questions" (sget "sub_questions" res) s in
  let s := dict_set "alternatives" (sget "alternatives" res) s in
  let s := dict_set "decision" (sget "decision" res) s in
  let md := sget "deliverable_markdown" res in
  let s := dict_set "deliverable_markdown" (if truthy md then md else sget "deliverable_markdown" s) s in
  let s := dict_set "critique" (sget "critique" res) s in
  dict_set "completed_at" (PStr now) (dict_set "progress" (PInt 100) (dict_set "status" (PStr "completed") s)).

(** The [except] clauses *)
Definition run_ended_with (status error now : string) (s : session) : session :=
  dict_set "completed_at" (PStr now) (dict_set "error" (PStr error) (dict_set "status" (PStr status) s)).

Definition EFFORT_TIMEOUT : list (string * Z) :=
  [("basic", 600); ("medium", 1800); ("deep", 3600); ("expert", 5400); ("ultra", 7200); ("quick", 600); ("standard", 1800)].
Definition timeout_seconds (effort : string) : Z :=
  default 1800 (assoc (if String.eqb effort "" then "medium" else effort) EFFORT_TIMEOUT).
Definition timeout_message (effort : string) : string :=
  "Thinking exceeded the " +:+ effort +:+ " effort time budget (" +:+ str_int (timeout_seconds effort / 60)
  +:+ " min). The pipeline was stopped.".

(** How [asyncio.wait_for(engine.run(), ...)] ends *)
Inductive ending := Returned_ (e : ThinkingEngine) | TimedOut | TaskCancelled | RunRaised (x : pyexn).
Definition run_end (en : ending) (now : string) (s : session) : session :=
  match en with
  | Returned_ e => run_completed e now s
  | TimedOut =>
      let effort := match sget "effort" s with PStr x => if String.eqb x "" then "medium" else x | _ => "medium" end in
      run_ended_with "failed" (timeout_message effort) now s
  | TaskCancelled => run_ended_with "cancelled" "Cancelled by user." now s
  | RunRaised x => run_ended_with "failed" (exn_str x) now s
  end.

(** ** Cancelling *)

Definition not_found : pyexn := http_error "404" "Session not found".
Definition _require_owner (s : session) (user : string) : result pyexn unit :=
  let owner := sget "user_id" s in
  if truthy owner && negb (bool_decide (owner = PStr user)) then Err not_found else Ok ().

Definition TERMINAL : list string := ["completed"; "failed"; "cancelled"].

(** The answer ([cancelled]) and the session; [None] for a session that is not
    there *)
Definition cancel_thinking (o : option session) (user now : string) : result pyexn bool * option session :=
  match o with
  | None => (Err not_found, None)
  | Some s =>
      match _require_owner s user with
      | Err x => (Err x, Some s)
      | Ok _ =>
          if is_in (status_of s) TERMINAL then (Ok false, Some s)
          else (Ok true, Some (dict_set "completed_at" (PStr now) (dict_set "error" (PStr "Cancelled by user.")
                                 (dict_set "cancel_requested" (PBool true) (dict_set "status" (PStr "cancelled") s)))))
      end
  end.

(** The fields a client sees, with what stands for a missing one *)
Definition PUBLIC_FIELDS : list (string * pyval) :=
  [("session_id", PNone); ("status", PNone); ("progress", PInt 0); ("prompt", PNone); ("deliverable", PNone);
   ("effort", PNone); ("provider", PNone); ("current_phase", PNone); ("current_task", PNone); ("phases", PList []);
   ("clarifications", PDict []); ("understanding", PNone); ("sub_questions", PList []); ("alternatives", PList []);
   ("decision", PNone); ("deliverable_markdown", PNone); ("critique", PNone); ("started_at", PNone);
   ("completed_at", PNone); ("error", PNone)].
Definition _public_snapshot (s : session) : session :=
  map (fun kd => (kd.1, default kd.2 (dict_get kd.1 s))) PUBLIC_FIELDS.
Definition get_status (o : option session) (user : string) : result pyexn session :=
  match o with
  | None => Err not_found
  | Some s => match _require_owner s user with Err x => Err x | Ok _ => Ok (_public_snapshot s) end
  end.

(** ** Copies in Redis *)

Definition _cache_key (session_id : string) : string := "thinking_session:" +:+ session_id.
Definition SESSION_CACHE_TTL_SECONDS : Z := 7200.
Section storage.
Context {R : Type} `{RedisServer R}.
Variable float_repr : Q -> string.

Definition _persist (session_id : string) (s : session) (c : CacheManager R) : CacheManager R :=
  (set_json float_repr (_cache_key session_id) (PDict s) (Some SESSION_CACHE_TTL_SECONDS) c).2.
(** The hot cache of this process first; a copy from Redis is kept there. *)
Definition _load (session_id : string) (hot : gmap string session) (c : CacheManager R)
  : option session * gmap string session * CacheManager R :=
  match hot !! session_id with
  | Some (x :: s) => (Some (x :: s), hot, c)
  | _ =>
      match get_json (_cache_key session_id) c with
      | (Ok (Some (PDict s)), c) => (Some s, <[session_id := s]> hot, c)
      | (_, c) => (None, hot, c)
      end
  end.
End storage.

(** ** Events to the browser *)

Record sse_event := Sse { ev_id : string; ev_type : string }.
Definition _EVENT_QUEUE_MAXSIZE : nat := 500.
(** [put_nowait], dropping the oldest event when the queue is full *)
Definition publish_local (q : list sse_event) (ev : sse_event) : list sse_event :=
  if (length q <? _EVENT_QUEUE_MAXSIZE)%nat then q ++ [ev]
  else match q with [] => q | _ :: q' => q' ++ [ev] end.

(** [deque(maxlen=200)] *)
Definition SEEN_MAX : nat := 200.
Definition remember (id : string) (seen : list string) : list string :=
  let l := seen ++ [id] in drop (length l - SEEN_MAX) l.
(** The events the stream yields from those it takes from the queue *)
Fixpoint stream (seen : list string) (evs : list sse_event) : list sse_event :=
  match evs with
  | [] => []
  | ev :: evs' =>
      let fresh seen := ev :: if String.eqb (ev_type ev) "done" || String.eqb (ev_type ev) "error" then [] else stream seen evs' in
      if String.eqb (ev_id ev) "" then fresh seen
      else if existsb (String.eqb (ev_id ev)) seen then stream seen evs' else fresh (remember (ev_id ev) seen)
  end.
(** After the snapshot, nothing is streamed for a session that ended. *)
Definition stream_events (s : session) (evs : list sse_event) : list sse_event :=
  if is_in (status_of s) ["completed"; "failed"] then [] else stream [] evs.

(** Drops the queues of sessions that ended or are gone.  The warning passes
    [dropped=] to a logger of the standard library, which takes no such
    argument. *)
Definition LOGGING_ERROR : pyexn := PyExn "TypeError" "Logger._log() got an unexpected keyword argument 'dropped'".
Definition stale (load : string -> option session) (sid : string) : bool :=
  match load sid with None => true | Some s => is_in (status_of s) TERMINAL end.
Definition sweep_stale_event_queues (queues : gmap string (list sse_event)) (load : string -> option session)
  : result pyexn Z * gmap string (list sse_event) :=
  let dropped := Z.of_nat (size (filter (fun kq => stale load kq.1 = true) queues)) in
  (if dropped =? 0 then Ok 0 else Err LOGGING_ERROR, filter (fun kq => stale load kq.1 = false) queues).

(** ** What is written to the chat store *)

Section persistence.
Context {M : Type} `{Mongo M}.
#[local] Open Scope io_scope.

Definition str_of (v : pyval) : option string := match v with PStr s => Some s | _ => None end.
Definition session_payload (s : session) : pyval :=
  PDict [("session_id", sget "session_id" s); ("phases", default (PList []) (dict_get "phases" s));
         ("sub_questions", default (PList []) (dict_get "sub_questions" s));
         ("alternatives", default (PList []) (dict_get "alternatives" s)); ("decision", sget "decision" s);
         ("critique", sget "critique" s); ("understanding", sget "understanding" s);
         ("deliverable_markdown", PStr (or_str (str_of (sget "deliverable_markdown" s)) ""));
         ("detected_deliverable", default (PStr "auto") (dict_get "detected_deliverable" s));
         ("status", default (PStr "completed") (dict_get "status" s))].
(** The record of the query is stamped when the run starts and when its owner
    cancels it. *)
Definition link_record (payload : ThinkRequest) (session_id : string) (now : Q) : io M unit :=
  link_thinking_record (t_query_record_id payload) session_id now.
Definition cancel_record (s : session) (now : Q) : io M unit :=
  mark_query_cancelled (str_of (sget "query_record_id" s)) "Cancelled by user." now now.

Definition persist_run (s : session) (now : Q) (oid1 oid2 : string) : io M unit :=
  let field k := str_of (sget k s) in
  let provider := or_str (field "provider") "local" in
  let md := or_str (field "deliverable_markdown") "" in
  persist_user_message (field "chat_session_id") (field "user_id") None (or_str (field "prompt") "")
    (field "user_message_idempotency_key") now oid1 ;;
  persist_assistant_message (field "chat_session_id") (field "user_id") None md
    (if String.eqb provider "local" then "local-thinking" else "claude-thinking") "thinking"
    (Some [("thinking", PDict [("prompt", PStr (or_str (field "prompt") ""));
                               ("effort", default (PStr "medium") (dict_get "effort" s)); ("provider", PStr provider);
                               ("analysis", sget "analysis" s); ("session", session_payload s); ("state", PStr "done")])])
    (field "assistant_message_idempotency_key") now oid2 ;;
  mark_query_completed (field "query_record_id") (Some md) None None now now.

(** The record of the query after the run, whatever its end *)
Definition persist_end (en : ending) (s : session) (now : Q) (oid1 oid2 : string) : io M unit :=
  match en with
  | Returned_ _ => persist_run s now oid1 oid2
  | TaskCancelled => mark_query_cancelled (str_of (sget "query_record_id" s)) "Cancelled by user." now now
  | _ => mark_query_failed (str_of (sget "query_record_id" s)) (or_str (str_of (sget "error" s)) "") now now
  end.
End persistence.

(** ** Clarifying questions *)

Record ClarifyingQuestion := CQ {
  cq_id : string; cq_question : string; cq_why : string; cq_suggestions : list string; cq_input_type : string;
  cq_placeholder : option string; cq_required : bool }.
Record AnalyzeResponse := Analysis {
  needs_clarification : bool; complexity : string; rationale : string; detected_deliverable : string;
  questions : list ClarifyingQuestion }.

Section analyze.
Variable atom_repr : pyval -> string.
#[local] Abbreviation str := (py_str atom_repr).

Definition question_id (d : session) (question : pyval) : result pyexn string :=
  let id := sget "id" d in
  if truthy id then Ok (str id)
  else match question with PStr q => Ok (slug_or "q" q) | _ => Err (attribute_error question "strip") end.
Definition clarifying (d : session) (question : pyval) : result pyexn ClarifyingQuestion :=
  id <-! question_id d question;
  let sugg := sget "suggestions" d in
  l <-! (if truthy sugg then iterate sugg else Ok []);
  let ph := sget "placeholder" d in
  Ok (CQ id (str_take 400 (str question)) (str_take 200 (str (default (PStr "") (dict_get "why_it_matters" d))))
        (take 5 (map (fun v => str_take 40 (str v)) l))
        (_enum atom_repr (dict_get "input_type" d) ["text"; "choice"; "number"; "multiline"] "text")
        (if truthy ph then Some (str_take 100 (str ph)) else None) (truthy (sget "required" d))).
Fixpoint questions_of (l : list pyval) : result pyexn (list ClarifyingQuestion) :=
  match l with
  | [] => Ok []
  | PDict d :: l' =>
      let question := sget "question" d in
      if truthy question then
        q <-! clarifying d question; rest <-! questions_of l'; Ok (q :: rest)
      else questions_of l'
  | _ :: l' => questions_of l'
  end.

Definition COMPLEXITIES : list string := ["trivial"; "moderate"; "complex"; "expert"].
Definition DELIVERABLES : list string := ["plan"; "architecture"; "code"; "analysis"; "decision"; "explanation"].

(** [reply] is the answer of the local model, or what the call raised.  The
    message is cut to 140 characters, 142 bytes: its dash takes three. *)
Definition analyze (deliverable : string) (reply : result pyexn (option string)) : result pyexn AnalyzeResponse :=
  let fallback := if String.eqb deliverable "auto" then "explanation" else deliverable in
  match (raw <-! reply; _extract_json raw) with
  | Err exc =>
      if cancelled exc then Err exc
      else Ok (Analysis false "moderate"
                 (str_take 142 ("Analyzer unavailable — proceeding directly. (" +:+ exn_str exc +:+ ")")) fallback [])
  | Ok data =>
      c <-! get_attr "complexity" data;
      n <-! get_attr "needs_clarification" data;
      r <-! get_attr "rationale" data;
      d <-! get_attr "detected_deliverable" data;
      let needs := truthy (default (PBool false) n) in
      let rat := str_take 200 (str (default (PStr "") r)) in
      let rat := if String.eqb rat "" then "Analysis complete." else rat in
      raw <-! (if needs then get_attr "questions" data else Ok (Some (PList [])));
      qs <-! (match raw with Some (PList l) => questions_of (take 5 l) | _ => Ok [] end);
      let '(needs, rat) := match needs, qs with
                           | true, [] => (false, "No high-leverage clarifying questions produced — proceeding directly.")
                           | _, _ => (needs, rat) end in
      Ok (Analysis needs (_enum atom_repr c COMPLEXITIES "moderate") rat (_enum atom_repr d DELIVERABLES fallback) qs)
  end.
End analyze.

(** ** The session mirrors the engine *)

Definition phase_field (k : string) (v : pyval) : pyval := match v with PDict p => sget k p | _ => PNone end.
(** The names and the states of the phases, as a client sees them *)
Definition shown_phases (s : session) : list (pyval * pyval) :=
  match sget "phases" s with PList l => map (fun p => (phase_field "name" p, phase_field "status" p)) l | _ => [] end.

Lemma sget_set_eq k v s : sget k (dict_set k v s) = v.
Proof. unfold sget. by rewrite dict_get_set_eq. Qed.
Lemma sget_set_ne k k' v s : k <> k' -> sget k' (dict_set k v s) = sget k' s.
Proof. intros H. unfold sget. by rewrite dict_get_set_ne. Qed.
(** Reads through assignments to fields with other names *)
Ltac sread := repeat (rewrite sget_set_eq || rewrite sget_set_ne by done).

Definition shown_bound (b : bound) : string := match b with BStart => "in_progress" | BComplete => "completed" | BFailed => "failed" end.
Definition set_shown (name st : string) (l : list (pyval * pyval)) : list (pyval * pyval) :=
  map (fun ns => if bool_decide (ns.1 = PStr name) then (ns.1, PStr st) else ns) l.

Lemma shown_update name f st s : (forall p, sget "name" (f p) = sget "name" p /\ sget "status" (f p) = PStr st) ->
  shown_phases (update_phases name f s) = set_shown name st (shown_phases s).
Proof.
  intros Hf. unfold update_phases, shown_phases. destruct (sget "phases" s) as [| | | | | |l|] eqn:E; rewrite ?E; try done.
  rewrite sget_set_eq. unfold set_shown. rewrite !map_map. apply map_ext. intros v. unfold update_phase_dict.
  destruct v as [| | | | | | |p]; simpl; try done. case_bool_decide; simpl; [|done]. by destruct (Hf p) as [-> ->].
Qed.

Lemma shown_set k v s : k <> "phases" -> shown_phases (dict_set k v s) = shown_phases s.
Proof. intros Hk. unfold shown_phases. by rewrite sget_set_ne. Qed.

Lemma shown_merge phase detail s : shown_phases (_merge_phase_result phase detail s) = shown_phases s.
Proof. unfold _merge_phase_result. repeat case_match; try done; by rewrite shown_set. Qed.

Lemma shown_event now s ev :
  shown_phases (on_event now s ev) = foldl (fun l nb => set_shown nb.1 (shown_bound nb.2) l) (shown_phases s) (bound_of ev).
Proof.
  destruct ev as [n l| |md d|n l d|n l x]; simpl; try done.
  - rewrite (shown_update _ _ "in_progress") by (intros p; split; by sread). by rewrite !shown_set.
  - by rewrite shown_set.
  - rewrite shown_set, shown_merge by done. apply (shown_update _ _ "completed"). intros p. split; by sread.
  - apply (shown_update _ _ "failed"). intros p. split; by sread.
Qed.

Lemma shown_events now evs s : shown_phases (foldl (on_event now) s evs)
  = foldl (fun l nb => set_shown nb.1 (shown_bound nb.2) l) (shown_phases s) (flat_map bound_of evs).
Proof.
  revert s. induction evs as [|ev evs IH]; intros s; simpl; [done|]. by rewrite IH, shown_event, foldl_app.
Qed.

(** What a client sees of a phase in the engine's state [st], once it ended *)
Definition shown_status (st : PhaseStatus) : string :=
  match st with Completed => "completed" | Failed => "failed" | _ => "pending" end.
Definition shown_entry (ns : string * PhaseStatus) : pyval * pyval := (PStr ns.1, PStr (shown_status ns.2)).
Definition pending_entry (ns : string * PhaseStatus) : pyval * pyval := (PStr ns.1, PStr "pending").

Lemma set_shown_other name st l : PStr name ∉ l.*1 -> set_shown name st l = l.
Proof.
  intros Hn. unfold set_shown. rewrite <- (map_id l) at 2. apply map_ext_in. intros [n x] Hin%list_elem_of_In. simpl.
  case_bool_decide as H; [|done]. destruct Hn. apply list_elem_of_fmap. exists (n, x). by subst.
Qed.

Lemma bounds_shown pre ss : NoDup ((pre ++ ss).*1) ->
  foldl (fun l nb => set_shown nb.1 (shown_bound nb.2) l) (map shown_entry pre ++ map pending_entry ss) (expected_bounds ss)
  = map shown_entry (pre ++ ss).
Proof.
  revert pre. induction ss as [|[n st] ss IH]; intros pre Hnd; simpl; [by rewrite !app_nil_r|].
  assert ((PStr n ∉ (map shown_entry pre).*1) /\ (PStr n ∉ (map pending_entry ss).*1)) as [H1 H2].
  { rewrite fmap_app in Hnd. apply NoDup_app in Hnd as (_ & Hd & Hn). apply NoDup_cons in Hn as [Hn _]. split.
    - rewrite <- list_fmap_compose. intros ([m x] & [= ->] & Hm)%list_elem_of_fmap. apply (Hd m); [|by left].
      apply list_elem_of_fmap. by exists (m, x).
    - rewrite <- list_fmap_compose. intros ([m x] & [= ->] & Hm)%list_elem_of_fmap. apply Hn. apply list_elem_of_fmap. by exists (m, x). }
  specialize (IH (pre ++ [(n, st)])). rewrite <- !app_assoc in IH. simpl in IH. specialize (IH Hnd). rewrite map_app in IH. simpl in IH.
  rewrite <- app_assoc in IH. simpl in IH.
  assert (forall x y, set_shown n y (map shown_entry pre ++ (PStr n, PStr x) :: map pending_entry ss)
                      = map shown_entry pre ++ (PStr n, PStr y) :: map pending_entry ss) as Hset.
  { intros x y. unfold set_shown. rewrite map_app. fold (set_shown n y (map shown_entry pre)). rewrite set_shown_other by done. simpl.
    fold (set_shown n y (map pending_entry ss)). rewrite set_shown_other by done. by rewrite bool_decide_eq_true_2. }
  change (pending_entry (n, st)) with (PStr n, PStr "pending").
  unfold expected_bounds. simpl. destruct st; simpl; try exact IH; rewrite !Hset; exact IH.
Qed.

(** Updating the phases and merging a result change no other field. *)
Definition other_field (k : string) : bool :=
  negb (existsb (String.eqb k)
    ["phases"; "understanding"; "sub_questions"; "alternatives"; "decision"; "deliverable_markdown"; "critique"]).
Lemma update_other k n f s : other_field k = true -> sget k (update_phases n f s) = sget k s.
Proof. intros Hk. unfold update_phases. case_match; try done. apply sget_set_ne. by intros <-. Qed.
Lemma merge_other k n d s : other_field k = true -> sget k (_merge_phase_result n d s) = sget k s.
Proof. intros Hk. unfold _merge_phase_result. repeat case_match; try done; apply sget_set_ne; by intros <-. Qed.

Lemma status_event now s ev : status_of (on_event now s ev) = status_of s.
Proof.
  unfold status_of. destruct ev as [n l| |md d|n l d|n l x]; simpl; try done; sread; rewrite ?merge_other, ?update_other by done;
    by sread.
Qed.
Lemma status_events now evs s : status_of (foldl (on_event now) s evs) = status_of s.
Proof. revert s. induction evs as [|ev evs IH]; intros s; simpl; [done|]. by rewrite IH, status_event. Qed.

Lemma progress_bounded name z : assoc name PHASE_PROGRESS = Some z -> z <= 98.
Proof.
  unfold assoc. destruct (List.find _ _) as [kv|] eqn:E; [|done]. intros [= <-]. apply List.find_some in E as [Hin _].
  simpl in Hin. repeat (destruct Hin as [<-|Hin]; [simpl; lia|]). done.
Qed.

Lemma progress_merge n d f s : progress_of (_merge_phase_result n d (update_phases n f s)) = progress_of s.
Proof. unfold progress_of. by rewrite merge_other, update_other. Qed.
Lemma progress_update n f s : progress_of (update_phases n f s) = progress_of s.
Proof. unfold progress_of. by rewrite update_other. Qed.
Lemma progress_set k v s : k <> "progress" -> progress_of (dict_set k v s) = progress_of s.
Proof. intros Hk. unfold progress_of. by rewrite sget_set_ne. Qed.
Lemma progress_set_eq z s : progress_of (dict_set "progress" (PInt z) s) = z.
Proof. unfold progress_of. by rewrite sget_set_eq. Qed.

Lemma progress_event now s ev : progress_of s <= progress_of (on_event now s ev) <= Z.max (progress_of s) 98.
Proof.
  destruct ev as [n l| |md d|n l d|n l x]; cbn [on_event];
    rewrite ?progress_set_eq, ?progress_merge, ?progress_update, ?progress_set by done; try lia.
  destruct (assoc n PHASE_PROGRESS) eqn:E; simpl; [apply progress_bounded in E|]; lia.
Qed.

Lemma progress_events now evs s :
  progress_of s <= progress_of (foldl (on_event now) s evs) <= Z.max (progress_of s) 98.
Proof.
  revert s. induction evs as [|ev evs IH]; intros s; simpl; [lia|].
  pose proof (progress_event now s ev). pose proof (IH (on_event now s ev)). lia.
Qed.

Lemma shown_start payload sid user now : shown_phases (start_think payload sid user now) = map (fun nl => (PStr nl.1, PStr "pending")) PHASES.
Proof. done. Qed.

Lemma shown_run_completed e now s : shown_phases (run_completed e now s) = shown_phases s.
Proof. unfold run_completed. cbn zeta. by rewrite !shown_set. Qed.

(** What the session holds after a run of the engine that returned *)
Definition session_after (payload : ThinkRequest) (sid user now : string) (e : ThinkingEngine) : session :=
  run_completed e now (foldl (on_event now) (run_begin (start_think payload sid user now)) (events e)).

Lemma shown_after payload sid user now e : ended_run e ->
  shown_phases (session_after payload sid user now e) = map shown_entry (statuses e).
Proof.
  intros (Hn & _ & Hb). unfold session_after. rewrite shown_run_completed, shown_events. unfold run_begin.
  rewrite !shown_set, shown_start by done. fold (bounds e). rewrite Hb.
  assert (map (fun nl : string * string => (PStr nl.1, PStr "pending")) PHASES = map pending_entry (statuses e)) as ->.
  { transitivity (map (fun n => (PStr n, PStr "pending")) (map fst (statuses e))); [by rewrite Hn|]. by rewrite map_map. }
  apply (bounds_shown []). simpl. change ((statuses e).*1) with (map fst (statuses e)). rewrite Hn.
  apply (bool_decide_unpack _). by vm_compute.
Qed.

(** C24: A thinking session shows what its engine computed.  Whatever the model
    answers (short of a cancelled task), the engine's run returns, and then
    the session is completed at 100 percent, each of the six phases is shown
    as completed or failed exactly when the engine completed or failed it, and
    the understanding, the sub-questions, the alternatives, the decision and
    the critique are the engine's. *)
Theorem session_mirrors_run atom_repr reply clock payload sid user now : (forall n, uncancelled (reply n)) ->
  exists e, run atom_repr reply clock (session_engine (start_think payload sid user now)) = (Ok (), e) /\
    let s := session_after payload sid user now e in
    status_of s = PStr "completed" /\ progress_of s = 100 /\
    shown_phases s = map shown_entry (statuses e) /\
    (forall k, k ∈ ["understanding"; "sub_questions"; "alternatives"; "decision"; "critique"] -> sget k s = sget k (snapshot e)) /\
    (deliverable_markdown e <> "" -> sget "deliverable_markdown" s = PStr (deliverable_markdown e)).
Proof.
  intros Hu. unfold session_engine. cbv zeta. edestruct run_ended as (e & He & Hend); [exact Hu|].
  exists e. split; [exact He|]. cbn zeta. split_and!.
  - unfold session_after, run_completed, status_of. by sread.
  - unfold session_after, run_completed, progress_of. by sread.
  - by apply shown_after.
  - unfold session_after, run_completed. intros k Hk. cbn zeta.
    repeat (apply elem_of_cons in Hk as [->|Hk]; [by sread|]). by apply not_elem_of_nil in Hk.
  - intros Hd. unfold session_after, run_completed. cbn zeta. sread. cbn. by destruct (deliverable_markdown e).
Qed.

(** The progress a client reads during a run never goes back and stays
    between 5 and 98 until the run ends, whatever events the engine sends. *)
Theorem progress_never_falls payload sid user now seen later :
  let at_ evs := progress_of (foldl (on_event now) (run_begin (start_think payload sid user now)) evs) in
  5 <= at_ seen /\ at_ seen <= at_ (seen ++ later) /\ at_ (seen ++ later) <= 98.
Proof.
  cbv beta zeta. rewrite foldl_app. set (s0 := run_begin _). pose proof (progress_events now seen s0) as H1.
  set (s1 := foldl (on_event now) s0 seen) in *. pose proof (progress_events now later s1) as H2.
  assert (progress_of s0 = 5) by done. lia.
Qed.

(** Cancelling does not stop a run.  After a cancellation the owner was
    told had succeeded, the engine's further events and its return leave the
    session completed, with the cancellation flag still raised. *)
Theorem cancel_overwritten_by_run s user now evs e t :
  _require_owner s user = Ok () -> is_in (status_of s) TERMINAL = false ->
  exists s', cancel_thinking (Some s) user now = (Ok true, Some s') /\ status_of s' = PStr "cancelled" /\
    let s'' := run_end (Returned_ e) t (foldl (on_event t) s' evs) in
    status_of s'' = PStr "completed" /\ sget "cancel_requested" s'' = PBool true.
Proof.
  intros Ho Ht. unfold cancel_thinking. rewrite Ho, Ht. eexists. split; [done|]. split; [unfold status_of; by sread|].
  cbn zeta. split; [unfold status_of; cbn [run_end]; unfold run_completed; by sread|].
  cbn [run_end]. unfold run_completed. sread. set (s1 := dict_set "completed_at" _ _).
  assert (sget "cancel_requested" s1 = PBool true) as Hs by (unfold s1; by sread). clearbody s1. revert s1 Hs.
  induction evs as [|ev evs IH]; intros s1 Hs; [done|]. simpl. apply IH.
  destruct ev as [n l| |md d|n l d|n l x]; simpl; try done; sread; rewrite ?merge_other, ?update_other by done; by sread.
Qed.

(** A session is seen and cancelled by its owner alone: for anyone else
    both routes answer that the session does not exist, as for one that is not
    there, and nothing changes. *)
Theorem thinking_session_private s owner user now :
  sget "user_id" s = PStr owner -> owner <> "" -> user <> owner ->
  get_status (Some s) user = get_status None user /\
  (cancel_thinking (Some s) user now).1 = (cancel_thinking None user now).1 /\
  (cancel_thinking (Some s) user now).2 = Some s.
Proof.
  intros Ho Hn Hu. unfold get_status, cancel_thinking, _require_owner. rewrite Ho.
  rewrite bool_decide_eq_false_2 by congruence. assert (truthy (PStr owner) = true) as -> by (by destruct owner). done.
Qed.

(** ** Events on the way to the browser *)

Lemma publish_latest q evs : (length q <= _EVENT_QUEUE_MAXSIZE)%nat ->
  foldl publish_local q evs = drop (length (q ++ evs) - _EVENT_QUEUE_MAXSIZE) (q ++ evs).
Proof.
  revert q. induction evs as [|ev evs IH]; intros q Hq; simpl.
  - rewrite app_nil_r. by replace (length q - _EVENT_QUEUE_MAXSIZE)%nat with 0%nat by lia.
  - assert (0 < _EVENT_QUEUE_MAXSIZE)%nat as H0 by (unfold _EVENT_QUEUE_MAXSIZE; lia).
    unfold publish_local at 2. destruct (Nat.ltb_spec (length q) _EVENT_QUEUE_MAXSIZE) as [H|H].
    + rewrite IH by (rewrite length_app; simpl; lia). by rewrite <- app_assoc.
    + destruct q as [|x q]; [by simpl in *; lia|]. simpl in Hq, H. rewrite IH by (rewrite length_app; simpl; lia).
      rewrite <- app_assoc. cbn [app]. rewrite length_cons, Nat.sub_succ_l; [done|]. rewrite length_app, length_cons. lia.
Qed.

(** The queue of a session that nobody reads holds its latest 500 events
    in order: a full queue gives up its oldest event for the new one. *)
Theorem publish_keeps_latest evs :
  foldl publish_local [] evs = drop (length evs - 500) evs /\ (length (foldl publish_local [] evs) <= 500)%nat.
Proof.
  rewrite publish_latest by (simpl; unfold _EVENT_QUEUE_MAXSIZE; lia). simpl. unfold _EVENT_QUEUE_MAXSIZE. split; [done|].
  rewrite length_drop. lia.
Qed.

(** A sweep keeps exactly the queues of sessions that run, and raises whenever
    it drops one. *)
Theorem sweep_drops_and_raises queues load :
  (forall sid q, (sweep_stale_event_queues queues load).2 !! sid = Some q <-> queues !! sid = Some q /\ stale load sid = false) /\
  ((exists sid q, queues !! sid = Some q /\ stale load sid = true) -> (sweep_stale_event_queues queues load).1 = Err LOGGING_ERROR).
Proof.
  split.
  - intros sid q. unfold sweep_stale_event_queues. cbn [snd]. by rewrite map_lookup_filter_Some.
  - intros (sid & q & Hq & Hs). unfold sweep_stale_event_queues. cbn [fst].
    assert (filter (fun kq => stale load kq.1 = true) queues <> ∅) as Hne.
    { intros E. assert (filter (fun kq => stale load kq.1 = true) queues !! sid = Some q) as H by (by apply map_lookup_filter_Some).
      by rewrite E in H. }
    destruct (Z.eqb_spec (Z.of_nat (size (filter (fun kq => stale load kq.1 = true) queues))) 0) as [E|]; [|done].
    destruct Hne. apply map_size_empty_inv. lia.
Qed.

Definition ids (evs : list sse_event) : list string := map ev_id evs.
Definition closing (ev : sse_event) : bool := String.eqb (ev_type ev) "done" || String.eqb (ev_type ev) "error".
(** At most as many ids as the stream remembers *)
Definition few_ids (l : list string) : Prop := (size (list_to_set l : gset string) <= SEEN_MAX)%nat.

Lemma remember_all id seen rest : NoDup seen -> id ∉ seen -> few_ids (seen ++ id :: rest) -> remember id seen = seen ++ [id].
Proof.
  intros Hnd Hid Hf. unfold remember. assert (length (seen ++ [id]) <= SEEN_MAX)%nat as Hl.
  { unfold few_ids in Hf. etransitivity; [|exact Hf]. rewrite <- (size_list_to_set (C := gset string)).
    - apply subseteq_size. set_solver.
    - apply NoDup_app. split_and!; [done|set_solver|apply NoDup_singleton]. }
  by replace (length (seen ++ [id]) - SEEN_MAX)%nat with 0%nat by lia.
Qed.

Lemma stream_fresh seen evs : NoDup seen -> Forall (fun ev => ev_id ev <> "") evs -> few_ids (seen ++ ids evs) ->
  NoDup (ids (stream seen evs)) /\ (forall i, i ∈ ids (stream seen evs) -> i ∉ seen) /\
  (existsb closing evs = false -> forall i, i ∈ ids evs -> i ∈ seen \/ i ∈ ids (stream seen evs)).
Proof.
  revert seen. induction evs as [|ev evs IH]; intros seen Hnd Hne Hf; simpl.
  { split_and!; [constructor|set_solver|set_solver]. }
  apply Forall_cons in Hne as [He Hne]. apply String.eqb_neq in He as ->.
  destruct (existsb (String.eqb (ev_id ev)) seen) eqn:Es.
  - assert (ev_id ev ∈ seen) as Hin.
    { apply existsb_exists in Es as (x & Hx%list_elem_of_In & ->%String.eqb_eq). done. }
    destruct (IH seen Hnd Hne) as (H1 & H2 & H3).
    { unfold few_ids in *. etransitivity; [|exact Hf]. apply subseteq_size. set_solver. }
    split_and!; [done|done|]. intros [_ Hc]%orb_false_iff i [->|Hi]%elem_of_cons; auto.
  - assert (ev_id ev ∉ seen) as Hout.
    { intros Hin. assert (existsb (String.eqb (ev_id ev)) seen = true); [|congruence].
      apply existsb_exists. exists (ev_id ev). split; [by apply list_elem_of_In|]. apply String.eqb_refl. }
    rewrite (remember_all _ _ (ids evs)) by done.
    destruct (IH (seen ++ [ev_id ev])) as (H1 & H2 & H3); [|done|by rewrite <- app_assoc|].
    { apply NoDup_app. split_and!; [done|set_solver|apply NoDup_singleton]. }
    fold (closing ev). destruct (closing ev) eqn:Ec; simpl.
    + split_and!; [apply NoDup_singleton|set_solver|done].
    + split_and!; [constructor; [set_solver|done]|set_solver|].
      intros Hc i [->|Hi]%elem_of_cons; [set_solver|]. destruct (H3 Hc i Hi); set_solver.
Qed.

(** An event reaches the browser once however often it is delivered.  The
    same event comes from the queue of this process and from the channel of
    all replicas; as long as no more than 200 different events are under way
    the stream yields none twice, and, until the run is done, each at least
    once. *)
Theorem stream_once evs : Forall (fun ev => ev_id ev <> "") evs -> few_ids (ids evs) ->
  NoDup (ids (stream [] evs)) /\
  (existsb closing evs = false -> forall i, i ∈ ids evs -> i ∈ ids (stream [] evs)).
Proof.
  intros Hne Hf. destruct (stream_fresh [] evs) as (H1 & _ & H3); [constructor|done|done|]. split; [done|].
  intros Hc i Hi. destruct (H3 Hc i Hi) as [[]%not_elem_of_nil|]; done.
Qed.

(** ** Copies in Redis *)

(** Another replica finds the session.  A session that was written to
    Redis is loaded by a process that has no copy of it, field by field the
    same, unless the server fails or the two hours of its life are over. *)
Theorem session_survives_replica {R} `{RedisServerLaws R} float_repr sid s (c c1 : CacheManager R) :
  connected c = true -> json_safe (PDict s) ->
  set_json float_repr (_cache_key sid) (PDict s) (Some SESSION_CACHE_TTL_SECONDS) c = (Ok true, c1) ->
  _persist float_repr sid s c = c1 /\
  ((_load sid ∅ c1).1.1 = Some s \/
   ((_load sid ∅ c1).1.1 = None /\
    ((exists x, (exec (Get (_cache_key sid)) (server c1)).1 = Err x) \/
     (time_of (server c) + 7200 <= time_of (server (_load sid ∅ c1).2))%Q))).
Proof.
  intros Hc Hs Hset. split; [by unfold _persist; rewrite Hset|]. unfold _load. rewrite lookup_empty.
  destruct (get_json (_cache_key sid) c1) as [r c2] eqn:Eg.
  destruct (json_roundtrip _ _ _ _ _ _ _ _ Hc Hs Hset Eg) as [->|[-> Hlost]]; simpl; [by left|]. right. done.
Qed.

(** ** Clarifying questions *)

Lemma enum_allowed r o allowed d : _enum r o allowed d ∈ allowed \/ _enum r o allowed d = d.
Proof.
  unfold _enum. destruct (existsb _ allowed) eqn:E; [left|by right].
  apply existsb_exists in E as (y & Hy & ->%String.eqb_eq). by apply list_elem_of_In.
Qed.

#[local] Arguments str_take : simpl never.
Definition question_bounded (q : ClarifyingQuestion) : Prop :=
  (String.length (cq_question q) <= 400)%nat /\ (String.length (cq_why q) <= 200)%nat /\
  (length (cq_suggestions q) <= 5)%nat /\ Forall (fun x => String.length x <= 40)%nat (cq_suggestions q) /\
  cq_input_type q ∈ ["text"; "choice"; "number"; "multiline"].

Lemma clarifying_bounded r d q c : clarifying r d q = Ok c -> question_bounded c.
Proof.
  unfold clarifying. destruct (question_id r d q); simpl; [|done]. destruct (if truthy (sget "suggestions" d) then _ else _) as [l|]; simpl; [|done].
  intros [= <-]. unfold question_bounded. cbn [cq_question cq_why cq_suggestions cq_input_type]. split_and!.
  - apply length_str_take.
  - apply length_str_take.
  - rewrite length_take. lia.
  - apply Forall_take, Forall_map, Forall_true. intros v. apply length_str_take.
  - destruct (enum_allowed r (dict_get "input_type" d) ["text"; "choice"; "number"; "multiline"] "text") as [H|H]; [done|]. rewrite H. by left.
Qed.

Lemma clarifications_bounded r l qs : questions_of r l = Ok qs -> (length qs <= length l)%nat /\ Forall question_bounded qs.
Proof.
  revert qs. induction l as [|v l IH]; intros qs; simpl; [by intros [= <-]|].
  assert (forall qs, questions_of r l = Ok qs -> (length qs <= S (length l))%nat /\ Forall question_bounded qs) as Hskip.
  { intros qs' Hq. apply IH in Hq as [? ?]. split; [lia|done]. }
  destruct v as [| | | | | | |d]; try apply Hskip. destruct (truthy (sget "question" d)); [|apply Hskip].
  destruct (clarifying r d (sget "question" d)) as [c|] eqn:Ec; simpl; [|done].
  destruct (questions_of r l) as [rest|] eqn:Er; simpl; [|done]. intros [= <-]. destruct (IH rest eq_refl) as [H1 H2].
  split; [simpl; lia|]. constructor; [|done]. by eapply clarifying_bounded.
Qed.

Lemma analyze_shape r deliverable reply a : analyze r deliverable reply = Ok a ->
  (needs_clarification a = true <-> questions a <> []) /\ (length (questions a) <= 5)%nat /\
  Forall question_bounded (questions a) /\ complexity a ∈ COMPLEXITIES.
Proof.
  unfold analyze. destruct (rbind reply _) as [data|x]; cbn zeta.
  2: { destruct (cancelled x); [done|]. intros [= <-]. cbn [needs_clarification questions complexity].
       split_and!; [done|simpl; lia|constructor|unfold COMPLEXITIES; set_solver]. }
  destruct data as [| | | | | | |d]; try done. cbn [get_attr rbind].
  assert (forall o, _enum r o COMPLEXITIES "moderate" ∈ COMPLEXITIES) as Hc.
  { intros o. destruct (enum_allowed r o COMPLEXITIES "moderate") as [H|H]; [done|]. rewrite H. unfold COMPLEXITIES. set_solver. }
  destruct (truthy (default (PBool false) _)); cbn [rbind].
  - destruct (match dict_get "questions" d with Some (PList l) => questions_of r (take 5 l) | _ => Ok [] end) as [qs|] eqn:E;
      cbn [rbind]; [|done].
    assert ((length qs <= 5)%nat /\ Forall question_bounded qs) as [H1 H2].
    { destruct (dict_get "questions" d) as [[| | | | | |l|]|]; try (injection E as <-; simpl; split; [lia|constructor]).
      apply clarifications_bounded in E as [H1 H2]. rewrite length_take in H1. split; [lia|done]. }
    destruct qs; intros [= <-]; cbn [needs_clarification questions complexity]; by split_and!.
  - cbn [questions_of take rbind]. intros [= <-]. cbn [needs_clarification questions complexity].
    split_and!; [done|simpl; lia|constructor|done].
Qed.
(** Where the parts of an answer come from *)
Lemma analyze_parts r deliverable reply a : analyze r deliverable reply = Ok a ->
  Forall question_bounded (questions a) /\ complexity a ∈ COMPLEXITIES /\
  (detected_deliverable a ∈ DELIVERABLES \/ detected_deliverable a = if String.eqb deliverable "auto" then "explanation" else deliverable).
Proof.
  intros Ha. pose proof (analyze_shape r deliverable reply a Ha) as (_ & _ & Hq & Hc). split_and!; [done|done|]. revert Ha. unfold analyze.
  destruct (rbind reply _) as [data|x]; cbn zeta.
  - destruct data as [| | | | | | |d]; try done. cbn [get_attr rbind].
    assert (forall o f, _enum r o DELIVERABLES f ∈ DELIVERABLES \/ _enum r o DELIVERABLES f = f) as Hd by (intros; apply enum_allowed).
    destruct (if truthy _ then _ else _) as [raw|]; [|done]. cbn [rbind]. destruct (match raw with Some (PList l) => _ | _ => _ end) as [qs|]; [|done]. cbn [rbind].
    destruct (truthy _), qs; intros [= <-]; apply Hd.
  - destruct (cancelled x); [done|]. intros [= <-]. by right.
Qed.

(** The answer of the analysis is well formed whatever the model wrote: it
    asks for clarification exactly when it has questions to ask, at most five
    of them and each within its limits, and the complexity it reports is one
    of the four. *)
Theorem analyze_sound r deliverable reply a : analyze r deliverable reply = Ok a ->
  (needs_clarification a = true <-> questions a <> []) /\ (length (questions a) <= 5)%nat /\
  Forall question_bounded (questions a) /\ complexity a ∈ COMPLEXITIES.
Proof. apply analyze_shape. Qed.

(** ** On concrete sessions *)

Definition demo_request : ThinkRequest := Request "Why?" [] "auto" "Quick" "local" None None None None.
Definition demo_session : session := run_begin (start_think demo_request "s1" "ann" "t0").

Lemma session_mirrors_run_witness :
  exists e, run (fun _ => "") demo_reply (fun _ => ("t0", "t1")) (session_engine (start_think demo_request "s1" "ann" "t0")) = (Ok (), e) /\
    status_of (session_after demo_request "s1" "ann" "t0" e) = PStr "completed".
Proof.
  destruct (session_mirrors_run (fun _ => "") demo_reply (fun _ => ("t0", "t1")) demo_request "s1" "ann" "t0") as (e & He & Hs & _).
  - intros n x. unfold demo_reply. by repeat case_match; intros [= <-].
  - by exists e.
Defined.

Lemma cancel_overwritten_by_run_witness :
  exists s', cancel_thinking (Some demo_session) "ann" "t1" = (Ok true, Some s') /\
    status_of (run_end (Returned_ demo_run) "t2" (foldl (on_event "t2") s' (events demo_run))) = PStr "completed".
Proof.
  destruct (cancel_overwritten_by_run demo_session "ann" "t1" (events demo_run) demo_run "t2") as (s' & H1 & _ & H2 & _).
  - by vm_compute.
  - by vm_compute.
  - by exists s'.
Defined.

Lemma thinking_session_private_witness :
  get_status (Some demo_session) "eve" = Err not_found /\ (cancel_thinking (Some demo_session) "eve" "t1").2 = Some demo_session.
Proof. by destruct (thinking_session_private demo_session "ann" "eve" "t1") as (H1 & _ & H2). Defined.

Lemma stream_once_witness : NoDup (ids (stream [] [Sse "a" "thinking"; Sse "b" "thinking"; Sse "a" "thinking"])).
Proof.
  apply (stream_once [Sse "a" "thinking"; Sse "b" "thinking"; Sse "a" "thinking"]).
  - by repeat constructor.
  - apply (bool_decide_unpack _). by vm_compute.
Defined.

Definition demo_saved : CacheManager redisd := _persist (fun _ => "") "s1" demo_session demo_cache.
Lemma session_survives_replica_witness : (_load "s1" ∅ demo_saved).1.1 = Some demo_session.
Proof.
  destruct (session_survives_replica (fun _ => "") "s1" demo_session demo_cache demo_saved) as (_ & [H|[_ [[x Hx]|Hx]]]).
  - done.
  - cbn. repeat split; try done; apply (bool_decide_unpack _); by vm_compute.
  - by vm_compute.
  - exact H.
  - exfalso. revert Hx. by vm_compute.
  - exfalso. revert Hx. by vm_compute.
Defined.

Definition demo_analysis : AnalyzeResponse :=
  Analysis false "moderate" "Analysis complete." "explanation" [].
Lemma analyze_sound_witness : complexity demo_analysis ∈ COMPLEXITIES.
Proof. apply (analyze_sound (fun _ => "") "auto" (Ok (Some "{}")) demo_analysis). by vm_compute. Defined.

(** A reply that is JSON but no object is not covered by the fallback: the
    route raises. *)
Example analyze_array_raises : analyze (fun _ => "") "auto" (Ok (Some "[]")) = Err (attribute_error (PList []) "get").
Proof. by vm_compute. Qed.

(** A cancelled session's stream stays open: the event that says so does not
    close it, unlike those of a run that is done or failed. *)
Example cancelled_stream_stays_open :
  stream_events (dict_set "status" (PStr "cancelled") demo_session) [Sse "a" "cancelled"; Sse "b" "thinking"]
  = [Sse "a" "cancelled"; Sse "b" "thinking"] /\
  stream_events demo_session [Sse "a" "done"; Sse "b" "thinking"] = [Sse "a" "done"].
Proof. by vm_compute. Qed.
