(* ===== verification/PyRe.v ===== *)
(** * Python regular expressions

    The part of [re] the sources use: character classes, sequences,
    alternatives, greedy repetition, word boundaries and the start of a line.
    The matcher backtracks as Python's does: it lists the places where a match
    can end in the order in which they are tried.  A relation says what a match
    is; the matcher finds exactly these ([ends_iff]). *)

From S2P Require Import Prelude PyStr.
From Stdlib Require Import Ascii.

Inductive re :=
| Chr (f : ascii -> bool)
| Emp
| Cat (r1 r2 : re)
| Alt (r1 r2 : re)
| Rep (r : re)         (* [r*] *)
| WordB                (* [\b] *)
| BolM.                (* [^] with [re.MULTILINE] *)

(** A place in the text: the character before it and what follows *)
Definition place : Type := option ascii * string.

Definition opt_char (f : ascii -> bool) (o : option ascii) : bool := match o with Some c => f c | None => false end.
Definition head_char (s : string) : option ascii := match s with String c _ => Some c | EmptyString => None end.
Definition newline : ascii := ascii_of_nat 10.

Section rep.
Variable step : place -> list place.
(** Greedy: another round first, if it gets on *)
Fixpoint rep_ends (n : nat) (pl : place) : list place :=
  match n with
  | O => [pl]
  | S n =>
      flat_map (fun pl' => if (String.length pl'.2 <? String.length pl.2)%nat then rep_ends n pl' else []) (step pl)
      ++ [pl]
  end.
End rep.

Fixpoint ends (r : re) (pl : place) : list place :=
  match r with
  | Chr f => match pl.2 with String c s => if f c then [(Some c, s)] else [] | EmptyString => [] end
  | Emp => [pl]
  | Cat r1 r2 => flat_map (ends r2) (ends r1 pl)
  | Alt r1 r2 => ends r1 pl ++ ends r2 pl
  | Rep r => rep_ends (ends r) (String.length pl.2) pl
  | WordB => if xorb (opt_char is_word pl.1) (opt_char is_word (head_char pl.2)) then [pl] else []
  | BolM => match pl.1 with None => [pl] | Some c => if Ascii.eqb c newline then [pl] else [] end
  end.

Definition Plus (r : re) : re := Cat r (Rep r).
Definition Opt (r : re) : re := Alt r Emp.
Fixpoint Lit (s : string) : re :=
  match s with EmptyString => Emp | String c s' => Cat (Chr (Ascii.eqb c)) (Lit s') end.

(** [re.findall(r, s)] for an expression without groups that does not match
    the empty text *)
Fixpoint findall_at (fuel : nat) (r : re) (pl : place) : list string :=
  match fuel with
  | O => []
  | S n =>
      match ends r pl with
      | pl' :: _ => str_take (String.length pl.2 - String.length pl'.2) pl.2 :: findall_at n r pl'
      | [] => match pl.2 with String c s => findall_at n r (Some c, s) | EmptyString => [] end
      end
  end.
Definition re_findall (r : re) (s : string) : list string := findall_at (S (String.length s)) r (None, s).
(** [re.search(r, s)] as a truth value *)
Fixpoint search_at (r : re) (p : option ascii) (s : string) : bool :=
  match ends r (p, s) with
  | _ :: _ => true
  | [] => match s with String c s' => search_at r (Some c) s' | EmptyString => false end
  end.
Definition re_search (r : re) (s : string) : bool := search_at r None s.

(** ** What a match is *)

Inductive matches : re -> place -> place -> Prop :=
| M_chr f p c s : f c = true -> matches (Chr f) (p, String c s) (Some c, s)
| M_emp pl : matches Emp pl pl
| M_cat r1 r2 a b c : matches r1 a b -> matches r2 b c -> matches (Cat r1 r2) a c
| M_alt_l r1 r2 a b : matches r1 a b -> matches (Alt r1 r2) a b
| M_alt_r r1 r2 a b : matches r2 a b -> matches (Alt r1 r2) a b
| M_rep_done r a : matches (Rep r) a a
| M_rep_more r a b c : matches r a b -> (String.length b.2 < String.length a.2)%nat -> matches (Rep r) b c -> matches (Rep r) a c
| M_word a : xorb (opt_char is_word a.1) (opt_char is_word (head_char a.2)) = true -> matches WordB a a
| M_bol a : a.1 = None \/ a.1 = Some newline -> matches BolM a a.
Create HintDb re.
#[export] Hint Constructors matches : re.

Lemma elem_of_flat_map {A B} (f : A -> list B) l y : y ∈ flat_map f l <-> exists x, x ∈ l /\ y ∈ f x.
Proof.
  rewrite list_elem_of_In, in_flat_map. by setoid_rewrite list_elem_of_In.
Qed.

Lemma rep_ends_sound r : (forall a b, b ∈ ends r a -> matches r a b) ->
  forall n a b, b ∈ rep_ends (ends r) n a -> matches (Rep r) a b.
Proof.
  intros IH n. induction n as [|n IHn]; intros a b; simpl; [intros ->%list_elem_of_singleton; auto with re|].
  intros [(x & Hx & Hb)%elem_of_flat_map| ->%list_elem_of_singleton]%elem_of_app; [|auto with re].
  destruct (Nat.ltb_spec (String.length x.2) (String.length a.2)); [|by apply not_elem_of_nil in Hb]. eauto with re.
Qed.

Lemma ends_sound r a b : b ∈ ends r a -> matches r a b.
Proof.
  revert a b. induction r as [f| |r1 IH1 r2 IH2|r1 IH1 r2 IH2|r IH| |]; intros [p s] b; simpl.
  - destruct s as [|c s]; [by intros ?%not_elem_of_nil|]. destruct (f c) eqn:E; [|by intros ?%not_elem_of_nil].
    intros ->%list_elem_of_singleton. auto with re.
  - intros ->%list_elem_of_singleton. auto with re.
  - intros (x & Hx & Hb)%elem_of_flat_map. eauto with re.
  - intros [H|H]%elem_of_app; auto with re.
  - apply rep_ends_sound, IH.
  - destruct (xorb _ _) eqn:E; [|by intros ?%not_elem_of_nil]. intros ->%list_elem_of_singleton. auto with re.
  - destruct p as [c|].
    + destruct (Ascii.eqb_spec c newline) as [->|]; [|by intros ?%not_elem_of_nil].
      intros ->%list_elem_of_singleton. constructor. by right.
    + intros ->%list_elem_of_singleton. constructor. by left.
Qed.

Lemma rep_complete r : (forall a b, matches r a b -> b ∈ ends r a) ->
  forall a b, matches (Rep r) a b -> forall n, (String.length a.2 <= n)%nat -> b ∈ rep_ends (ends r) n a.
Proof.
  intros IH a b Hm. remember (Rep r) as r' eqn:Er.
  induction Hm as [| | | | |r0 a|r0 a b c Hab _ Hlt Hbc IHbc| |]; simplify_eq; intros n Hn.
  - destruct n; simpl; [set_solver|]. apply elem_of_app. right. set_solver.
  - destruct n as [|n]; [lia|]. simpl. apply elem_of_app. left. apply elem_of_flat_map. exists b. split; [by apply IH|].
    destruct (Nat.ltb_spec (String.length b.2) (String.length a.2)); [|lia]. apply IHbc; [done|lia].
Qed.

Lemma ends_complete r a b : matches r a b -> b ∈ ends r a.
Proof.
  revert a b. induction r as [f| |r1 IH1 r2 IH2|r1 IH1 r2 IH2|r IH| |]; intros a b Hm.
  5: { simpl. apply rep_complete; [done|done|lia]. }
  all: inversion Hm as [? p c s Hc| | | | | | |? Hw|? Hb]; subst; simpl.
  - rewrite Hc. set_solver.
  - set_solver.
  - apply elem_of_flat_map. eauto.
  - apply elem_of_app. auto.
  - apply elem_of_app. auto.
  - rewrite Hw. set_solver.
  - destruct Hb as [Hb|Hb]; rewrite Hb; [set_solver|]. rewrite Ascii.eqb_refl. set_solver.
Qed.

(** The matcher finds the matches, all of them and nothing else. *)
Lemma ends_iff r a b : b ∈ ends r a <-> matches r a b.
Proof. split; [apply ends_sound|apply ends_complete]. Qed.
