(* ===== verification/Quality.v ===== *)
(** * Translation quality

    document_processor/processing/quality_checker.py: the four heuristic scores
    of a translation and their mean.  Texts are ASCII. *)

From S2P Require Import Prelude PyStr PyVal PyConv PyRe.
From Stdlib Require Import Ascii.
#[local] Open Scope Z_scope.

Definition slen (s : string) : Z := Z.of_nat (String.length s).
Definition ratio (a b : Z) : Q := (inject_Z a / inject_Z b)%Q.
Definition Qsum (l : list Q) : Q := foldr Qplus 0%Q l.
(** [sum(scores) / len(scores)] *)
Definition mean (l : list Q) : Q := (Qsum l / inject_Z (zlength l))%Q.
Definition between (lo x hi : Q) : bool := Qle_bool lo x && Qle_bool x hi.

Definition _check_length_ratio (original translated : string) : Q :=
  if String.eqb original "" || String.eqb translated "" then 0 else
  let r := ratio (slen translated) (slen original) in
  if between 0.5 r 2.5 then if between 0.8 r 1.5 then 1 else 0.8
  else if Qltb r 0.3 || Qltb 3 r then 0.3 else 0.5.

(** [len(set(text.lower()))] *)
Definition distinct_chars (text : string) : Z := zlength (remove_dups (String.list_ascii_of_string (lower text))).
Definition _check_character_diversity (text : string) : Q :=
  if String.eqb text "" then 0 else
  let r := ratio (distinct_chars text) (slen text) in
  if between 0.1 r 0.5 then 1 else if Qltb r 0.05 then 0.3 else if Qltb 0.7 r then 0.5 else 0.7.

Definition is_upper (c : ascii) : bool := let n := nat_of_ascii c in (65 <=? n)%nat && (n <=? 90)%nat.
Definition is_lower (c : ascii) : bool := let n := nat_of_ascii c in (97 <=? n)%nat && (n <=? 122)%nat.
Definition one_of (s : string) (c : ascii) : bool := char_in c s.

(** [^[\*\-•]\s]: the bullet is not ASCII. *)
Definition BULLET : re := Cat BolM (Cat (Chr (one_of "*-")) (Chr is_space)).
(** [^\d+\.\s] *)
Definition NUMBERED : re := Cat BolM (Cat (Plus (Chr is_digit)) (Cat (Lit ".") (Chr is_space))).
(** [\d+(?:\.\d+)?] *)
Definition NUMBER : re := Cat (Plus (Chr is_digit)) (Opt (Cat (Lit ".") (Plus (Chr is_digit)))).
(** [\b[A-Za-z0-9._%+-]+@[A-Za-z0-9.-]+\.[A-Z|a-z]{2,}\b] *)
Definition EMAIL : re :=
  let alnum c := is_upper c || is_lower c || is_digit c in
  let letter := Chr (fun c => is_upper c || one_of "|" c || is_lower c) in
  Cat WordB (Cat (Plus (Chr (fun c => alnum c || one_of "._%+-" c))) (Cat (Lit "@")
    (Cat (Plus (Chr (fun c => alnum c || one_of ".-" c))) (Cat (Lit ".") (Cat (Cat letter (Plus letter)) WordB))))).
(** [https?://[^\s]+] *)
Definition URL : re := Cat (Lit "http") (Cat (Opt (Lit "s")) (Cat (Lit "://") (Plus (Chr (fun c => negb (is_space c)))))).

Definition count_of (r : re) (s : string) : Z := zlength (re_findall r s).
Definition newlines (s : string) : Z := zlength (filter (fun c => c = newline) (String.list_ascii_of_string s)).

Definition newline_score (original translated : Z) : Q :=
  py_max 0 (1 - ratio (Z.abs (original - translated)) (Z.max original 1))%Q.
Definition count_score (original translated : Z) : Q := if original =? translated then 1 else 0.5.
Definition format_scores (original translated : string) : list Q :=
  (if 0 <? newlines original then [newline_score (newlines original) (newlines translated)] else []) ++
  (if 0 <? count_of BULLET original then [count_score (count_of BULLET original) (count_of BULLET translated)] else []) ++
  (if 0 <? count_of NUMBERED original then [count_score (count_of NUMBERED original) (count_of NUMBERED translated)] else []).
(** [1.0] when there is nothing to preserve *)
Definition mean_or_1 (scores : list Q) : Q := match scores with [] => 1 | _ => mean scores end.
Definition _check_format_preservation (original translated : string) : Q := mean_or_1 (format_scores original translated).

(** [len(set(original) & set(translated)) / len(original)] *)
Definition preserved (original translated : list string) : Z :=
  zlength (filter (fun x => x ∈ translated) (remove_dups original)).
Definition preserved_score (r : re) (original translated : string) : list Q :=
  match re_findall r original with
  | [] => []
  | l => [ratio (preserved l (re_findall r translated)) (zlength l)]
  end.
Definition _check_special_characters (original translated : string) : Q :=
  mean_or_1 (preserved_score NUMBER original translated ++ preserved_score EMAIL original translated
             ++ preserved_score URL original translated).

Record quality_metrics := Metrics {
  overall_score : Q; length_score : Q; diversity_score : Q; format_score : Q; special_score : Q; passed : bool }.
Record QualityChecker := Checker { min_quality_score : Q }.
Definition quality_checker : QualityChecker := Checker 0.7.

Definition check_quality (k : QualityChecker) (original translated : string) : quality_metrics :=
  let scores := [_check_length_ratio original translated; _check_character_diversity translated;
                 _check_format_preservation original translated; _check_special_characters original translated] in
  let overall := mean scores in
  Metrics overall (_check_length_ratio original translated) (_check_character_diversity translated)
    (_check_format_preservation original translated) (_check_special_characters original translated)
    (Qle_bool (min_quality_score k) overall).
Definition validate_translation (k : QualityChecker) (original translated : string) : bool :=
  passed (check_quality k original translated).

Definition suggest_improvements (original translated : string) : list string :=
  let r := if String.eqb original "" then 0%Q else ratio (slen translated) (slen original) in
  (if Qltb r 0.5 then ["Translation appears too short. Check for missing content."]
   else if Qltb 2.5 r then ["Translation appears too long. Check for added content."] else []) ++
  (if String.eqb (strip is_space translated) "" then ["Translation is empty."] else []) ++
  (if char_in newline original && negb (char_in newline translated)
   then ["Original formatting (line breaks) not preserved."] else []).

(** ** Scores are between 0 and 1 *)

Definition unit_score (q : Q) : Prop := (0 <= q <= 1)%Q.

Lemma unit_ratio a b : 0 <= a <= b -> 0 < b -> unit_score (ratio a b).
Proof.
  intros Ha Hb. unfold unit_score, ratio. assert (0 < inject_Z b)%Q by (change 0%Q with (inject_Z 0); by rewrite <- Zlt_Qlt). split.
  - apply Qle_shift_div_l; [done|]. rewrite Qmult_0_l. change 0%Q with (inject_Z 0). rewrite <- Zle_Qle. lia.
  - apply Qle_shift_div_r; [done|]. rewrite Qmult_1_l. rewrite <- Zle_Qle. lia.
Qed.

Lemma Qsum_bounds l : Forall unit_score l -> (0 <= Qsum l <= inject_Z (zlength l))%Q.
Proof.
  unfold unit_score. induction 1 as [|q l Hq Hl IH]; [by vm_compute|].
  rewrite zlength_cons, inject_Z_plus. simpl. change (inject_Z 1) with 1%Q. lra.
Qed.

Lemma mean_unit l : l <> [] -> Forall unit_score l -> unit_score (mean l).
Proof.
  intros Hne Hl. pose proof (Qsum_bounds l Hl). assert (0 < zlength l).
  { destruct l; [done|]. rewrite zlength_cons. pose proof (zlength_nonneg l). lia. }
  assert (0 < inject_Z (zlength l))%Q by (change 0%Q with (inject_Z 0); by rewrite <- Zlt_Qlt).
  unfold unit_score, mean. split; [apply Qle_shift_div_l|apply Qle_shift_div_r]; lra.
Qed.
Lemma mean_or_1_unit l : Forall unit_score l -> unit_score (mean_or_1 l).
Proof. intros Hl. unfold mean_or_1. destruct l; [unfold unit_score; lra|]. by apply mean_unit. Qed.

Lemma preserved_le l k : 0 <= preserved l k <= zlength l.
Proof.
  unfold preserved. split; [apply zlength_nonneg|]. unfold zlength. apply inj_le. etransitivity; [apply length_filter|].
  apply submseteq_length, NoDup_submseteq; [apply NoDup_remove_dups|]. intros x. by rewrite elem_of_remove_dups.
Qed.

Lemma preserved_unit r a b : Forall unit_score (preserved_score r a b).
Proof.
  unfold preserved_score. destruct (re_findall r a) as [|x l]; [done|]. constructor; [|done]. apply unit_ratio; [apply preserved_le|].
  rewrite zlength_cons. pose proof (zlength_nonneg l). lia.
Qed.

Lemma format_unit a b : Forall unit_score (format_scores a b).
Proof.
  assert (forall x y, unit_score (count_score x y)) as Hc.
  { intros x y. unfold count_score, unit_score. destruct (x =? y); lra. }
  assert (forall x y, unit_score (newline_score x y)) as Hn.
  { intros x y. unfold newline_score, unit_score. split; [apply py_max_ge_l|]. apply py_max_lub; [lra|].
    assert (0 <= ratio (Z.abs (x - y)) (Z.max x 1))%Q; [|lra]. unfold ratio. apply Qle_shift_div_l.
    - change 0%Q with (inject_Z 0). rewrite <- Zlt_Qlt. lia.
    - rewrite Qmult_0_l. change 0%Q with (inject_Z 0). rewrite <- Zle_Qle. lia. }
  unfold format_scores. rewrite !Forall_app. split_and!; (case_match; [constructor; [auto|constructor]|constructor]).
Qed.

Lemma check_quality_unit k original translated :
  let m := check_quality k original translated in
  Forall unit_score [overall_score m; length_score m; diversity_score m; format_score m; special_score m].
Proof.
  cbn zeta.
  unfold check_quality. cbn [overall_score length_score diversity_score format_score special_score].
  assert (unit_score (_check_length_ratio original translated)) as H1.
  { unfold _check_length_ratio, unit_score. repeat case_match; lra. }
  assert (unit_score (_check_character_diversity translated)) as H2.
  { unfold _check_character_diversity, unit_score. repeat case_match; lra. }
  assert (unit_score (_check_format_preservation original translated)) as H3 by apply mean_or_1_unit, format_unit.
  assert (unit_score (_check_special_characters original translated)) as H4.
  { apply mean_or_1_unit. rewrite !Forall_app. split_and!; apply preserved_unit. }
  assert (forall l, l = [_check_length_ratio original translated; _check_character_diversity translated;
    _check_format_preservation original translated; _check_special_characters original translated] -> Forall unit_score l) as Hall.
  { intros l ->. by rewrite !Forall_cons. }
  constructor; [by apply mean_unit, Hall|by apply Hall].
Qed.

(** Every score the checker reports is between 0 and 1, for any pair of
    texts, empty ones included: the length, the diversity, the format and the
    special tokens' score and their mean, which is what the stored document's
    quality score requires. *)
Theorem quality_scores_bounded k original translated :
  let m := check_quality k original translated in
  Forall unit_score [overall_score m; length_score m; diversity_score m; format_score m; special_score m] /\
  (passed m = true <-> (min_quality_score k <= overall_score m)%Q).
Proof.
  cbn zeta. split; [apply check_quality_unit|]. unfold check_quality. cbn [passed overall_score]. apply Qle_bool_iff.
Qed.

(** ** What the scores say of a faithful translation *)

Lemma mean_1_iff l : l <> [] -> Forall unit_score l -> (mean l == 1)%Q <-> Forall (fun q => q == 1)%Q l.
Proof.
  intros Hne Hl. assert (0 < inject_Z (zlength l))%Q as Hpos.
  { change 0%Q with (inject_Z 0). rewrite <- Zlt_Qlt. destruct l; [done|]. rewrite zlength_cons. pose proof (zlength_nonneg l). lia. }
  transitivity (Qsum l == inject_Z (zlength l))%Q.
  { unfold mean. split; intros H.
    - rewrite <- (Qmult_div_r (Qsum l) (inject_Z (zlength l))) by lra. rewrite H. lra.
    - rewrite H. field. lra. }
  clear Hne Hpos. induction Hl as [|q l Hq Hl IH]; [split; [constructor|reflexivity]|].
  pose proof (Qsum_bounds l Hl) as Hb. unfold unit_score in Hq. rewrite zlength_cons, inject_Z_plus, Forall_cons. simpl. change (inject_Z 1) with 1%Q.
  rewrite <- IH. split; [intros H; split; lra|intros [H1 H2]; lra].
Qed.

Lemma ratio_1_iff a b : 0 < b -> (ratio a b == 1)%Q <-> a = b.
Proof.
  intros Hb. assert (0 < inject_Z b)%Q by (change 0%Q with (inject_Z 0); by rewrite <- Zlt_Qlt). unfold ratio. split.
  - intros H1. assert (inject_Z a == inject_Z b)%Q as H2; [|by apply inject_Z_injective].
    rewrite <- (Qmult_div_r (inject_Z a) (inject_Z b)) by lra. rewrite H1. lra.
  - intros ->. field. lra.
Qed.

Lemma filter_all {A} (P : A -> Prop) `{!forall x, Decision (P x)} (l : list A) : (forall x, x ∈ l -> P x) -> filter P l = l.
Proof.
  induction l as [|x l IH]; intros HP; [done|]. rewrite filter_cons_True by (apply HP; by left). f_equal. apply IH. intros y Hy.
  apply HP. by right.
Qed.
Lemma remove_dups_full {A} `{EqDecision A} (l : list A) : length (remove_dups l) = length l -> NoDup l.
Proof.
  induction l as [|x l IH]; [constructor|]. simpl. case_decide as Hx; simpl.
  - intros Hl. assert (length (remove_dups l) <= length l)%nat; [|lia].
    apply submseteq_length, NoDup_submseteq; [apply NoDup_remove_dups|]. intros y. by rewrite elem_of_remove_dups.
  - intros [= Hl]. constructor; [done|by apply IH].
Qed.
Lemma remove_dups_NoDup {A} `{EqDecision A} (l : list A) : NoDup l -> remove_dups l = l.
Proof. induction 1 as [|x l Hx Hl IH]; [done|]. simpl. case_decide; [done|]. by rewrite IH. Qed.

Lemma preserved_self l : preserved l l = zlength l <-> NoDup l.
Proof.
  unfold preserved. rewrite filter_all by (intros x; by rewrite elem_of_remove_dups).
  split; [|by intros H; rewrite remove_dups_NoDup]. intros H. unfold zlength in H. apply Nat2Z.inj in H. by apply remove_dups_full.
Qed.

(** Copying every number, address and link is rewarded in full exactly when
    none of them occurs twice: what is preserved is counted without
    repetitions, what there was to preserve with them. *)
Theorem copied_tokens_perfect_iff text :
  (_check_special_characters text text == 1)%Q <->
  NoDup (re_findall NUMBER text) /\ NoDup (re_findall EMAIL text) /\ NoDup (re_findall URL text).
Proof.
  assert (forall r, Forall (fun q => q == 1)%Q (preserved_score r text text) <-> NoDup (re_findall r text)) as Hone.
  { intros r. unfold preserved_score. destruct (re_findall r text) as [|x l] eqn:E.
    - split; [constructor|done].
    - rewrite Forall_singleton, ratio_1_iff, preserved_self; [done|]. rewrite zlength_cons. pose proof (zlength_nonneg l). lia. }
  unfold _check_special_characters, mean_or_1.
  set (l := preserved_score NUMBER text text ++ preserved_score EMAIL text text ++ preserved_score URL text text).
  assert (Forall unit_score l) as Hu by (unfold l; rewrite !Forall_app; split_and!; apply preserved_unit).
  assert (Forall (fun q => q == 1)%Q l <-> NoDup (re_findall NUMBER text) /\ NoDup (re_findall EMAIL text) /\ NoDup (re_findall URL text)) as <-.
  { unfold l. by rewrite !Forall_app, !Hone. }
  clearbody l. destruct l as [|q l]; [|by apply mean_1_iff]. split; [constructor|done].
Qed.

Definition ASCII : list ascii := map ascii_of_nat (seq 0 128).
Definition ascii_text (s : string) : bool := str_forallb (fun c => (nat_of_ascii c <? 128)%nat) s.

Lemma distinct_at_most text : ascii_text text = true -> distinct_chars text <= 128.
Proof.
  intros Ha. unfold distinct_chars, zlength. change 128 with (Z.of_nat (length ASCII)). apply inj_le.
  apply submseteq_length, NoDup_submseteq; [apply NoDup_remove_dups|]. intros c. rewrite elem_of_remove_dups.
  induction text as [|x text IH]; simpl; [by intros ?%not_elem_of_nil|]. unfold ascii_text in Ha. simpl in Ha.
  apply andb_true_iff in Ha as [Hx Ha]. intros [->|Hc]%elem_of_cons; [|by apply IH].
  clear IH Ha. destruct x as [[] [] [] [] [] [] [] []]; vm_compute in Hx; try done; apply (bool_decide_unpack _); by vm_compute.
Qed.

(** Long texts count as too repetitive, whatever they say: their characters
    are at most 128, so the ratio of different characters to all falls below
    0.05 with the length alone. *)
Theorem long_text_repetitive text : ascii_text text = true -> 2560 < slen text -> _check_character_diversity text = 0.3%Q.
Proof.
  intros Ha Hl. pose proof (distinct_at_most text Ha) as Hd. unfold _check_character_diversity.
  destruct (String.eqb_spec text "") as [->|_]; [by vm_compute in Hl|]. set (r := ratio _ _).
  assert (r < 0.05)%Q as Hr.
  { unfold r, ratio. apply Qlt_shift_div_r; [change 0%Q with (inject_Z 0); rewrite <- Zlt_Qlt; lia|].
    rewrite Zle_Qle in Hd. rewrite Zlt_Qlt in Hl. change (inject_Z 128) with 128%Q in Hd. change (inject_Z 2560) with 2560%Q in Hl. lra. }
  unfold between. destruct (Qle_bool_reflect 0.1 r); [lra|]. simpl. destruct (Qltb_reflect r 0.05); [done|lra].
Qed.

Definition a_text : string := String.concat "" (repeat "abcdefghij" 257).
Lemma long_text_repetitive_witness : slen a_text = 2570 /\ _check_character_diversity a_text = 0.3%Q.
Proof. split; [by vm_compute|]. apply (long_text_repetitive a_text); by vm_compute. Defined.

(** A copy with a repeated number loses a quarter of its mean. *)
Example repeated_number_penalised : (_check_special_characters "7 and 7" "7 and 7" == 0.5)%Q /\
  re_findall EMAIL "write to a.b@mail.example.org, please" = ["a.b@mail.example.org"] /\
  re_findall NUMBER "3.14 or 22." = ["3.14"; "22"] /\ count_of NUMBERED (String.concat (String newline "") ["1. a"; "x 2. b"; "10. c"]) = 2.
Proof. by vm_compute. Qed.
