(* ===== verification/SeedManager.v ===== *)
(** * Seeds of a crawl

    document_processor/crawling/seed_manager.py: adding seed URLs to the
    frontier of Frontier.v and loading them from files, remote lists and
    sitemaps.  What a file, a response or a sitemap holds is an argument.
    [encode] is how the Redis client turns a metadata value into text, or
    refuses it. *)

From S2P Require Import Prelude PyStr PyVal PyConv Json Url Redis Frontier.
From Stdlib Require Import Ascii.
#[local] Open Scope py_scope.
#[local] Open Scope Z_scope.

Record SeedManagerStats := SeedStats {
  total_seeds_loaded : Z; seeds_added_to_frontier : Z; duplicate_seeds : Z; invalid_seeds : Z; sources_processed : Z }.
Record SeedManager (R : Type) := Seeds {
  frontier : DistributedURLFrontier R; default_priority : Q; validate_urls : bool; deduplicate : bool;
  seen_urls : gset string; seed_stats : SeedManagerStats; client_open : bool }.
Arguments Seeds {R}. Arguments frontier {R}. Arguments default_priority {R}. Arguments validate_urls {R}.
Arguments deduplicate {R}. Arguments seen_urls {R}. Arguments seed_stats {R}. Arguments client_open {R}.

(** A seed as a source gives it: any JSON value may stand for the URL, the
    priority and the category *)
Record seed_item := Item { i_url : pyval; i_priority : pyval; i_category : pyval }.
(** A row of [csv.DictReader]; a missing value is [None] *)
Abbreviation csv_row := (list (string * option string)).
(** [open] and what is read: lines of text, rows, or the text of a JSON file *)
Inductive seed_file :=
| NoFile
| SeedFile (suffix : string) (text : result pyexn string) (rows : list (result pyexn csv_row)).
Record sitemap := Sitemap { sm_refs : list (option string); sm_locs : list (option string) }.

Definition count_seed (added dup invalid source : Z) (s : SeedManagerStats) : SeedManagerStats :=
  SeedStats (total_seeds_loaded s + added) (seeds_added_to_frontier s + added) (duplicate_seeds s + dup)
    (invalid_seeds s + invalid) (sources_processed s + source).

Section seeds.
Context {R : Type} `{HR : Redis R}.
Context (bracketed_ok : string -> bool).
Context (sha256_int md5_int : string -> Z) (md5_hex : string -> string).
Context (cfg : FrontierConfig).
Context (encode : pyval -> result pyexn string).
Context (float_of : string -> option Q).
Context (fetch : string -> result pyexn sitemap).
#[local] Abbreviation M := (SeedManager R).
#[local] Abbreviation enq := (enqueue sha256_int md5_int md5_hex cfg).
#[local] Abbreviation contains_url := (bloom_contains sha256_int md5_int cfg).
#[local] Abbreviation remember_url := (bloom_add sha256_int md5_int cfg).

(** ** [add_url] with metadata of any type *)

(** [-priority] *)
Definition number_of (v : pyval) : result pyexn Q :=
  match v with
  | PInt z => Ok (inject_Z z)
  | PFloat q => Ok q
  | PBool b => Ok (if b then 1%Q else 0%Q)
  | _ => Err (type_error v "bad operand type for unary -")
  end.
Fixpoint encode_all (d : list (string * pyval)) : result pyexn (list (string * string)) :=
  match d with
  | [] => Ok []
  | (k, v) :: d' => s <-! encode v; rest <-! encode_all d'; Ok ((k, s) :: rest)
  end.

Definition put_redis (r : R) (f : DistributedURLFrontier R) : DistributedURLFrontier R :=
  Frontier r true (total_urls_added f) (total_urls_crawled f) (duplicate_urls_skipped f).
Definition add_url_any (url : string) (priority : pyval) (metadata : list (string * pyval)) (f0 : DistributedURLFrontier R)
  : result pyexn bool * DistributedURLFrontier R :=
  let f := initialize f0 in
  match _normalize_url bracketed_ok url with
  | Err e => (Err e, f)
  | Ok nurl =>
      match _extract_domain bracketed_ok nurl with
      | Err e => (Err e, f)
      | Ok domain =>
          if contains_url nurl (redis f)
          then (Ok false, Frontier (redis f) true (total_urls_added f) (total_urls_crawled f) (duplicate_urls_skipped f + 1))
          else match number_of priority with
               | Err e => (Err e, put_redis (remember_url nurl (redis f)).2 f)
               | Ok p =>
                   let r := enq nurl domain p ∅ (redis f) in
                   let added r := Frontier r true (total_urls_added f + 1) (total_urls_crawled f) (duplicate_urls_skipped f) in
                   match metadata with
                   | [] => (Ok true, added r)
                   | _ => match encode_all metadata with
                          | Err e => (Err e, put_redis r f)
                          | Ok m => (Ok true, added (hset_mapping (metadata_key md5_hex cfg nurl) (list_to_map m) r))
                          end
                   end
               end
      end
  end.

(** ** One seed *)

Definition _validate_url (url : string) : bool :=
  match urlparse bracketed_ok url with
  | Err _ => false
  | Ok p => negb (String.eqb (scheme p) "") && negb (String.eqb (netloc p) "")
            && (String.eqb (scheme p) "http" || String.eqb (scheme p) "https") && char_in "." (netloc p)
  end.
Definition seed_url (url : string) : string :=
  let url := strip is_space url in
  if startswith "http://" url || startswith "https://" url then url else "https://" +:+ url.

Definition new_seeds (f : DistributedURLFrontier R) (priority : Q) (validate dedup : bool) : M :=
  Seeds f priority validate dedup ∅ (SeedStats 0 0 0 0 0) false.
Definition set_seed_stats (s : SeedManagerStats) (m : M) : M :=
  Seeds (frontier m) (default_priority m) (validate_urls m) (deduplicate m) (seen_urls m) s (client_open m).
Definition set_seen (s : gset string) (m : M) : M :=
  Seeds (frontier m) (default_priority m) (validate_urls m) (deduplicate m) s (seed_stats m) (client_open m).
Definition set_frontier (f : DistributedURLFrontier R) (m : M) : M :=
  Seeds f (default_priority m) (validate_urls m) (deduplicate m) (seen_urls m) (seed_stats m) (client_open m).
Definition count (added dup invalid source : Z) (m : M) : M := set_seed_stats (count_seed added dup invalid source (seed_stats m)) m.
Definition _get_client (m : M) : M :=
  Seeds (frontier m) (default_priority m) (validate_urls m) (deduplicate m) (seen_urls m) (seed_stats m) true.
Definition close_client (m : M) : M :=
  Seeds (frontier m) (default_priority m) (validate_urls m) (deduplicate m) (seen_urls m) (seed_stats m) false.

Definition add_seed (url : string) (priority category : pyval) (metadata : list (string * pyval)) (m : M)
  : result pyexn bool * M :=
  let url := seed_url url in
  if validate_urls m && negb (_validate_url url) then (Ok false, count 0 0 1 0 m)
  else if deduplicate m && bool_decide (url ∈ seen_urls m) then (Ok false, count 0 1 0 0 m)
  else
    let m := if deduplicate m then set_seen ({[url]} ∪ seen_urls m) m else m in
    let p := match priority with PNone => PFloat (default_priority m) | v => v end in
    let '(r, f) := add_url_any url p (dict_of ([("is_seed", PBool true); ("category", category)] ++ metadata)) (frontier m) in
    let m := set_frontier f m in
    match r with Ok true => (Ok true, count 1 0 0 0 m) | _ => (r, m) end.

(** [url.strip()] of what is no string raises. *)
Definition add_item (i : seed_item) (m : M) : result pyexn bool * M :=
  match i_url i with
  | PStr url => add_seed url (i_priority i) (i_category i) [] m
  | v => (Err (attribute_error v "strip"), m)
  end.

(** ** Many seeds: an exception ends the loop. *)

Fixpoint add_items (items : list (result pyexn seed_item)) (loaded : Z) (m : M) : result pyexn Z * M :=
  match items with
  | [] => (Ok loaded, m)
  | Err e :: _ => (Err e, m)
  | Ok i :: items' =>
      match add_item i m with
      | (Err e, m) => (Err e, m)
      | (Ok b, m) => add_items items' (if b then loaded + 1 else loaded) m
      end
  end.
Definition add_seeds (urls : list string) (priority category : pyval) (m : M) : result pyexn Z * M :=
  add_items (map (fun u => Ok (Item (PStr u) priority category)) urls) 0 m.

Definition seed_lines (lines : list string) (priority category : pyval) : list (result pyexn seed_item) :=
  flat_map (fun line => let line := strip is_space line in
                        if String.eqb line "" || startswith "#" line then []
                        else [Ok (Item (PStr line) priority category)]) lines.
(** The universal newlines of a file in text mode *)
Fixpoint universal_newlines (s : string) : string :=
  match s with
  | String "013" (String "010" s') => String "010" (universal_newlines s')
  | String "013" s' => String "010" (universal_newlines s')
  | String c s' => String c (universal_newlines s')
  | EmptyString => EmptyString
  end.
Definition NEWLINE : ascii := "010".
Definition _load_txt (text : string) (priority category : pyval) : list (result pyexn seed_item) :=
  seed_lines (split NEWLINE (universal_newlines text)) priority category.

Fixpoint row_get (k : string) (r : csv_row) : option (option string) :=
  match r with [] => None | (k', v) :: r' => if String.eqb k k' then Some v else row_get k r' end.
Definition row_or (a b : option string) : option string := if truthy_str a then a else b.
Definition csv_item (priority category : pyval) (r : csv_row) : list (result pyexn seed_item) :=
  let field k := default None (row_get k r) in
  match row_or (row_or (field "url") (field "URL")) (field "link") with
  | Some url =>
      if String.eqb url "" then [] else
      let category := if truthy category then category else opt_str (field "category") in
      match row_get "priority" r with
      | None => [Ok (Item (PStr url) priority category)]
      | Some None => [Err (type_error PNone "float() argument must be a string or a real number")]
      | Some (Some x) =>
          [Ok (Item (PStr url) (match float_of x with Some q => PFloat q | None => priority end) category)]
      end
  | None => []
  end.
Definition _load_csv (rows : list (result pyexn csv_row)) (priority category : pyval) : list (result pyexn seed_item) :=
  flat_map (fun r => match r with Ok row => csv_item priority category row | Err e => [Err e] end) rows.

Definition json_item (priority category : pyval) (v : pyval) : list (result pyexn seed_item) :=
  match v with
  | PStr u => if String.eqb u "" then [] else [Ok (Item v priority category)]
  | PDict d =>
      let url := default PNone (dict_get "url" d) in
      if truthy url then [Ok (Item url (default priority (dict_get "priority" d)) (default category (dict_get "category" d)))]
      else []
  | _ => []
  end.
Definition _load_json (data : pyval) (priority category : pyval) : list (result pyexn seed_item) :=
  match data with PList l => flat_map (json_item priority category) l | _ => [] end.

Definition file_items (suffix : string) (text : result pyexn string) (rows : list (result pyexn csv_row))
  (priority category : pyval) : option (list (result pyexn seed_item)) :=
  let of_text f := match text with Ok t => f t | Err e => [Err e] end in
  if String.eqb suffix ".txt" then Some (of_text (fun t => _load_txt t priority category))
  else if String.eqb suffix ".csv" then Some (_load_csv rows priority category)
  else if String.eqb suffix ".json" then
    Some (of_text (fun t => match json_loads t with Ok v => _load_json v priority category | Err e => [Err e] end))
  else None.
Definition load_from_file (file : seed_file) (priority category : pyval) (m : M) : Z * M :=
  match file with
  | NoFile => (0, m)
  | SeedFile suffix text rows =>
      match file_items (lower suffix) text rows priority category with
      | None => (0, m)
      | Some items => match add_items items 0 m with (Ok n, m) => (n, count 0 0 0 1 m) | (Err _, m) => (0, m) end
      end
  end.

(** ** Remote sources *)

Definition remote_json_item (priority category : pyval) (v : pyval) : list (result pyexn seed_item) :=
  match v with
  | PStr u => if String.eqb u "" then [] else [Ok (Item v priority category)]
  | PDict d => let url := default PNone (dict_get "url" d) in if truthy url then [Ok (Item url priority category)] else []
  | _ => [Err (attribute_error v "get")]
  end.
Definition remote_items (content_type content : string) (priority category : pyval) : list (result pyexn seed_item) :=
  if str_in "json" content_type then
    match json_loads content with
    | Ok (PList l) => flat_map (remote_json_item priority category) l
    | Ok _ => []
    | Err e => [Err e]
    end
  else seed_lines (split NEWLINE content) priority category.
Definition load_from_url (response : result pyexn (string * string)) (priority category : pyval) (m : M) : Z * M :=
  let m := _get_client m in
  match response with
  | Err _ => (0, m)
  | Ok (content_type, content) =>
      match add_items (remote_items content_type content priority category) 0 m with
      | (Ok n, m) => (n, count 0 0 0 1 m)
      | (Err _, m) => (0, m)
      end
  end.

(** The URLs of a sitemap, up to [max_urls] *)
Fixpoint sitemap_urls (locs : list (option string)) (priority : pyval) (max_urls loaded : Z) (m : M) : result pyexn Z * M :=
  match locs with
  | [] => (Ok loaded, m)
  | loc :: locs' =>
      if max_urls <=? loaded then (Ok loaded, m)
      else match loc with
           | Some url =>
               if String.eqb url "" then sitemap_urls locs' priority max_urls loaded m
               else match add_seed url priority PNone [] m with
                    | (Err e, m) => (Err e, m)
                    | (Ok b, m) => sitemap_urls locs' priority max_urls (if b then loaded + 1 else loaded) m
                    end
           | None => sitemap_urls locs' priority max_urls loaded m
           end
  end.
(** The sitemaps of an index; [load] is the recursive call. *)
Fixpoint sitemap_index (load : option string -> Z -> M -> option (Z * M)) (refs : list (option string)) (max_urls loaded : Z)
  (m : M) : option (Z * M) :=
  match refs with
  | [] => Some (loaded, m)
  | ref :: refs' =>
      match load ref (max_urls - loaded) m with
      | None => None
      | Some (n, m) =>
          let loaded := loaded + n in
          if max_urls <=? loaded then Some (loaded, m) else sitemap_index load refs' max_urls loaded m
      end
  end.
(** [fuel] bounds the depth of the recursion; [None] when it is not enough. *)
Fixpoint load_from_sitemap (fuel : nat) (priority : pyval) (url : option string) (max_urls : Z) (m : M) : option (Z * M) :=
  match fuel with
  | O => None
  | S n =>
      let m := _get_client m in
      match match url with Some u => fetch u | None => Err (type_error PNone "Invalid type for url") end with
      | Err _ => Some (0, m)
      | Ok doc =>
          match sm_refs doc with
          | [] =>
              match sitemap_urls (sm_locs doc) priority max_urls 0 m with
              | (Ok k, m) => Some (k, count 0 0 0 1 m)
              | (Err _, m) => Some (0, m)
              end
          | refs =>
              match sitemap_index (load_from_sitemap n priority) (take 10 refs) max_urls 0 m with
              | Some (k, m) => Some (k, count 0 0 0 1 m)
              | None => None
              end
          end
      end
  end.

Definition test_domains : list string :=
  ["google.com"; "youtube.com"; "facebook.com"; "twitter.com"; "instagram.com"; "wikipedia.org"; "reddit.com"; "amazon.com";
   "linkedin.com"; "github.com"].
Definition load_top_domains (source : string) (limit : Z) (priority : pyval) (m : M) : result pyexn Z * M :=
  if String.eqb source "tranco" then
    add_items (map (fun d => Ok (Item (PStr ("https://" +:+ d)) (if truthy priority then priority else PFloat 1000) (PStr "top_domain")))
                 (py_take limit test_domains)) 0 m
  else (Ok 0, m).

(** ** What every call preserves *)

Inductive seed_call :=
| AddSeed (url : string) (priority category : pyval) (metadata : list (string * pyval))
| AddSeeds (urls : list string) (priority category : pyval)
| LoadFile (file : seed_file) (priority category : pyval)
| LoadUrl (response : result pyexn (string * string)) (priority category : pyval)
| LoadSitemap (fuel : nat) (priority : pyval) (url : option string) (max_urls : Z)
| LoadTop (source : string) (limit : Z) (priority : pyval)
| Close.
Definition run_call (m : M) (c : seed_call) : M :=
  match c with
  | AddSeed u p k d => (add_seed u p k d m).2
  | AddSeeds us p k => (add_seeds us p k m).2
  | LoadFile f p k => (load_from_file f p k m).2
  | LoadUrl r p k => (load_from_url r p k m).2
  | LoadSitemap n p u x => match load_from_sitemap n p u x m with Some (_, m) => m | None => m end
  | LoadTop s l p => (load_top_domains s l p m).2
  | Close => close_client m
  end.

Section preserved.
Variable I : M -> Prop.
Variable md_ok : list (string * pyval) -> Prop.
Hypothesis I_add : forall u p k d m, md_ok d -> I m -> I (add_seed u p k d m).2.
Hypothesis I_source : forall m, I m -> I (count 0 0 0 1 m).
Hypothesis I_client : forall m, I m -> I (_get_client m).
Hypothesis I_close : forall m, I m -> I (close_client m).
Hypothesis md_nil : md_ok [].

Lemma add_item_keeps i m : I m -> I (add_item i m).2.
Proof. intros H. unfold add_item. destruct (i_url i); try done. by apply I_add. Qed.
Lemma add_items_keeps items n m : I m -> I (add_items items n m).2.
Proof.
  revert n m. induction items as [|[i|e] items IH]; intros n m Hm; [done| |done]. simpl.
  pose proof (add_item_keeps i m Hm) as Hi. destruct (add_item i m) as [[b|e] m']; simpl in *; [by apply IH|done].
Qed.
Lemma sitemap_urls_keeps locs p x n m : I m -> I (sitemap_urls locs p x n m).2.
Proof.
  revert n m. induction locs as [|loc locs IH]; intros n m Hm; [done|]. simpl. destruct (x <=? n); [done|].
  destruct loc as [u|]; [|by apply IH]. destruct (String.eqb u ""); [by apply IH|].
  pose proof (I_add u p PNone [] m md_nil Hm) as Hi. destruct (add_seed u p PNone [] m) as [[b|e] m']; simpl in *; [by apply IH|done].
Qed.
Lemma sitemap_keeps fuel p u x m n m' : load_from_sitemap fuel p u x m = Some (n, m') -> I m -> I m'.
Proof.
  revert u x m n m'. induction fuel as [|fuel IH]; intros u x m n m'; cbn [load_from_sitemap]; [done|].
  intros Hl Hm. apply I_client in Hm.
  destruct (match u with Some _ => _ | None => _ end) as [doc|e]; [|by injection Hl as <- <-].
  destruct (sm_refs doc) as [|ref refs].
  - pose proof (sitemap_urls_keeps (sm_locs doc) p x 0 _ Hm) as Hu. destruct (sitemap_urls _ _ _ _ _) as [[k|e] m1]; simpl in Hu;
      injection Hl as <- <-; auto.
  - assert (forall refs x n m k m1, sitemap_index (load_from_sitemap fuel p) refs x n m = Some (k, m1) -> I m -> I m1) as Hidx.
    { clear - IH. induction refs as [|r refs IHr]; intros x n m k m1; simpl; [by intros [= <- <-]|].
      destruct (load_from_sitemap fuel p r (x - n) m) as [[j m2]|] eqn:E; [|done]. intros Hl Hm. apply IH in E; [|done].
      destruct (x <=? n + j); [by injection Hl as <- <-|by eapply IHr]. }
    destruct (sitemap_index _ _ _ _ _) as [[k m1]|] eqn:E; [|done]. injection Hl as <- <-. apply I_source. by eapply Hidx.
Qed.

Definition call_ok (c : seed_call) : Prop := match c with AddSeed _ _ _ d => md_ok d | _ => True end.
Lemma run_call_keeps c m : call_ok c -> I m -> I (run_call m c).
Proof.
  intros Hc Hm. destruct c as [u p k d|us p k|f p k|r p k|n p u x|s l p|]; simpl.
  - by apply I_add.
  - by apply add_items_keeps.
  - destruct f as [|suf t rows]; [done|]. simpl. destruct (file_items _ _ _ _ _) as [items|]; [|done].
    pose proof (add_items_keeps items 0 m Hm) as Hi. destruct (add_items items 0 m) as [[z|e] m']; simpl in *; auto.
  - unfold load_from_url. destruct r as [[ct c]|e]; [|by apply I_client].
    pose proof (add_items_keeps (remote_items ct c p k) 0 _ (I_client m Hm)) as Hi.
    destruct (add_items _ _ _) as [[z|e] m']; simpl in *; auto.
  - destruct (load_from_sitemap n p u x m) as [[z m']|] eqn:E; [|done]. by eapply sitemap_keeps.
  - unfold load_top_domains. destruct (String.eqb s "tranco"); [|done]. by apply add_items_keeps.
  - by apply I_close.
Qed.
Lemma run_calls_keep cs m : Forall call_ok cs -> I m -> I (foldl run_call m cs).
Proof. intros Hc. revert m. induction Hc as [|c cs Hc Hcs IH]; intros m Hm; [done|]. simpl. apply IH. by apply run_call_keeps. Qed.
End preserved.

(** ** Counters *)

Definition was_added (r : result pyexn bool) : Z := match r with Ok true => 1 | _ => 0 end.
Lemma add_url_counts url p md f :
  total_urls_added (add_url_any url p md f).2 = total_urls_added f + was_added (add_url_any url p md f).1.
Proof. unfold add_url_any. repeat case_match; simpl; lia. Qed.

(** What the counters of a manager say, [base] URLs having been in the
    frontier when it was made *)
Definition counts_ok (base : Z) (m : M) : Prop :=
  let s := seed_stats m in
  total_seeds_loaded s = seeds_added_to_frontier s /\ total_urls_added (frontier m) = base + seeds_added_to_frontier s /\
  0 <= seeds_added_to_frontier s /\ 0 <= duplicate_seeds s /\ 0 <= invalid_seeds s /\ 0 <= sources_processed s.

Lemma add_seed_counts base u p k d m : counts_ok base m -> counts_ok base (add_seed u p k d m).2.
Proof.
  intros (H1 & H2 & H3). unfold add_seed. destruct (_ && _); [unfold counts_ok; simpl; split_and!; lia|].
  destruct (_ && _); [unfold counts_ok; simpl; split_and!; lia|].
  set (m1 := if deduplicate m then _ else m).
  assert (seed_stats m1 = seed_stats m /\ frontier m1 = frontier m) as [Hs Hf] by (unfold m1; by destruct (deduplicate m)).
  set (pr := match p with PNone => _ | _ => _ end). set (md := dict_of _).
  pose proof (add_url_counts (seed_url u) pr md (frontier m1)) as Hc. rewrite Hf in *.
  destruct (add_url_any (seed_url u) pr md (frontier m)) as [r f]. simpl in Hc.
  unfold counts_ok. destruct r as [[|]|e]; simpl in *; rewrite Hs; simpl; split_and!; lia.
Qed.

(** The counters of the seed manager agree with the frontier.  After any
    sequence of calls, failed ones included, the seeds reported as loaded are
    the seeds reported as added, and they are exactly the URLs the frontier
    counted since the manager was made. *)
Theorem seed_counts_agree f priority validate dedup calls :
  let m := foldl run_call (new_seeds f priority validate dedup) calls in
  total_seeds_loaded (seed_stats m) = seeds_added_to_frontier (seed_stats m) /\
  seeds_added_to_frontier (seed_stats m) = total_urls_added (frontier m) - total_urls_added f /\
  0 <= seeds_added_to_frontier (seed_stats m).
Proof.
  cbn zeta. assert (counts_ok (total_urls_added f) (foldl run_call (new_seeds f priority validate dedup) calls)) as (H1 & H2 & H3 & _).
  { apply (run_calls_keep (counts_ok (total_urls_added f)) (fun _ => True)); try done.
    - intros u p k d m _. apply add_seed_counts.
    - intros m (H1 & H2 & H3). unfold counts_ok. simpl. split_and!; lia.
    - apply Forall_forall. intros c _. by destruct c.
    - unfold counts_ok. simpl. split_and!; lia. }
  split_and!; lia.
Qed.

(** ** Duplicates *)

Definition remembers (url : string) (validate : bool) (m : M) : Prop :=
  deduplicate m = true /\ validate_urls m = validate /\ (url ∈ seen_urls m \/ validate && negb (_validate_url url) = true).

Lemma add_seed_settings u p k d m : let m' := (add_seed u p k d m).2 in
  deduplicate m' = deduplicate m /\ validate_urls m' = validate_urls m /\ seen_urls m ⊆ seen_urls m'.
Proof.
  cbn zeta. unfold add_seed. destruct (_ && _); [done|]. destruct (_ && _); [done|]. destruct (deduplicate m) eqn:Ed.
  - destruct (add_url_any _ _ _ _) as [[[|]|e] f]; simpl; rewrite ?Ed; split_and!; try done; set_solver.
  - destruct (add_url_any _ _ _ _) as [[[|]|e] f]; simpl; rewrite ?Ed; done.
Qed.

Lemma remembered_rejected url p k d m v : remembers (seed_url url) v m ->
  (add_seed url p k d m).1 = Ok false /\ frontier (add_seed url p k d m).2 = frontier m.
Proof.
  intros (Hd & Hv & Hs). unfold add_seed. rewrite Hv, Hd. destruct (v && negb (_validate_url (seed_url url))) eqn:E; [done|].
  destruct Hs as [Hs|Hs]; [|congruence]. by rewrite bool_decide_eq_true_2.
Qed.

(** A seed is offered to the frontier once.  After a call of [add_seed],
    whatever it returned or raised, and any further calls, adding a URL with
    the same normal form is answered with [False] and does not reach the
    frontier. *)
Theorem seed_offered_once m url p k d calls url' p' k' d' :
  deduplicate m = true -> seed_url url' = seed_url url ->
  let m' := foldl run_call (add_seed url p k d m).2 calls in
  (add_seed url' p' k' d' m').1 = Ok false /\ frontier (add_seed url' p' k' d' m').2 = frontier m'.
Proof.
  intros Hd Hu. cbn zeta. apply (remembered_rejected _ _ _ _ _ (validate_urls m)). rewrite Hu.
  apply (run_calls_keep (remembers (seed_url url) (validate_urls m)) (fun _ => True)); try done.
  - intros u0 p0 k0 d0 m0 _ (H1 & H2 & H3). destruct (add_seed_settings u0 p0 k0 d0 m0) as (E1 & E2 & E3).
    unfold remembers. rewrite E1, E2. split_and!; [done|done|]. destruct H3; [left; set_solver|by right].
  - apply Forall_forall. intros c _. by destruct c.
  - destruct (add_seed_settings url p k d m) as (E1 & E2 & E3). unfold remembers. rewrite E1, E2. split_and!; [done|done|].
    unfold add_seed. rewrite Hd. destruct (validate_urls m && negb (_validate_url (seed_url url))) eqn:Ev; [by right|left].
    simpl. case_bool_decide; [done|]. destruct (add_url_any _ _ _ _) as [[[|]|e] f]; simpl; set_solver.
Qed.

(** ** Sitemaps *)

Lemma sitemap_urls_bounded locs p x n m k m' : 0 <= n <= x -> sitemap_urls locs p x n m = (Ok k, m') -> n <= k <= x.
Proof.
  revert n m. induction locs as [|loc locs IH]; intros n m Hn; simpl; [intros [= <- <-]; lia|].
  destruct (Z.leb_spec x n); [intros [= <- <-]; lia|]. destruct loc as [u|]; [|by apply IH].
  destruct (String.eqb u ""); [by apply IH|]. destruct (add_seed u p PNone [] m) as [[[|]|e] m1]; [| |done]; intros Hk; apply IH in Hk; lia.
Qed.

(** A recursive call that ends within its bound *)
Definition loads_within (load : option string -> Z -> M -> option (Z * M)) (ref : option string) : Prop :=
  forall x m, 0 <= x -> exists k m', load ref x m = Some (k, m') /\ 0 <= k <= x.
Lemma sitemap_index_bounded load refs x n m : Forall (loads_within load) refs -> 0 <= n <= x ->
  exists k m', sitemap_index load refs x n m = Some (k, m') /\ n <= k <= x.
Proof.
  intros Hl. revert n m. induction Hl as [|ref refs Hr Hl IH]; intros n m Hn; simpl; [exists n, m; split; [done|lia]|].
  destruct (Hr (x - n) m) as (k & m1 & -> & Hk); [lia|]. destruct (Z.leb_spec x (n + k)); [exists (n + k), m1; split; [done|lia]|].
  destruct (IH (n + k) m1) as (k' & m2 & -> & Hk'); [lia|]. exists k', m2. split; [done|lia].
Qed.

Lemma sitemap_loads (rank : string -> nat) : (forall u doc ref, fetch u = Ok doc -> Some ref ∈ sm_refs doc -> (rank ref < rank u)%nat) ->
  forall fuel p url, (match url with Some u => S (rank u) | None => 0 end < fuel)%nat -> loads_within (load_from_sitemap fuel p) url.
Proof.
  intros Hrank fuel. induction fuel as [|fuel IH]; intros p url Hf x m Hx; [lia|]. cbn [load_from_sitemap].
  destruct url as [u|]; [|by exists 0, (_get_client m)]. destruct (fetch u) as [doc|e] eqn:Ed; [|by exists 0, (_get_client m)].
  destruct (sm_refs doc) as [|ref refs] eqn:Er.
  - destruct (sitemap_urls (sm_locs doc) p x 0 (_get_client m)) as [[k|e] m1] eqn:Eu; [|by exists 0, m1].
    apply sitemap_urls_bounded in Eu; [|lia]. by exists k, (count 0 0 0 1 m1).
  - destruct (sitemap_index_bounded (load_from_sitemap fuel p) (take 10 (ref :: refs)) x 0 (_get_client m)) as (k & m1 & -> & Hk).
    + apply Forall_take, Forall_forall. intros r Hr. apply IH. destruct r as [r|]; [|lia].
      assert (rank r < rank u)%nat; [|lia]. apply (Hrank u doc); [done|by rewrite Er].
    + lia.
    + by exists k, (count 0 0 0 1 m1).
Qed.

(** Loading a sitemap ends and keeps its limit.  If the sitemaps an index
    refers to lie deeper than the index, the recursion is at most one deeper than the
    rank of the first sitemap and reports between none and [max_urls] seeds. *)
Theorem sitemap_load_bounded (rank : string -> nat) p url max_urls m :
  (forall u doc ref, fetch u = Ok doc -> Some ref ∈ sm_refs doc -> (rank ref < rank u)%nat) -> 0 <= max_urls ->
  exists n m', load_from_sitemap (S (S (rank url))) p (Some url) max_urls m = Some (n, m') /\ 0 <= n <= max_urls.
Proof. intros Hr Hm. apply (sitemap_loads rank Hr); [simpl; lia|done]. Qed.

(** A sitemap index that refers to itself is followed for ever: no depth of
    recursion is enough. *)
Theorem sitemap_cycle_diverges u refs locs p max_urls m fuel :
  fetch u = Ok (Sitemap (Some u :: refs) locs) -> load_from_sitemap fuel p (Some u) max_urls m = None.
Proof.
  intros Hu. revert max_urls m. induction fuel as [|fuel IH]; intros x m; [done|]. cbn [load_from_sitemap]. rewrite Hu.
  cbn [sm_refs take sitemap_index]. by rewrite IH.
Qed.

(** ** What the Redis client makes of the metadata *)

(** Seeds are marked with [True], which the Redis client refuses to store: the
    metadata of no new seed is written, [add_seed] raises after the URL has
    entered the queue, and the retry it suggests is taken for a duplicate. *)
Theorem seed_metadata_rejected x url p k m q nurl domain :
  encode (PBool true) = Err x ->
  validate_urls m && negb (_validate_url (seed_url url)) = false -> deduplicate m = true -> seed_url url ∉ seen_urls m ->
  _normalize_url bracketed_ok (seed_url url) = Ok nurl -> _extract_domain bracketed_ok nurl = Ok domain ->
  contains_url nurl (redis (frontier m)) = false ->
  number_of (match p with PNone => PFloat (default_priority m) | v => v end) = Ok q ->
  let m' := (add_seed url p k [] m).2 in
  (add_seed url p k [] m).1 = Err x /\ redis (frontier m') = enq nurl domain q ∅ (redis (frontier m)) /\
  seed_stats m' = seed_stats m /\ (add_seed url p k [] m').1 = Ok false.
Proof.
  intros Hx Hv Hd Hs Hn Hdom Hc Hq. cbn zeta. unfold add_seed at 1 2 3. rewrite Hv, Hd, bool_decide_eq_false_2 by done. cbn [andb].
  unfold add_url_any. rewrite Hn, Hdom. simpl in *. rewrite Hc, Hq, Hx. simpl. split_and!; try done.
  apply (remembered_rejected _ _ _ _ _ (validate_urls m)). unfold remembers.
  unfold add_seed. rewrite Hv, Hd, bool_decide_eq_false_2 by done. cbn [andb].
  destruct (add_url_any _ _ _ _) as [[[|]|e] f]; simpl; split_and!; try done; left; set_solver.
Qed.

Lemma add_url_refused x url p md f : encode (PBool true) = Err x ->
  was_added (add_url_any url p (("is_seed", PBool true) :: md) f).1 = 0.
Proof. intros Hx. unfold add_url_any. cbn [encode_all]. rewrite Hx. by repeat case_match. Qed.

(** So no loader ever reports a seed. *)
Theorem no_seed_counted x calls m :
  encode (PBool true) = Err x -> Forall (call_ok (fun d => d = [])) calls ->
  seeds_added_to_frontier (seed_stats (foldl run_call m calls)) = seeds_added_to_frontier (seed_stats m).
Proof.
  intros Hx Hc.
  apply (run_calls_keep (fun m' => seeds_added_to_frontier (seed_stats m') = seeds_added_to_frontier (seed_stats m)) (fun d => d = []));
    try done; try (intros m0 Hm; simpl; lia).
  intros u p k d m0 -> Hm. unfold add_seed. destruct (_ && _); [simpl; lia|]. destruct (_ && _); [simpl; lia|].
  set (m1 := if deduplicate m0 then _ else m0).
  assert (seed_stats m1 = seed_stats m0) as Hs by (unfold m1; by destruct (deduplicate m0)).
  set (pr := match p with PNone => _ | _ => _ end). set (md := dict_of _).
  pose proof (add_url_refused x (seed_url u) pr (tail md) (frontier m1) Hx) as Hr. change (("is_seed", PBool true) :: tail md) with md in Hr.
  destruct (add_url_any (seed_url u) pr md (frontier m1)) as [[[|]|e] f]; simpl in *; rewrite ?Hs; done.
Qed.
End seeds.

(** ** On a concrete frontier *)

(** The documented encoding of redis-py: text and numbers only *)
Definition redis_encode (v : pyval) : result pyexn string :=
  match v with
  | PStr s => Ok s
  | PInt z => Ok (str_int z)
  | _ => Err (PyExn "DataError" ("Invalid input of type: " +:+ type_name v))
  end.
Definition demo_fetch (u : string) : result pyexn sitemap :=
  if String.eqb u "index" then Ok (Sitemap [Some "a"; None; Some "b"] [])
  else if String.eqb u "loop" then Ok (Sitemap [Some "loop"] [])
  else if String.eqb u "a" then Ok (Sitemap [] [Some "a.com"; Some ""; Some "b.com"])
  else if String.eqb u "b" then Ok (Sitemap [] [Some "c.com"]) else Err (PyExn "HTTPStatusError" "404").
Definition demo_rank (u : string) : nat := if String.eqb u "index" then 2 else if String.eqb u "loop" then 0 else 1.
Definition demo_seeds : SeedManager keyspace := new_seeds (new_frontier ks_empty) 100 true true.
Definition demo_add := add_seed (fun _ => true) demo_len demo_len id demo_cfg redis_encode.

Lemma seed_offered_once_witness :
  let m := (demo_add " a.com " PNone PNone [] demo_seeds).2 in
  (demo_add "https://a.com" (PInt 5) PNone [] m).1 = Ok false.
Proof.
  apply (seed_offered_once (fun _ => true) demo_len demo_len id demo_cfg redis_encode (fun _ => None) demo_fetch
           demo_seeds " a.com " PNone PNone [] [] "https://a.com" (PInt 5) PNone []); by vm_compute.
Defined.

(** Without the loop, the sitemaps have ranks. *)
Definition tree_fetch (u : string) : result pyexn sitemap := if String.eqb u "loop" then Err (PyExn "HTTPStatusError" "404") else demo_fetch u.
Definition any_encode (v : pyval) : result pyexn string := Ok (type_name v).
Lemma sitemap_load_bounded_witness : exists n m',
  load_from_sitemap (fun _ => true) demo_len demo_len id demo_cfg any_encode tree_fetch 4 PNone (Some "index") 2 demo_seeds = Some (n, m') /\
  0 <= n <= 2.
Proof.
  apply (sitemap_load_bounded (fun _ => true) demo_len demo_len id demo_cfg any_encode tree_fetch demo_rank PNone "index" 2 demo_seeds).
  - intros u doc ref. unfold tree_fetch, demo_fetch. destruct (String.eqb_spec u "loop") as [->|Hl]; [done|].
    destruct (String.eqb_spec u "index") as [->|Hi]; [|repeat case_match; intros [= <-] Hin; simpl in Hin; set_solver].
    intros [= <-] H. simpl in H. repeat (apply elem_of_cons in H as [[= ->]|H]; [by vm_compute; lia|]). set_solver.
  - lia.
Defined.

Lemma sitemap_cycle_diverges_witness :
  load_from_sitemap (fun _ => true) demo_len demo_len id demo_cfg any_encode demo_fetch 100 PNone (Some "loop") 2 demo_seeds = None.
Proof. by eapply (sitemap_cycle_diverges (fun _ => true) demo_len demo_len id demo_cfg any_encode demo_fetch). Defined.

Lemma seed_metadata_rejected_witness :
  (demo_add "a.com" PNone PNone [] demo_seeds).1 = Err (PyExn "DataError" "Invalid input of type: bool").
Proof.
  eapply (seed_metadata_rejected (fun _ => true) demo_len demo_len id demo_cfg redis_encode (fun _ => None) demo_fetch _ "a.com" PNone PNone demo_seeds);
    [by vm_compute|by vm_compute|done|by vm_compute|by vm_compute|by vm_compute|by vm_compute|done].
Defined.

Lemma no_seed_counted_witness :
  seeds_added_to_frontier (seed_stats (foldl
    (run_call (fun _ => true) demo_len demo_len id demo_cfg redis_encode (fun _ => None) demo_fetch) demo_seeds
    [AddSeeds ["a.com"; "b.com"] PNone PNone; LoadSitemap 3 PNone (Some "index") 10])) = 0.
Proof.
  apply (no_seed_counted (fun _ => true) demo_len demo_len id demo_cfg redis_encode (fun _ => None) demo_fetch
           (PyExn "DataError" "Invalid input of type: bool")); [by vm_compute|by repeat constructor].
Defined.
