(* ===== verification/Models.v ===== *)
(** * Data models

    document_processor/core/models.py: the pydantic models the processing
    pipeline passes around, their dumps to JSON values, and the metrics. *)

From S2P Require Import Prelude PyStr PyVal PyConv.
#[local] Open Scope Z_scope.

Inductive SourceType := WEB | PDF | SQL | NOSQL | API | FILE.
#[export] Instance SourceType_eq_dec : EqDecision SourceType.
Proof. solve_decision. Defined.
Definition SourceType_value (t : SourceType) : string :=
  match t with WEB => "web" | PDF => "pdf" | SQL => "sql" | NOSQL => "nosql" | API => "api" | FILE => "file" end.

Inductive ProcessingStatus := PENDING | PROCESSING | LANGUAGE_DETECTED | TRANSLATING | TRANSLATED | COMPLETED | FAILED | SKIPPED.
Definition ProcessingStatus_value (s : ProcessingStatus) : string :=
  match s with
  | PENDING => "pending" | PROCESSING => "processing" | LANGUAGE_DETECTED => "language_detected" | TRANSLATING => "translating"
  | TRANSLATED => "translated" | COMPLETED => "completed" | FAILED => "failed" | SKIPPED => "skipped"
  end.

Inductive TranslationProvider := P_NONE | P_CACHE | P_CLAUDE | P_GOOGLE | P_AZURE | P_NLLB.
#[export] Instance TranslationProvider_eq_dec : EqDecision TranslationProvider.
Proof. solve_decision. Defined.
Definition TranslationProvider_value (p : TranslationProvider) : string :=
  match p with
  | P_NONE => "none" | P_CACHE => "cache" | P_CLAUDE => "claude" | P_GOOGLE => "google" | P_AZURE => "azure" | P_NLLB => "nllb"
  end.

Record SourceDocument := Source {
  src_id : string; source_type : SourceType; source_url : option string; source_path : option string;
  src_metadata : list (string * pyval); priority : string; src_created_at : Q }.
(** [model_dump()]: the time stays a [datetime]. *)
Definition source_dump (d : SourceDocument) : pyval :=
  PDict [("id", PStr (src_id d)); ("source_type", PStr (SourceType_value (source_type d))); ("source_url", opt_str (source_url d));
         ("source_path", opt_str (source_path d)); ("metadata", PDict (src_metadata d)); ("priority", PStr (priority d));
         ("created_at", PTime (src_created_at d))].

Record DetectedLanguage := Detected { code : string; lang_name : option string; confidence : Q }.
Record TranslationResult := Translation {
  tr_text : string; tr_provider : TranslationProvider; tr_cached : bool; tr_quality : option Q; tr_tokens : option Z }.
Record TranslatedDocument := Document {
  doc_id : string; source_id : string; original_language : DetectedLanguage; original_text : string; original_text_length : Z;
  translated_text : string; translated_text_length : Z; translation_provider : TranslationProvider;
  translation_quality_score : option Q; processing_time_ms : Q; cached : bool; status : ProcessingStatus; error : option string;
  retry_count : Z; doc_metadata : list (string * pyval); created_at : Q; completed_at : option Q }.

(** Field(ge=0.0, le=1.0) *)
Definition in_unit (q : Q) : bool := Qle_bool 0 q && Qle_bool q 1.
Definition ValidationError (field : string) : pyexn := PyExn "ValidationError" field.
Definition detected_language (c : string) (name : option string) (conf : Q) : result pyexn DetectedLanguage :=
  if in_unit conf then Ok (Detected c name conf) else Err (ValidationError "confidence").

(** The constructor: the lengths default to those of the texts. *)
Definition new_document (id src : string) (lang : DetectedLanguage) (original translated : string) (provider : TranslationProvider)
  (quality : option Q) (time_ms : Q) (was_cached : bool) (st : ProcessingStatus) (err : option string) (now : Q) (done : option Q)
  : result pyexn TranslatedDocument :=
  if match quality with Some q => in_unit q | None => true end then
    Ok (Document id src lang original (Z.of_nat (String.length original)) translated (Z.of_nat (String.length translated)) provider
          quality time_ms was_cached st err 0 [] now done)
  else Err (ValidationError "translation_quality_score").

Record ProcessingMetrics := PMetrics {
  total_sources : Z; processed : Z; failed : Z; skipped : Z; cache_hits : Z; cache_misses : Z; avg_processing_time_ms : Q;
  total_processing_time_ms : Q; languages_detected : gmap string Z; providers_used : gmap string Z; start_time : Q; end_time : option Q }.
Definition new_metrics (now : Q) : ProcessingMetrics := PMetrics 0 0 0 0 0 0 0 0 ∅ ∅ now None.
Definition success_rate (m : ProcessingMetrics) : Q :=
  if total_sources m =? 0 then 0%Q else (inject_Z (processed m) / inject_Z (total_sources m) * 100)%Q.
Definition cache_hit_rate (m : ProcessingMetrics) : Q :=
  let total := cache_hits m + cache_misses m in
  if total =? 0 then 0%Q else (inject_Z (cache_hits m) / inject_Z total * 100)%Q.
Definition duration_seconds (now : Q) (m : ProcessingMetrics) : Q := (default now (end_time m) - start_time m)%Q.
Definition throughput_docs_per_second (now : Q) (m : ProcessingMetrics) : Q :=
  let d := duration_seconds now m in if Qeq_bool d 0 then 0%Q else (inject_Z (processed m) / d)%Q.

(** [BatchProcessingRequest.validate_sources] *)
Definition validate_sources {A} (v : list A) : result pyexn (list A) :=
  match v with
  | [] => Err (PyExn "ValueError" "Sources list cannot be empty")
  | _ => if 10000 <? zlength v then Err (PyExn "ValueError" "Maximum batch size is 10000 documents") else Ok v
  end.
