(* ===== verification/MessageQueue.v ===== *)
(** * The message queue

    document_processor/infrastructure/queue.py: [QueueManager] over a Kafka
    client.  The client is the class [Kafka]: it may fail to start, to accept a
    message or to deliver one it accepted; its laws say what the topics hold
    afterwards.  A message is a JSON value. *)

From S2P Require Import Prelude PyStr PyVal PyConv Json Models.
#[local] Open Scope Z_scope.

(** What becomes of a message the producer accepted: the future it returned *)
Inductive delivery := Acked | Lost (x : pyexn).

Inductive role := Producer | Consumer.
Class Kafka (K : Type) := {
  k_start : role -> K -> result pyexn unit * K;
  k_stop : role -> K -> result pyexn unit * K;
  k_send : string -> option string -> string -> K -> result pyexn delivery * K;   (* topic, key, payload *)
  k_flush : K -> result pyexn unit * K;
  k_partitions : string -> K -> result pyexn (option nat) * K;
  k_topic : string -> K -> list string }.                                          (* the payloads of a topic *)

(** An acknowledged message is at the end of its topic, a refused one is not
    sent, and one whose future fails may or may not have arrived. *)
Class KafkaLaws (K : Type) `{Kafka K} := {
  k_start_topic r k t : k_topic t (k_start r k).2 = k_topic t k;
  k_stop_topic r k t : k_topic t (k_stop r k).2 = k_topic t k;
  k_flush_topic k t : k_topic t (k_flush k).2 = k_topic t k;
  k_send_other k t key p t' : t' <> t -> k_topic t' (k_send t key p k).2 = k_topic t' k;
  k_send_acked k t key p : (k_send t key p k).1 = Ok Acked -> k_topic t (k_send t key p k).2 = k_topic t k ++ [p];
  k_send_refused k t key p x : (k_send t key p k).1 = Err x -> k_topic t (k_send t key p k).2 = k_topic t k;
  k_send_lost k t key p x : (k_send t key p k).1 = Ok (Lost x) ->
    k_topic t (k_send t key p k).2 = k_topic t k \/ k_topic t (k_send t key p k).2 = k_topic t k ++ [p] }.

Record QueueManager (K : Type) := Queue { client : K; producer_connected : bool; consumer_connected : bool }.
Arguments Queue {K}. Arguments client {K}. Arguments producer_connected {K}. Arguments consumer_connected {K}.

Section queue.
Context {K : Type} `{Kafka K}.
Variable float_repr : Q -> string.
(** [settings.kafka_topic] *)
Variable kafka_topic : string.
#[local] Abbreviation qio A := (QueueManager K -> result pyexn A * QueueManager K).

Definition KafkaError (x : pyexn) : bool := String.eqb (exn_type x) "KafkaError".
Definition QueueError (msg : string) : pyexn := PyExn "QueueError" msg.
Definition set_client (k : K) (q : QueueManager K) : QueueManager K := Queue k (producer_connected q) (consumer_connected q).

Definition connect_producer : qio unit := fun q =>
  if producer_connected q then (Ok (), q) else
  match k_start Producer (client q) with
  | (Ok _, k) => (Ok (), Queue k true (consumer_connected q))
  | (Err x, k) =>
      (Err (if KafkaError x then QueueError ("Failed to connect Kafka producer: " +:+ exn_str x) else x), set_client k q)
  end.
Definition connect_consumer : qio unit := fun q =>
  if consumer_connected q then (Ok (), q) else
  match k_start Consumer (client q) with
  | (Ok _, k) => (Ok (), Queue k (producer_connected q) true)
  | (Err x, k) =>
      (Err (if KafkaError x then QueueError ("Failed to connect Kafka consumer: " +:+ exn_str x) else x), set_client k q)
  end.

(** A producer that fails to stop keeps the consumer from being stopped. *)
Definition disconnect : qio unit := fun q =>
  let stop_consumer q :=
    if consumer_connected q then
      match k_stop Consumer (client q) with
      | (Ok _, k) => (Ok (), Queue k (producer_connected q) false)
      | (Err x, k) => (Err x, set_client k q)
      end
    else (Ok (), q) in
  if producer_connected q then
    match k_stop Producer (client q) with
    | (Ok _, k) => stop_consumer (Queue k false (consumer_connected q))
    | (Err x, k) => (Err x, set_client k q)
    end
  else stop_consumer q.

(** [topic or settings.kafka_topic] *)
Definition topic_or (topic : option string) : string := if truthy_str topic then default "" topic else kafka_topic.
Definition key_or (key : option string) : option string := if truthy_str key then key else None.

(** [producer.send] encodes the message with [json.dumps] first. *)
Definition send (topic : string) (key : option string) (message : pyval) (k : K) : result pyexn delivery * K :=
  match json_dumps float_repr message with
  | Ok payload => k_send topic key payload k
  | Err x => (Err x, k)
  end.

Definition publish (message : pyval) (topic key : option string) : qio bool := fun q =>
  match connect_producer q with
  | (Err x, q) => (Err x, q)
  | (Ok _, q) =>
      match send (topic_or topic) (key_or key) message (client q) with
      | (Ok Acked, k) => (Ok true, set_client k q)
      | (_, k) => (Ok false, set_client k q)
      end
  end.

(** The futures are not awaited. *)
Fixpoint send_all (topic : string) (messages : list pyval) (successful : Z) (k : K) : result pyexn unit * Z * K :=
  match messages with
  | [] => (Ok (), successful, k)
  | m :: messages' =>
      match send topic None m k with
      | (Ok _, k) => send_all topic messages' (successful + 1) k
      | (Err x, k) => (Err x, successful, k)
      end
  end.
Definition publish_batch (messages : list pyval) (topic : option string) : qio Z := fun q =>
  match connect_producer q with
  | (Err x, q) => (Err x, q)
  | (Ok _, q) =>
      match send_all (topic_or topic) messages 0 (client q) with
      | (Ok _, n, k) => (Ok n, set_client (k_flush k).2 q)
      | (Err _, n, k) => (Ok n, set_client k q)
      end
  end.

(** The messages the consumer yields, each a JSON value or what reading it
    raised; [processor] is what handling a message does.  The result: the
    messages handed to it, in order, and how many it accepted. *)
Section consume.
Variable processor : pyval -> result pyexn unit.
Variable max_messages : Z.
Fixpoint consume_loop (msgs : list (result pyexn pyval)) (processed : Z) : result pyexn unit * list pyval * Z :=
  match msgs with
  | [] => (Ok (), [], processed)
  | Err x :: _ => (Err (QueueError ("Consumer error: " +:+ exn_str x)), [], processed)
  | Ok m :: msgs' =>
      let go p := let '(r, l, n) := consume_loop msgs' p in (r, m :: l, n) in
      match processor m with
      | Ok _ =>
          if negb (max_messages =? 0) && (max_messages <=? processed + 1) then (Ok (), [m], processed + 1)
          else go (processed + 1)
      | Err _ => go processed
      end
  end.
Definition consume (msgs : list (result pyexn pyval)) : QueueManager K -> result pyexn (list pyval * Z) * QueueManager K := fun q =>
  match connect_consumer q with
  | (Err x, q) => (Err x, q)
  | (Ok _, q) => let '(r, l, n) := consume_loop msgs 0 in (match r with Ok _ => Ok (l, n) | Err x => Err x end, q)
  end.
End consume.

Definition get_topic_partitions (topic : string) : qio Z := fun q =>
  match connect_producer q with
  | (Err x, q) => (Err x, q)
  | (Ok _, q) =>
      match k_partitions topic (client q) with
      | (Ok (Some n), k) => (Ok (Z.of_nat n), set_client k q)
      | (_, k) => (Ok 0, set_client k q)
      end
  end.

(** The position and the end offset of every partition assigned *)
Definition get_consumer_lag (parts : result pyexn (list (string * Z * Z * Z))) (q : QueueManager K) : list (string * pyval) :=
  if negb (consumer_connected q) then [] else
  match parts with
  | Ok l => dict_of (map (fun '(topic, part, position, end_offset) =>
              (topic +:+ "-" +:+ str_int part,
               PDict [("position", PInt position); ("end_offset", PInt end_offset); ("lag", PInt (end_offset - position))])) l)
  | Err _ => []
  end.
End queue.

(** ** Publishing *)

Section laws.
Context {K : Type} `{KafkaLaws K}.
Variable float_repr : Q -> string.
Variable kafka_topic : string.

Lemma connect_topic q t : k_topic t (client (connect_producer q).2) = k_topic t (client q).
Proof.
  unfold connect_producer. destruct (producer_connected q); [done|]. pose proof (k_start_topic Producer (client q) t).
  destruct (k_start Producer (client q)) as [[?|?] k]; done.
Qed.

(** A message reported as published is in its topic.  When [publish]
    returns [True], the JSON text of the message has been appended to the
    topic and nothing else has changed; when it returns [False] or raises, at
    most this text was appended. *)
Theorem published_message_stored message topic key q r q' :
  publish float_repr kafka_topic message topic key q = (r, q') ->
  let log q := k_topic (topic_or kafka_topic topic) (client q) in
  (forall t, t <> topic_or kafka_topic topic -> k_topic t (client q') = k_topic t (client q)) /\
  match r with
  | Ok true => exists text, json_dumps float_repr message = Ok text /\ log q' = log q ++ [text]
  | _ => log q' = log q \/ exists text, json_dumps float_repr message = Ok text /\ log q' = log q ++ [text]
  end.
Proof.
  intros Hp. cbn zeta. unfold publish in Hp. set (t := topic_or kafka_topic topic) in *.
  pose proof (connect_topic q) as Hc. destruct (connect_producer q) as [[?|x] q1]; simpl in Hc; [|simplify_eq; auto].
  unfold send in Hp. destruct (json_dumps float_repr message) as [text|x]; [|simplify_eq; simpl; auto].
  pose proof (fun t' => k_send_other (client q1) t (key_or key) text t') as Ho.
  pose proof (k_send_acked (client q1) t (key_or key) text) as Ha.
  pose proof (k_send_refused (client q1) t (key_or key) text) as Hr.
  pose proof (k_send_lost (client q1) t (key_or key) text) as Hl.
  destruct (k_send t (key_or key) text (client q1)) as [[[|x]|x] k]; simplify_eq; simpl in *.
  - split; [intros t' Ht; by rewrite Ho|]. exists text. by rewrite Ha, Hc.
  - split; [intros t' Ht; by rewrite Ho|]. rewrite <- Hc. destruct (Hl x eq_refl); eauto.
  - split; [intros t' Ht; by rewrite Ho|]. rewrite <- Hc. left. by eapply Hr.
Qed.
End laws.


Lemma all_ok_err {A} (l : list (result pyexn A)) x : In (Err x) l -> exists y, all_ok l = Err y.
Proof. induction l as [|[a|e] l IH]; simpl; [done| |by exists e]. intros [|H]; [done|]. destruct (IH H) as [y ->]. by exists y. Qed.

Lemma source_not_json float_repr d : exists x, json_dumps float_repr (source_dump d) = Err x.
Proof.
  unfold source_dump. cbn [json_dumps]. set (l := map _ _).
  destruct (all_ok_err l (PyExn "TypeError" "Object of type datetime is not JSON serializable")) as [y ->]; [|by exists y].
  apply in_map_iff. exists ("created_at", PTime (src_created_at d)). split; [reflexivity|]. simpl. tauto.
Qed.

(** A source document is never published: its dump holds a [datetime], which
    the producer's serializer cannot write, so [publish] answers [False] and
    nothing is sent, and [publish_batch] counts none. *)
Theorem source_document_refused {K} `{Kafka K} float_repr kafka_topic d topic key (q : QueueManager K) :
  producer_connected q = true ->
  publish float_repr kafka_topic (source_dump d) topic key q = (Ok false, q) /\
  publish_batch float_repr kafka_topic [source_dump d] topic q = (Ok 0, q).
Proof.
  intros Hc. destruct (source_not_json float_repr d) as [x Hx]. unfold publish, publish_batch, connect_producer. rewrite Hc. cbn [send_all].
  unfold send. rewrite Hx. by destruct q.
Qed.

(** ** Consuming *)

(** The consumer hands every message over once and in order.  The messages
    given to the processor are those that came before the one that stopped the
    loop; the count is that of the messages the processor accepted, which never
    exceeds a positive maximum; the loop ends early only at the maximum or at a
    message that could not be read.  A message the processor rejects is passed
    over, not given again. *)
Theorem consume_in_order processor max_messages msgs r handed n :
  0 <= max_messages -> consume_loop processor max_messages msgs 0 = (r, handed, n) ->
  n = zlength (List.filter (fun m => is_ok (processor m)) handed) /\
  (0 < max_messages -> n <= max_messages) /\
  exists rest, msgs = map Ok handed ++ rest /\
    match r with Ok _ => rest = [] \/ (0 < max_messages /\ n = max_messages) | Err _ => exists x rest', rest = Err x :: rest' end.
Proof.
  intros Hmax. assert (forall p, 0 <= p -> (0 < max_messages -> p < max_messages) -> consume_loop processor max_messages msgs p = (r, handed, n) ->
    n = p + zlength (List.filter (fun m => is_ok (processor m)) handed) /\ (0 < max_messages -> n <= max_messages) /\
    exists rest, msgs = map Ok handed ++ rest /\
      match r with Ok _ => rest = [] \/ (0 < max_messages /\ n = max_messages) | Err _ => exists x rest', rest = Err x :: rest' end) as Hgen.
  2: { intros Hl. apply Hgen in Hl as (-> & H2 & H3); [|lia|lia]. split_and!; [lia|lia|done]. }
  revert handed n. induction msgs as [|[m|x] msgs IH]; intros handed n p Hp Hlt; simpl.
  - intros [= <- <- <-]. change (zlength _) with 0. split_and!; [lia|lia|]. exists []. auto.
  - destruct (processor m) as [u|e] eqn:Em.
    + destruct (negb (max_messages =? 0) && (max_messages <=? p + 1)) eqn:Es.
      * intros [= <- <- <-]. apply andb_true_iff in Es as [E1%negb_true_iff%Z.eqb_neq E2%Z.leb_le]. simpl. rewrite Em. simpl.
        change (zlength [m]) with 1. split_and!; [lia|lia|]. exists msgs. split; [done|]. right. lia.
      * destruct (consume_loop processor max_messages msgs (p + 1)) as [[r' l] k] eqn:El. intros [= <- <- <-].
        apply IH in El as (H1 & H2 & rest & H3 & H4); [|lia|].
        { simpl. rewrite Em. simpl. rewrite zlength_cons. split_and!; [lia|done|]. exists rest. split; [by rewrite H3|done]. }
        intros Hm. apply andb_false_iff in Es as [E%negb_false_iff%Z.eqb_eq|E%Z.leb_gt]; lia.
    + destruct (consume_loop processor max_messages msgs p) as [[r' l] k] eqn:El. intros [= <- <- <-].
      apply IH in El as (H1 & H2 & rest & H3 & H4); [|done|done]. simpl. rewrite Em. simpl. split_and!; [done|done|].
      exists rest. split; [by rewrite H3|done].
  - intros [= <- <- <-]. change (zlength _) with 0. split_and!; [lia|lia|]. exists (Err x :: msgs). split; [done|]. by exists x, msgs.
Qed.

(** ** A broker with faults *)

(** What happens to the next message sent *)
Inductive fate := Deliver | Refuse | Lose | LoseAck.
Record kafkad := Kafkad { kd_topics : gmap string (list string); kd_script : list fate }.
Definition timed_out : pyexn := PyExn "KafkaError" "KafkaTimeoutError".
Definition kd_append (t p : string) (k : kafkad) : kafkad := Kafkad (<[t := default [] (kd_topics k !! t) ++ [p]]> (kd_topics k)) (tail (kd_script k)).
Definition kd_skip (k : kafkad) : kafkad := Kafkad (kd_topics k) (tail (kd_script k)).
#[export] Instance kafkad_client : Kafka kafkad := {
  k_start _ k := (Ok (), k);
  k_stop _ k := (Ok (), k);
  k_send t _ p k :=
    match kd_script k with
    | Refuse :: _ => (Err timed_out, kd_skip k)
    | Lose :: _ => (Ok (Lost timed_out), kd_skip k)
    | LoseAck :: _ => (Ok (Lost timed_out), kd_append t p k)
    | _ => (Ok Acked, kd_append t p k)
    end;
  k_flush k := (Ok (), k);
  k_partitions _ k := (Ok (Some 1%nat), k);
  k_topic t k := default [] (kd_topics k !! t) }.
#[export] Instance kafkad_laws : KafkaLaws kafkad.
Proof.
  split; try done; intros; simpl in *; destruct (kd_script k) as [|[] ?]; simpl in *; try done; rewrite ?lookup_insert_ne by done; try done;
    rewrite ?lookup_insert_eq; auto.
Qed.

Definition demo_queue (script : list fate) : QueueManager kafkad := Queue (Kafkad ∅ script) false false.
Definition demo_message : pyval := PDict [("id", PInt 7)].

Lemma published_message_stored_witness :
  exists text, json_dumps (fun _ => "") demo_message = Ok text /\
    k_topic "documents" (client (publish (fun _ => "") "documents" demo_message None None (demo_queue [])).2) = [text].
Proof.
  destruct (publish (fun _ => "") "documents" demo_message None None (demo_queue [])) as [r q] eqn:E.
  destruct (published_message_stored (fun _ => "") "documents" demo_message None None (demo_queue []) r q E) as [_ Hr].
  assert (r = Ok true) as -> by (by vm_compute in E; injection E as <- _). exact Hr.
Defined.

Lemma source_document_refused_witness :
  (publish (fun _ => "") "documents" (source_dump (Source "1" WEB None None [] "balanced" 0)) None None
     (Queue (Kafkad ∅ []) true false)).1 = Ok false.
Proof.
  by destruct (source_document_refused (fun _ => "") "documents" (Source "1" WEB None None [] "balanced" 0) None None
                 (Queue (Kafkad ∅ []) true false)) as [-> _].
Defined.

Definition demo_processor (m : pyval) : result pyexn unit := match m with PInt _ => Ok () | _ => Err (PyExn "ValueError" "") end.
Lemma consume_in_order_witness :
  consume_loop demo_processor 2 [Ok (PInt 1); Ok PNone; Ok (PInt 2); Ok (PInt 3)] 0 = (Ok (), [PInt 1; PNone; PInt 2], 2) /\ 2 <= 2.
Proof.
  split; [by vm_compute|].
  destruct (consume_in_order demo_processor 2 [Ok (PInt 1); Ok PNone; Ok (PInt 2); Ok (PInt 3)] (Ok ()) [PInt 1; PNone; PInt 2] 2) as (_ & H & _);
    [lia|by vm_compute|apply H; lia].
Defined.

(** A batch counts messages the broker never acknowledged: their futures are
    dropped, so both are reported as published and the topic is empty. *)
Example batch_counts_lost : let '(r, q) := publish_batch (fun _ => "") "documents" [demo_message; demo_message] None (demo_queue [Lose; Lose]) in
  r = Ok 2 /\ k_topic "documents" (client q) = [].
Proof. by vm_compute. Qed.
