(* ===== verification/Language.v ===== *)
(** * Language detection

    document_processor/processing/language_detector.py over the cache of
    Cache.v.  [detect] is the fastText model: the language and its score, or
    what it raised; the in-process LRU cache in front of it is not visible in
    its answers.  [sha256_hex] is the digest in the cache key. *)

From S2P Require Import Prelude PyStr PyVal PyConv Json Cache Models.
#[local] Open Scope py_scope.
#[local] Open Scope Z_scope.

Definition LANGUAGE_NAMES : list (string * string) :=
  [("en", "English"); ("es", "Spanish"); ("fr", "French"); ("de", "German"); ("it", "Italian"); ("pt", "Portuguese"); ("ru", "Russian");
   ("ja", "Japanese"); ("ko", "Korean"); ("zh", "Chinese"); ("ar", "Arabic"); ("hi", "Hindi"); ("nl", "Dutch"); ("pl", "Polish");
   ("tr", "Turkish"); ("vi", "Vietnamese"); ("id", "Indonesian"); ("th", "Thai"); ("uk", "Ukrainian"); ("ro", "Romanian");
   ("el", "Greek"); ("cs", "Czech"); ("sv", "Swedish"); ("da", "Danish"); ("fi", "Finnish"); ("no", "Norwegian"); ("he", "Hebrew");
   ("fa", "Persian"); ("bn", "Bengali"); ("ur", "Urdu"); ("ta", "Tamil"); ("te", "Telugu"); ("mr", "Marathi")].
Definition language_name (c : string) : string :=
  match List.find (fun kv => String.eqb kv.1 c) LANGUAGE_NAMES with Some kv => kv.2 | None => c end.

Record LanguageDetector := Detector { use_cache : bool; ld_hits : Z; ld_misses : Z }.
Definition hit (d : LanguageDetector) : LanguageDetector := Detector (use_cache d) (ld_hits d + 1) (ld_misses d).
Definition miss (d : LanguageDetector) : LanguageDetector := Detector (use_cache d) (ld_hits d) (ld_misses d + 1).

Section language.
Context {R : Type} `{RedisServer R}.
Variable float_repr : Q -> string.
Variable sha256_hex : string -> string.
Variable detect : string -> result pyexn (string * Q).
(** [settings.redis_ttl] *)
Variable redis_ttl : Z.

Definition lang_cache_key (text : string) : string := "lang_detect:" +:+ sha256_hex text.

(** [DetectedLanguage] of the cached fields, after the log line that reads
    [cached["code"]] *)
Definition numeric (v : pyval) : option Q :=
  match v with PInt z => Some (inject_Z z) | PFloat q => Some q | _ => None end.
Definition of_cached (v : pyval) : result pyexn DetectedLanguage :=
  match v with
  | PDict d =>
      match dict_get "code" d with
      | None => Err (PyExn "KeyError" "code")
      | Some (PStr c) =>
          match dict_get "confidence" d with
          | Some x =>
              match numeric x, default PNone (dict_get "name" d) with
              | Some q, PNone => detected_language c None q
              | Some q, PStr n => detected_language c (Some n) q
              | _, _ => Err (ValidationError "DetectedLanguage")
              end
          | None => Err (ValidationError "confidence")
          end
      | Some _ => Err (ValidationError "code")
      end
  | v => Err (type_error v "indices")
  end.
Definition language_dump (l : DetectedLanguage) : pyval :=
  PDict [("code", PStr (code l)); ("name", opt_str (lang_name l)); ("confidence", PFloat (confidence l))].

Definition fallback : DetectedLanguage := Detected "en" None 0.
Definition CancelledError (x : pyexn) : bool := String.eqb (exn_type x) "CancelledError".

(** The detection and the cache write; every [Exception] ends in English. *)
Definition run_detection (sample : string) (d : LanguageDetector) (c : CacheManager R) : result pyexn DetectedLanguage * CacheManager R :=
  let english x c := if CancelledError x then (Err x, c) else (Ok fallback, c) in
  match (ls <-! detect sample; detected_language ls.1 (Some (language_name ls.1)) ls.2) with
  | Err x => english x c
  | Ok l =>
      if use_cache d then
        match set_json float_repr (lang_cache_key sample) (language_dump l) (Some redis_ttl) c with
        | (Ok _, c) => (Ok l, c)
        | (Err x, c) => english x c
        end
      else (Ok l, c)
  end.

Definition detect_language (text : string) (sample_size : nat) (d : LanguageDetector) (c : CacheManager R)
  : result pyexn DetectedLanguage * LanguageDetector * CacheManager R :=
  if String.eqb text "" || (String.length (strip is_space text) <? 10)%nat then (Ok fallback, d, c) else
  let sample := strip is_space (str_take sample_size text) in
  if use_cache d then
    match get_json (lang_cache_key sample) c with
    | (Err x, c) => (Err x, d, c)
    | (Ok o, c) =>
        match o with
        | Some v =>
            if truthy v then (of_cached v, hit d, c)
            else let '(r, c) := run_detection sample d c in (r, miss d, c)
        | None => let '(r, c) := run_detection sample d c in (r, miss d, c)
        end
    end
  else let '(r, c) := run_detection sample d c in (r, d, c).

Definition get_cache_stats (d : LanguageDetector) : Q :=
  let total := ld_hits d + ld_misses d in
  if 0 <? total then (inject_Z (ld_hits d) / inject_Z total * 100)%Q else 0%Q.
Definition clear_cache (d : LanguageDetector) : LanguageDetector := Detector (use_cache d) 0 0.

(** ** What it answers *)

Lemma detected_in_unit c n q l : detected_language c n q = Ok l -> (0 <= confidence l <= 1)%Q /\ code l = c.
Proof.
  unfold detected_language, in_unit. destruct (Qle_bool_reflect 0 q), (Qle_bool_reflect q 1); simpl; try done. intros [= <-]. simpl. auto.
Qed.

Lemma run_detection_in_unit sample d c r c' : run_detection sample d c = (Ok r, c') -> (0 <= confidence r <= 1)%Q.
Proof.
  unfold run_detection. assert (0 <= confidence fallback <= 1)%Q as Hf by (simpl; lra).
  destruct (rbind _ _) as [l|x] eqn:El.
  - assert (0 <= confidence l <= 1)%Q as Hl.
    { destruct (detect sample) as [ls|]; [|done]. simpl in El. by apply detected_in_unit in El as [? _]. }
    destruct (use_cache d); [|by intros [= <- <-]]. destruct (set_json _ _ _ _ c) as [[?|x] c1]; [by intros [= <- <-]|].
    destruct (CancelledError x); [done|]. by intros [= <- <-].
  - destruct (CancelledError x); [done|]. by intros [= <- <-].
Qed.

(** A detection that returns has a confidence between 0 and 1, wherever the
    answer came from. *)
Lemma detection_in_unit text n d c l d' c' :
  detect_language text n d c = (Ok l, d', c') -> (0 <= confidence l <= 1)%Q.
Proof.
  unfold detect_language. destruct (_ || _); [intros [= <- <- <-]; simpl; lra|]. set (sample := strip _ _).
  assert (forall c0, (let '(r, c1) := run_detection sample d c0 in (r, miss d, c1)) = (Ok l, d', c') -> (0 <= confidence l <= 1)%Q) as Hm.
  { intros c0. destruct (run_detection sample d c0) as [[r|x] c1] eqn:E; [|done]. intros [= -> <- <-]. by apply run_detection_in_unit in E. }
  destruct (use_cache d).
  2: { destruct (run_detection sample d c) as [[r|x] c1] eqn:E; [|done]. intros [= -> <- <-]. by apply run_detection_in_unit in E. }
  destruct (get_json _ c) as [[[v|]|x] c1]; [|by apply Hm|done]. destruct (truthy v); [|by apply Hm].
  intros [= Ho <- <-]. unfold of_cached in Ho. repeat case_match; try done; by apply detected_in_unit in Ho as [? _].
Qed.

(** The fallback to English does not cover the cache: when Redis cannot be
    reached the detection raises before the model is asked. *)
Theorem cache_outage_fails_detection text n d c x c' :
  use_cache d = true -> String.eqb text "" || (String.length (strip is_space text) <? 10)%nat = false ->
  connect c = (Err x, c') -> detect_language text n d c = (Err x, d, c').
Proof. intros Hu Ht Hc. unfold detect_language. rewrite Ht, Hu. unfold get_json, get, guarded. by rewrite Hc. Qed.
End language.

Definition down_cache : CacheManager redisd := Manager (Redisd ∅ 0 [(1%Q, Some (false, PyExn "ConnectionError" "refused"))]) false 3600.
Lemma cache_outage_fails_detection_witness :
  (detect_language (fun _ => "") id (fun _ => Ok ("fr", 1%Q)) 300 "bonjour tout le monde" 1000 (Detector true 0 0) down_cache).1.1
  = Err (PyExn "CacheError" "Failed to connect to Redis: refused").
Proof.
  erewrite (cache_outage_fails_detection (fun _ => "") id (fun _ => Ok ("fr", 1%Q)) 300 "bonjour tout le monde" 1000 (Detector true 0 0)
              down_cache); [reflexivity|done|by vm_compute|by vm_compute].
Defined.
