(* ===== verification/Translator.v ===== *)
(** * The translation router

    document_processor/processing/translator.py: translations from the cache
    (Cache.v) or from one of three providers, each behind its own circuit
    breaker (CircuitBreaker.v), rate limiter (RateLimiter.v) and retries
    (Retry.v).  What the providers answer, the readings of the clock and the
    draws of the jitter are given per provider. *)

From S2P Require Import Prelude PyStr PyVal PyConv Json Cache Models Language CircuitBreaker RateLimiter Retry.
From stdpp Require Import functions.
#[local] Open Scope py_scope.
#[local] Open Scope Z_scope.

Inductive provider := CLAUDE | GOOGLE | AZURE.
#[export] Instance provider_eq_dec : EqDecision provider.
Proof. solve_decision. Defined.
Definition provider_name (p : provider) : string := match p with CLAUDE => "claude" | GOOGLE => "google" | AZURE => "azure" end.

Record translation_settings := TSettings {
  anthropic_api_key : option string; google_translate_api_key : option string; azure_translator_key : option string;
  anthropic_rpm : Z; google_translate_rpm : Z; azure_translate_rpm : Z; translation_cache_enabled : bool; redis_ttl : Z }.

Record TranslationRouter := Router {
  rate_limiters : provider -> Wrapper.RateLimiter; circuit_breakers : provider -> CircuitBreaker }.

Definition is_exception (x : pyexn) : bool := negb (CancelledError x).
Definition new_router (s : translation_settings) (now : Q) : TranslationRouter :=
  let rpm p := match p with CLAUDE => anthropic_rpm s | GOOGLE => google_translate_rpm s | AZURE => azure_translate_rpm s end in
  Router (fun p => Wrapper.init (rpm p) 1.5 false now) (fun p => new_breaker (CBConfig 5 60 is_exception 3)).

(** ** The providers *)

(** An answer over HTTP: the status, the text of an error and the decoded
    body; or what the request raised *)
Inductive http_reply :=
| HttpReply (status : Z) (text : result pyexn string) (json : result pyexn pyval)
| HttpFailed (x : pyexn).
(** What one translation meets at a provider: the clock at the breaker, at the
    rate limiter and at a failure; the answers to the attempts (the text and
    the tokens of a Claude message); the jitter *)
Record provider_env := PEnv {
  at_breaker : Q; at_limiter : Q; at_failure : Q; claude_reply : nat -> result pyexn (string * Z * Z); http : nat -> http_reply;
  random : nat -> Q }.

Definition TranslationAPIError (msg : string) : pyexn := PyExn "TranslationAPIError" msg.
Definition TranslationRateLimitError (msg : string) : pyexn := PyExn "TranslationRateLimitError" msg.
Definition TranslationError (msg : string) : pyexn := PyExn "TranslationError" msg.
Definition ClientError (x : pyexn) : bool := String.eqb (exn_type x) "ClientError".

Inductive key := Key (k : string) | Index (i : nat).
Definition getitem (k : key) (v : pyval) : result pyexn pyval :=
  match k, v with
  | Key k, PDict d => match dict_get k d with Some x => Ok x | None => Err (PyExn "KeyError" k) end
  | Index i, PList l => match l !! i with Some x => Ok x | None => Err (PyExn "IndexError" "list index out of range") end
  | _, _ => Err (type_error v "indices")
  end.
Fixpoint dig (path : list key) (v : pyval) : result pyexn pyval :=
  match path with [] => Ok v | k :: path' => x <-! getitem k v; dig path' x end.

Definition api_key (s : translation_settings) (p : provider) : option string :=
  match p with CLAUDE => anthropic_api_key s | GOOGLE => google_translate_api_key s | AZURE => azure_translator_key s end.

Definition _translate_claude (s : translation_settings) (e : provider_env) (attempt : nat) : result pyexn TranslationResult :=
  if negb (truthy_str (anthropic_api_key s)) then Err (TranslationAPIError "Claude API key not configured") else
  match claude_reply e attempt with
  | Ok (text, tin, tout) => Ok (Translation (strip is_space text) P_CLAUDE false (Some 0.95%Q) (Some (tin + tout)))
  | Err x => Err (if is_exception x then TranslationAPIError (exn_str x) else x)
  end.

(** The requests to Google and Azure differ in names, path and score. *)
Definition http_attempt (name : string) (path : list key) (p : TranslationProvider) (score : Q) (r : http_reply)
  : result pyexn TranslationResult :=
  let raised x := if ClientError x then TranslationAPIError (exn_str x) else x in
  match r with
  | HttpFailed x => Err (raised x)
  | HttpReply status text json =>
      if status =? 429 then Err (TranslationRateLimitError (name +:+ " rate limit exceeded"))
      else if negb (status =? 200) then
        match text with
        | Ok error => Err (TranslationAPIError (name +:+ " error: " +:+ error))
        | Err x => Err (raised x)
        end
      else match (data <-! json; dig path data) with
           | Ok (PStr t) => Ok (Translation t p false (Some score) None)
           | Ok _ => Err (ValidationError "text")
           | Err x => Err (raised x)
           end
  end.
Definition _translate_google (s : translation_settings) (e : provider_env) (attempt : nat) : result pyexn TranslationResult :=
  if negb (truthy_str (google_translate_api_key s)) then Err (TranslationAPIError "Google Translate API key not configured")
  else http_attempt "Google Translate" [Key "data"; Key "translations"; Index 0; Key "translatedText"] P_GOOGLE 0.90 (http e attempt).
Definition _translate_azure (s : translation_settings) (e : provider_env) (attempt : nat) : result pyexn TranslationResult :=
  if negb (truthy_str (azure_translator_key s)) then Err (TranslationAPIError "Azure Translator key not configured")
  else http_attempt "Azure Translator" [Index 0; Key "translations"; Index 0; Key "text"] P_AZURE 0.88 (http e attempt).

(** The attempts of [retry_decorator(max_attempts=n, base_delay=1.0)] *)
Definition max_tries (p : provider) : Z := match p with CLAUDE => 2 | _ => 3 end.
Definition retry_policy (p : provider) : RetryPolicy := Policy (max_tries p) 1 60 2 is_exception true None.
Definition attempt_of (s : translation_settings) (e : provider_env) (p : provider) : nat -> result pyexn TranslationResult :=
  match p with CLAUDE => _translate_claude s e | GOOGLE => _translate_google s e | AZURE => _translate_azure s e end.
Definition retried (s : translation_settings) (e : provider_env) (p : provider) : result pyexn TranslationResult * list retry_event :=
  let '(o, tr) := async_retry (attempt_of s e p) (random e) None (retry_policy p) in
  (match o with
   | Returned v => Ok v
   | Raised x => Err x
   | RetryExhaustedError n last =>
       Err (PyExn "RetryExhaustedError"
              ("Failed after " +:+ str_int n +:+ " attempts: " +:+ match last with Some x => exn_str x | None => "None" end))
   | TimedOut => Err (PyExn "TimeoutError" "")
   end, tr).

Definition limiter_exn (x : limiter_error) : pyexn :=
  match x with
  | ZeroDivisionError => PyExn "ZeroDivisionError" "float division by zero"
  | IndexError => PyExn "IndexError" "deque index out of range"
  | AttributeError => PyExn "AttributeError" "acquire"
  end.
Definition _translate_with_provider (s : translation_settings) (e : provider_env) (p : provider) (l : Wrapper.RateLimiter)
  : result pyexn TranslationResult * Wrapper.RateLimiter :=
  match Wrapper.aenter (at_limiter e) l with
  | (Err x, l) => (Err (limiter_exn x), l)
  | (Ok _, l) => let r := (retried s e p).1 in (r, Wrapper.aexit (negb (is_ok r)) (at_failure e) l)
  end.

(** A call through the breaker: the limiter is reached only if the breaker
    lets the call in. *)
Definition provider_call (s : translation_settings) (e : provider_env) (p : provider) (r : TranslationRouter)
  : result cb_error TranslationResult * TranslationRouter :=
  let b := circuit_breakers r p in
  let '(out, l) := _translate_with_provider s e p (rate_limiters r p) in
  let '(res, b') := call "_translate_with_provider" (at_breaker e) (at_failure e) out b in
  (res, Router (if is_ok (enter "_translate_with_provider" (at_breaker e) b).1 then <[p := l]> (rate_limiters r) else rate_limiters r)
               (<[p := b']> (circuit_breakers r))).

Definition _get_provider_order (priority : string) : list provider :=
  if String.eqb priority "quality" then [CLAUDE; GOOGLE; AZURE]
  else if String.eqb priority "balanced" then [GOOGLE; AZURE; CLAUDE] else [AZURE; GOOGLE; CLAUDE].
Definition _estimate_cost (p : provider) (chars : Z) : Q :=
  (inject_Z chars * (match p with CLAUDE => 3 | GOOGLE => 20 | AZURE => 10 end / 1000000))%Q.

(** ** Translating *)

Definition cb_str (x : cb_error) : string :=
  match x with CircuitBreakerOpenError _ m => m | TypeError => "unsupported operand" | FuncError e => exn_str e end.
(** What [except Exception] lets through *)
Definition cb_cancelled (x : cb_error) : option pyexn :=
  match x with FuncError e => if CancelledError e then Some e else None | _ => None end.
Definition all_failed (last : option string) : pyexn :=
  TranslationError ("All translation providers failed. Last error: " +:+ default "None" last).

Section translate.
Context {R : Type} `{RedisServer R}.
Variable s : translation_settings.
Variable sha256_hex : string -> string.
(** What a call meets, per provider *)
Variable env : provider -> provider_env.

Definition _get_cache_key (text source target : string) : string :=
  "translation:" +:+ sha256_hex (text +:+ ":" +:+ source +:+ ":" +:+ target).

Fixpoint try_providers (cache_key : string) (ps : list provider) (last : option string) (r : TranslationRouter) (c : CacheManager R)
  : result pyexn TranslationResult * TranslationRouter * CacheManager R :=
  match ps with
  | [] => (Err (all_failed last), r, c)
  | p :: ps' =>
      match provider_call s (env p) p r with
      | (Err x, r) =>
          match cb_cancelled x with
          | Some e => (Err e, r, c)
          | None => try_providers cache_key ps' (Some (cb_str x)) r c
          end
      | (Ok t, r) =>
          if translation_cache_enabled s then
            match set cache_key (tr_text t) (Some (redis_ttl s)) false c with
            | (Ok _, c) => (Ok t, r, c)
            | (Err x, c) => if CancelledError x then (Err x, r, c) else try_providers cache_key ps' (Some (exn_str x)) r c
            end
          else (Ok t, r, c)
      end
  end.

(** [source] is not empty: it was given or detected. *)
Definition translate_from (text source target priority : string) (r : TranslationRouter) (c : CacheManager R)
  : result pyexn TranslationResult * TranslationRouter * CacheManager R :=
  if String.eqb source target then (Ok (Translation text P_NONE false (Some 1%Q) None), r, c) else
  let cache_key := _get_cache_key text source target in
  let provided c := try_providers cache_key (_get_provider_order priority) None r c in
  if translation_cache_enabled s then
    match get cache_key c with
    | (Err x, c) => (Err x, r, c)
    | (Ok cached, c) =>
        if truthy_str cached then (Ok (Translation (default "" cached) P_CACHE true None None), r, c) else provided c
    end
  else provided c.

Definition translate (float_repr : Q -> string) (detect : string -> result pyexn (string * Q)) (text : string) (source : option string)
  (target priority : string) (d : LanguageDetector) (r : TranslationRouter) (c : CacheManager R)
  : result pyexn TranslationResult * LanguageDetector * TranslationRouter * CacheManager R :=
  if truthy_str source then
    let '(res, r, c) := translate_from text (default "" source) target priority r c in (res, d, r, c)
  else
    match detect_language float_repr sha256_hex detect (redis_ttl s) text 1000 d c with
    | (Err x, d, c) => (Err x, d, r, c)
    | (Ok l, d, c) => let '(res, r, c) := translate_from text (code l) target priority r c in (res, d, r, c)
    end.

(** The module does not import [asyncio]: the coroutines are made, and gathering
    them raises. *)
Definition batch_translate (texts : list string) : result pyexn (list TranslationResult) :=
  Err (PyExn "NameError" "name 'asyncio' is not defined").
End translate.

(** ** The first provider that answers *)

(** A call at one provider leaves the others as they were. *)
Lemma provider_call_other s e p r q : q <> p ->
  circuit_breakers (provider_call s e p r).2 q = circuit_breakers r q /\ rate_limiters (provider_call s e p r).2 q = rate_limiters r q.
Proof.
  intros Hq. unfold provider_call. destruct (_translate_with_provider _ _ _ _) as [out l]. destruct (call _ _ _ _ _) as [res b]. simpl.
  rewrite fn_lookup_insert_ne by done. split; [done|]. destruct (is_ok _); [|done]. by rewrite fn_lookup_insert_ne.
Qed.
(** What a provider answers depends on its own breaker and limiter alone. *)
Lemma provider_call_ext s e p r r' : circuit_breakers r p = circuit_breakers r' p -> rate_limiters r p = rate_limiters r' p ->
  (provider_call s e p r).1 = (provider_call s e p r').1.
Proof.
  intros H1 H2. unfold provider_call. rewrite H1, H2. destruct (_translate_with_provider _ _ _ _) as [out l].
  by destruct (call _ _ _ _ _).
Qed.

Section routing.
Context {R : Type} `{RedisServerLaws R}.
Variable s : translation_settings.
Variable env : provider -> provider_env.
Variable r0 : TranslationRouter.

(** What a provider would answer *)
Definition answer (p : provider) : result cb_error TranslationResult := (provider_call s (env p) p r0).1.
Definition same_at (r : TranslationRouter) (p : provider) : Prop :=
  circuit_breakers r p = circuit_breakers r0 p /\ rate_limiters r p = rate_limiters r0 p.

Lemma set_connected k v ttl nx (c : CacheManager R) : connected c = true ->
  exists b c', set k v ttl nx c = (Ok b, c') /\ connected c' = true.
Proof. intros Hc. unfold set. destruct nx; rewrite guarded_exec by done; eauto. Qed.

Lemma tries_in_order key ps last r (c : CacheManager R) res r' c' :
  NoDup ps -> connected c = true -> (forall p, p ∈ ps -> same_at r p) ->
  (forall p x, p ∈ ps -> answer p = Err x -> cb_cancelled x = None) ->
  try_providers s env key ps last r c = (res, r', c') ->
  (exists pre p post t, ps = pre ++ p :: post /\ (forall q, q ∈ pre -> is_ok (answer q) = false) /\ answer p = Ok t /\ res = Ok t /\
     (forall q, q ∈ post -> same_at r' q)) \/
  ((forall q, q ∈ ps -> is_ok (answer q) = false) /\ exists msg, res = Err (TranslationError msg)).
Proof.
  intros Hnd. revert last r c. induction Hnd as [|p ps Hp Hnd IH]; intros last r c Hc Hsame Hcan; cbn [try_providers].
  { intros [= <- <- <-]. right. split; [set_solver|]. unfold all_failed. eauto. }
  destruct (Hsame p ltac:(by left)) as [S1 S2]. pose proof (provider_call_ext s (env p) p r r0 S1 S2) as Ha. fold (answer p) in Ha.
  pose proof (provider_call_other s (env p) p r) as Ho.
  destruct (provider_call s (env p) p r) as [[t|x] r1]; simpl in Ha, Ho.
  - assert (forall q, q ∈ ps -> same_at r1 q) as Hpost.
    { intros q Hq. destruct (Ho q) as [E1 E2]; [by intros ->|]. destruct (Hsame q) as [F1 F2]; [by right|]. unfold same_at. by rewrite E1, E2. }
    assert ((exists pre p0 post t0, p :: ps = pre ++ p0 :: post /\ (forall q, q ∈ pre -> is_ok (answer q) = false) /\ answer p0 = Ok t0 /\
       Ok (E := pyexn) t = Ok t0 /\ (forall q, q ∈ post -> same_at r1 q))) as Hgoal.
    { exists [], p, ps, t. split_and!; [done|set_solver|done|done|done]. }
    destruct (translation_cache_enabled s); [|intros [= <- <- <-]; by left].
    destruct (set_connected key (tr_text t) (Some (redis_ttl s)) false c Hc) as (b & c1 & -> & _). intros [= <- <- <-]. by left.
  - rewrite (Hcan p x) by (by left || done). intros Htry.
    destruct (IH (Some (cb_str x)) r1 c Hc) as [(pre & p' & post & t & -> & Hpre & Hp' & Hres & Hpost)|[Hall Hres]]; [| |exact Htry| |].
    + intros q Hq. destruct (Ho q) as [E1 E2]; [by intros ->|]. destruct (Hsame q) as [F1 F2]; [by right|]. unfold same_at. by rewrite E1, E2.
    + intros q y Hq. apply Hcan. by right.
    + left. exists (p :: pre), p', post, t. split_and!; try done. intros q [->|Hq]%elem_of_cons; [by rewrite <- Ha|by apply Hpre].
    + right. split; [|done]. intros q [->|Hq]%elem_of_cons; [by rewrite <- Ha|by apply Hall].
Qed.
End routing.

Lemma order_nodup priority : NoDup (_get_provider_order priority).
Proof. unfold _get_provider_order. repeat case_match; apply (bool_decide_unpack _); by vm_compute. Qed.
Lemma order_complete priority p : p ∈ _get_provider_order priority.
Proof. unfold _get_provider_order. repeat case_match; destruct p; set_solver. Qed.

(** C25: A translation is the answer of the first provider, in the order of the
    priority, that gives one.  When the cache has none, the providers before it
    have failed, the ones after it are not touched, and an error is raised only
    if all three fail, each behind its own circuit breaker, rate limiter and
    retries. *)
Theorem translation_first_success {R} `{RedisServerLaws R} s sha256_hex env text source target priority r (c : CacheManager R) res r' c' :
  source <> target -> connected c = true ->
  (translation_cache_enabled s = true -> truthy_str (match (get (_get_cache_key sha256_hex text source target) c).1 with Ok o => o | Err _ => None end) = false) ->
  (forall p x, answer s env r p = Err x -> cb_cancelled x = None) ->
  translate_from s sha256_hex env text source target priority r c = (res, r', c') ->
  (exists pre p post t, _get_provider_order priority = pre ++ p :: post /\ (forall q, q ∈ pre -> is_ok (answer s env r q) = false) /\
     answer s env r p = Ok t /\ res = Ok t /\ (forall q, q ∈ post -> same_at r r' q)) \/
  ((forall q, is_ok (answer s env r q) = false) /\ exists msg, res = Err (TranslationError msg)).
Proof.
  intros Hne Hc Hmiss Hcan. unfold translate_from. apply String.eqb_neq in Hne as ->.
  set (key := _get_cache_key _ _ _ _) in *.
  assert (forall c0, connected c0 = true -> try_providers s env key (_get_provider_order priority) None r c0 = (res, r', c') ->
    (exists pre p post t, _get_provider_order priority = pre ++ p :: post /\ (forall q, q ∈ pre -> is_ok (answer s env r q) = false) /\
       answer s env r p = Ok t /\ res = Ok t /\ (forall q, q ∈ post -> same_at r r' q)) \/
    ((forall q, is_ok (answer s env r q) = false) /\ exists msg, res = Err (TranslationError msg))) as Htry.
  { intros c0 Hc0 Ht. apply (tries_in_order s env r) in Ht; [|apply order_nodup|done|done|by eauto].
    destruct Ht as [Ht|[Hall Hm]]; [by left|]. right. split; [|done]. intros q. apply Hall, order_complete. }
  destruct (translation_cache_enabled s); [|by apply Htry]. unfold get in *. rewrite guarded_exec in * by done. simpl in Hmiss.
  specialize (Hmiss eq_refl). unfold id in *. rewrite Hmiss. by apply Htry.
Qed.

(** A translation that was stored is not translated again.  After a
    provider's answer was written to the cache, the next request for the same
    text and languages returns that text from the cache without touching any
    provider, unless the server fails or the entry has expired. *)
Theorem stored_translation_reused {R} `{RedisServerLaws R} s sha256_hex env text source target priority t r (c c1 : CacheManager R) res r' c' :
  source <> target -> translation_cache_enabled s = true -> connected c = true -> tr_text t <> "" ->
  set (_get_cache_key sha256_hex text source target) (tr_text t) (Some (redis_ttl s)) false c = (Ok true, c1) ->
  translate_from s sha256_hex env text source target priority r c1 = (res, r', c') ->
  (res = Ok (Translation (tr_text t) P_CACHE true None None) /\ r' = r) \/
  (exists x, (exec (Get (_get_cache_key sha256_hex text source target)) (server c1)).1 = Err x) \/
  (time_of (server c) + inject_Z (effective_ttl (Some (redis_ttl s)) c) <=
   time_of (server (get (_get_cache_key sha256_hex text source target) c1).2))%Q.
Proof.
  intros Hne He Hc Ht Hset. unfold translate_from. apply String.eqb_neq in Hne as ->. rewrite He. set (key := _get_cache_key _ _ _ _) in *.
  destruct (get key c1) as [o c2] eqn:Eg. destruct (string_roundtrip key (tr_text t) (Some (redis_ttl s)) c c1 c2 o Hc Hset Eg) as [->|[-> Hlost]].
  - assert (truthy_str (Some (tr_text t)) = true) as -> by (by destruct (tr_text t)). intros [= <- <- <-]. by left.
  - intros _. by right.
Qed.

(** A provider whose circuit is open is not asked.  Until the recovery time
    has passed, a translation meets the breaker's refusal there whatever the
    provider would answer, its rate limiter keeps its tokens, and the breaker
    stays as it is. *)
Theorem open_circuit_not_asked s e p r last :
  state (circuit_breakers r p) = OPEN -> last_failure_time (circuit_breakers r p) = Some last ->
  (at_breaker e - last <= inject_Z (recovery_timeout (cfg (circuit_breakers r p))))%Q ->
  exists msg, (provider_call s e p r).1 = Err (CircuitBreakerOpenError "_translate_with_provider" msg) /\
    circuit_breakers (provider_call s e p r).2 p = circuit_breakers r p /\ rate_limiters (provider_call s e p r).2 p = rate_limiters r p.
Proof.
  intros Hs Hl Ht. unfold provider_call, call. destruct (_translate_with_provider _ _ _ _) as [out l].
  unfold enter. rewrite Hs, Hl. destruct (Qltb_reflect (inject_Z (recovery_timeout (cfg (circuit_breakers r p)))) (at_breaker e - last)); [lra|].
  simpl. rewrite fn_lookup_insert. eauto.
Qed.

(** Redis down means no translation: the look-up in the cache raises before
    any provider is tried. *)
Theorem cache_outage_fails_translation {R} `{RedisServer R} s sha256_hex env text source target priority r (c : CacheManager R) x c' :
  source <> target -> translation_cache_enabled s = true -> connect c = (Err x, c') ->
  translate_from s sha256_hex env text source target priority r c = (Err x, r, c').
Proof.
  intros Hne He Hc. unfold translate_from. apply String.eqb_neq in Hne as ->. rewrite He. unfold get, guarded. by rewrite Hc.
Qed.

(** ** On concrete providers *)

Definition demo_settings : translation_settings := TSettings None (Some "key") (Some "key") 50 1000 2000 true 300.
Definition google_says (t : string) : http_reply :=
  HttpReply 200 (Ok "") (Ok (PDict [("data", PDict [("translations", PList [PDict [("translatedText", PStr t)]])])])).
Definition azure_says (t : string) : http_reply := HttpReply 200 (Ok "") (Ok (PList [PDict [("translations", PList [PDict [("text", PStr t)]])]])).
(** Google is overloaded, Azure answers at the second attempt. *)
Definition demo_env (p : provider) : provider_env :=
  PEnv 1 1 2 (fun _ => Err (PyExn "APIError" "")) (fun i => match p, i with
    | AZURE, 1%nat => azure_says "hello" | AZURE, _ => HttpFailed (PyExn "ClientError" "reset") | _, _ => HttpReply 429 (Ok "") (Ok PNone) end)
    (fun _ => 0%Q).
Definition demo_router : TranslationRouter := new_router demo_settings 0.
Definition up_cache : CacheManager redisd := Manager (Redisd ∅ 0 [(1%Q, None); (1%Q, None); (1%Q, None)]) true 3600.
Definition demo_translation := translate_from demo_settings id demo_env "bonjour" "fr" "en" "balanced" demo_router up_cache.

Lemma translation_first_success_witness : exists t, demo_translation.1.1 = Ok t /\ tr_text t = "hello" /\ tr_provider t = P_AZURE.
Proof.
  destruct demo_translation as [[res r'] c'] eqn:E. unfold demo_translation in E.
  destruct (translation_first_success demo_settings id demo_env "bonjour" "fr" "en" "balanced" demo_router up_cache res r' c')
    as [(pre & p & post & t & _ & _ & Hp & -> & _)|[Hall _]]; [done|done|by vm_compute|by intros []; vm_compute; intros x [= <-]|done| |].
  - exists t. split; [done|]. destruct p; vm_compute in Hp; by simplify_eq.
  - specialize (Hall AZURE). by vm_compute in Hall.
Defined.

Definition demo_result : TranslationResult := Translation "hello" P_AZURE false (Some 0.88%Q) None.
Definition warm_cache : CacheManager redisd := (set (_get_cache_key id "bonjour" "fr" "en") "hello" (Some 300) false up_cache).2.
Lemma stored_translation_reused_witness :
  (translate_from demo_settings id demo_env "bonjour" "fr" "en" "quality" demo_router warm_cache).1.1 = Ok (Translation "hello" P_CACHE true None None).
Proof.
  destruct (translate_from demo_settings id demo_env "bonjour" "fr" "en" "quality" demo_router warm_cache) as [[res r'] c'] eqn:E.
  destruct (stored_translation_reused demo_settings id demo_env "bonjour" "fr" "en" "quality" demo_result demo_router up_cache warm_cache res r' c')
    as [[-> _]|[[x Hx]|Hx]]; [done|done|done|done|by vm_compute|exact E|done| |].
  - by vm_compute in Hx.
  - exfalso. revert Hx. by vm_compute.
Defined.

Definition open_router : TranslationRouter :=
  Router (rate_limiters demo_router) (fun p => CB (CBConfig 5 60 is_exception 3) 5 0 (Some 0%Q) OPEN 0).
Lemma open_circuit_not_asked_witness : exists msg,
  (provider_call demo_settings (demo_env AZURE) AZURE open_router).1 = Err (CircuitBreakerOpenError "_translate_with_provider" msg).
Proof.
  destruct (open_circuit_not_asked demo_settings (demo_env AZURE) AZURE open_router 0) as (msg & Hm & _); [done|done|by vm_compute|].
  by exists msg.
Defined.

Lemma cache_outage_fails_translation_witness :
  (translate_from demo_settings id demo_env "bonjour" "fr" "en" "balanced" demo_router down_cache).1.1
  = Err (PyExn "CacheError" "Failed to connect to Redis: refused").
Proof.
  erewrite (cache_outage_fails_translation demo_settings id demo_env "bonjour" "fr" "en" "balanced" demo_router down_cache);
    [reflexivity|done|done|by vm_compute].
Defined.
