(* ===== verification/Documents.v ===== *)
(** * Stored documents

    The documents of document_processor/infrastructure/storage.py: a row of
    metadata in PostgreSQL and the document itself in MongoDB, written one after
    the other.  The connections are up (Storage.v models connecting); what a
    statement raises is an argument.  [isoformat] and [parse_datetime] are the
    two directions between times and text. *)

From Stdlib Require Import Ascii.
From S2P Require Import Prelude PyStr PyVal Models.
#[local] Open Scope Z_scope.

(** ** Totals of counters *)

Definition counter_total (m : gmap string Z) : Z := map_fold (fun _ n acc => n + acc) 0 m.
Lemma counter_total_insert k n m : m !! k = None -> counter_total (<[k := n]> m) = n + counter_total m.
Proof. intros Hk. apply map_fold_insert_L; [lia|done]. Qed.
Lemma counter_total_add k n m : counter_total (counter_add k n m) = counter_total m + n.
Proof.
  unfold counter_add, counter_get. destruct (m !! k) as [v|] eqn:E; simpl.
  - rewrite <- (insert_delete_id m k v E) at 2. rewrite <- insert_delete_eq, !counter_total_insert by apply lookup_delete_eq. lia.
  - rewrite counter_total_insert by done. lia.
Qed.

(** ** The two databases *)

(** A row of [translated_documents] *)
Record doc_row := Row {
  row_id : string; row_source : string; row_language : string; row_confidence : Q; row_original_length : Z; row_translated_length : Z;
  row_provider : string; row_quality : option Q; row_time_ms : Q; row_cached : bool; row_status : string; row_error : option string;
  row_retries : Z; row_metadata : list (string * pyval); row_created : Q; row_completed : option Q }.
(** A document of the collection: the model's fields, the times as text *)
Record stored_doc := Stored { st_doc : TranslatedDocument; st_created : string; st_completed : option string }.
Record doc_store := Store { pg_rows : list doc_row; mongo_docs : list stored_doc }.
(** What the statements raise *)
Record save_faults := Faults { pg_fault : option pyexn; mongo_fault : option pyexn }.

Section storage.
Variable isoformat : Q -> string.
Variable parse_datetime : string -> option Q.

Definition row_of (d : TranslatedDocument) : doc_row :=
  Row (doc_id d) (source_id d) (code (original_language d)) (confidence (original_language d)) (original_text_length d)
    (translated_text_length d) (TranslationProvider_value (translation_provider d)) (translation_quality_score d) (processing_time_ms d)
    (cached d) (ProcessingStatus_value (status d)) (error d) (retry_count d) (doc_metadata d) (created_at d) (completed_at d).
Definition fits (n : nat) (s : string) : bool := (String.length s <=? n)%nat.
(** The columns have widths, the id is the primary key. *)
Definition TranslatedDocumentModel (rows : list doc_row) (r : doc_row) : result pyexn (list doc_row) :=
  if existsb (fun x => String.eqb (row_id x) (row_id r)) rows then Err (PyExn "IntegrityError" "duplicate key value")
  else if negb (fits 36 (row_id r) && fits 36 (row_source r) && fits 10 (row_language r) && fits 20 (row_provider r) && fits 20 (row_status r))
  then Err (PyExn "DBAPIError" "value too long")
  else Ok (rows ++ [r]).
Definition _save_to_postgres (fault : option pyexn) (d : TranslatedDocument) (st : doc_store) : result pyexn doc_store :=
  match fault with
  | Some x => Err x
  | None => rows <-! TranslatedDocumentModel (pg_rows st) (row_of d); Ok (Store rows (mongo_docs st))
  end%py.

Definition stored_id (s : stored_doc) : string := doc_id (st_doc s).
(** [replace_one({"id": ...}, ..., upsert=True)] *)
Fixpoint replace_one (s : stored_doc) (l : list stored_doc) : list stored_doc :=
  match l with
  | [] => [s]
  | x :: l' => if String.eqb (stored_id x) (stored_id s) then s :: l' else x :: replace_one s l'
  end.
Definition _save_to_mongo (fault : option pyexn) (d : TranslatedDocument) (st : doc_store) : result pyexn doc_store :=
  match fault with
  | Some x => Err x
  | None => Ok (Store (pg_rows st) (replace_one (Stored d (isoformat (created_at d)) (isoformat <$> completed_at d)) (mongo_docs st)))
  end.
(** Whatever the databases raise is [False]; a row may be left without its
    document. *)
Definition save_document (f : save_faults) (d : TranslatedDocument) (st : doc_store) : bool * doc_store :=
  match _save_to_postgres (pg_fault f) d st with
  | Err _ => (false, st)
  | Ok st => match _save_to_mongo (mongo_fault f) d st with Err _ => (false, st) | Ok st => (true, st) end
  end.

(** The constructor fills in lengths that are 0. *)
Definition or_length (n : Z) (t : string) : Z := if n =? 0 then Z.of_nat (String.length t) else n.
Definition reread (created : Q) (done : option Q) (d : TranslatedDocument) : TranslatedDocument :=
  Document (doc_id d) (source_id d) (original_language d) (original_text d) (or_length (original_text_length d) (original_text d))
    (translated_text d) (or_length (translated_text_length d) (translated_text d)) (translation_provider d) (translation_quality_score d)
    (processing_time_ms d) (cached d) (status d) (error d) (retry_count d) (doc_metadata d) created done.
(** [TranslatedDocument( **doc_dict)]: the times are parsed. *)
Definition of_stored (s : stored_doc) : result pyexn TranslatedDocument :=
  match parse_datetime (st_created s), st_completed s with
  | None, _ => Err (ValidationError "created_at")
  | Some c, None => Ok (reread c None (st_doc s))
  | Some c, Some t =>
      match parse_datetime t with Some t => Ok (reread c (Some t) (st_doc s)) | None => Err (ValidationError "completed_at") end
  end.
Definition find_one (id : string) (l : list stored_doc) : option stored_doc := find (fun s => String.eqb (stored_id s) id) l.
(** A document that cannot be read is [None], like one that is not there. *)
Definition get_document (fault : option pyexn) (id : string) (st : doc_store) : option TranslatedDocument :=
  match fault, find_one id (mongo_docs st) with
  | None, Some s => match of_stored s with Ok d => Some d | Err _ => None end
  | _, _ => None
  end.
Fixpoint read_all (l : list stored_doc) : result pyexn (list TranslatedDocument) :=
  match l with [] => Ok [] | s :: l' => d <-! of_stored s; r <-! read_all l'; Ok (d :: r) end%py.
(** One unreadable document empties the answer.  A limit of 0 is none, the
    sign of a limit does not matter, a negative [skip] is refused. *)
Definition query_documents (fault : option pyexn) (filters : stored_doc -> bool) (limit skip : Z) (st : doc_store)
  : list TranslatedDocument :=
  match fault with
  | Some _ => []
  | None =>
      if skip <? 0 then [] else
      let l := drop (Z.to_nat skip) (List.filter filters (mongo_docs st)) in
      match read_all (if limit =? 0 then l else take (Z.to_nat (Z.abs limit)) l) with Ok r => r | Err _ => [] end
  end.

(** [select(key, count(id)).group_by(key)] *)
Definition group_by (key : doc_row -> string) (rows : list doc_row) : gmap string Z :=
  foldl (fun acc r => counter_add (key r) 1 acc) ∅ rows.
Record storage_stats := Stats {
  total_documents : Z; by_status : gmap string Z; by_provider : gmap string Z; mongodb_documents : Z }.
(** With both databases connected and answering *)
Definition get_statistics (st : doc_store) : storage_stats :=
  Stats (zlength (pg_rows st)) (group_by row_status (pg_rows st)) (group_by row_provider (pg_rows st)) (zlength (mongo_docs st)).
End storage.

(** ** What was saved is found *)

Lemma find_replace_one s l : find_one (stored_id s) (replace_one s l) = Some s.
Proof.
  induction l as [|x l IH]; simpl; [by rewrite String.eqb_refl|]. destruct (String.eqb _ _) eqn:E; simpl; [by rewrite String.eqb_refl|].
  by rewrite E.
Qed.
Lemma find_replace_other s l id : id <> stored_id s -> find_one id (replace_one s l) = find_one id l.
Proof.
  intros Hid. assert (String.eqb (stored_id s) id = false) as Hs by (by apply String.eqb_neq).
  unfold find_one in *. induction l as [|x l IH]; cbn [replace_one find]; [by rewrite Hs|].
  destruct (String.eqb (stored_id x) (stored_id s)) eqn:E; cbn [find]; [|by rewrite IH].
  apply String.eqb_eq in E. by rewrite E, Hs.
Qed.
(** The lengths a constructor leaves *)
Definition has_lengths (d : TranslatedDocument) : Prop :=
  original_text_length d = Z.of_nat (String.length (original_text d)) /\ translated_text_length d = Z.of_nat (String.length (translated_text d)).
Lemma reread_same d : has_lengths d -> reread (created_at d) (completed_at d) d = d.
Proof. intros [H1 H2]. unfold reread, or_length. rewrite H1, H2. repeat (case_match; try lia); destruct d; simpl in *; by subst. Qed.
Lemma new_document_fields id src lang o t p q ms c s e now fin d :
  new_document id src lang o t p q ms c s e now fin = Ok d ->
  has_lengths d /\ status d = s /\ error d = e /\ source_id d = src /\ original_language d = lang /\ original_text d = o /\
  translated_text d = t /\ translation_quality_score d = q.
Proof. unfold new_document. case_match; [|done]. by intros [= <-]. Qed.

Lemma saved_parts isoformat f d st st' : save_document isoformat f d st = (true, st') ->
  pg_rows st' = pg_rows st ++ [row_of d] /\
  mongo_docs st' = replace_one (Stored d (isoformat (created_at d)) (isoformat <$> completed_at d)) (mongo_docs st).
Proof.
  unfold save_document, _save_to_postgres. destruct (pg_fault f); [done|]. unfold rbind, TranslatedDocumentModel.
  destruct (existsb _ _); [done|]. destruct (negb _); [done|]. unfold _save_to_mongo. destruct (mongo_fault f); [done|].
  by intros [= <-].
Qed.

(** A document that was saved is found again as it was saved, with every
    other document untouched, and exactly one row was added to the metadata.
    For the times this rests on parsing being the inverse of printing them. *)
Theorem saved_document_found isoformat parse_datetime f d st st' :
  (forall t, parse_datetime (isoformat t) = Some t) -> has_lengths d ->
  save_document isoformat f d st = (true, st') ->
  get_document parse_datetime None (doc_id d) st' = Some d /\
  (forall id, id <> doc_id d -> get_document parse_datetime None id st' = get_document parse_datetime None id st) /\
  pg_rows st' = pg_rows st ++ [row_of d].
Proof.
  intros Hp Hl (Hpg & Hm)%saved_parts. set (s := Stored _ _ _) in Hm. assert (stored_id s = doc_id d) as Hs by done. split_and!; [| |done].
  - unfold get_document. rewrite Hm, <- Hs, find_replace_one. unfold of_stored, s. simpl. rewrite Hp.
    pose proof (reread_same d Hl) as Hr. destruct (completed_at d) as [t|]; simpl; [rewrite Hp|]; by rewrite Hr.
  - intros id Hid. unfold get_document. by rewrite Hm, find_replace_other.
Qed.

(** ** The two databases agree *)

Lemma group_by_total key rows : counter_total (group_by key rows) = zlength rows.
Proof.
  unfold group_by. assert (forall acc, counter_total (foldl (fun acc r => counter_add (key r) 1 acc) acc rows) = counter_total acc + zlength rows) as H.
  { induction rows as [|r rows IH]; intros acc; simpl; [unfold zlength; simpl; lia|]. rewrite IH, counter_total_add. unfold zlength. simpl. lia. }
  rewrite H. done.
Qed.
Lemma group_by_get key rows k :
  counter_get k (group_by key rows) = zlength (List.filter (fun r => String.eqb (key r) k) rows).
Proof.
  unfold group_by. assert (forall acc, counter_get k (foldl (fun acc r => counter_add (key r) 1 acc) acc rows) =
    counter_get k acc + zlength (List.filter (fun r => String.eqb (key r) k) rows)) as H.
  { unfold zlength. induction rows as [|r rows IH]; intros acc; simpl; [lia|]. rewrite IH.
    destruct (String.eqb_spec (key r) k) as [->|Hne]; simpl; [rewrite counter_get_add_eq; lia|by rewrite counter_get_add_ne]. }
  rewrite H, counter_get_empty. lia.
Qed.
Definition save_all isoformat (l : list (save_faults * TranslatedDocument)) (st : doc_store) : doc_store :=
  foldl (fun st fd => (save_document isoformat fd.1 fd.2 st).2) st l.
Lemma save_row isoformat f d st :
  let st' := (save_document isoformat f d st).2 in
  (pg_rows st' = pg_rows st /\ mongo_docs st' = mongo_docs st) \/
  ((forall r, r ∈ pg_rows st -> row_id r <> doc_id d) /\ pg_rows st' = pg_rows st ++ [row_of d] /\
   (mongo_docs st' = mongo_docs st /\ is_Some (mongo_fault f) \/
    mongo_docs st' = replace_one (Stored d (isoformat (created_at d)) (isoformat <$> completed_at d)) (mongo_docs st))).
Proof.
  unfold save_document, _save_to_postgres. destruct (pg_fault f); [by left|]. unfold rbind, TranslatedDocumentModel.
  destruct (existsb _ _) eqn:E; [by left|]. destruct (negb _); [by left|]. right. split.
  - intros r Hr Hid. assert (existsb (fun x => String.eqb (row_id x) (row_id (row_of d))) (pg_rows st) = true) as F; [|congruence].
    apply existsb_exists. exists r. split; [by apply list_elem_of_In|]. apply String.eqb_eq. by rewrite Hid.
  - unfold _save_to_mongo. destruct (mongo_fault f); simpl; (split; [done|]); [left|right]; split; done || by eexists.
Qed.

(** The invariant: one row per id, and a row for every document *)
Definition store_ok (st : doc_store) : Prop :=
  NoDup (row_id <$> pg_rows st) /\ (forall s, s ∈ mongo_docs st -> stored_id s ∈ (row_id <$> pg_rows st)).
Lemma elem_of_replace_one x s l : x ∈ replace_one s l -> x = s \/ x ∈ l.
Proof.
  induction l as [|y l IH]; simpl; [set_solver|]. destruct (String.eqb _ _); rewrite !elem_of_cons; naive_solver.
Qed.
Lemma save_document_ok isoformat f d st : store_ok st -> store_ok (save_document isoformat f d st).2.
Proof.
  intros [Hnd Hsub]. pose proof (save_row isoformat f d st) as H. cbn zeta in H.
  destruct (save_document isoformat f d st).2 as [pg mg]. simpl in H. unfold store_ok. simpl.
  destruct H as [[-> ->]|(Hnew & -> & Hm)]; [done|]. rewrite fmap_app. split.
  - apply NoDup_app. split_and!; [done| |apply NoDup_singleton].
    intros x (r & -> & Hr)%list_elem_of_fmap Hx. apply elem_of_cons in Hx as [E|Hx]; [by apply (Hnew r Hr)|set_solver].
  - intros s Hs. apply elem_of_app. destruct Hm as [[-> _]| ->]; [left; by apply Hsub|].
    apply elem_of_replace_one in Hs as [->|Hs]; [right; by left|left; by apply Hsub].
Qed.

(** Whatever is saved, in whatever order and whichever statements fail, the
    metadata has one row per document id, every document of the content store
    has its row, and the counts per status and per provider that the statistics
    report both add up to the number of documents. *)
Theorem storage_consistent isoformat l :
  let st := save_all isoformat l (Store [] []) in
  store_ok st /\
  counter_total (by_status (get_statistics st)) = total_documents (get_statistics st) /\
  counter_total (by_provider (get_statistics st)) = total_documents (get_statistics st) /\
  forall status, counter_get status (by_status (get_statistics st)) =
    zlength (List.filter (fun r => String.eqb (row_status r) status) (pg_rows st)).
Proof.
  cbn zeta. split_and!; [|apply group_by_total|apply group_by_total|].
  - unfold save_all. apply foldl_invariant; [|by split; [constructor|set_solver]]. intros st [f d] _. apply save_document_ok.
  - intros k. apply group_by_get.
Qed.

(** ** Concrete documents *)

Definition sample_doc (id : string) : TranslatedDocument :=
  Document id "src-1" (Detected "fr" (Some "French") 0.9) "bonjour" 7 "hello" 5 P_GOOGLE (Some 0.9%Q) 12 false COMPLETED None 0 [] 100 (Some 101%Q).
(** Times as the binary digits of an encoding *)
Fixpoint pos_text (p : positive) : string :=
  match p with xH => "" | xO p => String "0" (pos_text p) | xI p => String "1" (pos_text p) end.
Fixpoint text_pos (s : string) : positive :=
  match s with "" => xH | String c s => if Ascii.eqb c "0" then xO (text_pos s) else xI (text_pos s) end.
Lemma text_pos_text p : text_pos (pos_text p) = p.
Proof. induction p as [p IH|p IH|]; cbn [pos_text text_pos Ascii.eqb Bool.eqb]; by rewrite ?IH. Qed.
Definition sample_iso (t : Q) : string := pos_text (encode (Qnum t, Qden t)).
Definition sample_parse (s : string) : option Q := (fun p => Qmake p.1 p.2) <$> (decode (text_pos s) : option (Z * positive)).
Lemma sample_iso_parse t : sample_parse (sample_iso t) = Some t.
Proof. unfold sample_parse, sample_iso. rewrite text_pos_text, decode_encode. by destruct t. Qed.

Lemma saved_document_found_witness :
  get_document sample_parse None "d1" (save_document sample_iso (Faults None None) (sample_doc "d1") (Store [] [])).2 = Some (sample_doc "d1").
Proof.
  apply (saved_document_found sample_iso sample_parse (Faults None None) (sample_doc "d1") (Store [] [])
           (save_document sample_iso (Faults None None) (sample_doc "d1") (Store [] [])).2 sample_iso_parse); [done|].
  by vm_compute.
Defined.

(** The row of a document whose content could not be written stays, and the
    document can then not be saved any more. *)
Example row_left_behind :
  let st := (save_document sample_iso (Faults None (Some (PyExn "AutoReconnect" ""))) (sample_doc "d1") (Store [] [])).2 in
  zlength (pg_rows st) = 1 /\ mongo_docs st = [] /\ (save_document sample_iso (Faults None None) (sample_doc "d1") st).1 = false.
Proof. by vm_compute. Qed.
