(* ===== verification/Processing.v ===== *)
(** * The processing pipeline

    document_processor/processing/pipeline.py, from extracted chunks to stored
    documents: deduplication (Deduplicator.v), language detection (Language.v),
    translation (Translator.v), quality (Quality.v), the documents of
    infrastructure/storage.py (Documents.v) and the metrics of Models.v.  The chunks a source
    processor yields, the clock and the faults of the databases are arguments.
    [process_source] is the run of one source; in a batch the runs interleave
    at their awaits, and what they share besides the services, the metrics, is
    changed in one piece per source ([on_done]). *)

From Stdlib Require Import Ascii.
From S2P Require Import Prelude PyStr PyVal PyConv Deduplicator Quality Cache Language Translator Models Documents.
#[local] Open Scope py_scope.
#[local] Open Scope Z_scope.

(** ** Metrics *)

(** The update after a successful document *)
Definition count_success (lang prov : string) (hit : bool) (ms : Q) (m : ProcessingMetrics) : ProcessingMetrics :=
  let n := processed m + 1 in
  let total := (total_processing_time_ms m + ms)%Q in
  PMetrics (total_sources m) n (failed m) (skipped m) (cache_hits m + if hit then 1 else 0) (cache_misses m + if hit then 0 else 1)
    (total / inject_Z n)%Q total (counter_add lang 1 (languages_detected m)) (counter_add prov 1 (providers_used m))
    (start_time m) (end_time m).
Definition count_failure (m : ProcessingMetrics) : ProcessingMetrics :=
  PMetrics (total_sources m) (processed m) (failed m + 1) (skipped m) (cache_hits m) (cache_misses m) (avg_processing_time_ms m)
    (total_processing_time_ms m) (languages_detected m) (providers_used m) (start_time m) (end_time m).
Definition set_batch (n : Z) (start : Q) (m : ProcessingMetrics) : ProcessingMetrics :=
  PMetrics n (processed m) (failed m) (skipped m) (cache_hits m) (cache_misses m) (avg_processing_time_ms m)
    (total_processing_time_ms m) (languages_detected m) (providers_used m) start (end_time m).
Definition set_end (t : Q) (m : ProcessingMetrics) : ProcessingMetrics :=
  PMetrics (total_sources m) (processed m) (failed m) (skipped m) (cache_hits m) (cache_misses m) (avg_processing_time_ms m)
    (total_processing_time_ms m) (languages_detected m) (providers_used m) (start_time m) (Some t).

(** ** One source *)

Section pipeline.
Context {B : Type} `{BloomFilter B} {R : Type} `{RedisServer R}.
Context (sha256 md5 sha1 : string -> string) (float_repr : Q -> string) (detect : string -> result pyexn (string * Q)).
Context (isoformat : Q -> string).
Context (s : translation_settings).
#[local] Abbreviation dedup := (Dedup.Deduplicator (B := B)).

Record world := World {
  w_metrics : ProcessingMetrics; w_dedup : dedup; w_detector : LanguageDetector; w_router : TranslationRouter; w_cache : CacheManager R;
  w_store : doc_store }.
(** What a run meets: whether the processor takes the source, the chunks it
    yields (or what it raises), the providers, the clock at the start, when the
    translation is done and when the document is made, the id of the document,
    the faults of the databases *)
Record run_env := Run {
  can_process : bool; chunks : list (result pyexn string); providers : provider -> provider_env; t_start : Q; t_done : Q; t_now : Q;
  new_id : string; faults : save_faults }.

Definition set_metrics (m : ProcessingMetrics) (w : world) : world := World m (w_dedup w) (w_detector w) (w_router w) (w_cache w) (w_store w).
Definition set_store (st : doc_store) (w : world) : world := World (w_metrics w) (w_dedup w) (w_detector w) (w_router w) (w_cache w) st.
Definition set_dedup (d : dedup) (w : world) : world := World (w_metrics w) d (w_detector w) (w_router w) (w_cache w) (w_store w).

(** The chunks that are new *)
Fixpoint extract (cs : list (result pyexn string)) (d : dedup) : result pyexn (list string) * dedup :=
  match cs with
  | [] => (Ok [], d)
  | Err x :: _ => (Err x, d)
  | Ok c :: cs' =>
      match Dedup.is_duplicate sha256 md5 sha1 c None d with
      | (Err x, d) => (Err x, d)
      | (Ok dup, d) =>
          match extract cs' d with
          | (Ok l, d) => (Ok (if dup then l else c :: l), d)
          | (Err x, d) => (Err x, d)
          end
      end
  end.
Definition NL2 : string := String "010" (String "010" "").

(** What a successful run leaves: the document, the language, the translation *)
Definition work (src : SourceDocument) (e : run_env) (w : world)
  : result pyexn (TranslatedDocument * DetectedLanguage * TranslationResult) * world :=
  if negb (can_process e) then (Err (PyExn "ValueError" ("No processor for " +:+ SourceType_value (source_type src))), w) else
  match extract (chunks e) (w_dedup w) with
  | (Err x, d) => (Err x, set_dedup d w)
  | (Ok all_chunks, d) =>
      let w := set_dedup d w in
      let full_text := join NL2 all_chunks in
      if String.eqb (strip is_space full_text) "" then (Err (PyExn "ValueError" "No content extracted"), w) else
      match detect_language float_repr sha256 detect (redis_ttl s) full_text 1000 (w_detector w) (w_cache w) with
      | (Err x, ld, c) => (Err x, World (w_metrics w) d ld (w_router w) c (w_store w))
      | (Ok lang, ld, c) =>
          match translate s sha256 (providers e) float_repr detect full_text (Some (code lang)) "en" (priority src) ld (w_router w) c with
          | (Err x, ld, r, c) => (Err x, World (w_metrics w) d ld r c (w_store w))
          | (Ok t, ld, r, c) =>
              let w := World (w_metrics w) d ld r c (w_store w) in
              let q := check_quality quality_checker full_text (tr_text t) in
              match new_document (new_id e) (src_id src) lang (str_take 5000 full_text) (tr_text t) (tr_provider t)
                      (Some (overall_score q)) ((t_done e - t_start e) * 1000)%Q (tr_cached t) COMPLETED None (t_now e) (Some (t_now e)) with
              | Err x => (Err x, w)
              | Ok doc => (Ok (doc, lang, t), set_store (save_document isoformat (faults e) doc (w_store w)).2 w)
              end
          end
      end
  end.

Definition failed_document (src : SourceDocument) (e : run_env) (x : pyexn) : TranslatedDocument :=
  Document (new_id e) (src_id src) (Detected "unknown" None 0) "" 0 "" 0 P_NONE None ((t_done e - t_start e) * 1000)%Q false FAILED
    (Some (exn_str x)) 0 [] (t_now e) None.
Definition process_source (src : SourceDocument) (e : run_env) (w : world) : result pyexn TranslatedDocument * world :=
  match work src e w with
  | (Ok (doc, lang, t), w) =>
      (Ok doc, set_metrics (count_success (code lang) (TranslationProvider_value (tr_provider t)) (tr_cached t) (processing_time_ms doc)
                              (w_metrics w)) w)
  | (Err x, w) =>
      if CancelledError x then (Err x, w) else
      let w := set_metrics (count_failure (w_metrics w)) w in
      (Err x, set_store (save_document isoformat (faults e) (failed_document src e x) (w_store w)).2 w)
  end.
End pipeline.

(** ** Batches *)

(** What a run of a batch does to the metrics when it ends, in the order in
    which the runs end *)
Inductive run_done := Succeeded (lang prov : string) (hit : bool) (ms : Q) | FailedRun.
Definition on_done (m : ProcessingMetrics) (d : run_done) : ProcessingMetrics :=
  match d with Succeeded l p h ms => count_success l p h ms m | FailedRun => count_failure m end.
(** The results, in the order of the sources, and the metrics.  A cancelled run is
    no [Exception]: what cancelled it stays in the list. *)
Definition process_batch {A} (t1 t2 : Q) (results : list (result pyexn A)) (ends : list run_done) (m : ProcessingMetrics)
  : list (result pyexn A) * ProcessingMetrics :=
  (List.filter (fun r => match r with Ok _ => true | Err x => CancelledError x end) results,
   set_end t2 (foldl on_done (set_batch (zlength results) t1 m) ends)).
Definition reset_metrics (now : Q) : ProcessingMetrics := new_metrics now.

(** ** The metrics add up *)

(** What holds of the metrics after [n] runs have ended *)
Record metrics_ok (n : Z) (m : ProcessingMetrics) : Prop := {
  ok_runs : processed m + failed m = n;
  ok_counts : 0 <= processed m /\ 0 <= failed m /\ 0 <= cache_hits m /\ 0 <= cache_misses m;
  ok_cache : cache_hits m + cache_misses m = processed m;
  ok_languages : counter_total (languages_detected m) = processed m;
  ok_providers : counter_total (providers_used m) = processed m;
  ok_average : (avg_processing_time_ms m * inject_Z (processed m) == total_processing_time_ms m)%Q }.

Lemma Qmult_div_r' (a : Q) (n : Z) : n <> 0 -> (a / inject_Z n * inject_Z n == a)%Q.
Proof. intros Hn. field. intros H. apply Hn. apply inject_Z_injective. by rewrite H. Qed.
Lemma metrics_ok_new now : metrics_ok 0 (new_metrics now).
Proof. split; simpl; lia || done. Qed.
Lemma count_success_ok n l p h ms m : metrics_ok n m -> metrics_ok (n + 1) (count_success l p h ms m).
Proof.
  intros [Hr Hc Hh Hl Hp Ha].
  split; unfold count_success; cbn [processed failed cache_hits cache_misses languages_detected providers_used avg_processing_time_ms total_processing_time_ms];
    rewrite ?counter_total_add; try (destruct h; lia).
  apply Qmult_div_r'. lia.
Qed.
Lemma count_failure_ok n m : metrics_ok n m -> metrics_ok (n + 1) (count_failure m).
Proof. intros []. split; simpl; lia || done. Qed.
Lemma on_done_ok n m ds : metrics_ok n m -> metrics_ok (n + zlength ds) (foldl on_done m ds).
Proof.
  unfold zlength. revert n m. induction ds as [|d ds IH]; intros n m Hm; simpl; [by rewrite Z.add_0_r|].
  replace (n + Z.of_nat (S (length ds))) with (n + 1 + Z.of_nat (length ds)) by lia. apply IH.
  destruct d; [by apply count_success_ok|by apply count_failure_ok].
Qed.

Section runs.
Context {B : Type} `{BloomFilter B} {R : Type} `{RedisServer R}.
Context (sha256 md5 sha1 : string -> string) (float_repr : Q -> string) (detect : string -> result pyexn (string * Q)).
Context (isoformat : Q -> string).
Context (s : translation_settings).
#[local] Abbreviation process := (process_source (B := B) (R := R) sha256 md5 sha1 float_repr detect isoformat s).
#[local] Abbreviation worker := (work (B := B) (R := R) sha256 md5 sha1 float_repr detect isoformat s).
#[local] Abbreviation extracted := (extract (B := B) sha256 md5 sha1).

(** What a run leaves of the metrics before it ends *)
Lemma work_metrics src e w r w' : worker src e w = (r, w') -> w_metrics w' = w_metrics w.
Proof.
  unfold work. repeat (case_match; simplify_eq/=; try (intros [= <- <-]; done)).
Qed.
Lemma process_metrics src e w r w' : process src e w = (r, w') ->
  match r with
  | Ok _ => exists l p h ms, w_metrics w' = count_success l p h ms (w_metrics w)
  | Err x => w_metrics w' = if CancelledError x then w_metrics w else count_failure (w_metrics w)
  end.
Proof.
  unfold process_source. destruct (worker src e w) as [[[[doc lang] t]|x] w1] eqn:E; apply work_metrics in E as Hm.
  - intros [= <- <-]. simpl. rewrite Hm. eauto.
  - destruct (CancelledError x) eqn:Ec; intros [= <- <-]; rewrite Ec; simpl; by rewrite Hm.
Qed.

(** The operations of the pipeline, in the order in which they come *)
Inductive pipeline_op :=
| ProcessSource (src : SourceDocument) (e : run_env)
| ProcessBatch (t1 t2 : Q) (results : list (result pyexn TranslatedDocument)) (ends : list run_done)
| ResetMetrics (now : Q).
Definition run_op (w : world (B := B) (R := R)) (o : pipeline_op) : world :=
  match o with
  | ProcessSource src e => (process src e w).2
  | ProcessBatch t1 t2 results ends => set_metrics (process_batch t1 t2 results ends (w_metrics w)).2 w
  | ResetMetrics now => set_metrics (reset_metrics now) w
  end.
(** The runs that have ended, not counting cancelled ones, since the last reset *)
Fixpoint ended (n : Z) (ops : list pipeline_op) (w : world (B := B) (R := R)) : Z :=
  match ops with
  | [] => n
  | o :: ops' =>
      ended (match o with
             | ProcessSource src e =>
                 match (process src e w).1 with Err x => if CancelledError x then n else n + 1 | Ok _ => n + 1 end
             | ProcessBatch _ _ _ ends => n + zlength ends
             | ResetMetrics _ => 0
             end) ops' (run_op w o)
  end.
Lemma pipeline_ops_ok n ops w : metrics_ok n (w_metrics w) -> metrics_ok (ended n ops w) (w_metrics (foldl run_op w ops)).
Proof.
  revert n w. induction ops as [|o ops IH]; intros n w Hm; [done|]. cbn [ended foldl]. apply IH. destruct o as [src e|t1 t2 rs ends|now]; cbn [run_op].
  - destruct (process src e w) as [r w'] eqn:E. apply process_metrics in E. simpl. destruct r as [d|x].
    + destruct E as (l & p & h & ms & ->). by apply count_success_ok.
    + rewrite E. destruct (CancelledError x); [done|by apply count_failure_ok].
  - unfold process_batch. cbn [set_metrics w_metrics snd].
    assert (metrics_ok n (set_batch (zlength rs) t1 (w_metrics w))) as Hb by (by destruct Hm).
    pose proof (on_done_ok n _ ends Hb) as []. by split.
  - apply metrics_ok_new.
Qed.

(** C33: The metrics add up.  After any mix of single sources, batches (their
    runs ending in any order) and resets, the processed and the failed runs
    are the runs that ended since the last reset, the cache hits and misses,
    the counts per language and the counts per provider each add up to the
    processed ones, and the average time is the total over them. *)
Theorem metrics_add_up now ops (w : world (B := B) (R := R)) :
  let w0 := set_metrics (reset_metrics now) w in
  metrics_ok (ended 0 ops w0) (w_metrics (foldl run_op w0 ops)).
Proof. apply pipeline_ops_ok, metrics_ok_new. Qed.

(** ** The document of a run *)

(** What a run keeps of the chunks it is given: those the deduplicator has not
    seen, each asked for in its turn *)
Inductive fresh_of : Dedup.Deduplicator (B := B) -> list (result pyexn string) -> list string -> Prop :=
| F_end d : fresh_of d [] []
| F_seen d c d' cs l : Dedup.is_duplicate sha256 md5 sha1 c None d = (Ok true, d') -> fresh_of d' cs l -> fresh_of d (Ok c :: cs) l
| F_new d c d' cs l : Dedup.is_duplicate sha256 md5 sha1 c None d = (Ok false, d') -> fresh_of d' cs l -> fresh_of d (Ok c :: cs) (c :: l).
Lemma extract_fresh cs d l d' : extracted cs d = (Ok l, d') -> fresh_of d cs l.
Proof.
  revert d l. induction cs as [|[c|x] cs IH]; intros d l; cbn [extract]; [intros [= <- <-]; constructor| |done].
  destruct (Dedup.is_duplicate _ _ _ c None d) as [[dup|x] d1] eqn:E; [|done]. destruct (extracted cs d1) as [[l'|x] d2] eqn:El; [|done].
  intros [= <- <-]. apply IH in El. destruct dup; [by eapply F_seen|by eapply F_new].
Qed.

(** A run that is done with its document *)
Lemma work_done src e w doc lang t w' : worker src e w = (Ok (doc, lang, t), w') ->
  exists fresh full ld c ld' r' c', fresh_of (w_dedup w) (chunks e) fresh /\ full = join NL2 fresh /\ strip is_space full <> "" /\
    detect_language float_repr sha256 detect (redis_ttl s) full 1000 (w_detector w) (w_cache w) = (Ok lang, ld, c) /\
    translate s sha256 (providers e) float_repr detect full (Some (code lang)) "en" (priority src) ld (w_router w) c = (Ok t, ld', r', c') /\
    new_document (new_id e) (src_id src) lang (str_take 5000 full) (tr_text t) (tr_provider t)
      (Some (overall_score (check_quality quality_checker full (tr_text t))))
      ((t_done e - t_start e) * 1000)%Q (tr_cached t) COMPLETED None (t_now e) (Some (t_now e)) = Ok doc /\
    w_store w' = (save_document isoformat (faults e) doc (w_store w)).2.
Proof.
  unfold work. destruct (can_process e); [|done]. cbn [negb]. destruct (extracted (chunks e) (w_dedup w)) as [[cs|] d] eqn:Ex; [|done].
  apply extract_fresh in Ex. cbn [w_detector w_router w_cache set_dedup].
  set (full := join NL2 cs). destruct (String.eqb_spec (strip is_space full) "") as [|Hne]; [done|].
  destruct (detect_language _ _ _ _ _ _ _ _) as [[[l|x] ld] c] eqn:Ed; [|done].
  destruct (translate _ _ _ _ _ _ _ _ _ _ _ _) as [[[[t'|x] ld'] r'] c'] eqn:Et; [|done].
  destruct (new_document _ _ _ _ _ _ _ _ _ _ _ _ _) as [doc'|x] eqn:En; [|done].
  intros [= -> -> -> <-]. exists cs, full, ld, c, ld', r', c'. split_and!; done.
Qed.

(** C32: The document a successful run returns is made of the whole text the run
    extracted, the chunks that the deduplicator had not seen, with an empty line
    between them, which is not blank: its language is the one detected for
    that text, its translation what the translator answers for the whole of
    that text, from that language to English with the source's priority, its
    provider and cache flag the translator's, its original text the first 5000
    characters and its quality score the checker's for text and
    translation, between 0 and 1 like the confidence of the language.  It is
    completed, without an error, names its source, and is the document the run
    hands to the store. *)
Theorem processed_document_sound src e w doc w' :
  process_source (B := B) (R := R) sha256 md5 sha1 float_repr detect isoformat s src e w = (Ok doc, w') ->
  exists fresh full ld c t ld' r' c', fresh_of (w_dedup w) (chunks e) fresh /\
    full = join (String "010" (String "010" "")) fresh /\ strip is_space full <> "" /\
    detect_language float_repr sha256 detect (redis_ttl s) full 1000 (w_detector w) (w_cache w) = (Ok (original_language doc), ld, c) /\
    (0 <= confidence (original_language doc) <= 1)%Q /\
    translate s sha256 (providers e) float_repr detect full (Some (code (original_language doc))) "en" (priority src) ld (w_router w) c
      = (Ok t, ld', r', c') /\
    translated_text doc = tr_text t /\ translation_provider doc = tr_provider t /\ cached doc = tr_cached t /\
    original_text doc = str_take 5000 full /\ has_lengths doc /\
    (exists q, translation_quality_score doc = Some q /\ q = overall_score (check_quality quality_checker full (tr_text t)) /\ (0 <= q <= 1)%Q) /\
    status doc = COMPLETED /\ error doc = None /\ source_id doc = src_id src /\
    w_store w' = (save_document isoformat (faults e) doc (w_store w)).2.
Proof.
  unfold process_source. destruct (worker src e w) as [[[[d l] t]|x] w1] eqn:E; [|by destruct (CancelledError x)].
  intros [= -> <-]. apply work_done in E as (fresh & full & ld & c & ld' & r' & c' & Hf & Hj & Hne & Hd & Ht & Hn & Hst).
  unfold new_document in Hn. destruct (in_unit _); [|done]. injection Hn as <-. exists fresh, full, ld, c, t, ld', r', c'. cbn [set_metrics w_store].
  apply detection_in_unit in Hd as Hu'. repeat (split; [done|]). split; [|done]. eexists. split; [reflexivity|]. split; [done|].
  destruct (Forall_cons_1 _ _ _ (check_quality_unit quality_checker full (tr_text t))) as [Hu _]. apply Hu.
Qed.

(** What a run that succeeds leaves in the store *)
Lemma process_saves src e w doc w' : process src e w = (Ok doc, w') ->
  has_lengths doc /\ w_store w' = (save_document isoformat (faults e) doc (w_store w)).2.
Proof.
  unfold process_source. destruct (worker src e w) as [[[[d l] t]|x] w1] eqn:E; [|by destruct (CancelledError x)].
  intros [= -> <-]. apply work_done in E as (fresh & full & ld & c & ld' & r' & c' & _ & _ & _ & _ & _ & Hn & Hst). by apply new_document_fields in Hn as (Hl & _).
Qed.

(** What is left of a run that fails *)
Lemma work_failed src e w x w' : worker src e w = (Err x, w') -> w_store w' = w_store w.
Proof. unfold work. repeat (case_match; simplify_eq/=; try (intros [= <- <-]; done)). Qed.

(** C38: A run that fails, other than by cancellation, raises what went wrong
    again; the failed runs are one more, and every other metric is what it
    was.  The run hands the store one document, which names the source, has the
    failed status and the text of the error, an unknown language, no text, no
    translation, no provider and no quality score, and is not marked as cached
    or completed; if the store takes it, it is found again under its id. *)
Theorem failed_run_recorded parse_datetime src e w x w' : (forall t, parse_datetime (isoformat t) = Some t) ->
  process src e w = (Err x, w') -> CancelledError x = false ->
  let m := w_metrics w in let m' := w_metrics w' in
  (failed m' = failed m + 1 /\ total_sources m' = total_sources m /\ processed m' = processed m /\ skipped m' = skipped m /\
   cache_hits m' = cache_hits m /\ cache_misses m' = cache_misses m /\ avg_processing_time_ms m' = avg_processing_time_ms m /\
   total_processing_time_ms m' = total_processing_time_ms m /\ languages_detected m' = languages_detected m /\
   providers_used m' = providers_used m /\ start_time m' = start_time m /\ end_time m' = end_time m) /\
  exists doc taken, save_document isoformat (faults e) doc (w_store w) = (taken, w_store w') /\
    doc_id doc = new_id e /\ created_at doc = t_now e /\ source_id doc = src_id src /\ status doc = FAILED /\ error doc = Some (exn_str x) /\
    code (original_language doc) = "unknown" /\ confidence (original_language doc) = 0%Q /\
    original_text doc = "" /\ original_text_length doc = 0 /\ translated_text doc = "" /\ translated_text_length doc = 0 /\
    translation_provider doc = P_NONE /\ translation_quality_score doc = None /\ cached doc = false /\ retry_count doc = 0 /\
    doc_metadata doc = [] /\ processing_time_ms doc = ((t_done e - t_start e) * 1000)%Q /\ completed_at doc = None /\
    (taken = true -> get_document parse_datetime None (doc_id doc) (w_store w') = Some doc).
Proof.
  intros Hparse. unfold process_source. destruct (worker src e w) as [[[[d l] t]|y] w1] eqn:E; [done|].
  apply work_metrics in E as Hm. apply work_failed in E as Hs.
  destruct (CancelledError y) eqn:Ec; intros [= <- <-]; [congruence|]. intros _. cbn [set_metrics set_store w_metrics w_store]. rewrite Hm, Hs.
  split; [done|]. exists (failed_document src e y). destruct (save_document _ _ _ _) as [taken st] eqn:Es. exists taken. split_and!; try done.
  intros ->. by eapply saved_document_found in Es as [Hg _].
Qed.

(** ** Sources that come again *)

Context `{!BloomLaws B}.

(** Every chunk is known to the filter. *)
Definition known (cs : list (result pyexn string)) (d : Dedup.Deduplicator (B := B)) : Prop :=
  Dedup.use_exact d = false /\ forall c, Ok c ∈ cs -> bloom_mem (Dedup.digest sha256 md5 sha1 c) (Dedup.bloom d) = true.
Lemma extract_known cs d : known cs d -> Forall (fun r => is_ok r = true) cs -> exists d', extracted cs d = (Ok [], d').
Proof.
  intros [Hx Hk] Hok. revert d Hx Hk. induction Hok as [|[c|x] cs Hc Hok IH]; intros d Hx Hk; [by eexists| |done]. cbn [extract].
  rewrite Dedup.is_duplicate_found; [|done|apply Hk; by left].
  destruct (IH (Dedup.count_duplicate (Dedup.count_seen d))) as [d' Hd']; [done|intros c' Hc'; apply Hk; by right|]. rewrite Hd'. by eexists.
Qed.
Lemma is_duplicate_knows c d b d' : Dedup.use_exact d = false -> Dedup.is_duplicate sha256 md5 sha1 c None d = (Ok b, d') ->
  Dedup.use_exact d' = false /\ bloom_mem (Dedup.digest sha256 md5 sha1 c) (Dedup.bloom d') = true /\
  forall h, bloom_mem h (Dedup.bloom d) = true -> bloom_mem h (Dedup.bloom d') = true.
Proof.
  intros Hx. unfold Dedup.is_duplicate. cbn [Dedup.use_exact Dedup.count_seen Dedup.set_counts]. rewrite Hx.
  destruct (bloom_mem _ _) eqn:Em; [by intros [= <- <-]|]. destruct (bloom_add _ _) as [bl|] eqn:Ea; [|done]. intros [= <- <-]. simpl.
  split_and!; [done|by eapply bloom_add_mem|]. intros h Hh. by eapply bloom_add_mono.
Qed.
Lemma extract_knows cs d l d' : Dedup.use_exact d = false -> extracted cs d = (Ok l, d') ->
  known cs d' /\ Forall (fun r => is_ok r = true) cs /\ forall h, bloom_mem h (Dedup.bloom d) = true -> bloom_mem h (Dedup.bloom d') = true.
Proof.
  revert d l. induction cs as [|[c|x] cs IH]; intros d l Hx; cbn [extract]; [| |done].
  { intros [= <- <-]. split_and!; [split; [done|set_solver]|constructor|done]. }
  destruct (Dedup.is_duplicate _ _ _ _ _ _) as [[b|x] d1] eqn:E; [|done]. apply is_duplicate_knows in E as (Hx1 & Hc & Hm); [|done].
  destruct (extracted cs d1) as [[l1|x] d2] eqn:E2; [|done]. intros [= <- <-]. destruct (IH _ _ Hx1 E2) as ([Hx2 Hk] & Hok & Hm2).
  split_and!; [split; [done|]|by constructor|by auto]. intros c' [[= ->]|Hc']%elem_of_cons; [by apply Hm2|by apply Hk].
Qed.
Lemma work_dedup src e w r w' : worker src e w = (r, w') -> can_process e = true -> w_dedup w' = (extracted (chunks e) (w_dedup w)).2.
Proof.
  unfold work. intros Hw Hp. rewrite Hp in Hw. revert Hw. cbn [negb]. destruct (extracted (chunks e) (w_dedup w)) as [[cs|] d].
  - repeat (case_match; simplify_eq/=; try (intros [= <- <-]; done)).
  - by intros [= <- <-].
Qed.
Lemma process_dedup src e w : can_process e = true -> w_dedup (process src e w).2 = (extracted (chunks e) (w_dedup w)).2.
Proof.
  intros Hp. unfold process_source. destruct (worker src e w) as [[[[d l] t]|y] w1] eqn:E; apply work_dedup in E; try done.
  by destruct (CancelledError y).
Qed.

(** A source is never processed twice, not even after a failure.  Once all
    chunks of a source have been read, whatever then became of its run (the
    translation may have failed), the next run over the same chunks finds only
    duplicates and raises "No content extracted". *)
Theorem second_run_refused src src' e e' w : Dedup.use_exact (w_dedup w) = false -> can_process e = true -> can_process e' = true ->
  chunks e' = chunks e -> is_ok (extracted (chunks e) (w_dedup w)).1 = true ->
  (process src' e' (process src e w).2).1 = Err (PyExn "ValueError" "No content extracted").
Proof.
  intros Hx Hp Hp' Hc Hok. pose proof (process_dedup src e w Hp) as Hd. destruct (process src e w) as [r w1]. simpl in Hd |- *.
  destruct (extracted (chunks e) (w_dedup w)) as [[l|] d] eqn:E; [|done]. apply extract_knows in E as (Hk & Ho & _); [|done].
  destruct (extract_known (chunks e) d Hk Ho) as [d' Hd']. unfold process_source, work. rewrite Hp', Hc, Hd. cbn [negb snd].
  by rewrite Hd'.
Qed.
End runs.

(** ** Concrete runs *)

Definition demo_src : SourceDocument := Source "src-1" WEB (Some "https://example.org") None [] "balanced" 0.
Definition demo_run (cs : list (result pyexn string)) : run_env := Run true cs demo_env 10 12 13 "doc-1" (Faults None None).
Definition french : list (result pyexn string) := [Ok "bonjour tout le monde"; Ok "la seconde partie"].
Definition demo_world : world (B := Z * gset string) (R := redisd) :=
  World (new_metrics 0) (dd_state false) (Detector true 0 0) demo_router up_cache (Store [] []).
Definition demo_process (cs : list (result pyexn string)) (w : world (B := Z * gset string) (R := redisd)) :=
  process_source id id id (fun _ => "0.9") (fun _ => Ok ("fr", 0.9%Q)) sample_iso demo_settings demo_src (demo_run cs) w.

Lemma demo_french_ok : is_ok (demo_process french demo_world).1 = true.
Proof. by vm_compute. Qed.

Lemma processed_document_sound_witness : exists doc, (demo_process french demo_world).1 = Ok doc /\ status doc = COMPLETED /\
  exists fresh, original_text doc = str_take 5000 (join NL2 fresh).
Proof.
  pose proof demo_french_ok as Hok. destruct (demo_process french demo_world) as [[doc|x] w'] eqn:E; [|discriminate Hok]. exists doc.
  destruct (processed_document_sound id id id (fun _ => "0.9") (fun _ => Ok ("fr", 0.9%Q)) sample_iso demo_settings demo_src
              (demo_run french) demo_world doc w' E) as (fresh & full & ? & ? & ? & ? & ? & ? & _ & Hf & _ & _ & _ & _ & _ & _ & _ & Ho & _ & _ & Hs & _).
  split; [exact eq_refl|]. split; [exact Hs|]. exists fresh. rewrite Ho, Hf. exact eq_refl.
Defined.
Lemma failed_run_recorded_witness : failed (w_metrics (demo_process [Ok "  "] demo_world).2) = 1.
Proof.
  destruct (demo_process [Ok "  "] demo_world) as [[doc|x] w'] eqn:E; [by vm_compute in E|].
  destruct (failed_run_recorded id id id (fun _ => "0.9") (fun _ => Ok ("fr", 0.9%Q)) sample_iso demo_settings sample_parse demo_src
              (demo_run [Ok "  "]) demo_world x w' sample_iso_parse E) as ((Hm & _) & _); [vm_compute in E; by injection E as <- <-|]. cbn [snd]. by rewrite Hm.
Defined.
Lemma second_run_refused_witness :
  (demo_process french (demo_process french demo_world).2).1 = Err (PyExn "ValueError" "No content extracted").
Proof.
  apply (second_run_refused id id id (fun _ => "0.9") (fun _ => Ok ("fr", 0.9%Q)) sample_iso demo_settings demo_src demo_src
           (demo_run french) (demo_run french) demo_world); reflexivity.
Defined.

(** A document the store refuses is counted as processed like any other. *)
Example unsaved_document_counted :
  let e := Run true french demo_env 10 12 13 "doc-1" (Faults (Some (PyExn "OperationalError" "")) None) in
  let '(r, w) := process_source id id id (fun _ => "0.9") (fun _ => Ok ("fr", 0.9%Q)) sample_iso demo_settings demo_src e demo_world in
  is_ok r = true /\ processed (w_metrics w) = 1 /\ w_store w = Store [] [].
Proof. by vm_compute. Qed.
(** [total_sources] is that of the last batch while [processed] goes on: two
    batches of one document leave a success rate of 200 percent. *)
Example success_rate_over_100 :
  let b m := (process_batch 0 1 [Ok tt] [Succeeded "fr" "azure" false 5] m).2 in
  (success_rate (b (b (new_metrics 0))) == 200)%Q.
Proof. by vm_compute. Qed.
