(* ===== verification/AuthRoutes.v ===== *)
(** * Authentication routes

    auth/dependencies.py, api/auth_routes.py and the access tokens of
    auth/service.py, over the service of AuthService.v.  A request is what the
    handlers read of it; a handler answers with a value, an HTTP error or an
    exception it does not catch, and says what it did to the cookie of the
    response object it was given.  JSON Web Tokens are the typeclass [Jwt]. *)

From S2P Require Import Prelude PyStr PyVal PyConv Json AuthService.
From Stdlib Require Import Ascii.
#[local] Open Scope Z_scope.

(** ** Access tokens *)

#[local] Abbreviation claims := (list (string * pyval)).

(** PyJWT: [jwt_decode secret now token], with [exp], [sub] and [typ]
    required, is an error for a token that does not verify. *)
Class Jwt := {
  jwt_encode : string -> claims -> string;
  jwt_decode : string -> Q -> string -> result string claims }.
(** A token whose payload is JSON verifies under the secret it was signed with from the time it was
    issued until it expires, and not after; what it decodes to has the
    required claims, of whatever type, and an expiry that [int()] reads as a
    time still to come. *)
Class JwtLaws `{Jwt} := {
  jwt_roundtrip secret now c e i sub typ : json_safe (PDict c) ->
    dict_get "exp" c = Some (PInt e) -> dict_get "iat" c = Some (PInt i) -> dict_get "sub" c = Some (PStr sub) ->
    dict_get "typ" c = Some typ -> (inject_Z i <= now < inject_Z e)%Q -> jwt_decode secret now (jwt_encode secret c) = Ok c;
  jwt_required secret now tok c : jwt_decode secret now tok = Ok c ->
    exists v e, dict_get "exp" c = Some v /\ int_of v = Ok e /\ (now < inject_Z e)%Q /\
      is_Some (dict_get "sub" c) /\ is_Some (dict_get "typ" c) }.

Record token_settings := TokSettings {
  auth_jwt_secret : string; auth_access_token_ttl_minutes : Z; auth_cookie_name : string }.

Section tokens.
Context `{Jwt} (tcfg : token_settings).

(** [jti] is the draw of [secrets.token_urlsafe]. *)
Definition access_claims (jti : string) (now : Q) (u : User) : claims :=
  let ttl := auth_access_token_ttl_minutes tcfg * 60 in
  [("sub", PStr (user_id u)); ("usr", PStr (user_username u)); ("rol", PStr (user_role u)); ("iat", PInt (py_int now));
   ("exp", PInt (py_int (now + inject_Z ttl)%Q)); ("jti", PStr jti); ("typ", PStr "access")].
Definition mint_access_token (jti : string) (now : Q) (u : User) : string * Z :=
  (jwt_encode (auth_jwt_secret tcfg) (access_claims jti now u), auth_access_token_ttl_minutes tcfg * 60).
Definition decode_access_token (now : Q) (token : string) : result auth_error claims :=
  match jwt_decode (auth_jwt_secret tcfg) now token with
  | Err m => Err (InvalidToken m)
  | Ok c => if bool_decide (dict_get "typ" c = Some (PStr "access")) then Ok c else Err (InvalidToken "wrong token type")
  end.

(** ** Who is asking *)

Record http_request := Request {
  x_forwarded_for : option string; client_host : option string; x_refresh_token : option string; x_access_token : option string;
  q_access_token : option string; q_token : option string; bearer : option (string * string); refresh_cookie : option string }.

Definition _client_ip (r : http_request) : option string :=
  if truthy_str (x_forwarded_for r) then
    let ip := strip is_space (hd "" (split "," (default "" (x_forwarded_for r)))) in
    if String.eqb ip "" then None else Some ip
  else client_host r.

Definition or_none (o : option string) : option string := if truthy_str o then o else None.
Definition _extract_token (r : http_request) : option string :=
  match bearer r with
  | Some (scheme, cred) =>
      if String.eqb (lower scheme) "bearer" then Some cred
      else if truthy_str (x_access_token r) then x_access_token r
      else or_none (if truthy_str (q_access_token r) then q_access_token r else q_token r)
  | None =>
      if truthy_str (x_access_token r) then x_access_token r
      else or_none (if truthy_str (q_access_token r) then q_access_token r else q_token r)
  end.

(** A token that the secret signs comes from [mint_access_token], and its
    [sub] is a string.  (The lookup of another value would raise in the
    driver; here too it authenticates nobody.) *)
Definition _user_from_token (now : Q) (token : option string) (d : db) : option User :=
  if negb (truthy_str token) then None else
  match decode_access_token now (default "" token) with
  | Err _ => None
  | Ok c =>
      match dict_get "sub" c with
      | Some (PStr sub) => match get_user sub d with Some u => if user_active u then Some u else None | None => None end
      | _ => None
      end
  end.

Inductive http_error :=
| HTTPException (status : Z) (detail : string)
| Unhandled (e : auth_error).

Definition get_current_user (now : Q) (r : http_request) (d : db) : result http_error User :=
  match _user_from_token now (_extract_token r) d with
  | Some u => Ok u
  | None => Err (HTTPException 401 "authentication required")
  end.
Definition get_optional_user (now : Q) (r : http_request) (d : db) : option User := _user_from_token now (_extract_token r) d.
End tokens.

(** ** Requests *)

Record RegisterRequest := RegisterReq {
  reg_username : string; reg_password : string; reg_email : option string; reg_display_name : option string }.
Record LoginRequest := LoginReq { log_identifier : string; log_password : string }.

Definition within (lo hi : nat) (s : string) : bool := (lo <=? String.length s)%nat && (String.length s <=? hi)%nat.
(** USERNAME_PATTERN *)
Definition username_pattern (s : string) : bool :=
  within 3 64 s && str_forallb (fun c => is_upper c || is_lower c || is_digit c || char_in c "_-") s.
Definition upper_char (c : ascii) : ascii := if is_lower c then ascii_of_nat (nat_of_ascii c - 32) else c.
Fixpoint upper (s : string) : string := match s with "" => "" | String c s' => String (upper_char c) (upper s') end.
Definition password_complexity (v : string) : bool :=
  negb (String.eqb (lower v) v || String.eqb (upper v) v) && any_char is_digit v &&
  negb (startswith " " v || endswith " " v).
(** [email_ok] stands for the [EmailStr] validator. *)
Definition valid_register (email_ok : string -> bool) (p : RegisterRequest) : bool :=
  username_pattern (reg_username p) && within 10 256 (reg_password p) && password_complexity (reg_password p) &&
  match reg_email p with Some e => email_ok e | None => true end &&
  match reg_display_name p with Some n => (String.length n <=? 128)%nat | None => true end.
Definition valid_login (p : LoginRequest) : bool := within 3 256 (log_identifier p) && within 1 256 (log_password p).

(** ** Responses *)

Record PublicUser := Public {
  pub_id : string; pub_email : option string; pub_username : string; pub_display_name : option string; pub_role : string;
  pub_last_login : option Q }.
Definition public_user (u : User) : PublicUser :=
  Public (user_id u) (user_email u) (user_username u) (user_display_name u) (user_role u) (user_last_login u).
Record AuthTokens := Tokens { access_token : string; expires_in : Z; tokens_user : PublicUser }.

(** What a handler does to the cookie of its response object *)
Inductive cookie_op := SetCookie (value : string) (max_age : Z) | DeleteCookie.
(** A handler answers with a model or with a response of its own. *)
Inductive answer (A : Type) := Model (status : Z) (a : A) | Direct (status : Z).
Arguments Model {A}. Arguments Direct {A}.

(** [str(exc)] *)
Definition auth_str (in_login : bool) (e : auth_error) : string :=
  match e with
  | InvalidCredentials => "invalid credentials"
  | AccountLocked => "account temporarily locked"
  | AccountDisabled => "account disabled"
  | DuplicateUser => "username or email already taken"
  | RateLimited => if in_login then "too many login attempts — slow down" else "too many registration attempts from this address"
  | InvalidToken m => m
  | WeakPassword m => m
  | IntegrityError => ""
  end.

(** The draws of a request: the id and the salt of a new user, the [jti], the
    id and the text of a new refresh token *)
Record draws := Draws { d_uuid : string; d_salt : string; d_jti : string; d_rid : string; d_raw : string }.

Section routes.
Context `{Jwt} (sha256 : string -> string) `{PasswordHasher} (cfg : auth_settings) (tcfg : token_settings) (email_ok : string -> bool).

Definition _set_refresh_cookie (token : string) : cookie_op := SetCookie token (auth_refresh_token_ttl_days cfg * 24 * 3600).
Definition _clear_refresh_cookie : cookie_op := DeleteCookie.

(** The end of a registration and of a login *)
Definition grant (status : Z) (now : Q) (g : draws) (u : User) (d : db)
  : result http_error (answer AuthTokens) * option cookie_op * db :=
  let '(access, ttl) := mint_access_token tcfg (d_jti g) now u in
  match issue_refresh_token sha256 cfg (d_rid g) (d_raw g) u None now d with
  | (Err e, d) => (Err (Unhandled e), None, d)
  | (Ok refresh, d) => (Ok (Model status (Tokens access ttl (public_user u))), Some (_set_refresh_cookie refresh), d)
  end.

(** A body the model refuses is answered 422 before the handler runs. *)
Definition unprocessable : http_error := HTTPException 422 "validation error".

Definition register_route (payload : RegisterRequest) (r : http_request) (now : Q) (g : draws) (d : db)
  : result http_error (answer AuthTokens) * option cookie_op * db :=
  if negb (valid_register email_ok payload) then (Err unprocessable, None, d) else
  match register cfg (d_uuid g) (d_salt g) (reg_username payload) (reg_password payload) (reg_email payload)
          (reg_display_name payload) (_client_ip r) now d with
  | (Err e, d) =>
      (Err (match e with
            | WeakPassword _ => HTTPException 400 (auth_str false e)
            | DuplicateUser => HTTPException 409 (auth_str false e)
            | RateLimited => HTTPException 429 (auth_str false e)
            | _ => Unhandled e
            end), None, d)
  | (Ok u, d) => grant 201 now g u d
  end.

Definition login_route (payload : LoginRequest) (r : http_request) (now : Q) (g : draws) (d : db)
  : result http_error (answer AuthTokens) * option cookie_op * db :=
  if negb (valid_login payload) then (Err unprocessable, None, d) else
  match authenticate cfg (log_identifier payload) (log_password payload) (_client_ip r) (d_salt g) now d with
  | (Err e, d) =>
      (Err (match e with
            | InvalidCredentials => HTTPException 401 "invalid credentials"
            | AccountLocked => HTTPException 423 (auth_str true e)
            | AccountDisabled => HTTPException 403 (auth_str true e)
            | RateLimited => HTTPException 429 (auth_str true e)
            | _ => Unhandled e
            end), None, d)
  | (Ok u, d) => grant 200 now g u d
  end.

Definition refresh_route (r : http_request) (now : Q) (g : draws) (d : db)
  : result http_error (answer AuthTokens) * option cookie_op * db :=
  let raw := if truthy_str (refresh_cookie r) then refresh_cookie r else x_refresh_token r in
  if negb (truthy_str raw) then (Err (HTTPException 401 "no refresh token"), None, d) else
  match rotate_refresh_token sha256 cfg (d_rid g) (default "" raw) (d_raw g) now d with
  | (Err (InvalidToken _), d) => (Err (HTTPException 401 "invalid refresh token"), Some _clear_refresh_cookie, d)
  | (Err AccountDisabled, d) => (Err (HTTPException 403 (auth_str false AccountDisabled)), Some _clear_refresh_cookie, d)
  | (Err e, d) => (Err (Unhandled e), None, d)
  | (Ok (u, new), d) =>
      let '(access, ttl) := mint_access_token tcfg (d_jti g) now u in
      (Ok (Model 200 (Tokens access ttl (public_user u))), Some (_set_refresh_cookie new), d)
  end.

Definition logout (r : http_request) (d : db) : result http_error (answer unit) * option cookie_op * db :=
  let d := if truthy_str (refresh_cookie r) then revoke_refresh_token sha256 (default "" (refresh_cookie r)) "logout" d else d in
  (Ok (Direct 204), Some _clear_refresh_cookie, d).

Definition logout_all (r : http_request) (now : Q) (d : db) : result http_error (answer unit) * option cookie_op * db :=
  match get_current_user tcfg now r d with
  | Err e => (Err e, None, d)
  | Ok u => (Ok (Direct 204), Some _clear_refresh_cookie, revoke_all_for_user (user_id u) "user_logout_all" d)
  end.

Definition me (r : http_request) (now : Q) (d : db) : result http_error PublicUser :=
  match get_current_user tcfg now r d with Ok u => Ok (public_user u) | Err e => Err e end.
End routes.

(** ** Only the holder of a valid token *)

Section access.
Context `{JwtLaws} (tcfg : token_settings).

(** C10: A request is authenticated only as the user its token was issued for.
    Whoever [get_current_user] answers with is an active user of the table, and
    the request carried a token that decodes under the secret, has not
    expired, is an access token and names that user. *)
Theorem authenticated_only now r d u : get_current_user tcfg now r d = Ok u ->
  exists tok c v e row, _extract_token r = Some tok /\ jwt_decode (auth_jwt_secret tcfg) now tok = Ok c /\
    dict_get "typ" c = Some (PStr "access") /\ dict_get "sub" c = Some (PStr (user_id u)) /\
    dict_get "exp" c = Some v /\ int_of v = Ok e /\ (now < inject_Z e)%Q /\
    row ∈ users d /\ u = _user_from_row row /\ u_active row = true.
Proof.
  unfold get_current_user, _user_from_token. destruct (_extract_token r) as [tok|]; [|done].
  destruct (negb _) eqn:Et; [done|]. unfold decode_access_token. cbn [default from_option id]. destruct (jwt_decode (auth_jwt_secret tcfg) now tok) as [c|] eqn:Ed; [|done].
  case_bool_decide as Ht; [|done]. pose proof (jwt_required _ _ _ _ Ed) as (v & e & He & Hv & Hlt & [s Hs] & _). rewrite Hs. destruct s as [| | | |sub| | |]; try done.
  destruct (get_user sub d) as [u'|] eqn:Eu; [|done]. destruct (user_active u') eqn:Ea; [|done]. intros [= <-].
  unfold get_user in Eu. apply fmap_Some in Eu as (row & Hf & ->). apply List.find_some in Hf as [Hin Hid]. apply String.eqb_eq in Hid.
  exists tok, c, v, e, row. simpl in *. rewrite Hid. split_and!; try done. by apply list_elem_of_In.
Qed.
Lemma bearer_extracted r tok : bearer r = Some ("Bearer", tok) -> _extract_token r = Some tok.
Proof. intros Hb. unfold _extract_token. by rewrite Hb. Qed.
Definition ascii_claims (jti : string) (u : User) : bool :=
  is_ascii (user_id u) && is_ascii (user_username u) && is_ascii (user_role u) && is_ascii jti.
Lemma access_claims_safe jti t0 u : ascii_claims jti u = true -> json_safe (PDict (access_claims tcfg jti t0 u)).
Proof.
  unfold ascii_claims. rewrite !andb_true_iff. intros (((H1 & H2) & H3) & H4). simpl. split; [apply (bool_decide_unpack _); by vm_compute|].
  by repeat split.
Qed.
Lemma minted_decodes jti t0 now u : (0 <= t0)%Q -> ascii_claims jti u = true ->
  (t0 <= now < inject_Z (py_int (t0 + inject_Z (auth_access_token_ttl_minutes tcfg * 60))))%Q ->
  decode_access_token tcfg now (mint_access_token tcfg jti t0 u).1 = Ok (access_claims tcfg jti t0 u).
Proof.
  intros Ht0 Hs Hn. unfold decode_access_token, mint_access_token. simpl.
  erewrite jwt_roundtrip; [|by apply access_claims_safe|reflexivity|reflexivity|reflexivity|reflexivity|]; [done|]. split; [|apply Hn].
  rewrite py_int_floor by done. apply Qle_trans with t0; [apply Qfloor_le|apply Hn].
Qed.
End access.

(** ** What a login gives *)

Section sessions.
Context `{JwtLaws} (sha256 : string -> string) `{PasswordHasher} (cfg : auth_settings) (tcfg : token_settings) (email_ok : string -> bool).

Lemma find_app_miss {A} (p : A -> bool) (l k : list A) : (forall x, x ∈ l -> p x = false) -> List.find p (l ++ k) = List.find p k.
Proof. induction l as [|a l IH]; intros Hl; [done|]. simpl. rewrite Hl by (by left). apply IH. intros x Hx. apply Hl. by right. Qed.

(** A granted session: the access token and the cookie *)
Lemma grant_ok status now g u d t ck d' : grant sha256 cfg tcfg status now g u d = (Ok (Model status t), ck, d') ->
  access_token t = (mint_access_token tcfg (d_jti g) now u).1 /\ tokens_user t = public_user u /\
  ck = Some (SetCookie (d_raw g) (auth_refresh_token_ttl_days cfg * 24 * 3600)) /\ users d' = users d /\
  issue_refresh_token sha256 cfg (d_rid g) (d_raw g) u None now d = (Ok (d_raw g), d').
Proof.
  unfold grant. cbn [mint_access_token]. destruct (issue_refresh_token _ _ _ _ _ _ _ _) as [[x|e] d1] eqn:Ei; [|done]. intros [= <- <- <-].
  unfold issue_refresh_token in *. destruct (existsb _ _); [done|]. by simplify_eq.
Qed.
Lemma existsb_rotated t now d h rid :
  existsb (fun x => String.eqb (t_hash x) h || String.eqb (t_id x) rid) (refresh_tokens (rotate_revoke t now d)) =
  existsb (fun x => String.eqb (t_hash x) h || String.eqb (t_id x) rid) (refresh_tokens d).
Proof.
  unfold rotate_revoke, update_tokens. simpl. induction (refresh_tokens d) as [|x l IH]; [done|]. simpl. rewrite IH. by destruct (String.eqb (t_id x) (t_id t)).
Qed.
(** The row of a refresh token is there, with the owner and the expiry it was
    written with. *)
Definition token_row_kept (h uid : string) (expires : Q) (d : db) : Prop :=
  exists t, List.find (fun t => String.eqb (t_hash t) h) (refresh_tokens d) = Some t /\ t_user t = uid /\ t_expires t = expires.

Lemma kept_same h uid x d d' : refresh_tokens d' = refresh_tokens d -> token_row_kept h uid x d -> token_row_kept h uid x d'.
Proof. unfold token_row_kept. by intros ->. Qed.
Lemma kept_app h uid x us l k la : token_row_kept h uid x (DB us l la) -> token_row_kept h uid x (DB us (l ++ k) la).
Proof.
  intros (t & Hf & Hk). exists t. split; [|done]. simpl in *. revert Hf. induction l as [|a l IH]; simpl; [done|].
  destruct (String.eqb (t_hash a) h); [done|apply IH].
Qed.
Lemma kept_revoke h uid x p reason used d : token_row_kept h uid x d -> token_row_kept h uid x (update_tokens p (revoke reason used) d).
Proof.
  intros (t & Hf & Hu & Hx). exists (if p t then revoke reason used t else t). split; [|by destruct (p t)].
  unfold update_tokens. simpl. rewrite find_map_stable by (intros y; by destruct (p y)). by rewrite Hf.
Qed.
Lemma kept_issue h uid x rid raw u parent now d :
  token_row_kept h uid x d -> token_row_kept h uid x (issue_refresh_token sha256 cfg rid raw u parent now d).2.
Proof. intros Hk. unfold issue_refresh_token. destruct (existsb _ _); [done|]. destruct d. by apply kept_app. Qed.

Lemma issued_kept rid raw u parent now d d' : issue_refresh_token sha256 cfg rid raw u parent now d = (Ok raw, d') ->
  token_row_kept (sha256 raw) (user_id u) (now + inject_Z (auth_refresh_token_ttl_days cfg * 86400))%Q d'.
Proof.
  unfold issue_refresh_token. destruct (existsb _ _) eqn:Ee; [done|]. intros [= <-]. 
  exists (TRow rid (user_id u) (sha256 raw) parent false None (now + inject_Z (auth_refresh_token_ttl_days cfg * 86400))%Q None).
  split; [|done]. simpl.
  rewrite find_app_miss.
  2: { intros t Ht. apply not_true_iff_false. intros Hh.
    assert (existsb (fun t => String.eqb (t_hash t) (sha256 raw) || String.eqb (t_id t) rid) (refresh_tokens d) = true) as F; [|congruence].
    apply existsb_exists. exists t. split; [by apply list_elem_of_In|]. by rewrite Hh. }
  simpl. by rewrite String.eqb_refl.
Qed.

(** No operation removes a token or moves its expiry. *)
Lemma kept_run ops h uid x d : token_row_kept h uid x d -> token_row_kept h uid x (foldl (run_op sha256 cfg) d ops).
Proof.
  intros Hk. apply (foldl_invariant _ (token_row_kept h uid x)); [|done]. clear Hk d. intros d o _ Hk. destruct o; simpl.
  - eapply kept_same; [|exact Hk]. unfold register. repeat case_match; done.
  - eapply kept_same; [|exact Hk]. unfold authenticate. repeat case_match; done.
  - by apply kept_issue.
  - unfold rotate_refresh_token, rotate_check. destruct (find_token _ d) as [[t u]|]; [|done].
    destruct (t_revoked t); [by apply kept_revoke|]. destruct (Qltb _ _); [done|]. destruct (negb _); [done|].
    pose proof (kept_issue h uid x rid new_raw (_user_from_row u) (Some (t_id t)) now (rotate_revoke t now d) (kept_revoke _ _ _ _ _ _ _ Hk)) as Hi.
    by destruct (issue_refresh_token _ _ _ _ _ _ _ _) as [[]].
  - by apply kept_revoke.
  - by apply kept_revoke.
Qed.

(** C39: What a login gives works.  Its access token authenticates the user
    until it expires, in any state in which the user is active.  The cookie it
    set can be exchanged for a new session of the same user after any
    operations of the service, until it expires, as long as it has not been
    revoked (exchanged before, logged out or revoked with all the user's
    tokens) and the user is active.  (The names and ids in the token are
    ASCII; the time is not before 1970; the draws of the new token do not
    collide with stored ones.) *)
Theorem login_session_works payload r t0 g d t ck d' : (0 <= t0)%Q ->
  login_route sha256 cfg tcfg payload r t0 g d = (Ok (Model 200 t), ck, d') ->
  is_ascii (pub_id (tokens_user t)) && is_ascii (pub_username (tokens_user t)) && is_ascii (pub_role (tokens_user t)) &&
    is_ascii (d_jti g) = true ->
  (forall now r' d1 u, (t0 <= now < inject_Z (py_int (t0 + inject_Z (auth_access_token_ttl_minutes tcfg * 60))))%Q ->
     bearer r' = Some ("Bearer", access_token t) -> access_token t <> "" ->
     get_user (pub_id (tokens_user t)) d1 = Some u -> user_active u = true -> get_current_user tcfg now r' d1 = Ok u) /\
  exists raw age, ck = Some (SetCookie raw age) /\
  forall ops now r' g' u, let d2 := foldl (run_op sha256 cfg) d' ops in
     (now <= t0 + inject_Z (auth_refresh_token_ttl_days cfg * 86400))%Q -> refresh_cookie r' = Some raw -> raw <> "" ->
     (forall x, x ∈ refresh_tokens d2 -> t_hash x = sha256 raw -> t_revoked x = false) ->
     get_user (pub_id (tokens_user t)) d2 = Some u -> user_active u = true ->
     existsb (fun x => String.eqb (t_hash x) (sha256 (d_raw g')) || String.eqb (t_id x) (d_rid g')) (refresh_tokens d2) = false ->
     exists t', (refresh_route sha256 cfg tcfg r' now g' d2).1.1 = Ok (Model 200 t') /\ tokens_user t' = public_user u /\
       (refresh_route sha256 cfg tcfg r' now g' d2).1.2 = Some (_set_refresh_cookie cfg (d_raw g')).
Proof.
  intros H0' Hl Hasc. unfold login_route in Hl. destruct (negb _); [done|]. destruct (authenticate _ _ _ _ _ _ _) as [[u0|e] d0]; [|by destruct e].
  apply grant_ok in Hl as (Ha & Hp & Hck & Hus & Hi). rewrite Hp in *. cbn [public_user pub_id pub_username pub_role] in *. split.
  - intros now r' d1 u Hn Hb Hne Hu Hact. unfold get_current_user. rewrite (bearer_extracted _ _ Hb). unfold _user_from_token.
    assert (truthy_str (Some (access_token t)) = true) as -> by (by destruct (access_token t)). cbn [negb default from_option id].
    rewrite Ha, minted_decodes by done. simpl. by rewrite Hu, Hact.
  - exists (d_raw g), (auth_refresh_token_ttl_days cfg * 24 * 3600). split; [done|]. cbv zeta. intros ops now r' g' u Hn Hc Hne Hrev Hu Hact Hfresh.
    set (d2 := foldl _ d' ops) in *. destruct (kept_run ops _ _ _ _ (issued_kept _ _ _ _ _ _ _ Hi)) as (tr & Hft & Htu & Htx). fold d2 in Hft.
    assert (t_revoked tr = false) as Htr.
    { apply List.find_some in Hft as [Hin Hh]. apply Hrev; [by apply list_elem_of_In|by apply String.eqb_eq]. }
    unfold get_user in Hu. apply fmap_Some in Hu as (row & Hf & ->).
    unfold refresh_route. rewrite Hc. assert (truthy_str (Some (d_raw g)) = true) as -> by (by destruct (d_raw g)).
    cbn [negb default from_option id truthy_str]. assert (negb (String.eqb (d_raw g) "") = true) as -> by (by destruct (d_raw g)).
    unfold rotate_refresh_token, rotate_check, find_token. rewrite Hft, Htu, Hf, Htr, Htx.
    destruct (Qltb_reflect (t0 + inject_Z (auth_refresh_token_ttl_days cfg * 86400)) now); [exfalso; lra|].
    simpl in Hact. rewrite Hact. cbn [negb]. unfold issue_refresh_token. rewrite existsb_rotated, Hfresh. simpl. eauto.
Qed.
End sessions.

(** ** Registration *)

Lemma lower_changes v : String.eqb (lower v) v = false -> any_char is_upper v = true.
Proof.
  intros Hv. apply (any_char_iff id). revert Hv. induction v as [|c v IH]; [done|]. cbn [lower]. intros Hne%String.eqb_neq.
  destruct (is_upper c) eqn:Ec; [exists c; split; [|done]; simpl; by rewrite Ascii.eqb_refl|].
  assert (lower_char c = c) as Hc by (unfold lower_char; unfold is_upper in Ec; by rewrite Ec). rewrite Hc in Hne.
  destruct IH as (x & Hx & Hu); [apply String.eqb_neq; congruence|]. exists x. split; [|done]. simpl. by rewrite Hx, orb_true_r.
Qed.
Lemma upper_changes v : String.eqb (upper v) v = false -> any_char is_lower v = true.
Proof.
  intros Hv. apply (any_char_iff id). revert Hv. induction v as [|c v IH]; [done|]. cbn [upper]. intros Hne%String.eqb_neq.
  destruct (is_lower c) eqn:Ec; [exists c; split; [|done]; simpl; by rewrite Ascii.eqb_refl|].
  assert (upper_char c = c) as Hc by (unfold upper_char; by rewrite Ec). rewrite Hc in Hne.
  destruct IH as (x & Hx & Hu); [apply String.eqb_neq; congruence|]. exists x. split; [|done]. simpl. by rewrite Hx, orb_true_r.
Qed.
(** What the request model accepts passes the checks below it. *)
Lemma valid_register_accepted email_ok p : valid_register email_ok p = true ->
  _validate_password (reg_password p) = Ok tt /\ username_format (reg_username p) = true.
Proof.
  unfold valid_register. rewrite !andb_true_iff. intros ((((Hu & Hl) & Hp) & _) & _). split; [|exact Hu].
  unfold password_complexity in Hp. rewrite !andb_true_iff, !negb_true_iff, orb_false_iff in Hp. destruct Hp as (((H1 & H2) & H3) & _).
  unfold within in Hl. apply andb_true_iff in Hl as [Hl _]. unfold _validate_password, _PASSWORD_MIN_LEN.
  rewrite (lower_changes _ H1), (upper_changes _ H2), H3. apply Nat.leb_le in Hl.
  assert ((String.length (reg_password p) <? 10)%nat = false) as -> by (apply Nat.ltb_ge; lia). done.
Qed.

(** The password rules stand twice and the outer ones are the stricter: behind
    a body the model accepts the service never finds the password too weak or
    the name malformed, so the route never answers 400, and what it does not
    catch is only a collision of the drawn refresh token. *)
Theorem register_layers_agree `{Jwt} sha256 `{PasswordHasher} cfg tcfg email_ok p r now g d e ck d' :
  register_route sha256 cfg tcfg email_ok p r now g d = (Err e, ck, d') ->
  match e with
  | HTTPException s _ => s = 422 \/ s = 409 \/ s = 429
  | Unhandled x => x = IntegrityError /\
      existsb (fun t => String.eqb (t_hash t) (sha256 (d_raw g)) || String.eqb (t_id t) (d_rid g)) (refresh_tokens d) = true
  end.
Proof.
  unfold register_route. destruct (valid_register email_ok p) eqn:Ev; [|by intros [= <- <- <-]; left].
  cbn [negb]. apply valid_register_accepted in Ev as [Hp Hu]. unfold register. rewrite Hp, Hu. cbn [negb].
  destruct (match truthy_ip _ with Some a => _ | None => _ end); [intros [= <- <- <-]; auto|].
  destruct (user_exists _ _ _); [intros [= <- <- <-]; auto|]. unfold grant. cbn [mint_access_token].
  unfold issue_refresh_token. cbn [refresh_tokens users login_attempts]. destruct (existsb _ _) eqn:Ee; [|done]. by intros [= <- <- <-].
Qed.

(** ** Leaving *)

Section leaving.
Context `{Jwt} (sha256 : string -> string) (cfg : auth_settings) (tcfg : token_settings).

(** After a logout the browser's cookie, if it is sent again, counts as a
    replay: the refresh is refused and every session of the user, on every
    device, is revoked. *)
Theorem logout_then_refresh_revokes_all raw r r' now g d t u :
  refresh_cookie r = Some raw -> refresh_cookie r' = Some raw -> raw <> "" ->
  find_token (sha256 raw) d = Some (t, u) ->
  let '(res, _, d') := refresh_route sha256 cfg tcfg r' now g (logout sha256 r d).2 in
  res = Err (HTTPException 401 "invalid refresh token") /\
  forall x, x ∈ refresh_tokens d' -> t_user x = t_user t -> t_revoked x = true.
Proof.
  intros Hc Hc' Hne Hf. unfold logout. rewrite Hc. assert (truthy_str (Some raw) = true) as Ht by (by destruct raw). rewrite Ht.
  unfold refresh_route. rewrite Hc', !Ht. cbn [negb default from_option id snd].
  assert (find_token (sha256 raw) (revoke_refresh_token sha256 raw "logout" d) = Some (if t_revoked t then t else revoke "logout" None t, u)) as Hf'.
  { unfold revoke_refresh_token. rewrite find_token_update by apply revoke_keeps. rewrite Hf. simpl. unfold find_token in Hf.
    destruct (List.find _ (refresh_tokens d)) as [t0|] eqn:Eh; [|done]. apply List.find_some in Eh as [_ Eh]. destruct (List.find _ (users d)); [|done].
    injection Hf as -> ->. rewrite Eh. by destruct (t_revoked t). }
  unfold rotate_refresh_token, rotate_check. rewrite Hf'.
  assert (t_revoked (if t_revoked t then t else revoke "logout" None t) = true) as -> by (by destruct (t_revoked t) eqn:E).
  split; [done|]. intros x Hx Hu. eapply user_tokens_revoked; [exact Hx|]. rewrite Hu. by destruct (t_revoked t).
Qed.

(** Leaving everywhere ends every session: no cookie of the user is exchanged
    any more. *)
Theorem logout_all_ends_sessions r now d u ck d' raw t row r' now' g :
  logout_all tcfg r now d = (Ok (Direct 204), ck, d') -> get_current_user tcfg now r d = Ok u ->
  find_token (sha256 raw) d' = Some (t, row) -> t_user t = user_id u -> refresh_cookie r' = Some raw -> raw <> "" ->
  (refresh_route sha256 cfg tcfg r' now' g d').1.1 = Err (HTTPException 401 "invalid refresh token").
Proof.
  intros Hl Hu Hf Ht Hc Hne. unfold logout_all in Hl. rewrite Hu in Hl. injection Hl as <- <-.
  unfold refresh_route. rewrite Hc. assert (truthy_str (Some raw) = true) as Htr by (by destruct raw). rewrite !Htr. cbn [negb default from_option id].
  unfold rotate_refresh_token, rotate_check. rewrite Hf.
  assert (t_revoked t = true) as ->; [|done]. eapply (user_tokens_revoked (user_id u) "user_logout_all" d); [|done].
  unfold find_token in Hf. destruct (List.find _ _) as [t0|] eqn:Ef; [|done]. apply List.find_some in Ef as [Hin _].
  destruct (List.find _ (users _)); [|done]. injection Hf as -> _. by apply list_elem_of_In.
Qed.
End leaving.

(** ** The address is the client's word *)

Fixpoint repeat_a (n : nat) : string := match n with 0%nat => "" | S n' => String "a" (repeat_a n') end.
Lemma length_repeat_a n : String.length (repeat_a n) = n.
Proof. induction n as [|n IH]; simpl; by rewrite ?IH. Qed.

Lemma split_go_repeat_a m cur : split_go "," cur (repeat_a m) = [cur +:+ repeat_a m].
Proof.
  revert cur. induction m as [|m IH]; intros cur; simpl; [by rewrite app_string_nil_r|]. rewrite IH. by rewrite app_string_assoc.
Qed.
Lemma repeat_a_kept m : strip is_space (hd "" (split "," (repeat_a m))) = repeat_a m.
Proof.
  unfold split. rewrite split_go_repeat_a. change (strip is_space (repeat_a m) = repeat_a m). unfold strip. assert (lstrip is_space (repeat_a m) = repeat_a m) as -> by (by destruct m).
  induction m as [|m IH]; [done|]. cbn [repeat_a rstrip]. rewrite IH. by destruct m.
Qed.
Lemma filter_none {A} (p : A -> bool) (l : list A) : (forall x, x ∈ l -> p x = false) -> List.filter p l = [].
Proof. induction l as [|a l IH]; intros Hl; [done|]. simpl. rewrite Hl by (by left). apply IH. intros x Hx. apply Hl. by right. Qed.

(** The limit of logins per address is no limit: whatever attempts are on
    record, some value of the X-Forwarded-For header is not limited. *)
Theorem login_limit_bypassed cfg now d : 0 < auth_ip_login_per_minute cfg ->
  exists xff, forall r, x_forwarded_for r = Some xff -> exists ip, _client_ip r = Some ip /\ _login_rate_limited cfg now ip d = false.
Proof.
  intros Hl. set (n := S (foldr (fun a m => Nat.max (String.length (default "" (a_ip a))) m) 0%nat (login_attempts d))).
  exists (repeat_a n). intros r Hr. exists (repeat_a n).
  assert (forall m, strip is_space (hd "" (split "," (repeat_a m))) = repeat_a m) as Hs by apply repeat_a_kept.
  split.
  - unfold _client_ip. rewrite Hr. cbn [default from_option id]. rewrite Hs. by unfold n.
  - unfold _login_rate_limited. apply Z.leb_gt. rewrite (filter_none _ (login_attempts d)); [done|].
    intros a Ha. apply andb_false_iff. left. apply bool_decide_eq_false. intros Hip.
    assert (String.length (default "" (a_ip a)) < n)%nat as Hlt; [|rewrite Hip in Hlt; simpl in Hlt; rewrite length_repeat_a in Hlt; lia].
    unfold n. clear -Ha. induction (login_attempts d) as [|b l IH]; [by apply elem_of_nil in Ha|]. simpl.
    apply elem_of_cons in Ha as [->|Ha]; [lia|]. specialize (IH Ha). lia.
Qed.

(** ** A token format *)

(** The payload as JSON behind the secret; the checks are PyJWT's. *)
Fixpoint drop_prefix (p s : string) : option string :=
  match p, s with
  | "", _ => Some s
  | String a p', String b s' => if Ascii.eqb a b then drop_prefix p' s' else None
  | _, _ => None
  end.
Lemma drop_prefix_app p s : drop_prefix p (p +:+ s) = Some s.
Proof. induction p as [|c p IH]; [done|]. rewrite app_string_cons. cbn [drop_prefix]. by rewrite Ascii.eqb_refl. Qed.
Definition toy_decode (secret : string) (now : Q) (tok : string) : result string (list (string * pyval)) :=
  match drop_prefix (secret +:+ ".") tok with
  | None => Err "Signature verification failed"
  | Some payload =>
      match json_loads payload with
      | Ok (PDict c) =>
          match dict_get "exp" c, dict_get "sub" c, dict_get "typ" c with
          | Some (PInt e), Some (PStr _), Some _ =>
              if Qltb now (inject_Z e) then
                match dict_get "iat" c with
                | Some (PInt i) => if Qltb now (inject_Z i) then Err "The token is not yet valid (iat)" else Ok c
                | _ => Ok c
                end
              else Err "Signature has expired"
          | _, _, _ => Err "Token is missing a required claim"
          end
      | _ => Err "Invalid payload"
      end
  end.
#[export] Instance toy_jwt : Jwt := {
  jwt_encode secret c := match json_dumps (fun _ => "") (PDict c) with Ok p => secret +:+ "." +:+ p | Err _ => "" end;
  jwt_decode := toy_decode }.

#[export] Instance toy_jwt_laws : JwtLaws.
Proof.
  split.
  - intros secret now c e i sub typ Hs He Hi Hsub Ht [Hn1 Hn2]. simpl. destruct (safe_dumps (fun _ => "") (PDict c) Hs) as [p Hp]. unfold json_dumps in *.
    rewrite Hp. unfold toy_decode. rewrite <- app_string_assoc, drop_prefix_app. rewrite (loads_dumps (fun _ => "") (PDict c) p Hs Hp).
    rewrite He, Hi, Hsub, Ht. destruct (Qltb_reflect now (inject_Z e)); [|exfalso; lra]. by destruct (Qltb_reflect now (inject_Z i)); [exfalso; lra|].
  - intros secret now tok c. simpl. unfold toy_decode. destruct (drop_prefix _ _); [|done]. destruct (json_loads _) as [[]|]; try done.
    destruct (dict_get "exp" d) as [[| |e| | | | |]|] eqn:He; try done. destruct (dict_get "sub" d) as [[| | | |sub| | |]|] eqn:Hs; try done.
    destruct (dict_get "typ" d) eqn:Ht; [|done]. destruct (Qltb_reflect now (inject_Z e)); [|done]. intros Hr.
    assert (d = c) as <- by (by repeat case_match; simplify_eq). exists (PInt e), e. rewrite Hs, Ht. eauto 10.
Qed.

(** ** Concrete requests *)

Definition demo_tokens : token_settings := TokSettings "s3cret" 15 "amor_refresh".
Definition plain_request : http_request := Request None (Some "1.2.3.4") None None None None None None.
Definition with_bearer (t : string) : http_request := Request None None None None None None (Some ("Bearer", t)) None.
Definition with_cookie (c : string) : http_request := Request None None None None None None None (Some c).
Definition demo_draws (n : string) : draws := Draws ("u" +:+ n) "s" ("j" +:+ n) ("r" +:+ n) ("tok" +:+ n).
Definition demo_login := login_route id demo_settings demo_tokens (LoginReq "alice" "Password12") plain_request 1000 (demo_draws "1") demo_db.
Definition demo_access : string := (mint_access_token demo_tokens "j1" 1000 (_user_from_row (set_login 1000 demo_user))).1.

Lemma authenticated_only_witness : exists row, row ∈ users demo_db /\ u_active row = true /\
  get_current_user demo_tokens 1100 (with_bearer demo_access) demo_db = Ok (_user_from_row row).
Proof.
  destruct (get_current_user demo_tokens 1100 (with_bearer demo_access) demo_db) as [u|e] eqn:E; [|by vm_compute in E].
  destruct (authenticated_only demo_tokens 1100 (with_bearer demo_access) demo_db u E) as (tok & c & v & x & row & _ & _ & _ & _ & _ & _ & _ & Hin & -> & Ha).
  by exists row.
Defined.

(** The access token at 1500, and the cookie at 3000 after another login and a
    logout of another session. *)
Lemma login_session_works_witness :
  get_current_user demo_tokens 1500 (with_bearer demo_access) demo_db = Ok (_user_from_row demo_user) /\
  exists t', (refresh_route id demo_settings demo_tokens (with_cookie "tok1") 3000 (demo_draws "9")
    (foldl (run_op id demo_settings) demo_login.2
       [Login "alice" "Password12" None "s" 2000; Logout "tok0"])).1.1 = Ok (Model 200 t') /\
    pub_username (tokens_user t') = "alice".
Proof.
  destruct demo_login as [[[[st t|st]|e] ck] d'] eqn:E; [|by vm_compute in E|by vm_compute in E].
  assert (access_token t = demo_access) as Ha by (vm_compute in E; by simplify_eq).
  assert (st = 200 /\ is_ascii (pub_id (tokens_user t)) && is_ascii (pub_username (tokens_user t)) && is_ascii (pub_role (tokens_user t)) && is_ascii "j1" = true
          /\ pub_id (tokens_user t) = "u1") as (-> & Hasc & Hid).
  { vm_compute in E. by injection E as <- <- _ _. }
  assert (d' = demo_login.2) as Hd by (by rewrite E).
  destruct (login_session_works id demo_settings demo_tokens (LoginReq "alice" "Password12") plain_request 1000 (demo_draws "1") demo_db t ck d')
    as [Hacc (raw & age & Hck & Href)]; [by vm_compute|exact E|exact Hasc|]. split.
  - apply Hacc; [by vm_compute|by rewrite Ha|by rewrite Ha|by rewrite Hid|done].
  - assert (raw = "tok1") as -> by (vm_compute in E; rewrite Hck in E; by injection E as _ <- _ _).
    destruct (Href [Login "alice" "Password12" None "s" 2000; Logout "tok0"] 3000%Q (with_cookie "tok1") (demo_draws "9")
                (_user_from_row (set_login 2000 demo_user))) as (t' & H1 & H2 & _).
    + by vm_compute.
    + done.
    + done.
    + rewrite Hd. intros x Hx%list_elem_of_In Hh. vm_compute in Hx. destruct Hx as [<-|[<-|[]]]; [by vm_compute in Hh|done].
    + rewrite Hid, Hd. by vm_compute.
    + done.
    + rewrite Hd. by vm_compute.
    + exists t'. split; [exact H1|]. by rewrite H2.
Defined.

Lemma register_layers_agree_witness : exists e,
  (register_route id demo_settings demo_tokens (fun _ => true) (RegisterReq "alice" "Password12" None None) plain_request 0 (demo_draws "2") demo_db).1.1 = Err e /\
  match e with HTTPException s _ => s = 422 \/ s = 409 \/ s = 429 | Unhandled _ => False end.
Proof.
  destruct (register_route id demo_settings demo_tokens (fun _ => true) (RegisterReq "alice" "Password12" None None) plain_request 0 (demo_draws "2") demo_db)
    as [[[a|e] ck] d'] eqn:E; [by vm_compute in E|]. exists e. split; [done|].
  pose proof (register_layers_agree id demo_settings demo_tokens (fun _ => true) (RegisterReq "alice" "Password12" None None) plain_request 0
                (demo_draws "2") demo_db e ck d' E) as He. destruct e; [exact He|]. by vm_compute in E.
Defined.

Lemma logout_then_refresh_revokes_all_witness :
  (refresh_route id demo_settings demo_tokens (with_cookie "tok0") 2 (demo_draws "3") (logout id (with_cookie "tok0") demo_db).2).1.1
  = Err (HTTPException 401 "invalid refresh token").
Proof.
  pose proof (logout_then_refresh_revokes_all id demo_settings demo_tokens "tok0" (with_cookie "tok0") (with_cookie "tok0") 2 (demo_draws "3") demo_db
    (TRow "r0" "u1" "tok0" None false None 100 None) demo_user eq_refl eq_refl ltac:(done) ltac:(by vm_compute)) as Hr.
  destruct (refresh_route _ _ _ _ _ _ _) as [[res ck] d']. apply Hr.
Defined.

Lemma logout_all_ends_sessions_witness :
  (refresh_route id demo_settings demo_tokens (with_cookie "tok0") 2 (demo_draws "3") (logout_all demo_tokens (with_bearer demo_access) 1100 demo_db).2).1.1
  = Err (HTTPException 401 "invalid refresh token").
Proof.
  apply (logout_all_ends_sessions id demo_settings demo_tokens (with_bearer demo_access) 1100 demo_db (_user_from_row demo_user) (Some DeleteCookie)
           (logout_all demo_tokens (with_bearer demo_access) 1100 demo_db).2 "tok0" (TRow "r0" "u1" "tok0" None true (Some "user_logout_all") 100 None) demo_user
           (with_cookie "tok0") 2 (demo_draws "3")); by vm_compute.
Defined.

Lemma login_limit_bypassed_witness : exists xff, forall r, x_forwarded_for r = Some xff ->
  exists ip, _client_ip r = Some ip /\ _login_rate_limited demo_settings 10 ip demo_db = false.
Proof. apply (login_limit_bypassed demo_settings 10 demo_db). done. Defined.
