(* ===== verification/Bm25.v ===== *)
(** * Okapi BM25

    The class [BM25] of document_processor/rag/rag_engine.py: tokens, document
    frequencies, scores and the best documents.  [math.log] is a parameter;
    what is used of it is that it is positive above 1. *)

From S2P Require Import Prelude PyStr PyRe Quality.
#[local] Open Scope py_scope.
#[local] Open Scope Z_scope.

Definition TOKEN : re := Cat WordB (Cat (Plus (Chr is_word)) WordB).
Definition _tokenize (text : string) : list string := re_findall TOKEN (lower text).

Record BM25 := MkBM25 {
  k1 : Q; b : Q; documents : list (list string); doc_lengths : list Z; avgdl : Q; doc_freqs : gmap string Z; idf : gmap string Q; n_docs : Z }.
Definition new_bm25 : BM25 := MkBM25 1.5 0.75 [] [] 0 ∅ ∅ 0.

Definition ZeroDivisionError : pyexn := PyExn "ZeroDivisionError" "division by zero".
Definition py_div (x y : Q) : result pyexn Q := if Qeq_bool y 0 then Err ZeroDivisionError else Ok (x / y)%Q.

Definition sumZ (l : list Z) : Z := foldr Z.add 0 l.
(** [Counter(tokens)[term]] *)
Definition term_freq (term : string) (tokens : list string) : Z := zlength (List.filter (String.eqb term) tokens).
(** One document more with each of its distinct terms *)
Definition count_terms (freqs : gmap string Z) (tokens : list string) : gmap string Z :=
  foldl (fun m t => counter_add t 1 m) freqs (remove_dups tokens).

Section log.
Variable log : Q -> Q.

Definition idf_of (n df : Z) : Q := log (1 + (inject_Z n - inject_Z df + 0.5) / (inject_Z df + 0.5)).
(** [idf] is not emptied: terms of an earlier corpus keep their weight. *)
Definition fit (docs : list string) (m : BM25) : BM25 :=
  let tokens := map _tokenize docs in
  let lengths := map zlength tokens in
  let freqs := foldl count_terms ∅ tokens in
  let n := zlength docs in
  MkBM25 (k1 m) (b m) tokens lengths (if 0 <? n then (inject_Z (sumZ lengths) / inject_Z n)%Q else 0%Q) freqs
    ((idf_of n <$> freqs) ∪ idf m) n.

(** The terms of the query in turn *)
Fixpoint score_doc (m : BM25) (tokens : list string) (len : Z) (query : list string) (acc : Q) : result pyexn Q :=
  match query with
  | [] => Ok acc
  | t :: q =>
      match idf m !! t with
      | None => score_doc m tokens len q acc
      | Some w =>
          let tf := inject_Z (term_freq t tokens) in
          let numerator := (tf * (k1 m + 1))%Q in
          rel <-! py_div (b m * inject_Z len) (avgdl m);
          x <-! py_div (w * numerator) (tf + k1 m * (1 - b m + rel));
          score_doc m tokens len q (acc + x)
      end
  end.
Fixpoint score_all (m : BM25) (docs : list (list string)) (lens : list Z) (query : list string) : result pyexn (list Q) :=
  match docs, lens with
  | d :: docs', n :: lens' => s <-! score_doc m d n query 0; r <-! score_all m docs' lens' query; Ok (s :: r)
  | _, _ => Ok []
  end.
Definition score (query : string) (m : BM25) : result pyexn (list Q) := score_all m (documents m) (doc_lengths m) (_tokenize query).

Definition enumerate {A} (l : list A) : list (nat * A) := zip (seq 0 (length l)) l.
Definition get_top_k (query : string) (k : Z) (m : BM25) : result pyexn (list (nat * Q)) :=
  scores <-! score query m; Ok (py_take k (sort_desc snd (enumerate scores))).
End log.

(** ** Document frequencies *)

Lemma count_terms_get freqs tokens t :
  counter_get t (count_terms freqs tokens) = counter_get t freqs + if bool_decide (t ∈ tokens) then 1 else 0.
Proof.
  unfold count_terms. assert (forall l, NoDup l -> forall f, counter_get t (foldl (fun m t => counter_add t 1 m) f l) =
    counter_get t f + if bool_decide (t ∈ l) then 1 else 0) as H.
  { induction 1 as [|x l Hx Hl IH]; intros f; cbn [foldl]; [rewrite bool_decide_eq_false_2 by set_solver; lia|]. rewrite IH.
    destruct (decide (x = t)) as [->|Hne].
    - rewrite counter_get_add_eq, (bool_decide_eq_false_2 (t ∈ l)), (bool_decide_eq_true_2 (t ∈ t :: l)) by (done || by left). lia.
    - rewrite counter_get_add_ne by done. rewrite (bool_decide_ext (t ∈ x :: l) (t ∈ l)) by (rewrite elem_of_cons; naive_solver). done. }
  rewrite H by apply NoDup_remove_dups. by rewrite (bool_decide_ext (t ∈ remove_dups tokens) (t ∈ tokens)) by apply elem_of_remove_dups.
Qed.
(** The number of documents that hold a term *)
Definition df (t : string) (docs : list (list string)) : Z := zlength (List.filter (fun d => bool_decide (t ∈ d)) docs).
Lemma freqs_df docs t : counter_get t (foldl count_terms ∅ docs) = df t docs.
Proof.
  assert (forall f, counter_get t (foldl count_terms f docs) = counter_get t f + df t docs) as H.
  { unfold df, zlength. induction docs as [|d docs IH]; intros f; simpl; [lia|]. rewrite IH, count_terms_get. case_bool_decide; simpl; lia. }
  rewrite H, counter_get_empty. lia.
Qed.
Lemma counter_add_dom (k : string) n (m : gmap string Z) x : x ∈ dom (counter_add k n m) <-> x = k \/ x ∈ dom m.
Proof. unfold counter_add. rewrite dom_insert. set_solver. Qed.
Lemma count_terms_dom freqs tokens x : x ∈ dom (count_terms freqs tokens) <-> x ∈ dom freqs \/ x ∈ tokens.
Proof.
  unfold count_terms. rewrite <- (elem_of_remove_dups tokens). revert freqs. induction (remove_dups tokens) as [|t l IH]; intros f; simpl; [set_solver|].
  rewrite IH, counter_add_dom, elem_of_cons. naive_solver.
Qed.
Lemma freqs_dom docs x : x ∈ dom (foldl count_terms ∅ docs) <-> exists d, d ∈ docs /\ x ∈ d.
Proof.
  assert (forall f, x ∈ dom (foldl count_terms f docs) <-> x ∈ dom f \/ exists d, d ∈ docs /\ x ∈ d) as H.
  { induction docs as [|d docs IH]; intros f; simpl; [set_solver|]. rewrite IH, count_terms_dom. split.
    - intros [[?|?]|(d' & ? & ?)]; [by left|right; exists d; split; [by left|done]|right; exists d'; split; [by right|done]].
    - intros [?|(d' & [->|?]%elem_of_cons & ?)]; [by left; left|by left; right|right; by exists d']. }
  rewrite H. set_solver.
Qed.
Lemma df_bounds t docs : 0 <= df t docs <= zlength docs.
Proof. unfold df, zlength. pose proof (List.filter_length_le (fun d => bool_decide (t ∈ d)) docs). lia. Qed.

(** ** Scores *)

(** What [fit] leaves of a fresh model *)
Record model_ok (m : BM25) : Prop := {
  ok_k1 : (0 < k1 m)%Q; ok_b : (0 <= b m < 1)%Q;
  ok_idf : forall t w, idf m !! t = Some w -> (0 < w)%Q /\ (0 < avgdl m)%Q;
  ok_dom : forall t d, d ∈ documents m -> t ∈ d -> is_Some (idf m !! t);
  ok_lengths : doc_lengths m = map zlength (documents m) }.

Lemma term_freq_pos t tokens : 0 <= term_freq t tokens /\ (0 < term_freq t tokens <-> t ∈ tokens).
Proof.
  unfold term_freq, zlength. induction tokens as [|x l [IH1 IH2]]; simpl; [split; [lia|]; split; [lia|set_solver]|].
  rewrite elem_of_cons. destruct (String.eqb_spec t x) as [->|Hne]; simpl; split; try lia; split; [by left|lia|naive_solver|].
  intros [?|?]; [done|by apply IH2].
Qed.
Lemma inject_Z_positive z : 0 < z -> (0 < inject_Z z)%Q.
Proof. intros Hz. change 0%Q with (inject_Z 0). by rewrite <- Zlt_Qlt. Qed.
Lemma inject_Z_nonneg z : 0 <= z -> (0 <= inject_Z z)%Q.
Proof. intros Hz. change 0%Q with (inject_Z 0). by rewrite <- Zle_Qle. Qed.
Lemma py_div_pos x y : (0 < y)%Q -> py_div x y = Ok (x / y)%Q.
Proof.
  intros Hy. unfold py_div. destruct (Qeq_bool y 0) eqn:E; [|done]. apply Qeq_bool_iff in E. lra.
Qed.
Lemma Qdiv_nonneg x y : (0 <= x)%Q -> (0 < y)%Q -> (0 <= x / y)%Q.
Proof. intros. apply Qle_shift_div_l; [done|]. lra. Qed.
Lemma Qdiv_pos_iff x y : (0 <= x)%Q -> (0 < y)%Q -> (0 < x / y <-> 0 < x)%Q.
Proof.
  intros Hx Hy. split.
  - intros H. destruct (Qle_lt_or_eq 0 x Hx) as [|E]; [done|]. exfalso. assert (x / y == 0)%Q as E2 by (rewrite <- E; unfold Qdiv; ring). lra.
  - intros. apply Qlt_shift_div_l; [done|]. lra.
Qed.

(** One term adds nothing negative, and something exactly if the document
    holds it. *)
Lemma score_doc_spec m tokens query acc : model_ok m ->
  exists s, score_doc m tokens (zlength tokens) query acc = Ok s /\ (acc <= s)%Q /\
    (acc < s <-> exists t, t ∈ query /\ is_Some (idf m !! t) /\ t ∈ tokens)%Q.
Proof.
  intros [Hk Hb Hi _ _]. revert acc. induction query as [|t q IH]; intros acc; cbn [score_doc].
  { exists acc. split_and!; [done|lra|]. split; [lra|]. intros (t & Ht & _). by apply elem_of_nil in Ht. }
  destruct (idf m !! t) as [w|] eqn:Ew.
  2: { destruct (IH acc) as (s & -> & Hs & Hiff). exists s. split_and!; [done|done|]. rewrite Hiff. split.
       - intros (x & Hx & ? & ?). exists x. split_and!; [by right|done|done].
       - intros (x & [->|Hx]%elem_of_cons & [w' Hw] & ?); [congruence|]. exists x. split_and!; [done|by eexists|done]. }
  destruct (Hi t w Ew) as [Hw Ha]. destruct (term_freq_pos t tokens) as [Ht0 Htf]. set (tf := inject_Z (term_freq t tokens)).
  assert (0 <= tf)%Q as Htf0 by (by apply inject_Z_nonneg).
  assert (0 <= inject_Z (zlength tokens))%Q as Hlen by (apply inject_Z_nonneg, zlength_nonneg).
  rewrite py_div_pos by done. cbn [rbind]. set (rel := (b m * inject_Z (zlength tokens) / avgdl m)%Q).
  assert (0 <= rel)%Q as Hrel by (apply Qdiv_nonneg; [apply Qmult_le_0_compat; lra|done]).
  assert (0 < tf + k1 m * (1 - b m + rel))%Q as Hden by (assert (0 < k1 m * (1 - b m + rel))%Q by (apply Qmult_lt_0_compat; lra); lra). rewrite py_div_pos by done. cbn [rbind].
  set (x := (w * (tf * (k1 m + 1)) / (tf + k1 m * (1 - b m + rel)))%Q).
  assert (0 <= w * (tf * (k1 m + 1)))%Q as Hnum by (repeat apply Qmult_le_0_compat; lra).
  assert (0 <= x)%Q as Hx0 by (by apply Qdiv_nonneg). assert (0 < x <-> t ∈ tokens)%Q as Hx.
  { unfold x. rewrite Qdiv_pos_iff by done. rewrite <- Htf. split.
    - intros H. destruct (Z.eq_dec (term_freq t tokens) 0) as [E|]; [|lia]. exfalso. unfold tf in H. rewrite E in H.
      change (inject_Z 0) with 0%Q in H. lra.
    - intros H. apply inject_Z_positive in H. fold tf in H. repeat apply Qmult_lt_0_compat; lra. }
  destruct (IH (acc + x)%Q) as (s & -> & Hs & Hiff). exists s. split_and!; [done|lra|]. split.
  - intros Hlt. destruct (Qlt_le_dec (acc + x) s) as [H|H].
    + apply Hiff in H as (y & Hy & ? & ?). exists y. split_and!; [by right|done|done].
    + exists t. split_and!; [by left|by eexists|]. apply Hx. lra.
  - intros (y & [->|Hy]%elem_of_cons & Hs' & Hin); [apply Hx in Hin; lra|].
    assert (acc + x < s)%Q by (apply Hiff; by exists y). lra.
Qed.
Lemma score_all_spec m query docs : model_ok m -> exists l, score_all m docs (map zlength docs) query = Ok l /\
  Forall2 (fun d s => (0 <= s)%Q /\ (0 < s <-> exists t, t ∈ query /\ is_Some (idf m !! t) /\ t ∈ d)%Q) docs l.
Proof.
  intros Hm. induction docs as [|d docs IH]; cbn [score_all map]; [exists []; by constructor|].
  destruct (score_doc_spec m d query 0 Hm) as (s & -> & Hs). destruct IH as (l & -> & Hl). exists (s :: l). split; [done|]. by constructor.
Qed.

Lemma elem_of_take_drop {A} (x : A) n m (l : list A) : x ∈ drop n (take m l) -> x ∈ l.
Proof. rewrite !list_elem_of_lookup. intros [i Hi]. rewrite lookup_drop in Hi. apply lookup_take_Some in Hi as [Hi _]. eauto. Qed.
Lemma elem_of_enumerate {A} (l : list A) i x : (i, x) ∈ enumerate l <-> l !! i = Some x.
Proof.
  unfold enumerate. rewrite list_elem_of_lookup. setoid_rewrite lookup_zip_with_Some. split.
  - intros (j & a & y & [= -> ->] & Hj & Hx). apply lookup_seq in Hj as [-> _]. done.
  - intros Hx. exists i, i, x. split_and!; [done| |done]. apply lookup_seq. split; [done|]. by apply lookup_lt_Some in Hx.
Qed.
Lemma score_all_length m docs lens q l : length lens = length docs -> score_all m docs lens q = Ok l -> length l = length docs.
Proof.
  revert lens l. induction docs as [|d docs IH]; intros [|n lens] l Hlen; cbn [score_all]; try done; [by intros [= <-]|].
  destruct (score_doc m d n q 0) as [s|]; [|done]. cbn [rbind]. destruct (score_all m docs lens q) as [r|] eqn:E; [|done]. cbn [rbind].
  intros [= <-]. simpl. f_equal. eapply IH; [|done]. by injection Hlen.
Qed.
(** The documents of an answer are documents of the corpus. *)
Lemma get_top_k_bound query k m l i x : length (doc_lengths m) = length (documents m) ->
  get_top_k query k m = Ok l -> (i, x) ∈ l -> (i < length (documents m))%nat.
Proof.
  intros Hlen. unfold get_top_k, score. destruct (score_all _ _ _ _) as [s|] eqn:E; [|done]. cbn [rbind]. intros [= <-] Hin.
  apply score_all_length in E; [|done]. unfold py_take, py_slice in Hin.
  assert ((i, x) ∈ sort_desc snd (enumerate s)) as Hs by (eapply elem_of_take_drop; exact Hin).
  rewrite sort_desc_perm in Hs. apply elem_of_enumerate, lookup_lt_Some in Hs. lia.
Qed.

Section fitted.
Variable log : Q -> Q.
Hypothesis log_pos : forall x, (1 < x)%Q -> (0 < log x)%Q.

Lemma idf_of_pos n d : 0 <= d <= n -> (0 < idf_of log n d)%Q.
Proof.
  intros [H1 H2]. apply log_pos. apply inject_Z_nonneg in H1. rewrite Zle_Qle in H2.
  assert (0 < (inject_Z n - inject_Z d + 0.5) / (inject_Z d + 0.5))%Q by (apply Qdiv_pos_iff; lra). lra.
Qed.
Lemma sumZ_member x l : Forall (fun y => 0 <= y) l -> x ∈ l -> x <= sumZ l.
Proof.
  intros Hl. assert (0 <= sumZ l) by (induction Hl; simpl; lia).
  induction Hl as [|y l Hy Hl IH]; intros Hx; [by apply elem_of_nil in Hx|]. simpl in *.
  assert (0 <= sumZ l) by (clear -Hl; induction Hl; simpl; lia). apply elem_of_cons in Hx as [->|Hx]; [lia|]. specialize (IH ltac:(lia) Hx). lia.
Qed.
Lemma fit_ok docs : model_ok (fit log docs new_bm25).
Proof.
  set (tokens := map _tokenize docs). assert (forall t, t ∈ dom (foldl count_terms ∅ tokens) <-> exists d, d ∈ tokens /\ t ∈ d) as Hdom by apply freqs_dom.
  split; unfold fit; cbn [k1 b avgdl idf documents doc_lengths new_bm25]; rewrite ?map_union_empty; fold tokens; try lra; [| |done].
  - intros t w Hw. rewrite lookup_fmap in Hw. destruct (foldl count_terms ∅ tokens !! t) as [f|] eqn:Ef; [|done]. injection Hw as <-.
    assert (f = df t tokens) as -> by (rewrite <- freqs_df; unfold counter_get; by rewrite Ef).
    assert (zlength tokens = zlength docs) as Hz by (unfold zlength, tokens; by rewrite length_map).
    split; [apply idf_of_pos; pose proof (df_bounds t tokens); lia|].
    destruct (proj1 (Hdom t)) as (d & Hd & Ht); [by apply elem_of_dom_2 in Ef|].
    assert (0 < zlength docs) as Hn. { rewrite <- Hz. destruct tokens; [by apply elem_of_nil in Hd|]. rewrite zlength_cons. pose proof (zlength_nonneg tokens). unfold zlength; lia. }
    rewrite (proj2 (Z.ltb_lt _ _) Hn). apply Qdiv_pos_iff; [| |apply inject_Z_positive].
    + apply inject_Z_nonneg. clear. induction tokens as [|x l IH]; simpl; [lia|]. pose proof (zlength_nonneg x). lia.
    + by apply inject_Z_positive.
    + assert (zlength d <= sumZ (map zlength tokens)) as Hle.
      { apply sumZ_member; [|by apply list_elem_of_fmap_2]. apply Forall_forall. intros y (x & -> & _)%list_elem_of_fmap. apply zlength_nonneg. }
      assert (0 < zlength d); [|lia]. destruct d; [by apply elem_of_nil in Ht|]. rewrite zlength_cons. pose proof (zlength_nonneg d). lia.
  - intros t d Hd Ht. rewrite lookup_fmap, fmap_is_Some. apply elem_of_dom, Hdom. by exists d.
Qed.

Lemma top_k_total docs query k : exists l, get_top_k query k (fit log docs new_bm25) = Ok l /\ forall i x, (i, x) ∈ l -> (i < length docs)%nat.
Proof.
  pose proof (fit_ok docs) as Hm. assert (length (doc_lengths (fit log docs new_bm25)) = length (documents (fit log docs new_bm25))) as Hlen
    by (rewrite (ok_lengths _ Hm); apply length_map).
  destruct (score_all_spec _ (_tokenize query) (documents (fit log docs new_bm25)) Hm) as (l & Hl & _). rewrite <- (ok_lengths _ Hm) in Hl.
  exists (py_take k (sort_desc snd (enumerate l))). assert (get_top_k query k (fit log docs new_bm25) = Ok (py_take k (sort_desc snd (enumerate l)))) as Hg.
  { unfold get_top_k, score. by rewrite Hl. }
  split; [done|]. intros i x Hin. pose proof (get_top_k_bound query k _ _ i x Hlen Hg Hin) as Hb. simpl in Hb. by rewrite length_map in Hb.
Qed.

(** Scoring a fitted corpus never divides by zero, whatever its documents
    are (empty ones, an empty corpus, a query without terms), and gives every
    document a score that is not negative and is positive exactly if the
    document holds a term of the query. *)
Theorem bm25_scores docs query : exists scores, score query (fit log docs new_bm25) = Ok scores /\
  Forall2 (fun d s => (0 <= s)%Q /\ (0 < s <-> exists t, t ∈ _tokenize query /\ t ∈ _tokenize d)%Q) docs scores.
Proof.
  pose proof (fit_ok docs) as Hm. unfold score. rewrite (ok_lengths _ Hm).
  destruct (score_all_spec _ (_tokenize query) (documents (fit log docs new_bm25)) Hm) as (l & Hl & Hf). exists l. split; [done|].
  pose proof (ok_dom _ Hm) as Hd. change (documents (fit log docs new_bm25)) with (map _tokenize docs) in *.
  revert Hf Hd. clear Hl Hm. revert l. generalize (idf (fit log docs new_bm25)) as w. intros w. induction docs as [|d docs IH]; intros l Hf Hd;
    inversion Hf as [|? s ? l' [H1 H2] Hf']; subst; constructor.
  - split; [done|]. rewrite H2. split; [naive_solver|]. intros (t & Ht & Hin). exists t. split_and!; [done| |done]. apply (Hd t (_tokenize d)); [by left|done].
  - apply IH; [done|]. intros t x Hx. apply Hd. by right.
Qed.
End fitted.

(** A logarithm for computing *)
Definition demo_log (x : Q) : Q := (x - 1)%Q.
Lemma bm25_scores_witness : exists scores,
  score "alpha" (fit demo_log ["alpha beta"; ""; "gamma"] new_bm25) = Ok scores /\
  (0 < nth 0 scores 0)%Q /\ (nth 2 scores 0 == 0)%Q.
Proof.
  destruct (bm25_scores demo_log ltac:(unfold demo_log; intros; lra) ["alpha beta"; ""; "gamma"] "alpha") as (scores & Hs & Hf).
  exists scores. split; [done|]. inversion Hf as [|? s1 ? l1 [H1 H2] Hf1]; subst. inversion Hf1 as [|? s2 ? l2 _ Hf2]; subst.
  inversion Hf2 as [|? s3 ? l3 [H5 H6] Hf3]; subst. simpl. split.
  - apply H2. exists "alpha". split; apply (bool_decide_unpack _); by vm_compute.
  - destruct (Qlt_le_dec 0 s3) as [H|H]; [|lra]. exfalso. apply H6 in H as (t & Ha & Hb).
    assert (t = "alpha") as -> by (vm_compute in Ha; by apply list_elem_of_singleton in Ha).
    revert Hb. apply (bool_decide_unpack _). by vm_compute.
Defined.
