(* ===== verification/Reranker.v ===== *)
(** * The cross-encoder reranker (document_processor/rag/reranker.py)

    The state is the model and a flag.  Whether the package is installed, what
    loading the model does and the scores it predicts are arguments. *)

From S2P Require Import Prelude PyStr Bm25.
#[local] Open Scope py_scope.
#[local] Open Scope Z_scope.

Section reranker.
(** A loaded model, and what it answers for pairs of texts *)
Variable model : Type.
Variable predict : model -> list (string * string) -> result pyexn (list Q).
Variable HAS_CROSS_ENCODER : bool.
Variable load : result pyexn model.

Record CrossEncoderReranker := Rerank { _model : option model; _initialized : bool }.
Definition new_reranker : CrossEncoderReranker := Rerank None false.

Definition initialize (r : CrossEncoderReranker) : result pyexn unit * CrossEncoderReranker :=
  if _initialized r then (Ok tt, r)
  else if negb HAS_CROSS_ENCODER then (Ok tt, r)
  else match load with Ok m => (Ok tt, Rerank (Some m) true) | Err x => (Err x, r) end.

(** The documents as they come, scored by their place *)
Definition in_order (documents : list string) : list (string * Q) := map (fun p => (p.2, (1 / inject_Z (Z.of_nat p.1 + 1))%Q)) (enumerate documents).
Definition py_take_opt {A} (k : option Z) (l : list A) : list A := match k with Some k => py_take k l | None => l end.

Definition rerank_with (m : model) (query : string) (documents : list string) (top_k : option Z) : list (string * Q) :=
  match predict m (map (fun d => (query, d)) documents) with
  | Ok scores => py_take_opt top_k (sort_desc snd (zip documents scores))
  | Err _ => in_order (py_take_opt top_k documents)
  end.
Definition rerank (query : string) (documents : list string) (top_k : option Z) (r : CrossEncoderReranker)
  : result pyexn (list (string * Q)) * CrossEncoderReranker :=
  match (if _initialized r then (Ok tt, r) else initialize r) with
  | (Err x, r) => (Err x, r)
  | (Ok _, r) =>
      (Ok (match _model r, documents with
           | Some m, _ :: _ => rerank_with m query documents top_k
           | _, _ => in_order documents
           end), r)
  end.
Definition score_pair (query document : string) (r : CrossEncoderReranker) : result pyexn Q * CrossEncoderReranker :=
  match (if _initialized r then (Ok tt, r) else initialize r) with
  | (Err x, r) => (Err x, r)
  | (Ok _, r) =>
      (Ok (match _model r with
           | None => 0%Q
           | Some m => match predict m [(query, document)] with Ok (s :: _) => s | _ => 0%Q end
           end), r)
  end.
Definition close (r : CrossEncoderReranker) : CrossEncoderReranker := Rerank None false.
Definition is_available (r : CrossEncoderReranker) : bool := HAS_CROSS_ENCODER && _initialized r.

(** ** What reranking keeps *)

Lemma in_order_texts documents : (in_order documents).*1 = documents.
Proof.
  unfold in_order, enumerate. assert (forall n, (map (fun p : nat * string => (p.2, (1 / inject_Z (Z.of_nat p.1 + 1))%Q)) (zip (seq n (length documents)) documents)).*1 = documents) as H; [|apply H].
  induction documents as [|d l IH]; intros n; [done|]. simpl. f_equal. apply IH.
Qed.
Lemma py_take_opt_sub {A} k (l : list A) x : x ∈ py_take_opt k l -> x ∈ l.
Proof. destruct k as [k|]; [|done]. unfold py_take_opt, py_take, py_slice. apply elem_of_take_drop. Qed.

(** Every answer is one of the documents; with scores for all of them, and
    without a limit, it is a permutation of the documents in the order of the
    scores. *)
Lemma rerank_elem query documents top_k r l r' t x : rerank query documents top_k r = (Ok l, r') -> (t, x) ∈ l -> t ∈ documents.
Proof.
  unfold rerank. destruct (if _initialized r then _ else _) as [[[]|e] r0]; [|done]. intros [= <- <-] Hin.
  assert (forall ds, (t, x) ∈ in_order ds -> t ∈ ds) as Ho.
  { intros ds H. rewrite <- (in_order_texts ds). by apply (list_elem_of_fmap_2 fst) in H. }
  destruct (_model r0) as [m|]; [|by apply Ho]. destruct documents as [|d ds]; [by apply Ho|]. unfold rerank_with in Hin.
  destruct (predict m _) as [scores|e].
  - apply py_take_opt_sub in Hin. rewrite sort_desc_perm in Hin. by apply elem_of_zip_l in Hin.
  - apply Ho in Hin. by apply py_take_opt_sub in Hin.
Qed.
Lemma rerank_sorted query documents r m scores : _initialized r = true -> _model r = Some m -> documents <> [] ->
  predict m (map (fun d => (query, d)) documents) = Ok scores -> length scores = length documents ->
  exists l, rerank query documents None r = (Ok l, r) /\ l.*1 ≡ₚ documents /\ StronglySorted (key_ge snd) l.
Proof.
  intros Hi Hm Hne Hp Hlen. unfold rerank. rewrite Hi, Hm. destruct documents as [|d ds]; [done|]. unfold rerank_with. rewrite Hp. cbn [py_take_opt].
  eexists. split_and!; [done| |apply sort_desc_sorted]. rewrite sort_desc_perm. by rewrite fst_zip by lia.
Qed.
End reranker.
Arguments Rerank {model}. Arguments _model {model}. Arguments _initialized {model}. Arguments new_reranker {model}.
