(* ===== verification/Chunking.v ===== *)
(** * Cutting a text into chunks

    The loop that rag/rag_engine.py and vector_store/lancedb_store.py share: a
    chunk of a given size ends behind the last sentence that ends in it, and
    the next one starts the overlap before.  They differ in what ends a
    sentence, which is an argument here. *)

From S2P Require Import Prelude PyStr.
From Stdlib Require Import Ascii.
#[local] Open Scope Z_scope.

#[local] Abbreviation chars := (list ascii).
#[local] Abbreviation chars_of := String.list_ascii_of_string.
#[local] Abbreviation str_of := String.string_of_list_ascii.

Fixpoint has_prefix (p t : chars) : bool :=
  match p, t with [], _ => true | a :: p', c :: t' => Ascii.eqb a c && has_prefix p' t' | _, _ => false end.
Definition occurs (sub t : chars) (i : nat) : bool := has_prefix sub (drop i t).
(** [t.rfind(sub, start, stop)] *)
Definition rfind (sub t : chars) (start stop : Z) : Z :=
  let a := py_index (zlength t) start in
  let e := py_index (zlength t) stop in
  foldl (fun acc i => if (a <=? Z.of_nat i) && (Z.of_nat i + zlength sub <=? e) && occurs sub t i then Z.of_nat i else acc) (-1)
    (seq 0 (S (length t))).

(** The end of the chunk: behind the last break of the first kind found *)
Fixpoint break_at (puncts : list chars) (t : chars) (start stop : Z) : Z :=
  match puncts with
  | [] => stop
  | p :: ps => let last_punct := rfind p t start stop in if negb (last_punct =? -1) then last_punct + zlength p else break_at ps t start stop
  end.
Section chunks.
Variable puncts : list chars.
Definition chunk_end (size : Z) (t : chars) (start : Z) : Z :=
  let stop := start + size in if stop <? zlength t then break_at puncts t start stop else stop.
(** The loop from [start] on; [None] when the fuel runs out first *)
Fixpoint chunk_loop (fuel : nat) (t : chars) (size overlap start : Z) : option (list string) :=
  match fuel with
  | O => None
  | S n =>
      if start <? zlength t then
        let stop := chunk_end size t start in
        let chunk := strip is_space (str_of (py_slice start stop t)) in
        rest ← chunk_loop n t size overlap (stop - overlap);
        Some (if String.eqb chunk "" then rest else chunk :: rest)
      else Some []
  end.

(** ** Where chunks end *)

Lemma foldl_keep {A B} (f : A -> B -> A) l a : (forall x, x ∈ l -> f a x = a) -> foldl f a l = a.
Proof. induction l as [|x l IH]; intros H; [done|]. simpl. rewrite H by (by left). apply IH. intros y Hy. apply H. by right. Qed.
Lemma length_chars_of s : length (chars_of s) = String.length s.
Proof. induction s as [|c s IH]; simpl; by rewrite ?IH. Qed.
Lemma py_index_in n i : 0 <= i <= n -> py_index n i = i.
Proof. intros H. unfold py_index. rewrite (proj2 (Z.ltb_ge _ _)) by lia. lia. Qed.

Lemma rfind_range sub t start stop : 0 <= start <= zlength t -> 0 <= stop <= zlength t ->
  rfind sub t start stop = -1 \/ (start <= rfind sub t start stop /\ rfind sub t start stop + zlength sub <= stop).
Proof.
  intros H1 H2. unfold rfind. rewrite !py_index_in by done. apply foldl_invariant; [|by left].
  intros acc i _ Hacc. destruct (_ && _) eqn:E; [|done]. right. rewrite !andb_true_iff in E. destruct E as [[E1 E2] _]. lia.
Qed.
(** The last occurrence is the one that is found. *)
Lemma rfind_last sub t start stop p : 0 <= start <= zlength t -> 0 <= stop <= zlength t -> start <= Z.of_nat p ->
  Z.of_nat p + zlength sub <= stop -> occurs sub t p = true -> (forall j, (p < j)%nat -> occurs sub t j = false) ->
  rfind sub t start stop = Z.of_nat p.
Proof.
  intros H1 H2 Hp1 Hp2 Ho Hno. unfold rfind. rewrite !py_index_in by done. pose proof (zlength_nonneg sub). unfold zlength in *.
  replace (S (length t)) with (p + S (length t - p))%nat by lia. rewrite seq_app, foldl_app. simpl.
  rewrite Ho. rewrite (proj2 (Z.leb_le start (Z.of_nat p))) by done. rewrite (proj2 (Z.leb_le (Z.of_nat p + _) stop)) by done. simpl.
  apply foldl_keep. intros j Hj. apply elem_of_seq in Hj. rewrite (Hno j) by lia. by rewrite andb_false_r.
Qed.
Lemma break_at_range ps t start stop : Forall (fun p => p <> []) ps -> 0 <= start < stop -> stop <= zlength t ->
  start < break_at ps t start stop <= stop.
Proof.
  intros Hps Hs Hl. induction Hps as [|p ps Hp Hps IH]; cbn [break_at]; [lia|].
  destruct (rfind_range p t start stop) as [->|[H1 H2]]; [lia|lia|exact IH|]. destruct (Z.eqb_spec (rfind p t start stop) (-1)); [lia|]. cbn [negb].
  assert (0 < zlength p); [|lia]. destruct p; [done|]. rewrite zlength_cons. pose proof (zlength_nonneg p). lia.
Qed.
Lemma chunk_end_range size t start : Forall (fun p => p <> []) puncts -> 0 < size -> 0 <= start -> start < chunk_end size t start <= start + size.
Proof.
  intros Hp Hs H0. unfold chunk_end. destruct (Z.ltb_spec (start + size) (zlength t)); [|lia]. by apply break_at_range; [|lia|lia].
Qed.

(** The spans of the chunks *)
Fixpoint spans (fuel : nat) (t : chars) (size overlap start : Z) : list (Z * Z) :=
  match fuel with
  | O => []
  | S n => if start <? zlength t then let stop := chunk_end size t start in (start, stop) :: spans n t size overlap (stop - overlap) else []
  end.
Definition nonempty (s : string) : bool := negb (String.eqb s "").
Definition chunk_texts (t : chars) (sp : list (Z * Z)) : list string :=
  List.filter nonempty (map (fun p => strip is_space (str_of (py_slice p.1 p.2 t))) sp).
(** Every chunk ends more than the overlap behind its start. *)
Definition advances (t : chars) (size overlap : Z) : Prop :=
  forall s, 0 <= s < zlength t -> s < chunk_end size t s - overlap.

Lemma chunk_loop_ends t size overlap fuel start : advances t size overlap -> 0 <= overlap -> 0 <= start ->
  Z.max 0 (zlength t - start) < Z.of_nat fuel ->
  chunk_loop fuel t size overlap start = Some (chunk_texts t (spans fuel t size overlap start)) /\
  forall i, start <= i < zlength t -> exists a b, (a, b) ∈ spans fuel t size overlap start /\ a <= i < b.
Proof.
  intros Ha Ho. revert start. induction fuel as [|n IH]; intros start H0 Hf; [lia|]. cbn [chunk_loop spans].
  destruct (Z.ltb_spec start (zlength t)) as [Hlt|Hge]; [|split; [done|lia]]. cbv zeta.
  pose proof (Ha start ltac:(lia)) as Hadv. destruct (IH (chunk_end size t start - overlap)) as [-> Hcov]; [lia|lia|]. split.
  - unfold chunk_texts. simpl. unfold nonempty. by destruct (String.eqb _ _).
  - intros i Hi. destruct (Z.lt_ge_cases i (chunk_end size t start)) as [Hlo|Hhi].
    + exists start, (chunk_end size t start). split; [by left|lia].
    + destruct (Hcov i) as (a & b' & Hin & Hab); [lia|]. exists a, b'. split; [by right|done].
Qed.

(** ** Chunking that never ends *)

Lemma chunk_loop_stuck fuel t size overlap s : s < zlength t -> chunk_end size t s - overlap = s -> chunk_loop fuel t size overlap s = None.
Proof.
  intros Hs He. induction fuel as [|n IH]; [done|]. cbn [chunk_loop]. rewrite (proj2 (Z.ltb_lt _ _) Hs). cbv zeta. rewrite He, IH. done.
Qed.
(** The chunk that starts at [s] ends behind a full stop at [p] that is the
    last one of the text. *)
Lemma chunk_end_stop ps size t s p : puncts = chars_of ". " :: ps -> 0 <= s -> s <= Z.of_nat p -> Z.of_nat p + 2 <= s + size -> s + size < zlength t ->
  occurs (chars_of ". ") t p = true -> (forall j, (p < j)%nat -> occurs (chars_of ". ") t j = false) ->
  chunk_end size t s = Z.of_nat p + 2.
Proof.
  intros Hps H0 H1 H2 H3 Ho Hno. unfold chunk_end. rewrite (proj2 (Z.ltb_lt _ _) H3), Hps. cbn [break_at].
  rewrite (rfind_last (chars_of ". ") t s (s + size) p) by (done || (unfold zlength in *; simpl; lia)).
  rewrite (proj2 (Z.eqb_neq (Z.of_nat p) (-1))) by lia. done.
Qed.
End chunks.
