(* ===== verification/RagEngine.v ===== *)
(** * The retrieval engine

    The class [RAGEngine] of document_processor/rag/rag_engine.py: chunking,
    the index, hybrid search (Bm25.v), reranking (Reranker.v) and answers.  The
    embedding model, numpy, the square root and the logarithm of floats, the
    order in which a set is iterated and the language model are parameters. *)

From S2P Require Import Prelude PyStr PyVal PyConv PyRe Quality Bm25 Reranker Chunking.
From Stdlib Require Import Ascii.
#[local] Open Scope py_scope.
#[local] Open Scope Z_scope.
#[local] Abbreviation chars := (list ascii).
#[local] Abbreviation chars_of := String.list_ascii_of_string.
#[local] Abbreviation str_of := String.string_of_list_ascii.

Record RAGConfig := Config {
  top_k : Z; min_relevance_score : Q; dense_weight : Q; sparse_weight : Q; use_reranker : bool; reranker_top_k : Z;
  max_context_tokens : Z; chunk_size : Z; chunk_overlap : Z; decompose_complex_queries : bool; max_sub_queries : Z; embedding_dimension : Z }.
Definition default_config : RAGConfig := Config 10 0.3 0.7 0.3 true 5 4000 500 100 true 3 768.

Record SearchResult := Result {
  id : string; text : string; rs_score : Q; source_url : option string; title : option string; language : option string;
  document_id : string; chunk_index : Z; metadata : list (string * pyval); dense_score : Q; sparse_score : Q; rerank_score : option Q }.

(** ** Chunking *)

Definition PUNCT : list chars := map chars_of [". "; "! "; "? "; String "010" (String "010" ""); String "010" ""].
Definition or_default (o : option Z) (d : Z) : Z := match o with Some z => if z =? 0 then d else z | None => d end.
Definition _chunk_text (fuel : nat) (cfg : RAGConfig) (txt : string) (size overlap : option Z) : option (list string) :=
  let size := or_default size (chunk_size cfg) in
  let overlap := or_default overlap (chunk_overlap cfg) in
  if zlength (chars_of txt) <=? size then Some [txt] else chunk_loop PUNCT fuel (chars_of txt) size overlap 0.

(** ** Decomposing a question *)

(** [re.split(r, s)] for an expression without groups *)
Fixpoint split_at (fuel : nat) (r : re) (cur : chars) (pl : place) : list string :=
  match fuel with
  | O => [str_of (rev cur) +:+ pl.2]
  | S n =>
      match ends r pl with
      | pl' :: _ => str_of (rev cur) :: split_at n r [] pl'
      | [] => match pl.2 with String c s => split_at n r (c :: cur) (Some c, s) | EmptyString => [str_of (rev cur)] end
      end
  end.
Definition re_split (r : re) (s : string) : list string := split_at (S (String.length s)) r [] (None, s).
Fixpoint LitI (s : string) : re :=
  match s with EmptyString => Emp | String c s' => Cat (Chr (fun x => Ascii.eqb (lower_char x) c)) (LitI s') end.
Definition AND : re := Cat (Plus (Chr is_space)) (Cat (LitI "and") (Plus (Chr is_space))).
Definition OR : re := Cat (Plus (Chr is_space)) (Cat (LitI "or") (Plus (Chr is_space))).

Definition questions (q : string) : list string :=
  flat_map (fun p => let p := strip is_space p in if String.eqb p "" then [] else [p +:+ "?"]) (split "?" q).
Fixpoint unique_queries (seen : list string) (qs : list string) : list string :=
  match qs with
  | [] => []
  | q :: qs' =>
      if negb (bool_decide (lower q ∈ seen)) && (5 <? String.length q)%nat then q :: unique_queries (lower q :: seen) qs'
      else unique_queries seen qs'
  end.
Definition _decompose_query (cfg : RAGConfig) (query : string) : list string :=
  let sub := [query] in
  let sub := if str_in " and " (lower query) then sub ++ re_split AND query else sub in
  let sub := if str_in " or " (lower query) then sub ++ re_split OR query else sub in
  let sub := if str_in "?" query then sub ++ questions query else sub in
  py_take (max_sub_queries cfg) (unique_queries [] sub).

(** ** The engine *)

Record chunk_doc := Chunk {
  ch_id : string; ch_text : string; ch_document : string; ch_index : Z; ch_url : option string; ch_title : option string;
  ch_language : option string; ch_metadata : list (string * pyval); ch_created : Q }.

(** A document to add *)
Record new_doc := NewDoc {
  nd_text : string; nd_id : option string; nd_url : option string; nd_title : option string; nd_language : option string;
  nd_metadata : option (list (string * pyval)) }.

(** What a call to the language model answers *)
Inductive llm_reply := LlmReply (status : Z) (json : result pyexn pyval) | LlmFailed (x : pyexn).

(** numpy, where it is installed: the product of two vectors, which raises if their
    shapes differ, the norm, and the quotient of two of its numbers, which warns
    about a zero and does not raise (the nan it then answers is no number
    here) *)
Record numpy := Numpy { np_dot : list Q -> list Q -> result pyexn Q; np_norm : list Q -> Q; np_divide : Q -> Q -> Q }.
(** The square root of a float ([x ** 0.5]), and numpy *)
Record vector_lib := Vectors { root : Q -> Q; np : option numpy }.
Definition _cosine_similarity (lib : vector_lib) (a b : list Q) : result pyexn Q :=
  match np lib with
  | None =>
      let dot := Qsum (zip_with Qmult a b) in
      let norm_a := root lib (Qsum (map (fun x => x * x)%Q a)) in
      let norm_b := root lib (Qsum (map (fun x => x * x)%Q b)) in
      if Qeq_bool norm_a 0 || Qeq_bool norm_b 0 then Ok 0%Q else py_div dot (norm_a * norm_b)
  | Some lib => dot <-! np_dot lib a b; Ok (np_divide lib dot (np_norm lib a * np_norm lib b))
  end.
(** The similarity of every embedding, in order *)
Fixpoint similarities (lib : vector_lib) (q : list Q) (l : list (nat * list Q)) : result pyexn (list (nat * Q)) :=
  match l with
  | [] => Ok []
  | p :: l' => sim <-! _cosine_similarity lib q p.2; rest <-! similarities lib q l'; Ok ((p.1, sim) :: rest)
  end.

Section engine.
Variable cfg : RAGConfig.
Variable log : Q -> Q.
Variable model emb_model : Type.
(** The cross-encoder *)
Variable predict : model -> list (string * string) -> result pyexn (list Q).
Variable HAS_CROSS_ENCODER : bool.
Variable load_reranker : result pyexn model.
(** The embeddings *)
Variable HAS_SENTENCE_TRANSFORMERS : bool.
Variable load_embedding : result pyexn emb_model.
Variable encode : emb_model -> string -> result pyexn (list Q).
Variable encode_batch : emb_model -> list string -> result pyexn (list (list Q)).
Variable lib : vector_lib.
(** The iteration over a set of numbers *)
Variable iter_set : gset nat -> list nat.
Variable sha256_hex : string -> string.
Variable generate : string -> llm_reply.

Record RAGEngine := Engine {
  _embedding_model : option emb_model; _reranker : option (CrossEncoderReranker model); _bm25 : option BM25;
  _documents : list chunk_doc; _embeddings : list (list Q); eng_initialized : bool }.
Definition new_engine : RAGEngine := Engine None None None [] [] false.

Definition set_reranker (r : option (CrossEncoderReranker model)) (e : RAGEngine) : RAGEngine :=
  Engine (_embedding_model e) r (_bm25 e) (_documents e) (_embeddings e) (eng_initialized e).

(** A reranker whose model cannot be loaded stays in place. *)
Definition init_engine (e : RAGEngine) : RAGEngine :=
  if eng_initialized e then e else
  let emb := if HAS_SENTENCE_TRANSFORMERS then match load_embedding with Ok m => Some m | Err _ => _embedding_model e end else _embedding_model e in
  let rr := if use_reranker cfg then Some (initialize model HAS_CROSS_ENCODER load_reranker new_reranker).2 else _reranker e in
  Engine emb rr (_bm25 e) (_documents e) (_embeddings e) true.

Definition _embed_text (txt : string) (e : RAGEngine) : result pyexn (list Q) :=
  match _embedding_model e with
  | None => Ok (replicate (Z.to_nat (embedding_dimension cfg)) 0%Q)
  | Some m => encode m txt
  end.
Definition _embed_batch (texts : list string) (e : RAGEngine) : result pyexn (list (list Q)) :=
  match _embedding_model e with
  | None => Ok (replicate (length texts) (replicate (Z.to_nat (embedding_dimension cfg)) 0%Q))
  | Some m => encode_batch m texts
  end.
Definition _build_bm25_index (e : RAGEngine) : RAGEngine :=
  Engine (_embedding_model e) (_reranker e) (Some (fit log (map ch_text (_documents e)) new_bm25)) (_documents e) (_embeddings e) (eng_initialized e).

Definition chunk_of (d : new_doc) (document_id : string) (now : Q) (i : nat) (chunk : string) : chunk_doc :=
  Chunk (document_id +:+ "_chunk_" +:+ str_int (Z.of_nat i)) chunk document_id (Z.of_nat i) (nd_url d) (nd_title d) (nd_language d)
    (match nd_metadata d with Some ((_ :: _) as m) => m | _ => [] end) now.
Definition store_chunks (d : new_doc) (document_id : string) (now : Q) (pairs : list (string * list Q)) (e : RAGEngine) : RAGEngine :=
  Engine (_embedding_model e) (_reranker e) (_bm25 e)
    (_documents e ++ map (fun p => chunk_of d document_id now p.1 p.2.1) (enumerate pairs))
    (_embeddings e ++ map snd pairs) (eng_initialized e).
(** [None]: the chunking does not end within the fuel. *)
Definition add_document (fuel : nat) (d : new_doc) (now : Q) (e : RAGEngine) : option (result pyexn Z * RAGEngine) :=
  let e := init_engine e in
  let document_id := if truthy_str (nd_id d) then default "" (nd_id d) else str_take 16 (sha256_hex (str_take 1000 (nd_text d))) in
  chunks ← _chunk_text fuel cfg (nd_text d) None None;
  Some (match _embed_batch chunks e with
        | Err x => (Err x, e)
        | Ok embeddings => (Ok (zlength chunks), _build_bm25_index (store_chunks d document_id now (zip chunks embeddings) e))
        end).
Fixpoint add_documents (fuel : nat) (docs : list new_doc) (now : Q) (total : Z) (e : RAGEngine) : option (result pyexn Z * RAGEngine) :=
  match docs with
  | [] => Some (Ok total, e)
  | d :: ds =>
      r ← add_document fuel d now e;
      match r with (Err x, e) => Some (Err x, e) | (Ok n, e) => add_documents fuel ds now (total + n) e end
  end.

(** *** Searching *)

Definition _dense_search (query : string) (k : Z) (e : RAGEngine) : result pyexn (list (nat * Q)) :=
  match _embedding_model e, _embeddings e with
  | Some _, _ :: _ =>
      q <-! _embed_text query e;
      sims <-! similarities lib q (enumerate (_embeddings e));
      Ok (py_take k (sort_desc snd sims))
  | _, _ => Ok []
  end.
Definition _sparse_search (query : string) (k : Z) (e : RAGEngine) : result pyexn (list (nat * Q)) :=
  match _bm25 e with None => Ok [] | Some m => get_top_k query k m end.

Definition max_of (x : Q) (l : list Q) : Q := foldl py_max x l.
Fixpoint divide_scores (max_score : Q) (results : list (nat * Q)) : result pyexn (list (nat * Q)) :=
  match results with
  | [] => Ok []
  | r :: rs => score <-! py_div r.2 max_score; rest <-! divide_scores max_score rs; Ok ((r.1, score) :: rest)
  end.
(** [max(...) or 1.0] *)
Definition normalize_scores (results : list (nat * Q)) : result pyexn (gmap nat Q) :=
  match results with
  | [] => Ok ∅
  | r :: rs =>
      let mx := max_of r.2 (map snd rs) in
      let mx := if Qeq_bool mx 0 then 1%Q else mx in
      scores <-! divide_scores mx results; Ok (list_to_map (reverse scores))
  end.
Definition combined (dense sparse : gmap nat Q) (i : nat) : Q :=
  (dense_weight cfg * default 0 (dense !! i) + sparse_weight cfg * default 0 (sparse !! i))%Q.
Definition result_of (dense sparse : gmap nat Q) (i : nat) (d : chunk_doc) : SearchResult :=
  Result (ch_id d) (ch_text d) (combined dense sparse i) (ch_url d) (ch_title d) (ch_language d) (ch_document d) (ch_index d) (ch_metadata d)
    (default 0 (dense !! i))%Q (default 0 (sparse !! i))%Q None.
Definition index_error : pyexn := PyExn "IndexError" "list index out of range".
Fixpoint results_of (dense sparse : gmap nat Q) (docs : list chunk_doc) (idxs : list nat) : result pyexn (list SearchResult) :=
  match idxs with
  | [] => Ok []
  | i :: idxs' =>
      match docs !! i with
      | None => Err index_error
      | Some d => r <-! results_of dense sparse docs idxs'; Ok (result_of dense sparse i d :: r)
      end
  end.
Definition _hybrid_search (query : string) (k : Z) (e : RAGEngine) : result pyexn (list SearchResult) :=
  dense_results <-! _dense_search query (k * 2) e;
  sparse_results <-! _sparse_search query (k * 2) e;
  dense <-! normalize_scores dense_results;
  sparse <-! normalize_scores sparse_results;
  let all_indices := dom dense ∪ dom sparse in
  results_of dense sparse (_documents e) (py_take k (sort_desc (combined dense sparse) (iter_set all_indices))).

Definition set_rerank (s : Q) (r : SearchResult) : SearchResult :=
  Result (id r) (text r) s (source_url r) (title r) (language r) (document_id r) (chunk_index r) (metadata r) (dense_score r) (sparse_score r) (Some s).
(** The first result with the text *)
Fixpoint score_first (t : string) (s : Q) (rs : list SearchResult) : list SearchResult :=
  match rs with [] => [] | r :: rs' => if String.eqb (text r) t then set_rerank s r :: rs' else r :: score_first t s rs' end.
Definition rerank_key (r : SearchResult) : Q := default 0%Q (rerank_score r).
Definition _rerank (query : string) (results : list SearchResult) (k : Z) (e : RAGEngine) : result pyexn (list SearchResult) * RAGEngine :=
  match _reranker e, results with
  | Some rr, _ :: _ =>
      match rerank model predict HAS_CROSS_ENCODER load_reranker query (map text results) (Some k) rr with
      | (Err x, rr) => (Err x, set_reranker (Some rr) e)
      | (Ok reranked, rr) =>
          (Ok (py_take k (sort_desc rerank_key (foldl (fun rs p => score_first p.1 p.2 rs) results reranked))), set_reranker (Some rr) e)
      end
  | _, _ => (Ok (py_take k results), e)
  end.

Definition or_top_k (k : option Z) : Z := or_default k (top_k cfg).
(** [a == b]: numbers by value *)
Definition num_of (v : pyval) : option Q :=
  match v with PBool x => Some (if x then 1%Q else 0%Q) | PInt z => Some (inject_Z z) | PFloat q => Some q | _ => None end.
Definition py_equal (v w : pyval) : bool :=
  match num_of v, num_of w with Some a, Some c => Qeq_bool a c | _, _ => bool_decide (v = w) end.
Definition passes (filters : list (string * pyval)) (r : SearchResult) : bool :=
  forallb (fun kv => py_equal (default PNone (dict_get kv.1 (metadata r))) kv.2) filters.
Definition relevant (r : SearchResult) : bool := Qle_bool (min_relevance_score cfg) (rs_score r).
Definition search (query : string) (k : option Z) (filters : list (string * pyval)) (e : RAGEngine)
  : result pyexn (list SearchResult) * RAGEngine :=
  let e := init_engine e in
  let k := or_top_k k in
  match _hybrid_search query (k * 2) e with
  | Err x => (Err x, e)
  | Ok results =>
      let results := List.filter relevant (List.filter (passes filters) results) in
      if use_reranker cfg then _rerank query results k e else (Ok (py_take k results), e)
  end.

(** *** Answering *)

Fixpoint search_all (queries : list string) (acc : list SearchResult) (e : RAGEngine) : result pyexn (list SearchResult) * RAGEngine :=
  match queries with
  | [] => (Ok acc, e)
  | q :: qs => match search q None [] e with (Err x, e) => (Err x, e) | (Ok rs, e) => search_all qs (acc ++ rs) e end
  end.
Fixpoint unique_ids (seen : list string) (rs : list SearchResult) : list SearchResult :=
  match rs with
  | [] => []
  | r :: rs' => if bool_decide (id r ∈ seen) then unique_ids seen rs' else r :: unique_ids (id r :: seen) rs'
  end.

Definition NL : string := String "010" "".
Definition source_text (i : nat) (s : SearchResult) : string :=
  "[Source " +:+ str_int (Z.of_nat i + 1) +:+ "]" +:+
  (if truthy_str (title s) then " " +:+ default "" (title s) else "") +:+
  (if truthy_str (source_url s) then " (" +:+ default "" (source_url s) +:+ ")" else "") +:+ NL +:+ text s.
Definition context_of (sources : list SearchResult) : string :=
  let context := join (NL +:+ NL) (map (fun p => source_text p.1 p.2) (enumerate sources)) in
  let limit := max_context_tokens cfg * 4 in
  if limit <? zlength (chars_of context) then str_of (py_take limit (chars_of context)) else context.
Definition prompt_of (question : string) (sources : list SearchResult) : string :=
  "Based on the following sources, answer the question. Be concise and cite your sources using [Source N] notation." +:+ NL +:+ NL +:+
  "Sources:" +:+ NL +:+ context_of sources +:+ NL +:+ NL +:+ "Question: " +:+ question +:+ NL +:+ NL +:+ "Answer:".
Definition no_get (v : pyval) : pyexn := PyExn "AttributeError" ("'" +:+ type_name v +:+ "' object has no attribute 'get'").
Definition _synthesize_answer (question : string) (sources : list SearchResult) : string * Q :=
  let failed x := ("Error generating answer: " +:+ exn_str x, 0%Q) in
  match generate (prompt_of question sources) with
  | LlmFailed x => failed x
  | LlmReply status json =>
      if negb (status =? 200) then ("Failed to generate answer.", 0%Q) else
      match json with
      | Err x => failed x
      | Ok (PDict d) =>
          match default (PStr "") (dict_get "response" d) with
          | PStr s => match py_div (Qsum (map rs_score sources)) (inject_Z (zlength sources)) with
                      | Ok avg => (strip is_space s, avg)
                      | Err x => failed x
                      end
          | v => failed (PyExn "AttributeError" ("'" +:+ type_name v +:+ "' object has no attribute 'strip'"))
          end
      | Ok v => failed (no_get v)
      end
  end.

Record RAGResponse := Response {
  answer : string; sources : list SearchResult; rq_query : string; sub_queries : list string; confidence : Q; total_results : Z; synthesized : bool }.
Definition SEP : string := NL +:+ NL +:+ "---" +:+ NL +:+ NL.
Definition plain_source (r : SearchResult) : string :=
  "**" +:+ (if truthy_str (title r) then default "" (title r) else "Source") +:+ "**" +:+ NL +:+ text r.
Definition query (question : string) (synthesize : bool) (e : RAGEngine) : result pyexn RAGResponse * RAGEngine :=
  let e := init_engine e in
  let sub := if decompose_complex_queries cfg then _decompose_query cfg question else [] in
  match search_all (match sub with [] => [question] | _ => sub end) [] e with
  | (Err x, e) => (Err x, e)
  | (Ok all, e) =>
      let unique := sort_desc rs_score (unique_ids [] all) in
      let top := py_take (reranker_top_k cfg) unique in
      let '(ans, conf) :=
        match synthesize, top with
        | true, _ :: _ => _synthesize_answer question top
        | _, _ => (join SEP (map plain_source top), match top with r :: _ => rs_score r | [] => 0%Q end)
        end in
      (Ok (Response ans top question sub conf (zlength unique) synthesize), e)
  end.

Record rag_stats := Stats { total_documents : Z; total_chunks : Z; has_embeddings : bool; has_bm25 : bool; has_reranker : bool }.
Definition get_stats (e : RAGEngine) : rag_stats :=
  Stats (zlength (remove_dups (map ch_document (_documents e)))) (zlength (_documents e)) (negb (bool_decide (_embeddings e = [])))
    (match _bm25 e with Some _ => true | None => false end) (match _reranker e with Some _ => true | None => false end).
Definition clear (e : RAGEngine) : RAGEngine := Engine (_embedding_model e) (_reranker e) None [] [] (eng_initialized e).
Definition close_engine (e : RAGEngine) : RAGEngine := set_reranker (close model <$> _reranker e) e.
End engine.

(** ** Chunks cover the text *)

(** Chunking ends and loses nothing, if every chunk advances.  As long as
    each chunk of the text ends more than the overlap behind its start, the
    loop ends within one turn per character and one more, the chunks are the
    stripped slices of the spans it passes, and every character of the text
    lies in one of them. *)
Theorem chunks_cover cfg txt : advances PUNCT (chars_of txt) (chunk_size cfg) (chunk_overlap cfg) -> 0 <= chunk_overlap cfg ->
  exists chunks sp, _chunk_text (S (String.length txt)) cfg txt None None = Some chunks /\
    (chunks = [txt] \/ chunks = chunk_texts (chars_of txt) sp /\
      forall i, 0 <= i < zlength (chars_of txt) -> exists a b, (a, b) ∈ sp /\ a <= i < b).
Proof.
  intros Ha Ho. unfold _chunk_text, or_default. destruct (_ <=? _); [by exists [txt], []; split; [|left]|].
  destruct (chunk_loop_ends PUNCT (chars_of txt) (chunk_size cfg) (chunk_overlap cfg) (S (String.length txt)) 0 Ha Ho) as [-> Hc]; [done| |].
  - unfold zlength. rewrite length_chars_of. lia.
  - eexists _, _. split; [done|]. right. split; [done|exact Hc].
Qed.

(** ** Chunking that never ends *)

(** A text with a long last sentence is never indexed.  Where the last full
    stop of a text lies within its first chunk, at least the overlap in, and
    more than a chunk less the overlap follows it, the loop comes back to the
    same start for ever: no number of turns is enough, and adding the document
    does not return. *)
Theorem long_sentence_never_chunked cfg txt p : let t := chars_of txt in
  2 <= chunk_overlap cfg -> chunk_overlap cfg <= Z.of_nat p + 2 <= chunk_size cfg ->
  Z.of_nat p + 2 + chunk_size cfg - chunk_overlap cfg < zlength t ->
  occurs (chars_of ". ") t p = true -> (forall j, (p < j)%nat -> occurs (chars_of ". ") t j = false) ->
  forall fuel, _chunk_text fuel cfg txt None None = None.
Proof.
  intros t Ho Hp Hlen Hocc Hno fuel. unfold _chunk_text. cbn [or_default]. fold t. destruct (Z.leb_spec (zlength t) (chunk_size cfg)); [lia|].
  destruct fuel as [|n]; [done|]. cbn [chunk_loop]. rewrite (proj2 (Z.ltb_lt 0 (zlength t))) by lia. cbv zeta.
  rewrite (chunk_end_stop _ _ (chunk_size cfg) t 0 p) by (done || lia).
  rewrite (chunk_loop_stuck _ n); [done|lia|]. rewrite (chunk_end_stop _ _ _ t _ p) by (done || lia). done.
Qed.

(** ** The index is consistent *)

Section index.
Context (cfg : RAGConfig) (log : Q -> Q) (model emb_model : Type).
Context (predict : model -> list (string * string) -> result pyexn (list Q)) (HAS_CE : bool) (load_rr : result pyexn model).
Context (HAS_ST : bool) (load_emb : result pyexn emb_model) (encode : emb_model -> string -> result pyexn (list Q)).
Context (encode_batch : emb_model -> list string -> result pyexn (list (list Q))) (cos : vector_lib).
Context (iter_set : gset nat -> list nat) (sha256_hex : string -> string) (generate : string -> llm_reply).
#[local] Abbreviation engine := (RAGEngine model emb_model).
#[local] Abbreviation init := (init_engine cfg model emb_model HAS_CE load_rr HAS_ST load_emb).
#[local] Abbreviation add1 := (add_document cfg log model emb_model HAS_CE load_rr HAS_ST load_emb encode_batch sha256_hex).
#[local] Abbreviation adds := (add_documents cfg log model emb_model HAS_CE load_rr HAS_ST load_emb encode_batch sha256_hex).
#[local] Abbreviation hybrid := (_hybrid_search cfg model emb_model encode cos iter_set).
#[local] Abbreviation do_search := (search cfg model emb_model predict HAS_CE load_rr HAS_ST load_emb encode cos iter_set).
#[local] Abbreviation do_query := (query cfg model emb_model predict HAS_CE load_rr HAS_ST load_emb encode cos iter_set generate).

(** One embedding per chunk, and the term index is that of the chunks *)
Definition index_ok (e : engine) : Prop :=
  length (_embeddings _ _ e) = length (_documents _ _ e) /\
  match _bm25 _ _ e with Some m => m = fit log (map ch_text (_documents _ _ e)) new_bm25 | None => _documents _ _ e = [] end.
(** The index of an engine is another's. *)
Definition same_index (e e' : engine) : Prop :=
  _documents _ _ e' = _documents _ _ e /\ _embeddings _ _ e' = _embeddings _ _ e /\ _bm25 _ _ e' = _bm25 _ _ e.
Lemma same_index_ok e e' : same_index e e' -> index_ok e -> index_ok e'.
Proof. unfold index_ok. by intros (-> & -> & ->). Qed.
Lemma same_index_refl e : same_index e e.
Proof. done. Qed.
Lemma same_index_trans e1 e2 e3 : same_index e1 e2 -> same_index e2 e3 -> same_index e1 e3.
Proof. intros (H1 & H2 & H3) (H4 & H5 & H6). unfold same_index. by rewrite H4, H5, H6. Qed.
Lemma init_same e : same_index e (init e).
Proof. unfold init_engine. by destruct (eng_initialized _ _ e). Qed.
Lemma rerank_same q rs k e r e' : _rerank model emb_model predict HAS_CE load_rr q rs k e = (r, e') -> same_index e e'.
Proof.
  unfold _rerank. destruct (_reranker _ _ e) as [rr|]; [|by intros [= <- <-]]. destruct rs; [by intros [= <- <-]|].
  destruct (rerank _ _ _ _ _ _ _ _) as [[l|x] rr']; by intros [= <- <-].
Qed.
Lemma search_same q k fs e r e' : do_search q k fs e = (r, e') -> same_index e e'.
Proof.
  unfold search. cbv zeta. destruct (hybrid q _ (init e)) as [rs|x]; [|intros [= <- <-]; apply init_same].
  destruct (use_reranker cfg); [|intros [= <- <-]; apply init_same].
  intros H%rerank_same. eapply same_index_trans; [apply init_same|exact H].
Qed.
Lemma search_all_same qs acc e r e' :
  search_all cfg model emb_model predict HAS_CE load_rr HAS_ST load_emb encode cos iter_set qs acc e = (r, e') -> same_index e e'.
Proof.
  revert acc e. induction qs as [|q qs IH]; intros acc e; cbn [search_all]; [by intros [= <- <-]|].
  destruct (do_search q None [] e) as [[rs|x] e1] eqn:E; apply search_same in E; [|intros [= <- <-]; done].
  intros H%IH. by eapply same_index_trans.
Qed.
Lemma query_same q syn e r e' : do_query q syn e = (r, e') -> same_index e e'.
Proof.
  unfold query. cbv zeta. destruct (search_all _ _ _ _ _ _ _ _ _ _ _ _ _ _) as [[all|x] e1] eqn:E; apply search_all_same in E.
  - match goal with |- context [let '(_, _) := ?x in _] => destruct x as [ans conf] end. intros [= <- <-].
    eapply same_index_trans; [apply init_same|exact E].
  - intros [= <- <-]. eapply same_index_trans; [apply init_same|exact E].
Qed.

Lemma length_enumerate {A} (l : list A) : length (enumerate l) = length l.
Proof. unfold enumerate. rewrite length_zip, length_seq. lia. Qed.
Lemma add_document_ok fuel d now e r e' : add1 fuel d now e = Some (r, e') -> index_ok e -> index_ok e'.
Proof.
  unfold add_document. destruct (_chunk_text _ _ _ _ _) as [chunks|]; [|done]. cbn [mbind option_bind].
  intros [= H] Hok. apply (same_index_ok _ _ (init_same e)) in Hok.
  destruct (_embed_batch _ _ _ _ _ _) as [embs|x]; injection H as <- <-; [|done].
  destruct Hok as [Hlen _]. split; [|done]. simpl. rewrite !length_app, !length_map, length_enumerate. lia.
Qed.
Lemma add_documents_ok fuel ds now total e r e' : adds fuel ds now total e = Some (r, e') -> index_ok e -> index_ok e'.
Proof.
  revert total e. induction ds as [|d ds IH]; intros total e; cbn [add_documents]; [by intros [= <- <-]|].
  destruct (add1 fuel d now e) as [[[n|x] e1]|] eqn:E; [| |done]; cbn [mbind option_bind].
  - intros H Hok. eapply IH; [exact H|]. by eapply add_document_ok.
  - intros [= <- <-] Hok. by eapply add_document_ok.
Qed.

Inductive rag_op :=
| AddDocument (fuel : nat) (d : new_doc) (now : Q) | AddDocuments (fuel : nat) (ds : list new_doc) (now : Q)
| Search (q : string) (k : option Z) (fs : list (string * pyval)) | Query (q : string) (syn : bool) | Clear | Close.
(** A call that does not return leaves no later state. *)
Definition run_op (e : option engine) (o : rag_op) : option engine :=
  e ← e;
  match o with
  | AddDocument f d now => r ← add1 f d now e; Some r.2
  | AddDocuments f ds now => r ← adds f ds now 0 e; Some r.2
  | Search q k fs => Some (do_search q k fs e).2
  | Query q syn => Some (do_query q syn e).2
  | Clear => Some (clear model emb_model e)
  | Close => Some (close_engine model emb_model e)
  end.
(** The index stays consistent.  Through any sequence of additions,
    searches, questions, clearing and closing, whatever the models answer or
    raise, there is one embedding per chunk and the term index is the one
    fitted to exactly the chunks that are stored. *)
Theorem rag_index_consistent ops e : foldl run_op (Some (new_engine model emb_model)) ops = Some e -> index_ok e.
Proof.
  assert (forall e0, index_ok e0 -> foldl run_op (Some e0) ops = Some e -> index_ok e) as H; [|by apply H].
  induction ops as [|o ops IH]; intros e0 H0; simpl; [by intros [= <-]|].
  assert (foldl run_op None ops = None) as Hnone by (apply foldl_keep; done).
  destruct o as [f d now|f ds now|q k fs|q syn| |]; cbn [run_op mbind option_bind].
  - destruct (add1 f d now e0) as [[r e1]|] eqn:E; cbn [mbind option_bind]; [|by rewrite Hnone]. apply IH. by eapply add_document_ok.
  - destruct (adds f ds now 0 e0) as [[r e1]|] eqn:E; cbn [mbind option_bind]; [|by rewrite Hnone]. apply IH. by eapply add_documents_ok.
  - apply IH. destruct (do_search q k fs e0) as [r e1] eqn:E. apply search_same in E. by eapply same_index_ok.
  - apply IH. destruct (do_query q syn e0) as [r e1] eqn:E. apply query_same in E. by eapply same_index_ok.
  - by apply IH.
  - apply IH. by eapply same_index_ok.
Qed.

(** ** What a search returns *)

Hypothesis log_pos : forall x, (1 < x)%Q -> (0 < log x)%Q.
Hypothesis iter_perm : forall s, iter_set s ≡ₚ elements s.
(** The model answers with vectors of one length; numpy multiplies vectors of one length *)
Context (dim : nat).
Hypothesis encode_total : forall m q, exists v, encode m q = Ok v /\ length v = dim.
Hypothesis dot_total : forall lib a b, np cos = Some lib -> length a = length b -> is_ok (np_dot lib a b) = true.

(** A result shows a chunk: everything but the scores is the chunk's. *)
Definition shows (d : chunk_doc) (r : SearchResult) : Prop :=
  id r = ch_id d /\ text r = ch_text d /\ document_id r = ch_document d /\ chunk_index r = ch_index d /\ source_url r = ch_url d /\
  title r = ch_title d /\ language r = ch_language d /\ metadata r = ch_metadata d.

Lemma cosine_total a b : length a = length b -> exists x, _cosine_similarity cos a b = Ok x.
Proof.
  intros Hl. unfold _cosine_similarity. destruct (np cos) as [lib|] eqn:E.
  - pose proof (dot_total lib a b eq_refl Hl) as Hd. destruct (np_dot lib a b); [by eexists|done].
  - cbv zeta. set (na := root _ _). set (nb := root _ _). destruct (Qeq_bool na 0 || Qeq_bool nb 0) eqn:Ez; [by eexists|].
    apply orb_false_iff in Ez as [Ha%Qeq_bool_neq Hb%Qeq_bool_neq]. unfold py_div. destruct (Qeq_bool (na * nb) 0) eqn:En; [|by eexists].
    apply Qeq_bool_iff, Qmult_integral in En as [?|?]; contradiction.
Qed.
Lemma similarities_total q l : Forall (fun p => length p.2 = length q) l -> exists sims, similarities cos q l = Ok sims /\ sims.*1 = l.*1.
Proof.
  induction 1 as [|p l Hp Hl (sims & IH & E)]; [by exists []|]. cbn [similarities]. destruct (cosine_total q p.2) as [x ->]; [done|].
  rewrite IH. cbn [rbind]. eexists. split; [done|]. cbn [fmap list_fmap fst]. by rewrite E.
Qed.
Lemma dense_total q k e : Forall (fun v => length v = dim) (_embeddings _ _ e) ->
  exists l, _dense_search cfg model emb_model encode cos q k e = Ok l /\ forall i x, (i, x) ∈ l -> (i < length (_embeddings _ _ e))%nat.
Proof.
  intros Hdim. unfold _dense_search, _embed_text. destruct (_embedding_model _ _ e) as [m|] eqn:Em; [|exists []; split; [done|set_solver]].
  destruct (_embeddings _ _ e) as [|v vs] eqn:Ev; [exists []; split; [done|set_solver]|]. rewrite <- Ev in *.
  destruct (encode_total m q) as (w & -> & Hw). cbn [rbind]. destruct (similarities_total w (enumerate (_embeddings _ _ e))) as (sims & -> & Es).
  { apply Forall_forall. intros [j y] Hj. apply elem_of_enumerate in Hj. rewrite Hw. exact (Forall_lookup_1 _ _ _ _ Hdim Hj). }
  cbn [rbind]. eexists. split; [done|]. intros i x Hin. apply elem_of_take_drop in Hin. rewrite sort_desc_perm in Hin.
  apply (list_elem_of_fmap_2 fst) in Hin as Hf. cbn [fst] in Hf. rewrite Es in Hf. apply list_elem_of_fmap in Hf as ([j y] & -> & Hj).
  by apply elem_of_enumerate, lookup_lt_Some in Hj.
Qed.
Lemma divide_total mx l : ~ (mx == 0)%Q -> divide_scores mx l = Ok (map (fun r => (r.1, r.2 / mx)%Q) l).
Proof.
  intros Hm. induction l as [|r l IH]; [done|]. cbn [divide_scores]. unfold py_div. destruct (Qeq_bool mx 0) eqn:E; [by apply Qeq_bool_iff in E|].
  cbn [rbind]. by rewrite IH.
Qed.
Lemma normalize_total l : exists g, normalize_scores l = Ok g /\ forall i, i ∈ dom g -> exists x, (i, x) ∈ l.
Proof.
  destruct l as [|r rs]; [exists ∅; split; [done|simpl; set_solver]|]. unfold normalize_scores. set (mx := if Qeq_bool _ 0 then _ else _).
  rewrite divide_total; [|unfold mx; destruct (Qeq_bool _ 0) eqn:E; [lra|by apply Qeq_bool_neq in E]]. cbn [rbind]. eexists. split; [done|].
  intros i. rewrite elem_of_dom. intros [x Hx%elem_of_list_to_map_2]. rewrite elem_of_reverse in Hx.
  apply list_elem_of_fmap in Hx as ([j y] & [= -> _] & Hj). by exists y.
Qed.
Lemma results_of_total dense sparse docs idxs : (forall i, i ∈ idxs -> (i < length docs)%nat) ->
  exists rs, results_of cfg dense sparse docs idxs = Ok rs /\ length rs = length idxs /\ forall r, r ∈ rs -> exists d, d ∈ docs /\ shows d r.
Proof.
  induction idxs as [|i idxs IH]; intros Hi; [exists []; split_and!; [done|done|set_solver]|]. cbn [results_of].
  destruct (lookup_lt_is_Some_2 docs i (Hi i ltac:(by left))) as [d Hd]. rewrite Hd.
  destruct IH as (rs & -> & Hl & Hrs); [intros j Hj; apply Hi; by right|]. cbn [rbind]. eexists. split_and!; [done|simpl; lia|].
  intros r [->|Hr]%elem_of_cons; [|by apply Hrs]. exists d. split; [by eapply list_elem_of_lookup_2|]. done.
Qed.
Lemma length_py_take {A} k (l : list A) : 0 <= k -> zlength (py_take k l) <= k.
Proof. intros Hk. rewrite py_take_nonneg by done. unfold zlength. rewrite length_take. lia. Qed.
Lemma elem_of_py_take {A} (x : A) k l : x ∈ py_take k l -> x ∈ l.
Proof. apply elem_of_take_drop. Qed.
(** An index of vectors of the model's length *)
Definition dims_ok (e : engine) : Prop := Forall (fun v => length v = dim) (_embeddings _ _ e).
Lemma same_dims_ok e e' : same_index e e' -> dims_ok e -> dims_ok e'.
Proof. unfold dims_ok. by intros (_ & -> & _). Qed.
Lemma hybrid_total q k e : index_ok e -> dims_ok e -> exists rs, hybrid q k e = Ok rs /\ forall r, r ∈ rs -> exists d, d ∈ _documents _ _ e /\ shows d r.
Proof.
  intros [Hlen Hb] Hdim. unfold _hybrid_search. destruct (dense_total q (k * 2) e Hdim) as (dl & -> & Hdl). cbn [rbind].
  assert (exists sl, _sparse_search model emb_model q (k * 2) e = Ok sl /\ forall i x, (i, x) ∈ sl -> (i < length (_documents _ _ e))%nat) as (sl & -> & Hsl).
  { unfold _sparse_search. destruct (_bm25 _ _ e) as [m|]; [|exists []; split; [done|set_solver]]. subst m.
    destruct (top_k_total log log_pos (map ch_text (_documents _ _ e)) q (k * 2)) as (l & -> & Hl). exists l. split; [done|].
    intros i x Hin. specialize (Hl i x Hin). by rewrite length_map in Hl. }
  cbn [rbind]. destruct (normalize_total dl) as (dg & -> & Hdg), (normalize_total sl) as (sg & -> & Hsg). cbn [rbind].
  edestruct results_of_total as (rs & -> & _ & Hrs); [|by exists rs].
  intros i Hi%elem_of_py_take. rewrite sort_desc_perm, iter_perm in Hi. apply elem_of_elements, elem_of_union in Hi as [[x Hx]%Hdg|[x Hx]%Hsg];
    [|by eapply Hsl]. rewrite <- Hlen. by eapply Hdl.
Qed.

(** Reranking changes scores and order only. *)
Lemma score_first_shows t x rs r : r ∈ score_first t x rs -> exists r0, r0 ∈ rs /\ forall d, shows d r0 -> shows d r.
Proof.
  induction rs as [|y rs IH]; simpl; [intros H; by apply elem_of_nil in H|]. destruct (String.eqb (text y) t).
  - intros [->|Hr]%elem_of_cons; [exists y; split; [by left|done]|exists r; split; [by right|done]].
  - intros [->|Hr]%elem_of_cons; [exists y; split; [by left|done]|]. destruct (IH Hr) as (r0 & ? & ?). exists r0. split; [by right|done].
Qed.
Lemma score_firsts_shows ps rs r : r ∈ foldl (fun rs (p : string * Q) => score_first p.1 p.2 rs) rs ps ->
  exists r0, r0 ∈ rs /\ forall d, shows d r0 -> shows d r.
Proof.
  revert rs. induction ps as [|p ps IH]; intros rs; simpl; [intros H; exists r; done|]. intros H. destruct (IH _ H) as (r1 & H1 & Hs1).
  apply score_first_shows in H1 as (r0 & H0 & Hs0). exists r0. split; [done|]. auto.
Qed.
Lemma rerank_sound q rs k e res e' : _rerank model emb_model predict HAS_CE load_rr q rs k e = (res, e') ->
  (HAS_CE = true -> is_ok load_rr = true) -> 0 <= k ->
  exists l, res = Ok l /\ zlength l <= k /\ forall r, r ∈ l -> exists r0, r0 ∈ rs /\ forall d, shows d r0 -> shows d r.
Proof.
  intros Hr Hload Hk. unfold _rerank in Hr. assert (exists l, Ok (E := pyexn) (py_take k rs) = Ok l /\ zlength l <= k /\
    forall r, r ∈ l -> exists r0, r0 ∈ rs /\ forall d, shows d r0 -> shows d r) as Hplain.
  { eexists. split_and!; [done|by apply length_py_take|]. intros r Hr'%elem_of_py_take. by exists r. }
  destruct (_reranker _ _ e) as [rr|]; [|by injection Hr as <- <-]. destruct rs as [|r0 rs0]; [by injection Hr as <- <-|].
  assert (exists l rr', rerank model predict HAS_CE load_rr q (map text (r0 :: rs0)) (Some k) rr = (Ok l, rr')) as (l & rr' & E).
  { unfold rerank, initialize. destruct (_initialized rr) eqn:Ei; [by eexists _, _|]. destruct HAS_CE; [|by eexists _, _].
    cbn [negb]. destruct load_rr as [m|x]; [by eexists _, _|by specialize (Hload eq_refl)]. }
  rewrite E in Hr. injection Hr as <- <-. eexists. split_and!; [done|by apply length_py_take|].
  intros r Hin%elem_of_py_take. rewrite sort_desc_perm in Hin. by eapply score_firsts_shows.
Qed.

Lemma search_full q k fs e : index_ok e -> dims_ok e -> (use_reranker cfg = true -> HAS_CE = true -> is_ok load_rr = true) ->
  0 <= or_top_k cfg k ->
  exists rs e', do_search q k fs e = (Ok rs, e') /\ zlength rs <= or_top_k cfg k /\
    forall r, r ∈ rs -> passes fs r = true /\ (use_reranker cfg = false -> relevant cfg r = true) /\ exists d, d ∈ _documents _ _ e /\ shows d r.
Proof.
  intros Hok Hdim Hload Hk. unfold search. cbv zeta. apply (same_index_ok _ _ (init_same e)) in Hok. apply (same_dims_ok _ _ (init_same e)) in Hdim.
  destruct (hybrid_total q (or_top_k cfg k * 2) (init e) Hok Hdim) as (rs & -> & Hrs).
  assert (forall r, r ∈ List.filter (relevant cfg) (List.filter (passes fs) rs) -> passes fs r = true /\ relevant cfg r = true /\ exists d, d ∈ _documents _ _ e /\ shows d r) as Hf.
  { intros r Hr. rewrite list_elem_of_In, !filter_In in Hr. destruct Hr as [[Hr Hp] Hrel]. split; [done|]. split; [done|].
    destruct (Hrs r) as (d & Hd & Hs); [by apply list_elem_of_In|]. exists d. by rewrite <- (proj1 (init_same e)). }
  destruct (use_reranker cfg) eqn:Eu.
  - destruct (_rerank _ _ _ _ _ _ _ _ _) as [res e1] eqn:E. destruct (rerank_sound _ _ _ _ _ _ E (Hload eq_refl) Hk) as (l & -> & Hl & Hin).
    exists l, e1. split_and!; [done|done|]. intros r Hr. destruct (Hin r Hr) as (r0 & H0 & Hs0). destruct (Hf r0 H0) as (Hp & _ & d & Hd & Hs).
    pose proof (Hs0 d Hs) as Hs1. split; [|split; [done|by exists d]]. destruct Hs as (_ & _ & _ & _ & _ & _ & _ & Hm0). destruct Hs1 as (_ & _ & _ & _ & _ & _ & _ & Hm1).
    unfold passes in *. by rewrite Hm1, <- Hm0.
  - eexists _, _. split_and!; [done|by apply length_py_take|]. intros r Hr%elem_of_py_take. destruct (Hf r Hr) as (Hp & Hrel & Hd). done.
Qed.
Lemma search_found q k fs e : index_ok e -> dims_ok e -> (use_reranker cfg = true -> HAS_CE = true -> is_ok load_rr = true) -> 0 <= or_top_k cfg k ->
  exists rs e', do_search q k fs e = (Ok rs, e') /\ forall r, r ∈ rs -> exists d, d ∈ _documents _ _ e /\ shows d r.
Proof.
  intros Hok Hdim Hload Hk. destruct (search_full q k fs e Hok Hdim Hload Hk) as (rs & e' & E & _ & Hrs). exists rs, e'. split; [done|].
  intros r Hr. by destruct (Hrs r Hr) as (_ & _ & ?).
Qed.

(** C40: Searching a consistent index always answers, provided the embedding
    model answers with vectors of the length of those in the index and the
    reranker, if it is used, can be loaded: never with an index out of range, a
    division by zero or vectors that do not match.  The results are at most as
    many as asked for, or as the configuration says where none or 0 are asked
    for; each shows a chunk of the index with its text, source and metadata
    unchanged, its metadata has the value of every filter, and without the
    reranker its score is at least the minimum relevance. *)
Theorem search_sound q k fs e : index_ok e -> Forall (fun v => length v = dim) (_embeddings _ _ e) ->
  (use_reranker cfg = true -> HAS_CE = true -> is_ok load_rr = true) ->
  let most := match k with None | Some 0 => top_k cfg | Some n => n end in
  0 <= most ->
  exists rs e', do_search q k fs e = (Ok rs, e') /\ zlength rs <= most /\
    forall r, r ∈ rs ->
      (forall key v, (key, v) ∈ fs -> py_equal (default PNone (dict_get key (metadata r))) v = true) /\
      (use_reranker cfg = false -> (min_relevance_score cfg <= rs_score r)%Q) /\
      exists d, d ∈ _documents _ _ e /\ shows d r.
Proof.
  intros Hok Hdim Hload most Hm. assert (most = or_top_k cfg k) as Em by (by destruct k as [[]|]). rewrite Em in *.
  destruct (search_full q k fs e Hok Hdim Hload Hm) as (rs & e' & E & Hl & Hrs). exists rs, e'. split; [done|]. split; [done|].
  intros r Hr. destruct (Hrs r Hr) as (Hp & Hrel & Hd). split_and!; [|intros Hu; by apply Qle_bool_iff, Hrel|done].
  intros key v Hin. unfold passes in Hp. rewrite forallb_forall in Hp. by apply (Hp (key, v)), list_elem_of_In.
Qed.

(** ** What a question returns *)

Lemma unique_ids_spec seen rs : NoDup (map id (unique_ids seen rs)) /\ (forall r, r ∈ unique_ids seen rs -> r ∈ rs /\ id r ∉ seen).
Proof.
  revert seen. induction rs as [|r rs IH]; intros seen; simpl; [split; [constructor|set_solver]|]. case_bool_decide as Hb.
  - destruct (IH seen) as [H1 H2]. split; [done|]. intros x Hx. destruct (H2 x Hx). split; [by right|done].
  - destruct (IH (id r :: seen)) as [H1 H2]. split.
    + simpl. constructor; [|done]. intros (x & Hx & Hin)%list_elem_of_fmap. destruct (H2 x Hin) as [_ Hn]. apply Hn. rewrite <- Hx. by left.
    + intros x [->|Hx]%elem_of_cons; [split; [by left|done]|]. destruct (H2 x Hx) as [? Hn]. split; [by right|]. intros ?. apply Hn. by right.
Qed.
Lemma py_take_sublist {A} k (l : list A) : 0 <= k -> py_take k l `sublist_of` l.
Proof. intros Hk. rewrite py_take_nonneg by done. apply sublist_take. Qed.
Lemma sorted_sublist {A} (R : relation A) l l' : l' `sublist_of` l -> StronglySorted R l -> StronglySorted R l'.
Proof.
  induction 1 as [|x l1 l2 Hs IH|x l1 l2 Hs IH]; intros H; [done| |]; inversion H as [|? ? H1 H2]; subst; [|by apply IH].
  constructor; [by apply IH|]. rewrite Forall_forall in *. intros y Hy. apply H2. by eapply elem_of_sublist.
Qed.
Lemma search_all_sound qs acc e : index_ok e -> dims_ok e -> (use_reranker cfg = true -> HAS_CE = true -> is_ok load_rr = true) -> 0 <= or_top_k cfg None ->
  (forall r, r ∈ acc -> exists d, d ∈ _documents _ _ e /\ shows d r) ->
  exists rs e', search_all cfg model emb_model predict HAS_CE load_rr HAS_ST load_emb encode cos iter_set qs acc e = (Ok rs, e') /\
    forall r, r ∈ rs -> exists d, d ∈ _documents _ _ e /\ shows d r.
Proof.
  intros Hok Hdim Hload Hk. revert acc e Hok Hdim. induction qs as [|q qs IH]; intros acc e Hok Hdim Hacc; cbn [search_all]; [by eexists _, _|].
  destruct (do_search q None [] e) as [res e1] eqn:E.
  destruct (search_found q None [] e Hok Hdim Hload Hk) as (rs & e1' & E' & Hrs). rewrite E in E'. injection E' as -> <-.
  apply search_same in E as Hsame. pose proof (proj1 Hsame) as Hd.
  destruct (IH (acc ++ rs) e1) as (l & e2 & -> & Hl); [by eapply same_index_ok|by eapply same_dims_ok| |].
  - intros r [Hr|Hr]%elem_of_app; [destruct (Hacc r Hr) as (d & ? & ?)|destruct (Hrs r Hr) as (d & ? & ?)]; exists d; by rewrite Hd.
  - eexists _, _. split; [done|]. intros r Hr. destruct (Hl r Hr) as (d & ? & ?). exists d. by rewrite <- Hd.
Qed.

(** A question about a consistent index is always answered, on the same
    conditions.  Its sources
    are at most [reranker_top_k] chunks of the index, with pairwise distinct
    ids, best first. *)
Theorem query_sources_sound q syn e : index_ok e -> dims_ok e -> (use_reranker cfg = true -> HAS_CE = true -> is_ok load_rr = true) ->
  0 <= or_top_k cfg None -> 0 <= reranker_top_k cfg ->
  exists resp e', do_query q syn e = (Ok resp, e') /\ zlength (sources resp) <= reranker_top_k cfg /\ NoDup (map id (sources resp)) /\
    StronglySorted (key_ge rs_score) (sources resp) /\ forall r, r ∈ sources resp -> exists d, d ∈ _documents _ _ e /\ shows d r.
Proof.
  intros Hok Hdim Hload Hk Hk2. unfold query. cbv zeta. set (sub := if decompose_complex_queries cfg then _ else _).
  destruct (search_all_sound (match sub with [] => [q] | _ => sub end) [] (init e)) as (all & e1 & -> & Hall);
    [by eapply same_index_ok; [apply init_same|]|by eapply same_dims_ok; [apply init_same|]|done|done|set_solver|].
  destruct (unique_ids_spec [] all) as [Hnd Hin]. set (top := py_take _ _).
  assert (top `sublist_of` sort_desc rs_score (unique_ids [] all)) as Hsub by (by apply py_take_sublist).
  match goal with |- context [let '(_, _) := ?x in _] => destruct x as [ans conf] end. eexists _, _. split; [done|]. cbn [sources]. split_and!.
  - by apply length_py_take.
  - apply (fmap_sublist id) in Hsub. eapply sublist_NoDup; [|exact Hsub]. by rewrite sort_desc_perm.
  - eapply sorted_sublist; [exact Hsub|apply sort_desc_sorted].
  - intros r Hr. apply (elem_of_sublist _ _ _ Hr) in Hsub. rewrite sort_desc_perm in Hsub. destruct (Hin r Hsub) as [Ha _].
    destruct (Hall r Ha) as (d & ? & ?). exists d. by rewrite <- (proj1 (init_same e)).
Qed.
End index.

(** ** Where ranking goes wrong *)

Lemma max_of_neg x l : (x < 0)%Q -> Forall (fun y => y < 0)%Q l -> (max_of x l < 0)%Q.
Proof.
  intros Hx Hl. revert x Hx. unfold max_of. induction Hl as [|y l Hy Hl IH]; intros x Hx; simpl; [done|]. apply IH. unfold py_max. by case_match.
Qed.
(** Scores that are all negative, as cosine similarities can be, are divided by
    the largest of them, which is negative too: the order is turned round and
    the worst result gets the highest weight. *)
Theorem negative_scores_inverted l i j x y : NoDup l.*1 -> Forall (fun p : nat * Q => p.2 < 0)%Q l -> (i, x) ∈ l -> (j, y) ∈ l -> (x < y)%Q ->
  exists g a c, normalize_scores l = Ok g /\ g !! i = Some a /\ g !! j = Some c /\ (c < a)%Q.
Proof.
  intros Hnd Hneg Hi Hj Hxy. destruct l as [|r rs]; [by apply elem_of_nil in Hi|]. unfold normalize_scores.
  assert (max_of r.2 (map snd rs) < 0)%Q as Hm.
  { inversion Hneg; subst. apply max_of_neg; [done|]. rewrite Forall_map. done. }
  destruct (Qeq_bool _ 0) eqn:E; [apply Qeq_bool_iff in E; lra|]. set (mx := max_of _ _) in *.
  rewrite divide_total by lra. cbn [rbind].
  assert (NoDup (reverse (map (fun r : nat * Q => (r.1, r.2 / mx)%Q) (r :: rs))).*1) as Hnd'.
  { rewrite fmap_reverse, reverse_Permutation, <- list_fmap_compose. done. }
  eexists _, (x / mx)%Q, (y / mx)%Q. split; [done|]. split_and!.
  - apply elem_of_list_to_map_1; [done|]. apply elem_of_reverse. apply list_elem_of_fmap. by exists (i, x).
  - apply elem_of_list_to_map_1; [done|]. apply elem_of_reverse. apply list_elem_of_fmap. by exists (j, y).
  - assert (0 < (y - x) / (- mx))%Q as Hd by (apply Qlt_shift_div_l; lra).
    assert (x / mx - y / mx == (y - x) / (- mx))%Q by (field; lra). lra.
Qed.

(** A reranker whose model could not be loaded is kept, with a warning only,
    and loading is tried again by every search: each one that finds something
    raises. *)
Theorem broken_reranker_breaks_search cfg model emb_model predict x HAS_ST load_emb encode cos iter_set q k fs (e : RAGEngine model emb_model) rs :
  use_reranker cfg = true -> eng_initialized _ _ e = false ->
  let e0 := init_engine cfg model emb_model true (Err x) HAS_ST load_emb e in
  _hybrid_search cfg model emb_model encode cos iter_set q (or_top_k cfg k * 2) e0 = Ok rs ->
  existsb (relevant cfg) (List.filter (passes fs) rs) = true ->
  (search cfg model emb_model predict true (Err x) HAS_ST load_emb encode cos iter_set q k fs e).1 = Err x.
Proof.
  intros Hu Hi e0 Hh Hex. unfold search. fold e0. cbv zeta. rewrite Hh, Hu. unfold _rerank.
  assert (_reranker _ _ e0 = Some new_reranker) as -> by (unfold e0, init_engine; by rewrite Hi, Hu).
  destruct (List.filter (relevant cfg) (List.filter (passes fs) rs)) as [|r l] eqn:E; [|done].
  apply existsb_exists in Hex as (r & Hr & Hrel). assert (In r []) as []. rewrite <- E. by apply filter_In.
Qed.

(** ** A concrete engine *)

Definition demo_predict (sign : Q) (_ : unit) (pairs : list (string * string)) : result pyexn (list Q) :=
  Ok (map (fun p => (sign * inject_Z (Z.of_nat (String.length p.2)))%Q) pairs).
Definition demo_encode (_ : unit) (q : string) : result pyexn (list Q) := Ok [1%Q].
Definition demo_batch (_ : unit) (l : list string) : result pyexn (list (list Q)) := Ok (map (fun _ => [1%Q]) l).
Definition demo_vec : vector_lib := Vectors (fun x => x) None.
Definition demo_cfg : RAGConfig := Config 2 0.1 0.7 0.3 true 5 4000 20 4 true 3 1.
Definition small_doc (i t : string) : new_doc := NewDoc t (Some i) None None None None.
Definition demo_iter (s : gset nat) : list nat := elements s.
Definition demo_add (t : string) (e : RAGEngine unit unit) :=
  add_document demo_cfg demo_log unit unit true (Ok tt) true (Ok tt) demo_batch (fun s => s) 100 (small_doc t t) 0 e.
Definition demo_engine : RAGEngine unit unit :=
  match (r ← demo_add "alpha beta gamma" (new_engine unit unit); demo_add "delta" r.2) with Some r => r.2 | None => new_engine unit unit end.
Definition demo_search (sign : Q) (q : string) :=
  search demo_cfg unit unit (demo_predict sign) true (Ok tt) true (Ok tt) demo_encode demo_vec demo_iter q None [] demo_engine.

Lemma demo_log_pos x : (1 < x)%Q -> (0 < demo_log x)%Q.
Proof. unfold demo_log. lra. Qed.
Lemma demo_index_ok : index_ok demo_log unit unit demo_engine.
Proof. by vm_compute. Qed.

Lemma chunks_cover_witness : exists chunks, _chunk_text 17 demo_cfg "alpha beta gamma" None None = Some chunks.
Proof.
  destruct (chunks_cover (Config 2 0.1 0.7 0.3 true 5 4000 20 4 true 3 1) "alpha beta gamma") as (chunks & sp & Hc & _); [|done|by exists chunks].
  intros s Hs. unfold chunk_end. simpl chunk_size. simpl chunk_overlap. rewrite (proj2 (Z.ltb_ge _ _)); [lia|]. change (zlength _) with 16 in *. lia.
Defined.

(** 120 letters, a full stop and 500 letters more *)
Definition long_text : string := str_of (replicate 120 "a"%char ++ chars_of ". " ++ replicate 500 "b"%char).
Lemma no_stop_in_letters j : occurs (chars_of ". ") (replicate 500 "b"%char) j = false.
Proof. unfold occurs. rewrite drop_replicate. by destruct (500 - j)%nat. Qed.
Lemma long_sentence_never_chunked_witness : forall fuel, _chunk_text fuel default_config long_text None None = None.
Proof.
  apply (long_sentence_never_chunked default_config long_text 120); [done|done|by vm_compute|by vm_compute|].
  intros j Hj. assert (chars_of long_text = (replicate 120 "a"%char ++ chars_of ". ") ++ replicate 500 "b"%char) as -> by (by vm_compute).
  destruct (decide (j = 121%nat)) as [->|Hne]; [by vm_compute|]. unfold occurs. rewrite drop_app_ge by (rewrite length_app, length_replicate; simpl; lia).
  apply (no_stop_in_letters (j - _)).
Defined.

(** A break within the overlap of the first chunk makes the next start
    negative, which counts from the end of the text: what lies between is in
    no chunk. *)
Example early_break_loses_text :
  let t := str_of (chars_of "Hi. " ++ replicate 100 "x"%char ++ chars_of "NEEDLE" ++ replicate 500 "y"%char) in
  match _chunk_text 700 default_config t None None with Some cs => forallb (fun c => negb (str_in "NEEDLE" c)) cs | None => false end = true.
Proof. by vm_compute. Qed.

Lemma rag_index_consistent_witness : index_ok demo_log unit unit demo_engine.
Proof.
  apply (rag_index_consistent demo_cfg demo_log unit unit (demo_predict 1) true (Ok tt) true (Ok tt) demo_encode demo_batch demo_vec demo_iter
           (fun s => s) (fun _ => LlmFailed (PyExn "" ""))
           [AddDocument 100 (small_doc "alpha beta gamma" "alpha beta gamma") 0; AddDocument 100 (small_doc "delta" "delta") 0]).
  by vm_compute.
Defined.
Lemma search_sound_witness : exists rs e', demo_search 1 "delta" = (Ok rs, e') /\ zlength rs <= 2.
Proof.
  destruct (search_sound demo_cfg demo_log unit unit (demo_predict 1) true (Ok tt) true (Ok tt) demo_encode demo_vec demo_iter
              demo_log_pos ltac:(by intros) 1 ltac:(intros m q; by eexists) ltac:(done) "delta" None [] demo_engine demo_index_ok
              ltac:(by repeat constructor) ltac:(done) ltac:(done))
    as (rs & e' & Hs & Hl & _). exists rs, e'. exact (conj Hs Hl).
Defined.
Lemma query_sources_sound_witness : exists resp e',
  query demo_cfg unit unit (demo_predict 1) true (Ok tt) true (Ok tt) demo_encode demo_vec demo_iter (fun _ => LlmFailed (PyExn "" ""))
    "what is delta?" true demo_engine = (Ok resp, e') /\ NoDup (map id (sources resp)).
Proof.
  destruct (query_sources_sound demo_cfg demo_log unit unit (demo_predict 1) true (Ok tt) true (Ok tt) demo_encode demo_vec demo_iter
              (fun _ => LlmFailed (PyExn "" "")) demo_log_pos ltac:(by intros) 1 ltac:(intros m q; by eexists) ltac:(done) "what is delta?" true demo_engine demo_index_ok
              ltac:(by repeat constructor) ltac:(done) ltac:(done) ltac:(done)) as (resp & e' & Hq & _ & Hnd & _). exists resp, e'. exact (conj Hq Hnd).
Defined.
Lemma negative_scores_inverted_witness : exists g a c, normalize_scores [(0%nat, (-(1#10))%Q); (1%nat, (-(1#2))%Q)] = Ok g /\
  g !! 1%nat = Some a /\ g !! 0%nat = Some c /\ (c < a)%Q.
Proof.
  apply (negative_scores_inverted [(0%nat, (-(1#10))%Q); (1%nat, (-(1#2))%Q)] 1 0 ((-(1#2))%Q) ((-(1#10))%Q)).
  - apply (bool_decide_unpack _); by vm_compute.
  - by repeat constructor.
  - by right; left.
  - by left.
  - by vm_compute.
Defined.
Lemma broken_reranker_breaks_search_witness :
  (search demo_cfg unit unit (demo_predict 1) true (Err (PyExn "OSError" "no model")) true (Ok tt) demo_encode demo_vec demo_iter "delta" None []
     (Engine unit unit None None (_bm25 _ _ demo_engine) (_documents _ _ demo_engine) (_embeddings _ _ demo_engine) false)).1 = Err (PyExn "OSError" "no model").
Proof. eapply broken_reranker_breaks_search; [done|done|by vm_compute|by vm_compute]. Defined.

(** Scores of a cross-encoder may be negative, a result without one counts as
    0: with one result asked for, the one the reranker preferred is scored
    below the one it left out, which is returned. *)
Example rerank_prefers_unscored :
  let r i := Result i i 0.5 None None None "d" 0 [] 0 0 None in
  let e := Engine unit unit None (Some (Rerank (Some tt) true)) None [] [] true in
  match (_rerank unit unit (fun _ _ => Ok [(-1)%Q; (-5)%Q]) true (Ok tt) "q" [r "best"; r "worst"] 1 e).1 with
  | Ok l => map id l = ["worst"]
  | Err _ => False
  end.
Proof. by vm_compute. Qed.
