(* ===== verification/ResearchPrompts.v ===== *)
(** * The prompts of the research pipeline

    The texts document_processor/research/advanced_researcher.py sends to the
    language model, with what it fills in as arguments. *)

From S2P Require Import Prelude PyStr.
From Stdlib Require Import Ascii.

Definition NL : string := String "010" "".
Definition DQ : string := String "034" "".

(** Planning *)
Definition plan_system : string :=
  "You are an expert research planner. Given a user research query, produce a focused set of sub-questions that — " +:+
  "answered together — yield a complete, high-quality answer. Each sub-question should target a distinct angle " +:+
  "such as definition, history, current state, mechanism, benefits, drawbacks, examples, controversy, or outlook. " +:+
  "Output only the sub-questions: one per line, no numbering, no preamble.".
Definition plan_prompt (query num_sub_questions : string) : string :=
  "Research query: " +:+ query +:+ NL +:+ NL +:+ "Produce exactly " +:+ num_sub_questions +:+
  " distinct, specific sub-questions that can be answered through web research. Avoid redundancy. Output one " +:+
  "question per line — no numbering, no bullets.".
(** Extracting findings, and extracting them with more pressure *)
Definition analyze_system : string :=
  "You are a careful research analyst. Given a source excerpt and a research sub-question, extract 2-5 relevant " +:+
  "factual findings that help answer the sub-question — even if the source only addresses it indirectly, pull the " +:+
  "closest adjacent facts (definitions, context, examples, related mechanisms) that a report author could cite. " +:+
  "Preserve the source's own phrasing when it adds precision. Each finding must stand alone and be verifiable from " +:+
  "the excerpt. Only reply exactly 'NOT_RELEVANT' when the excerpt is a login wall, a 404 page, or on a completely " +:+
  "unrelated topic.".
Definition retry_system : string :=
  "You are extracting background facts for a research report. The excerpt below was retrieved because a search " +:+
  "engine judged it relevant to the sub-question. Extract 1-3 standalone factual statements from the excerpt that " +:+
  "a report author could cite when writing about this sub-question — even tangentially related context counts. " +:+
  "Only reply 'NOT_RELEVANT' if the excerpt is pure navigation, a login prompt, or truly unrelated content (e.g. " +:+
  "an ad page).".
Definition extract_prompt (sub_q title url excerpt : string) : string :=
  "Sub-question: " +:+ sub_q +:+ NL +:+ NL +:+ "Source title: " +:+ title +:+ NL +:+ "Source URL: " +:+ url +:+ NL +:+ NL +:+
  "Source excerpt:" +:+ NL +:+ excerpt +:+ NL +:+ NL +:+
  "Extract concise, self-contained findings. One finding per line, no numbering, no preamble. If the excerpt is " +:+
  "genuinely unusable, reply only: NOT_RELEVANT".
(** Writing the report *)
Definition report_system : string :=
  "You are a senior technical writer producing a professional research report. Your writing is precise, factual, " +:+
  "and well-structured. You MUST cite sources inline using bracketed numbers like [1], [2]. Every non-trivial " +:+
  "factual claim needs at least one citation. Only use information present in the supplied sources — do not invent " +:+
  "facts. If information is missing, acknowledge the gap. Use measured, analytical language; avoid marketing tone " +:+
  "and avoid hedging filler. Write in markdown: `#` for the report title, `##` for major sections, `###` for " +:+
  "sub-sections, bullet points where appropriate, **bold** for key terms.".
Definition report_prompt (query sub_qs_block sources_block : string) : string :=
  "Write a comprehensive, professional research report for the following query." +:+ NL +:+ NL +:+ "QUERY" +:+ NL +:+ query +:+
  NL +:+ NL +:+ "SUB-QUESTIONS THIS REPORT SHOULD ADDRESS" +:+ NL +:+ sub_qs_block +:+ NL +:+ NL +:+
  "SOURCES (cite these inline using [n] where n is the source number)" +:+ NL +:+ sources_block +:+ NL +:+ NL +:+
  "STRUCTURE — follow this exact structure, using markdown headings:" +:+ NL +:+ NL +:+ "# " +:+ query +:+ NL +:+ NL +:+
  "## Executive Summary" +:+ NL +:+ "Three to five sentences that capture the essential answer. Include 2–4 citations." +:+ NL +:+
  NL +:+ "## Background" +:+ NL +:+ "Context the reader needs: definitions, history, scope, why this topic matters." +:+ NL +:+
  "Cite sources." +:+ NL +:+ NL +:+ "## Key Findings" +:+ NL +:+
  "Organize as `###` sub-sections, one per sub-question listed above. Be specific." +:+ NL +:+
  "Cite heavily — at least one citation per factual claim." +:+ NL +:+ NL +:+ "## Analysis" +:+ NL +:+
  "What the findings mean when taken together. Patterns, tensions, contrasts between" +:+ NL +:+
  "sources. Where sources disagree, cite each position." +:+ NL +:+ NL +:+ "## Limitations & Open Questions" +:+ NL +:+
  "What the sources do not answer. Biases, gaps, or remaining uncertainty." +:+ NL +:+ NL +:+ "## Conclusion" +:+ NL +:+
  "Two to four sentences that directly answer the original query." +:+ NL +:+ NL +:+ "RULES" +:+ NL +:+
  "- Every factual claim gets at least one citation [n]." +:+ NL +:+
  "- Do not invent citation numbers; use only those in the SOURCES block." +:+ NL +:+ "- No " +:+ DQ +:+ "As an AI" +:+ DQ +:+
  " disclaimers, no preamble before the `#` title." +:+ NL +:+ "- Length target: 700–1200 words." +:+ NL +:+
  "- Use clear, precise, analytical prose." +:+ NL.
Definition no_sources_report (query : string) : string :=
  "# " +:+ query +:+ NL +:+ NL +:+ "## Executive Summary" +:+ NL +:+ NL +:+
  "No usable web sources were retrieved for this query. The report cannot be grounded in cited evidence and has " +:+
  "therefore not been produced. Consider rephrasing the query or trying again later.".
