(* ===== verification/Research.v ===== *)
(** * The research pipeline

    document_processor/research/advanced_researcher.py: planning, gathering,
    the relevance gate (Relevance.v), analysing, and the report with its
    confidence.  The language model, the search, the scraper and the translator
    are parameters and may raise; [except Exception] catches what they raise
    unless it is a cancellation.  Time stamps are left out.  The sources are
    analysed concurrently, each on its own; the order in which they finish
    shows in the progress events only and is a parameter. *)

From S2P Require Import Prelude PyStr PyVal PyConv PyRe Url Relevance Language Quality Bm25 ResearchPrompts.
From Stdlib Require Import Ascii.
#[local] Open Scope py_scope.
#[local] Open Scope Z_scope.

(** ** Depths *)

Record budget := Budget {
  num_sub_questions : Z; sources_per_subquestion : Z; max_total_sources : Z; variants_per_subq : Z; scrape_concurrency : Z;
  report_tokens : Z; analyze_tokens : Z }.
Definition _DEPTH_ALIASES : list (string * string) :=
  [("quick", "basic"); ("standard", "medium"); ("fast", "basic"); ("balanced", "medium"); ("thorough", "deep");
   ("comprehensive", "expert"); ("exhaustive", "ultra")].
Definition alias (d : string) : string := match List.find (fun p => String.eqb p.1 d) _DEPTH_ALIASES with Some p => p.2 | None => d end.
Definition depth_of (depth : option string) : string :=
  let d := alias (lower (strip is_space (default "" depth))) in
  if existsb (String.eqb d) ["basic"; "medium"; "deep"; "expert"; "ultra"] then d else "medium".
Definition budget_of (depth : string) : budget :=
  if String.eqb depth "basic" then Budget 3 3 8 1 8 1400 220
  else if String.eqb depth "deep" then Budget 8 8 80 3 16 3400 420
  else if String.eqb depth "expert" then Budget 10 12 250 4 24 4600 480
  else if String.eqb depth "ultra" then Budget 14 20 1000 5 32 6000 560
  else Budget 5 5 25 2 12 2200 320.

(** ** State *)

Record source := MkSource {
  s_id : Z; s_url : string; s_title : string; s_snippet : string; s_content : string; s_domain : string; s_relevance : Q; s_subq : Z;
  s_findings : string; s_language : option string; s_translated : bool }.
Record phase := MkPhase { ph_name : string; ph_label : string; ph_status : string; ph_detail : list (string * pyval) }.
(** An event: its type and its data *)
Definition event : Type := string * list (string * pyval).
Record AdvancedResearcher := Researcher {
  query : string; depth : string; phases : list phase; sub_questions : list string; sources : list source; report_markdown : string;
  confidence : Z; translated_any : bool; events : list event }.
Definition new_researcher (q d : option string) : AdvancedResearcher :=
  Researcher (strip is_space (default "" q)) (depth_of d)
    [MkPhase "planning" "Planning" "pending" []; MkPhase "gathering" "Gathering sources" "pending" [];
     MkPhase "analyzing" "Analyzing" "pending" []; MkPhase "synthesizing" "Writing report" "pending" []]
    [] [] "" 75 false [].

Definition bud (r : AdvancedResearcher) : budget := budget_of (depth r).
Definition set_phases ps r := Researcher (query r) (depth r) ps (sub_questions r) (sources r) (report_markdown r) (confidence r) (translated_any r) (events r).
Definition set_sub_questions qs r := Researcher (query r) (depth r) (phases r) qs (sources r) (report_markdown r) (confidence r) (translated_any r) (events r).
Definition set_sources ss r := Researcher (query r) (depth r) (phases r) (sub_questions r) ss (report_markdown r) (confidence r) (translated_any r) (events r).
Definition set_report md c r := Researcher (query r) (depth r) (phases r) (sub_questions r) (sources r) md c (translated_any r) (events r).
Definition set_translated b r := Researcher (query r) (depth r) (phases r) (sub_questions r) (sources r) (report_markdown r) (confidence r) b (events r).
Definition _emit (ty : string) (data : list (string * pyval)) (r : AdvancedResearcher) : AdvancedResearcher :=
  Researcher (query r) (depth r) (phases r) (sub_questions r) (sources r) (report_markdown r) (confidence r) (translated_any r) (events r ++ [(ty, data)]).
Definition emit_all (evs : list event) (r : AdvancedResearcher) : AdvancedResearcher := foldl (fun r ev => _emit ev.1 ev.2 r) r evs.

(** [phase.detail.update(detail)] *)
Definition dict_update (d new : list (string * pyval)) : list (string * pyval) := foldl (fun d kv => dict_set kv.1 kv.2 d) d new.
(** The first phase of the name *)
Fixpoint upd_phase (name status : string) (detail : list (string * pyval)) (ps : list phase) : list phase :=
  match ps with
  | [] => []
  | p :: ps' =>
      if String.eqb (ph_name p) name then MkPhase (ph_name p) (ph_label p) status (dict_update (ph_detail p) detail) :: ps'
      else p :: upd_phase name status detail ps'
  end.
Definition _start_phase (name : string) (detail : list (string * pyval)) (r : AdvancedResearcher) : AdvancedResearcher :=
  _emit "phase_start" [("phase", PStr name); ("detail", PDict detail)] (set_phases (upd_phase name "in_progress" detail (phases r)) r).
Definition _complete_phase (name : string) (detail : list (string * pyval)) (r : AdvancedResearcher) : AdvancedResearcher :=
  _emit "phase_complete" [("phase", PStr name); ("detail", PDict detail)] (set_phases (upd_phase name "completed" detail (phases r)) r).
Definition _fail_phase (name message : string) (r : AdvancedResearcher) : AdvancedResearcher :=
  _emit "phase_failed" [("phase", PStr name); ("error", PStr message)]
    (set_phases (upd_phase name "failed" [("error", PStr message)] (phases r)) r).

(** ** Text helpers *)

(** [re.sub("^...", "", s)] *)
Definition sub_start (r : re) (s : string) : string := match ends r (None, s) with pl :: _ => pl.2 | [] => s end.
Definition SPACES : re := Plus (Chr is_space).
(** Of the bullets the ASCII ones *)
Definition BULLET_LINE : re := Cat (Chr (fun c => char_in c "-*")) SPACES.
Definition NUMBERED_LINE : re := Cat (Opt (Lit "(")) (Cat (Plus (Chr is_digit)) (Cat (Chr (fun c => char_in c ".)")) SPACES)).
Definition is_quote (c : ascii) : bool := char_in c (String "034" "'").
Definition _clean_question (line : string) : string :=
  let line := strip is_space line in
  let line := sub_start NUMBERED_LINE (sub_start BULLET_LINE line) in
  strip is_space (strip is_quote (strip is_space line)).

(** Keep the first of those that agree but for case *)
Fixpoint dedupe_ci (seen : list string) (l : list string) : list string :=
  match l with
  | [] => []
  | x :: l' => if bool_decide (lower x ∈ seen) then dedupe_ci seen l' else x :: dedupe_ci (lower x :: seen) l'
  end.

Definition VARIANT_STOP : list string :=
  ["what"; "who"; "why"; "how"; "when"; "where"; "which"; "is"; "are"; "the"; "a"; "an"; "of"; "to"; "and"; "or"; "in"; "on"; "for"; "with";
   "does"; "do"; "did"; "can"; "could"; "should"; "would"; "this"; "that"; "these"; "those"].
Definition alnum (c : ascii) : bool := is_alpha c || is_digit c.
Definition WORD : re := Cat (Chr alnum) (Plus (Chr (fun c => alnum c || Ascii.eqb c "-"))).
Definition keywords_of (raw : string) : list string :=
  List.filter (fun t => negb (existsb (String.eqb t) VARIANT_STOP) && (2 <? String.length t)%nat) (re_findall WORD (lower raw)).
(** [' '.join(keywords[:6]) or raw] *)
Definition framing (keywords : list string) (raw : string) : string :=
  let k := join " " (take 6 keywords) in if String.eqb k "" then raw else k.
Definition SITES : string :=
  " (site:wikipedia.org OR site:arxiv.org OR site:docs.python.org OR site:developer.mozilla.org OR site:stackoverflow.com)".
Fixpoint take_variants (seen : list string) (n : nat) (l : list string) : list string :=
  match n, l with
  | S n', v :: l' =>
      let v := strip is_space v in
      if String.eqb v "" || bool_decide (lower v ∈ seen) then take_variants seen n l' else v :: take_variants (lower v :: seen) n' l'
  | _, _ => []
  end.
Definition _query_variants (sub_q : string) (max_variants : Z) : list string :=
  let raw := strip is_space sub_q in
  if (max_variants <=? 0) || String.eqb raw "" then [] else
  let keywords := keywords_of raw in
  let vs := [raw] ++ (match keywords with [] => [] | _ => [join " " (take 8 keywords)] end) in
  let vs := vs ++ (match keywords with [] => [] | _ => if 3 <=? max_variants then [join " " (take 6 keywords) +:+ SITES] else [] end) in
  let vs := vs ++ (if 4 <=? max_variants then [framing keywords raw +:+ " overview explanation"] else []) in
  let vs := vs ++ (if 5 <=? max_variants then [framing keywords raw +:+ " technical details architecture"] else []) in
  take_variants [] (Z.to_nat max_variants) vs.

Fixpoint replace_char (a b : ascii) (s : string) : string :=
  match s with EmptyString => "" | String c s' => String (if Ascii.eqb c a then b else c) (replace_char a b s') end.
Definition _derive_title (bracketed_ok : string -> bool) (url : string) : result pyexn string :=
  parsed <-! urlparse bracketed_ok url;
  let pth := strip (Ascii.eqb "/") (path parsed) in
  let leaf := replace_char "_" " " (replace_char "-" " " (default "" (last (split "/" pth)))) in
  Ok (if negb (String.eqb pth "") && negb (String.eqb leaf "") then netloc parsed +:+ " — " +:+ str_take 80 leaf
      else if String.eqb (netloc parsed) "" then url else netloc parsed).
(** [s.rsplit(" ", 1)[0]] *)
Fixpoint before_last_space (s : string) : option string :=
  match s with
  | EmptyString => None
  | String c s' => match before_last_space s' with Some t => Some (String c t) | None => if Ascii.eqb c " " then Some "" else None end
  end.
Definition _make_snippet (content : string) : string :=
  let s := strip is_space (collapse_ws false content) in
  if (String.length s <=? 260)%nat then s else default (str_take 260 s) (before_last_space (str_take 260 s)) +:+ "…".

(** ** The pipeline *)

Record hit := Hit { h_url : option string; h_title : option string }.
Record page := Page { p_url : option string; p_content : option string }.
Record translation := Translated { tr_url : option string; tr_content : option string; tr_done : bool; tr_lang : option string }.
(** What the settings say of the relevance gate; [None] where they cannot be
    loaded *)
Record gate_settings := Gate {
  enable_relevance_prefilter : bool; prefilter_fail_open : bool; prefilter_min_score : Q; prefilter_max_sources : string -> option Z }.

Section pipeline.
Variable llm : string -> string -> Z -> result pyexn string.
Variable web_search : string -> Z -> result pyexn (list hit).
Variable web_scrape : list string -> Z -> result pyexn (list page).
Variable translate : option (list (string * string) -> result pyexn (list translation)).
Variable gate : option gate_settings.
Variable bracketed_ok : string -> bool.
Variable log10 : Z -> Q.
(** The sources in the order in which their analyses finish *)
Variable finish_order : list source -> list source.

(** [try: v = await f() except Exception: v = d] *)
Definition or_else {A} (x : result pyexn A) (d : A) : result pyexn A :=
  match x with Ok a => Ok a | Err e => if CancelledError e then Err e else Ok d end.
Definition pstrs (l : list string) : pyval := PList (map PStr l).

(** *** Planning *)

Definition questions_in (r : AdvancedResearcher) (raw : string) : list string :=
  let qs := List.filter (fun q => (10 <=? String.length q)%nat) (map _clean_question (split "010" raw)) in
  take (Z.to_nat (num_sub_questions (bud r))) (dedupe_ci [] qs).
Definition fallback_questions (r : AdvancedResearcher) : list string :=
  take (Z.to_nat (num_sub_questions (bud r)))
    ["What is " +:+ query r +:+ "?"; "Why is " +:+ query r +:+ " important?"; "What are the key facts about " +:+ query r +:+ "?"].
Definition plan (r : AdvancedResearcher) : result pyexn AdvancedResearcher :=
  let r := _start_phase "planning" [] r in
  raw <-! or_else (llm (plan_prompt (query r) (str_int (num_sub_questions (bud r)))) plan_system 500) "";
  let questions := match questions_in r raw with [] => fallback_questions r | qs => qs end in
  let r := set_sub_questions questions r in
  let r := emit_all (map (fun p => ("sub_question", [("index", PInt (Z.of_nat p.1)); ("question", PStr p.2)])) (enumerate questions)) r in
  Ok (_complete_phase "planning" [("sub_questions", pstrs questions)] r).

(** *** Gathering *)

Definition with_url (i : Z) (h : hit) : list (string * (hit * Z)) := if truthy_str (h_url h) then [(default "" (h_url h), (h, i))] else [].
(** The hits of the variants of one sub-question, and how many there were *)
Fixpoint search_variants (i cap : Z) (vs : list string) (found : Z) : result pyexn (list (string * (hit * Z)) * Z) :=
  match vs with
  | [] => Ok ([], found)
  | v :: vs' =>
      results <-! or_else (web_search v cap) [];
      rest <-! search_variants i cap vs' (found + zlength results);
      Ok (flat_map (with_url i) results ++ rest.1, rest.2)
  end.
Fixpoint search_questions (b : budget) (i : Z) (qs : list string) (r : AdvancedResearcher)
  : result pyexn (list (string * (hit * Z)) * AdvancedResearcher) :=
  match qs with
  | [] => Ok ([], r)
  | q :: qs' =>
      let r := _emit "search_start" [("sub_question_index", PInt i); ("sub_question", PStr q)] r in
      found <-! search_variants i (Z.max 3 (sources_per_subquestion b + 2)) (_query_variants q (variants_per_subq b)) 0;
      let r := _emit "search_done" [("sub_question_index", PInt i); ("found", PInt found.2)] r in
      rest <-! search_questions b (i + 1) qs' r;
      Ok (found.1 ++ rest.1, rest.2)
  end.
(** One result per URL, until the limit is reached *)
Fixpoint unique_urls (seen : list string) (n : Z) (l : list (string * (hit * Z))) : list (string * (hit * Z)) :=
  match l with
  | [] => []
  | x :: l' =>
      if bool_decide (x.1 ∈ seen) then unique_urls seen n l'
      else x :: (if n <=? 1 then [] else unique_urls (x.1 :: seen) (n - 1) l')
  end.
Definition page_at (url : string) (pages : list page) : option page :=
  last (List.filter (fun p => truthy_str (p_url p) && String.eqb (default "" (p_url p)) url) pages).
Fixpoint build_sources (next_id : Z) (pages : list page) (l : list (string * (hit * Z))) : result pyexn (list source) :=
  match l with
  | [] => Ok []
  | (url, (h, i)) :: l' =>
      match page_at url pages with
      | None => build_sources next_id pages l'
      | Some p =>
          let content := strip is_space (default "" (p_content p)) in
          if (String.length content <? 140)%nat then build_sources next_id pages l' else
          t <-! (if truthy_str (h_title h) then Ok (default "" (h_title h)) else _derive_title bracketed_ok url);
          parsed <-! urlparse bracketed_ok url;
          rest <-! build_sources (next_id + 1) pages l';
          Ok (MkSource next_id url (str_take 180 t) (_make_snippet content) (str_take 6000 content) (netloc parsed) 0 i "" None false :: rest)
      end
  end.
Definition source_added (s : source) : event :=
  ("source_added", [("id", PInt (s_id s)); ("url", PStr (s_url s)); ("title", PStr (s_title s)); ("domain", PStr (s_domain s));
                    ("snippet", PStr (s_snippet s)); ("sub_question_index", PInt (s_subq s))]).
Definition translation_at (url : string) (ts : list translation) : option translation :=
  last (List.filter (fun t => truthy_str (tr_url t) && String.eqb (default "" (tr_url t)) url) ts).
Definition apply_translation (ts : list translation) (s : source) : source :=
  match translation_at (s_url s) ts with
  | Some t =>
      if tr_done t then
        MkSource (s_id s) (s_url s) (s_title s) (s_snippet s) (default (s_content s) (tr_content t)) (s_domain s) (s_relevance s) (s_subq s)
          (s_findings s) (tr_lang t) true
      else s
  | None => s
  end.
Definition translate_sources (ss : list source) (r : AdvancedResearcher) : result pyexn (list source * AdvancedResearcher) :=
  match translate, ss with
  | Some f, _ :: _ =>
      let r := _emit "translation_start" [("total", PInt (zlength ss))] r in
      ts <-! or_else (f (map (fun s => (s_url s, s_content s)) ss)) [];
      let ss' := map (apply_translation ts) ss in
      Ok (ss', set_translated (translated_any r || existsb s_translated ss') r)
  | _, _ => Ok (ss, r)
  end.
Definition gather (r : AdvancedResearcher) : result pyexn AdvancedResearcher :=
  let r := _start_phase "gathering" [("sub_questions", PInt (zlength (sub_questions r)))] r in
  found <-! search_questions (bud r) 0 (sub_questions r) r;
  let r := found.2 in
  match unique_urls [] (max_total_sources (bud r)) found.1 with
  | [] => Ok (set_sources [] (_fail_phase "gathering" "No usable search results were returned." r))
  | unique =>
      let r := _emit "scrape_start" [("total", PInt (zlength unique))] r in
      pages <-! or_else (web_scrape (map fst unique) (scrape_concurrency (bud r))) [];
      ss <-! build_sources 1 pages unique;
      let r := emit_all (map source_added ss) r in
      tr <-! translate_sources ss r;
      Ok (_complete_phase "gathering" [("sources_collected", PInt (zlength tr.1))] (set_sources tr.1 tr.2))
  end.

(** *** The relevance gate *)

Definition to_gate (s : source) : Source := Src (Z.to_nat (s_id s)) (Some (s_title s)) (Some (s_content s)) (Some (s_url s)) (Some (s_domain s)).
Definition _relevance_cap_for (depth : string) (g : gate_settings) : Z := match prefilter_max_sources g depth with Some n => Z.max 1 n | None => 60 end.
(** The sources the gate selected, by identity *)
Definition selected (ss : list source) (chosen : list Source) : list source :=
  flat_map (fun c => match List.find (fun s => bool_decide (to_gate s = c)) ss with Some s => [s] | None => [] end) chosen.
Definition gate_event (depth : string) (res : RelevanceResult) : event :=
  ("relevance_filter", [("tier", PStr depth); ("original", PInt (original_count res)); ("selected", PInt (selected_count res));
                        ("rejected", PInt (rejected_count res)); ("fallback_used", PBool (fallback_used res))]).
Definition _apply_relevance_filter (r : AdvancedResearcher) : AdvancedResearcher :=
  match gate, sources r with
  | Some g, _ :: _ =>
      if negb (enable_relevance_prefilter g) then r else
      let cfg := Relevance.Config true (prefilter_fail_open g) (prefilter_min_score g) (_relevance_cap_for (depth r) g) (depth r) in
      match filter_sources bracketed_ok log10 cfg (query r) (sub_questions r) (map to_gate (sources r)) (Some (depth r)) with
      | Ok res => let ev := gate_event (depth r) res in set_sources (selected (sources r) (selected_sources res)) (_emit ev.1 ev.2 r)
      | Err _ => r
      end
  | _, _ => r
  end.

(** *** Analysing *)

(** The lines of a reply that are findings *)
Definition findings_in (raw : string) : list string :=
  let cleaned := strip is_space raw in
  if String.eqb cleaned "" || startswith "not_relevant" (lower cleaned) then [] else
  let lines := map (strip (fun c => char_in c ("-* " +:+ String "009" "")))
                 (List.filter (fun ln => negb (String.eqb (strip is_space ln) "")) (split "010" cleaned)) in
  take 6 (List.filter (fun ln => (12 <? String.length ln)%nat) lines).
Definition _extract (r : AdvancedResearcher) (src : source) (sub_q system_prompt : string) : result pyexn (list string) :=
  raw <-! or_else (llm (extract_prompt sub_q (s_title src) (s_url src) (str_take 3800 (s_content src))) system_prompt (analyze_tokens (bud r))) "";
  Ok (findings_in raw).
Definition sub_question_of (r : AdvancedResearcher) (src : source) : string :=
  if s_subq src <? 0 then query r else default (query r) (sub_questions r !! Z.to_nat (s_subq src)).
Definition findings_text (lines : list string) : string := join NL (map (fun ln => "- " +:+ ln) lines).
Definition with_findings (rel : Q) (f : string) (s : source) : source :=
  MkSource (s_id s) (s_url s) (s_title s) (s_snippet s) (s_content s) (s_domain s) rel (s_subq s) f (s_language s) (s_translated s).
Definition scored (lines : list string) (src : source) : source :=
  match lines with
  | [] => with_findings (1 # 10) "" src
  | _ => with_findings (py_min 1 ((36 # 100) + (12 # 100) * inject_Z (zlength lines))%Q) (findings_text lines) src
  end.
(** The handler around the extraction is not reached: [_extract] raises a
    cancellation only *)
Definition _process_one (r : AdvancedResearcher) (src : source) : result pyexn source :=
  let sub_q := sub_question_of r src in
  lines <-! _extract r src sub_q analyze_system;
  lines <-! (match lines with
             | [] => if negb (String.eqb (s_content src) "") && negb (existsb (String.eqb (depth r)) ["basic"; "medium"])
                     then _extract r src sub_q retry_system else Ok []
             | _ => Ok lines
             end);
  Ok (scored lines src).
Fixpoint process_all (r : AdvancedResearcher) (ss : list source) : result pyexn (list source) :=
  match ss with
  | [] => Ok []
  | s :: ss' => s' <-! _process_one r s; rest <-! process_all r ss'; Ok (s' :: rest)
  end.
Definition analyzing_source (total : Z) (p : nat * source) : event :=
  ("analyzing_source", [("source_id", PInt (s_id p.2)); ("index", PInt (Z.of_nat p.1 + 1)); ("total", PInt total); ("title", PStr (s_title p.2))]).
Definition set_id (i : Z) (s : source) : source :=
  MkSource i (s_url s) (s_title s) (s_snippet s) (s_content s) (s_domain s) (s_relevance s) (s_subq s) (s_findings s) (s_language s) (s_translated s).
Definition keeps (s : source) : bool := Qle_bool (22 # 100) (s_relevance s) && negb (String.eqb (s_findings s) "").
Fixpoint renumber (i : Z) (ss : list source) : list source :=
  match ss with [] => [] | s :: ss' => set_id i s :: renumber (i + 1) ss' end.
(** [round(x)]: to the even one of two equally near integers *)
Definition py_round (x : Q) : Z :=
  let f := Qfloor x in
  let d := (x - inject_Z f)%Q in
  if Qltb d (1 # 2) then f else if Qltb (1 # 2) d then f + 1 else if Z.even f then f else f + 1.
Definition round2 (x : Q) : Q := (inject_Z (py_round (100 * x)) / 100)%Q.
Definition source_refined (s : source) : event :=
  ("source_refined", [("id", PInt (s_id s)); ("relevance", PFloat (round2 (s_relevance s))); ("findings", PStr (s_findings s))]).
Definition analyze (r : AdvancedResearcher) : result pyexn AdvancedResearcher :=
  let r := _start_phase "analyzing" [("total", PInt (zlength (sources r)))] r in
  match sources r with
  | [] => Ok (_complete_phase "analyzing" [("kept", PInt 0)] r)
  | ss =>
      ss' <-! process_all r ss;
      let r := emit_all (map (analyzing_source (zlength ss)) (enumerate (finish_order ss))) r in
      let kept := renumber 1 (List.filter keeps ss') in
      let r := emit_all (map source_refined kept) (set_sources kept r) in
      Ok (_complete_phase "analyzing" [("kept", PInt (zlength kept))] r)
  end.

(** *** Writing the report *)

Fixpoint drop_preamble (lines : list string) : list string :=
  match lines with
  | [] => []
  | ln :: lines' => if startswith "#" (lstrip is_space ln) then lines else drop_preamble lines'
  end.
Definition _postprocess_report (report query : string) : string :=
  let text := strip is_space (join NL (drop_preamble (split "010" (strip is_space report)))) in
  if String.eqb text "" then "# " +:+ query +:+ NL +:+ NL +:+ "*(The model produced an empty report.)*" else text.
Definition source_block (s : source) : string :=
  "[" +:+ str_int (s_id s) +:+ "] " +:+ s_title s +:+ " — " +:+ s_domain s +:+ NL +:+ "URL: " +:+ s_url s +:+ NL +:+
  "Key findings extracted:" +:+ NL +:+ s_findings s +:+ NL.

Definition CITATION : re := Cat (Lit "[") (Cat (Plus (Chr is_digit)) (Lit "]")).
(** The numbers cited.  A number of more than 4300 digits, which [int] refuses,
    is read like any other: that a report cites one is not modelled. *)
Definition cited_ids (report : string) : list Z :=
  map (fun m => digits_val (strip (fun c => char_in c "[]") m)) (re_findall CITATION report).
Definition used_valid (report : string) (ss : list source) : list source :=
  List.filter (fun s => existsb (Z.eqb (s_id s)) (cited_ids report)) ss.
Definition qdiv (a b : Z) : Q := (inject_Z a / inject_Z b)%Q.
Definition qsum (l : list Q) : Q := foldr Qplus 0%Q l.
Definition confidence_score (r : AdvancedResearcher) (report : string) : Q :=
  let ss := sources r in
  let n := zlength ss in
  let coverage := qdiv (zlength (remove_dups (map s_id (used_valid report ss)))) n in
  let source_count_norm := py_min 1 (log10 (1 + n) / 2)%Q in
  let avg_relevance := (qsum (map s_relevance ss) / inject_Z n)%Q in
  let report_length_norm := py_min 1 (qdiv (zlength (split_ws report)) 900) in
  let cited_subqs := remove_dups (map s_subq (used_valid report ss)) in
  let subq_coverage := match sub_questions r with [] => 0%Q | qs => qdiv (zlength cited_subqs) (Z.max 1 (zlength qs)) end in
  (35 * coverage + 25 * source_count_norm + 20 * avg_relevance + 10 * report_length_norm + 9 * subq_coverage)%Q.
Definition finish_report (report : string) (c : Z) (detail : list (string * pyval)) (r : AdvancedResearcher) : AdvancedResearcher :=
  _complete_phase "synthesizing" detail
    (_emit "report_ready" [("markdown", PStr report); ("confidence", PInt c)] (set_report report c r)).
Definition synthesize (r : AdvancedResearcher) : result pyexn AdvancedResearcher :=
  let r := _start_phase "synthesizing" [("sources", PInt (zlength (sources r)))] r in
  match sources r with
  | [] =>
      let fallback := no_sources_report (query r) in
      Ok (finish_report fallback 20 [("length", PInt (Z.of_nat (String.length fallback)))] r)
  | ss =>
      let prompt := report_prompt (query r) (join NL (map (fun q => "- " +:+ q) (sub_questions r))) (join NL (map source_block ss)) in
      raw <-! or_else (llm prompt report_system (report_tokens (bud r))) "";
      let report := _postprocess_report raw (query r) in
      let c := Z.max 20 (Z.min 99 (py_round (confidence_score r report))) in
      Ok (finish_report report c [("length", PInt (Z.of_nat (String.length report))); ("confidence", PInt c)] r)
  end.

(** *** The whole run *)

Definition phases_in_order (r : AdvancedResearcher) : result pyexn AdvancedResearcher :=
  r <-! plan r;
  r <-! gather r;
  r <-! analyze (_apply_relevance_filter r);
  r <-! synthesize r;
  Ok (_emit "done" [] r).
(** The finished pipeline, or what it raises and the event sent of that *)
Definition run (r : AdvancedResearcher) : result pyexn AdvancedResearcher * list event :=
  match phases_in_order r with
  | Ok r' => (Ok r', [])
  | Err e => (Err e, if CancelledError e then [] else [("error", [("message", PStr (exn_str e))])])
  end.
End pipeline.

(** ** Serialization *)

Definition citation (s : source) : pyval :=
  PDict [("id", PInt (s_id s)); ("url", PStr (s_url s)); ("title", PStr (s_title s)); ("domain", PStr (s_domain s)); ("snippet", PStr (s_snippet s));
         ("relevance", PFloat (round2 (s_relevance s))); ("translated", PBool (s_translated s)); ("original_language", opt_str (s_language s));
         ("findings", PStr (s_findings s)); ("sub_question_index", PInt (s_subq s))].
Definition phase_dict (p : phase) : pyval :=
  PDict [("name", PStr (ph_name p)); ("label", PStr (ph_label p)); ("status", PStr (ph_status p)); ("detail", PDict (ph_detail p))].
Definition to_dict (r : AdvancedResearcher) : list (string * pyval) :=
  [("query", PStr (query r)); ("depth", PStr (depth r)); ("sub_questions", pstrs (sub_questions r)); ("phases", PList (map phase_dict (phases r)));
   ("citations", PList (map citation (sources r))); ("report_markdown", PStr (report_markdown r)); ("confidence", PInt (confidence r));
   ("translated_any", PBool (translated_any r))].

(** ** What the phases keep *)

Definition statuses (r : AdvancedResearcher) : list (string * string) := map (fun p => (ph_name p, ph_status p)) (phases r).
Fixpoint upd_status (name status : string) (l : list (string * string)) : list (string * string) :=
  match l with
  | [] => []
  | x :: l' => if String.eqb x.1 name then (x.1, status) :: l' else x :: upd_status name status l'
  end.
Lemma upd_phase_status name status detail ps :
  map (fun p => (ph_name p, ph_status p)) (upd_phase name status detail ps) = upd_status name status (map (fun p => (ph_name p, ph_status p)) ps).
Proof. induction ps as [|p ps IH]; [done|]. simpl. destruct (String.eqb _ _); [done|]. simpl. by rewrite IH. Qed.
Lemma upd_status_twice n s1 s2 l : upd_status n s2 (upd_status n s1 l) = upd_status n s2 l.
Proof.
  induction l as [|x l IH]; [done|]. simpl. destruct (String.eqb x.1 n) eqn:E; simpl; rewrite E; [done|]. by rewrite IH.
Qed.
Lemma emit_all_eq evs r :
  emit_all evs r = Researcher (query r) (depth r) (phases r) (sub_questions r) (sources r) (report_markdown r) (confidence r) (translated_any r) (events r ++ evs).
Proof.
  unfold emit_all. revert r. induction evs as [|ev evs IH]; intros r; simpl; [rewrite app_nil_r; by destruct r|].
  rewrite IH. simpl. destruct ev as [t d]. by rewrite <- (assoc_L (++)).
Qed.
Lemma or_else_ok {A} (x : result pyexn A) (d : A) :
  (forall e, x = Err e -> CancelledError e = false) -> exists a, or_else x d = Ok a /\ (x = Ok a \/ a = d).
Proof. intros H. destruct x as [a|e]; simpl; [by eauto|]. rewrite (H e eq_refl). by eauto. Qed.

(** Sources numbered from one, no address twice *)
Definition numbered (ss : list source) : Prop := map s_id ss = seqZ 1 (zlength ss).
Definition distinct_urls (ss : list source) : Prop := NoDup (map s_url ss).

Lemma dedupe_ci_length seen l : (length (dedupe_ci seen l) <= length l)%nat.
Proof. revert seen. induction l as [|x l IH]; intros seen; simpl; [lia|]. case_bool_decide; simpl; [specialize (IH seen)|specialize (IH (lower x :: seen))]; lia. Qed.

Lemma budget_bounds d : 3 <= num_sub_questions (budget_of d) /\ 8 <= max_total_sources (budget_of d).
Proof. unfold budget_of. repeat (destruct (String.eqb _ _); simpl; [lia|]). simpl; lia. Qed.

(** The next guarded call returns *)
Ltac caught x :=
  match goal with |- context [or_else ?c ?d] =>
    let H := fresh in destruct (or_else_ok c d) as (x & H & _); [intros ?; eauto|rewrite H; clear H] end.

Section specs.
Variable llm : string -> string -> Z -> result pyexn string.
Variable web_search : string -> Z -> result pyexn (list hit).
Variable web_scrape : list string -> Z -> result pyexn (list page).
Variable translate : option (list (string * string) -> result pyexn (list translation)).
Variable gate : option gate_settings.
Variable bracketed_ok : string -> bool.
Variable log10 : Z -> Q.
Variable finish_order : list source -> list source.
(** Nothing cancels the run *)
Definition uncancelled : Prop :=
  (forall p s n e, llm p s n = Err e -> CancelledError e = false) /\
  (forall q n e, web_search q n = Err e -> CancelledError e = false) /\
  (forall us n e, web_scrape us n = Err e -> CancelledError e = false) /\
  (forall f ps e, translate = Some f -> f ps = Err e -> CancelledError e = false).
(** The addresses the search returns parse *)
Definition urls_parse : Prop :=
  forall q n hs h, web_search q n = Ok hs -> h ∈ hs -> is_ok (urlparse bracketed_ok (default "" (h_url h))) = true.
Hypothesis no_cancel : uncancelled.
Lemma llm_uncancelled : forall p s n e, llm p s n = Err e -> CancelledError e = false.
Proof. apply no_cancel. Qed.
Lemma search_uncancelled : forall q n e, web_search q n = Err e -> CancelledError e = false.
Proof. apply no_cancel. Qed.
Lemma scrape_uncancelled : forall us n e, web_scrape us n = Err e -> CancelledError e = false.
Proof. apply no_cancel. Qed.
Lemma translate_uncancelled : forall f ps e, translate = Some f -> f ps = Err e -> CancelledError e = false.
Proof. apply no_cancel. Qed.

#[local] Hint Resolve llm_uncancelled search_uncancelled scrape_uncancelled translate_uncancelled : core.

Lemma plan_spec r : exists r', plan llm r = Ok r' /\ query r' = query r /\ depth r' = depth r /\ sources r' = sources r /\
  statuses r' = upd_status "planning" "completed" (statuses r) /\
  1 <= zlength (sub_questions r') <= num_sub_questions (bud r).
Proof.
  unfold plan. caught raw.
  simpl. rewrite emit_all_eq. eexists. split; [reflexivity|]. unfold statuses. simpl. rewrite !upd_phase_status, upd_status_twice.
  repeat (split; [reflexivity|]). pose proof (budget_bounds (depth r)) as [Hn _].
  unfold questions_in, fallback_questions, bud in *. simpl. unfold zlength.
  match goal with |- context [match ?l with [] => _ | _ => _ end] => destruct l eqn:El end.
  - rewrite length_take. simpl. lia.
  - rewrite <- El, length_take. apply (f_equal length) in El. rewrite length_take in El. simpl in El. lia.
Qed.

(** The hits kept for a sub-question come from the search *)
Definition from_search (n : Z) (x : string * (hit * Z)) : Prop :=
  x.1 <> "" /\ 0 <= x.2.2 < n /\ x.1 = default "" (h_url x.2.1) /\ exists q k hs, web_search q k = Ok hs /\ x.2.1 ∈ hs.

Lemma search_variants_spec n i cap vs found : 0 <= i < n ->
  exists x, search_variants web_search i cap vs found = Ok x /\ Forall (from_search n) x.1.
Proof.
  intros Hi. revert found. induction vs as [|v vs IH]; intros found; simpl; [by eexists; split|].
  destruct (or_else_ok (web_search v cap) []) as (hs & -> & Hor); [intros e; apply no_cancel|].
  simpl. destruct (IH (found + zlength hs)) as (rest & -> & Hrest). simpl. eexists. split; [reflexivity|]. simpl.
  apply Forall_app. split; [|done]. apply Forall_forall. intros x (h & Hh & Hx)%elem_of_flat_map.
  unfold with_url in Hx. destruct (truthy_str (h_url h)) eqn:Et; [|by apply not_elem_of_nil in Hx].
  apply list_elem_of_singleton in Hx as ->. apply truthy_str_Some in Et as (s & Hs & Hne).
  unfold from_search. simpl. rewrite Hs. simpl. repeat split; try done; try lia.
  destruct Hor as [Hok| ->]; [by exists v, cap, hs|by apply not_elem_of_nil in Hh].
Qed.

Lemma search_questions_spec b n i qs r : 0 <= i -> i + zlength qs <= n ->
  exists l r', search_questions web_search b i qs r = Ok (l, r') /\ Forall (from_search n) l /\
    query r' = query r /\ depth r' = depth r /\ sub_questions r' = sub_questions r /\ phases r' = phases r.
Proof.
  revert i r. induction qs as [|q qs IH]; intros i r Hi Hn; simpl; [by eexists _, _; split|].
  rewrite zlength_cons in Hn. pose proof (zlength_nonneg qs).
  destruct (search_variants_spec n i (Z.max 3 (sources_per_subquestion b + 2)) (_query_variants q (variants_per_subq b)) 0)
    as ([l k] & -> & Hl); [lia|]. simpl.
  edestruct (IH (i + 1)) as (l' & r' & -> & Hl' & Hq & Hd & Hs & Hp); [lia|lia|]. simpl.
  eexists _, _. split; [reflexivity|]. split; [by apply Forall_app|]. by rewrite Hq, Hd, Hs, Hp.
Qed.

Lemma unique_urls_spec seen n l : 1 <= n ->
  NoDup (unique_urls seen n l).*1 /\ zlength (unique_urls seen n l) <= n /\
  (forall x, x ∈ unique_urls seen n l -> x ∈ l /\ x.1 ∉ seen).
Proof.
  revert seen n. induction l as [|x l IH]; intros seen n Hn; simpl.
  { split; [constructor|]. split; [rewrite zlength_nil; lia|]. intros x Hx. by apply not_elem_of_nil in Hx. }
  case_bool_decide as Hs.
  - destruct (IH seen n Hn) as (? & ? & Hin). split_and!; [done|done|]. intros y Hy. split; [right|]; by apply Hin.
  - destruct (Z.leb_spec n 1) as [?|Hlt].
    + split; [by apply NoDup_singleton|]. split; [rewrite zlength_cons, zlength_nil; lia|].
      intros y ->%list_elem_of_singleton. split; [by left|done].
    + destruct (IH (x.1 :: seen) (n - 1)) as (Hnd & Hlen & Hin); [lia|]. simpl. split_and!.
      * constructor; [|done]. intros (y & Hy & Hyin)%list_elem_of_fmap. apply Hin in Hyin as [_ Hnot].
        apply Hnot. rewrite <- Hy. by left.
      * rewrite zlength_cons. lia.
      * intros y [->|Hy]%elem_of_cons; [split; [by left|done]|]. apply Hin in Hy as [? Hnot].
        split; [by right|]. intros Hin'. apply Hnot. by right.
Qed.

(** The sources gathered: numbered, distinct, within the budget, each for one
    of the sub-questions *)
Record gathered (n m : Z) (ss : list source) : Prop := {
  g_ids : numbered ss;
  g_urls : distinct_urls ss;
  g_nonempty : Forall (fun s => s_url s <> "") ss;
  g_count : zlength ss <= m;
  g_subq : Forall (fun s => 0 <= s_subq s < n) ss }.

Hypothesis parses : urls_parse.

Lemma build_sources_spec n id pages l : Forall (from_search n) l ->
  exists ss, build_sources bracketed_ok id pages l = Ok ss /\ map s_id ss = seqZ id (zlength ss) /\
    map s_url ss `sublist_of` l.*1 /\ Forall (fun s => 0 <= s_subq s < n) ss.
Proof.
  intros Hl. revert id. induction Hl as [|[url [h i]] l Hx Hl IH]; intros id; simpl; [by eexists; split|].
  assert (forall id, exists ss, build_sources bracketed_ok id pages l = Ok ss /\ map s_id ss = seqZ id (zlength ss) /\
    map s_url ss `sublist_of` url :: l.*1 /\ Forall (fun s => 0 <= s_subq s < n) ss) as Hskip.
  { intros id'. destruct (IH id') as (ss & ? & ? & ? & ?). exists ss. split_and!; try done. by apply sublist_cons. }
  destruct (page_at url pages) as [pg|]; [|apply Hskip]. destruct (_ <? 140)%nat; [apply Hskip|].
  destruct Hx as (_ & Hi & Hu & q & k & hs & Hok & Hin). simpl in *. specialize (parses _ _ _ _ Hok Hin). rewrite <- Hu in parses.
  assert (exists t, (if truthy_str (h_title h) then Ok (default "" (h_title h)) else _derive_title bracketed_ok url) = Ok t) as [t ->].
  { destruct (truthy_str _); [by eexists|]. unfold _derive_title. destruct (urlparse _ _); [by eexists|done]. }
  destruct (urlparse _ _) as [u|]; [|done]. simpl. destruct (IH (id + 1)) as (ss & -> & Hid & Hsub & Hr). simpl.
  eexists. split; [reflexivity|]. simpl. split_and!.
  - rewrite zlength_cons. pose proof (zlength_nonneg ss). rewrite seqZ_cons by lia. f_equal. rewrite Hid. f_equal; lia.
  - by apply sublist_skip.
  - by constructor.
Qed.

Lemma apply_translation_map ts ss :
  map s_id (map (apply_translation ts) ss) = map s_id ss /\ map s_url (map (apply_translation ts) ss) = map s_url ss /\
  map s_subq (map (apply_translation ts) ss) = map s_subq ss.
Proof.
  assert (forall s, s_id (apply_translation ts s) = s_id s /\ s_url (apply_translation ts s) = s_url s /\
    s_subq (apply_translation ts s) = s_subq s) as H
    by (intros s; unfold apply_translation; destruct (translation_at _ _) as [t|]; [destruct (tr_done t)|]; done).
  rewrite !map_map. split_and!; apply map_ext; intros s; apply H.
Qed.

Lemma Forall_map_iff {A B} (f : A -> B) (P : B -> Prop) l : Forall P (map f l) <-> Forall (fun x => P (f x)) l.
Proof. apply Forall_fmap. Qed.

Lemma gathered_map n m ss ss' : map s_id ss' = map s_id ss -> map s_url ss' = map s_url ss -> map s_subq ss' = map s_subq ss ->
  gathered n m ss -> gathered n m ss'.
Proof.
  intros Hi Hu Hq [G1 G2 G3 G4 G5].
  assert (zlength ss' = zlength ss) as Hz by (unfold zlength; rewrite <- (length_map s_id ss'), Hi; by rewrite length_map).
  split; unfold numbered, distinct_urls in *; rewrite ?Hi, ?Hu, ?Hz; try done.
  - rewrite <- (Forall_map_iff s_url (fun u => u <> "")). rewrite Hu. by apply Forall_map_iff.
  - rewrite <- (Forall_map_iff s_subq (fun q => 0 <= q < n)). rewrite Hq. by apply Forall_map_iff.
Qed.

Lemma translate_sources_spec n m ss r : gathered n m ss ->
  exists ss' r', translate_sources translate ss r = Ok (ss', r') /\ gathered n m ss' /\
    query r' = query r /\ depth r' = depth r /\ sub_questions r' = sub_questions r /\ phases r' = phases r.
Proof.
  intros G. unfold translate_sources. destruct translate as [f|] eqn:Et; [|by eexists _, _].
  destruct ss as [|s ss]; [by eexists _, _|]. remember (s :: ss) as l.
  caught ts. simpl. eexists _, _. split; [reflexivity|]. split; [|done].
  destruct (apply_translation_map ts l) as (? & ? & ?). by eapply gathered_map.
Qed.

Lemma gather_spec r : exists r' st, gather web_search web_scrape translate bracketed_ok r = Ok r' /\
  query r' = query r /\ depth r' = depth r /\ sub_questions r' = sub_questions r /\
  statuses r' = upd_status "gathering" st (statuses r) /\ (st = "completed" \/ (st = "failed" /\ sources r' = [])) /\
  gathered (zlength (sub_questions r)) (max_total_sources (bud r)) (sources r').
Proof.
  unfold gather. edestruct (search_questions_spec (bud r) (zlength (sub_questions r)) 0) as (l & r1 & E & Hl & Hq & Hd & Hs & Hp);
    [lia|apply Z.le_refl|]. cbn [sub_questions _start_phase _emit set_phases query depth phases] in *. unfold bud in *. rewrite E. cbn [rbind fst snd].
  pose proof (budget_bounds (depth r)) as [_ Hm].
  destruct (unique_urls_spec [] (max_total_sources (budget_of (depth r1))) l) as (Hnd & Hlen & Hin); [rewrite Hd; simpl; lia|].
  revert Hnd Hlen Hin. destruct (unique_urls _ _ _) as [|x u]; intros Hnd Hlen Hin.
  { eexists _, "failed". split; [reflexivity|]. unfold statuses. simpl. rewrite Hp, Hq, Hd, Hs. simpl. rewrite !upd_phase_status, upd_status_twice.
    repeat (split; [reflexivity|]). split; [by right|]. split; try constructor. rewrite zlength_nil; lia. }
  cbv beta match. remember (x :: u) as us eqn:Eus. clear Eus x u.
  assert (Forall (from_search (zlength (sub_questions r))) us) as Hu.
  { apply Forall_forall. intros y Hy. rewrite Forall_forall in Hl. by apply Hl, Hin. }
  caught pages. simpl. destruct (build_sources_spec _ 1 pages _ Hu) as (ss & -> & Hid & Hsub & Hr). simpl. rewrite emit_all_eq.
  assert (gathered (zlength (sub_questions r)) (max_total_sources (budget_of (depth r))) ss) as G.
  { split; [exact Hid| | | |exact Hr].
    - by eapply sublist_NoDup.
    - rewrite <- (Forall_map_iff s_url (fun u => u <> "")). apply Forall_forall. intros v Hv.
      eapply elem_of_submseteq in Hv; [|by apply sublist_submseteq, Hsub].
      apply list_elem_of_fmap in Hv as (y & -> & Hy). rewrite Forall_forall in Hu. by apply (Hu y Hy).
    - rewrite Hd in Hlen. simpl in Hlen. etrans; [|exact Hlen]. apply sublist_length in Hsub.
      rewrite length_map, length_fmap in Hsub. unfold zlength. simpl in *. lia. }
  match goal with |- context [translate_sources _ _ ?r0] => destruct (translate_sources_spec _ _ _ r0 G) as (ss' & r2 & -> & G' & Hq2 & Hd2 & Hs2 & Hp2) end. simpl.
  eexists _, "completed". split; [reflexivity|]. unfold statuses. simpl in *. rewrite Hp2, Hp, Hq2, Hq, Hd2, Hd, Hs2, Hs. simpl.
  rewrite !upd_phase_status, upd_status_twice. repeat (split; [reflexivity|]). split; [by left|done].
Qed.

(** *** The gate keeps some of the sources *)

Lemma selected_spec ss chosen : (forall c, c ∈ chosen -> c ∈ map to_gate ss) ->
  map to_gate (selected ss chosen) = chosen /\ (forall s, s ∈ selected ss chosen -> s ∈ ss).
Proof.
  induction chosen as [|c chosen IH]; intros Hc; simpl.
  { split; [done|]. intros s Hs. by apply not_elem_of_nil in Hs. }
  destruct IH as [IH1 IH2]; [intros d Hd; apply Hc; by right|].
  destruct (List.find _ ss) as [s|] eqn:Ef.
  - apply find_some in Ef as [Hin Heq%bool_decide_eq_true]. simpl. rewrite IH1, Heq. split; [done|].
    intros t [->|Ht]%elem_of_cons; [by apply list_elem_of_In|by apply IH2].
  - assert (c ∈ map to_gate ss) as (s & -> & Hs)%list_elem_of_fmap by (apply Hc; by left).
    pose proof (List.find_none _ _ Ef s (proj1 (list_elem_of_In _ _) Hs)) as Hf. by rewrite bool_decide_eq_false in Hf.
Qed.

(** What is left of the invariant when sources are dropped or reordered *)
Record usable (n m : Z) (ss : list source) : Prop := {
  u_urls : distinct_urls ss;
  u_nonempty : Forall (fun s => s_url s <> "") ss;
  u_count : zlength ss <= m;
  u_subq : Forall (fun s => 0 <= s_subq s < n) ss }.

Lemma usable_sub n m ss ss' : usable n m ss -> (forall s, s ∈ ss' -> s ∈ ss) -> distinct_urls ss' -> usable n m ss'.
Proof.
  intros [U1 U2 U3 U4] Hin Hd. rewrite Forall_forall in U2, U4. split; [done|apply Forall_forall; by auto| |apply Forall_forall; by auto].
  etrans; [|exact U3]. unfold zlength. apply Nat2Z.inj_le. rewrite <- (length_map s_url ss'), <- (length_map s_url ss).
  apply submseteq_length, NoDup_submseteq; [done|]. intros u (s & -> & Hs)%list_elem_of_fmap. apply list_elem_of_fmap. by eauto.
Qed.

Lemma gate_distinct cfg q sq ss tier res : distinct_urls ss -> Forall (fun s => s_url s <> "") ss ->
  filter_sources bracketed_ok log10 cfg q sq (map to_gate ss) tier = Ok res ->
  (forall c, c ∈ selected_sources res -> c ∈ map to_gate ss) /\ NoDup (map (fun c => _field (src_url c)) (selected_sources res)).
Proof.
  intros Hd Hne. assert (map (fun c => _field (src_url c)) (map to_gate ss) = map s_url ss) as Hu by (rewrite map_map; by apply map_ext).
  unfold filter_sources. assert (forall f e, @Ok pyexn _ (pass_through (map to_gate ss) f e) = Ok res ->
    (forall c, c ∈ selected_sources res -> c ∈ map to_gate ss) /\ NoDup (map (fun c => _field (src_url c)) (selected_sources res))) as Hp.
  { intros f e [= <-]. simpl. split; [done|]. by rewrite Hu. }
  destruct (negb _); [apply Hp|]. destruct (String.eqb _ _); [apply Hp|]. destruct (map to_gate ss) as [|c0 cs] eqn:Em.
  { intros [= <-]. simpl. split; [done|constructor]. }
  rewrite <- Em in *. destruct (_run_blocking _ _ _ _ _ _) as [r0|x] eqn:Er; [|destruct (fail_open cfg); [apply Hp|done]].
  intros [= <-]. pose proof (run_selects_sources _ _ _ _ _ _ _ Er) as Hin. split; [done|].
  apply run_selects_distinct in Er. rewrite filter_nonempty_all in Er; [done|].
  apply Forall_forall. intros u (c & -> & Hc)%list_elem_of_fmap. apply Hin in Hc.
  apply list_elem_of_fmap in Hc as (s & -> & Hs). rewrite Forall_forall in Hne. by apply Hne.
Qed.

Lemma gate_spec n m r : usable n m (sources r) ->
  let r' := _apply_relevance_filter gate bracketed_ok log10 r in
  query r' = query r /\ depth r' = depth r /\ sub_questions r' = sub_questions r /\ statuses r' = statuses r /\ usable n m (sources r').
Proof.
  intros U. unfold _apply_relevance_filter. destruct gate as [g|]; [|done]. destruct (sources r) as [|s0 ss0] eqn:Es; [by rewrite Es|].
  rewrite <- Es in *. destruct (negb _); [done|]. destruct (filter_sources _ _ _ _ _ _ _) as [res|] eqn:Ef; [|done].
  repeat (split; [done|]). simpl. apply gate_distinct in Ef as [Hin Hnd]; [|apply U|apply U].
  destruct (selected_spec _ _ Hin) as [Hmap Hsub]. eapply usable_sub; [exact U|exact Hsub|].
  unfold distinct_urls. rewrite <- Hmap in Hnd. by rewrite map_map in Hnd.
Qed.

(** *** Analysing *)

Definition same_page (a b : source) : Prop := s_url a = s_url b /\ s_subq a = s_subq b.
(** A source as the analysis leaves it: some findings, or not kept *)
Definition analysed (s : source) : Prop :=
  exists lines, (length lines <= 6)%nat /\ Forall (fun ln => (12 < String.length ln)%nat) lines /\
    match lines with
    | [] => keeps s = false
    | _ => s_findings s = findings_text lines /\ s_relevance s = py_min 1 ((36 # 100) + (12 # 100) * inject_Z (zlength lines))%Q
    end.

Lemma findings_in_spec raw : (length (findings_in raw) <= 6)%nat /\ Forall (fun ln => (12 < String.length ln)%nat) (findings_in raw).
Proof.
  unfold findings_in. destruct (_ || _); [split; [simpl; lia|constructor]|]. split; [rewrite length_take; lia|].
  apply Forall_take, Forall_forall. intros ln Hln. apply list_elem_of_In, List.filter_In in Hln as [_ H]. by apply Nat.ltb_lt.
Qed.

Lemma scored_spec lines src : (length lines <= 6)%nat -> Forall (fun ln => (12 < String.length ln)%nat) lines ->
  same_page (scored lines src) src /\ analysed (scored lines src).
Proof. intros Hl Hf. split; [by destruct lines|]. exists lines. split; [done|]. split; [done|]. by destruct lines. Qed.

Lemma process_one_spec r src : exists s', _process_one llm r src = Ok s' /\ same_page s' src /\ analysed s'.
Proof.
  unfold _process_one, _extract. caught raw. cbn [rbind]. destruct (findings_in raw) as [|ln lns] eqn:El.
  - destruct (negb _ && _); [caught raw2|]; cbn [rbind]; eexists; (split; [reflexivity|]); apply scored_spec;
      solve [apply findings_in_spec | simpl; lia | constructor].
  - cbn [rbind]. eexists. split; [reflexivity|]. pose proof (findings_in_spec raw) as Hs. rewrite El in Hs. apply scored_spec; apply Hs.
Qed.

Lemma process_all_spec r ss : exists ss', process_all llm r ss = Ok ss' /\ Forall2 same_page ss' ss /\ Forall analysed ss'.
Proof.
  induction ss as [|s ss (ss' & IH & ? & ?)]; simpl; [by eexists|]. destruct (process_one_spec r s) as (s' & -> & ? & ?).
  simpl. rewrite IH. simpl. eexists. split; [reflexivity|]. split; by constructor.
Qed.

Lemma same_page_usable n m ss' ss : Forall2 same_page ss' ss -> usable n m ss -> usable n m ss'.
Proof.
  intros H. assert (map s_url ss' = map s_url ss /\ map s_subq ss' = map s_subq ss /\ length ss' = length ss) as (Hu & Hq & Hl)
    by (induction H as [|a b l k [E1 E2] _ (I1 & I2 & I3)]; simpl; [done|]; by rewrite E1, E2, I1, I2, I3).
  intros [U1 U2 U3 U4]. split; unfold distinct_urls, zlength in *; rewrite ?Hu, ?Hl; try done.
  - rewrite <- (Forall_map_iff s_url (fun u => u <> "")). rewrite Hu. by apply Forall_map_iff.
  - rewrite <- (Forall_map_iff s_subq (fun q => 0 <= q < n)). rewrite Hq. by apply Forall_map_iff.
Qed.

Lemma renumber_spec i ss : map s_id (renumber i ss) = seqZ i (zlength ss) /\ zlength (renumber i ss) = zlength ss /\ Forall2 same_page (renumber i ss) ss /\
  map s_relevance (renumber i ss) = map s_relevance ss /\ map s_findings (renumber i ss) = map s_findings ss.
Proof.
  revert i. induction ss as [|s ss IH]; intros i; simpl; [by split|]. destruct (IH (i + 1)) as (H1 & H2 & H3 & H4 & H5).
  rewrite !zlength_cons, H2, H4, H5. split_and!; try done; [|by constructor].
  pose proof (zlength_nonneg ss). rewrite seqZ_cons by lia. f_equal. rewrite H1. f_equal; lia.
Qed.

(** A citation: findings, of which there are one to six, and the relevance
    their number gives *)
Definition has_findings (rel : Q) (text : string) : Prop :=
  exists lines, text = findings_text lines /\ (1 <= length lines <= 6)%nat /\ Forall (fun ln => (12 < String.length ln)%nat) lines /\
    (48 # 100 <= rel <= 1)%Q.
Record citable (n m : Z) (ss : list source) : Prop := {
  c_ids : numbered ss;
  c_usable : usable n m ss;
  c_findings : Forall (fun s => has_findings (s_relevance s) (s_findings s)) ss }.

Lemma analysed_findings s : analysed s -> keeps s = true -> has_findings (s_relevance s) (s_findings s).
Proof.
  intros ([|ln lns] & Hl & Hf & Hm) Hk; [by rewrite Hm in Hk|]. destruct Hm as [Ht Hr]. exists (ln :: lns). rewrite Ht, Hr.
  split; [done|]. split; [simpl in *; lia|]. split; [done|]. split; [|apply py_min_le_l]. apply py_min_glb; [lra|].
  rewrite zlength_cons. pose proof (zlength_nonneg lns). assert (1 <= inject_Z (zlength lns + 1))%Q by (unfold Qle, inject_Z; simpl; lia). lra.
Qed.
Lemma has_findings_zip ss : Forall (fun s => has_findings (s_relevance s) (s_findings s)) ss <->
  Forall (fun p => has_findings p.1 p.2) (zip (map s_relevance ss) (map s_findings ss)).
Proof. induction ss as [|s ss IH]; simpl; [by split; constructor|]. by rewrite !Forall_cons, IH. Qed.

Lemma kept_citable n m ss : usable n m ss -> Forall analysed ss -> citable n m (renumber 1 (List.filter keeps ss)).
Proof.
  intros U Ha. destruct (renumber_spec 1 (List.filter keeps ss)) as (H1 & H2 & H3 & H4 & H5).
  assert (forall s, s ∈ List.filter keeps ss -> s ∈ ss /\ keeps s = true) as Hin
    by (intros s Hs; apply list_elem_of_In, List.filter_In in Hs; rewrite list_elem_of_In; done).
  split.
  - unfold numbered. by rewrite H1, H2.
  - eapply same_page_usable; [exact H3|]. eapply usable_sub; [exact U|by apply Hin|].
    destruct U as [Hd _ _ _]. unfold distinct_urls in *. clear -Hd. induction ss as [|s ss IH]; simpl in *; [done|].
    inversion Hd as [|? ? Hs Hss]; subst. specialize (IH Hss). destruct (keeps s); simpl; [|done]. constructor; [|done].
    intros (t & Ht & Hin)%list_elem_of_fmap. apply list_elem_of_In, List.filter_In in Hin as [Hin _]. apply Hs.
    apply list_elem_of_fmap. exists t. by rewrite list_elem_of_In.
  - apply has_findings_zip. rewrite H4, H5. apply has_findings_zip. apply Forall_forall. intros s [Hs Hk]%Hin.
    rewrite Forall_forall in Ha. by apply analysed_findings; [apply Ha|].
Qed.

Lemma analyze_spec n m r : usable n m (sources r) ->
  exists r', analyze llm finish_order r = Ok r' /\ query r' = query r /\ depth r' = depth r /\ sub_questions r' = sub_questions r /\
    statuses r' = upd_status "analyzing" "completed" (statuses r) /\ citable n m (sources r').
Proof.
  intros U. unfold analyze. change (sources (_start_phase "analyzing" [("total", PInt (zlength (sources r)))] r)) with (sources r).
  destruct (sources r) as [|s0 ss0] eqn:Es.
  - eexists. split; [reflexivity|]. unfold statuses. simpl. rewrite !upd_phase_status, upd_status_twice, Es.
    repeat (split; [reflexivity|]). split; [done|done|constructor].
  - cbv beta match. rewrite <- Es in *.
    match goal with |- context [process_all _ ?r0 ?l] => destruct (process_all_spec r0 l) as (ss' & -> & Hs & Ha) end.
    cbn [rbind]. rewrite !emit_all_eq. eexists. split; [reflexivity|]. unfold statuses. cbn -[renumber upd_status].
    rewrite !upd_phase_status, upd_status_twice. repeat (split; [reflexivity|]). apply kept_citable; [|done]. by eapply same_page_usable.
Qed.

(** *** The report *)

Lemma lstrip_app f a b : lstrip f a <> "" -> lstrip f (a +:+ b) = lstrip f a +:+ b.
Proof. induction a as [|c a IH]; simpl; [done|]. destruct (f c); [done|]. by rewrite app_string_cons. Qed.
Lemma startswith_cons c s : startswith (String c "") s = true <-> exists t, s = String c t.
Proof.
  unfold startswith. destruct s as [|d t]; simpl; [split; [done|intros [? ?]; done]|].
  destruct (Ascii.ascii_dec c d) as [->|Hne]; split; try done; [by eauto|by destruct t|intros [u Hu]; congruence].
Qed.
Lemma rstrip_keeps c s : is_space c = false -> startswith (String c "") s = true -> startswith (String c "") (rstrip is_space s) = true.
Proof.
  intros Hc [t ->]%startswith_cons. apply startswith_cons. simpl. destruct (rstrip is_space t); [rewrite Hc|]; by eauto.
Qed.
Lemma drop_preamble_head lines : join NL (drop_preamble lines) = "" \/ startswith "#" (lstrip is_space (join NL (drop_preamble lines))) = true.
Proof.
  induction lines as [|ln lines IH]; simpl; [by left|]. destruct (startswith "#" (lstrip is_space ln)) eqn:E; [|done]. right.
  unfold join. simpl. destruct lines as [|l2 lines]; [done|]. apply startswith_cons in E as [t Ht].
  rewrite lstrip_app by (rewrite Ht; done). rewrite Ht, app_string_cons. apply startswith_cons. by eauto.
Qed.
Lemma report_title report query : startswith "#" (_postprocess_report report query) = true.
Proof.
  unfold _postprocess_report. destruct (String.eqb_spec (strip is_space (join NL (drop_preamble (split "010" (strip is_space report))))) "") as [_|Hne]; [done|].
  unfold strip at 1 in Hne. unfold strip at 1. destruct (drop_preamble_head (split "010" (strip is_space report))) as [E|E]; [by rewrite E in Hne|].
  by apply rstrip_keeps.
Qed.

Lemma py_round_le x (k : Z) : (x <= inject_Z k)%Q -> py_round x <= k.
Proof.
  intros H. unfold py_round. pose proof (Qfloor_le x) as Hf. assert (Qfloor x <= k) as Hk.
  { apply Qfloor_resp_le in H. by rewrite Qfloor_Z in H. }
  destruct (Qltb_reflect (x - inject_Z (Qfloor x)) (1 # 2)) as [?|Hge]; [done|].
  assert (Qfloor x + 1 <= k) as Hk1.
  { destruct (Z.eq_dec (Qfloor x) k) as [E|]; [rewrite E in *; exfalso; lra|lia]. }
  destruct (Qltb_reflect (1 # 2) (x - inject_Z (Qfloor x))); [done|]. destruct (Z.even _); lia.
Qed.
Lemma qdiv_le_1 a b : 0 < b -> a <= b -> (qdiv a b <= 1)%Q.
Proof.
  intros Hb Hab. unfold qdiv. apply Qle_shift_div_r; [unfold Qlt, inject_Z; simpl; lia|]. unfold Qle, inject_Z, Qmult. simpl. lia.
Qed.
Lemma qsum_le l : Forall (fun q => (q <= 1)%Q) l -> (qsum l <= inject_Z (zlength l))%Q.
Proof.
  induction 1 as [|q l Hq _ IH]; simpl; [apply Qle_refl|]. rewrite zlength_cons, inject_Z_plus. change (inject_Z 1) with 1%Q. lra.
Qed.
Lemma remove_dups_shorter (l : list Z) : (length (remove_dups l) <= length l)%nat.
Proof. apply submseteq_length, NoDup_submseteq; [apply NoDup_remove_dups|]. intros q. by rewrite elem_of_remove_dups. Qed.
Lemma distinct_in_range (l : list Z) n : 0 <= n -> Forall (fun q => 0 <= q < n) l -> zlength (remove_dups l) <= n.
Proof.
  intros Hn Hl. assert (remove_dups l ⊆+ seqZ 0 n) as Hs.
  { apply NoDup_submseteq; [apply NoDup_remove_dups|]. intros q Hq. rewrite elem_of_remove_dups in Hq. rewrite Forall_forall in Hl.
    specialize (Hl _ Hq). apply elem_of_seqZ. lia. }
  apply submseteq_length in Hs. rewrite length_seqZ in Hs. unfold zlength. lia.
Qed.

(** The weights make at most 99: the cap is never what limits the score *)
Lemma score_at_most_99 m r report : citable (zlength (sub_questions r)) m (sources r) -> sources r <> [] ->
  (confidence_score log10 r report <= 99)%Q.
Proof.
  intros [_ U C] Hne. assert (0 < zlength (sources r)) as Hpos
    by (destruct (sources r) as [|x l]; [done|]; rewrite zlength_cons; pose proof (zlength_nonneg l); lia).
  unfold confidence_score.
  assert (qdiv (zlength (remove_dups (map s_id (used_valid report (sources r))))) (zlength (sources r)) <= 1)%Q as Hcov.
  { apply qdiv_le_1; [done|]. unfold zlength. apply Nat2Z.inj_le. etrans; [apply remove_dups_shorter|].
    rewrite length_map. apply List.filter_length_le. }
  assert (qsum (map s_relevance (sources r)) / inject_Z (zlength (sources r)) <= 1)%Q as Havg.
  { apply Qle_shift_div_r; [unfold Qlt, inject_Z; simpl; lia|]. rewrite Qmult_1_l.
    replace (zlength (sources r)) with (zlength (map s_relevance (sources r))) by (unfold zlength; by rewrite length_map).
    apply qsum_le, Forall_map_iff. eapply Forall_impl; [exact C|]. intros s (? & _ & _ & _ & _ & ?). lra. }
  assert (zlength (remove_dups (map s_subq (used_valid report (sources r)))) <= zlength (sub_questions r)) as Hsub.
  { apply distinct_in_range; [apply zlength_nonneg|]. apply Forall_map_iff. destruct U as [_ _ _ U4]. rewrite Forall_forall in U4.
    apply Forall_forall. intros s Hs. apply list_elem_of_In, List.filter_In in Hs as [Hs _]. by apply U4, list_elem_of_In. }
  assert (match sub_questions r with [] => 0 | qs => qdiv (zlength (remove_dups (map s_subq (used_valid report (sources r))))) (Z.max 1 (zlength qs)) end <= 1)%Q
    as Hsq by (destruct (sub_questions r); [lra|apply qdiv_le_1; lia]).
  pose proof (py_min_le_l 1 (log10 (1 + zlength (sources r)) / 2)) as Hn.
  pose proof (py_min_le_l 1 (qdiv (zlength (split_ws report)) 900)) as Hw. lra.
Qed.

Lemma synthesize_spec m r : citable (zlength (sub_questions r)) m (sources r) ->
  exists r', synthesize llm log10 r = Ok r' /\ query r' = query r /\ depth r' = depth r /\ sub_questions r' = sub_questions r /\
    sources r' = sources r /\ statuses r' = upd_status "synthesizing" "completed" (statuses r) /\
    startswith "#" (report_markdown r') = true /\ 20 <= confidence r' <= 99 /\
    (sources r' = [] -> report_markdown r' = no_sources_report (query r') /\ confidence r' = 20) /\
    (sources r' <> [] -> confidence r' = Z.max 20 (py_round (confidence_score log10 r' (report_markdown r')))).
Proof.
  intros C. unfold synthesize. change (sources (_start_phase "synthesizing" [("sources", PInt (zlength (sources r)))] r)) with (sources r).
  destruct (sources r) as [|s0 ss0] eqn:Es.
  - eexists. split; [reflexivity|]. unfold statuses. cbn -[no_sources_report upd_status]. rewrite Es, !upd_phase_status, upd_status_twice.
    repeat (split; [reflexivity|]). split; [lia|]. by split.
  - cbv beta match. rewrite <- Es in *. caught raw. cbn [rbind]. eexists. split; [reflexivity|].
    unfold statuses. cbn -[_postprocess_report upd_status py_round confidence_score]. rewrite !upd_phase_status, upd_status_twice.
    repeat (split; [reflexivity|]). split; [apply report_title|]. split; [lia|]. split; [by rewrite Es|]. intros _.
    assert (sources r <> []) as Hne by (rewrite Es; discriminate).
    pose proof (score_at_most_99 m r (_postprocess_report raw (query r)) C Hne) as Hs. apply (py_round_le _ 99) in Hs. 
    set (x := py_round _) in Hs. change (Z.max 20 (Z.min 99 x) = Z.max 20 x). lia.
Qed.

(** The whole run *)
Lemma run_spec q d : exists r' st,
  run llm web_search web_scrape translate gate bracketed_ok log10 finish_order (new_researcher q d) = (Ok r', []) /\
  query r' = strip is_space (default "" q) /\ depth r' = depth_of d /\
  statuses r' = [("planning", "completed"); ("gathering", st); ("analyzing", "completed"); ("synthesizing", "completed")] /\
  (st = "completed" \/ (st = "failed" /\ sources r' = [])) /\
  1 <= zlength (sub_questions r') <= num_sub_questions (bud r') /\
  citable (zlength (sub_questions r')) (max_total_sources (bud r')) (sources r') /\
  startswith "#" (report_markdown r') = true /\ 20 <= confidence r' <= 99 /\
  (sources r' = [] -> report_markdown r' = no_sources_report (query r') /\ confidence r' = 20) /\
  (sources r' <> [] -> confidence r' = Z.max 20 (py_round (confidence_score log10 r' (report_markdown r')))) /\
  last (events r') = Some ("done", []).
Proof.
  unfold run, phases_in_order. destruct (plan_spec (new_researcher q d)) as (r1 & -> & Q1 & D1 & _ & T1 & N1). cbn [rbind].
  destruct (gather_spec r1) as (r2 & st & -> & Q2 & D2 & S2' & T2 & Hst & [_ G2 G3 G4 G5]). cbn [rbind].
  assert (exists m, m <= max_total_sources (bud r1) /\ (st = "failed" -> m = 0) /\ usable (zlength (sub_questions r1)) m (sources r2)) as (m & Hm & Hm0 & U2).
  { destruct Hst as [->|[-> Hnil]]; [exists (max_total_sources (bud r1)); split; [lia|by split]|].
    exists 0. pose proof (budget_bounds (depth r1)) as [_ Hb]. unfold bud. split; [lia|]. split; [done|]. rewrite Hnil in *. by split. }
  destruct (gate_spec (zlength (sub_questions r1)) m r2 U2) as (Q3 & D3 & S3 & T3 & U3).
  destruct (analyze_spec _ _ _ U3) as (r4 & E4 & Q4 & D4 & S4 & T4 & C4). rewrite E4. cbn [rbind].
  assert (sub_questions r4 = sub_questions r1) as Sq by congruence. rewrite <- Sq in C4, N1.
  destruct (synthesize_spec _ _ C4) as (r5 & -> & Q5 & D5 & S5 & R5 & T5 & H1 & H2 & H3 & H4). cbn [rbind].
  exists (_emit "done" [] r5), st. split; [reflexivity|]. unfold bud in *. rewrite <- S5, <- R5 in C4. rewrite <- S5 in N1.
  assert (depth r5 = depth_of d) as Hd by (rewrite D5, D4, D3, D2, D1; reflexivity).
  assert (depth r1 = depth_of d) as Hd1 by (rewrite D1; reflexivity). rewrite Hd1 in Hm.
  cbn [query depth sub_questions sources report_markdown confidence events _emit]. rewrite Hd in *.
  split; [rewrite Q5, Q4, Q3, Q2, Q1; reflexivity|]. split; [done|].
  split; [change (statuses (_emit "done" [] r5)) with (statuses r5); rewrite T5, T4, T3, T2, T1; reflexivity|].
  destruct C4 as [C1 [U4a U4b U4c U4d] C3]. split.
  { destruct Hst as [?|[Hf _]]; [by left|]. right. split; [done|]. apply zlength_0. pose proof (zlength_nonneg (sources r5)). rewrite (Hm0 Hf) in U4c. lia. }
  split; [exact N1|]. split; [split; [done| |done]; split; try done; lia|].
  split; [done|]. split; [done|]. split; [done|]. split; [exact H4|]. apply last_snoc.
Qed.
End specs.

(** C19: a research run that nobody cancels returns, whatever the model, the
    search, the scraper and the translator return or raise, provided the
    addresses the search returns parse (and that no report cites a number too
    long for Python to read): planning, analysing and writing are
    completed and gathering is completed or, with no source at all, failed; there
    is at least one sub-question and at most the budget's number; the report
    opens with a title; the confidence is between 20 and 99, and it is the rounded
    score or 20, since the weights never add up to more than 99; without a source the
    report says so at confidence 20; the last event is [done]. *)
Theorem research_run_ends llm web_search web_scrape translate gate bracketed_ok log10 finish_order q d :
  uncancelled llm web_search web_scrape translate -> urls_parse web_search bracketed_ok ->
  exists r' st,
    run llm web_search web_scrape translate gate bracketed_ok log10 finish_order (new_researcher q d) = (Ok r', []) /\
    statuses r' = [("planning", "completed"); ("gathering", st); ("analyzing", "completed"); ("synthesizing", "completed")] /\
    (st = "completed" \/ (st = "failed" /\ sources r' = [])) /\
    1 <= zlength (sub_questions r') <= num_sub_questions (bud r') /\
    startswith "#" (report_markdown r') = true /\ 20 <= confidence r' <= 99 /\
    (sources r' = [] -> report_markdown r' = no_sources_report (query r') /\ confidence r' = 20) /\
    (sources r' <> [] -> confidence r' = Z.max 20 (py_round (confidence_score log10 r' (report_markdown r')))) /\
    last (events r') = Some ("done", []).
Proof.
  intros Hc Hu. destruct (run_spec llm web_search web_scrape translate gate bracketed_ok log10 finish_order Hc Hu q d)
    as (r' & st & H & _ & _ & H1 & H2 & H3 & _ & H4). by exists r', st.
Qed.

(** C20: the sources of a finished run are fit to be cited: they are numbered
    from one, no address twice, no more than the depth's limit; each belongs
    to one of the sub-questions and has one to six findings of more than twelve
    characters, with a relevance between 0.48 and 1. *)
Theorem research_citations_sound llm web_search web_scrape translate gate bracketed_ok log10 finish_order q d r' evs :
  uncancelled llm web_search web_scrape translate -> urls_parse web_search bracketed_ok ->
  run llm web_search web_scrape translate gate bracketed_ok log10 finish_order (new_researcher q d) = (Ok r', evs) ->
  map s_id (sources r') = seqZ 1 (zlength (sources r')) /\ NoDup (map s_url (sources r')) /\
  zlength (sources r') <= max_total_sources (budget_of (depth_of d)) /\
  Forall (fun s => 0 <= s_subq s < zlength (sub_questions r') /\ has_findings (s_relevance s) (s_findings s)) (sources r').
Proof.
  intros Hc Hu Hr. destruct (run_spec llm web_search web_scrape translate gate bracketed_ok log10 finish_order Hc Hu q d)
    as (r0 & st & H & _ & Hd & _ & _ & _ & [C1 [U1 _ U3 U4] C3] & _). rewrite Hr in H. injection H as -> ->.
  unfold bud in U3. rewrite Hd in U3. split; [done|]. split; [done|]. split; [done|]. by apply Forall_and.
Qed.

(** ** The specifications on concrete inputs *)

Definition demo_page : string :=
  "Plants turn light into sugar. The chlorophyll in the leaves absorbs red and blue light, and the energy splits water. " +:+
  "The oxygen goes to the air, and the sugar feeds the plant and all that eats it.".
Definition demo_llm (prompt system : string) (n : Z) : result pyexn string :=
  if String.eqb system plan_system then Ok ("1. What is photosynthesis?" +:+ NL +:+ "- Why do plants need light?" +:+ NL +:+ "why do plants need light?")
  else if String.eqb system analyze_system then
    (if str_in "a.example" prompt then Ok ("- Plants turn light into sugar." +:+ NL +:+ "ok") else Err (PyExn "TimeoutError" "slow"))
  else if String.eqb system retry_system then Ok "NOT_RELEVANT"
  else Ok ("Sure, here it is:" +:+ NL +:+ "# Photosynthesis" +:+ NL +:+ "Plants make sugar [1] [7].").
Definition demo_search (q : string) (n : Z) : result pyexn (list hit) :=
  Ok [Hit (Some "https://a.example/p") (Some "Photosynthesis in plants"); Hit (Some "https://b.example/leaf-colour") None; Hit None (Some "no address")].
Definition demo_scrape (us : list string) (n : Z) : result pyexn (list page) := Ok (map (fun u => Page (Some u) (Some demo_page)) us).
Definition demo_gate : gate_settings := Gate true true (15 # 100) (fun _ => Some 60).
Definition demo_final : AdvancedResearcher :=
  match (run demo_llm demo_search demo_scrape None (Some demo_gate) (fun _ => true) log_digits (fun l => l)
    (new_researcher (Some " photosynthesis ") (Some "Thorough"))).1 with
  | Ok r => r
  | Err _ => new_researcher None None
  end.

Lemma ok_pair_inj {E A B} (a b : A) (x y : B) : (@Ok E A a, x) = (Ok b, y) -> a = b.
Proof. by intros [= ->]. Qed.
Lemma demo_research_ok :
  run demo_llm demo_search demo_scrape None (Some demo_gate) (fun _ => true) log_digits (fun l => l)
    (new_researcher (Some " photosynthesis ") (Some "Thorough")) = (Ok demo_final, []).
Proof. vm_compute. reflexivity. Qed.
Lemma demo_final_facts : sub_questions demo_final = ["What is photosynthesis?"; "Why do plants need light?"] /\ confidence demo_final = 53 /\
  map s_url (sources demo_final) = ["https://a.example/p"].
Proof. vm_compute. done. Qed.
Lemma demo_uncancelled : uncancelled demo_llm demo_search demo_scrape None.
Proof.
  split_and!; try done. intros p s n e. unfold demo_llm. repeat case_match; try done. by intros [= <-].
Qed.
Lemma demo_urls : urls_parse demo_search (fun _ => true).
Proof. intros q n hs h [= <-] Hin. rewrite !elem_of_cons in Hin. destruct Hin as [->|[->|[->|Hin]]]; [reflexivity..|by apply not_elem_of_nil in Hin]. Qed.

(** The source whose analysis times out and whose retry finds nothing is not
    cited. *)
Lemma research_run_ends_witness :
  exists st, statuses demo_final = [("planning", "completed"); ("gathering", st); ("analyzing", "completed"); ("synthesizing", "completed")] /\
    sub_questions demo_final = ["What is photosynthesis?"; "Why do plants need light?"] /\ confidence demo_final = 53.
Proof.
  destruct (research_run_ends demo_llm demo_search demo_scrape None (Some demo_gate) (fun _ => true) log_digits (fun l => l)
              (Some " photosynthesis ") (Some "Thorough") demo_uncancelled demo_urls) as (r' & st & H & H1 & _).
  exists st. rewrite demo_research_ok in H. apply ok_pair_inj in H. rewrite H. split; [exact H1|]. rewrite <- H.
  split; apply demo_final_facts.
Defined.
Lemma research_citations_sound_witness :
  map s_id (sources demo_final) = seqZ 1 (zlength (sources demo_final)) /\ map s_url (sources demo_final) = ["https://a.example/p"] /\
  Forall (fun s => has_findings (s_relevance s) (s_findings s)) (sources demo_final).
Proof.
  destruct (research_citations_sound demo_llm demo_search demo_scrape None (Some demo_gate) (fun _ => true) log_digits (fun l => l)
              (Some " photosynthesis ") (Some "Thorough") demo_final [] demo_uncancelled demo_urls demo_research_ok) as (H1 & _ & _ & H2).
  split; [exact H1|]. split; [apply demo_final_facts|]. eapply Forall_impl; [exact H2|]. intros s Hs. apply Hs.
Defined.

(** The limit on the sources is spent on the first sub-questions: when each
    finds fourteen addresses, at the medium depth the last three of five have
    no source at all. *)
Definition many_hits (q : string) (n : Z) : result pyexn (list hit) :=
  Ok (map (fun i => Hit (Some ("https://x.example/" +:+ q +:+ str_int i)) (Some "t")) (seqZ 0 n)).
Definition five_questions : AdvancedResearcher :=
  set_sub_questions ["the first question?"; "the second question?"; "the third question?"; "the fourth question?"; "the fifth question?"]
    (new_researcher (Some "q") (Some "medium")).
Theorem gather_starves_later_questions : exists r',
  gather many_hits demo_scrape None (fun _ => true) five_questions = Ok r' /\
  map s_subq (sources r') = replicate 14 0 ++ replicate 11 1.
Proof. eexists. split; [vm_compute; reflexivity|]. vm_compute. reflexivity. Qed.
