(* ===== verification/WebSearch.v ===== *)
(** * Searching, scraping and translating for research

    document_processor/api/local_ai_routes_simple.py: what the research pipeline
    of Research.v calls to search the web, to fetch pages and to translate
    them.  The HTTP requests, the HTML parsers and the translation service are
    parameters; a request may raise.  What a parser finds in a page stands for
    the page. *)

From S2P Require Import Prelude PyStr PyVal PyConv PyRe Url Language ResearchPrompts Research.
From Stdlib Require Import Ascii.
#[local] Open Scope py_scope.
#[local] Open Scope Z_scope.

(** ** Queries *)

Definition SEARCH_STOP : list string :=
  ["the"; "a"; "an"; "is"; "are"; "was"; "were"; "be"; "been"; "being"; "of"; "to"; "in"; "on"; "for"; "with"; "by"; "at"; "as"; "from";
   "what"; "which"; "who"; "whom"; "whose"; "when"; "where"; "why"; "how"; "do"; "does"; "did"; "can"; "could"; "should"; "would"; "will";
   "and"; "or"; "but"; "if"; "then"; "than"; "that"; "this"; "these"; "those"; "it"; "its"; "there"; "their"; "them"; "they"].
Fixpoint map_chars (f : ascii -> ascii) (s : string) : string :=
  match s with EmptyString => "" | String c s' => String (f c) (map_chars f s') end.
Definition blank_punctuation (c : ascii) : ascii := if char_in c ("?.!,:;'" +:+ String "034" "") then " "%char else c.
Definition _keywords_for_search (query : string) : string :=
  let q := strip is_space (map_chars blank_punctuation query) in
  let tokens := List.filter (fun t => (1 <? String.length t)%nat) (split_ws q) in
  let keep := List.filter (fun t => negb (existsb (String.eqb (lower t)) SEARCH_STOP)) tokens in
  if (2 <=? length keep)%nat then join " " keep else q.
Definition _expand_query_variants (query : string) : list string :=
  let base := strip is_space query in
  let kw := _keywords_for_search base in
  let variants := [base] ++ (if negb (String.eqb kw "") && negb (String.eqb (lower kw) (lower base)) then [kw] else [])
                  ++ (if (length (split_ws kw) <=? 4)%nat then [kw +:+ " explained"] else []) in
  take 3 (dedupe_ci [] variants).

(** [quote_plus(s, safe='_()')], byte by byte *)
Definition hex_upper (d : nat) : ascii := if (d <? 10)%nat then ascii_of_nat (48 + d) else ascii_of_nat (55 + d).
Definition quote_char (c : ascii) : string :=
  if is_alpha c || PyConv.is_digit c || char_in c "_.-~()" then String c ""
  else if Ascii.eqb c " " then "+"
  else String "%" (String (hex_upper (nat_of_ascii c / 16)) (String (hex_upper (nat_of_ascii c mod 16)) "")).
Definition quote_plus (s : string) : string := concat_map quote_char s.

(** ** Search engines *)

(** Pages that list search results; the expression ignores case *)
Definition SEARCH_LIKE : re :=
  Alt (Lit "scholar.google.com") (Alt (Cat (Lit "duckduckgo.com") (Cat (Opt (Lit "/")) (Chr (fun c => char_in c "?/"))))
  (Alt (Lit "bing.com/search") (Alt (Lit "google.com/search") (Alt (Lit "yandex.com/search") (Alt (Lit "baidu.com/s?")
  (Alt (Lit "/search?") (Alt (Lit "?q=") (Lit "&q=")))))))).
Definition search_like (url : string) : bool := re_search SEARCH_LIKE (lower url).

Definition link : Type := string * string.
Definition hit_of (l : link) : hit := Hit (Some l.1) (Some l.2).
Definition usable_link (min_title : nat) (l : link) : bool :=
  startswith "http" l.1 && negb (String.length l.2 <? min_title)%nat && negb (search_like l.1).
(** The first usable links, with their titles cut *)
Fixpoint pick_links (ok : link -> bool) (max_results : Z) (l : list link) : list link :=
  match l with
  | [] => []
  | x :: l' =>
      if ok x then (x.1, str_take 180 x.2) :: (if max_results <=? 1 then [] else pick_links ok (max_results - 1) l')
      else pick_links ok max_results l'
  end.
(** A response: its status, and the links a parser finds in it *)
Definition links_of (ok : link -> bool) (max_results : Z) (resp : result pyexn (Z * list link)) : result pyexn (list link) :=
  or_else (r <-! resp; Ok (if r.1 =? 200 then pick_links ok max_results r.2 else [])) [].
Definition _search_duckduckgo_html (resp : result pyexn (Z * list link)) (max_results : Z) : result pyexn (list link) :=
  links_of (usable_link 5) max_results resp.
Definition _search_duckduckgo_lite (resp : result pyexn (Z * list link)) (max_results : Z) : result pyexn (list link) :=
  links_of (fun l => usable_link 8 l && negb (str_in "duckduckgo.com" l.1)) max_results resp.

(** [v.get(k) or d] *)
Definition get_or (k : string) (d : pyval) (v : pyval) : result pyexn pyval :=
  o <-! get_attr k v; Ok (let x := default PNone o in if truthy x then x else d).
Definition as_str (method : string) (v : pyval) : result pyexn string :=
  match v with PStr s => Ok s | _ => Err (attribute_error v method) end.
Fixpoint collect {A B} (f : A -> result pyexn B) (l : list A) : result pyexn (list B) :=
  match l with [] => Ok [] | x :: l' => y <-! f x; r <-! collect f l'; Ok (y :: r) end.
Definition searx_link (r : pyval) : result pyexn link :=
  u <-! get_or "url" (PStr "") r; t <-! get_or "title" (PStr "") r; t <-! as_str "strip" t; u <-! as_str "startswith" u; Ok (u, strip is_space t).
(** The loop reads no more results than it needs; later ones can not make it
    fail *)
Fixpoint searx_loop (max_results : Z) (l : list pyval) : result pyexn (list link) :=
  match l with
  | [] => Ok []
  | r :: l' =>
      x <-! searx_link r;
      if usable_link 5 x then
        rest <-! (if max_results <=? 1 then Ok [] else searx_loop (max_results - 1) l'); Ok ((x.1, str_take 180 x.2) :: rest)
      else searx_loop max_results l'
  end.
(** [resp] is [None] when no instance is configured *)
Definition _search_searxng (resp : option (result pyexn (Z * pyval))) (max_results : Z) : result pyexn (list link) :=
  match resp with
  | None => Ok []
  | Some resp =>
      or_else (r <-! resp;
               if negb (r.1 =? 200) then Ok [] else
               results <-! get_or "results" (PList []) r.2;
               l <-! iterate_slice (Z.to_nat (max_results * 2)) results;
               searx_loop max_results l) []
  end.
Definition wiki_url (slug : string) : string := "https://en.wikipedia.org/wiki/" +:+ quote_plus slug.
Definition wiki_hit (h : pyval) : result pyexn (list link) :=
  t <-! get_or "title" (PStr "") h;
  match t with
  | PStr "" => Ok []
  | PStr title => Ok [(wiki_url (replace_char " " "_" title), "Wikipedia — " +:+ title)]
  | _ => Err (attribute_error t "replace")
  end.
Definition _wikipedia_top_pages (resp : result pyexn (Z * pyval)) (max_results : Z) : result pyexn (list link) :=
  or_else (r <-! resp;
           if negb (r.1 =? 200) then Ok [] else
           q <-! get_or "query" (PDict []) r.2;
           hits <-! get_or "search" (PList []) q;
           l <-! iterate_slice (Z.to_nat max_results) hits;
           ll <-! collect wiki_hit l;
           Ok (concat ll)) [].

(** The engines' answers to a query *)
Record engines := Engines {
  ddg_html : string -> Z -> result pyexn (Z * list link); ddg_lite : string -> Z -> result pyexn (Z * list link);
  searxng : option (string -> Z -> result pyexn (Z * pyval)); wikipedia : string -> Z -> result pyexn (Z * pyval) }.
(** [b if isinstance(b, list) else []] *)
Definition list_or_nil (b : result pyexn (list link)) : list link := match b with Ok l => l | Err _ => [] end.
Fixpoint add_new (seen : list link) (l : list link) : list link :=
  match l with
  | [] => seen
  | x :: l' => if bool_decide (x.1 ∈ seen.*1) then add_new seen l' else add_new (seen ++ [x]) l'
  end.
(** Add until there are enough *)
Fixpoint add_until (n : Z) (seen : list link) (l : list link) : list link :=
  match l with
  | [] => seen
  | x :: l' =>
      if bool_decide (x.1 ∈ seen.*1) then add_until n seen l'
      else let seen := seen ++ [x] in if n <=? zlength seen then seen else add_until n seen l'
  end.
Fixpoint add_batches (n : Z) (seen : list link) (bs : list (list link)) : list link :=
  match bs with
  | [] => seen
  | b :: bs' => let seen := add_until n seen b in if n <=? zlength seen then seen else add_batches n seen bs'
  end.
Definition fallback_link (query : string) : link := (wiki_url (replace_char " " "_" (strip is_space query)), "Wikipedia: " +:+ query).
Definition search_links (en : engines) (query : string) (max_results : Z) : list link :=
  let b0 := list_or_nil (_search_duckduckgo_html (ddg_html en query max_results) max_results) in
  let b1 := list_or_nil (_search_duckduckgo_lite (ddg_lite en query max_results) max_results) in
  let b2 := list_or_nil (_search_searxng ((fun f => f query max_results) <$> searxng en) max_results) in
  let wiki_max := Z.max 2 (Z.min 3 max_results) in
  let wiki_hits := list_or_nil (_wikipedia_top_pages (wikipedia en query wiki_max) wiki_max) in
  let merged := add_batches max_results (add_new [] (take 2 wiki_hits)) [b0; b1; b2] in
  match merged with
  | [] => py_take max_results [fallback_link query]
  | _ => py_take max_results merged
  end.
Definition search_web (en : engines) (query : string) (max_results : Z) : result pyexn (list hit) :=
  Ok (map hit_of (search_links en query max_results)).

(** ** Scraping *)

Record scraped := Scraped { sc_url : string; sc_content : string; sc_title : option string; sc_method : string }.

(** [re.match(r"https?://([a-z]{2,3})\.wikipedia\.org/wiki/(.+?)$", url)]: the
    language and the page, before its fragment *)
Definition is_lower (c : ascii) : bool := let n := nat_of_ascii c in (97 <=? n)%nat && (n <=? 122)%nat.
Definition drop_prefix (p s : string) : option string := if startswith p s then Some (str_drop (String.length p) s) else None.
Definition wiki_parts (url : string) : option (string * string) :=
  rest ← (match drop_prefix "https://" url with Some r => Some r | None => drop_prefix "http://" url end);
  let lang := (span (fun c => negb (is_lower c)) rest).1 in
  page ← (if (2 <=? String.length lang)%nat && (String.length lang <=? 3)%nat
          then drop_prefix ".wikipedia.org/wiki/" (str_drop (String.length lang) rest) else None);
  slug ← (match split_once "010" page with None => Some page | Some (a, "") => Some a | Some _ => None end);
  if String.eqb slug "" then None else Some (lang, (cut "#" slug).1).

Section scraping.
(** The summary of a page, by language and page; the text of a page, by
    language and title *)
Variable wiki_summary wiki_extract : string -> string -> result pyexn (Z * pyval).
(** Title and abstract on a page of arXiv, where it has them *)
Variable arxiv_page : string -> result pyexn (Z * (option string * option string)).
(** The page at its n-th request *)
Variable fetch : string -> Z -> result pyexn (Z * string).
Variable trafilatura : option (string -> result pyexn (option string)).
(** The text of the main part of a page *)
Variable soup_text : string -> result pyexn string.

Definition text_or (k : string) (d : string) (v : pyval) : result pyexn string :=
  t <-! get_or k (PStr d) v; s <-! as_str "strip" t; Ok (strip is_space s).
(** The first page with a text *)
Fixpoint first_extract (pages : list pyval) : result pyexn string :=
  match pages with
  | [] => Ok ""
  | p :: pages' => body <-! text_or "extract" "" p; if String.eqb body "" then first_extract pages' else Ok body
  end.
Definition _fetch_wikipedia_plain (url : string) : result pyexn (option scraped) :=
  match wiki_parts url with
  | None => Ok None
  | Some (lang, slug) =>
      or_else (
        let plain := replace_char "_" " " slug in
        r <-! wiki_summary lang slug;
        st <-! (if r.1 =? 200 then summary <-! text_or "extract" "" r.2; title <-! text_or "title" plain r.2; Ok (summary, title) else Ok ("", ""));
        r2 <-! wiki_extract lang plain;
        body <-! (if r2.1 =? 200 then
                    q <-! get_or "query" (PDict []) r2.2;
                    pages <-! get_or "pages" (PDict []) q;
                    match pages with PDict d => first_extract (map snd d) | _ => Err (attribute_error pages "items") end
                  else Ok "");
        let content := strip is_space (st.1 +:+ NL +:+ NL +:+ body) in
        Ok (if String.eqb content "" then None else Some (Scraped url (str_take (Z.to_nat 8000) content) (Some st.2) "wikipedia-api"))) None
  end.
(** [re.sub(r"^Abstract:\s*", "", s, flags=re.I)] *)
Definition drop_abstract (s : string) : string :=
  if startswith "abstract:" (lower s) then lstrip is_space (str_drop 9 s) else s.
Definition _fetch_arxiv_abstract (url : string) : result pyexn (option scraped) :=
  if negb (str_in "arxiv.org/abs/" url) then Ok None else
  or_else (
    r <-! arxiv_page url;
    if negb (r.1 =? 200) then Ok None else
    let title := default "" r.2.1 in
    let abstract := drop_abstract (default "" r.2.2) in
    Ok (if (String.length abstract <? 80)%nat then None
        else Some (Scraped url (str_take (Z.to_nat 6000) (title +:+ NL +:+ NL +:+ abstract)) (Some (if String.eqb title "" then url else title)) "arxiv-html"))) None.

Definition is_line_break (c : ascii) : bool := existsb (Nat.eqb (nat_of_ascii c)) [10; 11; 12; 13; 28; 29; 30]%nat.
(** The lines that are not blank *)
Definition text_lines (text : string) : list string :=
  List.filter (fun ln => negb (String.eqb ln "")) (map (strip is_space) (split "010" (map_chars (fun c => if is_line_break c then "010"%char else c) text))).
Definition soup_page (url html : string) : result pyexn (option scraped) :=
  text <-! soup_text html;
  let text := join NL (text_lines text) in
  Ok (if (120 <=? String.length text)%nat then Some (Scraped url (str_take (Z.to_nat 8000) text) None "beautifulsoup") else None).
Definition extract_page (url html : string) : result pyexn (option scraped) :=
  extracted <-! (match trafilatura with Some f => f html | None => Ok None end);
  match extracted with
  | Some t => if (120 <=? String.length t)%nat then Ok (Some (Scraped url (str_take (Z.to_nat 8000) t) None "trafilatura")) else soup_page url html
  | None => soup_page url html
  end.
(** The result of one request: a page, giving up, or the pause before the next
    one *)
Inductive attempt_result := Done (p : option scraped) | Again (pause : Q).
Definition attempt_page (url : string) (attempt : Z) : result pyexn attempt_result :=
  match (response <-! fetch url attempt;
         if existsb (Z.eqb response.1) [403; 429; 503] then Ok (Again ((1 # 2) * inject_Z (attempt + 1)))
         else if negb (response.1 =? 200) then Ok (Done None)
         else p <-! extract_page url response.2; Ok (match p with Some p => Done (Some p) | None => Again 0 end)) with
  | Ok r => Ok r
  | Err e => if CancelledError e then Err e else Ok (Again ((4 # 10) * inject_Z (attempt + 1)))
  end.
(** The attempts left, and the pauses made *)
Fixpoint attempts_loop (n : nat) (url : string) (attempt : Z) : result pyexn (option scraped) * list Q :=
  match n with
  | O => (Ok None, [])
  | S n' =>
      match attempt_page url attempt with
      | Err e => (Err e, [])
      | Ok (Done p) => (Ok p, [])
      | Ok (Again d) => let '(r, ds) := attempts_loop n' url (attempt + 1) in (r, d :: ds)
      end
  end.
Definition shortcut (url : string) : result pyexn (option scraped) :=
  w <-! (if str_in "wikipedia.org/wiki/" url then _fetch_wikipedia_plain url else Ok None);
  match w with
  | Some p => Ok (Some p)
  | None => if str_in "arxiv.org/abs/" url then _fetch_arxiv_abstract url else Ok None
  end.
Definition scrape_url (url : string) (attempts : Z) : result pyexn (option scraped) * list Q :=
  if negb (startswith "http" url) || search_like url then (Ok None, []) else
  match shortcut url with
  | Err e => (Err e, [])
  | Ok (Some p) => (Ok (Some p), [])
  | Ok None => attempts_loop (Z.to_nat (Z.max 1 attempts)) url 0
  end.
(** What [gather] returns of the pages that have a content *)
Definition scrape_multiple_urls (urls : list string) (max_concurrent : Z) : result pyexn (list page) :=
  Ok (flat_map (fun u => match (scrape_url u 2).1 with
                         | Ok (Some p) => if String.eqb (sc_content p) "" then [] else [Page (Some (sc_url p)) (Some (sc_content p))]
                         | _ => []
                         end) urls).
End scraping.

(** ** Translating *)

(** The code points of UTF-8 text *)
Definition byte (c : ascii) : Z := Z.of_nat (nat_of_ascii c).
Fixpoint code_points (s : string) : list Z :=
  match s with
  | EmptyString => []
  | String a s1 =>
      if byte a <? 128 then byte a :: code_points s1 else
      match s1 with
      | EmptyString => [byte a]
      | String b s2 =>
          if byte a <? 224 then ((byte a - 192) * 64 + (byte b - 128)) :: code_points s2 else
          match s2 with
          | EmptyString => [byte a]
          | String c s3 =>
              if byte a <? 240 then ((byte a - 224) * 4096 + (byte b - 128) * 64 + (byte c - 128)) :: code_points s3 else
              match s3 with
              | EmptyString => [byte a]
              | String d s4 => ((byte a - 240) * 262144 + (byte b - 128) * 4096 + (byte c - 128) * 64 + (byte d - 128)) :: code_points s4
              end
          end
      end
  end.

Section translating.
Variable detect_api : list Z -> result pyexn (Z * pyval).
Variable translate_api : string -> pyval -> pyval -> result pyexn (Z * pyval).

Definition between (lo hi c : Z) : bool := (lo <=? c) && (c <=? hi).
Definition guess_language (sample : list Z) : string :=
  let non_ascii := List.filter (fun c => 127 <? c) sample in
  if (zlength sample <? 5 * zlength non_ascii) then
    if existsb (between 0x4E00 0x9FFF) sample then "zh"
    else if existsb (between 0x3040 0x30FF) sample then "ja"
    else if existsb (between 0xAC00 0xD7AF) sample then "ko"
    else if existsb (between 0x0600 0x06FF) sample then "ar"
    else if existsb (between 0x0400 0x04FF) sample then "ru"
    else "unknown"
  else "en".
Definition detect_language (text : string) : result pyexn pyval :=
  let cs := code_points text in
  if zlength cs <? 20 then Ok (PStr "en") else
  let sample := take 500 cs in
  o <-! or_else (r <-! detect_api sample;
                 if r.1 =? 200 then d <-! get_attr "detected_language" r.2; Ok (Some (default (PStr "en") d)) else Ok None) None;
  Ok (default (PStr (guess_language sample)) o).

Record translated_text := TText { tt_text : pyval; tt_success : bool; tt_confidence : option pyval }.
Definition translate_text (text : string) (source_lang target_lang : pyval) : result pyexn translated_text :=
  if bool_decide (source_lang = target_lang) then Ok (TText (PStr text) true None) else
  o <-! or_else (r <-! translate_api text source_lang target_lang;
                 if r.1 =? 200 then
                   t <-! get_attr "translated_text" r.2; c <-! get_attr "confidence" r.2;
                   Ok (Some (TText (default (PStr text) t) true (Some (default (PFloat (8 # 10)) c))))
                 else Ok None) None;
  Ok (default (TText (PStr text) false None) o).

(** An item: its address and its content, and what the translation adds *)
Record item := Item { it_url : string; it_content : pyval; it_language : option pyval; it_translated : option bool; it_confidence : option pyval }.
Definition translate_item (target_lang : string) (it : item) : result pyexn item :=
  match it_content it with
  | PStr "" => Ok it
  | PStr text =>
      lang <-! detect_language text;
      let it := Item (it_url it) (it_content it) (Some lang) (it_translated it) (it_confidence it) in
      if negb (bool_decide (lang = PStr target_lang)) && negb (bool_decide (lang = PStr "en")) && negb (bool_decide (lang = PStr "unknown")) then
        r <-! translate_text text lang (PStr target_lang);
        Ok (if tt_success r
            then Item (it_url it) (tt_text r) (it_language it) (Some true) (Some (default (PFloat (8 # 10)) (tt_confidence r)))
            else Item (it_url it) (it_content it) (it_language it) (Some false) (it_confidence it))
      else Ok (Item (it_url it) (it_content it) (it_language it) (Some false) (it_confidence it))
  | _ => Ok it
  end.
Definition translate_scraped_content (items : list item) (target_lang : string) : result pyexn (list item) := collect (translate_item target_lang) items.
Definition new_item (uc : string * string) : item := Item uc.1 (PStr uc.2) None None None.
Definition _translate_batch_for_research (items : list (string * string)) (target_lang : string) : result pyexn (list item) :=
  translate_scraped_content (map new_item items) target_lang.
End translating.

(** ** What a search returns *)

Lemma startswith_self p s : startswith p (p +:+ s) = true.
Proof. unfold startswith. induction p as [|c p IH]; simpl; [by destruct s|]. by destruct (ascii_dec c c). Qed.
Lemma startswith_trans p q s : startswith p q = true -> startswith q s = true -> startswith p s = true.
Proof.
  unfold startswith. revert q s. induction p as [|c p IH]; intros q s; [by destruct s|]. destruct q as [|d q]; [done|].
  destruct s as [|e s]; [done|]. simpl. destruct (ascii_dec c d) as [->|]; [|done]. destruct (ascii_dec d e) as [->|]; [|done].
  destruct (ascii_dec e e); [|done]. apply IH.
Qed.

Definition WIKI : string := "https://en.wikipedia.org/wiki/".
(** A page that can be scraped: not a list of search results, or an article *)
Definition good_link (l : link) : Prop :=
  startswith "http" l.1 = true /\ (search_like l.1 = false \/ startswith WIKI l.1 = true).
Lemma wiki_good slug t : good_link (wiki_url slug, t).
Proof.
  assert (startswith WIKI (wiki_url slug) = true) as H by apply startswith_self. split; [|by right].
  by apply (startswith_trans _ WIKI).
Qed.
Lemma usable_good n x t : usable_link n x = true -> good_link (x.1, t).
Proof. unfold usable_link. intros [[H _]%andb_true_iff Hs%negb_true_iff]%andb_true_iff. split; [done|by left]. Qed.

Lemma pick_links_good n (ok : link -> bool) m l : (forall x, ok x = true -> usable_link n x = true) -> Forall good_link (pick_links ok m l).
Proof.
  intros Hok. revert m. induction l as [|x l IH]; intros m; simpl; [constructor|]. destruct (ok x) eqn:E; [|apply IH].
  constructor; [eapply usable_good; by apply Hok|]. destruct (m <=? 1); [constructor|apply IH].
Qed.
Lemma or_else_cases {A} (x : result pyexn A) (d a : A) : or_else x d = Ok a -> x = Ok a \/ a = d.
Proof. destruct x; simpl; [by left|]. destruct (CancelledError e); [done|]. intros [= ->]. by right. Qed.
Lemma list_or_nil_good (b : result pyexn (list link)) : (forall l, b = Ok l -> Forall good_link l) -> Forall good_link (list_or_nil b).
Proof. intros H. destruct b; simpl; [by apply H|constructor]. Qed.
Lemma links_of_good n (ok : link -> bool) m resp : (forall x, ok x = true -> usable_link n x = true) -> Forall good_link (list_or_nil (links_of ok m resp)).
Proof.
  intros Hok. apply list_or_nil_good. intros l [H| ->]%or_else_cases; [|constructor].
  destruct resp as [r|]; [|done]. simpl in H. injection H as <-. destruct (_ =? 200); [|constructor]. by eapply pick_links_good.
Qed.
Lemma searx_loop_good m l ls : searx_loop m l = Ok ls -> Forall good_link ls.
Proof.
  revert m ls. induction l as [|r l IH]; intros m ls; simpl; [by intros [= <-]|]. destruct (searx_link r) as [x|]; [|done]. simpl.
  destruct (usable_link 5 x) eqn:E; [|apply IH]. destruct (m <=? 1); simpl.
  - intros [= <-]. constructor; [by eapply usable_good|constructor].
  - destruct (searx_loop (m - 1) l) eqn:El; [|done]. simpl. intros [= <-]. constructor; [by eapply usable_good|by eapply IH].
Qed.
Lemma searxng_good resp m : Forall good_link (list_or_nil (_search_searxng resp m)).
Proof.
  apply list_or_nil_good. intros l. unfold _search_searxng. destruct resp as [resp|]; [|intros [= <-]; constructor].
  intros [H| ->]%or_else_cases; [|constructor]. destruct resp as [r|]; [|done]. simpl in H. destruct (negb _); [injection H as <-; constructor|].
  destruct (get_or _ _ _); [|done]. simpl in H. destruct (iterate_slice _ _); [|done]. by eapply searx_loop_good.
Qed.
Lemma wiki_hit_good h ls : wiki_hit h = Ok ls -> Forall good_link ls.
Proof.
  unfold wiki_hit. destruct (get_or _ _ _) as [t|]; [|done]. simpl. destruct t as [| | | |[|c s]| | |]; try done; intros [= <-]; [constructor|].
  constructor; [apply wiki_good|constructor].
Qed.
Lemma collect_Forall {A B} (f : A -> result pyexn B) (P : B -> Prop) l ls : (forall x y, f x = Ok y -> P y) -> collect f l = Ok ls -> Forall P ls.
Proof.
  intros Hf. revert ls. induction l as [|x l IH]; intros ls; simpl; [by intros [= <-]|]. destruct (f x) eqn:E; [|done]. simpl.
  destruct (collect f l); [|done]. simpl. intros [= <-]. constructor; [by eapply Hf|by apply IH].
Qed.
Lemma wikipedia_good resp m : Forall good_link (list_or_nil (_wikipedia_top_pages resp m)).
Proof.
  apply list_or_nil_good. intros l [H| ->]%or_else_cases; [|constructor]. destruct resp as [r|]; [|done]. simpl in H.
  destruct (negb _); [injection H as <-; constructor|]. destruct (get_or _ _ _); [|done]. simpl in H. destruct (get_or _ _ _); [|done]. simpl in H.
  destruct (iterate_slice _ _); [|done]. simpl in H. destruct (collect _ _) eqn:E; [|done]. simpl in H. injection H as <-.
  apply (collect_Forall _ (Forall good_link)) in E; [|apply wiki_hit_good]. by apply Forall_concat.
Qed.

(** Adding links keeps what is there, the addresses distinct and the links good *)
Record merged_ok (seen out : list link) : Prop := {
  m_prefix : seen `prefix_of` out; m_distinct : NoDup out.*1; m_good : Forall good_link out }.
Lemma add_one_ok seen x out : NoDup seen.*1 -> Forall good_link seen -> good_link x -> x.1 ∉ seen.*1 -> merged_ok (seen ++ [x]) out -> merged_ok seen out.
Proof. intros Hn Hg Hx Hin [Hp Hd Hf]. split; [|done|done]. etrans; [|exact Hp]. by eexists. Qed.
Lemma snoc_ok seen x : NoDup seen.*1 -> Forall good_link seen -> good_link x -> x.1 ∉ seen.*1 -> NoDup (seen ++ [x]).*1 /\ Forall good_link (seen ++ [x]).
Proof.
  intros Hn Hg Hx Hin. split; [|apply Forall_app; split; [done|by constructor]]. rewrite fmap_app. apply NoDup_app. split_and!; [done| |by apply NoDup_singleton].
  intros u Hu Hu'. apply list_elem_of_singleton in Hu' as ->. done.
Qed.
Lemma add_new_ok l seen : NoDup seen.*1 -> Forall good_link seen -> Forall good_link l -> merged_ok seen (add_new seen l).
Proof.
  revert seen. induction l as [|x l IH]; intros seen Hn Hg Hl; simpl; [by split|]. apply Forall_cons in Hl as [Hx Hl].
  case_bool_decide as Hin; [by apply IH|]. destruct (snoc_ok seen x) as [? ?]; try done. eapply add_one_ok; try done. by apply IH.
Qed.
Lemma add_until_ok n l seen : NoDup seen.*1 -> Forall good_link seen -> Forall good_link l -> merged_ok seen (add_until n seen l).
Proof.
  revert seen. induction l as [|x l IH]; intros seen Hn Hg Hl; simpl; [by split|]. apply Forall_cons in Hl as [Hx Hl].
  case_bool_decide as Hin; [by apply IH|]. destruct (snoc_ok seen x) as [? ?]; try done.
  eapply add_one_ok; [done|done|exact Hx|done|]. destruct (n <=? _); [by split|by apply IH].
Qed.
Lemma add_batches_ok n bs seen : NoDup seen.*1 -> Forall good_link seen -> Forall (Forall good_link) bs -> merged_ok seen (add_batches n seen bs).
Proof.
  revert seen. induction bs as [|b bs IH]; intros seen Hn Hg Hb; simpl; [by split|]. apply Forall_cons in Hb as [Hb Hbs].
  destruct (add_until_ok n b seen Hn Hg Hb) as [P1 P2 P3]. destruct (n <=? _); [by split|].
  destruct (IH _ P2 P3 Hbs) as [Q1 Q2 Q3]. split; [by etrans|done|done].
Qed.

(** The articles Wikipedia returns for a query *)
Definition articles (en : engines) (query : string) (max_results : Z) : list link :=
  let n := Z.max 2 (Z.min 3 max_results) in list_or_nil (_wikipedia_top_pages (wikipedia en query n) n).
Lemma merged_spec en query m :
  merged_ok (add_new [] (take 2 (articles en query m)))
    (add_batches m (add_new [] (take 2 (articles en query m)))
       [list_or_nil (_search_duckduckgo_html (ddg_html en query m) m); list_or_nil (_search_duckduckgo_lite (ddg_lite en query m) m);
        list_or_nil (_search_searxng ((fun f => f query m) <$> searxng en) m)]).
Proof.
  destruct (add_new_ok (take 2 (articles en query m)) []) as [_ Hd Hg]; [constructor|constructor|apply Forall_take, wikipedia_good|].
  apply add_batches_ok; [done|done|]. repeat constructor; [by eapply links_of_good|eapply (links_of_good 8)|apply searxng_good].
  by intros x [H _]%andb_true_iff.
Qed.
Lemma add_new_head l x : head l = Some x -> head (add_new [] l) = Some x.
Proof.
  destruct l as [|y l]; [done|]. simpl. intros [= ->]. assert (forall k seen, head seen = Some x -> head (add_new seen k) = Some x) as H.
  { induction k as [|z k IH]; intros seen Hs; simpl; [done|]. case_bool_decide; [by apply IH|]. apply IH. by destruct seen. }
  by apply H.
Qed.

(** A search that finds nothing finds no match at any place. *)
Lemma search_at_false r p a b : search_at r p (a +:+ b) = false -> exists q, forall pl, ~ matches r (q, b) pl.
Proof.
  revert p. induction a as [|c a IH]; intros p H.
  - exists p. intros pl Hm%ends_complete. change ("" +:+ b) with b in H. destruct b; cbn [search_at] in H; destruct (ends r _); (done || by apply not_elem_of_nil in Hm).
  - rewrite app_string_cons in H. cbn [search_at] in H. destruct (ends r _); [|done]. by apply IH in H.
Qed.
Lemma matches_lit w q b : exists q', matches (Lit w) (q, w +:+ b) (q', b).
Proof.
  revert q. induction w as [|c w IH]; intros q; [exists q; constructor|]. destruct (IH (Some c)) as [q' H]. exists q'.
  rewrite app_string_cons. cbn [Lit]. eapply M_cat; [constructor; apply Ascii.eqb_refl|exact H].
Qed.
Lemma no_lit u w a b r : (forall p q, matches (Lit w) p q -> exists q', matches r p q') -> re_search r u = false -> u <> a +:+ w +:+ b.
Proof.
  intros Hw H ->. apply search_at_false in H as [q H]. destruct (matches_lit w q b) as [q' Hm]. apply Hw in Hm as [q2 Hm]. by apply H in Hm.
Qed.
Lemma matches_lit_inv w q s pl : matches (Lit w) (q, s) pl -> exists q', pl = (q', pl.2) /\ s = w +:+ pl.2.
Proof.
  revert q s. induction w as [|c w IH]; intros q s H; cbn [Lit] in H; inversion H; subst; [by eexists|].
  match goal with H1 : matches (Chr _) _ ?p, H2 : matches (Lit w) ?p _ |- _ => inversion H1; subst; apply IH in H2 as (q' & -> & ->) end.
  exists q'. rewrite app_string_cons. match goal with H : Ascii.eqb c _ = true |- _ => apply Ascii.eqb_eq in H as -> end. done.
Qed.
Lemma duckduckgo p c s : char_in c "?/" = true ->
  exists q, matches (Cat (Lit "duckduckgo.com") (Cat (Opt (Lit "/")) (Chr (fun c => char_in c "?/")))) (p, "duckduckgo.com" +:+ String c s) q.
Proof.
  intros Hc. destruct (matches_lit "duckduckgo.com" p (String c s)) as [q1 H1]. eexists.
  eapply M_cat; [exact H1|]. eapply M_cat; [apply M_alt_r; constructor|]. by constructor.
Qed.
(** What marks a page of search results, as literal text *)
Lemma search_like_marks u w a b : search_like u = false ->
  w ∈ ["scholar.google.com"; "duckduckgo.com/"; "duckduckgo.com?"; "bing.com/search"; "google.com/search"; "yandex.com/search"; "baidu.com/s?";
       "/search?"; "?q="; "&q="] -> lower u <> a +:+ w +:+ b.
Proof.
  intros H Hw. apply (no_lit _ _ _ _ SEARCH_LIKE); [|exact H]. intros [p s] q Hm. unfold SEARCH_LIKE.
  repeat (apply elem_of_cons in Hw as [->|Hw]); [..|by apply elem_of_nil in Hw].
  2,3: apply matches_lit_inv in Hm as (_ & _ & ->); edestruct (duckduckgo p) as [? H1]; [|eexists; apply M_alt_r, M_alt_l; exact H1]; done.
  all: eexists; repeat first [exact Hm | apply M_alt_l; exact Hm | apply M_alt_r].
Qed.


(** ** What scraping returns *)

(** What raises, if anything, is no cancellation *)
Definition calm {A} (x : result pyexn A) : Prop := forall e, x = Err e -> CancelledError e = false.
Lemma calm_ok {A} (a : A) : calm (Ok a).
Proof. done. Qed.
Lemma calm_bind {A B} (x : result pyexn A) (k : A -> result pyexn B) : calm x -> (forall a, x = Ok a -> calm (k a)) -> calm (rbind x k).
Proof. intros Hx Hk e. destruct x as [a|e']; simpl; [by apply Hk|]. intros [= ->]. by apply Hx. Qed.
Lemma calm_or_else {A} (x : result pyexn A) (d : A) : calm x -> exists a, or_else x d = Ok a.
Proof. intros H. destruct (or_else_ok x d H) as (a & ? & _). by exists a. Qed.
Lemma calm_get_attr k v : calm (get_attr k v).
Proof. destruct v; try done; by intros e [= <-]. Qed.
Lemma calm_get_or k d v : calm (get_or k d v).
Proof. apply calm_bind; [apply calm_get_attr|intros; apply calm_ok]. Qed.
Lemma calm_as_str m v : calm (as_str m v).
Proof. destruct v; try done; by intros e [= <-]. Qed.
Lemma calm_text_or k d v : calm (text_or k d v).
Proof. apply calm_bind; [apply calm_get_or|]. intros t _. apply calm_bind; [apply calm_as_str|intros; apply calm_ok]. Qed.
Lemma calm_first_extract ps : calm (first_extract ps).
Proof. induction ps as [|p ps IH]; simpl; [apply calm_ok|]. apply calm_bind; [apply calm_text_or|]. intros b _. destruct (String.eqb b ""); [exact IH|apply calm_ok]. Qed.
Create HintDb calm.
#[local] Hint Resolve calm_ok calm_bind calm_get_attr calm_get_or calm_as_str calm_text_or calm_first_extract : calm.

Section scrape_facts.
Variable wiki_summary wiki_extract : string -> string -> result pyexn (Z * pyval).
Variable arxiv_page : string -> result pyexn (Z * (option string * option string)).
Variable fetch : string -> Z -> result pyexn (Z * string).
Variable trafilatura : option (string -> result pyexn (option string)).
Variable soup_text : string -> result pyexn string.

Definition good_page (url : string) (p : scraped) : Prop := sc_url p = url /\ sc_content p <> "" /\ (String.length (sc_content p) <= Z.to_nat 8000)%nat.

Lemma str_take_nonempty n s : s <> "" -> (0 < n)%nat -> str_take n s <> "".
Proof. destruct s, n; simpl; try done; lia. Qed.
Lemma cut_page url s t k n : s <> "" -> (0 < n <= Z.to_nat 8000)%nat -> good_page url (Scraped url (str_take n s) t k).
Proof.
  intros Hs Hn. split; [done|]. split; [apply str_take_nonempty; [done|lia]|]. cbn [sc_content]. pose proof (length_str_take n s). lia.
Qed.
(** None of the requests is cancelled *)
Definition scrape_uncancelled : Prop :=
  (forall l u e, wiki_summary l u = Err e -> CancelledError e = false) /\ (forall l u e, wiki_extract l u = Err e -> CancelledError e = false) /\
  (forall u e, arxiv_page u = Err e -> CancelledError e = false) /\ (forall u n e, fetch u n = Err e -> CancelledError e = false) /\
  (forall f h e, trafilatura = Some f -> f h = Err e -> CancelledError e = false) /\ (forall h e, soup_text h = Err e -> CancelledError e = false).

Lemma ok_some_inj {E A} (a b : A) : @Ok E _ (Some a) = Ok (Some b) -> a = b.
Proof. by intros [= ->]. Qed.
Lemma extract_page_good url html p : extract_page trafilatura soup_text url html = Ok (Some p) -> good_page url p.
Proof.
  assert (soup_page soup_text url html = Ok (Some p) -> good_page url p) as Hsoup.
  { unfold soup_page. destruct (soup_text html) as [text|]; [|done]. cbn [rbind]. set (t := join NL (text_lines text)).
    destruct (Nat.leb_spec 120 (String.length t)) as [Hl|]; [|done]. intros <-%ok_some_inj. apply cut_page; [|lia]. intros E. rewrite E in Hl. simpl in Hl. lia. }
  unfold extract_page. destruct (match trafilatura with Some f => f html | None => Ok None end) as [[t|]|]; cbn [rbind]; [|exact Hsoup|done].
  destruct (Nat.leb_spec 120 (String.length t)) as [Hl|]; [|exact Hsoup]. intros <-%ok_some_inj. apply cut_page; [|lia]. intros E. rewrite E in Hl. simpl in Hl. lia.
Qed.
Lemma attempt_page_good url n p : attempt_page fetch trafilatura soup_text url n = Ok (Done (Some p)) -> good_page url p.
Proof.
  unfold attempt_page. destruct (fetch url n) as [r|e]; simpl; [|by destruct (CancelledError e)].
  destruct (_ || _); [done|]. destruct (negb _); [done|]. destruct (extract_page _ _ _ _) as [[q|]|e] eqn:E; simpl; [|done|by destruct (CancelledError e)].
  intros [= <-]. by eapply extract_page_good.
Qed.
Lemma attempts_loop_good k url n r ds : attempts_loop fetch trafilatura soup_text k url n = (r, ds) ->
  (length ds <= k)%nat /\ (forall p, r = Ok (Some p) -> good_page url p).
Proof.
  revert n r ds. induction k as [|k IH]; intros n r ds; simpl; [intros [= <- <-]; split; [simpl; lia|done]|].
  destruct (attempt_page _ _ _ _ _) as [[p|d]|e] eqn:E.
  - intros [= <- <-]. split; [simpl; lia|]. intros q [= ->]. by eapply attempt_page_good.
  - destruct (attempts_loop _ _ _ k url (n + 1)) as [r' ds'] eqn:El. intros [= <- <-]. apply IH in El as [? ?]. split; [simpl; lia|done].
  - intros [= <- <-]. split; [simpl; lia|done].
Qed.
Lemma wikipedia_page_good url p : _fetch_wikipedia_plain wiki_summary wiki_extract url = Ok (Some p) -> good_page url p.
Proof.
  unfold _fetch_wikipedia_plain. destruct (wiki_parts url) as [[lang slug]|]; [|done]. intros [H|H]%or_else_cases; [|done]. revert H.
  destruct (wiki_summary _ _) as [r|]; [|done]. cbn [rbind]. destruct (if _ : bool then _ else _) as [st|]; [|done]. cbn [rbind].
  destruct (wiki_extract _ _) as [r2|]; [|done]. cbn [rbind]. destruct (if _ : bool then _ else _) as [body|]; [|done]. cbn [rbind].
  destruct (String.eqb_spec (strip is_space (st.1 +:+ NL +:+ NL +:+ body)) ""); [done|]. intros <-%ok_some_inj. apply cut_page; [done|lia].
Qed.
Lemma arxiv_page_good url p : _fetch_arxiv_abstract arxiv_page url = Ok (Some p) -> good_page url p.
Proof.
  unfold _fetch_arxiv_abstract. destruct (negb _); [done|]. intros [H|H]%or_else_cases; [|done]. revert H.
  destruct (arxiv_page url) as [r|]; [|done]. cbn [rbind]. destruct (negb _); [done|]. destruct (Nat.ltb_spec (String.length (drop_abstract (default "" r.2.2))) 80); [done|].
  intros <-%ok_some_inj. apply cut_page; [|lia]. by destruct (default "" r.2.1).
Qed.
Lemma scrape_url_good url n r ds : scrape_url wiki_summary wiki_extract arxiv_page fetch trafilatura soup_text url n = (r, ds) ->
  Z.of_nat (length ds) <= Z.max 1 n /\ (forall p, r = Ok (Some p) -> good_page url p /\ startswith "http" url = true /\ search_like url = false).
Proof.
  unfold scrape_url. destruct (negb (startswith "http" url) || search_like url) eqn:E; [intros [= <- <-]; split; [simpl; lia|done]|].
  apply orb_false_iff in E as [E1%negb_false_iff E2]. destruct (shortcut _ _ _ _) as [[p|]|e] eqn:Es.
  - intros [= <- <-]. split; [simpl; lia|]. intros q [= <-]. split; [|done]. unfold shortcut in Es.
    destruct (str_in "wikipedia.org/wiki/" url); simpl in Es.
    + destruct (_fetch_wikipedia_plain _ _ _) as [[q|]|] eqn:Ew; simpl in Es; [injection Es as ->; by eapply wikipedia_page_good| |done].
      destruct (str_in _ _); [by eapply arxiv_page_good|done].
    + destruct (str_in _ _); [by eapply arxiv_page_good|done].
  - intros H. apply attempts_loop_good in H as [Hd Hp]. split; [lia|]. intros p Hr. split; [by apply Hp|done].
  - intros [= <- <-]. split; [simpl; lia|done].
Qed.

Hypothesis quiet : scrape_uncancelled.
Lemma shortcut_ok url : exists p, shortcut wiki_summary wiki_extract arxiv_page url = Ok p.
Proof.
  destruct quiet as (Q1 & Q2 & Q3 & _). unfold shortcut.
  assert (exists w, _fetch_wikipedia_plain wiki_summary wiki_extract url = Ok w) as [w Hw].
  { unfold _fetch_wikipedia_plain. destruct (wiki_parts url) as [[l u]|]; [|by eexists]. apply calm_or_else.
    apply calm_bind; [exact (Q1 _ _)|]. intros r _. apply calm_bind; [destruct (_ =? 200); eauto with calm|]. intros st _.
    apply calm_bind; [exact (Q2 _ _)|]. intros r2 _. apply calm_bind; [|by eauto with calm]. destruct (_ =? 200); [|by eauto with calm].
    apply calm_bind; [apply calm_get_or|]. intros q _. apply calm_bind; [apply calm_get_or|]. intros ps _.
    destruct ps; try (intros e [= <-]; done). apply calm_first_extract. }
  assert (exists a, _fetch_arxiv_abstract arxiv_page url = Ok a) as [a Ha].
  { unfold _fetch_arxiv_abstract. destruct (negb _); [by eexists|]. apply calm_or_else. apply calm_bind; [exact (Q3 _)|].
    intros r _. destruct (negb _); apply calm_ok. }
  assert (exists x, (if str_in "wikipedia.org/wiki/" url then _fetch_wikipedia_plain wiki_summary wiki_extract url else Ok None) = Ok x) as [x ->]
    by (destruct (str_in _ _); eauto).
  cbn [rbind]. destruct x; [by eexists|]. destruct (str_in _ _); eauto.
Qed.
Lemma attempt_ok url n : exists r, attempt_page fetch trafilatura soup_text url n = Ok r.
Proof.
  destruct quiet as (_ & _ & _ & Q4 & Q5 & Q6). unfold attempt_page.
  assert (calm (extract_page trafilatura soup_text url (match fetch url n with Ok r => r.2 | Err _ => "" end))) as Hc.
  { assert (forall h, calm (soup_page soup_text url h)) as Hs by (intros h; apply calm_bind; [exact (Q6 h)|intros; apply calm_ok]).
    apply calm_bind; [|intros [t|] _; [destruct (_ <=? _)%nat; [apply calm_ok|apply Hs]|apply Hs]].
    destruct trafilatura as [f|]; [|apply calm_ok]. intros e. by apply Q5. }
  destruct (fetch url n) as [r|e] eqn:Ef; cbn [rbind]; [|rewrite (Q4 _ _ _ Ef); by eexists].
  destruct (existsb _ _); [by eexists|]. destruct (negb _); [by eexists|].
  destruct (extract_page _ _ _ _) as [q|e] eqn:E; cbn [rbind]; [by eexists|]. rewrite (Hc e) by done. by eexists.
Qed.
Lemma scrape_ok url n : exists p ds, scrape_url wiki_summary wiki_extract arxiv_page fetch trafilatura soup_text url n = (Ok p, ds).
Proof.
  unfold scrape_url. destruct (_ || _); [by eexists _, _|]. destruct (shortcut_ok url) as [[p|] ->]; [by eexists _, _|].
  generalize 0. induction (Z.to_nat (Z.max 1 n)) as [|k IH]; intros i; simpl; [by eexists _, _|].
  destruct (attempt_ok url i) as [[p|d] ->]; [by eexists _, _|]. destruct (IH (i + 1)) as (p & ds & ->). by eexists _, _.
Qed.
End scrape_facts.

(** Scraping an address ends, whatever the requests and the parsers raise
    short of a cancellation, after at most the given number of attempts;
    a page it returns is of that address, has a content of at most 8000
    characters and is not a list of search results. *)
Theorem scrape_url_ends wiki_summary wiki_extract arxiv_page fetch trafilatura soup_text url n :
  scrape_uncancelled wiki_summary wiki_extract arxiv_page fetch trafilatura soup_text ->
  exists p ds, scrape_url wiki_summary wiki_extract arxiv_page fetch trafilatura soup_text url n = (Ok p, ds) /\
    zlength ds <= Z.max 1 n /\
    (forall pg, p = Some pg -> good_page url pg /\ startswith "http" url = true /\ search_like url = false).
Proof.
  intros Hq. destruct (scrape_ok _ _ _ _ _ _ Hq url n) as (p & ds & H). exists p, ds. split; [exact H|].
  apply scrape_url_good in H as [H1 H2]. split; [done|]. intros pg ->. by apply H2.
Qed.

(** ** What translating does *)

Section translate_facts.
Variable detect_api : list Z -> result pyexn (Z * pyval).
Variable translate_api : string -> pyval -> pyval -> result pyexn (Z * pyval).
Definition translate_uncancelled : Prop := (forall s, calm (detect_api s)) /\ (forall t a b, calm (translate_api t a b)).

(** An item translated from a language that is neither the target nor English,
    or with the content it had *)
Definition item_ok (target : string) (uc : string * string) (it : item) : Prop :=
  it_url it = uc.1 /\
  ((it_content it = PStr uc.2 /\ it_translated it <> Some true) \/
   (it_translated it = Some true /\ exists lang, detect_language detect_api uc.2 = Ok lang /\ it_language it = Some lang /\
      lang <> PStr target /\ lang <> PStr "en" /\ lang <> PStr "unknown")).

Hypothesis quiet : translate_uncancelled.
Lemma detect_ok text : exists lang, detect_language detect_api text = Ok lang.
Proof.
  unfold detect_language. destruct (_ <? 20); [by eexists|].
  match goal with |- context [or_else ?x ?d] => destruct (calm_or_else x d) as [a ->]; [|by eexists] end.
  apply calm_bind; [apply quiet|]. intros r _. destruct (_ =? 200); [|apply calm_ok]. apply calm_bind; [apply calm_get_attr|intros; apply calm_ok].
Qed.
Lemma translate_text_ok text a b : exists r, translate_text translate_api text a b = Ok r.
Proof.
  unfold translate_text. case_bool_decide; [by eexists|].
  match goal with |- context [or_else ?x ?d] => destruct (calm_or_else x d) as [r ->]; [|by eexists] end.
  apply calm_bind; [apply quiet|]. intros r _. destruct (_ =? 200); [|apply calm_ok].
  apply calm_bind; [apply calm_get_attr|]. intros t _. apply calm_bind; [apply calm_get_attr|intros; apply calm_ok].
Qed.
Lemma translate_item_ok target uc : exists it, translate_item detect_api translate_api target (new_item uc) = Ok it /\ item_ok target uc it.
Proof.
  destruct uc as [u [|c t]]; [eexists; split; [reflexivity|]; split; [done|by left]|].
  unfold translate_item. cbn [new_item it_content fst snd]. destruct (detect_ok (String c t)) as [lang Hl]. rewrite Hl. cbn [rbind].
  repeat case_bool_decide; cbn [negb andb]; try (eexists; split; [reflexivity|]; split; [done|by left]).
  destruct (translate_text_ok (String c t) lang (PStr target)) as [r ->]. cbn [rbind]. eexists. split; [reflexivity|].
  destruct (tt_success r); split; try done; [|by left]. right. split; [done|]. by exists lang.
Qed.
Lemma batch_ok target l : exists its, _translate_batch_for_research detect_api translate_api l target = Ok its /\ Forall2 (item_ok target) l its.
Proof.
  unfold _translate_batch_for_research, translate_scraped_content. induction l as [|uc l (its & IH & Hf)]; simpl; [by eexists|].
  destruct (translate_item_ok target uc) as (it & -> & Hi). cbn [rbind]. rewrite IH. cbn [rbind]. eexists. split; [reflexivity|]. by constructor.
Qed.
End translate_facts.

(** Translating a batch returns an item for each, in order, whatever the
    services raise short of a cancellation: its content is what it was, or it
    is marked as translated from a language that is not the target, not
    English and not unknown. *)
Theorem translated_batch_sound detect_api translate_api target l : translate_uncancelled detect_api translate_api ->
  exists its, _translate_batch_for_research detect_api translate_api l target = Ok its /\ Forall2 (item_ok detect_api target) l its.
Proof. intros Hq. by apply batch_ok. Qed.

(** A text in English is never translated, whatever the target. *)
Theorem english_never_translated detect_api translate_api target u text : detect_language detect_api text = Ok (PStr "en") -> text <> "" ->
  translate_item detect_api translate_api target (new_item (u, text)) = Ok (Item u (PStr text) (Some (PStr "en")) (Some false) None).
Proof.
  intros Hd Ht. unfold translate_item. destruct text as [|c t]; [done|]. cbn [new_item it_content fst snd]. rewrite Hd. cbn [rbind].
  rewrite (bool_decide_eq_true_2 (PStr "en" = PStr "en")) by done. by rewrite andb_false_r.
Qed.

(** ** The specifications on concrete inputs *)

Definition down : pyexn := PyExn "ConnectError" "all connection attempts failed".
Definition demo_engines : engines :=
  Engines (fun _ _ => Ok (200, [("https://duckduckgo.com/?q=x", "more results"); ("https://plants.example/a", "About plants"); ("https://b.example/", "b")]))
    (fun _ _ => Err down) None
    (fun _ _ => Ok (200, PDict [("query", PDict [("search", PList [PDict [("title", PStr "Green plant")]])])])).

(** The article's first request is refused, the second is too short. *)
Definition demo_text : string :=
  "Plants are green. Plants are green. Plants are green. Plants are green. Plants are green. Plants are green. Plants are green at noon.".
Definition demo_fetch (u : string) (n : Z) : result pyexn (Z * string) := if n =? 0 then Ok (429, "") else Ok (200, demo_text).
Definition demo_soup (h : string) : result pyexn string := Ok h.
Lemma demo_scrape_quiet : scrape_uncancelled (fun _ _ => Err down) (fun _ _ => Err down) (fun _ => Err down) demo_fetch None demo_soup.
Proof. split_and!; try (intros; by simplify_eq); intros u n e; unfold demo_fetch, demo_soup; by case_match. Qed.
Definition demo_page_found : result pyexn (option scraped) * list Q :=
  scrape_url (fun _ _ => Err down) (fun _ _ => Err down) (fun _ => Err down) demo_fetch None demo_soup "https://en.wikipedia.org/wiki/Plant" 2.
Lemma scrape_url_ends_witness : exists p ds, demo_page_found = (Ok (Some p), ds) /\ good_page "https://en.wikipedia.org/wiki/Plant" p /\ zlength ds = 1.
Proof.
  destruct (scrape_url_ends (fun _ _ => Err down) (fun _ _ => Err down) (fun _ => Err down) demo_fetch None demo_soup "https://en.wikipedia.org/wiki/Plant" 2
              demo_scrape_quiet) as (p & ds & H & Hd & Hp).
  assert (is_Some p /\ zlength ds = 1) as [[pg ->] Hz].
  { revert H. vm_compute. intros [= <- <-]. split; [by eexists|done]. }
  exists pg, ds. split; [exact H|]. split; [by apply Hp|exact Hz].
Defined.

Definition demo_detect (s : list Z) : result pyexn (Z * pyval) :=
  if existsb (Z.eqb 252) s then Ok (200, PDict [("detected_language", PStr "de")]) else Ok (200, PDict [("detected_language", PStr "en")]).
Definition demo_translate (t : string) (a b : pyval) : result pyexn (Z * pyval) := Ok (200, PDict [("translated_text", PStr "Hello from Munich")]).
Definition demo_items : list (string * string) := [("u1", "Sehr geehrte Damen, Gruesse aus M" +:+ String "195" (String "188" "nchen")); ("u2", "Best wishes from Paris")].
Lemma translated_batch_sound_witness : exists its, _translate_batch_for_research demo_detect demo_translate demo_items "en" = Ok its /\
  map it_translated its = [Some true; Some false] /\ map it_url its = ["u1"; "u2"].
Proof.
  destruct (translated_batch_sound demo_detect demo_translate "en" demo_items) as (its & H & Hf).
  { split; [|done]. intros s e. unfold demo_detect. by case_match. }
  exists its. split; [exact H|]. revert H. vm_compute. by intros [= <-].
Defined.
Lemma english_never_translated_witness :
  translate_item demo_detect demo_translate "tr" (new_item ("u", "Best wishes from Paris")) = Ok (Item "u" (PStr "Best wishes from Paris") (Some (PStr "en")) (Some false) None).
Proof. apply (english_never_translated demo_detect demo_translate "tr" "u" "Best wishes from Paris"); [vm_compute; reflexivity|discriminate]. Defined.
