(* ===== verification/Ollama.v ===== *)
(** * The local language model

    document_processor/api/local_ai_routes_simple.py: the client of the Ollama
    server, which pulls a missing model, the cache of its replies (Cache.v), the
    health checks and the chat endpoints.  The server is an interface with a
    state; a request may raise. *)

From S2P Require Import Prelude PyStr PyVal PyConv Json Cache ChatStore QueryRecords Language ResearchPrompts Research.
From Stdlib Require Import Ascii.
#[local] Open Scope py_scope.
#[local] Open Scope Z_scope.

(** A reply: status, text, and the decoded body *)
Record http_reply := HttpReply { hr_status : Z; hr_text : string; hr_json : result pyexn pyval }.
Record generate_request := GenRequest { g_model : string; g_prompt : string; g_system : string; g_num_predict : Z }.
Class OllamaServer (S : Type) := {
  api_tags : S -> result pyexn http_reply * S;
  api_pull : string -> S -> result pyexn http_reply * S;
  api_generate : generate_request -> S -> result pyexn http_reply * S }.
Record ollama_config := OllamaConfig {
  OLLAMA_BASE_URL : string; OLLAMA_MODEL : string; OLLAMA_AUTO_PULL : bool; llm_response_cache_enabled : bool; llm_response_cache_ttl_seconds : Z }.

Definition HTTPException (code : Z) (detail : string) : pyexn := http_error (str_int code) detail.
Definition is_http (e : pyexn) : bool := String.eqb (exn_type e) "HTTPException".
(** [e.detail]: the text after the three digits of the code *)
Definition http_detail (e : pyexn) : string := str_drop 5 (exn_str e).
(** [httpx.TimeoutException] and its subclasses *)
Definition is_timeout (e : pyexn) : bool :=
  existsb (String.eqb (exn_type e)) ["TimeoutException"; "ConnectTimeout"; "ReadTimeout"; "WriteTimeout"; "PoolTimeout"].

(** ** Requests to the server *)

Section ollama.
Context {S : Type} `{OllamaServer S}.
Variable cfg : ollama_config.

Definition sio (A : Type) : Type := S -> result pyexn A * S.
Definition sret {A} (x : result pyexn A) : sio A := fun s => (x, s).
Definition sbind {A B} (m : sio A) (k : A -> sio B) : sio B :=
  fun s => match m s with (Ok a, s') => k a s' | (Err e, s') => (Err e, s') end.
#[local] Notation "x <~ m ; k" := (sbind m (fun x => k)) (at level 60, m at next level, right associativity).

Fixpoint names_of (models : list pyval) : result pyexn (list pyval) :=
  match models with
  | [] => Ok []
  | m :: models' =>
      o <-! get_attr "name" m;
      rest <-! names_of models';
      let n := default PNone o in Ok (if truthy n then n :: rest else rest)
  end.
Definition _ollama_list_models : sio (list pyval) :=
  r <~ api_tags;
  if negb (hr_status r =? 200) then sret (Err (HTTPException 503 ("Ollama not available (status " +:+ str_int (hr_status r) +:+ ")"))) else
  sret (data <-! hr_json r; o <-! get_attr "models" data; l <-! iterate (default (PList []) o); names_of l).
Definition has_model (model : string) (models : list pyval) : bool := existsb (fun v => bool_decide (v = PStr model)) models.

(** Under the lock the models are listed again *)
Definition _ollama_pull_model (model : string) : sio unit :=
  models <~ _ollama_list_models;
  if has_model model models then sret (Ok ()) else
  if negb (OLLAMA_AUTO_PULL cfg) then
    sret (Err (HTTPException 503 ("Ollama model '" +:+ model +:+ "' is not installed. Install it with: docker exec amor-ollama ollama pull " +:+ model))) else
  r <~ api_pull model;
  sret (if hr_status r =? 200 then Ok ()
        else Err (HTTPException 503 ("Failed to pull Ollama model '" +:+ model +:+ "' (status " +:+ str_int (hr_status r) +:+ "): " +:+ hr_text r))).
(** Whether the model is installed, and the models *)
Definition _ensure_ollama_ready : sio (bool * list pyval) :=
  models <~ _ollama_list_models;
  if has_model (OLLAMA_MODEL cfg) models then sret (Ok (true, models)) else
  _ <~ _ollama_pull_model (OLLAMA_MODEL cfg);
  models <~ _ollama_list_models;
  sret (Ok (has_model (OLLAMA_MODEL cfg) models, models)).

Definition generate_body (prompt : string) (system : option string) (max_tokens : Z) : generate_request :=
  GenRequest (OLLAMA_MODEL cfg) prompt (default "" system) max_tokens.
(** [response.json().get("response", "")] *)
Definition response_of (r : http_reply) : result pyexn pyval :=
  result <-! hr_json r; o <-! get_attr "response" result; Ok (default (PStr "") o).
Definition api_error (r : http_reply) : pyexn :=
  HTTPException 503 ("Ollama API error: " +:+ str_int (hr_status r) +:+ " - " +:+ hr_text r).
Definition try_generate (prompt : string) (system : option string) (max_tokens : Z) : sio pyval :=
  _ <~ _ensure_ollama_ready;
  r <~ api_generate (generate_body prompt system max_tokens);
  if hr_status r =? 200 then sret (response_of r) else
  if (hr_status r =? 404) && str_in "model" (lower (hr_text r)) then
    _ <~ _ensure_ollama_ready;
    retry <~ api_generate (generate_body prompt system max_tokens);
    if hr_status retry =? 200 then sret (response_of retry) else sret (Err (api_error r))
  else sret (Err (api_error r)).
Definition ollama_failure (e : pyexn) : pyexn :=
  if CancelledError e then e
  else if is_timeout e then HTTPException 504 "Ollama API timeout"
  else if is_http e then e
  else HTTPException 500 ("Ollama API call failed: " +:+ exn_str e).
Definition _call_ollama_uncached (prompt : string) (system : option string) (max_tokens : Z) : sio pyval :=
  fun s => match try_generate prompt system max_tokens s with (Ok v, s') => (Ok v, s') | (Err e, s') => (Err (ollama_failure e), s') end.
Definition check_ollama_health : sio bool := fun s =>
  match _ensure_ollama_ready s with
  | (Ok st, s') => (Ok st.1, s')
  | (Err e, s') => (if CancelledError e then Err e else Ok false, s')
  end.

(** ** The cache of replies *)

Variable sha256 : string -> string.
(** [repr(0.7)] *)
Definition TEMPERATURE : string := "0.7".
(** A string in JSON with [ensure_ascii=False] *)
Definition raw_escape (c : ascii) : string :=
  let n := nat_of_ascii c in
  if Ascii.eqb c DQUOTE || Ascii.eqb c BACKSLASH then String BACKSLASH (String c "")
  else if (n =? 10)%nat then String BACKSLASH "n"
  else if (n =? 13)%nat then String BACKSLASH "r"
  else if (n =? 9)%nat then String BACKSLASH "t"
  else if (n =? 12)%nat then String BACKSLASH "f"
  else if (n =? 8)%nat then String BACKSLASH "b"
  else if (n <? 32)%nat then String BACKSLASH ("u00" +:+ hex2 n)
  else String c "".
Definition raw_string (s : string) : string := String DQUOTE (concat_map raw_escape s +:+ String DQUOTE "").
Definition cache_payload (prompt : string) (system : option string) (max_tokens : Z) : string :=
  "[" +:+ join "," [raw_string (OLLAMA_MODEL cfg); raw_string (default "" system); raw_string prompt; str_int max_tokens; TEMPERATURE] +:+ "]".
Definition _llm_cache_key (prompt : string) (system : option string) (max_tokens : Z) : string := "llm:" +:+ sha256 (cache_payload prompt system max_tokens).

Context {R : Type} `{RedisServer R}.
Variable float_repr : Q -> string.
Definition _llm_cache_get (prompt : string) (system : option string) (max_tokens : Z) (c : CacheManager R) : option string * CacheManager R :=
  if negb (llm_response_cache_enabled cfg) then (None, c) else
  match get_json (_llm_cache_key prompt system max_tokens) c with
  | (Ok (Some (PDict d)), c') => (match dict_get "response" d with Some (PStr s) => Some s | _ => None end, c')
  | (_, c') => (None, c')
  end.
Definition _llm_cache_set (prompt : string) (system : option string) (max_tokens : Z) (response : pyval) (c : CacheManager R) : CacheManager R :=
  if negb (llm_response_cache_enabled cfg) || negb (truthy response) then c else
  (set_json float_repr (_llm_cache_key prompt system max_tokens) (PDict [("response", response); ("model", PStr (OLLAMA_MODEL cfg))])
     (Some (llm_response_cache_ttl_seconds cfg)) c).2.
Definition call_ollama (prompt : string) (system : option string) (max_tokens : Z) (sc : S * CacheManager R) : result pyexn pyval * (S * CacheManager R) :=
  let '(s, c) := sc in
  match _llm_cache_get prompt system max_tokens c with
  | (Some cached, c) => (Ok (PStr cached), (s, c))
  | (None, c) =>
      match _call_ollama_uncached prompt system max_tokens s with
      | (Ok response, s') => (Ok response, (s', _llm_cache_set prompt system max_tokens response c))
      | (Err e, s') => (Err e, (s', c))
      end
  end.

(** ** Health checks *)

Definition status_word (b : bool) : pyval := PStr (if b then "healthy" else "degraded").
(** The time stamps are left out *)
Definition health_check : sio (list (string * pyval)) := fun s =>
  match _ensure_ollama_ready s with
  | (Ok (installed, models), s') =>
      (Ok [("status", status_word installed); ("ollama_status", status_word installed); ("ollama_url", PStr (OLLAMA_BASE_URL cfg));
           ("ollama_model", PStr (OLLAMA_MODEL cfg)); ("ollama_auto_pull", PBool (OLLAMA_AUTO_PULL cfg)); ("ollama_available", PBool true);
           ("model_installed", PBool installed); ("models", PList models)], s')
  | (Err e, s') =>
      (if is_http e then
         Ok [("status", PStr "degraded"); ("ollama_status", PStr "unhealthy"); ("error", PStr (http_detail e)); ("ollama_url", PStr (OLLAMA_BASE_URL cfg));
             ("ollama_model", PStr (OLLAMA_MODEL cfg)); ("ollama_auto_pull", PBool (OLLAMA_AUTO_PULL cfg))]
       else Err e, s')
  end.
(** [detect] is the answer of the translation service to the probe; the time
    stamp and the details are left out *)
Definition research_health (detect : result pyexn Z) : sio (list (string * pyval)) := fun s =>
  let '(o, s') := _ensure_ollama_ready s in
  let translation_ok := match detect with Ok st => st =? 200 | Err _ => false end in
  let answer ollama_ok := [("status", status_word (ollama_ok && translation_ok)); ("ollama_ok", PBool ollama_ok); ("translation_ok", PBool translation_ok);
                           ("ollama_model", PStr (OLLAMA_MODEL cfg)); ("ollama_url", PStr (OLLAMA_BASE_URL cfg))] in
  match o with
  | Err e => (if CancelledError e then Err e else Ok (answer false), s')
  | Ok st => (Ok (answer st.1), s')
  end.
Definition list_ollama_models : sio (list pyval) := fun s =>
  match _ollama_list_models s with
  | (Err e, s') => (Err (if is_http e || CancelledError e then e else HTTPException 503 ("Failed to list Ollama models: " +:+ exn_str e)), s')
  | r => r
  end.
End ollama.

(** ** The chat endpoints *)

Definition THINKING_SYSTEM : string :=
  "You are an expert analytical thinker and problem solver. Your role is to:" +:+ NL +:+ NL +:+
  "1. Break down complex problems into manageable components" +:+ NL +:+ "2. Analyze situations from multiple angles" +:+ NL +:+
  "3. Apply logical reasoning and critical thinking" +:+ NL +:+ "4. Generate insights and novel perspectives" +:+ NL +:+
  "5. Challenge assumptions and identify biases" +:+ NL +:+ NL +:+ "When responding:" +:+ NL +:+ "- Think step-by-step through the problem" +:+
  NL +:+ "- Show your reasoning process clearly" +:+ NL +:+ "- Consider alternative viewpoints" +:+ NL +:+
  "- Identify key insights and implications" +:+ NL +:+ "- Provide actionable conclusions" +:+ NL +:+ NL +:+
  "Be thorough, logical, and insightful in your analysis.".
Definition CODING_SYSTEM : string :=
  "You are an expert software engineer and coding assistant. Your role is to:" +:+ NL +:+ NL +:+
  "1. Write clean, efficient, and well-documented code" +:+ NL +:+ "2. Debug issues and provide clear solutions" +:+ NL +:+
  "3. Review code for best practices and improvements" +:+ NL +:+ "4. Explain technical concepts clearly" +:+ NL +:+
  "5. Suggest optimizations and alternative approaches" +:+ NL +:+ NL +:+ "When responding:" +:+ NL +:+
  "- Provide working code examples with proper formatting" +:+ NL +:+ "- Include helpful comments in the code" +:+ NL +:+
  "- Follow language-specific best practices" +:+ NL +:+ "- Explain your reasoning and approach" +:+ NL +:+
  "- Consider edge cases and error handling" +:+ NL +:+ "- Suggest testing approaches when relevant" +:+ NL +:+ NL +:+
  "Be practical, precise, and educational in your responses.".

Definition capitalize (s : string) : string :=
  match s with EmptyString => "" | String c s' => String (ChatStore.upper_char c) (lower s') end.
Section chat.
Context {S : Type} `{OllamaServer S} {R : Type} `{RedisServer R}.
Variable cfg : ollama_config.
Variable sha256 : string -> string.
Variable float_repr : Q -> string.
Variable atom_repr : pyval -> string.

(** [request.history[-5:]] as text *)
Fixpoint context_of (history : list (list (string * pyval))) : result pyexn string :=
  match history with
  | [] => Ok ""
  | msg :: history' =>
      let role := default (PStr "user") (dict_get "role" msg) in
      let content := default (PStr "") (dict_get "content" msg) in
      match role with
      | PStr r => rest <-! context_of history'; Ok (capitalize r +:+ ": " +:+ py_str atom_repr content +:+ NL +:+ NL +:+ rest)
      | _ => Err (attribute_error role "capitalize")
      end
  end.
Definition last_five {A} (l : list A) : list A := drop (length l - 5) l.
(** [local_thinking] and [local_coding]: the system prompt and the name of the
    mode *)
Definition chat_mode (system mode prompt : string) (history : list (list (string * pyval))) (max_tokens : Z) (sc : S * CacheManager R)
  : result pyexn pyval * (S * CacheManager R) :=
  let '(h, s) := check_ollama_health cfg sc.1 in
  match h with
  | Err e => (Err e, (s, sc.2))
  | Ok false => (Err (HTTPException 503 "Ollama service not available"), (s, sc.2))
  | Ok true =>
      let failed e := if CancelledError e then e else HTTPException 500 (mode +:+ " mode failed: " +:+ exn_str e) in
      match context_of (last_five history) with
      | Err e => (Err (failed e), (s, sc.2))
      | Ok context =>
          match call_ollama cfg sha256 float_repr (context +:+ "User: " +:+ prompt +:+ NL +:+ NL +:+ "Assistant:") (Some system) max_tokens (s, sc.2) with
          | (Ok v, sc') => (Ok v, sc')
          | (Err e, sc') => (Err (failed e), sc')
          end
      end
  end.
Definition local_thinking := chat_mode THINKING_SYSTEM "Thinking".
Definition local_coding := chat_mode CODING_SYSTEM "Coding".
Definition generate_text := call_ollama cfg sha256 float_repr.
End chat.

(** ** The key of a reply *)

Lemma scan_raw c t : scanstring (raw_escape c +:+ t) = put_front (String c "") (scanstring t).
Proof. destruct c as [[] [] [] [] [] [] [] []]; reflexivity. Qed.
Lemma scan_raw_string s rest : scanstring (concat_map raw_escape s +:+ String DQUOTE rest) = Some (s, rest).
Proof. induction s as [|c s IH]; [done|]. cbn [concat_map]. rewrite app_string_assoc, scan_raw, IH. done. Qed.
Lemma raw_string_inj a b r1 r2 : raw_string a +:+ r1 = raw_string b +:+ r2 -> a = b /\ r1 = r2.
Proof.
  unfold raw_string. rewrite !app_string_cons, !app_string_assoc. intros H. injection H as H. apply (f_equal scanstring) in H.
  change (String DQUOTE "" +:+ r1) with (String DQUOTE r1) in H. change (String DQUOTE "" +:+ r2) with (String DQUOTE r2) in H.
  rewrite !scan_raw_string in H. by injection H as -> ->.
Qed.
Lemma str_int_inj a b r1 r2 : delimited r1 -> delimited r2 -> str_int a +:+ r1 = str_int b +:+ r2 -> a = b.
Proof. intros H1 H2 H. apply (f_equal scan_number) in H. rewrite !scan_number_print in H by done. by injection H as ->. Qed.

Lemma payload_inj cfg p s n p' s' n' : cache_payload cfg p s n = cache_payload cfg p' s' n' -> p = p' /\ default "" s = default "" s' /\ n = n'.
Proof.
  unfold cache_payload. intros H. apply app_string_inj_l in H. unfold join in H. cbn [String.concat] in H. rewrite !app_string_assoc in H.
  apply raw_string_inj in H as [_ H%app_string_inj_l]. apply raw_string_inj in H as [Hs H%app_string_inj_l].
  apply raw_string_inj in H as [Hp H%app_string_inj_l]. apply str_int_inj in H; [done|done|done].
Qed.

(** Two calls share a key of the cache exactly when they send the same
    prompt, the same system prompt (none and an empty one are the same) and
    the same limit, for a digest without collisions: whatever the prompts
    contain, the fields can not run into one another. *)
Theorem llm_cache_key_unambiguous cfg sha256 p s n p' s' n' : (forall a b, sha256 a = sha256 b -> a = b) ->
  _llm_cache_key cfg sha256 p s n = _llm_cache_key cfg sha256 p' s' n' <-> p = p' /\ default "" s = default "" s' /\ n = n'.
Proof.
  intros Hinj. unfold _llm_cache_key. split; [intros H%app_string_inj_l%Hinj; by eapply payload_inj|].
  intros (-> & Hs & ->). unfold cache_payload. by rewrite Hs.
Qed.

(** ** Calls *)

Section facts.
Context {S : Type} `{OllamaServer S} {R : Type} `{RedisServerLaws R}.
Variable cfg : ollama_config.
Variable sha256 : string -> string.
Variable float_repr : Q -> string.

(** A call fails with an HTTP error, or because its task was cancelled: a
    server that times out gives 504, any other failure 503 or 500. *)
Theorem call_ollama_errors p s n sc e sc' : call_ollama cfg sha256 float_repr p s n sc = (Err e, sc') -> is_http e = true \/ CancelledError e = true.
Proof.
  unfold call_ollama. destruct sc as [sv c]. destruct (_llm_cache_get _ _ _ _ _ c) as [[x|] c']; [done|].
  unfold _call_ollama_uncached. destruct (try_generate _ _ _ _ sv) as [[v|e'] s']; [done|]. intros [= <- _]. unfold ollama_failure.
  destruct (CancelledError e') eqn:Ec; [by right|]. destruct (is_timeout e'); [by left|]. destruct (is_http e') eqn:Eh; by left.
Qed.

(** Whether a reply was kept *)
Definition kept_reply (p : string) (s : option string) (n : Z) (reply : string) (c c' : CacheManager R) : Prop :=
  set_json float_repr (_llm_cache_key cfg sha256 p s n) (PDict [("response", PStr reply); ("model", PStr (OLLAMA_MODEL cfg))])
    (Some (llm_response_cache_ttl_seconds cfg)) c = (Ok true, c').

(** A reply that was kept is the answer to the same call, without asking
    the model again, until the server fails or the reply expires; then the
    call goes to the model. *)
Theorem model_reply_reused p s n p' s' n' reply c c' (sv : S) :
  connected c = true -> llm_response_cache_enabled cfg = true -> is_ascii reply = true -> is_ascii (OLLAMA_MODEL cfg) = true ->
  kept_reply p s n reply c c' -> p = p' -> default "" s = default "" s' -> n = n' ->
  let '(r, (sv', c'')) := call_ollama cfg sha256 float_repr p' s' n' (sv, c') in
  (r = Ok (PStr reply) /\ sv' = sv) \/
  (_llm_cache_get cfg sha256 p' s' n' c').1 = None /\
  ((exists x, (exec (Get (_llm_cache_key cfg sha256 p' s' n')) (server c')).1 = Err x) \/
   (time_of (server c) + inject_Z (effective_ttl (Some (llm_response_cache_ttl_seconds cfg)) c) <= time_of (server (_llm_cache_get cfg sha256 p' s' n' c').2))%Q).
Proof.
  intros Hc He Hr Hm Hk <- Hs <-. assert (_llm_cache_key cfg sha256 p s' n = _llm_cache_key cfg sha256 p s n) as Hkey
    by (unfold _llm_cache_key, cache_payload; by rewrite Hs).
  unfold call_ollama, _llm_cache_get. rewrite He, Hkey. cbn [negb]. destruct (get_json (_llm_cache_key cfg sha256 p s n) c') as [r m2] eqn:Eg.
  assert (json_safe (PDict [("response", PStr reply); ("model", PStr (OLLAMA_MODEL cfg))])) as Hsafe
    by (split; [apply (bool_decide_unpack _); by vm_compute|]; by repeat split).
  destruct (json_roundtrip _ _ _ _ _ _ _ _ Hc Hsafe Hk Eg) as [->|[-> Hlost]].
  - cbn [dict_get]. simpl. by left.
  - destruct (_call_ollama_uncached _ _ _ _ sv) as [[v|e] s2]; by right.
Qed.
End facts.

(** [/health] answers for a server that refuses, but not for one that can not be
    reached: what the connection raises is no HTTP error and leaves the route. *)
Theorem health_check_unreachable {S} `{OllamaServer S} cfg (s s' : S) e : api_tags s = (Err e, s') -> is_http e = false ->
  health_check cfg s = (Err e, s').
Proof. intros Ht Hh. unfold health_check, _ensure_ollama_ready, sbind at 1, _ollama_list_models, sbind at 1. rewrite Ht. by rewrite Hh. Qed.

(** The chat endpoints answer 500 for every failure of the model, also for the
    504 of a time-out and the 503 of a server that refuses. *)
Theorem chat_failure_is_500 {S} `{OllamaServer S} {R} `{RedisServer R} cfg sha256 float_repr atom_repr system mode p h n (sc sc' : S * CacheManager R) e :
  chat_mode cfg sha256 float_repr atom_repr system mode p h n sc = (Err e, sc') ->
  CancelledError e = true \/ e = HTTPException 503 "Ollama service not available" \/ exists m, e = HTTPException 500 (mode +:+ " mode failed: " +:+ m).
Proof.
  unfold chat_mode. destruct (check_ollama_health cfg sc.1) as [[[]|e0] s1] eqn:Eh.
  - destruct (context_of _ _) as [ctx|e1]; [destruct (call_ollama _ _ _ _ _ _ _) as [[v|e1] sc1]; [done|]|]; intros [= <- _];
      (destruct (CancelledError e1) eqn:Ec; [by left|right; right; by eexists]).
  - intros [= <- _]. right. by left.
  - intros [= <- _]. left. unfold check_ollama_health in Eh. destruct (_ensure_ollama_ready cfg sc.1) as [[st|e1] s2]; [done|].
    destruct (CancelledError e1) eqn:Ec; [by injection Eh as <- _|done].
Qed.

(** ** The specifications on concrete inputs *)

(** A server with its installed models, and whether it answers in time *)
Record demo_ollama := DemoOllama { do_models : list string; do_up : bool; do_slow : bool }.
#[export] Instance demo_ollama_server : OllamaServer demo_ollama := {
  api_tags s := (if do_up s then Ok (HttpReply 200 "" (Ok (PDict [("models", PList (map (fun m => PDict [("name", PStr m)]) (do_models s)))])))
                 else Err (PyExn "ConnectError" "connection refused"), s);
  api_pull m s := (Ok (HttpReply 200 "" (Ok (PDict []))), DemoOllama (m :: do_models s) (do_up s) (do_slow s));
  api_generate r s := (if do_slow s then Err (PyExn "ReadTimeout" "") else Ok (HttpReply 200 "" (Ok (PDict [("response", PStr "because of chlorophyll")]))), s) }.
Definition demo_config : ollama_config := OllamaConfig "http://ollama:11434" "qwen2.5:7b" true true 3600.
Definition demo_digest (s : string) : string := s.
Definition demo_model_cache : CacheManager redisd := Manager (Redisd ∅ 0 [(1%Q, None); (2%Q, None); (3%Q, None)]) true 3600.

(** The first call pulls the model and keeps the reply. *)
Definition demo_first : result pyexn pyval * (demo_ollama * CacheManager redisd) :=
  call_ollama demo_config demo_digest (fun _ => "") "why are leaves green?" None 64 (DemoOllama [] true false, demo_model_cache).
Lemma llm_cache_key_unambiguous_witness :
  _llm_cache_key demo_config demo_digest "a" (Some "b|c") 64 <> _llm_cache_key demo_config demo_digest "a|b" (Some "c") 64 /\
  _llm_cache_key demo_config demo_digest "a" None 64 = _llm_cache_key demo_config demo_digest "a" (Some "") 64.
Proof.
  split.
  - intros E. apply (llm_cache_key_unambiguous demo_config demo_digest) in E as (E & _); [discriminate E|intros a b Hab; exact Hab].
  - apply (llm_cache_key_unambiguous demo_config demo_digest); [intros a b Hab; exact Hab|done].
Defined.
Definition demo_before : CacheManager redisd := (_llm_cache_get demo_config demo_digest "why are leaves green?" None 64 demo_model_cache).2.
Lemma demo_kept : kept_reply demo_config demo_digest (fun _ => "") "why are leaves green?" None 64 "because of chlorophyll" demo_before demo_first.2.2.
Proof. vm_compute. reflexivity. Qed.
(** The second call is answered although the server is down. *)
Lemma model_reply_reused_witness :
  demo_first.1 = Ok (PStr "because of chlorophyll") /\
  (call_ollama demo_config demo_digest (fun _ => "") "why are leaves green?" (Some "") 64 (DemoOllama [] false true, demo_first.2.2)).1 = Ok (PStr "because of chlorophyll").
Proof.
  split; [vm_compute; reflexivity|].
  pose proof (model_reply_reused demo_config demo_digest (fun _ => "") "why are leaves green?" None 64 "why are leaves green?" (Some "") 64
    "because of chlorophyll" demo_before demo_first.2.2 (DemoOllama [] false true) eq_refl eq_refl eq_refl eq_refl demo_kept eq_refl eq_refl eq_refl) as H.
  destruct (call_ollama _ _ _ _ _ _ _) as [r [sv' c'']] eqn:E. destruct H as [[-> _]|[H _]]; [reflexivity|]. exfalso. revert H. vm_compute. discriminate.
Defined.
Lemma health_check_unreachable_witness :
  health_check demo_config (DemoOllama [] false false) = (Err (PyExn "ConnectError" "connection refused"), DemoOllama [] false false).
Proof. apply (health_check_unreachable demo_config (DemoOllama [] false false)); reflexivity. Defined.
Lemma call_ollama_errors_witness : exists e sc',
  call_ollama demo_config demo_digest (fun _ => "") "q" None 64 (DemoOllama [] true true, demo_model_cache) = (Err e, sc') /\
  (is_http e = true \/ CancelledError e = true).
Proof.
  eexists _, _. split; [vm_compute; reflexivity|].
  eapply (call_ollama_errors demo_config demo_digest (fun _ => "") "q" None 64 (DemoOllama [] true true, demo_model_cache)). vm_compute. reflexivity.
Defined.
