(* ===== verification/ResearchRoutes.v ===== *)
(** * The research routes

    document_processor/api/local_ai_routes_simple.py: the session of a research
    run, a dict that the background task and the cancel route share; the event
    callback that mirrors the pipeline of Research.v into it; its copies in
    Redis (Cache.v); what is written to the chat store when a run ends
    (QueryRecords.v); the routes; and the task of main.py that drops the queues
    of events.  Queues and streams are those of ThinkingRoutes.v.  A reading of
    the clock is a string argument. *)

From S2P Require Import Prelude PyStr PyVal PyConv Url Json Cache Mongo Storage ChatStore QueryRecords Language Thinking ThinkingRoutes ResearchPrompts Relevance Bm25 Research WebSearch Ollama.
From Stdlib Require Import Ascii.
#[local] Open Scope py_scope.
#[local] Open Scope Z_scope.

Abbreviation session := (list (string * pyval)).
Record ResearchRequest := ResearchReq {
  rq_topic : string; rq_depth : string; rq_use_translation : bool; rq_target_language : string;
  rq_chat_session_id : option string; rq_query_record_id : option string; rq_user_key : option string; rq_assistant_key : option string }.

(** ** Starting *)

(** What the route answers before it creates a session *)
Definition check_ready (model : string) (ready : result pyexn (bool * list pyval)) : result pyexn unit :=
  match ready with
  | Ok (true, _) => Ok ()
  | Ok (false, _) => Err (HTTPException 503 ("Ollama model '" +:+ model +:+ "' is not installed or could not be prepared."))
  | Err e => Err (if is_http e || CancelledError e then e else HTTPException 503 "Ollama service not available")
  end.
Definition new_session (rq : ResearchRequest) (session_id user_id now : string) : session :=
  [("session_id", PStr session_id); ("user_id", PStr user_id); ("topic", PStr (rq_topic rq)); ("depth", PStr (rq_depth rq));
   ("status", PStr "started"); ("progress", PInt 0); ("current_agent", PNone); ("current_task", PStr "Initializing research");
   ("started_at", PStr now); ("chat_session_id", opt_str (rq_chat_session_id rq)); ("query_record_id", opt_str (rq_query_record_id rq));
   ("user_message_idempotency_key", opt_str (rq_user_key rq)); ("assistant_message_idempotency_key", opt_str (rq_assistant_key rq));
   ("cancel_requested", PBool false)].
Definition start_research (model : string) (ready : result pyexn (bool * list pyval)) (rq : ResearchRequest) (session_id user_id now : string)
  : result pyexn session :=
  _ <-! check_ready model ready; Ok (new_session rq session_id user_id now).

(** ** The event callback *)

Definition phase_progress : list (string * Z) := [("planning", 15); ("gathering", 45); ("analyzing", 75); ("synthesizing", 95)].
Definition int_field (k : string) (ev : event) : Z := match sget k ev.2 with PInt z => z | _ => 0 end.
(** [d.setdefault(k, []).append(v)] *)
Definition append_to (k : string) (v : pyval) (s : session) : session :=
  dict_set k (PList (match dict_get k s with Some (PList l) => l ++ [v] | _ => [v] end)) s.
Definition pick (ks : list string) (ev : event) : pyval := PDict (map (fun k => (k, sget k ev.2)) ks).
Definition analyzing_progress (idx total : Z) : Z :=
  let total := Z.max 1 (if total =? 0 then 1 else total) in
  py_int (45 + 30 * py_min 1 (qdiv (idx + 1) total))%Q.
Definition on_event (now : string) (s : session) (ev : event) : session :=
  let phase := match sget "phase" ev.2 with PStr n => n | _ => "" end in
  if String.eqb ev.1 "phase_start" then
    let s := dict_set "current_phase" (PStr phase) (dict_set "current_task" (PStr ("Phase: " +:+ phase)) s) in
    update_phases phase (fun p => dict_set "started_at" (PStr now) (dict_set "status" (PStr "in_progress") p)) s
  else if String.eqb ev.1 "phase_complete" then
    let s := dict_set "progress" (PInt (default (progress_of s) (assoc phase phase_progress))) s in
    let s := dict_set "last_completed_phase" (PStr phase) s in
    let detail := sget "detail" ev.2 in
    update_phases phase (fun p => let p := dict_set "completed_at" (PStr now) (dict_set "status" (PStr "completed") p) in
                                  if truthy detail then dict_set "detail" detail p else p) s
  else if String.eqb ev.1 "phase_failed" then
    update_phases phase (fun p => dict_set "detail" (PDict [("error", sget "error" ev.2)])
      (dict_set "completed_at" (PStr now) (dict_set "status" (PStr "failed") p))) s
  else if String.eqb ev.1 "source_added" then
    append_to "live_sources" (pick ["id"; "url"; "title"; "domain"; "snippet"; "sub_question_index"] ev) s
  else if String.eqb ev.1 "sub_question" then append_to "sub_questions" (sget "question" ev.2) s
  else if String.eqb ev.1 "analyzing_source" then
    let idx := int_field "index" ev in
    let total := Z.max 1 (if int_field "total" ev =? 0 then 1 else int_field "total" ev) in
    dict_set "current_task" (PStr ("Analyzing source " +:+ str_int (idx + 1) +:+ "/" +:+ str_int total))
      (dict_set "progress" (PInt (analyzing_progress idx (int_field "total" ev))) s)
  else if String.eqb ev.1 "source_refined" then append_to "refined_ids" (sget "id" ev.2) s
  else s.

(** ** The background task *)

Definition run_begin (r : AdvancedResearcher) (s : session) : session :=
  let s := dict_set "current_phase" (PStr "planning") (dict_set "current_task" (PStr "Planning research")
             (dict_set "progress" (PInt 5) (dict_set "status" (PStr "in_progress") s))) in
  dict_set "phases" (PList (map (fun p => PDict [("name", PStr (ph_name p)); ("label", PStr (ph_label p)); ("status", PStr "pending")]) (phases r)))
    (dict_set "live_sources" (PList []) (dict_set "sub_questions" (PList []) s)).

Definition DEPTH_TIMEOUT : list (string * Z) := [("basic", 1800); ("medium", 3600); ("deep", 7200); ("expert", 10800); ("ultra", 18000)].
(** By the depth as the request has it *)
Definition timeout_seconds (depth : string) : Z := default 3600 (assoc depth DEPTH_TIMEOUT).
Definition timeout_message (depth : string) : string :=
  "Research exceeded the " +:+ depth +:+ " depth time budget (" +:+ str_int (timeout_seconds depth / 60) +:+ " min). The pipeline was stopped.".

(** [text.split("\n\n")] *)
Fixpoint split_blank (cur s : string) : list string :=
  match s with
  | EmptyString => [cur]
  | String a s' =>
      match s' with
      | String b s'' => if Ascii.eqb a "010" && Ascii.eqb b "010" then cur :: split_blank "" s'' else split_blank (cur +:+ String a "") s'
      | EmptyString => [cur +:+ String a ""]
      end
  end.
Definition first_para (markdown : string) : string :=
  default "" (List.find (fun p => negb (String.eqb p "") && negb (startswith "#" p)) (map (strip is_space) (split_blank "" markdown))).
Definition compat_source (s : source) : pyval :=
  PDict [("url", PStr (s_url s)); ("title", PStr (s_title s)); ("translated", PBool (s_translated s)); ("original_language", opt_str (s_language s))].
(** [researcher.run()] returned *)
Definition run_completed (r : AdvancedResearcher) (now : string) (s : session) : session :=
  let res := to_dict r in
  let s := dict_set "current_phase" PNone (dict_set "current_task" PNone (dict_set "progress" (PInt 100) (dict_set "status" (PStr "completed") s))) in
  let s := dict_set "query" (sget "query" res) s in
  let s := dict_set "sub_questions" (sget "sub_questions" res) s in
  let s := dict_set "phases" (sget "phases" res) s in
  let s := dict_set "citations" (sget "citations" res) s in
  let s := dict_set "report_markdown" (sget "report_markdown" res) s in
  let s := dict_set "confidence" (sget "confidence" res) s in
  let s := dict_set "translated" (sget "translated_any" res) s in
  let s := dict_set "depth" (sget "depth" res) s in
  let s := dict_set "completed_at" (PStr now) s in
  let s := dict_set "summary" (PStr (first_para (report_markdown r))) s in
  dict_set "sources" (PList (map compat_source (sources r))) s.
Definition run_ended_with (status error : string) (s : session) : session := dict_set "error" (PStr error) (dict_set "status" (PStr status) s).

(** How [asyncio.wait_for(researcher.run(), ...)] ends *)
Inductive ending := Returned_ (r : AdvancedResearcher) | TimedOut | TaskCancelled | RunRaised (x : pyexn).
Definition run_end (depth : string) (en : ending) (now : string) (s : session) : session :=
  match en with
  | Returned_ r => run_completed r now s
  | TimedOut => run_ended_with "failed" (timeout_message depth) s
  | TaskCancelled => run_ended_with "cancelled" "Cancelled by user." s
  | RunRaised x => run_ended_with "failed" (exn_str x) s
  end.

(** ** The routes *)

Record user := User_ { u_id : string; u_role : string }.
Definition _require_owner (s : session) (u : user) : result pyexn unit :=
  let owner := sget "user_id" s in
  if truthy owner && negb (bool_decide (owner = PStr (u_id u))) && negb (String.eqb (u_role u) "admin") then Err not_found else Ok ().
(** The answer ([cancelled]) and the session *)
Definition cancel_research (o : option session) (u : user) (now : string) : result pyexn bool * option session :=
  match o with
  | None => (Err not_found, None)
  | Some s =>
      match _require_owner s u with
      | Err x => (Err x, Some s)
      | Ok _ =>
          if is_in (status_of s) TERMINAL then (Ok false, Some s)
          else (Ok true, Some (dict_set "completed_at" (PStr now) (dict_set "error" (PStr "Cancelled by user.")
                                 (dict_set "cancel_requested" (PBool true) (dict_set "status" (PStr "cancelled") s)))))
      end
  end.
(** The fields of an answer, with what stands for a missing one *)
Definition fields_of (fs : list (string * pyval)) (s : session) : session := map (fun kd => (kd.1, default kd.2 (dict_get kd.1 s))) fs.
Definition RESULT_FIELDS : list (string * pyval) :=
  [("summary", PStr ""); ("findings", PList []); ("analysis", PStr ""); ("report_markdown", PStr ""); ("citations", PList []); ("sources", PList []);
   ("confidence", PInt 0); ("translated", PBool false); ("depth", PStr "standard"); ("query", PStr "")].
Definition STATUS_FIELDS : list (string * pyval) :=
  [("current_agent", PNone); ("current_task", PNone); ("current_phase", PNone); ("phases", PList []); ("sub_questions", PList []);
   ("live_sources", PList []); ("topic", PNone); ("depth", PStr "standard")].
(** [session["status"]] and [session["progress"]] are there in every session
    this file makes *)
Definition get_research_status (session_id : string) (o : option session) (u : user) : result pyexn session :=
  match o with
  | None => Err not_found
  | Some s =>
      _ <-! _require_owner s u;
      let base := [("session_id", PStr session_id); ("status", status_of s); ("progress", sget "progress" s)] ++ fields_of STATUS_FIELDS s in
      Ok (if bool_decide (status_of s = PStr "completed") then dict_update base (fields_of RESULT_FIELDS s)
          else if bool_decide (status_of s = PStr "failed") then dict_set "error" (default (PStr "Unknown error") (dict_get "error" s)) base
          else base)
  end.
Definition status_text (v : pyval) : string := match v with PStr s => s | _ => "" end.
Definition get_research_result (o : option session) (u : user) : result pyexn session :=
  match o with
  | None => Err not_found
  | Some s =>
      _ <-! _require_owner s u;
      if bool_decide (status_of s = PStr "completed") then Ok (fields_of (RESULT_FIELDS ++ [("phases", PList []); ("sub_questions", PList [])]) s)
      else Err (HTTPException 400 ("Research not completed yet (status: " +:+ status_text (status_of s) +:+ ")"))
  end.

(** ** Copies in Redis *)

Definition _session_cache_key (session_id : string) : string := "local_ai_research_session:" +:+ session_id.
Section storage.
Context {R : Type} `{RedisServer R}.
Variable float_repr : Q -> string.
Definition _persist_session (session_id : string) (s : session) (c : CacheManager R) : CacheManager R :=
  (set_json float_repr (_session_cache_key session_id) (PDict s) (Some 7200) c).2.
(** The sessions of this process first; a copy from Redis is kept there *)
Definition _load_session (session_id : string) (hot : gmap string session) (c : CacheManager R) : option session * gmap string session * CacheManager R :=
  match hot !! session_id with
  | Some (x :: s) => (Some (x :: s), hot, c)
  | _ =>
      match get_json (_session_cache_key session_id) c with
      | (Ok (Some (PDict s)), c) => (Some s, <[session_id := s]> hot, c)
      | (_, c) => (None, hot, c)
      end
  end.
End storage.

(** ** What is written to the chat store *)

Section persistence.
Context {M : Type} `{Mongo M}.
#[local] Open Scope io_scope.
Definition link_record (rq : ResearchRequest) (session_id : string) (now : Q) : io M unit :=
  link_research_record (rq_query_record_id rq) session_id now.
Definition list_of (v : pyval) : list pyval := match v with PList l => l | _ => [] end.
Definition session_snapshot (s : session) : pyval :=
  let text k := PStr (or_str (str_of (sget k s)) "") in
  let items k := default (PList []) (dict_get k s) in
  PDict [("query", text "topic"); ("depth", default (PStr "medium") (dict_get "depth" s)); ("phases", items "phases"); ("sub_questions", items "sub_questions");
         ("citations", items "citations"); ("sources", items "sources"); ("report_markdown", text "report_markdown"); ("summary", text "summary");
         ("confidence", sget "confidence" s); ("translated", default (PBool false) (dict_get "translated" s)); ("live_sources", items "live_sources")].
Definition persist_run (s : session) (now : Q) (oid1 oid2 : string) : io M unit :=
  let field k := str_of (sget k s) in
  persist_user_message (field "chat_session_id") (field "user_id") None (or_str (field "topic") "") (field "user_message_idempotency_key") now oid1 ;;
  persist_assistant_message (field "chat_session_id") (field "user_id") None (or_str (field "report_markdown") "") "local-ai-research" "research"
    (Some [("research", session_snapshot s)]) (field "assistant_message_idempotency_key") now oid2 ;;
  mark_query_completed (field "query_record_id") (Some (or_str (field "report_markdown") "")) (Some (list_of (sget "citations" s))) None now now.
Definition persist_end (en : ending) (s : session) (now : Q) (oid1 oid2 : string) : io M unit :=
  match en with
  | Returned_ _ => persist_run s now oid1 oid2
  | TaskCancelled => mark_query_cancelled (str_of (sget "query_record_id" s)) "Cancelled by user." now now
  | _ => mark_query_failed (str_of (sget "query_record_id" s)) (or_str (str_of (sget "error" s)) "") now now
  end.
Definition cancel_record (s : session) (now : Q) : io M unit := mark_query_cancelled (str_of (sget "query_record_id" s)) "Cancelled by user." now now.
End persistence.

(** ** The sweeper of main.py *)

(** One round: the queues of the thinking sessions, then those of the research
    sessions; what raises ends the round with a warning *)
Definition _sse_queue_sweeper (thinking research : gmap string (list sse_event)) (load_t load_r : string -> option session)
  : gmap string (list sse_event) * gmap string (list sse_event) :=
  let '(rt, thinking') := sweep_stale_event_queues thinking load_t in
  match rt with
  | Err _ => (thinking', research)
  | Ok _ => (thinking', (sweep_stale_event_queues research load_r).2)
  end.

(** ** The run a session makes *)

Definition to_translation (it : item) : translation :=
  Translated (Some (it_url it)) (str_of (it_content it)) (bool_decide (it_translated it = Some true)) (v ← it_language it; str_of v).
(** The pipeline over the search, the scraper and the translation of
    WebSearch.v *)
Record web := Web {
  w_engines : engines; w_summary : string -> string -> result pyexn (Z * pyval); w_extract : string -> string -> result pyexn (Z * pyval);
  w_arxiv : string -> result pyexn (Z * (option string * option string)); w_fetch : string -> Z -> result pyexn (Z * string);
  w_trafilatura : option (string -> result pyexn (option string)); w_soup : string -> result pyexn string;
  w_detect : list Z -> result pyexn (Z * pyval); w_translate : string -> pyval -> pyval -> result pyexn (Z * pyval) }.
Section task.
Variable llm : string -> string -> Z -> result pyexn string.
Variable w : web.
Variable gate : option gate_settings.
Variable bracketed_ok : string -> bool.
Variable log10 : Z -> Q.
Variable finish_order : list source -> list source.

Definition research_pipeline (rq : ResearchRequest) : result pyexn AdvancedResearcher * list event :=
  run llm (search_web (w_engines w))
    (scrape_multiple_urls (w_summary w) (w_extract w) (w_arxiv w) (w_fetch w) (w_trafilatura w) (w_soup w))
    (if rq_use_translation rq
     then Some (fun items => its <-! _translate_batch_for_research (w_detect w) (w_translate w) items (rq_target_language rq); Ok (map to_translation its))
     else None)
    gate bracketed_ok log10 finish_order (new_researcher (Some (rq_topic rq)) (Some (rq_depth rq))).
(** The times at which the callback runs *)
Definition stamp (clock : nat -> string) (evs : list event) : list (string * event) := imap (fun i ev => (clock i, ev)) evs.
Definition follow (s : session) (evs : list (string * event)) : session := foldl (fun s te => on_event te.1 s te.2) s evs.
(** What stops the task before its pipeline ends, and after how many of its
    events: the time limit or a cancellation; [RunsOn]: nothing *)
Inductive stop := RunsOn | TimeLimit (n : nat) | CancelledAfter (n : nat).
Definition run_outcome (o : result pyexn AdvancedResearcher) : ending :=
  match o with Ok r => Returned_ r | Err e => if CancelledError e then TaskCancelled else RunRaised e end.
(** The session after the events and the end of the task; of a pipeline that
    raises only the last event is followed *)
Definition execute_advanced_research (rq : ResearchRequest) (clock : nat -> string) (st : stop) (now : string) (s : session) : session :=
  let s := run_begin (new_researcher (Some (rq_topic rq)) (Some (rq_depth rq))) s in
  let p := research_pipeline rq in
  let evs := stamp clock (match p with (Ok r, _) => events r | (Err _, evs) => evs end) in
  match st with
  | RunsOn => run_end (rq_depth rq) (run_outcome p.1) now (follow s evs)
  | TimeLimit n => run_end (rq_depth rq) TimedOut now (follow s (take n evs))
  | CancelledAfter n => run_end (rq_depth rq) TaskCancelled now (follow s (take n evs))
  end.
End task.

(** ** The session mirrors the run *)

Lemma progress_begin r s : progress_of (run_begin r s) = 5.
Proof. unfold run_begin, progress_of. by sread. Qed.

(** The progress an event sets, if it sets any *)
Definition mark (ev : event) : list Z :=
  if String.eqb ev.1 "phase_complete" then
    match assoc (match sget "phase" ev.2 with PStr n => n | _ => "" end) phase_progress with Some z => [z] | None => [] end
  else if String.eqb ev.1 "analyzing_source" then [analyzing_progress (int_field "index" ev) (int_field "total" ev)]
  else [].
Definition marks (evs : list event) : list Z := flat_map mark evs.
Lemma marks_app a b : marks (a ++ b) = marks a ++ marks b.
Proof. apply flat_map_app. Qed.

Lemma sget_update k n f s : k <> "phases" -> sget k (update_phases n f s) = sget k s.
Proof. intros Hk. unfold update_phases. case_match; try done. by apply sget_set_ne. Qed.
Lemma progress_other k v s : k <> "progress" -> progress_of (dict_set k v s) = progress_of s.
Proof. intros Hk. unfold progress_of. by rewrite sget_set_ne. Qed.
Lemma progress_phases n f s : progress_of (update_phases n f s) = progress_of s.
Proof. unfold progress_of. by rewrite sget_update. Qed.
Lemma progress_exact z s : progress_of (dict_set "progress" (PInt z) s) = z.
Proof. unfold progress_of. by rewrite sget_set_eq. Qed.
Lemma progress_mark now s ev : progress_of (on_event now s ev) = default (progress_of s) (last (mark ev)).
Proof.
  unfold on_event, mark. destruct (String.eqb_spec ev.1 "phase_start") as [E|_]; [rewrite ?E; by rewrite progress_phases, !progress_other|].
  destruct (String.eqb ev.1 "phase_complete").
  { rewrite progress_phases, progress_other, progress_exact by done. by destruct (assoc _ _). }
  destruct (String.eqb_spec ev.1 "phase_failed") as [E|_]; [rewrite ?E; by rewrite progress_phases|].
  destruct (String.eqb_spec ev.1 "source_added") as [E|_]; [rewrite ?E; unfold append_to; by rewrite progress_other|].
  destruct (String.eqb_spec ev.1 "sub_question") as [E|_]; [rewrite ?E; unfold append_to; by rewrite progress_other|].
  destruct (String.eqb ev.1 "analyzing_source"); [by rewrite progress_other, progress_exact|].
  destruct (String.eqb_spec ev.1 "source_refined") as [E|_]; [rewrite ?E; unfold append_to; by rewrite progress_other|done].
Qed.
Lemma progress_marks now evs s : progress_of (foldl (on_event now) s evs) = default (progress_of s) (last (marks evs)).
Proof.
  revert s. induction evs as [|ev evs IH]; intros s; simpl; [done|]. rewrite IH, progress_mark.
  destruct (marks evs) as [|z l] eqn:E; [by rewrite app_nil_r|]. rewrite last_app. by destruct (last (z :: l)) eqn:El; [|apply last_None in El].
Qed.

(** *** The progress a run sets *)

Lemma marks_none (evs : list event) : Forall (fun ev => ev.1 <> "phase_complete" /\ ev.1 <> "analyzing_source") evs -> marks evs = [].
Proof.
  induction 1 as [|ev evs [H1 H2] _ IH]; [done|]. unfold marks. simpl. fold (marks evs). rewrite IH. unfold mark.
  by rewrite (proj2 (String.eqb_neq _ _) H1), (proj2 (String.eqb_neq _ _) H2).
Qed.
Lemma marks_none_map {A} (f : A -> event) t l : (forall x, (f x).1 = t) -> t <> "phase_complete" -> t <> "analyzing_source" -> marks (map f l) = [].
Proof. intros Hf H1 H2. apply marks_none, Forall_map_iff, Forall_forall. intros x _. by rewrite Hf. Qed.
Lemma marks_start name d r : marks (events (_start_phase name d r)) = marks (events r).
Proof. unfold _start_phase, _emit. cbn [events set_phases]. rewrite marks_app. by rewrite app_nil_r. Qed.
Lemma marks_complete name d z r : assoc name phase_progress = Some z -> marks (events (_complete_phase name d r)) = marks (events r) ++ [z].
Proof.
  intros Hz. unfold _complete_phase, _emit. cbn [events set_phases]. rewrite marks_app. f_equal. unfold marks, mark. cbn -[assoc]. by rewrite Hz.
Qed.
Lemma marks_emit_all evs r : marks (events (emit_all evs r)) = marks (events r) ++ marks evs.
Proof. rewrite emit_all_eq. cbn [events]. apply marks_app. Qed.

Lemma marks_plan llm r r' : plan llm r = Ok r' -> marks (events r') = marks (events r) ++ [15].
Proof.
  unfold plan. destruct (or_else _ _) as [raw|]; [|done]. cbn [rbind]. intros [= <-]. rewrite (marks_complete _ _ 15) by done. f_equal.
  rewrite marks_emit_all, (marks_none_map _ "sub_question") by done. rewrite app_nil_r.
  change (events (set_sub_questions ?q ?r0)) with (events r0). apply marks_start.
Qed.
Lemma marks_search web_search b i qs r x : search_questions web_search b i qs r = Ok x -> marks (events x.2) = marks (events r).
Proof.
  revert i r x. induction qs as [|q qs IH]; intros i r x; simpl; [by intros [= <-]|]. destruct (search_variants _ _ _ _ _) as [f|]; [|done]. simpl.
  destruct (search_questions _ _ _ _ _) as [y|] eqn:E; [|done]. simpl. intros [= <-]. simpl. apply IH in E. rewrite E. cbn [_emit events].
  rewrite !marks_app. by rewrite !app_nil_r.
Qed.
Lemma marks_translate tr ss r x : translate_sources tr ss r = Ok x -> marks (events x.2) = marks (events r).
Proof.
  unfold translate_sources. destruct tr as [f|]; [|by intros [= <-]]. destruct ss as [|s0 ss]; [by intros [= <-]|]. destruct (or_else _ _) as [ts|]; [|done].
  cbn [rbind]. intros [= <-]. cbn [snd set_translated _emit events]. rewrite marks_app. by rewrite app_nil_r.
Qed.
Lemma marks_gather ws sc tr ok r r' : gather ws sc tr ok r = Ok r' ->
  marks (events r') = marks (events r) ++ [45] \/ marks (events r') = marks (events r).
Proof.
  unfold gather. destruct (search_questions _ _ _ _ _) as [f|] eqn:Es; [|done]. cbn [rbind]. apply marks_search in Es.
  rewrite marks_start in Es. destruct (unique_urls _ _ _) as [|u us].
  - intros [= <-]. right. cbn [set_sources events _fail_phase _emit set_phases]. rewrite marks_app, Es. by rewrite app_nil_r.
  - destruct (or_else _ _) as [pages|]; [|done]. cbn [rbind]. destruct (build_sources _ _ _ _) as [ss|]; [|done]. cbn [rbind].
    destruct (translate_sources _ _ _) as [t|] eqn:Et; [|done]. cbn [rbind]. intros [= <-]. left. rewrite (marks_complete _ _ 45) by done. f_equal.
    cbn [set_sources events]. apply marks_translate in Et. rewrite Et, marks_emit_all, (marks_none_map _ "source_added") by done.
    rewrite app_nil_r. cbn [_emit events]. rewrite marks_app, Es. by rewrite app_nil_r.
Qed.
Lemma marks_gate g ok lg r : marks (events (_apply_relevance_filter g ok lg r)) = marks (events r).
Proof.
  unfold _apply_relevance_filter. destruct g; [|done]. destruct (sources r); [done|]. destruct (negb _); [done|]. destruct (filter_sources _ _ _ _ _ _ _); [|done].
  cbn [set_sources events _emit]. rewrite marks_app. by rewrite app_nil_r.
Qed.
Lemma marks_synthesize llm lg r r' : synthesize llm lg r = Ok r' -> marks (events r') = marks (events r) ++ [95].
Proof.
  assert (forall md c d r0, marks (events (finish_report md c d r0)) = marks (events r0) ++ [95]) as Hf.
  { intros md c d r0. unfold finish_report. rewrite (marks_complete _ _ 95) by done. f_equal. cbn [_emit events set_report]. rewrite marks_app. by rewrite app_nil_r. }
  unfold synthesize. destruct (sources _); [intros [= <-]; by rewrite Hf, marks_start|]. destruct (or_else _ _) as [raw|]; [|done]. cbn [rbind].
  intros [= <-]. by rewrite Hf, marks_start.
Qed.

(** Ascending, and within bounds *)
Definition rising (lo hi : Z) (l : list Z) : Prop := StronglySorted Z.le l /\ Forall (fun z => lo <= z <= hi) l.
Lemma rising_nil lo hi : rising lo hi [].
Proof. split; constructor. Qed.
Lemma rising_one lo hi z : lo <= z <= hi -> rising lo hi [z].
Proof. intros H. split; repeat constructor; lia. Qed.
Lemma rising_app lo mid hi a b : lo <= mid <= hi -> rising lo mid a -> rising mid hi b -> rising lo hi (a ++ b).
Proof.
  intros Hm [Sa Fa] [Sb Fb]. split.
  - induction Sa as [|x a Sa IH Hx]; [done|]. apply Forall_cons in Fa as [Hxm Fa]. simpl. constructor; [by apply IH|].
    apply Forall_app. split; [done|]. eapply Forall_impl; [exact Fb|]. simpl. intros z Hz. lia.
  - apply Forall_app. split; eapply Forall_impl; [exact Fa| |exact Fb|]; simpl; intros z Hz; lia.
Qed.

Lemma analyzing_value i total : 0 <= i -> 1 <= total ->
  45 <= analyzing_progress i total <= 75 /\ (forall j, i <= j -> analyzing_progress i total <= analyzing_progress j total).
Proof.
  intros Hi Ht. unfold analyzing_progress. replace (Z.max 1 (if total =? 0 then 1 else total)) with total by (destruct (Z.eqb_spec total 0); lia).
  assert (forall k, 0 <= k -> (0 <= py_min 1 (qdiv (k + 1) total))%Q) as Hpos.
  { intros k Hk. apply py_min_glb; [lra|]. unfold qdiv. apply Qle_shift_div_l; [unfold Qlt, inject_Z; simpl; lia|]. unfold Qle, inject_Z. simpl. lia. }
  assert (forall k, (py_min 1 (qdiv (k + 1) total) <= 1)%Q) as Hle by (intros k; apply py_min_le_l).
  assert (forall k, 0 <= k -> py_int (45 + 30 * py_min 1 (qdiv (k + 1) total)) = Qfloor (45 + 30 * py_min 1 (qdiv (k + 1) total))) as Hfl
    by (intros k Hk; apply py_int_floor; specialize (Hpos k Hk); lra).
  split.
  - rewrite Hfl by done. split.
    + apply (Z.le_trans _ (Qfloor 45)); [done|]. apply Qfloor_resp_le. specialize (Hpos i Hi). lra.
    + apply (Z.le_trans _ (Qfloor 75)); [|done]. apply Qfloor_resp_le. specialize (Hle i). lra.
  - intros j Hj. rewrite !Hfl by lia. apply Qfloor_resp_le. assert (qdiv (i + 1) total <= qdiv (j + 1) total)%Q as Hq.
    { unfold qdiv. apply Qmult_le_compat_r; [rewrite <- Zle_Qle; lia|]. apply Qinv_le_0_compat. unfold Qle, inject_Z. simpl. lia. }
    assert (py_min 1 (qdiv (i + 1) total) <= py_min 1 (qdiv (j + 1) total))%Q as Hm.
    { apply py_min_glb; [apply py_min_le_l|]. eapply Qle_trans; [apply py_min_le_r|exact Hq]. }
    lra.
Qed.

Lemma marks_analyzing total l : 1 <= total -> rising 45 75 (marks (map (analyzing_source total) (enumerate l))).
Proof.
  intros Ht. assert (forall k (l : list source), marks (map (analyzing_source total) (zip (seq k (length l)) l))
    = map (fun i => analyzing_progress (Z.of_nat i + 1) total) (seq k (length l))) as Hm.
  { intros k l'. revert k. induction l' as [|s l' IH]; intros k; [done|]. cbn -[analyzing_progress]. unfold marks in IH. rewrite IH. done. }
  unfold enumerate. rewrite Hm. generalize 0%nat as k. induction l as [|s l IH]; intros k; simpl; [apply rising_nil|].
  destruct (IH (S k)) as [Ss Fs]. destruct (analyzing_value (Z.of_nat k + 1) total) as [Hb Hmono]; [lia|done|]. split.
  - constructor; [done|]. apply Forall_map_iff, Forall_forall. intros i Hi. apply elem_of_seq in Hi. apply Hmono. lia.
  - by constructor.
Qed.
Lemma marks_analyze llm fo r r' : analyze llm fo r = Ok r' -> exists l, marks (events r') = marks (events r) ++ l ++ [75] /\ rising 45 75 l.
Proof.
  unfold analyze. destruct (sources _) as [|s ss] eqn:Es.
  - intros [= <-]. exists []. rewrite (marks_complete _ _ 75), marks_start by done. split; [done|apply rising_nil].
  - destruct (process_all _ _ _) as [ss'|]; [|done]. cbn [rbind]. intros [= <-]. exists (marks (map (analyzing_source (zlength (s :: ss))) (enumerate (fo (s :: ss))))).
    rewrite (marks_complete _ _ 75), marks_emit_all, (marks_none_map _ "source_refined") by done. rewrite app_nil_r.
    change (events (set_sources ?q ?r0)) with (events r0). rewrite marks_emit_all, marks_start, <- app_assoc. split; [done|].
    apply marks_analyzing. rewrite zlength_cons. pose proof (zlength_nonneg ss). lia.
Qed.

Lemma marks_run llm ws sc tr g ok lg fo r r' evs : marks (events r) = [] -> run llm ws sc tr g ok lg fo r = (Ok r', evs) -> rising 15 95 (marks (events r')).
Proof.
  intros H0. unfold run, phases_in_order. destruct (plan llm r) as [r1|] eqn:E1; [|done]. cbn [rbind]. destruct (gather _ _ _ _ r1) as [r2|] eqn:E2; [|done]. cbn [rbind].
  destruct (analyze _ _ _) as [r3|] eqn:E3; [|done]. cbn [rbind]. destruct (synthesize _ _ _) as [r4|] eqn:E4; [|done]. cbn [rbind]. intros [= <- _].
  apply marks_plan in E1. apply marks_gather in E2. apply marks_analyze in E3 as (l & E3 & Hl). apply marks_synthesize in E4. rewrite marks_gate in E3.
  cbn [_emit events]. rewrite marks_app, E4, E3. change (marks [("done", [])]) with (@nil Z). rewrite app_nil_r. rewrite <- !app_assoc.
  assert (rising 45 95 (l ++ [75] ++ [95])) as Ht.
  { apply (rising_app 45 75 95); [lia|done|]. apply (rising_app 75 75 95); [lia|by apply rising_one|by apply rising_one]. }
  destruct E2 as [E2|E2]; rewrite E2, E1, H0.
  - apply (rising_app 15 45 95); [lia| |done]. apply (rising_app 15 15 45); [lia|by apply rising_one|by apply rising_one].
  - apply (rising_app 15 45 95); [lia| |done]. by apply rising_one.
Qed.

Lemma rising_last lo hi a b : rising lo hi (a ++ b) -> 5 <= lo -> lo <= hi -> 5 <= default 5 (last a) <= default 5 (last (a ++ b)) /\ default 5 (last (a ++ b)) <= hi.
Proof.
  intros [Ss Fs] Hlo Hhi. assert (forall l : list Z, l = [] \/ exists z l', l = l' ++ [z]) as Hsnoc
    by (intros l; induction l as [|x l _] using rev_ind; [by left|right; by eexists _, _]).
  apply Forall_app in Fs as [Fa Fb]. rewrite last_app. destruct (Hsnoc a) as [->|(x & a' & ->)]; destruct (Hsnoc b) as [->|(y & b' & ->)];
    rewrite ?last_snoc; simpl.
  - lia.
  - apply Forall_app in Fb as [_ Fy]. inversion Fy; subst. lia.
  - apply Forall_app in Fa as [_ Fx]. inversion Fx; subst. lia.
  - apply Forall_app in Fa as [_ Fx]. apply Forall_app in Fb as [_ Fy]. inversion Fx; inversion Fy; subst.
    assert (x <= y); [|lia]. rewrite <- app_assoc in Ss. assert (StronglySorted Z.le ([x] ++ b' ++ [y])) as Hxy.
    { clear -Ss. induction a' as [|z a' IH]; [done|]. simpl in Ss. inversion Ss; subst. by apply IH. }
    simpl in Hxy. inversion Hxy as [|? ? _ Hf]; subst. apply Forall_app in Hf as [_ Hf]. by inversion Hf.
Qed.

Lemma rising_take lo hi a b : rising lo hi (a ++ b) -> rising lo hi a.
Proof.
  intros [Ss Fs]. apply Forall_app in Fs as [Fa _]. split; [|done]. induction a as [|x a IH]; [constructor|]. simpl in Ss. inversion Ss as [|? ? Ss' Hf]; subst.
  apply Forall_app in Hf as [Hf _]. apply Forall_cons in Fa as [_ Fa]. constructor; [by apply IH|done].
Qed.

(** C22: the progress a client reads during a run that returns never goes back:
    after any part of the run's events it is between 5 and 95, and no more
    than after any longer part. *)
Theorem research_progress_rises llm ws sc tr g ok lg fo q d r' evs s now seen next later :
  run llm ws sc tr g ok lg fo (new_researcher q d) = (Ok r', evs) -> events r' = seen ++ next ++ later ->
  let at_ es := progress_of (foldl (on_event now) (run_begin (new_researcher q d) s) es) in
  5 <= at_ seen <= at_ (seen ++ next) /\ at_ (seen ++ next) <= 95.
Proof.
  intros Hrun Hsplit. cbv zeta beta. rewrite !progress_marks, progress_begin, marks_app. apply (rising_last 15); [|lia|lia].
  apply marks_run in Hrun; [|done]. rewrite Hsplit, (assoc_L (++)), !marks_app in Hrun. by apply rising_take in Hrun.
Qed.

(** ** A session and its run *)

Section mirrors.
Variable llm : string -> string -> Z -> result pyexn string.
Variable w : web.
Variable gate : option gate_settings.
Variable bracketed_ok : string -> bool.
Variable log10 : Z -> Q.
Variable finish_order : list source -> list source.
Definition llm_uncancelled_ : Prop := forall p s n, calm (llm p s n).

Lemma pipeline_uncancelled rq : llm_uncancelled_ -> translate_uncancelled (w_detect w) (w_translate w) ->
  uncancelled llm (search_web (w_engines w))
    (scrape_multiple_urls (w_summary w) (w_extract w) (w_arxiv w) (w_fetch w) (w_trafilatura w) (w_soup w))
    (if rq_use_translation rq
     then Some (fun items => its <-! _translate_batch_for_research (w_detect w) (w_translate w) items (rq_target_language rq); Ok (map to_translation its))
     else None).
Proof.
  intros Hl Ht. split_and!; [intros p s n; apply Hl|done|done|]. destruct (rq_use_translation rq); [|done]. intros f ps e [= <-].
  destruct (batch_ok _ _ Ht (rq_target_language rq) ps) as (its & -> & _). done.
Qed.
Lemma pipeline_ok rq : llm_uncancelled_ -> translate_uncancelled (w_detect w) (w_translate w) -> urls_parse (search_web (w_engines w)) bracketed_ok ->
  exists r, research_pipeline llm w gate bracketed_ok log10 finish_order rq = (Ok r, []).
Proof.
  intros Hl Ht Hu. destruct (run_spec _ _ _ _ gate bracketed_ok log10 finish_order (pipeline_uncancelled rq Hl Ht) Hu (Some (rq_topic rq)) (Some (rq_depth rq)))
    as (r & st & H & _). by exists r.
Qed.

Lemma event_keeps now s ev k : k ∉ ["current_phase"; "current_task"; "phases"; "progress"; "last_completed_phase"; "live_sources"; "sub_questions"; "refined_ids"] ->
  sget k (on_event now s ev) = sget k s.
Proof.
  intros Hk. rewrite !not_elem_of_cons in Hk. destruct Hk as (H1 & H2 & H3 & H4 & H5 & H6 & H7 & H8 & _). unfold on_event, append_to.
  repeat match goal with |- context [if String.eqb ev.1 ?t then _ else _] => destruct (String.eqb ev.1 t) end;
    rewrite ?sget_update, ?sget_set_ne by congruence; done.
Qed.
Lemma follow_keeps tes s k : k ∉ ["current_phase"; "current_task"; "phases"; "progress"; "last_completed_phase"; "live_sources"; "sub_questions"; "refined_ids"] ->
  sget k (follow s tes) = sget k s.
Proof. intros Hk. unfold follow. revert s. induction tes as [|te tes IH]; intros s; simpl; [done|]. by rewrite IH, event_keeps. Qed.
Lemma events_keep now evs s k : k ∉ ["current_phase"; "current_task"; "phases"; "progress"; "last_completed_phase"; "live_sources"; "sub_questions"; "refined_ids"] ->
  sget k (foldl (on_event now) s evs) = sget k s.
Proof. intros Hk. revert s. induction evs as [|ev evs IH]; intros s; simpl; [done|]. by rewrite IH, event_keeps. Qed.
Lemma stamp_events clock evs : (stamp clock evs).*2 = evs.
Proof. unfold stamp. rewrite fmap_imap. revert clock. induction evs as [|ev evs IH]; intros clock; [done|]. rewrite imap_cons. simpl. f_equal. apply (IH (fun i => clock (S i))). Qed.
End mirrors.

(** *** What the events say *)

(** The sub-questions and the sources announced, in order *)
Definition asked (evs : list event) : list pyval := flat_map (fun ev => if String.eqb ev.1 "sub_question" then [sget "question" ev.2] else []) evs.
Definition added (evs : list event) : list pyval :=
  flat_map (fun ev => if String.eqb ev.1 "source_added"
                      then [PDict [("id", sget "id" ev.2); ("url", sget "url" ev.2); ("title", sget "title" ev.2); ("domain", sget "domain" ev.2);
                                   ("snippet", sget "snippet" ev.2); ("sub_question_index", sget "sub_question_index" ev.2)]]
                      else []) evs.
(** The state of a phase after the last event about it *)
Definition phase_step (name st : string) (ev : event) : string :=
  if bool_decide (sget "phase" ev.2 = PStr name) then
    if String.eqb ev.1 "phase_start" then "in_progress" else if String.eqb ev.1 "phase_complete" then "completed"
    else if String.eqb ev.1 "phase_failed" then "failed" else st
  else st.
Definition phase_status (name : string) (evs : list event) : string := foldl (phase_step name) "pending" evs.
Definition PHASE_NAMES : list string := ["planning"; "gathering"; "analyzing"; "synthesizing"].
Lemma asked_app a b : asked (a ++ b) = asked a ++ asked b.
Proof. apply flat_map_app. Qed.
Lemma added_app a b : added (a ++ b) = added a ++ added b.
Proof. apply flat_map_app. Qed.
Lemma phase_status_app n a b : phase_status n (a ++ b) = foldl (phase_step n) (phase_status n a) b.
Proof. apply foldl_app. Qed.

(** *** The session during a run *)

Record live (evs : list event) (s : session) : Prop := {
  lv_status : status_of s = PStr "in_progress"; lv_asked : sget "sub_questions" s = PList (asked evs); lv_added : sget "live_sources" s = PList (added evs);
  lv_phases : shown_phases s = map (fun n => (PStr n, PStr (phase_status n evs))) PHASE_NAMES }.
Lemma append_to_list k v s l : sget k s = PList l -> append_to k v s = dict_set k (PList (l ++ [v])) s.
Proof. unfold sget, append_to. destruct (dict_get k s); simpl; [by intros ->|done]. Qed.
Lemma set_shown_names name st (f : string -> string) l :
  set_shown name st (map (fun n => (PStr n, PStr (f n))) l) = map (fun n => (PStr n, PStr (if bool_decide (PStr n = PStr name) then st else f n))) l.
Proof. unfold set_shown. rewrite map_map. apply map_ext. intros n. simpl. by case_bool_decide. Qed.
(** Nothing of what a client reads here has changed. *)
Definition same_view (s s' : session) : Prop :=
  status_of s' = status_of s /\ shown_phases s' = shown_phases s /\ sget "sub_questions" s' = sget "sub_questions" s /\
  sget "live_sources" s' = sget "live_sources" s.
Lemma same_view_set k v s s' : k ∉ ["status"; "phases"; "sub_questions"; "live_sources"] -> same_view s s' -> same_view s (dict_set k v s').
Proof.
  rewrite !not_elem_of_cons. unfold same_view, status_of. intros (? & ? & ? & ? & _) ?. by rewrite shown_set, !sget_set_ne by done.
Qed.
Lemma same_view_refl s : same_view s s.
Proof. done. Qed.
Lemma live_phase evs s s' ev st f : live evs s -> same_view s s' ->
  (ev.1, st) ∈ [("phase_start", "in_progress"); ("phase_complete", "completed"); ("phase_failed", "failed")] ->
  (forall p, sget "name" (f p) = sget "name" p /\ sget "status" (f p) = PStr st) ->
  live (evs ++ [ev]) (update_phases (match sget "phase" ev.2 with PStr n => n | _ => "" end) f s').
Proof.
  intros [L1 L2 L3 L4] (V1 & V2 & V3 & V4) Hst Hf.
  assert (asked [ev] = [] /\ added [ev] = [] /\ forall n x, phase_step n x ev = if bool_decide (sget "phase" ev.2 = PStr n) then st else x) as (Ha & Hs & Hp).
  { unfold asked, added, phase_step. simpl. rewrite !elem_of_cons in Hst. destruct Hst as [[= -> ->]|[[= -> ->]|[[= -> ->]|Hn]]]; [done..|by apply not_elem_of_nil in Hn]. }
  split.
  - unfold status_of in *. rewrite sget_update by done. congruence.
  - rewrite sget_update, asked_app, Ha, app_nil_r by done. congruence.
  - rewrite sget_update, added_app, Hs, app_nil_r by done. congruence.
  - rewrite (shown_update _ _ st) by done. rewrite V2, L4, set_shown_names. apply map_ext_in. intros n Hn. rewrite phase_status_app. cbn [foldl]. rewrite Hp.
    do 2 f_equal. assert (n <> "") as Hne by (intros ->; by repeat (destruct Hn as [Hn|Hn]; [done|])).
    destruct (sget "phase" ev.2) as [| | | |x| | |]; repeat case_bool_decide; congruence.
Qed.
Lemma live_other evs s s' ev : live evs s -> ev.1 ∉ ["phase_start"; "phase_complete"; "phase_failed"] ->
  status_of s' = status_of s -> shown_phases s' = shown_phases s ->
  sget "sub_questions" s' = PList (asked evs ++ asked [ev]) -> sget "live_sources" s' = PList (added evs ++ added [ev]) -> live (evs ++ [ev]) s'.
Proof.
  intros [L1 L2 L3 L4] Hk E1 E2 E3 E4. rewrite !not_elem_of_cons in Hk. destruct Hk as (H1 & H2 & H3 & _). split.
  - by rewrite E1.
  - by rewrite asked_app.
  - by rewrite added_app.
  - rewrite E2, L4. apply map_ext. intros n. rewrite phase_status_app. cbn [foldl]. unfold phase_step.
    rewrite (proj2 (String.eqb_neq _ _) H1), (proj2 (String.eqb_neq _ _) H2), (proj2 (String.eqb_neq _ _) H3). by destruct (bool_decide _).
Qed.
Lemma live_same evs s s' ev : live evs s -> ev.1 ∉ ["phase_start"; "phase_complete"; "phase_failed"; "sub_question"; "source_added"] -> same_view s s' -> live (evs ++ [ev]) s'.
Proof.
  intros L Hk (V1 & V2 & V3 & V4). rewrite !not_elem_of_cons in Hk. destruct Hk as (H1 & H2 & H3 & H4 & H5 & _).
  assert (asked [ev] = [] /\ added [ev] = []) as [Ea Es].
  { unfold asked, added. simpl. by rewrite (proj2 (String.eqb_neq _ _) H4), (proj2 (String.eqb_neq _ _) H5). }
  apply (live_other evs s); [done|set_solver|done|done|rewrite Ea|rewrite Es]; rewrite app_nil_r; destruct L; congruence.
Qed.
Lemma live_step t evs s ev : live evs s -> live (evs ++ [ev]) (on_event t s ev).
Proof.
  intros L. pose proof L as [L1 L2 L3 L4]. unfold on_event.
  repeat (match goal with |- context [if String.eqb ev.1 ?k then _ else _] => destruct (String.eqb_spec ev.1 k) as [E|?] end); cbv zeta.
  1: eapply (live_phase evs s _ ev "in_progress"); [exact L| |rewrite E; set_solver|intros p; split; by sread].
  2: eapply (live_phase evs s _ ev "completed"); [exact L| |rewrite E; set_solver|intros p; split; [|by destruct (truthy _); sread]; destruct (truthy _); by sread].
  3: eapply (live_phase evs s _ ev "failed"); [exact L|apply same_view_refl|rewrite E; set_solver|intros p; split; by sread].
  1,2: repeat (apply same_view_set; [set_solver|]); apply same_view_refl.
  2: { apply (live_other evs s); [done|rewrite E; set_solver|..]; rewrite ?(append_to_list _ _ _ _ L2); unfold status_of; rewrite ?shown_set, ?sget_set_eq, ?sget_set_ne by done; try done.
       - unfold asked at 3. simpl. by rewrite E.
       - unfold added at 2. simpl. rewrite E. cbn. by rewrite app_nil_r. }
  1: { apply (live_other evs s); [done|rewrite E; set_solver|..]; rewrite ?(append_to_list _ _ _ _ L3); unfold status_of; rewrite ?shown_set, ?sget_set_eq, ?sget_set_ne by done; try done.
       - unfold asked at 2. simpl. rewrite E. cbn. by rewrite app_nil_r.
       - unfold added at 3. simpl. by rewrite E. }
  all: apply (live_same evs s); [done|try rewrite E; set_solver|]; unfold append_to; repeat (apply same_view_set; [set_solver|]); apply same_view_refl.
Qed.
Lemma live_follow tes evs s : live evs s -> live (evs ++ tes.*2) (follow s tes).
Proof.
  unfold follow. revert evs s. induction tes as [|[t ev] tes IH]; intros evs s L; [simpl; by rewrite app_nil_r|].
  change (((t, ev) :: tes).*2) with ([ev] ++ tes.*2). rewrite (assoc_L (++)). cbn [foldl fst snd]. by apply IH, live_step.
Qed.
Lemma live_begin q d s : live [] (run_begin (new_researcher q d) s).
Proof. unfold run_begin. split; unfold status_of, shown_phases; by sread. Qed.

(** *** What a run tells *)

Definition told (r : AdvancedResearcher) : Prop :=
  statuses r = map (fun n => (n, phase_status n (events r))) PHASE_NAMES /\ asked (events r) = map PStr (sub_questions r).
Lemma upd_status_names name st (f : string -> string) l : NoDup l ->
  upd_status name st (map (fun n => (n, f n)) l) = map (fun n => (n, if bool_decide (PStr name = PStr n) then st else f n)) l.
Proof.
  induction 1 as [|n l Hn Hnd IH]; [done|]. simpl. destruct (String.eqb_spec n name) as [->|Hne].
  - rewrite bool_decide_eq_true_2 by done. f_equal. apply map_ext_in. intros m Hm. case_bool_decide as E; [|done]. injection E as <-. by apply list_elem_of_In in Hm.
  - rewrite bool_decide_eq_false_2 by congruence. by rewrite IH.
Qed.
Lemma told_phase name ty st det data r : told r -> (ty, st) ∈ [("phase_start", "in_progress"); ("phase_complete", "completed"); ("phase_failed", "failed")] ->
  told (_emit ty (("phase", PStr name) :: data) (set_phases (upd_phase name st det (phases r)) r)).
Proof.
  intros [H1 H2] Hty. unfold told, statuses. cbn [_emit set_phases phases events sub_questions]. rewrite upd_phase_status. fold (statuses r). rewrite H1, asked_app, H2.
  rewrite upd_status_names by (apply (bool_decide_unpack _); by vm_compute). split.
  - apply map_ext. intros n. rewrite phase_status_app. cbn [foldl]. unfold phase_step. change (sget "phase" _) with (PStr name). cbn [fst].
    rewrite !elem_of_cons in Hty. destruct Hty as [[= -> ->]|[[= -> ->]|[[= -> ->]|Hn]]]; [done..|by apply not_elem_of_nil in Hn].
  - rewrite !elem_of_cons in Hty. destruct Hty as [[= -> ->]|[[= -> ->]|[[= -> ->]|Hn]]]; [by rewrite app_nil_r..|by apply not_elem_of_nil in Hn].
Qed.
Definition PHASE_EVENTS : list string := ["phase_start"; "phase_complete"; "phase_failed"].
Lemma statuses_quiet n evs a : Forall (fun ev => ev.1 ∉ PHASE_EVENTS) evs -> phase_status n (a ++ evs) = phase_status n a.
Proof.
  intros H. rewrite phase_status_app. induction H as [|ev evs Hev _ IH]; [done|]. cbn [foldl].
  assert (phase_step n (phase_status n a) ev = phase_status n a) as ->; [|exact IH]. unfold phase_step.
  unfold PHASE_EVENTS in Hev. rewrite !not_elem_of_cons in Hev. destruct Hev as (H1 & H2 & H3 & _).
  rewrite (proj2 (String.eqb_neq _ _) H1), (proj2 (String.eqb_neq _ _) H2), (proj2 (String.eqb_neq _ _) H3). by destruct (bool_decide _).
Qed.
Lemma asked_quiet evs : Forall (fun ev => ev.1 <> "sub_question") evs -> asked evs = [].
Proof. induction 1 as [|ev evs Hev _ IH]; [done|]. unfold asked in *. simpl. by rewrite (proj2 (String.eqb_neq _ _) Hev). Qed.
Lemma told_events evs r : Forall (fun ev => ev.1 ∉ PHASE_EVENTS /\ ev.1 <> "sub_question") evs -> told r -> told (emit_all evs r).
Proof.
  intros H [H1 H2]. apply Forall_and in H as [Ha Hb]. rewrite emit_all_eq. unfold told, statuses in *. cbn [phases events sub_questions].
  rewrite asked_app, (asked_quiet evs), app_nil_r by done. split; [|done]. rewrite H1. apply map_ext. intros n. by rewrite statuses_quiet.
Qed.
Lemma told_event ty data r : ty ∉ PHASE_EVENTS -> ty <> "sub_question" -> told r -> told (_emit ty data r).
Proof. intros. apply (told_events [(ty, data)]); [by repeat constructor|done]. Qed.
Lemma told_map {A} (f : A -> event) ty l r : (forall x, (f x).1 = ty) -> ty ∉ PHASE_EVENTS -> ty <> "sub_question" -> told r -> told (emit_all (map f l) r).
Proof. intros Hf H1 H2. apply told_events, Forall_map_iff, Forall_forall. intros x _. by rewrite Hf. Qed.
Create HintDb told.
#[local] Hint Extern 1 (_ ∈ _) => set_solver : told.
#[local] Hint Extern 1 (_ ∉ _) => (unfold PHASE_EVENTS; set_solver) : told.
#[local] Hint Extern 1 (_ <> _) => discriminate : told.
#[local] Hint Resolve told_phase told_event : told.
Lemma told_plan llm r r' : sub_questions r = [] -> asked (events r) = [] -> plan llm r = Ok r' -> told r -> told r'.
Proof.
  unfold plan. intros Hs Ha. destruct (or_else _ _) as [raw|]; [|done]. cbn [rbind]. intros [= <-] [T _]. apply told_phase; [|set_solver].
  set (qs := match _ with [] => _ | _ => _ end). assert (told (_start_phase "planning" [] r)) as [H1 H2] by (apply told_phase; [by split; [|rewrite Hs]|set_solver]).
  rewrite emit_all_eq. unfold told, statuses in *. cbn [phases events sub_questions set_sub_questions]. split.
  - rewrite H1. apply map_ext. intros n. rewrite statuses_quiet; [done|]. apply Forall_map_iff, Forall_forall. intros x _. unfold PHASE_EVENTS. set_solver.
  - rewrite asked_app, H2. change (sub_questions (_start_phase _ _ r)) with (sub_questions r). rewrite Hs. simpl. clearbody qs. unfold enumerate. generalize 0%nat.
    induction qs as [|q qs IH]; intros k; [done|]. simpl. unfold asked in *. simpl. by rewrite IH.
Qed.
Lemma told_search ws b i qs r x : search_questions ws b i qs r = Ok x -> told r -> told x.2.
Proof.
  revert i r x. induction qs as [|q qs IH]; intros i r x; simpl; [by intros [= <-]|]. destruct (search_variants _ _ _ _ _) as [f|]; [|done]. simpl.
  destruct (search_questions _ _ _ _ _) as [y|] eqn:E; [|done]. simpl. intros [= <-] T. simpl. apply IH in E; auto with told.
Qed.
Lemma told_gather ws sc tr ok r r' : gather ws sc tr ok r = Ok r' -> told r -> told r'.
Proof.
  unfold gather. intros H T. destruct (search_questions _ _ _ _ _) as [f|] eqn:Es; [|done]. cbn [rbind] in H. apply told_search in Es; [|apply told_phase; auto with told].
  destruct (unique_urls _ _ _) as [|u us]; [injection H as <-; apply (told_phase "gathering" _ _ _ _ f.2); auto with told|].
  destruct (or_else _ _) as [pages|]; [|done]. cbn [rbind] in H. destruct (build_sources _ _ _ _) as [ss|]; [|done]. cbn [rbind] in H.
  set (r1 := emit_all _ _) in H. assert (told r1) as T1 by (apply (told_map _ "source_added"); auto with told). clearbody r1.
  destruct (translate_sources _ _ _) as [t|] eqn:Et; [|done]. cbn [rbind] in H. injection H as <-. apply told_phase; [|set_solver].
  unfold translate_sources in Et. destruct tr as [g|]; [|by injection Et as <-]. destruct ss as [|s0 ss]; [by injection Et as <-|].
  destruct (or_else _ _) as [ts|]; [|done]. injection Et as <-. apply (told_event "translation_start" [("total", PInt (zlength (s0 :: ss)))] r1); auto with told.
Qed.
Lemma told_gate g ok lg r : told r -> told (_apply_relevance_filter g ok lg r).
Proof.
  intros T. unfold _apply_relevance_filter. destruct g; [|done]. destruct (sources r); [done|]. destruct (negb _); [done|]. destruct (filter_sources _ _ _ _ _ _ _) as [res|]; [|done].
  apply (told_event (gate_event (depth r) res).1 (gate_event (depth r) res).2 r); auto with told.
Qed.
Lemma told_analyze llm fo r r' : analyze llm fo r = Ok r' -> told r -> told r'.
Proof.
  unfold analyze. intros H T. destruct (sources _) as [|s ss]; [injection H as <-; apply told_phase; auto with told; apply told_phase; auto with told|].
  destruct (process_all _ _ _) as [ss'|]; [|done]. cbn [rbind] in H. injection H as <-. apply told_phase; [|set_solver]. apply (told_map _ "source_refined"); auto with told.
  match goal with |- told (set_sources _ ?r0) => change (told r0) end. apply (told_map _ "analyzing_source"); auto with told. apply told_phase; auto with told.
Qed.
Lemma told_report md c d r : told r -> told (finish_report md c d r).
Proof. intros T. apply told_phase; [|set_solver]. apply (told_event "report_ready" _ (set_report md c r)); auto with told. Qed.
Lemma told_synthesize llm lg r r' : synthesize llm lg r = Ok r' -> told r -> told r'.
Proof.
  unfold synthesize. intros H T. destruct (sources _); [|destruct (or_else _ _); [|done]; cbn [rbind] in H]; injection H as <-; apply told_report, told_phase; auto with told.
Qed.
Lemma told_run llm ws sc tr g ok lg fo q d r evs : run llm ws sc tr g ok lg fo (new_researcher q d) = (Ok r, evs) -> told r.
Proof.
  unfold run, phases_in_order. destruct (plan llm _) as [r1|] eqn:E1; [|done]. cbn [rbind]. destruct (gather _ _ _ _ r1) as [r2|] eqn:E2; [|done]. cbn [rbind].
  destruct (analyze _ _ _) as [r3|] eqn:E3; [|done]. cbn [rbind]. destruct (synthesize _ _ _) as [r4|] eqn:E4; [|done]. cbn [rbind]. intros [= <- _].
  apply told_event; [auto with told..|]. apply told_synthesize in E4; [done|]. apply told_analyze in E3; [done|]. apply told_gate. apply told_gather in E2; [done|].
  by apply told_plan in E1.
Qed.

(** *** The session of a task *)

Lemma ended_keeps k status error s : k <> "status" -> k <> "error" -> sget k (run_ended_with status error s) = sget k s.
Proof. intros H1 H2. unfold run_ended_with. by rewrite !sget_set_ne. Qed.
(** A task that is stopped leaves its session as the last event left it, with a
    status and an error. *)
Lemma stopped_session evs tes rq sid uid now0 status error : tes.*2 = evs ->
  let s := run_ended_with status error (follow (run_begin (new_researcher (Some (rq_topic rq)) (Some (rq_depth rq))) (new_session rq sid uid now0)) tes) in
  status_of s = PStr status /\ sget "error" s = PStr error /\ sget "user_id" s = PStr uid /\
  sget "sub_questions" s = PList (asked evs) /\ sget "live_sources" s = PList (added evs) /\
  shown_phases s = map (fun n => (PStr n, PStr (phase_status n evs))) PHASE_NAMES.
Proof.
  intros <-. cbv zeta. destruct (live_follow tes [] _ (live_begin (Some (rq_topic rq)) (Some (rq_depth rq)) (new_session rq sid uid now0))) as [L1 L2 L3 L4].
  unfold status_of. rewrite (ended_keeps "user_id"), (ended_keeps "sub_questions"), (ended_keeps "live_sources") by done. split_and!; [unfold run_ended_with; by sread|unfold run_ended_with; by sread| |done|done|].
  - rewrite follow_keeps by (apply (bool_decide_unpack _); by vm_compute). unfold run_begin. by sread.
  - unfold run_ended_with. by rewrite !shown_set.
Qed.
(** The depths' time limits, in minutes *)
Lemma limit_minutes depth : timeout_seconds depth / 60
  = default 60 (assoc depth [("basic", 30); ("medium", 60); ("deep", 120); ("expert", 180); ("ultra", 300)]).
Proof.
  unfold timeout_seconds, DEPTH_TIMEOUT, assoc. cbn [List.find fst]. repeat (destruct (String.eqb _ depth); [done|]). done.
Qed.

(** C21: a research session shows what its run does, while it runs and when it
    has ended, whatever the model, the search engines, the web pages and the
    translation service answer or raise, short of addresses that do not parse.
    Stopped by its time limit or by a cancellation, after any number of the run's
    events, the session is failed with a message that names the depth and its
    limit, or cancelled, still its owner's, and shows exactly what the run had
    announced: the sub-questions and the sources so far, and for each phase
    whether it was waiting, running, completed or failed.  Over the whole run
    what the events announce is the run's own state, its sub-questions and
    the states of its phases.  A run that is not stopped returns, and then the
    session is completed at 100 percent without an error, and its query,
    sub-questions, phases, citations, report, confidence and depth are the
    run's, with the sources that were announced. *)
Theorem research_session_mirrors_run llm w gate bracketed_ok log10 finish_order rq clock sid uid now0 now :
  llm_uncancelled_ llm -> translate_uncancelled (w_detect w) (w_translate w) -> urls_parse (search_web (w_engines w)) bracketed_ok ->
  exists r, research_pipeline llm w gate bracketed_ok log10 finish_order rq = (Ok r, []) /\
    let task st := execute_advanced_research llm w gate bracketed_ok log10 finish_order rq clock st now (new_session rq sid uid now0) in
    let minutes := default 60 (assoc (rq_depth rq) [("basic", 30); ("medium", 60); ("deep", 120); ("expert", 180); ("ultra", 300)]) in
    (forall n st status error,
       (st, status, error) ∈
         [(TimeLimit n, "failed", "Research exceeded the " +:+ rq_depth rq +:+ " depth time budget (" +:+ str_int minutes +:+
                                  " min). The pipeline was stopped.");
          (CancelledAfter n, "cancelled", "Cancelled by user.")] ->
       let s := task st in let seen := take n (events r) in
       status_of s = PStr status /\ sget "error" s = PStr error /\ sget "user_id" s = PStr uid /\
       sget "sub_questions" s = PList (asked seen) /\ sget "live_sources" s = PList (added seen) /\
       shown_phases s = map (fun n => (PStr n, PStr (phase_status n seen))) ["planning"; "gathering"; "analyzing"; "synthesizing"]) /\
    asked (events r) = map PStr (sub_questions r) /\
    statuses r = map (fun n => (n, phase_status n (events r))) ["planning"; "gathering"; "analyzing"; "synthesizing"] /\
    let s := task RunsOn in
    status_of s = PStr "completed" /\ progress_of s = 100 /\
    (forall k, k ∈ ["query"; "sub_questions"; "phases"; "citations"; "report_markdown"; "confidence"; "depth"] -> sget k s = sget k (to_dict r)) /\
    sget "sources" s = PList (map compat_source (sources r)) /\ sget "live_sources" s = PList (added (events r)) /\
    sget "user_id" s = PStr uid /\ sget "error" s = PNone.
Proof.
  intros Hl Ht Hu. destruct (pipeline_ok llm w gate bracketed_ok log10 finish_order rq Hl Ht Hu) as (r & Hr). exists r. split; [exact Hr|].
  cbv zeta. unfold execute_advanced_research. rewrite Hr. destruct (told_run _ _ _ _ _ _ _ _ _ _ _ _ Hr) as [T1 T2]. split; [|split; [exact T2|split; [exact T1|]]].
  - intros n st status error Hst. rewrite !elem_of_cons in Hst. destruct Hst as [[= -> -> ->]|[[= -> -> ->]|Hn]]; [| |by apply not_elem_of_nil in Hn]; cbn [run_end];
      unfold timeout_message; rewrite ?limit_minutes; apply stopped_session; rewrite fmap_take; by rewrite stamp_events.
  - cbn [fst run_outcome run_end]. unfold run_completed. set (s0 := follow _ _). split; [unfold status_of; by sread|]. split; [unfold progress_of; by sread|]. split.
    { intros k Hk. repeat (apply elem_of_cons in Hk as [->|Hk]; [by sread|]). by apply not_elem_of_nil in Hk. }
    split; [by sread|]. split.
    { sread. destruct (live_follow (stamp clock (events r)) [] _ (live_begin (Some (rq_topic rq)) (Some (rq_depth rq)) (new_session rq sid uid now0))) as [_ _ L _].
      rewrite stamp_events in L. exact L. }
    unfold s0. split; sread; rewrite follow_keeps by (apply (bool_decide_unpack _); by vm_compute); unfold run_begin; by sread.
Qed.

(** Cancelling does not stop a run: nothing reads the flag, and when the
    pipeline returns the session is completed. *)
Theorem research_cancel_overwritten s u now evs r depth t :
  _require_owner s u = Ok () -> is_in (status_of s) TERMINAL = false ->
  exists s', cancel_research (Some s) u now = (Ok true, Some s') /\ status_of s' = PStr "cancelled" /\
    let s'' := run_end depth (Returned_ r) t (foldl (on_event t) s' evs) in
    status_of s'' = PStr "completed" /\ sget "cancel_requested" s'' = PBool true.
Proof.
  intros Ho Ht. unfold cancel_research. rewrite Ho, Ht. eexists. split; [done|]. split; [unfold status_of; by sread|]. cbn zeta.
  cbn [run_end]. unfold run_completed. split; [unfold status_of; by sread|]. sread.
  rewrite events_keep by (apply (bool_decide_unpack _); by vm_compute). by sread.
Qed.

(** A session is seen, read and cancelled by its owner and by an administrator
    alone: for anyone else the routes answer as for a session that is not there. *)
Theorem research_session_private sid s owner u now :
  sget "user_id" s = PStr owner -> owner <> "" -> u_id u <> owner -> u_role u <> "admin" ->
  get_research_status sid (Some s) u = get_research_status sid None u /\ get_research_result (Some s) u = get_research_result None u /\
  cancel_research (Some s) u now = (Err not_found, Some s).
Proof.
  intros Ho Hn Hu Hr. assert (_require_owner s u = Err not_found) as E.
  { unfold _require_owner. rewrite Ho, bool_decide_eq_false_2 by congruence. rewrite (proj2 (String.eqb_neq _ _) Hr).
    assert (truthy (PStr owner) = true) as -> by (by destruct owner). done. }
  unfold get_research_status, get_research_result, cancel_research. by rewrite E.
Qed.

(** The count of analysed sources runs one ahead: after the last of [n] the
    client reads [n+1/n]. *)
Theorem analysed_count_ahead now s n title id : 0 < n ->
  sget "current_task" (on_event now s ("analyzing_source", [("source_id", PInt id); ("index", PInt n); ("total", PInt n); ("title", PStr title)]))
  = PStr ("Analyzing source " +:+ str_int (n + 1) +:+ "/" +:+ str_int n).
Proof.
  intros Hn. unfold on_event. cbn -[str_int sget]. rewrite sget_set_eq. unfold int_field. cbn -[str_int].
  destruct (Z.eqb_spec n 0); [lia|]. by rewrite Z.max_r by lia.
Qed.

(** The time limit follows the depth as it was written: an alias has the
    limit of the medium depth, whatever depth it stands for. *)
Theorem alias_has_medium_limit : depth_of (Some "exhaustive") = "ultra" /\ timeout_seconds "exhaustive" = 3600 /\ timeout_seconds "ultra" = 18000.
Proof. by vm_compute. Qed.

(** A round of the sweeper that drops a queue of the thinking sessions leaves
    those of the research sessions alone. *)
Theorem sweeper_skips_research thinking research load_t load_r sid q : thinking !! sid = Some q -> stale load_t sid = true ->
  (_sse_queue_sweeper thinking research load_t load_r).2 = research.
Proof.
  intros Hq Hs. unfold _sse_queue_sweeper. destruct (sweep_stale_event_queues thinking load_t) as [rt t'] eqn:E.
  pose proof (sweep_drops_and_raises thinking load_t) as [_ H]. rewrite E in H. simpl in H. rewrite H by (by exists sid, q). done.
Qed.

(** ** The specifications on concrete inputs *)

Definition one_engine : engines :=
  Engines (fun _ _ => Ok (200, [("https://a.example/p", "Photosynthesis in plants")])) (fun _ _ => Err down) None (fun _ _ => Err down).
Definition demo_web : web :=
  Web one_engine (fun _ _ => Err down) (fun _ _ => Err down) (fun _ => Err down) (fun _ _ => Ok (200, demo_page)) None demo_soup demo_detect demo_translate.
Definition demo_request : ResearchRequest := ResearchReq " photosynthesis " "Thorough" true "en" None None None None.
Lemma one_engine_urls : urls_parse (search_web one_engine) (fun _ => true).
Proof.
  intros q n hs h [= <-] Hin. assert (search_links one_engine q n = py_take n [("https://a.example/p", "Photosynthesis in plants")]) as E.
  { unfold search_links. cbn -[usable_link str_take py_take]. replace (usable_link 5 _) with true by (by vm_compute). cbn -[py_take].
    rewrite (bool_decide_eq_false_2 ("https://a.example/p" ∈ [])) by apply not_elem_of_nil.
    change (zlength [("https://a.example/p", "Photosynthesis in plants")]) with 1.
    destruct (n <=? 1) eqn:En; cbn -[py_take]; change (zlength [("https://a.example/p", "Photosynthesis in plants")]) with 1; by rewrite ?En. }
  rewrite E in Hin. apply list_elem_of_fmap in Hin as (x & -> & Hx). assert (x ∈ [("https://a.example/p", "Photosynthesis in plants")]) as Hx'.
  { revert Hx. apply elem_of_take_drop. }
  apply list_elem_of_singleton in Hx' as ->. reflexivity.
Qed.
Lemma demo_llm_calm : llm_uncancelled_ demo_llm.
Proof. intros p s n e. apply (proj1 demo_uncancelled). Qed.
Lemma demo_translate_calm : translate_uncancelled demo_detect demo_translate.
Proof. split; [|done]. intros s e. unfold demo_detect. by case_match. Qed.
Definition demo_task (st : stop) : session :=
  execute_advanced_research demo_llm demo_web (Some demo_gate) (fun _ => true) log_digits (fun l => l) demo_request (fun _ => "t") st "t" (new_session demo_request "s1" "u1" "t").
Definition demo_session : session := demo_task RunsOn.
Lemma demo_session_report : sget "report_markdown" demo_session = PStr ("# Photosynthesis" +:+ NL +:+ "Plants make sugar [1] [7].").
Proof. vm_compute. reflexivity. Qed.
Lemma demo_stopped : shown_phases (demo_task (TimeLimit 4))
  = [(PStr "planning", PStr "completed"); (PStr "gathering", PStr "pending"); (PStr "analyzing", PStr "pending"); (PStr "synthesizing", PStr "pending")].
Proof. vm_compute. reflexivity. Qed.
Lemma research_session_mirrors_run_witness :
  status_of demo_session = PStr "completed" /\ progress_of demo_session = 100 /\ sget "user_id" demo_session = PStr "u1" /\
  sget "report_markdown" demo_session = PStr ("# Photosynthesis" +:+ NL +:+ "Plants make sugar [1] [7].") /\
  status_of (demo_task (TimeLimit 4)) = PStr "failed" /\
  shown_phases (demo_task (TimeLimit 4))
  = [(PStr "planning", PStr "completed"); (PStr "gathering", PStr "pending"); (PStr "analyzing", PStr "pending"); (PStr "synthesizing", PStr "pending")].
Proof.
  destruct (research_session_mirrors_run demo_llm demo_web (Some demo_gate) (fun _ => true) log_digits (fun l => l) demo_request (fun _ => "t") "s1" "u1" "t" "t"
              demo_llm_calm demo_translate_calm one_engine_urls) as (r & _ & Hstop & _ & _ & H1 & H2 & _ & _ & _ & H3 & _).
  split; [exact H1|]. split; [exact H2|]. split; [exact H3|]. split; [exact demo_session_report|]. split; [|exact demo_stopped].
  destruct (Hstop 4%nat (TimeLimit 4) _ _ (list_elem_of_here _ _)) as [H _]. exact H.
Defined.
Lemma demo_events : events demo_final = take 3 (events demo_final) ++ take 7 (drop 3 (events demo_final)) ++ drop 10 (events demo_final).
Proof. vm_compute. reflexivity. Qed.
Definition demo_progress (evs : list event) : Z :=
  progress_of (foldl (on_event "t") (run_begin (new_researcher (Some " photosynthesis ") (Some "Thorough")) []) evs).
Lemma research_progress_rises_witness :
  5 <= demo_progress (take 3 (events demo_final)) <= demo_progress (take 3 (events demo_final) ++ take 7 (drop 3 (events demo_final))) /\
  demo_progress (take 3 (events demo_final)) = 5.
Proof.
  destruct (research_progress_rises demo_llm demo_search demo_scrape None (Some demo_gate) (fun _ => true) log_digits (fun l => l)
              (Some " photosynthesis ") (Some "Thorough") demo_final [] [] "t" _ _ _ demo_research_ok demo_events) as [H _].
  split; [exact H|]. vm_compute. reflexivity.
Defined.
