(* ===== verification/Nllb.v ===== *)
(** * The NLLB translator

    local_ai/translation/nllb_translator.py: the table of language codes, the
    loading of the model, the translation of one text and of a batch, and
    detection before translation.  The CTranslate2 model, the SentencePiece
    tokenizer and the detector are parameters; the calls hold the lock of the
    object from start to end.  [TextTranslator] is the interface the translation
    service relies on. *)

From S2P Require Import Prelude PyStr PyVal PyConv Json ThinkingRoutes Research.
From Stdlib Require Import Ascii.
#[local] Open Scope py_scope.
#[local] Open Scope Z_scope.

Abbreviation dict := (list (string * pyval)).

(** ** The languages *)

Definition codes1 : list (string * string) :=
  [("en", "eng_Latn"); ("zh", "zho_Hans"); ("zh-tw", "zho_Hant"); ("es", "spa_Latn"); ("ar", "arb_Arab"); ("hi", "hin_Deva");
   ("bn", "ben_Beng"); ("pt", "por_Latn"); ("ru", "rus_Cyrl"); ("ja", "jpn_Jpan"); ("de", "deu_Latn"); ("fr", "fra_Latn");
   ("ko", "kor_Hang"); ("it", "ita_Latn"); ("tr", "tur_Latn"); ("vi", "vie_Latn"); ("pl", "pol_Latn"); ("uk", "ukr_Cyrl");
   ("nl", "nld_Latn"); ("th", "tha_Thai"); ("id", "ind_Latn"); ("ms", "zsm_Latn"); ("tl", "tgl_Latn"); ("fa", "pes_Arab");
   ("he", "heb_Hebr"); ("el", "ell_Grek"); ("cs", "ces_Latn"); ("sv", "swe_Latn"); ("hu", "hun_Latn"); ("ro", "ron_Latn");
   ("da", "dan_Latn"); ("fi", "fin_Latn"); ("no", "nob_Latn"); ("sk", "slk_Latn"); ("bg", "bul_Cyrl"); ("hr", "hrv_Latn");
   ("sr", "srp_Cyrl"); ("sl", "slv_Latn"); ("lt", "lit_Latn"); ("lv", "lvs_Latn"); ("et", "est_Latn"); ("mk", "mkd_Cyrl");
   ("sq", "als_Latn"); ("bs", "bos_Latn"); ("mt", "mlt_Latn"); ("is", "isl_Latn"); ("ga", "gle_Latn"); ("cy", "cym_Latn");
   ("eu", "eus_Latn"); ("ca", "cat_Latn"); ("gl", "glg_Latn"); ("af", "afr_Latn"); ("am", "amh_Ethi"); ("ha", "hau_Latn");
   ("ig", "ibo_Latn"); ("yo", "yor_Latn"); ("zu", "zul_Latn"); ("xh", "xho_Latn"); ("sw", "swh_Latn"); ("so", "som_Latn");
   ("rw", "kin_Latn"); ("mg", "plt_Latn"); ("ny", "nya_Latn"); ("sn", "sna_Latn"); ("st", "sot_Latn"); ("ts", "tso_Latn");
   ("tn", "tsn_Latn"); ("wo", "wol_Latn"); ("lg", "lug_Latn"); ("om", "gaz_Latn"); ("ti", "tir_Ethi"); ("ln", "lin_Latn");
   ("ff", "fuv_Latn"); ("tw", "twi_Latn"); ("ak", "aka_Latn"); ("ee", "ewe_Latn"); ("bm", "bam_Latn"); ("kr", "knc_Latn");
   ("lua", "lua_Latn"); ("kmb", "kmb_Latn"); ("umb", "umb_Latn"); ("bem", "bem_Latn"); ("luo", "luo_Latn"); ("kam", "kam_Latn");
   ("nso", "nso_Latn"); ("ssw", "ssw_Latn"); ("ta", "tam_Taml"); ("te", "tel_Telu"); ("mr", "mar_Deva"); ("gu", "guj_Gujr");
   ("kn", "kan_Knda"); ("ml", "mal_Mlym"); ("pa", "pan_Guru"); ("or", "ory_Orya"); ("as", "asm_Beng"); ("ne", "npi_Deva");
   ("si", "sin_Sinh"); ("ur", "urd_Arab"); ("sd", "snd_Arab"); ("ks", "kas_Arab"); ("sa", "san_Deva"); ("bho", "bho_Deva");
   ("mai", "mai_Deva"); ("mag", "mag_Deva"); ("awa", "awa_Deva"); ("hne", "hne_Deva"); ("mni", "mni_Beng"); ("doi", "doi_Deva");
   ("kok", "gom_Deva"); ("my", "mya_Mymr"); ("km", "khm_Khmr"); ("lo", "lao_Laoo"); ("jv", "jav_Latn"); ("su", "sun_Latn");
   ("ceb", "ceb_Latn"); ("ilo", "ilo_Latn"); ("war", "war_Latn"); ("pag", "pag_Latn"); ("min", "min_Latn"); ("ace", "ace_Latn");
   ("ban", "ban_Latn"); ("bjn", "bjn_Latn"); ("bug", "bug_Latn"); ("kk", "kaz_Cyrl"); ("uz", "uzn_Latn"); ("ky", "kir_Cyrl");
   ("tg", "tgk_Cyrl"); ("tk", "tuk_Latn"); ("tt", "tat_Cyrl"); ("ba", "bak_Cyrl"); ("mn", "khk_Cyrl"); ("ug", "uig_Arab");
   ("ku", "ckb_Arab"); ("kmr", "kmr_Latn"); ("ps", "pbt_Arab"); ("prs", "prs_Arab"); ("azj", "azj_Latn"); ("az", "azj_Latn")].
Definition codes2 : list (string * string) :=
  [("yue", "yue_Hant"); ("wuu", "wuu_Hans"); ("nan", "nan_Latn"); ("ast", "ast_Latn"); ("oc", "oci_Latn"); ("lij", "lij_Latn");
   ("lmo", "lmo_Latn"); ("fur", "fur_Latn"); ("scn", "scn_Latn"); ("vec", "vec_Latn"); ("szl", "szl_Latn"); ("lb", "ltz_Latn");
   ("fy", "fry_Latn"); ("gd", "gla_Latn"); ("br", "bre_Latn"); ("fo", "fao_Latn"); ("nn", "nno_Latn"); ("be", "bel_Cyrl");
   ("ka", "kat_Geor"); ("hy", "hye_Armn"); ("ab", "abk_Cyrl"); ("mi", "mri_Latn"); ("sm", "smo_Latn"); ("to", "ton_Latn");
   ("fj", "fij_Latn"); ("ty", "tah_Latn"); ("haw", "haw_Latn"); ("ht", "hat_Latn"); ("pap", "pap_Latn"); ("tpi", "tpi_Latn");
   ("qu", "quy_Latn"); ("ay", "ayr_Latn"); ("gn", "grn_Latn"); ("la", "lat_Latn"); ("ace_Arab", "ace_Arab");
   ("bjn_Arab", "bjn_Arab"); ("kas_Deva", "kas_Deva"); ("knc_Arab", "knc_Arab"); ("min_Arab", "min_Arab"); ("shn", "shn_Mymr");
   ("sun_Arab", "sun_Arab"); ("taq_Latn", "taq_Latn"); ("taq_Tfng", "taq_Tfng"); ("tzm", "tzm_Tfng"); ("zgh", "zgh_Tfng");
   ("ber", "ber_Latn"); ("kab", "kab_Latn"); ("raj", "raj_Deva"); ("bgc", "bgc_Deva"); ("tcy", "tcy_Knda"); ("gom", "gom_Deva");
   ("lus", "lus_Latn"); ("sat", "sat_Olck"); ("sat_Beng", "sat_Beng"); ("dyu", "dyu_Latn"); ("fon", "fon_Latn");
   ("mos", "mos_Latn"); ("kbp", "kbp_Latn"); ("dik", "dik_Latn"); ("nus", "nus_Latn"); ("run", "run_Latn"); ("sag", "sag_Latn");
   ("cjk", "cjk_Latn"); ("ber_Arab", "ber_Arab"); ("pms", "pms_Latn"); ("eml", "eml_Latn"); ("nap", "nap_Latn");
   ("srd", "srd_Latn"); ("cos", "cos_Latn"); ("csb", "csb_Latn"); ("hsb", "hsb_Latn"); ("dsb", "dsb_Latn"); ("arz", "arz_Arab");
   ("acm", "acm_Arab"); ("apc", "apc_Arab"); ("ary", "ary_Arab"); ("crh", "crh_Latn"); ("kaa", "kaa_Cyrl"); ("cv", "chv_Cyrl");
   ("sah", "sah_Cyrl"); ("tyv", "tyv_Cyrl"); ("alt", "alt_Cyrl"); ("mdf", "mdf_Cyrl"); ("myv", "myv_Cyrl"); ("koi", "koi_Cyrl");
   ("kpv", "kpv_Cyrl"); ("udm", "udm_Cyrl"); ("mhr", "mhr_Cyrl"); ("mrj", "mrj_Cyrl"); ("liv", "liv_Latn"); ("vep", "vep_Latn");
   ("vro", "vro_Latn"); ("sme", "sme_Latn"); ("smn", "smn_Latn"); ("sms", "sms_Latn"); ("izh", "izh_Latn"); ("krl", "krl_Latn");
   ("eo", "epo_Latn"); ("eng", "eng_Latn"); ("spa", "spa_Latn"); ("fra", "fra_Latn"); ("deu", "deu_Latn"); ("ita", "ita_Latn");
   ("por", "por_Latn"); ("rus", "rus_Cyrl"); ("ara", "arb_Arab"); ("zho", "zho_Hans"); ("jpn", "jpn_Jpan"); ("kor", "kor_Hang");
   ("hin", "hin_Deva"); ("ben", "ben_Beng"); ("tur", "tur_Latn"); ("vie", "vie_Latn")].
Definition codes3 : list (string * string) :=
  [("tha", "tha_Thai"); ("pol", "pol_Latn"); ("ukr", "ukr_Cyrl"); ("nld", "nld_Latn"); ("ind", "ind_Latn"); ("heb", "heb_Hebr");
   ("ell", "ell_Grek"); ("ces", "ces_Latn"); ("swe", "swe_Latn"); ("hun", "hun_Latn"); ("ron", "ron_Latn"); ("dan", "dan_Latn");
   ("fin", "fin_Latn"); ("nor", "nob_Latn"); ("slk", "slk_Latn"); ("bul", "bul_Cyrl"); ("hrv", "hrv_Latn"); ("srp", "srp_Cyrl");
   ("slv", "slv_Latn"); ("lit", "lit_Latn"); ("lav", "lvs_Latn"); ("est", "est_Latn"); ("mkd", "mkd_Cyrl"); ("sqi", "als_Latn");
   ("bos", "bos_Latn"); ("mlt", "mlt_Latn"); ("isl", "isl_Latn"); ("gle", "gle_Latn"); ("cym", "cym_Latn"); ("eus", "eus_Latn");
   ("cat", "cat_Latn"); ("glg", "glg_Latn")].
Definition LANGUAGE_CODES : list (string * string) := codes1 ++ codes2 ++ codes3.
(** Of two languages with one code the later is kept. *)
Definition NLLB_TO_ISO : gmap string string := foldl (fun m kv => <[kv.2 := kv.1]> m) ∅ LANGUAGE_CODES.
Definition LANGUAGE_NAMES : list (string * string) :=
  [("en", "English"); ("es", "Spanish"); ("fr", "French"); ("de", "German"); ("it", "Italian"); ("pt", "Portuguese");
   ("ru", "Russian"); ("zh", "Chinese (Simplified)"); ("zh-tw", "Chinese (Traditional)"); ("ja", "Japanese"); ("ko", "Korean");
   ("ar", "Arabic"); ("hi", "Hindi"); ("bn", "Bengali"); ("tr", "Turkish"); ("vi", "Vietnamese"); ("th", "Thai");
   ("pl", "Polish"); ("uk", "Ukrainian"); ("nl", "Dutch"); ("id", "Indonesian"); ("ms", "Malay"); ("tl", "Tagalog");
   ("fa", "Persian"); ("he", "Hebrew"); ("el", "Greek"); ("cs", "Czech"); ("sv", "Swedish"); ("hu", "Hungarian");
   ("ro", "Romanian"); ("da", "Danish"); ("fi", "Finnish"); ("no", "Norwegian"); ("sk", "Slovak"); ("bg", "Bulgarian");
   ("hr", "Croatian"); ("sr", "Serbian"); ("sl", "Slovenian"); ("lt", "Lithuanian"); ("lv", "Latvian"); ("et", "Estonian");
   ("af", "Afrikaans"); ("am", "Amharic"); ("sw", "Swahili"); ("ta", "Tamil"); ("te", "Telugu"); ("mr", "Marathi");
   ("gu", "Gujarati"); ("kn", "Kannada"); ("ml", "Malayalam"); ("pa", "Punjabi"); ("ur", "Urdu"); ("ne", "Nepali");
   ("si", "Sinhala"); ("my", "Burmese"); ("km", "Khmer"); ("lo", "Lao"); ("ka", "Georgian"); ("hy", "Armenian");
   ("kk", "Kazakh"); ("uz", "Uzbek"); ("az", "Azerbaijani"); ("mn", "Mongolian"); ("eo", "Esperanto"); ("la", "Latin")].

(** The keys of the table are distinct, so that the first match is the entry *)
Definition code_of (lang : string) : option string := snd <$> List.find (fun kv => String.eqb kv.1 lang) LANGUAGE_CODES.
Definition _get_language_code (lang : string) : string :=
  let lang := strip is_space (lower lang) in
  if char_in "_" lang && (length (split "_" lang) =? 2)%nat then lang else
  match code_of lang with
  | Some c => c
  | None => match code_of (default "" (head (split "-" lang))) with Some c => c | None => lang +:+ "_Latn" end
  end.
Definition get_supported_languages : list string := map fst LANGUAGE_CODES.
Definition get_language_name (code : string) : string := default code (snd <$> List.find (fun kv => String.eqb kv.1 code) LANGUAGE_NAMES).
Definition is_language_supported (code : string) : bool :=
  let code := strip is_space (lower code) in
  bool_decide (is_Some (code_of code)) || bool_decide (is_Some (NLLB_TO_ISO !! code)).
(** [sorted(result, key=lambda x: x[1])], which is stable *)
Fixpoint insert_name (x : string * string * string) (l : list (string * string * string)) : list (string * string * string) :=
  match l with [] => [x] | y :: l' => if String.leb x.1.2 y.1.2 then x :: l else y :: insert_name x l' end.
Definition get_supported_languages_with_names : list (string * string * string) :=
  foldr insert_name [] (map (fun kv => (kv.1, get_language_name kv.1, kv.2)) LANGUAGE_CODES).

(** ** The model *)

(** A result of [translate_batch] *)
Record ct2_result := CT2 { hypotheses : list (list string); scores : list Q }.
Definition ct2_model : Type := list (list string) -> list (list string) -> Z -> Z -> result pyexn (list ct2_result).
Record tokenizer := Tok { encode : string -> list string; decode : list string -> string }.
Record NLLBTranslator := NT { t_model : option ct2_model; t_tokenizer : option tokenizer; _initialized : bool }.
(** What the disk and the libraries answer *)
Record loading := Loading {
  has_ctranslate2 : bool; has_sentencepiece : bool; load_ct2 : result pyexn ct2_model; exists_file : string -> bool; load_spm : string -> result pyexn tokenizer }.
(** The tokenizer of the first of the names that is there *)
Fixpoint load_first (env : loading) (names : list string) : result pyexn (option tokenizer) :=
  match names with
  | [] => Ok None
  | n :: names' => if exists_file env n then t <-! load_spm env n; Ok (Some t) else load_first env names'
  end.
Definition _load_model (env : loading) (t : NLLBTranslator) : result pyexn NLLBTranslator :=
  if negb (has_ctranslate2 env) then Ok t else
  m <-! load_ct2 env;
  tok <-! (if has_sentencepiece env then load_first env ["sentencepiece.model"; "tokenizer.model"; "spm.model"] else Ok None);
  Ok (NT (Some m) tok true).
Definition new_translator (env : loading) : result pyexn NLLBTranslator := _load_model env (NT None None false).

(** [s.replace(p, "")] for [p <> ""]; [k] characters of a match are left *)
Fixpoint str_remove (p : string) (k : nat) (s : string) : string :=
  match s with
  | EmptyString => EmptyString
  | String c s' =>
      match k with
      | S k' => str_remove p k' s'
      | O => if startswith p s then str_remove p (String.length p - 1) s' else String c (str_remove p 0 s')
      end
  end.
Definition _tokenize (t : NLLBTranslator) (text : string) : list string :=
  match t_tokenizer t with Some k => encode k text | None => split_ws text end.
Definition _detokenize (t : NLLBTranslator) (tokens : list string) : string :=
  match t_tokenizer t with Some k => decode k tokens | None => str_remove "##" 0 (str_remove " ##" 0 (join " " tokens)) end.

Definition tag (code : string) : string := "__" +:+ code +:+ "__".
(** [l[0]] *)
Definition first {A} (l : list A) : result pyexn A := match l with x :: _ => Ok x | [] => Err (PyExn "IndexError" "list index out of range") end.
Definition drop_tag (tokens : list string) : list string :=
  match tokens with x :: rest => if startswith "__" x then rest else tokens | [] => [] end.
Definition round4 (x : Q) : Q := (inject_Z (py_round (10000 * x)) / 10000)%Q.
Definition confidence_of (score : Q) : Q := round4 (py_min 1 (py_max 0 ((score + 5) / 5))).
(** The tokens of the translation and its confidence *)
Definition extract (r : ct2_result) : result pyexn (list string * Q) :=
  h <-! first (hypotheses r);
  Ok (drop_tag h, confidence_of (default 0%Q (head (scores r)))).
Definition ready (t : NLLBTranslator) (message : string) : result pyexn ct2_model :=
  match t_model t with
  | Some m => if _initialized t then Ok m else Err (PyExn "RuntimeError" message)
  | None => Err (PyExn "RuntimeError" message)
  end.
Definition translate (t : NLLBTranslator) (text source_lang target_lang : string) (beam_size max_length : Z) : result pyexn dict :=
  model <-! ready t "Translator not initialized. Ensure model is loaded.";
  let src_code := _get_language_code source_lang in
  let tgt_code := _get_language_code target_lang in
  let source_tokens := tag src_code :: _tokenize t text in
  rs <-! model [source_tokens] [[tag tgt_code]] beam_size max_length;
  r0 <-! first rs;
  x <-! extract r0;
  Ok [("translation", PStr (_detokenize t x.1)); ("source_language", PStr source_lang); ("target_language", PStr target_lang);
      ("source_code", PStr src_code); ("target_code", PStr tgt_code); ("confidence", PFloat x.2); ("provider", PStr "NLLB-200-CT2");
      ("model", PStr "nllb-200-distilled-600M"); ("beam_size", PInt beam_size); ("source_tokens", PInt (zlength source_tokens));
      ("target_tokens", PInt (zlength x.1))].
(** The loop over the results, which reads [texts[i]] *)
Fixpoint collect (t : NLLBTranslator) (source_lang target_lang : string) (i : Z) (texts : list string) (rs : list ct2_result) : result pyexn (list dict) :=
  match rs with
  | [] => Ok []
  | r :: rs' =>
      x <-! extract r;
      text <-! first texts;
      rest <-! collect t source_lang target_lang (i + 1) (tail texts) rs';
      Ok ([("translation", PStr (_detokenize t x.1)); ("source_language", PStr source_lang); ("target_language", PStr target_lang);
           ("confidence", PFloat x.2); ("provider", PStr "NLLB-200-CT2"); ("index", PInt i); ("original_length", PInt (Z.of_nat (String.length text)))] :: rest)
  end.
Definition batch_translate (t : NLLBTranslator) (texts : list string) (source_lang target_lang : string) (beam_size max_length : Z) : result pyexn (list dict) :=
  model <-! ready t "Translator not initialized";
  match texts with
  | [] => Ok []
  | _ =>
      let src_code := _get_language_code source_lang in
      let tgt_code := _get_language_code target_lang in
      rs <-! model (map (fun text => tag src_code :: _tokenize t text) texts) (replicate (length texts) [tag tgt_code]) beam_size max_length;
      collect t source_lang target_lang 0 texts rs
  end.
(** The default beam and length of the calls *)
Definition BEAM : Z := 4.
Definition MAX_LENGTH : Z := 512.
(** [None]: the detector is not installed *)
Definition detect_and_translate (t : NLLBTranslator) (detect : option (string -> result pyexn (string * Q))) (text target_lang : string) : result pyexn dict :=
  match (f <-! (match detect with Some f => Ok f | None => Err (PyExn "ImportError" "No module named 'fasttext_langdetect'") end);
         d <-! f (str_take (Z.to_nat 1000) text);
         if String.eqb d.1 target_lang then
           Ok [("translation", PStr text); ("source_language", PStr d.1); ("target_language", PStr target_lang); ("confidence", PFloat 1);
               ("provider", PStr "NLLB-200-CT2"); ("detection_confidence", PFloat d.2); ("skipped", PBool true); ("reason", PStr "Already in target language")]
         else
           r <-! translate t text d.1 target_lang BEAM MAX_LENGTH;
           Ok (dict_set "skipped" (PBool false) (dict_set "detection_confidence" (PFloat d.2) r))) with
  | Ok r => Ok r
  | Err e => Err (if String.eqb (exn_type e) "ImportError" then PyExn "RuntimeError" "Language detection requires fasttext_langdetect package" else e)
  end.

(** ** What the translation service relies on *)

(** A translation, with what goes into the cache *)
Definition translated (d : dict) : Prop := exists tr c p,
  dict_get "translation" d = Some (PStr tr) /\ dict_get "confidence" d = Some (PFloat c) /\ dict_get "provider" d = Some (PStr p).
Class TextTranslator (T : Type) := {
  translate_one : T -> string -> string -> string -> result pyexn dict;
  translate_many : T -> list string -> string -> string -> result pyexn (list dict) }.
(** A batch has one translation for every text. *)
Class LawfulTranslator {T} `{TextTranslator T} (t : T) := {
  one_law : forall text a b d, translate_one t text a b = Ok d -> translated d;
  many_law : forall texts a b ds, translate_many t texts a b = Ok ds -> length ds = length texts /\ Forall translated ds }.
#[export] Instance nllb_translator : TextTranslator NLLBTranslator := {
  translate_one t text a b := translate t text a b BEAM MAX_LENGTH;
  translate_many t texts a b := batch_translate t texts a b BEAM MAX_LENGTH }.

(** CTranslate2 gives one result, with at least one hypothesis, for every list
    of tokens. *)
Definition ct2_law (m : ct2_model) : Prop := forall toks pre beam len rs, m toks pre beam len = Ok rs ->
  length rs = length toks /\ Forall (fun r => hypotheses r <> []) rs.

(** ** One text and a batch *)

Lemma extract_ok r x : extract r = Ok x -> exists h hs, hypotheses r = h :: hs /\ x.1 = drop_tag h.
Proof. unfold extract. destruct (hypotheses r) as [|h hs]; [done|]. simpl. intros [= <-]. eauto. Qed.
Lemma collect_ok t a b i texts rs ds : collect t a b i texts rs = Ok ds -> length ds = length rs /\ Forall translated ds.
Proof.
  revert i texts ds. induction rs as [|r rs IH]; intros i texts ds; simpl; [by intros [= <-]|].
  destruct (extract r) as [x|]; [|done]. destruct texts as [|text texts]; [done|]. simpl.
  destruct (collect t a b (i + 1) texts rs) as [rest|] eqn:E; [|done]. simpl. intros [= <-]. destruct (IH _ _ _ E) as [IH1 IH2].
  split; [simpl; by rewrite IH1|]. constructor; [|done]. by repeat eexists.
Qed.
#[export] Instance nllb_lawful t : (forall m, t_model t = Some m -> ct2_law m) -> LawfulTranslator t.
Proof.
  intros Hm. constructor.
  - intros text a b d. simpl. unfold translate, ready. destruct (t_model t) as [m|] eqn:Et, (_initialized t); try done. simpl.
    destruct (m _ _ _ _) as [rs|]; [|done]. simpl. destruct rs as [|r rs]; [done|]. simpl. destruct (extract r); [|done]. simpl. intros [= <-]. by repeat eexists.
  - intros texts a b ds. simpl. unfold batch_translate, ready. destruct (t_model t) as [m|] eqn:Et, (_initialized t); try done. simpl.
    destruct texts as [|x texts]; [by intros [= <-]|]. destruct (m _ _ _ _) as [rs|] eqn:E; [|done]. cbn [rbind]. intros [Hl Hf]%collect_ok.
    destruct (Hm m eq_refl _ _ _ _ _ E) as [Hr _]. split; [|done]. by rewrite Hl, Hr, length_map.
Qed.

Lemma round4_bounds x : (0 <= x <= 1)%Q -> (0 <= round4 x <= 1)%Q.
Proof.
  intros [H0 H1]. unfold round4. assert (py_round (10000 * x) <= 10000) as Hu by (apply py_round_le; unfold inject_Z; lra).
  assert (0 <= py_round (10000 * x)) as Hl.
  { assert (0 <= Qfloor (10000 * x)) as Hf by (apply (Qfloor_resp_le 0); lra). unfold py_round. destruct (Qltb _ _); [done|]. destruct (Qltb _ _); [lia|].
    destruct (Z.even _); lia. }
  assert (inject_Z 0 <= inject_Z (py_round (10000 * x)))%Q as Hl' by (by rewrite <- Zle_Qle).
  assert (inject_Z (py_round (10000 * x)) <= inject_Z 10000)%Q as Hu' by (by rewrite <- Zle_Qle).
  change (inject_Z 0) with 0%Q in Hl'. change (inject_Z 10000) with 10000%Q in Hu'.
  set (y := inject_Z _) in *. unfold Qdiv. change (/ 10000)%Q with (1 # 10000). lra.
Qed.
Lemma confidence_bounds score : (0 <= confidence_of score <= 1)%Q.
Proof.
  apply round4_bounds. split; [apply py_min_glb; [lra|apply py_max_ge_l]|apply py_min_le_l].
Qed.

Lemma collect_all t a b i texts rs : length rs = length texts -> Forall (fun r => hypotheses r <> []) rs ->
  exists ds, collect t a b i texts rs = Ok ds /\ length ds = length texts /\
    forall k text r, texts !! k = Some text -> rs !! k = Some r -> exists d h c, ds !! k = Some d /\ head (hypotheses r) = Some h /\
      dict_get "translation" d = Some (PStr (_detokenize t (drop_tag h))) /\ dict_get "index" d = Some (PInt (i + Z.of_nat k)) /\
      dict_get "original_length" d = Some (PInt (Z.of_nat (String.length text))) /\ dict_get "confidence" d = Some (PFloat c) /\ (0 <= c <= 1)%Q.
Proof.
  revert i texts. induction rs as [|r rs IH]; intros i [|text texts] Hl Hf; try done; [exists []; by repeat split|].
  inversion Hf as [|? ? Hh Hf']; subst. destruct (IH (i + 1) texts) as (ds & E & Hd & Hk); [by injection Hl|done|].
  simpl. unfold extract. destruct (hypotheses r) as [|h hs] eqn:Er; [done|]. simpl. rewrite E. simpl. eexists. split; [done|]. split; [simpl; by rewrite Hd|].
  intros [|k] text' r' Ht Hr; simpl in Ht, Hr.
  - simplify_eq. rewrite Er, Z.add_0_r. do 3 eexists. do 6 (split; [done|]). apply confidence_bounds.
  - destruct (Hk k text' r' Ht Hr) as (d & h' & c & H1 & H2 & H3 & H4 & H5). exists d, h', c. do 3 (split; [done|]). split; [|done]. rewrite H4. do 2 f_equal. lia.
Qed.

(** Once the model has answered, a batch of texts is translated without an
    error: there is one result for every text, at its place, with the index and
    the length of that text, the first hypothesis of the model for it without
    its language tag, and a confidence between 0 and 1. *)
Theorem nllb_batch_one_per_text t m texts a b rs : t_model t = Some m -> _initialized t = true -> ct2_law m ->
  m (map (fun text => tag (_get_language_code a) :: _tokenize t text) texts) (replicate (length texts) [tag (_get_language_code b)]) BEAM MAX_LENGTH = Ok rs ->
  exists ds, batch_translate t texts a b BEAM MAX_LENGTH = Ok ds /\ length ds = length texts /\
    forall k text, texts !! k = Some text -> exists d r h c, ds !! k = Some d /\ rs !! k = Some r /\ head (hypotheses r) = Some h /\
      dict_get "translation" d = Some (PStr (_detokenize t (drop_tag h))) /\ dict_get "index" d = Some (PInt (Z.of_nat k)) /\
      dict_get "original_length" d = Some (PInt (Z.of_nat (String.length text))) /\ dict_get "confidence" d = Some (PFloat c) /\ (0 <= c <= 1)%Q.
Proof.
  intros Hm Hi Hlaw E. destruct (Hlaw _ _ _ _ _ E) as [Hl Hf]. rewrite length_map in Hl. unfold batch_translate, ready. rewrite Hm, Hi. cbn [rbind].
  destruct texts as [|x texts]; [exists []; by repeat split|]. rewrite E. cbn [rbind].
  destruct (collect_all t a b 0 (x :: texts) rs Hl Hf) as (ds & Ec & Hd & Hk). exists ds. split; [done|]. split; [done|].
  intros k text Ht. destruct (lookup_lt_is_Some_2 rs k) as [r Hr]; [rewrite Hl; by eapply lookup_lt_Some|].
  destruct (Hk k text r Ht Hr) as (d & h & c & ? & ? & ? & H4 & ?). exists d, r, h, c. do 5 (split; [done|]). done.
Qed.
(** A model that answers every text with the tag and two tokens *)
Definition demo_ct2 : ct2_model := fun toks pre _ _ => Ok (map (fun _ => CT2 [["__eng_Latn__"; "good"; "##bye"]] [(-1)%Q]) toks).
Definition demo_nt : NLLBTranslator := NT (Some demo_ct2) None true.
Lemma demo_ct2_law : ct2_law demo_ct2.
Proof. intros toks pre b l rs [= <-]. rewrite length_map. split; [done|]. apply Forall_forall. intros r (x & -> & _)%list_elem_of_fmap. done. Qed.
Lemma nllb_batch_one_per_text_witness : exists ds, batch_translate demo_nt ["au"; "revoir"] "fr" "en" BEAM MAX_LENGTH = Ok ds /\ length ds = 2%nat.
Proof.
  destruct (nllb_batch_one_per_text demo_nt demo_ct2 ["au"; "revoir"] "fr" "en" _ eq_refl eq_refl demo_ct2_law eq_refl) as (ds & H1 & H2 & _). eauto.
Defined.

(** Translating one text and translating the batch of that text give the
    same translation, languages, confidence and provider. *)
Theorem nllb_single_is_batch t text a b beam len d : (forall m, t_model t = Some m -> ct2_law m) ->
  translate t text a b beam len = Ok d ->
  exists d', batch_translate t [text] a b beam len = Ok [d'] /\
    forall k, k ∈ ["translation"; "source_language"; "target_language"; "confidence"; "provider"] -> dict_get k d' = dict_get k d.
Proof.
  intros Hlaw. unfold translate, batch_translate, ready. destruct (t_model t) as [m|] eqn:Em, (_initialized t); try done. cbn [rbind map replicate length].
  destruct (m _ _ _ _) as [rs|] eqn:E; [|done]. cbn [rbind]. destruct (Hlaw m eq_refl _ _ _ _ _ E) as [Hl _].
  destruct rs as [|r [|r' rs]]; try done. cbn [first rbind collect]. destruct (extract r) as [x|]; [|done]. cbn [first rbind collect tail].
  intros H. eexists. split; [done|]. assert (d = d) as _ by done. injection H as <-. intros k Hk. set_unfold in Hk. by destruct_or! Hk; subst.
Qed.
Lemma nllb_single_is_batch_witness : exists d', batch_translate demo_nt ["salut"] "fr" "en" 4 512 = Ok [d'] /\
  dict_get "translation" d' = Some (PStr "goodbye").
Proof.
  destruct (nllb_single_is_batch demo_nt "salut" "fr" "en" 4 512 _ ltac:(intros m [= <-]; apply demo_ct2_law) eq_refl) as (d' & H1 & H2).
  exists d'. split; [done|]. rewrite H2 by set_solver. vm_compute. reflexivity.
Defined.

(** ** The codes of the languages *)

Lemma table_lookup : forallb (fun kv => bool_decide (code_of kv.1 = Some kv.2)) LANGUAGE_CODES = true.
Proof. vm_compute. reflexivity. Qed.
(** A code of the table that has no underscore is found, in upper or
    lower case and with blanks around it, and gives the entry of the table. *)
Theorem language_code_found lang k v : (k, v) ∈ LANGUAGE_CODES -> char_in "_" k = false -> strip is_space (lower lang) = k -> _get_language_code lang = v.
Proof.
  intros Hin Hk Hl. unfold _get_language_code. rewrite Hl, Hk. cbn [andb]. pose proof table_lookup as Ht.
  rewrite forallb_forall in Ht. apply list_elem_of_In, Ht, bool_decide_eq_true in Hin. simpl in Hin. by rewrite Hin.
Qed.
Lemma language_code_found_witness : _get_language_code " FR " = "fra_Latn".
Proof. apply (language_code_found " FR " "fr" "fra_Latn"); [vm_compute; repeat (left || right)|..]; reflexivity. Defined.

(** The codes of the model itself are not accepted, although the
    documentation of [_get_language_code] says that they are: they are put in
    lower case, which makes of each a code the table does not have, and
    [is_language_supported] says no. *)
Theorem nllb_codes_not_accepted c : c ∈ map snd LANGUAGE_CODES ->
  _get_language_code c = lower c /\ (lower c ∉ map snd LANGUAGE_CODES) /\ is_language_supported c = false.
Proof.
  intros Hc. assert (forallb (fun c => String.eqb (_get_language_code c) (lower c) && negb (existsb (String.eqb (lower c)) (map snd LANGUAGE_CODES)) &&
    negb (is_language_supported c)) (map snd LANGUAGE_CODES) = true) as H by (vm_compute; reflexivity).
  rewrite forallb_forall in H. apply list_elem_of_In, H in Hc. clear H. rewrite !andb_true_iff, !negb_true_iff in Hc. destruct Hc as [[H1%String.eqb_eq H2] H3].
  split; [done|]. split; [|done]. intros Hin%list_elem_of_In. apply not_true_iff_false in H2. apply H2, existsb_exists. eexists. split; [done|]. apply String.eqb_refl.
Qed.
Lemma nllb_codes_not_accepted_witness : _get_language_code "eng_Latn" = "eng_latn".
Proof. apply (nllb_codes_not_accepted "eng_Latn"). vm_compute. left. Defined.
(** The reverse table leads back. *)
Lemma nllb_to_iso_back c k : NLLB_TO_ISO !! c = Some k -> code_of k = Some c.
Proof.
  assert (map_Forall (fun c k => code_of k = Some c) NLLB_TO_ISO) as H by (apply (bool_decide_unpack _); vm_compute; exact I). apply H.
Qed.
