(* ===== verification/TranslationService.v ===== *)
(** * The translation service

    document_processor/services/translation_service.py: translation of a text
    through the cache, the rate limit, the local model and the fallback
    providers; batches; and the jobs a background loop takes from its queue.
    The models, the language detector and Redis (the server of Cache.v) are
    parameters; a call may raise.  Readings of the clock are arguments.  An
    initialised service is modelled: connecting, and the lifetime of the
    background task, are left out. *)

From S2P Require Import Prelude PyStr PyVal PyConv Json Cache Language ThinkingRoutes Research Nllb.
From Stdlib Require Import Ascii.
#[local] Open Scope py_scope.
#[local] Open Scope Z_scope.

Abbreviation dict := (list (string * pyval)).

Variant TranslationStatus := PENDING | IN_PROGRESS | COMPLETED | FAILED | SKIPPED.
Variant TranslationProvider := NLLB_LOCAL | CLAUDE | GOOGLE | AZURE.
Definition status_value (s : TranslationStatus) : string :=
  match s with PENDING => "pending" | IN_PROGRESS => "in_progress" | COMPLETED => "completed" | FAILED => "failed" | SKIPPED => "skipped" end.
(** [TranslationStatus(value)] *)
Definition status_of_value (v : pyval) : result pyexn TranslationStatus :=
  match List.find (fun s => bool_decide (v = PStr (status_value s))) [PENDING; IN_PROGRESS; COMPLETED; FAILED; SKIPPED] with
  | Some s => Ok s
  | None => Err (PyExn "ValueError" "not a valid TranslationStatus")
  end.

Record TranslationConfig := TConfig {
  fallback_providers : list TranslationProvider; batch_size : Z; cache_ttl_days : Z; verify_output_language : bool;
  max_chars_per_minute : Z; max_requests_per_minute : Z; max_batch_wait_seconds : Q }.
Record TranslationJob := TJob {
  j_id : string; j_text : string; j_source : option string; j_target : string; j_status : TranslationStatus; j_priority : Z; j_created_at : string;
  j_completed_at : option string; j_result : pyval; j_confidence : pyval; j_provider : pyval; j_error : pyval; j_metadata : dict }.
Definition job_to_dict (j : TranslationJob) : dict :=
  [("id", PStr (j_id j)); ("text", PStr (j_text j)); ("source_language", opt_str (j_source j)); ("target_language", PStr (j_target j));
   ("status", PStr (status_value (j_status j))); ("priority", PInt (j_priority j)); ("created_at", PStr (j_created_at j));
   ("completed_at", opt_str (j_completed_at j)); ("result", j_result j); ("confidence", j_confidence j); ("provider", j_provider j);
   ("error", j_error j); ("metadata", PDict (j_metadata j))].
(** [data[k]], a string.  The dates are kept as their texts, which
    [fromisoformat] and [isoformat] turn round. *)
Definition need (k : string) (d : dict) : result pyexn string :=
  match dict_get k d with Some (PStr s) => Ok s | Some _ => Err (PyExn "TypeError" k) | None => Err (PyExn "KeyError" ("'" +:+ k +:+ "'")) end.
Definition text_field (k : string) (d : dict) : option string := match dict_get k d with Some (PStr s) => Some s | _ => None end.
Definition job_from_dict (d : dict) : result pyexn TranslationJob :=
  id <-! need "id" d; text <-! need "text" d; target <-! need "target_language" d;
  st <-! (match dict_get "status" d with Some v => status_of_value v | None => Err (PyExn "KeyError" "'status'") end);
  created <-! need "created_at" d;
  Ok (TJob id text (text_field "source_language" d) target st (match dict_get "priority" d with Some (PInt z) => z | _ => 0 end) created
        (match text_field "completed_at" d with Some s => if String.eqb s "" then None else Some s | None => None end)
        (sget "result" d) (sget "confidence" d) (sget "provider" d) (sget "error" d)
        (match dict_get "metadata" d with Some (PDict m) => m | _ => [] end)).

Record TranslationStats := TStats {
  total_translations : Z; successful_translations : Z; failed_translations : Z; cached_translations : Z; total_characters : Z;
  errors_by_type : gmap string Z; translations_by_provider : gmap string Z; translations_by_language_pair : gmap string Z }.
Definition new_tstats : TranslationStats := TStats 0 0 0 0 0 ∅ ∅ ∅.

Section service.
Context {R : Type} `{RedisServer R} {T : Type} `{TextTranslator T}.
Variable cfg : TranslationConfig.
Variable sha256 : string -> string.
Variable float_repr : Q -> string.
Variable atom_repr : pyval -> string.
(** [None] where the detector is not installed *)
Variable detector : option (string -> result pyexn (string * Q)).
(** [None] where the local model could not be loaded *)
Variable translator : option T.
Variable claude : string -> string -> string -> result pyexn string.
(** [isoformat] of the moment a translation is stored *)
Variable cached_at : string.

(** The cache is there or not; its hits and misses *)
Record service := Service {
  sv_redis : R; sv_cache : option (Z * Z); sv_request_times : list Q; sv_char_counts : list (Q * Z); sv_stats : TranslationStats; sv_queue : list TranslationJob }.
Definition set_redis r s := Service r (sv_cache s) (sv_request_times s) (sv_char_counts s) (sv_stats s) (sv_queue s).
Definition set_cache c s := Service (sv_redis s) c (sv_request_times s) (sv_char_counts s) (sv_stats s) (sv_queue s).
Definition set_rates t c s := Service (sv_redis s) (sv_cache s) t c (sv_stats s) (sv_queue s).
Definition upd_stats f s := Service (sv_redis s) (sv_cache s) (sv_request_times s) (sv_char_counts s) (f (sv_stats s)) (sv_queue s).
Definition set_queue q s := Service (sv_redis s) (sv_cache s) (sv_request_times s) (sv_char_counts s) (sv_stats s) q.
Definition add_total n st := TStats (total_translations st + n) (successful_translations st) (failed_translations st) (cached_translations st) (total_characters st)
  (errors_by_type st) (translations_by_provider st) (translations_by_language_pair st).
Definition add_success n st := TStats (total_translations st) (successful_translations st + n) (failed_translations st) (cached_translations st) (total_characters st)
  (errors_by_type st) (translations_by_provider st) (translations_by_language_pair st).
Definition add_failed n st := TStats (total_translations st) (successful_translations st) (failed_translations st + n) (cached_translations st) (total_characters st)
  (errors_by_type st) (translations_by_provider st) (translations_by_language_pair st).
Definition add_cached n st := TStats (total_translations st) (successful_translations st) (failed_translations st) (cached_translations st + n) (total_characters st)
  (errors_by_type st) (translations_by_provider st) (translations_by_language_pair st).
Definition add_chars n st := TStats (total_translations st) (successful_translations st) (failed_translations st) (cached_translations st) (total_characters st + n)
  (errors_by_type st) (translations_by_provider st) (translations_by_language_pair st).
Definition count_error ty st := TStats (total_translations st) (successful_translations st) (failed_translations st) (cached_translations st) (total_characters st)
  (counter_add ty 1 (errors_by_type st)) (translations_by_provider st) (translations_by_language_pair st).
Definition count_by p pair st := TStats (total_translations st) (successful_translations st) (failed_translations st) (cached_translations st) (total_characters st)
  (errors_by_type st) (counter_add p 1 (translations_by_provider st)) (counter_add pair 1 (translations_by_language_pair st)).

Definition svc (A : Type) : Type := service -> result pyexn A * service.
Definition vbind {A B} (m : svc A) (k : A -> svc B) : svc B := fun s => match m s with (Ok a, s') => k a s' | (Err e, s') => (Err e, s') end.
Definition vret {A} (x : result pyexn A) : svc A := fun s => (x, s).
Definition vdo (f : service -> service) : svc unit := fun s => (Ok (), f s).
#[local] Notation "x <~ m ; k" := (vbind m (fun x => k)) (at level 60, m at next level, right associativity).
Definition redis_do {A} (c : command A) : svc A := fun s => let '(x, r) := exec c (sv_redis s) in (x, set_redis r s).

(** ** The cache *)

Definition _compute_key (text source_lang target_lang : string) : string := "translation:" +:+ sha256 (text +:+ "|" +:+ source_lang +:+ "|" +:+ target_lang).
Definition count_hit (hit : bool) (s : service) : service :=
  set_cache (hm ← sv_cache s; Some (if hit then (hm.1 + 1, hm.2) else (hm.1, hm.2 + 1))) s.
Definition cache_get (text source_lang target_lang : string) : svc (option pyval) :=
  cached <~ redis_do (Get (_compute_key text source_lang target_lang));
  if truthy_str cached then
    _ <~ vdo (count_hit true); vret (v <-! json_loads (default "" cached); Ok (Some v))
  else _ <~ vdo (count_hit false); vret (Ok None).
Definition cache_value (source_lang target_lang : string) (translation confidence provider : pyval) : dict :=
  [("translation", translation); ("source_language", PStr source_lang); ("target_language", PStr target_lang); ("confidence", confidence);
   ("provider", provider); ("cached_at", PStr cached_at)].
Definition cache_set (text source_lang target_lang : string) (translation confidence provider : pyval) : svc unit :=
  v <~ vret (json_dumps float_repr (PDict (cache_value source_lang target_lang translation confidence provider)));
  _ <~ redis_do (SetEx (_compute_key text source_lang target_lang) (cache_ttl_days cfg * 24 * 60 * 60) v);
  vret (Ok ()).
Definition hit_rate (hm : Z * Z) : Q := if hm.1 + hm.2 =? 0 then 0%Q else qdiv hm.1 (hm.1 + hm.2).
(** [cached["from_cache"] = True; cached["success"] = True] *)
Definition mark_cached (v : pyval) : result pyexn dict :=
  match v with
  | PDict d => Ok (dict_set "success" (PBool true) (dict_set "from_cache" (PBool true) d))
  | _ => Err (type_error v "does not support item assignment")
  end.

(** ** One text *)

Definition _detect_language (text : string) : result pyexn (option string) :=
  match detector with
  | None => Ok None
  | Some f => or_else (r <-! f (str_take (Z.to_nat 1000) text); Ok (Some r.1)) None
  end.
Definition recent (now : Q) (t : Q) : bool := Qltb (now - t) 60.
Definition zsum (l : list Z) : Z := foldr Z.add 0 l.
Definition _check_rate_limits (char_count : Z) (now : Q) : svc bool := fun s =>
  let times := List.filter (recent now) (sv_request_times s) in
  let chars := List.filter (fun tc => recent now tc.1) (sv_char_counts s) in
  (Ok (negb (max_requests_per_minute cfg <=? zlength times) && negb (max_chars_per_minute cfg <? zsum (map snd chars) + char_count)), set_rates times chars s).
Definition _update_rate_limits (char_count : Z) (now : Q) : svc unit :=
  vdo (fun s => set_rates (sv_request_times s ++ [now]) (sv_char_counts s ++ [(now, char_count)]) s).

Definition failure (error : string) : dict := [("success", PBool false); ("error", PStr error)].
Definition _translate_with_provider (text source_language target_language : string) (p : TranslationProvider) : result pyexn dict :=
  match p with
  | CLAUDE =>
      match claude text source_language target_language with
      | Ok t => Ok [("success", PBool true); ("translation", PStr t); ("source_language", PStr source_language); ("target_language", PStr target_language);
                    ("provider", PStr "claude"); ("confidence", PFloat (9 # 10))]
      | Err e => if CancelledError e then Err e else Ok (failure (exn_str e))
      end
  | NLLB_LOCAL => Ok (failure "Provider TranslationProvider.NLLB_LOCAL not implemented")
  | GOOGLE => Ok (failure "Provider TranslationProvider.GOOGLE not implemented")
  | AZURE => Ok (failure "Provider TranslationProvider.AZURE not implemented")
  end.
Fixpoint try_fallbacks (text source_language target_language : string) (ps : list TranslationProvider) : result pyexn dict :=
  match ps with
  | [] => Ok (failure "All translation providers failed")
  | p :: ps' =>
      r <-! _translate_with_provider text source_language target_language p;
      if truthy (sget "success" r) then Ok r else try_fallbacks text source_language target_language ps'
  end.
(** The language of the output *)
Definition verified (target_language : string) (r : dict) : result pyexn dict :=
  if negb (verify_output_language cfg) then Ok r else
  t <-! need "translation" r;
  d <-! _detect_language t;
  let mismatch := match d with Some l => negb (String.eqb l "") && negb (String.eqb l target_language) | None => false end in
  Ok (dict_set "language_verified" (PBool (negb mismatch)) r).
(** A time-out and any other failure of the local model lead to the fallback
    providers *)
Definition _do_translate (text source_language target_language : string) : result pyexn dict :=
  let fallback := try_fallbacks text source_language target_language (fallback_providers cfg) in
  match translator with
  | None => fallback
  | Some m =>
      match (r <-! translate_one m text source_language target_language; verified target_language (dict_set "success" (PBool true) r)) with
      | Ok r => Ok r
      | Err e => if CancelledError e then Err e else fallback
      end
  end.
Definition or_text (v : pyval) (d : string) : string := match v with PStr s => s | _ => d end.
(** The statements of the [try] block after the translation *)
Definition record_result (text source_language target_language : string) (result : dict) (now : Q) : svc unit :=
  _ <~ _update_rate_limits (Z.of_nat (String.length text)) now;
  _ <~ vdo (upd_stats (fun st => add_chars (Z.of_nat (String.length text)) (add_total 1 st)));
  if truthy (sget "success" result) then
    _ <~ vdo (upd_stats (fun st => count_by (match dict_get "provider" result with Some v => py_str atom_repr v | None => "unknown" end)
                                     (source_language +:+ "->" +:+ target_language) (add_success 1 st)));
    fun s => if bool_decide (is_Some (sv_cache s)) && truthy (sget "translation" result)
             then cache_set text source_language target_language (sget "translation" result) (default (PFloat 0) (dict_get "confidence" result))
                    (default (PStr "unknown") (dict_get "provider" result)) s
             else (Ok (), s)
  else vdo (upd_stats (add_failed 1)).
Definition translate_now (text source_language target_language : string) (now : Q) : svc dict := fun s =>
  match (r <~ vret (_do_translate text source_language target_language); _ <~ record_result text source_language target_language r now; vret (Ok r)) s with
  | (Ok r, s') => (Ok (dict_set "from_cache" (PBool false) r), s')
  | (Err e, s') => if CancelledError e then (Err e, s') else (Ok (failure (exn_str e)), upd_stats (fun st => count_error (exn_type e) (add_failed 1 st)) s')
  end.
(** The times a call takes are left out of its result.  A missing source
    language is detected; without [detect_language_if_missing] the text
    [None] stands for it. *)
Definition translate (text : string) (source_language : option string) (target_language : string) (use_cache detect_missing : bool) (now now' : Q) : svc dict :=
  src <~ (if negb (truthy_str source_language) && detect_missing then vret (_detect_language text) else vret (Ok source_language));
  if negb (truthy_str source_language) && detect_missing && negb (truthy_str src) then vret (Ok (failure "Could not detect source language")) else
  if bool_decide (src = Some target_language) then
    _ <~ vdo (upd_stats (add_total 1));
    vret (Ok [("success", PBool true); ("translation", PStr text); ("source_language", opt_str src); ("target_language", PStr target_language);
              ("skipped", PBool true); ("reason", PStr "Already in target language")])
  else
    let lang := default "None" src in
    cached <~ (fun s => if use_cache && bool_decide (is_Some (sv_cache s)) then cache_get text lang target_language s else (Ok None, s));
    match (v ← cached; if truthy v then Some v else None) with
    | Some v => _ <~ vdo (upd_stats (fun st => add_total 1 (add_cached 1 st))); vret (mark_cached v)
    | None =>
        ok <~ _check_rate_limits (Z.of_nat (String.length text)) now;
        if ok : bool then translate_now text lang target_language now' else vret (Ok (failure "Rate limit exceeded" ++ [("retry_after", PInt 60)]))
    end.

(** ** Batches *)

(** Which texts the cache answers: the results with their positions, and the
    positions and texts that are left *)
Fixpoint look_up (source_language target_language : string) (l : list (nat * string)) : svc (list (nat * dict) * list (nat * string)) :=
  match l with
  | [] => vret (Ok ([], []))
  | (i, text) :: l' =>
      cached <~ cache_get text source_language target_language;
      match (v ← cached; if truthy v then Some v else None) with
      | Some v =>
          d <~ vret (mark_cached v);
          _ <~ vdo (upd_stats (add_cached 1));
          rest <~ look_up source_language target_language l';
          vret (Ok ((i, d) :: rest.1, rest.2))
      | None => rest <~ look_up source_language target_language l'; vret (Ok (rest.1, (i, text) :: rest.2))
      end
  end.
(** [uncached_texts[batch_results.index(result)]]: of the first result that is
    equal, some of them marked already *)
Definition marked (r : dict) : dict := dict_set "from_cache" (PBool false) (dict_set "success" (PBool true) r).
Fixpoint first_equal (r : dict) (rs : list dict) : nat :=
  match rs with [] => 0%nat | x :: rs' => if bool_decide (x = r) then 0%nat else S (first_equal r rs') end.
(** The loop over the results: those handled so far, and how it ended *)
Fixpoint store_results (source_language target_language : string) (texts : list string) (before : list dict) (l : list (nat * dict)) (s : service)
  : list (nat * dict) * result pyexn unit * service :=
  match l with
  | [] => ([], Ok (), s)
  | (i, r) :: l' =>
      let r := marked r in
      let all := before ++ r :: map snd l' in
      let '(x, s) :=
        (if bool_decide (is_Some (sv_cache s)) then
           match texts !! first_equal r all, dict_get "translation" r with
           | Some t, Some tr => cache_set t source_language target_language tr (default (PFloat 0) (dict_get "confidence" r)) (default (PStr "unknown") (dict_get "provider" r)) s
           | None, _ => (Err (PyExn "IndexError" "list index out of range"), s)
           | _, None => (Err (PyExn "KeyError" "'translation'"), s)
           end
         else (Ok (), s)) in
      match x with
      | Err e => ([(i, r)], Err e, s)
      | Ok _ => let '(done_, e, s) := store_results source_language target_language texts (before ++ [r]) l' s in ((i, r) :: done_, e, s)
      end
  end.
Definition translate_left (source_language target_language : string) (left : list (nat * string)) (s : service) : result pyexn (list (nat * dict)) * service :=
  match left, translator with
  | _ :: _, Some m =>
      let failed e s := (if CancelledError e then Err e else Ok (map (fun it => (it.1, failure (exn_str e))) left),
                         if CancelledError e then s else upd_stats (add_failed (zlength left)) s) in
      match translate_many m (map snd left) source_language target_language with
      | Err e => failed e s
      | Ok rs =>
          let '(done_, x, s) := store_results source_language target_language (map snd left) [] (zip (map fst left) rs) s in
          match x with
          | Ok _ => (Ok done_, upd_stats (add_success (zlength rs)) s)
          | Err e => match failed e s with (Ok fs, s) => (Ok (done_ ++ fs), s) | (Err e, s) => (Err e, s) end
          end
      end
  | _, _ => (Ok [], s)
  end.
(** [results.sort(key=lambda x: x[0])], which is stable *)
Fixpoint insert_by (x : nat * dict) (l : list (nat * dict)) : list (nat * dict) :=
  match l with [] => [x] | y :: l' => if (x.1 <=? y.1)%nat then x :: l else y :: insert_by x l' end.
Definition sort_by_index (l : list (nat * dict)) : list (nat * dict) := foldr insert_by [] l.
Definition batch_translate (texts : list string) (source_language : option string) (target_language : string) : svc (list dict) :=
  match texts with
  | [] => vret (Ok [])
  | t0 :: _ =>
      src <~ vret (if truthy_str source_language then Ok source_language else _detect_language t0);
      if negb (truthy_str src) then vret (Ok (replicate (length texts) (failure "Could not detect language"))) else
      let lang := default "" src in
      found <~ (fun s => if bool_decide (is_Some (sv_cache s)) then look_up lang target_language (zip (seq 0 (length texts)) texts) s
                         else (Ok ([], zip (seq 0 (length texts)) texts), s));
      more <~ translate_left lang target_language found.2;
      vret (Ok (map snd (sort_by_index (found.1 ++ more))))
  end.

(** ** Jobs *)

Definition JOB_TTL : Z := 86400.
Definition job_key (id : string) : string := "translation_job:" +:+ id.
Definition store_job (j : TranslationJob) : svc unit :=
  v <~ vret (json_dumps float_repr (PDict (job_to_dict j)));
  _ <~ redis_do (SetEx (job_key (j_id j)) JOB_TTL v);
  vret (Ok ()).
(** Without Kafka: the job goes to the queue of this process *)
Definition enqueue_translation (id text : string) (source_language : option string) (target_language : string) (priority : Z) (metadata : dict) (now_iso : string) : svc string :=
  let job := TJob id text source_language target_language PENDING priority now_iso None PNone PNone PNone PNone metadata in
  _ <~ store_job job;
  _ <~ vdo (fun s => set_queue (sv_queue s ++ [job]) s);
  vret (Ok id).
Definition get_job_status (id : string) : svc (option pyval) :=
  data <~ redis_do (Get (job_key id));
  if truthy_str data then vret (v <-! json_loads (default "" data); Ok (Some v)) else vret (Ok None).

Definition with_result (r : dict) (now_iso : string) (j : TranslationJob) : TranslationJob :=
  TJob (j_id j) (j_text j) (j_source j) (j_target j) (if truthy (sget "success" r) then COMPLETED else FAILED) (j_priority j) (j_created_at j) (Some now_iso)
    (sget "translation" r) (sget "confidence" r) (sget "provider" r) (sget "error" r) (j_metadata j).
Definition with_error (e : string) (now_iso : string) (j : TranslationJob) : TranslationJob :=
  TJob (j_id j) (j_text j) (j_source j) (j_target j) FAILED (j_priority j) (j_created_at j) (Some now_iso)
    (j_result j) (j_confidence j) (j_provider j) (PStr e) (j_metadata j).
Fixpoint store_jobs (js : list TranslationJob) : svc unit :=
  match js with [] => vret (Ok ()) | j :: js' => _ <~ store_job j; store_jobs js' end.
(** The jobs by language pair, in the order in which the pairs appear *)
Definition pair_of (j : TranslationJob) : option string * string := (j_source j, j_target j).
Definition has_pair (p : option string * string) (g : list TranslationJob) : bool := match g with k :: _ => bool_decide (pair_of k = p) | [] => false end.
Fixpoint group_jobs (js : list TranslationJob) : list (list TranslationJob) :=
  match js with
  | [] => []
  | j :: js' =>
      let gs := group_jobs js' in
      (j :: default [] (List.find (has_pair (pair_of j)) gs)) :: List.filter (fun g => negb (has_pair (pair_of j) g)) gs
  end.
(** The loop over the jobs and their results: the jobs after it, and how it
    ended *)
Fixpoint update_jobs (now_iso : string) (js : list TranslationJob) (rs : list dict) (s : service) : list TranslationJob * result pyexn unit * service :=
  match js, rs with
  | j :: js', r :: rs' =>
      let j := with_result r now_iso j in
      match store_job j s with
      | (Err e, s) => (j :: js', Err e, s)
      | (Ok _, s) => let '(l, x, s) := update_jobs now_iso js' rs' s in (j :: l, x, s)
      end
  | _, _ => (js, Ok (), s)
  end.
Definition process_group (now_iso : string) (g : list TranslationJob) (s : service) : list TranslationJob * result pyexn unit * service :=
  match g with
  | [] => ([], Ok (), s)
  | j0 :: _ =>
      let '(after, x, s) := match batch_translate (map j_text g) (j_source j0) (j_target j0) s with
                            | (Ok rs, s) => update_jobs now_iso g rs s
                            | (Err e, s) => (g, Err e, s)
                            end in
      match x with
      | Ok _ => (after, Ok (), s)
      | Err e => if CancelledError e then (after, Err e, s)
                 else let failed := map (with_error (exn_str e) now_iso) after in let '(y, s) := store_jobs failed s in (failed, y, s)
      end
  end.
Fixpoint process_groups (now_iso : string) (gs : list (list TranslationJob)) (s : service) : list TranslationJob * result pyexn unit * service :=
  match gs with
  | [] => ([], Ok (), s)
  | g :: gs' =>
      let '(a, x, s) := process_group now_iso g s in
      match x with
      | Err e => (a ++ concat gs', Err e, s)
      | Ok _ => let '(b, y, s) := process_groups now_iso gs' s in (a ++ b, y, s)
      end
  end.
Definition _process_batch (now_iso : string) (jobs : list TranslationJob) (s : service) : list TranslationJob * result pyexn unit * service :=
  process_groups now_iso (group_jobs jobs) s.
(** One turn of the background loop: the batch, the time of the last one, and
    whether the loop goes on.  The job at the head of the queue is taken; with
    an empty queue the wait times out.  The jobs of the batch are the objects
    the groups hold, so that after an error the batch has them as they were
    left. *)
Definition left_as (after : list TranslationJob) (j : TranslationJob) : TranslationJob :=
  default j (List.find (fun k => String.eqb (j_id k) (j_id j)) after).
Definition batch_processor_turn (now now' : Q) (now_iso : string) (batch : list TranslationJob) (last_batch_time : Q) (s : service)
  : list TranslationJob * Q * bool * service :=
  let s' := set_queue (tail (sv_queue s)) s in
  let batch := batch ++ match sv_queue s with j :: _ => [j] | [] => [] end in
  let waited := match batch with [] => false | _ => Qle_bool (max_batch_wait_seconds cfg) (now - last_batch_time) end in
  if ((batch_size cfg <=? zlength batch) || waited) && negb (zlength batch =? 0) then
    let '(after, x, s) := _process_batch now_iso batch s' in
    match x with
    | Ok _ => ([], now', true, s)
    | Err e => (map (left_as after) batch, last_batch_time, negb (CancelledError e), s)
    end
  else (batch, last_batch_time, true, s').

(** ** The order of a batch *)

Section sorting.
Local Abbreviation entry := (nat * list (string * pyval))%type.
Implicit Types (x : entry) (l : list entry).
Lemma insert_by_perm x l : insert_by x l ≡ₚ x :: l.
Proof. induction l as [|y l IH]; simpl; [done|]. destruct (x.1 <=? y.1)%nat; [done|]. rewrite IH. apply Permutation_swap. Qed.
Lemma sort_by_index_perm l : sort_by_index l ≡ₚ l.
Proof. induction l as [|x l IH]; [done|]. simpl. by rewrite insert_by_perm, IH. Qed.
Lemma insert_by_sorted x l : StronglySorted le (map fst l) -> StronglySorted le (map fst (insert_by x l)).
Proof.
  induction l as [|y l IH]; intros Hl; simpl; [by repeat constructor|]. inversion Hl as [|? ? Hs Hf]; subst.
  destruct (Nat.leb_spec x.1 y.1) as [Hle|Hlt]; simpl.
  - constructor; [done|]. constructor; [done|]. eapply Forall_impl; [exact Hf|]. simpl. lia.
  - constructor; [by apply IH|]. rewrite insert_by_perm. simpl. constructor; [lia|done].
Qed.
Lemma sort_by_index_sorted l : StronglySorted le (map fst (sort_by_index l)).
Proof. induction l as [|x l IH]; simpl; [constructor|]. by apply insert_by_sorted. Qed.
Lemma seq_sorted n k : StronglySorted le (seq k n).
Proof.
  revert k. induction n as [|n IH]; intros k; simpl; constructor; [done|]. apply Forall_forall. intros i Hi. apply list_elem_of_In, in_seq in Hi. lia.
Qed.
(** Results whose positions are those of the texts come out at them. *)
Lemma sort_by_index_seq l n : map fst l ≡ₚ seq 0 n -> map fst (sort_by_index l) = seq 0 n.
Proof.
  intros Hp. apply (StronglySorted_unique le); [apply sort_by_index_sorted|apply seq_sorted|]. by rewrite sort_by_index_perm.
Qed.
Lemma sorted_lookup l n i d : map fst l ≡ₚ seq 0 n -> (i < n)%nat ->
  map snd (sort_by_index l) !! i = Some d -> (i, d) ∈ l.
Proof.
  intros Hp Hi Hd. apply list_lookup_fmap_Some in Hd as ([j d'] & -> & Hl).
  assert (Hj : map fst (sort_by_index l) !! i = Some j) by (by rewrite list_lookup_fmap, Hl).
  rewrite sort_by_index_seq with (n := n), lookup_seq_lt in Hj by done. simplify_eq. rewrite <- sort_by_index_perm. by eapply list_elem_of_lookup_2.
Qed.
End sorting.

(** ** What a batch answers *)

Context `{!RedisServerLaws R}.

(** The answers to one text, for the keyspace with which the batch began *)
Inductive batch_answer (ks : keyspace) (lang target : string) (text : string) (d : list (string * pyval)) : Prop :=
| answer_cached time raw v :
    value_at time ks (_compute_key text lang target) = Some raw -> json_loads raw = Ok v -> mark_cached v = Ok d -> batch_answer ks lang target text d
| answer_model m texts ds k r :
    translator = Some m -> translate_many m texts lang target = Ok ds -> texts !! k = Some text -> ds !! k = Some r -> d = marked r ->
    batch_answer ks lang target text d
| answer_failure e : d = failure e -> batch_answer ks lang target text d.

Lemma cache_get_ok text a b s c s' : cache_get text a b s = (Ok c, s') ->
  view (sv_redis s') = view (sv_redis s) /\
  forall v, c = Some v -> exists time raw, value_at time (view (sv_redis s)) (_compute_key text a b) = Some raw /\ json_loads raw = Ok v.
Proof.
  unfold cache_get, vbind, redis_do. pose proof (exec_law _ (Get (_compute_key text a b)) (sv_redis s)) as [_ Hlaw].
  destruct (exec (Get _) (sv_redis s)) as [[x|] r']; [|done]. simpl in Hlaw. destruct Hlaw as (t & _ & -> & Hv).
  destruct (value_at t _ _) as [raw|] eqn:Eraw; [destruct (truthy_str (Some raw))|]; simpl.
  - destruct (json_loads raw) as [v|] eqn:Ej; [|done]. simpl. intros [= <- <-]. simpl. split; [done|]. intros ? [= <-]. eauto.
  - intros [= <- <-]. done.
  - intros [= <- <-]. done.
Qed.

Lemma look_up_ok a b l s res s' : look_up a b l s = (Ok res, s') ->
  map fst res.1 ++ map fst res.2 ≡ₚ map fst l /\ (forall p, p ∈ res.2 -> p ∈ l) /\
  (forall i d, (i, d) ∈ res.1 -> exists text, (i, text) ∈ l /\ batch_answer (view (sv_redis s)) a b text d).
Proof.
  revert s res. induction l as [|[i text] l IH]; intros s res; cbn [look_up]; [intros [= <- <-]; simpl; split_and!; set_solver|].
  unfold vbind at 1. destruct (cache_get text a b s) as [[c|] s1] eqn:Ec; [|done]. destruct (cache_get_ok _ _ _ _ _ _ Ec) as [Hv Hc].
  destruct (v ← c; if truthy v then Some v else None) as [v|] eqn:Ev.
  - destruct c as [v'|]; [|done]. simpl in Ev. destruct (truthy v'); [|done]. injection Ev as ->. destruct (Hc v eq_refl) as (time & raw & Hr & Hj).
    unfold vbind at 1, vret at 1. destruct (mark_cached v) as [d|] eqn:Ed; [|done]. unfold vbind at 1, vdo. unfold vbind at 1.
    destruct (look_up a b l _) as [[rest|] s2] eqn:El; [|done]. intros [= <- <-]. destruct (IH _ _ El) as (J1 & J2 & J3). simpl in J3. rewrite Hv in J3. simpl.
    split_and!; [by rewrite J1|set_solver|]. intros j d' [[= -> ->]|Hin]%elem_of_cons; [|destruct (J3 j d' Hin) as (t & ? & ?); exists t; split; [set_solver|done]].
    exists text. split; [set_solver|]. by eapply answer_cached.
  - unfold vbind at 1. destruct (look_up a b l s1) as [[rest|] s2] eqn:El; [|done]. intros [= <- <-]. destruct (IH _ _ El) as (J1 & J2 & J3). rewrite Hv in J3. simpl.
    split_and!; [by rewrite <- Permutation_middle, J1|set_solver|]. intros j d' Hin. destruct (J3 j d' Hin) as (t & ? & ?). exists t. split; [set_solver|done].
Qed.

(** Translations are kept for some time, and every write with such a time
    succeeds. *)
Definition writes_succeed : Prop := 0 < cache_ttl_days cfg /\ forall k ttl v r, 0 < ttl -> exists x, (exec (SetEx k ttl v) r).1 = Ok x.

Lemma cache_value_dumps a b tr c p : exists w, json_dumps float_repr (PDict (cache_value a b (PStr tr) (PFloat c) (PStr p))) = Ok w.
Proof. unfold cache_value. cbn -[json_string join]. eauto. Qed.
Lemma cache_set_ok text a b d s : writes_succeed -> translated d ->
  exists s', cache_set text a b (sget "translation" d) (default (PFloat 0) (dict_get "confidence" d)) (default (PStr "unknown") (dict_get "provider" d)) s = (Ok (), s').
Proof.
  intros Hw (tr & c & p & J1 & J2 & J3). unfold cache_set, sget. rewrite J1, J2, J3. unfold vbind at 1. simpl default.
  destruct (cache_value_dumps a b tr c p) as [w ->]. cbv [vret]. cbv beta match. unfold vbind, redis_do.
  destruct Hw as [Hd Hw]. destruct (Hw (_compute_key text a b) (cache_ttl_days cfg * 24 * 60 * 60) w (sv_redis s)) as [x Hx]; [lia|]. destruct (exec _ _) as [y r]. simpl in Hx. subst y. eauto.
Qed.
Lemma marked_translated d : translated d -> translated (marked d).
Proof. intros (tr & c & p & J1 & J2 & J3). exists tr, c, p. unfold marked. by rewrite !dict_get_set_ne by done. Qed.
Lemma first_equal_lt r l : r ∈ l -> (first_equal r l < length l)%nat.
Proof.
  induction l as [|x l IH]; intros Hr; [by apply not_elem_of_nil in Hr|]. simpl. case_bool_decide; [lia|]. apply elem_of_cons in Hr as [->|Hr]; [done|].
  specialize (IH Hr). lia.
Qed.
Lemma store_results_ok a b texts before l s : writes_succeed -> Forall (fun p => translated p.2) l -> length texts = (length before + length l)%nat ->
  exists s', store_results a b texts before l s = (map (fun p => (p.1, marked p.2)) l, Ok (), s').
Proof.
  intros Hw. revert before s. induction l as [|[i r] l IH]; intros before s Hl Hlen; cbn [store_results]; [eauto|].
  inversion Hl as [|? ? Hr Hl']; subst. cbv zeta. cbn [length] in Hlen. simpl in Hr.
  set (all := before ++ marked r :: map snd l).
  assert (exists s1, (if bool_decide (is_Some (sv_cache s)) then
     match texts !! first_equal (marked r) all, dict_get "translation" (marked r) with
     | Some t, Some tr => cache_set t a b tr (default (PFloat 0) (dict_get "confidence" (marked r))) (default (PStr "unknown") (dict_get "provider" (marked r))) s
     | None, _ => (Err (PyExn "IndexError" "list index out of range"), s)
     | _, None => (Err (PyExn "KeyError" "'translation'"), s)
     end else (Ok (), s)) = (Ok (), s1)) as [s1 E].
  { case_bool_decide; [|eauto].
    assert (first_equal (marked r) all < length texts)%nat as Hlt.
    { eapply Nat.lt_le_trans; [apply first_equal_lt; unfold all; set_solver|]. unfold all. rewrite length_app, Hlen. cbn [length]. rewrite length_map. lia. }
    apply lookup_lt_is_Some_2 in Hlt as [t Ht]. rewrite Ht. destruct (marked_translated r Hr) as (tr & c & p & J1 & J2 & J3). rewrite J1.
    destruct (cache_set_ok t a b (marked r) s Hw) as [s1 Hs]; [by exists tr, c, p|]. unfold sget in Hs. rewrite J1 in Hs. eauto. }
  rewrite E. destruct (IH (before ++ [marked r]) s1 Hl') as [s2 E2]; [rewrite length_app; simpl; lia|]. rewrite E2. eauto.
Qed.

(** The local model is there, and answers as it should. *)
Definition model_lawful : Prop := exists m, translator = Some m /\ LawfulTranslator m.

Lemma translate_left_ok a b left s more s' ks : writes_succeed -> model_lawful -> translate_left a b left s = (Ok more, s') ->
  map fst more = map fst left /\ (forall i d, (i, d) ∈ more -> exists text, (i, text) ∈ left /\ batch_answer ks a b text d).
Proof.
  intros Hw (m & Hm & Hlaw). unfold translate_left. rewrite Hm. destruct left as [|it left']; [intros [= <- _]; split; [done|set_solver]|].
  remember (it :: left') as left eqn:Hleft. clear Hleft. destruct (translate_many m (map snd left) a b) as [ds|e] eqn:E.
  - destruct (many_law _ _ _ _ E) as [Hl Hf]. rewrite length_map in Hl. assert (length (map fst left) = length ds) as Hl' by (by rewrite length_map).
    destruct (store_results_ok a b (map snd left) [] (zip (map fst left) ds) s Hw) as [s1 E1].
    { apply Forall_forall. intros [i d] Hin%elem_of_zip_r. rewrite Forall_forall in Hf. by apply Hf. }
    { rewrite length_map, length_zip_with, length_map. simpl length at 2. lia. }
    rewrite E1. intros [= <- _]. split.
    + rewrite map_map. change (map fst (zip (map fst left) ds) = map fst left). apply fst_zip. lia.
    + intros i d ([j r] & [= -> ->] & Hin)%list_elem_of_fmap. apply elem_of_lookup_zip_with in Hin as (k & j2 & r' & [= -> ->] & Hk & Hr).
      apply list_lookup_fmap_Some in Hk as ([j' text] & -> & Hk). exists text. split; [by eapply list_elem_of_lookup_2|].
      eapply (answer_model _ _ _ _ _ m _ _ k); [done|exact E| |exact Hr|done]. by rewrite list_lookup_fmap, Hk.
  - destruct (CancelledError e); [done|]. intros [= <- _]. split; [by rewrite map_map|].
    intros i d ([j text] & [= -> ->] & Hin)%list_elem_of_fmap. exists text. split; [done|]. by eapply answer_failure.
Qed.

Lemma zip_seq_lookup {A} (l : list A) i x : (i, x) ∈ zip (seq 0 (length l)) l -> l !! i = Some x.
Proof.
  intros (k & j & y & [= -> ->] & Hk & Hy)%elem_of_lookup_zip_with. apply lookup_seq in Hk as [-> _]. done.
Qed.
Lemma merged_answers texts a b ks (found more : list (nat * list (string * pyval))) (left : list (nat * string)) :
  map fst found ++ map fst left ≡ₚ seq 0 (length texts) -> map fst more = map fst left ->
  (forall i d, (i, d) ∈ found ++ more -> exists text, texts !! i = Some text /\ batch_answer ks a b text d) ->
  Forall2 (batch_answer ks a b) texts (map snd (sort_by_index (found ++ more))).
Proof.
  intros Hp Hm Ha. assert (map fst (found ++ more) ≡ₚ seq 0 (length texts)) as Hq by (by rewrite map_app, Hm).
  assert (length (map snd (sort_by_index (found ++ more))) = length texts) as Hl.
  { rewrite length_map, <- (length_map fst (sort_by_index _)), (sort_by_index_seq _ _ Hq). apply length_seq. }
  apply Forall2_lookup. intros i. destruct (texts !! i) as [text|] eqn:Et.
  - destruct (lookup_lt_is_Some_2 (map snd (sort_by_index (found ++ more))) i) as [d Hd]; [rewrite Hl; by eapply lookup_lt_Some|].
    rewrite Hd. constructor. apply (sorted_lookup _ (length texts)) in Hd; [|done|by eapply lookup_lt_Some].
    destruct (Ha i d Hd) as (text' & Ht & ?). by simplify_eq.
  - apply lookup_ge_None in Et. rewrite (proj2 (lookup_ge_None _ _)) by lia. constructor.
Qed.

Lemma batch_aligned texts src target s ds s' : writes_succeed -> model_lawful -> batch_translate texts src target s = (Ok ds, s') ->
  exists lang, Forall2 (batch_answer (view (sv_redis s)) lang target) texts ds.
Proof.
  intros Hw Hm. unfold batch_translate. destruct texts as [|t0 texts']; [intros [= <- _]; exists ""; constructor|]. remember (t0 :: texts') as texts eqn:Htexts. clear Htexts.
  unfold vbind at 1, vret at 1. destruct (if truthy_str src then Ok src else _detect_language t0) as [lang|]; [|done].
  destruct (negb (truthy_str lang)).
  { intros [= <- _]. exists "". apply Forall2_replicate_r; [done|]. apply Forall_forall. intros t _. by eapply answer_failure. }
  set (a := default "" lang). intros Hrun. exists a. revert Hrun.
  unfold vbind at 1. assert (forall found s1, (if bool_decide (is_Some (sv_cache s)) then look_up a target (zip (seq 0 (length texts)) texts) s
      else (Ok ([], zip (seq 0 (length texts)) texts), s)) = (Ok found, s1) ->
    map fst found.1 ++ map fst found.2 ≡ₚ seq 0 (length texts) /\ (forall p, p ∈ found.2 -> p ∈ zip (seq 0 (length texts)) texts) /\
    (forall i d, (i, d) ∈ found.1 -> exists text, (i, text) ∈ zip (seq 0 (length texts)) texts /\ batch_answer (view (sv_redis s)) a target text d)) as Hfound.
  { assert (map fst (zip (seq 0 (length texts)) texts) = seq 0 (length texts)) as Hz by (apply fst_zip; rewrite length_seq; lia).
    intros found s1. case_bool_decide; [intros (P1 & P2 & P3)%look_up_ok; by rewrite Hz in P1|]. intros [= <- _]. simpl. rewrite Hz. split_and!; [done|done|set_solver]. }
  destruct (if bool_decide _ then _ else _) as [[found|] s1]; [|done]. destruct (Hfound _ _ eq_refl) as (P1 & P2 & P3).
  unfold vbind. destruct (translate_left a target found.2 s1) as [[more|] s2] eqn:El; [|done]. intros [= <- _].
  destruct (translate_left_ok _ _ _ _ _ _ (view (sv_redis s)) Hw Hm El) as [Q1 Q2].
  eapply merged_answers; [exact P1|exact Q1|]. intros i d [Hin|Hin]%elem_of_app.
  - destruct (P3 i d Hin) as (text & ? & ?). exists text. split; [by apply zip_seq_lookup|done].
  - destruct (Q2 i d Hin) as (text & Ht & ?). exists text. split; [by apply zip_seq_lookup, P2|done].
Qed.

(** C26: when the local model is there, answers as it should and every write to
    the cache succeeds, a batch has one result for every text, in the order of
    the texts: what the cache held for this text, what the model answered for
    it, or a failure. *)
Theorem batch_results_aligned texts src target s ds s' : writes_succeed -> model_lawful -> batch_translate texts src target s = (Ok ds, s') ->
  exists lang, Forall2 (batch_answer (view (sv_redis s)) lang target) texts ds.
Proof. apply batch_aligned. Qed.

(** ** The jobs of a batch *)

Definition settled (j : TranslationJob) : Prop := (j_status j = COMPLETED \/ j_status j = FAILED) /\ is_Some (j_completed_at j).
Lemma with_result_settled r iso j : settled (with_result r iso j).
Proof. split; [|by eexists]. simpl. destruct (truthy _); auto. Qed.
Lemma update_jobs_ok iso js ds s after s' : update_jobs iso js ds s = (after, Ok (), s') -> length js = length ds ->
  Forall settled after /\ map j_id after = map j_id js.
Proof.
  revert ds s after. induction js as [|j js IH]; intros [|d ds] s after; try done; [by intros [= <- _]|]. cbn [update_jobs].
  destruct (store_job _ s) as [[[]|] s1]; [|done]. destruct (update_jobs iso js ds s1) as [[l x] s2] eqn:E. intros [= <- -> <-] Hl.
  destruct (IH _ _ _ E) as [I1 I2]; [by injection Hl|]. split; [constructor; [apply with_result_settled|done]|]. simpl. by rewrite I2.
Qed.
Lemma update_jobs_ids iso js ds s after x s' : update_jobs iso js ds s = (after, x, s') -> map j_id after = map j_id js.
Proof.
  revert ds s after x s'. induction js as [|j js IH]; intros [|d ds] s after x s'; cbn [update_jobs]; [by intros [= <- _ _]..|].
  destruct (store_job _ s) as [[[]|] s1]; [|by intros [= <- _ _]]. destruct (update_jobs iso js ds s1) as [[l y] s2] eqn:E. intros [= <- _ _].
  simpl. by rewrite (IH _ _ _ _ _ E).
Qed.
Lemma failed_settled e iso js : Forall settled (map (with_error e iso) js).
Proof. induction js; simpl; constructor; [split; [by right|by eexists]|done]. Qed.
Lemma process_group_ok iso g s after s' : writes_succeed -> model_lawful -> process_group iso g s = (after, Ok (), s') ->
  Forall settled after /\ map j_id after = map j_id g.
Proof.
  intros Hw Hm. unfold process_group. destruct g as [|j0 g']; [by intros [= <- _]|]. set (g := j0 :: g').
  destruct (batch_translate _ _ _ s) as [[ds|e] s1] eqn:E.
  - destruct (batch_aligned _ _ _ _ _ _ Hw Hm E) as [lang Hl%Forall2_length]. rewrite length_map in Hl.
    destruct (update_jobs iso g ds s1) as [[l x] s2] eqn:Eu. destruct x as [[]|e].
    + intros [= <- <-]. by eapply update_jobs_ok.
    + destruct (CancelledError e); [done|]. destruct (store_jobs _ s2) as [y s3]. intros [= <- _ _]. split.
      * apply failed_settled.
      * rewrite map_map. by apply update_jobs_ids in Eu.
  - destruct (CancelledError e); [done|]. destruct (store_jobs _ s1) as [y s3]. intros [= <- _ _]. split.
    + apply (failed_settled _ _ g).
    + exact (map_map (with_error (exn_str e) iso) j_id g).
Qed.
Lemma process_groups_ok iso gs s after s' : writes_succeed -> model_lawful -> process_groups iso gs s = (after, Ok (), s') ->
  Forall settled after /\ map j_id after = map j_id (concat gs).
Proof.
  intros Hw Hm. revert s after. induction gs as [|g gs IH]; intros s after; cbn [process_groups]; [by intros [= <- _]|].
  destruct (process_group iso g s) as [[a x] s1] eqn:E. destruct x as [[]|]; [|done]. destruct (process_groups iso gs s1) as [[b y] s2] eqn:E2.
  intros [= <- -> <-]. destruct (process_group_ok _ _ _ _ _ Hw Hm E) as [A1 A2]. destruct (IH _ _ E2) as [B1 B2]. split; [by apply Forall_app|].
  simpl. by rewrite !map_app, A2, B2.
Qed.

Definition group_pair (g : list TranslationJob) : option (option string * string) := pair_of <$> head g.
Lemma has_pair_spec p g : has_pair p g = true <-> group_pair g = Some p.
Proof. destruct g as [|j g]; simpl; [done|]. rewrite bool_decide_eq_true. split; [by intros <-|by intros [= <-]]. Qed.
Lemma concat_split p (gs : list (list TranslationJob)) : NoDup (map group_pair gs) ->
  default [] (List.find (has_pair p) gs) ++ concat (List.filter (fun g => negb (has_pair p g)) gs) ≡ₚ concat gs.
Proof.
  induction gs as [|g gs IH]; intros Hnd; simpl; [done|]. inversion Hnd as [|? ? Hg Hnd']; subst. destruct (has_pair p g) eqn:E; simpl.
  - f_equiv. replace (List.filter (fun g => negb (has_pair p g)) gs) with gs; [done|]. symmetry. apply has_pair_spec in E. rewrite E in Hg. clear -Hg.
    induction gs as [|h gs IH]; [done|]. simpl in Hg |- *. destruct (has_pair p h) eqn:F; simpl; [|f_equal; apply IH; set_solver].
    apply has_pair_spec in F. set_solver.
  - rewrite <- (IH Hnd'). by rewrite Permutation_app_swap_app.
Qed.
Lemma group_jobs_distinct js : NoDup (map group_pair (group_jobs js)).
Proof.
  induction js as [|j js IH]; cbn [group_jobs map]; [constructor|]. constructor.
  - intros (g & Hg & Hin)%list_elem_of_fmap. apply list_elem_of_In, List.filter_In in Hin as [_ Hn]. symmetry in Hg. change (group_pair g = Some (pair_of j)) in Hg.
    apply has_pair_spec in Hg. by rewrite Hg in Hn.
  - clear -IH. induction (group_jobs js) as [|g gs IHg]; simpl; [constructor|]. inversion IH as [|? ? Hg Hnd]; subst. destruct (has_pair _ g); simpl; [by apply IHg|].
    constructor; [|by apply IHg]. intros (h & Hh & Hin)%list_elem_of_fmap. apply list_elem_of_In, List.filter_In in Hin as [Hin _]. apply Hg, list_elem_of_fmap.
    exists h. split; [done|by apply list_elem_of_In].
Qed.
Lemma group_jobs_perm js : concat (group_jobs js) ≡ₚ js.
Proof.
  induction js as [|j js IH]; cbn [group_jobs concat]; [done|]. rewrite <- app_comm_cons. constructor. rewrite concat_split by apply group_jobs_distinct. exact IH.
Qed.

(** With the local model and writes that succeed, a batch of jobs that is
    processed without an error leaves every job of it completed or failed, with
    the time of its completion: none is lost and none stays pending. *)
Theorem batch_jobs_settled iso jobs s after s' : writes_succeed -> model_lawful -> _process_batch iso jobs s = (after, Ok (), s') ->
  Forall settled after /\ map j_id after ≡ₚ map j_id jobs.
Proof.
  intros Hw Hm Hrun. destruct (process_groups_ok _ _ _ _ _ Hw Hm Hrun) as [Hs Hi]. split; [done|]. rewrite Hi. by rewrite group_jobs_perm.
Qed.

(** ** The rate limits *)

Definition requests_in_minute (now : Q) (s : service) : Z := zlength (List.filter (recent now) (sv_request_times s)).
Lemma recent_mono now now' t : (now <= now')%Q -> recent now' t = true -> recent now t = true.
Proof. unfold recent. intros Hn Hr. destruct (Qltb_reflect (now' - t) 60); [|done]. destruct (Qltb_reflect (now - t) 60); [done|lra]. Qed.
Lemma filter_filter_le {A} (p q : A -> bool) l : (forall x, q x = true -> p x = true) -> zlength (List.filter q l) <= zlength (List.filter p l).
Proof.
  intros Hpq. induction l as [|x l IH]; simpl; [lia|]. destruct (q x) eqn:E; [rewrite (Hpq x E), !zlength_cons; lia|]. destruct (p x); rewrite ?zlength_cons; lia.
Qed.
Definition chars_in_minute (now : Q) (s : service) : Z := zsum (map snd (List.filter (fun tc => recent now tc.1) (sv_char_counts s))).
Definition same_rates (s s' : service) : Prop := sv_request_times s' = sv_request_times s /\ sv_char_counts s' = sv_char_counts s.
Lemma cache_get_rates text a b s x s' : cache_get text a b s = (x, s') -> same_rates s s'.
Proof.
  unfold cache_get, vbind, redis_do. destruct (exec _ _) as [[c|] r]; [|by intros [= _ <-]]. destruct (truthy_str c); by intros [= _ <-].
Qed.
Lemma cache_set_rates text a b tr c p s x s' : cache_set text a b tr c p s = (x, s') -> same_rates s s'.
Proof.
  unfold cache_set, vbind, vret, redis_do. destruct (json_dumps _ _) as [v|]; [|by intros [= _ <-]]. destruct (exec _ _) as [[y|] r]; by intros [= _ <-].
Qed.
(** A call that reaches a translator is counted, unless it is cancelled or the
    translator raises. *)
Definition counted (n : Z) (now : Q) (s s' : service) : Prop :=
  same_rates s s' \/ (sv_request_times s' = sv_request_times s ++ [now] /\ sv_char_counts s' = sv_char_counts s ++ [(now, n)]).
Lemma record_result_rates text a b d now s x s' : record_result text a b d now s = (x, s') -> counted (Z.of_nat (String.length text)) now s s'.
Proof.
  intros Hrun. right. revert Hrun. unfold record_result, _update_rate_limits, vdo. unfold vbind at 1 2. cbv beta match.
  destruct (truthy _); [|by intros [= _ <-]]. unfold vbind at 1. cbv beta match. destruct (_ && _); [|by intros [= _ <-]]. intros Hs%cache_set_rates.
  destruct Hs as [-> ->]. done.
Qed.
Lemma translate_now_rates text a b now s x s' : translate_now text a b now s = (x, s') -> counted (Z.of_nat (String.length text)) now s s'.
Proof.
  unfold translate_now. unfold vbind at 1, vret at 1. destruct (_do_translate text a b) as [d|e]; [|destruct (CancelledError e); intros [= _ <-]; by left].
  unfold vbind at 1. destruct (record_result _ _ _ _ _ s) as [[[]|e] s1] eqn:E; cbn [vret]; intros Hr.
  - injection Hr as _ <-. by eapply record_result_rates.
  - apply record_result_rates in E. destruct (CancelledError e); injection Hr as _ <-; exact E.
Qed.
Definition limits_ok (n : Z) (now : Q) (s : service) : bool :=
  negb (max_requests_per_minute cfg <=? requests_in_minute now s) && negb (max_chars_per_minute cfg <? chars_in_minute now s + n).
Definition cleaned (now : Q) (s : service) : service :=
  set_rates (List.filter (recent now) (sv_request_times s)) (List.filter (fun tc => recent now tc.1) (sv_char_counts s)) s.
Lemma translate_rates text src target uc dm now now' s x s' : translate text src target uc dm now now' s = (x, s') ->
  same_rates s s' \/ same_rates (cleaned now s) s' \/
  (limits_ok (Z.of_nat (String.length text)) now s = true /\ counted (Z.of_nat (String.length text)) now' (cleaned now s) s').
Proof.
  unfold translate. unfold vbind at 1.
  assert ((if negb (truthy_str src) && dm then vret (_detect_language text) else vret (Ok src)) s =
          (if negb (truthy_str src) && dm then _detect_language text else Ok src, s)) as -> by (by destruct (negb (truthy_str src) && dm)).
  destruct (if negb (truthy_str src) && dm then _ else _) as [lang|]; [|intros [= _ <-]; by left]. destruct (_ && negb (truthy_str lang)); [intros [= _ <-]; by left|].
  case_bool_decide; [intros [= _ <-]; by left|]. unfold vbind at 1. destruct (uc && _).
  - destruct (cache_get _ _ _ s) as [[c|] s1] eqn:Ec; apply cache_get_rates in Ec; [|intros [= _ <-]; by left].
    destruct (_ ≫= _) as [v|]; [intros [= _ <-]; by left|].
    unfold vbind, _check_rate_limits. cbv beta match. destruct (_ && _) eqn:Eok; intros Hr.
    + right; right. unfold limits_ok, requests_in_minute, chars_in_minute. destruct Ec as [E1 E2]. rewrite E1, E2 in Eok. split; [exact Eok|].
      apply translate_now_rates in Hr. unfold counted, same_rates in *. simpl in *. by rewrite E1, E2 in Hr.
    + injection Hr as _ <-. right; left. destruct Ec as [E1 E2]. unfold same_rates. simpl. by rewrite E1, E2.
  - cbn [mbind option_bind]. unfold vbind, _check_rate_limits. cbv beta match. destruct (_ && _) eqn:Eok; intros Hr.
    + right; right. split; [exact Eok|]. by apply translate_now_rates in Hr.
    + injection Hr as _ <-. by right; left.
Qed.

(** The requests and characters of the last minute are within the limits. *)
Definition within_limits (now : Q) (s : service) : Prop :=
  requests_in_minute now s <= max_requests_per_minute cfg /\ chars_in_minute now s <= max_chars_per_minute cfg /\ Forall (fun tc => 0 <= tc.2) (sv_char_counts s).
Lemma zsum_filter_le (p q : Q * Z -> bool) l : (forall x, q x = true -> p x = true) -> Forall (fun tc => 0 <= tc.2) l ->
  zsum (map snd (List.filter q l)) <= zsum (map snd (List.filter p l)).
Proof.
  intros Hpq. induction 1 as [|x l Hx Hl IH]; simpl; [lia|]. destruct (q x) eqn:E; [rewrite (Hpq x E); simpl; lia|]. destruct (p x); simpl; lia.
Qed.
Lemma within_later now now' s : (now <= now')%Q -> within_limits now s -> within_limits now' s.
Proof.
  intros Hn (W1 & W2 & W3). split_and!; [| |done].
  - etransitivity; [|exact W1]. apply filter_filter_le. intros t. by apply recent_mono.
  - etransitivity; [|exact W2]. apply zsum_filter_le; [|done]. intros t. by apply recent_mono.
Qed.
Lemma within_same now s s' : same_rates s s' -> within_limits now s -> within_limits now s'.
Proof. intros [E1 E2]. unfold within_limits, requests_in_minute, chars_in_minute. by rewrite E1, E2. Qed.
Lemma filter_idem {A} (p : A -> bool) l : List.filter p (List.filter p l) = List.filter p l.
Proof. induction l as [|x l IH]; simpl; [done|]. destruct (p x) eqn:E; simpl; [by rewrite E, IH|done]. Qed.
Lemma within_cleaned now s : within_limits now s -> within_limits now (cleaned now s).
Proof.
  intros (W1 & W2 & W3). unfold within_limits, requests_in_minute, chars_in_minute. simpl. rewrite !filter_idem. split_and!; [done..|].
  rewrite Forall_forall in *. intros x [Hx _]%list_elem_of_In%List.filter_In%and_comm%and_comm. by apply W3, list_elem_of_In.
Qed.
Lemma zsum_app l k : zsum (l ++ k) = zsum l + zsum k.
Proof. induction l as [|x l IH]; simpl; lia. Qed.
Lemma within_counted n now s s' : 0 <= n -> Forall (fun tc => 0 <= tc.2) (sv_char_counts s) ->
  requests_in_minute now s < max_requests_per_minute cfg -> chars_in_minute now s + n <= max_chars_per_minute cfg ->
  counted n now s s' -> within_limits now s'.
Proof.
  intros Hn Hpos Hr Hc [Hs|[E1 E2]]; [eapply within_same; [exact Hs|]; split_and!; [lia..|done]|].
  unfold within_limits, requests_in_minute, chars_in_minute in *. rewrite E1, E2, !List.filter_app, zlength_app, map_app, zsum_app. simpl.
  assert (zlength (if recent now now then [now] else []) <= 1) by (by destruct (recent now now)).
  assert (zsum (map snd (if recent now now then [(now, n)] else [])) <= n) by (destruct (recent now now); simpl; lia).
  split_and!; [lia..|]. apply Forall_app. split; [done|]. by repeat constructor.
Qed.

(** Calls one after another, with a clock that does not go back *)
Inductive calls (t0 : Q) (s0 : service) : Q -> service -> Prop :=
| calls_none : calls t0 s0 t0 s0
| calls_more t s text src target use_cache detect now now' r s' :
    calls t0 s0 t s -> (t <= now)%Q -> (now <= now')%Q -> translate text src target use_cache detect now now' s = (r, s') -> calls t0 s0 now' s'.

(** Calls of [translate] that follow each other never record more than
    [max_requests_per_minute] requests, or more than [max_chars_per_minute]
    characters, in the last minute. *)
Theorem translate_within_limits t0 s0 t s : within_limits t0 s0 -> calls t0 s0 t s -> within_limits t s.
Proof.
  intros H0'. induction 1 as [|t s text src target uc dm now now' r s' _ IH Ht Hn Hrun]; [done|].
  assert (within_limits now' s) as W by (eapply within_later; [|exact IH]; lra). apply (within_later t now) in IH; [|done].
  destruct (translate_rates _ _ _ _ _ _ _ _ _ _ Hrun) as [Hs|[Hs|[Hok Hc]]].
  - by eapply within_same.
  - eapply within_same; [exact Hs|]. by apply (within_later now), within_cleaned.
  - unfold limits_ok in Hok. apply andb_prop in Hok as [O1%negb_true_iff%Z.leb_gt O2%negb_true_iff%Z.ltb_ge].
    pose proof (within_cleaned now s IH) as (C1 & C2 & C3).
    assert (requests_in_minute now' (cleaned now s) <= requests_in_minute now (cleaned now s)) as R1 by (apply filter_filter_le; intros ?; by apply recent_mono).
    assert (chars_in_minute now' (cleaned now s) <= chars_in_minute now (cleaned now s)) as R2 by (apply zsum_filter_le; [intros ?; by apply recent_mono|done]).
    assert (requests_in_minute now (cleaned now s) = requests_in_minute now s) as R3 by (unfold requests_in_minute; simpl; by rewrite filter_idem).
    assert (chars_in_minute now (cleaned now s) = chars_in_minute now s) as R4 by (unfold chars_in_minute; simpl; by rewrite filter_idem).
    eapply within_counted; [|exact C3| | |exact Hc]; lia.
Qed.

(** Calls that are in flight together: all check the limits before any of them
    is counted. *)
Fixpoint checks (k : nat) (n : Z) (now : Q) (s : service) : bool * service :=
  match k with
  | O => (true, s)
  | S k' => match _check_rate_limits n now s with (Ok true, s') => checks k' n now s' | (_, s') => (false, s') end
  end.
Fixpoint updates (k : nat) (n : Z) (now : Q) (s : service) : service :=
  match k with O => s | S k' => updates k' n now (_update_rate_limits n now s).2 end.
Lemma updates_times k n now s : sv_request_times (updates k n now s) = sv_request_times s ++ replicate k now.
Proof. revert s. induction k as [|k IH]; intros s; simpl; [by rewrite app_nil_r|]. rewrite IH. simpl. by rewrite <- app_assoc. Qed.
(** The limits do not hold for calls in flight together: whatever the
    limit, any number of calls that check it before one of them is counted pass
    it, and all of them are recorded in the same minute. *)
Theorem concurrent_calls_pass_limit k n now s : 0 < max_requests_per_minute cfg -> n <= max_chars_per_minute cfg ->
  sv_request_times s = [] -> sv_char_counts s = [] ->
  (checks k n now s).1 = true /\ requests_in_minute now (updates k n now (checks k n now s).2) = Z.of_nat k.
Proof.
  intros Hr Hc E1 E2. assert ((checks k n now s).1 = true /\ sv_request_times (checks k n now s).2 = []) as [P1 P2].
  { revert s E1 E2. induction k as [|k IH]; intros s E1 E2; [done|]. cbn [checks]. unfold _check_rate_limits. rewrite E1, E2.
    cbn [List.filter map zsum foldr]. change (zlength (@nil Q)) with 0. rewrite (proj2 (Z.leb_gt _ _)), (proj2 (Z.ltb_ge _ _)) by lia. by apply IH. }
  split; [done|]. unfold requests_in_minute. rewrite updates_times, P2. simpl. clear. induction k as [|k IH]; [done|]. simpl.
  unfold recent at 1. destruct (Qltb_reflect (now - now) 60) as [|Hf]; [|lra]. rewrite zlength_cons, IH. lia.
Qed.

End service.

(** ** Jobs and keys *)

Lemma status_value_back st : status_of_value (PStr (status_value st)) = Ok st.
Proof. by destruct st. Qed.
(** A job written as a dictionary and read back is the same job. *)
Theorem translation_job_roundtrip j : j_completed_at j <> Some "" -> job_from_dict (job_to_dict j) = Ok j.
Proof.
  intros Hc. destruct j as [id text src tgt st pr cr co re cf pv er md]. unfold job_from_dict. cbn -[status_of_value]. rewrite status_value_back. simpl in *.
  destruct src as [src|], co as [co|]; cbn; try reflexivity; by rewrite (proj2 (String.eqb_neq co "")) by congruence.
Qed.
Lemma translation_job_roundtrip_witness : job_from_dict (job_to_dict (TJob "1" "un" None "en" COMPLETED 3 "t" (Some "u") (PStr "one") PNone PNone PNone [])) =
  Ok (TJob "1" "un" None "en" COMPLETED 3 "t" (Some "u") (PStr "one") PNone PNone PNone []).
Proof. apply translation_job_roundtrip. done. Defined.

Lemma split_inj c a b : split c a = split c b -> a = b.
Proof. intros H. apply (f_equal (join (String c ""))) in H. unfold split in H. by rewrite !join_split_go in H. Qed.
(** The key of a translation tells the text and the languages apart, whatever
    bars the text contains, as long as the languages contain none. *)
Theorem translation_key_unambiguous sha256 t a b t' a' b' : (forall x y, sha256 x = sha256 y -> x = y) ->
  char_in "|" a = false -> char_in "|" b = false -> char_in "|" a' = false -> char_in "|" b' = false ->
  _compute_key sha256 t a b = _compute_key sha256 t' a' b' -> t = t' /\ a = a' /\ b = b'.
Proof.
  intros Hinj Ha Hb Ha' Hb' H. unfold _compute_key in H. apply app_string_inj_l, Hinj, (f_equal (split "|")) in H.
  change ("|" +:+ a +:+ "|" +:+ b) with (String "|" (a +:+ String "|" b)) in H. change ("|" +:+ a' +:+ "|" +:+ b') with (String "|" (a' +:+ String "|" b')) in H.
  rewrite !split_sep, (split_whole "|" a), (split_whole "|" b), (split_whole "|" a'), (split_whole "|" b') in H by done.
  apply app_inj_2 in H as [Ht%split_inj [= -> ->]]; done.
Qed.
Lemma translation_key_unambiguous_witness :
  ~ (_compute_key (fun x => x) "a|b" "fr" "en" = _compute_key (fun x => x) "a" "fr" "en").
Proof. intros H. apply (translation_key_unambiguous (fun x => x)) in H as [? _]; try done. Defined.

(** ** Examples *)

(** A server that never fails *)
Record calmd := Calm { cd_keys : gmap string (string * option Q); cd_clock : Q }.
#[export] Instance calmd_server : RedisServer calmd := {
  exec A c m := match run_command c (cd_clock m) (cd_keys m) with Some (a, ks) => (Ok a, Calm ks (cd_clock m)) | None => (Err rejected, m) end;
  view := cd_keys;
  time_of := cd_clock }.
#[export] Instance calmd_laws : RedisServerLaws calmd.
Proof.
  split. intros A c m. unfold exec, calmd_server, time_of, view. destruct (run_command c _ _) as [[a ks]|] eqn:E; simpl; [|split; [lra|by left]].
  split; [lra|]. exists (cd_clock m). split; [lra|]. by apply run_command_answers.
Qed.

Definition demo_cfg : TranslationConfig := TConfig [] 16 7 false 100000 2 5.
Definition demo_repr (q : Q) : string := "0.8".
Lemma demo_writes : @writes_succeed calmd _ demo_cfg.
Proof. split; [done|]. intros k ttl v r Ht. simpl. apply Z.ltb_lt in Ht. rewrite Ht. eauto. Qed.
Lemma demo_lawful : @model_lawful NLLBTranslator _ (Some demo_nt).
Proof. exists demo_nt. split; [done|]. apply nllb_lawful. intros m [= <-]. apply demo_ct2_law. Qed.
Definition demo_service {R} (r : R) : service := Service r (Some (0, 0)) [] [] new_tstats [].
Definition demo_calm : @service calmd := demo_service (Calm ∅ 0).
Definition no_claude (_ _ _ : string) : result pyexn string := Err (PyExn "APIError" "").
Definition demo_job (id text : string) : TranslationJob := TJob id text (Some "fr") "en" PENDING 0 "t" None PNone PNone PNone PNone [].
Lemma batch_results_aligned_witness :
  exists lang ds s', batch_translate demo_cfg (fun x => x) demo_repr None (Some demo_nt) "t" ["au"; "revoir"] (Some "fr") "en" demo_calm = (Ok ds, s') /\
    Forall2 (batch_answer (fun x => x) (Some demo_nt) (view (sv_redis demo_calm)) lang "en") ["au"; "revoir"] ds.
Proof.
  destruct (batch_translate demo_cfg (fun x => x) demo_repr None (Some demo_nt) "t" ["au"; "revoir"] (Some "fr") "en" demo_calm) as [[ds|e] s'] eqn:E.
  - destruct (batch_results_aligned demo_cfg (fun x => x) demo_repr (fun _ => "") None (Some demo_nt) no_claude "t" ["au"; "revoir"] (Some "fr") "en" demo_calm ds s'
      demo_writes demo_lawful E) as [lang H]. by exists lang, ds, s'.
  - exfalso. apply (f_equal (fun x => match x.1 with Ok _ => true | Err _ => false end)) in E. vm_compute in E. discriminate.
Defined.
Definition demo_jobs : list TranslationJob := [demo_job "1" "un"; demo_job "2" "deux"].
Lemma batch_jobs_settled_witness : exists after s', _process_batch demo_cfg (fun x => x) demo_repr None (Some demo_nt) "t" "now" demo_jobs demo_calm = (after, Ok (), s') /\
  Forall settled after.
Proof.
  destruct (_process_batch demo_cfg (fun x => x) demo_repr None (Some demo_nt) "t" "now" demo_jobs demo_calm) as [[after x] s'] eqn:E. destruct x as [[]|e].
  - exists after, s'. split; [done|]. by apply (batch_jobs_settled demo_cfg (fun x => x) demo_repr (fun _ => "") None (Some demo_nt) no_claude "t" "now" demo_jobs demo_calm after s'
      demo_writes demo_lawful).
  - exfalso. apply (f_equal (fun x => match x.1.2 with Ok _ => true | Err _ => false end)) in E. vm_compute in E. discriminate.
Defined.
Lemma translate_within_limits_witness : exists s', (translate demo_cfg (fun x => x) demo_repr (fun _ => "") None (Some demo_nt) no_claude "t" "un" (Some "fr") "en" true true 1 2 demo_calm).2 = s' /\
  within_limits demo_cfg 2 s'.
Proof.
  eexists. split; [reflexivity|].
  eapply (translate_within_limits demo_cfg (fun x => x) demo_repr (fun _ => "") None (Some demo_nt) no_claude "t" 0 demo_calm); [by split_and!|].
  eapply (calls_more _ _ _ _ _ _ _ _ 0 demo_calm 0 demo_calm "un" (Some "fr") "en" true true 1 2); [constructor|done|done|]. apply surjective_pairing.
Defined.
Lemma concurrent_calls_pass_limit_witness : requests_in_minute 0 (updates 1000 5 0 (checks demo_cfg 1000 5 0 demo_calm).2) = 1000.
Proof. apply (concurrent_calls_pass_limit demo_cfg (Z.to_nat 1000) 5 0 demo_calm); done. Defined.

(** Without the local model the results of a batch are those the cache has,
    and nothing stands for the other texts: when only the second of two jobs is
    cached, the first is completed with the translation of the second, and the
    second stays pending. *)
Theorem jobs_swap_without_model :
  let s := (cache_set demo_cfg (fun x => x) demo_repr "t" "deux" "fr" "en" (PStr "two") (PFloat (4 # 5)) (PStr "nllb") demo_calm).2 in
  let '(after, _, _) := _process_batch demo_cfg (fun x => x) demo_repr None (@None NLLBTranslator) "t" "now" demo_jobs s in
  map (fun j => (j_id j, j_text j, j_status j, j_result j)) after = [("1", "un", COMPLETED, PStr "two"); ("2", "deux", PENDING, PNone)].
Proof. vm_compute. reflexivity. Qed.

Lemma cache_set_fails {R} `{RedisServer R} cfg sha256 float_repr at_ text a b d (s : service) e : (forall k ttl v r, (exec (SetEx k ttl v) r).1 = Err e) -> translated d ->
  exists r, cache_set cfg sha256 float_repr at_ text a b (sget "translation" d) (default (PFloat 0) (dict_get "confidence" d))
    (default (PStr "unknown") (dict_get "provider" d)) s = (Err e, set_redis r s).
Proof.
  intros Hw (tr & c & p & D1 & D2 & D3). unfold cache_set, sget. rewrite D1, D2, D3. unfold vbind at 1. simpl default.
  destruct (cache_value_dumps float_repr at_ a b tr c p) as [w ->]. cbv [vret]. cbv beta match. unfold vbind, redis_do.
  specialize (Hw (_compute_key sha256 text a b) (cache_ttl_days cfg * 24 * 60 * 60) w (sv_redis s)). destruct (exec _ _) as [y r]. simpl in Hw. subst y. by exists r.
Qed.
(** A translation the cache cannot store is lost: the call answers a
    failure, and counts one translation as successful and as failed. *)
Theorem unstored_translation_lost {R} `{RedisServer R} {T} `{TextTranslator T} cfg sha256 float_repr atom_repr detector (m : T) claude at_ text a b now (s : service) d tr e :
  verify_output_language cfg = false -> translate_one m text a b = Ok d -> translated d -> dict_get "translation" d = Some (PStr tr) -> tr <> "" ->
  is_Some (sv_cache s) -> (forall k ttl v r, (exec (SetEx k ttl v) r).1 = Err e) -> CancelledError e = false ->
  let '(x, s') := translate_now cfg sha256 float_repr atom_repr detector (Some m) claude at_ text a b now s in
  x = Ok (failure (exn_str e)) /\ total_translations (sv_stats s') = total_translations (sv_stats s) + 1 /\
  successful_translations (sv_stats s') = successful_translations (sv_stats s) + 1 /\ failed_translations (sv_stats s') = failed_translations (sv_stats s) + 1.
Proof.
  intros Hv Hm Hd Htr Hne Hc Hw He. unfold translate_now, _do_translate, verified. rewrite Hm, Hv. cbn [rbind negb].
  set (d1 := dict_set "success" (PBool true) d).
  assert (sget "success" d1 = PBool true) as E1 by apply sget_set_eq.
  assert (dict_get "translation" d1 = Some (PStr tr)) as E2 by (unfold d1; by rewrite dict_get_set_ne).
  unfold vbind at 1, vret at 1. unfold vbind at 1. unfold record_result, _update_rate_limits, vdo. unfold vbind at 1 2. cbv beta match. rewrite E1. cbn [truthy].
  unfold vbind at 1. cbv beta match. rewrite bool_decide_true by done. unfold sget at 1. rewrite E2. simpl (truthy _). rewrite (proj2 (String.eqb_neq tr "") Hne). cbn [negb andb].
  match goal with |- context [cache_set _ _ _ _ _ _ _ _ _ _ ?st] => destruct (cache_set_fails cfg sha256 float_repr at_ text a b d1 st e) as [r ->] end; [done| |].
  { destruct Hd as (t & c & p & D1 & D2 & D3). exists t, c, p. unfold d1. by rewrite !dict_get_set_ne by done. }
  rewrite He. done.
Qed.
(** A server that is down *)
Definition down : pyexn := PyExn "ConnectionError" "down".
Variant deadd := Dead.
#[export] Instance deadd_server : RedisServer deadd := { exec A c m := (Err down, m); view _ := ∅; time_of _ := 0%Q }.
Lemma unstored_translation_lost_witness :
  (translate_now demo_cfg (fun x => x) demo_repr (fun _ => "") None (Some demo_nt) no_claude "t" "salut" "fr" "en" 0 (demo_service Dead)).1 = Ok (failure "down").
Proof.
  pose proof (unstored_translation_lost demo_cfg (fun x => x) demo_repr (fun _ => "") None demo_nt no_claude "t" "salut" "fr" "en" 0 (demo_service Dead) _ "goodbye" down
    eq_refl eq_refl) as H. destruct (translate_now _ _ _ _ _ _ _ _ _ _ _ _ _) as [x s']. apply H; try done; by do 3 eexists.
Defined.
