(* ===== verification/CrawlRoutes.v ===== *)
(** * Crawling routes

    document_processor/api/crawling_routes.py: the crawl jobs of this process,
    the routes that start, stop, pause, resume, list and delete them, the
    background task of a job, seeds and statistics, over Frontier.v and
    SeedManager.v.  A job object outlives its entry in the table: a task holds
    it.  A task runs until it awaits; between two awaits nothing else runs.
    Whether a ping of Redis succeeds is an argument of the calls that send one.
    New ids, which are random, and readings of the clock are arguments. *)

From S2P Require Import Prelude PyStr PyVal PyConv Json Url Redis Frontier SeedManager.
From Stdlib Require Import Ascii.
#[local] Open Scope py_scope.
#[local] Open Scope Z_scope.

(** ** Requests, jobs and tasks *)

Record StartCrawlRequest := StartRequest {
  sq_name : string; sq_seed_urls : list string; sq_max_pages : Z; sq_max_depth : Z; sq_include : list string; sq_exclude : list string;
  sq_priority : Q; sq_config : list (string * pyval) }.
Definition valid_start (q : StartCrawlRequest) : bool :=
  (1 <=? Z.of_nat (String.length (sq_name q))) && (Z.of_nat (String.length (sq_name q)) <=? 255) && (1 <=? sq_max_pages q) && (sq_max_pages q <=? 1000000)
  && (1 <=? sq_max_depth q) && (sq_max_depth q <=? 20).
Record SeedURLRequest := SeedRequest { uq_urls : list string; uq_priority : Q; uq_category : option string }.
Definition valid_seeds (q : SeedURLRequest) : bool := (1 <=? zlength (uq_urls q)) && (zlength (uq_urls q) <=? 1000).

Record crawl_job := Job {
  c_id : string; c_name : string; c_status : string; c_seed_urls : list string; c_max_pages : Z; c_max_depth : Z; c_include : list string;
  c_exclude : list string; pages_crawled : Z; pages_failed : Z; pages_queued : Z; bytes_downloaded : Z; started_at : option Q;
  completed_at : option Q; created_at : Q; c_config : list (string * pyval) }.
Definition new_job (id : string) (q : StartCrawlRequest) (now : Q) : crawl_job :=
  Job id (sq_name q) "pending" (sq_seed_urls q) (sq_max_pages q) (sq_max_depth q) (sq_include q) (sq_exclude q) 0 0 0 0 None None now (sq_config q).
Definition with_status (st : string) (j : crawl_job) : crawl_job :=
  Job (c_id j) (c_name j) st (c_seed_urls j) (c_max_pages j) (c_max_depth j) (c_include j) (c_exclude j) (pages_crawled j) (pages_failed j)
    (pages_queued j) (bytes_downloaded j) (started_at j) (completed_at j) (created_at j) (c_config j).
Definition with_end (now : Q) (j : crawl_job) : crawl_job :=
  Job (c_id j) (c_name j) (c_status j) (c_seed_urls j) (c_max_pages j) (c_max_depth j) (c_include j) (c_exclude j) (pages_crawled j) (pages_failed j)
    (pages_queued j) (bytes_downloaded j) (started_at j) (Some now) (created_at j) (c_config j).
Definition with_queued (n : Z) (now : Q) (j : crawl_job) : crawl_job :=
  Job (c_id j) (c_name j) (c_status j) (c_seed_urls j) (c_max_pages j) (c_max_depth j) (c_include j) (c_exclude j) (pages_crawled j) (pages_failed j)
    n (bytes_downloaded j) (Some now) (completed_at j) (created_at j) (c_config j).
(** One simulated page *)
Definition with_page (j : crawl_job) : crawl_job :=
  Job (c_id j) (c_name j) (c_status j) (c_seed_urls j) (c_max_pages j) (c_max_depth j) (c_include j) (c_exclude j) (pages_crawled j + 1) (pages_failed j)
    (pages_queued j) (bytes_downloaded j + 50000) (started_at j) (completed_at j) (created_at j) (c_config j).
Definition opt_time (t : option Q) : pyval := match t with Some q => PTime q | None => PNone end.
(** [CrawlJobResponse] *)
Definition job_response (j : crawl_job) : list (string * pyval) :=
  [("id", PStr (c_id j)); ("name", PStr (c_name j)); ("status", PStr (c_status j)); ("pages_crawled", PInt (pages_crawled j));
   ("pages_failed", PInt (pages_failed j)); ("pages_queued", PInt (pages_queued j)); ("bytes_downloaded", PInt (bytes_downloaded j));
   ("started_at", opt_time (started_at j)); ("completed_at", opt_time (completed_at j)); ("created_at", PTime (created_at j)); ("config", PDict (c_config j))].

(** Where a background task stands: not begun, in the sleep of five seconds, in
    the sleep of turn [i] of its loop, over *)
Variant task_phase := Begin | Sleeping | Turn (i : nat) | Over.
Record crawl_task := Task { k_job : string; k_phase : task_phase }.
Record http_error := HTTPError { h_status : Z; h_detail : string }.

Section routes.
Context {R : Type} `{HR : Redis R}.
Context (bracketed_ok : string -> bool).
Context (sha256_int md5_int : string -> Z) (md5_hex : string -> string).
Context (cfg : FrontierConfig).
Context (encode : pyval -> result pyexn string).

(** [objects]: the job objects by their id; [listed]: the keys of
    [_crawl_jobs] in the order they were added *)
Record crawl := Crawl {
  objects : gmap string crawl_job; listed : list string; tasks : list crawl_task; c_frontier : DistributedURLFrontier R; c_created : bool }.
Definition set_objects o s := Crawl o (listed s) (tasks s) (c_frontier s) (c_created s).
Definition set_listed l s := Crawl (objects s) l (tasks s) (c_frontier s) (c_created s).
Definition set_tasks t s := Crawl (objects s) (listed s) t (c_frontier s) (c_created s).
Definition set_fr f s := Crawl (objects s) (listed s) (tasks s) f (c_created s).
Definition upd_job (id : string) (f : crawl_job -> crawl_job) (s : crawl) : crawl := set_objects (alter f id (objects s)) s.
Definition add_task (id : string) (s : crawl) : crawl := set_tasks (tasks s ++ [Task id Begin]) s.
(** [_crawl_jobs.get(job_id)] *)
Definition get_job (id : string) (s : crawl) : option crawl_job := if bool_decide (id ∈ listed s) then objects s !! id else None.
Definition jobs_of (s : crawl) : list crawl_job := omap (fun id => objects s !! id) (listed s).

(** The frontier is kept before it is initialised, so that a failure to connect
    is met once. *)
Definition _get_frontier (ping : result pyexn unit) (s : crawl) : result pyexn (DistributedURLFrontier R) * crawl :=
  if c_created s then (Ok (c_frontier s), s) else
  let s' f := Crawl (objects s) (listed s) (tasks s) f true in
  match ping with
  | Ok _ => let f := initialize (c_frontier s) in (Ok f, s' f)
  | Err e => (Err e, s' (c_frontier s))
  end.
Definition add_request_seeds (urls : list string) (priority : Q) (category : pyval) (f : DistributedURLFrontier R)
  : result pyexn Z * SeedManager R :=
  add_seeds bracketed_ok sha256_int md5_int md5_hex cfg encode urls (PFloat priority) category (new_seeds f priority true true).

(** ** The background task of a job *)

Definition PAGES : nat := 10.
Definition end_task (k : nat) (ph : task_phase) (s : crawl) : crawl := set_tasks (alter (fun t => Task (k_job t) ph) k (tasks s)) s.
(** Task [k] runs to its next [await]. *)
Definition _run_crawl_job (k : nat) (now : Q) (s : crawl) : crawl :=
  match tasks s !! k with
  | None => s
  | Some (Task id ph) =>
      match ph with
      | Begin => end_task k (match get_job id s with Some _ => Sleeping | None => Over end) s
      | Sleeping => end_task k (Turn 0) (upd_job id (with_status "running") s)
      | Turn i =>
          let s := upd_job id with_page s in
          if negb (bool_decide (id ∈ listed s)) then end_task k Over s
          else if (S i <? PAGES)%nat then end_task k (Turn (S i)) s
          else end_task k Over (upd_job id (fun j => with_end now (with_status "completed" j)) s)
      | Over => s
      end
  end.

(** ** The routes *)

Definition not_found (id : string) : http_error := HTTPError 404 ("Job " +:+ id +:+ " not found").
Definition unprocessable : http_error := HTTPError 422 "validation error".
(** Up to the first [await]: the record of the job *)
Definition start_record (id : string) (q : StartCrawlRequest) (now : Q) (s : crawl) : crawl :=
  set_listed (listed s ++ [id]) (set_objects (<[id := new_job id q now]> (objects s)) s).
(** From there on: the seeds, then the task *)
Definition start_seeds (id : string) (q : StartCrawlRequest) (now' : Q) (ping : result pyexn unit) (s : crawl)
  : result http_error (list (string * pyval)) * crawl :=
  match _get_frontier ping s with
  | (Err e, s) => (Err (HTTPError 500 (exn_str e)), s)
  | (Ok f, s) =>
      match add_request_seeds (sq_seed_urls q) (sq_priority q) PNone f with
      | (Err e, m) => (Err (HTTPError 500 (exn_str e)), set_fr (frontier m) s)
      | (Ok added, m) =>
          let s := add_task id (upd_job id (fun j => with_status "running" (with_queued added now' j)) (set_fr (frontier m) s)) in
          (match objects s !! id with Some j => Ok (job_response j) | None => Err (HTTPError 500 "") end, s)
      end
  end.
(** The call, when nothing else runs while it waits *)
Definition start_crawl_job (id : string) (q : StartCrawlRequest) (now now' : Q) (ping : result pyexn unit) (s : crawl)
  : result http_error (list (string * pyval)) * crawl :=
  if negb (valid_start q) then (Err unprocessable, s) else start_seeds id q now' ping (start_record id q now s).
Definition add_seed_urls (q : SeedURLRequest) (ping : result pyexn unit) (s : crawl) : result http_error (list (string * pyval)) * crawl :=
  if negb (valid_seeds q) then (Err unprocessable, s) else
  match _get_frontier ping s with
  | (Err e, s) => (Err (HTTPError 500 (exn_str e)), s)
  | (Ok f, s) =>
      match add_request_seeds (uq_urls q) (uq_priority q) (opt_str (uq_category q)) f with
      | (Err e, m) => (Err (HTTPError 500 (exn_str e)), set_fr (frontier m) s)
      | (Ok added, m) =>
          (Ok [("success", PBool true); ("urls_added", PInt added); ("urls_total", PInt (zlength (uq_urls q)));
               ("duplicates_skipped", PInt (duplicate_seeds (seed_stats m))); ("invalid_skipped", PInt (invalid_seeds (seed_stats m)))], set_fr (frontier m) s)
      end
  end.
Definition get_crawl_status (id : string) (s : crawl) : result http_error (list (string * pyval)) :=
  match get_job id s with Some j => Ok (job_response j) | None => Err (not_found id) end.
Definition not_running (st : string) : http_error := HTTPError 400 ("Job is not running (status: " +:+ st +:+ ")").
Definition job_reply (id st : string) : list (string * pyval) := [("success", PBool true); ("job_id", PStr id); ("status", PStr st)].
Definition stop_crawl_job (id : string) (now : Q) (s : crawl) : result http_error (list (string * pyval)) * crawl :=
  match get_job id s with
  | None => (Err (not_found id), s)
  | Some j => if String.eqb (c_status j) "running" || String.eqb (c_status j) "pending"
              then (Ok (job_reply id "cancelled"), upd_job id (fun j => with_end now (with_status "cancelled" j)) s)
              else (Err (not_running (c_status j)), s)
  end.
Definition pause_crawl_job (id : string) (s : crawl) : result http_error (list (string * pyval)) * crawl :=
  match get_job id s with
  | None => (Err (not_found id), s)
  | Some j => if String.eqb (c_status j) "running" then (Ok (job_reply id "paused"), upd_job id (with_status "paused") s)
              else (Err (not_running (c_status j)), s)
  end.
Definition resume_crawl_job (id : string) (s : crawl) : result http_error (list (string * pyval)) * crawl :=
  match get_job id s with
  | None => (Err (not_found id), s)
  | Some j => if String.eqb (c_status j) "paused" then (Ok (job_reply id "running"), add_task id (upd_job id (with_status "running") s))
              else (Err (HTTPError 400 ("Job is not paused (status: " +:+ c_status j +:+ ")")), s)
  end.
Definition delete_crawl_job (id : string) (s : crawl) : result http_error (list (string * pyval)) * crawl :=
  match get_job id s with
  | None => (Err (not_found id), s)
  | Some j => if String.eqb (c_status j) "running" then (Err (HTTPError 400 "Cannot delete running job. Stop it first."), s)
              else (Ok [("success", PBool true); ("message", PStr ("Job " +:+ id +:+ " deleted"))], set_listed (List.filter (fun x => negb (String.eqb x id)) (listed s)) s)
  end.
Definition list_crawl_jobs (status : option string) (limit offset : Z) (s : crawl) : result http_error (list (list (string * pyval))) :=
  if negb ((1 <=? limit) && (limit <=? 100) && (0 <=? offset)) then Err unprocessable else
  let jobs := jobs_of s in
  let jobs := if truthy_str status then List.filter (fun j => String.eqb (c_status j) (default "" status)) jobs else jobs in
  Ok (map job_response (py_slice offset (offset + limit) (sort_desc created_at jobs))).
Definition count_running (s : crawl) : Z := zlength (List.filter (fun j => String.eqb (c_status j) "running") (jobs_of s)).
Definition total (f : crawl_job -> Z) (s : crawl) : Z := foldr (fun j n => f j + n) 0 (jobs_of s).
Record crawler_stats := CrawlerStats {
  total_jobs : Z; active_jobs : Z; total_pages_crawled : Z; total_pages_failed : Z; total_bytes_downloaded : Z; queue_depth : Z; active_domains : Z }.
(** [ok]: whether the frontier's statistics could be read *)
Definition get_crawler_stats (ping : result pyexn unit) (ok : bool) (s : crawl) : crawler_stats * crawl :=
  match _get_frontier ping s with
  | (Ok f, s) => (if ok then CrawlerStats (zlength (listed s)) (count_running s) (total pages_crawled s) (total pages_failed s) (total bytes_downloaded s)
                               (get_queue_size cfg f) (zlength (elements (get_active_domains cfg f)))
                  else CrawlerStats 0 0 0 0 0 0 0, s)
  | (Err _, s) => (CrawlerStats 0 0 0 0 0 0 0, s)
  end.
(** Domain, queued pages and delay.  The order of the members of the set is the
    server's; here it is that of [elements]. *)
Definition get_domain_stats (limit : Z) (ping : result pyexn unit) (s : crawl) : result http_error (list (string * Z * Q)) * crawl :=
  if negb ((1 <=? limit) && (limit <=? 200)) then (Err unprocessable, s) else
  match _get_frontier ping s with
  | (Ok f, s) => (Ok (map (fun d => (d, get_domain_queue_size cfg d f, get_domain_delay cfg d (redis f))) (py_take limit (elements (get_active_domains cfg f)))), s)
  | (Err _, s) => (Ok [], s)
  end.
Definition crawler_health (ping ping' : result pyexn unit) (s : crawl) : list (string * pyval) * crawl :=
  let unhealthy e := [("status", PStr "unhealthy"); ("error", PStr (exn_str e))] in
  match _get_frontier ping s with
  | (Err e, s) => (unhealthy e, s)
  | (Ok _, s) => match ping' with
                 | Ok _ => ([("status", PStr "healthy"); ("frontier", PStr "connected"); ("active_jobs", PInt (count_running s))], s)
                 | Err e => (unhealthy e, s)
                 end
  end.

(** ** What happens: the calls that change the jobs, and the tasks.  A start is one
    event, or two when others come while it waits for the frontier. *)

Inductive crawl_event :=
| EStart (id : string) (q : StartCrawlRequest) (now now' : Q) (ping : result pyexn unit)
| ERecord (id : string) (q : StartCrawlRequest) (now : Q) | ESeeds (id : string) (q : StartCrawlRequest) (now' : Q) (ping : result pyexn unit)
| EStop (id : string) (now : Q) | EPause (id : string) | EResume (id : string) | EDelete (id : string)
| ETask (k : nat) (now : Q).
Definition crawl_step (s : crawl) (e : crawl_event) : crawl :=
  match e with
  | EStart id q now now' ping => (start_crawl_job id q now now' ping s).2
  | ERecord id q now => if valid_start q then start_record id q now s else s
  | ESeeds id q now' ping => (start_seeds id q now' ping s).2
  | EStop id now => (stop_crawl_job id now s).2
  | EPause id => (pause_crawl_job id s).2
  | EResume id => (resume_crawl_job id s).2
  | EDelete id => (delete_crawl_job id s).2
  | ETask k now => _run_crawl_job k now s
  end.
(** A new id is one no job had; the second part of a start finds the record of the
    first. *)
Definition fresh_event (s : crawl) (e : crawl_event) : Prop :=
  match e with EStart id _ _ _ _ | ERecord id _ _ => objects s !! id = None | ESeeds id _ _ _ => is_Some (objects s !! id) | _ => True end.
Inductive reachable (f : DistributedURLFrontier R) : crawl -> Prop :=
| reachable_init : reachable f (Crawl ∅ [] [] f false)
| reachable_step s e : reachable f s -> fresh_event s e -> reachable f (crawl_step s e).

(** ** The jobs of a reachable state *)

Definition STATUSES : list string := ["pending"; "running"; "paused"; "cancelled"; "completed"].
(** At most so many pages has a task counted *)
Definition turns (t : crawl_task) : Z := match k_phase t with Begin | Sleeping => 0 | Turn i => Z.of_nat i | Over => 10 end.
Definition turns_for (id : string) (ts : list crawl_task) : Z := foldr (fun t n => (if String.eqb (k_job t) id then turns t else 0) + n) 0 ts.
Definition live_task (id : string) (ts : list crawl_task) : Prop := exists k ph, ts !! k = Some (Task id ph) /\ ph <> Over.
Definition job_ok (ts : list crawl_task) (here : bool) (id : string) (j : crawl_job) : Prop :=
  c_id j = id /\ c_status j ∈ STATUSES /\ bytes_downloaded j = 50000 * pages_crawled j /\ 0 <= pages_crawled j <= turns_for id ts /\
  (c_status j = "pending" -> Forall (fun t => k_job t <> id) ts) /\ (here = true -> c_status j = "running" -> live_task id ts).
Definition task_ok (o : gmap string crawl_job) (t : crawl_task) : Prop :=
  is_Some (o !! k_job t) /\ match k_phase t with Turn i => (i < PAGES)%nat | _ => True end.
Record crawl_ok (s : crawl) : Prop := {
  ok_listed : NoDup (listed s) /\ Forall (fun id => is_Some (objects s !! id)) (listed s);
  ok_tasks : Forall (task_ok (objects s)) (tasks s);
  ok_jobs : map_Forall (fun id j => job_ok (tasks s) (bool_decide (id ∈ listed s)) id j) (objects s) }.

Lemma turns_for_app id ts us : turns_for id (ts ++ us) = turns_for id ts + turns_for id us.
Proof. induction ts as [|t ts IH]; simpl; [done|]. unfold turns_for in *. simpl. lia. Qed.
Lemma turns_for_alter id k ph ts t : ts !! k = Some t -> turns_for id (alter (fun t => Task (k_job t) ph) k ts) =
  turns_for id ts + (if String.eqb (k_job t) id then turns (Task (k_job t) ph) - turns t else 0).
Proof.
  revert k. induction ts as [|u ts IH]; intros [|k] Hk; simpl in Hk; simplify_eq.
  - simpl. destruct (String.eqb _ _); lia.
  - specialize (IH k Hk). unfold turns_for in *. simpl. unfold alter in IH. rewrite IH. lia.
Qed.
Lemma alter_jobs k ph ts : map k_job (alter (fun t => Task (k_job t) ph) k ts) = map k_job ts.
Proof. revert k. induction ts as [|t ts IH]; intros [|k]; simpl; [done..|]. f_equal. apply IH. Qed.
Lemma live_app id ts us : live_task id ts -> live_task id (ts ++ us).
Proof. intros (k & ph & Hk & Hp). exists k, ph. split; [|done]. by apply lookup_app_l_Some. Qed.
Lemma no_task_jobs id ts us : map k_job us = map k_job ts -> Forall (fun t => k_job t <> id) ts -> Forall (fun t => k_job t <> id) us.
Proof.
  revert ts. induction us as [|u us IH]; intros [|t ts] Hm Ht; try done. injection Hm as Hu Hm. inversion Ht; subst. constructor; [congruence|by eapply IH].
Qed.

(** A change of one job's fields that keeps what the invariant needs *)
Lemma upd_job_ok id f s : crawl_ok s ->
  (forall j, objects s !! id = Some j -> job_ok (tasks s) (bool_decide (id ∈ listed s)) id j -> job_ok (tasks s) (bool_decide (id ∈ listed s)) id (f j)) ->
  crawl_ok (upd_job id f s).
Proof.
  intros [[Hl Hf] Ht Hj] Hstep. split; simpl.
  - split; [done|]. eapply Forall_impl; [exact Hf|]. intros x Hx. simpl in Hx. by rewrite lookup_alter_is_Some.
  - eapply Forall_impl; [exact Ht|]. intros t [Hx Hp]. split; [|done]. by rewrite lookup_alter_is_Some.
  - intros x j Hx. simpl in Hx. destruct (decide (x = id)) as [->|Hne].
    + rewrite lookup_alter_eq in Hx. apply fmap_Some in Hx as (j0 & Hx & ->). apply Hstep; [done|]. by apply Hj.
    + rewrite lookup_alter_ne in Hx by done. by apply Hj.
Qed.

Lemma task_job_not_pending k id ph here j (ts : list crawl_task) : ts !! k = Some (Task id ph) -> job_ok ts here id j -> c_status j <> "pending".
Proof. intros Hk (_ & _ & _ & _ & Hp & _) Hs. specialize (Hp Hs). rewrite Forall_lookup in Hp. by apply (Hp _ _ Hk). Qed.
Lemma live_alter x k id ph ph0 ts : ts !! k = Some (Task id ph0) -> live_task x ts -> (x = id -> ph <> Over) ->
  live_task x (alter (fun t => Task (k_job t) ph) k ts).
Proof.
  intros Hk (n & p & Hn & Hp) Hx. destruct (decide (n = k)) as [->|Hne].
  - simplify_eq. exists k, ph. split; [|by apply Hx]. by rewrite list_lookup_alter_eq, Hk.
  - exists n, p. split; [|done]. by rewrite list_lookup_alter_ne.
Qed.
Lemma live_here k id ph ph0 ts : ts !! k = Some (Task id ph0) -> ph <> Over -> live_task id (alter (fun t => Task (k_job t) ph) k ts).
Proof. intros Hk Hp. exists k, ph. split; [|done]. by rewrite list_lookup_alter_eq, Hk. Qed.
(** A task moves on and changes its job. *)
Lemma task_step_ok k ph f s id ph0 : crawl_ok s -> tasks s !! k = Some (Task id ph0) -> match ph with Turn i => (i < PAGES)%nat | _ => True end ->
  (forall j, objects s !! id = Some j -> job_ok (tasks s) (bool_decide (id ∈ listed s)) id j -> c_status j <> "pending" ->
     c_id (f j) = id /\ c_status (f j) ∈ STATUSES /\ c_status (f j) <> "pending" /\ bytes_downloaded (f j) = 50000 * pages_crawled (f j) /\
     0 <= pages_crawled (f j) <= turns_for id (tasks s) + turns (Task id ph) - turns (Task id ph0) /\
     (ph = Over -> bool_decide (id ∈ listed s) = true -> c_status (f j) <> "running")) ->
  crawl_ok (end_task k ph (upd_job id f s)).
Proof.
  intros [[Hl Hf] Ht Hj] Hk Hph Hstep. split; simpl.
  - split; [done|]. eapply Forall_impl; [exact Hf|]. intros x Hx. simpl in Hx. by rewrite lookup_alter_is_Some.
  - apply Forall_alter; [|intros t Hkt _; rewrite Hk in Hkt; injection Hkt as <-].
    2: { rewrite Forall_lookup in Ht. destruct (Ht _ _ Hk) as [Hx _]. split; [|done]. simpl in *. by rewrite lookup_alter_is_Some. }
    eapply Forall_impl; [exact Ht|]. intros t [Hx Hp]. split; [|done]. by rewrite lookup_alter_is_Some.
  - intros x j Hx. simpl in Hx. destruct (decide (x = id)) as [->|Hne].
    + rewrite lookup_alter_eq in Hx. apply fmap_Some in Hx as (j0 & Hx & ->). pose proof (Hj _ _ Hx) as Hok. pose proof (task_job_not_pending _ _ _ _ _ _ Hk Hok) as Hnp.
      destruct (Hstep j0 Hx Hok Hnp) as (S1 & S2 & S3 & S4 & S5 & S6). split_and!; [done|done|done|lia| |done|].
      * rewrite (turns_for_alter id k ph (tasks s) _ Hk). simpl k_job. rewrite String.eqb_refl. lia.
      * intros Hin Hr. destruct ph; try (eapply live_here; [exact Hk|done]). by destruct (S6 eq_refl Hin).
    + rewrite lookup_alter_ne in Hx by done. destruct (Hj _ _ Hx) as (J1 & J2 & J3 & J4 & J5 & J6). split_and!; [done|done|done|lia| | |].
      * rewrite (turns_for_alter x k ph (tasks s) _ Hk). simpl k_job. rewrite (proj2 (String.eqb_neq id x)) by congruence. lia.
      * intros Hp. eapply no_task_jobs; [apply alter_jobs|by apply J5].
      * intros Hin Hr. eapply live_alter; [exact Hk|by apply J6|done].
Qed.
Lemma upd_job_id id s : upd_job id (fun j => j) s = s.
Proof.
  unfold upd_job. destruct s as [o l t f c]. unfold set_objects. simpl. f_equal. apply map_eq. intros i. destruct (decide (i = id)) as [->|Hne].
  - rewrite lookup_alter_eq. by destruct (o !! id).
  - by rewrite lookup_alter_ne.
Qed.
Lemma upd_job_twice id f g s : upd_job id f (upd_job id g s) = upd_job id (fun j => f (g j)) s.
Proof.
  unfold upd_job, set_objects. simpl. f_equal. apply map_eq. intros i. destruct (decide (i = id)) as [->|Hne].
  - rewrite !lookup_alter_eq. by destruct (objects s !! id).
  - by rewrite !lookup_alter_ne.
Qed.
Lemma run_crawl_job_ok k now s : crawl_ok s -> crawl_ok (_run_crawl_job k now s).
Proof.
  intros Hok. unfold _run_crawl_job. destruct (tasks s !! k) as [[id ph]|] eqn:Hk; [|done].
  assert (0 <= turns (Task id ph)) as Hpos by (destruct ph; cbn [turns k_phase]; lia).
  assert (match ph with Turn i => (i < PAGES)%nat | _ => True end) as Hph by (pose proof (ok_tasks s Hok) as Ht; rewrite Forall_lookup in Ht; apply (Ht _ _ Hk)).
  destruct ph as [| |i|]; [| | |done].
  - set (nph := match get_job id s with Some _ => Sleeping | None => Over end). replace s with (upd_job id (fun j => j) s) by apply upd_job_id. unfold nph. eapply task_step_ok; [done|exact Hk|by destruct (get_job id s)|]. intros j Hj (J1 & J2 & J3 & J4 & J5 & J6) Hnp.
    split_and!; try done; [lia|destruct (get_job id s); cbn [turns k_phase with_page with_status with_end c_id c_status bytes_downloaded pages_crawled]; lia|]. intros Ho Hin. unfold get_job in Ho. rewrite Hin, Hj in Ho. done.
  - eapply task_step_ok; [done|exact Hk|unfold PAGES; lia|]. intros j Hj (J1 & J2 & J3 & J4 & J5 & J6) Hnp. cbn [turns k_phase with_page with_status with_end c_id c_status bytes_downloaded pages_crawled]. split_and!; try done; [set_solver|lia|lia].
  - change (listed (upd_job id with_page s)) with (listed s). destruct (bool_decide (id ∈ listed s)) eqn:Hin; cbn [negb].
    + destruct (Nat.ltb_spec (S i) PAGES) as [Hlt|Hge].
      * eapply task_step_ok; [done|exact Hk|done|]. intros j Hj (J1 & J2 & J3 & J4 & J5 & J6) Hnp. cbn [turns k_phase with_page with_status with_end c_id c_status bytes_downloaded pages_crawled] in *. split_and!; try done; lia.
      * rewrite upd_job_twice. cbv beta.
        eapply task_step_ok; [done|exact Hk|done|]. intros j Hj (J1 & J2 & J3 & J4 & J5 & J6) Hnp. unfold PAGES in *. cbn [turns k_phase with_page with_status with_end c_id c_status bytes_downloaded pages_crawled] in *. split_and!; try done; [set_solver|lia..].
    + eapply task_step_ok; [done|exact Hk|done|]. intros j Hj (J1 & J2 & J3 & J4 & J5 & J6) Hnp. unfold PAGES in *. cbn [turns k_phase with_page with_status with_end c_id c_status bytes_downloaded pages_crawled] in *. split_and!; try done; try lia; by rewrite Hin.
Qed.
Lemma get_job_Some id s j : get_job id s = Some j -> bool_decide (id ∈ listed s) = true /\ objects s !! id = Some j.
Proof. unfold get_job. destruct (bool_decide _); [done|done]. Qed.
(** A route sets the status of a job that is not pending to one that is neither
    pending nor running. *)
Lemma set_status_ok id f s : crawl_ok s -> (forall j, c_id (f j) = c_id j /\ pages_crawled (f j) = pages_crawled j /\ bytes_downloaded (f j) = bytes_downloaded j) ->
  (forall j, c_status (f j) ∈ STATUSES /\ c_status (f j) <> "pending" /\ c_status (f j) <> "running") -> crawl_ok (upd_job id f s).
Proof.
  intros Hok Hf Hs. apply upd_job_ok; [done|]. intros j _ (J1 & J2 & J3 & J4 & J5 & J6). destruct (Hf j) as (F1 & F2 & F3), (Hs j) as (S1 & S2 & S3).
  unfold job_ok. rewrite F1, F2, F3. split_and!; try done; lia.
Qed.
(** Running, with a task that is on its way *)
Lemma run_again_ok id f s : crawl_ok s -> is_Some (objects s !! id) ->
  (forall j, c_id (f j) = c_id j /\ pages_crawled (f j) = pages_crawled j /\ bytes_downloaded (f j) = bytes_downloaded j /\ c_status (f j) = "running") ->
  crawl_ok (add_task id (upd_job id f s)).
Proof.
  intros [[Hl Hl'] Ht Hj] Hi Hf. split; simpl.
  - split; [done|]. eapply Forall_impl; [exact Hl'|]. intros x Hx. simpl in Hx. by rewrite lookup_alter_is_Some.
  - apply Forall_app. split; [|repeat constructor; simpl; by rewrite lookup_alter_is_Some]. eapply Forall_impl; [exact Ht|]. intros t [Hx Hp]. split; [|done].
    by rewrite lookup_alter_is_Some.
  - intros x j Hx. simpl in Hx. assert (forall x, turns_for x (tasks s ++ [Task id Begin]) = turns_for x (tasks s)) as Hz.
    { intros y. rewrite turns_for_app. unfold turns_for at 2. cbn [foldr turns k_phase k_job]. destruct (String.eqb id y); lia. }
    destruct (decide (x = id)) as [->|Hne].
    + rewrite lookup_alter_eq in Hx. apply fmap_Some in Hx as (j0 & Hx & ->). destruct (Hj _ _ Hx) as (J1 & J2 & J3 & J4 & J5 & J6), (Hf j0) as (F1 & F2 & F3 & F4).
      unfold job_ok. rewrite F1, F2, F3, F4, Hz. split_and!; try done; [set_solver|lia|lia|]. intros _ _. exists (length (tasks s)), Begin. split; [|done].
      rewrite lookup_app_r, Nat.sub_diag by lia. done.
    + rewrite lookup_alter_ne in Hx by done. destruct (Hj _ _ Hx) as (J1 & J2 & J3 & J4 & J5 & J6). unfold job_ok. rewrite Hz. split_and!; try done; [lia|lia| |].
      * intros Hp. apply Forall_app. split; [by apply J5|]. by repeat constructor.
      * intros Hin Hr. apply live_app. by apply J6.
Qed.
Lemma stop_ok id now s : crawl_ok s -> crawl_ok (stop_crawl_job id now s).2.
Proof.
  intros Hok. unfold stop_crawl_job. destruct (get_job id s); [|done]. destruct (_ || _); [|done]. apply set_status_ok; [done|done|]. intros j. simpl. set_solver.
Qed.
Lemma pause_ok id s : crawl_ok s -> crawl_ok (pause_crawl_job id s).2.
Proof.
  intros Hok. unfold pause_crawl_job. destruct (get_job id s); [|done]. destruct (String.eqb _ _); [|done]. apply set_status_ok; [done|done|]. intros j. simpl. set_solver.
Qed.
Lemma resume_ok id s : crawl_ok s -> crawl_ok (resume_crawl_job id s).2.
Proof.
  intros Hok. unfold resume_crawl_job. destruct (get_job id s) as [j|] eqn:Ej; [|done]. destruct (String.eqb _ _); [|done].
  apply get_job_Some in Ej as [_ Ej]. apply run_again_ok; [done|by rewrite Ej|done].
Qed.
Lemma delete_ok id s : crawl_ok s -> crawl_ok (delete_crawl_job id s).2.
Proof.
  intros [[Hl Hl'] Ht Hj]. unfold delete_crawl_job. destruct (get_job id s); [|done]. destruct (String.eqb _ _); [done|]. simpl. split; simpl; [|done|].
  - split; [by apply NoDup_ListNoDup, List.NoDup_filter, NoDup_ListNoDup|]. rewrite Forall_forall in *. intros x [Hx _]%list_elem_of_In%List.filter_In. by apply Hl', list_elem_of_In.
  - intros x j Hx. destruct (Hj x j Hx) as (J1 & J2 & J3 & J4 & J5 & J6). split_and!; try done; [lia|lia|]. intros Hin. apply J6. apply bool_decide_eq_true in Hin.
    apply bool_decide_eq_true. apply list_elem_of_In, List.filter_In in Hin as [Hin _]. by apply list_elem_of_In.
Qed.
Lemma new_job_ok id q now s : crawl_ok s -> objects s !! id = None ->
  crawl_ok (set_listed (listed s ++ [id]) (set_objects (<[id := new_job id q now]> (objects s)) s)).
Proof.
  intros [[Hl Hl'] Ht Hj] Hfresh. assert (id ∉ listed s) as Hnl by (intros Hin; rewrite Forall_forall in Hl'; destruct (Hl' _ Hin); congruence).
  assert (Forall (fun t => k_job t <> id) (tasks s)) as Hnt by (eapply Forall_impl; [exact Ht|]; intros t [[j Hx] _] Heq; simpl in Hx; rewrite Heq in Hx; congruence).
  split; simpl.
  - split; [apply NoDup_app; split_and!; [done|set_solver|apply NoDup_singleton]|]. apply Forall_app. split; [|repeat constructor; by rewrite lookup_insert_eq].
    eapply Forall_impl; [exact Hl'|]. intros x Hx. simpl in Hx. by apply lookup_insert_is_Some'; right.
  - eapply Forall_impl; [exact Ht|]. intros t [Hx Hp]. split; [|done]. by apply lookup_insert_is_Some'; right.
  - intros x j Hx. simpl in Hx. destruct (decide (x = id)) as [->|Hne].
    + rewrite lookup_insert_eq in Hx. injection Hx as <-. assert (forall ts, Forall (fun t => k_job t <> id) ts -> turns_for id ts = 0) as Hz.
      { clear. induction 1 as [|t ts Hne _ IH]; [done|]. unfold turns_for in *. simpl. rewrite IH, (proj2 (String.eqb_neq _ _)) by done. done. }
      unfold job_ok. rewrite (Hz _ Hnt). simpl. split_and!; try done. set_solver.
    + rewrite lookup_insert_ne in Hx by done. destruct (Hj _ _ Hx) as (J1 & J2 & J3 & J4 & J5 & J6). split_and!; try done; [lia|lia|]. intros Hin%bool_decide_eq_true. apply J6.
      apply bool_decide_eq_true. set_solver.
Qed.
Lemma same_jobs_ok s s' : objects s' = objects s -> listed s' = listed s -> tasks s' = tasks s -> crawl_ok s -> crawl_ok s'.
Proof. intros E1 E2 E3 [Hl Ht Hj]. split; rewrite ?E1, ?E2, ?E3; done. Qed.
Lemma get_frontier_same ping s r s' : _get_frontier ping s = (r, s') -> objects s' = objects s /\ listed s' = listed s /\ tasks s' = tasks s.
Proof. unfold _get_frontier. destruct (c_created s); [by intros [= _ <-]|]. destruct ping; by intros [= _ <-]. Qed.
Lemma seeds_ok id q now' ping s : crawl_ok s -> is_Some (objects s !! id) -> crawl_ok (start_seeds id q now' ping s).2.
Proof.
  intros Hok Hi. unfold start_seeds. destruct (_get_frontier ping s) as [[f|e] s2] eqn:Ef; apply get_frontier_same in Ef as (E1 & E2 & E3).
  2: { eapply same_jobs_ok; [exact E1|exact E2|exact E3|exact Hok]. }
  destruct (add_request_seeds _ _ _ _) as [[n|e] m]; cbn [snd].
  - apply run_again_ok; [|simpl; by rewrite E1|done]. by eapply same_jobs_ok; [..|exact Hok].
  - by eapply same_jobs_ok; [..|exact Hok].
Qed.
Lemma start_ok id q now now' ping s : crawl_ok s -> objects s !! id = None -> crawl_ok (start_crawl_job id q now now' ping s).2.
Proof.
  intros Hok Hfresh. unfold start_crawl_job. destruct (negb (valid_start q)); [done|].
  apply seeds_ok; [by apply new_job_ok|]. simpl. by rewrite lookup_insert_eq.
Qed.
Lemma reachable_ok f s : reachable f s -> crawl_ok s.
Proof.
  induction 1 as [|s e _ IH He]; [split; [split; constructor|constructor|apply map_Forall_empty]|]. destruct e; simpl.
  - by apply start_ok.
  - destruct (valid_start q); [|done]. by apply new_job_ok.
  - by apply seeds_ok.
  - by apply stop_ok.
  - by apply pause_ok.
  - by apply resume_ok.
  - by apply delete_ok.
  - by apply run_crawl_job_ok.
Qed.

(** ** What the table says *)

(** C17: whatever calls come, also while a start waits for the frontier, and however
    the background tasks run between them:
    a job has one of five statuses, its counters are what its tasks counted
    (each task at most ten pages, of fifty thousand bytes), a pending job has
    no task, and a job that is listed as running has a task that is not over. *)
Theorem crawl_jobs_invariant f s id j : reachable f s -> objects s !! id = Some j ->
  c_status j ∈ STATUSES /\ bytes_downloaded j = 50000 * pages_crawled j /\ 0 <= pages_crawled j <= 10 * zlength (List.filter (fun t => String.eqb (k_job t) id) (tasks s)) /\
  (c_status j = "pending" -> Forall (fun t => k_job t <> id) (tasks s)) /\ (id ∈ listed s -> c_status j = "running" -> live_task id (tasks s)).
Proof.
  intros Hr Hj. pose proof (reachable_ok _ _ Hr) as Hok. destruct (ok_jobs s Hok id j Hj) as (J1 & J2 & J3 & J4 & J5 & J6).
  assert (forall ts, Forall (task_ok (objects s)) ts -> turns_for id ts <= 10 * zlength (List.filter (fun t => String.eqb (k_job t) id) ts)) as Hb.
  { clear. induction 1 as [|t ts [_ Ht] _ IH]; [done|]. unfold turns_for in *. cbn [foldr List.filter]. destruct (String.eqb _ _); rewrite ?zlength_cons; [|lia].
    unfold turns, PAGES in *. destruct (k_phase t); lia. }
  specialize (Hb _ (ok_tasks s Hok)). split_and!; try done; [lia|lia|]. intros Hin. apply J6. by apply bool_decide_eq_true.
Qed.

(** Turns of one task, nothing else running *)
Fixpoint run_task (n k : nat) (now : Q) (s : crawl) : crawl := match n with O => s | S n' => run_task n' k now (_run_crawl_job k now s) end.
Lemma run_task_S n k now s : run_task (S n) k now s = run_task n k now (_run_crawl_job k now s).
Proof. done. Qed.
Lemma run_over n k now s id : tasks s !! k = Some (Task id Over) -> run_task n k now s = s.
Proof. intros Hk. induction n as [|n IH]; [done|]. simpl. unfold _run_crawl_job. by rewrite Hk. Qed.
Lemma end_task_phase k ph id ph0 s : tasks s !! k = Some (Task id ph0) -> tasks (end_task k ph s) !! k = Some (Task id ph).
Proof. intros Hk. simpl. by rewrite list_lookup_alter_eq, Hk. Qed.
Lemma turns_complete n k now s id i : (PAGES <= i + n)%nat -> (i < PAGES)%nat -> tasks s !! k = Some (Task id (Turn i)) -> id ∈ listed s -> is_Some (objects s !! id) ->
  exists j, get_job id (run_task n k now s) = Some j /\ c_status j = "completed".
Proof.
  revert s i. induction n as [|n IH]; intros s i Hn Hi Hk Hin Hj; [lia|]. cbn [run_task]. unfold _run_crawl_job at 1. rewrite Hk.
  change (listed (upd_job id with_page s)) with (listed s). rewrite bool_decide_true by done. cbn [negb]. destruct (Nat.ltb_spec (S i) PAGES) as [Hlt|Hge].
  - eapply (IH _ (S i)); [lia|done|by eapply end_task_phase; exact Hk|done|simpl; by rewrite lookup_alter_is_Some].
  - rewrite upd_job_twice. rewrite (run_over _ _ _ _ id) by (eapply end_task_phase; exact Hk). unfold get_job. simpl. rewrite bool_decide_true by done. rewrite lookup_alter_eq.
    destruct Hj as [j ->]. simpl. eexists. split; [done|done].
Qed.
Lemma live_task_completes k now s id ph : crawl_ok s -> tasks s !! k = Some (Task id ph) -> ph <> Over -> id ∈ listed s ->
  exists j, get_job id (run_task 12 k now s) = Some j /\ c_status j = "completed".
Proof.
  intros Hok Hk Hp Hin. pose proof (ok_tasks s Hok) as Ht. rewrite Forall_lookup in Ht. destruct (Ht _ _ Hk) as [Hj Hi]. simpl in Hj, Hi. clear Ht. destruct ph as [| |i|]; [| | |done].
  - rewrite (run_task_S 11), (run_task_S 10). unfold _run_crawl_job at 2. rewrite Hk. unfold get_job at 2.
    rewrite bool_decide_true by done. destruct Hj as [j Hj]. rewrite Hj. unfold _run_crawl_job. rewrite (end_task_phase _ _ _ _ _ Hk).
    eapply (turns_complete 10 k now _ id 0); [done|unfold PAGES; lia|eapply end_task_phase, (end_task_phase _ _ _ _ _ Hk)|done|]. simpl. by rewrite lookup_alter_is_Some, Hj.
  - rewrite (run_task_S 11). unfold _run_crawl_job. rewrite Hk.
    eapply (turns_complete 11 k now _ id 0); [unfold PAGES; lia|unfold PAGES; lia|eapply end_task_phase; exact Hk|done|]. simpl. by rewrite lookup_alter_is_Some.
  - eapply (turns_complete 12 k now s id i); [unfold PAGES in *; lia|done..].
Qed.

(** C18: a job that is listed as running is completed when its task is given
    twelve turns. *)
Theorem running_job_completes f s id j now : reachable f s -> get_job id s = Some j -> c_status j = "running" ->
  exists k j', get_job id (run_task 12 k now s) = Some j' /\ c_status j' = "completed".
Proof.
  intros Hr [Hin Hj]%get_job_Some Hs. pose proof (reachable_ok _ _ Hr) as Hok. destruct (ok_jobs s Hok id j Hj) as (_ & _ & _ & _ & _ & Hlive).
  destruct (Hlive Hin Hs) as (k & ph & Hk & Hp). apply bool_decide_eq_true in Hin. destruct (live_task_completes k now s id ph Hok Hk Hp Hin) as [j' ?]. by exists k, j'.
Qed.
(** Stopping and pausing do not stop a job: its task goes on, and after its
    turns the job that was reported as cancelled, or paused, is completed. *)
Theorem stopped_job_completes f s id j now now' : reachable f s -> get_job id s = Some j -> c_status j = "running" ->
  (exists k j', get_job id (run_task 12 k now' (stop_crawl_job id now s).2) = Some j' /\ c_status j' = "completed") /\
  (exists k j', get_job id (run_task 12 k now' (pause_crawl_job id s).2) = Some j' /\ c_status j' = "completed").
Proof.
  intros Hr Hg Hs. pose proof (get_job_Some _ _ _ Hg) as [Hin Hj]. pose proof (reachable_ok _ _ Hr) as Hok. destruct (ok_jobs s Hok id j Hj) as (_ & _ & _ & _ & _ & Hlive).
  destruct (Hlive Hin Hs) as (k & ph & Hk & Hp). apply bool_decide_eq_true in Hin. pose proof (stop_ok id now s Hok) as H1. pose proof (pause_ok id s Hok) as H2.
  unfold stop_crawl_job, pause_crawl_job in *. rewrite Hg, Hs in *. change (String.eqb "running" "running") with true in *. cbn [orb snd] in *. split; exists k; by eapply live_task_completes.
Qed.

(** ** A start that fails *)

Definition touches (id : string) (e : crawl_event) : Prop :=
  match e with EStop x _ => x = id | EDelete x => x = id | EStart x _ _ _ _ | ERecord x _ _ | ESeeds x _ _ _ => x = id | _ => False end.
Inductive later (P : crawl -> crawl_event -> Prop) (s0 : crawl) : crawl -> Prop :=
| later_now : later P s0 s0
| later_step s e : later P s0 s -> P s e -> later P s0 (crawl_step s e).
Definition stays_pending (id : string) (s : crawl) : Prop := exists j, get_job id s = Some j /\ c_status j = "pending".
Lemma upd_other id x f s : x <> id -> get_job id (upd_job x f s) = get_job id s.
Proof. intros Hx. unfold get_job. simpl. by rewrite lookup_alter_ne. Qed.
Lemma record_other id x q now s : x <> id -> get_job id (start_record x q now s) = get_job id s.
Proof.
  intros Hx. unfold get_job. simpl. rewrite lookup_insert_ne by congruence. destruct (decide (id ∈ listed s)) as [Hin|Hin].
  - by rewrite !bool_decide_true by set_solver.
  - by rewrite !bool_decide_false by set_solver.
Qed.
Lemma seeds_other id x q now' ping s : x <> id -> get_job id (start_seeds x q now' ping s).2 = get_job id s.
Proof.
  intros Hx. unfold start_seeds. destruct (_get_frontier ping s) as [[f|e] s2] eqn:Ef; apply get_frontier_same in Ef as (E1 & E2 & E3).
  - assert (get_job id s2 = get_job id s) as H2 by (unfold get_job; by rewrite E1, E2).
    destruct (add_request_seeds _ _ _ _) as [[n|e] m]; cbn [snd]; [|exact H2]. rewrite <- H2.
    change (get_job id (upd_job x (fun j => with_status "running" (with_queued n now' j)) (set_fr (frontier m) s2)) = get_job id s2). by rewrite upd_other.
  - unfold get_job. simpl. by rewrite E1, E2.
Qed.
Lemma pending_kept id s e : crawl_ok s -> stays_pending id s -> ~ touches id e -> stays_pending id (crawl_step s e).
Proof.
  intros Hok (j & Hg & Hs) Ht. exists j. split; [|done]. rewrite <- Hg.
  destruct e as [x q now now' ping|x q now|x q now' ping|x now|x|x|x|k now]; simpl in Ht; cbn [crawl_step].
  - unfold start_crawl_job. destruct (negb _); [done|]. by rewrite seeds_other, record_other.
  - destruct (valid_start q); [|done]. by apply record_other.
  - by apply seeds_other.
  - unfold stop_crawl_job. destruct (get_job x s) as [i|]; [|done]. destruct (_ || _); [|done]. by apply upd_other.
  - unfold pause_crawl_job. destruct (get_job x s) as [i|] eqn:Ei; [|done]. destruct (String.eqb_spec (c_status i) "running") as [Hr|]; [|done]. apply upd_other. intros ->. congruence.
  - unfold resume_crawl_job. destruct (get_job x s) as [i|] eqn:Ei; [|done]. destruct (String.eqb_spec (c_status i) "paused") as [Hr|]; [|done].
    apply (upd_other id x (with_status "running") s). intros ->. congruence.
  - unfold delete_crawl_job. destruct (get_job x s) as [i|]; [|done]. destruct (String.eqb _ _); [done|]. unfold get_job. simpl.
    destruct (decide (id ∈ listed s)) as [Hin|Hin].
    + rewrite (bool_decide_true (id ∈ listed s)), bool_decide_true; [done| |done]. apply list_elem_of_In, List.filter_In. split; [by apply list_elem_of_In|].
      by rewrite (proj2 (String.eqb_neq _ _)) by congruence.
    + rewrite (bool_decide_false (id ∈ listed s)), bool_decide_false; [done| |done]. intros [Hi _]%list_elem_of_In%List.filter_In. by apply Hin, list_elem_of_In.
  - apply get_job_Some in Hg as [_ Hj]. destruct (ok_jobs s Hok id j Hj) as (_ & _ & _ & _ & Hnt & _). specialize (Hnt Hs).
    unfold _run_crawl_job. destruct (tasks s !! k) as [[x ph]|] eqn:Hk; [|done]. assert (x <> id) as Hx by (rewrite Forall_lookup in Hnt; apply (Hnt _ _ Hk)).
    destruct ph as [| |i|]; [done|by apply (upd_other id x)| |done]. rewrite <- (upd_other id x with_page s Hx). destruct (negb _); [done|]. destruct (_ <? _)%nat; [done|].
    by apply (upd_other id x).
Qed.
(** A job whose start failed is left in the table, pending: nothing but
    stopping or deleting it ever changes that, since it has no task. *)
Theorem failed_start_stays_pending f s id q now now' ping e s' s'' : reachable f s -> objects s !! id = None -> valid_start q = true ->
  start_crawl_job id q now now' ping s = (Err e, s') ->
  later (fun s e => fresh_event s e /\ ~ touches id e) s' s'' -> stays_pending id s''.
Proof.
  intros Hr Hfresh Hv Hst. assert (reachable f s') as Hr'.
  { replace s' with (crawl_step s (EStart id q now now' ping)) by (simpl; by rewrite Hst). by constructor. }
  assert (stays_pending id s') as Hp.
  { revert Hst. unfold start_crawl_job, start_seeds. rewrite Hv. cbn [negb]. set (s1 := start_record _ _ _ _). assert (forall t, objects t = objects s1 -> listed t = listed s1 -> stays_pending id t) as H1.
    { intros t E1 E2. exists (new_job id q now). split; [|done]. unfold get_job. rewrite E1, E2. unfold s1. simpl. rewrite bool_decide_true by set_solver. by rewrite lookup_insert_eq. }
    destruct (_get_frontier ping s1) as [[fr|x] s2] eqn:Ef; apply get_frontier_same in Ef as (E1 & E2 & E3); [|intros [= _ <-]; by apply H1].
    destruct (add_request_seeds _ _ _ _) as [[n|x] m]; [|intros [= _ <-]; by apply H1]. intros Hc. exfalso. apply (f_equal fst) in Hc. revert Hc. simpl. rewrite E1. unfold s1. simpl.
    by rewrite lookup_alter_eq, lookup_insert_eq. }
  clear Hst. intros Hl. enough (reachable f s'' /\ stays_pending id s'') by tauto. induction Hl as [|t x Hl [IH1 IH2] [Hf Ht]]; [done|]. split; [by constructor|]. apply pending_kept; [by eapply reachable_ok|done|done].
Qed.
(** The Redis client refuses the mark of a seed, so that starting a job
    with a valid seed, which no crawl has met, fails. *)
Theorem seeded_start_fails id q now now' ping s x url urls nurl domain :
  encode (PBool true) = Err x -> valid_start q = true -> (c_created s = true \/ ping = Ok ()) -> sq_seed_urls q = url :: urls ->
  _validate_url bracketed_ok (seed_url url) = true -> _normalize_url bracketed_ok (seed_url url) = Ok nurl -> _extract_domain bracketed_ok nurl = Ok domain ->
  bloom_contains sha256_int md5_int cfg nurl (redis (c_frontier s)) = false ->
  (start_crawl_job id q now now' ping s).1 = Err (HTTPError 500 (exn_str x)).
Proof.
  intros Hx Hv Hc Hu Hval Hn Hd Hb. unfold start_crawl_job, start_seeds. rewrite Hv. cbn [negb]. set (s1 := start_record _ _ _ _).
  assert (exists fr s2, _get_frontier ping s1 = (Ok fr, s2) /\ redis fr = redis (c_frontier s)) as (fr & s2 & -> & Hr).
  { unfold _get_frontier. simpl. destruct (c_created s) eqn:E; [by do 2 eexists|]. destruct Hc as [Hc|Hc]; [congruence|]. rewrite Hc. by do 2 eexists. }
  rewrite Hu. unfold add_request_seeds, add_seeds. cbn [map add_items add_item i_url i_priority i_category].
  destruct (seed_metadata_rejected bracketed_ok sha256_int md5_int md5_hex cfg encode (fun _ => None) (fun _ => Err x) x url (PFloat (sq_priority q)) PNone
    (new_seeds fr (sq_priority q) true true) (sq_priority q) nurl domain) as [H1 _]; try done.
  - simpl. by rewrite Hval.
  - simpl. by rewrite Hr.
  - destruct (add_seed _ _ _ _ _ _ _ _ _ _ _) as [r m]. simpl in H1. subst r. done.
Qed.

(** ** Pages of the list *)

Lemma pages_concat {A} (l : list A) n k : concat (map (fun i => take n (drop (i * n) l)) (seq 0 k)) = take (k * n) l.
Proof.
  induction k as [|k IH]; [done|]. rewrite seq_S, map_app, concat_app, IH. simpl. rewrite app_nil_r, Nat.add_comm, take_take_drop. done.
Qed.
(** The pages of the list, one after another, are the jobs of the table
    that have the status asked for, each once, newest first. *)
Theorem crawl_list_pages status limit k s : 1 <= limit <= 100 -> zlength (jobs_of s) <= Z.of_nat k * limit ->
  exists jobs, StronglySorted (key_ge created_at) jobs /\
    jobs ≡ₚ (if truthy_str status then List.filter (fun j => String.eqb (c_status j) (default "" status)) (jobs_of s) else jobs_of s) /\
    forall pages, (forall i, (i < k)%nat -> list_crawl_jobs status limit (Z.of_nat i * limit) s = Ok (pages i)) ->
      concat (map pages (seq 0 k)) = map job_response jobs.
Proof.
  intros Hl Hk. set (shown := if truthy_str status then _ else _). exists (sort_desc created_at shown). split; [apply sort_desc_sorted|]. split; [apply sort_desc_perm|].
  intros pages Hp. set (l := sort_desc created_at shown) in *. assert (length l <= k * Z.to_nat limit)%nat as Hlen.
  { unfold l. rewrite (sort_desc_perm created_at shown). assert (zlength shown <= zlength (jobs_of s)) by (unfold shown, zlength; destruct (truthy_str status); [pose proof (List.filter_length_le (fun j => String.eqb (c_status j) (default "" status)) (jobs_of s))|]; lia).
    unfold zlength in *. nia. }
  transitivity (concat (map (fun i => take (Z.to_nat limit) (drop (i * Z.to_nat limit) (map job_response l))) (seq 0 k))).
  - f_equal. apply map_ext_in. intros i [_ Hi]%in_seq. specialize (Hp i Hi). unfold list_crawl_jobs in Hp.
    rewrite (proj2 (Z.leb_le 1 limit)), (proj2 (Z.leb_le limit 100)), (proj2 (Z.leb_le 0 (Z.of_nat i * limit))) in Hp by nia. simpl in Hp. injection Hp as <-.
    rewrite py_slice_nonneg by nia. fold shown. fold l. rewrite skipn_map, firstn_map. f_equal.
    rewrite take_drop_commute. f_equal; [|f_equal; nia]. lia.
  - rewrite pages_concat. apply take_ge. rewrite length_map. lia.
Qed.
End routes.

(** ** Examples *)

Definition demo_q (urls : list string) : StartCrawlRequest := StartRequest "news" urls 100 3 [] [] 100 [].
Definition demo_crawl : crawl (R := keyspace) := Crawl ∅ [] [] (new_frontier ks_empty) false.
#[local] Abbreviation step := (crawl_step (fun _ => true) demo_len demo_len id demo_cfg redis_encode).
Definition demo_started : crawl := step demo_crawl (EStart "j" (demo_q []) 0 1 (Ok ())).
#[local] Abbreviation reach := (reachable (fun _ => true) demo_len demo_len id demo_cfg redis_encode (new_frontier ks_empty)).
Lemma demo_reachable : reach demo_started.
Proof. apply (reachable_step _ _ _ _ _ _ _ demo_crawl); [constructor|done]. Qed.
Definition demo_running : crawl_job := with_status "running" (with_queued 0 1 (new_job "j" (demo_q []) 0)).
Lemma demo_started_job : get_job "j" demo_started = Some demo_running.
Proof. vm_compute. reflexivity. Qed.
Lemma crawl_jobs_invariant_witness : live_task "j" (tasks demo_started).
Proof.
  apply (crawl_jobs_invariant (fun _ => true) demo_len demo_len id demo_cfg redis_encode (new_frontier ks_empty) demo_started "j" demo_running);
    [apply demo_reachable|vm_compute; reflexivity|vm_compute; left|reflexivity].
Defined.
Lemma running_job_completes_witness : exists k j', get_job "j" (run_task 12 k 9 demo_started) = Some j' /\ c_status j' = "completed".
Proof.
  apply (running_job_completes (fun _ => true) demo_len demo_len id demo_cfg redis_encode (new_frontier ks_empty) demo_started "j" demo_running 9);
    [apply demo_reachable|apply demo_started_job|reflexivity].
Defined.
Lemma stopped_job_completes_witness : exists k j', get_job "j" (run_task 12 k 9 (stop_crawl_job "j" 5 demo_started).2) = Some j' /\ c_status j' = "completed".
Proof.
  apply (stopped_job_completes (fun _ => true) demo_len demo_len id demo_cfg redis_encode (new_frontier ks_empty) demo_started "j" demo_running 5 9);
    [apply demo_reachable|apply demo_started_job|reflexivity].
Defined.
#[local] Abbreviation start := (start_crawl_job (fun _ => true) demo_len demo_len id demo_cfg redis_encode).
Lemma seeded_start_fails_witness :
  (start "k" (demo_q ["a.com"]) 2 3 (Ok ()) demo_started).1 = Err (HTTPError 500 "Invalid input of type: bool").
Proof.
  eapply (seeded_start_fails (fun _ => true) demo_len demo_len id demo_cfg redis_encode "k" (demo_q ["a.com"]) 2 3 (Ok ()) demo_started
    (PyExn "DataError" "Invalid input of type: bool") "a.com" []); try (by vm_compute). by right.
Defined.
Lemma failed_start_stays_pending_witness : exists s', start "k" (demo_q ["a.com"]) 2 3 (Ok ()) demo_started = (Err (HTTPError 500 "Invalid input of type: bool"), s') /\
  stays_pending "k" (step s' (EResume "k")).
Proof.
  exists (start "k" (demo_q ["a.com"]) 2 3 (Ok ()) demo_started).2. split; [vm_compute; reflexivity|].
  apply (failed_start_stays_pending (fun _ => true) demo_len demo_len id demo_cfg redis_encode (new_frontier ks_empty) demo_started "k" (demo_q ["a.com"]) 2 3 (Ok ())
    (HTTPError 500 "Invalid input of type: bool") (start "k" (demo_q ["a.com"]) 2 3 (Ok ()) demo_started).2); [apply demo_reachable|vm_compute; reflexivity|reflexivity|vm_compute; reflexivity|].
  apply later_step; [constructor|]. split; [exact I|intros Hf; exact Hf].
Defined.
Lemma crawl_list_pages_witness : exists jobs, StronglySorted (key_ge created_at) jobs /\ jobs ≡ₚ jobs_of demo_started.
Proof.
  destruct (crawl_list_pages None 10 1 demo_started) as (jobs & H1 & H2 & _); [lia|vm_compute; discriminate|]. by exists jobs.
Defined.
