(* ===== verification/AuthAgent.v ===== *)
(** * The crawl login agent

    document_processor/crawling/auth_agent.py: sessions kept in Redis (the
    server of Cache.v) and in this process, and the agent that logs in through
    the form of a site.  Parsed pages, [urljoin] and the HTTP client are
    parameters; a client keeps the cookies of its responses.  Readings of the
    clock are arguments; a time is written by [isoformat]. *)

From S2P Require Import Prelude PyStr PyVal PyConv Json Cache Documents.
From Stdlib Require Import Ascii.
#[local] Open Scope py_scope.
#[local] Open Scope Z_scope.

Abbreviation sdict := (list (string * string)).
Record Credentials := Creds { cr_username : string; cr_password : string; cr_domain : string; cr_login_url : option string; cr_extra : sdict }.
Record SessionData := Session {
  sd_domain : string; sd_cookies : sdict; sd_headers : sdict; sd_created : Q; sd_expires : option Q; sd_last_used : Q; sd_authenticated : bool }.
Definition is_expired (now : Q) (s : SessionData) : bool := match sd_expires s with Some e => Qltb e now | None => false end.
Definition used_at (now : Q) (s : SessionData) : SessionData :=
  Session (sd_domain s) (sd_cookies s) (sd_headers s) (sd_created s) (sd_expires s) now (sd_authenticated s).

(** ** Sessions as dictionaries *)

Definition texts (d : sdict) : pyval := PDict (map (fun kv => (kv.1, PStr kv.2)) d).
Fixpoint read_texts (d : list (string * pyval)) : result pyexn sdict :=
  match d with
  | [] => Ok []
  | (k, PStr v) :: d' => r <-! read_texts d'; Ok ((k, v) :: r)
  | (k, _) :: _ => Err (PyExn "TypeError" k)
  end.
Section serialise.
Variable isoformat : Q -> string.
Variable fromisoformat : string -> result pyexn Q.
Definition session_to_dict (s : SessionData) : list (string * pyval) :=
  [("domain", PStr (sd_domain s)); ("cookies", texts (sd_cookies s)); ("headers", texts (sd_headers s)); ("created_at", PStr (isoformat (sd_created s)));
   ("expires_at", match sd_expires s with Some t => PStr (isoformat t) | None => PNone end); ("last_used", PStr (isoformat (sd_last_used s)));
   ("is_authenticated", PBool (sd_authenticated s))].
Definition item (k : string) (d : list (string * pyval)) : result pyexn pyval :=
  match dict_get k d with Some v => Ok v | None => Err (PyExn "KeyError" ("'" +:+ k +:+ "'")) end.
(** The fields a stored session has are those [session_to_dict] writes; a value
    of another type is an error here at once *)
Definition texts_at (k : string) (d : list (string * pyval)) : result pyexn sdict :=
  v <-! item k d; match v with PDict t => read_texts t | _ => Err (PyExn "TypeError" k) end.
Definition time_at (k : string) (d : list (string * pyval)) : result pyexn Q :=
  v <-! item k d; match v with PStr s => fromisoformat s | _ => Err (PyExn "TypeError" "fromisoformat: argument must be str") end.
Definition session_from_dict (d : list (string * pyval)) : result pyexn SessionData :=
  dom <-! item "domain" d; cookies <-! texts_at "cookies" d; headers <-! texts_at "headers" d; created <-! time_at "created_at" d;
  expires <-! (if truthy (default PNone (dict_get "expires_at" d)) then t <-! time_at "expires_at" d; Ok (Some t) else Ok None);
  last <-! time_at "last_used" d; auth <-! item "is_authenticated" d;
  match dom, auth with
  | PStr dom, PBool auth => Ok (Session dom cookies headers created expires last auth)
  | _, _ => Err (PyExn "TypeError" "domain")
  end.
End serialise.

(** ** The session manager *)

Record SessionManager (R : Type) := Manager_ { sm_redis : R; sm_local : gmap string SessionData }.
Arguments Manager_ {R}. Arguments sm_redis {R}. Arguments sm_local {R}.

Section manager.
Context {R : Type} `{RedisServer R}.
Variable isoformat : Q -> string.
Variable fromisoformat : string -> result pyexn Q.
Variable float_repr : Q -> string.
Variable key_prefix : string.
Variable session_ttl : Z.
#[local] Abbreviation M := (SessionManager R).

Definition _get_session_key (domain : string) : string := key_prefix +:+ ":" +:+ domain.
Definition save_session (s : SessionData) (m : M) : result pyexn unit * M :=
  match json_dumps float_repr (PDict (session_to_dict isoformat s)) with
  | Err e => (Err e, m)
  | Ok text =>
      match exec (SetEx (_get_session_key (sd_domain s)) session_ttl text) (sm_redis m) with
      | (Err e, r) => (Err e, Manager_ r (sm_local m))
      | (Ok _, r) => (Ok (), Manager_ r (<[sd_domain s := s]> (sm_local m)))
      end
  end.
(** A local session that is good is marked as used and returned; an expired one
    is dropped and Redis is asked. *)
Definition read_remote (domain : string) (now now' : Q) (m : M) : result pyexn (option SessionData) * M :=
  match exec (Get (_get_session_key domain)) (sm_redis m) with
  | (Err e, r) => (Err e, Manager_ r (sm_local m))
  | (Ok data, r) =>
      let m := Manager_ r (sm_local m) in
      if negb (truthy_str data) then (Ok None, m) else
      match (v <-! json_loads (default "" data); match v with PDict d => session_from_dict fromisoformat d | _ => Err (type_error v "indices must be integers") end) with
      | Err e => (Err e, m)
      | Ok s =>
          if is_expired now s then
            match exec (Del [_get_session_key domain]) (sm_redis m) with
            | (Err e, r) => (Err e, Manager_ r (sm_local m))
            | (Ok _, r) => (Ok None, Manager_ r (sm_local m))
            end
          else (Ok (Some (used_at now' s)), Manager_ r (<[domain := used_at now' s]> (sm_local m)))
      end
  end.
Definition get_session (domain : string) (now now' : Q) (m : M) : result pyexn (option SessionData) * M :=
  match sm_local m !! domain with
  | Some s => if is_expired now s then read_remote domain now now' (Manager_ (sm_redis m) (delete domain (sm_local m)))
              else (Ok (Some (used_at now' s)), Manager_ (sm_redis m) (<[domain := used_at now' s]> (sm_local m)))
  | None => read_remote domain now now' m
  end.
Definition delete_session (domain : string) (m : M) : result pyexn unit * M :=
  match exec (Del [_get_session_key domain]) (sm_redis m) with
  | (Err e, r) => (Err e, Manager_ r (sm_local m))
  | (Ok _, r) => (Ok (), Manager_ r (delete domain (sm_local m)))
  end.
Definition has_session (domain : string) (now now' : Q) (m : M) : result pyexn bool * M :=
  match get_session domain now now' m with
  | (Ok (Some s), m) => (Ok (sd_authenticated s), m)
  | (Ok None, m) => (Ok false, m)
  | (Err e, m) => (Err e, m)
  end.

(** ** Login forms *)

(** What the parser finds: the attributes of an [input], of a form with its
    inputs, of a [meta] *)
Record html_input := Input { in_name : option string; in_type : option string; in_value : option string }.
Record html_form := Form { f_action : option string; f_method : option string; f_inputs : list html_input }.
Record html_page := Page { p_forms : list html_form; p_metas : list (option string * option string); p_inputs : list html_input }.
Variable parse_html : string -> html_page.
Variable urljoin : string -> string -> string.

(** [re.compile("csrf|token|_token", re.I)] finds a name that contains one of
    the first two in some case *)
Definition csrf_name (name : option string) : bool :=
  match name with Some n => str_in "csrf" (lower n) || str_in "token" (lower n) | None => false end.
Record form_field := Field { ff_type : string; ff_value : string }.
Record login_form := LoginForm { lf_action : string; lf_method : string; lf_fields : list (string * form_field); lf_csrf : option (option string * string) }.
Definition is_password (i : html_input) : bool := bool_decide (in_type i = Some "password").
Fixpoint field_set (k : string) (v : form_field) (d : list (string * form_field)) : list (string * form_field) :=
  match d with [] => [(k, v)] | (k', v') :: d' => if String.eqb k k' then (k, v) :: d' else (k', v') :: field_set k v d' end.
Definition fields_of (inputs : list html_input) : list (string * form_field) :=
  foldl (fun d i => match in_name i with
                    | Some n => if String.eqb n "" then d else field_set n (Field (default "text" (in_type i)) (default "" (in_value i))) d
                    | None => d
                    end) [] inputs.
Definition upper_char (c : ascii) : ascii :=
  let n := nat_of_ascii c in if (97 <=? n)%nat && (n <=? 122)%nat then ascii_of_nat (n - 32) else c.
Fixpoint upper (s : string) : string := match s with "" => "" | String c s' => String (upper_char c) (upper s') end.
Definition _detect_login_form (html base_url : string) : option login_form :=
  match List.find (fun f => existsb is_password (f_inputs f)) (p_forms (parse_html html)) with
  | None => None
  | Some f => Some (LoginForm (urljoin base_url (default "" (f_action f))) (upper (default "post" (f_method f))) (fields_of (f_inputs f))
                      (i ← List.find (fun i => csrf_name (in_name i)) (f_inputs f); Some (in_name i, default "" (in_value i))))
  end.

(** ** The agent *)

(** [httpx.AsyncClient]: a client with its cookies *)
Record response := Response { r_status : Z; r_text : string }.
Record http := Http {
  h_client : Type; new_client : sdict -> sdict -> h_client;
  h_get : h_client -> string -> sdict -> result pyexn response * h_client;
  h_post : h_client -> string -> sdict -> result pyexn response * h_client;
  h_cookies : h_client -> sdict }.
Variable net : http.
Variable user_agent : string.
Record AuthAgent := Agent { ag_sessions : M; ag_credentials : gmap string Credentials }.
Definition set_sessions (m : M) (a : AuthAgent) : AuthAgent := Agent m (ag_credentials a).
Definition add_credentials (c : Credentials) (a : AuthAgent) : AuthAgent := Agent (ag_sessions a) (<[cr_domain c := c]> (ag_credentials a)).
Definition get_credentials (domain : string) (a : AuthAgent) : option Credentials := ag_credentials a !! domain.
(** [d.update(d')] *)
Fixpoint sset (k v : string) (d : sdict) : sdict :=
  match d with [] => [(k, v)] | (k', v') :: d' => if String.eqb k k' then (k, v) :: d' else (k', v') :: sset k v d' end.
Definition supdate (d d' : sdict) : sdict := foldl (fun d kv => sset kv.1 kv.2 d) d d'.
Definition _create_client (s : option SessionData) : h_client net :=
  match s with
  | None => new_client net [] [("User-Agent", user_agent)]
  | Some s => new_client net (sd_cookies s) (supdate [("User-Agent", user_agent)] (sd_headers s))
  end.
Definition _extract_csrf_token (c : h_client net) (url : string) : result pyexn (option string) * h_client net :=
  match h_get net c url [] with
  | (Err e, c) => (Err e, c)
  | (Ok r, c) =>
      let p := parse_html (r_text r) in
      (Ok (match List.find (fun m => csrf_name m.1) (p_metas p) with
           | Some m => m.2
           | None => i ← List.find (fun i => csrf_name (in_name i)) (p_inputs p); in_value i
           end), c)
  end.
(** The data of the form: the fields in order, then the extra ones *)
Definition fill (c : Credentials) (d : sdict) (kf : string * form_field) : sdict :=
  let '(k, f) := kf in
  if String.eqb (ff_type f) "password" then sset k (cr_password c) d
  else if String.eqb (ff_type f) "text" || String.eqb (ff_type f) "email" then
    if truthy_str (snd <$> List.find (fun kv => String.eqb kv.1 k) d) then d else sset k (cr_username c) d
  else if String.eqb (ff_type f) "hidden" then sset k (ff_value f) d
  else d.
Definition submit_data (c : Credentials) (f : login_form) : sdict := supdate (foldl (fill c) [] (lf_fields f)) (cr_extra c).
Definition FAILURES : list string := ["invalid"; "incorrect"; "wrong"; "failed"; "error"; "denied"].
Definition looks_successful (r : response) : bool :=
  let text := lower (r_text r) in
  negb (existsb (fun w => str_in w text && str_in "login" text) FAILURES) || (r_status r =? 302) || (r_status r =? 303).
Definition login_page (c : Credentials) : string :=
  if truthy_str (cr_login_url c) then default "" (cr_login_url c) else "https://" +:+ cr_domain c +:+ "/login".
Definition session_for (c : Credentials) (cookies : sdict) (now now' now'' : Q) : SessionData :=
  Session (cr_domain c) cookies [] now (Some (now' + inject_Z (24 * 3600))%Q) now'' true.
(** The statements of the [try] block: [None] where it returns [False, None] *)
Definition log_in (c : Credentials) (now now' now'' : Q) (m : M) : result pyexn (option SessionData) * M :=
  match h_get net (_create_client None) (login_page c) [] with
  | (Err e, _) => (Err e, m)
  | (Ok r, cl) =>
      if negb (r_status r =? 200) then (Ok None, m) else
      match _detect_login_form (r_text r) (login_page c) with
      | None => (Ok None, m)
      | Some f =>
          match (if String.eqb (lf_method f) "POST" then h_post net cl (lf_action f) (submit_data c f) else h_get net cl (lf_action f) (submit_data c f)) with
          | (Err e, _) => (Err e, m)
          | (Ok r, cl) =>
              if looks_successful r then
                let s := session_for c (h_cookies net cl) now now' now'' in
                match save_session s m with (Ok _, m) => (Ok (Some s), m) | (Err e, m) => (Err e, m) end
              else (Ok None, m)
          end
      end
  end.
Definition authenticate (c : Credentials) (now now' now'' : Q) (m : M) : result pyexn (bool * option SessionData) * M :=
  match log_in c now now' now'' m with
  | (Ok (Some s), m) => (Ok (true, Some s), m)
  | (Ok None, m) => (Ok (false, None), m)
  | (Err e, m) => if String.eqb (exn_type e) "CancelledError" then (Err e, m) else (Ok (false, None), m)
  end.
Definition get_authenticated_client (domain : string) (t1 t2 now now' now'' : Q) (a : AuthAgent) : result pyexn (option (h_client net)) * AuthAgent :=
  match get_session domain t1 t2 (ag_sessions a) with
  | (Err e, m) => (Err e, set_sessions m a)
  | (Ok s, m) =>
      match (s ← s; if sd_authenticated s then Some s else None) with
      | Some s => (Ok (Some (_create_client (Some s))), set_sessions m a)
      | None =>
          match get_credentials domain a with
          | None => (Ok None, set_sessions m a)
          | Some c =>
              match authenticate c now now' now'' m with
              | (Err e, m) => (Err e, set_sessions m a)
              | (Ok (ok, s), m) => (Ok (if ok then (fun s => _create_client (Some s)) <$> s else None), set_sessions m a)
              end
          end
      end
  end.
Definition ensure_authenticated (domain : string) (t1 t2 now now' now'' : Q) (a : AuthAgent) : result pyexn bool * AuthAgent :=
  match has_session domain t1 t2 (ag_sessions a) with
  | (Err e, m) => (Err e, set_sessions m a)
  | (Ok true, m) => (Ok true, set_sessions m a)
  | (Ok false, m) =>
      match get_credentials domain a with
      | None => (Ok false, set_sessions m a)
      | Some c => match authenticate c now now' now'' m with
                  | (Ok (ok, _), m) => (Ok ok, set_sessions m a)
                  | (Err e, m) => (Err e, set_sessions m a)
                  end
      end
  end.

(** ** What the sessions promise *)

Lemma get_session_good domain now now' m s m' : get_session domain now now' m = (Ok (Some s), m') -> is_expired now s = false /\ sm_local m' !! domain = Some s.
Proof.
  assert (forall m, read_remote domain now now' m = (Ok (Some s), m') -> is_expired now s = false /\ sm_local m' !! domain = Some s) as Hr.
  { clear m. intros m. unfold read_remote. destruct (exec (Get _) _) as [[data|] r]; [|done]. cbv zeta. destruct (negb (truthy_str data)); [done|].
    destruct (rbind _ _) as [x|]; [|done]. destruct (is_expired now x) eqn:E; [by destruct (exec (Del _) _) as [[|] ?]|]. intros [= <- <-]. simpl. by rewrite lookup_insert_eq. }
  unfold get_session. destruct (sm_local m !! domain) as [x|]; [|apply Hr]. destruct (is_expired now x) eqn:E; [apply Hr|]. intros [= <- <-]. simpl. by rewrite lookup_insert_eq.
Qed.
(** An expired session is never used: what [get_session] returns has not
    expired, and is kept for the next call. *)
Theorem session_never_expired domain now now' m s m' : get_session domain now now' m = (Ok (Some s), m') -> is_expired now s = false /\ sm_local m' !! domain = Some s.
Proof. apply get_session_good. Qed.

Lemma read_texts_back d : read_texts (map (fun kv => (kv.1, PStr kv.2)) d) = Ok d.
Proof. induction d as [|[k v] d IH]; [done|]. simpl. by rewrite IH. Qed.
Section written.
Hypothesis iso_back : forall t, fromisoformat (isoformat t) = Ok t.
Hypothesis iso_text : forall t, isoformat t <> "".
Lemma session_dict_back s : session_from_dict fromisoformat (session_to_dict isoformat s) = Ok s.
Proof.
  destruct s as [dom ck hd cr ex lu au]. unfold session_from_dict, session_to_dict, texts_at, time_at, item. simpl. rewrite !read_texts_back. simpl. rewrite !iso_back. simpl.
  destruct ex as [t|]; simpl; [|done]. rewrite (proj2 (String.eqb_neq _ _) (iso_text t)). simpl. by rewrite iso_back.
Qed.

Context `{!RedisServerLaws R}.
(** A saved session is found by another process that shares the Redis
    server, as it was, until it expires: unless the read fails or the time to
    live has passed since. *)
Theorem saved_session_shared s m m1 local now now' r m2 : json_safe (PDict (session_to_dict isoformat s)) ->
  save_session s m = (Ok (), m1) -> local !! sd_domain s = None -> is_expired now s = false ->
  get_session (sd_domain s) now now' (Manager_ (sm_redis m1) local) = (r, m2) ->
  r = Ok (Some (used_at now' s)) \/ (exists e, r = Err e) \/ (r = Ok None /\ (time_of (sm_redis m) + inject_Z session_ttl <= time_of (sm_redis m2))%Q).
Proof.
  intros Hsafe Hsave Hl Hex. unfold save_session in Hsave. destruct (json_dumps _ _) as [text|] eqn:Ed; [|done].
  set (k := _get_session_key (sd_domain s)) in *. pose proof (exec_law _ (SetEx k session_ttl text) (sm_redis m)) as [_ Hset].
  destruct (exec (SetEx k session_ttl text) (sm_redis m)) as [[b|] r1]; [|done]. injection Hsave as <-. simpl in Hset. destruct Hset as (t0 & Ht0 & Hpos & -> & Hview).
  unfold get_session. simpl sm_local. rewrite Hl. unfold read_remote. simpl sm_redis. fold k.
  pose proof (exec_law _ (Get k) r1) as [Htime Hget]. destruct (exec (Get k) r1) as [[data|e] r2]; [|intros [= <- <-]; right; left; eauto]. simpl in Htime, Hget.
  destruct Hget as (t & Ht & -> & _). rewrite Hview, value_after_set. cbv zeta. destruct (Qle_bool_reflect (t0 + inject_Z session_ttl) t) as [Hexp|Hok].
  - simpl. intros [= <- <-]. right; right. split; [done|]. simpl. lra.
  - destruct (dumps_head float_repr _ _ Hsafe Ed) as (c & u & -> & _). cbn [truthy_str negb String.eqb default]. erewrite loads_dumps; [|done|exact Ed]. cbn [rbind].
    rewrite session_dict_back, Hex. intros [= <- <-]. by left.
Qed.
End written.

(** ** What a login promises *)

(** After a login the session is kept, and is used, without a request to
    the site or to Redis, until a day has passed. *)
Theorem login_kept c now now' now'' m s m' t1 t2 : authenticate c now now' now'' m = (Ok (true, Some s), m') -> (t1 <= now' + inject_Z (24 * 3600))%Q ->
  sd_domain s = cr_domain c /\ has_session (cr_domain c) t1 t2 m' = (Ok true, Manager_ (sm_redis m') (<[cr_domain c := used_at t2 s]> (sm_local m'))).
Proof.
  unfold authenticate. destruct (log_in c now now' now'' m) as [[[x|]|e] m1] eqn:E; [|done|by destruct (String.eqb _ _)]. intros [= <- <-] Ht.
  revert E. unfold log_in. destruct (h_get net _ _ _) as [[r|] cl]; [|done]. destruct (negb _); [done|]. destruct (_detect_login_form _ _) as [f|]; [|done].
  destruct (if String.eqb _ _ then _ else _) as [[r'|] cl']; [|done]. destruct (looks_successful r'); [|done]. unfold save_session.
  destruct (json_dumps _ _); [|done]. destruct (exec _ _) as [[b|] r1]; [|done]. intros [= <- <-]. split; [done|].
  unfold has_session, get_session. simpl sm_local. simpl sd_domain. rewrite lookup_insert_eq. unfold is_expired. simpl sd_expires. cbv beta match.
  destruct (Qltb_reflect (now' + inject_Z (24 * 3600)) t1) as [Hlt|]; [|done]. exfalso. apply Qlt_not_le in Hlt. by apply Hlt.
Qed.

(** The status of the answer to a login is never looked at: when the text
    of the answer does not contain the word login, any answer, an error of the
    server or a refusal, counts as a successful login, and the session is
    stored as authenticated. *)
Theorem refused_login_accepted c now now' now'' m page cl f answer cl' m' :
  h_get net (_create_client None) (login_page c) [] = (Ok page, cl) -> r_status page = 200 -> _detect_login_form (r_text page) (login_page c) = Some f ->
  (if String.eqb (lf_method f) "POST" then h_post net cl (lf_action f) (submit_data c f) else h_get net cl (lf_action f) (submit_data c f)) = (Ok answer, cl') ->
  str_in "login" (lower (r_text answer)) = false ->
  save_session (session_for c (h_cookies net cl') now now' now'') m = (Ok (), m') ->
  authenticate c now now' now'' m = (Ok (true, Some (session_for c (h_cookies net cl') now now' now'')), m').
Proof.
  intros Hp Hs Hf Ha Hl Hsave. unfold authenticate, log_in. rewrite Hp, Hs. cbn [negb Z.eqb Pos.eqb]. rewrite Hf, Ha. unfold looks_successful.
  assert (existsb (fun w => str_in w (lower (r_text answer)) && str_in "login" (lower (r_text answer))) FAILURES = false) as ->.
  { rewrite Hl. simpl. by rewrite !andb_false_r. }
  cbn [negb orb]. by rewrite Hsave.
Qed.

(** The fields of the form a login sends *)
Lemma sget_sset k v k' (d : sdict) : List.find (fun kv => String.eqb kv.1 k') (sset k v d) = if String.eqb k k' then Some (k, v) else List.find (fun kv => String.eqb kv.1 k') d.
Proof.
  induction d as [|[a b] d IH]; simpl; [by destruct (String.eqb k k')|]. destruct (String.eqb_spec k a) as [->|Hne]; simpl; [by destruct (String.eqb a k')|].
  destruct (String.eqb_spec a k') as [->|Ha]; simpl; [by rewrite (proj2 (String.eqb_neq k k')) by congruence|done].
Qed.
Definition sent (k : string) (d : sdict) : option string := snd <$> List.find (fun kv => String.eqb kv.1 k) d.
Lemma sent_sset k v k' d : sent k' (sset k v d) = if String.eqb k k' then Some v else sent k' d.
Proof. unfold sent. rewrite sget_sset. by destruct (String.eqb k k'). Qed.
(** What a field of some type is filled with *)
Definition expected (c : Credentials) (f : form_field) : option string :=
  if String.eqb (ff_type f) "password" then Some (cr_password c)
  else if String.eqb (ff_type f) "text" || String.eqb (ff_type f) "email" then Some (cr_username c)
  else if String.eqb (ff_type f) "hidden" then Some (ff_value f)
  else None.
Lemma fill_other c d kf k : kf.1 <> k -> sent k (fill c d kf) = sent k d.
Proof.
  destruct kf as [k' f]. simpl. intros Hne. destruct (String.eqb (ff_type f) "password"); [by rewrite sent_sset, (proj2 (String.eqb_neq _ _) Hne)|].
  destruct (_ || _); [destruct (truthy_str _); [done|]; by rewrite sent_sset, (proj2 (String.eqb_neq _ _) Hne)|].
  destruct (String.eqb _ _); [by rewrite sent_sset, (proj2 (String.eqb_neq _ _) Hne)|done].
Qed.
Lemma fill_here c d k f : sent k d = None -> sent k (fill c d (k, f)) = expected c f.
Proof.
  intros Hd. unfold fill, expected. fold (sent k d). rewrite Hd. simpl. destruct (String.eqb (ff_type f) "password"); [by rewrite sent_sset, String.eqb_refl|].
  destruct (_ || _); [by rewrite sent_sset, String.eqb_refl|]. destruct (String.eqb _ _); [by rewrite sent_sset, String.eqb_refl|done].
Qed.
Lemma fill_all_other c l d k : k ∉ map fst l -> sent k (foldl (fill c) d l) = sent k d.
Proof.
  revert d. induction l as [|kf l IH]; intros d Hk; [done|]. simpl in *. rewrite IH by set_solver. apply fill_other. set_solver.
Qed.
Lemma fill_all c l d k f : NoDup (map fst l) -> (k, f) ∈ l -> sent k d = None -> sent k (foldl (fill c) d l) = expected c f.
Proof.
  revert d. induction l as [|kf l IH]; intros d Hnd Hin Hd; [by apply not_elem_of_nil in Hin|]. simpl in Hnd. inversion Hnd as [|? ? Hk Hnd']; subst. simpl. apply elem_of_cons in Hin as [<-|Hin].
  - rewrite fill_all_other by done. by apply fill_here.
  - apply IH; [done|done|]. rewrite fill_other; [done|]. intros Heq. apply Hk. rewrite Heq. apply list_elem_of_fmap. by exists (k, f).
Qed.
Lemma supdate_other d d' k : k ∉ map fst d' -> sent k (supdate d d') = sent k d.
Proof.
  unfold supdate. revert d. induction d' as [|[a b] d' IH]; intros d Hk; [done|]. simpl in *. rewrite IH by set_solver. rewrite sent_sset, (proj2 (String.eqb_neq a k)); [done|set_solver].
Qed.
Lemma field_set_keys k v d : map fst (field_set k v d) = if bool_decide (k ∈ map fst d) then map fst d else map fst d ++ [k].
Proof.
  induction d as [|[a b] d IH]; [done|]. cbn [field_set map fst]. destruct (String.eqb_spec k a) as [->|Hne]; cbn [map fst]; [by rewrite bool_decide_true by set_solver|].
  rewrite IH. destruct (decide (k ∈ map fst d)) as [Hin|Hin]; [rewrite !bool_decide_true by set_solver|rewrite !bool_decide_false by set_solver]; done.
Qed.
Lemma fields_distinct inputs : NoDup (map fst (fields_of inputs)).
Proof.
  unfold fields_of. assert (forall d, NoDup (map fst d) -> NoDup (map fst (foldl (fun d i => match in_name i with
    | Some n => if String.eqb n "" then d else field_set n (Field (default "text" (in_type i)) (default "" (in_value i))) d | None => d end) d inputs))) as H1; [|apply H1; constructor].
  induction inputs as [|i inputs IH]; intros d Hd; [done|]. simpl. apply IH. destruct (in_name i) as [n|]; [|done]. destruct (String.eqb n ""); [done|].
  rewrite field_set_keys. case_bool_decide; [done|]. apply NoDup_app. split_and!; [done|set_solver|apply NoDup_singleton].
Qed.
(** A login sends each field of the form once: the password in the fields
    of type password, the user name in those of type text and email, hidden
    fields, a CSRF token among them, as the page has them, and no other, except
    those the credentials add or replace. *)
Theorem login_fields_filled c html base f k ff : _detect_login_form html base = Some f -> (k, ff) ∈ lf_fields f -> k ∉ map fst (cr_extra c) ->
  sent k (submit_data c f) = expected c ff.
Proof.
  unfold _detect_login_form. destruct (List.find _ _) as [fm|]; [|done]. intros [= <-] Hin Hk. unfold submit_data. rewrite supdate_other by done.
  apply fill_all; [apply fields_distinct|exact Hin|done].
Qed.
End manager.

(** ** Examples *)

Definition demo_iso (t : Q) : string := String "t" (sample_iso t).
Definition demo_fromiso (s : string) : result pyexn Q :=
  match s with String _ s' => match sample_parse s' with Some t => Ok t | None => Err (PyExn "ValueError" "") end | "" => Err (PyExn "ValueError" "") end.
Lemma demo_iso_back t : demo_fromiso (demo_iso t) = Ok t.
Proof. simpl. by rewrite sample_iso_parse. Qed.
Definition demo_html (_ : string) : html_page :=
  Page [Form (Some "/in") None [Input (Some "user") None None; Input (Some "pw") (Some "password") None; Input (Some "_token") (Some "hidden") (Some "x1")]] [] [].
Definition demo_http : http :=
  {| h_client := unit; new_client _ _ := (); h_get c _ _ := (Ok (Response 200 "<form>"), c);
     h_post c _ _ := (Ok (Response 403 "no"), c); h_cookies _ := [("sid", "7")] |}.
Definition demo_creds : Credentials := Creds "ann" "secret" "a.org" None [].
Definition demo_sm : SessionManager redisd := Manager_ (Redisd ∅ 0 []) ∅.
Definition demo_auth := authenticate demo_iso (fun _ => "") "sessions" 86400 demo_html (fun b a => b +:+ a) demo_http "agent" demo_creds 0 0 0 demo_sm.
Definition demo_session : SessionData := session_for demo_creds [("sid", "7")] 0 0 0.
Lemma refused_login_accepted_witness : demo_auth.1 = Ok (true, Some demo_session).
Proof.
  unfold demo_auth. erewrite (refused_login_accepted demo_iso (fun _ => "") "sessions" 86400 demo_html (fun b a => b +:+ a) demo_http "agent" demo_creds 0 0 0 demo_sm); try reflexivity.
Defined.
Lemma login_kept_witness : (has_session demo_fromiso "sessions" "a.org" 5 6 demo_auth.2).1 = Ok true.
Proof.
  destruct (login_kept demo_iso demo_fromiso (fun _ => "") "sessions" 86400 demo_html (fun b a => b +:+ a) demo_http "agent" demo_creds 0 0 0 demo_sm demo_session demo_auth.2 5 6) as [_ H];
    [vm_compute; reflexivity|done|]. simpl cr_domain in H. rewrite H. reflexivity.
Defined.
Lemma session_never_expired_witness : is_expired 5 (used_at 6 demo_session) = false.
Proof.
  eapply (session_never_expired demo_fromiso "sessions" "a.org" 5 6 demo_auth.2). vm_compute. reflexivity.
Defined.
Lemma login_fields_filled_witness : sent "pw" (submit_data demo_creds (default (LoginForm "" "" [] None) (_detect_login_form demo_html (fun b a => b +:+ a) "" "https://a.org/login"))) = Some "secret".
Proof.
  eapply (login_fields_filled demo_fromiso demo_html (fun b a => b +:+ a) demo_creds "" "https://a.org/login" _ "pw" (Field "password" "")); [vm_compute; reflexivity|vm_compute; right; left|apply not_elem_of_nil].
Defined.
Lemma saved_session_shared_witness :
  (get_session demo_fromiso "sessions" "a.org" 5 6 (Manager_ (sm_redis demo_auth.2) ∅)).1 = Ok (Some (used_at 6 demo_session)).
Proof.
  destruct (get_session demo_fromiso "sessions" "a.org" 5 6 (Manager_ (sm_redis demo_auth.2) ∅)) as [r m2] eqn:E.
  destruct (saved_session_shared demo_iso demo_fromiso (fun _ => "") "sessions" 86400 demo_iso_back ltac:(done) demo_session demo_sm demo_auth.2 ∅ 5 6 r m2) as [->|[[e ->]|[-> _]]];
    try done. vm_compute. repeat constructor; set_solver.
Defined.
