(* ===== verification/Monitoring.v ===== *)
(** * Metrics

    document_processor/infrastructure/monitoring.py: the metrics and the methods
    of [Monitor].  The Prometheus client is the typeclass [Prometheus], whose
    law says what an operation does to the series, or that it is refused: label
    names other than the declared ones, a counter that would go down, an
    operation the kind of metric does not have.  A method is the list of its
    operations, of which the first that raises ends it.  Help texts and the
    exposition format are left out. *)

From S2P Require Import Prelude PyStr PyVal PyConv.
From Stdlib Require Import Ascii.
#[local] Open Scope py_scope.
#[local] Open Scope Q_scope.

(** ** The metrics *)

Variant metric_kind := KCounter | KGauge | KHistogram (buckets : list Q) | KInfo.
Record metric := Metric { m_name : string; m_labels : list string; m_kind : metric_kind }.
Definition DOCUMENTS_PROCESSED : metric := Metric "documents_processed_total" ["source_type"; "status"] KCounter.
Definition DOCUMENTS_IN_PROGRESS : metric := Metric "documents_in_progress" ["source_type"] KGauge.
Definition PROCESSING_DURATION : metric := Metric "processing_duration_seconds" ["source_type"] (KHistogram [(1 # 10); (1 # 2); 1; 2; 5; 10; 30; 60; 120; 300]).
Definition TRANSLATION_REQUESTS : metric := Metric "translation_requests_total" ["provider"; "source_lang"; "status"] KCounter.
Definition TRANSLATION_DURATION : metric := Metric "translation_duration_seconds" ["provider"] (KHistogram [(1 # 10); (1 # 2); 1; 2; 5; 10; 30]).
Definition TRANSLATION_CHARACTERS : metric := Metric "translation_characters_total" ["provider"] KCounter.
Definition TRANSLATION_COST : metric := Metric "translation_cost_usd" ["provider"] KCounter.
Definition LANGUAGE_DETECTIONS : metric := Metric "language_detections_total" ["detected_language"] KCounter.
Definition LANGUAGE_DETECTION_CONFIDENCE : metric := Metric "language_detection_confidence" [] (KHistogram [(1 # 2); (3 # 5); (7 # 10); (4 # 5); (9 # 10); (19 # 20); (99 # 100); 1]).
Definition CACHE_OPERATIONS : metric := Metric "cache_operations_total" ["operation"; "result"] KCounter.
Definition CACHE_HIT_RATE : metric := Metric "cache_hit_rate" [] KGauge.
Definition QUEUE_DEPTH : metric := Metric "queue_depth" ["queue_name"] KGauge.
Definition QUEUE_MESSAGES_PUBLISHED : metric := Metric "queue_messages_published_total" ["queue_name"] KCounter.
Definition QUEUE_MESSAGES_CONSUMED : metric := Metric "queue_messages_consumed_total" ["queue_name"; "status"] KCounter.
Definition ACTIVE_WORKERS : metric := Metric "active_workers" [] KGauge.
Definition WORKER_TASKS : metric := Metric "worker_tasks" ["worker_id"] KGauge.
Definition ERRORS_TOTAL : metric := Metric "errors_total" ["error_type"; "component"] KCounter.
Definition DLQ_MESSAGES : metric := Metric "dlq_messages" [] KGauge.
Definition CIRCUIT_BREAKER_STATE : metric := Metric "circuit_breaker_state" ["service"] KGauge.
Definition CIRCUIT_BREAKER_FAILURES : metric := Metric "circuit_breaker_failures_total" ["service"] KCounter.
Definition RATE_LIMIT_DELAYS : metric := Metric "rate_limit_delay_seconds" ["service"] (KHistogram [(1 # 10); (1 # 2); 1; 2; 5; 10; 30]).
Definition SYSTEM_INFO : metric := Metric "system" [] KInfo.
Definition SOURCE_EXTRACTIONS : metric := Metric "source_extractions_total" ["source_type"; "status"] KCounter.
Definition SOURCE_EXTRACTION_DURATION : metric := Metric "source_extraction_duration_seconds" ["source_type"] (KHistogram [(1 # 2); 1; 2; 5; 10; 30; 60]).
Definition CRAWL_PAGES_TOTAL : metric := Metric "crawl_pages_total" ["domain"; "status"] KCounter.
Definition CRAWL_PAGES_IN_PROGRESS : metric := Metric "crawl_pages_in_progress" [] KGauge.
Definition CRAWL_RESPONSE_TIME : metric := Metric "crawl_response_time_seconds" ["domain"] (KHistogram [(1 # 10); (1 # 4); (1 # 2); 1; 2; 5; 10; 30]).
Definition CRAWL_TIMEOUT_RATE : metric := Metric "crawl_timeout_rate" [] KGauge.
Definition CRAWL_BYTES_DOWNLOADED : metric := Metric "crawl_bytes_downloaded_total" [] KCounter.
Definition CRAWL_QUEUE_DEPTH : metric := Metric "crawl_queue_depth" [] KGauge.
Definition CRAWL_ACTIVE_DOMAINS : metric := Metric "crawl_active_domains" [] KGauge.
Definition CRAWL_REQUESTS_PER_SECOND : metric := Metric "crawl_requests_per_second" [] KGauge.
Definition CRAWL_DOMAIN_DELAYS : metric := Metric "crawl_domain_delay_seconds" [] (KHistogram [(1 # 2); 1; 2; 5; 10; 30]).
Definition CRAWL_CIRCUIT_BREAKER_TRIPS : metric := Metric "crawl_circuit_breaker_trips_total" ["domain"] KCounter.
Definition CRAWL_RETRIES : metric := Metric "crawl_retries_total" ["reason"] KCounter.
Definition CRAWL_DEDUP_SKIPPED : metric := Metric "crawl_dedup_skipped_total" [] KCounter.
Definition TRANSLATION_THROUGHPUT : metric := Metric "translation_throughput_tokens_per_second" [] KGauge.
Definition TRANSLATION_BATCH_SIZE : metric := Metric "translation_batch_size" [] (KHistogram [1; 2; 4; 8; 16; 32; 64]).
Definition TRANSLATION_QUEUE_DEPTH : metric := Metric "translation_queue_depth" [] KGauge.
Definition TRANSLATION_CACHE_HITS : metric := Metric "translation_cache_hits_total" [] KCounter.
Definition TRANSLATION_CACHE_MISSES : metric := Metric "translation_cache_misses_total" [] KCounter.
Definition TRANSLATION_LANGUAGE_PAIRS : metric := Metric "translation_language_pairs_total" ["source_lang"; "target_lang"] KCounter.
Definition TRANSLATION_QUALITY_SCORE : metric := Metric "translation_quality_score" [] (KHistogram [(1 # 10); (1 # 5); (3 # 10); (2 # 5); (1 # 2); (3 # 5); (7 # 10); (4 # 5); (9 # 10); 1]).
Definition RAG_QUERY_LATENCY : metric := Metric "rag_query_latency_seconds" [] (KHistogram [(1 # 10); (1 # 4); (1 # 2); 1; 2; 5; 10]).
Definition RAG_DOCUMENTS_RETRIEVED : metric := Metric "rag_documents_retrieved" [] (KHistogram [1; 2; 3; 5; 10; 15; 20]).
Definition RAG_RELEVANCE_SCORES : metric := Metric "rag_relevance_scores" [] (KHistogram [(1 # 10); (1 # 5); (3 # 10); (2 # 5); (1 # 2); (3 # 5); (7 # 10); (4 # 5); (9 # 10); 1]).
Definition RAG_TOTAL_DOCUMENTS : metric := Metric "rag_total_documents" [] KGauge.
Definition RAG_TOTAL_CHUNKS : metric := Metric "rag_total_chunks" [] KGauge.
Definition PIPELINE_STAGE_DURATION : metric := Metric "pipeline_stage_duration_seconds" ["stage"] (KHistogram [(1 # 10); (1 # 2); 1; 2; 5; 10; 30; 60]).
Definition PIPELINE_DOCUMENTS_IN_FLIGHT : metric := Metric "pipeline_documents_in_flight" [] KGauge.
Definition PIPELINE_STAGE_QUEUE_DEPTH : metric := Metric "pipeline_stage_queue_depth" ["stage"] KGauge.
Definition STORAGE_INSERT_LATENCY : metric := Metric "storage_insert_latency_seconds" ["storage_type"] (KHistogram [(1 # 200); (1 # 100); (1 # 40); (1 # 20); (1 # 10); (1 # 4); (1 # 2); 1; 2]).
Definition STORAGE_QUERY_LATENCY : metric := Metric "storage_query_latency_seconds" ["storage_type"; "query_type"] (KHistogram [(1 # 200); (1 # 100); (1 # 40); (1 # 20); (1 # 10); (1 # 4); (1 # 2); 1; 2; 5]).
Definition STORAGE_DOCUMENTS_TOTAL : metric := Metric "storage_documents_total" ["storage_type"] KGauge.
Definition STORAGE_SIZE_BYTES : metric := Metric "storage_size_bytes" ["storage_type"] KGauge.
Definition STORAGE_CONNECTIONS_ACTIVE : metric := Metric "storage_connections_active" ["storage_type"] KGauge.
Definition STORAGE_ERRORS : metric := Metric "storage_errors_total" ["storage_type"; "operation"; "error_type"] KCounter.
Definition TRANSLATION_BLEU_SCORE : metric := Metric "translation_bleu_score" [] (KHistogram [(1 # 10); (1 # 5); (3 # 10); (2 # 5); (1 # 2); (3 # 5); (7 # 10); (4 # 5); (9 # 10); 1]).
Definition TRANSLATION_MODEL_MEMORY_BYTES : metric := Metric "translation_model_memory_bytes" [] KGauge.
Definition TRANSLATION_GPU_UTILIZATION : metric := Metric "translation_gpu_utilization_percent" [] KGauge.
Definition SYSTEM_CPU_USAGE : metric := Metric "system_cpu_usage_percent" [] KGauge.
Definition SYSTEM_MEMORY_USAGE : metric := Metric "system_memory_usage_percent" [] KGauge.
Definition SYSTEM_DISK_USAGE : metric := Metric "system_disk_usage_percent" ["mount_point"] KGauge.
Definition METRICS : list metric :=
  [DOCUMENTS_PROCESSED; DOCUMENTS_IN_PROGRESS; PROCESSING_DURATION; TRANSLATION_REQUESTS; TRANSLATION_DURATION;
   TRANSLATION_CHARACTERS; TRANSLATION_COST; LANGUAGE_DETECTIONS; LANGUAGE_DETECTION_CONFIDENCE; CACHE_OPERATIONS; CACHE_HIT_RATE;
   QUEUE_DEPTH; QUEUE_MESSAGES_PUBLISHED; QUEUE_MESSAGES_CONSUMED; ACTIVE_WORKERS; WORKER_TASKS; ERRORS_TOTAL; DLQ_MESSAGES;
   CIRCUIT_BREAKER_STATE; CIRCUIT_BREAKER_FAILURES; RATE_LIMIT_DELAYS; SYSTEM_INFO; SOURCE_EXTRACTIONS; SOURCE_EXTRACTION_DURATION;
   CRAWL_PAGES_TOTAL; CRAWL_PAGES_IN_PROGRESS; CRAWL_RESPONSE_TIME; CRAWL_TIMEOUT_RATE; CRAWL_BYTES_DOWNLOADED; CRAWL_QUEUE_DEPTH;
   CRAWL_ACTIVE_DOMAINS; CRAWL_REQUESTS_PER_SECOND; CRAWL_DOMAIN_DELAYS; CRAWL_CIRCUIT_BREAKER_TRIPS; CRAWL_RETRIES;
   CRAWL_DEDUP_SKIPPED; TRANSLATION_THROUGHPUT; TRANSLATION_BATCH_SIZE; TRANSLATION_QUEUE_DEPTH; TRANSLATION_CACHE_HITS;
   TRANSLATION_CACHE_MISSES; TRANSLATION_LANGUAGE_PAIRS; TRANSLATION_QUALITY_SCORE; RAG_QUERY_LATENCY; RAG_DOCUMENTS_RETRIEVED;
   RAG_RELEVANCE_SCORES; RAG_TOTAL_DOCUMENTS; RAG_TOTAL_CHUNKS; PIPELINE_STAGE_DURATION; PIPELINE_DOCUMENTS_IN_FLIGHT;
   PIPELINE_STAGE_QUEUE_DEPTH; STORAGE_INSERT_LATENCY; STORAGE_QUERY_LATENCY; STORAGE_DOCUMENTS_TOTAL; STORAGE_SIZE_BYTES;
   STORAGE_CONNECTIONS_ACTIVE; STORAGE_ERRORS; TRANSLATION_BLEU_SCORE; TRANSLATION_MODEL_MEMORY_BYTES; TRANSLATION_GPU_UTILIZATION;
   SYSTEM_CPU_USAGE; SYSTEM_MEMORY_USAGE; SYSTEM_DISK_USAGE].

(** ** The client *)

Inductive prom_op :=
| Inc (m : metric) (labels : list (string * string)) (x : Q)
| Dec (m : metric) (labels : list (string * string)) (x : Q)
| SetTo (m : metric) (labels : list (string * string)) (x : Q)
| Observe (m : metric) (labels : list (string * string)) (x : Q)
| InfoIs (m : metric) (kvs : list (string * string)).
(** A histogram: how many values, their sum, and how many are at most each
    bound *)
Variant sample := Number (x : Q) | Hist (count : Z) (sum : Q) (upto : list Z) | Texts (kvs : list (string * string)).
Abbreviation registry := (gmap (string * list string) sample).

(** The values of the labels, in the order of the declaration *)
Definition label_values (m : metric) (labels : list (string * string)) : option (list string) :=
  if (length labels =? length (m_labels m))%nat
  then mapM (fun l => snd <$> List.find (fun kv => String.eqb kv.1 l) labels) (m_labels m)
  else None.
Definition number_at (k : string * list string) (g : registry) : Q := match g !! k with Some (Number x) => x | _ => 0 end.
Definition hist_at (bs : list Q) (k : string * list string) (g : registry) : Z * Q * list Z :=
  match g !! k with Some (Hist n s l) => (n, s, l) | _ => (0%Z, 0, map (fun _ => 0%Z) bs) end.
Definition observed (bs : list Q) (x : Q) (h : Z * Q * list Z) : sample :=
  Hist (h.1.1 + 1)%Z (h.1.2 + x) (zip_with (fun b n => if Qle_bool x b then (n + 1)%Z else n) bs h.2).
(** What an operation does; [None]: it is refused *)
Definition apply_op (o : prom_op) (g : registry) : option registry :=
  match o with
  | Inc m labels x =>
      vs ← label_values m labels;
      match m_kind m with
      | KCounter => if Qle_bool 0 x then Some (<[(m_name m, vs) := Number (number_at (m_name m, vs) g + x)]> g) else None
      | KGauge => Some (<[(m_name m, vs) := Number (number_at (m_name m, vs) g + x)]> g)
      | _ => None
      end
  | Dec m labels x =>
      vs ← label_values m labels;
      match m_kind m with KGauge => Some (<[(m_name m, vs) := Number (number_at (m_name m, vs) g - x)]> g) | _ => None end
  | SetTo m labels x =>
      vs ← label_values m labels; match m_kind m with KGauge => Some (<[(m_name m, vs) := Number x]> g) | _ => None end
  | Observe m labels x =>
      vs ← label_values m labels;
      match m_kind m with KHistogram bs => Some (<[(m_name m, vs) := observed bs x (hist_at bs (m_name m, vs) g)]> g) | _ => None end
  | InfoIs m kvs => match m_kind m, m_labels m with KInfo, [] => Some (<[(m_name m, []) := Texts kvs]> g) | _, _ => None end
  end.
Class Prometheus (R : Type) := { prom : prom_op -> R -> result pyexn unit * R; series : R -> registry }.
Class PrometheusLaws (R : Type) `{Prometheus R} := {
  prom_law : forall o r, match apply_op o (series r) with
                         | Some g => (prom o r).1 = Ok () /\ series (prom o r).2 = g
                         | None => (exists e, (prom o r).1 = Err e) /\ series (prom o r).2 = series r
                         end }.

(** ** The methods *)

Fixpoint run_ops {R} `{Prometheus R} (os : list prom_op) (r : R) : result pyexn unit * R :=
  match os with
  | [] => (Ok (), r)
  | o :: os' => match prom o r with (Ok _, r) => run_ops os' r | (Err e, r) => (Err e, r) end
  end.
Definition new_monitor (service environment : string) : list prom_op :=
  [InfoIs SYSTEM_INFO [("service", service); ("environment", environment); ("version", "1.0.0")]].
Definition record_document_in_progress (source_type : string) (delta : Z) : list prom_op :=
  if (0 <? delta)%Z then [Inc DOCUMENTS_IN_PROGRESS [("source_type", source_type)] (inject_Z delta)]
  else [Dec DOCUMENTS_IN_PROGRESS [("source_type", source_type)] (inject_Z (Z.abs delta))].
Definition record_translation (provider source_lang status : string) (characters : Z) (cost : Q) : list prom_op :=
  [Inc TRANSLATION_REQUESTS [("provider", provider); ("source_lang", source_lang); ("status", status)] 1]
  ++ (if (0 <? characters)%Z then [Inc TRANSLATION_CHARACTERS [("provider", provider)] (inject_Z characters)] else [])
  ++ (if Qltb 0 cost then [Inc TRANSLATION_COST [("provider", provider)] cost] else []).
Definition state_value (state : string) : Q :=
  if String.eqb state "closed" then 0 else if String.eqb state "half_open" then 1 else if String.eqb state "open" then 2 else 0.
Definition update_circuit_breaker_state (service state : string) : list prom_op := [SetTo CIRCUIT_BREAKER_STATE [("service", service)] (state_value state)].
(** A rate between 0 and 1, as a percentage *)
Definition update_crawl_timeout_rate (rate : Q) : list prom_op := [SetTo CRAWL_TIMEOUT_RATE [] (rate * 100)].
Definition record_document_processed (source_type : string) (status : string) : list prom_op := [Inc DOCUMENTS_PROCESSED [("source_type", source_type); ("status", status)] 1].
Definition record_language_detection (language : string) (confidence : Q) : list prom_op := [Inc LANGUAGE_DETECTIONS [("detected_language", language)] 1; Observe LANGUAGE_DETECTION_CONFIDENCE [] confidence].
Definition record_cache_operation (operation : string) (result : string) : list prom_op := [Inc CACHE_OPERATIONS [("operation", operation); ("result", result)] 1].
Definition update_cache_hit_rate (hit_rate : Q) : list prom_op := [SetTo CACHE_HIT_RATE [] hit_rate].
Definition update_queue_depth (queue_name : string) (depth : Z) : list prom_op := [SetTo QUEUE_DEPTH [("queue_name", queue_name)] (inject_Z depth)].
Definition record_queue_publish (queue_name : string) : list prom_op := [Inc QUEUE_MESSAGES_PUBLISHED [("queue_name", queue_name)] 1].
Definition record_queue_consume (queue_name : string) (status : string) : list prom_op := [Inc QUEUE_MESSAGES_CONSUMED [("queue_name", queue_name); ("status", status)] 1].
Definition update_active_workers (count : Z) : list prom_op := [SetTo ACTIVE_WORKERS [] (inject_Z count)].
Definition update_worker_tasks (worker_id : string) (count : Z) : list prom_op := [SetTo WORKER_TASKS [("worker_id", worker_id)] (inject_Z count)].
Definition record_error (error_type : string) (component : string) : list prom_op := [Inc ERRORS_TOTAL [("error_type", error_type); ("component", component)] 1].
Definition update_dlq_messages (count : Z) : list prom_op := [SetTo DLQ_MESSAGES [] (inject_Z count)].
Definition record_circuit_breaker_failure (service : string) : list prom_op := [Inc CIRCUIT_BREAKER_FAILURES [("service", service)] 1].
Definition record_rate_limit_delay (service : string) (delay : Q) : list prom_op := [Observe RATE_LIMIT_DELAYS [("service", service)] delay].
Definition record_source_extraction (source_type : string) (status : string) : list prom_op := [Inc SOURCE_EXTRACTIONS [("source_type", source_type); ("status", status)] 1].
Definition record_crawl_page (domain : string) (status : string) : list prom_op := [Inc CRAWL_PAGES_TOTAL [("domain", domain); ("status", status)] 1].
Definition update_crawl_in_progress (count : Z) : list prom_op := [SetTo CRAWL_PAGES_IN_PROGRESS [] (inject_Z count)].
Definition record_crawl_response_time (domain : string) (response_time : Q) : list prom_op := [Observe CRAWL_RESPONSE_TIME [("domain", domain)] response_time].
Definition record_crawl_bytes (bytes_count : Z) : list prom_op := [Inc CRAWL_BYTES_DOWNLOADED [] (inject_Z bytes_count)].
Definition update_crawl_queue_depth (depth : Z) : list prom_op := [SetTo CRAWL_QUEUE_DEPTH [] (inject_Z depth)].
Definition update_active_domains (count : Z) : list prom_op := [SetTo CRAWL_ACTIVE_DOMAINS [] (inject_Z count)].
Definition update_crawl_rate (rps : Q) : list prom_op := [SetTo CRAWL_REQUESTS_PER_SECOND [] rps].
Definition record_domain_delay (delay : Q) : list prom_op := [Observe CRAWL_DOMAIN_DELAYS [] delay].
Definition record_crawl_circuit_breaker_trip (domain : string) : list prom_op := [Inc CRAWL_CIRCUIT_BREAKER_TRIPS [("domain", domain)] 1].
Definition record_crawl_retry (reason : string) : list prom_op := [Inc CRAWL_RETRIES [("reason", reason)] 1].
Definition record_dedup_skip : list prom_op := [Inc CRAWL_DEDUP_SKIPPED [] 1].
Definition update_translation_throughput (tokens_per_second : Q) : list prom_op := [SetTo TRANSLATION_THROUGHPUT [] tokens_per_second].
Definition record_translation_batch (batch_size : Z) : list prom_op := [Observe TRANSLATION_BATCH_SIZE [] (inject_Z batch_size)].
Definition update_translation_queue (depth : Z) : list prom_op := [SetTo TRANSLATION_QUEUE_DEPTH [] (inject_Z depth)].
Definition record_translation_cache_hit : list prom_op := [Inc TRANSLATION_CACHE_HITS [] 1].
Definition record_translation_cache_miss : list prom_op := [Inc TRANSLATION_CACHE_MISSES [] 1].
Definition record_translation_language_pair (source : string) (target : string) : list prom_op := [Inc TRANSLATION_LANGUAGE_PAIRS [("source_lang", source); ("target_lang", target)] 1].
Definition record_translation_quality (score : Q) : list prom_op := [Observe TRANSLATION_QUALITY_SCORE [] score].
Definition record_rag_query (latency : Q) (docs_retrieved : Z) : list prom_op := [Observe RAG_QUERY_LATENCY [] latency; Observe RAG_DOCUMENTS_RETRIEVED [] (inject_Z docs_retrieved)].
Definition record_rag_relevance_score (score : Q) : list prom_op := [Observe RAG_RELEVANCE_SCORES [] score].
Definition update_rag_index_stats (total_docs : Z) (total_chunks : Z) : list prom_op := [SetTo RAG_TOTAL_DOCUMENTS [] (inject_Z total_docs); SetTo RAG_TOTAL_CHUNKS [] (inject_Z total_chunks)].
Definition record_pipeline_stage_duration (stage : string) (duration : Q) : list prom_op := [Observe PIPELINE_STAGE_DURATION [("stage", stage)] duration].
Definition update_pipeline_documents_in_flight (count : Z) : list prom_op := [SetTo PIPELINE_DOCUMENTS_IN_FLIGHT [] (inject_Z count)].
Definition update_pipeline_stage_queue (stage : string) (depth : Z) : list prom_op := [SetTo PIPELINE_STAGE_QUEUE_DEPTH [("stage", stage)] (inject_Z depth)].
Definition record_storage_insert_latency (storage_type : string) (latency : Q) : list prom_op := [Observe STORAGE_INSERT_LATENCY [("storage_type", storage_type)] latency].
Definition record_storage_query_latency (storage_type : string) (query_type : string) (latency : Q) : list prom_op := [Observe STORAGE_QUERY_LATENCY [("storage_type", storage_type); ("query_type", query_type)] latency].
Definition update_storage_documents (storage_type : string) (count : Z) : list prom_op := [SetTo STORAGE_DOCUMENTS_TOTAL [("storage_type", storage_type)] (inject_Z count)].
Definition update_storage_size (storage_type : string) (size_bytes : Z) : list prom_op := [SetTo STORAGE_SIZE_BYTES [("storage_type", storage_type)] (inject_Z size_bytes)].
Definition update_storage_connections (storage_type : string) (count : Z) : list prom_op := [SetTo STORAGE_CONNECTIONS_ACTIVE [("storage_type", storage_type)] (inject_Z count)].
Definition record_storage_error (storage_type : string) (operation : string) (error_type : string) : list prom_op := [Inc STORAGE_ERRORS [("storage_type", storage_type); ("operation", operation); ("error_type", error_type)] 1].
Definition record_translation_bleu_score (score : Q) : list prom_op := [Observe TRANSLATION_BLEU_SCORE [] score].
Definition update_translation_model_memory (memory_bytes : Z) : list prom_op := [SetTo TRANSLATION_MODEL_MEMORY_BYTES [] (inject_Z memory_bytes)].
Definition update_translation_gpu_utilization (percent : Q) : list prom_op := [SetTo TRANSLATION_GPU_UTILIZATION [] percent].
Definition update_system_cpu (percent : Q) : list prom_op := [SetTo SYSTEM_CPU_USAGE [] percent].
Definition update_system_memory (percent : Q) : list prom_op := [SetTo SYSTEM_MEMORY_USAGE [] percent].
Definition update_system_disk (mount_point : string) (percent : Q) : list prom_op := [SetTo SYSTEM_DISK_USAGE [("mount_point", mount_point)] percent].

(** ** The context managers: what the body did, between two readings of the
    clock *)

Definition is_cancelled (e : pyexn) : bool := String.eqb (exn_type e) "CancelledError".
Section track.
Context {R : Type} `{Prometheus R} {A : Type}.
(** [finally] runs the operations after the body, whatever it did; their own
    failure takes the place of its outcome *)
Definition finally (body : result pyexn A * R) (os : list prom_op) : result pyexn A * R :=
  match run_ops os body.2 with (Ok _, r) => (body.1, r) | (Err e, r) => (Err e, r) end.
Definition track_processing_duration (source_type : string) (start end_ : Q) (body : R -> result pyexn A * R) (r : R) : result pyexn A * R :=
  finally (body r) [Observe PROCESSING_DURATION [("source_type", source_type)] (end_ - start)].
Definition track_translation_duration (provider : string) (start end_ : Q) (body : R -> result pyexn A * R) (r : R) : result pyexn A * R :=
  finally (body r) [Observe TRANSLATION_DURATION [("provider", provider)] (end_ - start)].
Definition track_extraction_duration (source_type : string) (start end_ : Q) (body : R -> result pyexn A * R) (r : R) : result pyexn A * R :=
  finally (body r) [Observe SOURCE_EXTRACTION_DURATION [("source_type", source_type)] (end_ - start)].
Definition storage_latency (storage_type operation : string) (x : Q) : list prom_op :=
  if String.eqb operation "insert" then record_storage_insert_latency storage_type x else record_storage_query_latency storage_type operation x.
Definition track_storage_operation (storage_type operation : string) (start end_ : Q) (body : R -> result pyexn A * R) (r : R) : result pyexn A * R :=
  let '(x, r) := body r in
  let '(x, r) := match x with
                 | Ok _ => (x, r)
                 | Err e => if is_cancelled e then (x, r)
                            else match run_ops (record_storage_error storage_type operation (exn_type e)) r with (Ok _, r) => (x, r) | (Err e', r) => (Err e', r) end
                 end in
  finally (x, r) (storage_latency storage_type operation (end_ - start)).
End track.
(** [None]: psutil is not installed.  The processor, the memory, the disk *)
Definition collect_system_metrics {R} `{Prometheus R} (psutil : option (result pyexn Q * result pyexn Q * result pyexn Q)) (r : R) : result pyexn unit * R :=
  match psutil with
  | None => (Ok (), r)
  | Some (cpu, memory, disk) =>
      let step (x : result pyexn Q) (os : Q -> list prom_op) (acc : result pyexn unit * R) : result pyexn unit * R :=
        match acc with (Err e, r) => (Err e, r) | (Ok _, r) => match x with Ok v => run_ops (os v) r | Err e => (Err e, r) end end in
      match step disk (update_system_disk "/") (step memory update_system_memory (step cpu update_system_cpu (Ok (), r))) with
      | (Ok _, r) => (Ok (), r)
      | (Err e, r) => (if is_cancelled e then Err e else Ok (), r)
      end
  end.

(** A call of a recording method *)
Inductive monitor_call :=
| C_record_document_processed (source_type : string) (status : string)
| C_record_language_detection (language : string) (confidence : Q)
| C_record_cache_operation (operation : string) (result : string)
| C_update_cache_hit_rate (hit_rate : Q)
| C_update_queue_depth (queue_name : string) (depth : Z)
| C_record_queue_publish (queue_name : string)
| C_record_queue_consume (queue_name : string) (status : string)
| C_update_active_workers (count : Z)
| C_update_worker_tasks (worker_id : string) (count : Z)
| C_record_error (error_type : string) (component : string)
| C_update_dlq_messages (count : Z)
| C_record_circuit_breaker_failure (service : string)
| C_record_rate_limit_delay (service : string) (delay : Q)
| C_record_source_extraction (source_type : string) (status : string)
| C_record_crawl_page (domain : string) (status : string)
| C_update_crawl_in_progress (count : Z)
| C_record_crawl_response_time (domain : string) (response_time : Q)
| C_record_crawl_bytes (bytes_count : Z)
| C_update_crawl_queue_depth (depth : Z)
| C_update_active_domains (count : Z)
| C_update_crawl_rate (rps : Q)
| C_record_domain_delay (delay : Q)
| C_record_crawl_circuit_breaker_trip (domain : string)
| C_record_crawl_retry (reason : string)
| C_record_dedup_skip
| C_update_translation_throughput (tokens_per_second : Q)
| C_record_translation_batch (batch_size : Z)
| C_update_translation_queue (depth : Z)
| C_record_translation_cache_hit
| C_record_translation_cache_miss
| C_record_translation_language_pair (source : string) (target : string)
| C_record_translation_quality (score : Q)
| C_record_rag_query (latency : Q) (docs_retrieved : Z)
| C_record_rag_relevance_score (score : Q)
| C_update_rag_index_stats (total_docs : Z) (total_chunks : Z)
| C_record_pipeline_stage_duration (stage : string) (duration : Q)
| C_update_pipeline_documents_in_flight (count : Z)
| C_update_pipeline_stage_queue (stage : string) (depth : Z)
| C_record_storage_insert_latency (storage_type : string) (latency : Q)
| C_record_storage_query_latency (storage_type : string) (query_type : string) (latency : Q)
| C_update_storage_documents (storage_type : string) (count : Z)
| C_update_storage_size (storage_type : string) (size_bytes : Z)
| C_update_storage_connections (storage_type : string) (count : Z)
| C_record_storage_error (storage_type : string) (operation : string) (error_type : string)
| C_record_translation_bleu_score (score : Q)
| C_update_translation_model_memory (memory_bytes : Z)
| C_update_translation_gpu_utilization (percent : Q)
| C_update_system_cpu (percent : Q)
| C_update_system_memory (percent : Q)
| C_update_system_disk (mount_point : string) (percent : Q)
| C_record_document_in_progress (source_type : string) (delta : Z)
| C_record_translation (provider : string) (source_lang : string) (status : string) (characters : Z) (cost : Q)
| C_update_circuit_breaker_state (service : string) (state : string)
| C_update_crawl_timeout_rate (rate : Q).
Definition ops_of (c : monitor_call) : list prom_op :=
  match c with
  | C_record_document_processed source_type status => record_document_processed source_type status
  | C_record_language_detection language confidence => record_language_detection language confidence
  | C_record_cache_operation operation result => record_cache_operation operation result
  | C_update_cache_hit_rate hit_rate => update_cache_hit_rate hit_rate
  | C_update_queue_depth queue_name depth => update_queue_depth queue_name depth
  | C_record_queue_publish queue_name => record_queue_publish queue_name
  | C_record_queue_consume queue_name status => record_queue_consume queue_name status
  | C_update_active_workers count => update_active_workers count
  | C_update_worker_tasks worker_id count => update_worker_tasks worker_id count
  | C_record_error error_type component => record_error error_type component
  | C_update_dlq_messages count => update_dlq_messages count
  | C_record_circuit_breaker_failure service => record_circuit_breaker_failure service
  | C_record_rate_limit_delay service delay => record_rate_limit_delay service delay
  | C_record_source_extraction source_type status => record_source_extraction source_type status
  | C_record_crawl_page domain status => record_crawl_page domain status
  | C_update_crawl_in_progress count => update_crawl_in_progress count
  | C_record_crawl_response_time domain response_time => record_crawl_response_time domain response_time
  | C_record_crawl_bytes bytes_count => record_crawl_bytes bytes_count
  | C_update_crawl_queue_depth depth => update_crawl_queue_depth depth
  | C_update_active_domains count => update_active_domains count
  | C_update_crawl_rate rps => update_crawl_rate rps
  | C_record_domain_delay delay => record_domain_delay delay
  | C_record_crawl_circuit_breaker_trip domain => record_crawl_circuit_breaker_trip domain
  | C_record_crawl_retry reason => record_crawl_retry reason
  | C_record_dedup_skip  => record_dedup_skip 
  | C_update_translation_throughput tokens_per_second => update_translation_throughput tokens_per_second
  | C_record_translation_batch batch_size => record_translation_batch batch_size
  | C_update_translation_queue depth => update_translation_queue depth
  | C_record_translation_cache_hit  => record_translation_cache_hit 
  | C_record_translation_cache_miss  => record_translation_cache_miss 
  | C_record_translation_language_pair source target => record_translation_language_pair source target
  | C_record_translation_quality score => record_translation_quality score
  | C_record_rag_query latency docs_retrieved => record_rag_query latency docs_retrieved
  | C_record_rag_relevance_score score => record_rag_relevance_score score
  | C_update_rag_index_stats total_docs total_chunks => update_rag_index_stats total_docs total_chunks
  | C_record_pipeline_stage_duration stage duration => record_pipeline_stage_duration stage duration
  | C_update_pipeline_documents_in_flight count => update_pipeline_documents_in_flight count
  | C_update_pipeline_stage_queue stage depth => update_pipeline_stage_queue stage depth
  | C_record_storage_insert_latency storage_type latency => record_storage_insert_latency storage_type latency
  | C_record_storage_query_latency storage_type query_type latency => record_storage_query_latency storage_type query_type latency
  | C_update_storage_documents storage_type count => update_storage_documents storage_type count
  | C_update_storage_size storage_type size_bytes => update_storage_size storage_type size_bytes
  | C_update_storage_connections storage_type count => update_storage_connections storage_type count
  | C_record_storage_error storage_type operation error_type => record_storage_error storage_type operation error_type
  | C_record_translation_bleu_score score => record_translation_bleu_score score
  | C_update_translation_model_memory memory_bytes => update_translation_model_memory memory_bytes
  | C_update_translation_gpu_utilization percent => update_translation_gpu_utilization percent
  | C_update_system_cpu percent => update_system_cpu percent
  | C_update_system_memory percent => update_system_memory percent
  | C_update_system_disk mount_point percent => update_system_disk mount_point percent
  | C_record_document_in_progress source_type delta => record_document_in_progress source_type delta
  | C_record_translation provider source_lang status characters cost => record_translation provider source_lang status characters cost
  | C_update_circuit_breaker_state service state => update_circuit_breaker_state service state
  | C_update_crawl_timeout_rate rate => update_crawl_timeout_rate rate
  end.

(** ** The declarations agree with the calls *)

(** An operation the client accepts, whatever the series are *)
Definition fits (o : prom_op) : bool :=
  match o with
  | Inc m labels x => bool_decide (is_Some (label_values m labels)) && match m_kind m with KCounter => Qle_bool 0 x | KGauge => true | _ => false end
  | Dec m labels _ | SetTo m labels _ => bool_decide (is_Some (label_values m labels)) && match m_kind m with KGauge => true | _ => false end
  | Observe m labels _ => bool_decide (is_Some (label_values m labels)) && match m_kind m with KHistogram _ => true | _ => false end
  | InfoIs m _ => match m_kind m, m_labels m with KInfo, [] => true | _, _ => false end
  end.
Lemma fits_applies o g : fits o = true -> is_Some (apply_op o g).
Proof.
  destruct o as [m l x|m l x|m l x|m l x|m kvs]; simpl; [| | | |by destruct (m_kind m), (m_labels m)].
  all: intros [[vs ->]%bool_decide_eq_true Hk]%andb_true_iff; simpl; destruct (m_kind m); try done. by rewrite Hk.
Qed.
Definition arguments_ok (c : monitor_call) : Prop := match c with C_record_crawl_bytes n => (0 <= n)%Z | _ => True end.
Lemma Qle_bool_inject n : (0 <= n)%Z -> Qle_bool 0 (inject_Z n) = true.
Proof. intros Hn. apply Qle_bool_iff. change 0 with (inject_Z 0). by rewrite <- Zle_Qle. Qed.
Lemma calls_fit c : arguments_ok c -> Forall (fun o => fits o = true) (ops_of c).
Proof.
  destruct c; intros Ha; try (repeat constructor; fail).
  - repeat constructor. unfold fits. by rewrite Qle_bool_inject.
  - simpl. unfold record_document_in_progress. destruct (0 <? delta)%Z; by repeat constructor.
  - simpl. unfold record_translation. repeat (apply Forall_app; split); [by repeat constructor| |].
    + destruct (Z.ltb_spec 0 characters); repeat constructor. unfold fits. rewrite Qle_bool_inject by lia. done.
    + destruct (Qltb_reflect 0 cost); repeat constructor. unfold fits. rewrite (proj2 (Qle_bool_iff 0 cost)) by lra. done.
Qed.

#[export] Instance metric_kind_eq : EqDecision metric_kind.
Proof. solve_decision. Defined.
#[export] Instance metric_eq : EqDecision metric.
Proof. solve_decision. Defined.

Section laws.
Context {R : Type} `{PrometheusLaws R}.
Lemma prom_fits o r : fits o = true -> (prom o r).1 = Ok () /\ apply_op o (series r) = Some (series (prom o r).2).
Proof. intros Hf. pose proof (prom_law o r) as Hl. destruct (fits_applies o (series r) Hf) as [g Hg]. rewrite Hg in *. destruct Hl as [-> <-]. done. Qed.
Lemma run_ops_fit os r : Forall (fun o => fits o = true) os ->
  (run_ops os r).1 = Ok () /\ foldl (fun g o => g ≫= apply_op o) (Some (series r)) os = Some (series (run_ops os r).2).
Proof.
  revert r. induction os as [|o os IH]; intros r Hf; [done|]. inversion Hf; subst. simpl. destruct (prom_fits o r) as [H1' H2']; [done|].
  destruct (prom o r) as [x r']. simpl in *. subst x. rewrite H2'. by apply IH.
Qed.

(** Every method of the monitor agrees with the declaration of the metrics
    it writes: its labels are the declared ones, and the client accepts every
    one of its operations, provided that no negative number of bytes is
    recorded. *)
Theorem monitor_calls_accepted c r : arguments_ok c -> (run_ops (ops_of c) r).1 = Ok ().
Proof. intros Ha. apply run_ops_fit. by apply calls_fit. Qed.

(** ** Counters *)

Definition op_metric (o : prom_op) : metric := match o with Inc m _ _ | Dec m _ _ | SetTo m _ _ | Observe m _ _ | InfoIs m _ => m end.
Definition is_counter (name : string) : Prop := forall m, m ∈ METRICS -> m_name m = name -> m_kind m = KCounter.
Lemma apply_counter o g g' name vs : op_metric o ∈ METRICS -> is_counter name -> apply_op o g = Some g' -> number_at (name, vs) g <= number_at (name, vs) g'.
Proof.
  intros Hm Hc. assert (forall ws s, (m_name (op_metric o) = name -> number_at (name, vs) g <= match s with Number x => x | _ => 0 end) ->
    number_at (name, vs) g <= number_at (name, vs) (<[(m_name (op_metric o), ws) := s]> g)) as Hins.
  { intros ws s Hs. unfold number_at at 2. destruct (decide ((m_name (op_metric o), ws) = (name, vs))) as [[= E1 E2]|Hne].
    - rewrite E1, E2, lookup_insert_eq. specialize (Hs E1). by destruct s.
    - rewrite lookup_insert_ne by done. fold (number_at (name, vs) g). lra. }
  specialize (Hc _ Hm). destruct o as [m l x|m l x|m l x|m l x|m kvs]; simpl in *.
  - destruct (label_values m l) as [ws|]; [|done]. simpl. destruct (m_kind m) eqn:Ek; try done.
    + destruct (Qle_bool_reflect 0 x) as [Hx|]; [|done]. intros [= <-]. unfold number_at at 2. destruct (decide ((m_name m, ws) = (name, vs))) as [[= -> ->]|Hne].
      * rewrite lookup_insert_eq. lra.
      * rewrite lookup_insert_ne by done. fold (number_at (name, vs) g). lra.
    + intros [= <-]. apply Hins. intros Hn. by specialize (Hc Hn).
  - destruct (label_values m l) as [ws|]; [|done]. simpl. destruct (m_kind m) eqn:Ek; try done. intros [= <-]. apply Hins. intros Hn. by specialize (Hc Hn).
  - destruct (label_values m l) as [ws|]; [|done]. simpl. destruct (m_kind m) eqn:Ek; try done. intros [= <-]. apply Hins. intros Hn. by specialize (Hc Hn).
  - destruct (label_values m l) as [ws|]; [|done]. simpl. destruct (m_kind m) eqn:Ek; try done. intros [= <-]. apply Hins. intros Hn. by specialize (Hc Hn).
  - destruct (m_kind m) eqn:Ek; try done. destruct (m_labels m); [|done]. intros [= <-]. apply Hins. intros Hn. by specialize (Hc Hn).
Qed.
Definition declared (o : prom_op) : Prop := op_metric o ∈ METRICS.
Lemma prom_counter o r name vs : declared o -> is_counter name -> number_at (name, vs) (series r) <= number_at (name, vs) (series (prom o r).2).
Proof.
  intros Ho Hc. pose proof (prom_law o r) as Hl. destruct (apply_op o (series r)) as [g|] eqn:E.
  - destruct Hl as [_ ->]. by eapply apply_counter.
  - destruct Hl as [_ ->]. lra.
Qed.
Lemma run_ops_counter os r name vs : Forall declared os -> is_counter name -> number_at (name, vs) (series r) <= number_at (name, vs) (series (run_ops os r).2).
Proof.
  intros Ho Hc. revert r. induction Ho as [|o os Ho _ IH]; intros r; [simpl; lra|]. simpl. pose proof (prom_counter o r name vs Ho Hc). destruct (prom o r) as [[[]|e] r']; simpl in *; [|done].
  specialize (IH r'). lra.
Qed.
Lemma calls_declared c : Forall declared (ops_of c).
Proof.
  destruct c; simpl; unfold record_document_in_progress, record_translation; repeat (case_match || apply Forall_app_2 || apply Forall_cons_2 || apply Forall_nil_2);
    (apply (bool_decide_unpack _); vm_compute; exact I).
Qed.
Definition run_calls (cs : list monitor_call) (r : R) : R := foldl (fun r c => (run_ops (ops_of c) r).2) r cs.
(** Counters never fall: whatever methods are called with whatever
    arguments, one after another, no series of a metric declared as a counter
    gets smaller. *)
Theorem counters_never_fall cs r name vs : is_counter name -> number_at (name, vs) (series r) <= number_at (name, vs) (series (run_calls cs r)).
Proof.
  intros Hc. revert r. induction cs as [|c cs IH]; intros r; [simpl; lra|]. specialize (IH (run_ops (ops_of c) r).2). simpl.
  pose proof (run_ops_counter (ops_of c) r name vs (calls_declared c) Hc). lra.
Qed.

(** ** Documents in progress *)

Definition in_progress (source_type : string) (r : R) : Q := number_at ("documents_in_progress", [source_type]) (series r).
Lemma in_progress_step source_type t delta r :
  in_progress t (run_ops (record_document_in_progress source_type delta) r).2 == in_progress t r + (if String.eqb t source_type then inject_Z delta else 0).
Proof.
  unfold in_progress, record_document_in_progress.
  assert (forall o x, fits o = true -> apply_op o (series r) = Some (<[("documents_in_progress", [source_type]) := Number x]> (series r)) ->
    x == number_at ("documents_in_progress", [source_type]) (series r) + inject_Z delta ->
    number_at ("documents_in_progress", [t]) (series (run_ops [o] r).2) == number_at ("documents_in_progress", [t]) (series r) + (if String.eqb t source_type then inject_Z delta else 0)) as Hgen.
  { intros o x Hf Ha Hx. destruct (prom_fits o r Hf) as [E1 E2]. rewrite Ha in E2. simpl. destruct (prom o r) as [y r']. simpl in *. subst y. simpl. injection E2 as <-.
    unfold number_at at 1. destruct (String.eqb_spec t source_type) as [->|Hne]; [by rewrite lookup_insert_eq|]. rewrite lookup_insert_ne by congruence. rewrite Qplus_0_r. reflexivity. }
  destruct (Z.ltb_spec 0 delta) as [Hd|Hd].
  - eapply Hgen; [done|reflexivity|]. reflexivity.
  - eapply Hgen; [done|reflexivity|]. rewrite Z.abs_neq by lia. rewrite inject_Z_opp. set (a := number_at _ _). lra.
Qed.
Lemma in_progress_sum (ds : list (string * Z)) t r :
  in_progress t (run_calls (map (fun d => C_record_document_in_progress d.1 d.2) ds) r) ==
  in_progress t r + inject_Z (foldr (fun d n => (if String.eqb t d.1 then d.2 else 0) + n)%Z 0%Z ds).
Proof.
  revert r. induction ds as [|[s d] ds IH]; intros r; [simpl; unfold run_calls; simpl; rewrite Qplus_0_r; reflexivity|]. unfold run_calls in *. simpl map. simpl foldl. rewrite IH, in_progress_step. simpl.
  rewrite inject_Z_plus. set (a := in_progress t r). set (b := foldr _ _ _). destruct (String.eqb t s); [lra|change (inject_Z 0) with 0; lra].
Qed.
(** The gauge of the documents in progress is the number of those begun
    less the number of those ended, for each type of source. *)
Theorem in_progress_balance (ds : list (string * Z)) t r :
  in_progress t (run_calls (map (fun d => C_record_document_in_progress d.1 d.2) ds) r) ==
  in_progress t r + inject_Z (foldr (fun d n => (if String.eqb t d.1 then d.2 else 0) + n)%Z 0%Z ds).
Proof. apply in_progress_sum. Qed.

(** ** Tracked operations *)

Definition hist_count (name : string) (vs : list string) (r : R) : Z := match series r !! (name, vs) with Some (Hist n _ _) => n | _ => 0%Z end.
Lemma observe_counted o name vs r n s l : fits o = true -> apply_op o (series r) = Some (<[(name, vs) := Hist n s l]> (series r)) ->
  exists r', run_ops [o] r = (Ok (), r') /\ hist_count name vs r' = n /\ forall k, k <> (name, vs) -> series r' !! k = series r !! k.
Proof.
  intros Hf Ha. destruct (prom_fits o r Hf) as [E1 E2]. rewrite Ha in E2. simpl. destruct (prom o r) as [y r']. simpl in *. subst y. exists r'. injection E2 as E2. split; [done|].
  unfold hist_count. rewrite <- E2. rewrite lookup_insert_eq. split; [done|]. intros k Hk. by rewrite lookup_insert_ne.
Qed.
Definition latency_series (storage_type operation : string) : string * list string :=
  if String.eqb operation "insert" then ("storage_insert_latency_seconds", [storage_type]) else ("storage_query_latency_seconds", [storage_type; operation]).
Definition errors_series (storage_type operation type : string) : string * list string := ("storage_errors_total", [storage_type; operation; type]).
Lemma latency_counted storage_type operation x r : exists r', run_ops (storage_latency storage_type operation x) r = (Ok (), r') /\
  hist_count (latency_series storage_type operation).1 (latency_series storage_type operation).2 r' =
    (hist_count (latency_series storage_type operation).1 (latency_series storage_type operation).2 r + 1)%Z /\
  forall k, k <> latency_series storage_type operation -> series r' !! k = series r !! k.
Proof.
  unfold storage_latency, latency_series. destruct (String.eqb operation "insert"); simpl fst; simpl snd.
  - eapply observe_counted; [done|]. simpl. unfold observed. do 3 f_equal. unfold hist_count, hist_at. by destruct (series r !! _) as [[]|].
  - eapply observe_counted; [done|]. simpl. unfold observed. do 3 f_equal. unfold hist_count, hist_at. by destruct (series r !! _) as [[]|].
Qed.
Lemma error_counted storage_type operation type r : exists r', run_ops (record_storage_error storage_type operation type) r = (Ok (), r') /\
  (forall k, k <> errors_series storage_type operation type -> series r' !! k = series r !! k) /\
  number_at (errors_series storage_type operation type) (series r') = number_at (errors_series storage_type operation type) (series r) + 1.
Proof.
  unfold record_storage_error. set (o := Inc _ _ _). destruct (prom_fits o r eq_refl) as [E1 E2]. simpl. destruct (prom o r) as [y r']. simpl in *. subst y. exists r'.
  injection E2 as E2. split; [done|]. rewrite <- E2. unfold errors_series. split; [intros k Hk; by rewrite lookup_insert_ne|]. unfold number_at at 1. by rewrite lookup_insert_eq.
Qed.
Definition is_error (type : string) {A} (x : result pyexn A) : bool :=
  match x with Err e => negb (is_cancelled e) && String.eqb type (exn_type e) | Ok _ => false end.
(** A tracked storage operation has the outcome of its body, adds one value
    to the latency of its kind, and counts an error, under the type of the
    exception, exactly when the body raised one other than a cancellation. *)
Theorem tracked_storage_operation {A} storage_type operation start end_ (body : R -> result pyexn A * R) r :
  let '(x, r1) := body r in
  let '(y, r2) := track_storage_operation storage_type operation start end_ body r in
  y = x /\ hist_count (latency_series storage_type operation).1 (latency_series storage_type operation).2 r2 =
           (hist_count (latency_series storage_type operation).1 (latency_series storage_type operation).2 r1 + 1)%Z /\
  forall type, number_at (errors_series storage_type operation type) (series r2) ==
               number_at (errors_series storage_type operation type) (series r1) + (if is_error type x then 1 else 0).
Proof.
  unfold track_storage_operation. destruct (body r) as [x r1]. set (p := match x with Ok _ => _ | Err _ => _ end).
  assert (exists r1', p = (x, r1') /\ (forall k, (forall type, k <> errors_series storage_type operation type) -> series r1' !! k = series r1 !! k) /\
    forall type, number_at (errors_series storage_type operation type) (series r1') == number_at (errors_series storage_type operation type) (series r1) + (if is_error type x then 1 else 0))
    as (r1' & -> & Hk & He).
  { unfold p. destruct x as [a|e]; [exists r1; split_and!; [done|done|]; intros type; cbn [is_error]; lra|]. destruct (is_cancelled e) eqn:Ec.
    - exists r1. split_and!; [done|done|]. intros type. cbn [is_error]. rewrite Ec. cbn [negb andb]. lra.
    - destruct (error_counted storage_type operation (exn_type e) r1) as (r1' & -> & Ho & Hn). exists r1'. split_and!; [done|intros k Hk; apply Ho; by apply Hk|].
      intros type. cbn [is_error]. rewrite Ec. cbn [negb andb]. destruct (String.eqb_spec type (exn_type e)) as [->|Hne]; [rewrite Hn; lra|].
      unfold number_at. rewrite Ho by (unfold errors_series; congruence). rewrite Qplus_0_r. reflexivity. }
  unfold finally. simpl fst. simpl snd. destruct (latency_counted storage_type operation (end_ - start) r1') as (r2 & -> & Hl & Hr). split; [done|].
  assert (forall type, errors_series storage_type operation type <> latency_series storage_type operation) as Hd by (intros type; unfold latency_series; by destruct (String.eqb _ _)).
  split.
  - rewrite Hl. f_equal. unfold hist_count. rewrite <- surjective_pairing. by rewrite Hk.
  - intros type. rewrite <- He. unfold number_at. by rewrite Hr.
Qed.
End laws.

(** ** Names *)

(** The names under which a metric is exposed: a counter without its suffix and
    with it, a histogram with four, an information with its own *)
Definition without_total (s : string) : string := let n := (String.length s - 6)%nat in if String.eqb (str_drop n s) "_total" then str_take n s else s.
Definition exposed (m : metric) : list string :=
  match m_kind m with
  | KCounter => let b := without_total (m_name m) in [b; b +:+ "_total"; b +:+ "_created"]
  | KGauge => [m_name m]
  | KHistogram _ => [m_name m; m_name m +:+ "_bucket"; m_name m +:+ "_count"; m_name m +:+ "_sum"; m_name m +:+ "_created"]
  | KInfo => [m_name m; m_name m +:+ "_info"]
  end.
(** No two metrics are exposed under one name, so that all of them can be
    registered with one registry. *)
Theorem metric_names_distinct : NoDup (flat_map exposed METRICS).
Proof. apply (bool_decide_unpack _). vm_compute. exact I. Qed.

(** ** A client *)

#[export] Instance plain_client : Prometheus registry := {
  prom o g := match apply_op o g with Some g' => (Ok (), g') | None => (Err (PyExn "ValueError" ""), g) end;
  series g := g }.
#[export] Instance plain_client_laws : PrometheusLaws registry.
Proof. split. intros o r. simpl. destruct (apply_op o r); simpl; eauto. Qed.
Lemma monitor_calls_accepted_witness : (run_ops (ops_of (C_record_crawl_bytes 512)) (∅ : registry)).1 = Ok ().
Proof. apply monitor_calls_accepted. done. Defined.
Lemma counters_never_fall_witness : number_at ("crawl_bytes_downloaded_total", []) (series (∅ : registry)) <=
  number_at ("crawl_bytes_downloaded_total", []) (series (run_calls [C_record_crawl_bytes 512; C_record_crawl_bytes (-3)] (∅ : registry))).
Proof.
  apply (counters_never_fall [C_record_crawl_bytes 512; C_record_crawl_bytes (-3)] (∅ : registry) "crawl_bytes_downloaded_total" []). intros m Hm Hn.
  assert (forallb (fun m => negb (String.eqb (m_name m) "crawl_bytes_downloaded_total") || bool_decide (m_kind m = KCounter)) METRICS = true) as H by (vm_compute; reflexivity).
  rewrite forallb_forall in H. apply list_elem_of_In, H in Hm. rewrite Hn in Hm. by apply bool_decide_eq_true in Hm.
Defined.
