(* ===== verification/TranslationRoutes.v ===== *)
(** * Translation routes

    document_processor/api/translation_routes.py over TranslationService.v and
    Nllb.v: one text, a batch, detection, the list of languages, statistics and
    jobs.  The service of this process is created by the first call that needs
    it; [init] is how its initialisation ends.  Response times are left out. *)

From S2P Require Import Prelude PyStr PyVal PyConv Json Cache Language ThinkingRoutes Research Nllb TranslationService.
From Stdlib Require Import Ascii.
#[local] Open Scope py_scope.
#[local] Open Scope Z_scope.

(** ** Requests and responses *)

Record TranslateRequest := TRequest { tq_text : string; tq_source : option string; tq_target : string; tq_use_cache : bool }.
Definition valid_translate (q : TranslateRequest) : bool := (1 <=? Z.of_nat (String.length (tq_text q))) && (Z.of_nat (String.length (tq_text q)) <=? 50000).
Record BatchTranslateRequest := BRequest { bq_texts : list string; bq_source : option string; bq_target : string; bq_use_cache : bool }.
Definition valid_batch (q : BatchTranslateRequest) : bool := (1 <=? zlength (bq_texts q)) && (zlength (bq_texts q) <=? 100).
Record TranslationJobRequest := JRequest { jq_text : string; jq_source : option string; jq_target : string; jq_priority : Z; jq_metadata : list (string * pyval) }.
Definition valid_job (q : TranslationJobRequest) : bool :=
  (1 <=? Z.of_nat (String.length (jq_text q))) && (Z.of_nat (String.length (jq_text q)) <=? 100000) && (-100 <=? jq_priority q) && (jq_priority q <=? 100).

Record TranslationResponse := TResponse {
  tr_success : bool; tr_translation : option string; tr_source : option string; tr_target : string; tr_confidence : Q; tr_provider : option string;
  tr_from_cache : bool; tr_error : option string }.
(** [Optional[str]], [bool] and [float] fields: a value of another type is
    refused.  Numbers and texts that pydantic would convert are not met. *)
Definition invalid : pyexn := PyExn "ValidationError" "validation error for TranslationResponse".
Definition opt_field (k : string) (d : list (string * pyval)) : result pyexn (option string) :=
  match dict_get k d with Some (PStr s) => Ok (Some s) | Some PNone | None => Ok None | Some _ => Err invalid end.
Definition bool_field (k : string) (d : list (string * pyval)) : result pyexn bool :=
  match dict_get k d with Some (PBool b) => Ok b | None => Ok false | Some _ => Err invalid end.
Definition float_field (k : string) (d : list (string * pyval)) : result pyexn Q :=
  match dict_get k d with Some (PFloat q) => Ok q | Some (PInt z) => Ok (inject_Z z) | None => Ok 0%Q | Some _ => Err invalid end.
Definition response_of (target : string) (r : list (string * pyval)) : result pyexn TranslationResponse :=
  ok <-! bool_field "success" r; tr <-! opt_field "translation" r; src <-! opt_field "source_language" r; conf <-! float_field "confidence" r;
  pr <-! opt_field "provider" r; fc <-! bool_field "from_cache" r; err <-! opt_field "error" r;
  Ok (TResponse ok tr src target conf pr fc err).
Record BatchTranslationResponse := BResponse {
  br_success : bool; br_results : list TranslationResponse; total_items : Z; successful_items : Z; failed_items : Z; cached_items : Z }.
(** The loop over the results: the responses and the three counts *)
Fixpoint convert (target : string) (rs : list (list (string * pyval))) (ok failed cached : Z) : result pyexn (list TranslationResponse * Z * Z * Z) :=
  match rs with
  | [] => Ok ([], ok, failed, cached)
  | r :: rs' =>
      x <-! response_of target r;
      let good := truthy (sget "success" r) in
      rest <-! convert target rs' (if good then ok + 1 else ok) (if good then failed else failed + 1)
                 (if good && truthy (sget "from_cache" r) then cached + 1 else cached);
      let '(l, a, b, c) := rest in Ok (x :: l, a, b, c)
  end.
Definition batch_response (q : BatchTranslateRequest) (rs : list (list (string * pyval))) : result pyexn BatchTranslationResponse :=
  x <-! convert (bq_target q) rs 0 0 0;
  let '(l, ok, failed, cached) := x in
  Ok (BResponse (failed =? 0) l (zlength (bq_texts q)) ok failed cached).

(** ** Detection and languages *)

Record LanguageDetectionResponse := DResponse { dr_success : bool; dr_language : option string; dr_name : option string; dr_confidence : Q; dr_error : option string }.
Definition detect_language (detect : option (string -> result pyexn (string * Q))) (text : string) : LanguageDetectionResponse :=
  match detect with
  | None => DResponse false None None 0 (Some "Language detection not available (fasttext-langdetect not installed)")
  | Some f =>
      match f (str_take (Z.to_nat 1000) text) with
      | Ok (lang, score) => DResponse true (Some lang) (Some (get_language_name lang)) score None
      | Err e => DResponse false None None 0
                   (Some (if String.eqb (exn_type e) "ImportError" then "Language detection not available (fasttext-langdetect not installed)" else exn_str e))
      end
  end.
(** Code, name and NLLB code *)
Definition listed (kv : string * string) : bool := negb ((3 <? String.length kv.1)%nat || char_in "_" kv.1).
Definition list_supported_languages : list (string * string * string) :=
  foldr insert_name [] (map (fun kv => (kv.1, get_language_name kv.1, kv.2)) (List.filter listed LANGUAGE_CODES)).

(** ** The routes *)

Record http_error := HTTPError { h_status : Z; h_detail : string }.
Definition unprocessable : http_error := HTTPError 422 "validation error".
Definition server_error (e : pyexn) : http_error := HTTPError 500 (exn_str e).

Section routes.
Context {R : Type} `{RedisServer R} {T : Type} `{TextTranslator T}.
Variable cfg : TranslationConfig.
Variable sha256 : string -> string.
Variable float_repr : Q -> string.
Variable atom_repr : pyval -> string.
Variable detector : option (string -> result pyexn (string * Q)).
Variable translator : option T.
Variable claude : string -> string -> string -> result pyexn string.
Variable cached_at : string.
(** Whether the service was created, and the service.  It is created, and kept,
    before it is initialised: a failure to connect is met by the call that
    meets it, and by every later one until it succeeds. *)
Record routes := Routes { rt_created : bool; rt_ready : bool; rt_service : @service R }.
Definition set_service (s : @service R) (t : routes) : routes := Routes (rt_created t) (rt_ready t) s.
Definition _get_translation_service (init : result pyexn unit) (t : routes) : result pyexn unit * routes :=
  if rt_created t then (Ok (), t) else
  match init with Ok _ => (Ok (), Routes true true (rt_service t)) | Err e => (Err e, Routes true false (rt_service t)) end.
(** A method of the service that initialises it first where need be *)
Definition with_service {A} (init init' : result pyexn unit) (m : svc A) (t : routes) : result pyexn A * routes :=
  match _get_translation_service init t with
  | (Err e, t) => (Err e, t)
  | (Ok _, t) =>
      match (if rt_ready t then Ok () else init') with
      | Err e => (Err e, t)
      | Ok _ => let '(x, s) := m (rt_service t) in (x, Routes true true s)
      end
  end.
Definition failed_response (target : string) (e : pyexn) : TranslationResponse := TResponse false None None target 0 None false (Some (exn_str e)).
Definition translate_text (q : TranslateRequest) (init init' : result pyexn unit) (now now' : Q) (t : routes) : result http_error TranslationResponse * routes :=
  if negb (valid_translate q) then (Err unprocessable, t) else
  let '(x, t) := with_service init init'
    (TranslationService.translate cfg sha256 float_repr atom_repr detector translator claude cached_at (tq_text q) (tq_source q) (tq_target q) (tq_use_cache q) true now now') t in
  (Ok (match (r <-! x; response_of (tq_target q) r) with Ok r => r | Err e => failed_response (tq_target q) e end), t).
Definition batch_route (q : BatchTranslateRequest) (init init' : result pyexn unit) (t : routes) : result http_error BatchTranslationResponse * routes :=
  if negb (valid_batch q) then (Err unprocessable, t) else
  let '(x, t) := with_service init init'
    (TranslationService.batch_translate cfg sha256 float_repr detector translator cached_at (bq_texts q) (bq_source q) (bq_target q)) t in
  (match (rs <-! x; batch_response q rs) with Ok r => Ok r | Err e => Err (server_error e) end, t).
(** The methods that do not initialise fail on a service that is not *)
Definition not_ready : pyexn := PyExn "AttributeError" "'NoneType' object has no attribute 'setex'".
Definition create_translation_job (q : TranslationJobRequest) (id now_iso : string) (init : result pyexn unit) (t : routes) : result http_error (string * string) * routes :=
  if negb (valid_job q) then (Err unprocessable, t) else
  let '(x, t) := with_service init (Err not_ready)
    (enqueue_translation float_repr id (jq_text q) (jq_source q) (jq_target q) (jq_priority q) (jq_metadata q) now_iso) t in
  (match x with Ok id => Ok (id, "pending") | Err e => Err (server_error e) end, t).
(** The answer has the id, the status and the other fields of the stored job *)
Definition get_translation_job (id : string) (init : result pyexn unit) (t : routes) : result http_error (string * string * list (string * pyval)) * routes :=
  let '(x, t) := with_service init (Err not_ready) (get_job_status id) t in
  (match x with
   | Err e => Err (server_error e)
   | Ok job =>
       match (v ← job; if truthy v then Some v else None) with
       | None => Err (HTTPError 404 ("Job " +:+ id +:+ " not found"))
       | Some (PDict d) =>
           match (i <-! need "id" d; s <-! need "status" d; _ <-! need "created_at" d; Ok (i, s)) with
           | Ok (i, s) => Ok (i, s, map (fun k => (k, sget k d)) ["result"; "confidence"; "provider"; "error"; "created_at"; "completed_at"])
           | Err e => Err (server_error e)
           end
       | Some v => Err (server_error (type_error v "indices must be integers"))
       end
   end, t).
Definition get_translation_stats (init : result pyexn unit) (t : routes) : (TranslationStats * Q) * routes :=
  match _get_translation_service init t with
  | (Err _, t) => ((new_tstats, 0%Q), t)
  | (Ok _, t) => ((sv_stats (rt_service t), default 0%Q (hit_rate <$> sv_cache (rt_service t))), t)
  end.
Definition translation_health (init : result pyexn unit) (cache_enabled : bool) (t : routes) : list (string * pyval) * routes :=
  match _get_translation_service init t with
  | (Err e, t) => ([("status", PStr "unhealthy"); ("error", PStr (exn_str e))], t)
  | (Ok _, t) => ([("status", PStr "healthy"); ("provider", PStr "nllb-200");
                   ("languages_supported", PInt (match translator with Some _ => zlength get_supported_languages | None => 0 end)); ("cache_enabled", PBool cache_enabled)], t)
  end.
End routes.

(** ** Counting a batch *)

Lemma convert_counts target rs ok failed cached l a b c : convert target rs ok failed cached = Ok (l, a, b, c) -> cached <= ok ->
  length l = length rs /\ a + b = ok + failed + zlength rs /\ c <= a /\ ok <= a /\ failed <= b.
Proof.
  revert ok failed cached l a b c. induction rs as [|r rs IH]; intros ok failed cached l a b c; simpl; [intros [= <- <- <- <-] ?; rewrite zlength_nil; split_and!; [done|lia..]|].
  destruct (response_of target r); [|done]. simpl. destruct (convert target rs _ _ _) as [[[[l' a'] b'] c']|] eqn:E; [|done]. intros [= <- -> -> ->] Hc.
  apply IH in E as (E1 & E2 & E3 & E4 & E5); [|destruct (truthy _), (truthy _); simpl; lia]. rewrite zlength_cons. simpl. split_and!; [by rewrite E1|destruct (truthy _); lia|done|destruct (truthy _); lia|destruct (truthy _); lia].
Qed.

Create HintDb queue.
Section facts.
Context {R : Type} `{RedisServerLaws R} {T : Type} `{TextTranslator T}.
Variable cfg : TranslationConfig.
Variable sha256 : string -> string.
Variable float_repr : Q -> string.
Variable atom_repr : pyval -> string.
Variable detector : option (string -> result pyexn (string * Q)).
Variable claude : string -> string -> string -> result pyexn string.
Variable cached_at : string.

Lemma with_service_ok {A} init init' (m : svc A) (t : routes (R := R)) x t' : with_service init init' m t = (Ok x, t') -> exists s', m (rt_service t) = (Ok x, s') /\ rt_service t' = s'.
Proof.
  unfold with_service, _get_translation_service. destruct (rt_created t).
  - destruct (if rt_ready t then _ else _); [|done]. destruct (m (rt_service t)) as [y s]. intros [= -> <-]. eauto.
  - destruct init; [|done]. cbn [rt_ready rt_service]. destruct (m (rt_service t)) as [y s]. intros [= -> <-]. eauto.
Qed.
(** With the local model, and a cache whose writes succeed, the answer to a
    batch has one result for every text, and counts every one of them as
    successful or as failed, those from the cache among the successful. *)
Theorem batch_route_counts translator q init init' t r t' : writes_succeed (R := R) cfg -> model_lawful translator ->
  batch_route cfg sha256 float_repr detector translator cached_at q init init' t = (Ok r, t') ->
  length (br_results r) = length (bq_texts q) /\ total_items r = zlength (bq_texts q) /\ successful_items r + failed_items r = total_items r /\
  cached_items r <= successful_items r /\ (br_success r = true <-> successful_items r = total_items r).
Proof.
  intros Hw Hm. unfold batch_route. destruct (negb (valid_batch q)); [done|]. destruct (with_service _ _ _ _) as [x t1] eqn:Ew.
  destruct x as [rs|e]; [|done]. cbn [rbind]. destruct (batch_response q rs) as [y|] eqn:Eb; [|done]. intros [= <- <-].
  apply with_service_ok in Ew as (s' & Ew & _). destruct (batch_aligned cfg sha256 float_repr atom_repr detector translator claude cached_at _ _ _ _ _ _ Hw Hm Ew) as [lang Hl%Forall2_length].
  unfold batch_response in Eb. destruct (convert _ _ _ _ _) as [[[[l a] b] c]|] eqn:Ec; [|done]. cbn [rbind] in Eb. injection Eb as <-.
  apply convert_counts in Ec as (E1 & E2 & E3 & E4 & E5); [|done]. simpl. unfold zlength in *. split_and!; [lia|done|lia|lia|]. rewrite Z.eqb_eq. lia.
Qed.

Lemma look_up_nothing a b l s : (forall k r, (exec (Get k) r).1 = Ok None) ->
  exists s', look_up (R := R) sha256 a b l s = (Ok ([], l), s').
Proof.
  intros Hn. revert s. induction l as [|[i text] l IH]; intros s; [by eexists|]. cbn [look_up]. unfold vbind at 1, cache_get, vbind at 1, redis_do.
  specialize (Hn (_compute_key sha256 text a b) (sv_redis s)). destruct (exec _ _) as [x r]. simpl in Hn. subst x. cbn [truthy_str]. unfold vbind at 1, vdo, vret at 1. cbv beta match.
  cbn [mbind option_bind]. unfold vbind at 1. destruct (IH (count_hit false (set_redis r s))) as [s' ->]. by eexists.
Qed.
(** Without the local model, and with nothing in the cache, a batch is
    answered as a success that has no result for any of its texts. *)
Theorem batch_success_without_model q init' t lang : valid_batch q = true -> bq_source q = Some lang -> lang <> "" -> rt_created t = true -> rt_ready t = true ->
  (forall k r, (exec (Get k) r).1 = Ok None) ->
  (batch_route cfg sha256 float_repr detector (@None T) cached_at q (Ok ()) init' t).1 = Ok (BResponse true [] (zlength (bq_texts q)) 0 0 0).
Proof.
  intros Hv Hs Hne Hc Hr Hn. unfold batch_route. rewrite Hv. cbn [negb]. unfold with_service, _get_translation_service. rewrite Hc, Hr.
  unfold TranslationService.batch_translate. destruct (bq_texts q) as [|t0 ts] eqn:Et; [unfold valid_batch in Hv; by rewrite Et in Hv|]. rewrite Hs. cbn [truthy_str].
  rewrite (proj2 (String.eqb_neq lang "") Hne). cbn [negb]. unfold vbind at 1, vret at 1. cbn [truthy_str default]. rewrite (proj2 (String.eqb_neq lang "") Hne). cbn [negb].
  change (id lang) with lang. unfold vbind at 1. rewrite <- Et. set (items := zip _ _). destruct (bool_decide (is_Some (sv_cache (rt_service t)))).
  - destruct (look_up_nothing lang (bq_target q) items (rt_service t) Hn) as [s' ->]. unfold vbind, translate_left. cbn [snd]. by destruct items.
  - unfold vbind, translate_left. cbn [snd]. by destruct items.
Qed.

(** ** Jobs *)

(** A computation that leaves the queue of jobs alone *)
Definition keeps_queue {A} (m : svc (R := R) A) : Prop := forall s, sv_queue (m s).2 = sv_queue s.
Lemma queue_kept_bind {A B} (m : svc A) (k : A -> svc B) : keeps_queue m -> (forall a, keeps_queue (k a)) -> keeps_queue (vbind m k).
Proof. intros Hm Hk s. unfold vbind. specialize (Hm s). destruct (m s) as [[a|e] s']; simpl in *; [by rewrite Hk|done]. Qed.
Lemma queue_kept_ret {A} (x : result pyexn A) : keeps_queue (vret x).
Proof. done. Qed.
Lemma keeps_redis {A} (c : command A) : keeps_queue (redis_do c).
Proof. intros s. unfold redis_do. by destruct (exec c (sv_redis s)). Qed.
Lemma keeps_do f : (forall s, sv_queue (f s) = sv_queue s) -> keeps_queue (vdo f).
Proof. intros Hf s. apply Hf. Qed.
Lemma keeps_if {A} (b : service (R := R) -> bool) (m1 m2 : svc A) : keeps_queue m1 -> keeps_queue m2 -> keeps_queue (fun s => if b s then m1 s else m2 s).
Proof. intros Hm1 Hm2 s. by destruct (b s). Qed.
Lemma keeps_pure {A} (x : result pyexn A) : keeps_queue (fun s => (x, s)).
Proof. done. Qed.
Hint Resolve keeps_pure queue_kept_bind queue_kept_ret keeps_redis keeps_do keeps_if : queue.
Lemma cache_get_keeps text a b : keeps_queue (cache_get sha256 text a b).
Proof. unfold cache_get. apply queue_kept_bind; [auto with queue|]. intros c. destruct (truthy_str c); auto with queue. Qed.
Lemma cache_set_keeps text a b tr c p : keeps_queue (cache_set cfg sha256 float_repr cached_at text a b tr c p).
Proof. unfold cache_set. auto with queue. Qed.
Hint Resolve cache_get_keeps cache_set_keeps : queue.
Lemma translate_keeps translator text src target uc dm now now' :
  keeps_queue (TranslationService.translate cfg sha256 float_repr atom_repr detector translator claude cached_at text src target uc dm now now').
Proof.
  unfold TranslationService.translate. apply queue_kept_bind; [destruct (_ && _); auto with queue|]. intros lang. destruct (_ && _); [auto with queue|]. case_bool_decide; [auto with queue|].
  apply queue_kept_bind; [apply (keeps_if (fun s => uc && bool_decide (is_Some (sv_cache s)))); auto with queue|]. intros cached. destruct (_ ≫= _); [auto with queue|].
  apply queue_kept_bind; [done|]. intros [|]; [|auto with queue]. intros s. unfold translate_now.
  assert (forall d, keeps_queue (record_result cfg sha256 float_repr atom_repr cached_at text (default "None" lang) target d now')) as Hrec.
  { intros d. unfold record_result, _update_rate_limits. apply queue_kept_bind; [auto with queue|]. intros _. apply queue_kept_bind; [auto with queue|]. intros _. destruct (truthy _); [|auto with queue].
    apply queue_kept_bind; [auto with queue|]. intros _. apply (keeps_if (fun s => bool_decide (is_Some (sv_cache s)) && truthy (sget "translation" d))); auto with queue. }
  match goal with |- context [vbind ?m ?k s] => assert (keeps_queue (vbind m k)) as Hk by (apply queue_kept_bind; [auto with queue|]; intros d; apply queue_kept_bind; auto with queue); specialize (Hk s); destruct (vbind m k s) as [[r|e] s'] end; simpl in *; [done|].
  by destruct (CancelledError e).
Qed.
Lemma look_up_keeps a b l : keeps_queue (look_up sha256 a b l).
Proof.
  induction l as [|[i text] l IH]; cbn [look_up]; [auto with queue|]. apply queue_kept_bind; [auto with queue|]. intros c. destruct (_ ≫= _).
  - apply queue_kept_bind; [auto with queue|]. intros d. apply queue_kept_bind; [auto with queue|]. intros _. apply queue_kept_bind; auto with queue.
  - apply queue_kept_bind; auto with queue.
Qed.
Lemma store_results_keeps a b texts before l s : sv_queue (store_results cfg sha256 float_repr cached_at a b texts before l s).2 = sv_queue s.
Proof.
  revert before s. induction l as [|[i r] l IH]; intros before s; [done|]. cbn [store_results]. cbv zeta.
  set (p := if bool_decide _ then _ else _). assert (sv_queue p.2 = sv_queue s) as Hp.
  { unfold p. case_bool_decide; [|done]. destruct (texts !! _); [|done]. destruct (dict_get _ _); [apply cache_set_keeps|done]. }
  destruct p as [[[]|e] s1]; simpl in Hp; [|done]. specialize (IH (before ++ [marked r]) s1). destruct (store_results _ _ _ _ _ _ _ _ _ s1) as [[d e] s2]. simpl in *. congruence.
Qed.
Lemma translate_left_keeps translator a b left : keeps_queue (translate_left cfg sha256 float_repr translator cached_at a b left).
Proof.
  intros s. unfold translate_left. destruct left as [|x left]; [done|]. destruct translator as [m|]; [|done]. destruct (translate_many m _ a b) as [rs|e]; [|by destruct (CancelledError e)].
  set (texts := map snd (x :: left)). set (items := zip _ rs). pose proof (store_results_keeps a b texts [] items s) as Hs. destruct (store_results _ _ _ _ _ _ _ _ _ s) as [[d y] s1]. simpl in Hs.
  destruct y as [[]|e]; [done|]. by destruct (CancelledError e).
Qed.
Lemma batch_keeps translator texts src target : keeps_queue (TranslationService.batch_translate cfg sha256 float_repr detector translator cached_at texts src target).
Proof.
  unfold TranslationService.batch_translate. destruct texts as [|t0 texts]; [auto with queue|]. apply queue_kept_bind; [auto with queue|]. intros lang. destruct (negb _); [auto with queue|].
  apply queue_kept_bind; [apply (keeps_if (fun s => bool_decide (is_Some (sv_cache s)))); [apply look_up_keeps|auto with queue]|]. intros found.
  apply queue_kept_bind; [apply translate_left_keeps|auto with queue].
Qed.
Lemma with_service_queue {A} init init' (m : svc A) (t : routes (R := R)) : (forall s, exists js, sv_queue (m s).2 = sv_queue s ++ js) ->
  exists js, sv_queue (rt_service (with_service init init' m t).2) = sv_queue (rt_service t) ++ js.
Proof.
  intros Hm. unfold with_service, _get_translation_service. destruct (Hm (rt_service t)) as [js Hj]. destruct (rt_created t).
  - destruct (if rt_ready t then _ else _); [|exists []; by rewrite app_nil_r]. destruct (m (rt_service t)) as [y s]. by exists js.
  - destruct init; [|exists []; by rewrite app_nil_r]. cbn [rt_ready rt_service]. destruct (m (rt_service t)) as [y s]. by exists js.
Qed.
Lemma enqueue_queue id text src target pr md iso s : exists js, sv_queue (enqueue_translation (R := R) float_repr id text src target pr md iso s).2 = sv_queue s ++ js.
Proof.
  unfold enqueue_translation. unfold vbind at 1. set (job := TJob _ _ _ _ _ _ _ _ _ _ _ _ _). assert (keeps_queue (store_job (R := R) float_repr job)) as Hk by (unfold store_job; auto with queue).
  specialize (Hk s). destruct (store_job float_repr job s) as [[[]|e] s1]; simpl in *; [|exists []; by rewrite app_nil_r, Hk]. exists [job]. by rewrite Hk.
Qed.

Inductive route_call :=
| CallTranslate (q : TranslateRequest) (init init' : result pyexn unit) (now now' : Q)
| CallBatch (q : BatchTranslateRequest) (init init' : result pyexn unit)
| CallJob (q : TranslationJobRequest) (id now_iso : string) (init : result pyexn unit)
| CallStatus (id : string) (init : result pyexn unit).
Definition run_route (translator : option T) (t : routes (R := R)) (c : route_call) : routes :=
  match c with
  | CallTranslate q init init' now now' => (translate_text cfg sha256 float_repr atom_repr detector translator claude cached_at q init init' now now' t).2
  | CallBatch q init init' => (batch_route cfg sha256 float_repr detector translator cached_at q init init' t).2
  | CallJob q id now_iso init => (create_translation_job float_repr q id now_iso init t).2
  | CallStatus id init => (get_translation_job id init t).2
  end.
Lemma run_route_queue translator t c : exists js, sv_queue (rt_service (run_route translator t c)) = sv_queue (rt_service t) ++ js.
Proof.
  assert (forall A (m : svc A), keeps_queue m -> forall s, exists js, sv_queue (m s).2 = sv_queue s ++ js) as Hk by (intros A m Hm s; exists []; by rewrite app_nil_r).
  assert (exists js : list TranslationJob, sv_queue (rt_service t) = sv_queue (rt_service t) ++ js) as Hsame by (exists []; by rewrite app_nil_r).
  destruct c as [q init init' now now'|q init init'|q id iso init|id init]; simpl.
  - unfold translate_text. destruct (negb _); [done|]. match goal with |- context [with_service ?i ?i' ?m t] => pose proof (with_service_queue i i' m t (Hk _ _ (translate_keeps _ _ _ _ _ _ _ _))) as Hw; destruct (with_service i i' m t) end. exact Hw.
  - unfold batch_route. destruct (negb _); [done|]. match goal with |- context [with_service ?i ?i' ?m t] => pose proof (with_service_queue i i' m t (Hk _ _ (batch_keeps _ _ _ _))) as Hw; destruct (with_service i i' m t) end. exact Hw.
  - unfold create_translation_job. destruct (negb _); [done|]. match goal with |- context [with_service ?i ?i' ?m t] => pose proof (with_service_queue i i' m t (enqueue_queue _ _ _ _ _ _ _)) as Hw; destruct (with_service i i' m t) end. exact Hw.
  - unfold get_translation_job. assert (keeps_queue (get_job_status (R := R) id)) as Hj by (unfold get_job_status; apply queue_kept_bind; [auto with queue|]; intros d; destruct (truthy_str d); auto with queue).
    match goal with |- context [with_service ?i ?i' ?m t] => pose proof (with_service_queue i i' m t (Hk _ _ Hj)) as Hw; destruct (with_service i i' m t) end. exact Hw.
Qed.
(** The routes create the service but never start its background loop, and
    none of them takes a job from the queue: whatever calls follow, every job
    that was created stays where it is, and is never translated. *)
Theorem jobs_never_taken translator t cs : exists js, sv_queue (rt_service (foldl (run_route translator) t cs)) = sv_queue (rt_service t) ++ js.
Proof.
  revert t. induction cs as [|c cs IH]; intros t; [exists []; simpl; by rewrite app_nil_r|]. simpl. destruct (IH (run_route translator t c)) as [js Hj], (run_route_queue translator t c) as [js' Hj'].
  exists (js' ++ js). by rewrite Hj, Hj', app_assoc.
Qed.
Lemma created_service init init' {A} (m : svc (R := R) A) t x t' : with_service init init' m t = (Ok x, t') -> rt_created t' = true /\ rt_ready t' = true.
Proof.
  unfold with_service, _get_translation_service. destruct (rt_created t).
  - destruct (if rt_ready t then _ else _); [|done]. destruct (m (rt_service t)) as [y s]. by intros [= _ <-].
  - destruct init; [|done]. cbn [rt_ready rt_service]. destruct (m (rt_service t)) as [y s]. by intros [= _ <-].
Qed.
(** A job that was created is found under its id, as pending, by the next
    question for it: unless the read fails or a day has passed. *)
Theorem created_job_found q id iso init init' (t t1 t2 : routes (R := R)) r x :
  json_safe (PDict (job_to_dict (TJob id (jq_text q) (jq_source q) (jq_target q) PENDING (jq_priority q) iso None PNone PNone PNone PNone (jq_metadata q)))) ->
  create_translation_job float_repr q id iso init t = (Ok r, t1) -> get_translation_job id init' t1 = (x, t2) ->
  (exists fields, x = Ok (id, "pending", fields)) \/ (exists e, x = Err (server_error e)) \/
  (x = Err (HTTPError 404 ("Job " +:+ id +:+ " not found")) /\ (time_of (sv_redis (rt_service t)) + inject_Z JOB_TTL <= time_of (sv_redis (rt_service t2)))%Q).
Proof.
  intros Hsafe Hc Hg. unfold create_translation_job in Hc. destruct (negb _); [done|]. destruct (with_service _ _ _ t) as [y t1'] eqn:Ew. destruct y as [i|e]; [|done]. injection Hc as <- <-.
  pose proof (created_service _ _ _ _ _ _ Ew) as [Hcr Hrd]. apply with_service_ok in Ew as (s1 & Ew & Hs1). unfold enqueue_translation in Ew. set (job := TJob _ _ _ _ _ _ _ _ _ _ _ _ _) in *.
  unfold vbind at 1, store_job, vbind at 1, vret at 1 in Ew. destruct (json_dumps float_repr (PDict (job_to_dict job))) as [text|] eqn:Ed; [|done]. unfold vbind, redis_do in Ew.
  pose proof (exec_law _ (SetEx (job_key (j_id job)) JOB_TTL text) (sv_redis (rt_service t))) as [_ Hset].
  destruct (exec (SetEx _ _ _) (sv_redis (rt_service t))) as [[b|] r1]; [|done]. simpl in Hset. destruct Hset as (t0 & Ht0 & _ & -> & Hview). simpl in Ew. injection Ew as _ Ew.
  unfold get_translation_job, with_service, _get_translation_service in Hg. rewrite Hcr, Hrd in Hg. rewrite Hs1 in Hg. rewrite <- Ew in Hg. unfold get_job_status, vbind, redis_do in Hg. simpl sv_redis in Hg. unfold set_redis in Hg.
  change (j_id job) with id in *. pose proof (exec_law _ (Get (job_key id)) r1) as [Htime Hget]. destruct (exec (Get (job_key id)) r1) as [[data|e] r2]; [|simpl in Hg; injection Hg as <- _; right; left; eauto].
  simpl in Htime, Hget. destruct Hget as (t3 & Ht3 & -> & _). rewrite Hview, value_after_set in Hg. destruct (Qle_bool_reflect (t0 + inject_Z JOB_TTL) t3) as [Hexp|Hok].
  - simpl in Hg. injection Hg as <- <-. right; right. split; [done|]. simpl. lra.
  - destruct (dumps_head float_repr _ _ Hsafe Ed) as (c & u & -> & _). cbn [truthy_str negb String.eqb default] in Hg. unfold vret in Hg. change (Datatypes.id (String c u)) with (String c u) in Hg.
    erewrite loads_dumps in Hg; [|done|exact Ed]. left. cbn in Hg. injection Hg as <- _. eauto.
Qed.
End facts.

(** ** The list of languages *)

(** Every code of the list is accepted by the translator and stands for the
    code of the model it is listed with. *)
Theorem listed_languages_work e : e ∈ list_supported_languages -> _get_language_code e.1.1 = e.2 /\ e.1.2 = get_language_name e.1.1.
Proof.
  assert (forallb (fun e => String.eqb (_get_language_code e.1.1) e.2 && String.eqb e.1.2 (get_language_name e.1.1)) list_supported_languages = true) as H by (vm_compute; reflexivity).
  rewrite forallb_forall in H. intros He%list_elem_of_In. apply H, andb_true_iff in He as [H1%String.eqb_eq H2%String.eqb_eq]. done.
Qed.
Lemma listed_languages_work_witness : _get_language_code "fr" = "fra_Latn".
Proof. apply (listed_languages_work ("fr", "French", "fra_Latn")). apply list_elem_of_In. vm_compute. repeat (first [left; reflexivity|right]). Defined.
(** Codes of three letters are not skipped: a language is listed twice. *)
Example languages_listed_twice : ("en", "English", "eng_Latn") ∈ list_supported_languages /\ ("eng", "eng", "eng_Latn") ∈ list_supported_languages.
Proof. split; apply list_elem_of_In; vm_compute; repeat (first [left; reflexivity|right]). Qed.

(** ** Examples *)

Definition demo_routes {R} (r : R) : routes := Routes true true (demo_service r).
Definition demo_bq : BatchTranslateRequest := BRequest ["au"; "revoir"] (Some "fr") "en" true.
Lemma batch_route_counts_witness : exists r t', batch_route demo_cfg (fun x => x) demo_repr None (Some demo_nt) "t" demo_bq (Ok ()) (Ok ()) (demo_routes (Calm ∅ 0)) = (Ok r, t') /\
  successful_items r + failed_items r = total_items r.
Proof.
  destruct (batch_route demo_cfg (fun x => x) demo_repr None (Some demo_nt) "t" demo_bq (Ok ()) (Ok ()) (demo_routes (Calm ∅ 0))) as [[r|e] t'] eqn:E.
  - exists r, t'. split; [done|].
    apply (batch_route_counts demo_cfg (fun x => x) demo_repr (fun _ => "") None no_claude "t" (Some demo_nt) demo_bq (Ok ()) (Ok ()) (demo_routes (Calm ∅ 0)) r t' demo_writes demo_lawful E).
  - exfalso. apply (f_equal (fun x => match x.1 with Ok _ => true | Err _ => false end)) in E. vm_compute in E. discriminate.
Defined.
(** A server on which nothing is ever found *)
Variant emptyd := Empty.
#[export] Instance emptyd_server : RedisServer emptyd := {
  exec A c m := (match c in command A return result pyexn A with Get _ => Ok None | _ => Err down end, m); view _ := ∅; time_of _ := 0%Q }.
#[export] Instance emptyd_laws : RedisServerLaws emptyd.
Proof. split. intros A c m. split; [simpl; lra|]. destruct c; simpl; try (by left). exists 0%Q. split; [lra|]. done. Qed.
Lemma batch_success_without_model_witness :
  (batch_route demo_cfg (fun x => x) demo_repr None (@None NLLBTranslator) "t" demo_bq (Ok ()) (Ok ()) (demo_routes Empty)).1 = Ok (BResponse true [] 2 0 0 0).
Proof. apply (batch_success_without_model demo_cfg (fun x => x) demo_repr None "t" demo_bq (Ok ()) (demo_routes Empty) "fr"); done. Defined.
Definition demo_jq : TranslationJobRequest := JRequest "bonjour" (Some "fr") "en" 5 [].
Lemma created_job_found_witness : exists fields, (get_translation_job "j1" (Ok ()) (create_translation_job demo_repr demo_jq "j1" "t" (Ok ()) (demo_routes (Calm ∅ 0))).2).1 = Ok ("j1", "pending", fields).
Proof.
  destruct (get_translation_job "j1" (Ok ()) (create_translation_job demo_repr demo_jq "j1" "t" (Ok ()) (demo_routes (Calm ∅ 0))).2) as [x t2] eqn:E.
  destruct (created_job_found demo_repr demo_jq "j1" "t" (Ok ()) (Ok ()) (demo_routes (Calm ∅ 0)) (create_translation_job demo_repr demo_jq "j1" "t" (Ok ()) (demo_routes (Calm ∅ 0))).2 t2 ("j1", "pending") x)
    as [[f ->]|[[e ->]|[-> _]]]; [vm_compute; repeat constructor; set_solver|vm_compute; reflexivity|exact E|by exists f| |].
  - exfalso. apply (f_equal (fun x => match x.1 with Ok _ => true | Err _ => false end)) in E. vm_compute in E. discriminate.
  - exfalso. apply (f_equal (fun x => match x.1 with Ok _ => true | Err _ => false end)) in E. vm_compute in E. discriminate.
Defined.
