(* ===== verification/ClaudeRoutes.v ===== *)
(** * Chat with the Claude model

    document_processor/api/chat_research_routes.py: a request of the three modes
    is persisted, run as a registered task and stamped on its query record, over
    QueryRecords.v.  A request is in two parts, before and after the call of the
    model, between which other requests run; how the call ended is an argument
    of the second.  A user is known by the id. *)

From S2P Require Import Prelude PyStr PyVal Retry Mongo Storage ChatStore QueryRecords ResearchPrompts.
From Stdlib Require Import Ascii.
#[local] Open Scope Z_scope.

(** ** The prompts *)

Definition RESEARCH_PROMPT : string :=
  "You are an expert research assistant. Your role is to:" +:+ NL +:+ NL +:+ "1. Conduct thorough research on the given topic" +:+
  NL +:+ "2. Analyze information from multiple perspectives" +:+ NL +:+
  "3. Synthesize findings into clear, comprehensive reports" +:+ NL +:+ "4. Cite sources when making factual claims" +:+ NL +:+
  "5. Identify knowledge gaps and limitations" +:+ NL +:+ NL +:+ "When responding:" +:+ NL +:+
  "- Provide a clear summary upfront" +:+ NL +:+ "- Break down complex topics into understandable sections" +:+ NL +:+
  "- Include key findings and important details" +:+ NL +:+ "- Be objective and balanced in your analysis" +:+ NL +:+
  "- Note any uncertainties or conflicting information" +:+ NL.
Definition WEB_PROMPT : string :=
  NL +:+ "You have access to current web information. Use this to:" +:+ NL +:+ "- Find recent developments and data" +:+ NL +:+
  "- Verify facts and statistics" +:+ NL +:+ "- Include multiple authoritative sources" +:+ NL +:+
  "- Compare different viewpoints" +:+ NL.
Definition THINKING_PROMPT : string :=
  "You are an expert analytical thinker. Your role is to:" +:+ NL +:+ NL +:+
  "1. Break down complex problems into manageable components" +:+ NL +:+ "2. Analyze situations from multiple angles" +:+ NL +:+
  "3. Apply logical reasoning and critical thinking" +:+ NL +:+ "4. Generate insights and novel perspectives" +:+ NL +:+
  "5. Challenge assumptions and identify biases" +:+ NL +:+ NL +:+ "When responding:" +:+ NL +:+
  "- Think step-by-step through the problem" +:+ NL +:+ "- Show your reasoning process" +:+ NL +:+
  "- Consider alternative viewpoints" +:+ NL +:+ "- Identify key insights and implications" +:+ NL +:+
  "- Suggest actionable conclusions" +:+ NL.
Definition CODING_PROMPT : string :=
  "You are an expert software engineer and coding assistant. Your role is to:" +:+ NL +:+ NL +:+
  "1. Write clean, efficient, and well-documented code" +:+ NL +:+ "2. Debug issues and provide solutions" +:+ NL +:+
  "3. Review code for best practices and potential improvements" +:+ NL +:+ "4. Explain technical concepts clearly" +:+ NL +:+
  "5. Suggest optimizations and alternative approaches" +:+ NL +:+ NL +:+ "When responding:" +:+ NL +:+
  "- Provide working code examples" +:+ NL +:+ "- Include helpful comments" +:+ NL +:+
  "- Follow language-specific best practices" +:+ NL +:+ "- Explain your reasoning" +:+ NL +:+
  "- Consider edge cases and error handling" +:+ NL +:+ "- Suggest testing approaches" +:+ NL.
Definition research_prompt (use_research : bool) : string := if use_research then RESEARCH_PROMPT +:+ WEB_PROMPT else RESEARCH_PROMPT.

(** ** Requests *)

Record ChatHistoryMessage := History { hm_role : string; hm_content : string }.
Record ChatResearchRequest := CRequest {
  rq_prompt : string; rq_history : list ChatHistoryMessage; rq_use_research : bool; rq_max_tokens : Z; rq_temperature : Q;
  rq_chat_session_id : option string; rq_query_record_id : option string; rq_user_key : option string; rq_assistant_key : option string }.
Definition short (s : option string) : bool := match s with Some s => (String.length s <=? 64)%nat | None => true end.
Definition valid_request (q : ChatResearchRequest) : bool :=
  negb (String.eqb (rq_prompt q) "") && Qle_bool 0 (rq_temperature q) && Qle_bool (rq_temperature q) 1 &&
  short (rq_chat_session_id q) && short (rq_query_record_id q) && short (rq_user_key q) && short (rq_assistant_key q).
(** The conversation the model is given: roles and texts *)
Definition messages_of (q : ChatResearchRequest) : list (string * string) :=
  map (fun m => (if String.eqb (hm_role m) "assistant" then "assistant" else "user", hm_content m)) (rq_history q) ++ [("user", rq_prompt q)].

(** A reply: its blocks, of which some have a text *)
Record claude_reply := Reply { rp_blocks : list (option string); input_tokens : Z; output_tokens : Z; stop_reason : string }.
Definition reply_text (r : claude_reply) : string := foldl (fun s b => match b with Some t => s +:+ t | None => s end) "" (rp_blocks r).
Variant call_outcome := Replied (r : claude_reply) | CallCancelled | CallRaised (e : pyexn).
Record ChatResearchResponse := CResponse { cs_response : string; cs_tokens_used : Z; cs_input : Z; cs_output : Z; cs_stop : string }.

Section routes.
Context {M : Type} `{Mongo M}.
Variable configured : bool.
(** The database and the registry of running tasks *)
Abbreviation world := (env M * tasks)%type.

Definition client_of (x_client_id : option string) : string := strip is_space (default "" x_client_id).
Definition not_configured : pyexn := http_error "503" "Claude API not configured. Please set ANTHROPIC_API_KEY environment variable.".
(** To the call of the model: what it is given *)
Definition claude_begin (q : ChatResearchRequest) (user : string) (x_client_id : option string) (now : Q) (object_id : string) (w : world)
  : result pyexn (list (string * string)) * world :=
  if negb (valid_request q) then (Err (http_error "422" "validation error"), w) else
  if negb configured then (Err not_configured, w) else
  let '(_, e) := persist_user_message (rq_chat_session_id q) (Some user) (Some (client_of x_client_id)) (rq_prompt q) (rq_user_key q) now object_id w.1 in
  (Ok (messages_of q), (e, register_active_task (default "" (rq_query_record_id q)) (RunningTask false false) w.2)).
(** From the end of the call *)
Definition claude_end (q : ChatResearchRequest) (user : string) (x_client_id : option string) (ai_type : string) (out : call_outcome)
  (now now1 now2 : Q) (object_id : string) (w : world) : result pyexn ChatResearchResponse * world :=
  let rid := rq_query_record_id q in
  let free e := (e, unregister_active_task rid w.2) in
  match out with
  | CallCancelled =>
      let '(_, e) := mark_query_cancelled rid "Cancelled by user." now now1 w.1 in (Err (http_error "499" "Request cancelled by user"), free e)
  | CallRaised x =>
      let '(_, e) := mark_query_failed rid (exn_str x) now now1 w.1 in (Err (http_error "500" ("Request failed: " +:+ exn_str x)), free e)
  | Replied r =>
      let '(_, e) := persist_assistant_message (rq_chat_session_id q) (Some user) (Some (client_of x_client_id)) (reply_text r) ai_type "text" None
                       (rq_assistant_key q) now object_id w.1 in
      let '(_, e) := mark_query_completed rid (Some (reply_text r)) None (Some (input_tokens r + output_tokens r)) now1 now2 e in
      (Ok (CResponse (reply_text r) (input_tokens r + output_tokens r) (input_tokens r) (output_tokens r) (stop_reason r)), free e)
  end.
(** The three modes: the prompt of the system and the name the message gets *)
Definition chat_research (q : ChatResearchRequest) : string * string := (research_prompt (rq_use_research q), "claude-research").
Definition chat_thinking : string * string := (THINKING_PROMPT, "claude-thinking").
Definition chat_coding : string * string := (CODING_PROMPT, "claude-coding").
(** Who asks is not looked at. *)
Definition cancel_chat_request (query_record_id : string) (x_client_id : option string) (user : string) (now now' : Q) (w : world)
  : result pyexn bool * world :=
  let '(cancelled, ts) := cancel_active_task query_record_id w.2 in
  let '(_, e) := mark_query_cancelled (Some query_record_id) "Cancelled by user." now now' w.1 in
  (Ok cancelled, (e, ts)).
Definition chat_health (api_key_set : bool) : list (string * pyval) :=
  [("claude_api_configured", PBool configured); ("api_key_set", PBool api_key_set); ("status", PStr (if configured then "healthy" else "not_configured"))].
Definition chat_message (out : result pyexn claude_reply) : result pyexn (string * Z) :=
  if negb configured then Err (http_error "503" "Claude API not configured") else
  match out with
  | Ok r => Ok (reply_text r, input_tokens r + output_tokens r)
  | Err e => Err (if String.eqb (exn_type e) "CancelledError" then e else http_error "500" (exn_str e))
  end.

(** ** How a request ends *)

Definition status_code (x : result pyexn ChatResearchResponse) (code : string) : Prop := exists d, x = Err (http_error code d).
(** However the call of the model ends, the request is answered, with the
    reply, with 499 when it was cancelled, with 500 when it failed, and its
    task is no longer registered; the other tasks are. *)
Theorem claude_request_ends q user x ai out now now1 now2 oid w : 
  let '(y, w') := claude_end q user x ai out now now1 now2 oid w in
  (forall r, rq_query_record_id q = Some r -> r <> "" -> w'.2 !! r = None) /\ (forall r, rq_query_record_id q <> Some r -> w'.2 !! r = w.2 !! r) /\
  match out with
  | Replied r => exists z, y = Ok z /\ cs_response z = reply_text r /\ cs_tokens_used z = cs_input z + cs_output z
  | CallCancelled => status_code y "499"
  | CallRaised _ => status_code y "500"
  end.
Proof.
  assert (forall ts, (forall r, rq_query_record_id q = Some r -> r <> "" -> unregister_active_task (rq_query_record_id q) ts !! r = None) /\
    (forall r, rq_query_record_id q <> Some r -> unregister_active_task (rq_query_record_id q) ts !! r = ts !! r)) as Hu.
  { intros ts. unfold unregister_active_task. destruct (rq_query_record_id q) as [i|]; [|split; [done|done]]. simpl. destruct (String.eqb_spec i "") as [->|Hi]; simpl.
    - split; [intros r [= <-] ?; done|done].
    - split; [intros r [= <-] _; by rewrite lookup_delete_eq|]. intros r Hr. rewrite lookup_delete_ne by congruence. done. }
  unfold claude_end. destruct out as [r| |e].
  - destruct (persist_assistant_message _ _ _ _ _ _ _ _ _ _ _) as [? e1]. destruct (mark_query_completed _ _ _ _ _ _ e1) as [? e2]. destruct (Hu w.2). split_and!; [done|done|by eexists].
  - destruct (mark_query_cancelled _ _ _ _ _) as [? e1]. destruct (Hu w.2). split_and!; [done|done|by eexists].
  - destruct (mark_query_failed _ _ _ _ _) as [? e1]. destruct (Hu w.2). split_and!; [done|done|by eexists].
Qed.
(** The text of the user is the last message the model gets, as it was
    sent; every earlier one is of the user or of the assistant. *)
Theorem claude_messages_last q user x now oid w ms w' : claude_begin q user x now oid w = (Ok ms, w') ->
  last ms = Some ("user", rq_prompt q) /\ Forall (fun m => m.1 = "user" \/ m.1 = "assistant") ms /\ length ms = S (length (rq_history q)).
Proof.
  unfold claude_begin. destruct (negb _); [done|]. destruct (negb configured); [done|]. destruct (persist_user_message _ _ _ _ _ _ _ _) as [? e]. intros [= <- _].
  unfold messages_of. split_and!.
  - by rewrite last_snoc.
  - apply Forall_app. split; [|by repeat constructor]. apply Forall_forall. intros m (h & -> & _)%list_elem_of_fmap. simpl. destruct (String.eqb _ _); auto.
  - rewrite length_app, length_map. simpl. lia.
Qed.
(** A request can be cancelled by anybody who knows the id of its record:
    the task is cancelled whoever the user and the client are. *)
Theorem anybody_cancels r t x user now now' w : w.2 !! r = Some t -> task_done t = false ->
  let '(y, w') := cancel_chat_request r x user now now' w in y = Ok true /\ w'.2 !! r = Some (RunningTask false true).
Proof.
  intros Ht Hd. unfold cancel_chat_request, cancel_active_task. rewrite Ht, Hd. destruct (mark_query_cancelled _ _ _ _ _) as [? e]. simpl. by rewrite lookup_insert_eq.
Qed.
End routes.

(** ** Examples *)

Definition demo_request : ChatResearchRequest := CRequest "what is Rocq" [History "assistant" "hello"] true 4096 (7 # 10) (Some "s1") (Some "r1") None None.
Definition demo_reply : claude_reply := Reply [Some "a prover"; None] 10 20 "end_turn".
Definition demo_w : env mongod * tasks := (demo_records, {["r1" := RunningTask false false]}).
Lemma anybody_cancels_witness : (cancel_chat_request "r1" None "stranger" 5 6 demo_w).1 = Ok true.
Proof.
  pose proof (anybody_cancels "r1" (RunningTask false false) None "stranger" 5 6 demo_w eq_refl eq_refl) as Hc. destruct (cancel_chat_request _ _ _ _ _ _) as [y w']. apply Hc.
Defined.
Lemma claude_messages_last_witness : exists ms, (claude_begin true demo_request "u1" (Some "c1") 5 "m1" demo_w).1 = Ok ms /\ last ms = Some ("user", "what is Rocq").
Proof.
  destruct (claude_begin true demo_request "u1" (Some "c1") 5 "m1" demo_w) as [[ms|e] w'] eqn:E.
  - exists ms. split; [done|]. apply (claude_messages_last true demo_request "u1" (Some "c1") 5 "m1" demo_w ms w' E).
  - exfalso. apply (f_equal (fun x => match x.1 with Ok _ => true | Err _ => false end)) in E. vm_compute in E. discriminate.
Defined.
(** A finished request that is cancelled afterwards, by a user it does not
    belong to, is recorded as cancelled. *)
Theorem cancel_overwrites_completed :
  let w := (claude_end demo_request "u1" (Some "c1") "claude-research" (Replied demo_reply) 5 6 7 "m2" demo_w).2 in
  let w' := (cancel_chat_request "r1" None "stranger" 8 9 w).2 in
  field_of "status" "r1" w.1 = Some (PStr "completed") /\ field_of "result_markdown" "r1" w.1 = Some (PStr "a prover") /\ field_of "status" "r1" w'.1 = Some (PStr "cancelled").
Proof. by vm_compute. Qed.
