(* ===== verification/Html.v ===== *)
(** * Pages as trees

    What an HTML parser gives, with what BeautifulSoup's [find_all], [decompose]
    and [get_text] do on it. *)

From Stdlib Require Import Ascii.
From S2P Require Import Prelude PyStr Json.

(** What the parser gives: texts and elements *)
Unset Elimination Schemes.
Inductive node := NText (s : string) | NElem (tag : string) (attrs : list (string * string)) (children : list node).
Set Elimination Schemes.
Definition tag_in (tags : list string) (t : string) : bool := bool_decide (t ∈ tags).
(** The page without the elements that are decomposed *)
Fixpoint decompose (tags : list string) (n : node) : list node :=
  match n with
  | NText _ => [n]
  | NElem t a cs => if tag_in tags t then [] else [NElem t a (flat_map (decompose tags) cs)]
  end.
(** [find_all]: the elements in the order of the document *)
Fixpoint find_all (tags : list string) (n : node) : list node :=
  match n with
  | NText _ => []
  | NElem t a cs => (if tag_in tags t then [n] else []) ++ flat_map (find_all tags) cs
  end.
Fixpoint strings_of (n : node) : list string := match n with NText s => [s] | NElem _ _ cs => flat_map strings_of cs end.
(** [get_text(strip=True)]: the stripped texts, one after the other *)
Definition glue (l : list string) : string := join "" (List.filter (fun s => negb (String.eqb s "")) (map (strip is_space) l)).
Definition get_text (n : node) : string := glue (strings_of n).

(** ** Texts in order *)

Lemma node_induction (P : node -> Prop) : (forall s, P (NText s)) -> (forall t a cs, Forall P cs -> P (NElem t a cs)) -> forall n, P n.
Proof. intros H1 H2. fix IH 1. intros [s|t a cs]; [apply H1|]. apply H2. induction cs; constructor; auto. Qed.
(** The texts that are not inside an element that is removed *)
Fixpoint visible (tags : list string) (n : node) : list string :=
  match n with NText s => [s] | NElem t _ cs => if tag_in tags t then [] else flat_map (visible tags) cs end.
Lemma flat_map_flat_map {A B C} (f : B -> list C) (g : A -> list B) l : flat_map f (flat_map g l) = flat_map (fun a => flat_map f (g a)) l.
Proof. induction l as [|a l IH]; simpl; [done|]. by rewrite flat_map_app, IH. Qed.
Lemma strings_decompose tags n : flat_map strings_of (decompose tags n) = visible tags n.
Proof.
  induction n as [s|t a cs IH] using node_induction; [done|]. cbn [decompose visible]. destruct (tag_in tags t); [done|]. simpl. rewrite app_nil_r, flat_map_flat_map.
  induction IH as [|c cs Hc Hcs IHcs]; [done|]. simpl. by rewrite Hc, IHcs.
Qed.
Lemma page_visible tags page : flat_map strings_of (flat_map (decompose tags) page) = flat_map (visible tags) page.
Proof. rewrite flat_map_flat_map. induction page as [|n page IH]; [done|]. simpl. by rewrite strings_decompose, IH. Qed.
Lemma infix_flat_map {A B} (f : A -> list B) (l : list A) a mid : a ∈ l -> (exists pre post, f a = pre ++ mid ++ post) ->
  exists pre post, flat_map f l = pre ++ mid ++ post.
Proof.
  intros (l1 & l2 & ->)%list_elem_of_split (pre & post & E). exists (flat_map f l1 ++ pre), (post ++ flat_map f l2).
  rewrite flat_map_app. simpl. by rewrite E, !app_assoc.
Qed.
Lemma find_all_infix tags n m : m ∈ find_all tags n -> exists pre post, strings_of n = pre ++ strings_of m ++ post.
Proof.
  induction n as [s|t a cs IH] using node_induction; cbn [find_all]; [by intros ?%elem_of_nil|]. intros [Hm|Hm]%elem_of_app.
  - destruct (tag_in tags t); [|by apply elem_of_nil in Hm]. apply list_elem_of_singleton in Hm as ->. exists [], []. by rewrite app_nil_r.
  - apply list_elem_of_In, in_flat_map in Hm as (c & Hc & Hm). apply list_elem_of_In in Hc, Hm. rewrite Forall_forall in IH.
    apply (infix_flat_map strings_of cs c); [done|]. by apply IH.
Qed.
Lemma glue_has s l : s ∈ l -> strip is_space s <> "" -> str_in (strip is_space s) (glue l) = true /\ (String.length (strip is_space s) <= String.length (glue l))%nat.
Proof.
  intros Hin Hne. unfold glue. induction l as [|a l IH]; [by apply elem_of_nil in Hin|]. cbn [map List.filter]. apply elem_of_cons in Hin as [<-|Hin].
  - destruct (String.eqb_spec (strip is_space s) ""); [done|]. cbn [negb]. rewrite join_empty_cons, length_app_string. split; [apply str_in_head|lia].
  - destruct (String.eqb (strip is_space a) ""); cbn [negb]; [by apply IH|]. destruct (IH Hin) as [H1 H2]. rewrite join_empty_cons, length_app_string.
    split; [by apply str_in_after|lia].
Qed.
