(* ===== verification/Sources.v ===== *)
(** * The source processors

    document_processor/sources: the readers the processing pipeline takes its
    chunks from, one per type of source.  An asynchronous generator is the list
    of the chunks it yields with the exception that ends it, if one does; the
    pipeline of Processing.v consumes it.  Files, databases, HTTP, the browser, the parsers of
    HTML, PDF, XML and spreadsheets are parameters; the page a parser gives is a
    tree, on which the removal of elements and the collection of text are
    written out.  The durations the readers record are left out (Monitoring.v
    shows that recording them does not raise). *)

From Stdlib Require Import Ascii.
From S2P Require Import Prelude PyStr PyVal PyConv Json Deduplicator Cache Language Translator Models Documents Processing Html.
#[local] Open Scope py_scope.
#[local] Open Scope Z_scope.

(** ** Generators *)

Definition stream : Type := list string * option pyexn.
Definition yields (l : list string) : stream := (l, None).
Definition raises (x : pyexn) : stream := ([], Some x).
Definition chunks_of (s : stream) : list (result pyexn string) := map Ok s.1 ++ match s.2 with Some x => [Err x] | None => [] end.
(** [s] and then [s'], unless [s] ends with an exception *)
Definition followed (l : list string) (s : stream) : stream := (l ++ s.1, s.2).
Definition of_result (r : result pyexn stream) : stream := match r with Ok s => s | Err x => raises x end.
(** [yield f(x)] for the items of an iteration that may itself be cut short *)
Fixpoint yield_each {A} (f : A -> result pyexn string) (l : list A) (last : option pyexn) : stream :=
  match l with
  | [] => ([], last)
  | a :: l' => match f a with Ok s => followed [s] (yield_each f l' last) | Err x => raises x end
  end.

(** ** Paths *)

(** [pathlib.PurePosixPath]: the root, the components without empty ones and
    dots *)
Definition path_parts (p : string) : list string := List.filter (fun c => negb (String.eqb c "" || String.eqb c ".")) (split "/" p).
Definition path_root (p : string) : string :=
  if startswith "///" p then "/" else if startswith "//" p then "//" else if startswith "/" p then "/" else "".
Definition path_str (p : string) : string :=
  let s := path_root p +:+ join "/" (path_parts p) in if String.eqb s "" then "." else s.
Definition path_name (p : string) : string := default "" (last (path_parts p)).
(** From the last dot on, unless it comes first or last *)
Fixpoint last_dot (s : string) : option string :=
  match s with
  | EmptyString => None
  | String c s' => match last_dot s' with Some t => Some t | None => if Ascii.eqb c "." then Some s else None end
  end.
Definition path_suffix (p : string) : string :=
  let name := path_name p in
  match last_dot name with
  | Some t => if String.eqb t name || (String.length t =? 1)%nat then "" else t
  | None => ""
  end.

Section sources.
Context (float_repr : Q -> string) (atom_repr : pyval -> string).
#[local] Abbreviation dumps := (json_dumps float_repr).
#[local] Abbreviation str := (py_str atom_repr).

(** ** Files *)

(** What reading a file gives: the text, the rows of [csv.reader], the texts of
    the elements of an XML document in order, the records of a sheet, the
    paragraphs of a document, the size *)
Record files := Files {
  exists_ : string -> result pyexn bool;
  read_text : string -> result pyexn string;
  csv_rows : string -> result pyexn (list (list string));
  xml_texts : string -> result pyexn (list (option string));
  excel_records : string -> result pyexn (list pyval);
  docx_paragraphs : string -> result pyexn (list string);
  st_size : string -> result pyexn Z }.
Variable fs : files.
Variable chunk_size_bytes : Z.

(** [csv.DictReader]: the first row names the fields, empty rows after it are
    skipped, what is missing is [None], what is too much is a list under the
    key [None], which [json.dumps] writes as "null" *)
Fixpoint zip_row (names row : list string) : list (string * pyval) :=
  match names, row with
  | [], [] => []
  | [], _ => [("null", PList (map PStr row))]
  | n :: names', [] => (n, PNone) :: zip_row names' []
  | n :: names', v :: row' => (n, PStr v) :: zip_row names' row'
  end.
Definition full_row (r : list string) : bool := negb (bool_decide (r = [])).
Definition dict_rows (rows : list (list string)) : list (list (string * pyval)) :=
  match rows with
  | [] => []
  | names :: rows' => map (fun r => dict_of (zip_row names r)) (List.filter full_row rows')
  end.
Definition _read_csv (path : string) : stream :=
  of_result (rows <-! csv_rows fs path; l <-! all_ok (map (fun d => dumps (PDict d)) (dict_rows rows)); Ok (yields l)).
Definition _read_json (path : string) : stream :=
  of_result (text <-! read_text fs path; data <-! json_loads text;
             Ok (match data with PList l => yield_each dumps l None | _ => yield_each dumps [data] None end)).
Definition _read_xml (path : string) : stream :=
  of_result (texts <-! xml_texts fs path;
             Ok (yields (List.filter (fun s => negb (String.eqb s "")) (map (strip is_space) (omap (fun t => t) texts))))).
Definition _read_excel (path : string) : stream := of_result (rs <-! excel_records fs path; Ok (yield_each dumps rs None)).
Definition _read_docx (path : string) : stream :=
  of_result (ps <-! docx_paragraphs fs path; Ok (yields (List.filter (fun p => negb (String.eqb (strip is_space p) "")) ps))).
(** [range(0, len(content), chunk_size)] *)
Definition cut (size : nat) (content : string) : list string :=
  map (fun i => str_take size (str_drop (i * size) content)) (seq 0 ((String.length content + (size - 1)) / size)).
Definition text_chunks (content : string) : stream :=
  if chunk_size_bytes =? 0 then raises (PyExn "ValueError" "range() arg 3 must not be zero")
  else if chunk_size_bytes <? 0 then yields []
  else yields (cut (Z.to_nat chunk_size_bytes) content).
Definition _read_text (path : string) : stream := of_result (content <-! read_text fs path; Ok (text_chunks content)).

Definition FileReadError (m : string) : pyexn := PyExn "FileReadError" m.
Definition file_content (src : SourceDocument) : stream :=
  match source_path src with
  | Some path =>
      if String.eqb path "" then raises (FileReadError "No path provided for file source") else
      match exists_ fs path with
      | Err x => raises x
      | Ok false => raises (FileReadError ("File not found: " +:+ path_str path))
      | Ok true =>
          let suffix := lower (path_suffix path) in
          if String.eqb suffix ".csv" then _read_csv path
          else if String.eqb suffix ".json" then _read_json path
          else if String.eqb suffix ".xml" then _read_xml path
          else if String.eqb suffix ".xlsx" || String.eqb suffix ".xls" then _read_excel path
          else if String.eqb suffix ".docx" then _read_docx path
          else if String.eqb suffix ".txt" then _read_text path
          else raises (FileReadError ("Unsupported file format: " +:+ suffix))
      end
  | None => raises (FileReadError "No path provided for file source")
  end.
Definition file_metadata (src : SourceDocument) : result pyexn (list (string * pyval)) :=
  match source_path src with
  | Some path => size <-! st_size fs path; Ok [("filename", PStr (path_name path)); ("size_bytes", PInt size); ("format", PStr (path_suffix path))]
  | None => Err (PyExn "TypeError" "argument should be a str or an os.PathLike object where __fspath__ returns a str, not 'NoneType'")
  end.

(** ** PDF *)

(** PyMuPDF and Tesseract: the number of pages and the text of a page, the
    images of a file and their texts *)
Record pdf := Pdf {
  page_count : string -> result pyexn nat; page_text : string -> nat -> result pyexn string;
  page_images : string -> result pyexn nat; ocr_text : string -> nat -> result pyexn string }.
Variable mupdf : pdf.
(** The pages that are not blank, up to one that cannot be read *)
Fixpoint read_pages (text : nat -> result pyexn string) (pages : list nat) : stream :=
  match pages with
  | [] => yields []
  | n :: pages' =>
      match text n with
      | Err x => raises x
      | Ok t => if String.eqb (strip is_space t) "" then read_pages text pages' else followed [t] (read_pages text pages')
      end
  end.
Definition _extract_native (path : string) : stream :=
  match page_count mupdf path with Err x => raises x | Ok n => read_pages (page_text mupdf path) (seq 0 n) end.
Definition _extract_ocr (path : string) : stream :=
  match page_images mupdf path with Err x => raises x | Ok n => read_pages (ocr_text mupdf path) (seq 0 n) end.
(** What was yielded before the exception has been consumed. *)
Definition or_else (s s' : stream) : stream :=
  match s.2 with Some x => if CancelledError x then s else followed s.1 s' | None => s end.
Definition PDFProcessingError (m : string) : pyexn := PyExn "PDFProcessingError" m.
Definition pdf_content (src : SourceDocument) : stream :=
  match source_path src with
  | Some path =>
      if String.eqb path "" then raises (PDFProcessingError "No path provided for PDF source") else
      match exists_ fs path with
      | Err x => raises x
      | Ok false => raises (PDFProcessingError ("PDF file not found: " +:+ path_str path))
      | Ok true => or_else (_extract_native (path_str path)) (_extract_ocr (path_str path))
      end
  | None => raises (PDFProcessingError "No path provided for PDF source")
  end.
(** The pages, the title, the author, the subject *)
Definition pdf_metadata (open_ : result pyexn (nat * (option string * option string * option string))) : list (string * pyval) :=
  match open_ with
  | Ok (n, (title, author, subject)) =>
      [("pages", PInt (Z.of_nat n)); ("title", opt_str title); ("author", opt_str author); ("subject", opt_str subject)]
  | Err _ => []
  end.

(** ** Databases *)

(** A value of a MongoDB document *)
Variant bson := BVal (v : pyval) | BObjectId (hex : string).
(** The rows of a query and the documents of a search, as far as they come *)
Record databases := Databases {
  sql_rows : pyval -> list (list (string * pyval)) * option pyexn;
  mongo_find : pyval -> pyval -> pyval -> list (list (string * bson)) * option pyexn }.
Variable dbs : databases.
Variable mongo_database : string.
Definition meta (k : string) (src : SourceDocument) : option pyval := dict_get k (src_metadata src).
Definition DatabaseConnectionError (m : string) : pyexn := PyExn "DatabaseConnectionError" m.
Definition _stream_sql (src : SourceDocument) : stream :=
  let query := default PNone (meta "query" src) in
  if negb (truthy query) then raises (DatabaseConnectionError "No query provided for SQL source")
  else yield_each (fun row => dumps (PDict row)) (sql_rows dbs query).1 (sql_rows dbs query).2.
(** [document["_id"] = str(document["_id"])] *)
Definition bson_str (v : bson) : pyval := PStr (match v with BVal v => str v | BObjectId h => h end).
Fixpoint set_id (d : list (string * bson)) : option (list (string * bson)) :=
  match d with
  | [] => None
  | (k, v) :: d' => if String.eqb k "_id" then Some ((k, BVal (bson_str v)) :: d') else rest ← set_id d'; Some ((k, v) :: rest)
  end.
Definition plain (kv : string * bson) : result pyexn (string * pyval) :=
  match kv.2 with BVal v => Ok (kv.1, v) | BObjectId _ => Err (PyExn "TypeError" "Object of type ObjectId is not JSON serializable") end.
Definition dump_document (d : list (string * bson)) : result pyexn string :=
  match set_id d with
  | None => Err (PyExn "KeyError" "'_id'")
  | Some d => d <-! all_ok (map plain d); dumps (PDict d)
  end.
Definition _stream_nosql (src : SourceDocument) : stream :=
  let db_name := default (PStr mongo_database) (meta "database" src) in
  let collection := default PNone (meta "collection" src) in
  let query := default (PDict []) (meta "query" src) in
  if negb (truthy collection) then raises (DatabaseConnectionError "No collection specified for MongoDB source")
  else yield_each dump_document (mongo_find dbs db_name collection query).1 (mongo_find dbs db_name collection query).2.
Definition database_content (src : SourceDocument) : stream :=
  if bool_decide (source_type src = SQL) then _stream_sql src else _stream_nosql src.
Definition database_metadata (src : SourceDocument) : list (string * pyval) :=
  [("database_type", PStr (SourceType_value (source_type src))); ("query", default (PStr "") (meta "query" src))].

(** ** APIs *)

(** A request: its status and its body read as JSON *)
Record api := Api {
  api_get : string -> pyval -> pyval -> result pyexn (Z * result pyexn pyval);
  api_post : string -> pyval -> pyval -> result pyexn (Z * result pyexn pyval) }.
Variable remote : api.
Definition APIClientError (m : string) : pyexn := PyExn "APIClientError" m.
(** [params["page"] = page] *)
Definition set_page (page : Z) (params : pyval) : result pyexn pyval :=
  match params with
  | PDict d => Ok (PDict (dict_set "page" (PInt page) d))
  | PList _ => Err (PyExn "TypeError" "list indices must be integers or slices, not str")
  | _ => Err (type_error params "does not support item assignment")
  end.
(** [data if isinstance(data, list) else data.get("items", data.get("data", []))] *)
Definition items_of (data : pyval) : result pyexn pyval :=
  match data with
  | PList _ => Ok data
  | _ => other <-! get_attr "data" data; found <-! get_attr "items" data; Ok (default (default (PList []) other) found)
  end.
(** One page: what it yields, and the parameters if there are more *)
Definition rest_page (url : string) (headers : pyval) (page : Z) (params : pyval) : stream * option pyval :=
  let stop s := (s, None) in
  match set_page page params with
  | Err x => stop (raises x)
  | Ok params =>
      match api_get remote url headers params with
      | Err x => stop (raises x)
      | Ok (status, body) =>
          if negb (status =? 200) then stop (raises (APIClientError ("API error: HTTP " +:+ str_int status))) else
          match (data <-! body; items <-! items_of data; Ok (data, items)) with
          | Err x => stop (raises x)
          | Ok (data, items) =>
              if negb (truthy items) then stop (yields []) else
              match iterate items with
              | Err x => stop (raises x)
              | Ok l =>
                  match get_attr "has_more" data with
                  | Err x => stop (map str l, Some x)
                  | Ok more => if truthy (default (PBool false) more) then (yields (map str l), Some params) else stop (yields (map str l))
                  end
              end
          end
      end
  end.
(** [None]: more pages than [fuel] *)
Fixpoint rest_pages (fuel : nat) (url : string) (headers : pyval) (page : Z) (params : pyval) : option stream :=
  match fuel with
  | O => None
  | S fuel' =>
      match rest_page url headers page params with
      | (s, None) => Some s
      | (s, Some params) => rest ← rest_pages fuel' url headers (page + 1) params; Some (followed s.1 rest)
      end
  end.
Definition _query_rest (fuel : nat) (url : string) (src : SourceDocument) : option stream :=
  rest_pages fuel url (default (PDict []) (meta "headers" src)) 1 (default (PDict []) (meta "params" src)).
(** ["errors" in data] *)
Definition has_errors (data : pyval) : result pyexn bool :=
  match data with
  | PDict d => Ok (match dict_get "errors" d with Some _ => true | None => false end)
  | PList l => Ok (bool_decide (PStr "errors" ∈ l))
  | PStr s => Ok (str_in "errors" s)
  | _ => Err (PyExn "TypeError" ("argument of type '" +:+ type_name data +:+ "' is not iterable"))
  end.
Definition graphql_values (d : list (string * pyval)) : list string :=
  flat_map (fun kv => match kv.2 with PList l => map str l | v => [str v] end) d.
Definition _query_graphql (url : string) (src : SourceDocument) : stream :=
  let headers := default (PDict [("Content-Type", PStr "application/json")]) (meta "headers" src) in
  let query := default PNone (meta "query" src) in
  if negb (truthy query) then raises (APIClientError "No GraphQL query provided") else
  match api_post remote url (PDict [("query", query)]) headers with
  | Err x => raises x
  | Ok (status, body) =>
      if negb (status =? 200) then raises (APIClientError ("GraphQL error: HTTP " +:+ str_int status)) else
      of_result (data <-! body; bad <-! has_errors data;
        match data with
        | PDict d =>
            if bad then Err (APIClientError ("GraphQL errors: " +:+ str (default PNone (dict_get "errors" d)))) else
            match default (PDict []) (dict_get "data" d) with
            | PDict r => Ok (yields (graphql_values r))
            | v => Err (attribute_error v "items")
            end
        | PList _ => Err (if bad then PyExn "TypeError" "list indices must be integers or slices, not str" else attribute_error data "get")
        | _ => Err (if bad then PyExn "TypeError" "string indices must be integers, not 'str'" else attribute_error data "get")
        end)
  end.
Definition api_content (fuel : nat) (src : SourceDocument) : option stream :=
  match source_url src with
  | Some url =>
      if String.eqb url "" then Some (raises (APIClientError "No URL provided for API source")) else
      if bool_decide (default (PStr "rest") (meta "api_type" src) = PStr "graphql") then Some (_query_graphql url src)
      else _query_rest fuel url src
  | None => Some (raises (APIClientError "No URL provided for API source"))
  end.
Definition api_metadata (src : SourceDocument) : list (string * pyval) :=
  [("api_type", default (PStr "rest") (meta "api_type" src)); ("url", opt_str (source_url src))].

(** ** Web pages *)

Definition long_texts (removed wanted : list string) (page : list node) : list string :=
  List.filter (fun t => (30 <? String.length t)%nat) (map get_text (flat_map (find_all wanted) (flat_map (decompose removed) page))).
Definition STATIC_REMOVED : list string := ["script"; "style"; "nav"; "footer"; "header"; "aside"].
Definition STATIC_WANTED : list string := ["p"; "div"; "article"; "section"; "h1"; "h2"; "h3"; "li"].
Definition PLAYWRIGHT_REMOVED : list string := ["script"; "style"; "nav"; "footer"; "header"].
Definition PLAYWRIGHT_WANTED : list string := ["p"; "div"; "article"; "section"; "h1"; "h2"].

(** The answer to a request (its status, its text), what starting Playwright,
    launching the browser and opening a page do, the content of the page,
    closing it *)
Record web_env := WebEnv {
  parse_html : string -> list node; http_get : string -> result pyexn (Z * result pyexn string);
  start_playwright : result pyexn unit; launch : result pyexn unit; new_page : result pyexn unit;
  page_content : string -> result pyexn string; close_page : result pyexn unit }.
Record WebScraper := Scraper { w_session : bool; w_playwright : bool; w_browser : bool }.
Definition new_scraper : WebScraper := Scraper false false false.
Definition WebScrapingError (m : string) : pyexn := PyExn "WebScrapingError" m.
Definition _scrape_static (e : web_env) (url : string) (w : WebScraper) : stream * WebScraper :=
  (match http_get e url with
   | Err x => raises x
   | Ok (status, body) =>
       if negb (status =? 200) then raises (WebScrapingError ("HTTP " +:+ str_int status +:+ " for " +:+ url))
       else match body with Err x => raises x | Ok html => yields (long_texts STATIC_REMOVED STATIC_WANTED (parse_html e html)) end
   end, Scraper true (w_playwright w) (w_browser w)).
(** [if not self.playwright: ...] *)
Definition open_browser (e : web_env) (w : WebScraper) : result pyexn unit * WebScraper :=
  if w_playwright w then (Ok (), w) else
  match start_playwright e with
  | Err x => (Err x, w)
  | Ok _ => match launch e with
            | Err x => (Err x, Scraper (w_session w) true (w_browser w))
            | Ok _ => (Ok (), Scraper (w_session w) true true)
            end
  end.
Definition no_browser : pyexn := attribute_error PNone "new_page".
Definition _scrape_playwright (e : web_env) (url : string) (w : WebScraper) : stream * WebScraper :=
  match open_browser e w with
  | (Err x, w) => (raises x, w)
  | (Ok _, w) =>
      (if negb (w_browser w) then raises no_browser else
       match new_page e with
       | Err x => raises x
       | Ok _ =>
           let s := match page_content e url with
                    | Err x => raises x
                    | Ok html => yields (long_texts PLAYWRIGHT_REMOVED PLAYWRIGHT_WANTED (parse_html e html))
                    end in
           match close_page e with Ok _ => s | Err x => (s.1, Some x) end
       end, w)
  end.
Definition web_content (e : web_env) (src : SourceDocument) (w : WebScraper) : stream * WebScraper :=
  match source_url src with
  | Some url =>
      if String.eqb url "" then (raises (WebScrapingError "No URL provided for web source"), w) else
      let '(s, w) := _scrape_static e url w in
      match s.2 with
      | Some x => if CancelledError x then (s, w) else let '(s', w) := _scrape_playwright e url w in (followed s.1 s', w)
      | None => (s, w)
      end
  | None => (raises (WebScrapingError "No URL provided for web source"), w)
  end.
(** The title, the status, the type; the request or the parser may raise *)
Definition web_metadata (answer : result pyexn (option string * Z * option string)) (w : WebScraper) : list (string * pyval) * WebScraper :=
  (match answer with
   | Ok (title, status, ctype) => [("title", opt_str title); ("status_code", PInt status); ("content_type", opt_str ctype)]
   | Err _ => []
   end, Scraper true (w_playwright w) (w_browser w)).

(** ** The processor of a source *)

Variant processor := PWeb | PPdf | PDatabase | PApi | PFile.
Definition processors : list (string * processor) :=
  [("web", PWeb); ("pdf", PPdf); ("sql", PDatabase); ("nosql", PDatabase); ("api", PApi); ("file", PFile)].
Definition can_process (p : processor) (src : SourceDocument) : bool :=
  match p with
  | PWeb => bool_decide (source_type src = WEB) | PPdf => bool_decide (source_type src = PDF)
  | PDatabase => bool_decide (source_type src ∈ [SQL; NOSQL]) | PApi => bool_decide (source_type src = API)
  | PFile => bool_decide (source_type src = FILE)
  end.
Definition processor_of (src : SourceDocument) : option processor :=
  snd <$> List.find (fun kp => String.eqb kp.1 (SourceType_value (source_type src))) processors.
Definition extract_content (fuel : nat) (e : web_env) (p : processor) (src : SourceDocument) (w : WebScraper) : option (stream * WebScraper) :=
  match p with
  | PWeb => Some (web_content e src w)
  | PPdf => Some (pdf_content src, w)
  | PDatabase => Some (database_content src, w)
  | PApi => s ← api_content fuel src; Some (s, w)
  | PFile => Some (file_content src, w)
  end.

(** ** Every source has a processor *)

(** The table of the pipeline has a processor for every type of source, and
    that processor accepts the source: "No processor for ..." is never
    raised. *)
Theorem every_source_has_processor src : exists p, processor_of src = Some p /\ can_process p src = true.
Proof. unfold processor_of, can_process. destruct src as [? [] ? ? ? ? ?]; eexists; (split; [reflexivity|reflexivity]). Qed.

(** ** Text and JSON files *)

Lemma str_take_take_app n m s : str_take n s +:+ str_take m (str_drop n s) = str_take (n + m) s.
Proof. revert s. induction n as [|n IH]; intros [|c s]; simpl; [done|done|by destruct m|]. rewrite app_string_cons. by rewrite IH. Qed.
Lemma str_take_all n s : (String.length s <= n)%nat -> str_take n s = s.
Proof. revert n. induction s as [|c s IH]; intros [|n] Hn; simpl in *; [done|done|lia|]. rewrite IH by lia. done. Qed.
Lemma str_drop_length n s : String.length (str_drop n s) = (String.length s - n)%nat.
Proof. revert s. induction n as [|n IH]; intros [|c s]; simpl; [done..|]. apply IH. Qed.
Lemma concat_snoc l x : join "" (l ++ [x]) = join "" l +:+ x.
Proof.
  induction l as [|a l IH]; [done|]. destruct l as [|b l]; [done|]. change (a +:+ join "" ((b :: l) ++ [x]) = (a +:+ join "" (b :: l)) +:+ x).
  rewrite IH. by rewrite app_string_assoc.
Qed.
Lemma cut_prefix size s k : join "" (map (fun i => str_take size (str_drop (i * size) s)) (seq 0 k)) = str_take (k * size) s.
Proof.
  induction k as [|k IH]; [by destruct s|]. rewrite seq_S, map_app. cbn [map]. rewrite concat_snoc, IH, str_take_take_app. f_equal. lia.
Qed.
Lemma cut_whole size s : (0 < size)%nat -> join "" (cut size s) = s.
Proof.
  intros Hs. unfold cut. rewrite cut_prefix. apply str_take_all.
  pose proof (Nat.div_mod_eq (String.length s + (size - 1)) size). pose proof (Nat.mod_upper_bound (String.length s + (size - 1)) size). nia.
Qed.
Lemma cut_sizes size s : (0 < size)%nat -> Forall (fun c => c <> "" /\ (String.length c <= size)%nat) (cut size s).
Proof.
  intros Hs. unfold cut. apply Forall_map, Forall_forall. intros i [_ Hi]%elem_of_seq. split; [|apply length_str_take].
  assert (i * size < String.length s)%nat as Hlt.
  { pose proof (Nat.div_mod_eq (String.length s + (size - 1)) size). pose proof (Nat.mod_upper_bound (String.length s + (size - 1)) size). nia. }
  pose proof (str_drop_length (i * size) s) as Hd. destruct (str_drop (i * size) s); simpl in *; [lia|]. by destruct size; [lia|].
Qed.

(** A text file is cut, not changed: with a positive chunk size the chunks,
    one after the other, are the content of the file, none is empty and none
    is longer than the chunk size. *)
Theorem text_file_whole src path content : source_path src = Some path -> path <> "" -> exists_ fs path = Ok true ->
  lower (path_suffix path) = ".txt" -> read_text fs path = Ok content -> 0 < chunk_size_bytes ->
  exists l, file_content src = yields l /\ join "" l = content /\ Forall (fun c => c <> "" /\ Z.of_nat (String.length c) <= chunk_size_bytes) l.
Proof.
  intros Hp Hne He Hs Hr Hc. exists (cut (Z.to_nat chunk_size_bytes) content). unfold file_content, _read_text, text_chunks. rewrite Hp, He, Hs, Hr.
  destruct (String.eqb_spec path ""); [done|]. cbn [String.eqb Ascii.eqb Bool.eqb orb of_result rbind].
  destruct (Z.eqb_spec chunk_size_bytes 0); [lia|]. destruct (Z.ltb_spec chunk_size_bytes 0); [lia|]. split; [done|].
  split; [apply cut_whole; lia|]. eapply Forall_impl; [apply cut_sizes; lia|]. cbn. intros c [H1 H2]. split; [done|lia].
Qed.

Lemma yield_each_ok {A} (f : A -> result pyexn string) (P : string -> A -> Prop) l e : Forall (fun a => exists s, f a = Ok s /\ P s a) l ->
  exists ss, yield_each f l e = (ss, e) /\ Forall2 P ss l.
Proof.
  induction 1 as [|a l (s & Hs & HP) Hl (ss & Hy & H2)]; [by exists []|]. exists (s :: ss). cbn [yield_each]. rewrite Hs, Hy. by split; [|constructor].
Qed.
(** A JSON file is read item by item: a file that holds a list yields one
    chunk per item, in order, and a chunk read as JSON is the item again (for
    items without floats and with ASCII texts, which JSON holds exactly). *)
Theorem json_file_items src path text l : source_path src = Some path -> path <> "" -> exists_ fs path = Ok true ->
  lower (path_suffix path) = ".json" -> read_text fs path = Ok text -> json_loads text = Ok (PList l) -> Forall json_safe l ->
  exists ss, file_content src = yields ss /\ Forall2 (fun s v => json_loads s = Ok v) ss l.
Proof.
  intros Hp Hne He Hs Hr Hl Hf. destruct (yield_each_ok dumps (fun s v => json_loads s = Ok v) l None) as (ss & Hy & H2).
  { eapply Forall_impl; [exact Hf|]. intros v Hv. destruct (safe_dumps float_repr v Hv) as [s Hd]. exists s. split; [done|]. by eapply loads_dumps. }
  exists ss. split; [|done]. unfold file_content, _read_json. rewrite Hp, He, Hs, Hr.
  destruct (String.eqb_spec path ""); [done|]. cbn [String.eqb Ascii.eqb Bool.eqb orb of_result rbind]. by rewrite Hl.
Qed.

(** ** PDF files *)

Definition nonblank (t : string) : bool := negb (String.eqb (strip is_space t) "").
Lemma read_pages_ok text pages ts : Forall2 (fun n t => text n = Ok t) pages ts -> read_pages text pages = yields (List.filter nonblank ts).
Proof.
  induction 1 as [|n t pages ts Hn H2 IH]; [done|]. cbn [read_pages List.filter]. rewrite Hn, IH. change (nonblank t) with (negb (String.eqb (strip is_space t) "")). cbn beta.
  by destruct (String.eqb (strip is_space t) "").
Qed.
Lemma read_pages_fails text pages ts n pages' x : Forall2 (fun n t => text n = Ok t) pages ts -> text n = Err x ->
  read_pages text (pages ++ n :: pages') = (List.filter nonblank ts, Some x).
Proof.
  intros H2 Hx. induction H2 as [|m t pages ts Hm H2 IH]; cbn [read_pages List.filter app]; [by rewrite Hx|]. rewrite Hm, IH. change (nonblank t) with (negb (String.eqb (strip is_space t) "")). cbn beta.
  by destruct (String.eqb (strip is_space t) "").
Qed.

(** A PDF file whose pages can be read yields the pages that are not blank,
    in order, each once.  A scanned file, whose pages have no text of their
    own, yields nothing: the pages are not recognised, since only an exception
    leads there. *)
Theorem pdf_pages_in_order src path ts : source_path src = Some path -> path <> "" -> exists_ fs path = Ok true ->
  page_count mupdf (path_str path) = Ok (length ts) -> Forall2 (fun n t => page_text mupdf (path_str path) n = Ok t) (seq 0 (length ts)) ts ->
  pdf_content src = yields (List.filter nonblank ts) /\ (Forall (fun t => nonblank t = false) ts -> pdf_content src = yields []).
Proof.
  intros Hp Hne He Hc Ht. assert (pdf_content src = yields (List.filter nonblank ts)) as Heq.
  { unfold pdf_content. rewrite Hp, He. destruct (String.eqb_spec path ""); [done|]. unfold _extract_native. by rewrite Hc, (read_pages_ok _ _ _ Ht). }
  split; [done|]. intros Hb. rewrite Heq. unfold yields. f_equal.
  clear -Hb. induction Hb as [|t ts Hb _ IH]; [done|]. cbn [List.filter]. by rewrite Hb.
Qed.

(** A file of which a page cannot be read is read twice: the pages before it
    come as text and then all pages come again as they are recognised. *)
Theorem unreadable_page_repeats src path n before k x ocr : source_path src = Some path -> path <> "" -> exists_ fs path = Ok true ->
  page_count mupdf (path_str path) = Ok n -> length before = k -> (k < n)%nat ->
  Forall2 (fun n t => page_text mupdf (path_str path) n = Ok t) (seq 0 k) before ->
  page_text mupdf (path_str path) k = Err x -> CancelledError x = false ->
  page_images mupdf (path_str path) = Ok n -> Forall2 (fun n t => ocr_text mupdf (path_str path) n = Ok t) (seq 0 n) ocr ->
  pdf_content src = yields (List.filter nonblank before ++ List.filter nonblank ocr).
Proof.
  intros Hp Hne He Hc Hl Hk Hb Hx Hcx Hi Ho. unfold pdf_content. rewrite Hp, He. destruct (String.eqb_spec path ""); [done|].
  unfold _extract_native, _extract_ocr. rewrite Hc, Hi, (read_pages_ok _ _ _ Ho).
  replace (seq 0 n) with (seq 0 k ++ k :: seq (S k) (n - k - 1)) at 1.
  - rewrite (read_pages_fails _ _ _ _ _ _ Hb Hx). unfold or_else. cbn [snd fst]. by rewrite Hcx.
  - replace n with (k + S (n - k - 1))%nat at 2 by lia. by rewrite seq_app.
Qed.

(** ** Databases *)

Lemma yield_each_stops {A} (f : A -> result pyexn string) (P : string -> A -> Prop) l a l' x e : Forall (fun a => exists s, f a = Ok s /\ P s a) l ->
  f a = Err x -> exists ss, yield_each f (l ++ a :: l') e = (ss, Some x) /\ Forall2 P ss l.
Proof.
  intros Hl Ha. induction Hl as [|b l (s & Hs & HP) Hl (ss & Hy & H2)]; cbn [yield_each app]; [rewrite Ha; by exists []|].
  exists (s :: ss). rewrite Hs, Hy. by split; [|constructor].
Qed.
Lemma dumps_time_fails d k t : (k, PTime t) ∈ d -> Forall (fun kv => is_ok (dumps kv.2) = true \/ exists t, kv.2 = PTime t) d ->
  dumps (PDict d) = Err (PyExn "TypeError" "Object of type datetime is not JSON serializable").
Proof.
  intros Hin Hd. cbn [json_dumps]. match goal with |- context [all_ok ?l] => assert (all_ok l = Err (PyExn "TypeError" "Object of type datetime is not JSON serializable")) as ->; [|done] end.
  induction Hd as [|kv d Hkv Hd IH]; [by apply elem_of_nil in Hin|]. cbn [map all_ok]. destruct Hkv as [Hok|[t' ->]]; [|done].
  destruct (dumps kv.2) as [s|] eqn:E; [|done]. rewrite IH; [done|]. apply elem_of_cons in Hin as [<-|Hin]; [done|exact Hin].
Qed.

(** A query that selects a date or a time cannot be processed: the rows
    before the first one that has such a value are yielded, readable as JSON
    again, and that row raises. *)
Theorem sql_time_column_raises src query rows row rows' k t e : source_type src = SQL -> meta "query" src = Some query -> truthy query = true ->
  sql_rows dbs query = (rows ++ row :: rows', e) -> Forall (fun r => json_safe (PDict r)) rows ->
  (k, PTime t) ∈ row -> Forall (fun kv => is_ok (dumps kv.2) = true \/ exists t, kv.2 = PTime t) row ->
  exists ss, database_content src = (ss, Some (PyExn "TypeError" "Object of type datetime is not JSON serializable")) /\
    Forall2 (fun s r => json_loads s = Ok (PDict r)) ss rows.
Proof.
  intros Hty Hq Htr Hrows Hsafe Hk Hrow. unfold database_content, _stream_sql. rewrite bool_decide_eq_true_2 by done. rewrite Hq. cbn [default from_option id].
  rewrite Htr, Hrows. cbn [negb fst snd]. apply yield_each_stops; [|by eapply dumps_time_fails].
  eapply Forall_impl; [exact Hsafe|]. intros r Hr. destruct (safe_dumps float_repr _ Hr) as [s Hs]. exists s. split; [done|]. by eapply loads_dumps.
Qed.

(** ** APIs *)

Lemma dict_set_twice k v w d : dict_set k v (dict_set k w d) = dict_set k v d.
Proof. induction d as [|[k' v'] d IH]; simpl; [by rewrite String.eqb_refl|]. destruct (String.eqb k' k) eqn:E; simpl; [by rewrite String.eqb_refl|]. by rewrite E, IH. Qed.
(** Page [i] of an API that answers with an object: its items, and whether
    there are more *)
Definition page_is (url : string) (headers : pyval) (d : list (string * pyval)) (i : Z) (items : list pyval) (more : bool) : Prop :=
  exists b, api_get remote url headers (PDict (dict_set "page" (PInt i) d)) = Ok (200, Ok (PDict b)) /\
    dict_get "items" b = Some (PList items) /\ items <> [] /\ truthy (default (PBool false) (dict_get "has_more" b)) = more.
Lemma rest_page_items url headers d i items more : page_is url headers d i items more ->
  rest_page url headers i (PDict d) = (yields (map str items), if more then Some (PDict (dict_set "page" (PInt i) d)) else None).
Proof.
  intros (b & Hg & Hi & Hne & <-). unfold rest_page, set_page. rewrite Hg. cbn [negb Z.eqb Pos.eqb rbind items_of get_attr]. rewrite Hi.
  cbn [default from_option id]. destruct items as [|v items]; [done|]. cbn [truthy negb iterate get_attr]. by destruct (truthy _).
Qed.
Lemma rest_pages_from url headers d pages i fuel : (length pages <= fuel)%nat -> pages <> [] ->
  (forall j items, pages !! j = Some items -> page_is url headers d (i + Z.of_nat j) items (S j <? length pages)%nat) ->
  forall d', (forall v, dict_set "page" v d' = dict_set "page" v d) ->
  rest_pages fuel url headers i (PDict d') = Some (yields (map str (concat pages))).
Proof.
  revert i fuel. induction pages as [|items pages IH]; intros i fuel Hf Hne Hp d' Hd; [done|]. destruct fuel as [|fuel]; [simpl in Hf; lia|]. cbn [rest_pages].
  rewrite (rest_page_items url headers d' i items (1 <? S (length pages))%nat).
  2:{ unfold page_is. rewrite Hd. specialize (Hp 0%nat items eq_refl). by rewrite Z.add_0_r in Hp. }
  destruct pages as [|items' pages].
  { cbn. by rewrite app_nil_r. }
  cbn [length Nat.ltb Nat.leb]. rewrite IH; [|simpl in *; lia|done| |].
  - cbn [mbind option_bind]. unfold followed, yields. cbn [concat fst snd]. by rewrite !map_app.
  - intros j l Hj. specialize (Hp (S j) l Hj). by replace (i + 1 + Z.of_nat j) with (i + Z.of_nat (S j)) by lia.
  - intros v. by rewrite dict_set_twice.
Qed.

(** C28: a paged API is read to its last page: as long as every answer is an object
    with a list of items that is not empty, the pages are asked for one after
    the other until one says that there are no more, and the source yields
    the items of all pages, in order, and ends. *)
Theorem rest_collects_pages src url d pages fuel : source_url src = Some url -> url <> "" -> meta "api_type" src = None ->
  default (PDict []) (meta "params" src) = PDict d -> pages <> [] -> (length pages <= fuel)%nat ->
  (forall j items, pages !! j = Some items ->
    page_is url (default (PDict []) (meta "headers" src)) d (1 + Z.of_nat j) items (S j <? length pages)%nat) ->
  api_content fuel src = Some (yields (map str (concat pages))).
Proof.
  intros Hu Hne Ha Hd Hp Hf Hpages. unfold api_content, _query_rest. rewrite Hu, Ha, Hd. destruct (String.eqb_spec url ""); [done|].
  rewrite bool_decide_eq_false_2 by done. cbn [default from_option id]. by apply rest_pages_from with d.
Qed.

(** An API that answers with a bare list, which the code provides for, ends
    with an exception: its items are yielded, and then the list is asked for
    [has_more] and has no [get]. *)
Theorem rest_list_answer_raises src url items fuel : source_url src = Some url -> url <> "" -> meta "api_type" src = None ->
  meta "params" src = None -> items <> [] ->
  api_get remote url (default (PDict []) (meta "headers" src)) (PDict [("page", PInt 1)]) = Ok (200, Ok (PList items)) ->
  api_content (S fuel) src = Some (map str items, Some (attribute_error (PList items) "get")).
Proof.
  intros Hu Hne Ha Hd Hi Hg. unfold api_content, _query_rest. rewrite Hu, Ha, Hd. destruct (String.eqb_spec url ""); [done|].
  rewrite bool_decide_eq_false_2 by done. cbn [default from_option id rest_pages]. unfold rest_page. cbn [set_page dict_set].
  rewrite Hg. destruct items; [done|]. reflexivity.
Qed.

(** An API that always says that there are more items is read for ever. *)
Theorem rest_may_not_end src url d item fuel : source_url src = Some url -> url <> "" -> meta "api_type" src = None ->
  default (PDict []) (meta "params" src) = PDict d -> (forall i, page_is url (default (PDict []) (meta "headers" src)) d i [item] true) ->
  api_content fuel src = None.
Proof.
  intros Hu Hne Ha Hd Hp. unfold api_content, _query_rest. rewrite Hu, Ha, Hd. destruct (String.eqb_spec url ""); [done|].
  rewrite bool_decide_eq_false_2 by done. cbn [default from_option id]. generalize 1 as i.
  assert (forall v, dict_set "page" v d = dict_set "page" v d) as Hd' by done. revert Hd'. generalize d at 1 3 as d'.
  induction fuel as [|fuel IH]; intros d' Hd' i; [done|]. cbn [rest_pages].
  rewrite (rest_page_items _ _ _ _ [item] true) by (unfold page_is; rewrite Hd'; apply Hp). cbn [mbind option_bind].
  rewrite IH; [done|]. intros v. by rewrite dict_set_twice.
Qed.

(** ** Web pages *)

Lemma long_text_visible removed wanted page t : t ∈ long_texts removed wanted page ->
  (30 < String.length t)%nat /\ exists pre mid post, flat_map (visible removed) page = pre ++ mid ++ post /\ t = glue mid.
Proof.
  unfold long_texts. intros [Ht Hl]%list_elem_of_In%filter_In. apply Nat.ltb_lt in Hl. split; [done|].
  apply in_map_iff in Ht as (m & <- & Hm). apply in_flat_map in Hm as (n & Hn & Hm). apply list_elem_of_In in Hn, Hm.
  destruct (infix_flat_map strings_of _ n (strings_of m) Hn (find_all_infix _ _ _ Hm)) as (pre & post & E).
  exists pre, (strings_of m), post. by rewrite <- page_visible.
Qed.
(** A page that is answered with 200 is read as it is shown: every chunk is
    longer than 30 characters and is made of consecutive texts of the page, none of
    them inside a script, a style or another part that is removed; and every
    text of more than 30 characters in a block that is wanted is found in a
    chunk. *)
Theorem web_page_read e src url html w : source_url src = Some url -> url <> "" -> http_get e url = Ok (200, Ok html) ->
  exists l, (web_content e src w).1 = yields l /\
    (forall t, t ∈ l -> (30 < String.length t)%nat /\
      exists pre mid post, flat_map (visible STATIC_REMOVED) (parse_html e html) = pre ++ mid ++ post /\ t = glue mid) /\
    (forall m s, m ∈ flat_map (find_all STATIC_WANTED) (flat_map (decompose STATIC_REMOVED) (parse_html e html)) -> s ∈ strings_of m ->
      (30 < String.length (strip is_space s))%nat -> exists t, t ∈ l /\ str_in (strip is_space s) t = true).
Proof.
  intros Hu Hne Hg. exists (long_texts STATIC_REMOVED STATIC_WANTED (parse_html e html)). unfold web_content, _scrape_static. rewrite Hu, Hg.
  destruct (String.eqb_spec url ""); [done|]. cbn [negb Z.eqb Pos.eqb]. split; [done|]. split; [apply long_text_visible|].
  intros m s Hm Hs Hlen. destruct (glue_has s (strings_of m)) as [H1 H2]; [done|by intros E; rewrite E in Hlen; simpl in Hlen; lia|].
  exists (get_text m). split; [|done]. apply list_elem_of_In, filter_In. split; [by apply in_map, list_elem_of_In|]. apply Nat.ltb_lt. unfold get_text. lia.
Qed.

(** Playwright runs and the browser was not launched. *)
Definition stuck (w : WebScraper) : Prop := w_playwright w = true /\ w_browser w = false.
Lemma web_content_stuck e src w : stuck w -> stuck (web_content e src w).2.
Proof.
  intros [Hp Hb]. unfold web_content. destruct (source_url src) as [url|]; [|done]. destruct (String.eqb url ""); [done|].
  destruct (_scrape_static e url w) as [s w1] eqn:E. assert (stuck w1) as [Hp1 Hb1] by (by injection E as _ <-).
  destruct (snd s) as [x|]; [|done]. destruct (CancelledError x); [done|]. unfold _scrape_playwright, open_browser. by rewrite Hp1, Hb1.
Qed.
Definition later_pages (w : WebScraper) (runs : list (web_env * SourceDocument)) : WebScraper :=
  foldl (fun w r => (web_content r.1 r.2 w).2) w runs.

(** A browser that fails to launch is not launched again: after a page whose
    static scraping failed when Playwright started and the browser did not,
    every later page that needs the browser raises an AttributeError, however
    many pages come between and whatever the browser would do by then. *)
Theorem browser_launch_failure_sticks e src url w x runs e' src' url' x' :
  source_url src = Some url -> url <> "" -> http_get e url = Err x -> CancelledError x = false ->
  w_playwright w = false -> w_browser w = false -> start_playwright e = Ok () -> is_ok (launch e) = false ->
  source_url src' = Some url' -> url' <> "" -> http_get e' url' = Err x' -> CancelledError x' = false ->
  (web_content e' src' (later_pages (web_content e src w).2 runs)).1 = raises no_browser.
Proof.
  intros Hu Hne Hg Hc Hp Hb Hs Hl Hu' Hne' Hg' Hc'.
  assert (stuck (web_content e src w).2) as Hst.
  { unfold web_content, _scrape_static. rewrite Hu, Hg. destruct (String.eqb_spec url ""); [done|]. cbn [raises snd]. rewrite Hc.
    unfold _scrape_playwright, open_browser. cbn [w_playwright w_browser]. rewrite Hp, Hs. by destruct (launch e). }
  apply (foldl_invariant (fun w r => (web_content r.1 r.2 w).2) stuck runs) in Hst; [|intros; by apply web_content_stuck].
  fold (later_pages (web_content e src w).2 runs) in Hst. destruct Hst as [H1 H2]. unfold web_content at 1, _scrape_static. rewrite Hu', Hg'.
  destruct (String.eqb_spec url' ""); [done|]. cbn [raises snd]. rewrite Hc'. unfold _scrape_playwright, open_browser. cbn [w_playwright w_browser].
  by rewrite H1, H2.
Qed.

(** ** In the pipeline *)

Context {B : Type} `{BloomFilter B} {R : Type} `{RedisServer R}.
Context (sha256 md5 sha1 : string -> string) (detect : string -> result pyexn (string * Q)) (isoformat : Q -> string) (s : translation_settings).
(** The run of a source, with what its processor yields *)
Definition source_run (e : run_env) (src : SourceDocument) (st : stream) : run_env :=
  Run (match processor_of src with Some p => can_process p src | None => false end) (chunks_of st) (providers e) (t_start e) (t_done e) (t_now e)
    (new_id e) (faults e).
#[local] Abbreviation process := (process_source (B := B) (R := R) sha256 md5 sha1 float_repr detect isoformat s).
Lemma extract_raises l x (d : Dedup.Deduplicator (B := B)) : exists y d', extract sha256 md5 sha1 (chunks_of (l, Some x)) d = (Err y, d').
Proof.
  unfold chunks_of. cbn [fst snd]. revert d. induction l as [|c l IH]; intros d; cbn [map app extract]; [eauto|].
  destruct (Dedup.is_duplicate _ _ _ _ _ _) as [[b|y] d1]; [|eauto]. destruct (IH d1) as (y & d' & ->). eauto.
Qed.
Lemma raising_source_fails e src l x w : exists y, (process src (source_run e src (l, Some x)) w).1 = Err y.
Proof.
  unfold process_source, work. destruct (every_source_has_processor src) as (p & Hp & Hc). unfold source_run at 1. rewrite Hp. cbn [Processing.can_process].
  rewrite Hc. cbn [negb chunks source_run]. destruct (extract_raises l x (w_dedup w)) as (y & d' & ->). cbn. destruct (CancelledError y); eauto.
Qed.

(** An API that answers with a bare list cannot be processed: whatever it
    answers, and whatever the services do, the run of such a source fails. *)
Theorem list_api_source_fails e src url items fuel w : source_url src = Some url -> url <> "" -> meta "api_type" src = None ->
  meta "params" src = None -> items <> [] ->
  api_get remote url (default (PDict []) (meta "headers" src)) (PDict [("page", PInt 1)]) = Ok (200, Ok (PList items)) ->
  exists st y, api_content (S fuel) src = Some st /\ (process src (source_run e src st) w).1 = Err y.
Proof.
  intros Hu Hne Ha Hd Hi Hg. destruct (raising_source_fails e src (map str items) (attribute_error (PList items) "get") w) as [y Hy].
  exists (map str items, Some (attribute_error (PList items) "get")), y. split; [|done].
  unfold api_content, _query_rest. rewrite Hu, Ha, Hd. destruct (String.eqb_spec url ""); [done|].
  rewrite bool_decide_eq_false_2 by done. cbn [default from_option id rest_pages]. unfold rest_page. cbn [set_page dict_set]. rewrite Hg. by destruct items.
Qed.

(** A scanned PDF file cannot be processed: a file whose pages can be opened
    and have no text of their own fails with "No content extracted", although
    the recognition of its pages is there. *)
Theorem scanned_pdf_fails e src path n w : source_path src = Some path -> path <> "" -> exists_ fs path = Ok true ->
  page_count mupdf (path_str path) = Ok n -> (forall k, (k < n)%nat -> page_text mupdf (path_str path) k = Ok "") ->
  (process src (source_run e src (pdf_content src)) w).1 = Err (PyExn "ValueError" "No content extracted").
Proof.
  intros Hp Hne He Hc Ht. assert (pdf_content src = yields []) as ->.
  { unfold pdf_content, _extract_native. rewrite Hp, He, Hc. destruct (String.eqb_spec path ""); [done|].
    rewrite (read_pages_ok _ _ (replicate n "")).
    - unfold or_else, yields. cbn [snd]. f_equal. clear. induction n; [done|]. simpl. done.
    - apply Forall2_lookup. intros i. destruct (decide (i < n)%nat).
      + rewrite lookup_seq_lt, lookup_replicate_2 by done. constructor. by apply Ht.
      + rewrite lookup_seq_ge by lia. rewrite lookup_ge_None_2 by (rewrite length_replicate; lia). constructor. }
  unfold process_source, work. destruct (every_source_has_processor src) as (p & Hpr & Hcp). unfold source_run at 1. rewrite Hpr. cbn [Processing.can_process].
  rewrite Hcp. reflexivity.
Qed.
End sources.

(** ** Concrete sources *)

Definition demo_files : files :=
  Files (fun _ => Ok true) (fun p => Ok (if String.eqb p "/a/b.txt" then "bonjour" else "[1, {}]")) (fun _ => Ok [["a"; "b"]; []; ["1"]; ["2"; "3"; "4"]])
    (fun _ => Ok [Some " x "; None]) (fun _ => Ok []) (fun _ => Ok []) (fun _ => Ok 7).
Definition demo_pdf : pdf := Pdf (fun p => Ok 2%nat) (fun p n => if String.eqb p "/s.pdf" then Ok "" else match n with O => Ok "one" | _ => Err (PyExn "RuntimeError" "broken") end)
  (fun _ => Ok 2%nat) (fun _ n => Ok (if (n =? 0)%nat then "one" else "two")).
Definition demo_dbs : databases := Databases (fun _ => ([[("n", PInt 1)]; [("at", PTime 5)]], None)) (fun _ _ _ => ([], None)).
Definition demo_body (params : pyval) : pyval :=
  match params with
  | PDict [("page", PInt i)] => PDict [("items", PList [PInt i]); ("has_more", PBool (i <? 2))]
  | _ => PNone
  end.
Definition demo_api : api := Api (fun url _ ps => Ok (200, Ok (if String.eqb url "list" then PList [PInt 1] else if String.eqb url "more" then PDict [("items", PList [PInt 1]); ("has_more", PBool true)] else demo_body ps)))
  (fun _ _ _ => Ok (200, Ok (PDict [("data", PDict [("a", PList [PInt 1]); ("b", PStr "x")])]))).
Definition demo_source (t : SourceType) (url path : string) (meta : list (string * pyval)) : SourceDocument := Source "s" t (Some url) (Some path) meta "balanced" 0.
Definition demo_float (_ : Q) : string := "0.5".
Definition demo_atom (_ : pyval) : string := "0.5".
Definition demo_page : list node :=
  [NElem "nav" [] [NElem "p" [] [NText "this is the navigation of the page, which is long"]];
   NElem "div" [] [NElem "p" [] [NText "the first paragraph of the article"]; NElem "p" [] [NText " and the second one"]]].
Definition demo_web (ok : bool) : web_env :=
  WebEnv (fun _ => demo_page) (fun _ => if ok then Ok (200, Ok "") else Err (PyExn "ClientError" "")) (Ok ()) (Err (PyExn "Error" "no browser")) (Ok ())
    (fun _ => Ok "") (Ok ()).

Lemma text_file_whole_witness : exists l, file_content demo_float demo_files 3 (demo_source FILE "" "/a/b.txt" []) = yields l /\ join "" l = "bonjour".
Proof.
  destruct (text_file_whole demo_float demo_files 3 (demo_source FILE "" "/a/b.txt" []) "/a/b.txt" "bonjour") as (l & H1 & H2 & _);
    [reflexivity|done|reflexivity..|]. by exists l.
Defined.
Lemma json_file_items_witness : exists ss, file_content demo_float demo_files 3 (demo_source FILE "" "/x.JSON" []) = yields ss /\
  Forall2 (fun s v => json_loads s = Ok v) ss [PInt 1; PDict []].
Proof.
  apply (json_file_items demo_float demo_files 3 (demo_source FILE "" "/x.JSON" []) "/x.JSON" "[1, {}]"); [reflexivity|done|reflexivity..|].
  repeat constructor.
Defined.
Lemma pdf_pages_in_order_witness : pdf_content demo_files demo_pdf (demo_source PDF "" "/s.pdf" []) = yields [].
Proof.
  apply (pdf_pages_in_order demo_files demo_pdf (demo_source PDF "" "/s.pdf" []) "/s.pdf" [""; ""]); try reflexivity; [done|repeat constructor|repeat constructor].
Defined.
Lemma unreadable_page_repeats_witness : pdf_content demo_files demo_pdf (demo_source PDF "" "/p.pdf" []) = yields ["one"; "one"; "two"].
Proof.
  apply (unreadable_page_repeats demo_files demo_pdf (demo_source PDF "" "/p.pdf" []) "/p.pdf" 2 ["one"] 1 (PyExn "RuntimeError" "broken") ["one"; "two"]);
    try reflexivity; [done|lia|repeat constructor|repeat constructor].
Defined.
Lemma sql_time_column_raises_witness : exists ss,
  (database_content demo_float demo_atom demo_dbs "db" (demo_source SQL "" "" [("query", PStr "select")])).2 =
    Some (PyExn "TypeError" "Object of type datetime is not JSON serializable") /\ Forall2 (fun s r => json_loads s = Ok (PDict r)) ss [[("n", PInt 1)]].
Proof.
  destruct (sql_time_column_raises demo_float demo_atom demo_dbs "db" (demo_source SQL "" "" [("query", PStr "select")]) (PStr "select")
    [[("n", PInt 1)]] [("at", PTime 5)] [] "at" 5 None) as (ss & H1 & H2); try reflexivity.
  - repeat constructor. by intros ?%elem_of_nil.
  - by left.
  - apply Forall_singleton. right. by exists 5%Q.
  - exists ss. by rewrite H1.
Defined.
Lemma rest_collects_pages_witness : api_content demo_atom demo_api 5 (demo_source API "u" "" []) = Some (yields ["1"; "2"]).
Proof.
  rewrite (rest_collects_pages demo_atom demo_api (demo_source API "u" "" []) "u" [] [[PInt 1]; [PInt 2]] 5);
    [reflexivity|reflexivity|done|reflexivity|reflexivity|done|simpl; lia|].
  intros [|[|j]] items Hj; [injection Hj as <-..|done]; (eexists; split_and!; [reflexivity|reflexivity|done|reflexivity]).
Defined.
Lemma rest_list_answer_raises_witness : api_content demo_atom demo_api 1 (demo_source API "list" "" []) =
  Some (["1"], Some (attribute_error (PList [PInt 1]) "get")).
Proof. apply (rest_list_answer_raises demo_atom demo_api (demo_source API "list" "" []) "list" [PInt 1] 0); done || reflexivity. Defined.
Lemma rest_may_not_end_witness : api_content demo_atom demo_api 100 (demo_source API "more" "" []) = None.
Proof.
  apply (rest_may_not_end demo_atom demo_api (demo_source API "more" "" []) "more" [] (PInt 1) 100); try reflexivity; [done|].
  intros i. eexists. split_and!; [reflexivity|reflexivity|done|reflexivity].
Defined.
Lemma web_page_read_witness : exists l, (web_content (demo_web true) (demo_source WEB "u" "" []) new_scraper).1 = yields l /\
  forall t, t ∈ l -> (30 < String.length t)%nat.
Proof.
  destruct (web_page_read (demo_web true) (demo_source WEB "u" "" []) "u" "" new_scraper) as (l & H1 & H2 & _); [reflexivity|done|reflexivity|].
  exists l. split; [done|]. intros t Ht. by apply H2.
Defined.
Lemma browser_launch_failure_sticks_witness :
  (web_content (demo_web false) (demo_source WEB "u" "" []) (web_content (demo_web false) (demo_source WEB "u" "" []) new_scraper).2).1 = raises no_browser.
Proof.
  apply (browser_launch_failure_sticks (demo_web false) (demo_source WEB "u" "" []) "u" new_scraper (PyExn "ClientError" "") []
    (demo_web false) (demo_source WEB "u" "" []) "u" (PyExn "ClientError" "")); done || reflexivity.
Defined.
Lemma list_api_source_fails_witness : exists st y, api_content demo_atom demo_api 1 (demo_source API "list" "" []) = Some st /\
  (process_source id id id demo_float (fun _ => Ok ("fr", 0.9%Q)) sample_iso demo_settings (demo_source API "list" "" [])
     (source_run (demo_run []) (demo_source API "list" "" []) st) demo_world).1 = Err y.
Proof.
  apply (list_api_source_fails demo_float demo_atom demo_api id id id (fun _ => Ok ("fr", 0.9%Q)) sample_iso demo_settings (demo_run [])
    (demo_source API "list" "" []) "list" [PInt 1] 0); done || reflexivity.
Defined.
Lemma scanned_pdf_fails_witness :
  (process_source id id id demo_float (fun _ => Ok ("fr", 0.9%Q)) sample_iso demo_settings (demo_source PDF "" "/s.pdf" [])
     (source_run (demo_run []) (demo_source PDF "" "/s.pdf" []) (pdf_content demo_files demo_pdf (demo_source PDF "" "/s.pdf" []))) demo_world).1 =
  Err (PyExn "ValueError" "No content extracted").
Proof.
  apply (scanned_pdf_fails demo_float demo_files demo_pdf id id id (fun _ => Ok ("fr", 0.9%Q)) sample_iso demo_settings (demo_run [])
    (demo_source PDF "" "/s.pdf" []) "/s.pdf" 2); done || reflexivity.
Defined.

(** The text of a paragraph comes once for itself and once in every block around
    it, where it is glued to what follows. *)
Example nested_text_comes_twice : (web_content (demo_web true) (demo_source WEB "u" "" []) new_scraper).1 =
  yields ["the first paragraph of the articleand the second one"; "the first paragraph of the article"].
Proof. reflexivity. Qed.
(** A row that is short gets [null], one that is long a list under "null". *)
Example csv_rows_read : map json_loads (file_content demo_float demo_files 3 (demo_source FILE "" "t.csv" [])).1 =
  [Ok (PDict [("a", PStr "1"); ("b", PNone)]); Ok (PDict [("a", PStr "2"); ("b", PStr "3"); ("null", PList [PStr "4"])])].
Proof. reflexivity. Qed.
