(* ===== verification/Main.v ===== *)
(** * The application

    document_processor/main.py: the life of the application from start to
    shutdown, the list of allowed origins, and the routes over the processing
    pipeline (Processing.v), its sources (Sources.v) and the documents (Documents.v).  What
    the parts that are started answer, and the outcomes of the runs of a batch,
    are arguments; an exception that is caught is written out as the answer it
    becomes.  The sweeper of the event queues is in ResearchRoutes.v, the
    routers that are included are in the files of their routes. *)

From Stdlib Require Import Ascii.
From S2P Require Import Prelude PyStr PyVal PyConv Deduplicator Cache Language Translator Models Documents Processing Sources.
#[local] Open Scope py_scope.
#[local] Open Scope Z_scope.

(** ** Start and shutdown *)

Variant action :=
| StartPipeline | EnsureIndexes | Bootstrap | InitLocal | StartSweeper | Serve | CancelSweeper | CleanupLocal | StopPipeline.
#[export] Instance action_eq : EqDecision action.
Proof. solve_decision. Defined.

(** What each of them does: the pipeline, the indexes, the tables, the local
    models, the time between start and shutdown, the end of the pipeline *)
Record startup := Startup {
  u_start : result pyexn unit; u_indexes : result pyexn unit; u_bootstrap : result pyexn unit; u_models : result pyexn (list string);
  u_serving : result pyexn unit; u_stop : result pyexn unit }.
(** [try: ... except Exception: log] *)
Definition logged {A} (r : result pyexn A) : result pyexn unit :=
  match r with Ok _ => Ok () | Err x => if CancelledError x then Err x else Ok () end.
(** The models that are installed are only compared and logged. *)
Definition initialize_local_ai (models : result pyexn (list string)) : result pyexn unit := logged models.
(** The statements of the [try] block, each with what it did *)
Fixpoint in_order (steps : list (action * result pyexn unit)) : list action * result pyexn unit :=
  match steps with
  | [] => ([], Ok ())
  | (a, Ok _) :: steps' => let '(tr, r) := in_order steps' in (a :: tr, r)
  | (a, Err x) :: _ => ([a], Err x)
  end.
Definition lifespan (local_ai_available : bool) (u : startup) : list action * result pyexn unit :=
  let '(tr, r) := in_order ([(StartPipeline, u_start u); (EnsureIndexes, logged (u_indexes u)); (Bootstrap, logged (u_bootstrap u))] ++
                            (if local_ai_available then [(InitLocal, initialize_local_ai (u_models u))] else []) ++
                            [(StartSweeper, Ok ()); (Serve, u_serving u)]) in
  (tr ++ (if bool_decide (StartSweeper ∈ tr) then [CancelSweeper] else []) ++ (if local_ai_available then [CleanupLocal] else []) ++ [StopPipeline],
   match u_stop u with Ok _ => r | Err x => Err x end).

(** The application always shuts down.  However far the start comes, and
    whatever fails, the pipeline is stopped last, the local models are
    cleaned up if they are there, and the sweeper is cancelled exactly if it
    was started; requests are served exactly if the pipeline started and nothing was
    cancelled: missing indexes, tables or models do not prevent it. *)
Theorem lifespan_shuts_down local u : let tr := (lifespan local u).1 in
  last tr = Some StopPipeline /\ (CancelSweeper ∈ tr <-> StartSweeper ∈ tr) /\ (CleanupLocal ∈ tr <-> local = true) /\
  (Serve ∈ tr <-> is_ok (u_start u) = true /\ is_ok (logged (u_indexes u)) = true /\ is_ok (logged (u_bootstrap u)) = true /\
                  (local = true -> is_ok (logged (u_models u)) = true)).
Proof.
  intros tr. assert (tr = (lifespan local u).1) as E by done. clearbody tr. revert E. unfold lifespan, initialize_local_ai.
  generalize (logged (u_indexes u)), (logged (u_bootstrap u)), (logged (u_models u)). intros i b m.
  destruct local, (u_start u) as [[]|], i as [[]|], b as [[]|], m as [[]|], (u_serving u) as [[]|];
    intros ->; apply (bool_decide_unpack _); vm_compute; exact I.
Qed.

(** ** Allowed origins *)

Definition DEFAULT_ORIGINS : string := "http://localhost:8000,http://127.0.0.1:8000".
Definition cors_origins (env : option string) : list string :=
  List.filter (fun o => negb (String.eqb o "")) (map (strip is_space) (split "," (default DEFAULT_ORIGINS env))).

Lemma strip_id s : str_forallb (fun c => negb (is_space c)) s = true -> strip is_space s = s.
Proof.
  intros H. unfold strip. assert (lstrip is_space s = s) as ->.
  { destruct s as [|c s]; [done|]. simpl in *. apply andb_true_iff in H as [Hc _]. by destruct (is_space c). }
  induction s as [|c s IH]; [done|]. simpl in *. apply andb_true_iff in H as [Hc Hs]. rewrite IH by done. destruct s; [|done]. by destruct (is_space c).
Qed.
(** The origins that are allowed are the ones that were configured: a list of
    origins, none of them empty and none with a comma or a blank, written with
    commas between them is read back as that list. *)
Theorem cors_origins_read_back l : l <> [] ->
  Forall (fun o => o <> "" /\ char_in "," o = false /\ str_forallb (fun c => negb (is_space c)) o = true) l ->
  cors_origins (Some (join "," l)) = l.
Proof.
  intros Hne Hl. unfold cors_origins. cbn [default from_option id]. rewrite split_join; [|done|eapply Forall_impl; [exact Hl|]; naive_solver].
  induction Hl as [|o l (Ho & _ & Hs) Hl IH]; [done|]. cbn [map List.filter]. rewrite strip_id by done. destruct (String.eqb_spec o ""); [done|]. cbn [negb].
  destruct l; [done|]. by rewrite IH.
Qed.
Lemma cors_origins_read_back_witness : cors_origins (Some "https://a.org,https://b.org") = ["https://a.org"; "https://b.org"].
Proof. apply (cors_origins_read_back ["https://a.org"; "https://b.org"]); [done|repeat constructor; done]. Defined.

(** ** Health *)

(** [StorageManager.health_check]: the connection and the first statement on
    each database *)
Definition storage_health (postgres mongodb : result pyexn unit) : result pyexn (list (string * bool)) :=
  _ <-! logged postgres; _ <-! logged mongodb; Ok [("postgres", is_ok postgres); ("mongodb", is_ok mongodb)].
Record HealthStatus := Health { hs_status : string; hs_components : list (string * bool) }.
Definition health_of (cache_healthy : bool) (postgres mongodb : result pyexn unit) : result pyexn HealthStatus :=
  h <-! storage_health postgres mongodb;
  Ok (Health (if cache_healthy && forallb snd h then "healthy" else "degraded") (("cache", cache_healthy) :: h)).
Definition health_check {R} `{RedisServer R} (postgres mongodb : result pyexn unit) (c : CacheManager R) : result pyexn HealthStatus * CacheManager R :=
  match Cache.health_check c with
  | (Err x, c) => (Err x, c)
  | (Ok cache_healthy, c) => (health_of cache_healthy postgres mongodb, c)
  end.
(** The health route answers, unless it is cancelled, and says "healthy"
    exactly when the cache and both databases answered; otherwise it says
    "degraded", however many of them are down. *)
Theorem health_is_exact {R} `{RedisServer R} postgres mongodb (c : CacheManager R) :
  is_ok (logged postgres) = true -> is_ok (logged mongodb) = true ->
  exists h, (health_check postgres mongodb c).1 = Ok h /\ (hs_status h = "healthy" \/ hs_status h = "degraded") /\
    (hs_status h = "healthy" <-> Forall (fun kb => kb.2 = true) (hs_components h)) /\ map fst (hs_components h) = ["cache"; "postgres"; "mongodb"].
Proof.
  intros Hp Hm. unfold health_check. assert (exists b, (Cache.health_check c).1 = Ok b) as [b Hb].
  { unfold Cache.health_check. destruct (guarded Ping _ false c) as [[b|x] c']; eauto. }
  destruct (Cache.health_check c) as [y c']. cbn [fst] in Hb. subst y. cbn [fst]. unfold health_of, storage_health.
  destruct (logged postgres), (logged mongodb); try done. eexists. split; [reflexivity|]. cbn [hs_status hs_components].
  rewrite !Forall_cons, Forall_nil. destruct b, (is_ok postgres), (is_ok mongodb); cbn;
    (split; [first [by left|by right]|]); (split; [|reflexivity]); (split; [by intros ?|by intros (? & ? & ? & _)]).
Qed.
Lemma health_is_exact_witness : exists h, (health_check (Ok ()) (Err (PyExn "OperationFailure" "")) up_cache).1 = Ok h /\ hs_status h = "degraded".
Proof.
  destruct (health_is_exact (Ok ()) (Err (PyExn "OperationFailure" "")) up_cache) as (h & H1 & _ & _ & _); [reflexivity|reflexivity|].
  exists h. split; [exact H1|]. vm_compute in H1. by injection H1 as <-.
Defined.

(** ** Batches *)

Record http_error := HTTPError { h_status : Z; h_detail : string }.
Record BatchProcessingRequest := BatchRequest { br_sources : list SourceDocument; br_priority : string; br_async : bool }.
Record BatchProcessingResponse := BatchResponse { bs_submitted : Z; bs_estimated_seconds : Q }.
(** The metrics and the batches handed to the background *)
Record app := App { a_metrics : ProcessingMetrics; a_background : list (list SourceDocument) }.
(** The [try] block: what is raised in it becomes a 500. *)
Definition batch_body (q : BatchProcessingRequest) (t1 t2 : Q) (results : list (result pyexn TranslatedDocument)) (ends : list run_done) (a : app)
  : result http_error BatchProcessingResponse * app :=
  let n := zlength (br_sources q) in
  if n =? 0 then (Err (HTTPError 400 "No sources provided"), a)
  else if 10000 <? n then (Err (HTTPError 400 "Maximum batch size is 10000 documents"), a)
  else if br_async q then (Ok (BatchResponse n (inject_Z n * 2)), App (a_metrics a) (a_background a ++ [br_sources q]))
  else (Ok (BatchResponse n 0), App (process_batch t1 t2 results ends (a_metrics a)).2 (a_background a)).
(** [str(HTTPException(status_code, detail))] *)
Definition http_str (e : http_error) : string := str_int (h_status e) +:+ ": " +:+ h_detail e.
Definition process_documents (q : BatchProcessingRequest) (t1 t2 : Q) (results : list (result pyexn TranslatedDocument)) (ends : list run_done) (a : app)
  : result http_error BatchProcessingResponse * app :=
  match validate_sources (br_sources q) with
  | Err x => (Err (HTTPError 422 (exn_str x)), a)
  | Ok _ => match batch_body q t1 t2 results ends a with (Err e, a) => (Err (HTTPError 500 (http_str e)), a) | (Ok r, a) => (Ok r, a) end
  end.
(** A batch that was handed to the background is processed. *)
Definition run_background (t1 t2 : Q) (results : list (result pyexn TranslatedDocument)) (ends : list run_done) (a : app) : app :=
  match a_background a with
  | [] => a
  | _ :: bs => App (process_batch t1 t2 results ends (a_metrics a)).2 bs
  end.
Definition reset_metrics_route (now : Q) (a : app) : app := App (reset_metrics now) (a_background a).

(** A batch of 1 to 10000 sources is accepted and any other is refused with
    422, leaving everything as it was; 400 and 500 are never answered.  The
    answer tells the number of sources and nothing of what became of them:
    it is the same when every one of them failed. *)
Theorem batch_accepted_exactly q t1 t2 results ends a : let n := zlength (br_sources q) in
  if (1 <=? n) && (n <=? 10000) then
    (process_documents q t1 t2 results ends a).1 = Ok (BatchResponse n (if br_async q then inject_Z n * 2 else 0)) /\
    (process_documents q t1 t2 results ends a).2 =
      if br_async q then App (a_metrics a) (a_background a ++ [br_sources q]) else App (process_batch t1 t2 results ends (a_metrics a)).2 (a_background a)
  else exists d, process_documents q t1 t2 results ends a = (Err (HTTPError 422 d), a).
Proof.
  intros n. unfold process_documents, validate_sources, batch_body. destruct (br_sources q) as [|s l] eqn:E; [by eexists|].
  subst n. pose proof (zlength_nonneg l). rewrite zlength_cons. destruct (Z.leb_spec 1 (zlength l + 1)); [|lia].
  destruct (Z.ltb_spec 10000 (zlength l + 1)), (Z.leb_spec (zlength l + 1) 10000); try lia; cbn [andb]; [by eexists|].
  rewrite ?zlength_cons. destruct (Z.eqb_spec (zlength l + 1) 0); [lia|]. destruct (Z.ltb_spec 10000 (zlength l + 1)); [lia|].
  by destruct (br_async q).
Qed.

(** ** Single documents *)

Section single.
Context {B : Type} `{BloomFilter B} {R : Type} `{RedisServer R}.
Context (sha256 md5 sha1 : string -> string) (float_repr : Q -> string) (detect : string -> result pyexn (string * Q)).
Context (isoformat : Q -> string) (parse_datetime : string -> option Q) (s : translation_settings).
#[local] Abbreviation W := (world (B := B) (R := R)).
#[local] Abbreviation process := (process_source (B := B) (R := R) sha256 md5 sha1 float_repr detect isoformat s).
Definition process_single_document (src : SourceDocument) (e : run_env) (w : W) : result (pyexn + http_error) TranslatedDocument * W :=
  match process src e w with
  | (Ok doc, w) => (Ok doc, w)
  | (Err x, w) => (Err (if CancelledError x then inl x else inr (HTTPError 500 (exn_str x))), w)
  end.
Definition get_document_route (fault : option pyexn) (id : string) (w : W) : result http_error TranslatedDocument :=
  match get_document parse_datetime fault id (w_store w) with Some d => Ok d | None => Err (HTTPError 404 "Document not found") end.
(** [/stats]: the metrics and the statistics of the databases *)
Definition stats_route (w : W) : ProcessingMetrics * storage_stats := (w_metrics w, get_statistics (w_store w)).

(** C27: a document that POST /process/single answers with is served by GET
    /document/(its id), exactly as it was answered, once the databases took
    it; the statistics count one document more. *)
Theorem processed_document_served src e w doc w' : (forall t, parse_datetime (isoformat t) = Some t) ->
  process_single_document src e w = (Ok doc, w') -> (save_document isoformat (faults e) doc (w_store w)).1 = true ->
  get_document_route None (doc_id doc) w' = Ok doc /\
  total_documents (stats_route w').2 = total_documents (stats_route w).2 + 1 /\ processed (w_metrics w') = processed (w_metrics w) + 1.
Proof.
  intros Hp Hs Hsave. unfold process_single_document in Hs. destruct (process src e w) as [[d|x] w1] eqn:E; [|done]. injection Hs as -> ->.
  apply process_metrics in E as Hm. destruct Hm as (l & pr & h & ms & Hm).
  apply process_saves in E as [Hl Hst].
  destruct (save_document isoformat (faults e) doc (w_store w)) as [b st] eqn:Es. cbn [fst snd] in *. subst b.
  destruct (saved_document_found isoformat parse_datetime (faults e) doc (w_store w) st Hp Hl Es) as (Hg & _ & Hr).
  unfold get_document_route, stats_route. rewrite Hst, Hg, Hm. split; [done|]. split; [|done]. cbn. by rewrite Hr, zlength_app.
Qed.

(** A document the document database refused is answered all the same, and
    is then not found: its row is there, GET says 404. *)
Theorem unsaved_document_lost src e w doc w' x : process_single_document src e w = (Ok doc, w') -> mongo_fault (faults e) = Some x ->
  find_one (doc_id doc) (mongo_docs (w_store w)) = None ->
  get_document_route None (doc_id doc) w' = Err (HTTPError 404 "Document not found").
Proof.
  intros Hs Hf Hn. unfold process_single_document in Hs. destruct (process src e w) as [[d|y] w1] eqn:E; [|done]. injection Hs as -> ->.
  apply process_saves in E as [_ Hst]. unfold get_document_route, get_document. rewrite Hst. unfold save_document, _save_to_mongo. rewrite Hf.
  unfold _save_to_postgres, rbind. repeat case_match; simplify_eq/=; by rewrite Hn in *.
Qed.
End single.

(** ** Concrete requests *)

Definition demo_single (f : save_faults) :=
  process_single_document id id id (fun _ => "0.9") (fun _ => Ok ("fr", 0.9%Q)) sample_iso demo_settings demo_src
    (Run true french demo_env 10 12 13 "doc-1" f) demo_world.
Definition demo_doc_ok (r : result (pyexn + http_error) TranslatedDocument) : bool :=
  match r with Ok doc => String.eqb (doc_id doc) "doc-1" && (save_document sample_iso (Faults None None) doc (Store [] [])).1 | Err _ => false end.
Lemma demo_single_ok f : f ∈ [Faults None None; Faults None (Some (PyExn "AutoReconnect" ""))] -> exists doc w', demo_single f = (Ok doc, w') /\
  doc_id doc = "doc-1" /\ (save_document sample_iso (Faults None None) doc (Store [] [])).1 = true.
Proof.
  intros Hf. assert (demo_doc_ok (demo_single f).1 = true) as Hok.
  { apply elem_of_cons in Hf as [->|[->|[]%elem_of_nil]%elem_of_cons]; by vm_compute. }
  destruct (demo_single f) as [[doc|x] w']; [|done]. apply andb_true_iff in Hok as [H1%String.eqb_eq H2]. by exists doc, w'.
Qed.
Lemma processed_document_served_witness : exists doc w', demo_single (Faults None None) = (Ok doc, w') /\
  get_document_route (B := Z * gset string) (R := redisd) sample_parse None "doc-1" w' = Ok doc.
Proof.
  destruct (demo_single_ok (Faults None None) ltac:(by left)) as (doc & w' & E & Hid & Hs). exists doc, w'. split; [exact E|]. rewrite <- Hid.
  apply (processed_document_served id id id (fun _ => "0.9") (fun _ => Ok ("fr", 0.9%Q)) sample_iso sample_parse demo_settings demo_src
           (Run true french demo_env 10 12 13 "doc-1" (Faults None None)) demo_world doc w' sample_iso_parse E Hs).
Defined.
Lemma unsaved_document_lost_witness : exists doc w', demo_single (Faults None (Some (PyExn "AutoReconnect" ""))) = (Ok doc, w') /\
  get_document_route (B := Z * gset string) (R := redisd) sample_parse None "doc-1" w' = Err (HTTPError 404 "Document not found").
Proof.
  destruct (demo_single_ok (Faults None (Some (PyExn "AutoReconnect" ""))) ltac:(right; by left)) as (doc & w' & E & Hid & _). exists doc, w'. split; [exact E|]. rewrite <- Hid.
  apply (unsaved_document_lost id id id (fun _ => "0.9") (fun _ => Ok ("fr", 0.9%Q)) sample_iso sample_parse demo_settings demo_src
           (Run true french demo_env 10 12 13 "doc-1" (Faults None (Some (PyExn "AutoReconnect" "")))) demo_world doc w' (PyExn "AutoReconnect" "") E); reflexivity.
Defined.
