(* ===== verification/VectorStore.v ===== *)
(** * The vector store

    local_ai/vector_store/lancedb_store.py: chunks of documents with their
    vectors in a LanceDB table, search by similarity, hybrid search.  The table is
    the typeclass [LanceTable] with its laws, the embedding model a parameter.
    Opening the table and loading the model are left out. *)

From Stdlib Require Import Ascii Qabs.
From S2P Require Import Prelude PyStr PyVal PyConv Chunking.
#[local] Open Scope py_scope.
#[local] Open Scope Z_scope.
#[local] Abbreviation chars_of := String.list_ascii_of_string.

Record DocumentChunk := Chunk {
  v_id : string; v_text : string; v_vector : list Q; v_document : string; v_index : Z; v_source_url : string; v_title : string; v_language : string;
  v_created_at : string; v_word_count : Z; v_char_count : Z; v_hash : string }.

(** A table: rows are added, searched by the distance of their vectors, counted,
    and deleted by an expression of SQL.  [stored] is what the table holds. *)
Class LanceTable (T : Type) := {
  stored : T -> list DocumentChunk;
  distance : list Q -> list Q -> Q;
  table_add : list DocumentChunk -> T -> result pyexn unit * T;
  table_search : list Q -> Z -> T -> result pyexn (list (DocumentChunk * Q));
  table_delete : string -> T -> result pyexn unit * T;
  count_rows : T -> result pyexn Z }.
Definition nearer (a b : DocumentChunk * Q) : Prop := (a.2 <= b.2)%Q.
Definition ranked {T} `{LanceTable T} (q : list Q) (t : T) (s : list (DocumentChunk * Q)) : Prop :=
  s ≡ₚ map (fun r => (r, distance q (v_vector r))) (stored t) /\ StronglySorted nearer s.
Definition QUOTED (id : string) : string := "document_id = '" +:+ id +:+ "'".
Class LanceLaws (T : Type) `{LanceTable T} := {
  add_law : forall l t, match table_add l t with
                        | (Ok _, t') => stored t' = stored t ++ l | (Err _, t') => stored t' = stored t end;
  search_law : forall q n t l, 0 <= n -> table_search q n t = Ok l -> exists s, ranked q t s /\ l = take (Z.to_nat n) s;
  delete_law : forall id t t', char_in "'" id = false -> table_delete (QUOTED id) t = (Ok (), t') ->
                 stored t' = List.filter (fun r => negb (String.eqb (v_document r) id)) (stored t);
  count_law : forall t n, count_rows t = Ok n -> n = zlength (stored t) }.

(** ** Chunks *)

Definition SENTENCE_ENDS : list (list ascii) := map chars_of [". "; "! "; "? "; String "010" (String "010" "")].
Definition vs_chunk_text (fuel : nat) (txt : string) (chunk_size chunk_overlap : Z) : option (list string) :=
  if zlength (chars_of txt) <=? chunk_size then Some [txt] else chunk_loop SENTENCE_ENDS fuel (chars_of txt) chunk_size chunk_overlap 0.

Section store.
Context {T : Type} `{LanceTable T}.
Context (encode : list string -> result pyexn (list (list Q))) (sha256 : string -> string).
Definition embedding_dim : Z := 768.

(** ** Adding *)

(** [enumerate(zip(chunks, embeddings))] *)
Definition record_of (document_id : string) (source_url title language : option string) (timestamp : string) (i : nat) (ce : string * list Q) : DocumentChunk :=
  Chunk (document_id +:+ "_chunk_" +:+ str_int (Z.of_nat i)) ce.1 ce.2 document_id (Z.of_nat i) (default "" source_url) (default "" title) (default "" language)
    timestamp (zlength (split_ws ce.1)) (Z.of_nat (String.length ce.1)) (str_take 16 (sha256 ce.1)).
Definition records_of (document_id : string) (source_url title language : option string) (timestamp : string) (chunks : list string) (embeddings : list (list Q))
  : list DocumentChunk :=
  imap (record_of document_id source_url title language timestamp) (zip chunks embeddings).
Record ingested := Ingested { in_document_id : string; chunks_created : Z; total_chars : Z; in_dim : Z }.
Definition add_document (fuel : nat) (txt document_id : string) (source_url title language : option string) (chunk_size chunk_overlap : Z) (timestamp : string)
  (t : T) : option (result pyexn ingested * T) :=
  chunks ← vs_chunk_text fuel txt chunk_size chunk_overlap;
  Some (match encode chunks with
        | Err x => (Err x, t)
        | Ok embeddings =>
            match table_add (records_of document_id source_url title language timestamp chunks embeddings) t with
            | (Ok _, t) => (Ok (Ingested document_id (zlength chunks) (Z.of_nat (String.length txt)) embedding_dim), t)
            | (Err x, t) => (Err x, t)
            end
        end).

(** ** Searching *)

(** The two last scores are the ones a hybrid search adds, 0 before. *)
Record found := Found { f_chunk : DocumentChunk; f_score : Q; f_vector_score : Q; f_text_score : Q }.
(** The filter expression is not used. *)
Definition search (query : string) (limit : Z) (min_score : Q) (filter_expr : option string) (t : T) : result pyexn (list found) :=
  vectors <-! encode [query];
  match vectors with
  | [] => Err (PyExn "IndexError" "list index out of range")
  | v :: _ =>
      search_results <-! table_search v (limit * 2) t;
      let results := map (fun rd => Found rd.1 (1 - rd.2) 0 0) search_results in
      Ok (py_take limit (sort_desc f_score (List.filter (fun f => Qle_bool min_score (f_score f)) results)))
  end.
Definition terms (s : string) : gset string := list_to_set (split_ws (lower s)).
Definition text_score (query text : string) : Q :=
  py_min 1 (inject_Z (Z.of_nat (size (terms query ∩ terms text))) / inject_Z (Z.max 1 (Z.of_nat (size (terms query))))).
Definition combined (query : string) (vector_weight text_weight : Q) (f : found) : found :=
  let ts := text_score query (v_text (f_chunk f)) in
  Found (f_chunk f) (vector_weight * f_score f + text_weight * ts) (f_score f) ts.
Definition hybrid_search (query : string) (limit : Z) (vector_weight text_weight : Q) (t : T) : result pyexn (list found) :=
  vector_results <-! search query (limit * 2) 0.5 None t;
  Ok (py_take limit (sort_desc f_score (map (combined query vector_weight text_weight) vector_results))).

(** ** Deleting, counting *)

Definition delete_document (document_id : string) (t : T) : result pyexn string * T :=
  match table_delete (QUOTED document_id) t with (Ok _, t) => (Ok document_id, t) | (Err x, t) => (Err x, t) end.
(** The number of chunks, or what is reported as the error *)
Definition get_stats (t : T) : result string Z := match count_rows t with Ok n => Ok n | Err x => Err (exn_str x) end.
End store.

(** ** Chunks cover the text, or there is no end *)

(** The store's chunks cover the text, if every chunk advances: as long as
    each chunk ends more than the overlap behind its start, cutting ends within
    one turn per character and one more, the chunks are the stripped slices
    of the spans it passes, and every character lies in one of them. *)
Theorem store_chunks_cover txt chunk_size chunk_overlap : advances SENTENCE_ENDS (chars_of txt) chunk_size chunk_overlap -> 0 <= chunk_overlap ->
  exists chunks sp, vs_chunk_text (S (String.length txt)) txt chunk_size chunk_overlap = Some chunks /\
    (chunks = [txt] \/ chunks = chunk_texts (chars_of txt) sp /\
      forall i, 0 <= i < zlength (chars_of txt) -> exists a b, (a, b) ∈ sp /\ a <= i < b).
Proof.
  intros Ha Ho. unfold vs_chunk_text. destruct (_ <=? _)%Z; [by exists [txt], []; split; [|left]|].
  destruct (chunk_loop_ends SENTENCE_ENDS (chars_of txt) chunk_size chunk_overlap (S (String.length txt)) 0 Ha Ho) as [-> Hc]; [done| |].
  - unfold zlength. rewrite length_chars_of. lia.
  - eexists _, _. split; [done|]. right. split; [done|exact Hc].
Qed.
(** With the chunk size and overlap the store uses by default, a text whose last full
    stop comes between its 198th and its 998th character and is followed by more
    than 800 characters is cut for ever, and adding the document never
    returns. *)
Theorem store_long_sentence_hangs txt p : let t := chars_of txt in
  200 <= Z.of_nat p + 2 <= 1000 -> Z.of_nat p + 802 < zlength t ->
  occurs (chars_of ". ") t p = true -> (forall j, (p < j)%nat -> occurs (chars_of ". ") t j = false) ->
  forall fuel, vs_chunk_text fuel txt 1000 200 = None.
Proof.
  intros t Hp Hlen Hocc Hno fuel. unfold vs_chunk_text. fold t. destruct (Z.leb_spec (zlength t) 1000) as [Hle|Hgt]; [lia|].
  destruct fuel as [|n]; [done|]. cbn [chunk_loop]. rewrite (proj2 (Z.ltb_lt 0 (zlength t))) by lia. cbv zeta.
  rewrite (chunk_end_stop SENTENCE_ENDS _ 1000 t 0 p eq_refl) by (done || lia).
  rewrite (chunk_loop_stuck _ n); [done|lia|]. rewrite (chunk_end_stop SENTENCE_ENDS _ _ t _ p eq_refl) by (done || lia). lia.
Qed.

(** ** What was added *)

Section facts.
Context {T : Type} `{HL : LanceLaws T}.
Context (encode : list string -> result pyexn (list (list Q))) (sha256 : string -> string).
(** One vector for every text *)
Context (encode_length : forall l vs, encode l = Ok vs -> length vs = length l).

Lemma records_shape id u ti la ts chunks vs : length vs = length chunks ->
  map v_text (records_of sha256 id u ti la ts chunks vs) = chunks /\
  (forall i r, records_of sha256 id u ti la ts chunks vs !! i = Some r ->
     v_document r = id /\ v_index r = Z.of_nat i /\ v_id r = id +:+ "_chunk_" +:+ str_int (Z.of_nat i) /\ vs !! i = Some (v_vector r)).
Proof.
  intros Hl. unfold records_of. split.
  - rewrite <- (fst_zip chunks vs) at 2 by lia. generalize (zip chunks vs). intros l. apply list_eq. intros i.
    rewrite !list_lookup_fmap, list_lookup_imap. by destruct (l !! i).
  - intros i r. rewrite list_lookup_imap. destruct (zip chunks vs !! i) as [[c v]|] eqn:E; [|done]. intros [= <-]. simpl. split_and!; try done.
    by apply lookup_zip_with_Some in E as (c' & v' & [= <- <-] & _ & ?).
Qed.
Lemma length_records id u ti la ts chunks vs : length vs = length chunks -> length (records_of sha256 id u ti la ts chunks vs) = length chunks.
Proof. intros Hl. destruct (records_shape id u ti la ts chunks vs Hl) as [Ht _]. rewrite <- Ht at 2. by rewrite length_map. Qed.

(** A document that is added is in the table: the rows that were there stay,
    and after them comes one row per chunk of the text, in order, numbered from
    0, with the chunk's vector and the document's id; the number that is
    reported is theirs, and the statistics count them. *)
Theorem added_document_stored fuel txt id u ti la size overlap ts t r t' :
  add_document encode sha256 fuel txt id u ti la size overlap ts t = Some (Ok r, t') ->
  exists chunks new, vs_chunk_text fuel txt size overlap = Some chunks /\ stored t' = stored t ++ new /\ map v_text new = chunks /\
    chunks_created r = zlength new /\
    (forall i x, new !! i = Some x -> v_document x = id /\ v_index x = Z.of_nat i) /\
    (forall n, get_stats t' = Ok n -> n = zlength (stored t) + chunks_created r).
Proof.
  unfold add_document. destruct (vs_chunk_text fuel txt size overlap) as [chunks|] eqn:Ec; [|done]. cbn [mbind option_bind].
  destruct (encode chunks) as [vs|x] eqn:Ee; [|done]. apply encode_length in Ee. set (new := records_of sha256 id u ti la ts chunks vs).
  pose proof (add_law new t) as Ha. destruct (table_add new t) as [[[]|x] t1]; [|done]. intros [= <- <-]. exists chunks, new.
  destruct (records_shape id u ti la ts chunks vs Ee) as [Ht Hi]. assert (zlength new = zlength chunks) as Hz.
  { unfold zlength, new. by rewrite (length_records id u ti la ts chunks vs Ee). }
  split_and!; [done|done|done|by cbn; rewrite Hz| |].
  - intros i x Hx. by destruct (Hi i x Hx) as (? & ? & _).
  - intros n. unfold get_stats. destruct (count_rows t1) as [m|] eqn:Em; [|done]. intros [= <-]. apply count_law in Em as ->.
    rewrite Ha, zlength_app. cbn. lia.
Qed.

(** Deleting undoes adding: for a document whose id has no quote and is not
    in the table, deleting it after it was added leaves the rows there were. *)
Theorem added_document_deleted fuel txt id u ti la size overlap ts t r t1 t2 : char_in "'" id = false ->
  Forall (fun x => v_document x <> id) (stored t) ->
  add_document encode sha256 fuel txt id u ti la size overlap ts t = Some (Ok r, t1) -> delete_document id t1 = (Ok id, t2) -> stored t2 = stored t.
Proof.
  intros Hq Hf. unfold add_document. destruct (vs_chunk_text fuel txt size overlap) as [chunks|] eqn:Ec; [|done]. cbn [mbind option_bind].
  destruct (encode chunks) as [vs|x] eqn:Ee; [|done]. apply encode_length in Ee. set (new := records_of sha256 id u ti la ts chunks vs).
  pose proof (add_law new t) as Ha. destruct (table_add new t) as [[[]|x] t1']; [|done]. intros [= <- <-]. unfold delete_document.
  destruct (table_delete (QUOTED id) t1') as [[[]|x] t2'] eqn:Ed; [|done]. intros [= <-]. apply delete_law in Ed; [|done]. rewrite Ed, Ha, List.filter_app.
  assert (List.filter (fun r => negb (String.eqb (v_document r) id)) new = []) as ->.
  { destruct (List.filter _ new) as [|y ys] eqn:E; [done|]. assert (In y (y :: ys)) as Hy by (by left). rewrite <- E in Hy. apply filter_In in Hy as [Hy Hn].
    apply list_elem_of_In, list_elem_of_lookup in Hy as [i Hi]. destruct (records_shape id u ti la ts chunks vs Ee) as [_ Hs].
    destruct (Hs i y Hi) as (Hd & _). rewrite Hd, String.eqb_refl in Hn. done. }
  rewrite app_nil_r. clear -Hf. induction Hf as [|x l Hx Hl IH]; [done|]. cbn [List.filter]. destruct (String.eqb_spec (v_document x) id); [done|]. cbn [negb]. by rewrite IH.
Qed.

(** ** What is found *)

Lemma sort_desc_id {A} (key : A -> Q) l : StronglySorted (key_ge key) l -> sort_desc key l = l.
Proof.
  induction 1 as [|x l Hl IH Hx]; [done|]. change (sort_desc key (x :: l)) with (insert_desc key x (sort_desc key l)). rewrite IH.
  destruct Hx as [|y l Hy _]; [done|]. unfold key_ge in Hy. cbn [insert_desc]. destruct (Qltb_reflect (key x) (key y)); [exfalso; lra|done].
Qed.
(** In a list that falls, those above a bound come first. *)
Lemma filter_above {A} (key : A -> Q) b n l : StronglySorted (key_ge key) l ->
  List.filter (fun x => Qle_bool b (key x)) (take n l) = take n (List.filter (fun x => Qle_bool b (key x)) l).
Proof.
  intros Hs. revert n. induction Hs as [|x l Hl IH Hx]; intros [|n]; [done..|]. cbn [take List.filter]. destruct (Qle_bool_reflect b (key x)) as [Hb|Hb].
  - cbn [take]. by rewrite IH.
  - assert (forall k, List.filter (fun x => Qle_bool b (key x)) (take k l) = []) as Hn.
    { intros k. assert (Forall (fun y => (key y <= key x)%Q) (take k l)) as Hk by (by apply Forall_take).
      induction Hk as [|y l' Hy Hk IHk]; [done|]. cbn [List.filter]. destruct (Qle_bool_reflect b (key y)); [exfalso; lra|done]. }
    rewrite Hn. specialize (Hn (length l)). rewrite take_ge in Hn by done. rewrite Hn. by rewrite take_nil.
Qed.
Definition as_found (rd : DocumentChunk * Q) : found := Found rd.1 (1 - rd.2) 0 0.
Lemma ranked_scores s : StronglySorted nearer s -> StronglySorted (key_ge f_score) (map as_found s).
Proof.
  induction 1 as [|x l Hl IH Hx]; simpl; constructor; [done|]. apply Forall_map. eapply Forall_impl; [exact Hx|]. unfold nearer, key_ge. simpl. intros y Hy. lra.
Qed.

(** C29: a search without a filter expression finds the best rows: when the
    query is encoded and the table answers, the search returns, of all rows of
    the table, ranked by their distance from the query, those whose score (one
    less the distance) is the minimum score or more, the nearest first and no
    more than the limit; that only twice the limit is fetched before scores are
    compared loses nothing.  With a filter expression the code answers the same,
    although its documentation promises to filter: the claim is stated without
    one. *)
Theorem search_finds_best query q vs limit min_score t rs : 0 <= limit -> encode [query] = Ok (q :: vs) -> table_search q (limit * 2) t = Ok rs ->
  exists s, ranked q t s /\
    search encode query limit min_score None t
    = Ok (take (Z.to_nat limit) (List.filter (fun f => Qle_bool min_score (f_score f)) (map (fun rd => Found rd.1 (1 - rd.2) 0 0) s))).
Proof.
  intros Hlim He E. unfold search. rewrite He. cbn [rbind]. rewrite E. cbn [rbind]. apply search_law in E as (s & Hr & ->); [|lia].
  exists s. split; [done|]. destruct Hr as [_ Hs]. apply ranked_scores in Hs. fold as_found.
  change (map (fun rd => Found rd.1 (1 - rd.2) 0 0)) with (map as_found). rewrite <- firstn_map. change (firstn ?n ?l) with (take n l).
  rewrite filter_above by done. rewrite sort_desc_id by (by apply sorted_take, sorted_filter).
  rewrite py_take_nonneg by done. rewrite take_take. repeat f_equal. lia.
Qed.

(** The filter expression is ignored: a search with one answers what the same
    search without one does, rows that the expression excludes included. *)
Theorem filter_expr_ignored query limit min_score e t :
  search encode query limit min_score (Some e) t = search encode query limit min_score None t.
Proof. done. Qed.

(** ** Hybrid search *)

Lemma text_score_unit query text : (0 <= text_score query text <= 1)%Q.
Proof.
  unfold text_score. split; [|apply py_min_le_l]. apply py_min_glb; [lra|]. apply Qle_shift_div_l.
  - change 0%Q with (inject_Z 0). rewrite <- Zlt_Qlt. lia.
  - rewrite Qmult_0_l. change 0%Q with (inject_Z 0). rewrite <- Zle_Qle. lia.
Qed.
Lemma search_scores query limit min_score fe t l : 0 <= limit -> search encode query limit min_score fe t = Ok l -> Forall (fun f => (min_score <= f_score f)%Q) l.
Proof.
  intros Hlim. unfold search. destruct (encode [query]) as [[|q vs]|]; [done| |done]. cbn [rbind]. destruct (table_search q (limit * 2) t) as [rs|]; [|done].
  cbn [rbind]. intros [= <-]. rewrite py_take_nonneg by done. apply Forall_take. rewrite sort_desc_perm. apply Forall_forall.
  intros f [_ Hq]%list_elem_of_In%filter_In. by apply Qle_bool_iff.
Qed.

(** A hybrid search returns no more than the limit, best first; every score is
    the weighted sum of a vector score, which is at least one half, and a text
    score between 0 and 1, the share of the query's words that the chunk
    has. *)
Theorem hybrid_search_scores query limit vector_weight text_weight t l : 0 <= limit -> hybrid_search encode query limit vector_weight text_weight t = Ok l ->
  zlength l <= limit /\ StronglySorted (key_ge f_score) l /\
  Forall (fun f => f_score f = (vector_weight * f_vector_score f + text_weight * f_text_score f)%Q /\ (0.5 <= f_vector_score f)%Q /\
                   f_text_score f = text_score query (v_text (f_chunk f)) /\ (0 <= f_text_score f <= 1)%Q) l.
Proof.
  intros Hlim. unfold hybrid_search. destruct (search encode query (limit * 2) 0.5 None t) as [rs|] eqn:E; [|done]. cbn [rbind]. intros [= <-].
  apply search_scores in E; [|lia]. rewrite py_take_nonneg by done. split_and!.
  - unfold zlength. rewrite length_take. lia.
  - apply sorted_take, sort_desc_sorted.
  - apply Forall_take. rewrite sort_desc_perm. apply Forall_map. eapply Forall_impl; [exact E|]. intros f Hf. cbn.
    pose proof (text_score_unit query (v_text (f_chunk f))). done.
Qed.
End facts.

(** ** A table *)

Definition first_gap (a b : list Q) : Q := Qabs (default 0%Q (head a) - default 0%Q (head b)).
Definition by_distance (q : list Q) (l : list DocumentChunk) : list (DocumentChunk * Q) :=
  sort_desc (fun rd => - rd.2)%Q (map (fun r => (r, first_gap q (v_vector r))) l).
Definition unquote (e : string) : string := str_take (String.length e - 16) (str_drop 15 e).
#[export] Instance list_table : LanceTable (list DocumentChunk) := {
  stored t := t; distance := first_gap; table_add l t := (Ok (), t ++ l); table_search q n t := Ok (take (Z.to_nat n) (by_distance q t));
  table_delete e t := (Ok (), List.filter (fun r => negb (String.eqb (v_document r) (unquote e))) t); count_rows t := Ok (zlength t) }.
Lemma unquote_quoted id : unquote (QUOTED id) = id.
Proof.
  unfold unquote, QUOTED. assert (str_drop 15 ("document_id = '" +:+ id +:+ "'") = id +:+ "'") as -> by done.
  replace (String.length ("document_id = '" +:+ id +:+ "'") - 16)%nat with (String.length id).
  - induction id as [|c id IH]; [done|]. rewrite app_string_cons. simpl. by rewrite IH.
  - change (String.length id = (15 + String.length (id +:+ "'") - 16)%nat). assert (String.length (id +:+ "'") = String.length id + 1)%nat as ->; [|lia].
    induction id as [|c id IH]; [done|]. rewrite app_string_cons. simpl. by rewrite IH.
Qed.
#[export] Instance list_table_laws : LanceLaws (list DocumentChunk).
Proof.
  split; cbn; [done| | |by intros t n [= <-]].
  - intros q n t l _ [= <-]. exists (by_distance q t). split; [|done]. split; [apply sort_desc_perm|].
    unfold by_distance. pose proof (sort_desc_sorted (fun rd : DocumentChunk * Q => - rd.2)%Q (map (fun r => (r, first_gap q (v_vector r))) t)) as Hs.
    induction Hs as [|x l Hl IH Hx]; constructor; [done|]. eapply Forall_impl; [exact Hx|]. unfold key_ge, nearer. intros y Hy. lra.
  - intros id t t' _ [= <-]. by rewrite unquote_quoted.
Qed.
Definition demo_encode (l : list string) : result pyexn (list (list Q)) := Ok (map (fun s => [inject_Z (Z.of_nat (String.length s)) / 10]%Q) l).
Lemma demo_encode_length l vs : demo_encode l = Ok vs -> length vs = length l.
Proof. intros [= <-]. by rewrite length_map. Qed.
Definition demo_hash (s : string) : string := s.
#[local] Abbreviation add := (add_document demo_encode demo_hash 50 "One. Two. Three." "d" None None None 8 2 "now").

Lemma added_document_stored_witness : exists chunks r t', add [] = Some (Ok r, t') /\ map v_text (stored t') = chunks.
Proof.
  destruct (add []) as [[[r|x] t']|] eqn:E; [|by vm_compute in E|by vm_compute in E].
  destruct (added_document_stored demo_encode demo_hash demo_encode_length 50 "One. Two. Three." "d" None None None 8 2 "now" [] r t' E)
    as (chunks & new & _ & Hs & Ht & _). exists chunks, r, t'. split; [done|]. by rewrite Hs.
Defined.
Lemma added_document_deleted_witness : exists r t1, add [] = Some (Ok r, t1) /\ stored (delete_document "d" t1).2 = [].
Proof.
  destruct (add []) as [[[r|x] t1]|] eqn:E; [|by vm_compute in E|by vm_compute in E]. exists r, t1. split; [done|].
  change (stored (delete_document "d" t1).2 = stored ([] : list DocumentChunk)).
  apply (added_document_deleted demo_encode demo_hash demo_encode_length 50 "One. Two. Three." "d" None None None 8 2 "now" [] r t1 (delete_document "d" t1).2);
    [reflexivity|constructor|exact E|reflexivity].
Defined.
Definition demo_row (s : string) : DocumentChunk := Chunk s s [inject_Z (Z.of_nat (String.length s)) / 10]%Q "d" 0 "" "" "" "now" 1 1 "".
Lemma search_finds_best_witness :
  exists s, Permutation s (map (fun r => (r, first_gap [0.2]%Q (v_vector r))) [demo_row "abcd"; demo_row "abc"]) /\
    search demo_encode "ab" 1 0.5 None [demo_row "abcd"; demo_row "abc"]
    = Ok (take 1 (List.filter (fun f => Qle_bool 0.5 (f_score f)) (map (fun rd => Found rd.1 (1 - rd.2) 0 0) s))).
Proof.
  destruct (search_finds_best demo_encode "ab" [2 / 10]%Q [] 1 0.5 [demo_row "abcd"; demo_row "abc"]
    (take 2 (by_distance [2 / 10]%Q [demo_row "abcd"; demo_row "abc"]))) as (s & [Hp _] & E); [lia|reflexivity|reflexivity|].
  exists s. split; [exact Hp|exact E].
Defined.
Lemma hybrid_search_scores_witness : exists l, hybrid_search demo_encode "abc" 2 0.7 0.3 [demo_row "abcd"; demo_row "abc"] = Ok l /\ zlength l <= 2.
Proof.
  destruct (hybrid_search demo_encode "abc" 2 0.7 0.3 [demo_row "abcd"; demo_row "abc"]) as [l|x] eqn:E; [|by vm_compute in E]. exists l. split; [done|].
  by destruct (hybrid_search_scores demo_encode "abc" 2 0.7 0.3 [demo_row "abcd"; demo_row "abc"] l ltac:(lia) E).
Defined.
Lemma store_chunks_cover_witness : exists chunks, vs_chunk_text 4 "abc" 5 2 = Some chunks.
Proof.
  destruct (store_chunks_cover "abc" 5 2) as (chunks & sp & Hc & _); [|lia|by exists chunks].
  intros s Hs. unfold chunk_end. change (zlength _) with 3 in *. rewrite (proj2 (Z.ltb_ge _ _)); lia.
Defined.
Definition demo_long : list ascii := (replicate 300 "a" ++ [".";" "] ++ replicate 1500 "b")%char.
Lemma no_stop_in_b j : occurs (chars_of ". ") (replicate 1500 "b"%char) j = false.
Proof. unfold occurs. rewrite drop_replicate. by destruct (1500 - j)%nat. Qed.
Lemma demo_long_stop j : (300 < j)%nat -> occurs (chars_of ". ") demo_long j = false.
Proof.
  intros Hj. unfold demo_long. destruct (decide (j = 301%nat)) as [->|Hne]; [by vm_compute|].
  unfold occurs. rewrite app_assoc, drop_app_ge by (rewrite length_app, length_replicate; simpl; lia). apply no_stop_in_b.
Qed.
Lemma store_long_sentence_hangs_witness : vs_chunk_text 99 (String.string_of_list_ascii demo_long) 1000 200 = None.
Proof.
  apply (store_long_sentence_hangs (String.string_of_list_ascii demo_long) 300); rewrite ?String.list_ascii_of_string_of_list_ascii; [lia|by vm_compute|by vm_compute|].
  apply demo_long_stop.
Defined.
