(* ===== verification/LocalScraper.v ===== *)
(** * The scraper and the model client of the local research tools

    local_ai/scraping/web_scraper.py: robots.txt, the delay between requests to
    a domain, a page by HTTP or by the browser, its extraction, links; and
    local_ai/ollama_client.py.  The requests, the browser, Trafilatura, the HTML parser,
    [urljoin], the digest and the Ollama client are parameters; a request is
    made where its outcome is looked at.  Starting and closing the browser are
    a flag. *)

From Stdlib Require Import Ascii.
From S2P Require Import Prelude PyStr PyVal PyConv Url Html.
#[local] Open Scope py_scope.
#[local] Open Scope Z_scope.

Definition cancelled (x : pyexn) : bool := String.eqb (exn_type x) "CancelledError".

(** ** robots.txt *)

(** [line.split(':', 1)[1].strip()] of a line that has a colon *)
Definition after_colon (line : string) : string := match split_once ":" line with Some (_, b) => strip is_space b | None => "" end.
Definition for_us (agent : string) : bool := String.eqb agent "*" || str_in "bot" agent.
(** The lines in order; whether the path is allowed *)
Fixpoint robots_lines (url_path : string) (section : bool) (lines : list string) : bool :=
  match lines with
  | [] => true
  | line :: lines' =>
      let line := strip is_space line in
      if startswith "user-agent:" line then robots_lines url_path (for_us (after_colon line)) lines'
      else if section && startswith "disallow:" line then
        let p := after_colon line in
        if negb (String.eqb p "") && startswith p url_path then false else robots_lines url_path section lines'
      else robots_lines url_path section lines'
  end.
Definition NLc : ascii := "010".
Definition robots_allow (content url_path : string) : bool := robots_lines url_path false (split NLc (lower content)).

Section scraper.
Context (bracketed_ok : string -> bool) (delay : Q).
Context (sha256 : string -> string) (urljoin : string -> string -> string).
(** Trafilatura: what it finds in a page; the HTML parser *)
Context (bare_extraction : string -> string -> result pyexn (option (list (string * pyval)))) (parse_html : string -> result pyexn (list node)).

Definition robots_url (p : ParseResult) : string := scheme p +:+ "://" +:+ netloc p +:+ "/robots.txt".
Definition _check_robots_txt (get : string -> result pyexn (Z * string)) (url : string) : result pyexn bool :=
  match (p <-! urlparse bracketed_ok url; r <-! get (robots_url p); Ok (p, r)) with
  | Err x => if cancelled x then Err x else Ok true
  | Ok (p, (status, text)) => Ok (if status =? 200 then robots_allow text (path p) else true)
  end.

(** ** The delay *)

Record AutonomousScraper := Scraper_ { last_request_time : gmap string Q; has_browser : bool }.
(** When the request may be made: [now], or the end of the wait *)
Definition wake (domain : string) (now : Q) (s : AutonomousScraper) : Q :=
  let last := default 0%Q (last_request_time s !! domain) in
  if (now - last <? delay)%py then (now + (delay - (now - last)))%Q else now.
(** [now']: the time after the wait *)
Definition _rate_limit (domain : string) (now' : Q) (s : AutonomousScraper) : AutonomousScraper :=
  Scraper_ (<[domain := now']> (last_request_time s)) (has_browser s).

(** ** A page *)

Definition attr (k : string) (n : node) : option string :=
  match n with NElem _ a _ => snd <$> List.find (fun kv => String.eqb kv.1 k) a | NText _ => None end.
Definition FALLBACK_REMOVED : list string := ["script"; "style"; "nav"; "footer"; "header"].
Definition _fallback_extraction (html : string) : list (string * pyval) :=
  match parse_html html with
  | Err x => [("text", PStr ""); ("title", PStr "")]
  | Ok page =>
      let page := flat_map (decompose FALLBACK_REMOVED) page in
      let all tag := flat_map (find_all [tag]) page in
      let text := join (String NLc "") (List.filter (fun s => negb (String.eqb s "")) (map (strip is_space) (flat_map strings_of page))) in
      let title := match all "title" with t :: _ => join "" (strings_of t) | [] => "" end in
      let description := match List.filter (fun n => bool_decide (attr "name" n = Some "description")) (all "meta") with
                         | m :: _ => default "" (attr "content" m) | [] => "" end in
      [("title", PStr title); ("text", PStr text); ("description", PStr description); ("links", PList (map PStr (omap (attr "href") (all "a"))))]
  end.
(** What the requests and the browser answer *)
Record web := Web {
  w_get : string -> result pyexn (Z * string); w_start : result pyexn unit; w_page : result pyexn unit; w_goto : string -> result pyexn string;
  w_close : result pyexn unit }.
(** The lightweight request: whatever it raises is logged *)
Definition http_fetch (e : web) (url : string) (force_playwright : bool) : result pyexn (option string) :=
  if force_playwright then Ok None else
  match w_get e url with
  | Ok (status, text) => Ok (if status =? 200 then Some text else None)
  | Err x => if cancelled x then Err x else Ok None
  end.
Definition browser_fetch (e : web) (url : string) (s : AutonomousScraper) : result pyexn string * AutonomousScraper :=
  match (if has_browser s then Ok () else w_start e) with
  | Err x => (Err x, s)
  | Ok _ =>
      (_ <-! w_page e; match w_close e with Ok _ => w_goto e url | Err x => Err x end, Scraper_ (last_request_time s) true)
  end.
Definition fetch_html (e : web) (url : string) (force_playwright : bool) (s : AutonomousScraper) : result pyexn (string * string) * AutonomousScraper :=
  match http_fetch e url force_playwright with
  | Err x => (Err x, s)
  | Ok html =>
      if truthy_str html then (Ok (default "" html, "httpx"), s)
      else let '(r, s) := browser_fetch e url s in (html <-! r; Ok (html, "playwright"), s)
  end.
Definition text_of (d : list (string * pyval)) : string := match dict_get "text" d with Some (PStr s) => s | _ => "" end.
Definition extract_html (html url : string) : result pyexn (list (string * pyval)) :=
  found <-! bare_extraction html url;
  Ok (match found with
      | Some d => if truthy (default PNone (dict_get "text" d)) then d else _fallback_extraction html
      | None => _fallback_extraction html
      end).
Definition page_dict (url method fetched_at : string) (d : list (string * pyval)) : list (string * pyval) :=
  let or v k := default v (dict_get k d) in
  [("success", PBool true); ("url", PStr url); ("title", or (PStr "") "title"); ("author", or PNone "author"); ("date", or PNone "date");
   ("text", or (PStr "") "text"); ("links", or (PList []) "links"); ("images", or (PList []) "images"); ("language", or PNone "language");
   ("content_hash", PStr (str_take 16 (sha256 (text_of d)))); ("method", PStr method); ("fetched_at", PStr fetched_at);
   ("word_count", PInt (zlength (split_ws (text_of d))))].
Definition failed_page (url error : string) : list (string * pyval) :=
  [("success", PBool false); ("url", PStr url); ("error", PStr error); ("content", PNone)].
(** The statements of the [try] block *)
Definition scrape_body (e : web) (url : string) (force_playwright : bool) (now' : Q) (fetched_at : string) (s : AutonomousScraper)
  : result pyexn (list (string * pyval)) * AutonomousScraper :=
  match _check_robots_txt (w_get e) url with
  | Err x => (Err x, s)
  | Ok false => (Ok (failed_page url "Disallowed by robots.txt"), s)
  | Ok true =>
      match urlparse bracketed_ok url with
      | Err x => (Err x, s)
      | Ok p =>
          let '(r, s) := fetch_html e url force_playwright (_rate_limit (netloc p) now' s) in
          (hm <-! r; d <-! extract_html hm.1 url; Ok (page_dict url hm.2 fetched_at d), s)
      end
  end.
Definition scrape_url (e : web) (url : string) (force_playwright : bool) (now' : Q) (fetched_at : string) (s : AutonomousScraper)
  : result pyexn (list (string * pyval)) * AutonomousScraper :=
  match scrape_body e url force_playwright now' fetched_at s with
  | (Err x, s) => (if cancelled x then Err x else Ok (failed_page url (exn_str x)), s)
  | r => r
  end.
(** The outcomes of the tasks, in the order of the addresses; a cancellation is
    no [Exception] and stays in the list as it is *)
Definition processed_result (ur : string * result pyexn (list (string * pyval))) : result pyexn (list (string * pyval)) :=
  match ur.2 with
  | Ok d => Ok d
  | Err x => if cancelled x then Err x else Ok [("success", PBool false); ("url", PStr ur.1); ("error", PStr (exn_str x))]
  end.
Definition scrape_multiple (outcomes : list (string * result pyexn (list (string * pyval)))) : list (result pyexn (list (string * pyval))) :=
  map processed_result outcomes.

(** ** Links *)

Definition absolute_link (url base_domain : string) (same_domain_only : bool) (link : pyval) : result pyexn (option string) :=
  match link with
  | PStr l =>
      let a := urljoin url l in
      p <-! urlparse bracketed_ok a;
      Ok (if bool_decide (scheme p ∈ ["http"; "https"]) && (negb same_domain_only || String.eqb (netloc p) base_domain) then Some a else None)
  | _ => Err (PyExn "TypeError" "Cannot mix str and non-str arguments")
  end.
Fixpoint absolute_links (url base_domain : string) (same_domain_only : bool) (links : list pyval) : result pyexn (list string) :=
  match links with
  | [] => Ok []
  | l :: links' =>
      o <-! absolute_link url base_domain same_domain_only l; rest <-! absolute_links url base_domain same_domain_only links';
      Ok (match o with Some a => a :: rest | None => rest end)
  end.
(** The set of links of a page that was scraped *)
Definition extract_links (url : string) (same_domain_only : bool) (page : list (string * pyval)) : result pyexn (gset string) :=
  if negb (truthy (default PNone (dict_get "success" page))) then Ok ∅ else
  links <-! iterate (default (PList []) (dict_get "links" page));
  p <-! urlparse bracketed_ok url;
  l <-! absolute_links url (netloc p) same_domain_only links;
  Ok (list_to_set l).
End scraper.

(** ** What robots.txt forbids *)

Definition agent_line (l : string) : bool := startswith "user-agent:" (strip is_space l).
Definition names_us (l : string) : bool := agent_line l && for_us (after_colon (strip is_space l)).
Definition forbids (url_path l : string) : bool :=
  negb (agent_line l) && startswith "disallow:" (strip is_space l) &&
  negb (String.eqb (after_colon (strip is_space l)) "") && startswith (after_colon (strip is_space l)) url_path.
(** A line that forbids the path, with no line of an agent before it *)
Definition rule_ahead (url_path : string) (lines : list string) : Prop :=
  exists mid d post, lines = mid ++ d :: post /\ Forall (fun l => agent_line l = false) mid /\ forbids url_path d = true.
Definition rule_somewhere (url_path : string) (lines : list string) : Prop :=
  exists pre a rest, lines = pre ++ a :: rest /\ names_us a = true /\ rule_ahead url_path rest.
Lemma rule_ahead_cons url_path l lines : rule_ahead url_path (l :: lines) <-> forbids url_path l = true \/ agent_line l = false /\ rule_ahead url_path lines.
Proof.
  split.
  - intros ([|m mid] & d & post & E & Hm & Hd); injection E as <- ->; [by left|]. apply Forall_cons in Hm as [Hl Hm]. right. split; [done|]. by exists mid, d, post.
  - intros [Hf|[Hl (mid & d & post & -> & Hm & Hd)]]; [by exists [], l, lines|]. exists (l :: mid), d, post. split_and!; [done|by constructor|done].
Qed.
Lemma rule_somewhere_cons url_path l lines : rule_somewhere url_path (l :: lines) <-> names_us l = true /\ rule_ahead url_path lines \/ rule_somewhere url_path lines.
Proof.
  split.
  - intros ([|p pre] & a & rest & E & Ha & Hr); injection E as <- ->; [by left|]. right. by exists pre, a, rest.
  - intros [[Hn Hr]|(pre & a & rest & -> & Ha & Hr)]; [by exists [], l, lines|]. by exists (l :: pre), a, rest.
Qed.
Lemma robots_lines_spec url_path section lines : robots_lines url_path section lines = false <->
  section = true /\ rule_ahead url_path lines \/ rule_somewhere url_path lines.
Proof.
  revert section. induction lines as [|l lines IH]; intros section.
  { split; [done|]. intros [[_ (mid & ? & ? & E & _)]|(pre & ? & ? & E & _)]; [by destruct mid|by destruct pre]. }
  rewrite rule_ahead_cons, rule_somewhere_cons. cbn [robots_lines]. unfold names_us, forbids. fold (agent_line l).
  destruct (agent_line l); cbn [negb andb].
  - rewrite IH. intuition congruence.
  - destruct section; cbn [andb]; [|rewrite IH; intuition congruence].
    destruct (startswith "disallow:" _); cbn [andb]; [|rewrite IH; intuition congruence].
    destruct (negb _ && startswith _ _) eqn:E; [|rewrite IH; intuition congruence]. intuition congruence.
Qed.

(** A path is refused exactly if a rule forbids it: if the text, in lower case,
    has a line that names every agent or a bot, and later, before the next line
    that names an agent, a line that disallows a prefix of the path. *)
Theorem robots_allow_exact content url_path : robots_allow content url_path = false <-> rule_somewhere url_path (split NLc (lower content)).
Proof. unfold robots_allow. rewrite robots_lines_spec. intuition congruence. Qed.

(** ** Rules as they are written *)

(** A line "key: value", the key in capitals or not, with blanks after it *)
Definition directive (key value l : string) : Prop :=
  exists k w, l = k +:+ ": " +:+ value +:+ w /\ lower k = key /\ str_forallb is_space w = true /\
    value <> "" /\ lstrip is_space value = value /\ rstrip is_space value = value.
Lemma lower_app a b : lower (a +:+ b) = lower a +:+ lower b.
Proof. induction a as [|c a IH]; [done|]. rewrite !app_string_cons. simpl. by rewrite IH. Qed.
Lemma lower_space c : is_space (lower_char c) = is_space c.
Proof. by destruct c as [[] [] [] [] [] [] [] []]. Qed.
Lemma lstrip_lower s : lstrip is_space (lower s) = lower (lstrip is_space s).
Proof. induction s as [|c s IH]; [done|]. simpl. rewrite lower_space. by destruct (is_space c). Qed.
Lemma rstrip_lower s : rstrip is_space (lower s) = lower (rstrip is_space s).
Proof. induction s as [|c s IH]; [done|]. simpl. rewrite lower_space, IH. by destruct (rstrip is_space s); [destruct (is_space c)|]. Qed.
Lemma rstrip_blank f w : str_forallb f w = true -> rstrip f w = "".
Proof. induction w as [|c w IH]; [done|]. simpl. intros [Hc Hw]%andb_true_iff. by rewrite IH, Hc. Qed.
Lemma rstrip_app_blank f a w : str_forallb f w = true -> rstrip f (a +:+ w) = rstrip f a.
Proof. intros Hw. induction a as [|c a IH]; [by apply rstrip_blank|]. rewrite app_string_cons. simpl. by rewrite IH. Qed.
Lemma rstrip_app_keep f a v : v <> "" -> rstrip f v = v -> rstrip f (a +:+ v) = a +:+ v.
Proof.
  intros Hv Hr. induction a as [|c a IH]; [done|]. rewrite app_string_cons. simpl. rewrite IH. destruct (a +:+ v) eqn:E; [|done].
  by destruct a, v.
Qed.
Lemma split_go_lower s cur : split_go NLc (lower cur) (lower s) = map lower (split_go NLc cur s).
Proof.
  revert cur. induction s as [|c s IH]; intros cur; [done|]. cbn [lower split_go]. assert (Ascii.eqb NLc (lower_char c) = Ascii.eqb NLc c) as -> by (by destruct c as [[] [] [] [] [] [] [] []]).
  destruct (Ascii.eqb NLc c); cbn [map]; [by rewrite <- (IH "")|]. rewrite <- IH, lower_app. done.
Qed.
(** The scraper sees the key and the value, both in lower case. *)
Lemma directive_seen key c key' value l : key = String c key' -> is_space c = false -> char_in ":" key = false -> directive key value l ->
  strip is_space (lower l) = key +:+ ":" +:+ " " +:+ lower value /\ after_colon (strip is_space (lower l)) = lower value.
Proof.
  intros Hk Hc Hn (k & w & -> & Hl & Hw & Hv & Hls & Hrs).
  assert (strip is_space (lower (k +:+ ": " +:+ value +:+ w)) = key +:+ ":" +:+ " " +:+ lower value) as E.
  { rewrite !lower_app, Hl. change (lower ": ") with (":" +:+ " "). unfold strip.
    replace (key +:+ (":" +:+ " ") +:+ lower value +:+ lower w) with ((key +:+ ":" +:+ " " +:+ lower value) +:+ lower w) by (by rewrite !app_string_assoc).
    assert (forall r, lstrip is_space (key +:+ r) = key +:+ r) as Hh by (intros r; subst key; rewrite app_string_cons; simpl; by rewrite Hc).
    rewrite app_string_assoc, Hh, <- app_string_assoc, rstrip_app_blank
      by (apply lower_forallb; [intros x; by rewrite lower_space|done]).
    replace (key +:+ ":" +:+ " " +:+ lower value) with ((key +:+ ":" +:+ " ") +:+ lower value) by (by rewrite !app_string_assoc).
    apply rstrip_app_keep; [by destruct value|]. by rewrite rstrip_lower, Hrs. }
  split; [exact E|]. rewrite E. unfold after_colon. change (":" +:+ " " +:+ lower value) with (String ":" (String " " (lower value))).
  rewrite split_once_app by done. unfold strip. change (lstrip is_space (String " " (lower value))) with (lstrip is_space (lower value)).
  by rewrite lstrip_lower, Hls, rstrip_lower, Hrs.
Qed.
Lemma agent_directive v l : directive "user-agent" v l -> v = "*" \/ str_in "bot" (lower v) = true -> names_us (lower l) = true.
Proof.
  intros H Hv. destruct (directive_seen "user-agent" "u" "ser-agent" v l eq_refl eq_refl eq_refl H) as [E Ea]. unfold names_us, agent_line. rewrite Ea, E.
  apply andb_true_iff. split; [by destruct (lower v)|]. unfold for_us. destruct Hv as [->|Hv]; [done|]. by rewrite Hv, orb_true_r.
Qed.
Lemma disallow_directive q url_path l : directive "disallow" q l -> lower q = q -> startswith q url_path = true -> forbids url_path (lower l) = true.
Proof.
  intros H Hl Hp. assert (q <> "") as Hq by (by destruct H as (? & ? & _ & _ & _ & ? & _)).
  destruct (directive_seen "disallow" "d" "isallow" q l eq_refl eq_refl eq_refl H) as [E Ea]. unfold forbids, agent_line. rewrite Ea, E, Hl, Hp.
  assert (forall r, startswith "user-agent:" ("disallow" +:+ ":" +:+ r) = false) as -> by done.
  assert (forall r, startswith "disallow:" ("disallow" +:+ ":" +:+ r) = true) as -> by (by intros []).
  by destruct (String.eqb_spec q "").
Qed.
Lemma prefix_rstrip f b s : String.prefix b (rstrip f s) = true -> String.prefix b s = true.
Proof.
  revert s. induction b as [|x b IH]; intros [|c s] Hs; try done. cbn [rstrip] in Hs.
  destruct (rstrip f s) as [|d r] eqn:Er; [destruct (f c); [done|]|]; cbn [String.prefix] in *; (destruct (ascii_dec x c); [|done]); apply IH; by rewrite Er.
Qed.
Lemma str_in_rstrip f a s : str_in a (rstrip f s) = true -> str_in a s = true.
Proof.
  induction s as [|c s IH]; [done|]. cbn [str_in]. intros Hs. apply orb_true_iff.
  destruct (String.prefix a (rstrip f (String c s))) eqn:Ep; [left; by eapply prefix_rstrip|right]. apply IH.
  cbn [rstrip] in Hs, Ep. destruct (rstrip f s) as [|d r]; [destruct (f c); [done|]|]; cbn [str_in] in Hs; by rewrite Ep in Hs.
Qed.
Lemma str_in_lstrip f a s : str_in a (lstrip f s) = true -> str_in a s = true.
Proof. induction s as [|c s IH]; [done|]. cbn [lstrip]. destruct (f c); [|done]. intros Hs%IH. cbn [str_in]. by rewrite Hs, orb_true_r. Qed.
Lemma prefix_app_l a b s : String.prefix (a +:+ b) s = true -> String.prefix a s = true.
Proof.
  revert s. induction a as [|c a IH]; intros [|d s]; try done. rewrite app_string_cons. cbn [String.prefix]. destruct (ascii_dec c d); [apply IH|done].
Qed.
Lemma not_agent_line l : str_in "user-agent" (lower l) = false -> agent_line (lower l) = false.
Proof.
  intros H. unfold agent_line. destruct (startswith _ _) eqn:E; [|done]. apply (prefix_app_l "user-agent" ":") in E.
  assert (str_in "user-agent" (lower l) = true); [|congruence]. apply (str_in_lstrip is_space), (str_in_rstrip is_space). fold (strip is_space (lower l)).
  destruct (strip is_space (lower l)); [done|]. cbn [str_in]. by rewrite E.
Qed.

Section facts.
Context (bracketed_ok : string -> bool) (delay : Q) (sha256 : string -> string) (urljoin : string -> string -> string).
Context (bare_extraction : string -> string -> result pyexn (option (list (string * pyval)))) (parse_html : string -> result pyexn (list node)).
#[local] Abbreviation scrape := (scrape_url bracketed_ok sha256 bare_extraction parse_html).

(** C30: an address is not fetched if the site's robots.txt, answered with 200,
    forbids it in the way the scraper understands: a line "User-agent:" names
    every agent (an asterisk) or an agent with "bot" in its name, and after
    it, with no mention of "User-agent" in between, a line "Disallow:" has a
    path in lower case that begins the path of the address (the keys may be in
    capitals or not, blanks may end the lines).  Then the answer says so, and it
    is the same whatever the site and the browser would do; no request to the
    domain is recorded and no browser is started.  A path with capitals, a
    group with several agents and the addresses that a request is redirected to
    are not protected. *)
Theorem forbidden_never_fetched e url p text pre agent mid rule post a q force now' at_ s : urlparse bracketed_ok url = Ok p ->
  w_get e (scheme p +:+ "://" +:+ netloc p +:+ "/robots.txt") = Ok (200, text) ->
  split NLc text = pre ++ agent :: mid ++ rule :: post ->
  directive "user-agent" a agent -> a = "*" \/ str_in "bot" (lower a) = true ->
  Forall (fun l => str_in "user-agent" (lower l) = false) mid ->
  directive "disallow" q rule -> lower q = q -> startswith q (path p) = true ->
  scrape e url force now' at_ s =
    (Ok [("success", PBool false); ("url", PStr url); ("error", PStr "Disallowed by robots.txt"); ("content", PNone)], s).
Proof.
  intros Hp Hg Ht Ha Hus Hm Hd Hl Hq. unfold scrape_url, scrape_body, _check_robots_txt, robots_url. rewrite Hp. cbn [rbind]. rewrite Hg. cbn [rbind Z.eqb Pos.eqb].
  assert (robots_allow text (path p) = false) as ->; [|done]. unfold robots_allow. apply robots_lines_spec. right.
  unfold split. change "" with (lower ""). rewrite split_go_lower. fold (split NLc text). rewrite Ht, map_app. cbn [map]. rewrite map_app. cbn [map].
  exists (map lower pre), (lower agent), (map lower mid ++ lower rule :: map lower post). split; [done|]. split; [by eapply agent_directive|].
  exists (map lower mid), (lower rule), (map lower post). split; [done|]. split; [|by eapply disallow_directive].
  apply Forall_map. eapply Forall_impl; [exact Hm|]. intros l. apply not_agent_line.
Qed.

(** Scraping answers, unless it is cancelled: whatever the requests, the
    browser, the extraction and the parsers raise, the answer is a dictionary
    for that address that says whether it succeeded. *)
Theorem scrape_answers e url force now' at_ s : exists s', 
  (exists x, scrape e url force now' at_ s = (Err x, s') /\ cancelled x = true) \/
  (exists d b, scrape e url force now' at_ s = (Ok d, s') /\ dict_get "url" d = Some (PStr url) /\ dict_get "success" d = Some (PBool b)).
Proof.
  unfold scrape_url. destruct (scrape_body _ _ _ _ _ _ _ _ _ _) as [[d|x] s'] eqn:E; exists s'.
  2:{ destruct (cancelled x) eqn:Ec; [left; by exists x|]. right. by eexists _, false. }
  right. unfold scrape_body in E. destruct (_check_robots_txt _ _ _) as [[]|]; [| |done]; [|injection E as <- <-; by eexists _, false].
  destruct (urlparse _ _); [|done]. destruct (fetch_html _ _ _ _) as [[hm|] s1]; [|done]. cbn [rbind] in E.
  destruct (extract_html _ _ _ _) as [d'|]; [|done]. injection E as <- <-. by eexists _, true.
Qed.

(** A page that is missing is scraped all the same: an answer of 404, like
    any other than 200, sends the scraper to the browser, and what the site
    shows there is a success. *)
Theorem missing_page_scraped e url p status now' at_ s html d : urlparse bracketed_ok url = Ok p ->
  _check_robots_txt bracketed_ok (w_get e) url = Ok true -> w_get e url = Ok (status, html) -> status <> 200 ->
  w_start e = Ok () -> w_page e = Ok () -> w_goto e url = Ok html -> w_close e = Ok () ->
  extract_html bare_extraction parse_html html url = Ok d ->
  (scrape e url false now' at_ s).1 = Ok (page_dict sha256 url "playwright" at_ d).
Proof.
  intros Hp Hr Hg Hs H1 H2 H3 H4 Hd. unfold scrape_url, scrape_body. rewrite Hr, Hp. unfold fetch_html, http_fetch, browser_fetch. rewrite Hg.
  destruct (Z.eqb_spec status 200); [done|]. cbn [truthy_str]. rewrite H1, H2, H3, H4. destruct (has_browser _); cbn [rbind fst snd]; by rewrite Hd.
Qed.

(** ** The delay *)

(** Calls that follow each other, each with the time it came and the time at
    which its wait was over *)
Fixpoint one_after_another (s : AutonomousScraper) (calls : list (string * Q * Q)) : Prop :=
  match calls with
  | [] => True
  | (d, now, now') :: calls' => (wake delay d now s <= now')%Q /\ one_after_another (_rate_limit d now' s) calls'
  end.
Definition times_of (d : string) (calls : list (string * Q * Q)) : list Q := map snd (List.filter (fun c => String.eqb c.1.1 d) calls).
Definition apart (a b : Q) : Prop := (a + delay <= b)%Q.
Lemma wake_after d now s t : last_request_time s !! d = Some t -> (t + delay <= wake delay d now s)%Q.
Proof. intros Ht. unfold wake. rewrite Ht. cbn [default from_option id]. destruct (Qltb_reflect (now - t) delay); lra. Qed.
Lemma spaced_from d t s calls : (0 <= delay)%Q -> last_request_time s !! d = Some t -> one_after_another s calls ->
  Forall (apart t) (times_of d calls) /\ StronglySorted apart (times_of d calls).
Proof.
  intros Hd. revert t s. induction calls as [|[[d' now] now'] calls IH]; intros t s Ht Hc; [by split; constructor|]. destruct Hc as [Hw Hc].
  unfold times_of. cbn [List.filter fst snd]. destruct (String.eqb_spec d' d) as [->|Hne]; cbn [map snd].
  - apply wake_after with (now := now) in Ht. destruct (IH now' (_rate_limit d now' s)) as [Hf Hs]; [by apply lookup_insert_eq|done|].
    assert (apart t now') as Ha by (unfold apart; lra). split; [|by constructor]. constructor; [done|]. eapply Forall_impl; [exact Hf|].
    unfold apart in *. intros y Hy. lra.
  - apply (IH t (_rate_limit d' now' s)); [|done]. by apply lookup_insert_Some; right.
Qed.

(** Requests that follow each other are spaced: whatever addresses come, in
    whatever order, any two requests to one domain are at least the delay
    apart. *)
Theorem requests_spaced d s calls : (0 <= delay)%Q -> one_after_another s calls -> StronglySorted apart (times_of d calls).
Proof.
  intros Hd. revert s. induction calls as [|[[d' now] now'] calls IH]; intros s Hc; [constructor|]. destruct Hc as [Hw Hc].
  unfold times_of. cbn [List.filter fst snd]. destruct (String.eqb_spec d' d) as [->|Hne]; [|by apply (IH (_rate_limit d' now' s))]. cbn [map snd].
  destruct (spaced_from d now' (_rate_limit d now' s) calls Hd) as [Hf Hs]; [by apply lookup_insert_eq|done|]. by constructor.
Qed.

(** ** Links *)

(** The links of a page lead to the web, and to the page's own domain if only
    that is asked for: each is the absolute form of a link of the page. *)
Theorem links_lead_where_asked url same page l : extract_links bracketed_ok urljoin url same page = Ok l ->
  forall a, a ∈ l -> exists p base link, urlparse bracketed_ok a = Ok p /\ scheme p ∈ ["http"; "https"] /\ a = urljoin url link /\
    urlparse bracketed_ok url = Ok base /\ (same = true -> netloc p = netloc base).
Proof.
  unfold extract_links. destruct (negb _); [intros [= <-]; set_solver|]. destruct (iterate _) as [links|]; [|done]. cbn [rbind].
  destruct (urlparse bracketed_ok url) as [base|]; [|done]. cbn [rbind]. destruct (absolute_links _ _ _ _ _ links) as [ls|] eqn:E; [|done]. cbn [rbind].
  intros [= <-] a Ha. apply elem_of_list_to_set in Ha. revert ls E Ha. induction links as [|v links IH]; intros ls; cbn [absolute_links]; [intros [= <-] Ha; by apply elem_of_nil in Ha|].
  destruct (absolute_link _ _ _ _ _ v) as [o|] eqn:Eo; [|done]. cbn [rbind]. destruct (absolute_links _ _ _ _ _ links) as [rest|]; [|done]. cbn [rbind].
  intros [= <-] Ha. destruct o as [b|]; [|by apply (IH rest)]. apply elem_of_cons in Ha as [->|Ha]; [|by apply (IH rest)].
  unfold absolute_link in Eo. destruct v as [| | | |link| | |]; try done. destruct (urlparse _ (urljoin url link)) as [p|] eqn:Ep; [|done]. cbn [rbind] in Eo.
  destruct (bool_decide _ && _) eqn:Eb; [|done]. injection Eo as <-. apply andb_true_iff in Eb as [Hs%bool_decide_eq_true Hn].
  exists p, base, link. split_and!; try done. intros ->. cbn in Hn. by apply String.eqb_eq.
Qed.
End facts.

(** ** The model client *)

Section client.
Context (model keep_alive base_url : string).
(** The Ollama client: what a reply has *)
Record ollama := OllamaApi {
  o_tags : result pyexn (Z * result pyexn pyval); o_pull : string -> result pyexn unit;
  o_generate : string -> string -> option string -> list (string * pyval) -> string -> result pyexn (list (string * pyval));
  o_stream : string -> string -> option string -> list (string * pyval) -> string -> result pyexn (list (list (string * pyval)) * option pyexn);
  o_chat : string -> list (string * string) -> list (string * pyval) -> string -> result pyexn pyval;
  o_show : result pyexn (result pyexn pyval); o_embeddings : string -> string -> result pyexn (list (string * pyval)) }.
Variable api : ollama.
(** [try: ... except Exception: return v] *)
Definition or_else {A} (v : A) (r : result pyexn A) : result pyexn A := match r with Err x => if cancelled x then Err x else Ok v | Ok a => Ok a end.
Definition check_health : result pyexn bool := or_else false (r <-! o_tags api; Ok (r.1 =? 200)).
Definition model_name (m : pyval) : result pyexn pyval :=
  match m with
  | PDict d => match dict_get "name" d with Some v => Ok v | None => Err (PyExn "KeyError" "'name'") end
  | PList _ => Err (PyExn "TypeError" "list indices must be integers or slices, not str")
  | PStr _ => Err (PyExn "TypeError" "string indices must be integers, not 'str'")
  | _ => Err (type_error m "is not subscriptable")
  end.
Fixpoint model_names (l : list pyval) : result pyexn (list pyval) :=
  match l with [] => Ok [] | m :: l' => n <-! model_name m; ns <-! model_names l'; Ok (n :: ns) end.
Definition list_models : result pyexn (list pyval) :=
  or_else [] (r <-! o_tags api; data <-! r.2; models <-! get_attr "models" data; l <-! iterate (default (PList []) models); model_names l).
Definition pull_model (name : string) : result pyexn bool := or_else false (_ <-! o_pull api name; Ok true).
(** ["num_predict": max_tokens or -1] *)
Definition options_of (temperature : Q) (max_tokens : option Z) : list (string * pyval) :=
  [("temperature", PFloat temperature); ("num_predict", PInt (match max_tokens with Some 0 | None => -1 | Some n => n end))].
Definition generate (prompt : string) (system : option string) (temperature : Q) (max_tokens : option Z) : result pyexn pyval :=
  r <-! o_generate api model prompt system (options_of temperature max_tokens) keep_alive; Ok (default (PStr "") (dict_get "response" r)).
(** What the stream yields, and what ends it *)
Definition _stream_generate (prompt : string) (system : option string) (options : list (string * pyval)) : list pyval * option pyexn :=
  match o_stream api model prompt system options keep_alive with
  | Err x => ([], Some x)
  | Ok (chunks, x) => (List.filter truthy (map (fun c => default PNone (dict_get "response" c)) chunks), x)
  end.
Definition subscript (k : string) (v : pyval) : result pyexn pyval :=
  match v with PDict d => match dict_get k d with Some v => Ok v | None => Err (PyExn "KeyError" ("'" +:+ k +:+ "'")) end | _ => Err (type_error v "is not subscriptable") end.
Definition chat (messages : list (string * string)) (temperature : Q) (max_tokens : option Z) : result pyexn pyval :=
  r <-! o_chat api model messages (options_of temperature max_tokens) keep_alive; m <-! subscript "message" r; subscript "content" m.
Definition unload_model : result pyexn bool := or_else false (_ <-! o_generate api model "" None [] "0"; Ok true).
Definition get_model_info : result pyexn pyval := or_else (PDict []) (r <-! o_show api; r).
Definition embeddings (text : string) : result pyexn pyval := or_else (PList []) (r <-! o_embeddings api model text; Ok (default (PList []) (dict_get "embedding" r))).
Definition client_repr : string := "OllamaClient(model='" +:+ model +:+ "', base_url='" +:+ base_url +:+ "')".

(** The checks of the client never raise, unless they are cancelled: whatever
    Ollama answers or fails with, the health, the list of models, a pull, the
    information, the embeddings and the unloading give an answer. *)
Theorem client_checks_answer name text x :
  (check_health = Err x \/ list_models = Err x \/ pull_model name = Err x \/ get_model_info = Err x \/ embeddings text = Err x \/ unload_model = Err x) ->
  cancelled x = true.
Proof.
  assert (forall A (v : A) r, or_else v r = Err x -> cancelled x = true) as Ho.
  { intros A v [a|y]; cbn; [done|]. destruct (cancelled y) eqn:E; [by intros [= <-]|done]. }
  intros [Hx|[Hx|[Hx|[Hx|[Hx|Hx]]]]]; by apply Ho in Hx.
Qed.
(** A stream and a reply agree: when the chunks of a stream have the texts of
    the reply in order, what the stream yields, joined, is what a call without
    streaming returns; chunks without a text are skipped. *)
Theorem stream_joins_to_reply prompt system temperature max_tokens texts chunks r :
  o_generate api model prompt system (options_of temperature max_tokens) keep_alive = Ok r -> dict_get "response" r = Some (PStr (join "" texts)) ->
  o_stream api model prompt system (options_of temperature max_tokens) keep_alive = Ok (chunks, None) ->
  map (dict_get "response") chunks = map (fun t => Some (PStr t)) texts ->
  exists ys, _stream_generate prompt system (options_of temperature max_tokens) = (map PStr ys, None) /\
    generate prompt system temperature max_tokens = Ok (PStr (join "" ys)) /\ Forall (fun y => y <> "") ys.
Proof.
  intros Hg Hr Hs Hm. exists (List.filter (fun t => negb (String.eqb t "")) texts). unfold _stream_generate, generate. rewrite Hs, Hg. cbn [rbind]. rewrite Hr. cbn.
  split_and!.
  - f_equal. clear Hg Hr Hs. revert chunks Hm. induction texts as [|t texts IH]; intros [|c chunks] Hm; try done. cbn [map] in Hm. injection Hm as Hc Hm.
    cbn [map List.filter]. rewrite Hc. cbn [default from_option id truthy]. unfold truthy. destruct (String.eqb t ""); cbn [negb map]; [by apply (IH chunks)|].
    f_equal. by apply (IH chunks).
  - f_equal. f_equal. clear. induction texts as [|t texts IH]; [done|]. cbn [List.filter]. destruct (String.eqb_spec t "") as [->|]; cbn [negb].
    + rewrite join_empty_cons, IH. done.
    + by rewrite !join_empty_cons, IH.
  - apply Forall_forall. intros y [_ Hy]%list_elem_of_In%filter_In. by destruct (String.eqb_spec y "").
Qed.
End client.

(** ** Concrete pages *)

Definition demo_robots : string := "User-agent: *" +:+ String NLc "Disallow: /private".
Definition demo_site (url : string) : result pyexn (Z * string) :=
  Ok (if String.eqb url "https://a.org/robots.txt" then (200, demo_robots) else (404, "<p>not found</p>")).
Definition demo_web_ok : web := Web demo_site (Ok ()) (Ok ()) (fun _ => Ok "<p>not found</p>") (Ok ()).
Definition demo_none (_ _ : string) : result pyexn (option (list (string * pyval))) := Ok None.
Definition demo_parse (_ : string) : result pyexn (list node) := Ok [NElem "a" [("href", "/x")] [NText "not found"]].
Definition demo_scraper : AutonomousScraper := Scraper_ {["a.org" := 100%Q]} false.

Lemma forbidden_never_fetched_witness : scrape_url (fun _ => true) (fun s => s) demo_none demo_parse demo_web_ok "https://a.org/private/x" false 5 "now" demo_scraper =
  (Ok (failed_page "https://a.org/private/x" "Disallowed by robots.txt"), demo_scraper).
Proof.
  apply (forbidden_never_fetched (fun _ => true) (fun s => s) demo_none demo_parse demo_web_ok "https://a.org/private/x"
    (Parsed "https" "a.org" "/private/x" "" "" "") demo_robots [] "User-agent: *" [] "Disallow: /private" [] "*" "/private");
    [reflexivity|reflexivity|reflexivity| |by left|constructor| |reflexivity|reflexivity]; [exists "User-agent", ""|exists "Disallow", ""]; done.
Defined.
Lemma missing_page_scraped_witness : (scrape_url (fun _ => true) (fun s => s) demo_none demo_parse demo_web_ok "https://a.org/x" false 5 "now" demo_scraper).1 =
  Ok (page_dict (fun s => s) "https://a.org/x" "playwright" "now" (_fallback_extraction demo_parse "")).
Proof.
  apply (missing_page_scraped (fun _ => true) (fun s => s) demo_none demo_parse demo_web_ok "https://a.org/x" (Parsed "https" "a.org" "/x" "" "" "") 404 5 "now"
    demo_scraper "<p>not found</p>"); done || reflexivity.
Defined.
Lemma requests_spaced_witness : StronglySorted (apart 2) (times_of "a.org" [("a.org", 101, 102); ("b.org", 101, 102); ("a.org", 102, 104)]%Q).
Proof. apply (requests_spaced 2 "a.org" demo_scraper); [done|]. by vm_compute. Defined.
Lemma links_lead_where_asked_witness : exists l, extract_links (fun _ => true) (fun b l => "https://a.org" +:+ l) "https://a.org/y" true
    [("success", PBool true); ("links", PList [PStr "/x"])] = Ok l /\ forall a, a ∈ l -> exists p, urlparse (fun _ => true) a = Ok p /\ netloc p = "a.org".
Proof.
  destruct (extract_links (fun _ => true) (fun b l => "https://a.org" +:+ l) "https://a.org/y" true [("success", PBool true); ("links", PList [PStr "/x"])])
    as [l|] eqn:E; [|by vm_compute in E]. exists l. split; [done|]. intros a Ha.
  destruct (links_lead_where_asked (fun _ => true) (fun b l => "https://a.org" +:+ l) _ _ _ l E a Ha) as (p & base & link & Hp & _ & _ & Hb & Hn). exists p.
  split; [done|]. rewrite Hn by done. vm_compute in Hb. by injection Hb as <-.
Defined.
Definition demo_ollama : ollama :=
  OllamaApi (Err (PyExn "ConnectError" "refused")) (fun _ => Err (PyExn "CancelledError" "")) (fun _ _ _ _ _ => Ok [("response", PStr "ab")])
    (fun _ _ _ _ _ => Ok ([[("response", PStr "a")]; [("response", PStr "")]; [("response", PStr "b")]], None)) (fun _ _ _ _ => Ok PNone)
    (Err (PyExn "ConnectError" "refused")) (fun _ _ => Ok []).
Lemma client_checks_answer_witness : cancelled (PyExn "CancelledError" "") = true.
Proof. apply (client_checks_answer "m" demo_ollama "x" "t" (PyExn "CancelledError" "")). right. right. by left. Defined.
Lemma stream_joins_to_reply_witness : exists ys, _stream_generate "m" "5m" demo_ollama "p" None (options_of 0.7 None) = (map PStr ys, None) /\ Forall (fun y => y <> "") ys.
Proof.
  destruct (stream_joins_to_reply "m" "5m" demo_ollama "p" None 0.7 None ["a"; ""; "b"] [[("response", PStr "a")]; [("response", PStr "")]; [("response", PStr "b")]]
    [("response", PStr "ab")]) as (ys & H1 & _ & H2); try reflexivity. by exists ys.
Defined.

(** The text of robots.txt is put in lower case and the path is not: a rule for a
    path with a capital letter protects nothing. *)
Example capital_path_not_protected : robots_allow ("User-agent: *" +:+ String NLc "Disallow: /Private") "/Private/x" = true.
Proof. reflexivity. Qed.
(** Two requests that come while the first still waits are made together. *)
Example concurrent_requests_together : (wake 2 "a.org" 100.5 demo_scraper == wake 2 "a.org" 100.6 demo_scraper)%Q.
Proof. reflexivity. Qed.
(** A limit of 0 tokens is no limit. *)
Example zero_tokens_unlimited : options_of 0.7 (Some 0) = options_of 0.7 None.
Proof. reflexivity. Qed.
