(* ===== verification/Multimodal.v ===== *)
(** * Images, PDF files and tables

    document_processor/processing/multimodal_processor.py: recognised text with
    its confidence, the pages, images and tables of a PDF file, the detection of
    the type of a content, and the samples of one or many sources.  Tesseract,
    OpenCV, PyMuPDF, pdfplumber and the file system are parameters; bytes are
    strings.  The times of a sample and the digests in its id are left out or
    arguments.  What is raised is an [Exception]: a cancellation, which nothing
    here catches, is left out. *)

From Stdlib Require Import Ascii.
From S2P Require Import Prelude PyStr PyVal PyConv.
#[local] Open Scope py_scope.
#[local] Open Scope Z_scope.

Variant ContentType := TEXT | IMAGE | PDF | TABLE | AUDIO | VIDEO | UNKNOWN.
Variant ExtractionMethod := DIRECT | OCR | TABLE_EXTRACTION | TRANSCRIPTION | COMBINED.
#[export] Instance content_type_eq : EqDecision ContentType.
Proof. solve_decision. Defined.
(** [str(detected_type)] *)
Definition type_str (t : ContentType) : string :=
  "ContentType." +:+ match t with TEXT => "TEXT" | IMAGE => "IMAGE" | PDF => "PDF" | TABLE => "TABLE" | AUDIO => "AUDIO" | VIDEO => "VIDEO" | UNKNOWN => "UNKNOWN" end.
Definition cell : Type := option string.
Record table := Table { tb_index : Z; tb_headers : list cell; tb_rows : list (list cell) }.
Definition row_count (t : table) : Z := zlength (tb_rows t).
Definition col_count (t : table) : Z := zlength (tb_headers t).
Record image_info := ImageInfo { im_index : Z; im_page : Z; im_width : Z; im_height : Z; im_colorspace : pyval; im_size_bytes : Z; im_format : string }.
Record MultimodalSample := Sample {
  sm_id : string; sm_type : ContentType; sm_method : ExtractionMethod; sm_text : string; sm_tables : list table; sm_images : list image_info;
  sm_source_file : option string; sm_page : option Z; sm_language : option string; sm_word_count : Z; sm_char_count : Z; sm_confidence : Q;
  sm_errors : list string; sm_warnings : list string; sm_metadata : list (string * pyval) }.
Definition new_sample (id : string) (t : ContentType) (m : ExtractionMethod) : MultimodalSample :=
  Sample id t m "" [] [] None None None 0 0 0 [] [] [].
Definition error_sample (id : string) (t : ContentType) (m : ExtractionMethod) (error : string) : MultimodalSample :=
  Sample id t m "" [] [] None None None 0 0 0 [error] [] [].

(** A source: bytes, a [str] or a [Path] *)
Variant content := Bytes (b : string) | Str (s : string) | PathObj (p : string).

Record ProcessorConfig := Config { ocr_language : string; extract_images_from_pdf : bool; max_image_size_mb : Q }.

Section processor.
Context (cfg : ProcessorConfig) (HAS_TESSERACT HAS_PYMUPDF HAS_PDFPLUMBER HAS_CV2 : bool).
Context (sha256 : string -> string).

(** ** Images *)

(** Pillow, OpenCV with its configuration, Tesseract *)
Record imaging := Imaging {
  img : Type; open_bytes : string -> result pyexn img; open_file : string -> result pyexn img; b64decode : string -> result pyexn string;
  cv_preprocess : img -> result pyexn img; image_to_data : img -> string -> result pyexn (list (string * Q)); img_size : img -> pyval; img_mode : img -> pyval }.
Variable im : imaging.
Definition _preprocess_image (preprocess : bool) (i : img im) : img im :=
  if HAS_CV2 && preprocess then match cv_preprocess im i with Ok j => j | Err _ => i end else i.
(** The image and the file it came from *)
Definition load_image (c : content) : result pyexn (img im * option string) :=
  match c with
  | Bytes b => i <-! open_bytes im b; Ok (i, None)
  | Str s =>
      if startswith "data:image" s then
        match split "," s with
        | _ :: data :: _ => b <-! b64decode im data; i <-! open_bytes im b; Ok (i, None)
        | _ => Err (PyExn "IndexError" "list index out of range")
        end
      else i <-! open_file im s; Ok (i, Some s)
  | PathObj p => i <-! open_file im p; Ok (i, Some p)
  end.
(** The words that are not blank and have a confidence *)
Definition recognised (data : list (string * Q)) : list (string * Q) :=
  List.filter (fun tc => negb (String.eqb tc.1 "")) (map (fun tc => (strip is_space tc.1, tc.2)) (List.filter (fun tc => Qltb 0 tc.2) data)).
Definition mean_confidence (l : list Q) : Q := match l with [] => 0 | _ => foldr Qplus 0 l / inject_Z (zlength l) / 100 end%Q.
Definition extract_image (preprocess : bool) (id : string) (c : content) (language : option string) : MultimodalSample :=
  if negb HAS_TESSERACT then error_sample id IMAGE OCR "Tesseract not available" else
  match load_image c with
  | Err x => error_sample id IMAGE OCR (exn_str x)
  | Ok (i, file) =>
      let lang := if truthy_str language then default "" language else ocr_language cfg in
      match image_to_data im (_preprocess_image preprocess i) lang with
      | Err x => Sample id IMAGE OCR "" [] [] file None None 0 0 0 [exn_str x] [] []
      | Ok data =>
          let words := recognised data in
          let text := join " " (map fst words) in
          Sample id IMAGE OCR text [] [] file None (Some lang) (zlength words) (Z.of_nat (String.length text)) (mean_confidence (map snd words)) [] []
            [("image_size", img_size im i); ("image_mode", img_mode im i)]
      end
  end.

(** ** PDF files *)

Record raw_image := RawImage { ri_len : Z; ri_width : Z; ri_height : Z; ri_colorspace : pyval; ri_ext : string }.
(** A page: its text, its rendering, its images *)
Record pdf_page := Page { pg_text : result pyexn string; pg_pixmap : result pyexn string; pg_images : result pyexn (list (result pyexn (option raw_image))) }.
(** A file that is open: the number of its pages, and the page of a number *)
Record pdf_doc := Doc { doc_len : Z; doc_page : Z -> result pyexn pdf_page }.
Definition page_image (page_num : Z) (i : nat) (r : result pyexn (option raw_image)) : option image_info :=
  match r with
  | Ok (Some b) =>
      if Qltb (max_image_size_mb cfg) (inject_Z (ri_len b) / inject_Z (1024 * 1024)) then None
      else Some (ImageInfo (Z.of_nat i) page_num (ri_width b) (ri_height b) (ri_colorspace b) (ri_len b) (ri_ext b))
  | _ => None
  end.
Definition _extract_images_from_page (page : pdf_page) (page_num : Z) : list image_info :=
  match pg_images page with Err _ => [] | Ok l => omap (fun x => x) (imap (page_image page_num) l) end.
Definition page_sample (preprocess : bool) (digest : Z -> string) (len page_num : Z) (page : pdf_page) : result pyexn MultimodalSample :=
  text <-! pg_text page;
  let blank := String.eqb (strip is_space text) "" in
  ocr <-! (if blank then png <-! pg_pixmap page; Ok (Some (extract_image preprocess (digest page_num) (Bytes png) None)) else Ok None);
  let text := match ocr with Some o => sm_text o | None => text end in
  Ok (Sample ("pdf_page_" +:+ str_int page_num +:+ "_" +:+ digest page_num) PDF (if blank then OCR else DIRECT) text []
        (if extract_images_from_pdf cfg then _extract_images_from_page page page_num else []) None (Some page_num) None
        (zlength (split_ws text)) (Z.of_nat (String.length text)) (match ocr with Some o => sm_confidence o | None => 0 end) []
        (if blank then ["No direct text found, using OCR"] else []) [("page_number", PInt (page_num + 1)); ("page_count", PInt len)]).
(** [pages or range(n)] *)
Definition page_nums (pages : option (list Z)) (n : Z) : list Z :=
  match pages with Some (p :: ps) => p :: ps | _ => map Z.of_nat (seq 0 (Z.to_nat n)) end.
(** The pages in order; [one] makes the samples of a page.  An exception ends
    the loop and is one more sample. *)
Fixpoint page_loop (one : Z -> result pyexn (list MultimodalSample)) (failed : string -> MultimodalSample) (len : Z) (nums : list Z) : list MultimodalSample :=
  match nums with
  | [] => []
  | n :: nums' =>
      if len <=? n then page_loop one failed len nums'
      else match one n with Ok l => l ++ page_loop one failed len nums' | Err x => [failed (exn_str x)] end
  end.
Definition extract_pdf_text (preprocess : bool) (digest : Z -> string) (open_ : result pyexn pdf_doc) (pages : option (list Z)) : list MultimodalSample :=
  let failed := error_sample "error" PDF DIRECT in
  if negb HAS_PYMUPDF then [failed "PyMuPDF not available"] else
  match open_ with
  | Err x => [failed (exn_str x)]
  | Ok doc => page_loop (fun n => page <-! doc_page doc n; s <-! page_sample preprocess digest (doc_len doc) n page; Ok [s]) failed (doc_len doc) (page_nums pages (doc_len doc))
  end.

(** ** Tables *)

Definition cell_str (c : cell) : string := default "" c.
Definition row_text (row : list cell) : string := join " | " (map cell_str row).
Fixpoint repeat_char (n : nat) (c : ascii) : string := match n with O => "" | S n' => String c (repeat_char n' c) end.
Definition NLs : string := String "010" "".
Definition _table_to_text (headers : list cell) (rows : list (list cell)) : string :=
  join NLs (match headers with [] => [] | _ => [row_text headers; repeat_char 50 "-"] end ++ map row_text rows).
(** The tables that are not empty, their first rows as headers *)
Definition structured (i : nat) (t : list (list cell)) : option table := match t with [] => None | headers :: rows => Some (Table (Z.of_nat i) headers rows) end.
Definition structured_tables (ts : list (list (list cell))) : list table := omap (fun x => x) (imap structured ts).
Definition tables_text (ts : list table) : string := join "" (map (fun t => _table_to_text (tb_headers t) (tb_rows t) +:+ NLs +:+ NLs) ts).
Definition table_sample (digest : Z -> string) (page_num : Z) (ts : list (list (list cell))) : list MultimodalSample :=
  match ts with
  | [] => []
  | _ =>
      let tables := structured_tables ts in
      let text := tables_text tables in
      [Sample ("table_page_" +:+ str_int page_num +:+ "_" +:+ digest page_num) TABLE TABLE_EXTRACTION text tables [] None (Some page_num) None
         (zlength (split_ws text)) (Z.of_nat (String.length text)) 0 [] [] [("table_count", PInt (zlength tables)); ("page_number", PInt (page_num + 1))]]
  end.
(** pdfplumber: the number of pages, and the tables of a page *)
Record plumber := Plumber { pl_len : Z; pl_tables : Z -> result pyexn (list (list (list cell))) }.
Definition extract_tables (digest : Z -> string) (open_ : result pyexn plumber) (pages : option (list Z)) : list MultimodalSample :=
  let failed := error_sample "error" TABLE TABLE_EXTRACTION in
  if negb HAS_PDFPLUMBER then [failed "pdfplumber not available"] else
  match open_ with
  | Err x => [failed (exn_str x)]
  | Ok p => page_loop (fun n => ts <-! pl_tables p n; Ok (table_sample digest n ts)) failed (pl_len p) (page_nums pages (pl_len p))
  end.

(** ** The type of a content *)

Definition ends_with_any (l : list string) (s : string) : bool := existsb (fun t => endswith t s) l.
Definition PNG_MAGIC : string := String "137" ("PNG" +:+ String "013" (String "010" (String "026" (String "010" "")))).
Definition JPEG_MAGIC : string := String "255" (String "216" (String "255" (String "224" ""))).
Definition detect_content_type (c : content) : ContentType :=
  match c with
  | Str s | PathObj s =>
      let s := lower s in
      if ends_with_any [".png"; ".jpg"; ".jpeg"; ".gif"; ".bmp"; ".tiff"; ".webp"] s then IMAGE
      else if endswith ".pdf" s then PDF
      else if ends_with_any [".mp3"; ".wav"; ".m4a"; ".flac"; ".ogg"] s then AUDIO
      else if ends_with_any [".mp4"; ".avi"; ".mov"; ".mkv"; ".webm"] s then VIDEO
      else if ends_with_any [".txt"; ".md"; ".html"; ".htm"; ".xml"; ".json"] s then TEXT
      else UNKNOWN
  | Bytes b =>
      if String.eqb (str_take 4 b) "%PDF" then PDF
      else if String.eqb (str_take 3 b) "ID3" || String.eqb (str_take 4 b) "fLaC" then AUDIO
      else if bool_decide (str_take 8 b ∈ [PNG_MAGIC; JPEG_MAGIC]) then IMAGE
      else UNKNOWN
  end.

(** ** One source *)

(** Dictionaries of samples by page, in the order of insertion *)
Definition page_of (s : MultimodalSample) : Z := default 0 (sm_page s).
Definition absorb (m s : MultimodalSample) : MultimodalSample :=
  let text := if negb (String.eqb (sm_text s) "") && negb (str_in (sm_text s) (sm_text m)) then sm_text m +:+ NLs +:+ NLs +:+ sm_text s else sm_text m in
  Sample (sm_id m) (sm_type m) (sm_method m) text (sm_tables m ++ sm_tables s) (sm_images m) (sm_source_file m) (sm_page m) (sm_language m)
    (sm_word_count m) (sm_char_count m) (sm_confidence m) (sm_errors m) (sm_warnings m) (sm_metadata m).
Fixpoint merge_in (s : MultimodalSample) (l : list MultimodalSample) : list MultimodalSample :=
  match l with
  | [] => [s]
  | m :: l' => if page_of m =? page_of s then absorb m s :: l' else m :: merge_in s l'
  end.
Definition merge_pages (samples : list MultimodalSample) : list MultimodalSample := foldl (fun l s => merge_in s l) [] samples.
(** What the sources hold: the file as a PDF for each library, as text *)
Record opened := Opened { op_pdf : content -> result pyexn pdf_doc; op_tables : content -> result pyexn plumber; op_text : string -> result pyexn string; op_decode : string -> string }.
Variable op : opened.
Definition process (preprocess : bool) (digest : Z -> string) (c : content) (content_type : option ContentType) (pages : option (list Z)) : result pyexn (list MultimodalSample) :=
  let detected := default (detect_content_type c) content_type in
  match detected with
  | IMAGE =>
      match pages with
      | None => Ok [extract_image preprocess (digest 0) c None]
      | Some _ => Err (PyExn "TypeError" "ImageProcessor.extract_text() got an unexpected keyword argument 'pages'")
      end
  | PDF => Ok (merge_pages (extract_pdf_text preprocess digest (op_pdf op c) pages ++ extract_tables digest (op_tables op c) pages))
  | TEXT =>
      text <-! match c with Bytes b => Ok (op_decode op b) | Str p | PathObj p => op_text op p end;
      Ok [Sample (str_take 16 (sha256 (str_take 1000 text))) TEXT DIRECT text [] [] None None None (zlength (split_ws text)) (Z.of_nat (String.length text)) 0 [] [] []]
  | t => Ok [error_sample "unknown" t DIRECT ("Unsupported content type: " +:+ type_str t)]
  end.
(** The outcomes of the tasks; an exception becomes a sample *)
Definition batch_result (i : nat) (r : result pyexn (list MultimodalSample)) : list MultimodalSample :=
  match r with Ok l => l | Err x => [error_sample ("error_" +:+ str_int (Z.of_nat i)) UNKNOWN DIRECT (exn_str x)] end.
Definition process_batch (preprocess : bool) (digest : nat -> Z -> string) (sources : list content) : list (list MultimodalSample) :=
  imap (fun i c => batch_result i (process preprocess (digest i) c None None)) sources.
Definition get_capabilities : list (string * bool) :=
  [("ocr", HAS_TESSERACT); ("pdf_text", HAS_PYMUPDF); ("pdf_tables", HAS_PDFPLUMBER); ("image_preprocessing", HAS_CV2)].
End processor.

(** ** Recognised text *)

Lemma mean_confidence_unit l : Forall (fun c => 0 <= c <= 100)%Q l -> (0 <= mean_confidence l <= 1)%Q.
Proof.
  intros Hl. assert (0 <= foldr Qplus 0 l /\ foldr Qplus 0 l <= 100 * inject_Z (zlength l))%Q as [H1 H2].
  { induction Hl as [|c l Hc Hl [IH1 IH2]]; [by split; vm_compute|]. rewrite zlength_cons, inject_Z_plus. cbn [foldr]. change (inject_Z 1) with 1%Q. lra. }
  unfold mean_confidence. destruct l as [|c l]; [lra|]. assert (0 < inject_Z (zlength (c :: l)))%Q as Hn.
  { change 0%Q with (inject_Z 0). rewrite <- Zlt_Qlt, zlength_cons. pose proof (zlength_nonneg l). lia. }
  split.
  - apply Qle_shift_div_l; [lra|]. apply Qle_shift_div_l; [done|]. lra.
  - apply Qle_shift_div_r; [lra|]. apply Qle_shift_div_r; [done|]. lra.
Qed.

Section facts.
Context (cfg : ProcessorConfig) (HAS_TESSERACT HAS_PYMUPDF HAS_PDFPLUMBER HAS_CV2 : bool) (sha256 : string -> string) (im : imaging) (op : opened).
#[local] Abbreviation image := (extract_image cfg HAS_TESSERACT HAS_CV2 im).

(** Whatever the image, recognising it gives a sample: with one error and no
    text, or with none, and then its counts are those of its text's characters
    and of the words that were recognised, and its confidence is between 0 and
    1 if Tesseract's are at most 100. *)
Theorem recognised_sample preprocess id c lang : (forall i l data, image_to_data im i l = Ok data -> Forall (fun tc => (tc.2 <= 100)%Q) data) ->
  let s := image preprocess id c lang in
  sm_char_count s = Z.of_nat (String.length (sm_text s)) /\ (0 <= sm_confidence s <= 1)%Q /\
  ((exists e, sm_errors s = [e] /\ sm_text s = "" /\ sm_word_count s = 0) \/
   (sm_errors s = [] /\ exists words, sm_text s = join " " words /\ sm_word_count s = zlength words /\ Forall (fun w => w <> "") words)).
Proof.
  intros Hc s. subst s. unfold extract_image. destruct HAS_TESSERACT; cbn [negb]; [|split; [done|]; split; [cbn; lra|]; left; by eexists].
  destruct (load_image im c) as [[i file]|x]; [|split; [done|]; split; [cbn; lra|]; left; by eexists].
  destruct (image_to_data im _ _) as [data|x] eqn:E; [|split; [done|]; split; [cbn; lra|]; left; by eexists]. apply Hc in E.
  cbn [sm_char_count sm_text sm_confidence sm_errors sm_word_count]. split; [done|]. split.
  - apply mean_confidence_unit. unfold recognised. apply Forall_map, Forall_forall. intros tc [Ht _]%list_elem_of_In%filter_In.
    apply in_map_iff in Ht as (t0 & <- & [Ht Hp]%filter_In). cbn. rewrite Forall_forall in E. apply list_elem_of_In, E in Ht. cbn in Ht.
    destruct (Qltb_reflect 0 t0.2); [|done]. lra.
  - right. split; [done|]. exists (map fst (recognised data)). split; [done|]. split; [unfold zlength; by rewrite length_map|].
    apply Forall_map, Forall_forall. intros tc [Ht Hne]%list_elem_of_In%filter_In. apply in_map_iff in Ht as (t0 & <- & _). cbn in *.
    by destruct (String.eqb_spec (strip is_space t0.1) "").
Qed.

(** ** Pages *)

Lemma page_loop_ok one failed len nums : (forall n, n ∈ nums -> n < len -> exists s, one n = Ok [s] /\ sm_page s = Some n) ->
  map sm_page (page_loop one failed len nums) = map Some (List.filter (fun n => n <? len) nums).
Proof.
  induction nums as [|n nums IH]; intros H; [done|]. cbn [page_loop List.filter]. assert (forall m, m ∈ nums -> m < len -> exists s, one m = Ok [s] /\ sm_page s = Some m) as H'.
  { intros m Hm. apply H. by right. }
  destruct (Z.leb_spec len n), (Z.ltb_spec n len); try lia; [by apply IH|]. destruct (H n) as (s & -> & Hs); [by left|done|]. cbn. by rewrite Hs, IH.
Qed.
(** The pages of a PDF file that can be read give one sample each, in order:
    all of them, or those of the given numbers that exist; each sample has the
    counts of its text, and a page without text of its own is the one that was
    recognised. *)
Theorem pdf_one_sample_per_page preprocess digest doc pages : HAS_PYMUPDF = true ->
  (forall n, n < doc_len doc -> exists page t png, doc_page doc n = Ok page /\ pg_text page = Ok t /\ pg_pixmap page = Ok png) ->
  let l := extract_pdf_text cfg HAS_TESSERACT HAS_PYMUPDF HAS_CV2 im preprocess digest (Ok doc) pages in
  map sm_page l = map Some (List.filter (fun n => n <? doc_len doc) (page_nums pages (doc_len doc))) /\
  Forall (fun s => sm_errors s = [] /\ sm_char_count s = Z.of_nat (String.length (sm_text s)) /\ sm_word_count s = zlength (split_ws (sm_text s))) l.
Proof.
  intros Hpy Hd l. subst l. unfold extract_pdf_text. rewrite Hpy. cbn [negb].
  set (one := fun n => page <-! doc_page doc n; s <-! page_sample cfg HAS_TESSERACT HAS_CV2 im preprocess digest (doc_len doc) n page; Ok [s]).
  assert (forall n, n < doc_len doc -> exists s, one n = Ok [s] /\ sm_page s = Some n /\ sm_errors s = [] /\
    sm_char_count s = Z.of_nat (String.length (sm_text s)) /\ sm_word_count s = zlength (split_ws (sm_text s))) as H1.
  { intros n Hn. destruct (Hd n Hn) as (page & t & png & Hp & Ht & Hx). unfold one, page_sample. rewrite Hp. cbn [rbind]. rewrite Ht. cbn [rbind].
    destruct (String.eqb (strip is_space t) ""); [rewrite Hx|]; cbn [rbind]; by eexists. }
  split; [apply page_loop_ok; intros n _ Hn; destruct (H1 n Hn) as (s & Ho & Hs & _); eauto|].
  generalize (page_nums pages (doc_len doc)). intros nums. induction nums as [|n nums IH]; [constructor|]. cbn [page_loop].
  destruct (Z.leb_spec (doc_len doc) n); [done|]. destruct (H1 n) as (s & -> & _ & Hs); [lia|]. by constructor.
Qed.

(** A scanned page for which recognition fails looks like an empty page:
    the sample has no text and no error, since only the text and the
    confidence of the recognition are kept. *)
Theorem ocr_error_hidden preprocess digest len n page t png : pg_text page = Ok t -> strip is_space t = "" -> pg_pixmap page = Ok png ->
  sm_errors (image preprocess (digest n) (Bytes png) None) <> [] ->
  exists s, page_sample cfg HAS_TESSERACT HAS_CV2 im preprocess digest len n page = Ok s /\ sm_text s = "" /\ sm_errors s = [].
Proof.
  intros Ht Hb Hp He. unfold page_sample. rewrite Ht. cbn [rbind]. rewrite Hb, Hp. cbn [String.eqb rbind]. eexists. split; [done|]. cbn. split; [|done].
  revert He. unfold extract_image. destruct HAS_TESSERACT; cbn [negb]; [|done]. destruct (load_image im (Bytes png)) as [[i file]|x]; [|done].
  by destruct (image_to_data im _ _).
Qed.

(** ** Samples of one page are merged *)

Definition holds (m s : MultimodalSample) : Prop := page_of m = page_of s /\ str_in (sm_text s) (sm_text m) = true /\ forall t, t ∈ sm_tables s -> t ∈ sm_tables m.
Lemma str_in_refl s : str_in s s = true.
Proof. rewrite <- (app_string_nil_r s) at 2. apply str_in_head. Qed.
Lemma holds_self s : holds s s.
Proof. split; [done|]. split; [apply str_in_refl|done]. Qed.
Lemma absorb_holds m s : page_of m = page_of s -> holds (absorb m s) s.
Proof.
  intros Hp. split; [done|]. unfold absorb. cbn [sm_text sm_tables]. split; [|intros t Ht; apply elem_of_app; by right].
  destruct (String.eqb_spec (sm_text s) "") as [->|]; cbn [negb andb]; [by destruct (sm_text m)|]. destruct (str_in (sm_text s) (sm_text m)) eqn:E; cbn [negb andb]; [done|].
  apply str_in_after, str_in_after, str_in_after, str_in_refl.
Qed.
Lemma absorb_keeps m s s0 : holds m s0 -> holds (absorb m s) s0.
Proof.
  intros (Hp & Ht & Hs). split; [done|]. unfold absorb. cbn [sm_text sm_tables]. split; [|intros t H; apply elem_of_app; left; by apply Hs].
  destruct (_ && _); [by apply str_in_before|done].
Qed.
Lemma merge_in_holds s l : exists m, m ∈ merge_in s l /\ holds m s.
Proof.
  induction l as [|x l (m & Hm & Hh)]; cbn [merge_in]; [exists s; split; [by left|apply holds_self]|]. destruct (Z.eqb_spec (page_of x) (page_of s)) as [E|E].
  - exists (absorb x s). split; [by left|by apply absorb_holds].
  - exists m. split; [by right|done].
Qed.
Lemma merge_in_keeps s l s0 : (exists m, m ∈ l /\ holds m s0) -> exists m, m ∈ merge_in s l /\ holds m s0.
Proof.
  induction l as [|x l IH]; intros (m & Hm & Hh); [by apply elem_of_nil in Hm|]. cbn [merge_in]. apply elem_of_cons in Hm as [->|Hm].
  - destruct (page_of x =? page_of s); [exists (absorb x s); split; [by left|by apply absorb_keeps]|exists x; split; [by left|done]].
  - destruct (page_of x =? page_of s); [exists m; split; [by right|done]|]. destruct IH as (m' & Hm' & Hh'); [by exists m|]. exists m'. split; [by right|done].
Qed.
Lemma merge_in_pages s l : map page_of (merge_in s l) = if existsb (fun m => page_of m =? page_of s) l then map page_of l else map page_of l ++ [page_of s].
Proof.
  induction l as [|x l IH]; [done|]. cbn [merge_in existsb map]. destruct (page_of x =? page_of s); cbn [orb map]; [done|]. rewrite IH. by destruct (existsb _ l).
Qed.

(** C31: merging loses no text and no table: every page is there once, and for
    every sample there is the merged one of its page, whose text has the sample's
    text in it and whose tables have the sample's. *)
Theorem merge_keeps_content samples : NoDup (map page_of (merge_pages samples)) /\
  forall s, s ∈ samples -> exists m, m ∈ merge_pages samples /\ holds m s.
Proof.
  unfold merge_pages. assert (forall done l, NoDup (map page_of l) -> (forall s, s ∈ done -> exists m, m ∈ l /\ holds m s) ->
    NoDup (map page_of (foldl (fun l s => merge_in s l) l samples)) /\
    forall s, s ∈ done ++ samples -> exists m, m ∈ foldl (fun l s => merge_in s l) l samples /\ holds m s) as H.
  { induction samples as [|s samples IH]; intros dn l Hn Hd; cbn [foldl]; [by rewrite app_nil_r|].
    destruct (IH (dn ++ [s]) (merge_in s l)) as [H1 H2].
    - rewrite merge_in_pages. destruct (existsb _ l) eqn:E; [done|]. apply NoDup_app. split; [done|]. split; [|apply NoDup_singleton].
      intros p Hp ->%list_elem_of_singleton. apply list_elem_of_In, in_map_iff in Hp as (m & Em & Hm). apply not_true_iff_false in E. apply E, existsb_exists.
      exists m. split; [done|by apply Z.eqb_eq].
    - intros s0 [Hs|Hs]%elem_of_app; [by apply merge_in_keeps, Hd|]. apply list_elem_of_singleton in Hs as ->. apply merge_in_holds.
    - split; [done|]. intros s0 Hs. apply H2. rewrite <- app_assoc. exact Hs. }
  destruct (H [] [] ltac:(constructor)) as [H1 H2]; [intros s Hs; by apply elem_of_nil in Hs|]. by split.
Qed.

(** ** Types *)

Lemma str_take_app_ge n a b : (String.length a <= n)%nat -> str_take n (a +:+ b) = a +:+ str_take (n - String.length a) b.
Proof.
  revert n. induction a as [|c a IH]; intros n Hn; [by rewrite Nat.sub_0_r|]. destruct n as [|n]; [simpl in Hn; lia|]. rewrite !app_string_cons. cbn [str_take String.length Nat.sub].
  rewrite IH by (simpl in Hn; lia). done.
Qed.
(** A JPEG image that is given as bytes is not recognised: its four first bytes
    are compared with eight bytes of the content, so that every JPEG file,
    which is longer, is an unsupported content of unknown type. *)
Theorem jpeg_bytes_unsupported preprocess digest rest : rest <> "" ->
  process cfg HAS_TESSERACT HAS_PYMUPDF HAS_PDFPLUMBER HAS_CV2 sha256 im op preprocess digest (Bytes (JPEG_MAGIC +:+ rest)) None None =
  Ok [error_sample "unknown" UNKNOWN DIRECT "Unsupported content type: ContentType.UNKNOWN"].
Proof.
  intros Hr. unfold process. assert (detect_content_type (Bytes (JPEG_MAGIC +:+ rest)) = UNKNOWN) as ->; [|done]. unfold detect_content_type.
  rewrite !(str_take_app_ge _ JPEG_MAGIC) by (cbn; lia). destruct rest as [|c rest]; [done|]. rewrite bool_decide_eq_false_2; [done|].
  rewrite !elem_of_cons, elem_of_nil. unfold JPEG_MAGIC, PNG_MAGIC. cbn. intros [H|[H|[]]]; discriminate H.
Qed.
End facts.

(** ** Concrete contents *)

Definition demo_imaging : imaging :=
  Imaging string Ok (fun p => Err (PyExn "FileNotFoundError" p)) Ok Ok
    (fun i l => Ok [("Hello", 96); (" ", 95); ("noise", -1); ("world", 90)]%Q) (fun _ => PNone) (fun _ => PNone).
Definition demo_cfg : ProcessorConfig := Config "eng" false 10.
Definition demo_page (t : string) : pdf_page := Page (Ok t) (Ok "png") (Ok []).
Definition demo_doc : pdf_doc := Doc 2 (fun n => Ok (demo_page (if n =? 0 then "first page" else " "))).
Definition demo_digest (_ : Z) : string := "0".
Definition demo_opened (tables : result pyexn plumber) : opened := Opened (fun _ => Ok demo_doc) (fun _ => tables) Ok id.
#[local] Abbreviation run tables := (process demo_cfg true true true false id demo_imaging (demo_opened tables) false demo_digest (Str "a.PDF") None None).

Lemma recognised_sample_witness : (0 <= sm_confidence (extract_image demo_cfg true false demo_imaging false "i" (Bytes "x") None) <= 1)%Q.
Proof.
  destruct (recognised_sample demo_cfg true false demo_imaging false "i" (Bytes "x") None) as (_ & H & _); [|exact H].
  intros i l data [= <-]. repeat constructor; cbn; lra.
Defined.
Lemma pdf_one_sample_per_page_witness : map sm_page (extract_pdf_text demo_cfg true true false demo_imaging false demo_digest (Ok demo_doc) (Some [1; 7])) = [Some 1].
Proof.
  destruct (pdf_one_sample_per_page demo_cfg true true false demo_imaging false demo_digest demo_doc (Some [1; 7]) eq_refl) as [H _].
  - intros n _. by eexists _, _, _.
  - exact H.
Defined.
Lemma ocr_error_hidden_witness : exists s, page_sample demo_cfg false false demo_imaging false demo_digest 2 1 (demo_page " ") = Ok s /\ sm_errors s = [].
Proof.
  destruct (ocr_error_hidden demo_cfg false false demo_imaging false demo_digest 2 1 (demo_page " ") " " "png") as (s & H1 & _ & H2); [reflexivity..|done|].
  by exists s.
Defined.
Lemma jpeg_bytes_unsupported_witness :
  process demo_cfg true true true false id demo_imaging (demo_opened (Ok (Plumber 0 (fun _ => Ok [])))) false demo_digest (Bytes (JPEG_MAGIC +:+ "JFIF")) None None =
  Ok [error_sample "unknown" UNKNOWN DIRECT "Unsupported content type: ContentType.UNKNOWN"].
Proof. by apply (jpeg_bytes_unsupported demo_cfg true true true false id demo_imaging (demo_opened (Ok (Plumber 0 (fun _ => Ok [])))) false demo_digest "JFIF"). Defined.

(** When the tables cannot be read, nothing says so: the error is absorbed by the
    sample of the first page. *)
Example table_errors_lost : match run (Err (PyExn "PDFSyntaxError" "no")) with Ok l => flat_map sm_errors l = [] /\ map sm_page l = [Some 0; Some 1] | Err _ => False end.
Proof. by vm_compute. Qed.
(** A sample that got the text of a table keeps the counts it had before. *)
Example merged_counts_stale : match run (Ok (Plumber 1 (fun _ => Ok [[[Some "a"; None]; [Some "1"; Some "2"]]]))) with
  | Ok (s :: _) => sm_char_count s = 10 /\ (10 < String.length (sm_text s))%nat
  | _ => False
  end.
Proof. vm_compute. split; [done|lia]. Qed.
(** An empty list of pages is every page. *)
Example no_pages_is_all : page_nums (Some []) 3 = [0; 1; 2].
Proof. reflexivity. Qed.
