(* ===== verification/LocalRoutes.v ===== *)
(** * The research crew and the routes over it

    local_ai/agents/research_crew.py and document_processor/api/local_ai_routes.py,
    over LocalScraper.v and VectorStore.v.  CrewAI's [kickoff] and the
    translator are parameters.  A research session is driven by a background
    task in three segments, between which the other routes run: [step] is a
    move of a route or of a task. *)

From Stdlib Require Import Ascii.
From S2P Require Import Prelude PyStr PyVal PyConv ResearchPrompts Chunking VectorStore LocalScraper.
#[local] Open Scope py_scope.
#[local] Open Scope Z_scope.

Definition upper_char (c : ascii) : ascii :=
  let n := nat_of_ascii c in if ((97 <=? n) && (n <=? 122))%nat then ascii_of_nat (n - 32) else c.
Definition capitalize (s : string) : string := match s with String c s => String (upper_char c) (lower s) | EmptyString => "" end.

(** ** The tools *)

Section tools.
(** [repr] of a float or a time *)
Variable atom_repr : pyval -> string.
#[local] Abbreviation str := (py_str atom_repr).

(** [result['text'][:2000]] *)
Definition first_2000 (v : pyval) : result pyexn pyval :=
  match v with
  | PStr s => Ok (PStr (str_take 2000 s))
  | PList l => Ok (PList (take 2000 l))
  | PDict _ => Err (PyExn "TypeError" "unhashable type: 'slice'")
  | _ => Err (type_error v "is not subscriptable")
  end.
(** [len(v)] *)
Definition py_len (v : pyval) : result pyexn Z :=
  match v with
  | PStr s => Ok (Z.of_nat (String.length s)) | PList l => Ok (zlength l) | PDict d => Ok (zlength d)
  | _ => Err (PyExn "TypeError" ("object of type '" +:+ type_name v +:+ "' has no len()"))
  end.
Definition scraped_text (query : string) (r : list (string * pyval)) : result pyexn string :=
  success <-! subscript "success" (PDict r);
  if truthy success then
    url <-! subscript "url" (PDict r); title <-! subscript "title" (PDict r); txt <-! subscript "text" (PDict r); txt <-! first_2000 txt;
    n <-! py_len (default (PList []) (dict_get "links" r)); method <-! subscript "method" (PDict r);
    Ok (NL +:+ "URL: " +:+ str url +:+ NL +:+ "Title: " +:+ str title +:+ NL +:+ "Content: " +:+ str txt +:+ "..." +:+ NL +:+
        "Links Found: " +:+ str_int n +:+ NL +:+ "Method: " +:+ str method +:+ NL)
  else Ok ("Failed to scrape " +:+ query +:+ ": " +:+ str (default (PStr "Unknown error") (dict_get "error" r))).
(** What the scraper answered for the query, which is taken for an address *)
Definition web_search_run (query : string) (scraped : result pyexn (list (string * pyval))) : result pyexn string :=
  match (r <-! scraped; scraped_text query r) with
  | Err x => if cancelled x then Err x else Ok ("Error during web search: " +:+ exn_str x)
  | Ok s => Ok s
  end.
Definition translation_run (translator : option (string -> string -> string -> result pyexn pyval)) (txt source_lang target_lang : string) : result pyexn pyval :=
  match translator with
  | None => Ok (PStr "Translation service not available")
  | Some translate =>
      match (r <-! translate txt source_lang target_lang; subscript "translation" r) with
      | Err x => if cancelled x then Err x else Ok (PStr ("Translation failed: " +:+ exn_str x))
      | Ok v => Ok v
      end
  end.
End tools.

(** ** The tasks of the crew *)

Variant agent := Researcher | Analyst | Writer.
Record crew_task := CrewTask { description : string; by_agent : agent; expected_output : string }.
Record depth_settings := DepthSettings { d_sources : Z; analysis_depth : string; d_max_tokens : Z }.
Definition depth_config (depth : string) : depth_settings :=
  if String.eqb depth "quick" then DepthSettings 3 "brief" 1000
  else if String.eqb depth "deep" then DepthSettings 10 "comprehensive" 4000
  else DepthSettings 5 "thorough" 2000.
Definition named_sources (sources : option (list string)) (n : Z) : list string := py_take n (default [] sources).
Definition focus_line (sources : option (list string)) (n : Z) : string :=
  match sources with
  | Some (_ :: _) => "Focus on these sources: " +:+ join ", " (named_sources sources n)
  | _ => "Find the most credible sources available"
  end.
Definition research_description (topic : string) (sources : option (list string)) (c : depth_settings) : string :=
  NL +:+ "Research the following topic thoroughly:" +:+ NL +:+ NL +:+ "Topic: " +:+ topic +:+ NL +:+ NL +:+ "Your responsibilities:" +:+ NL +:+
  "1. Gather information from " +:+ str_int (d_sources c) +:+ " credible sources" +:+ NL +:+ "2. Extract key facts, data, and insights" +:+ NL +:+
  "3. Identify relevant links and references" +:+ NL +:+ "4. Note source credibility and publication dates" +:+ NL +:+
  "5. Compile raw findings for analysis" +:+ NL +:+ NL +:+ focus_line sources (d_sources c) +:+ NL +:+ NL +:+
  "Provide detailed findings with source citations." +:+ NL.
Definition analysis_description (topic : string) (c : depth_settings) : string :=
  NL +:+ "Analyze the research findings and synthesize insights:" +:+ NL +:+ NL +:+ "Topic: " +:+ topic +:+ NL +:+ NL +:+ "Your responsibilities:" +:+ NL +:+
  "1. Review all gathered information" +:+ NL +:+ "2. Identify key patterns and themes" +:+ NL +:+ "3. Cross-reference facts across sources" +:+ NL +:+
  "4. Evaluate credibility and confidence levels" +:+ NL +:+ "5. Draw meaningful conclusions" +:+ NL +:+
  "6. Highlight contradictions or uncertainties" +:+ NL +:+ "7. Provide a " +:+ analysis_depth c +:+ " analysis" +:+ NL +:+ NL +:+
  "Focus on objective analysis and cite all sources." +:+ NL.
Definition writing_description (topic : string) (c : depth_settings) : string :=
  NL +:+ "Create a comprehensive research report:" +:+ NL +:+ NL +:+ "Topic: " +:+ topic +:+ NL +:+ NL +:+ "Your responsibilities:" +:+ NL +:+
  "1. Synthesize research findings and analysis" +:+ NL +:+ "2. Structure the report logically with clear sections" +:+ NL +:+
  "3. Include executive summary" +:+ NL +:+ "4. Present key findings with evidence" +:+ NL +:+ "5. Cite all sources properly" +:+ NL +:+
  "6. Highlight confidence levels and limitations" +:+ NL +:+ "7. Provide actionable insights" +:+ NL +:+
  "8. Keep the report under " +:+ str_int (d_max_tokens c) +:+ " words" +:+ NL +:+ NL +:+
  "Create a professional, well-structured report." +:+ NL.
Definition create_research_tasks (topic : string) (sources : option (list string)) (depth : string) : list crew_task :=
  let c := depth_config depth in
  [CrewTask (research_description topic sources c) Researcher ("Comprehensive research findings with " +:+ str_int (d_sources c) +:+ " sources cited");
   CrewTask (analysis_description topic c) Analyst (capitalize (analysis_depth c) +:+ " analysis with confidence scores and source citations");
   CrewTask (writing_description topic c) Writer "Well-structured research report with executive summary, findings, analysis, and sources"].

(** ** A run *)

Record ResearchOutput := Output {
  o_topic : string; o_findings : string; o_sources : list string; o_analysis : string; o_summary : string; o_confidence : Q; o_timestamp : string }.
(** [crew.kickoff] of the tasks, in sequence or not: the text of its result *)
Definition kickoff_fn : Type := list crew_task -> bool -> result pyexn string.
Definition crew_research (kickoff : kickoff_fn) (topic : string) (sources : option (list string)) (depth process timestamp : string) : result pyexn ResearchOutput :=
  summary <-! kickoff (create_research_tasks topic sources depth) (String.eqb process "sequential");
  Ok (Output topic (str_take 2000 summary) (default [] sources) summary (str_take 500 summary) 0.8 timestamp).
(** The topics, each with the run of its crew and the time of its end *)
Fixpoint batch_research (topics : list (string * kickoff_fn * string)) (depth : string) : result pyexn (list ResearchOutput) :=
  match topics with
  | [] => Ok []
  | (topic, kickoff, timestamp) :: topics' =>
      match crew_research kickoff topic None depth "sequential" timestamp with
      | Ok r => rest <-! batch_research topics' depth; Ok (r :: rest)
      | Err x => if cancelled x then Err x else batch_research topics' depth
      end
  end.

(** ** Sessions *)

Variant status := Started | InProgress | Completed | Failed | Stopped.
#[export] Instance status_eq_dec : EqDecision status.
Proof. solve_decision. Defined.
Definition status_str (s : status) : string :=
  match s with Started => "started" | InProgress => "in_progress" | Completed => "completed" | Failed => "failed" | Stopped => "stopped" end.
Record timeline_entry := Entry { te_timestamp : string; te_agent : string; te_description : string; te_status : string }.
Record research_result := RResult { r_summary : string; r_findings : string; r_analysis : string; r_sources : list (string * string); r_confidence : Q }.
Record session := Session {
  s_id : string; s_topic : string; s_depth : string; s_status : status; s_progress : Z; s_agent : option string; s_task : option string;
  s_timeline : list timeline_entry; s_started_at : string; s_result : option research_result; s_completed_at : option string;
  s_stopped_at : option string; s_error : option string }.
Record ResearchRequest := Request { q_topic : string; q_depth : string; q_sources : option (list string); q_use_translation : bool; q_save : bool }.
Definition valid_request (q : ResearchRequest) : bool := negb (String.eqb (q_topic q) "").
Record fault := Fault { f_code : Z; f_detail : string }.

Definition new_session (id : string) (q : ResearchRequest) (now now' : string) : session :=
  Session id (q_topic q) (q_depth q) Started 0 None (Some "Initializing research") [Entry now "System" "Research session started" "completed"] now'
    None None None None.
Definition at_point (st : status) (progress : Z) (ag tk : option string) (s : session) : session :=
  Session (s_id s) (s_topic s) (s_depth s) st progress ag tk (s_timeline s) (s_started_at s) (s_result s) (s_completed_at s) (s_stopped_at s) (s_error s).
Definition mark_begun : session -> session := at_point InProgress 10 (Some "Research Specialist") (Some "Gathering information").
Definition mark_writing (s : session) : session := at_point (s_status s) 80 (Some "Writer") (Some "Generating report") s.
Definition result_of (r : ResearchOutput) : research_result :=
  RResult (o_summary r) (o_findings r) (o_analysis r) (map (fun s => (s, s)) (o_sources r)) (o_confidence r).
Definition mark_completed (r : ResearchOutput) (now : string) (s : session) : session :=
  let s := at_point Completed 100 None None s in
  Session (s_id s) (s_topic s) (s_depth s) (s_status s) (s_progress s) (s_agent s) (s_task s) (s_timeline s) (s_started_at s)
    (Some (result_of r)) (Some now) (s_stopped_at s) (s_error s).
Definition mark_failed (x : pyexn) (s : session) : session :=
  Session (s_id s) (s_topic s) (s_depth s) Failed (s_progress s) (s_agent s) (s_task s) (s_timeline s) (s_started_at s)
    (s_result s) (s_completed_at s) (s_stopped_at s) (Some (exn_str x)).
Definition mark_stopped (now : string) (s : session) : session :=
  Session (s_id s) (s_topic s) (s_depth s) Stopped (s_progress s) (s_agent s) (s_task s) (s_timeline s) (s_started_at s)
    (s_result s) (s_completed_at s) (Some now) (s_error s).

(** Where a background task waits: to be started, for the crew, for the store *)
Variant point := Queued (q : ResearchRequest) | Researching (q : ResearchRequest) | Saving (q : ResearchRequest) (r : ResearchOutput).

Section routes.
Context {T : Type} `{LanceTable T}.
Context (encode : list string -> result pyexn (list (list Q))) (sha256 : string -> string).

(** The module's globals; of the client, the translator, the scraper and the
    crew whether they are there *)
Record globals := Globals { g_ollama : bool; g_translator : bool; g_scraper : bool; g_store : option T; g_crew : bool }.
(** The sessions, the order in which they were entered, and the tasks *)
Record world := World { w_globals : globals; sessions : gmap string session; order : list string; tasks : gmap string point }.
Definition set_session (id : string) (s : session) (w : world) : world :=
  World (w_globals w) (<[id := s]> (sessions w)) (match sessions w !! id with Some _ => order w | None => order w ++ [id] end) (tasks w).
Definition upd_session (id : string) (f : session -> session) (w : world) : world := World (w_globals w) (alter f id (sessions w)) (order w) (tasks w).
Definition set_task (id : string) (p : option point) (w : world) : world := World (w_globals w) (sessions w) (order w) (partial_alter (fun _ => p) id (tasks w)).
Definition set_store (t : T) (w : world) : world :=
  let g := w_globals w in World (Globals (g_ollama g) (g_translator g) (g_scraper g) (Some t) (g_crew g)) (sessions w) (order w) (tasks w).

(** *** Start and shutdown *)

(** What the constructors raise, and the store that is opened *)
Record constructors := Constructors {
  c_ollama : result pyexn unit; c_translator : result pyexn unit; c_scraper : result pyexn unit; c_store : result pyexn T; c_crew : result pyexn unit }.
Definition init_translator (nllb_model_path : option string) (c : constructors) (g : globals) : bool :=
  if truthy_str nllb_model_path then match c_translator c with Ok _ => true | Err _ => false end else g_translator g.
Definition initialize_local_ai (nllb_model_path : option string) (c : constructors) (g : globals) : result pyexn unit * globals :=
  match c_ollama c with Err x => (Err x, g) | Ok _ =>
  let tr := init_translator nllb_model_path c g in
  match c_scraper c with Err x => (Err x, Globals true tr (g_scraper g) (g_store g) (g_crew g)) | Ok _ =>
  match c_store c with Err x => (Err x, Globals true tr true (g_store g) (g_crew g)) | Ok t =>
  match c_crew c with Err x => (Err x, Globals true tr true (Some t) (g_crew g)) | Ok _ => (Ok (), Globals true tr true (Some t) true)
  end end end end.

(** *** Health *)

(** The client has no method of this name. *)
Definition client_health : result pyexn bool := Err (PyExn "AttributeError" "'OllamaClient' object has no attribute 'health'").
Fixpoint any_named (model : string) (models : list pyval) : result pyexn bool :=
  match models with
  | [] => Ok false
  | m :: models' => n <-! get_attr "name" m; if bool_decide (n = Some (PStr model)) then Ok true else any_named model models'
  end.
(** The statements of the inner [try], on what is in the dictionary before *)
Definition ollama_part (model : string) (models : result pyexn (list pyval)) (d : list (string * pyval)) : result pyexn (list (string * pyval)) :=
  match client_health with
  | Err x => Ok (dict_set "ollama_error" (PStr (exn_str x)) (dict_set "ollama_status" (PStr "unhealthy") d))
  | Ok h =>
      let d := dict_set "ollama_status" (PStr (if h then "healthy" else "unhealthy")) d in
      match (l <-! models; any_named model l) with
      | Err x => if cancelled x then Err x else Ok (dict_set "ollama_error" (PStr (exn_str x)) (dict_set "ollama_status" (PStr "unhealthy") d))
      | Ok loaded => Ok (dict_set "vram_usage_mb" (PInt (if loaded then 4500 else 0)) (dict_set "model_loaded" (PBool loaded) d))
      end
  end.
Definition health_check (model timestamp : string) (models : result pyexn (list pyval)) (g : globals) : result pyexn (list (string * pyval)) :=
  let d := [("status", PStr "healthy"); ("timestamp", PStr timestamp)] in
  d <-! (if g_ollama g then ollama_part model models d else Ok (dict_set "ollama_status" (PStr "not initialized") d));
  let d := dict_set "translator_available" (PBool (g_translator g)) d in
  let d := dict_set "scraper_available" (PBool (g_scraper g)) d in
  let d := dict_set "vector_store_available" (PBool (bool_decide (is_Some (g_store g)))) d in
  let d := dict_set "research_crew_available" (PBool (g_crew g)) d in
  Ok (if bool_decide (dict_get "ollama_status" d = Some (PStr "healthy")) then d else dict_set "status" (PStr "degraded") d).

(** *** A research *)

Definition start_research (id : string) (q : ResearchRequest) (now now' : string) (w : world) : result fault string * world :=
  if negb (valid_request q) then (Err (Fault 422 "validation error"), w) else
  if negb (g_crew (w_globals w)) then (Err (Fault 503 "Research crew not initialized"), w) else
  (Ok id, set_task id (Some (Queued q)) (set_session id (new_session id q now now') w)).
(** To the wait for the crew.  Without its session the task ends: the handler of
    the lookup's error raises another one. *)
Definition execute_begin (id : string) (q : ResearchRequest) (w : world) : world :=
  match sessions w !! id with
  | None => set_task id None w
  | Some _ => set_task id (Some (Researching q)) (upd_session id mark_begun w)
  end.
(** [except Exception] *)
Definition execute_failed (id : string) (x : pyexn) (w : world) : world :=
  set_task id None (if cancelled x then w else upd_session id (mark_failed x) w).
Definition execute_completed (id : string) (r : ResearchOutput) (now : string) (w : world) : world :=
  set_task id None (upd_session id (mark_completed r now) w).
(** To the wait for the store, or to the end *)
Definition execute_researched (id : string) (q : ResearchRequest) (kickoff : kickoff_fn) (timestamp now : string) (w : world) : world :=
  match crew_research kickoff (q_topic q) (q_sources q) (q_depth q) "sequential" timestamp with
  | Err x => execute_failed id x w
  | Ok r =>
      let w := upd_session id mark_writing w in
      if q_save q && bool_decide (is_Some (g_store (w_globals w))) then set_task id (Some (Saving q r)) w else execute_completed id r now w
  end.
Definition save_report (fuel : nat) (id : string) (q : ResearchRequest) (r : ResearchOutput) (timestamp : string) (t : T) : option (result pyexn ingested * T) :=
  add_document encode sha256 fuel (o_analysis r) id None (Some ("Research: " +:+ q_topic q)) None 1000 200 timestamp t.
Definition execute_saved (id : string) (r : ResearchOutput) (saved : result pyexn ingested) (now : string) (w : world) : world :=
  match saved with Ok _ => execute_completed id r now w | Err x => execute_failed id x w end.
(** The whole task, when nothing runs between its parts; [None]: the fuel for
    cutting the report was not enough *)
Definition execute_research (fuel : nat) (id : string) (q : ResearchRequest) (kickoff : kickoff_fn) (timestamp saved_at now : string) (w : world) : option world :=
  let w := execute_researched id q kickoff timestamp now (execute_begin id q w) in
  match tasks w !! id, g_store (w_globals w) with
  | Some (Saving q r), Some t => '(saved, t) ← save_report fuel id q r saved_at t; Some (execute_saved id r saved now (set_store t w))
  | _, _ => Some w
  end.

(** *** Reading and stopping *)

Definition no_session : fault := Fault 404 "Session not found".
Record ResearchStatusResponse := StatusResponse {
  t_id : string; t_status : status; t_progress : Z; t_agent : option string; t_task : option string; t_timeline : list timeline_entry;
  t_result : option research_result }.
Definition get_research_status (id : string) (w : world) : result fault ResearchStatusResponse :=
  match sessions w !! id with
  | None => Err no_session
  | Some s => Ok (StatusResponse id (s_status s) (s_progress s) (s_agent s) (s_task s) (s_timeline s) (if decide (s_status s = Completed) then s_result s else None))
  end.
(** [session["result"]] of a session without one is a KeyError. *)
Definition get_research_result (id : string) (w : world) : result (fault + pyexn) research_result :=
  match sessions w !! id with
  | None => Err (inl no_session)
  | Some s =>
      if decide (s_status s = Completed) then match s_result s with Some r => Ok r | None => Err (inr (PyExn "KeyError" "'result'")) end
      else Err (inl (Fault 400 "Research not completed yet"))
  end.
Definition finished (s : session) : Prop := s_status s ∈ [Completed; Failed].
Definition stop_research (id now : string) (w : world) : result fault unit * world :=
  match sessions w !! id with
  | None => (Err no_session, w)
  | Some s =>
      if decide (s_status s ∈ [Completed; Failed]) then (Err (Fault 400 "Research already finished"), w)
      else (Ok (), upd_session id (mark_stopped now) w)
  end.
(** [sorted(..., key=started_at, reverse=True)] keeps the order of equal keys. *)
Definition later (a b : session) : Prop := String.le (s_started_at b) (s_started_at a).
Fixpoint insert_latest (x : session) (l : list session) : list session :=
  match l with
  | [] => [x]
  | y :: l' => if decide (String.le (s_started_at y) (s_started_at x)) then x :: l else y :: insert_latest x l'
  end.
Definition sort_latest (l : list session) : list session := foldr insert_latest [] l.
Record history_entry := HistoryEntry { h_id : string; h_topic : string; h_depth : string; h_status : status; h_timestamp : string; h_sources_count : Z }.
Definition history_of (s : session) : history_entry :=
  HistoryEntry (s_id s) (s_topic s) (s_depth s) (s_status s) (s_started_at s) (match s_result s with Some r => zlength (r_sources r) | None => 0 end).
Definition get_research_history (limit : Z) (w : world) : list history_entry :=
  map history_of (py_take limit (sort_latest (omap (fun id => sessions w !! id) (order w)))).

(** *** The store and the model *)

Definition or_500 {A} (r : result pyexn A) : result (fault + pyexn) A :=
  match r with Err x => Err (if cancelled x then inr x else inl (Fault 500 (exn_str x))) | Ok a => Ok a end.
Definition vector_search (query : string) (limit : Z) (g : globals) : result (fault + pyexn) (list found) :=
  if String.eqb query "" || negb ((1 <=? limit) && (limit <=? 50)) then Err (inl (Fault 422 "validation error")) else
  match g_store g with
  | None => Err (inl (Fault 503 "Vector store not initialized"))
  | Some t => or_500 (search encode query limit 0.5 None t)
  end.
Definition get_vector_stats (g : globals) : result fault (result string Z) :=
  match g_store g with None => Err (Fault 503 "Vector store not initialized") | Some t => Ok (get_stats t) end.
Definition generate_text (model keep_alive prompt : string) (system : option string) (max_tokens : option Z) (api : ollama) (g : globals)
  : result (fault + pyexn) pyval :=
  if negb (g_ollama g) then Err (inl (Fault 503 "Ollama client not initialized"))
  else or_500 (generate model keep_alive api prompt system 0.7 max_tokens).
Definition list_models_route (api : ollama) (g : globals) : result (fault + pyexn) (list pyval) :=
  if negb (g_ollama g) then Err (inl (Fault 503 "Ollama client not initialized")) else or_500 (list_models api).

(** *** What can happen *)

Inductive step : world -> world -> Prop :=
| step_start id q now now' w : sessions w !! id = None -> step w (start_research id q now now' w).2
| step_begin id q w : tasks w !! id = Some (Queued q) -> step w (execute_begin id q w)
| step_researched id q kickoff ts now w : tasks w !! id = Some (Researching q) -> step w (execute_researched id q kickoff ts now w)
| step_saved id q r fuel ts now t saved t' w : tasks w !! id = Some (Saving q r) -> g_store (w_globals w) = Some t ->
    save_report fuel id q r ts t = Some (saved, t') -> step w (execute_saved id r saved now (set_store t' w))
| step_stop id now w : step w (stop_research id now w).2.

(** ** The sessions hold together *)

Definition session_ok (id : string) (s : session) (p : option point) : Prop :=
  s_id s = id /\ s_progress s ∈ [0; 10; 80; 100] /\
  (s_status s = Completed <-> is_Some (s_result s)) /\
  (s_status s = Completed -> s_progress s = 100 /\ is_Some (s_completed_at s)) /\
  (s_status s = Failed -> is_Some (s_error s)) /\ (s_status s = Stopped -> is_Some (s_stopped_at s)) /\ (finished s -> p = None) /\
  match p with
  | Some (Queued _) => s_progress s = 0
  | Some (Researching _) => s_progress s = 10
  | Some (Saving _ r) => s_progress s = 80
  | None => True
  end.
Definition world_ok (w : world) : Prop :=
  NoDup (order w) /\ (forall id, id ∈ order w <-> is_Some (sessions w !! id)) /\
  (forall id s, sessions w !! id = Some s -> session_ok id s (tasks w !! id)) /\
  (forall id p, tasks w !! id = Some p -> is_Some (sessions w !! id)).
Definition fresh_world (g : globals) : world := World g ∅ [] ∅.

Lemma upd_task_ok id f p w : world_ok w -> (forall s, sessions w !! id = Some s -> session_ok id (f s) p) -> is_Some (sessions w !! id) ->
  world_ok (set_task id p (upd_session id f w)).
Proof.
  intros (Hn & Ho & Hs & Ht) Hf [s0 H0]. split_and!; cbn; [done| | |].
  - intros i. rewrite Ho. destruct (decide (i = id)) as [->|Hi]; [rewrite lookup_alter_eq, fmap_is_Some; done|]. by rewrite lookup_alter_ne.
  - intros i s. destruct (decide (i = id)) as [->|Hi].
    + rewrite lookup_alter_eq, lookup_partial_alter_eq, H0. intros [= <-]. by apply Hf.
    + rewrite lookup_alter_ne, lookup_partial_alter_ne by done. apply Hs.
  - intros i p'. destruct (decide (i = id)) as [->|Hi]; [rewrite lookup_alter_eq, H0; by eexists|].
    rewrite lookup_alter_ne, lookup_partial_alter_ne by done. apply Ht.
Qed.
Lemma set_store_ok t w : world_ok w -> world_ok (set_store t w).
Proof. done. Qed.
(** A task that ends without a word *)
Lemma drop_task_ok id w : world_ok w -> world_ok (set_task id None w).
Proof.
  intros (Hn & Ho & Hs & Ht). split_and!; cbn; [done|done| |].
  - intros i s Hi. destruct (decide (i = id)) as [->|Hne]; [|by rewrite lookup_partial_alter_ne; [apply Hs|]].
    rewrite lookup_partial_alter_eq. apply Hs in Hi as (? & ? & ? & ? & ? & ? & ? & _). split_and!; done.
  - intros i p. destruct (decide (i = id)) as [->|Hne]; [by rewrite lookup_partial_alter_eq|]. rewrite lookup_partial_alter_ne by done. apply Ht.
Qed.
Lemma failed_ok id x w : world_ok w -> (forall s, sessions w !! id = Some s -> ~ finished s) -> is_Some (sessions w !! id) -> world_ok (execute_failed id x w).
Proof.
  intros Hok Hnf Hid. unfold execute_failed. destruct (cancelled x); [by apply drop_task_ok|]. apply upd_task_ok; [done| |done]. intros s Hs.
  pose proof (Hnf s Hs) as Hn. destruct Hok as (_ & _ & Hall & _). apply Hall in Hs as (? & ? & Hr & ? & ? & ? & _).
  assert (s_result s = None) as Hnone.
  { destruct (s_result s) eqn:E; [|done]. exfalso. apply Hn. unfold finished. rewrite (proj2 Hr) by (by eexists). set_solver. }
  split_and!; cbn; try done. rewrite Hnone. split; [done|by intros []].
Qed.
Lemma completed_ok id r now w : world_ok w -> is_Some (sessions w !! id) -> world_ok (execute_completed id r now w).
Proof.
  intros Hok Hid. apply upd_task_ok; [done| |done]. intros s Hs. destruct Hok as (_ & _ & Hall & _). apply Hall in Hs as (? & ? & ? & ? & ? & ? & _).
  split_and!; cbn; try done. set_solver.
Qed.
Lemma task_not_finished id p w s : world_ok w -> tasks w !! id = Some p -> sessions w !! id = Some s -> ~ finished s.
Proof. intros (_ & _ & Hs & _) Hp Hi Hf. apply Hs in Hi as (_ & _ & _ & _ & _ & _ & Hn & _). by rewrite Hn in Hp. Qed.
(** A mark in between leaves the status unfinished and has no result. *)
Lemma unfinished_no_result id s p : session_ok id s p -> ~ finished s -> s_result s = None.
Proof.
  intros (_ & _ & Hr & _) Hn. destruct (s_result s) eqn:E; [|done]. exfalso. apply Hn. unfold finished. rewrite (proj2 Hr) by (by eexists). set_solver.
Qed.
Lemma local_start_ok id q now now' w : world_ok w -> sessions w !! id = None -> world_ok (start_research id q now now' w).2.
Proof.
  intros (Hn & Ho & Hs & Ht) Hid. unfold start_research. destruct (negb _); [done|]. destruct (negb _); [done|]. cbn. unfold set_session. rewrite Hid.
  assert (id ∉ order w) as Hni by (rewrite Ho, Hid; by intros []). split_and!; cbn.
  - apply NoDup_app. split_and!; [done|set_solver|apply NoDup_singleton].
  - intros i. rewrite elem_of_app, list_elem_of_singleton, Ho. destruct (decide (i = id)) as [->|Hi]; [rewrite lookup_insert_eq; split; [by eexists|by right]|].
    rewrite lookup_insert_ne by done. split; [by intros [?|?]|by left].
  - intros i s. destruct (decide (i = id)) as [->|Hi].
    + rewrite lookup_insert_eq, lookup_partial_alter_eq. intros [= <-]. split_and!; cbn; try done; [set_solver|].
      unfold finished. cbn. set_solver.
    + rewrite lookup_insert_ne, lookup_partial_alter_ne by done. apply Hs.
  - intros i p. destruct (decide (i = id)) as [->|Hi]; [rewrite lookup_insert_eq; by eexists|].
    rewrite lookup_insert_ne, lookup_partial_alter_ne by done. apply Ht.
Qed.
Lemma begin_ok id q w : world_ok w -> tasks w !! id = Some (Queued q) -> world_ok (execute_begin id q w).
Proof.
  intros Hok Hq. pose proof Hok as (_ & _ & Hs & Ht). destruct (Ht _ _ Hq) as [s0 H0]. unfold execute_begin. rewrite H0.
  apply upd_task_ok; [done| |by eexists]. intros s Hi. pose proof (task_not_finished _ _ _ _ Hok Hq Hi) as Hf.
  pose proof (unfinished_no_result _ _ _ (Hs _ _ Hi) Hf) as Hr. destruct (Hs _ _ Hi) as (? & ? & ? & ? & ? & ? & _).
  split_and!; cbn; try done; [set_solver|rewrite Hr; split; [done|by intros []]|unfold finished; cbn; set_solver].
Qed.
Lemma writing_ok id q w : world_ok w -> tasks w !! id = Some (Researching q) -> forall s, sessions w !! id = Some s ->
  session_ok id (mark_writing s) None /\ ~ finished s.
Proof.
  intros Hok Hq s Hi. pose proof Hok as (_ & _ & Hs & Ht). pose proof (task_not_finished _ _ _ _ Hok Hq Hi) as Hf. split; [|done].
  pose proof (unfinished_no_result _ _ _ (Hs _ _ Hi) Hf) as Hr. destruct (Hs _ _ Hi) as (? & ? & ? & Hc & ? & ? & _).
  split_and!; cbn; try done; [set_solver|]. intros Hst. exfalso. apply Hf. unfold finished. rewrite Hst. set_solver.
Qed.
Lemma researched_ok id q kickoff ts now w : world_ok w -> tasks w !! id = Some (Researching q) -> world_ok (execute_researched id q kickoff ts now w).
Proof.
  intros Hok Hq. pose proof Hok as (_ & _ & _ & Ht). pose proof (Ht _ _ Hq) as Hid. unfold execute_researched.
  destruct (crew_research _ _ _ _ _ _) as [r|x].
  - destruct (_ && _).
    + apply upd_task_ok; [done| |done]. intros s Hs. destruct (writing_ok id q w Hok Hq s Hs) as [(? & ? & ? & ? & ? & ? & _ & _) Hf]. split_and!; done.
    + unfold execute_completed, upd_session at 1. cbn. rewrite alter_alter_eq. apply (upd_task_ok id (mark_completed r now ∘ mark_writing) None w Hok); [|done].
      intros s Hs. destruct (writing_ok id q w Hok Hq s Hs) as [(? & ? & ? & ? & ? & ? & _ & _) Hf]. split_and!; cbn; try done. set_solver.
  - apply failed_ok; [done| |done]. intros s Hs. by destruct (writing_ok id q w Hok Hq s Hs).
Qed.
Lemma local_stop_ok id now w : world_ok w -> world_ok (stop_research id now w).2.
Proof.
  intros Hok. unfold stop_research. destruct (sessions w !! id) as [s|] eqn:Hi; [|done]. destruct (decide _) as [|Hnf]; [done|]. cbn.
  assert (world_ok (set_task id (tasks w !! id) (upd_session id (mark_stopped now) w))) as Hw.
  { apply upd_task_ok; [done| |by eexists]. rewrite Hi. intros ? [= <-]. pose proof Hok as (_ & _ & Hs & _).
    pose proof (unfinished_no_result _ _ _ (Hs _ _ Hi) Hnf) as Hr. destruct (Hs _ _ Hi) as (? & ? & ? & ? & ? & ? & ? & ?).
    split_and!; cbn; try done; [rewrite Hr; split; [done|by intros []]|unfold finished; cbn; set_solver]. }
  unfold set_task, upd_session in *. cbn in *. by rewrite partial_alter_self in Hw.
Qed.
Lemma step_ok w w' : step w w' -> world_ok w -> world_ok w'.
Proof.
  intros [id q now now' v Hid|id q v Hq|id q k ts now v Hq|id q r fuel ts now t saved t' v Hq _ _|id now v] Hok.
  - by apply local_start_ok.
  - by apply begin_ok.
  - by eapply researched_ok.
  - pose proof Hok as (_ & _ & _ & Ht). pose proof (Ht _ _ Hq) as Hid. apply (set_store_ok t') in Hok. destruct saved as [i|x]; cbn; [by apply completed_ok|].
    apply failed_ok; [done| |done]. intros s Hs. by apply (task_not_finished id (Saving q r) (set_store t' v)).
  - by apply local_stop_ok.
Qed.
Lemma steps_ok w w' : rtc step w w' -> world_ok w -> world_ok w'.
Proof. induction 1 as [|w1 w2 w3 Hs Hr IH]; [done|]. intros Hw. apply IH. by apply (step_ok w1). Qed.

(** The sessions hold together, whatever requests come and however the
    background tasks run between them, from an empty start: a session's progress
    is 0, 10, 80 or 100; it has a result exactly if it is completed, and then
    its progress is 100; a failed one has its error, a stopped one its time; a
    session that is completed or failed has no task any more, and a task
    finds its session. *)
Theorem local_sessions_invariant g w : rtc step (fresh_world g) w -> world_ok w.
Proof.
  intros Hr. apply (steps_ok _ _ Hr). split_and!; cbn; [by apply NoDup_nil| | |].
  - intros id. rewrite lookup_empty. split; [by intros ?%elem_of_nil|by intros []].
  - intros id s. by rewrite lookup_empty.
  - intros id p. by rewrite lookup_empty.
Qed.
(** Asking for a result never fails on a missing one: the answer is that there
    is no such session, that the research is not completed, or the result. *)
Theorem result_route_answers id w : world_ok w ->
  get_research_result id w = Err (inl no_session) /\ sessions w !! id = None \/
  (exists s, sessions w !! id = Some s /\
    (s_status s <> Completed /\ get_research_result id w = Err (inl (Fault 400 "Research not completed yet")) \/
     exists r, s_result s = Some r /\ get_research_result id w = Ok r)).
Proof.
  intros (_ & _ & Hs & _). unfold get_research_result. destruct (sessions w !! id) as [s|] eqn:E; [right|by left]. exists s. split; [done|].
  destruct (decide _) as [Hc|Hc]; [right|by left]. destruct (Hs _ _ E) as (_ & _ & Hr & _). apply Hr in Hc as [r Hr']. exists r. by rewrite Hr'.
Qed.
(** A finished session stays as it is. *)
Theorem finished_session_stays id s w w' : world_ok w -> step w w' -> sessions w !! id = Some s -> finished s -> sessions w' !! id = Some s.
Proof.
  intros Hok Hst Hi Hf.
  assert (forall i p, tasks w !! i = Some p -> i <> id) as Hne by (intros i p Hp ->; by apply (task_not_finished id p w s)).
  destruct Hst as [i q now now' v Hid|i q v Hq|i q k ts now v Hq|i q r fuel ts now t saved t' v Hq _ _|i now v].
  - unfold start_research. destruct (negb _); [done|]. destruct (negb _); [done|]. cbn. rewrite lookup_insert_ne; [done|congruence].
  - pose proof (Hne _ _ Hq). unfold execute_begin. destruct (sessions v !! i); [|done]. cbn. by rewrite lookup_alter_ne.
  - pose proof (Hne _ _ Hq). unfold execute_researched. destruct (crew_research _ _ _ _ _ _) as [r|x].
    + destruct (_ && _); cbn; by rewrite ?lookup_alter_ne.
    + unfold execute_failed. destruct (cancelled x); [done|]. cbn. by rewrite lookup_alter_ne.
  - pose proof (Hne _ _ Hq). destruct saved as [|x]; cbn; [by rewrite lookup_alter_ne|].
    unfold execute_failed. destruct (cancelled x); [done|]. cbn. by rewrite lookup_alter_ne.
  - unfold stop_research. destruct (sessions v !! i) as [s'|] eqn:E; [|done]. destruct (decide _) as [|Hn]; [done|]. cbn.
    rewrite lookup_alter_ne; [done|]. intros ->. rewrite Hi in E. injection E as <-. done.
Qed.

(** ** How a run ends *)

(** A run ends, whatever the crew returns or raises short of a cancellation,
    and whatever the embedding model and the table do, provided the report can
    be cut: the session is completed and has the report's text and the sources
    that were asked for, or it is failed; the task is gone. *)
Theorem local_run_ends fuel id q kickoff ts saved_at now w s : sessions w !! id = Some s ->
  (forall x, crew_research kickoff (q_topic q) (q_sources q) (q_depth q) "sequential" ts = Err x -> cancelled x = false) ->
  (forall l x, encode l = Err x -> cancelled x = false) -> (forall l t x t', table_add l t = (Err x, t') -> cancelled x = false) ->
  (forall txt b, kickoff (create_research_tasks (q_topic q) (q_sources q) (q_depth q)) b = Ok txt -> is_Some (vs_chunk_text fuel txt 1000 200)) ->
  exists w' s', execute_research fuel id q kickoff ts saved_at now w = Some w' /\ sessions w' !! id = Some s' /\ tasks w' !! id = None /\
    (s_status s' = Failed \/ s_status s' = Completed /\ exists txt, kickoff (create_research_tasks (q_topic q) (q_sources q) (q_depth q)) true = Ok txt /\
       s_result s' = Some (RResult (str_take 500 txt) (str_take 2000 txt) txt (map (fun u => (u, u)) (default [] (q_sources q))) 0.8)).
Proof.
  intros Hs Hc He Ha Hcut. unfold execute_research, execute_begin. rewrite Hs. unfold execute_researched.
  destruct (crew_research _ _ _ _ _ _) as [r|x] eqn:Er.
  - unfold crew_research in Er. destruct (kickoff _ _) as [txt|] eqn:Ek; [|done]. cbn [rbind] in Er. injection Er as <-. cbn [w_globals set_task upd_session].
    destruct (q_save q && _) eqn:Eb; cbn [tasks set_task w_globals upd_session].
    + rewrite lookup_partial_alter_eq. apply andb_true_iff in Eb as [_ [t Ht]%bool_decide_eq_true]. cbn in Ht. cbn. rewrite Ht.
      destruct (Hcut _ _ Ek) as [chunks Hch]. unfold save_report, add_document. cbn [o_analysis]. rewrite Hch. cbn [mbind option_bind].
      destruct (encode chunks) as [vs|x] eqn:Ee; [destruct (table_add _ t) as [[[]|x] t'] eqn:Et|]; eexists _, _; (split; [reflexivity|]).
      * cbn. rewrite !lookup_alter_eq, Hs, lookup_partial_alter_eq. split_and!; [reflexivity|done|]. right. split; [done|]. by exists txt.
      * cbn. unfold execute_failed. rewrite (Ha _ _ _ _ Et). cbn. rewrite !lookup_alter_eq, Hs, lookup_partial_alter_eq. split_and!; [reflexivity|done|by left].
      * cbn. unfold execute_failed. rewrite (He _ _ Ee). cbn. rewrite !lookup_alter_eq, Hs, lookup_partial_alter_eq. split_and!; [reflexivity|done|by left].
    + cbn. rewrite lookup_partial_alter_eq. eexists _, _. split; [reflexivity|]. cbn. rewrite !lookup_alter_eq, Hs, lookup_partial_alter_eq.
      split_and!; [reflexivity|done|]. right. split; [done|]. by exists txt.
  - unfold execute_failed. rewrite (Hc x eq_refl). cbn. rewrite lookup_partial_alter_eq. eexists _, _. split; [reflexivity|]. cbn.
    rewrite !lookup_alter_eq, Hs, lookup_partial_alter_eq. split_and!; [reflexivity|done|by left].
Qed.
(** Stopping a session does not stop it: when the crew returns, the session is
    completed, whatever its status was set to, and the client that stopped it
    reads a result (here without the store). *)
Theorem stopped_session_completes id q (kickoff : kickoff_fn) now w s txt : tasks w !! id = Some (Researching q) -> sessions w !! id = Some s -> ~ finished s ->
  q_save q = false -> kickoff (create_research_tasks (q_topic q) (q_sources q) (q_depth q)) true = Ok txt ->
  exists w1 w2 s2, stop_research id now w = (Ok (), w1) /\ step w1 w2 /\ sessions w2 !! id = Some s2 /\ s_status s2 = Completed /\ s_stopped_at s2 = Some now /\
    is_ok (get_research_result id w2) = true.
Proof.
  intros Ht Hs Hf Hq Hk. unfold stop_research. rewrite Hs. destruct (decide _) as [|_]; [done|]. eexists _, _, _. split; [reflexivity|].
  split; [by apply (step_researched id q kickoff now now)|]. unfold execute_researched, crew_research. change (String.eqb "sequential" "sequential") with true. rewrite Hk. cbn [rbind]. rewrite Hq. cbn [andb].
  unfold get_research_result. cbn. rewrite !lookup_alter_eq, Hs. cbn. by split_and!.
Qed.
(** A report the store cannot cut is never saved: the run does not end,
    whatever fuel it is given. *)
Theorem uncut_report_never_ends id q kickoff ts saved_at now w s t txt : sessions w !! id = Some s -> g_store (w_globals w) = Some t -> q_save q = true ->
  kickoff (create_research_tasks (q_topic q) (q_sources q) (q_depth q)) true = Ok txt -> (forall fuel, vs_chunk_text fuel txt 1000 200 = None) ->
  forall fuel, execute_research fuel id q kickoff ts saved_at now w = None.
Proof.
  intros Hs Ht Hq Hk Hn fuel. unfold execute_research, execute_begin. rewrite Hs. unfold execute_researched, crew_research. change (String.eqb "sequential" "sequential") with true. rewrite Hk. cbn [rbind]. rewrite Hq.
  cbn. rewrite Ht, bool_decide_eq_true_2 by (by eexists). cbn. rewrite lookup_partial_alter_eq, Ht. unfold save_report, add_document. cbn. by rewrite Hn.
Qed.

(** ** Health, history, start *)

(** The health check never says that the system is healthy, whatever Ollama
    answers: the client has no method of the name that is called. *)
Theorem never_healthy model ts models g : exists d, health_check model ts models g = Ok d /\ dict_get "status" d = Some (PStr "degraded").
Proof. unfold health_check, ollama_part, client_health. destruct (g_ollama g); eexists; split; reflexivity. Qed.

Lemma later_total a b : ~ later a b -> later b a.
Proof. unfold later. destruct (total String.le (s_started_at b) (s_started_at a)); tauto. Qed.
Lemma insert_latest_perm x l : insert_latest x l ≡ₚ x :: l.
Proof. induction l as [|y l IH]; [done|]. cbn. destruct (decide _); [done|]. rewrite IH. apply Permutation_swap. Qed.
Lemma insert_latest_sorted x l : StronglySorted later l -> StronglySorted later (insert_latest x l).
Proof.
  induction 1 as [|y l Hl IH Hy]; cbn; [by repeat constructor|]. destruct (decide _) as [Hle|Hle].
  - constructor; [by constructor|]. constructor; [done|]. eapply Forall_impl; [exact Hy|]. unfold later. intros z Hz. by etrans.
  - constructor; [done|]. rewrite insert_latest_perm. constructor; [by apply later_total|done].
Qed.
(** The history has the latest sessions first, each as often as it is
    kept, and no more of them than asked for. *)
Theorem history_latest_first limit w : world_ok w -> 0 <= limit ->
  exists l, StronglySorted later l /\ l ≡ₚ omap (fun id => sessions w !! id) (order w) /\ length l = size (sessions w) /\
    get_research_history limit w = map history_of (take (Z.to_nat limit) l).
Proof.
  intros (Hn & Ho & _) Hl. set (all := omap (fun id => sessions w !! id) (order w)). exists (sort_latest all).
  assert (sort_latest all ≡ₚ all) as Hp by (clear; induction all as [|x l IH]; cbn; [done|]; by rewrite insert_latest_perm, IH). split_and!.
  - clear. induction all as [|x l IH]; cbn; [constructor|]. by apply insert_latest_sorted.
  - done.
  - rewrite Hp. transitivity (length (order w)).
    + subst all. assert (Forall (fun id => is_Some (sessions w !! id)) (order w)) as Hall by (apply Forall_forall; intros id; apply Ho).
      clear -Hall. induction Hall as [|id l [s Hs] Hl IH]; [done|]. cbn. rewrite Hs. cbn. by rewrite IH.
    + rewrite <- size_dom. rewrite <- (size_list_to_set (C := gset string)) by done. f_equal. apply set_eq. intros id. by rewrite elem_of_list_to_set, elem_of_dom, Ho.
  - unfold get_research_history. by rewrite py_take_nonneg.
Qed.
(** After a start that succeeds everything is there, but perhaps the translator,
    and a valid request is accepted; after one that fails on its first
    call, the crew that accepts requests is the one from before. *)
Theorem initialized_accepts path c g g' : initialize_local_ai path c g = (Ok (), g') ->
  (g_ollama g' = true /\ g_scraper g' = true /\ is_Some (g_store g') /\ g_crew g' = true) /\
  forall id q now now' w, w_globals w = g' -> q_topic q <> "" -> (start_research id q now now' w).1 = Ok id.
Proof.
  unfold initialize_local_ai. destruct (c_ollama c), (c_scraper c), (c_store c) as [t|], (c_crew c); try done. intros [= <-].
  split; [by split_and!; [| |eexists|]|]. intros id q now now' w Hw Hq. unfold start_research, valid_request. rewrite Hw.
  by destruct (String.eqb_spec (q_topic q) "").
Qed.
End routes.

(** ** Which route answers *)

Variant segment := Lit (s : string) | Param.
Variant endpoint := Health | Start | Status | Result | Stop | History | VectorSearch | VectorStats | Generate | Models.
(** In the order of the file; the router takes the first that fits. *)
Definition route_table : list (string * list segment * endpoint) :=
  [("GET", [Lit "health"], Health); ("POST", [Lit "research"], Start); ("GET", [Lit "research"; Param; Lit "status"], Status);
   ("GET", [Lit "research"; Param], Result); ("POST", [Lit "research"; Param; Lit "stop"], Stop); ("GET", [Lit "research"; Lit "history"], History);
   ("POST", [Lit "vector-search"], VectorSearch); ("GET", [Lit "vector-search"; Lit "stats"], VectorStats);
   ("POST", [Lit "ollama"; Lit "generate"], Generate); ("GET", [Lit "ollama"; Lit "models"], Models)].
Fixpoint fits (pat : list segment) (path : list string) : bool :=
  match pat, path with
  | [], [] => true
  | Lit s :: pat', p :: path' => String.eqb s p && fits pat' path'
  | Param :: pat', p :: path' => negb (String.eqb p "") && fits pat' path'
  | _, _ => false
  end.
Definition dispatch (method : string) (path : list string) : option endpoint :=
  snd <$> List.find (fun r => String.eqb r.1.1 method && fits r.1.2 path) route_table.
(** No request reaches the history: the route of a single result, which comes
    first, takes its path. *)
Theorem history_unreachable method path : dispatch method path <> Some History.
Proof.
  unfold dispatch, route_table. intros Hd. cbn [List.find fst snd] in Hd.
  repeat match type of Hd with context [if ?b then _ else _] => destruct b eqn:?; [try done|] end; [|done].
  match goal with H : (_ && fits [Lit "research"; Lit "history"] _) = true |- _ => apply andb_true_iff in H as [Hm Hf] end.
  match goal with H : (_ && fits [Lit "research"; Param] _) = false |- _ => rename H into Hn end.
  destruct path as [|a [|b [|? ?]]]; cbn [fits] in Hf; rewrite ?andb_false_r in Hf; try done. cbn [fits] in Hn. destruct (String.eqb_spec "research" a) as [<-|]; [|done]. destruct (String.eqb_spec "history" b) as [<-|]; [|done]. by rewrite Hm in Hn.
Qed.
Theorem history_path_is_a_session : dispatch "GET" ["research"; "history"] = Some Result.
Proof. done. Qed.

(** ** What the crew is given and returns *)

#[local] Opaque str_take.
(** The sources of the output are those that were asked for, whatever the crew
    found, and the texts are the start of one text. *)
Theorem crew_output_texts kickoff topic sources depth process ts r : crew_research kickoff topic sources depth process ts = Ok r ->
  o_sources r = default [] sources /\ (String.length (o_summary r) <= 500)%nat /\ (String.length (o_findings r) <= 2000)%nat /\
  o_summary r = str_take 500 (o_findings r) /\ o_findings r = str_take 2000 (o_analysis r).
Proof.
  unfold crew_research. destruct (kickoff _ _) as [txt|]; [|done]. cbn [rbind]. intros [= <-]. cbn [o_sources o_summary o_findings o_analysis].
  split_and!; [done|apply length_str_take|apply length_str_take| |done].
  by rewrite str_take_take.
Qed.
(** A batch leaves out the topics that fail and nothing else: the outputs are
    those of the runs that return, in order. *)
Theorem batch_skips_failures topics depth l : batch_research topics depth = Ok l ->
  l = omap (fun tk => match crew_research tk.1.2 tk.1.1 None depth "sequential" tk.2 with Ok r => Some r | Err _ => None end) topics.
Proof.
  revert l. induction topics as [|[[topic k] ts] topics IH]; intros l; cbn [batch_research]; [by intros [= <-]|]. cbn [omap list_omap fst snd].
  destruct (crew_research k topic None depth "sequential" ts) as [r|x]; [|destruct (cancelled x); [done|apply IH]].
  destruct (batch_research topics depth) as [rest|]; [|done]. cbn [rbind]. intros [= <-]. by rewrite (IH rest).
Qed.
(** The web tool answers with a text, unless it is cancelled, whatever the
    scraper returns or raises. *)
Theorem web_tool_answers atom_repr query scraped x : web_search_run atom_repr query scraped = Err x -> cancelled x = true.
Proof. unfold web_search_run. destruct (rbind _ _) as [s|y]; [done|]. destruct (cancelled y) eqn:E; [by intros [= <-]|done]. Qed.

(** ** A session *)

Definition demo_globals : globals (T := list DocumentChunk) := Globals true false true (Some []) true.
Definition demo_request : ResearchRequest := Request "Rocq" "quick" (Some ["https://a.org"]) true true.
Definition demo_kickoff : kickoff_fn := fun _ _ => Ok "A report.".
Definition demo_world : world := (start_research "s1" demo_request "t0" "t0" (fresh_world demo_globals)).2.
Definition demo_running : world := (stop_research "s1" "t1" (execute_begin "s1" demo_request demo_world)).2.
Lemma local_sessions_invariant_witness : world_ok demo_running /\ (s_status <$> sessions demo_running !! "s1") = Some Stopped.
Proof.
  split; [|reflexivity]. apply (local_sessions_invariant demo_encode demo_hash demo_globals). eapply rtc_l; [by apply (step_start _ _ "s1" demo_request "t0" "t0")|].
  eapply rtc_l; [by apply (step_begin _ _ "s1" demo_request)|]. eapply rtc_l; [apply (step_stop _ _ "s1" "t1")|]. apply rtc_refl.
Defined.
Lemma local_run_ends_witness : exists w' s', execute_research demo_encode demo_hash 5 "s1" demo_request demo_kickoff "t" "t" "t" demo_world = Some w' /\
  sessions w' !! "s1" = Some s' /\ s_status s' = Completed.
Proof.
  destruct (local_run_ends demo_encode demo_hash 5 "s1" demo_request demo_kickoff "t" "t" "t" demo_world (new_session "s1" demo_request "t0" "t0"))
    as (w' & s' & He & Hs & _ & Hst); [reflexivity|done|done|done| |].
  - intros txt b [= <-]. vm_compute. by eexists.
  - exists w', s'. split_and!; [done|done|]. destruct Hst as [Hf|[Hc _]]; [|done]. exfalso. vm_compute in He. injection He as <-. vm_compute in Hs. injection Hs as <-. done.
Defined.
Definition demo_unsaved : ResearchRequest := Request "Rocq" "quick" None true false.
Definition demo_busy : world := execute_begin "s1" demo_unsaved (start_research "s1" demo_unsaved "t0" "t0" (fresh_world demo_globals)).2.
Lemma stopped_session_completes_witness : exists w1 w2 s2, stop_research "s1" "t1" demo_busy = (Ok (), w1) /\ step demo_encode demo_hash w1 w2 /\
  sessions w2 !! "s1" = Some s2 /\ s_status s2 = Completed.
Proof.
  destruct (stopped_session_completes demo_encode demo_hash "s1" demo_unsaved demo_kickoff "t1" demo_busy
    (mark_begun (new_session "s1" demo_unsaved "t0" "t0")) "A report.") as (w1 & w2 & s2 & H1 & H2 & H3 & H4 & _); try reflexivity.
  - unfold finished. cbn. set_solver.
  - by exists w1, w2, s2.
Defined.
Definition demo_endless : string := String.string_of_list_ascii demo_long.
Lemma uncut_report_never_ends_witness :
  execute_research demo_encode demo_hash 1000 "s1" demo_request (fun _ _ => Ok demo_endless) "t" "t" "t" demo_world = None.
Proof.
  apply (uncut_report_never_ends demo_encode demo_hash "s1" demo_request (fun _ _ => Ok demo_endless) "t" "t" "t" demo_world
    (new_session "s1" demo_request "t0" "t0") [] demo_endless); try reflexivity.
  intros fuel. apply (store_long_sentence_hangs demo_endless 300); unfold demo_endless; rewrite ?String.list_ascii_of_string_of_list_ascii; [lia|by vm_compute|by vm_compute|].
  apply demo_long_stop.
Defined.
