(* ===== verification/ThinkingPrompts.v ===== *)
(** * The prompts and the requests of the thinking engine

    document_processor/thinking/prompts.py, with [textwrap.dedent], and the
    validation of document_processor/thinking/models.py.  In the texts, [dq]
    writes a double quote for a caret.  Dictionaries are put into a prompt as
    Python prints them. *)

From Stdlib Require Import Ascii.
From S2P Require Import Prelude PyStr PyVal PyConv ResearchPrompts Thinking ThinkingRoutes.
#[local] Open Scope Z_scope.

(** ** [textwrap.dedent] *)

Definition is_indent (c : ascii) : bool := Ascii.eqb c " " || Ascii.eqb c "009".
Definition LF : ascii := "010".
(** [^[ \t]+$] becomes empty *)
Definition blank_out (l : string) : string := if str_forallb is_indent l then "" else l.
Definition indent_of (l : string) : string := (PyStr.span (fun c => negb (is_indent c)) l).1.
Fixpoint common_prefix (a b : string) : string :=
  match a, b with String c a', String d b' => if Ascii.eqb c d then String c (common_prefix a' b') else "" | _, _ => "" end.
(** The margin all lines share that are not empty *)
Fixpoint margin (lines : list string) : option string :=
  match lines with
  | [] => None
  | l :: lines' =>
      if String.eqb l "" then margin lines'
      else Some (match margin lines' with Some m => common_prefix (indent_of l) m | None => indent_of l end)
  end.
Definition remove_margin (m l : string) : string := if startswith m l then str_drop (String.length m) l else l.
Definition dedent (text : string) : string :=
  let lines := map blank_out (split LF text) in
  match margin lines with Some m => join NL (map (remove_margin m) lines) | None => join NL lines end.

(** ** The prompts *)

Definition dq (s : string) : string := concat_map (fun c => String (if Ascii.eqb c "^" then DQUOTE else c) "") s.
Definition prompt_of (lines : list string) : string := strip is_space (dedent (join NL lines)).
Definition clarification_line (qa : string * string) : string :=
  let answer := strip is_space qa.2 in "  • " +:+ qa.1 +:+ ": " +:+ (if String.eqb answer "" then "(no answer)" else answer).
Definition _format_clarifications (clarifications : list (string * string)) : string :=
  match clarifications with
  | [] => "(no clarifications provided — infer sensible defaults and call them out)"
  | _ => join NL (map clarification_line clarifications)
  end.
Definition _DELIVERABLE_GUIDE : list (string * string) :=
  [("plan", "A step-by-step execution plan with numbered stages, each with a concrete exit criterion.");
   ("architecture", "A system design with a component list, data flow, key interfaces, and a deployment shape. Include a simple ASCII or Mermaid diagram if it helps.");
   ("code", "A concrete, runnable code skeleton (language inferred from the request). Include file paths, function signatures, and real logic — not TODO comments.");
   ("analysis", "A written analysis organized by sub-question, each with the reasoning and the answer.");
   ("decision", "A crisp recommendation memo: TL;DR, context, options considered, decision, rollback plan.");
   ("explanation", "A clear, well-structured explanation using analogies where they help, but never at the cost of precision.")].
Definition deliverable_guide (deliverable : string) : string :=
  default (default "" (assoc "explanation" _DELIVERABLE_GUIDE)) (assoc deliverable _DELIVERABLE_GUIDE).
Section prompts.
(** [repr] of a float or a time *)
Variable atom_repr : pyval -> string.
#[local] Abbreviation str := (py_str atom_repr).

Definition SYSTEM_PROMPT_lines : list string :=
  [""; dq "    You are Amor's ^Thinking^ engine — a senior staff-level engineer who";
   "    approaches complex, specific problems the way a thoughtful expert would:"; "";
   "      1. You never guess at requirements. When a request is ambiguous, you";
   "         ask precise, high-leverage clarifying questions before committing"; "         to an answer.";
   "      2. You reason in structured phases (understand → decompose → explore";
   "         alternatives → decide → synthesize → critique), and each phase"; "         produces a concrete, inspectable artifact.";
   "      3. You explicitly state assumptions and constraints so the user can"; "         correct you cheaply.";
   dq "      4. You consider trade-offs, not just ^best^ answers. Your"; "         recommendations come with the cost you're paying for them.";
   "      5. You are terse where terseness helps and detailed where details"; "         matter. You never pad.";
   "      6. When asked for code or an architecture, you produce something a";
   "         teammate could actually run or review — not a hand-wavy sketch."; "";
   "    Whenever a phase requires JSON, return **only** the JSON object — no";
   "    prose, no Markdown fences, no commentary. Any deviation breaks the"; "    pipeline."; "    "].
Definition SYSTEM_PROMPT : string := prompt_of SYSTEM_PROMPT_lines.
Definition analyze_prompt_lines (user_prompt : string) (deliverable_hint : string) : list string :=
  [""; "        A user sent the following request:"; "        ---"; "        " +:+ strip is_space user_prompt; "        ---"; "";
   "        Decide whether this request is complex/specific enough that we";
   "        should ask the user 2–5 clarifying questions BEFORE attempting an";
   dq "        answer. Simple questions (^what is docker?^) do not need"; dq "        clarification; concrete build/design requests (^build me a";
   dq "        real-time chat^, ^pick a database for X^) almost always do."; "";
   "        Additionally, classify the intended deliverable so the downstream";
   dq "        pipeline can tune its output. The user hinted: ^" +:+ deliverable_hint +:+ dq "^."; "";
   "        Output a single JSON object with this exact schema:"; ""; "        {";
   dq "          ^complexity^: ^trivial^ | ^moderate^ | ^complex^ | ^expert^,"; dq "          ^needs_clarification^: boolean,";
   dq "          ^rationale^: ^ONE sentence explaining the choice, max 140 chars^,"; dq "          ^detected_deliverable^:";
   dq "              ^plan^ | ^architecture^ | ^code^ | ^analysis^ |"; dq "              ^decision^ | ^explanation^,";
   dq "          ^questions^: ["; "            {"; dq "              ^id^: ^stable-kebab-case-slug^,";
   dq "              ^question^: ^the question as the user will read it^,";
   dq "              ^why_it_matters^: ^ONE sentence rationale, shown under the question^,";
   dq "              ^suggestions^: [^short quick-pick^, ^another^, ^another^],";
   dq "              ^input_type^: ^text^ | ^choice^ | ^number^ | ^multiline^,"; dq "              ^placeholder^: ^optional hint text or null^,";
   dq "              ^required^: false"; "            }"; "          ]"; "        }"; ""; "        Rules for questions:";
   "          • Ask at most 5. Fewer is better — pick the highest-leverage ones.";
   "          • Each question must concretely change the final answer.";
   "          • Never ask about the user's name, emotional state, or preferences"; "            that are irrelevant to the technical decision.";
   "          • Provide 3–5 `suggestions` for every question so the user can";
   "            answer in one click. Suggestions must be short (≤ 40 chars).";
   dq "          • Use `input_type: ^choice^` when suggestions are truly exhaustive";
   dq "            (e.g. yes/no), otherwise `^text^` or `^multiline^`."; "          • `id` must be lowercase-kebab-case, unique within the set.";
   ""; "        If `needs_clarification` is false, `questions` must be an empty"; "        array. Remember: JSON only, no Markdown."; "        "].
Definition analyze_prompt (user_prompt : string) (deliverable_hint : string) : string := prompt_of (analyze_prompt_lines user_prompt deliverable_hint).
Definition understand_prompt_lines (user_prompt : string) (clarifications : list (string * string)) : list string :=
  [""; "        The user asked:"; "        ---"; "        " +:+ strip is_space user_prompt; "        ---"; "";
   "        They also answered our clarifying questions:"; "        " +:+ _format_clarifications clarifications; "";
   "        Restate the problem in your own words, then list what you believe";
   "        are the hard constraints, the soft preferences, and the assumptions"; "        you're going to make."; ""; "        Return JSON:"; "";
   "        {"; dq "          ^restatement^: ^one tight paragraph (<= 80 words) in your own words^,";
   dq "          ^constraints^: [^hard constraint 1^, ^...^],"; dq "          ^preferences^: [^soft preference 1^, ^...^],";
   dq "          ^assumptions^: [^assumption 1 (call out WHY you're making it)^, ^...^],";
   dq "          ^unknowns^: [^anything still unclear that could flip the answer^]"; "        }"; "";
   "        Keep each list to at most 6 items. Prefer specificity over length."; "        "].
Definition understand_prompt (user_prompt : string) (clarifications : list (string * string)) : string := prompt_of (understand_prompt_lines user_prompt clarifications).
Definition decompose_prompt_lines (user_prompt : string) (clarifications : list (string * string)) (understanding_json : pyval) : list string :=
  [""; "        Original request:"; "        ---"; "        " +:+ strip is_space user_prompt; "        ---"; "";
   "        Your own restatement & constraints:"; "        " +:+ str understanding_json; "";
   "        Break the problem into the 3–7 sub-questions you will need to"; "        answer in sequence to solve it. Each sub-question should be";
   "        actionable — something you can research or reason about in"; "        isolation."; ""; "        Return JSON:"; ""; "        {";
   dq "          ^sub_questions^: ["; "            {"; dq "              ^index^: 1,"; dq "              ^question^: ^concrete sub-question^,";
   dq "              ^why^: ^1 sentence on what this unlocks^"; "            },"; "            ..."; "          ]"; "        }"; "        "].
Definition decompose_prompt (user_prompt : string) (clarifications : list (string * string)) (understanding_json : pyval) : string := prompt_of (decompose_prompt_lines user_prompt clarifications understanding_json).
Definition explore_prompt_lines (user_prompt : string) (understanding_json : pyval) (sub_questions : pyval) : list string :=
  [""; "        Original request:"; "        ---"; "        " +:+ strip is_space user_prompt; "        ---"; "";
   "        Restated understanding & constraints:"; "        " +:+ str understanding_json; ""; "        Sub-questions to address:";
   "        " +:+ str sub_questions; ""; "        Propose 2–4 distinct *approaches* that could solve this problem.";
   "        Each approach should be a genuinely different strategy (not";
   "        variations of the same idea). For each one, name it, describe it";
   "        in 1–2 sentences, list concrete pros, concrete cons, and the risk"; "        category."; ""; "        Return JSON:"; ""; "        {";
   dq "          ^alternatives^: ["; "            {"; dq "              ^id^: ^kebab-case-slug^,"; dq "              ^name^: ^short human name^,";
   dq "              ^summary^: ^1–2 sentences describing the approach^,"; dq "              ^pros^: [^concrete pro^, ^...^],";
   dq "              ^cons^: [^concrete con^, ^...^],"; dq "              ^best_when^: ^1 sentence on when this wins^,";
   dq "              ^risk^: ^low^ | ^medium^ | ^high^,"; dq "              ^effort^: ^low^ | ^medium^ | ^high^"; "            },";
   "            ..."; "          ]"; "        }"; "        "].
Definition explore_prompt (user_prompt : string) (understanding_json : pyval) (sub_questions : pyval) : string := prompt_of (explore_prompt_lines user_prompt understanding_json sub_questions).
Definition evaluate_prompt_lines (user_prompt : string) (understanding_json : pyval) (alternatives : pyval) : list string :=
  [""; "        Given the problem, the constraints, and the candidate approaches,";
   "        pick the single best approach and explain why it wins relative to"; "        the others. Be direct — do not hedge."; "";
   "        Original request:"; "        ---"; "        " +:+ strip is_space user_prompt; "        ---"; ""; "        Constraints & preferences:";
   "        " +:+ str understanding_json; ""; "        Candidate approaches:"; "        " +:+ str alternatives; ""; "        Return JSON:"; "";
   "        {"; dq "          ^chosen_id^: ^id of the winning alternative^,";
   dq "          ^justification^: ^2–4 sentences on why this wins given the constraints^,";
   dq "          ^key_trade_offs^: [^what we give up to get this^],"; dq "          ^confidence^: 0-100,";
   dq "          ^would_reconsider_if^: [^condition that would change the answer^]"; "        }"; "        "].
Definition evaluate_prompt (user_prompt : string) (understanding_json : pyval) (alternatives : pyval) : string := prompt_of (evaluate_prompt_lines user_prompt understanding_json alternatives).
Definition synthesize_prompt_lines (user_prompt : string) (understanding_json : pyval) (alternatives : pyval) (decision : pyval) (deliverable : string) : list string :=
  let guide := deliverable_guide deliverable in
  [""; "        Write the final deliverable. The kind of deliverable is"; dq "        ^" +:+ deliverable +:+ dq "^, which means: " +:+ guide; "";
   "        Original request:"; "        ---"; "        " +:+ strip is_space user_prompt; "        ---"; "";
   "        Restated problem & constraints:"; "        " +:+ str understanding_json; ""; "        All alternatives considered:";
   "        " +:+ str alternatives; ""; "        Chosen approach:"; "        " +:+ str decision; "";
   "        Output format: GitHub-Flavored Markdown. No JSON envelope — just";
   "        the deliverable itself. Structure it with headers, code fences";
   "        where appropriate, and bullet/numbered lists. Lead with a short"; "        TL;DR section."; ""; "        Quality bar:";
   "          • Every claim a reviewer would question must be justified."; dq "          • No TODOs, no placeholders, no ^left as exercise^.";
   "          • Keep it self-contained — the user should be able to act on it"; "            without re-asking questions."; "        "].
Definition synthesize_prompt (user_prompt : string) (understanding_json : pyval) (alternatives : pyval) (decision : pyval) (deliverable : string) : string := prompt_of (synthesize_prompt_lines user_prompt understanding_json alternatives decision deliverable).
Definition critique_prompt_lines (user_prompt : string) (understanding_json : pyval) (decision : pyval) (deliverable_markdown : string) : list string :=
  [""; "        You just produced the deliverable below. Now put on your skeptic"; "        hat and red-team it."; ""; "        Original request:";
   "        ---"; "        " +:+ strip is_space user_prompt; "        ---"; ""; "        Chosen approach:"; "        " +:+ str decision; "";
   "        Deliverable:"; "        ---"; "        " +:+ deliverable_markdown; "        ---"; ""; "        Return JSON:"; ""; "        {";
   dq "          ^risks^: ["; dq "            {^title^: ^short risk name^, ^detail^: ^1–2 sentences^, ^severity^: ^low^|^medium^|^high^}";
   "          ],"; dq "          ^open_questions^: [^thing a reviewer would still want to clarify^],";
   dq "          ^next_steps^: [^concrete next action the user could take^],"; dq "          ^confidence^: 0-100"; "        }"; "        "].
Definition critique_prompt (user_prompt : string) (understanding_json : pyval) (decision : pyval) (deliverable_markdown : string) : string := prompt_of (critique_prompt_lines user_prompt understanding_json decision deliverable_markdown).
End prompts.

(** ** What [dedent] does *)

Lemma str_drop_app m l : str_drop (String.length m) (m +:+ l) = l.
Proof. induction m as [|c m IH]; [done|]. rewrite app_string_cons. exact IH. Qed.
Lemma startswith_self_app m l : startswith m (m +:+ l) = true.
Proof. unfold startswith. induction m as [|c m IH]; [by destruct l|]. rewrite app_string_cons. simpl. destruct (ascii_dec c c); done. Qed.
Lemma indent_of_app m l : str_forallb is_indent m = true -> indent_of (m +:+ l) = m +:+ indent_of l.
Proof.
  unfold indent_of. induction m as [|c m IH]; [done|]. cbn [str_forallb]. intros [Hc Hm]%andb_true_iff. rewrite !app_string_cons. simpl. rewrite Hc. simpl.
  rewrite <- IH by done. by destruct (PyStr.span _ (m +:+ l)).
Qed.
Lemma common_prefix_app m a b : common_prefix (m +:+ a) (m +:+ b) = m +:+ common_prefix a b.
Proof. induction m as [|c m IH]; [done|]. rewrite !app_string_cons. simpl. by rewrite Ascii.eqb_refl, IH. Qed.
Lemma common_prefix_nil_r a : common_prefix a "" = "".
Proof. by destruct a. Qed.
Lemma app_empty_l m l : m +:+ l = "" -> l = "".
Proof. by destruct m. Qed.

(** [t] shows the line [l] behind the margin [m]; blanks show an empty line. *)
Definition shows (m t l : string) : Prop := (str_forallb is_indent t = true /\ l = "") \/ (t = m +:+ l /\ str_forallb is_indent l = false).
Lemma shows_blank_out m t l : shows m t l -> blank_out t = if String.eqb l "" then "" else m +:+ l.
Proof.
  unfold blank_out. intros [[-> ->]|[-> Hl]]; [done|]. rewrite str_forallb_app, Hl, andb_false_r. by destruct (String.eqb_spec l "") as [->|].
Qed.
Lemma margin_shown m ts ls : str_forallb is_indent m = true -> Forall2 (shows m) ts ls -> margin (map blank_out ts) = (fun r => m +:+ r) <$> margin ls.
Proof.
  intros Hm. induction 1 as [|t l ts ls Ht Hts IH]; [done|]. cbn [map margin]. rewrite (shows_blank_out m t l Ht), IH. destruct (String.eqb_spec l "") as [->|Hl]; [done|].
  destruct (String.eqb_spec (m +:+ l) "") as [E|_]; [by apply app_empty_l in E|]. rewrite indent_of_app by done.
  destruct (margin ls); cbn; [by rewrite common_prefix_app|done].
Qed.
Definition flush (l : string) : Prop := l <> "" /\ indent_of l = "".
Lemma margin_flush l ls : l ∈ ls -> flush l -> margin ls = Some "".
Proof.
  intros Hin [Hne Hi]. induction ls as [|x ls IH]; [by apply elem_of_nil in Hin|]. cbn [margin]. apply elem_of_cons in Hin as [<-|Hin].
  - destruct (String.eqb_spec l ""); [done|]. rewrite Hi. by destruct (margin ls).
  - rewrite IH by done. destruct (String.eqb x ""); [done|]. by rewrite common_prefix_nil_r.
Qed.
Lemma map_remove_empty ls : map (remove_margin "") ls = ls.
Proof. induction ls as [|l ls IH]; [done|]. cbn. rewrite IH. unfold remove_margin, startswith. by destruct l. Qed.

(** Lines behind a common margin lose it: when every line is blank or has the
    margin before its text and one of the texts starts with no blank, what
    [dedent] leaves are the texts, and empty lines for the blank ones. *)
Theorem dedent_shown m ts ls l : str_forallb is_indent m = true -> Forall2 (shows m) ts ls -> ts <> [] -> Forall (fun t => char_in LF t = false) ts ->
  l ∈ ls -> flush l -> dedent (join NL ts) = join NL ls.
Proof.
  intros Hm Hs Hne Hlf Hin Hf. unfold dedent. rewrite split_join by done. rewrite (margin_shown m ts ls) by done. rewrite (margin_flush l ls) by done. cbn [fmap option_fmap option_map].
  rewrite app_string_nil_r. f_equal. clear -Hs. induction Hs as [|t l ts ls Ht Hts IH]; [done|]. cbn [map]. rewrite IH. f_equal.
  rewrite (shows_blank_out m t l Ht). unfold remove_margin. destruct (String.eqb_spec l "") as [->|Hl].
  - destruct (startswith m ""); [by destruct (String.length m)|done].
  - by rewrite startswith_self_app, str_drop_app.
Qed.
(** One line that starts with no blank is enough for nothing to be removed: only
    blank lines become empty. *)
Theorem dedent_flush text l : l ∈ map blank_out (split LF text) -> flush l -> dedent text = join NL (map blank_out (split LF text)).
Proof. intros Hin Hf. unfold dedent. rewrite (margin_flush l) by done. by rewrite map_remove_empty. Qed.

(** ** The prompts of one line and of more *)

Definition MARGIN : string := "        ".
(** The line behind the margin, if there is one *)
Definition unindent (t : string) : string := if str_forallb is_indent t then "" else str_drop 8 t.
Definition indented (t : string) : bool := str_forallb is_indent t || (startswith MARGIN t && negb (str_forallb is_indent (str_drop 8 t))).
Lemma prefix_split m t : startswith m t = true -> t = m +:+ str_drop (String.length m) t.
Proof.
  unfold startswith. revert t. induction m as [|c m IH]; intros [|d t]; simpl; try done. destruct (ascii_dec c d) as [->|]; [|done].
  intros Hp. rewrite app_string_cons. f_equal. by apply IH.
Qed.
Lemma indented_shows t : indented t = true -> shows MARGIN t (unindent t).
Proof.
  unfold indented, unindent. destruct (str_forallb is_indent t) eqn:E; [by left|]. intros [Hp Hn%negb_true_iff]%andb_true_iff. right. split; [|done].
  by apply (prefix_split MARGIN).
Qed.
(** Without line breaks in what is filled in, a prompt has no margin. *)
Lemma prompt_unindented ts l : forallb indented ts = true -> ts <> [] -> forallb (fun t => negb (char_in LF t)) ts = true -> l ∈ map unindent ts -> flush l ->
  prompt_of ts = strip is_space (join NL (map unindent ts)).
Proof.
  intros Hi Hne Hlf Hin Hf. unfold prompt_of. rewrite (dedent_shown MARGIN ts (map unindent ts) l); [done|done| |done| |done|done].
  - clear -Hi. induction ts as [|t ts IH]; [constructor|]. cbn [forallb] in Hi. apply andb_true_iff in Hi as [Ht Hts]. constructor; [by apply indented_shows|by apply IH].
  - apply Forall_forall. intros t Ht%list_elem_of_In. eapply forallb_forall in Hlf; [|exact Ht]. by apply negb_true_iff in Hlf.
Qed.
Lemma unindent_margin s : unindent (MARGIN +:+ s) = if str_forallb is_indent s then "" else s.
Proof. unfold unindent. by rewrite str_forallb_app. Qed.
Lemma indented_margin s : indented (MARGIN +:+ s) = true.
Proof.
  unfold indented. rewrite str_forallb_app. change (str_forallb is_indent MARGIN) with true. change (str_drop 8 (MARGIN +:+ s)) with s.
  rewrite startswith_self_app. by destruct (str_forallb is_indent s).
Qed.
Lemma stripped_not_blank s : strip is_space s <> "" -> str_forallb is_indent (strip is_space s) = false.
Proof.
  unfold strip. intros Hne. destruct (str_forallb is_indent (rstrip is_space (lstrip is_space s))) eqn:E; [|done]. exfalso. apply Hne.
  assert (forall t, str_forallb is_indent (rstrip is_space t) = true -> rstrip is_space t = "") as Hr; [|by apply Hr].
  clear. induction t as [|c t IH]; [done|]. cbn [rstrip]. destruct (rstrip is_space t) as [|d r] eqn:Er.
  - destruct (is_space c) eqn:Ec; [done|]. cbn. unfold is_indent. destruct (Ascii.eqb_spec c " ") as [->|]; [done|]. by destruct (Ascii.eqb_spec c "009") as [->|].
  - cbn [str_forallb]. intros [_ Hr]%andb_true_iff. by apply IH in Hr.
Qed.

(** A request of one line reaches the model as it was meant: the prompt of the
    analysis starts with its lines, without a margin. *)
Theorem analyze_prompt_one_line user_prompt hint : char_in LF (strip is_space user_prompt) = false -> char_in LF hint = false -> strip is_space user_prompt <> "" ->
  exists rest, analyze_prompt user_prompt hint =
    "A user sent the following request:" +:+ NL +:+ "---" +:+ NL +:+ strip is_space user_prompt +:+ NL +:+ "---" +:+ NL +:+ NL +:+ "Decide" +:+ rest.
Proof.
  intros Hp Hh Hne. unfold analyze_prompt. set (p := strip is_space user_prompt).
  rewrite (prompt_unindented _ "---"); [| | | | |by split].
  - unfold analyze_prompt_lines. fold p. cbn [map]. rewrite unindent_margin. unfold p at 1. rewrite stripped_not_blank by done. fold p.
    set (head := "A user sent the following request:" +:+ NL +:+ "---" +:+ NL +:+ p +:+ NL +:+ "---" +:+ NL +:+ NL +:+ "Decid").
    match goal with |- context [strip is_space ?t] => set (txt := t) end.
    assert (exists z, txt = String LF (head +:+ String "e" z)) as [z ->].
    { unfold txt, head. eexists. rewrite !app_string_assoc. reflexivity. }
    exists (rstrip is_space z). unfold strip. cbn [lstrip]. change (is_space LF) with true. cbn iota.
    change (lstrip is_space (head +:+ String "e" z)) with (head +:+ String "e" z). rewrite rstrip_keep by done. unfold head. by rewrite !app_string_assoc.
  - unfold analyze_prompt_lines. cbn [forallb]. rewrite indented_margin. reflexivity.
  - done.
  - unfold analyze_prompt_lines. fold p. cbn [forallb]. rewrite !char_in_app. unfold p. rewrite Hp, Hh. reflexivity.
  - apply list_elem_of_lookup. by exists 2%nat.
Qed.
(** A request of more lines does not: as soon as a line after the first starts
    with no blank, the lines of the prompt keep their margin. *)
Theorem analyze_prompt_more_lines user_prompt hint a b l : strip is_space user_prompt = a +:+ String LF b -> l ∈ split LF b -> flush l -> str_forallb is_indent l = false ->
  exists rest, analyze_prompt user_prompt hint = "A user sent the following request:" +:+ NL +:+ MARGIN +:+ "---" +:+ rest.
Proof.
  intros Hp Hl Hf Hb. unfold analyze_prompt, prompt_of. set (txt := join NL _).
  assert (exists pre post, txt = pre +:+ String LF (b +:+ String LF post)) as (pre & post & Hs).
  { unfold txt, analyze_prompt_lines. rewrite Hp. exists (join NL [""; "        A user sent the following request:"; "        ---"; "        " +:+ a]).
    eexists. unfold join. cbn [String.concat]. rewrite !app_string_assoc. reflexivity. }
  assert (exists z, txt = String LF ("        A user sent the following request:" +:+ String LF ("        ---" +:+ String LF z))) as [z Hz].
  { unfold txt, analyze_prompt_lines. eexists. reflexivity. }
  clearbody txt. rewrite (dedent_flush txt l); [| |done].
  - assert (split LF txt = "" :: "        A user sent the following request:" :: "        ---" :: split LF z) as ->.
    { rewrite Hz. transitivity (split LF ("" +:+ String LF ("        A user sent the following request:" +:+ String LF ("        ---" +:+ String LF z)))); [done|].
      by rewrite !split_sep. }
    pose proof (split_go_nonempty LF "" z) as Hn. fold (split LF z) in Hn. destruct (split LF z) as [|y ys]; [done|]. cbn [map].
    set (r := map blank_out ys). exists (rstrip is_space (NL +:+ join NL (blank_out y :: r))).
    change (strip is_space (NL +:+ MARGIN +:+ "A user sent the following request:" +:+ NL +:+ MARGIN +:+ "--" +:+ String "-" (NL +:+ join NL (blank_out y :: r))) = 
      "A user sent the following request:" +:+ NL +:+ MARGIN +:+ "--" +:+ String "-" (rstrip is_space (NL +:+ join NL (blank_out y :: r)))).
    set (q := NL +:+ join NL _). change (rstrip is_space (("A user sent the following request:" +:+ NL +:+ MARGIN +:+ "--") +:+ String "-" q) =
      ("A user sent the following request:" +:+ NL +:+ MARGIN +:+ "--") +:+ String "-" (rstrip is_space q)). by rewrite rstrip_keep.
  - rewrite Hs, !split_sep, !map_app, !elem_of_app. right. left. apply list_elem_of_fmap. exists l. split; [|done]. unfold blank_out. by rewrite Hb.
Qed.

(** ** Clarifications *)

(** Every question is in the text with its answer, in order, one line each; a
    question without an answer is there as one without. *)
Theorem clarifications_listed q qs : Forall (fun qa => char_in LF qa.1 = false /\ char_in LF (strip is_space qa.2) = false) (q :: qs) ->
  split LF (_format_clarifications (q :: qs)) = map clarification_line (q :: qs) /\
  Forall (fun qa => exists t, clarification_line qa = "  • " +:+ qa.1 +:+ ": " +:+ t /\ t <> "" /\ (strip is_space qa.2 <> "" -> t = strip is_space qa.2)) (q :: qs).
Proof.
  intros Hq. split.
  - unfold _format_clarifications. apply split_join; [done|]. apply Forall_map. eapply Forall_impl; [exact Hq|]. intros [k v] [Hk Hv]. unfold clarification_line. cbn in *.
    rewrite !char_in_app, Hk. destruct (String.eqb _ _); [done|]. by rewrite Hv.
  - apply Forall_true. intros [k v]. unfold clarification_line. cbn [fst snd]. eexists. split; [reflexivity|]. cbv zeta. destruct (String.eqb_spec (strip is_space v) "") as [Hv|Hv]; (split; [done|by intros ?]).
Qed.
(** With two answers the lines of the prompt lose two blanks of their margin
    only: the second answer starts with two. *)
Theorem two_answers_keep_margin : exists rest,
  understand_prompt "x" [("a", "1"); ("b", "2")] = "The user asked:" +:+ NL +:+ "      ---" +:+ NL +:+ "      x" +:+ rest.
Proof. eexists. vm_compute. reflexivity. Qed.

(** ** Requests *)

Definition EffortTier : list string := ["basic"; "medium"; "deep"; "expert"; "ultra"; "quick"; "standard"].
Definition DeliverableKind : list string := "auto" :: DELIVERABLES.
Definition PROVIDERS : list string := ["local"; "claude"].
Definition InputType : list string := ["text"; "choice"; "number"; "multiline"].
Definition in_literal (s : string) (l : list string) : bool := existsb (String.eqb s) l.
Definition key_fits (o : option string) : bool := match o with Some s => (String.length s <=? 64)%nat | None => true end.
(** The clarifications are a dictionary of texts. *)
Definition is_text (kv : string * pyval) : bool := match kv.2 with PStr _ => true | _ => false end.
Definition valid_think_request (r : ThinkRequest) : bool :=
  negb (String.eqb (t_prompt r) "") && forallb is_text (t_clarifications r) && in_literal (t_deliverable r) DeliverableKind && in_literal (t_effort r) EffortTier &&
  in_literal (t_provider r) PROVIDERS && key_fits (t_chat_session_id r) && key_fits (t_query_record_id r) && key_fits (t_user_key r) && key_fits (t_assistant_key r).
Definition valid_analyze_request (prompt deliverable : string) : bool := negb (String.eqb prompt "") && in_literal deliverable DeliverableKind.
Definition valid_analysis (a : AnalyzeResponse) : bool :=
  in_literal (complexity a) COMPLEXITIES && in_literal (detected_deliverable a) DeliverableKind && forallb (fun q => in_literal (cq_input_type q) InputType) (questions a).
Lemma in_literal_elem s l : in_literal s l = true <-> s ∈ l.
Proof.
  unfold in_literal. rewrite existsb_exists, list_elem_of_In. split; [by intros (x & Hx & ->%String.eqb_eq)|]. intros Hs. exists s. split; [done|apply String.eqb_refl].
Qed.

(** Every effort a request may name has a budget, the older names too: it is
    mapped to one of the five tiers, and to itself if it is one. *)
Theorem valid_effort_budgeted r : valid_think_request r = true ->
  _canonical_effort (t_effort r) ∈ ["basic"; "medium"; "deep"; "expert"; "ultra"] /\ is_Some (assoc (_canonical_effort (t_effort r)) _EFFORT_BUDGETS) /\
  (t_effort r ∈ ["basic"; "medium"; "deep"; "expert"; "ultra"] -> _canonical_effort (t_effort r) = t_effort r).
Proof.
  unfold valid_think_request. rewrite !andb_true_iff. intros ((((((((_ & _) & _) & He) & _) & _) & _) & _) & _). apply in_literal_elem in He. revert He.
  generalize (t_effort r). intros e He. unfold EffortTier in He. rewrite !elem_of_cons, elem_of_nil in He.
  destruct He as [->|[->|[->|[->|[->|[->|[->|[]]]]]]]]; (split_and!; [vm_compute; set_solver|vm_compute; by eexists|vm_compute; set_solver]).
Qed.
(** Whatever the model answers to the analysis of a valid request, an answer of
    the route passes the validation of its response. *)
Theorem analysis_validates atom_repr prompt deliverable reply a : valid_analyze_request prompt deliverable = true -> analyze atom_repr deliverable reply = Ok a ->
  valid_analysis a = true.
Proof.
  intros [_ Hd]%andb_true_iff Ha. pose proof (analyze_parts atom_repr deliverable reply a Ha) as (Hq & Hc & Hdet). unfold valid_analysis. rewrite !andb_true_iff. split_and!.
  - by apply in_literal_elem.
  - apply in_literal_elem. unfold DeliverableKind. destruct Hdet as [Hdet|Hdet]; [by right|]. rewrite Hdet. destruct (String.eqb_spec deliverable "auto"); [set_solver|].
    by apply in_literal_elem in Hd.
  - apply forallb_forall. intros q Hin%list_elem_of_In. rewrite Forall_forall in Hq. apply Hq in Hin as (_ & _ & _ & _ & Hin). by apply in_literal_elem.
Qed.

Lemma analyze_prompt_one_line_witness : exists rest, analyze_prompt " Why? " "auto" =
  "A user sent the following request:" +:+ NL +:+ "---" +:+ NL +:+ "Why?" +:+ NL +:+ "---" +:+ NL +:+ NL +:+ "Decide" +:+ rest.
Proof. apply (analyze_prompt_one_line " Why? " "auto"); done. Defined.
Lemma analyze_prompt_more_lines_witness : exists rest, analyze_prompt ("Fix:" +:+ NL +:+ "x = 1") "code" =
  "A user sent the following request:" +:+ NL +:+ MARGIN +:+ "---" +:+ rest.
Proof. apply (analyze_prompt_more_lines ("Fix:" +:+ NL +:+ "x = 1") "code" "Fix:" "x = 1" "x = 1"); [done|by apply list_elem_of_lookup; exists 0%nat|by split|done]. Defined.
Lemma valid_effort_budgeted_witness : _canonical_effort "quick" ∈ ["basic"; "medium"; "deep"; "expert"; "ultra"].
Proof. apply (valid_effort_budgeted (Request "Why?" [] "auto" "quick" "local" None None None None)). done. Defined.
Lemma analysis_validates_witness : exists a, analyze (fun _ => "") "auto" (Ok (Some "{}")) = Ok a /\ valid_analysis a = true.
Proof.
  destruct (analyze (fun _ => "") "auto" (Ok (Some "{}"))) as [a|x] eqn:E; [|by vm_compute in E]. exists a. split; [done|].
  by apply (analysis_validates (fun _ => "") "Why?" "auto" (Ok (Some "{}"))).
Defined.
